(* ===== verification/_CoqProject ===== *)
-Q . S2P
Prelude.v
SaHpi.v
GIndex.v
EntityPath.v
EPathPattern.v
Rpt.v
EventLog.v
Announcement.v
Conf.v
Uid.v
DomainState.v
HotSwap.v
EventUtils.v
Alarm.v
QuitEvent.v
Session.v
TextBuffer.v
Domain.v
DomainLife.v
Event.v
Validate.v
Api.v
ApiDomain.v
ApiEvents.v
ApiInstruments.v
ApiInventory.v
ApiManagement.v
ApiRules.v
ApiWalk.v
ApiSafe.v
ApiCorrect.v
ApiClients.v
ApiAlarms.v
ApiErrors.v
ApiUserEvent.v
Marshal.v
MarshalTypes.v
MarshalHpi.v
MarshalStructs.v
Transport.v
Server.v
Client.v
RpcCorrect.v
CText.v
EnumNames.v
EPathText.v
Plugin.v
PluginCorrect.v
PluginLife.v
Threads.v
ConfigFile.v
Ohpi.v
ClientConf.v
ClientApi.v
ClientApiCorrect.v
