(* ===== verification/Prelude.v ===== *)
(** * OpenHPI: a verified model of the HPI daemon

    OpenHPI implements the Service Availability Forum's Hardware Platform
    Interface.  A daemon keeps, for each _domain_, what is known of the managed
    hardware; _plug-ins_, loaded at run time, talk to devices and report events;
    clients open _sessions_ on a domain and call some ninety functions, over a
    socket, to read the state and to operate the hardware.  This library
    translates the daemon, its remote interface and the utilities they share from
    the C and C++ code under [src/], and proves what makes them correct.  File
    names below are relative to [src/].

    ** How the program works, and where each part is modelled

    - Data.  [SaHpi] has the structures of [include/SaHpi.h]; [TextBuffer] and
      [Validate] the checks of [utils/sahpi_struct_utils.c],
      [utils/sahpi_enum_utils.c] and [utils/sahpi_event_utils.c] on them;
      [EntityPath] and [EPathPattern] entity paths and patterns
      ([utils/epath_utils.c]), [EPathText] their text forms, on the C string
      functions of [CText]; [EnumNames] the names of all enumerations
      ([utils/sahpi*_enum_utils.c]).
    - The state of a domain ([DomainState], from [include/oh_domain.h]).  [GIndex]
      is the list with an index by id; [Rpt] the Resource Presence Table built
      from it ([utils/rpt_utils.c]); [EventLog] ([utils/el_utils.c]) the event
      log; [Alarm] ([openhpid/alarm.c]) the alarm table; [Announcement]
      ([utils/announcement_utils.c]) the list that a plug-in keeps for an
      annunciator.  [Uid] ([utils/uid_utils.c]) gives resources their ids and
      keeps them in a file.
    - Domains and sessions.  [Domain] is [openhpid/domain.c] for one thread,
      [DomainLife] its reference counts and locks for many; [Session] is
      [openhpid/session.c], for one thread and for many.
    - Plug-ins.  [Plugin] is [openhpid/plugin.c] (loading of plug-ins, creation and
      destruction of handlers, the discovery) and the harvesting part of
      [openhpid/event.c]; [PluginCorrect] proves it correct, [PluginLife] models
      the reference counts and locks of a handler for many threads.  [Threads]
      ([openhpid/threaded.c]) is the discovery thread and the threads that wake
      it.  [Conf] and [ConfigFile] are [openhpid/conf.c]: the global parameters,
      and the parser of the configuration file with the creation of the handlers
      it describes.
    - Events.  [EventUtils] copies events ([utils/event_utils.c]); [Event]
      ([openhpid/event.c]) takes them from the queue that plug-ins fill and applies
      them to the domain: table, log, alarms, queues of the subscribed sessions.
      [HotSwap] ([openhpid/hotswap.c]) answers for resources whose plug-in has no
      hot swap functions; [QuitEvent] is the event that stops the daemon.
    - The HPI functions, [openhpid/safhpi.c].  [Api] is their frame: the daemon as a
      whole (domains, sessions, handlers, queue), a monad, the macros of
      [include/sahpimacros.h], the call of a plug-in through its table of
      functions ([include/oh_handler.h]).  The functions are in [ApiDomain],
      [ApiEvents], [ApiInstruments], [ApiInventory] and [ApiManagement], one
      definition for each.  [ApiRules], [ApiWalk] and [ApiSafe] are the program
      logic; [ApiCorrect], [ApiClients], [ApiAlarms], [ApiUserEvent] and
      [ApiErrors] hold the theorems.
    - The extensions for the administration of handlers and parameters,
      [openhpid/ohpi.c], are in [Ohpi]: there the daemon of [Api] and the registry
      of [Plugin] are one system, and the handlers that the HPI functions see are
      those of the registry ([view]).
    - The remote interface.  [Marshal] ([marshal/marshal.c]) is the interpreter of
      type tables, [MarshalTypes] and [MarshalHpi] are the tables
      ([marshal/marshal_hpi_types.c], [marshal/marshal_hpi.c]), [MarshalStructs]
      the declarations of the headers the tables must agree with.  [Transport]
      ([transport/strmsock.cpp]) frames messages on a stream, [Server]
      ([openhpid/server.cpp]) serves a connection, [Client]
      ([baselib/session.cpp]) makes the remote call, [RpcCorrect] puts them
      together.
    - The client library.  [ClientApi] has the functions that applications call
      ([baselib/safhpi.cpp], and the remote calls of [baselib/ohpi.cpp]): they
      check their arguments, call [Client] and adapt ids and entity paths in what
      comes back.  [ClientConf] ([baselib/conf.c], [baselib/init.cpp]) is the
      table of the domains that a client knows and the parser of its
      configuration.  [ClientApiCorrect] proves the way from an application to the
      daemon and back.

    A definition has the name of the C function; a field has the name of the C
    field, [_] being added where Rocq reserves the name.  A C file's state is a
    [Record], passed explicitly; a C pointer that may be [NULL] is an [option]; an
    integer is a [Z] and is reduced to its width where the code can leave it
    ([u8] to [u64], [i64] in this file).  Where memory matters (tables of
    pointers, queues, handlers) objects have addresses and the use of a freed one
    is an error that is proved not to occur.

    ** What is not code of the repository

    Plug-ins are functions of the calls made so far ([respond] in [Api],
    the class [Environment] in [Plugin]); the clock, which files open, which records
    are written, how the network splits a stream and the byte orders of the machines are
    arguments.  GLib's lists, hash tables and asynchronous queues and the C
    library's string functions follow their documentation.  GLib aborts when
    memory is exhausted, so the out-of-memory branches of the code are dead.

    ** What is proved

    - Every HPI function, on a well-formed daemon and a request that it can answer,
      returns a code without undefined behaviour, releases what it locks and leaves
      a well-formed daemon ([ApiCorrect.request_answered]); it calls a plug-in only for an existing
      resource with the capability and the instrument it needs
      ([plugin_calls_permitted]); nothing is done without a session
      ([closed_session_rejected]).  The requests that can be answered are those of
      the predicate [request] of [ApiSafe]: instrument numbers of 16 bits, reads and
      discoveries whose wait ends, plug-ins and handlers that the code relies on.
      [ApiErrors] shows that the code misbehaves where the conditions fail.
    - What clients see: walks over resources, RDRs, alarms and child paths are
      complete and end ([ApiClients]), alarms are acknowledged and deleted exactly
      as asked ([ApiAlarms]), a user event reaches the subscribers, behind the
      events that they have not read yet ([ApiUserEvent]).
    - Events: each kind of event has the specified effect on table, log, alarms
      and sessions ([Event.resource_event_correct], [hotswap_event_correct],
      [plain_event_correct]), with one exception that the code makes for a repeated
      failure; the loop ends at the quit event, which also wakes the readers
      ([oh_process_events_quits]).
    - Containers refine lists: [Rpt] (views [rpt_view]), [EventLog], [Alarm],
      [Announcement], [Uid], with an invariant preserved by every operation and
      round trips through the files.  The invariants of logs and alarm tables cover
      loading and changes of the limits at run time: a log keeps its limit unless a
      longer file is loaded ([EventLog.el_reach_ok]), an alarm table the largest
      limit that was set ([Alarm.alarm_table_reach_ok]).
    - Concurrency, by invariants over all interleavings of any number of threads:
      queues of sessions ([Session.session_queues_safe]), domains
      ([DomainLife.domain_references_safe]) and handlers
      ([PluginLife.handler_references_safe]) are not freed while a thread refers to
      them and are freed afterwards.
    - The registry of plug-ins and handlers stays consistent under every sequence of
      operations ([PluginCorrect.registry_commands_safe]), and each operation has
      its documented effect.  The parser of the configuration file agrees with the
      meaning of a grammar and survives any file ([ConfigFile]); the extensions
      keep daemon and registry consistent with each other ([Ohpi]).
    - A thread that waits for a discovery is woken after one; it does not return
      before if it is the only one and no wake-up is spurious
      ([Threads.oh_wake_discovery_thread_correct]).
    - The remote interface: a message, the parameters and the results arrive as
      they were sent between machines of any byte order ([Transport],
      [MarshalHpi.rpc_roundtrip]); arbitrary bytes from a client are either
      rejected or demarshalled to well-typed values
      ([MarshalHpi.request_from_network]); the server answers every message
      ([Server.server_always_replies]); a remote call is one local call
      ([RpcCorrect.remote_call_correct], and for applications
      [ClientApiCorrect.client_call_correct]); the tables transfer the structures of
      the headers ([MarshalStructs.tables_match_headers]), and the objects of the
      client have the types of those of the server
      ([ClientApiCorrect.client_server_parameters]).
    - Clients see resources under the entity root of their domain, and the paths
      they see lead back to the resources ([ClientApiCorrect]).  The domains are
      those of the configuration file, can all be listed, and get free ids
      ([ClientConf]).
    - Texts: entity paths, patterns and names of enumerations are read back from
      their texts ([EPathText], [EnumNames]); [TextBuffer] decides validity.

    Theorems named for a failure ([failed_remove_null_handler],
    [read_message_overflow], [handler_freed_while_referred] and the like) prove
    that the code misbehaves on a concrete input; they are counterexamples to what
    one would like to state, and the conditions of the other theorems exclude
    these inputs; the comment of a theorem says so.

    ** Loops and fuel

    A C loop whose termination is not structural is a [Fixpoint] with fuel, and the
    number given is proved enough, so that running out never decides a result:
    [res_fuel] and [resource_fuel] are the number of resources and [rdr_fuel] that
    of the RDRs, as a step goes to a later node; [remove_fuel] is one more than the
    number of alarms, [del_fuel] is [n + n * n] for the deletion that starts again
    after each hit; the acknowledging loop gets the number of alarms;
    [match_fuel] is 34, two arrays of 17; [peer_fuel] follows the list of peers;
    [count_digits] gets 32, one for each bit; [scan_loop] and [unicode_loop] get
    the length of the text (receiving follows the list of network events);
    [each_handler] one more than the number of handlers; [flush_queue] one more
    than the length of the queue; [load_loop] one more than the number of tokens;
    [collect_removals] the number of resources; [domain_walk] gets the number of
    domains.  The number of polls of a handler during the
    harvest is bounded only by the plug-in: it is an argument, and the theorem asks
    that the plug-in reports an end within it.

    ** Not modelled

    The plug-ins ([plugins/]), which are device drivers and the environment of the
    daemon; GLib's scanner, whose tokens [ConfigFile] and [ClientConf] start from; encryption
    ([ssl/], [utils/sahpi_gcrypt_utils.c]), SNMP utilities and the wrappers of GLib, which call libraries; the printing of structures
    ([oh_print_*], [oh_fprint_*]) and times, which produce text for humans; the
    opening and accepting of sockets, the main programs and their options
    ([oh_init] calls modelled operations in turn); clients, shell, bindings and tests.  The creation
    of threads, and that several HPI functions run at once, appear only through the
    step relations of [Session], [DomainLife], [PluginLife] and [Threads]; [Api] runs one
    function at a time, with the domain's lock as a list of what is held, and what
    other threads do while a function waits is an argument ([e_others], [e_round]). *)
From Stdlib Require Export ZArith Lia Bool Sorted.
From stdpp Require Export strings numbers gmap.
From stdpp Require Export base list.

#[global] Open Scope Z_scope.
#[global] Set Default Goal Selector "!".

(** * Machine integers

    A C integer is a [Z]; every place where the C code can wrap writes the
    reduction to its width. *)

Definition u8  (z : Z) : Z := z mod 2 ^ 8.
Definition u16 (z : Z) : Z := z mod 2 ^ 16.
Definition u32 (z : Z) : Z := z mod 2 ^ 32.
Definition u64 (z : Z) : Z := z mod 2 ^ 64.
Definition i64 (z : Z) : Z := (z + 2 ^ 63) mod 2 ^ 64 - 2 ^ 63.

(** C truth values: any non-zero integer is true. *)
Definition truthy (z : Z) : bool := negb (z =? 0).

Lemma u32_id z : 0 <= z < 2 ^ 32 -> u32 z = z.
Proof. intros. unfold u32. by rewrite Z.mod_small. Qed.

Lemma u32_range z : 0 <= u32 z < 2 ^ 32.
Proof. unfold u32. apply Z.mod_pos_bound. lia. Qed.

Lemma u16_range z : 0 <= u16 z < 2 ^ 16.
Proof. unfold u16. apply Z.mod_pos_bound. lia. Qed.

Lemma u8_id z : 0 <= z < 2 ^ 8 -> u8 z = z.
Proof. intros. unfold u8. by rewrite Z.mod_small. Qed.

Lemma i64_id z : - 2 ^ 63 <= z < 2 ^ 63 -> i64 z = z.
Proof. intros. unfold i64. rewrite Z.mod_small; lia. Qed.

Lemma i64_range z : - 2 ^ 63 <= i64 z < 2 ^ 63.
Proof. unfold i64. pose proof (Z.mod_pos_bound (z + 2 ^ 63) (2 ^ 64)). lia. Qed.

(** * Functional record update

    [x <| f := v |>] is [x] with field [f] replaced by [v].  A record makes
    its fields updatable by an [Eta] instance, the eta-expansion of its
    constructor; the setter of a field is computed from it. *)

Class Eta (R : Type) := eta_expand : R -> R.
Class Setter {R T : Type} (proj : R -> T) := set_field : (T -> T) -> R -> R.
Arguments set_field {R T} proj {_} _ _.

Ltac derive_setter :=
  lazymatch goal with
  | |- @Setter ?R ?T ?proj =>
      let inst := constr:(_ : Eta R) in
      let e := eval cbv beta in inst in
      let e := eval hnf in e in
      let p := eval pattern proj in e in
      lazymatch p with
      | ?F _ =>
          let s := constr:(fun (g : T -> T) => F (fun r : R => g (proj r))) in
          let s := eval cbv beta in s in
          exact s
      end
  end.
#[export] Hint Extern 1 (Setter _) => derive_setter : typeclass_instances.

Declare Scope record_scope.
Delimit Scope record_scope with record.
Notation "r <| f := v |>" := (set_field f (fun _ => v) r)
  (at level 12, f at next level, left associativity) : record_scope.
Notation "r <| f ::= g |>" := (set_field f g r)
  (at level 12, f at next level, left associativity) : record_scope.
#[global] Open Scope record_scope.

(** * Tactics *)

(** Turn boolean integer tests in the context into propositions. *)
Ltac zbool :=
  repeat match goal with
  | H : (_ =? _) = true |- _ => apply Z.eqb_eq in H
  | H : (_ =? _) = false |- _ => apply Z.eqb_neq in H
  | H : (_ <? _) = true |- _ => apply Z.ltb_lt in H
  | H : (_ <? _) = false |- _ => apply Z.ltb_ge in H
  | H : (_ <=? _) = true |- _ => apply Z.leb_le in H
  | H : (_ <=? _) = false |- _ => apply Z.leb_gt in H
  | H : negb _ = true |- _ => apply negb_true_iff in H
  | H : negb _ = false |- _ => apply negb_false_iff in H
  | H : _ && _ = true |- _ => apply andb_true_iff in H as [? ?]
  | H : _ || _ = false |- _ => apply orb_false_iff in H as [? ?]
  end.

(** Case analysis on the scrutinee of the first [if] or [match] of the goal,
    remembering the equation. *)
Ltac case_if :=
  match goal with
  | |- context [if ?b then _ else _] =>
      lazymatch b with
      | context [if _ then _ else _] => fail
      | context [match _ with _ => _ end] => fail
      | _ => let E := fresh "Eif" in destruct b eqn:E
      end
  end.

Ltac case_ifs := repeat (case_if; simplify_eq/=); zbool.

(** The constants of the HPI interface are unfolded by this tactic, so that
    [lia] can compare them. *)
Create HintDb hpi_const.
Ltac consts := autounfold with hpi_const in *.

(** Lemmas that hold of the components' operations without side conditions. *)
Create HintDb hpi.

(** * Lists

    [GSList] and [GList] are lists; [nth] with a default is a C array access
    within bounds. *)

Lemma truthy_true z : truthy z = true <-> z <> 0.
Proof. unfold truthy. rewrite negb_true_iff, Z.eqb_neq. done. Qed.

Lemma truthy_false z : truthy z = false <-> z = 0.
Proof. unfold truthy. rewrite negb_false_iff, Z.eqb_eq. done. Qed.
