(* ===== verification/SaHpi.v ===== *)
(** The HPI data model: the constants and structures of [include/SaHpi.h]
    that the modelled components read or write.  Enumerations and integer
    types are [Z]; structures are records with the source's field names.

    The C unions are modelled thus:
    - [SaHpiRdrTypeUnionT]: each of its seven members starts with the 32-bit
      instrument number of the RDR, so the union is that first word and the
      rest of the member that was stored;
    - [SaHpiEventUnionT], [SaHpiCtrlStateT], [SaHpiCtrlRecUnionT]: the members
      the daemon reads are constructors with their fields; the tag is the
      constructor (a C value whose tag and union member disagree is not
      represented);
    - [SaHpiSensorReadingUnionT]: the first 64 bits, which the numeric members
      read, and the rest of the buffer. *)
From S2P Require Import Prelude.

(** ** Error codes *)
Definition SA_OK : Z := 0.
Definition SA_HPI_ERR_BASE : Z := -1000.
Definition SA_ERR_HPI_ERROR : Z := SA_HPI_ERR_BASE - 1.
Definition SA_ERR_HPI_UNSUPPORTED_API : Z := SA_HPI_ERR_BASE - 2.
Definition SA_ERR_HPI_INTERNAL_ERROR : Z := SA_HPI_ERR_BASE - 4.
Definition SA_ERR_HPI_INVALID_CMD : Z := SA_HPI_ERR_BASE - 5.
Definition SA_ERR_HPI_TIMEOUT : Z := SA_HPI_ERR_BASE - 6.
Definition SA_ERR_HPI_OUT_OF_SPACE : Z := SA_HPI_ERR_BASE - 7.
Definition SA_ERR_HPI_OUT_OF_MEMORY : Z := SA_HPI_ERR_BASE - 8.
Definition SA_ERR_HPI_INVALID_PARAMS : Z := SA_HPI_ERR_BASE - 9.
Definition SA_ERR_HPI_INVALID_DATA : Z := SA_HPI_ERR_BASE - 10.
Definition SA_ERR_HPI_NOT_PRESENT : Z := SA_HPI_ERR_BASE - 11.
Definition SA_ERR_HPI_NO_RESPONSE : Z := SA_HPI_ERR_BASE - 12.
Definition SA_ERR_HPI_DUPLICATE : Z := SA_HPI_ERR_BASE - 13.
Definition SA_ERR_HPI_INVALID_SESSION : Z := SA_HPI_ERR_BASE - 14.
Definition SA_ERR_HPI_INVALID_DOMAIN : Z := SA_HPI_ERR_BASE - 15.
Definition SA_ERR_HPI_INVALID_RESOURCE : Z := SA_HPI_ERR_BASE - 16.
Definition SA_ERR_HPI_INVALID_REQUEST : Z := SA_HPI_ERR_BASE - 17.
Definition SA_ERR_HPI_READ_ONLY : Z := SA_HPI_ERR_BASE - 19.
Definition SA_ERR_HPI_CAPABILITY : Z := SA_HPI_ERR_BASE - 20.
Definition SA_ERR_HPI_UNKNOWN : Z := SA_HPI_ERR_BASE - 21.
#[export] Hint Unfold SA_OK SA_HPI_ERR_BASE SA_ERR_HPI_ERROR
  SA_ERR_HPI_INTERNAL_ERROR SA_ERR_HPI_INVALID_CMD SA_ERR_HPI_TIMEOUT
  SA_ERR_HPI_OUT_OF_SPACE SA_ERR_HPI_OUT_OF_MEMORY SA_ERR_HPI_INVALID_PARAMS
  SA_ERR_HPI_INVALID_DATA SA_ERR_HPI_NOT_PRESENT SA_ERR_HPI_NO_RESPONSE
  SA_ERR_HPI_INVALID_SESSION SA_ERR_HPI_INVALID_DOMAIN
  SA_ERR_HPI_INVALID_RESOURCE SA_ERR_HPI_INVALID_REQUEST SA_ERR_HPI_UNSUPPORTED_API
  SA_ERR_HPI_DUPLICATE SA_ERR_HPI_READ_ONLY SA_ERR_HPI_CAPABILITY : hpi_const.

(** ** Booleans, identifiers and times *)
Definition SAHPI_TRUE : Z := 1.
Definition SAHPI_FALSE : Z := 0.
Definition SAHPI_UNSPECIFIED_DOMAIN_ID : Z := 0xFFFFFFFF.
Definition SAHPI_UNSPECIFIED_RESOURCE_ID : Z := 0xFFFFFFFF.
Definition SAHPI_FIRST_ENTRY : Z := 0.
Definition SAHPI_LAST_ENTRY : Z := 0xFFFFFFFF.
Definition SAHPI_ENTRY_UNSPECIFIED : Z := SAHPI_FIRST_ENTRY.
Definition SAHPI_TIME_UNSPECIFIED : Z := - 2 ^ 63.
Definition SAHPI_TIME_MAX_RELATIVE : Z := 0x0C00000000000000.
Definition SAHPI_TIMEOUT_IMMEDIATE : Z := 0.
Definition SAHPI_TIMEOUT_BLOCK : Z := -1.
Definition SAHPI_OLDEST_ENTRY : Z := 0.
Definition SAHPI_NEWEST_ENTRY : Z := 0xFFFFFFFF.
Definition SAHPI_NO_MORE_ENTRIES : Z := 0xFFFFFFFE.
#[export] Hint Unfold SAHPI_TRUE SAHPI_FALSE SAHPI_UNSPECIFIED_DOMAIN_ID
  SAHPI_UNSPECIFIED_RESOURCE_ID SAHPI_FIRST_ENTRY SAHPI_LAST_ENTRY
  SAHPI_ENTRY_UNSPECIFIED SAHPI_TIME_UNSPECIFIED SAHPI_TIME_MAX_RELATIVE
  SAHPI_TIMEOUT_IMMEDIATE SAHPI_TIMEOUT_BLOCK SAHPI_OLDEST_ENTRY
  SAHPI_NEWEST_ENTRY SAHPI_NO_MORE_ENTRIES : hpi_const.

(** ** Text buffers *)
Definition SAHPI_MAX_TEXT_BUFFER_LENGTH : nat := 255.
Definition SAHPI_TL_TYPE_TEXT : Z := 3.
Definition SAHPI_TL_TYPE_BINARY : Z := 4.
Definition SAHPI_LANG_UNDEF : Z := 0.
Definition SAHPI_LANG_ENGLISH : Z := 25.

Record SaHpiTextBufferT := {
  DataType : Z; Language : Z; DataLength : Z; Data : list Z }.
#[export] Instance eta_textbuffer : Eta SaHpiTextBufferT :=
  fun x => Build_SaHpiTextBufferT (DataType x) (Language x) (DataLength x) (Data x).
#[export] Instance SaHpiTextBufferT_eq_dec : EqDecision SaHpiTextBufferT.
Proof. solve_decision. Defined.

(** [memset(buffer, 0, sizeof)] *)
Definition zero_textbuffer : SaHpiTextBufferT :=
  {| DataType := 0; Language := 0; DataLength := 0;
     Data := replicate SAHPI_MAX_TEXT_BUFFER_LENGTH 0 |}.

(** ** Entity paths *)
Definition SAHPI_ENT_ROOT : Z := 0xFFFF.
Definition SAHPI_MAX_ENTITY_PATH : nat := 16.
#[export] Hint Unfold SAHPI_ENT_ROOT SAHPI_MAX_ENTITY_PATH : hpi_const.

Record SaHpiEntityT := { EntityType : Z; EntityLocation : Z }.
#[export] Instance eta_entity : Eta SaHpiEntityT :=
  fun x => Build_SaHpiEntityT (EntityType x) (EntityLocation x).
#[export] Instance SaHpiEntityT_eq_dec : EqDecision SaHpiEntityT.
Proof. solve_decision. Defined.
#[export] Instance SaHpiEntityT_inhabited : Inhabited SaHpiEntityT :=
  populate {| EntityType := 0; EntityLocation := 0 |}.

(** [Entry] is the C array [Entry[SAHPI_MAX_ENTITY_PATH]]. *)
Record SaHpiEntityPathT := { Entry : list SaHpiEntityT }.
#[export] Instance eta_entity_path : Eta SaHpiEntityPathT :=
  fun x => Build_SaHpiEntityPathT (Entry x).
#[export] Instance SaHpiEntityPathT_eq_dec : EqDecision SaHpiEntityPathT.
Proof. solve_decision. Defined.

Definition zero_ep : SaHpiEntityPathT :=
  {| Entry := replicate SAHPI_MAX_ENTITY_PATH
                {| EntityType := 0; EntityLocation := 0 |} |}.

(** ** Resource Presence Table entries *)
Definition SAHPI_CAPABILITY_RESOURCE : Z := 0x40000000.
Definition SAHPI_CAPABILITY_FUMI : Z := 0x00010000.
Definition SAHPI_CAPABILITY_EVT_DEASSERTS : Z := 0x00008000.
Definition SAHPI_CAPABILITY_DIMI : Z := 0x00004000.
Definition SAHPI_CAPABILITY_AGGREGATE_STATUS : Z := 0x00002000.
Definition SAHPI_CAPABILITY_CONFIGURATION : Z := 0x00001000.
Definition SAHPI_CAPABILITY_MANAGED_HOTSWAP : Z := 0x00000800.
Definition SAHPI_CAPABILITY_WATCHDOG : Z := 0x00000400.
Definition SAHPI_CAPABILITY_CONTROL : Z := 0x00000200.
Definition SAHPI_CAPABILITY_FRU : Z := 0x00000100.
Definition SAHPI_CAPABILITY_LOAD_ID : Z := 0x00000080.
Definition SAHPI_CAPABILITY_ANNUNCIATOR : Z := 0x00000040.
Definition SAHPI_CAPABILITY_POWER : Z := 0x00000020.
Definition SAHPI_CAPABILITY_RESET : Z := 0x00000010.
Definition SAHPI_CAPABILITY_INVENTORY_DATA : Z := 0x00000008.
Definition SAHPI_CAPABILITY_EVENT_LOG : Z := 0x00000004.
Definition SAHPI_CAPABILITY_RDR : Z := 0x00000002.
Definition SAHPI_CAPABILITY_SENSOR : Z := 0x00000001.
Definition SAHPI_HS_CAPABILITY_INDICATOR_SUPPORTED : Z := 0x40000000.

Record SaHpiResourceInfoT := {
  ResourceRev : Z; SpecificVer : Z; DeviceSupport : Z; ManufacturerId : Z;
  ProductId : Z; FirmwareMajorRev : Z; FirmwareMinorRev : Z;
  AuxFirmwareRev : Z; Guid : list Z }.
#[export] Instance SaHpiResourceInfoT_eq_dec : EqDecision SaHpiResourceInfoT.
Proof. solve_decision. Defined.

Definition zero_resource_info : SaHpiResourceInfoT :=
  {| ResourceRev := 0; SpecificVer := 0; DeviceSupport := 0; ManufacturerId := 0;
     ProductId := 0; FirmwareMajorRev := 0; FirmwareMinorRev := 0;
     AuxFirmwareRev := 0; Guid := replicate 16 0 |}.

Record SaHpiRptEntryT := {
  EntryId : Z; ResourceId : Z; ResourceInfo : SaHpiResourceInfoT;
  ResourceEntity : SaHpiEntityPathT; ResourceCapabilities : Z;
  HotSwapCapabilities : Z; ResourceSeverity : Z; ResourceFailed : Z;
  ResourceTag : SaHpiTextBufferT }.
#[export] Instance eta_rpt_entry : Eta SaHpiRptEntryT := fun x =>
  Build_SaHpiRptEntryT (EntryId x) (ResourceId x) (ResourceInfo x)
    (ResourceEntity x) (ResourceCapabilities x) (HotSwapCapabilities x)
    (ResourceSeverity x) (ResourceFailed x) (ResourceTag x).
#[export] Instance SaHpiRptEntryT_eq_dec : EqDecision SaHpiRptEntryT.
Proof. solve_decision. Defined.

Definition zero_rpt_entry : SaHpiRptEntryT :=
  {| EntryId := 0; ResourceId := 0; ResourceInfo := zero_resource_info;
     ResourceEntity := zero_ep; ResourceCapabilities := 0;
     HotSwapCapabilities := 0; ResourceSeverity := 0; ResourceFailed := 0;
     ResourceTag := zero_textbuffer |}.

(** ** Resource Data Records *)
Definition SAHPI_NO_RECORD : Z := 0.
Definition SAHPI_CTRL_RDR : Z := 1.
Definition SAHPI_SENSOR_RDR : Z := 2.
Definition SAHPI_INVENTORY_RDR : Z := 3.
Definition SAHPI_WATCHDOG_RDR : Z := 4.
Definition SAHPI_ANNUNCIATOR_RDR : Z := 5.
Definition SAHPI_DIMI_RDR : Z := 6.
Definition SAHPI_FUMI_RDR : Z := 7.
Definition SAHPI_STANDARD_SENSOR_MIN : Z := 0x00000100.
Definition SAHPI_STANDARD_SENSOR_MAX : Z := 0x000001FF.
#[export] Hint Unfold SAHPI_CAPABILITY_RESOURCE SAHPI_CAPABILITY_AGGREGATE_STATUS
  SAHPI_CAPABILITY_FRU SAHPI_NO_RECORD SAHPI_CTRL_RDR SAHPI_SENSOR_RDR
  SAHPI_INVENTORY_RDR SAHPI_WATCHDOG_RDR SAHPI_ANNUNCIATOR_RDR SAHPI_DIMI_RDR
  SAHPI_FUMI_RDR SAHPI_STANDARD_SENSOR_MIN SAHPI_STANDARD_SENSOR_MAX : hpi_const.

(** *** Sensors *)

(** [word64] is what [SensorInt64], [SensorUint64] and [SensorFloat64] read. *)
Record SaHpiSensorReadingUnionT := { word64 : Z; buffer_rest : list Z }.
#[export] Instance SaHpiSensorReadingUnionT_eq_dec : EqDecision SaHpiSensorReadingUnionT.
Proof. solve_decision. Defined.

Record SaHpiSensorReadingT := {
  IsSupported : Z; reading_Type : Z; Value : SaHpiSensorReadingUnionT }.
#[export] Instance eta_reading : Eta SaHpiSensorReadingT := fun x =>
  Build_SaHpiSensorReadingT (IsSupported x) (reading_Type x) (Value x).
#[export] Instance SaHpiSensorReadingT_eq_dec : EqDecision SaHpiSensorReadingT.
Proof. solve_decision. Defined.
Definition zero_reading_union : SaHpiSensorReadingUnionT :=
  {| word64 := 0; buffer_rest := replicate 24 0 |}.
Definition zero_reading : SaHpiSensorReadingT :=
  {| IsSupported := 0; reading_Type := 0; Value := zero_reading_union |}.

Record SaHpiSensorThresholdsT := {
  LowCritical : SaHpiSensorReadingT; LowMajor : SaHpiSensorReadingT;
  LowMinor : SaHpiSensorReadingT; UpCritical : SaHpiSensorReadingT;
  UpMajor : SaHpiSensorReadingT; UpMinor : SaHpiSensorReadingT;
  PosThdHysteresis : SaHpiSensorReadingT; NegThdHysteresis : SaHpiSensorReadingT }.
#[export] Instance eta_thresholds : Eta SaHpiSensorThresholdsT := fun x =>
  Build_SaHpiSensorThresholdsT (LowCritical x) (LowMajor x) (LowMinor x) (UpCritical x)
    (UpMajor x) (UpMinor x) (PosThdHysteresis x) (NegThdHysteresis x).
#[export] Instance SaHpiSensorThresholdsT_eq_dec : EqDecision SaHpiSensorThresholdsT.
Proof. solve_decision. Defined.

Record SaHpiSensorRangeT := {
  Flags : Z; Max : SaHpiSensorReadingT; Min : SaHpiSensorReadingT;
  Nominal : SaHpiSensorReadingT; NormalMax : SaHpiSensorReadingT;
  NormalMin : SaHpiSensorReadingT }.
#[export] Instance SaHpiSensorRangeT_eq_dec : EqDecision SaHpiSensorRangeT.
Proof. solve_decision. Defined.

Record SaHpiSensorDataFormatT := {
  df_IsSupported : Z; ReadingType : Z; BaseUnits : Z; ModifierUnits : Z;
  ModifierUse : Z; Percentage : Z; Range : SaHpiSensorRangeT; AccuracyFactor : Z }.
#[export] Instance SaHpiSensorDataFormatT_eq_dec : EqDecision SaHpiSensorDataFormatT.
Proof. solve_decision. Defined.

Record SaHpiSensorThdDefnT := {
  IsAccessible : Z; ReadThold : Z; WriteThold : Z; Nonlinear : Z }.
#[export] Instance SaHpiSensorThdDefnT_eq_dec : EqDecision SaHpiSensorThdDefnT.
Proof. solve_decision. Defined.

Record SaHpiSensorRecT := {
  sensor_Type : Z; sensor_Category : Z; EnableCtrl : Z; EventCtrl : Z; Events : Z;
  DataFormat : SaHpiSensorDataFormatT; ThresholdDefn : SaHpiSensorThdDefnT;
  sensor_Oem : Z }.
#[export] Instance SaHpiSensorRecT_eq_dec : EqDecision SaHpiSensorRecT.
Proof. solve_decision. Defined.

(** *** Controls *)
Definition SAHPI_CTRL_TYPE_DIGITAL : Z := 0.
Definition SAHPI_CTRL_TYPE_DISCRETE : Z := 1.
Definition SAHPI_CTRL_TYPE_ANALOG : Z := 2.
Definition SAHPI_CTRL_TYPE_STREAM : Z := 3.
Definition SAHPI_CTRL_TYPE_TEXT : Z := 4.
Definition SAHPI_CTRL_TYPE_OEM : Z := 0xC0.
#[export] Hint Unfold SAHPI_CTRL_TYPE_DIGITAL SAHPI_CTRL_TYPE_DISCRETE SAHPI_CTRL_TYPE_ANALOG
  SAHPI_CTRL_TYPE_STREAM SAHPI_CTRL_TYPE_TEXT SAHPI_CTRL_TYPE_OEM : hpi_const.

Inductive SaHpiCtrlStateT :=
  | StateDigital (Digital : Z)
  | StateDiscrete (Discrete : Z)
  | StateAnalog (Analog : Z)
  | StateStream (Repeat StreamLength : Z) (Stream : list Z)
  | StateText (Line : Z) (Text : SaHpiTextBufferT)
  | StateOem (MId BodyLength : Z) (Body : list Z)
  | StateUnknown (Type_ : Z) (words : list Z).
#[export] Instance SaHpiCtrlStateT_eq_dec : EqDecision SaHpiCtrlStateT.
Proof. solve_decision. Defined.
Definition state_Type (s : SaHpiCtrlStateT) : Z :=
  match s with
  | StateDigital _ => SAHPI_CTRL_TYPE_DIGITAL
  | StateDiscrete _ => SAHPI_CTRL_TYPE_DISCRETE
  | StateAnalog _ => SAHPI_CTRL_TYPE_ANALOG
  | StateStream _ _ _ => SAHPI_CTRL_TYPE_STREAM
  | StateText _ _ => SAHPI_CTRL_TYPE_TEXT
  | StateOem _ _ _ => SAHPI_CTRL_TYPE_OEM
  | StateUnknown t _ => t
  end.

Inductive SaHpiCtrlRecUnionT :=
  | RecDigital (Default : Z)
  | RecDiscrete (Default : Z)
  | RecAnalog (Min Max Default : Z)
  | RecStream (Default : SaHpiCtrlStateT)
  | RecText (MaxChars MaxLines Language DataType : Z) (Default : SaHpiCtrlStateT)
  | RecOem (MId : Z) (ConfigData : list Z) (Default : SaHpiCtrlStateT)
  | RecUnknown (Type_ : Z).
#[export] Instance SaHpiCtrlRecUnionT_eq_dec : EqDecision SaHpiCtrlRecUnionT.
Proof. solve_decision. Defined.

Record SaHpiCtrlRecT := {
  OutputType : Z; TypeUnion : SaHpiCtrlRecUnionT; DefaultMode_Mode : Z;
  DefaultMode_ReadOnly : Z; WriteOnly : Z; ctrl_Oem : Z }.
#[export] Instance SaHpiCtrlRecT_eq_dec : EqDecision SaHpiCtrlRecT.
Proof. solve_decision. Defined.
Definition ctrl_Type (c : SaHpiCtrlRecT) : Z :=
  match TypeUnion c with
  | RecDigital _ => SAHPI_CTRL_TYPE_DIGITAL
  | RecDiscrete _ => SAHPI_CTRL_TYPE_DISCRETE
  | RecAnalog _ _ _ => SAHPI_CTRL_TYPE_ANALOG
  | RecStream _ => SAHPI_CTRL_TYPE_STREAM
  | RecText _ _ _ _ _ => SAHPI_CTRL_TYPE_TEXT
  | RecOem _ _ _ => SAHPI_CTRL_TYPE_OEM
  | RecUnknown t => t
  end.

(** *** The other management instruments *)
Record SaHpiAnnunciatorRecT := {
  AnnunciatorType : Z; ModeReadOnly : Z; MaxConditions : Z; annunciator_Oem : Z }.
#[export] Instance SaHpiAnnunciatorRecT_eq_dec : EqDecision SaHpiAnnunciatorRecT.
Proof. solve_decision. Defined.

Record SaHpiFumiRecT := {
  AccessProt : Z; Capability : Z; NumBanks : Z; fumi_Oem : Z }.
#[export] Instance SaHpiFumiRecT_eq_dec : EqDecision SaHpiFumiRecT.
Proof. solve_decision. Defined.

(** What a member of the union has after its first word; the members of
    inventories, watchdogs and DIMIs are only passed on. *)
Inductive SaHpiRdrRestT :=
  | CtrlRest (r : SaHpiCtrlRecT)
  | SensorRest (r : SaHpiSensorRecT)
  | AnnunciatorRest (r : SaHpiAnnunciatorRecT)
  | FumiRest (r : SaHpiFumiRecT)
  | OtherRest (words : list Z).
#[export] Instance SaHpiRdrRestT_eq_dec : EqDecision SaHpiRdrRestT.
Proof. solve_decision. Defined.

(** [Num] is [CtrlRec.Num], [SensorRec.Num], [InventoryRec.IdrId],
    [WatchdogRec.WatchdogNum], [AnnunciatorRec.AnnunciatorNum],
    [DimiRec.DimiNum] or [FumiRec.Num]: the first 32-bit word of every member. *)
Record SaHpiRdrTypeUnionT := { Num : Z; Rest : SaHpiRdrRestT }.
#[export] Instance SaHpiRdrTypeUnionT_eq_dec : EqDecision SaHpiRdrTypeUnionT.
Proof. solve_decision. Defined.

Record SaHpiRdrT := {
  RecordId : Z; RdrType : Z; Entity : SaHpiEntityPathT; IsFru : Z;
  RdrTypeUnion : SaHpiRdrTypeUnionT; IdString : SaHpiTextBufferT }.
#[export] Instance eta_rdr : Eta SaHpiRdrT := fun x =>
  Build_SaHpiRdrT (RecordId x) (RdrType x) (Entity x) (IsFru x)
    (RdrTypeUnion x) (IdString x).
#[export] Instance SaHpiRdrT_eq_dec : EqDecision SaHpiRdrT.
Proof. solve_decision. Defined.

Definition SensorRec (r : SaHpiRdrT) : option SaHpiSensorRecT :=
  match Rest (RdrTypeUnion r) with SensorRest s => Some s | _ => None end.
Definition CtrlRec (r : SaHpiRdrT) : option SaHpiCtrlRecT :=
  match Rest (RdrTypeUnion r) with CtrlRest s => Some s | _ => None end.
Definition AnnunciatorRec (r : SaHpiRdrT) : option SaHpiAnnunciatorRecT :=
  match Rest (RdrTypeUnion r) with AnnunciatorRest s => Some s | _ => None end.
Definition FumiRec (r : SaHpiRdrT) : option SaHpiFumiRecT :=
  match Rest (RdrTypeUnion r) with FumiRest s => Some s | _ => None end.

Definition zero_rdr : SaHpiRdrT :=
  {| RecordId := 0; RdrType := SAHPI_NO_RECORD; Entity := zero_ep; IsFru := 0;
     RdrTypeUnion := {| Num := 0; Rest := OtherRest [] |}; IdString := zero_textbuffer |}.

(** ** Severities *)
Definition SAHPI_CRITICAL : Z := 0.
Definition SAHPI_MAJOR : Z := 1.
Definition SAHPI_MINOR : Z := 2.
Definition SAHPI_INFORMATIONAL : Z := 3.
Definition SAHPI_OK : Z := 4.
Definition SAHPI_DEBUG : Z := 0xF0.
Definition SAHPI_ALL_SEVERITIES : Z := 0xFF.
#[export] Hint Unfold SAHPI_CRITICAL SAHPI_MAJOR SAHPI_MINOR SAHPI_INFORMATIONAL
  SAHPI_OK SAHPI_DEBUG SAHPI_ALL_SEVERITIES : hpi_const.

(** ** Hot swap *)
Definition SAHPI_HS_STATE_INACTIVE : Z := 0.
Definition SAHPI_HS_STATE_INSERTION_PENDING : Z := 1.
Definition SAHPI_HS_STATE_ACTIVE : Z := 2.
Definition SAHPI_HS_STATE_EXTRACTION_PENDING : Z := 3.
Definition SAHPI_HS_STATE_NOT_PRESENT : Z := 4.
#[export] Hint Unfold SAHPI_HS_STATE_INACTIVE SAHPI_HS_STATE_INSERTION_PENDING
  SAHPI_HS_STATE_ACTIVE SAHPI_HS_STATE_EXTRACTION_PENDING
  SAHPI_HS_STATE_NOT_PRESENT : hpi_const.

(** ** Events *)
Definition SAHPI_ET_RESOURCE : Z := 0.
Definition SAHPI_ET_DOMAIN : Z := 1.
Definition SAHPI_ET_SENSOR : Z := 2.
Definition SAHPI_ET_SENSOR_ENABLE_CHANGE : Z := 3.
Definition SAHPI_ET_HOTSWAP : Z := 4.
Definition SAHPI_ET_WATCHDOG : Z := 5.
Definition SAHPI_ET_HPI_SW : Z := 6.
Definition SAHPI_ET_OEM : Z := 7.
Definition SAHPI_ET_USER : Z := 8.
Definition SAHPI_ET_DIMI : Z := 9.
Definition SAHPI_ET_DIMI_UPDATE : Z := 10.
Definition SAHPI_ET_FUMI : Z := 11.
Definition SAHPI_RESE_RESOURCE_FAILURE : Z := 0.
Definition SAHPI_RESE_RESOURCE_RESTORED : Z := 1.
Definition SAHPI_RESE_RESOURCE_ADDED : Z := 2.
Definition SAHPI_RESE_RESOURCE_REMOVED : Z := 3.
Definition SAHPI_RESE_RESOURCE_INACCESSIBLE : Z := 4.
Definition SAHPI_RESE_RESOURCE_UPDATED : Z := 5.
Definition SAHPI_SOD_CURRENT_STATE : Z := 0x10.
Definition SAHPI_HPIE_OTHER : Z := 2.
Definition SAHPI_MANUFACTURER_ID_UNSPECIFIED : Z := 0.
Definition SAHPI_EVT_QUEUE_OVERFLOW : Z := 1.
#[export] Hint Unfold SAHPI_ET_RESOURCE SAHPI_ET_DOMAIN SAHPI_ET_SENSOR
  SAHPI_ET_SENSOR_ENABLE_CHANGE SAHPI_ET_HOTSWAP SAHPI_ET_WATCHDOG SAHPI_ET_HPI_SW
  SAHPI_ET_OEM SAHPI_ET_USER SAHPI_ET_DIMI SAHPI_ET_DIMI_UPDATE SAHPI_ET_FUMI
  SAHPI_RESE_RESOURCE_FAILURE SAHPI_RESE_RESOURCE_RESTORED SAHPI_RESE_RESOURCE_ADDED
  SAHPI_RESE_RESOURCE_REMOVED SAHPI_RESE_RESOURCE_INACCESSIBLE
  SAHPI_RESE_RESOURCE_UPDATED SAHPI_SOD_CURRENT_STATE SAHPI_HPIE_OTHER
  SAHPI_MANUFACTURER_ID_UNSPECIFIED SAHPI_EVT_QUEUE_OVERFLOW : hpi_const.

(** Sensor readings are kept as their bytes. *)
Record SaHpiSensorEventT := {
  se_SensorNum : Z; se_SensorType : Z; se_EventCategory : Z; se_Assertion : Z;
  se_EventState : Z; se_OptionalDataPresent : Z; se_TriggerReading : list Z;
  se_TriggerThreshold : list Z; se_PreviousState : Z; se_CurrentState : Z;
  se_Oem : Z; se_SensorSpecific : Z }.
#[export] Instance SaHpiSensorEventT_eq_dec : EqDecision SaHpiSensorEventT.
Proof. solve_decision. Defined.

Record SaHpiSensorEnableChangeEventT := {
  sec_SensorNum : Z; sec_SensorType : Z; sec_EventCategory : Z;
  sec_SensorEnable : Z; sec_SensorEventEnable : Z; sec_AssertEventMask : Z;
  sec_DeassertEventMask : Z; sec_OptionalDataPresent : Z; sec_CurrentState : Z;
  sec_CriticalAlarms : Z; sec_MajorAlarms : Z; sec_MinorAlarms : Z }.
#[export] Instance SaHpiSensorEnableChangeEventT_eq_dec :
  EqDecision SaHpiSensorEnableChangeEventT.
Proof. solve_decision. Defined.

Record SaHpiHotSwapEventT := {
  HotSwapState : Z; PreviousHotSwapState : Z; CauseOfStateChange : Z }.
#[export] Instance SaHpiHotSwapEventT_eq_dec : EqDecision SaHpiHotSwapEventT.
Proof. solve_decision. Defined.

(** The members of the union that the daemon only passes on are kept as the
    list of their fields. *)
Inductive SaHpiEventUnionT :=
  | ResourceEvent (ResourceEventType : Z)
  | DomainEvent (Type_ DomainId : Z)
  | SensorEvent (e : SaHpiSensorEventT)
  | SensorEnableChangeEvent (e : SaHpiSensorEnableChangeEventT)
  | HotSwapEvent (e : SaHpiHotSwapEventT)
  | WatchdogEvent (fields : list Z)
  | HpiSwEvent (MId Type_ : Z) (EventData : SaHpiTextBufferT)
  | OemEvent (MId : Z) (OemEventData : SaHpiTextBufferT)
  | UserEvent (UserEventData : SaHpiTextBufferT)
  | DimiEvent (fields : list Z)
  | DimiUpdateEvent (DimiNum : Z)
  | FumiEvent (fields : list Z)
  | UnknownEvent (EventType : Z) (fields : list Z).
#[export] Instance SaHpiEventUnionT_eq_dec : EqDecision SaHpiEventUnionT.
Proof. solve_decision. Defined.

Record SaHpiEventT := {
  Source : Z; event_Timestamp : Z; event_Severity : Z;
  EventDataUnion : SaHpiEventUnionT }.
#[export] Instance eta_event : Eta SaHpiEventT := fun x =>
  Build_SaHpiEventT (Source x) (event_Timestamp x) (event_Severity x) (EventDataUnion x).
#[export] Instance SaHpiEventT_eq_dec : EqDecision SaHpiEventT.
Proof. solve_decision. Defined.

Definition EventType (e : SaHpiEventT) : Z :=
  match EventDataUnion e with
  | ResourceEvent _ => SAHPI_ET_RESOURCE
  | DomainEvent _ _ => SAHPI_ET_DOMAIN
  | SensorEvent _ => SAHPI_ET_SENSOR
  | SensorEnableChangeEvent _ => SAHPI_ET_SENSOR_ENABLE_CHANGE
  | HotSwapEvent _ => SAHPI_ET_HOTSWAP
  | WatchdogEvent _ => SAHPI_ET_WATCHDOG
  | HpiSwEvent _ _ _ => SAHPI_ET_HPI_SW
  | OemEvent _ _ => SAHPI_ET_OEM
  | UserEvent _ => SAHPI_ET_USER
  | DimiEvent _ => SAHPI_ET_DIMI
  | DimiUpdateEvent _ => SAHPI_ET_DIMI_UPDATE
  | FumiEvent _ => SAHPI_ET_FUMI
  | UnknownEvent t _ => t
  end.

(** ** Event logs *)
Definition SAHPI_EL_OVERFLOW_OVERWRITE : Z := 1.

Record SaHpiEventLogInfoT := {
  Entries : Z; Size : Z; UserEventMaxSize : Z; UpdateTimestamp : Z;
  CurrentTime : Z; Enabled : Z; OverflowFlag : Z; OverflowResetable : Z;
  OverflowAction : Z }.
#[export] Instance eta_el_info : Eta SaHpiEventLogInfoT := fun x =>
  Build_SaHpiEventLogInfoT (Entries x) (Size x) (UserEventMaxSize x)
    (UpdateTimestamp x) (CurrentTime x) (Enabled x) (OverflowFlag x)
    (OverflowResetable x) (OverflowAction x).

Record SaHpiEventLogEntryT := {
  log_EntryId : Z; log_Timestamp : Z; Event : SaHpiEventT }.
#[export] Instance eta_log_entry : Eta SaHpiEventLogEntryT := fun x =>
  Build_SaHpiEventLogEntryT (log_EntryId x) (log_Timestamp x) (Event x).
#[export] Instance SaHpiEventLogEntryT_eq_dec : EqDecision SaHpiEventLogEntryT.
Proof. solve_decision. Defined.

(** ** Conditions, alarms and announcements *)
Definition SAHPI_STATUS_COND_TYPE_SENSOR : Z := 0.
Definition SAHPI_STATUS_COND_TYPE_RESOURCE : Z := 1.
Definition SAHPI_STATUS_COND_TYPE_OEM : Z := 2.
Definition SAHPI_STATUS_COND_TYPE_USER : Z := 3.
Definition SAHPI_SENS_ADD_EVENTS_TO_MASKS : Z := 0.
Definition SAHPI_SENS_REMOVE_EVENTS_FROM_MASKS : Z := 1.
#[export] Hint Unfold SAHPI_EL_OVERFLOW_OVERWRITE SAHPI_STATUS_COND_TYPE_SENSOR
  SAHPI_STATUS_COND_TYPE_RESOURCE SAHPI_STATUS_COND_TYPE_OEM
  SAHPI_STATUS_COND_TYPE_USER SAHPI_SENS_ADD_EVENTS_TO_MASKS
  SAHPI_SENS_REMOVE_EVENTS_FROM_MASKS : hpi_const.

(** [Name] is the length and the bytes of an [SaHpiNameT]. *)
Record SaHpiConditionT := {
  Type_ : Z; cond_Entity : SaHpiEntityPathT; cond_DomainId : Z;
  cond_ResourceId : Z; cond_SensorNum : Z; cond_EventState : Z;
  cond_Name : Z * list Z; cond_Mid : Z; cond_Data : SaHpiTextBufferT }.
#[export] Instance eta_condition : Eta SaHpiConditionT := fun x =>
  Build_SaHpiConditionT (Type_ x) (cond_Entity x) (cond_DomainId x)
    (cond_ResourceId x) (cond_SensorNum x) (cond_EventState x) (cond_Name x)
    (cond_Mid x) (cond_Data x).
#[export] Instance SaHpiConditionT_eq_dec : EqDecision SaHpiConditionT.
Proof. solve_decision. Defined.

Definition zero_condition : SaHpiConditionT :=
  {| Type_ := 0; cond_Entity := zero_ep; cond_DomainId := 0; cond_ResourceId := 0;
     cond_SensorNum := 0; cond_EventState := 0; cond_Name := (0, replicate 256 0);
     cond_Mid := 0; cond_Data := zero_textbuffer |}.

Record SaHpiAlarmT := {
  AlarmId : Z; alarm_Timestamp : Z; alarm_Severity : Z; Acknowledged : Z;
  AlarmCond : SaHpiConditionT }.
#[export] Instance eta_alarm : Eta SaHpiAlarmT := fun x =>
  Build_SaHpiAlarmT (AlarmId x) (alarm_Timestamp x) (alarm_Severity x)
    (Acknowledged x) (AlarmCond x).
#[export] Instance SaHpiAlarmT_eq_dec : EqDecision SaHpiAlarmT.
Proof. solve_decision. Defined.

Definition zero_alarm : SaHpiAlarmT :=
  {| AlarmId := 0; alarm_Timestamp := 0; alarm_Severity := 0; Acknowledged := 0;
     AlarmCond := zero_condition |}.

Record SaHpiAnnouncementT := {
  ann_EntryId : Z; ann_Timestamp : Z; AddedByUser : Z; ann_Severity : Z;
  ann_Acknowledged : Z; StatusCond : SaHpiConditionT }.
#[export] Instance eta_announcement : Eta SaHpiAnnouncementT := fun x =>
  Build_SaHpiAnnouncementT (ann_EntryId x) (ann_Timestamp x) (AddedByUser x)
    (ann_Severity x) (ann_Acknowledged x) (StatusCond x).
#[export] Instance SaHpiAnnouncementT_eq_dec : EqDecision SaHpiAnnouncementT.
Proof. solve_decision. Defined.

Definition zero_announcement : SaHpiAnnouncementT :=
  {| ann_EntryId := 0; ann_Timestamp := 0; AddedByUser := 0; ann_Severity := 0;
     ann_Acknowledged := 0; StatusCond := zero_condition |}.

(** ** Domain references *)
Record SaHpiDrtEntryT := { drt_EntryId : Z; drt_DomainId : Z; IsPeer : Z }.
#[export] Instance eta_drt_entry : Eta SaHpiDrtEntryT := fun x =>
  Build_SaHpiDrtEntryT (drt_EntryId x) (drt_DomainId x) (IsPeer x).
