(* ===== verification/GIndex.v ===== *)
(** The container the daemon keeps its records in: a GLib list whose nodes are
    also reachable through a [GHashTable] from an integer identifier to the
    list node.  The Resource Presence Table uses it for resources and, inside
    each resource, for RDRs ([utils/rpt_utils.c]).

    GLib's documented behaviour is what is modelled: a [GSList] is the sequence
    of its nodes, each with an address of its own, and a [GHashTable] is the
    finite map from the value of a key to the node stored for it. *)
From S2P Require Import Prelude.

Section GIndex.
Context {A : Type} (key : A -> Z).
Implicit Types (l : list (nat * A)) (h : option (gmap Z nat)) (n : nat) (k : Z).

(** The record at a node address. *)
Definition deref l n : option (nat * A) := List.find (fun p => Nat.eqb p.1 n) l.

(** [node->next] *)
Fixpoint next_of l n : option (nat * A) :=
  match l with
  | [] => None
  | p :: l => if Nat.eqb p.1 n then head l else next_of l n
  end.

(** Assignment through the pointer held by a node. *)
Definition store_at l n (f : A -> A) : list (nat * A) :=
  (fun p => if Nat.eqb p.1 n then (p.1, f p.2) else p) <$> l.

(** [g_slist_remove] of the record of a node. *)
Definition remove_at l n : list (nat * A) :=
  List.filter (fun p => negb (Nat.eqb p.1 n)) l.

(** [g_hash_table_lookup], then the node.  The table keeps a pointer to the
    key inside the record, so an entry is found under the key it was inserted
    with while the record still has that key. *)
Definition ht_lookup l h k : option (nat * A) :=
  match h with
  | None => None
  | Some h => p ← h !! k ≫= deref l; if key p.2 =? k then Some p else None
  end.

Definition ht_insert h k n : option (gmap Z nat) :=
  Some (<[k := n]> (default ∅ h)).

(** [g_hash_table_remove]; the table is destroyed with the last node. *)
Definition ht_remove l h k : option (gmap Z nat) :=
  match l with [] => None | _ => delete k <$> h end.

(** Search by identifier along the list: what the index is for. *)
Definition find_key l k : option (nat * A) := List.find (fun p => key p.2 =? k) l.

(** The list and the index describe the same records. *)
Record index_ok (bound : nat) l h : Prop := {
  ok_nodes : NoDup l.*1;
  ok_keys : NoDup (key ∘ snd <$> l);
  ok_bound : Forall (fun p => (p.1 < bound)%nat) l;
  ok_nonzero : Forall (fun p => key p.2 <> 0) l;
  ok_table : match h with
             | None => l = []
             | Some h => l <> [] /\
                 forall k n, h !! k = Some n <-> exists a, (n, a) ∈ l /\ key a = k
             end }.

Lemma find_some_elem (f : nat * A -> bool) l p :
  List.find f l = Some p -> p ∈ l /\ f p = true.
Proof. intros [H1 H2]%find_some. split; [|done]. by apply list_elem_of_In. Qed.

Lemma find_none_elem (f : nat * A -> bool) l p :
  List.find f l = None -> p ∈ l -> f p = false.
Proof. intros Hf Hp%list_elem_of_In. by apply (find_none _ _ Hf). Qed.

Lemma nodup_fst l n a b : NoDup l.*1 -> (n, a) ∈ l -> (n, b) ∈ l -> a = b.
Proof.
  induction l as [|[m c] l IH]; simpl; [by inversion 2|].
  rewrite NoDup_cons, !elem_of_cons. intros [Hm Hd] [?|Ha] [?|Hb]; simplify_eq; [done|..].
  - destruct Hm. apply list_elem_of_fmap. by exists (m, b).
  - destruct Hm. apply list_elem_of_fmap. by exists (m, a).
  - by apply IH.
Qed.

Lemma nodup_key l p q :
  NoDup (key ∘ snd <$> l) -> p ∈ l -> q ∈ l -> key p.2 = key q.2 -> p = q.
Proof.
  induction l as [|x l IH]; simpl; [by inversion 2|].
  rewrite NoDup_cons, !elem_of_cons. intros [Hx Hd] [->|Hp] [->|Hq] E; [done|..].
  - destruct Hx. apply list_elem_of_fmap. by exists q.
  - destruct Hx. apply list_elem_of_fmap. by exists p.
  - by apply IH.
Qed.

Lemma deref_elem l n a : NoDup l.*1 -> deref l n = Some (n, a) <-> (n, a) ∈ l.
Proof.
  intros Hd. unfold deref. split.
  - by intros [? _]%find_some_elem.
  - intros Ha. destruct (List.find _ l) as [[m b]|] eqn:E.
    + apply find_some_elem in E as [Hb Em%Nat.eqb_eq]. simpl in Em. subst m.
      by rewrite (nodup_fst _ _ _ _ Hd Ha Hb).
    + apply (find_none_elem _ _ (n, a)) in E; [|done]. simpl in E.
      by rewrite Nat.eqb_refl in E.
Qed.

Lemma find_key_elem l k p :
  NoDup (key ∘ snd <$> l) -> find_key l k = Some p <-> p ∈ l /\ key p.2 = k.
Proof.
  intros Hd. unfold find_key. split.
  - intros [? ?%Z.eqb_eq]%find_some_elem. done.
  - intros [Hp Hk]. destruct (List.find _ l) as [q|] eqn:E.
    + apply find_some_elem in E as [Hq Ek%Z.eqb_eq].
      f_equal. apply (nodup_key l); congruence.
    + apply (find_none_elem _ _ p) in E; [|done]. apply Z.eqb_neq in E. done.
Qed.

Lemma find_key_None l k : find_key l k = None <-> forall p, p ∈ l -> key p.2 <> k.
Proof.
  unfold find_key. split.
  - intros H p Hp E. apply (find_none_elem _ _ p) in H; [|done]. by apply Z.eqb_neq in H.
  - intros H. destruct (List.find _ l) as [q|] eqn:E; [|done].
    apply find_some_elem in E as [Hq Ek%Z.eqb_eq]. by destruct (H q).
Qed.

(** The index finds what a search of the list finds. *)
Lemma ht_lookup_find b l h k : index_ok b l h -> ht_lookup l h k = find_key l k.
Proof.
  intros [Hn Hk _ _ Ht]. unfold ht_lookup. destruct h as [h|]; [|by subst l].
  destruct Ht as [_ Ht]. destruct (h !! k) as [n|] eqn:E; simpl.
  - apply Ht in E as (a & Ha & Ek). rewrite (proj2 (deref_elem l n a Hn)) by done.
    simpl. rewrite (proj2 (Z.eqb_eq _ _) Ek). symmetry. by apply find_key_elem.
  - symmetry. apply find_key_None. intros [n a] Hp Ek.
    assert (h !! k = Some n) by (apply Ht; eauto). congruence.
Qed.

(** ** Changing the contents *)

Lemma index_weaken b b' l h : (b <= b')%nat -> index_ok b l h -> index_ok b' l h.
Proof.
  intros Hb [H1 H2 H3 H4 H5]. split; try done.
  eapply Forall_impl; [exact H3|]. simpl. intros. lia.
Qed.

Lemma index_empty b : index_ok b [] None.
Proof. split; simpl; constructor. Qed.

(** Appending a record with a new key at a new address. *)
Lemma index_append b l h a :
  index_ok b l h -> key a <> 0 -> find_key l (key a) = None ->
  index_ok (S b) (l ++ [(b, a)]) (ht_insert h (key a) b).
Proof.
  intros [Hn Hk Hb Hz Ht] Ha Hnew. rewrite find_key_None in Hnew.
  assert (Hfresh : forall c, (b, c) ∉ l).
  { intros c Hc. rewrite Forall_forall in Hb. specialize (Hb _ Hc). simpl in Hb. lia. }
  split.
  - rewrite fmap_app. apply NoDup_app. split; [done|]. split; [|apply NoDup_singleton].
    simpl. intros m Hm ->%list_elem_of_singleton.
    apply list_elem_of_fmap in Hm as ([m c] & -> & Hm). by apply Hfresh in Hm.
  - rewrite fmap_app. apply NoDup_app. split; [done|]. split; [|apply NoDup_singleton].
    simpl. intros m Hm ->%list_elem_of_singleton.
    apply list_elem_of_fmap in Hm as (p & E & Hm). by destruct (Hnew p).
  - apply Forall_app. split; [|by repeat constructor; simpl].
    eapply Forall_impl; [exact Hb|]. simpl. intros. lia.
  - apply Forall_app. split; [done|]. by repeat constructor.
  - simpl. split; [by destruct l|]. intros k n.
    assert (Hold : forall k n, default ∅ h !! k = Some n <->
                               exists c, (n, c) ∈ l /\ key c = k).
    { intros k' n'. destruct h as [h|]; simpl; [apply Ht|]. subst l.
      rewrite lookup_empty. split; [done|]. intros (c & Hc & _). by apply not_elem_of_nil in Hc. }
    destruct (decide (k = key a)) as [->|Hne].
    + rewrite lookup_insert_eq. split.
      * intros [= <-]. exists a. split; [|done]. apply elem_of_app. right. by apply list_elem_of_singleton.
      * intros (c & [Hc|Hc%list_elem_of_singleton]%elem_of_app & Ec); [|by simplify_eq].
        by destruct (Hnew (n, c)).
    + rewrite lookup_insert_ne, Hold by done. split.
      * intros (c & Hc & Ec). exists c. split; [|done]. apply elem_of_app. by left.
      * intros (c & [Hc|Hc%list_elem_of_singleton]%elem_of_app & Ec); simplify_eq; eauto.
Qed.

Lemma store_at_keys l n f :
  (forall a, (n, a) ∈ l -> key (f a) = key a) ->
  key ∘ snd <$> store_at l n f = key ∘ snd <$> l.
Proof.
  unfold store_at. induction l as [|[m a] l IH]; intros Hf; simpl; [done|]. f_equal.
  - destruct (Nat.eqb_spec m n) as [->|]; [|done]. apply Hf. left.
  - apply IH. intros c Hc. apply Hf. by right.
Qed.

Lemma store_at_nodes l n f : (store_at l n f).*1 = l.*1.
Proof.
  unfold store_at. rewrite <- list_fmap_compose. apply list_fmap_ext. intros _ [m a] _. simpl.
  by destruct (Nat.eqb m n).
Qed.

Lemma store_at_elem l n f m c :
  (m, c) ∈ store_at l n f <->
  exists a, (m, a) ∈ l /\ c = (if Nat.eqb m n then f a else a).
Proof.
  unfold store_at. rewrite list_elem_of_fmap. split.
  - intros ([m' a] & E & Ha). simpl in E. exists a.
    by destruct (Nat.eqb m' n) eqn:En; simplify_eq; rewrite En.
  - intros (a & Ha & ->). exists (m, a). split; [|done]. simpl. by destruct (Nat.eqb m n).
Qed.

(** Assignment through a node that keeps the key. *)
Lemma index_store b l h n f :
  index_ok b l h -> (forall a, (n, a) ∈ l -> key (f a) = key a) ->
  index_ok b (store_at l n f) h.
Proof.
  intros [Hn Hk Hb Hz Ht] Hf. pose proof (store_at_keys _ _ _ Hf) as Ek. split.
  - by rewrite store_at_nodes.
  - by rewrite Ek.
  - apply Forall_forall. intros [m c] (a & Ha & _)%store_at_elem.
    rewrite Forall_forall in Hb. by apply (Hb (m, a)).
  - assert (Hz' : Forall (fun k => k <> 0) (key ∘ snd <$> store_at l n f)).
    { rewrite Ek, Forall_fmap. exact Hz. }
    by rewrite Forall_fmap in Hz'.
  - destruct h as [h|]; [|by subst l]. destruct Ht as [Hne Ht]. split; [by destruct l|].
    intros k m. rewrite Ht. split.
    + intros (a & Ha & Ea). eexists. rewrite store_at_elem. split; [eauto|].
      destruct (Nat.eqb_spec m n); [|done]. subst. by rewrite Hf.
    + intros (c & (a & Ha & ->)%store_at_elem & Ea). exists a. split; [done|].
      destruct (Nat.eqb_spec m n); [|done]. subst. symmetry. by apply Hf.
Qed.

Lemma store_at_compose l n f g : store_at (store_at l n f) n g = store_at l n (g ∘ f).
Proof.
  unfold store_at. rewrite <- list_fmap_compose. apply list_fmap_ext. intros _ [m a] _. simpl.
  by destruct (Nat.eqb m n) eqn:E; simpl; rewrite E.
Qed.

Lemma store_at_ext l n a f g :
  NoDup l.*1 -> (n, a) ∈ l -> f a = g a -> store_at l n f = store_at l n g.
Proof.
  intros Hd Ha E. unfold store_at. apply list_fmap_ext. intros _ [m c] Hc%list_elem_of_lookup_2.
  simpl. destruct (Nat.eqb_spec m n) as [->|]; [|done].
  by rewrite (nodup_fst _ _ _ _ Hd Hc Ha), E.
Qed.

Lemma store_at_id l n : store_at l n id = l.
Proof.
  unfold store_at. rewrite <- (list_fmap_id l) at 2. apply list_fmap_ext. intros _ [m a] _. simpl.
  by destruct (Nat.eqb m n).
Qed.

Lemma remove_store l n f : remove_at (store_at l n f) n = remove_at l n.
Proof.
  unfold remove_at, store_at. induction l as [|[m a] l IH]; [done|]. csimpl.
  by destruct (Nat.eqb m n) eqn:E; simpl; rewrite E, IH.
Qed.

Lemma remove_head l n a : NoDup ((n, a) :: l).*1 -> remove_at ((n, a) :: l) n = l.
Proof.
  simpl. rewrite NoDup_cons, Nat.eqb_refl. simpl. intros [Hn _].
  induction l as [|[m c] l IH]; [done|]. simpl in *. apply not_elem_of_cons in Hn as [Hm Hn].
  destruct (Nat.eqb_spec m n); [congruence|]. simpl. by rewrite IH.
Qed.

(** Filling in a record that was just appended. *)
Lemma store_at_last b l h a f :
  index_ok b l h -> store_at (l ++ [(b, a)]) b f = l ++ [(b, f a)].
Proof.
  intros [_ _ Hb _ _]. unfold store_at. rewrite fmap_app. simpl. rewrite Nat.eqb_refl. f_equal.
  rewrite <- (list_fmap_id l) at 2. apply list_fmap_ext. intros i [m c] Hm%list_elem_of_lookup_2.
  rewrite Forall_forall in Hb. specialize (Hb _ Hm). simpl in *.
  by destruct (Nat.eqb_spec m b); [lia|].
Qed.

Lemma remove_at_elem l n p : p ∈ remove_at l n <-> p ∈ l /\ p.1 <> n.
Proof.
  unfold remove_at. rewrite !list_elem_of_In, filter_In, negb_true_iff, Nat.eqb_neq. done.
Qed.

Lemma remove_at_nodup {B} (g : nat * A -> B) l n :
  NoDup (g <$> l) -> NoDup (g <$> remove_at l n).
Proof.
  induction l as [|p l IH]; simpl; [done|]. rewrite NoDup_cons. intros [Hp Hd].
  destruct (negb _); simpl; [|by apply IH]. apply NoDup_cons. split; [|by apply IH].
  intros (q & Eq & [Hq _]%remove_at_elem)%list_elem_of_fmap. destruct Hp.
  apply list_elem_of_fmap. eauto.
Qed.

(** Removing a record and its key. *)
Lemma index_remove b l h n a :
  index_ok b l h -> (n, a) ∈ l ->
  index_ok b (remove_at l n) (ht_remove (remove_at l n) h (key a)).
Proof.
  intros [Hn Hk Hb Hz Ht] Ha.
  assert (Ht' : forall k m, default ∅ h !! k = Some m <-> exists c, (m, c) ∈ l /\ key c = k).
  { destruct h as [h|]; simpl; [apply Ht|]. subst l. by apply not_elem_of_nil in Ha. }
  assert (Hh : exists h' : gmap Z nat, h = Some h').
  { destruct h as [h|]; [eauto|]. subst l. by apply not_elem_of_nil in Ha. }
  destruct Hh as [h' ->]. simpl in Ht'. split.
  - by apply remove_at_nodup.
  - by apply remove_at_nodup.
  - apply Forall_forall. intros p [Hp _]%remove_at_elem. rewrite Forall_forall in Hb. by apply Hb.
  - apply Forall_forall. intros p [Hp _]%remove_at_elem. rewrite Forall_forall in Hz. by apply Hz.
  - unfold ht_remove. destruct (remove_at l n) as [|p l'] eqn:E; [done|]. simpl.
    split; [done|]. rewrite <- E. intros k m. destruct (decide (k = key a)) as [->|Hne].
    + rewrite lookup_delete_eq. split; [done|].
      intros (c & [Hc Hm]%remove_at_elem & Ec). destruct Hm. simpl.
      by injection (nodup_key _ _ _ Hk Hc Ha Ec).
    + rewrite lookup_delete_ne, Ht' by done. split; intros (c & Hc & Ec); exists c.
      * rewrite remove_at_elem. split; [|done]. split; [done|]. simpl. intros ->.
        by rewrite (nodup_fst _ _ _ _ Hn Hc Ha) in Ec.
      * apply remove_at_elem in Hc as [Hc _]. done.
Qed.

(** ** The contents as a list of records *)

Lemma store_at_view b l h n a f :
  index_ok b l h -> (n, a) ∈ l ->
  (store_at l n f).*2 = (fun c => if key c =? key a then f c else c) <$> l.*2.
Proof.
  intros [Hn Hk _ _ _] Ha. unfold store_at. rewrite <- !list_fmap_compose.
  apply list_fmap_ext. intros i [m c] Hc%list_elem_of_lookup_2. simpl.
  destruct (Nat.eqb_spec m n) as [->|Hm]; simpl.
  - rewrite (nodup_fst _ _ _ _ Hn Hc Ha). by rewrite Z.eqb_refl.
  - destruct (Z.eqb_spec (key c) (key a)) as [E|]; [|done].
    destruct Hm. by injection (nodup_key _ _ _ Hk Hc Ha E).
Qed.

Lemma remove_at_view b l h n a :
  index_ok b l h -> (n, a) ∈ l ->
  (remove_at l n).*2 = filter (fun c => key c <> key a) l.*2.
Proof.
  intros [Hn Hk _ _ _] Ha. clear -Hn Hk Ha.
  assert (H : forall l', l' ⊆ l -> (remove_at l' n).*2 = filter (fun c => key c <> key a) l'.*2).
  { induction l' as [|[m c] l' IH]; intros Hs; [done|]. simpl. rewrite filter_cons.
    assert (Hc : (m, c) ∈ l) by (apply Hs; left).
    destruct (Nat.eqb_spec m n) as [->|Hm]; simpl; case_decide as Hd.
    - destruct Hd. by rewrite (nodup_fst _ _ _ _ Hn Hc Ha).
    - apply IH. intros p Hp. apply Hs. by right.
    - f_equal. apply IH. intros p Hp. apply Hs. by right.
    - destruct Hm. assert (key c = key a) as E by (destruct (decide (key c = key a)); tauto).
      by injection (nodup_key _ _ _ Hk Hc Ha E). }
  by apply H.
Qed.

(** The node after a node. *)
Lemma next_of_split l1 n a l2 :
  NoDup (l1 ++ (n, a) :: l2).*1 -> next_of (l1 ++ (n, a) :: l2) n = head l2.
Proof.
  induction l1 as [|[m c] l1 IH]; simpl; [by rewrite Nat.eqb_refl|].
  rewrite NoDup_cons. intros [Hm Hd]. destruct (Nat.eqb_spec m n) as [->|]; [|by apply IH].
  destruct Hm. rewrite fmap_app. apply elem_of_app. right. left.
Qed.
End GIndex.
