(* ===== verification/EntityPath.v ===== *)
(** Entity path structures: the part of [utils/epath_utils.c] that works on
    [SaHpiEntityPathT] values.

    The abstract view of an entity path is [ep_path], the list of its entries
    before the first [SAHPI_ENT_ROOT] element (least significant first); the
    theorems relate every operation to a list operation on that view. *)
From S2P Require Import Prelude SaHpi.

(** An entity path as C stores it: an array of 16 entries. *)
Definition ep_wf (ep : SaHpiEntityPathT) : Prop :=
  length (Entry ep) = SAHPI_MAX_ENTITY_PATH.

Definition root_entity : SaHpiEntityT :=
  {| EntityType := SAHPI_ENT_ROOT; EntityLocation := 0 |}.

Definition is_root (e : SaHpiEntityT) : bool := EntityType e =? SAHPI_ENT_ROOT.

(** [for (i = 0; i < SAHPI_MAX_ENTITY_PATH; i++)
       if (ep->Entry[i].EntityType == SAHPI_ENT_ROOT) break;] *)
Fixpoint root_index (es : list SaHpiEntityT) : nat :=
  match es with
  | [] => 0
  | e :: rest => if is_root e then 0 else S (root_index rest)
  end.

Definition oh_init_ep (ep : option SaHpiEntityPathT) : Z * option SaHpiEntityPathT :=
  match ep with
  | None => (SA_ERR_HPI_INVALID_PARAMS, None)
  | Some _ => (SA_OK, Some {| Entry := replicate SAHPI_MAX_ENTITY_PATH root_entity |})
  end.

Definition oh_ep_len (ep : option SaHpiEntityPathT) : Z :=
  match ep with
  | None => 0
  | Some ep => u8 (Z.of_nat (root_index (Entry ep)))
  end.

Definition oh_valid_ep (ep : SaHpiEntityPathT) : Z :=
  let _ := root_index (Entry ep) in SAHPI_TRUE.

(** The element comparison of [oh_get_child_ep] and [oh_cmp_ep]. *)
Definition entity_eqb (x y : SaHpiEntityT) : bool :=
  (EntityType x =? EntityType y) && (EntityLocation x =? EntityLocation y).

Definition oh_get_child_ep (ep parent child : option SaHpiEntityPathT)
    : Z * option SaHpiEntityPathT :=
  match ep, parent, child with
  | Some ep, Some parent, Some child =>
      let child := snd (oh_init_ep (Some child)) in
      let l_ep := Z.to_nat (oh_ep_len (Some ep)) in
      let l_parent := Z.to_nat (oh_ep_len (Some parent)) in
      if (l_ep <? l_parent)%nat then (SA_ERR_HPI_NOT_PRESENT, child)
      else if (l_ep =? l_parent)%nat then (SA_OK, child)
      else
        let l_child := (l_ep - l_parent)%nat in
        if forallb (fun i => entity_eqb (Entry ep !!! (i + l_child)%nat)
                                        (Entry parent !!! i)) (seq 0 l_parent)
        then (SA_OK,
              (fun c => c <| Entry ::= fun es =>
                 foldl (fun es i => <[i := Entry ep !!! i]> es) es (seq 0 l_child) |>)
                <$> child)
        else (SA_ERR_HPI_NOT_PRESENT, child)
  | _, _, _ => (SA_ERR_HPI_INVALID_PARAMS, child)
  end.

(** [for (j = 0; i < SAHPI_MAX_ENTITY_PATH; i++)]; [fuel] is the number of
    iterations left before [i] reaches the bound. *)
Fixpoint concat_loop (fuel : nat) (dest append : list SaHpiEntityT) (i j : nat)
    : list SaHpiEntityT :=
  match fuel with
  | 0%nat => dest
  | S fuel =>
      let e := append !!! j in
      let dest := <[i := e]> dest in
      if is_root e then dest else concat_loop fuel dest append (S i) (S j)
  end.

Definition oh_concat_ep (dest append : option SaHpiEntityPathT)
    : Z * option SaHpiEntityPathT :=
  match dest, append with
  | None, _ => (SA_ERR_HPI_INVALID_PARAMS, None)
  | Some dest, None => (SA_OK, Some dest)
  | Some dest, Some append =>
      let i := root_index (Entry dest) in
      (SA_OK, Some (dest <| Entry ::= fun d =>
         concat_loop (SAHPI_MAX_ENTITY_PATH - i) d (Entry append) i 0 |>))
  end.

Fixpoint set_location_loop (es : list SaHpiEntityT) (et ei : Z) : list SaHpiEntityT :=
  match es with
  | [] => []
  | e :: rest =>
      if EntityType e =? et then (e <| EntityLocation := ei |>) :: rest
      else if is_root e then es
      else e :: set_location_loop rest et ei
  end.

Definition oh_set_ep_location (ep : option SaHpiEntityPathT) (et ei : Z)
    : Z * option SaHpiEntityPathT :=
  match ep with
  | None => (SA_ERR_HPI_INVALID_PARAMS, None)
  | Some ep =>
      if negb (truthy (oh_valid_ep ep)) then (SA_ERR_HPI_INVALID_DATA, Some ep)
      else (SA_OK, Some (ep <| Entry ::= fun es => set_location_loop es et ei |>))
  end.

(** The first loops of [oh_cmp_ep]: the root element itself is counted. *)
Definition cmp_index (es : list SaHpiEntityT) : nat :=
  let i := root_index es in
  if (i <? SAHPI_MAX_ENTITY_PATH)%nat then S i else i.

Definition oh_cmp_ep (ep1 ep2 : option SaHpiEntityPathT) : Z :=
  match ep1, ep2 with
  | Some ep1, Some ep2 =>
      let i := cmp_index (Entry ep1) in
      let j := cmp_index (Entry ep2) in
      if negb (i =? j)%nat then SAHPI_FALSE
      else if forallb (fun i => entity_eqb (Entry ep1 !!! i) (Entry ep2 !!! i)) (seq 0 j)
      then SAHPI_TRUE else SAHPI_FALSE
  | _, _ => SAHPI_FALSE
  end.

(** * The abstract view *)

Definition ep_path (ep : SaHpiEntityPathT) : list SaHpiEntityT :=
  take (root_index (Entry ep)) (Entry ep).

(** An entity path built from its view: [n] entries, then roots. *)
Definition ep_of_path (p : list SaHpiEntityT) : SaHpiEntityPathT :=
  {| Entry := p ++ replicate (SAHPI_MAX_ENTITY_PATH - length p) root_entity |}.

(** A view an entity path can have: at most 16 non-root entries. *)
Definition path_ok (p : list SaHpiEntityT) : Prop :=
  (length p <= SAHPI_MAX_ENTITY_PATH)%nat /\ Forall (fun e => is_root e = false) p.

(** * Facts about the root index *)

Lemma root_index_le es : (root_index es <= length es)%nat.
Proof. induction es as [|e es IH]; simpl; [lia|]. destruct (is_root e); lia. Qed.

Lemma root_index_take es :
  Forall (fun e => is_root e = false) (take (root_index es) es).
Proof.
  induction es as [|e es IH]; simpl; [constructor|].
  case_ifs; simpl; constructor; auto.
Qed.

Lemma root_index_at es e : es !! root_index es = Some e -> is_root e = true.
Proof.
  induction es as [|x es IH]; simpl; [done|]. case_ifs; simpl; naive_solver.
Qed.

Lemma root_index_app p es :
  Forall (fun e => is_root e = false) p ->
  root_index (p ++ es) = (length p + root_index es)%nat.
Proof. induction 1 as [|x p Hx _ IH]; simpl; [done|]. by rewrite Hx, IH. Qed.

Lemma root_index_replicate n : root_index (replicate n root_entity) = 0%nat.
Proof. by destruct n. Qed.

Lemma is_root_root_entity : is_root root_entity = true.
Proof. done. Qed.

Lemma ep_len_nat ep :
  ep_wf ep -> Z.to_nat (oh_ep_len (Some ep)) = length (ep_path ep).
Proof.
  unfold ep_wf, oh_ep_len, ep_path. intros H. pose proof (root_index_le (Entry ep)).
  rewrite length_take_le by lia. consts. rewrite u8_id; lia.
Qed.

Lemma ep_path_ok ep : ep_wf ep -> path_ok (ep_path ep).
Proof.
  intros H. split; [|apply root_index_take].
  unfold ep_path, ep_wf in *. rewrite length_take. lia.
Qed.

Lemma ep_path_of_path p : path_ok p -> ep_path (ep_of_path p) = p.
Proof.
  intros [_ Hp]. unfold ep_path, ep_of_path; simpl.
  rewrite root_index_app, root_index_replicate by done.
  by rewrite Nat.add_0_r, take_app_length.
Qed.

Lemma ep_of_path_wf p : path_ok p -> ep_wf (ep_of_path p).
Proof.
  intros [H _]. unfold ep_wf, ep_of_path; simpl.
  rewrite length_app, length_replicate. lia.
Qed.
#[export] Hint Resolve ep_path_ok ep_of_path_wf : hpi.

(** The entry just after the view is a root, when there is one. *)
Lemma ep_split ep :
  Entry ep = ep_path ep ++ drop (length (ep_path ep)) (Entry ep) /\
  (drop (length (ep_path ep)) (Entry ep) = [] \/
   exists e rest, drop (length (ep_path ep)) (Entry ep) = e :: rest /\ is_root e = true).
Proof.
  assert (length (ep_path ep) = root_index (Entry ep)) as ->.
  { unfold ep_path. rewrite length_take_le; [done | apply root_index_le]. }
  split; [unfold ep_path; by rewrite take_drop|].
  destruct (Entry ep !! root_index (Entry ep)) as [e|] eqn:He.
  - right. exists e, (drop (S (root_index (Entry ep))) (Entry ep)).
    split; [by apply drop_S | by apply root_index_at in He].
  - left. apply lookup_ge_None in He. by apply drop_ge.
Qed.

(** Two well-formed paths whose view and root element agree. *)
Definition ep_equiv (ep1 ep2 : SaHpiEntityPathT) : Prop :=
  take (cmp_index (Entry ep1)) (Entry ep1) = take (cmp_index (Entry ep2)) (Entry ep2).

(** * List facts behind the loops *)

Lemma entity_eqb_eq x y : entity_eqb x y = true <-> x = y.
Proof.
  unfold entity_eqb. rewrite andb_true_iff, !Z.eqb_eq.
  destruct x, y; simpl; split; [intros [-> ->]; done | naive_solver].
Qed.

(** Comparing [n] elements by index is comparing two slices. *)
Lemma forallb_slice (l m : list SaHpiEntityT) k n :
  (n + k <= length l)%nat -> (n <= length m)%nat ->
  forallb (fun i => entity_eqb (l !!! (i + k)%nat) (m !!! i)) (seq 0 n) = true <->
  take n (drop k l) = take n m.
Proof.
  intros Hl Hm. rewrite forallb_forall. split.
  - intros H. apply list_eq_same_length with n;
      [rewrite ?length_take, ?length_drop; lia .. |].
    intros i x y Hi. rewrite !lookup_take_lt, lookup_drop by done. intros Hx Hy.
    specialize (H i). rewrite in_seq, entity_eqb_eq in H.
    rewrite (Nat.add_comm i k), (list_lookup_total_correct l _ _ Hx),
      (list_lookup_total_correct m _ _ Hy) in H.
    apply H. lia.
  - intros H i Hi%in_seq. apply entity_eqb_eq.
    assert (take n (drop k l) !! i = take n m !! i) as E by by rewrite H.
    rewrite !lookup_take_lt, lookup_drop in E by lia.
    rewrite !list_lookup_total_alt. by rewrite (Nat.add_comm i k), E.
Qed.

Lemma forallb_prefix (l m : list SaHpiEntityT) n :
  (n <= length l)%nat -> (n <= length m)%nat ->
  forallb (fun i => entity_eqb (l !!! i) (m !!! i)) (seq 0 n) = true <->
  take n l = take n m.
Proof.
  intros Hl Hm. change (take n l) with (take n (drop 0 l)). rewrite <- forallb_slice by lia.
  generalize (seq 0 n) as s. intros s.
  enough (forallb (fun i => entity_eqb (l !!! i) (m !!! i)) s =
          forallb (fun i => entity_eqb (l !!! (i + 0)%nat) (m !!! i)) s) as -> by done.
  induction s; simpl; rewrite ?Nat.add_0_r; congruence.
Qed.

(** Copying the first [n] elements by index. *)
Lemma foldl_copy (src dst : list SaHpiEntityT) n :
  (n <= length src)%nat -> (n <= length dst)%nat ->
  foldl (fun es i => <[i := src !!! i]> es) dst (seq 0 n) = take n src ++ drop n dst.
Proof.
  induction n as [|n IH]; intros Hs Hd; [done|].
  rewrite seq_S, foldl_app, IH by lia. simpl.
  destruct (lookup_lt_is_Some_2 src n) as [x Hx]; [lia|].
  destruct (lookup_lt_is_Some_2 dst n) as [y Hy]; [lia|].
  rewrite (list_lookup_total_correct _ _ _ Hx), (drop_S _ _ _ Hy), (take_S_r _ _ _ Hx).
  rewrite <- app_assoc. rewrite <- (Nat.add_0_r n) at 1.
  assert (length (take n src) = n) as E by (rewrite length_take; lia).
  rewrite <- E at 1. by rewrite insert_app_r.
Qed.

(** What [concat_loop] writes: the appended entries up to and including the
    first root, or as many as fit. *)
Lemma concat_loop_spec fuel dest append i j :
  (i + fuel = length dest)%nat -> (j + fuel <= length append)%nat ->
  let s := take fuel (drop j append) in
  let w := take (S (root_index s)) s in
  concat_loop fuel dest append i j = take i dest ++ w ++ drop (i + length w) dest.
Proof.
  revert dest i j. induction fuel as [|fuel IH]; intros dest i j Hd Ha; simpl.
  { by rewrite Nat.add_0_r, take_drop. }
  destruct (lookup_lt_is_Some_2 append j) as [e He]; [lia|].
  rewrite (list_lookup_total_correct _ _ _ He), (drop_S _ _ _ He). simpl.
  destruct (lookup_lt_is_Some_2 dest i) as [y Hy]; [lia|].
  assert (length (take i dest) = i) as E by (rewrite length_take; lia).
  destruct (is_root e) eqn:Hr; simpl.
  - rewrite insert_take_drop by lia. by rewrite Nat.add_1_r.
  - rewrite IH by (rewrite ?length_insert; lia).
    set (w := take _ (take fuel (drop (S j) append))).
    rewrite insert_take_drop by lia.
    assert (take i dest ++ e :: drop (S i) dest
            = (take i dest ++ [e]) ++ drop (S i) dest) as -> by by rewrite <- app_assoc.
    assert (length (take i dest ++ [e]) = S i) as E' by (rewrite length_app; simpl; lia).
    rewrite <- drop_drop, take_app_length', drop_app_length', drop_drop by done.
    rewrite <- app_assoc. simpl. do 4 f_equal. lia.
Qed.

(** * The view of an entry list *)

Lemma view_app p es :
  Forall (fun e => is_root e = false) p ->
  take (root_index (p ++ es)) (p ++ es) = p ++ take (root_index es) es.
Proof. intros H. rewrite root_index_app by done. by rewrite take_app_add. Qed.

Lemma root_index_take_n n es : root_index (take n es) = Nat.min n (root_index es).
Proof.
  revert n. induction es as [|e es IH]; intros [|n]; simpl; [done..|].
  destruct (is_root e); [done|]. by rewrite IH.
Qed.

Lemma view_take n es :
  take (root_index (take n es)) (take n es) = take n (take (root_index es) es).
Proof. rewrite root_index_take_n, !take_take. f_equal. lia. Qed.

(** Copying up to and including the first root keeps the view, unless there
    is no root, when the view continues in what follows. *)
Lemma view_copied s rest :
  (root_index s = length s -> rest = []) ->
  take (root_index (take (S (root_index s)) s ++ rest)) (take (S (root_index s)) s ++ rest)
  = take (root_index s) s.
Proof.
  intros Hrest. destruct (decide (root_index s = length s)) as [E|E].
  - rewrite Hrest, app_nil_r, (take_ge s (S _)) by (done || lia). done.
  - assert (root_index s < length s)%nat as Hlt by (pose proof (root_index_le s); lia).
    destruct (lookup_lt_is_Some_2 _ _ Hlt) as [e He].
    rewrite (take_S_r _ _ _ He), <- app_assoc. simpl.
    rewrite view_app by apply root_index_take.
    simpl. rewrite (root_index_at _ _ He). simpl. by rewrite app_nil_r.
Qed.

(** Two well-formed paths with the same view and no root are the same. *)
Lemma ep_path_length ep : length (ep_path ep) = root_index (Entry ep).
Proof. unfold ep_path. rewrite length_take_le; [done | apply root_index_le]. Qed.

(** [oh_concat_ep] on well-formed paths: the result is well formed and its
    view is the concatenation of the views, cut to 16 entries. *)
Lemma concat_ep_view d a :
  ep_wf d -> ep_wf a ->
  exists r, oh_concat_ep (Some d) (Some a) = (SA_OK, Some r) /\ ep_wf r /\
    ep_path r = take SAHPI_MAX_ENTITY_PATH (ep_path d ++ ep_path a).
Proof.
  intros Hd Ha. eexists. split; [reflexivity|].
  unfold ep_wf, ep_path in *. simpl.
  pose proof (root_index_le (Entry d)) as Hle. rewrite Hd in Hle.
  rewrite concat_loop_spec by lia. rewrite drop_0.
  set (i := root_index (Entry d)) in *.
  set (s := take (SAHPI_MAX_ENTITY_PATH - i) (Entry a)).
  assert (length s = SAHPI_MAX_ENTITY_PATH - i)%nat as Hs
    by (subst s; rewrite length_take; lia).
  pose proof (root_index_le s).
  assert (length (take (S (root_index s)) s) <= SAHPI_MAX_ENTITY_PATH - i)%nat
    by (rewrite length_take; lia).
  split; [rewrite !length_app, length_take, length_drop; lia|].
  rewrite view_app by apply root_index_take.
  rewrite view_copied; [|intros E; apply drop_ge; rewrite length_take; lia].
  subst s. rewrite view_take.
  assert (length (take i (Entry d)) = i) as Hi by (rewrite length_take; lia).
  by rewrite take_app, (take_ge (take i _)), Hi by lia.
Qed.

(** Initialisation gives the empty path. *)
Lemma init_ep_view ep :
  exists r, oh_init_ep (Some ep) = (SA_OK, Some r) /\ ep_wf r /\ r = ep_of_path [].
Proof. eexists. split; [reflexivity|]. by split. Qed.

Lemma lookup_total_view (ep : SaHpiEntityPathT) i :
  (i < length (ep_path ep))%nat -> Entry ep !!! i = ep_path ep !!! i.
Proof.
  intros Hi. rewrite !list_lookup_total_alt. unfold ep_path in *.
  rewrite length_take in Hi. by rewrite lookup_take_lt by lia.
Qed.

Lemma child_compare ep parent :
  ep_wf ep -> ep_wf parent ->
  let l_ep := length (ep_path ep) in
  let l_parent := length (ep_path parent) in
  (l_parent <= l_ep)%nat ->
  forallb (fun i => entity_eqb (Entry ep !!! (i + (l_ep - l_parent))%nat)
                               (Entry parent !!! i)) (seq 0 l_parent) = true <->
  drop (l_ep - l_parent) (ep_path ep) = ep_path parent.
Proof.
  intros Hep Hpar l_ep l_parent Hle.
  assert (l_ep <= length (Entry ep))%nat by
    (subst l_ep; rewrite ep_path_length; apply root_index_le).
  assert (l_parent <= length (Entry parent))%nat by
    (subst l_parent; rewrite ep_path_length; apply root_index_le).
  rewrite forallb_slice by lia.
  assert (take l_parent (Entry parent) = ep_path parent) as ->
    by (subst l_parent; by rewrite ep_path_length).
  assert (take l_parent (drop (l_ep - l_parent) (Entry ep))
          = drop (l_ep - l_parent) (ep_path ep)) as ->; [|done].
  rewrite take_drop_commute. f_equal. unfold ep_path. f_equal.
  subst l_ep. rewrite ep_path_length in *. lia.
Qed.

(** The child written by [oh_get_child_ep] when it succeeds. *)
Lemma child_copy ep n :
  ep_wf ep -> (n <= length (ep_path ep))%nat ->
  foldl (fun es i => <[i := Entry ep !!! i]> es)
        (replicate SAHPI_MAX_ENTITY_PATH root_entity) (seq 0 n)
  = Entry (ep_of_path (take n (ep_path ep))).
Proof.
  unfold ep_wf. intros Hep Hn. rewrite ep_path_length in Hn.
  pose proof (root_index_le (Entry ep)).
  rewrite foldl_copy by (rewrite ?length_replicate; lia).
  rewrite drop_replicate. unfold ep_of_path, ep_path; simpl.
  rewrite take_take, Nat.min_l, length_take, Nat.min_l by lia. done.
Qed.

Lemma path_ok_take n p : path_ok p -> path_ok (take n p).
Proof.
  intros [H1 H2]. split; [rewrite length_take; lia | by apply Forall_take].
Qed.

(** [oh_get_child_ep] by cases on the lengths: paths of equal length are not
    compared. *)
Lemma get_child_ep_cases ep parent child :
  ep_wf ep -> ep_wf parent ->
  let l_ep := length (ep_path ep) in
  let l_parent := length (ep_path parent) in
  let l_child := (l_ep - l_parent)%nat in
  oh_get_child_ep (Some ep) (Some parent) (Some child) =
    if decide (l_ep < l_parent)%nat then (SA_ERR_HPI_NOT_PRESENT, Some (ep_of_path []))
    else if decide (l_ep = l_parent) then (SA_OK, Some (ep_of_path []))
    else if decide (drop l_child (ep_path ep) = ep_path parent)
    then (SA_OK, Some (ep_of_path (take l_child (ep_path ep))))
    else (SA_ERR_HPI_NOT_PRESENT, Some (ep_of_path [])).
Proof.
  intros Hep Hpar l_ep l_parent l_child. unfold oh_get_child_ep.
  rewrite !ep_len_nat by done. fold l_ep l_parent l_child.
  destruct (Nat.ltb_spec l_ep l_parent); [by rewrite decide_True by lia|].
  rewrite decide_False by lia.
  destruct (Nat.eqb_spec l_ep l_parent); [by rewrite decide_True by lia|].
  rewrite decide_False by lia.
  pose proof (child_compare ep parent Hep Hpar) as Hcmp. cbn zeta in Hcmp.
  fold l_ep l_parent l_child in Hcmp. specialize (Hcmp ltac:(lia)).
  case_if; case_decide; [| tauto | |done].
  - unfold set_field, oh_init_ep. cbn [snd fmap option_fmap option_map].
    cbn [Entry]. rewrite (child_copy ep l_child) by (done || (subst l_child l_ep; lia)). by destruct (ep_of_path _).
  - by destruct Hcmp as [_ Hcmp]; specialize (Hcmp H0).
Qed.

Lemma cmp_index_le ep : ep_wf ep -> (cmp_index (Entry ep) <= length (Entry ep))%nat.
Proof.
  unfold ep_wf, cmp_index. intros H. pose proof (root_index_le (Entry ep)).
  destruct (Nat.ltb_spec (root_index (Entry ep)) SAHPI_MAX_ENTITY_PATH); lia.
Qed.

Lemma cmp_ep_equiv ep1 ep2 :
  ep_wf ep1 -> ep_wf ep2 ->
  oh_cmp_ep (Some ep1) (Some ep2) = SAHPI_TRUE <-> ep_equiv ep1 ep2.
Proof.
  intros H1 H2. pose proof (cmp_index_le _ H1). pose proof (cmp_index_le _ H2).
  unfold oh_cmp_ep, ep_equiv.
  destruct (Nat.eqb_spec (cmp_index (Entry ep1)) (cmp_index (Entry ep2))) as [E|E]; simpl.
  - rewrite E, <- forallb_prefix by lia. case_if; consts; split; done.
  - consts. split; [done|]. intros F%(f_equal length). rewrite !length_take in F. lia.
Qed.

(** An entity path with canonical tail: after its view come {ROOT,0} elements. *)
Definition ep_canonical (ep : SaHpiEntityPathT) : Prop := ep = ep_of_path (ep_path ep).

Lemma ep_of_path_canonical p : path_ok p -> ep_canonical (ep_of_path p).
Proof. intros H. unfold ep_canonical. by rewrite ep_path_of_path. Qed.

(** On canonical paths, comparison is equality of the views. *)
Lemma ep_equiv_canonical p q :
  path_ok p -> path_ok q -> ep_equiv (ep_of_path p) (ep_of_path q) <-> p = q.
Proof.
  intros Hp Hq. split; [|by intros ->]. unfold ep_equiv.
  assert (Hcut : forall r, path_ok r ->
    take (cmp_index (Entry (ep_of_path r))) (Entry (ep_of_path r)) =
      if decide (length r = SAHPI_MAX_ENTITY_PATH) then r else r ++ [root_entity]).
  { intros r [Hr1 Hr2]. unfold cmp_index, ep_of_path. simpl.
    rewrite root_index_app, root_index_replicate, Nat.add_0_r by done.
    case_decide.
    - destruct (Nat.ltb_spec (length r) SAHPI_MAX_ENTITY_PATH); [lia|].
      by rewrite take_app_length.
    - destruct (Nat.ltb_spec (length r) SAHPI_MAX_ENTITY_PATH); [|lia].
      destruct (SAHPI_MAX_ENTITY_PATH - length r)%nat eqn:E; [lia|]. simpl.
      rewrite <- Nat.add_1_r, take_app_add. done. }
  rewrite !Hcut by done. destruct Hp as [_ Hp], Hq as [_ Hq].
  assert (Hlast : forall a b, Forall (fun e => is_root e = false) a -> a <> b ++ [root_entity]).
  { intros a b Ha ->. apply Forall_app in Ha as [_ Ha]. inversion Ha. discriminate. }
  repeat case_decide; intros E; [done| | |by apply app_inv_tail in E].
  - by apply Hlast in E.
  - symmetry in E. by apply Hlast in E.
Qed.

#[export] Instance ep_equiv_equivalence : Equivalence ep_equiv.
Proof. unfold ep_equiv. split; [done | by intros ? ? -> | by intros ? ? ? -> ->]. Qed.

Lemma set_location_view es et ei :
  et <> SAHPI_ENT_ROOT ->
  root_index (set_location_loop es et ei) = root_index es /\
  take (root_index es) (set_location_loop es et ei)
    = set_location_loop (take (root_index es) es) et ei.
Proof.
  intros Het. induction es as [|e es [IH1 IH2]]; simpl; [done|].
  assert (Hr : is_root (e <| EntityLocation := ei |>) = is_root e) by done.
  destruct (EntityType e =? et) eqn:E; simpl.
  - rewrite Hr. destruct (is_root e) eqn:Er; [|by simpl; rewrite E].
    unfold is_root in Er. zbool. congruence.
  - destruct (is_root e) eqn:Er; simpl; rewrite ?Er; [done|].
    rewrite ?E, ?Er, IH1, IH2. done.
Qed.

Lemma set_location_length es et ei : length (set_location_loop es et ei) = length es.
Proof. induction es; simpl; [done|]. case_ifs; simpl; congruence. Qed.

(** The reference reading of [oh_set_ep_location]: the first entry of type
    [et] gets location [ei]. *)
Lemma set_location_first p et ei :
  Forall (fun e => is_root e = false) p ->
  set_location_loop p et ei =
    match list_find (fun e => EntityType e = et) p with
    | Some (i, e) => <[i := e <| EntityLocation := ei |>]> p
    | None => p
    end.
Proof.
  induction 1 as [|e p He _ IH]; simpl; [done|].
  destruct (Z.eqb_spec (EntityType e) et); case_decide; try done.
  rewrite He, IH. by destruct (list_find _ p) as [[i x]|].
Qed.

(** * Properties *)

(** Round trip of concatenation and child extraction.  Appending a parent
    path to a non-empty child path that fits in 16 entries, with
    [oh_concat_ep], and asking [oh_get_child_ep] for the child under that
    parent gives [SA_OK] and exactly the child path back, padded with
    {ROOT,0}. *)
Theorem oh_get_child_ep_of_concat (c p : list SaHpiEntityT) (out : SaHpiEntityPathT) :
  path_ok (c ++ p) -> c <> [] ->
  exists whole,
    oh_concat_ep (Some (ep_of_path c)) (Some (ep_of_path p)) = (SA_OK, Some whole) /\
    ep_path whole = c ++ p /\
    oh_get_child_ep (Some whole) (Some (ep_of_path p)) (Some out)
      = (SA_OK, Some (ep_of_path c)).
Proof.
  intros [Hlen HF] Hc. apply Forall_app in HF as HF'. destruct HF' as [Hcr Hpr].
  rewrite length_app in Hlen.
  assert (path_ok c) as Hoc by (split; [lia|done]).
  assert (path_ok p) as Hop by (split; [lia|done]).
  destruct (concat_ep_view (ep_of_path c) (ep_of_path p)) as (w & Hw & Hwf & Hv);
    auto with hpi.
  rewrite !ep_path_of_path, take_ge in Hv by (done || rewrite length_app; lia).
  exists w. split; [done|]. split; [done|].
  rewrite get_child_ep_cases by auto with hpi. cbn zeta.
  rewrite Hv, ep_path_of_path, length_app by done.
  destruct c as [|x c]; [done|]. simpl length.
  rewrite !decide_False by lia.
  replace (S (length c) + length p - length p)%nat with (length (x :: c)) by (simpl; lia).
  by rewrite drop_app_length, take_app_length, decide_True.
Qed.

Lemma oh_get_child_ep_of_concat_witness :
  exists whole,
    oh_concat_ep (Some (ep_of_path [{| EntityType := 3; EntityLocation := 1 |}]))
                 (Some (ep_of_path [{| EntityType := 23; EntityLocation := 2 |}]))
      = (SA_OK, Some whole) /\
    ep_path whole = [{| EntityType := 3; EntityLocation := 1 |}] ++
                    [{| EntityType := 23; EntityLocation := 2 |}] /\
    oh_get_child_ep (Some whole)
        (Some (ep_of_path [{| EntityType := 23; EntityLocation := 2 |}])) (Some zero_ep)
      = (SA_OK, Some (ep_of_path [{| EntityType := 3; EntityLocation := 1 |}])).
Proof.
  apply oh_get_child_ep_of_concat; [|done].
  split; [vm_compute; lia | repeat constructor].
Defined.

(** [oh_get_child_ep] does not compare paths of equal length: for every
    pair of well-formed paths with as many entries, equal or not, it returns
    [SA_OK] with the empty child path.  (Its comment promises
    [SA_ERR_HPI_NOT_PRESENT] when the path does not consist of the parent and
    a child.) *)
Theorem oh_get_child_ep_same_length_unchecked (ep parent out : SaHpiEntityPathT) :
  ep_wf ep -> ep_wf parent -> length (ep_path ep) = length (ep_path parent) ->
  oh_get_child_ep (Some ep) (Some parent) (Some out) = (SA_OK, Some (ep_of_path [])).
Proof.
  intros Hep Hpar E. rewrite get_child_ep_cases by done. cbn zeta.
  by rewrite decide_False, decide_True by lia.
Qed.

Lemma oh_get_child_ep_same_length_unchecked_witness :
  let a := ep_of_path [{| EntityType := 3; EntityLocation := 1 |}] in
  let b := ep_of_path [{| EntityType := 4; EntityLocation := 9 |}] in
  oh_cmp_ep (Some a) (Some b) = SAHPI_FALSE /\
  oh_get_child_ep (Some a) (Some b) (Some zero_ep) = (SA_OK, Some (ep_of_path [])).
Proof.
  split; [reflexivity|]. by apply oh_get_child_ep_same_length_unchecked.
Defined.

(** [oh_cmp_ep] decides equality of entity paths: on paths whose tail is
    {ROOT,0} elements it returns [SAHPI_TRUE] exactly when the entries before
    the root are the same, and on arbitrary arrays of 16 entries it is an
    equivalence that compares the entries up to and including the first root. *)
Theorem oh_cmp_ep_decides (p q : list SaHpiEntityT) (a b : SaHpiEntityPathT) :
  path_ok p -> path_ok q -> ep_wf a -> ep_wf b ->
  (oh_cmp_ep (Some (ep_of_path p)) (Some (ep_of_path q)) = SAHPI_TRUE <-> p = q) /\
  (oh_cmp_ep (Some a) (Some b) = SAHPI_TRUE <-> ep_equiv a b).
Proof.
  intros Hp Hq Ha Hb. split; [|by apply cmp_ep_equiv].
  rewrite cmp_ep_equiv by auto with hpi. by apply ep_equiv_canonical.
Qed.

Lemma oh_cmp_ep_decides_witness :
  let p := [{| EntityType := 3; EntityLocation := 1 |}] in
  (oh_cmp_ep (Some (ep_of_path p)) (Some (ep_of_path [])) = SAHPI_TRUE <-> p = []) /\
  (oh_cmp_ep (Some zero_ep) (Some (ep_of_path p)) = SAHPI_TRUE <->
   ep_equiv zero_ep (ep_of_path p)).
Proof.
  apply oh_cmp_ep_decides; [| | reflexivity | reflexivity];
    (split; [vm_compute; lia | repeat constructor]).
Defined.
