(* ===== verification/EPathPattern.v ===== *)
(** Entity path patterns: the matcher of [utils/epath_utils.c]
    ([oh_match_entitypath_pattern] and its helpers).

    A pattern is an array of 17 tuples ending with a tuple of type
    [SAHPI_ENT_ROOT]; a tuple is a splat (zero or more entries of any kind) or
    a type and a location, each of which may be a dot (anything).
    [pattern_matches] is the meaning the comment of
    [oh_compile_entitypath_pattern] gives to patterns. *)
From S2P Require Import Prelude SaHpi EntityPath.

Definition OH_MAX_EP_TUPLES : nat := SAHPI_MAX_ENTITY_PATH + 1.
#[export] Hint Unfold OH_MAX_EP_TUPLES : hpi_const.

Record oh_entity_type_pattern := { etp_is_dot : Z; type : Z }.
Record oh_entity_location_pattern := { elp_is_dot : Z; location : Z }.
Record oh_entity_pattern := {
  is_splat : Z; etp : oh_entity_type_pattern; elp : oh_entity_location_pattern }.
Record oh_entitypath_pattern := { epattern : list oh_entity_pattern }.

Definition zero_entity_pattern : oh_entity_pattern :=
  {| is_splat := 0; etp := {| etp_is_dot := 0; type := 0 |};
     elp := {| elp_is_dot := 0; location := 0 |} |}.
#[export] Instance oh_entity_pattern_inhabited : Inhabited oh_entity_pattern :=
  populate zero_entity_pattern.

Definition ep_ended (ep : option SaHpiEntityPathT) (i : nat) : Z :=
  match ep with
  | None => 1
  | Some ep =>
      if (SAHPI_MAX_ENTITY_PATH <=? i)%nat then 1
      else if EntityType (Entry ep !!! i) =? SAHPI_ENT_ROOT then 1 else 0
  end.

Definition epp_ended (epp : option oh_entitypath_pattern) (j : nat) : Z :=
  match epp with
  | None => 1
  | Some epp =>
      if (OH_MAX_EP_TUPLES <=? j)%nat then 1
      else if negb (truthy (is_splat (epattern epp !!! j))) &&
              (type (etp (epattern epp !!! j)) =? SAHPI_ENT_ROOT) then 1 else 0
  end.

Definition matches (ep : option oh_entity_pattern) (e : option SaHpiEntityT) : Z :=
  match ep, e with
  | Some ep, Some e =>
      if truthy (is_splat ep) then 1
      else if negb (truthy (etp_is_dot (etp ep))) && negb (type (etp ep) =? EntityType e)
      then 0
      else if negb (truthy (elp_is_dot (elp ep))) &&
              negb (location (elp ep) =? EntityLocation e)
      then 0
      else 1
  | _, _ => 0
  end.

Definition dot_dot (p : oh_entity_pattern) : bool :=
  truthy (etp_is_dot (etp p)) && truthy (elp_is_dot (elp p)).

(** The [while (i < SAHPI_MAX_ENTITY_PATH)] loop, one recursive call per
    iteration; [None] when the fuel runs out. *)
Fixpoint match_loop (fuel : nat) (epp : oh_entitypath_pattern) (ep : SaHpiEntityPathT)
    (i j : nat) (splatmode : bool) : option Z :=
  match fuel with
  | 0%nat => None
  | S fuel =>
      let pj := epattern epp !!! j in
      if (i <? SAHPI_MAX_ENTITY_PATH)%nat then
        if truthy (is_splat pj) then
          if truthy (epp_ended (Some epp) (S j)) then Some SAHPI_TRUE
          else match_loop fuel epp ep i (S j) true
        else if truthy (matches (Some pj) (Some (Entry ep !!! i))) then
          let p_end := truthy (epp_ended (Some epp) (S j)) in
          let e_end := truthy (ep_ended (Some ep) (S i)) in
          if p_end && e_end then Some SAHPI_TRUE
          else if p_end && negb e_end then
            if dot_dot pj && splatmode then match_loop fuel epp ep (S i) j splatmode
            else Some SAHPI_FALSE
          else if e_end && negb p_end then
            if truthy (is_splat (epattern epp !!! S j)) &&
               truthy (epp_ended (Some epp) (S (S j)))
            then Some SAHPI_TRUE else Some SAHPI_FALSE
          else match_loop fuel epp ep (S i) (S j) (splatmode && dot_dot pj)
        else
          let i := if splatmode then S i else i in
          if negb splatmode || truthy (ep_ended (Some ep) i) then Some SAHPI_FALSE
          else match_loop fuel epp ep i j splatmode
      else Some SAHPI_TRUE
  end.

(** Each iteration increments [i] (at most 16 times) or [j] (at most 17). *)
Definition match_fuel : nat := 34.

Definition oh_match_entitypath_pattern (epp : option oh_entitypath_pattern)
    (ep : option SaHpiEntityPathT) : option Z :=
  match epp, ep with
  | Some epp, Some ep =>
      if EntityType (Entry ep !!! 0%nat) =? SAHPI_ENT_ROOT then Some SAHPI_FALSE
      else if negb (truthy (is_splat (epattern epp !!! 0%nat))) &&
              (type (etp (epattern epp !!! 0%nat)) =? SAHPI_ENT_ROOT)
      then Some SAHPI_FALSE
      else match_loop match_fuel epp ep 0 0 false
  | _, _ => Some SAHPI_FALSE
  end.

(** * What patterns mean *)

Definition tuple_matches (p : oh_entity_pattern) (e : SaHpiEntityT) : Prop :=
  (truthy (etp_is_dot (etp p)) = true \/ type (etp p) = EntityType e) /\
  (truthy (elp_is_dot (elp p)) = true \/ location (elp p) = EntityLocation e).

Inductive pattern_matches : list oh_entity_pattern -> list SaHpiEntityT -> Prop :=
| pm_nil : pattern_matches [] []
| pm_splat_none p ps es :
    truthy (is_splat p) = true ->
    pattern_matches ps es -> pattern_matches (p :: ps) es
| pm_splat_more p ps e es :
    truthy (is_splat p) = true ->
    pattern_matches (p :: ps) es -> pattern_matches (p :: ps) (e :: es)
| pm_tuple p ps e es :
    truthy (is_splat p) = false -> tuple_matches p e ->
    pattern_matches ps es -> pattern_matches (p :: ps) (e :: es).

(** A pattern as the C structure holds it, and its tuples before the end. *)
Definition epp_wf (epp : oh_entitypath_pattern) : Prop :=
  length (epattern epp) = OH_MAX_EP_TUPLES.

Definition pattern_end (p : oh_entity_pattern) : bool :=
  negb (truthy (is_splat p)) && (type (etp p) =? SAHPI_ENT_ROOT).

Fixpoint end_index (ps : list oh_entity_pattern) : nat :=
  match ps with
  | [] => 0
  | p :: rest => if pattern_end p then 0 else S (end_index rest)
  end.

Definition epp_tuples (epp : oh_entitypath_pattern) : list oh_entity_pattern :=
  take (end_index (epattern epp)) (epattern epp).

(** * Indices against the views *)

Lemma end_index_le ps : (end_index ps <= length ps)%nat.
Proof. induction ps as [|p ps IH]; simpl; [lia|]. destruct (pattern_end p); lia. Qed.

Lemma end_index_before ps j p :
  (j < end_index ps)%nat -> ps !! j = Some p -> pattern_end p = false.
Proof.
  revert j. induction ps as [|x ps IH]; simpl; [done|]. intros [|j];
    destruct (pattern_end x) eqn:E; simpl; intros; try lia; [congruence|].
  apply (IH j); [lia|done].
Qed.

Lemma end_index_at ps p : ps !! end_index ps = Some p -> pattern_end p = true.
Proof.
  induction ps as [|x ps IH]; simpl; [done|].
  destruct (pattern_end x) eqn:E; simpl; naive_solver.
Qed.

Lemma root_index_before es i e :
  (i < root_index es)%nat -> es !! i = Some e -> is_root e = false.
Proof.
  revert i. induction es as [|x es IH]; simpl; [done|]. intros [|i];
    destruct (is_root x) eqn:E; simpl; intros; try lia; [congruence|].
  apply (IH i); [lia|done].
Qed.

Lemma epp_tuples_length epp : length (epp_tuples epp) = end_index (epattern epp).
Proof. unfold epp_tuples. rewrite length_take_le; [done | apply end_index_le]. Qed.

Lemma ep_ended_spec ep i :
  ep_wf ep -> (i <= length (ep_path ep))%nat ->
  truthy (ep_ended (Some ep) i) = bool_decide (i = length (ep_path ep)).
Proof.
  unfold ep_wf, ep_ended. intros Hwf Hi. rewrite ep_path_length in *.
  pose proof (root_index_le (Entry ep)).
  destruct (Nat.leb_spec SAHPI_MAX_ENTITY_PATH i); [by rewrite bool_decide_true by (consts; lia)|].
  destruct (lookup_lt_is_Some_2 (Entry ep) i) as [e He]; [lia|].
  rewrite (list_lookup_total_correct _ _ _ He). fold (is_root e).
  destruct (decide (i = root_index (Entry ep))) as [->|Hne].
  - rewrite bool_decide_true by done. by rewrite (root_index_at _ _ He).
  - rewrite bool_decide_false by done. by rewrite (root_index_before (Entry ep) i e) by (done || lia).
Qed.

Lemma epp_ended_spec epp j :
  epp_wf epp -> (j <= length (epp_tuples epp))%nat ->
  truthy (epp_ended (Some epp) j) = bool_decide (j = length (epp_tuples epp)).
Proof.
  unfold epp_wf, epp_ended. intros Hwf Hj. rewrite epp_tuples_length in *.
  pose proof (end_index_le (epattern epp)).
  destruct (Nat.leb_spec OH_MAX_EP_TUPLES j); [by rewrite bool_decide_true by (consts; lia)|].
  destruct (lookup_lt_is_Some_2 (epattern epp) j) as [p Hp]; [lia|].
  rewrite (list_lookup_total_correct _ _ _ Hp). fold (pattern_end p).
  destruct (decide (j = end_index (epattern epp))) as [->|Hne].
  - rewrite bool_decide_true by done. by rewrite (end_index_at _ _ Hp).
  - rewrite bool_decide_false by done. by rewrite (end_index_before (epattern epp) j p) by (done || lia).
Qed.

Lemma matches_spec p e :
  truthy (is_splat p) = false ->
  truthy (matches (Some p) (Some e)) = true <-> tuple_matches p e.
Proof.
  intros Hs. unfold matches, tuple_matches. rewrite Hs.
  destruct (truthy (etp_is_dot (etp p))), (truthy (elp_is_dot (elp p))),
    (Z.eqb_spec (type (etp p)) (EntityType e)),
    (Z.eqb_spec (location (elp p)) (EntityLocation e)); simpl; split; intros H;
    try done; try (split; auto; fail); destruct H as [[?|?] [?|?]]; done.
Qed.


(** * Facts about pattern meaning *)

Lemma splat_all p es : truthy (is_splat p) = true -> pattern_matches [p] es.
Proof. intros Hp. induction es; eauto using pattern_matches. Qed.

(** A {.,.} tuple right after a splat only shifts what the splat takes. *)
Lemma splat_dot_dot s p ps e es :
  truthy (is_splat s) = true -> truthy (is_splat p) = false -> dot_dot p = true ->
  pattern_matches (s :: ps) es -> pattern_matches (s :: p :: ps) (e :: es).
Proof.
  intros Hs Hp Hd Hm.
  assert (Ht : forall e, tuple_matches p e).
  { intros x. unfold dot_dot in Hd. zbool. split; by left. }
  remember (s :: ps) as l eqn:El. revert e ps El.
  induction Hm; intros e' qs [= -> ->]; eauto using pattern_matches; congruence.
Qed.

(** * The loop *)

Section MatchLoop.
Context (epp : oh_entitypath_pattern) (ep : SaHpiEntityPathT).
Context (Hepp : epp_wf epp) (Hep : ep_wf ep).
Let P := epp_tuples epp.
Let E := ep_path ep.

Lemma epattern_at j p : P !! j = Some p -> epattern epp !!! j = p.
Proof.
  intros H. apply list_lookup_total_correct. subst P. unfold epp_tuples in H.
  by apply lookup_take_Some in H as [? _].
Qed.

Lemma entry_at i e : E !! i = Some e -> Entry ep !!! i = e.
Proof.
  intros H. apply list_lookup_total_correct. subst E. unfold ep_path in H.
  by apply lookup_take_Some in H as [? _].
Qed.

(** What a result [SAHPI_TRUE] from position [(i, j)] establishes; while
    [splatmode] is set the last splat may still take entries. *)
Definition remaining_match (i j : nat) (splatmode : bool) : Prop :=
  if splatmode then
    forall s, truthy (is_splat s) = true -> pattern_matches (s :: drop j P) (drop i E)
  else pattern_matches (drop j P) (drop i E).

Lemma tails i j e p :
  E !! i = Some e -> P !! j = Some p ->
  drop i E = e :: drop (S i) E /\ drop j P = p :: drop (S j) P.
Proof. intros. by rewrite <- !drop_S. Qed.

Ltac open_match He Hp :=
  destruct (tails _ _ _ _ He Hp) as [HE HP];
  unfold remaining_match; rewrite ?HE, ?HP.

Lemma rm_last_splat i j sm p :
  P !! j = Some p -> truthy (is_splat p) = true -> S j = length P ->
  remaining_match i j sm.
Proof.
  intros Hp Hs Hj. unfold remaining_match. rewrite (drop_S _ _ _ Hp), drop_ge by lia.
  destruct sm; [intros s Hss; apply pm_splat_none; [done|]|]; by apply splat_all.
Qed.

Lemma rm_splat i j sm p :
  P !! j = Some p -> truthy (is_splat p) = true ->
  remaining_match i (S j) true -> remaining_match i j sm.
Proof.
  unfold remaining_match. intros Hp Hs H. rewrite (drop_S _ _ _ Hp).
  destruct sm; [intros s Hss; apply pm_splat_none; [done|]|]; by apply H.
Qed.

Lemma rm_tuple i j sm e p :
  E !! i = Some e -> P !! j = Some p ->
  truthy (is_splat p) = false -> tuple_matches p e ->
  remaining_match (S i) (S j) (sm && dot_dot p) -> remaining_match i j sm.
Proof.
  intros He Hp Hs Ht. open_match He Hp.
  destruct sm; simpl; [destruct (dot_dot p) eqn:Hd|]; eauto using pattern_matches.
  intros H s Hss. by apply splat_dot_dot; [..|apply H].
Qed.

Lemma rm_ends i j sm e p :
  E !! i = Some e -> P !! j = Some p ->
  truthy (is_splat p) = false -> tuple_matches p e ->
  pattern_matches (drop (S j) P) (drop (S i) E) -> remaining_match i j sm.
Proof.
  intros He Hp Hs Ht H. open_match He Hp. destruct sm; eauto using pattern_matches.
Qed.

Lemma rm_skip i j e :
  E !! i = Some e -> remaining_match (S i) j true -> remaining_match i j true.
Proof.
  intros He. unfold remaining_match. rewrite (drop_S _ _ _ He).
  eauto using pattern_matches.
Qed.

Ltac no_match := exists SAHPI_FALSE; split_and!; [done | by right | discriminate].

Lemma match_loop_step fuel i j sm :
  (i < length E)%nat -> (j < length P)%nat ->
  (length E - i + (length P - j) < fuel)%nat ->
  exists r, match_loop fuel epp ep i j sm = Some r /\
    (r = SAHPI_TRUE \/ r = SAHPI_FALSE) /\
    (r = SAHPI_TRUE -> remaining_match i j sm).
Proof.
  revert i j sm. induction fuel as [|fuel IH]; intros i j sm Hi Hj Hf; [lia|].
  destruct (lookup_lt_is_Some_2 _ _ Hi) as [e He].
  destruct (lookup_lt_is_Some_2 _ _ Hj) as [p Hp].
  assert (length E <= SAHPI_MAX_ENTITY_PATH)%nat as HE16 by apply ep_path_ok, Hep.
  cbn [match_loop]. rewrite (epattern_at _ _ Hp), (entry_at _ _ He).
  destruct (Nat.ltb_spec i SAHPI_MAX_ENTITY_PATH); [|lia].
  rewrite (epp_ended_spec epp (S j)), (ep_ended_spec ep (S i)) by done. fold P E.
  destruct (truthy (is_splat p)) eqn:Hs.
  { case_bool_decide as Hend.
    - exists SAHPI_TRUE. eauto using rm_last_splat.
    - destruct (IH i (S j) true) as (r & ? & ? & ?); [lia..|].
      exists r. split_and!; eauto using rm_splat. }
  destruct (truthy (matches _ _)) eqn:Hm.
  - apply matches_spec in Hm; [|done].
    case_bool_decide as Hpe; case_bool_decide as Hee; cbn [andb negb].
    + exists SAHPI_TRUE. split; [done|]. split; [by left|]. intros _.
      eapply rm_ends; eauto. rewrite !drop_ge by lia. constructor.
    + destruct (dot_dot p && sm) eqn:Hd; [|by no_match].
      zbool. subst sm. destruct (IH (S i) j true) as (r & ? & ? & ?); [lia..|].
      exists r. split_and!; eauto using rm_skip.
    + destruct (lookup_lt_is_Some_2 P (S j)) as [q Hq]; [lia|].
      rewrite (epattern_at _ _ Hq), (epp_ended_spec epp (S (S j))) by (done || (fold P; lia)).
      fold P. destruct (truthy (is_splat q)) eqn:Hsq; cbn [andb];
        [|by no_match].
      case_bool_decide as Hqe; [|by no_match].
      exists SAHPI_TRUE. split; [done|]. split; [by left|]. intros _.
      eapply rm_ends; eauto. rewrite (drop_S _ _ _ Hq), !drop_ge by lia.
      by apply splat_all.
    + destruct (IH (S i) (S j) (sm && dot_dot p)) as (r & ? & ? & ?); [lia..|].
      exists r. split_and!; eauto using rm_tuple.
  - destruct sm; cbn [negb orb]; [|by no_match].
    rewrite (ep_ended_spec ep (S i)) by done. fold E. case_bool_decide as Hee.
    + by no_match.
    + destruct (IH (S i) j true) as (r & ? & ? & ?); [lia..|].
      exists r. split_and!; eauto using rm_skip.
Qed.

(** Without splats the loop compares tuple by tuple. *)
Lemma match_loop_no_splat fuel i j :
  Forall (fun p => truthy (is_splat p) = false) P ->
  (i < length E)%nat -> (j < length P)%nat -> (length E - i < fuel)%nat ->
  pattern_matches (drop j P) (drop i E) ->
  match_loop fuel epp ep i j false = Some SAHPI_TRUE.
Proof.
  intros Hns. revert i j. induction fuel as [|fuel IH]; intros i j Hi Hj Hf Hm; [lia|].
  destruct (lookup_lt_is_Some_2 _ _ Hi) as [e He].
  destruct (lookup_lt_is_Some_2 _ _ Hj) as [p Hp].
  assert (length E <= SAHPI_MAX_ENTITY_PATH)%nat as HE16 by apply ep_path_ok, Hep.
  cbn [match_loop]. rewrite (epattern_at _ _ Hp), (entry_at _ _ He).
  destruct (Nat.ltb_spec i SAHPI_MAX_ENTITY_PATH); [|lia].
  rewrite (epp_ended_spec epp (S j)), (ep_ended_spec ep (S i)) by done. fold P E.
  pose proof (Forall_lookup_1 _ _ _ _ Hns Hp) as Hs. simpl in Hs. rewrite Hs.
  destruct (tails _ _ _ _ He Hp) as [HE HP]. rewrite HE, HP in Hm.
  inversion Hm as [|? ? ? Hs' | ? ? ? ? Hs' | ? ? ? ? _ Ht Hm']; subst; try congruence.
  apply matches_spec in Ht; [|done]. rewrite Ht.
  case_bool_decide as Hpe; case_bool_decide as Hee; cbn [andb negb]; [done|..].
  - exfalso. rewrite (drop_ge P) in Hm' by lia.
    destruct (lookup_lt_is_Some_2 E (S i)) as [x Hx]; [lia|].
    rewrite (drop_S _ _ _ Hx) in Hm'. inversion Hm'.
  - exfalso. rewrite (drop_ge E) in Hm' by lia.
    destruct (lookup_lt_is_Some_2 P (S j)) as [q Hq]; [lia|].
    rewrite (drop_S _ _ _ Hq) in Hm'. inversion Hm' as [|? ? ? Hq' | |].
    pose proof (Forall_lookup_1 _ _ _ _ Hns Hq). simpl in *. congruence.
  - apply IH; [lia..|done].
Qed.
End MatchLoop.

(** * Properties *)

(** The tests on the first pattern tuple and the first entry. *)
Lemma match_guards epp ep :
  epp_wf epp -> ep_wf ep ->
  oh_match_entitypath_pattern (Some epp) (Some ep) =
    if decide (ep_path ep = [] \/ epp_tuples epp = []) then Some SAHPI_FALSE
    else match_loop match_fuel epp ep 0 0 false.
Proof.
  unfold epp_wf, ep_wf. intros Hp He. unfold oh_match_entitypath_pattern.
  destruct ep as [es], epp as [ps]. unfold ep_path, epp_tuples.
  cbn [Entry epattern] in *.
  destruct es as [|e es]; [discriminate He|]. destruct ps as [|p ps]; [discriminate Hp|].
  cbn [lookup_total list_lookup_total root_index end_index].
  change (EntityType e =? SAHPI_ENT_ROOT) with (is_root e).
  change (negb (truthy (is_splat p)) && (type (etp p) =? SAHPI_ENT_ROOT)) with (pattern_end p).
  destruct (is_root e), (pattern_end p); cbn [take];
    [rewrite decide_True by auto .. | rewrite decide_False by (by intros [?|?])]; reflexivity.
Qed.

(** C38: [oh_match_entitypath_pattern] terminates and is sound.  On every
    pattern and entity path (arrays of 17 tuples and 16 entries) the loop ends
    within 34 iterations with [SAHPI_TRUE] or [SAHPI_FALSE], and [SAHPI_TRUE]
    is only returned when the path is a non-empty path the pattern denotes. *)
Theorem oh_match_entitypath_pattern_sound (epp : oh_entitypath_pattern)
    (ep : SaHpiEntityPathT) :
  epp_wf epp -> ep_wf ep ->
  exists r, oh_match_entitypath_pattern (Some epp) (Some ep) = Some r /\
    (r = SAHPI_TRUE \/ r = SAHPI_FALSE) /\
    (r = SAHPI_TRUE -> ep_path ep <> [] /\ pattern_matches (epp_tuples epp) (ep_path ep)).
Proof.
  intros Hp He. rewrite match_guards by done. case_decide as Hd.
  { exists SAHPI_FALSE. split_and!; [done | by right | discriminate]. }
  assert (length (ep_path ep) <> 0%nat /\ length (epp_tuples epp) <> 0%nat) as [].
  { rewrite !length_zero_iff_nil. tauto. }
  pose proof (ep_path_ok ep He) as [? _]. pose proof (end_index_le (epattern epp)).
  pose proof (epp_tuples_length epp). unfold epp_wf in *.
  destruct (match_loop_step epp ep Hp He match_fuel 0 0 false) as (r & Hr & Hb & Hs);
    [lia | lia | unfold match_fuel; consts; lia |].
  exists r. split_and!; [done..|]. intros ->. split; [tauto|]. by apply Hs.
Qed.

Definition sample_pattern : oh_entitypath_pattern :=
  {| epattern :=
       [ {| is_splat := 0; etp := {| etp_is_dot := 0; type := 3 |};
            elp := {| elp_is_dot := 1; location := 0 |} |};
         {| is_splat := 1; etp := {| etp_is_dot := 0; type := 0 |};
            elp := {| elp_is_dot := 0; location := 0 |} |};
         {| is_splat := 0; etp := {| etp_is_dot := 0; type := SAHPI_ENT_ROOT |};
            elp := {| elp_is_dot := 0; location := 0 |} |} ]
       ++ replicate 14 zero_entity_pattern |}.

Lemma oh_match_entitypath_pattern_sound_witness :
  let ep := ep_of_path [ {| EntityType := 3; EntityLocation := 1 |};
                         {| EntityType := 23; EntityLocation := 2 |} ] in
  oh_match_entitypath_pattern (Some sample_pattern) (Some ep) = Some SAHPI_TRUE /\
  exists r, oh_match_entitypath_pattern (Some sample_pattern) (Some ep) = Some r /\
    (r = SAHPI_TRUE \/ r = SAHPI_FALSE) /\
    (r = SAHPI_TRUE -> ep_path ep <> [] /\ pattern_matches (epp_tuples sample_pattern) (ep_path ep)).
Proof.
  split; [vm_compute; reflexivity|].
  apply oh_match_entitypath_pattern_sound; vm_compute; reflexivity.
Defined.

(** On patterns without splats the matcher is exact: it returns
    [SAHPI_TRUE] for a non-empty path precisely when the pattern denotes it. *)
Theorem oh_match_entitypath_pattern_exact (epp : oh_entitypath_pattern)
    (ep : SaHpiEntityPathT) :
  epp_wf epp -> ep_wf ep ->
  Forall (fun p => truthy (is_splat p) = false) (epp_tuples epp) ->
  oh_match_entitypath_pattern (Some epp) (Some ep) = Some SAHPI_TRUE <->
  ep_path ep <> [] /\ pattern_matches (epp_tuples epp) (ep_path ep).
Proof.
  intros Hp He Hns. rewrite match_guards by done.
  assert (Hz : length (ep_path ep) <> 0%nat <-> ep_path ep <> []) by
    (by rewrite length_zero_iff_nil).
  assert (Hz' : length (epp_tuples epp) <> 0%nat <-> epp_tuples epp <> []) by
    (by rewrite length_zero_iff_nil).
  pose proof (ep_path_ok ep He) as [? _]. pose proof (end_index_le (epattern epp)).
  pose proof (epp_tuples_length epp). unfold epp_wf in *.
  case_decide as Hd; split.
  - discriminate.
  - intros [Hne Hm]. destruct Hd as [|Hnil]; [done|].
    rewrite Hnil in Hm. inversion Hm. congruence.
  - intros Ht. split; [tauto|].
    assert (length (ep_path ep) <> 0%nat /\ length (epp_tuples epp) <> 0%nat) as [] by tauto.
    destruct (match_loop_step epp ep Hp He match_fuel 0 0 false) as (r & Hr & Hb & Hs);
      [lia | lia | unfold match_fuel; consts; lia |].
    rewrite Ht in Hr. simplify_eq. by apply Hs.
  - intros [Hne Hm].
    assert (length (ep_path ep) <> 0%nat /\ length (epp_tuples epp) <> 0%nat) as [] by tauto.
    apply match_loop_no_splat; try done; [lia | lia |]. unfold match_fuel; consts; lia.
Qed.

Definition dot_pattern : oh_entitypath_pattern :=
  {| epattern :=
       [ {| is_splat := 0; etp := {| etp_is_dot := 0; type := 3 |};
            elp := {| elp_is_dot := 1; location := 0 |} |};
         {| is_splat := 0; etp := {| etp_is_dot := 0; type := SAHPI_ENT_ROOT |};
            elp := {| elp_is_dot := 0; location := 0 |} |} ]
       ++ replicate 15 zero_entity_pattern |}.

Lemma oh_match_entitypath_pattern_exact_witness :
  let ep := ep_of_path [ {| EntityType := 3; EntityLocation := 1 |} ] in
  oh_match_entitypath_pattern (Some dot_pattern) (Some ep) = Some SAHPI_TRUE <->
  ep_path ep <> [] /\ pattern_matches (epp_tuples dot_pattern) (ep_path ep).
Proof.
  apply oh_match_entitypath_pattern_exact; [vm_compute; reflexivity..|].
  vm_compute. repeat constructor.
Defined.

(** The tuple {t,l} of a pattern. *)
Definition exact_tuple (t l : Z) : oh_entity_pattern :=
  {| is_splat := 0; etp := {| etp_is_dot := 0; type := t |};
     elp := {| elp_is_dot := 0; location := l |} |}.

(** With a splat the matcher misses matches, because it does not
    backtrack: the pattern *{a}{b} (read from the end of the path) denotes the
    path {a}{a}{b}, whatever the two distinct tuples are, and the matcher
    rejects it. *)
Theorem oh_match_entitypath_pattern_misses (ta la tb lb : Z) :
  ta <> SAHPI_ENT_ROOT -> tb <> SAHPI_ENT_ROOT -> ta <> tb ->
  let epp := {| epattern :=
       {| is_splat := 1; etp := etp zero_entity_pattern; elp := elp zero_entity_pattern |}
       :: exact_tuple ta la :: exact_tuple tb lb :: exact_tuple SAHPI_ENT_ROOT 0
       :: replicate 13 zero_entity_pattern |} in
  let a := {| EntityType := ta; EntityLocation := la |} in
  let b := {| EntityType := tb; EntityLocation := lb |} in
  pattern_matches (epp_tuples epp) (ep_path (ep_of_path [a; a; b])) /\
  oh_match_entitypath_pattern (Some epp) (Some (ep_of_path [a; a; b])) = Some SAHPI_FALSE.
Proof.
  intros Ha Hb Hab epp a b.
  assert ((ta =? SAHPI_ENT_ROOT) = false) as Ea by by apply Z.eqb_neq.
  assert ((tb =? SAHPI_ENT_ROOT) = false) as Eb by by apply Z.eqb_neq.
  split.
  - rewrite ep_path_of_path by
      (split; [vm_compute; lia | repeat constructor; unfold is_root; done]).
    assert (epp_tuples epp = [ {| is_splat := 1; etp := etp zero_entity_pattern;
      elp := elp zero_entity_pattern |}; exact_tuple ta la; exact_tuple tb lb ]) as ->.
    { unfold epp_tuples, epp. cbn [epattern end_index]. unfold pattern_end, exact_tuple.
      cbn [is_splat etp type truthy negb andb]. rewrite Ea, Eb. done. }
    apply pm_splat_more; [done|]. apply pm_splat_none; [done|].
    repeat (apply pm_tuple; [done | split; by right |]). constructor.
  - unfold oh_match_entitypath_pattern, ep_of_path, epp, a, b.
    change match_fuel with (S (S (S (match_fuel - 3)))).
    generalize (match_fuel - 3)%nat as f. intros f.
    assert ((ta =? tb) = false) as Eab by by apply Z.eqb_neq.
    assert ((tb =? ta) = false) as Eba by (apply Z.eqb_neq; congruence).
    unfold exact_tuple, zero_entity_pattern.
    repeat (cbn -[Z.eqb SAHPI_ENT_ROOT match_loop replicate];
      rewrite ?Ea, ?Eb, ?Eab, ?Eba, ?Z.eqb_refl; cbn [match_loop]).
    reflexivity.
Qed.

Lemma oh_match_entitypath_pattern_misses_witness :
  let epp := {| epattern :=
       {| is_splat := 1; etp := etp zero_entity_pattern; elp := elp zero_entity_pattern |}
       :: exact_tuple 3 1 :: exact_tuple 23 2 :: exact_tuple SAHPI_ENT_ROOT 0
       :: replicate 13 zero_entity_pattern |} in
  let a := {| EntityType := 3; EntityLocation := 1 |} in
  let b := {| EntityType := 23; EntityLocation := 2 |} in
  pattern_matches (epp_tuples epp) (ep_path (ep_of_path [a; a; b])) /\
  oh_match_entitypath_pattern (Some epp) (Some (ep_of_path [a; a; b])) = Some SAHPI_FALSE.
Proof. by apply oh_match_entitypath_pattern_misses. Defined.
