(* ===== verification/Rpt.v ===== *)
(** The Resource Presence Table: [utils/rpt_utils.c].

    A table ([RPTable]) is a list of resources ([RPTEntry]) indexed by resource
    id; each resource has a list of Resource Data Records ([RDRecord]) indexed
    by record id.  Both are instances of the container of [GIndex].  A private
    data pointer is the integer value of the pointer, [0] being [NULL]; the
    pointers given to [g_free] are collected in the ghost field [freed], and
    [alloc] is the next unused node address.

    The abstract view [rpt_view] of a table is the list of its resources, each
    with the list of its RDRs; the refinement theorems at the end relate the
    operations to list operations on that view. *)
From S2P Require Import Prelude SaHpi GIndex EntityPath.

Record RDRecord := { rdr : SaHpiRdrT; rdr_owndata : Z; rdr_data : Z }.
#[export] Instance eta_rdrecord : Eta RDRecord :=
  fun x => Build_RDRecord (rdr x) (rdr_owndata x) (rdr_data x).

Record RPTEntry := {
  rpt_entry : SaHpiRptEntryT; owndata : Z; data : Z; update_count : Z;
  rdrlist : list (nat * RDRecord); rdrtable : option (gmap Z nat) }.
#[export] Instance eta_rptentry : Eta RPTEntry := fun x =>
  Build_RPTEntry (rpt_entry x) (owndata x) (data x) (update_count x)
    (rdrlist x) (rdrtable x).

Record RPTable := {
  table_update_count : Z; update_timestamp : Z;
  rptlist : list (nat * RPTEntry); rptable : option (gmap Z nat);
  alloc : nat; freed : list Z }.
#[export] Instance eta_rptable : Eta RPTable := fun x =>
  Build_RPTable (table_update_count x) (update_timestamp x) (rptlist x)
    (rptable x) (alloc x) (freed x).

(** The keys of the two indexes: the hash tables are keyed by a pointer to
    these fields of the records. *)
Definition rpt_key (e : RPTEntry) : Z := EntryId (rpt_entry e).
Definition rdr_key (r : RDRecord) : Z := RecordId (rdr r).

(** [g_new0] *)
Definition new_rptentry : RPTEntry :=
  {| rpt_entry := zero_rpt_entry; owndata := 0; data := 0; update_count := 0;
     rdrlist := []; rdrtable := None |}.
Definition new_rdrecord : RDRecord :=
  {| rdr := zero_rdr; rdr_owndata := 0; rdr_data := 0 |}.

(** [g_free]: of [NULL] it does nothing. *)
Definition g_free (p : Z) (t : RPTable) : RPTable :=
  if p =? 0 then t else t <| freed ::= fun l => l ++ [p] |>.

(** * Lookups *)

Definition get_rptentry_by_rid (table : option RPTable) (rid : Z)
    : option (nat * RPTEntry) :=
  match table with
  | None => None
  | Some t =>
      match rptlist t with
      | [] => None
      | first :: _ =>
          if rid =? SAHPI_FIRST_ENTRY then Some first
          else ht_lookup rpt_key (rptlist t) (rptable t) rid
      end
  end.

Definition get_rptnode_by_rid (table : option RPTable) (rid : Z)
    : option (nat * RPTEntry) :=
  match table with
  | None => None
  | Some t =>
      match rptlist t with
      | [] => None
      | first :: _ =>
          if rid =? SAHPI_FIRST_ENTRY then Some first
          else ht_lookup rpt_key (rptlist t) (rptable t) rid
      end
  end.

Definition get_rdrecord_by_id (rptentry : option RPTEntry) (id : Z)
    : option (nat * RDRecord) :=
  match rptentry with
  | None => None
  | Some e =>
      match rdrlist e with
      | [] => None
      | first :: _ =>
          if id =? SAHPI_FIRST_ENTRY then Some first
          else ht_lookup rdr_key (rdrlist e) (rdrtable e) id
      end
  end.

Definition get_rdrnode_by_id (rptentry : option RPTEntry) (id : Z)
    : option (nat * RDRecord) :=
  match rptentry with
  | None => None
  | Some e =>
      match rdrlist e with
      | [] => None
      | first :: _ =>
          if id =? SAHPI_FIRST_ENTRY then Some first
          else ht_lookup rdr_key (rdrlist e) (rdrtable e) id
      end
  end.

Definition SENSOR_AGGREGATE_MAX : Z := 0x0000010F.

Definition check_instrument_id (rptentry : SaHpiRptEntryT) (r : SaHpiRdrT) : Z :=
  if RdrType r =? SAHPI_SENSOR_RDR then
    let num := Num (RdrTypeUnion r) in
    if (SAHPI_STANDARD_SENSOR_MIN <=? num) && (num <=? SAHPI_STANDARD_SENSOR_MAX) then
      if SENSOR_AGGREGATE_MAX <? num then -1
      else if truthy (Z.land (ResourceCapabilities rptentry)
                             SAHPI_CAPABILITY_AGGREGATE_STATUS) then 0
      else -1
    else 0
  else 0.

Definition update_rptable (now : Z) (t : RPTable) : RPTable :=
  t <| update_timestamp := now |> <| table_update_count ::= fun c => u32 (c + 1) |>.

Definition oh_get_rdr_uid (type num : Z) : Z :=
  let uid := u32 (Z.shiftl (u32 type) 16) in
  u32 (uid + num).

Definition oh_get_rdr_num (rdrid : Z) : Z := Z.land rdrid 0x0000ffff.

Definition oh_get_instrument_id (r : SaHpiRdrT) : Z :=
  if (RdrType r =? SAHPI_CTRL_RDR) || (RdrType r =? SAHPI_SENSOR_RDR)
     || (RdrType r =? SAHPI_INVENTORY_RDR) || (RdrType r =? SAHPI_WATCHDOG_RDR)
     || (RdrType r =? SAHPI_ANNUNCIATOR_RDR) || (RdrType r =? SAHPI_DIMI_RDR)
     || (RdrType r =? SAHPI_FUMI_RDR)
  then Num (RdrTypeUnion r) else 0.

Definition oh_get_resource_data (table : option RPTable) (rid : Z) : Z :=
  match get_rptentry_by_rid table rid with
  | None => 0
  | Some (_, e) => data e
  end.

Definition oh_get_resource_by_id (table : option RPTable) (rid : Z)
    : option SaHpiRptEntryT :=
  match get_rptentry_by_rid table rid with
  | None => None
  | Some (_, e) => Some (rpt_entry e)
  end.

Definition oh_get_resource_next (table : option RPTable) (rid_prev : Z)
    : option SaHpiRptEntryT :=
  let rptentry :=
    if rid_prev =? SAHPI_FIRST_ENTRY then get_rptentry_by_rid table rid_prev
    else match table, get_rptnode_by_rid table rid_prev with
         | Some t, Some (n, _) => next_of (rptlist t) n
         | _, _ => None
         end in
  (rpt_entry ∘ snd) <$> rptentry.

Definition oh_get_rdr_update_count (table : option RPTable) (rid : Z)
    (count : option Z) : Z * option Z :=
  match get_rptentry_by_rid table rid with
  | None => (SA_ERR_HPI_NOT_PRESENT, count)
  | Some (_, e) =>
      match count with
      | None => (SA_ERR_HPI_INVALID_PARAMS, count)
      | Some _ => (SA_OK, Some (update_count e))
      end
  end.

Definition oh_get_rdr_data (table : option RPTable) (rid rdrid : Z) : Z :=
  match get_rptentry_by_rid table rid with
  | None => 0
  | Some (_, e) =>
      match get_rdrecord_by_id (Some e) rdrid with
      | None => 0
      | Some (_, r) => rdr_data r
      end
  end.

Definition oh_get_rdr_by_id (table : option RPTable) (rid rdrid : Z)
    : option SaHpiRdrT :=
  match get_rptentry_by_rid table rid with
  | None => None
  | Some (_, e) =>
      match get_rdrecord_by_id (Some e) rdrid with
      | None => None
      | Some (_, r) => Some (rdr r)
      end
  end.

Definition oh_get_rdr_by_type (table : option RPTable) (rid type num : Z)
    : option SaHpiRdrT :=
  match get_rptentry_by_rid table rid with
  | None => None
  | Some (_, e) =>
      let rdr_uid := oh_get_rdr_uid type num in
      match get_rdrecord_by_id (Some e) rdr_uid with
      | None => None
      | Some (_, r) => Some (rdr r)
      end
  end.

Definition oh_get_rdr_next (table : option RPTable) (rid rdrid_prev : Z)
    : option SaHpiRdrT :=
  match get_rptentry_by_rid table rid with
  | None => None
  | Some (_, e) =>
      let rdrecord :=
        if rdrid_prev =? SAHPI_FIRST_ENTRY then get_rdrecord_by_id (Some e) rdrid_prev
        else match get_rdrnode_by_id (Some e) rdrid_prev with
             | Some (n, _) => next_of (rdrlist e) n
             | None => None
             end in
      (rdr ∘ snd) <$> rdrecord
  end.

(** [for (node = ...; node; node = node->next)
       if (temp->rdr.RdrType == type) break;] *)
Definition first_of_type (type : Z) (l : list (nat * RDRecord)) : option SaHpiRdrT :=
  (rdr ∘ snd) <$> List.find (fun p => RdrType (rdr p.2) =? type) l.

Definition oh_get_rdr_by_type_first (table : option RPTable) (rid type : Z)
    : option SaHpiRdrT :=
  match get_rptentry_by_rid table rid with
  | None => None
  | Some (_, e) => first_of_type type (rdrlist e)
  end.

(** The nodes after a node of the list. *)
Fixpoint nodes_after {A} (l : list (nat * A)) (n : nat) : list (nat * A) :=
  match l with
  | [] => []
  | p :: l => if Nat.eqb p.1 n then l else nodes_after l n
  end.

Definition oh_get_rdr_by_type_next (table : option RPTable) (rid type num : Z)
    : option SaHpiRdrT :=
  match get_rptentry_by_rid table rid with
  | None => None
  | Some (_, e) =>
      match get_rdrnode_by_id (Some e) (oh_get_rdr_uid type num) with
      | None => None
      | Some (n, _) => first_of_type type (nodes_after (rdrlist e) n)
      end
  end.

(** What [oh_get_resource_by_ep] needs of the unique id table
    ([utils/uid_utils.c], file [Uid]). *)
Class UidLookup := {
  oh_uid_is_initialized : bool;
  oh_uid_lookup : option SaHpiEntityPathT -> Z }.

Definition oh_get_resource_by_ep `{UidLookup} (table : option RPTable)
    (ep : option SaHpiEntityPathT) : option SaHpiRptEntryT :=
  match table with
  | None => None
  | Some t =>
      let rid := if oh_uid_is_initialized then oh_uid_lookup ep else 0 in
      if 0 <? rid then oh_get_resource_by_id table rid
      else (rpt_entry ∘ snd) <$>
             List.find (fun p =>
               truthy (oh_cmp_ep (Some (ResourceEntity (rpt_entry p.2))) ep)) (rptlist t)
  end.

Definition oh_get_rpt_info (table : option RPTable) (count timestamp : option Z)
    : Z * option Z * option Z :=
  match table, count, timestamp with
  | Some t, Some _, Some _ =>
      (SA_OK, Some (table_update_count t), Some (update_timestamp t))
  | _, _, _ => (SA_ERR_HPI_INVALID_PARAMS, count, timestamp)
  end.

(** * Updates *)

Definition oh_init_rpt (table : option RPTable) : Z * option RPTable :=
  match table with
  | None => (SA_ERR_HPI_INVALID_PARAMS, None)
  | Some t =>
      (SA_OK, Some (t <| update_timestamp := SAHPI_TIME_UNSPECIFIED |>
                      <| table_update_count := 0 |>
                      <| rptlist := [] |> <| rptable := None |>))
  end.

(** [if (x->data && x->data != data && !x->owndata) g_free(x->data);] *)
Definition release_old_data (old owned new : Z) (t : RPTable) : RPTable :=
  if truthy old && negb (old =? new) && negb (truthy owned) then g_free old t else t.

Definition oh_add_resource (now : Z) (table : option RPTable)
    (entry : option SaHpiRptEntryT) (dat own : Z)
    : Z * option RPTable * option SaHpiRptEntryT :=
  match table, entry with
  | None, _ | _, None => (SA_ERR_HPI_INVALID_PARAMS, table, entry)
  | Some t, Some en =>
      if ResourceId en =? SAHPI_FIRST_ENTRY then (SA_ERR_HPI_INVALID_PARAMS, table, entry)
      else if ResourceId en =? SAHPI_UNSPECIFIED_RESOURCE_ID
      then (SA_ERR_HPI_INVALID_PARAMS, table, entry)
      else if negb (truthy (oh_valid_ep (ResourceEntity en)))
      then (SA_ERR_HPI_INVALID_PARAMS, table, entry)
      else
        let en := en <| EntryId := ResourceId en |> in
        let '(update_info, t, n, rptentry) :=
          match get_rptentry_by_rid (Some t) (ResourceId en) with
          | Some (n, e) => (false, t, n, e)
          | None =>
              let n := alloc t in
              let e := new_rptentry <| rpt_entry ::= fun r => r <| EntryId := ResourceId en |> |> in
              (true,
               t <| alloc := S n |>
                 <| rptlist ::= fun l => l ++ [(n, e)] |>
                 <| rptable ::= fun h => ht_insert h (EntryId (rpt_entry e)) n |>,
               n, e)
          end in
        let t := release_old_data (data rptentry) (owndata rptentry) dat t in
        let update_info := update_info || negb (bool_decide (en = rpt_entry rptentry)) in
        let t := t <| rptlist ::= fun l => store_at l n (fun e =>
                        let e := e <| data := dat |> <| owndata := own |> in
                        if update_info then e <| rpt_entry := en |> else e) |> in
        let t := if update_info then update_rptable now t else t in
        (SA_OK, Some t, Some en)
  end.

(** An assignment to fields of the resource whose node is [n]. *)
Definition set_entry (n : nat) (f : RPTEntry -> RPTEntry) (t : RPTable) : RPTable :=
  t <| rptlist ::= fun l => store_at l n f |>.

Definition oh_add_rdr (table : option RPTable) (rid : Z) (record : option SaHpiRdrT)
    (dat own : Z) : Z * option RPTable * option SaHpiRdrT :=
  match record with
  | None => (SA_ERR_HPI_INVALID_PARAMS, table, record)
  | Some r =>
      match table, get_rptentry_by_rid table rid with
      | Some t, Some (n, e) =>
          if truthy (check_instrument_id (rpt_entry e) r)
          then (SA_ERR_HPI_INVALID_PARAMS, table, record)
          else
            let instr_id := oh_get_instrument_id r in
            let r := r <| RecordId := oh_get_rdr_uid (RdrType r) instr_id |> in
            let '(t, m, rdrecord) :=
              match get_rdrecord_by_id (Some e) (RecordId r) with
              | Some (m, d) => (t, m, d)
              | None =>
                  let m := alloc t in
                  let d := new_rdrecord <| rdr ::= fun x => x <| RecordId := RecordId r |> |> in
                  (set_entry n (fun e =>
                      e <| rdrlist ::= fun l => l ++ [(m, d)] |>
                        <| rdrtable ::= fun h => ht_insert h (RecordId (rdr d)) m |>)
                     (t <| alloc := S m |>), m, d)
              end in
            let t := release_old_data (rdr_data rdrecord) (rdr_owndata rdrecord) dat t in
            let t := set_entry n (fun e =>
                e <| rdrlist ::= fun l => store_at l m (fun d =>
                        d <| rdr_data := dat |> <| rdr_owndata := own |> <| rdr := r |>) |>
                  <| update_count ::= fun c => u32 (c + 1) |>) t in
            (SA_OK, Some t, Some r)
      | _, _ => (SA_ERR_HPI_NOT_PRESENT, table, record)
      end
  end.

Definition oh_remove_rdr (table : option RPTable) (rid rdrid : Z) : Z * option RPTable :=
  match table, get_rptentry_by_rid table rid with
  | Some t, Some (n, e) =>
      match get_rdrecord_by_id (Some e) rdrid with
      | None => (SA_ERR_HPI_NOT_PRESENT, table)
      | Some (m, d) =>
          let t := if truthy (rdr_owndata d) then t else g_free (rdr_data d) t in
          let t := set_entry n (fun e =>
              let l := remove_at (rdrlist e) m in
              e <| rdrlist := l |>
                <| rdrtable ::= fun h => ht_remove l h (RecordId (rdr d)) |>
                <| update_count ::= fun c => u32 (c + 1) |>) t in
          (SA_OK, Some t)
      end
  | _, _ => (SA_ERR_HPI_NOT_PRESENT, table)
  end.

(** [while ((tmp_rdr = oh_get_rdr_by_id(table, rid, SAHPI_FIRST_ENTRY)) != NULL)
       oh_remove_rdr(table, rid, SAHPI_FIRST_ENTRY);] *)
Fixpoint remove_rdrs_loop (fuel : nat) (t : RPTable) (rid : Z) : RPTable :=
  match fuel with
  | 0%nat => t
  | S fuel =>
      match oh_get_rdr_by_id (Some t) rid SAHPI_FIRST_ENTRY with
      | None => t
      | Some _ =>
          remove_rdrs_loop fuel
            (default t (snd (oh_remove_rdr (Some t) rid SAHPI_FIRST_ENTRY))) rid
      end
  end.

Definition oh_remove_resource (now : Z) (table : option RPTable) (rid : Z)
    : Z * option RPTable :=
  match table, get_rptentry_by_rid table rid with
  | Some t, Some (n, e) =>
      let t := remove_rdrs_loop (length (rdrlist e)) t rid in
      let t := if truthy (owndata e) then t else g_free (data e) t in
      let l := remove_at (rptlist t) n in
      let t := t <| rptlist := l |>
                 <| rptable ::= fun h => ht_remove l h (EntryId (rpt_entry e)) |> in
      (SA_OK, Some (update_rptable now t))
  | _, _ => (SA_ERR_HPI_NOT_PRESENT, table)
  end.

(** [while ((tmp_entry = oh_get_resource_by_id(table, SAHPI_FIRST_ENTRY)) != NULL)
       oh_remove_resource(table, SAHPI_FIRST_ENTRY);]
    [clock i] is the time read in the call of the [i]-th iteration from the end. *)
Fixpoint flush_loop (fuel : nat) (clock : nat -> Z) (table : option RPTable)
    : option RPTable :=
  match fuel with
  | 0%nat => table
  | S fuel =>
      match oh_get_resource_by_id table SAHPI_FIRST_ENTRY with
      | None => table
      | Some _ =>
          flush_loop fuel clock
            (snd (oh_remove_resource (clock fuel) table SAHPI_FIRST_ENTRY))
      end
  end.

Definition oh_flush_rpt (clock : nat -> Z) (table : option RPTable) : Z * option RPTable :=
  let fuel := match table with None => 0%nat | Some t => length (rptlist t) end in
  (SA_OK, flush_loop fuel clock table).

(** * Comparing two tables *)

(** [for (x = ...; x != NULL; x = next(x)) body]; [None] when the fuel does not
    last to the end of the loop. *)
Fixpoint for_loop {X S} (fuel : nat) (next : X -> option X) (body : S -> X -> option S)
    (x : option X) (s : S) : option S :=
  match x with
  | None => Some s
  | Some x =>
      match fuel with
      | 0%nat => None
      | S fuel => s ← body s x; for_loop fuel next body (next x) s
      end
  end.

Record DiffLists := {
  res_new : list SaHpiRptEntryT; rdr_new : list SaHpiRdrT;
  res_gone : list SaHpiRptEntryT; rdr_gone : list SaHpiRdrT }.
#[export] Instance eta_difflists : Eta DiffLists := fun x =>
  Build_DiffLists (res_new x) (rdr_new x) (res_gone x) (rdr_gone x).

(** Iterations needed by the loops over the resources of a table and over the
    RDRs of a resource. *)
Definition res_fuel (t : RPTable) : nat := length (rptlist t).
Definition rdr_fuel (t : RPTable) (rid : Z) : nat :=
  match get_rptentry_by_rid (Some t) rid with
  | None => 0
  | Some (_, e) => length (rdrlist e)
  end.

Definition for_each_resource {S} (t : RPTable)
    (body : S -> SaHpiRptEntryT -> option S) (s : S) : option S :=
  for_loop (res_fuel t) (fun res => oh_get_resource_next (Some t) (ResourceId res)) body
    (oh_get_resource_by_id (Some t) SAHPI_FIRST_ENTRY) s.

Definition for_each_rdr {S} (t : RPTable) (rid : Z)
    (body : S -> SaHpiRdrT -> option S) (s : S) : option S :=
  for_loop (rdr_fuel t rid) (fun r => oh_get_rdr_next (Some t) rid (RecordId r)) body
    (oh_get_rdr_by_id (Some t) rid SAHPI_FIRST_ENTRY) s.

(** The body of the loop that looks for absent resources and RDRs. *)
Definition diff_gone (cur new : RPTable) (d : DiffLists) (res : SaHpiRptEntryT)
    : option DiffLists :=
  match oh_get_resource_by_id (Some new) (ResourceId res) with
  | None => Some (d <| res_gone ::= fun l => l ++ [res] |>)
  | Some _ =>
      for_each_rdr cur (ResourceId res) (fun d r =>
        Some match oh_get_rdr_by_id (Some new) (ResourceId res) (RecordId r) with
             | None => d <| rdr_gone ::= fun l => l ++ [r] |>
             | Some _ => d
             end) d
  end.

(** The body of the loop that looks for new resources and RDRs; [memcmp] is
    equality of the records. *)
Definition diff_new (cur new : RPTable) (d : DiffLists) (res : SaHpiRptEntryT)
    : option DiffLists :=
  let tmp_res := oh_get_resource_by_id (Some cur) (ResourceId res) in
  let d := if bool_decide (tmp_res = Some res) then d
           else d <| res_new ::= fun l => l ++ [res] |> in
  for_each_rdr new (ResourceId res) (fun d r =>
    let tmp_rdr := match tmp_res with
                   | None => None
                   | Some _ => oh_get_rdr_by_id (Some cur) (ResourceId res) (RecordId r)
                   end in
    Some (if bool_decide (tmp_rdr = Some r) then d
          else d <| rdr_new ::= fun l => l ++ [r] |>)) d.

(** [lists] is [None] when one of the four list pointers is [NULL].  The outer
    [option] is [None] if a loop does not end within its fuel. *)
Definition rpt_diff (cur_rpt new_rpt : option RPTable) (lists : option DiffLists)
    : option (Z * option DiffLists) :=
  match cur_rpt, new_rpt, lists with
  | Some cur, Some new, Some d =>
      d ← for_each_resource cur (diff_gone cur new) d;
      d ← for_each_resource new (diff_new cur new) d;
      Some (SA_OK, Some d)
  | _, _, _ => Some (SA_ERR_HPI_INVALID_PARAMS, lists)
  end.

(** * The invariant and the abstract view *)

Definition entry_ok (bound : nat) (e : RPTEntry) : Prop :=
  EntryId (rpt_entry e) = ResourceId (rpt_entry e) /\
  index_ok rdr_key bound (rdrlist e) (rdrtable e).

(** The invariant of a table: both levels are consistent lists with an index,
    entry ids are resource ids. *)
Record rpt_ok (t : RPTable) : Prop := {
  rpt_index : index_ok rpt_key (alloc t) (rptlist t) (rptable t);
  rpt_entries : Forall (fun p => entry_ok (alloc t) p.2) (rptlist t) }.

Definition rdr_view (e : RPTEntry) : list SaHpiRdrT := rdr <$> (rdrlist e).*2.
Definition entry_view (e : RPTEntry) : SaHpiRptEntryT * list SaHpiRdrT :=
  (rpt_entry e, rdr_view e).
Definition rpt_view (t : RPTable) : list (SaHpiRptEntryT * list SaHpiRdrT) :=
  entry_view <$> (rptlist t).*2.

(** ** Specification on the view *)

Definition view_find (rid : Z) (v : list (SaHpiRptEntryT * list SaHpiRdrT))
    : option (SaHpiRptEntryT * list SaHpiRdrT) :=
  if rid =? SAHPI_FIRST_ENTRY then head v
  else List.find (fun x => ResourceId x.1 =? rid) v.

Definition rdr_find (id : Z) (rs : list SaHpiRdrT) : option SaHpiRdrT :=
  if id =? SAHPI_FIRST_ENTRY then head rs
  else List.find (fun r => RecordId r =? id) rs.

Definition view_update (k : Z) (g : SaHpiRptEntryT * list SaHpiRdrT -> SaHpiRptEntryT * list SaHpiRdrT)
    (v : list (SaHpiRptEntryT * list SaHpiRdrT)) : list (SaHpiRptEntryT * list SaHpiRdrT) :=
  (fun x => if ResourceId x.1 =? k then g x else x) <$> v.

(** The element after the first one that satisfies [p]. *)
Fixpoint after {A} (p : A -> bool) (l : list A) : option A :=
  match l with
  | [] => None
  | x :: l => if p x then head l else after p l
  end.

Definition put_rdr (r : SaHpiRdrT) (rs : list SaHpiRdrT) : list SaHpiRdrT :=
  match List.find (fun x => RecordId x =? RecordId r) rs with
  | None => rs ++ [r]
  | Some _ => (fun x => if RecordId x =? RecordId r then r else x) <$> rs
  end.

Definition put_resource (en : SaHpiRptEntryT) (v : list (SaHpiRptEntryT * list SaHpiRdrT))
    : list (SaHpiRptEntryT * list SaHpiRdrT) :=
  match List.find (fun x => ResourceId x.1 =? ResourceId en) v with
  | None => v ++ [(en, [])]
  | Some _ => view_update (ResourceId en) (fun x => (en, x.2)) v
  end.

(** The private data a record gives back when it is removed. *)
Definition owned_data (dat own : Z) : list Z :=
  if truthy own || (dat =? 0) then [] else [dat].
Definition entry_data (e : RPTEntry) : list Z :=
  concat ((fun d => owned_data (rdr_data d) (rdr_owndata d)) <$> (rdrlist e).*2)
  ++ owned_data (data e) (owndata e).

(** * Facts about lookups *)

#[local] Arguments get_rptentry_by_rid : simpl never.
#[local] Arguments get_rdrecord_by_id : simpl never.
#[local] Arguments get_rdrnode_by_id : simpl never.
#[local] Arguments oh_remove_rdr : simpl never.
#[local] Arguments oh_remove_resource : simpl never.
#[local] Arguments oh_get_rdr_by_id : simpl never.

Lemma find_map {A B} (f : A -> B) (p : B -> bool) l :
  List.find p (f <$> l) = f <$> List.find (fun a => p (f a)) l.
Proof. induction l as [|a l IH]; simpl; [done|]. by destruct (p (f a)). Qed.

Lemma find_ext {A} (p q : A -> bool) l :
  Forall (fun a => p a = q a) l -> List.find p l = List.find q l.
Proof. induction 1 as [|a l E _ IH]; simpl; [done|]. by rewrite E, IH. Qed.

Lemma filter_fmap {A B} (f : A -> B) (P : B -> Prop) `{forall b, Decision (P b)} (l : list A) :
  filter P (f <$> l) = f <$> filter (fun a => P (f a)) l.
Proof.
  induction l as [|a l IH]; [done|]. csimpl. rewrite !filter_cons, IH. by case_decide.
Qed.

Lemma list_filter_iff' {A} (P Q : A -> Prop) `{forall a, Decision (P a)} `{forall a, Decision (Q a)}
    (l : list A) : (forall a, a ∈ l -> P a <-> Q a) -> filter P l = filter Q l.
Proof.
  induction l as [|a l IH]; intros E; [done|]. rewrite !filter_cons.
  pose proof (E a ltac:(left)) as Ea. rewrite IH by (intros b Hb; apply E; by right).
  repeat case_decide; tauto.
Qed.

Lemma head_fmap {A B} (f : A -> B) l : head (f <$> l) = f <$> head l.
Proof. by destruct l. Qed.

Section Table.
Context (t : RPTable) (Ht : rpt_ok t).

Lemma get_rptentry_find rid :
  get_rptentry_by_rid (Some t) rid =
    if rid =? SAHPI_FIRST_ENTRY then head (rptlist t)
    else find_key rpt_key (rptlist t) rid.
Proof.
  unfold get_rptentry_by_rid. rewrite (ht_lookup_find _ _ _ _ _ (rpt_index _ Ht)).
  destruct (rptlist t); simpl; [by case_if|done].
Qed.

Lemma get_rptentry_elem rid n e :
  get_rptentry_by_rid (Some t) rid = Some (n, e) ->
  (n, e) ∈ rptlist t /\ entry_ok (alloc t) e /\
  (rid <> SAHPI_FIRST_ENTRY -> ResourceId (rpt_entry e) = rid).
Proof.
  rewrite get_rptentry_find. intros H.
  assert (Hin : (n, e) ∈ rptlist t).
  { destruct (rid =? SAHPI_FIRST_ENTRY); [by apply head_Some_elem_of|].
    apply find_key_elem in H as [H _]; [done|]. apply (rpt_index _ Ht). }
  pose proof (rpt_entries _ Ht) as HF. rewrite Forall_forall in HF.
  specialize (HF _ Hin). split; [done|]. split; [done|]. intros Hr.
  destruct (Z.eqb_spec rid SAHPI_FIRST_ENTRY); [done|].
  apply find_key_elem in H as [_ H]; [|apply (rpt_index _ Ht)].
  destruct HF as [E _]. simpl in E. rewrite <- E. exact H.
Qed.

(** Lookups read the view. *)
Lemma get_rptentry_view rid :
  entry_view ∘ snd <$> get_rptentry_by_rid (Some t) rid = view_find rid (rpt_view t).
Proof.
  rewrite get_rptentry_find. unfold view_find, rpt_view. case_if.
  - rewrite !head_fmap. by destruct (head _).
  - rewrite <- list_fmap_compose. unfold find_key. rewrite find_map. f_equal.
    apply find_ext. apply Forall_forall. intros [n e] Hin. simpl.
    pose proof (rpt_entries _ Ht) as HF. rewrite Forall_forall in HF.
    destruct (HF _ Hin) as [E _]. simpl in E. unfold rpt_key. by rewrite E.
Qed.

Lemma res_by_id_view rid :
  oh_get_resource_by_id (Some t) rid = fst <$> view_find rid (rpt_view t).
Proof.
  rewrite <- get_rptentry_view. unfold oh_get_resource_by_id.
  by destruct (get_rptentry_by_rid (Some t) rid) as [[n e]|].
Qed.
End Table.

Section Entry.
Context (b : nat) (e : RPTEntry) (He : entry_ok b e).

Lemma get_rdrecord_find id :
  get_rdrecord_by_id (Some e) id =
    if id =? SAHPI_FIRST_ENTRY then head (rdrlist e)
    else find_key rdr_key (rdrlist e) id.
Proof.
  unfold get_rdrecord_by_id. destruct He as [_ Hi].
  rewrite (ht_lookup_find _ _ _ _ _ Hi).
  destruct (rdrlist e); simpl; [by case_if|done].
Qed.

Lemma get_rdrecord_elem id m d :
  get_rdrecord_by_id (Some e) id = Some (m, d) ->
  (m, d) ∈ rdrlist e /\ (id <> SAHPI_FIRST_ENTRY -> rdr_key d = id).
Proof.
  rewrite get_rdrecord_find. destruct He as [_ Hi]. case_if; zbool.
  - intros H%head_Some_elem_of. done.
  - intros [H1 H2]%find_key_elem; [done|]. apply Hi.
Qed.

Lemma get_rdrecord_view id :
  rdr ∘ snd <$> get_rdrecord_by_id (Some e) id = rdr_find id (rdr_view e).
Proof.
  rewrite get_rdrecord_find. unfold rdr_find, rdr_view. case_if.
  - rewrite !head_fmap. by destruct (head _).
  - rewrite <- list_fmap_compose. unfold find_key. by rewrite find_map.
Qed.
End Entry.

Lemma rdr_by_id_view t rid id :
  rpt_ok t ->
  oh_get_rdr_by_id (Some t) rid id = x ← view_find rid (rpt_view t); rdr_find id x.2.
Proof.
  intros Ht. rewrite <- (get_rptentry_view t Ht). unfold oh_get_rdr_by_id.
  destruct (get_rptentry_by_rid (Some t) rid) as [[n e]|] eqn:E; simpl; [|done].
  apply get_rptentry_elem in E as (_ & He & _); [|done].
  rewrite <- (get_rdrecord_view _ _ He). by destruct (get_rdrecord_by_id (Some e) id) as [[m d]|].
Qed.

(** ** Iteration *)

Lemma next_after {A} (key : A -> Z) l k :
  NoDup l.*1 ->
  match find_key key l k with Some (n, _) => next_of l n | None => None end
  = after (fun p => key p.2 =? k) l.
Proof.
  unfold find_key. induction l as [|[m c] l IH]; simpl; [done|].
  rewrite NoDup_cons. intros [Hm Hd]. destruct (key c =? k) eqn:E.
  { by rewrite Nat.eqb_refl. }
  rewrite <- IH by done. destruct (List.find _ l) as [[n x]|] eqn:Ef; [|done].
  destruct (Nat.eqb_spec m n) as [->|]; [|done].
  apply find_some_elem in Ef as [Hx _]. destruct Hm. apply list_elem_of_fmap. by exists (n, x).
Qed.

Lemma after_map {A B} (f : A -> B) (p : B -> bool) l :
  after p (f <$> l) = f <$> after (fun a => p (f a)) l.
Proof. induction l as [|a l IH]; simpl; [done|]. destruct (p (f a)); [by destruct l|done]. Qed.

Lemma after_ext {A} (p q : A -> bool) l :
  Forall (fun a => p a = q a) l -> after p l = after q l.
Proof. induction 1 as [|a l E _ IH]; simpl; [done|]. by rewrite E, IH. Qed.

Lemma after_split {A} (p : A -> bool) l1 x l2 :
  p x = true -> Forall (fun a => p a = false) l1 -> after p (l1 ++ x :: l2) = head l2.
Proof. intros Hx. induction 1 as [|a l E _ IH]; simpl; [by rewrite Hx|]. by rewrite E. Qed.

Lemma res_next_view t rid :
  rpt_ok t ->
  oh_get_resource_next (Some t) rid =
    fst <$> (if rid =? SAHPI_FIRST_ENTRY then head (rpt_view t)
             else after (fun x => ResourceId x.1 =? rid) (rpt_view t)).
Proof.
  intros Ht. unfold oh_get_resource_next. change (get_rptnode_by_rid) with get_rptentry_by_rid.
  rewrite (get_rptentry_find _ Ht). unfold rpt_view. destruct (rid =? SAHPI_FIRST_ENTRY).
  - rewrite !head_fmap. by destruct (head _).
  - rewrite next_after by apply (rpt_index _ Ht).
    rewrite <- list_fmap_compose, after_map. rewrite <- option_fmap_compose.
    f_equal. apply after_ext. apply Forall_forall. intros [n e] Hin. simpl.
    pose proof (rpt_entries _ Ht) as HF. rewrite Forall_forall in HF.
    destruct (HF _ Hin) as [E _]. simpl in E. unfold rpt_key. by rewrite E.
Qed.

Lemma rdr_next_view t rid id :
  rpt_ok t ->
  oh_get_rdr_next (Some t) rid id =
    x ← view_find rid (rpt_view t);
    if id =? SAHPI_FIRST_ENTRY then head x.2 else after (fun r => RecordId r =? id) x.2.
Proof.
  intros Ht. rewrite <- (get_rptentry_view t Ht). unfold oh_get_rdr_next.
  change (get_rdrnode_by_id) with get_rdrecord_by_id.
  destruct (get_rptentry_by_rid (Some t) rid) as [[n e]|] eqn:E; simpl; [|done].
  apply get_rptentry_elem in E as (_ & He & _); [|done].
  rewrite (get_rdrecord_find _ _ He). unfold rdr_view. destruct (id =? SAHPI_FIRST_ENTRY).
  - rewrite !head_fmap. by destruct (head _).
  - rewrite next_after by apply He. by rewrite <- list_fmap_compose, after_map.
Qed.

Fixpoint fold_opt {X S} (body : S -> X -> option S) (s : S) (l : list X) : option S :=
  match l with
  | [] => Some s
  | x :: l => s ← body s x; fold_opt body s l
  end.

(** A loop that walks a list ends, and folds its body over the list. *)
Lemma for_loop_walk {X S} (next : X -> option X) (body : S -> X -> option S) fuel xs ys s :
  (forall l1 x l2, ys ++ xs = l1 ++ x :: l2 -> next x = head l2) -> (length xs <= fuel)%nat ->
  for_loop fuel next body (head xs) s = fold_opt body s xs.
Proof.
  revert fuel ys s. induction xs as [|x xs IH]; intros [|fuel] ys s Hn Hf; simpl in *; try done; try lia.
  destruct (body s x) as [s'|]; simpl; [|done]. rewrite (Hn ys x xs) by done.
  apply (IH _ (ys ++ [x])); [|lia]. intros l1 y l2 E. apply (Hn l1). by rewrite <- E, <- app_assoc.
Qed.

Lemma fold_opt_some {X S} (body : S -> X -> option S) (f : S -> X -> S) s l :
  (forall s x, x ∈ l -> body s x = Some (f s x)) -> fold_opt body s l = Some (foldl f s l).
Proof.
  revert s. induction l as [|x l IH]; intros s H; simpl; [done|].
  rewrite H by left. simpl. apply IH. intros. apply H. by right.
Qed.

Lemma keys_walk {A} (key : A -> Z) (l l1 l2 : list A) (x : A) :
  NoDup (key <$> l) -> Forall (fun a => key a <> 0) l -> l = l1 ++ x :: l2 ->
  (if key x =? SAHPI_FIRST_ENTRY then head l else after (fun a => key a =? key x) l) = head l2.
Proof.
  intros Hd Hz ->. apply Forall_app in Hz as [_ Hz]. inversion Hz as [|? ? Hx _]; subst.
  destruct (Z.eqb_spec (key x) SAHPI_FIRST_ENTRY); [done|].
  apply after_split; [apply Z.eqb_refl|]. apply Forall_forall. intros a Ha. apply Z.eqb_neq.
  rewrite fmap_app in Hd. simpl in Hd. apply NoDup_app in Hd as (_ & Hd & _).
  intros E. apply (Hd (key a)); [apply list_elem_of_fmap; eauto|]. rewrite E. left.
Qed.

Lemma rpt_view_keys t :
  rpt_ok t -> (fun x => ResourceId x.1) <$> rpt_view t = rpt_key ∘ snd <$> rptlist t.
Proof.
  intros Ht. unfold rpt_view. rewrite <- !list_fmap_compose. apply list_fmap_ext.
  intros i [n e] Hi%list_elem_of_lookup_2. pose proof (rpt_entries _ Ht) as HF.
  rewrite Forall_forall in HF. destruct (HF _ Hi) as [E _]. simpl in *. unfold rpt_key. by rewrite E.
Qed.

Lemma rpt_view_nodup t :
  rpt_ok t -> NoDup ((fun x => ResourceId x.1) <$> rpt_view t) /\
              Forall (fun x => ResourceId x.1 <> 0) (rpt_view t).
Proof.
  intros Ht. pose proof (rpt_view_keys t Ht) as E.
  assert (HF : Forall (fun k => k <> 0) ((fun x => ResourceId x.1) <$> rpt_view t)).
  { rewrite E, Forall_fmap. apply (rpt_index _ Ht). }
  rewrite Forall_fmap in HF. split; [|done]. rewrite E. apply (rpt_index _ Ht).
Qed.

Lemma rdr_view_nodup b e :
  entry_ok b e -> NoDup (RecordId <$> rdr_view e) /\ Forall (fun r => RecordId r <> 0) (rdr_view e).
Proof.
  intros [_ [_ Hk _ Hz _]]. unfold rdr_view. rewrite <- !list_fmap_compose. split; [done|].
  rewrite !Forall_fmap. done.
Qed.

Lemma for_each_resource_fold {S} t (body : S -> SaHpiRptEntryT -> option S) s :
  rpt_ok t -> for_each_resource t body s = fold_opt body s (rpt_view t).*1.
Proof.
  intros Ht. unfold for_each_resource. destruct (rpt_view_nodup t Ht) as [Hd Hz].
  rewrite res_by_id_view by done. unfold view_find. simpl. rewrite <- head_fmap.
  apply (for_loop_walk _ _ _ _ []).
  - simpl. intros l1 x l2 E. rewrite res_next_view by done.
    transitivity (if ResourceId x =? SAHPI_FIRST_ENTRY then head (rpt_view t).*1
                  else after (fun a => ResourceId a =? ResourceId x) (rpt_view t).*1).
    { rewrite after_map, head_fmap. by case_if. }
    apply (keys_walk ResourceId) with l1; [by rewrite <- list_fmap_compose | by rewrite Forall_fmap | done].
  - unfold rpt_view. by rewrite !length_fmap.
Qed.

Lemma for_each_rdr_fold {S} t rid (body : S -> SaHpiRdrT -> option S) s x :
  rpt_ok t -> view_find rid (rpt_view t) = Some x ->
  for_each_rdr t rid body s = fold_opt body s x.2.
Proof.
  intros Ht Hx. unfold for_each_rdr, rdr_fuel. rewrite rdr_by_id_view, Hx by done. simpl.
  pose proof Hx as Hx'. rewrite <- (get_rptentry_view _ Ht) in Hx'.
  destruct (get_rptentry_by_rid (Some t) rid) as [[n e]|] eqn:E; [|done].
  injection Hx' as <-. apply get_rptentry_elem in E as (_ & He & _); [|done].
  destruct (rdr_view_nodup _ _ He) as [Hd Hz]. unfold rdr_find. simpl.
  apply (for_loop_walk _ _ _ _ []).
  - intros l1 r l2 E'. simpl in E'. rewrite rdr_next_view, Hx by done. simpl.
    by apply (keys_walk RecordId) with l1.
  - unfold rdr_view. by rewrite !length_fmap.
Qed.

(** ** The difference of two tables *)

Definition gone_resources (cur new : list (SaHpiRptEntryT * list SaHpiRdrT)) : list SaHpiRptEntryT :=
  filter (fun res => view_find (ResourceId res) new = None) cur.*1.

Definition gone_rdrs (cur new : list (SaHpiRptEntryT * list SaHpiRdrT)) : list SaHpiRdrT :=
  concat ((fun x => match view_find (ResourceId x.1) new with
                    | None => []
                    | Some y => filter (fun r => rdr_find (RecordId r) y.2 = None) x.2
                    end) <$> cur).

Definition changed_resources (cur new : list (SaHpiRptEntryT * list SaHpiRdrT))
    : list SaHpiRptEntryT :=
  filter (fun res => fst <$> view_find (ResourceId res) cur <> Some res) new.*1.

Definition changed_rdrs (cur new : list (SaHpiRptEntryT * list SaHpiRdrT)) : list SaHpiRdrT :=
  concat ((fun x => filter (fun r =>
             (y ← view_find (ResourceId x.1) cur; rdr_find (RecordId r) y.2) <> Some r) x.2)
          <$> new).

(** Results are accumulated by appending. *)
Definition diff_app (d e : DiffLists) : DiffLists :=
  {| res_new := res_new d ++ res_new e; rdr_new := rdr_new d ++ rdr_new e;
     res_gone := res_gone d ++ res_gone e; rdr_gone := rdr_gone d ++ rdr_gone e |}.
Definition diff_nil : DiffLists :=
  {| res_new := []; rdr_new := []; res_gone := []; rdr_gone := [] |}.
Definition diff_concat (l : list DiffLists) : DiffLists := foldr diff_app diff_nil l.

#[local] Instance diff_app_assoc : Assoc (=) diff_app.
Proof. intros [] [] []. unfold diff_app. simpl. by rewrite !app_assoc. Qed.
#[local] Instance diff_app_nil : RightId (=) diff_nil diff_app.
Proof. intros []. unfold diff_app. simpl. by rewrite !app_nil_r. Qed.

Lemma fold_opt_collect {X} (body : DiffLists -> X -> option DiffLists) (g : X -> DiffLists) d l :
  (forall d x, x ∈ l -> body d x = Some (diff_app d (g x))) ->
  fold_opt body d l = Some (diff_app d (diff_concat (g <$> l))).
Proof.
  intros H. rewrite (fold_opt_some _ (fun d x => diff_app d (g x))) by done. f_equal. clear H.
  revert d. induction l as [|x l IH]; intros d; simpl; [by rewrite (right_id _ diff_app)|].
  by rewrite IH, (assoc diff_app).
Qed.

Lemma diff_concat_fields (l : list DiffLists) :
  diff_concat l = {| res_new := concat (res_new <$> l); rdr_new := concat (rdr_new <$> l);
                     res_gone := concat (res_gone <$> l); rdr_gone := concat (rdr_gone <$> l) |}.
Proof. induction l as [|x l IH]; simpl; [done|]. by rewrite IH. Qed.

Lemma concat_filter {X Y} (f : X -> Y) (P : Y -> Prop) `{forall y, Decision (P y)}
    (D : forall x, Decision (P (f x))) l :
  concat ((fun x => if D x then [f x] else []) <$> l) = filter P (f <$> l).
Proof.
  induction l as [|x l IH]; [done|]. csimpl. rewrite filter_cons, IH.
  case_decide; by destruct (D x).
Qed.

Lemma concat_filter_id {Y} (P : Y -> Prop) `{forall y, Decision (P y)} l :
  concat ((fun x => if decide (P x) then [x] else []) <$> l) = filter P l.
Proof. rewrite <- (list_fmap_id l) at 2. apply (concat_filter id P). Qed.

Lemma concat_nil {X Y} (l : list X) : concat ((fun _ => @nil Y) <$> l) = [].
Proof. by induction l. Qed.

Section Diff.
Context (cur new : RPTable) (Hc : rpt_ok cur) (Hn : rpt_ok new).
Let vc := rpt_view cur.
Let vn := rpt_view new.

Lemma view_find_of_elem v x :
  NoDup ((fun x => ResourceId x.1) <$> v) -> Forall (fun x => ResourceId x.1 <> 0) v ->
  x ∈ v -> view_find (ResourceId x.1) v = Some x.
Proof.
  intros Hd Hz Hx. unfold view_find.
  rewrite Forall_forall in Hz.
  destruct (Z.eqb_spec (ResourceId x.1) SAHPI_FIRST_ENTRY) as [E|_].
  { by destruct (Hz x Hx E). }
  induction v as [|y v IH]; [by apply not_elem_of_nil in Hx|]. simpl in *.
  apply NoDup_cons in Hd as [Hy Hd]. apply elem_of_cons in Hx as [->|Hx]; [by rewrite Z.eqb_refl|].
  destruct (Z.eqb_spec (ResourceId y.1) (ResourceId x.1)) as [E|_].
  - destruct Hy. rewrite E. apply list_elem_of_fmap. eauto.
  - apply IH; [done| |done]. intros z Hz'. apply Hz. by right.
Qed.

Lemma diff_gone_step d x :
  x ∈ vc ->
  diff_gone cur new d x.1 = Some (diff_app d
    {| res_new := []; rdr_new := [];
       res_gone := if decide (view_find (ResourceId x.1) vn = None) then [x.1] else [];
       rdr_gone := match view_find (ResourceId x.1) vn with
                   | None => []
                   | Some y => filter (fun r => rdr_find (RecordId r) y.2 = None) x.2
                   end |}).
Proof.
  intros Hx. unfold diff_gone. rewrite res_by_id_view by done. fold vn.
  destruct (rpt_view_nodup _ Hc) as [Hd Hz].
  pose proof (view_find_of_elem _ _ Hd Hz Hx) as Hfx.
  destruct (view_find (ResourceId x.1) vn) as [y|] eqn:Ey; simpl.
  - rewrite (for_each_rdr_fold _ _ _ _ _ Hc Hfx).
    rewrite (fold_opt_collect _ (fun r => {| res_new := []; rdr_new := []; res_gone := [];
        rdr_gone := if decide (rdr_find (RecordId r) y.2 = None) then [r] else [] |})).
    + rewrite diff_concat_fields, <- !list_fmap_compose. unfold diff_app. simpl.
      unfold compose. simpl. rewrite !concat_nil. do 3 f_equal.
      apply concat_filter_id.
    + intros d' r _. rewrite rdr_by_id_view by done. fold vn. rewrite Ey. simpl.
      destruct (rdr_find (RecordId r) y.2) as [z|]; [|by destruct d'; unfold diff_app; simpl; rewrite !app_nil_r].
      destruct d'. unfold diff_app. simpl. by rewrite !app_nil_r.
  - destruct d. unfold diff_app. simpl. by rewrite !app_nil_r.
Qed.

Lemma diff_new_step d x :
  x ∈ vn ->
  diff_new cur new d x.1 = Some (diff_app d
    {| res_new := if decide (fst <$> view_find (ResourceId x.1) vc <> Some x.1) then [x.1] else [];
       rdr_new := filter (fun r =>
           (y ← view_find (ResourceId x.1) vc; rdr_find (RecordId r) y.2) <> Some r) x.2;
       res_gone := []; rdr_gone := [] |}).
Proof.
  intros Hx. unfold diff_new. rewrite res_by_id_view by done. fold vc.
  destruct (rpt_view_nodup _ Hn) as [Hd Hz].
  pose proof (view_find_of_elem _ _ Hd Hz Hx) as Hfx.
  rewrite (for_each_rdr_fold _ _ _ _ _ Hn Hfx).
  rewrite (fold_opt_collect _ (fun r => {| res_new := [];
      rdr_new := if decide ((y ← view_find (ResourceId x.1) vc; rdr_find (RecordId r) y.2) <> Some r)
                 then [r] else []; res_gone := []; rdr_gone := [] |})).
  - rewrite diff_concat_fields, <- !list_fmap_compose. unfold diff_app. simpl.
    unfold compose. simpl. rewrite !concat_nil. 
    rewrite (concat_filter_id (fun r =>
      (y ← view_find (ResourceId x.1) vc; rdr_find (RecordId r) y.2) <> Some r)).
    case_bool_decide; case_decide; try tauto; destruct d; simpl; by rewrite ?app_nil_r.
  - intros d' r _. rewrite rdr_by_id_view by done. fold vc. unfold diff_app.
    destruct (view_find (ResourceId x.1) vc) as [y|]; simpl;
      repeat (case_bool_decide || case_decide); try tauto; try congruence; destruct d'; simpl; by rewrite ?app_nil_r.
Qed.

Lemma rpt_diff_view d :
  rpt_diff (Some cur) (Some new) (Some d) = Some (SA_OK, Some
    {| res_new := res_new d ++ changed_resources vc vn;
       rdr_new := rdr_new d ++ changed_rdrs vc vn;
       res_gone := res_gone d ++ gone_resources vc vn;
       rdr_gone := rdr_gone d ++ gone_rdrs vc vn |}).
Proof.
  unfold rpt_diff. rewrite for_each_resource_fold by done. fold vc.
  assert (Hfst : forall {S} (body : S -> SaHpiRptEntryT -> option S) s l,
    fold_opt body s l.*1 = fold_opt (fun s (x : SaHpiRptEntryT * list SaHpiRdrT) => body s x.1) s l).
  { intros S body s l. revert s. induction l as [|x l IH]; intros s; simpl; [done|].
    destruct (body s x.1); simpl; auto. }
  rewrite Hfst, (fold_opt_collect _ _ _ _ (fun d x Hx => diff_gone_step d x Hx)). simpl.
  rewrite for_each_resource_fold by done. fold vn.
  rewrite Hfst, (fold_opt_collect _ _ _ _ (fun d x Hx => diff_new_step d x Hx)). simpl.
  rewrite !diff_concat_fields, <- !list_fmap_compose. unfold diff_app. simpl.
  unfold compose. simpl. rewrite !concat_nil, !app_nil_r.
  unfold changed_resources, changed_rdrs, gone_resources, gone_rdrs.
  rewrite (concat_filter fst (fun res => fst <$> view_find (ResourceId res) vc <> Some res)).
  by rewrite (concat_filter fst (fun res => view_find (ResourceId res) vn = None)).
Qed.
End Diff.

(** * Facts about updates *)

Lemma rpt_ok_ext t t' :
  rptlist t = rptlist t' -> rptable t = rptable t' -> alloc t = alloc t' ->
  rpt_ok t -> rpt_ok t'.
Proof. intros E1 E2 E3 [H1 H2]. split; by rewrite <- ?E3, <- ?E1, <- ?E2. Qed.

Lemma entry_ok_weaken b b' e : (b <= b')%nat -> entry_ok b e -> entry_ok b' e.
Proof. intros Hb [H1 H2]. split; [done|]. by eapply index_weaken. Qed.

(** Assignment to a resource that keeps its key. *)
Lemma set_entry_ok b t n e f :
  rpt_ok t -> (n, e) ∈ rptlist t -> (alloc t <= b)%nat ->
  rpt_key (f e) = rpt_key e -> entry_ok b (f e) ->
  rpt_ok (set_entry n f (t <| alloc := b |>)).
Proof.
  intros [Hi He] Hin Hb Hk Hok.
  assert (Hu : forall a, (n, a) ∈ rptlist t -> a = e).
  { intros a Ha. apply (nodup_fst (rptlist t) n); [apply Hi|done|done]. }
  split; simpl.
  - apply index_store; [by eapply index_weaken|]. intros a Ha. by rewrite (Hu a Ha).
  - apply Forall_forall. intros [m c] (a & Ha & ->)%store_at_elem. simpl.
    destruct (Nat.eqb_spec m n) as [->|]; [by rewrite (Hu a Ha)|].
    rewrite Forall_forall in He. by eapply entry_ok_weaken, (He (m, a)).
Qed.

Lemma set_entry_elem t n e f :
  (n, e) ∈ rptlist t -> (n, f e) ∈ rptlist (set_entry n f t).
Proof. intros H. simpl. apply store_at_elem. exists e. by rewrite Nat.eqb_refl. Qed.

Lemma set_entry_view t n e f g :
  rpt_ok t -> (n, e) ∈ rptlist t -> entry_view (f e) = g (entry_view e) ->
  rpt_view (set_entry n f t) = view_update (ResourceId (rpt_entry e)) g (rpt_view t).
Proof.
  intros [Hi He] Hin Hg. unfold rpt_view, view_update. simpl.
  rewrite (store_at_view rpt_key _ _ _ n e) with (1 := Hi) by done.
  rewrite <- !list_fmap_compose. apply list_fmap_ext. intros _ [m c] Hc%list_elem_of_lookup_2. simpl.
  rewrite Forall_forall in He. destruct (He _ Hc) as [Ec _]. destruct (He _ Hin) as [Ee _].
  simpl in Ec, Ee. unfold rpt_key. rewrite Ec, Ee.
  destruct (Z.eqb_spec (ResourceId (rpt_entry c)) (ResourceId (rpt_entry e))) as [E|]; [|done].
  assert ((m, c) = (n, e)) as [= -> ->]; [|done].
  eapply (nodup_key rpt_key); [apply Hi|done|done|]. unfold rpt_key. simpl. congruence.
Qed.

(** Freeing private data changes nothing but the ghost list. *)
Lemma g_free_spec p t :
  g_free p t = t <| freed ::= fun l => l ++ owned_data p 0 |>.
Proof. unfold g_free, owned_data. simpl. destruct (p =? 0); [|done]. destruct t. unfold set_field. simpl. by rewrite app_nil_r. Qed.

Lemma release_spec old owned new t :
  release_old_data old owned new t =
    t <| freed ::= fun l => l ++ (if old =? new then [] else owned_data old owned) |>.
Proof.
  unfold release_old_data, owned_data, truthy. destruct t. unfold g_free, set_field. simpl.
  destruct (old =? 0), (old =? new), (owned =? 0); simpl; by rewrite ?app_nil_r.
Qed.

Lemma find_key_view t k :
  rpt_ok t ->
  entry_view ∘ snd <$> find_key rpt_key (rptlist t) k =
    List.find (fun x => ResourceId x.1 =? k) (rpt_view t).
Proof.
  intros Ht. unfold rpt_view, find_key. rewrite <- list_fmap_compose, find_map. f_equal.
  apply find_ext, Forall_forall. intros [n e] Hin. simpl.
  pose proof (rpt_entries _ Ht) as HF. rewrite Forall_forall in HF.
  destruct (HF _ Hin) as [E _]. simpl in E. unfold rpt_key. by rewrite E.
Qed.

(** ** [oh_add_resource] *)

Definition rid_ok (rid : Z) : Prop :=
  rid <> SAHPI_FIRST_ENTRY /\ rid <> SAHPI_UNSPECIFIED_RESOURCE_ID.

(** A resource that is there is overlaid: its RDRs stay, and the update counter
    changes only if the entry does. *)
Lemma add_resource_existing now t en dat own n e :
  rpt_ok t -> rid_ok (ResourceId en) ->
  get_rptentry_by_rid (Some t) (ResourceId en) = Some (n, e) ->
  let en' := en <| EntryId := ResourceId en |> in
  exists t',
    oh_add_resource now (Some t) (Some en) dat own = (SA_OK, Some t', Some en') /\
    rpt_ok t' /\
    rpt_view t' = view_update (ResourceId en) (fun x => (en', x.2)) (rpt_view t) /\
    freed t' = freed t ++ (if data e =? dat then [] else owned_data (data e) (owndata e)) /\
    (table_update_count t', update_timestamp t') =
      if decide (rpt_entry e = en') then (table_update_count t, update_timestamp t)
      else (u32 (table_update_count t + 1), now).
Proof.
  intros Ht [Hr1 Hr2] He en'. unfold oh_add_resource. cbv zeta.
  fold en'. change (ResourceId en') with (ResourceId en). rewrite He.
  apply Z.eqb_neq in Hr1 as Hr1', Hr2 as Hr2'. rewrite Hr1', Hr2'. simpl negb. cbn match.
  rewrite release_spec. fold en'. change (false || ?b) with b.
  destruct (get_rptentry_elem _ Ht _ _ _ He) as (Hin & Hok & Hid). specialize (Hid Hr1).
  set (f := fun e0 : RPTEntry =>
    let e1 := e0 <| data := dat |> <| owndata := own |> in
    if negb (bool_decide (en' = rpt_entry e)) then e1 <| rpt_entry := en' |> else e1).
  set (t1 := t <| freed ::= _ |>).
  assert (Ht1 : rpt_ok t1) by by eapply rpt_ok_ext, Ht.
  assert (Hf : rpt_entry (f e) = en' /\ rdrlist (f e) = rdrlist e /\ rdrtable (f e) = rdrtable e).
  { unfold f. case_bool_decide; simpl; auto. }
  destruct Hf as (Hf1 & Hf2 & Hf3).
  assert (Ht2 : rpt_ok (set_entry n f t1)).
  { apply (set_entry_ok (alloc t1) t1 n e f Ht1 Hin); [done| |].
    - unfold rpt_key. rewrite Hf1. destruct Hok as [-> _]. done.
    - split; [by rewrite Hf1|]. rewrite Hf2, Hf3. apply Hok. }
  eexists. split; [reflexivity|]. split; [|split; [|split]].
  - case_if; [|exact Ht2]. by eapply rpt_ok_ext, Ht2.
  - transitivity (rpt_view (set_entry n f t1)); [by case_if|].
    rewrite (set_entry_view t1 n e f (fun x => (en', x.2))) by
      (done || (unfold entry_view, rdr_view; by rewrite Hf1, Hf2)).
    by rewrite Hid.
  - by case_if.
  - case_bool_decide as Eb; simpl; case_decide; congruence.
Qed.

(** A new resource is appended, without RDRs. *)
Lemma add_resource_new now t en dat own :
  rpt_ok t -> rid_ok (ResourceId en) ->
  get_rptentry_by_rid (Some t) (ResourceId en) = None ->
  let en' := en <| EntryId := ResourceId en |> in
  exists t',
    oh_add_resource now (Some t) (Some en) dat own = (SA_OK, Some t', Some en') /\
    rpt_ok t' /\ rpt_view t' = rpt_view t ++ [(en', [])] /\ freed t' = freed t /\
    (table_update_count t', update_timestamp t') = (u32 (table_update_count t + 1), now).
Proof.
  intros Ht [Hr1 Hr2] He en'. unfold oh_add_resource. cbv zeta.
  fold en'. change (ResourceId en') with (ResourceId en). rewrite He.
  apply Z.eqb_neq in Hr1 as Hr1', Hr2 as Hr2'. rewrite Hr1', Hr2'. simpl negb. cbn match.
  fold en'. rewrite get_rptentry_find, Hr1' in He by done.
  eexists. split; [reflexivity|]. unfold rpt_view.
  simpl. rewrite (store_at_last rpt_key _ _ _ _ _ (rpt_index _ Ht)).
  split; [|split; [by rewrite !fmap_app|done]].
  split; simpl; rewrite (store_at_last rpt_key _ _ _ _ _ (rpt_index _ Ht)).
  - by apply (index_append rpt_key); [apply Ht|..].
  - apply Forall_app. split; [|repeat constructor; apply index_empty].
    eapply Forall_impl; [apply (rpt_entries _ Ht)|]. intros p. apply entry_ok_weaken. lia.
Qed.

(** ** [oh_add_rdr] and [oh_remove_rdr] *)

Lemma find_rdr_view e k :
  List.find (fun x => RecordId x =? k) (rdr_view e)
    = rdr ∘ snd <$> find_key rdr_key (rdrlist e) k.
Proof. unfold rdr_view. by rewrite <- list_fmap_compose, find_map. Qed.

Lemma put_rdr_spec b e m d r dat own :
  entry_ok b e -> (m, d) ∈ rdrlist e -> rdr_key d = RecordId r ->
  let f := fun e => e <| rdrlist ::= fun l => store_at l m (fun d =>
                     d <| rdr_data := dat |> <| rdr_owndata := own |> <| rdr := r |>) |>
                     <| update_count ::= fun c => u32 (c + 1) |> in
  entry_ok b (f e) /\ rdr_view (f e) = put_rdr r (rdr_view e).
Proof.
  intros [He Hi] Hin Hk f. split.
  - split; [done|]. simpl. apply index_store; [done|]. intros a Ha.
    rewrite (nodup_fst (rdrlist e) m a d); [done|apply Hi|done|done].
  - unfold put_rdr. rewrite find_rdr_view.
    assert (find_key rdr_key (rdrlist e) (RecordId r) = Some (m, d)) as ->.
    { apply find_key_elem; [apply Hi|]. by split. }
    unfold rdr_view. simpl. rewrite (store_at_view rdr_key _ _ _ m d) with (1 := Hi) by done.
    rewrite <- !list_fmap_compose. apply list_fmap_ext. intros _ [k c] _. simpl.
    unfold rdr_key in *. rewrite Hk. by destruct (RecordId (rdr c) =? RecordId r).
Qed.

Lemma new_rdr_spec b e r d :
  entry_ok b e -> RecordId r <> 0 -> rdr d = r -> find_key rdr_key (rdrlist e) (RecordId r) = None ->
  let f := fun e => e <| rdrlist := rdrlist e ++ [(b, d)] |>
                      <| rdrtable ::= fun h => ht_insert h (RecordId r) b |>
                      <| update_count ::= fun c => u32 (c + 1) |> in
  entry_ok (S b) (f e) /\ rdr_view (f e) = put_rdr r (rdr_view e).
Proof.
  intros [He Hi] Hz Hd Hf f. split.
  - split; [done|]. simpl. rewrite <- Hd in *. by apply (index_append rdr_key).
  - unfold put_rdr. rewrite find_rdr_view, Hf. unfold rdr_view. simpl.
    rewrite !fmap_app. simpl. by rewrite Hd.
Qed.

Lemma add_rdr_view t rid r dat own n e :
  rpt_ok t -> get_rptentry_by_rid (Some t) rid = Some (n, e) ->
  check_instrument_id (rpt_entry e) r = 0 ->
  let r' := r <| RecordId := oh_get_rdr_uid (RdrType r) (oh_get_instrument_id r) |> in
  RecordId r' <> SAHPI_FIRST_ENTRY ->
  exists t',
    oh_add_rdr (Some t) rid (Some r) dat own = (SA_OK, Some t', Some r') /\
    rpt_ok t' /\
    rpt_view t' = view_update (ResourceId (rpt_entry e)) (fun x => (x.1, put_rdr r' x.2)) (rpt_view t) /\
    (table_update_count t', update_timestamp t') = (table_update_count t, update_timestamp t).
Proof.
  intros Ht Hget Hchk r' Hz. unfold oh_add_rdr. cbv zeta. rewrite Hget, Hchk. fold r'.
  change (truthy 0) with false. cbn match.
  destruct (get_rptentry_elem _ Ht _ _ _ Hget) as (Hin & Hok & _).
  destruct (get_rdrecord_by_id (Some e) (RecordId r')) as [[m d]|] eqn:Er.
  - rewrite release_spec. eexists. split; [reflexivity|].
    destruct (get_rdrecord_elem _ _ Hok _ _ _ Er) as [Hm Hk]. specialize (Hk Hz).
    set (t1 := t <| freed ::= _ |>). set (f := fun e : RPTEntry => _).
    assert (Ht1 : rpt_ok t1) by by eapply rpt_ok_ext, Ht.
    destruct (put_rdr_spec _ _ _ _ r' dat own Hok Hm Hk) as [H1 H2]. cbv zeta in H1, H2.
    split; [by apply (set_entry_ok (alloc t1) t1 n e f)|]. split; [|done].
    rewrite (set_entry_view t1 n e f (fun x => (x.1, put_rdr r' x.2))); [done|done|done|].
    unfold entry_view. f_equal. exact H2.
  - rewrite release_spec. eexists. split; [reflexivity|].
    rewrite get_rdrecord_find with (1 := Hok) in Er.
    destruct (Z.eqb_spec (RecordId r') SAHPI_FIRST_ENTRY); [done|].
    set (d := {| rdr := r'; rdr_owndata := own; rdr_data := dat |}).
    destruct (new_rdr_spec (alloc t) e r' d Hok Hz eq_refl Er) as [H1 H2]. cbv zeta in H1, H2.
    set (f := fun e0 : RPTEntry => e0 <| rdrlist := rdrlist e ++ [(alloc t, d)] |>
                      <| rdrtable ::= fun h => ht_insert h (RecordId r') (alloc t) |>
                      <| update_count ::= fun c => u32 (c + 1) |>) in *.
    assert (E : store_at (store_at (rptlist t) n (fun e => e
          <| rdrlist ::= fun l => l ++ [(alloc t, new_rdrecord <| rdr ::= fun x => x <| RecordId := RecordId r' |> |>)] |>
          <| rdrtable ::= fun h => ht_insert h (RecordId r') (alloc t) |>)) n
        (fun e => e <| rdrlist ::= fun l => store_at l (alloc t) (fun d =>
              d <| rdr_data := dat |> <| rdr_owndata := own |> <| rdr := r' |>) |>
            <| update_count ::= fun c => u32 (c + 1) |>) = store_at (rptlist t) n f).
    { rewrite store_at_compose. apply (store_at_ext _ _ e); [apply Ht|done|].
      unfold f, set_field, compose. simpl. f_equal.
      by rewrite (store_at_last rdr_key _ _ _ _ _ (proj2 Hok)). }
    assert (H := set_entry_ok (S (alloc t)) t n e f Ht Hin ltac:(lia) eq_refl H1).
    split; [eapply rpt_ok_ext, H; [symmetry; exact E|done..]|]. split; [|done].
    transitivity (rpt_view (set_entry n f t)); [exact (f_equal (fun l => entry_view <$> l.*2) E)|].
    rewrite (set_entry_view t n e f (fun x => (x.1, put_rdr r' x.2))); [done|done|done|].
    unfold entry_view. f_equal. exact H2.
Qed.

Lemma remove_rdr_view t rid rdrid n e m d :
  rpt_ok t -> get_rptentry_by_rid (Some t) rid = Some (n, e) ->
  get_rdrecord_by_id (Some e) rdrid = Some (m, d) ->
  exists t' f,
    oh_remove_rdr (Some t) rid rdrid = (SA_OK, Some t') /\ rpt_ok t' /\
    rpt_view t' = view_update (ResourceId (rpt_entry e))
      (fun x => (x.1, filter (fun r => RecordId r <> RecordId (rdr d)) x.2)) (rpt_view t) /\
    freed t' = freed t ++ owned_data (rdr_data d) (rdr_owndata d) /\
    rptlist t' = store_at (rptlist t) n f /\ rptable t' = rptable t /\
    (table_update_count t', update_timestamp t') = (table_update_count t, update_timestamp t) /\
    alloc t' = alloc t /\
    rdrlist (f e) = remove_at (rdrlist e) m /\ rpt_entry (f e) = rpt_entry e /\
    data (f e) = data e /\ owndata (f e) = owndata e.
Proof.
  intros Ht Hget Hrec. unfold oh_remove_rdr. rewrite Hget, Hrec.
  destruct (get_rptentry_elem _ Ht _ _ _ Hget) as (Hin & Hok & _).
  destruct (get_rdrecord_elem _ _ Hok _ _ _ Hrec) as [Hm _].
  set (t1 := if truthy (rdr_owndata d) then t else g_free (rdr_data d) t).
  assert (E : t1 = t <| freed ::= fun l => l ++ owned_data (rdr_data d) (rdr_owndata d) |>).
  { unfold t1, owned_data. rewrite g_free_spec. unfold owned_data.
    destruct (truthy (rdr_owndata d)); simpl; [|done].
    destruct t. unfold set_field. simpl. by rewrite app_nil_r. }
  clearbody t1. subst t1. set (t1 := t <| freed ::= _ |>). set (f := fun e : RPTEntry => _).
  assert (Ht1 : rpt_ok t1) by by eapply rpt_ok_ext, Ht.
  assert (He : entry_ok (alloc t) (f e)).
  { split; [apply Hok|]. apply (index_remove rdr_key); [apply Hok|done]. }
  eexists _, f. split; [reflexivity|]. split; [by apply (set_entry_ok (alloc t1) t1 n e f)|].
  split; [|done].
  rewrite (set_entry_view t1 n e f
    (fun x => (x.1, filter (fun r => RecordId r <> RecordId (rdr d)) x.2))); [done|done|done|].
  unfold entry_view, rdr_view. simpl. f_equal.
  rewrite (remove_at_view rdr_key _ _ _ m d (proj2 Hok) Hm).
  by rewrite (filter_fmap rdr).
Qed.

(** ** [oh_remove_resource] and [oh_flush_rpt] *)

Lemma get_rptentry_store t t' rid n e f :
  rpt_ok t -> rpt_ok t' -> get_rptentry_by_rid (Some t) rid = Some (n, e) ->
  rptlist t' = store_at (rptlist t) n f -> rpt_entry (f e) = rpt_entry e ->
  get_rptentry_by_rid (Some t') rid = Some (n, f e).
Proof.
  intros Ht Ht' Hget El Ee. destruct (get_rptentry_elem _ Ht _ _ _ Hget) as (Hin & Hok & _).
  rewrite get_rptentry_find in Hget by done. rewrite get_rptentry_find, El by done.
  destruct (rid =? SAHPI_FIRST_ENTRY).
  - destruct (rptlist t) as [|p l]; [done|]. injection Hget as ->. simpl. by rewrite Nat.eqb_refl.
  - apply find_key_elem in Hget as [_ Hk]; [|apply Ht].
    rewrite <- El. apply find_key_elem; [apply Ht'|]. rewrite El. split.
    + apply store_at_elem. exists e. by rewrite Nat.eqb_refl.
    + unfold rpt_key in *. simpl in *. by rewrite Ee.
Qed.

(** The loop over the RDRs ends when there are none left. *)
Lemma remove_rdrs_loop_spec fuel t rid n e :
  rpt_ok t -> get_rptentry_by_rid (Some t) rid = Some (n, e) -> (length (rdrlist e) <= fuel)%nat ->
  exists f, let t' := remove_rdrs_loop fuel t rid in
    oh_get_rdr_by_id (Some t') rid SAHPI_FIRST_ENTRY = None /\
    rpt_ok t' /\ rptlist t' = store_at (rptlist t) n f /\ rptable t' = rptable t /\
    (table_update_count t', update_timestamp t') = (table_update_count t, update_timestamp t) /\
    alloc t' = alloc t /\
    freed t' = freed t ++ concat ((fun d => owned_data (rdr_data d) (rdr_owndata d)) <$> (rdrlist e).*2).
Proof.
  revert t e. induction fuel as [|fuel IH]; intros t e Ht Hget Hf.
  - destruct (rdrlist e) eqn:El; [|simpl in Hf; lia]. exists id. simpl.
    rewrite store_at_id, app_nil_r. unfold oh_get_rdr_by_id, get_rdrecord_by_id. rewrite Hget, El. done.
  - destruct (get_rptentry_elem _ Ht _ _ _ Hget) as (Hin & Hok & _).
    destruct (get_rdrecord_by_id (Some e) SAHPI_FIRST_ENTRY) as [[m d]|] eqn:Er.
    + destruct (remove_rdr_view t rid SAHPI_FIRST_ENTRY n e m d Ht Hget Er)
        as (t1 & f & Eq & Ht1 & _ & Hfr & Hl & Htb & Hc & Ha & Hrl & Hre & _).
      assert (remove_rdrs_loop (S fuel) t rid = remove_rdrs_loop fuel t1 rid) as ->.
      { simpl. unfold oh_get_rdr_by_id. by rewrite Hget, Er, Eq. }
      assert (Hget1 := get_rptentry_store _ _ _ _ _ _ Ht Ht1 Hget Hl Hre).
      rewrite get_rdrecord_find with (1 := Hok) in Er. simpl in Er.
      destruct (rdrlist e) as [|q l] eqn:El; [done|]. injection Er as ->.
      rewrite (remove_head _ m d) in Hrl by (rewrite <- El; apply Hok).
      destruct (IH t1 (f e) Ht1 Hget1) as (g & H0 & H1 & H2 & H3 & H4 & H5 & H6).
      { rewrite Hrl. simpl in Hf. lia. }
      exists (g ∘ f). split; [done|]. split; [done|].
      rewrite H2, H3, H4, H5, H6, Hl, store_at_compose, Hfr, Hrl, Htb, Ha, <- app_assoc. done.
    + assert (remove_rdrs_loop (S fuel) t rid = t) as ->.
      { simpl. unfold oh_get_rdr_by_id. by rewrite Hget, Er. }
      exists id. rewrite store_at_id. unfold oh_get_rdr_by_id. rewrite Hget, Er.
      unfold get_rdrecord_by_id in Er. destruct (rdrlist e) eqn:El; [|done].
      simpl. by rewrite app_nil_r.
Qed.

Lemma remove_resource_spec now t rid n e :
  rpt_ok t -> get_rptentry_by_rid (Some t) rid = Some (n, e) ->
  exists t',
    oh_remove_resource now (Some t) rid = (SA_OK, Some t') /\ rpt_ok t' /\
    rptlist t' = remove_at (rptlist t) n /\ freed t' = freed t ++ entry_data e /\
    (table_update_count t', update_timestamp t') = (u32 (table_update_count t + 1), now).
Proof.
  intros Ht Hget. unfold oh_remove_resource. rewrite Hget.
  destruct (get_rptentry_elem _ Ht _ _ _ Hget) as (Hin & Hok & _).
  destruct (remove_rdrs_loop_spec (length (rdrlist e)) t rid n e Ht Hget)
    as (f & _ & H1 & H2 & H3 & [= H4 _] & H5 & H6); [done|].
  set (t1 := remove_rdrs_loop _ t rid) in *. clearbody t1.
  assert (E : (if truthy (owndata e) then t1 else g_free (data e) t1)
              = t1 <| freed ::= fun l => l ++ owned_data (data e) (owndata e) |>).
  { rewrite g_free_spec. unfold owned_data. destruct (truthy (owndata e)); simpl; [|done].
    destruct t1. unfold set_field. simpl. by rewrite app_nil_r. }
  rewrite E. clear E. simpl. rewrite H2, remove_store.
  eexists. split; [reflexivity|]. simpl. split; [|split; [done|]].
  - split; simpl; rewrite ?H2, ?H3, ?H5, ?remove_store.
    + apply (index_remove rpt_key); [apply Ht|done].
    + apply Forall_forall. intros p [Hp _]%remove_at_elem.
      pose proof (rpt_entries _ Ht) as HF. rewrite Forall_forall in HF. by apply HF.
  - rewrite H4, H6. unfold entry_data. by rewrite <- app_assoc.
Qed.

Lemma remove_at_rpt_view t n e :
  rpt_ok t -> (n, e) ∈ rptlist t ->
  entry_view <$> (remove_at (rptlist t) n).*2 =
    filter (fun x => ResourceId x.1 <> ResourceId (rpt_entry e)) (rpt_view t).
Proof.
  intros Ht Hin. rewrite (remove_at_view rpt_key _ _ _ n e (rpt_index _ Ht) Hin).
  unfold rpt_view. rewrite (filter_fmap entry_view). f_equal.
  apply list_filter_iff'. intros c Hc. unfold rpt_key.
  pose proof (rpt_entries _ Ht) as HF. rewrite Forall_forall in HF.
  apply list_elem_of_fmap in Hc as ([m c'] & -> & Hc).
  destruct (HF _ Hc) as [E1 _], (HF _ Hin) as [E2 _]. simpl in *. by rewrite E1, E2.
Qed.

Lemma flush_loop_spec clock fuel t :
  rpt_ok t -> (length (rptlist t) <= fuel)%nat ->
  exists t', flush_loop fuel clock (Some t) = Some t' /\ rpt_ok t' /\ rptlist t' = [] /\
    rptable t' = None /\ freed t' = freed t ++ concat (entry_data <$> (rptlist t).*2).
Proof.
  revert t. induction fuel as [|fuel IH]; intros t Ht Hf.
  - exists t. destruct (rptlist t) eqn:El; [|simpl in Hf; lia]. split; [done|]. split; [done|].
    split; [done|]. simpl. rewrite app_nil_r. split; [|done].
    destruct (rpt_index _ Ht) as [_ _ _ _ Htb]. destruct (rptable t); [by destruct Htb|done].
  - simpl. unfold oh_get_resource_by_id.
    destruct (get_rptentry_by_rid (Some t) SAHPI_FIRST_ENTRY) as [[n e]|] eqn:Hget.
    + destruct (remove_resource_spec (clock fuel) t _ n e Ht Hget) as (t1 & -> & Ht1 & Hl & Hfr & _).
      rewrite get_rptentry_find in Hget by done. simpl in Hget.
      destruct (rptlist t) as [|q l] eqn:El; [done|]. injection Hget as ->.
      rewrite remove_head in Hl by (rewrite <- El; apply Ht). simpl snd.
      destruct (IH t1 Ht1) as (t' & H1 & H2 & H3 & H4 & H5); [rewrite Hl; simpl in Hf; lia|].
      exists t'. do 4 (split; [done|]). rewrite H5, Hfr, Hl. simpl. by rewrite app_assoc.
    + rewrite get_rptentry_find in Hget by done. simpl in Hget.
      exists t. destruct (rptlist t) as [|q l] eqn:El; [|done].
      split; [done|]. split; [done|]. split; [done|]. simpl. rewrite app_nil_r. split; [|done].
      destruct (rpt_index _ Ht) as [_ _ _ _ Htb]. destruct (rptable t); [by destruct Htb|done].
Qed.

(** ** From resources to the view *)

Lemma view_find_elem t rid :
  rpt_ok t ->
  match get_rptentry_by_rid (Some t) rid with
  | Some (n, e) => view_find rid (rpt_view t) = Some (entry_view e)
  | None => view_find rid (rpt_view t) = None
  end.
Proof.
  intros Ht. rewrite <- get_rptentry_view by done.
  by destruct (get_rptentry_by_rid (Some t) rid) as [[n e]|].
Qed.

Lemma view_find_key t rid :
  rid <> SAHPI_FIRST_ENTRY ->
  view_find rid (rpt_view t) = List.find (fun x => ResourceId x.1 =? rid) (rpt_view t).
Proof. intros H. unfold view_find. by rewrite (proj2 (Z.eqb_neq _ _) H). Qed.

(** A resource of the view is found under its id. *)
Lemma elem_view_find t x :
  rpt_ok t -> x ∈ rpt_view t -> view_find (ResourceId x.1) (rpt_view t) = Some x.
Proof. intros Ht. destruct (rpt_view_nodup t Ht). by apply view_find_of_elem. Qed.

Lemma uid_small type num :
  0 <= type < 2 ^ 16 -> 0 <= num < 2 ^ 16 -> oh_get_rdr_uid type num = type * 2 ^ 16 + num.
Proof.
  intros Ht Hn. unfold oh_get_rdr_uid. rewrite (u32_id type) by lia.
  rewrite Z.shiftl_mul_pow2 by lia. rewrite (u32_id (type * 2 ^ 16)) by lia.
  rewrite u32_id; lia.
Qed.

(** A concrete table for the witnesses: one resource with one sensor. *)
Definition example_resource (rid : Z) : SaHpiRptEntryT :=
  zero_rpt_entry <| EntryId := rid |> <| ResourceId := rid |>.
Definition example_rdr (type num : Z) : SaHpiRdrT :=
  {| RecordId := oh_get_rdr_uid type num; RdrType := type; Entity := zero_ep; IsFru := 0;
     RdrTypeUnion := {| Num := num; Rest := OtherRest [] |}; IdString := zero_textbuffer |}.
Definition empty_rpt : RPTable :=
  {| table_update_count := 0; update_timestamp := SAHPI_TIME_UNSPECIFIED; rptlist := [];
     rptable := None; alloc := 0; freed := [] |}.
Definition example_rpt : RPTable :=
  let add1 := oh_add_resource 5 (Some empty_rpt) (Some (example_resource 7)) 100 0 in
  let add2 := oh_add_rdr (snd (fst add1)) 7 (Some (example_rdr SAHPI_SENSOR_RDR 3)) 200 0 in
  default empty_rpt (snd (fst add2)).

Lemma empty_rpt_ok : rpt_ok empty_rpt.
Proof. split; [apply index_empty | constructor]. Qed.

Lemma example_rpt_ok : rpt_ok example_rpt.
Proof.
  unfold example_rpt. cbv zeta.
  destruct (add_resource_new 5 empty_rpt (example_resource 7) 100 0 empty_rpt_ok)
    as (t1 & E1 & H1 & _); [by split|done|]. cbv zeta in *. rewrite E1. cbn [fst snd].
  assert (E1' : t1 = default empty_rpt (snd (fst
    (oh_add_resource 5 (Some empty_rpt) (Some (example_resource 7)) 100 0)))) by by rewrite E1.
  destruct (get_rptentry_by_rid (Some t1) 7) as [[n e]|] eqn:Eg; [|by rewrite E1' in Eg].
  destruct (add_rdr_view t1 7 (example_rdr SAHPI_SENSOR_RDR 3) 200 0 n e H1 Eg) as (t2 & E2 & H2 & _);
    [by rewrite E1' in Eg; injection Eg as <- <- | done |].
  rewrite E2. exact H2.
Qed.
#[export] Hint Resolve empty_rpt_ok example_rpt_ok : hpi.

(** * Properties *)

(** C35: the lookups of a well-formed table return what a search of its
    contents returns: a resource by id, the resource after a resource, an RDR by
    record id, and the RDR after an RDR are found in the list of resources and
    in the list of RDRs of the resource, [SAHPI_FIRST_ENTRY] standing for the
    first element; the hash tables never disagree with the lists. *)
Theorem rpt_lookups_refine (t : RPTable) (rid id : Z) :
  rpt_ok t ->
  oh_get_resource_by_id (Some t) rid = fst <$> view_find rid (rpt_view t) /\
  oh_get_resource_next (Some t) rid =
    fst <$> (if rid =? SAHPI_FIRST_ENTRY then head (rpt_view t)
             else after (fun x => ResourceId x.1 =? rid) (rpt_view t)) /\
  oh_get_rdr_by_id (Some t) rid id =
    (x ← view_find rid (rpt_view t); rdr_find id x.2) /\
  oh_get_rdr_next (Some t) rid id =
    (x ← view_find rid (rpt_view t);
     if id =? SAHPI_FIRST_ENTRY then head x.2 else after (fun r => RecordId r =? id) x.2) /\
  (forall x r, x ∈ rpt_view t -> r ∈ x.2 ->
     oh_get_rdr_by_id (Some t) (ResourceId x.1) (RecordId r) = Some r).
Proof.
  intros Ht. split; [by apply res_by_id_view|]. split; [by apply res_next_view|].
  split; [by apply rdr_by_id_view|]. split; [by apply rdr_next_view|].
  intros x r Hx Hr. rewrite rdr_by_id_view, elem_view_find by done. simpl.
  apply list_elem_of_fmap in Hx as (e & -> & He). apply list_elem_of_fmap in He as ([n e'] & -> & He).
  pose proof (rpt_entries _ Ht) as HF. rewrite Forall_forall in HF. specialize (HF _ He).
  destruct (rdr_view_nodup _ _ HF) as [Hd Hz]. simpl in *. unfold rdr_find.
  rewrite Forall_forall in Hz. destruct (Z.eqb_spec (RecordId r) SAHPI_FIRST_ENTRY) as [E|_].
  { by destruct (Hz r Hr E). }
  rewrite find_rdr_view. unfold rdr_view in Hr.
  apply list_elem_of_fmap in Hr as (d & -> & Hr). apply list_elem_of_fmap in Hr as ([m d'] & -> & Hr).
  rewrite (proj2 (find_key_elem rdr_key _ _ (m, d') (ok_keys _ _ _ _ (proj2 HF)))); [done|].
  by split.
Qed.

Lemma rpt_lookups_refine_witness :
  oh_get_rdr_by_id (Some example_rpt) 7 (oh_get_rdr_uid SAHPI_SENSOR_RDR 3)
    = Some (example_rdr SAHPI_SENSOR_RDR 3) /\
  oh_get_resource_by_id (Some example_rpt) 7 = fst <$> view_find 7 (rpt_view example_rpt).
Proof.
  split; [reflexivity|].
  apply (proj1 (rpt_lookups_refine example_rpt 7 0 example_rpt_ok)).
Defined.

(** C36: [oh_add_resource] on a well-formed table stores the entry under its
    resource id, with the entry id made equal to it: an entry of the same
    resource id is overlaid in place and keeps its RDRs, otherwise the entry is
    appended without RDRs; the update counter and time stamp change exactly
    when the stored entries do; the invariant is kept.  A resource id that is
    [SAHPI_FIRST_ENTRY] or unspecified is rejected and changes nothing.  No entity
    path is rejected, although the documentation of the function says so of
    malformed ones: the check of the code, [oh_valid_ep], accepts every path. *)
Theorem oh_add_resource_refines (now : Z) (t : RPTable) (en : SaHpiRptEntryT) (dat own : Z) :
  rpt_ok t ->
  let en' := en <| EntryId := ResourceId en |> in
  (~ rid_ok (ResourceId en) ->
   oh_add_resource now (Some t) (Some en) dat own
     = (SA_ERR_HPI_INVALID_PARAMS, Some t, Some en)) /\
  (rid_ok (ResourceId en) -> exists t',
     oh_add_resource now (Some t) (Some en) dat own = (SA_OK, Some t', Some en') /\
     rpt_ok t' /\ rpt_view t' = put_resource en' (rpt_view t) /\
     (table_update_count t', update_timestamp t') =
       if decide (en' ∈ (rpt_view t).*1) then (table_update_count t, update_timestamp t)
       else (u32 (table_update_count t + 1), now)).
Proof.
  intros Ht en'. split.
  - unfold rid_ok, oh_add_resource. intros Hbad.
    destruct (Z.eqb_spec (ResourceId en) SAHPI_FIRST_ENTRY); [done|].
    destruct (Z.eqb_spec (ResourceId en) SAHPI_UNSPECIFIED_RESOURCE_ID); [done|]. tauto.
  - intros Hr. pose proof (view_find_elem t (ResourceId en) Ht) as Hv.
    rewrite view_find_key in Hv by apply Hr. unfold put_resource.
    change (ResourceId en') with (ResourceId en).
    destruct (get_rptentry_by_rid (Some t) (ResourceId en)) as [[n e]|] eqn:Hget; rewrite Hv.
    + destruct (add_resource_existing now t en dat own n e Ht Hr Hget) as (t' & H1 & H2 & H3 & _ & H4).
      exists t'. split; [done|]. split; [done|]. split; [done|]. rewrite H4. fold en'.
      destruct (get_rptentry_elem _ Ht _ _ _ Hget) as (Hin & _ & _).
      destruct (decide (rpt_entry e = en')) as [E|E];
        destruct (decide (en' ∈ (rpt_view t).*1)) as [Hd|Hd]; try done.
      * destruct Hd. rewrite <- E. apply list_elem_of_fmap. exists (entry_view e). split; [done|].
        apply list_elem_of_fmap. exists e. split; [done|]. apply list_elem_of_fmap. by exists (n, e).
      * destruct E. apply list_elem_of_fmap in Hd as (x & Ex & Hx).
        pose proof (elem_view_find t x Ht Hx) as Hf. rewrite <- Ex in Hf.
        change (ResourceId en') with (ResourceId en) in Hf.
        rewrite view_find_key, Hv in Hf by apply Hr. injection Hf as <-. done.
    + destruct (add_resource_new now t en dat own Ht Hr Hget) as (t' & H1 & H2 & H3 & _ & H4).
      exists t'. split; [done|]. split; [done|]. split; [done|]. rewrite H4. fold en'.
      destruct (decide (en' ∈ (rpt_view t).*1)) as [Hd|Hd]; [|done].
      apply list_elem_of_fmap in Hd as (x & Ex & Hx).
      pose proof (elem_view_find t x Ht Hx) as Hf. rewrite <- Ex in Hf.
      change (ResourceId en') with (ResourceId en) in Hf.
      by rewrite view_find_key, Hv in Hf by apply Hr.
Qed.

Lemma oh_add_resource_refines_witness :
  rid_ok 9 /\ exists t',
    oh_add_resource 6 (Some example_rpt) (Some (example_resource 9)) 0 0
      = (SA_OK, Some t', Some (example_resource 9)) /\
    rpt_ok t' /\ rpt_view t' = put_resource (example_resource 9) (rpt_view example_rpt) /\
    (table_update_count t', update_timestamp t') =
      if decide (example_resource 9 ∈ (rpt_view example_rpt).*1)
      then (table_update_count example_rpt, update_timestamp example_rpt)
      else (u32 (table_update_count example_rpt + 1), 6).
Proof.
  split; [by split|].
  apply (proj2 (oh_add_resource_refines 6 example_rpt (example_resource 9) 0 0 example_rpt_ok)).
  by split.
Defined.

(** [oh_add_rdr] on a well-formed table: without the resource it returns
    [SA_ERR_HPI_NOT_PRESENT], with an instrument id that is not allowed
    [SA_ERR_HPI_INVALID_PARAMS], both without effect.  Otherwise the record gets
    the id made of its type and instrument number and is put in the RDRs of the
    resource - in place of the record with that id, or at the end - and nothing
    else changes: neither the other resources nor the table's update counter.
    (A record id of 0 is the subject of the next property.) *)
Theorem oh_add_rdr_refines (t : RPTable) (rid : Z) (r : SaHpiRdrT) (dat own : Z) :
  rpt_ok t ->
  let r' := r <| RecordId := oh_get_rdr_uid (RdrType r) (oh_get_instrument_id r) |> in
  RecordId r' <> SAHPI_FIRST_ENTRY ->
  match view_find rid (rpt_view t) with
  | None => oh_add_rdr (Some t) rid (Some r) dat own = (SA_ERR_HPI_NOT_PRESENT, Some t, Some r)
  | Some x =>
      if truthy (check_instrument_id x.1 r)
      then oh_add_rdr (Some t) rid (Some r) dat own = (SA_ERR_HPI_INVALID_PARAMS, Some t, Some r)
      else exists t',
        oh_add_rdr (Some t) rid (Some r) dat own = (SA_OK, Some t', Some r') /\
        rpt_ok t' /\
        rpt_view t' = view_update (ResourceId x.1) (fun y => (y.1, put_rdr r' y.2)) (rpt_view t) /\
        (table_update_count t', update_timestamp t') = (table_update_count t, update_timestamp t)
  end.
Proof.
  intros Ht r' Hz. pose proof (view_find_elem t rid Ht) as Hv.
  destruct (get_rptentry_by_rid (Some t) rid) as [[n e]|] eqn:Hget; rewrite Hv.
  - simpl. destruct (truthy (check_instrument_id (rpt_entry e) r)) eqn:Ec.
    + unfold oh_add_rdr. by rewrite Hget, Ec.
    + apply truthy_false in Ec. by apply (add_rdr_view t rid r dat own n e).
  - unfold oh_add_rdr. by rewrite Hget.
Qed.

Lemma oh_add_rdr_refines_witness :
  match view_find 7 (rpt_view example_rpt) with
  | None => False
  | Some x => exists t',
      oh_add_rdr (Some example_rpt) 7 (Some (example_rdr SAHPI_CTRL_RDR 1)) 0 0
        = (SA_OK, Some t', Some (example_rdr SAHPI_CTRL_RDR 1)) /\
      rpt_ok t' /\
      rpt_view t' = view_update 7
        (fun y => (y.1, put_rdr (example_rdr SAHPI_CTRL_RDR 1) y.2)) (rpt_view example_rpt) /\
      (table_update_count t', update_timestamp t')
        = (table_update_count example_rpt, update_timestamp example_rpt)
  end.
Proof.
  apply (oh_add_rdr_refines example_rpt 7 (example_rdr SAHPI_CTRL_RDR 1) 0 0 example_rpt_ok).
  discriminate.
Defined.

(** Adding an RDR whose derived record id is 0 - a record of type
    [SAHPI_NO_RECORD], or of a type and number that wrap to 0 - to a resource
    that has RDRs does not add a record: it returns [SA_OK] but overwrites the
    first RDR of the resource, whatever it is, and the table is no longer well
    formed.  ([oh_add_rdr] looks the id up with a function for which 0 means
    the first entry.) *)
Theorem oh_add_rdr_zero_id_overwrites (t : RPTable) (rid : Z) (r : SaHpiRdrT) (dat own : Z)
    (x : SaHpiRptEntryT) (first : SaHpiRdrT) (rest : list SaHpiRdrT) :
  rpt_ok t -> view_find rid (rpt_view t) = Some (x, first :: rest) ->
  check_instrument_id x r = 0 -> oh_get_rdr_uid (RdrType r) (oh_get_instrument_id r) = 0 ->
  exists t',
    oh_add_rdr (Some t) rid (Some r) dat own
      = (SA_OK, Some t', Some (r <| RecordId := 0 |>)) /\
    rpt_view t' = view_update (ResourceId x)
      (fun y => (y.1, r <| RecordId := 0 |> :: tail y.2)) (rpt_view t) /\
    ~ rpt_ok t'.
Proof.
  intros Ht Hx Hchk Huid. pose proof (view_find_elem t rid Ht) as Hv.
  destruct (get_rptentry_by_rid (Some t) rid) as [[n e]|] eqn:Hget; [|congruence].
  rewrite Hx in Hv. injection Hv as -> Er.
  destruct (get_rptentry_elem _ Ht _ _ _ Hget) as (Hin & Hok & _).
  unfold rdr_view in Er. destruct (rdrlist e) as [|[m d] l] eqn:El; [done|]. clear Er.
  assert (Hfst : get_rdrecord_by_id (Some e) 0 = Some (m, d))
    by (unfold get_rdrecord_by_id; by rewrite El).
  unfold oh_add_rdr. cbv zeta. rewrite Hget, Hchk, Huid. change (truthy 0) with false.
  cbn match. change (RecordId (r <| RecordId := 0 |>)) with 0. rewrite Hfst, release_spec.
  set (t1 := t <| freed ::= _ |>). set (f := fun e : RPTEntry => _).
  assert (Ht1 : rpt_ok t1) by by eapply rpt_ok_ext, Ht.
  assert (Hl : rdrlist (f e) = (m, {| rdr := r <| RecordId := 0 |>; rdr_owndata := own;
                                       rdr_data := dat |}) :: l).
  { unfold f. simpl. rewrite El. simpl. rewrite Nat.eqb_refl. f_equal.
    destruct Hok as [_ [Hd _ _ _ _]]. rewrite El in Hd. simpl in Hd. apply NoDup_cons in Hd as [Hm _].
    unfold store_at. rewrite <- (list_fmap_id l) at 2. apply list_fmap_ext.
    intros i [k c] Hk%list_elem_of_lookup_2. simpl. destruct (Nat.eqb_spec k m) as [->|]; [|done].
    destruct Hm. apply list_elem_of_fmap. by exists (m, c). }
  eexists. split; [reflexivity|]. split.
  - rewrite (set_entry_view t1 n e f (fun y => (y.1, r <| RecordId := 0 |> :: tail y.2)));
      [done|done|done|].
    unfold entry_view, rdr_view. by rewrite Hl, El.
  - intros [_ Hbad]. rewrite Forall_forall in Hbad.
    destruct (Hbad (n, f e)) as [_ [_ _ _ Hz _]]; [by apply set_entry_elem|]. simpl snd in Hz.
    rewrite Hl in Hz. by inversion Hz.
Qed.

Lemma oh_add_rdr_zero_id_overwrites_witness :
  exists t',
    oh_add_rdr (Some example_rpt) 7 (Some zero_rdr) 0 0 = (SA_OK, Some t', Some zero_rdr) /\
    rpt_view t' = view_update 7 (fun y => (y.1, zero_rdr :: tail y.2)) (rpt_view example_rpt) /\
    ~ rpt_ok t'.
Proof.
  apply (oh_add_rdr_zero_id_overwrites example_rpt 7 zero_rdr 0 0 (example_resource 7)
           (example_rdr SAHPI_SENSOR_RDR 3) []); [apply example_rpt_ok | reflexivity..].
Defined.

(** Removal.  [oh_remove_rdr] takes the RDR found under the id - or the
    first one - out of its resource and frees its private data if the table owns
    it; [oh_remove_resource] takes the resource and all its RDRs out of the
    table - its loop over the RDRs ends - and frees the private data of the RDRs
    and then of the resource, each once, and updates the counter and the time
    stamp; what is not there is [SA_ERR_HPI_NOT_PRESENT] and changes nothing.
    The invariant is kept. *)
Theorem rpt_removals_refine (now : Z) (t : RPTable) (rid id : Z) :
  rpt_ok t ->
  (match get_rptentry_by_rid (Some t) rid with
   | None => oh_remove_resource now (Some t) rid = (SA_ERR_HPI_NOT_PRESENT, Some t)
   | Some (_, e) => exists t',
       oh_remove_resource now (Some t) rid = (SA_OK, Some t') /\ rpt_ok t' /\
       rpt_view t' = filter (fun x => ResourceId x.1 <> ResourceId (rpt_entry e)) (rpt_view t) /\
       freed t' = freed t ++ entry_data e /\
       (table_update_count t', update_timestamp t') = (u32 (table_update_count t + 1), now)
   end) /\
  (match (p ← get_rptentry_by_rid (Some t) rid; q ← get_rdrecord_by_id (Some p.2) id; Some (p.2, q.2)) with
   | None => oh_remove_rdr (Some t) rid id = (SA_ERR_HPI_NOT_PRESENT, Some t)
   | Some (e, d) => exists t',
       oh_remove_rdr (Some t) rid id = (SA_OK, Some t') /\ rpt_ok t' /\
       rpt_view t' = view_update (ResourceId (rpt_entry e))
         (fun x => (x.1, filter (fun r => RecordId r <> RecordId (rdr d)) x.2)) (rpt_view t) /\
       freed t' = freed t ++ owned_data (rdr_data d) (rdr_owndata d)
   end).
Proof.
  intros Ht. destruct (get_rptentry_by_rid (Some t) rid) as [[n e]|] eqn:Hget; simpl.
  - split.
    + destruct (remove_resource_spec now t rid n e Ht Hget) as (t' & H1 & H2 & H3 & H4 & H5).
      exists t'. split; [done|]. split; [done|]. split; [|done]. unfold rpt_view. rewrite H3.
      apply remove_at_rpt_view; [done|]. by apply (get_rptentry_elem _ Ht rid).
    + destruct (get_rdrecord_by_id (Some e) id) as [[m d]|] eqn:Hrec; simpl.
      * destruct (remove_rdr_view t rid id n e m d Ht Hget Hrec) as (t' & f & H1 & H2 & H3 & H4 & _).
        by exists t'.
      * unfold oh_remove_rdr. by rewrite Hget, Hrec.
  - split; [unfold oh_remove_resource | unfold oh_remove_rdr]; by rewrite Hget.
Qed.

Lemma rpt_removals_refine_witness :
  exists t', oh_remove_resource 9 (Some example_rpt) 7 = (SA_OK, Some t') /\ rpt_ok t' /\
    rpt_view t' = filter (fun x => ResourceId x.1 <> 7) (rpt_view example_rpt) /\
    freed t' = freed example_rpt ++ [200; 100] /\
    (table_update_count t', update_timestamp t') = (u32 (table_update_count example_rpt + 1), 9).
Proof. exact (proj1 (rpt_removals_refine 9 example_rpt 7 0 example_rpt_ok)). Defined.

(** [oh_flush_rpt] on a well-formed table ends with an empty, well-formed
    table, and frees every private data pointer the table owns exactly once:
    for each resource in turn those of its RDRs, then its own. *)
Theorem oh_flush_rpt_empties (clock : nat -> Z) (t : RPTable) :
  rpt_ok t ->
  exists t', oh_flush_rpt clock (Some t) = (SA_OK, Some t') /\ rpt_ok t' /\
    rptlist t' = [] /\ rptable t' = None /\
    oh_get_resource_by_id (Some t') SAHPI_FIRST_ENTRY = None /\
    freed t' = freed t ++ concat (entry_data <$> (rptlist t).*2).
Proof.
  intros Ht. destruct (flush_loop_spec clock (length (rptlist t)) t Ht) as (t' & H1 & H2 & H3 & H4 & H5);
    [done|].
  exists t'. unfold oh_flush_rpt. rewrite H1. do 4 (split; [done|]). split; [|done].
  rewrite res_by_id_view by done. unfold rpt_view. by rewrite H3.
Qed.

Lemma oh_flush_rpt_empties_witness :
  exists t', oh_flush_rpt (fun _ => 8) (Some example_rpt) = (SA_OK, Some t') /\ rpt_ok t' /\
    rptlist t' = [] /\ rptable t' = None /\
    oh_get_resource_by_id (Some t') SAHPI_FIRST_ENTRY = None /\
    freed t' = freed example_rpt ++ [200; 100].
Proof. exact (oh_flush_rpt_empties (fun _ => 8) example_rpt example_rpt_ok). Defined.

(** [rpt_diff] on two well-formed tables ends and appends to its lists
    exactly: the resources of the current table whose id is not in the new one;
    for those that are in it, their RDRs whose record id is not in the new
    table; the resources of the new table that the current one does not have
    with the same contents; and the RDRs of the new table that the current one
    does not have with the same contents. *)
Theorem rpt_diff_correct (cur new : RPTable) (d : DiffLists) :
  rpt_ok cur -> rpt_ok new ->
  rpt_diff (Some cur) (Some new) (Some d) = Some (SA_OK, Some
    {| res_new := res_new d ++ changed_resources (rpt_view cur) (rpt_view new);
       rdr_new := rdr_new d ++ changed_rdrs (rpt_view cur) (rpt_view new);
       res_gone := res_gone d ++ gone_resources (rpt_view cur) (rpt_view new);
       rdr_gone := rdr_gone d ++ gone_rdrs (rpt_view cur) (rpt_view new) |}).
Proof. intros Hc Hn. by apply rpt_diff_view. Qed.

Lemma rpt_diff_correct_witness :
  rpt_diff (Some example_rpt) (Some empty_rpt) (Some diff_nil) = Some (SA_OK, Some
    {| res_new := []; rdr_new := []; res_gone := [example_resource 7]; rdr_gone := [] |}).
Proof. exact (rpt_diff_correct example_rpt empty_rpt diff_nil example_rpt_ok empty_rpt_ok). Defined.

(** Record ids.  For a type and an instrument number of 16 bits
    [oh_get_rdr_uid] gives different ids to different records and
    [oh_get_rdr_num] recovers the number; an instrument number of more than 16
    bits is confused with another type: the ids of (type, num) and of
    (type + 1, num - 2^16) are the same. *)
Theorem oh_get_rdr_uid_injective (type num type' num' : Z) :
  0 <= type < 2 ^ 16 -> 0 <= num < 2 ^ 16 ->
  (0 <= type' < 2 ^ 16 -> 0 <= num' < 2 ^ 16 ->
   oh_get_rdr_uid type num = oh_get_rdr_uid type' num' -> type = type' /\ num = num') /\
  oh_get_rdr_num (oh_get_rdr_uid type num) = num /\
  (type + 1 < 2 ^ 16 -> oh_get_rdr_uid (type + 1) num = oh_get_rdr_uid type (num + 2 ^ 16)).
Proof.
  intros Ht Hn. split; [|split].
  - intros Ht' Hn'. rewrite !uid_small by done. lia.
  - rewrite uid_small by done. unfold oh_get_rdr_num.
    change 65535 with (Z.ones 16). rewrite Z.land_ones by lia.
    rewrite Z.add_comm, Z_mod_plus_full. by apply Z.mod_small.
  - intros Ht1. rewrite uid_small by lia. unfold oh_get_rdr_uid.
    rewrite (u32_id type), Z.shiftl_mul_pow2, (u32_id (type * 2 ^ 16)) by lia. rewrite u32_id; lia.
Qed.

Lemma oh_get_rdr_uid_injective_witness :
  oh_get_rdr_uid SAHPI_INVENTORY_RDR 5 = oh_get_rdr_uid SAHPI_SENSOR_RDR (5 + 2 ^ 16) /\
  oh_get_rdr_num (oh_get_rdr_uid SAHPI_SENSOR_RDR 5) = 5.
Proof.
  destruct (oh_get_rdr_uid_injective SAHPI_SENSOR_RDR 5 0 0) as (_ & H1 & H2); [done..|].
  split; [by apply H2 | done].
Defined.
