(* ===== verification/EventLog.v ===== *)
(** Event logs: [utils/el_utils.c].

    An [oh_el] is a list of entries with consecutive identifiers, a maximal
    size ([0]: unlimited) and a clock offset.  Times read from the system clock
    are arguments; a file is the list of the whole records it holds, [None] when
    it cannot be opened, and [fwrite_ok] tells which records can be written. *)
From stdpp Require Import sorting.
From S2P Require Import Prelude SaHpi.

Definition OH_EL_MAX_SIZE : Z := 0.
#[export] Hint Unfold OH_EL_MAX_SIZE : hpi_const.

Record oh_el_entry := {
  event : SaHpiEventLogEntryT; el_rdr : SaHpiRdrT; el_res : SaHpiRptEntryT }.
#[export] Instance eta_el_entry : Eta oh_el_entry := fun x =>
  Build_oh_el_entry (event x) (el_rdr x) (el_res x).
#[export] Instance oh_el_entry_eq_dec : EqDecision oh_el_entry.
Proof. solve_decision. Defined.

Record oh_el := {
  basetime : Z; sysbasetime : Z; nextid : Z; gentimestamp : Z;
  info : SaHpiEventLogInfoT; el_list : list oh_el_entry }.
#[export] Instance eta_el : Eta oh_el := fun x =>
  Build_oh_el (basetime x) (sysbasetime x) (nextid x) (gentimestamp x)
    (info x) (el_list x).

Definition entry_id (e : oh_el_entry) : Z := log_EntryId (event e).

Definition oh_el_create (size : Z) : oh_el :=
  {| basetime := 0; sysbasetime := 0; nextid := SAHPI_OLDEST_ENTRY + 1;
     gentimestamp := SAHPI_TRUE;
     info := {| Entries := 0; Size := size;
                UserEventMaxSize := Z.of_nat SAHPI_MAX_TEXT_BUFFER_LENGTH;
                UpdateTimestamp := SAHPI_TIME_UNSPECIFIED;
                CurrentTime := SAHPI_TIME_UNSPECIFIED; Enabled := SAHPI_TRUE;
                OverflowFlag := SAHPI_FALSE; OverflowResetable := SAHPI_TRUE;
                OverflowAction := SAHPI_EL_OVERFLOW_OVERWRITE |};
     el_list := [] |}.

Definition oh_el_clear (el : option oh_el) : Z * option oh_el :=
  match el with
  | None => (SA_ERR_HPI_INVALID_PARAMS, None)
  | Some el =>
      (SA_OK, Some (el <| info ::= fun i => i <| OverflowFlag := SAHPI_FALSE |>
                             <| UpdateTimestamp := SAHPI_TIME_UNSPECIFIED |>
                             <| Entries := 0 |> |>
                       <| nextid := SAHPI_OLDEST_ENTRY + 1 |>
                       <| el_list := [] |>))
  end.

(** The log is freed: no log is left. *)
Definition oh_el_close (el : option oh_el) : Z * option oh_el :=
  match el with
  | None => (SA_ERR_HPI_INVALID_PARAMS, None)
  | Some el => let _ := oh_el_clear (Some el) in (SA_OK, None)
  end.

Definition oh_el_timeset (now : Z) (el : option oh_el) (timestamp : Z)
    : Z * option oh_el :=
  match el with
  | None => (SA_ERR_HPI_INVALID_PARAMS, None)
  | Some l =>
      if timestamp =? SAHPI_TIME_UNSPECIFIED then (SA_ERR_HPI_INVALID_PARAMS, el)
      else (SA_OK, Some (l <| sysbasetime := now |> <| basetime := timestamp |>))
  end.

(** The part [oh_el_append] and [oh_el_prepend] share: the update time stamp,
    from the log's clock or from the event. *)
Definition set_update_timestamp (now : Z) (e : SaHpiEventT) (el : oh_el) : oh_el :=
  if truthy (gentimestamp el)
  then el <| info ::= fun i => i <| UpdateTimestamp :=
                i64 (basetime el + i64 (now - sysbasetime el)) |> |>
  else let el := el <| info ::= fun i => i <| UpdateTimestamp := event_Timestamp e |> |> in
       default el (snd (oh_el_timeset now (Some el) (event_Timestamp e))).

(** [el->info.Size != OH_EL_MAX_SIZE && g_list_length(el->list) == el->info.Size] *)
Definition el_full (el : oh_el) : bool :=
  negb (Size (info el) =? OH_EL_MAX_SIZE) &&
  (Z.of_nat (length (el_list el)) =? Size (info el)).

Definition new_entry (id : Z) (el : oh_el) (ev : SaHpiEventT)
    (r : option SaHpiRdrT) (res : option SaHpiRptEntryT) : oh_el_entry :=
  {| event := {| log_EntryId := id; log_Timestamp := UpdateTimestamp (info el); Event := ev |};
     el_rdr := default zero_rdr r; el_res := default zero_rpt_entry res |}.

Definition oh_el_append (now : Z) (el : option oh_el) (ev : option SaHpiEventT)
    (r : option SaHpiRdrT) (res : option SaHpiRptEntryT) : Z * option oh_el :=
  match el, ev with
  | Some l, Some ev =>
      if negb (truthy (Enabled (info l))) && negb (EventType ev =? SAHPI_ET_USER)
      then (SA_ERR_HPI_INVALID_REQUEST, el)
      else
        let l := if el_full l
                 then l <| el_list ::= tail |>
                        <| info ::= fun i => i <| OverflowFlag := SAHPI_TRUE |> |>
                 else l in
        let id := nextid l in
        let l := l <| nextid ::= fun n => u32 (n + 1) |> in
        let l := set_update_timestamp now ev l in
        (SA_OK, Some (l <| el_list ::= fun es => es ++ [new_entry id l ev r res] |>))
  | _, _ => (SA_ERR_HPI_INVALID_PARAMS, el)
  end.

Definition renumber (e : oh_el_entry) : oh_el_entry :=
  e <| event ::= fun x => x <| log_EntryId ::= fun i => u32 (i + 1) |> |>.

Definition oh_el_prepend (now : Z) (el : option oh_el) (ev : option SaHpiEventT)
    (r : option SaHpiRdrT) (res : option SaHpiRptEntryT) : Z * option oh_el :=
  match el, ev with
  | Some l, Some ev =>
      if negb (truthy (Enabled (info l))) && negb (EventType ev =? SAHPI_ET_USER)
      then (SA_ERR_HPI_INVALID_REQUEST, el)
      else if el_full l then (SA_ERR_HPI_OUT_OF_SPACE, el)
      else
        let l := l <| el_list ::= fun es => renumber <$> es |>
                   <| nextid ::= fun n => u32 (n + 1) |> in
        let l := set_update_timestamp now ev l in
        (SA_OK, Some (l <| el_list ::= fun es =>
                             new_entry (SAHPI_OLDEST_ENTRY + 1) l ev r res :: es |>))
  | _, _ => (SA_ERR_HPI_INVALID_PARAMS, el)
  end.

(** The search loop of [oh_el_get]: [before] is the node before the list. *)
Fixpoint el_get_loop (before : option oh_el_entry) (l : list oh_el_entry) (eid : Z)
    : option (Z * Z * oh_el_entry) :=
  match l with
  | [] => None
  | e :: l =>
      if eid =? entry_id e
      then Some (match before with Some b => entry_id b | None => SAHPI_NO_MORE_ENTRIES end,
                 match head l with Some n => entry_id n | None => SAHPI_NO_MORE_ENTRIES end, e)
      else el_get_loop (Some e) l eid
  end.

(** [outs] is [None] when one of the output pointers is [NULL]; the result has
    [prev], [next] and [entry]. *)
Definition oh_el_get (el : option oh_el) (entryid : Z) (outs : option unit)
    : Z * option (Z * Z * oh_el_entry) :=
  match el, outs with
  | Some l, Some _ =>
      if entryid =? SAHPI_NO_MORE_ENTRIES then (SA_ERR_HPI_INVALID_PARAMS, None)
      else if Nat.eqb (length (el_list l)) 0 then (SA_ERR_HPI_NOT_PRESENT, None)
      else
        let node := if entryid =? SAHPI_OLDEST_ENTRY then head (el_list l)
                    else if entryid =? SAHPI_NEWEST_ENTRY then last (el_list l)
                    else None in
        let eid := match node with Some e => entry_id e | None => entryid end in
        match el_get_loop None (el_list l) eid with
        | Some r => (SA_OK, Some r)
        | None => (SA_ERR_HPI_NOT_PRESENT, None)
        end
  | _, _ => (SA_ERR_HPI_INVALID_PARAMS, None)
  end.

Definition oh_el_info (now : Z) (el : option oh_el) (i : option SaHpiEventLogInfoT)
    : Z * option SaHpiEventLogInfoT :=
  match el, i with
  | Some l, Some _ =>
      (SA_OK, Some (info l <| Entries := u32 (Z.of_nat (length (el_list l))) |>
                           <| CurrentTime := i64 (basetime l + i64 (now - sysbasetime l)) |>))
  | _, _ => (SA_ERR_HPI_INVALID_PARAMS, i)
  end.

Definition oh_el_overflowreset (el : option oh_el) : Z * option oh_el :=
  match el with
  | None => (SA_ERR_HPI_INVALID_PARAMS, None)
  | Some l =>
      if truthy (OverflowResetable (info l))
      then (SA_OK, Some (l <| info ::= fun i => i <| OverflowFlag := SAHPI_FALSE |> |>))
      else (SA_ERR_HPI_INVALID_CMD, el)
  end.

Definition oh_el_overflowset (el : option oh_el) (flag : Z) : Z * option oh_el :=
  match el with
  | None => (SA_ERR_HPI_INVALID_PARAMS, None)
  | Some l => (SA_OK, Some (l <| info ::= fun i => i <| OverflowFlag := flag |> |>))
  end.

Definition oh_el_setgentimestampflag (el : option oh_el) (flag : Z) : Z * option oh_el :=
  match el with
  | None => (SA_ERR_HPI_INVALID_PARAMS, None)
  | Some l => (SA_OK, Some (l <| gentimestamp := flag |>))
  end.

Definition oh_el_enableset (el : option oh_el) (flag : Z) : Z * option oh_el :=
  match el with
  | None => (SA_ERR_HPI_INVALID_PARAMS, None)
  | Some l => (SA_OK, Some (l <| info ::= fun i => i <| Enabled := flag |> |>))
  end.

(** Writing records until one cannot be written; the boolean tells whether all
    of them were. *)
Fixpoint write_records {A} (fwrite_ok : nat -> bool) (i : nat) (l : list A) : list A * bool :=
  match l with
  | [] => ([], true)
  | x :: l =>
      if fwrite_ok i
      then let '(w, ok) := write_records fwrite_ok (S i) l in (x :: w, ok)
      else ([], false)
  end.

(** The second component is the new contents of the file, [None] when the file
    is not opened. *)
Definition oh_el_map_to_file (fopen_ok : bool) (fwrite_ok : nat -> bool)
    (el : option oh_el) (filename : option string) : Z * option (list oh_el_entry) :=
  match el, filename with
  | Some l, Some _ =>
      if negb fopen_ok then (SA_ERR_HPI_ERROR, None)
      else let '(w, ok) := write_records fwrite_ok 0 (el_list l) in
           (if ok then SA_OK else SA_ERR_HPI_ERROR, Some w)
  | _, _ => (SA_ERR_HPI_INVALID_PARAMS, None)
  end.

(** The reading loop. *)
Definition el_read_entry (el : oh_el) (entry : oh_el_entry) : oh_el :=
  el <| nextid := entry_id entry |> <| nextid ::= fun n => u32 (n + 1) |>
     <| el_list ::= fun l => l ++ [entry] |>.

Definition oh_el_map_from_file (el : option oh_el) (filename : option string)
    (file : option (list oh_el_entry)) : Z * option oh_el :=
  match el, filename with
  | Some l, Some _ =>
      if negb (truthy (Enabled (info l))) then (SA_ERR_HPI_INVALID_REQUEST, el)
      else match file with
           | None => (SA_ERR_HPI_ERROR, el)
           | Some records =>
               let l := default l (snd (oh_el_clear (Some l))) in
               (SA_OK, Some (foldl el_read_entry l records))
           end
  | _, _ => (SA_ERR_HPI_INVALID_PARAMS, el)
  end.

(** * The invariant *)

(** The identifiers ascend from the oldest to the newest entry, below the next
    identifier. *)
Record el_ordered (el : oh_el) : Prop := {
  el_sorted : StronglySorted Z.lt (entry_id <$> el_list el);
  el_ids : Forall (fun i => 1 <= i < nextid el) (entry_id <$> el_list el);
  el_next : 1 <= nextid el <= SAHPI_NO_MORE_ENTRIES }.
(** The log is within its size. *)
Definition el_fits (el : oh_el) : Prop :=
  Size (info el) = OH_EL_MAX_SIZE \/ Z.of_nat (length (el_list el)) <= Size (info el).
Record el_ok (el : oh_el) : Prop := { el_order : el_ordered el; el_size : el_fits el }.

(** More records than a log of this size holds. *)
Definition too_many (size : Z) (records : list oh_el_entry) : bool :=
  negb (size =? OH_EL_MAX_SIZE) && (size <? Z.of_nat (length records)).

(** The logs a client of the component can reach.  The first index is the size;
    the second tells whether the log was loaded, and not cleared since, from a
    file with more records than that; the third bounds the number of entries
    added.  A file holds the records that [oh_el_map_to_file] wrote of some
    reachable log, all or, when a write failed, the first of them. *)
Inductive el_reach : Z -> bool -> Z -> oh_el -> Prop :=
  | el_reach_create size : el_reach size false 0 (oh_el_create size)
  | el_reach_append size over n now ev r res el el' :
      el_reach size over n el ->
      oh_el_append now (Some el) (Some ev) r res = (SA_OK, Some el') ->
      el_reach size over (n + 1) el'
  | el_reach_prepend size over n now ev r res el el' :
      el_reach size over n el ->
      oh_el_prepend now (Some el) (Some ev) r res = (SA_OK, Some el') ->
      el_reach size over (n + 1) el'
  | el_reach_clear size over n el el' :
      el_reach size over n el -> oh_el_clear (Some el) = (SA_OK, Some el') -> el_reach size false n el'
  | el_reach_load size over n el name size0 over0 n0 el0 fopen_ok fwrite_ok name0 rv records el' :
      el_reach size over n el -> el_reach size0 over0 n0 el0 ->
      oh_el_map_to_file fopen_ok fwrite_ok (Some el0) name0 = (rv, Some records) ->
      oh_el_map_from_file (Some el) (Some name) (Some records) = (SA_OK, Some el') ->
      el_reach size (too_many size records) n0 el'
  | el_reach_timeset size over n now ts el el' :
      el_reach size over n el -> oh_el_timeset now (Some el) ts = (SA_OK, Some el') ->
      el_reach size over n el'
  | el_reach_reset size over n el el' :
      el_reach size over n el -> oh_el_overflowreset (Some el) = (SA_OK, Some el') ->
      el_reach size over n el'
  | el_reach_flags size over n f el el' :
      el_reach size over n el ->
      oh_el_overflowset (Some el) f = (SA_OK, Some el') \/
      oh_el_setgentimestampflag (Some el) f = (SA_OK, Some el') \/
      oh_el_enableset (Some el) f = (SA_OK, Some el') ->
      el_reach size over n el'.

(** * Lemmas *)

(** Setting the time stamp changes neither the entries nor the identifiers. *)
Lemma set_update_timestamp_keeps now ev el :
  let el' := set_update_timestamp now ev el in
  el_list el' = el_list el /\ nextid el' = nextid el /\
  Size (info el') = Size (info el) /\ OverflowFlag (info el') = OverflowFlag (info el) /\
  Enabled (info el') = Enabled (info el).
Proof.
  unfold set_update_timestamp, oh_el_timeset. destruct (truthy _); [done|]. by case_if.
Qed.

Lemma StronglySorted_snoc (l : list Z) x :
  StronglySorted Z.lt l -> Forall (fun y => y < x) l -> StronglySorted Z.lt (l ++ [x]).
Proof.
  induction 1 as [|y l Hs IH Hy]; intros Hf; simpl; [repeat constructor|].
  inversion Hf; subst. constructor; [by apply IH|]. apply Forall_app. split; [done|by constructor].
Qed.

Lemma StronglySorted_tail (l : list Z) : StronglySorted Z.lt l -> StronglySorted Z.lt (tail l).
Proof. intros H. destruct H; simpl; [constructor|done]. Qed.

Lemma Forall_tail {A} (P : A -> Prop) l : Forall P l -> Forall P (tail l).
Proof. intros H. destruct H; simpl; [constructor|done]. Qed.

Lemma fmap_tail {A B} (f : A -> B) l : f <$> tail l = tail (f <$> l).
Proof. by destruct l. Qed.

(** The result of a successful [oh_el_append]. *)
Lemma append_result now el ev r res el' :
  oh_el_append now (Some el) (Some ev) r res = (SA_OK, Some el') ->
  exists ts,
    el_list el' = (if el_full el then tail (el_list el) else el_list el) ++
      [{| event := {| log_EntryId := nextid el; log_Timestamp := ts; Event := ev |};
          el_rdr := default zero_rdr r; el_res := default zero_rpt_entry res |}] /\
    nextid el' = u32 (nextid el + 1) /\ Size (info el') = Size (info el) /\
    Enabled (info el') = Enabled (info el) /\
    OverflowFlag (info el') = (if el_full el then SAHPI_TRUE else OverflowFlag (info el)) /\
    ts = UpdateTimestamp (info el').
Proof.
  unfold oh_el_append. case_if; [done|]. intros [= <-].
  set (l := if el_full el then _ else el).
  destruct (set_update_timestamp_keeps now ev (l <| nextid ::= fun n => u32 (n + 1) |>))
    as (H1 & H2 & H3 & H4 & H5). simpl in *. unfold new_entry.
  exists (UpdateTimestamp (info (set_update_timestamp now ev (l <| nextid ::= fun n => u32 (n + 1) |>)))).
  rewrite H1, H2, H3, H4, H5. unfold l. by destruct (el_full el).
Qed.

Lemma prepend_result now el ev r res el' :
  oh_el_prepend now (Some el) (Some ev) r res = (SA_OK, Some el') ->
  el_full el = false /\ exists ts,
    el_list el' = {| event := {| log_EntryId := 1; log_Timestamp := ts; Event := ev |};
                     el_rdr := default zero_rdr r; el_res := default zero_rpt_entry res |}
                  :: (renumber <$> el_list el) /\
    nextid el' = u32 (nextid el + 1) /\ Size (info el') = Size (info el).
Proof.
  unfold oh_el_prepend. case_if; [done|]. destruct (el_full el); [done|]. intros [= <-].
  split; [done|]. eexists.
  set (l := el <| el_list ::= _ |> <| nextid ::= _ |>).
  destruct (set_update_timestamp_keeps now ev l) as (H1 & H2 & H3 & H4 & H5). simpl in *.
  rewrite H1, H2, H3. done.
Qed.

Lemma el_full_spec el :
  el_fits el -> el_full el = false ->
  Size (info el) = OH_EL_MAX_SIZE \/ Z.of_nat (length (el_list el)) < Size (info el).
Proof.
  intros Hs Hf. unfold el_full in Hf. apply andb_false_iff in Hf. unfold el_fits in Hs.
  destruct Hf as [Hf|Hf]; zbool; lia.
Qed.

Lemma append_ordered now el ev r res el' :
  el_ordered el -> nextid el < SAHPI_NO_MORE_ENTRIES ->
  oh_el_append now (Some el) (Some ev) r res = (SA_OK, Some el') -> el_ordered el'.
Proof.
  intros Hok Hn He.
  destruct (append_result _ _ _ _ _ _ He) as (ts & Hl & Hi & _ & _ & _).
  destruct Hok as [Ho Hids Hnx]. consts.
  assert (u32 (nextid el + 1) = nextid el + 1) as Hu by (apply u32_id; lia).
  assert (Hids' : Forall (fun i => 1 <= i < nextid el)
            (entry_id <$> (if el_full el then tail (el_list el) else el_list el))).
  { destruct (el_full el); [|done]. rewrite fmap_tail. by apply Forall_tail. }
  split.
  - rewrite Hl, fmap_app. apply StronglySorted_snoc.
    + destruct (el_full el); [|done]. rewrite fmap_tail. by apply StronglySorted_tail.
    + eapply Forall_impl; [exact Hids'|]. simpl. unfold entry_id. simpl. lia.
  - rewrite Hl, fmap_app, Hi, Hu. apply Forall_app. split.
    + eapply Forall_impl; [exact Hids'|]. simpl. lia.
    + repeat constructor; unfold entry_id; simpl; lia.
  - rewrite Hi, Hu. consts. lia.
Qed.

Lemma append_fits now el ev r res el' :
  el_fits el -> 0 <= Size (info el) ->
  oh_el_append now (Some el) (Some ev) r res = (SA_OK, Some el') -> el_fits el'.
Proof.
  intros Hok Hsz He. pose proof (el_full_spec el Hok) as Hfull.
  destruct (append_result _ _ _ _ _ _ He) as (ts & Hl & _ & Hs & _ & _).
  unfold el_fits. rewrite Hs, Hl, length_app. simpl. destruct (el_full el) eqn:Ef; [|consts; lia].
  unfold el_full in Ef. zbool. consts. right. destruct (el_list el); simpl in *; lia.
Qed.

Lemma append_ok now el ev r res el' :
  el_ok el -> nextid el < SAHPI_NO_MORE_ENTRIES -> 0 <= Size (info el) ->
  oh_el_append now (Some el) (Some ev) r res = (SA_OK, Some el') -> el_ok el'.
Proof. intros [H1 H2] ???. split; [by eapply append_ordered|by eapply append_fits]. Qed.

Lemma renumber_ids es n :
  Forall (fun i => 1 <= i < n) (entry_id <$> es) -> n < 2 ^ 32 - 1 ->
  entry_id <$> (renumber <$> es) = Z.succ <$> (entry_id <$> es).
Proof.
  intros H Hn. rewrite <- !list_fmap_compose. rewrite Forall_fmap in H.
  apply list_fmap_ext. intros i e He%list_elem_of_lookup_2. rewrite Forall_forall in H.
  specialize (H e He). simpl in *. unfold entry_id in *. simpl. rewrite u32_id; lia.
Qed.

Lemma StronglySorted_succ (l : list Z) : StronglySorted Z.lt l -> StronglySorted Z.lt (Z.succ <$> l).
Proof.
  induction 1 as [|x l Hs IH Hx]; csimpl; constructor; [done|].
  rewrite Forall_fmap. eapply Forall_impl; [exact Hx|]. simpl. lia.
Qed.

Lemma prepend_ordered now el ev r res el' :
  el_ordered el -> nextid el < SAHPI_NO_MORE_ENTRIES ->
  oh_el_prepend now (Some el) (Some ev) r res = (SA_OK, Some el') -> el_ordered el'.
Proof.
  intros [Ho Hids Hnx] Hn He. destruct (prepend_result _ _ _ _ _ _ He) as (_ & ts & Hl & Hi & _). consts.
  assert (u32 (nextid el + 1) = nextid el + 1) as Hu by (apply u32_id; lia).
  split; [| |rewrite Hi, Hu; consts; lia];
  rewrite Hl; csimpl; rewrite (renumber_ids _ _ Hids) by lia;
  [ constructor; [by apply StronglySorted_succ|]
  | rewrite Hi, Hu; constructor; [unfold entry_id; simpl; lia|] ];
  rewrite Forall_fmap; (eapply Forall_impl; [exact Hids|]); unfold entry_id; simpl; lia.
Qed.

Lemma prepend_fits now el ev r res el' :
  el_fits el -> oh_el_prepend now (Some el) (Some ev) r res = (SA_OK, Some el') -> el_fits el'.
Proof.
  intros Hok He. destruct (prepend_result _ _ _ _ _ _ He) as (Hf & ts & Hl & _ & Hs).
  pose proof (el_full_spec el Hok Hf). unfold el_fits. rewrite Hs, Hl. simpl. rewrite length_fmap. consts. lia.
Qed.

(** ** Lookup *)

Lemma el_get_loop_split b l1 e l2 eid :
  entry_id e = eid -> Forall (fun x => entry_id x <> eid) l1 ->
  el_get_loop b (l1 ++ e :: l2) eid =
    Some (default SAHPI_NO_MORE_ENTRIES (entry_id <$> last (option_list b ++ l1)),
          default SAHPI_NO_MORE_ENTRIES (entry_id <$> head l2), e).
Proof.
  intros He. revert b. induction l1 as [|x l1 IH]; intros b Hf; simpl.
  - rewrite (proj2 (Z.eqb_eq _ _) (eq_sym He)). rewrite app_nil_r. by destruct b, l2.
  - inversion Hf as [|? ? Hx Hl]; subst.
    destruct (Z.eqb_spec (entry_id e) (entry_id x)) as [E|_]; [by rewrite E in Hx|].
    rewrite IH by done. do 4 f_equal. destruct b; simpl; [|done].
    by destruct (l1).
Qed.

Lemma el_get_loop_none b l eid :
  Forall (fun x => entry_id x <> eid) l -> el_get_loop b l eid = None.
Proof.
  intros H. revert b. induction H as [|x l Hx _ IH]; intros b; simpl; [done|].
  destruct (Z.eqb_spec eid (entry_id x)); [congruence|]. apply IH.
Qed.

Lemma sorted_before l1 (e : oh_el_entry) l2 :
  StronglySorted Z.lt (entry_id <$> (l1 ++ e :: l2)) ->
  Forall (fun x => entry_id x <> entry_id e) l1.
Proof.
  induction l1 as [|x l1 IH]; csimpl; [constructor|]. inversion 1 as [|? ? Hs Hf]; subst.
  constructor; [|by apply IH]. rewrite fmap_app in Hf. apply Forall_app in Hf as [_ Hf].
  inversion Hf; subst. lia.
Qed.

Lemma el_ids_range el e :
  el_ok el -> e ∈ el_list el -> 1 <= entry_id e < SAHPI_NO_MORE_ENTRIES.
Proof.
  intros [[_ Hi Hn] _] He. rewrite Forall_fmap, Forall_forall in Hi. specialize (Hi e He).
  simpl in Hi. lia.
Qed.

(** The entry of an identifier, with its neighbours. *)
Lemma el_get_entry el l1 e l2 id :
  el_ok el -> el_list el = l1 ++ e :: l2 ->
  (id = entry_id e \/ (id = SAHPI_OLDEST_ENTRY /\ l1 = []) \/ (id = SAHPI_NEWEST_ENTRY /\ l2 = [])) ->
  oh_el_get (Some el) id (Some tt) =
    (SA_OK, Some (default SAHPI_NO_MORE_ENTRIES (entry_id <$> last l1),
                  default SAHPI_NO_MORE_ENTRIES (entry_id <$> head l2), e)).
Proof.
  intros Hok El Hid. assert (He : e ∈ el_list el) by (rewrite El; apply elem_of_app; right; left).
  pose proof (el_ids_range el e Hok He) as Hr. consts.
  assert (Hloop : el_get_loop None (el_list el) (entry_id e) =
    Some (default SAHPI_NO_MORE_ENTRIES (entry_id <$> last l1),
          default SAHPI_NO_MORE_ENTRIES (entry_id <$> head l2), e)).
  { rewrite El. apply el_get_loop_split; [done|]. apply sorted_before with l2. rewrite <- El. apply (el_order _ Hok). }
  unfold oh_el_get. assert ((id =? SAHPI_NO_MORE_ENTRIES) = false) as ->.
  { apply Z.eqb_neq. consts. destruct Hid as [->|[[-> _]|[-> _]]]; lia. }
  assert (Nat.eqb (length (el_list el)) 0 = false) as ->.
  { apply Nat.eqb_neq. rewrite El, length_app. simpl. lia. }
  destruct Hid as [->|[[-> ->]|[-> ->]]].
  - destruct (Z.eqb_spec (entry_id e) SAHPI_OLDEST_ENTRY); [consts; lia|].
    destruct (Z.eqb_spec (entry_id e) SAHPI_NEWEST_ENTRY); [consts; lia|]. by rewrite Hloop.
  - rewrite El in *. simpl in *. by rewrite Hloop.
  - rewrite El in *. simpl. rewrite last_snoc. by rewrite Hloop.
Qed.

#[local] Arguments oh_el_get : simpl never.
#[local] Arguments oh_el_append : simpl never.

(** What a client sees that follows the [next] identifiers. *)
Fixpoint el_walk (fuel : nat) (el : oh_el) (id : Z) : list oh_el_entry :=
  match fuel with
  | 0%nat => []
  | S fuel =>
      match oh_el_get (Some el) id (Some tt) with
      | (_, Some (_, next, e)) =>
          e :: if next =? SAHPI_NO_MORE_ENTRIES then [] else el_walk fuel el next
      | (_, None) => []
      end
  end.

Lemma el_walk_from el l1 l2 :
  el_ok el -> el_list el = l1 ++ l2 -> forall e l2', l2 = e :: l2' ->
  forall fuel id, (length l2 <= fuel)%nat ->
  (id = entry_id e \/ (id = SAHPI_OLDEST_ENTRY /\ l1 = [])) -> el_walk fuel el id = l2.
Proof.
  intros Hok. revert l1. induction l2 as [|x l2 IH]; intros l1 El e l2' E fuel id Hf Hid; [done|].
  injection E as -> ->. destruct fuel as [|fuel]; [simpl in Hf; lia|]. simpl.
  rewrite (el_get_entry el l1 e l2' id Hok El) by tauto. f_equal.
  destruct l2' as [|y l2']; simpl; [done|].
  assert (Hy : y ∈ el_list el) by (rewrite El; apply elem_of_app; right; right; left).
  pose proof (el_ids_range el y Hok Hy).
  destruct (Z.eqb_spec (entry_id y) SAHPI_NO_MORE_ENTRIES); [consts; lia|].
  simpl in Hf. apply (IH (l1 ++ [e])) with y l2'; [|done|simpl; lia|by left].
  by rewrite El, <- app_assoc.
Qed.

(** ** Files *)

Lemma write_records_ok {A} (f : nat -> bool) (l : list A) i :
  (forall j, f j = true) -> write_records f i l = (l, true).
Proof. intros Hf. revert i. induction l as [|x l IH]; intros i; simpl; [done|]. by rewrite Hf, IH. Qed.

Lemma write_records_prefix {A} (f : nat -> bool) (l : list A) i :
  exists rest, l = (write_records f i l).1 ++ rest /\
    ((write_records f i l).2 = true <-> rest = []).
Proof.
  revert i. induction l as [|x l IH]; intros i; simpl; [by exists []|].
  destruct (f i); [|exists (x :: l); by split]. destruct (IH (S i)) as (rest & E1 & E2).
  exists rest. destruct (write_records f (S i) l) as [w ok]. simpl in *. split; [by f_equal|done].
Qed.

Lemma read_entries_spec l records :
  let l' := foldl el_read_entry l records in
  el_list l' = el_list l ++ records /\ info l' = info l /\
  nextid l' = match last records with Some e => u32 (entry_id e + 1) | None => nextid l end.
Proof.
  revert l. induction records as [|r records IH]; intros l; [simpl; by rewrite app_nil_r|].
  cbn [foldl]. destruct (IH (el_read_entry l r)) as (H1 & H2 & H3). rewrite H1, H2, H3, last_cons.
  split; [simpl; by rewrite <- app_assoc|]. split; [done|]. by destruct (last records).
Qed.

(** * Properties *)

(** What [oh_el_map_to_file] writes is the beginning of the log. *)
Lemma written_prefix fo fw el name rv records :
  oh_el_map_to_file fo fw (Some el) name = (rv, Some records) -> exists rest, el_list el = records ++ rest.
Proof.
  unfold oh_el_map_to_file. destruct name, fo; try done. simpl.
  destruct (write_records_prefix fw (el_list el) 0) as (rest & E & _).
  destruct (write_records fw 0 (el_list el)) as [w ok]. intros [= _ <-]. by exists rest.
Qed.

(** Loading what a log wrote. *)
Lemma load_ordered el el0 name records rest el' :
  el_ordered el0 -> el_list el0 = records ++ rest ->
  oh_el_map_from_file (Some el) (Some name) (Some records) = (SA_OK, Some el') ->
  el_ordered el' /\ el_list el' = records /\ Size (info el') = Size (info el) /\ nextid el' <= nextid el0.
Proof.
  intros [Ho Hids Hnx] El. unfold oh_el_map_from_file. destruct (truthy _); [|done]. cbn [negb].
  rewrite El, fmap_app in Ho, Hids. apply Forall_app in Hids as [Hids _].
  apply StronglySorted_app in Ho as (_ & Ho & _).
  intros [= <-]. destruct (read_entries_spec (default el (snd (oh_el_clear (Some el)))) records) as (H1 & H2 & H3).
  simpl in H1, H2, H3.
  match goal with |- el_ordered ?l /\ _ => set (el' := l) in * end.
  assert (Hn : nextid el' = default 1 ((fun e => entry_id e + 1) <$> last records)).
  { rewrite H3. destruct (last records) as [e|] eqn:Ee; [|done]. simpl. apply last_Some_elem_of in Ee.
    rewrite Forall_fmap, Forall_forall in Hids. specialize (Hids e Ee). simpl in Hids. consts. apply u32_id. lia. }
  assert (Hle : Forall (fun i => 1 <= i < nextid el') (entry_id <$> records) /\ 1 <= nextid el' <= nextid el0).
  { rewrite Hn. destruct records as [|e records' _] using rev_ind; [split; [constructor|simpl; lia]|].
    rewrite last_snoc. simpl. rewrite fmap_app in Ho, Hids |- *.
    apply StronglySorted_app in Ho as (Hlast & _ & _). apply Forall_app in Hids as [Hi1 Hi2].
    apply Forall_cons in Hi2 as [Hi2 _]. split; [|lia]. apply Forall_app. split; [|constructor; [lia|constructor]].
    apply Forall_forall. intros i Hi. specialize (Hlast i (entry_id e) Hi ltac:(by left)).
    rewrite Forall_forall in Hi1. specialize (Hi1 i Hi). simpl in Hi1. lia. }
  destruct Hle as [Hle [Hn1 Hn2]]. split; [split|]; rewrite ?H1; try done; [lia|]. by rewrite H2.
Qed.

Lemma el_reach_size size over n el : el_reach size over n el -> Size (info el) = size.
Proof.
  induction 1 as [size|size over n now ev r res el el' H IH E|size over n now ev r res el el' H IH E
    |size over n el el' H IH E|size over n el name size0 over0 n0 el0 fo fw name0 rv records el' H IH H0 _ Ew E
    |size over n now ts el el' H IH E|size over n el el' H IH E|size over n f el el' H IH E]; rewrite <- ?IH.
  - done.
  - by destruct (append_result _ _ _ _ _ _ E) as (ts & _ & _ & -> & _).
  - by destruct (prepend_result _ _ _ _ _ _ E) as (_ & ts & _ & _ & ->).
  - by injection E as <-.
  - unfold oh_el_map_from_file in E. destruct (truthy _); [|done]. injection E as <-.
    destruct (read_entries_spec (default el (snd (oh_el_clear (Some el)))) records) as (_ & H2 & _).
    simpl in H2. by rewrite H2.
  - unfold oh_el_timeset in E. destruct (ts =? _); [done|]. by injection E as <-.
  - unfold oh_el_overflowreset in E. destruct (truthy _); [|done]. by injection E as <-.
  - by destruct E as [E|[E|E]]; injection E as <-.
Qed.

(** C37: every log reached from [oh_el_create] by any sequence of appends,
    prepends, clears, time settings, overflow resets, flag settings and loads of
    files that such logs were saved to - fewer than 2^32 - 3 additions - has
    strictly ascending identifiers, all below the next identifier; and when it has
    a size limit, never more entries than that, unless a file with more records
    was loaded into it since it was last cleared (see
    [oh_el_map_from_file_unbounded]). *)
Theorem el_reach_ok (size n : Z) (over : bool) (el : oh_el) :
  n < 2 ^ 32 - 3 -> el_reach size over n el ->
  el_ordered el /\ Size (info el) = size /\ nextid el <= n + 1 /\
  (over = false -> 0 <= size -> el_fits el).
Proof.
  intros Hn H.
  assert (Hgo : 0 <= n /\ (n < 2 ^ 32 - 3 -> el_ordered el /\ Size (info el) = size /\ nextid el <= n + 1 /\
    (over = false -> 0 <= size -> el_fits el))); [|by apply Hgo]. clear Hn.
  induction H as [size|size over n now ev r res el el' H IH E|size over n now ev r res el el' H IH E
    |size over n el el' H IH E|size over n el name size0 over0 n0 el0 fo fw name0 rv records el' H IH H0 IH0 Ew E
    |size over n now ts el el' H IH E|size over n el el' H IH E|size over n f el el' H IH E];
    [|destruct IH as [Hn IH]..].
  - split; [lia|]. intros _. split; [|split; [done|split; [simpl; consts; lia|]]].
    + split; simpl; try constructor; consts; lia.
    + intros _ ?. unfold el_fits. simpl. consts. lia.
  - split; [lia|]. intros Hb. destruct IH as (Hok & Hs & Hi & Hf); [lia|].
    destruct (append_result _ _ _ _ _ _ E) as (ts & _ & Hi' & Hs' & _). split; [|split; [congruence|split]].
    + eapply append_ordered; [exact Hok|consts; lia|exact E].
    + rewrite Hi'. destruct Hok as [_ _ Hx]. rewrite u32_id; consts; lia.
    + intros Ho Hsz. eapply append_fits; [by apply Hf|lia|exact E].
  - split; [lia|]. intros Hb. destruct IH as (Hok & Hs & Hi & Hf); [lia|].
    destruct (prepend_result _ _ _ _ _ _ E) as (_ & ts & _ & Hi' & Hs'). split; [|split; [congruence|split]].
    + eapply prepend_ordered; [exact Hok|consts; lia|exact E].
    + rewrite Hi'. destruct Hok as [_ _ Hx]. rewrite u32_id; consts; lia.
    + intros Ho Hsz. eapply prepend_fits; [by apply Hf|exact E].
  - split; [lia|]. intros Hb. destruct IH as (Hok & Hs & Hi & Hf); [lia|].
    injection E as <-. split; [|split; [done|split; [simpl; consts; lia|]]].
    + split; simpl; try constructor; consts; lia.
    + intros _ ?. unfold el_fits. simpl. consts. lia.
  - destruct IH0 as [Hn0 IH0]. split; [lia|]. intros Hb. destruct IH0 as (Hok & _ & Hi & _); [lia|].
    destruct (written_prefix _ _ _ _ _ _ Ew) as [rest El].
    destruct (load_ordered el el0 name records rest el' Hok El E) as (Hok' & Hl & Hs & Hx).
    assert (Hsz : Size (info el) = size) by by apply (el_reach_size size over n).
    split; [done|]. split; [congruence|]. split; [lia|]. intros Ho ?. unfold el_fits. rewrite Hl, Hs, Hsz.
    unfold too_many in Ho. apply andb_false_iff in Ho as [Ho|Ho]; zbool; lia.
  - split; [lia|]. intros Hb. destruct IH as ([H1 H2 H3] & Hs & Hi & Hf); [lia|].
    unfold oh_el_timeset in E. destruct (ts =? _); [done|]. injection E as <-. done.
  - split; [lia|]. intros Hb. destruct IH as ([H1 H2 H3] & Hs & Hi & Hf); [lia|].
    unfold oh_el_overflowreset in E. destruct (truthy _); [|done]. injection E as <-. done.
  - split; [lia|]. intros Hb. destruct IH as ([H1 H2 H3] & Hs & Hi & Hf); [lia|].
    destruct E as [E|[E|E]]; injection E as <-; done.
Qed.

Definition example_event : SaHpiEventT :=
  {| Source := 4; event_Timestamp := 77; event_Severity := SAHPI_MINOR;
     EventDataUnion := UserEvent zero_textbuffer |}.
Definition example_el : oh_el :=
  let el := snd (oh_el_append 10 (Some (oh_el_create 2)) (Some example_event) None None) in
  default (oh_el_create 2) (snd (oh_el_append 20 el (Some example_event) None None)).

Lemma example_el_reach : el_reach 2 false 2 example_el.
Proof.
  apply (el_reach_append 2 false 1 20 example_event None None
           (default (oh_el_create 2) (snd (oh_el_append 10 (Some (oh_el_create 2))
              (Some example_event) None None)))); [|reflexivity].
  apply (el_reach_append 2 false 0 10 example_event None None (oh_el_create 2)); [|reflexivity].
  apply el_reach_create.
Qed.

Lemma example_el_ok : el_ok example_el.
Proof.
  assert (E : entry_id <$> el_list example_el = [1; 2]) by reflexivity.
  assert (En : nextid example_el = 3) by reflexivity.
  split; [split|]; rewrite ?E, ?En.
  - repeat constructor.
  - repeat constructor; lia.
  - consts. lia.
  - right. reflexivity.
Qed.

(** The example log, saved and loaded into a log of size 1. *)
Definition loaded_el : oh_el :=
  default example_el (snd (oh_el_map_from_file (Some (oh_el_create 1)) (Some "log"%string) (Some (el_list example_el)))).
Lemma loaded_el_reach : el_reach 1 true 2 loaded_el.
Proof.
  by apply (el_reach_load 1 false 0 (oh_el_create 1) "log"%string 2 false 2 example_el true (fun _ => true)
    (Some "log"%string) SA_OK (el_list example_el)); [apply el_reach_create|apply example_el_reach|..].
Qed.

Lemma el_reach_ok_witness :
  (el_ordered example_el /\ Size (info example_el) = 2 /\ nextid example_el <= 3 /\ el_fits example_el) /\
  el_ordered loaded_el /\ Size (info loaded_el) = 1 /\ nextid loaded_el <= 3.
Proof.
  destruct (el_reach_ok 2 2 false example_el ltac:(lia) example_el_reach) as (H1 & H2 & H3 & H4).
  destruct (el_reach_ok 1 2 true loaded_el ltac:(lia) loaded_el_reach) as (H5 & H6 & H7 & _).
  split_and!; try done. by apply H4.
Defined.

(** [oh_el_append] on a valid log.  A disabled log takes only user events:
    any other gets [SA_ERR_HPI_INVALID_REQUEST] and changes nothing.  Otherwise
    the event becomes the newest entry, under the next identifier; a log that
    is at its size limit loses exactly its oldest entry and gets its overflow
    flag set; and [oh_el_get] of the newest entry then returns the event. *)
Theorem oh_el_append_correct (now : Z) (el : oh_el) (ev : SaHpiEventT)
    (r : option SaHpiRdrT) (res : option SaHpiRptEntryT) :
  el_ok el -> nextid el < SAHPI_NO_MORE_ENTRIES -> 0 <= Size (info el) ->
  if negb (truthy (Enabled (info el))) && negb (EventType ev =? SAHPI_ET_USER)
  then oh_el_append now (Some el) (Some ev) r res = (SA_ERR_HPI_INVALID_REQUEST, Some el)
  else exists el' e prev,
    oh_el_append now (Some el) (Some ev) r res = (SA_OK, Some el') /\
    el_list el' = (if el_full el then tail (el_list el) else el_list el) ++ [e] /\
    OverflowFlag (info el') = (if el_full el then SAHPI_TRUE else OverflowFlag (info el)) /\
    entry_id e = nextid el /\ Event (event e) = ev /\
    log_Timestamp (event e) = UpdateTimestamp (info el') /\
    oh_el_get (Some el') SAHPI_NEWEST_ENTRY (Some tt)
      = (SA_OK, Some (prev, SAHPI_NO_MORE_ENTRIES, e)).
Proof.
  intros Hok Hn Hs. destruct (negb (truthy _) && _) eqn:Ec.
  { unfold oh_el_append. by rewrite Ec. }
  destruct (oh_el_append now (Some el) (Some ev) r res) as [rv o] eqn:E.
  assert (exists el', rv = SA_OK /\ o = Some el') as (el' & -> & ->).
  { unfold oh_el_append in E. rewrite Ec in E. injection E as <- <-. eauto. }
  destruct (append_result _ _ _ _ _ _ E) as (ts & Hl & _ & _ & _ & Hov & Hts).
  eexists el', _, _. split; [done|]. split; [exact Hl|]. split; [done|]. split; [done|].
  split; [done|]. split; [done|].
  apply (el_get_entry el') with (l2 := []); [|exact Hl|tauto]. eapply append_ok; eauto.
Qed.

Lemma oh_el_append_correct_witness :
  exists el' e prev,
    oh_el_append 30 (Some example_el) (Some example_event) None None = (SA_OK, Some el') /\
    el_list el' = tail (el_list example_el) ++ [e] /\
    OverflowFlag (info el') = SAHPI_TRUE /\ entry_id e = 3 /\ Event (event e) = example_event /\
    log_Timestamp (event e) = UpdateTimestamp (info el') /\
    oh_el_get (Some el') SAHPI_NEWEST_ENTRY (Some tt)
      = (SA_OK, Some (prev, SAHPI_NO_MORE_ENTRIES, e)).
Proof.
  apply (oh_el_append_correct 30 example_el example_event None None).
  - apply example_el_ok.
  - reflexivity.
  - by vm_compute.
Defined.

(** Reading a log.  In a valid log [oh_el_get] finds each entry by its
    identifier - and the first and last under [SAHPI_OLDEST_ENTRY] and
    [SAHPI_NEWEST_ENTRY] - with the identifiers of its neighbours; an
    identifier no entry has gives [SA_ERR_HPI_NOT_PRESENT]; and following the
    [next] identifiers from the oldest entry enumerates the log. *)
Theorem oh_el_get_correct (el : oh_el) :
  el_ok el ->
  (forall l1 e l2, el_list el = l1 ++ e :: l2 ->
     oh_el_get (Some el) (entry_id e) (Some tt) =
       (SA_OK, Some (default SAHPI_NO_MORE_ENTRIES (entry_id <$> last l1),
                     default SAHPI_NO_MORE_ENTRIES (entry_id <$> head l2), e))) /\
  (forall id, id <> SAHPI_OLDEST_ENTRY -> id <> SAHPI_NEWEST_ENTRY -> id <> SAHPI_NO_MORE_ENTRIES ->
     id ∉ entry_id <$> el_list el ->
     oh_el_get (Some el) id (Some tt) = (SA_ERR_HPI_NOT_PRESENT, None)) /\
  el_walk (length (el_list el)) el SAHPI_OLDEST_ENTRY = el_list el.
Proof.
  intros Hok. split; [|split].
  - intros l1 e l2 El. apply el_get_entry; tauto.
  - intros id H1 H2 H3 H4. unfold oh_el_get. rewrite (proj2 (Z.eqb_neq _ _) H3).
    case_if; [done|]. rewrite (proj2 (Z.eqb_neq _ _) H1), (proj2 (Z.eqb_neq _ _) H2).
    rewrite el_get_loop_none; [done|]. apply Forall_forall. intros e He E. destruct H4.
    apply list_elem_of_fmap. eauto.
  - destruct (el_list el) as [|e l] eqn:El; [done|].
    eapply (el_walk_from el []); [done|exact El|reflexivity|done|by right].
Qed.

Lemma oh_el_get_correct_witness :
  el_walk 2 example_el SAHPI_OLDEST_ENTRY = el_list example_el.
Proof.
  apply (oh_el_get_correct example_el).
  apply example_el_ok.
Defined.

(** Saving a log and loading it.  [oh_el_map_to_file] writes the entries in
    order; if a write fails the file holds a proper prefix of them and the
    result is [SA_ERR_HPI_ERROR].  Loading a completely written file with
    [oh_el_map_from_file] into an enabled log replaces its entries by the saved
    ones, and a log that is not empty continues with the identifier after the
    newest entry. *)
Theorem oh_el_file_roundtrip (el el2 : oh_el) (name : string) (fwrite_ok : nat -> bool) :
  truthy (Enabled (info el2)) = true ->
  (exists rest w, oh_el_map_to_file true fwrite_ok (Some el) (Some name)
       = (if decide (rest = []) then SA_OK else SA_ERR_HPI_ERROR, Some w) /\
     el_list el = w ++ rest) /\
  ((forall i, fwrite_ok i = true) ->
   exists w el', oh_el_map_to_file true fwrite_ok (Some el) (Some name) = (SA_OK, Some w) /\
     oh_el_map_from_file (Some el2) (Some name) (Some w) = (SA_OK, Some el') /\
     el_list el' = el_list el /\
     (el_ok el -> nextid el' = match last (el_list el) with
                               | Some e => entry_id e + 1 | None => 1 end)).
Proof.
  intros He. split.
  - destruct (write_records_prefix fwrite_ok (el_list el) 0) as (rest & E1 & E2).
    exists rest, (write_records fwrite_ok 0 (el_list el)).1. split; [|done]. simpl.
    destruct (write_records _ _ _) as [w ok]. simpl in *. destruct ok, (decide (rest = [])) as [->|Hr]; try done; exfalso; [apply Hr; by apply E2 | discriminate (proj2 E2 eq_refl)].
  - intros Hw. exists (el_list el). simpl. rewrite write_records_ok, He by done. simpl.
    set (l0 := el2 <| info ::= _ |> <| nextid := _ |> <| el_list := _ |>).
    destruct (read_entries_spec l0 (el_list el)) as (H1 & H2 & H3). simpl in *.
    eexists. split; [done|]. split; [done|]. split; [done|]. intros Hok. rewrite H3.
    destruct (last (el_list el)) as [e|] eqn:El; [|done].
    assert (He' : e ∈ el_list el) by by apply last_Some_elem_of.
    pose proof (el_ids_range el e Hok He'). consts. apply u32_id. lia.
Qed.

Lemma oh_el_file_roundtrip_witness :
  exists w el', oh_el_map_to_file true (fun _ => true) (Some example_el) (Some "log"%string) = (SA_OK, Some w) /\
     oh_el_map_from_file (Some (oh_el_create 5)) (Some "log"%string) (Some w) = (SA_OK, Some el') /\
     el_list el' = el_list example_el /\
     (el_ok example_el -> nextid el' = match last (el_list example_el) with
                               | Some e => entry_id e + 1 | None => 1 end).
Proof.
  apply (proj2 (oh_el_file_roundtrip example_el (oh_el_create 5) "log"%string (fun _ => true) eq_refl)).
  done.
Defined.

(** A log longer than its limit grows with every append. *)
Lemma appends_beyond_size l (evs : list (Z * SaHpiEventT)) :
  truthy (Enabled (info l)) = true -> 0 < Size (info l) < Z.of_nat (length (el_list l)) ->
  length (el_list (foldl (fun l p =>
    default l (snd (oh_el_append p.1 (Some l) (Some p.2) None None))) l evs))
  = (length (el_list l) + length evs)%nat.
Proof.
  revert l. induction evs as [|[now ev] evs IH]; intros l He Hs; simpl; [lia|].
  destruct (oh_el_append now (Some l) (Some ev) None None) as [rv o] eqn:E.
  assert (exists l', rv = SA_OK /\ o = Some l') as (l' & -> & ->).
  { unfold oh_el_append in E. rewrite He in E. simpl in E. injection E as <- <-. eauto. }
  destruct (append_result _ _ _ _ _ _ E) as (ts & Hl & _ & Hs' & He' & _). simpl.
  assert (Hf : el_full l = false).
  { unfold el_full. apply andb_false_iff. right. apply Z.eqb_neq. lia. }
  rewrite Hf in Hl.
  assert (He2 : truthy (Enabled (info l')) = true) by by rewrite He'.
  assert (Hs2 : 0 < Size (info l') < Z.of_nat (length (el_list l')))
    by (rewrite Hs', Hl, length_app; simpl; lia).
  rewrite (IH l' He2 Hs2).
  rewrite Hl, length_app. simpl. lia.
Qed.

(** The size limit is not enforced on a loaded log.  When a file holds more
    entries than the limit of the log it is loaded into, all of them are loaded
    and from then on no append wraps the log: every accepted event makes it one
    entry longer.  ([oh_el_append] tests whether the length equals the limit.) *)
Theorem oh_el_map_from_file_unbounded (el : oh_el) (name : string) (records : list oh_el_entry) :
  truthy (Enabled (info el)) = true -> 0 < Size (info el) < Z.of_nat (length records) ->
  exists el', oh_el_map_from_file (Some el) (Some name) (Some records) = (SA_OK, Some el') /\
    Size (info el') < Z.of_nat (length (el_list el')) /\
    forall evs : list (Z * SaHpiEventT),
      length (el_list (foldl (fun l p =>
        default l (snd (oh_el_append p.1 (Some l) (Some p.2) None None))) el' evs))
      = (length records + length evs)%nat.
Proof.
  intros He Hs. simpl. rewrite He. simpl.
  set (l0 := el <| info ::= _ |> <| nextid := _ |> <| el_list := _ |>).
  destruct (read_entries_spec l0 records) as (H1 & H2 & _). simpl in *.
  eexists. split; [done|]. rewrite H1. split; [rewrite H2; simpl; lia|]. intros evs.
  rewrite appends_beyond_size; rewrite ?H1, ?H2; done.
Qed.

Lemma oh_el_map_from_file_unbounded_witness :
  exists el', oh_el_map_from_file (Some (oh_el_create 1)) (Some "log"%string) (Some (el_list example_el))
      = (SA_OK, Some el') /\
    Size (info el') < Z.of_nat (length (el_list el')) /\
    forall evs : list (Z * SaHpiEventT),
      length (el_list (foldl (fun l p =>
        default l (snd (oh_el_append p.1 (Some l) (Some p.2) None None))) el' evs))
      = (2 + length evs)%nat.
Proof.
  apply (oh_el_map_from_file_unbounded (oh_el_create 1) "log"%string (el_list example_el));
    [reflexivity | by vm_compute].
Defined.
