(* ===== verification/Announcement.v ===== *)
(** Announcement lists of annunciators: [utils/announcement_utils.c].

    A list keeps its announcements in the order they were added, with ascending
    identifiers. *)
From S2P Require Import Prelude SaHpi.

(** [ann_num] is the field [num] of the C structure, which nothing sets. *)
Record oh_ann_entry := { annentry : SaHpiAnnouncementT; ann_num : Z }.
#[export] Instance eta_ann_entry : Eta oh_ann_entry :=
  fun x => Build_oh_ann_entry (annentry x) (ann_num x).

Record oh_announcement := { nextId : Z; annentries : list oh_ann_entry }.
#[export] Instance eta_oh_announcement : Eta oh_announcement :=
  fun x => Build_oh_announcement (nextId x) (annentries x).

Definition ann_id (e : oh_ann_entry) : Z := ann_EntryId (annentry e).

Definition oh_announcement_create : oh_announcement :=
  {| nextId := SAHPI_OLDEST_ENTRY + 1; annentries := [] |}.

Definition oh_announcement_clear (ann : option oh_announcement)
    : Z * option oh_announcement :=
  match ann with
  | None => (SA_ERR_HPI_INVALID_PARAMS, None)
  | Some a => (SA_OK, Some (a <| nextId := SAHPI_OLDEST_ENTRY + 1 |> <| annentries := [] |>))
  end.

(** The list is freed: none is left. *)
Definition oh_announcement_close (ann : option oh_announcement)
    : Z * option oh_announcement :=
  match ann with
  | None => (SA_ERR_HPI_INVALID_PARAMS, None)
  | Some a => let _ := oh_announcement_clear (Some a) in (SA_OK, None)
  end.

Definition oh_announcement_append (now : Z) (ann : option oh_announcement)
    (myann : option SaHpiAnnouncementT)
    : Z * option oh_announcement * option SaHpiAnnouncementT :=
  match ann, myann with
  | Some a, Some m =>
      let entry := {| annentry := m; ann_num := 0 |} in
      let entry := entry <| annentry ::= fun x =>
          x <| ann_EntryId := nextId a |> <| ann_Timestamp := now |>
            <| AddedByUser := SAHPI_TRUE |> |> in
      let a := a <| nextId ::= fun n => u32 (n + 1) |>
                 <| annentries ::= fun l => l ++ [entry] |> in
      (SA_OK, Some a, Some (annentry entry))
  | _, _ => (SA_ERR_HPI_INVALID_PARAMS, ann, myann)
  end.

Definition oh_announcement_get (ann : option oh_announcement) (srchid : Z)
    (entry : option SaHpiAnnouncementT) : Z * option SaHpiAnnouncementT :=
  match ann, entry with
  | Some a, Some _ =>
      match head (annentries a) with
      | None => (SA_ERR_HPI_NOT_PRESENT, entry)
      | Some first =>
          if srchid =? SAHPI_FIRST_ENTRY then (SA_OK, Some (annentry first))
          else if srchid =? SAHPI_LAST_ENTRY
          then (SA_OK, annentry <$> last (annentries a))
          else match List.find (fun e => srchid =? ann_id e) (annentries a) with
               | Some e => (SA_OK, Some (annentry e))
               | None => (SA_ERR_HPI_NOT_PRESENT, entry)
               end
      end
  | _, _ => (SA_ERR_HPI_INVALID_PARAMS, entry)
  end.

(** The loop that finds the previous entry: the rest of the list from it on. *)
Fixpoint ann_from (l : list oh_ann_entry) (id : Z) : list oh_ann_entry :=
  match l with
  | [] => []
  | e :: rest => if id =? ann_id e then l else ann_from rest id
  end.

Definition ann_matches (sev ack : Z) (e : oh_ann_entry) : bool :=
  ((sev =? SAHPI_ALL_SEVERITIES) || (sev =? ann_Severity (annentry e))) &&
  (if truthy ack then negb (truthy (ann_Acknowledged (annentry e))) else true).

Definition oh_announcement_get_next (ann : option oh_announcement) (sev ack : Z)
    (entry : option SaHpiAnnouncementT) : Z * option SaHpiAnnouncementT :=
  match ann, entry with
  | Some a, Some en =>
      let search l :=
        match List.find (ann_matches sev ack) l with
        | Some e => (SA_OK, Some (annentry e))
        | None => (SA_ERR_HPI_NOT_PRESENT, entry)
        end in
      if ann_EntryId en =? SAHPI_FIRST_ENTRY then search (annentries a)
      else match ann_from (annentries a) (ann_EntryId en) with
           | prev :: rest =>
               if ann_Timestamp en =? ann_Timestamp (annentry prev) then search rest
               else (SA_ERR_HPI_INVALID_DATA, entry)
           | [] => search (annentries a)
           end
  | _, _ => (SA_ERR_HPI_INVALID_PARAMS, entry)
  end.

Definition acknowledge (e : oh_ann_entry) : oh_ann_entry :=
  e <| annentry ::= fun x => x <| ann_Acknowledged := SAHPI_TRUE |> |>.

Fixpoint ack_one (l : list oh_ann_entry) (id : Z) : option (list oh_ann_entry) :=
  match l with
  | [] => None
  | e :: rest =>
      if id =? ann_id e then Some (acknowledge e :: rest) else cons e <$> ack_one rest id
  end.

Definition sev_matches (sev : Z) (e : oh_ann_entry) : bool :=
  (sev =? SAHPI_ALL_SEVERITIES) || (sev =? ann_Severity (annentry e)).

Definition oh_announcement_ack (ann : option oh_announcement) (srchid sev : Z)
    : Z * option oh_announcement :=
  match ann with
  | None => (SA_ERR_HPI_INVALID_PARAMS, None)
  | Some a =>
      if negb (srchid =? SAHPI_ENTRY_UNSPECIFIED) then
        match ack_one (annentries a) srchid with
        | Some l => (SA_OK, Some (a <| annentries := l |>))
        | None => (SA_ERR_HPI_NOT_PRESENT, ann)
        end
      else (SA_OK, Some (a <| annentries ::= fun l =>
                           (fun e => if sev_matches sev e then acknowledge e else e) <$> l |>))
  end.

Fixpoint del_one (l : list oh_ann_entry) (id : Z) : option (list oh_ann_entry) :=
  match l with
  | [] => None
  | e :: rest => if id =? ann_id e then Some rest else cons e <$> del_one rest id
  end.

(** The removal loop: [before] are the nodes already passed.  After each removal
    the search starts again at the first node. *)
Fixpoint del_loop (fuel : nat) (before rest : list oh_ann_entry) (sev : Z)
    : option (list oh_ann_entry) :=
  match rest with
  | [] => Some before
  | e :: rest =>
      match fuel with
      | 0%nat => None
      | S fuel =>
          if sev_matches sev e then del_loop fuel [] (before ++ rest) sev
          else del_loop fuel (before ++ [e]) rest sev
      end
  end.

(** Enough iterations for a list of [n] entries. *)
Definition del_fuel (n : nat) : nat := n + n * n.

Definition oh_announcement_del (ann : option oh_announcement) (srchid sev : Z)
    : option (Z * option oh_announcement) :=
  match ann with
  | None => Some (SA_ERR_HPI_INVALID_PARAMS, None)
  | Some a =>
      if negb (srchid =? SAHPI_ENTRY_UNSPECIFIED) then
        Some match del_one (annentries a) srchid with
             | Some l => (SA_OK, Some (a <| annentries := l |>))
             | None => (SA_ERR_HPI_NOT_PRESENT, ann)
             end
      else
        l ← del_loop (del_fuel (length (annentries a))) [] (annentries a) sev;
        Some (SA_OK, Some (a <| annentries := l |>))
  end.

(** * The invariant *)

Record ann_ok (a : oh_announcement) : Prop := {
  ann_sorted : StronglySorted Z.lt (ann_id <$> annentries a);
  ann_ids : Forall (fun i => 1 <= i < nextId a) (ann_id <$> annentries a);
  ann_next : 1 <= nextId a <= SAHPI_LAST_ENTRY }.

(** * Lemmas *)

Lemma del_loop_spec fuel before rest sev :
  Forall (fun e => sev_matches sev e = false) before ->
  (length rest + length (List.filter (sev_matches sev) rest) * (length before + length rest)
    <= fuel)%nat ->
  del_loop fuel before rest sev
    = Some (before ++ List.filter (fun e => negb (sev_matches sev e)) rest).
Proof.
  revert before rest. induction fuel as [|fuel IH]; intros before [|e rest] Hb Hf; simpl in *;
    rewrite ?app_nil_r; try done; try lia.
  destruct (sev_matches sev e) eqn:E; simpl in *.
  - rewrite IH; [|constructor|].
    + simpl. rewrite List.filter_app. f_equal. f_equal.
      clear -Hb. induction Hb as [|x l Hx _ IH]; simpl; [done|]. by rewrite Hx, IH.
    + rewrite List.filter_app, !length_app. simpl.
      assert (List.filter (sev_matches sev) before = []) as ->; [|simpl; nia].
      clear -Hb. induction Hb as [|x l Hx _ IH]; simpl; [done|]. by rewrite Hx, IH.
  - rewrite IH; [by rewrite <- app_assoc| |].
    + apply Forall_app. split; [done|by constructor].
    + rewrite length_app. simpl. nia.
Qed.

Lemma filter_length_le {A} (p : A -> bool) l : (length (List.filter p l) <= length l)%nat.
Proof. induction l as [|x l IH]; simpl; [lia|]. destruct (p x); simpl; lia. Qed.

Lemma del_loop_filter l sev :
  del_loop (del_fuel (length l)) [] l sev
    = Some (List.filter (fun e => negb (sev_matches sev e)) l).
Proof.
  rewrite del_loop_spec; [done|constructor|]. unfold del_fuel. simpl.
  pose proof (filter_length_le (sev_matches sev) l). nia.
Qed.

(** Operations on one entry. *)
Lemma one_entry l1 e l2 :
  StronglySorted Z.lt (ann_id <$> (l1 ++ e :: l2)) ->
  ack_one (l1 ++ e :: l2) (ann_id e) = Some (l1 ++ acknowledge e :: l2) /\
  del_one (l1 ++ e :: l2) (ann_id e) = Some (l1 ++ l2) /\
  ann_from (l1 ++ e :: l2) (ann_id e) = e :: l2 /\
  List.find (fun x => ann_id e =? ann_id x) (l1 ++ e :: l2) = Some e.
Proof.
  induction l1 as [|x l1 IH]; csimpl; intros Hs; [by rewrite Z.eqb_refl|].
  inversion Hs as [|? ? Hs' Hf]; subst. destruct (IH Hs') as (H1 & H2 & H3 & H4).
  rewrite fmap_app in Hf. apply Forall_app in Hf as [_ Hf]. csimpl in *. inversion Hf; subst.
  destruct (Z.eqb_spec (ann_id e) (ann_id x)); [lia|]. by rewrite H1, H2, H3, H4.
Qed.

Lemma missing_entry l id :
  id ∉ ann_id <$> l ->
  ack_one l id = None /\ del_one l id = None /\ ann_from l id = [] /\
  List.find (fun x => id =? ann_id x) l = None.
Proof.
  induction l as [|x l IH]; csimpl; [done|]. rewrite not_elem_of_cons. intros [Hx Hl].
  destruct (IH Hl) as (H1 & H2 & H3 & H4). rewrite (proj2 (Z.eqb_neq _ _) Hx).
  by rewrite H1, H2, H3, H4.
Qed.

(** What a client sees that asks for the next announcement again and again. *)
Fixpoint ann_walk (fuel : nat) (a : oh_announcement) (sev ack : Z) (en : SaHpiAnnouncementT)
    : list SaHpiAnnouncementT :=
  match fuel with
  | 0%nat => []
  | S fuel =>
      match oh_announcement_get_next (Some a) sev ack (Some en) with
      | (rv, Some en') => if rv =? SA_OK then en' :: ann_walk fuel a sev ack en' else []
      | (_, None) => []
      end
  end.

Lemma find_filter {A} (p : A -> bool) l :
  match List.find p l with
  | Some x => exists l1 l2, l = l1 ++ x :: l2 /\ List.filter p l = x :: List.filter p l2
  | None => List.filter p l = []
  end.
Proof.
  induction l as [|x l IH]; simpl; [done|]. destruct (p x) eqn:E.
  - by exists [], l.
  - destruct (List.find p l) as [y|]; [|done]. destruct IH as (l1 & l2 & -> & Hf).
    exists (x :: l1), l2. split; [done|]. exact Hf.
Qed.

(** The entries after an entry. *)
Lemma get_next_after a sev ack l1 e l2 :
  ann_ok a -> annentries a = l1 ++ e :: l2 ->
  oh_announcement_get_next (Some a) sev ack (Some (annentry e)) =
    match List.find (ann_matches sev ack) l2 with
    | Some x => (SA_OK, Some (annentry x))
    | None => (SA_ERR_HPI_NOT_PRESENT, Some (annentry e))
    end.
Proof.
  intros [Hs Hi _] El. unfold oh_announcement_get_next.
  rewrite Forall_fmap, Forall_forall in Hi.
  assert (Hr : 1 <= ann_id e) by (apply Hi; rewrite El; apply elem_of_app; right; left).
  unfold ann_id in Hr. destruct (Z.eqb_spec (ann_EntryId (annentry e)) SAHPI_FIRST_ENTRY);
    [consts; lia|].
  change (ann_EntryId (annentry e)) with (ann_id e).
  rewrite El in *. destruct (one_entry _ _ _ Hs) as (_ & _ & -> & _). by rewrite Z.eqb_refl.
Qed.

#[local] Arguments oh_announcement_get_next : simpl never.

Lemma ann_walk_after a sev ack fuel l1 e l2 :
  ann_ok a -> annentries a = l1 ++ e :: l2 -> (length l2 < fuel)%nat ->
  ann_walk fuel a sev ack (annentry e) = annentry <$> List.filter (ann_matches sev ack) l2.
Proof.
  intros Hok. revert l1 e l2. induction fuel as [|fuel IH]; intros l1 e l2 El Hf; [lia|].
  simpl. rewrite (get_next_after a sev ack l1 e l2 Hok El).
  pose proof (find_filter (ann_matches sev ack) l2) as Hff.
  destruct (List.find _ l2) as [x|]; [|by rewrite Hff].
  destruct Hff as (m1 & m2 & -> & ->). simpl. f_equal.
  apply (IH (l1 ++ e :: m1)); [by rewrite El, <- app_assoc|].
  rewrite length_app in Hf. simpl in Hf. lia.
Qed.

Lemma append_ann_ok now a m :
  ann_ok a -> nextId a < SAHPI_LAST_ENTRY ->
  exists a' m', oh_announcement_append now (Some a) (Some m) = (SA_OK, Some a', Some m') /\
    ann_ok a' /\ annentries a' = annentries a ++ [{| annentry := m'; ann_num := 0 |}] /\
    ann_EntryId m' = nextId a /\ ann_Timestamp m' = now /\ StatusCond m' = StatusCond m /\
    nextId a' = nextId a + 1.
Proof.
  intros [Hs Hi Hn] Hb. consts. eexists _, _. split; [reflexivity|].
  assert (Hu : u32 (nextId a + 1) = nextId a + 1) by (apply u32_id; lia).
  split; [|simpl; rewrite Hu; done]. split; simpl; rewrite ?Hu, ?fmap_app; consts; [| |lia].
  - assert (Hf : Forall (fun y => y < nextId a) (ann_id <$> annentries a)).
    { eapply Forall_impl; [exact Hi|]. simpl. lia. }
    clear -Hs Hf. induction Hs as [|y l Hs IH Hy]; simpl; [repeat constructor|].
    inversion Hf; subst. constructor; [by apply IH|]. apply Forall_app. split; [done|by constructor].
  - apply Forall_app. split.
    + eapply Forall_impl; [exact Hi|]. simpl. lia.
    + repeat constructor; unfold ann_id; simpl; lia.
Qed.

Definition example_ann (sev : Z) : SaHpiAnnouncementT := zero_announcement <| ann_Severity := sev |>.
Definition example_anns : oh_announcement :=
  let add a s := default oh_announcement_create
    (snd (fst (oh_announcement_append 5 (Some a) (Some (example_ann s))))) in
  add (add (add oh_announcement_create SAHPI_MAJOR) SAHPI_MINOR) SAHPI_MAJOR.
Lemma example_anns_ok : ann_ok example_anns.
Proof.
  assert (E : ann_id <$> annentries example_anns = [1; 2; 3]) by reflexivity.
  assert (En : nextId example_anns = 4) by reflexivity.
  split; rewrite ?E, ?En; [repeat constructor | repeat constructor; lia | consts; lia].
Qed.

(** * Properties *)

(** Announcements are added and enumerated in order.  Appending to a valid
    list adds the announcement at the end, under the next identifier and with
    the current time, and keeps the list valid; and asking for the next
    announcement again and again, starting with [SAHPI_FIRST_ENTRY], returns
    exactly the announcements of the wanted severity - only unacknowledged ones
    if so asked - each once, in the order they were added. *)
Theorem announcements_enumerate (now : Z) (a : oh_announcement) (m first : SaHpiAnnouncementT)
    (sev ack : Z) :
  ann_ok a -> nextId a < SAHPI_LAST_ENTRY -> ann_EntryId first = SAHPI_FIRST_ENTRY ->
  (exists a' m', oh_announcement_append now (Some a) (Some m) = (SA_OK, Some a', Some m') /\
     ann_ok a' /\ annentries a' = annentries a ++ [{| annentry := m'; ann_num := 0 |}] /\
     ann_EntryId m' = nextId a /\ ann_Timestamp m' = now /\ StatusCond m' = StatusCond m) /\
  ann_walk (S (length (annentries a))) a sev ack first
    = annentry <$> List.filter (ann_matches sev ack) (annentries a).
Proof.
  intros Hok Hn Hf. split.
  { destruct (append_ann_ok now a m Hok Hn) as (a' & m' & H1 & H2 & H3 & H4 & H5 & H6 & _).
    by exists a', m'. }
  cbn [ann_walk]. unfold oh_announcement_get_next. rewrite Hf. simpl.
  pose proof (find_filter (ann_matches sev ack) (annentries a)) as Hff.
  destruct (List.find _ (annentries a)) as [x|]; [|by rewrite Hff].
  destruct Hff as (m1 & m2 & El & ->). simpl. f_equal.
  apply (ann_walk_after a sev ack _ m1); [done|done|].
  rewrite El, length_app. simpl. lia.
Qed.

Lemma announcements_enumerate_witness :
  ann_walk 4 example_anns SAHPI_MAJOR 0 zero_announcement
    = annentry <$> List.filter (ann_matches SAHPI_MAJOR 0) (annentries example_anns).
Proof.
  apply (announcements_enumerate 9 example_anns (example_ann 1) zero_announcement SAHPI_MAJOR 0);
    [apply example_anns_ok | reflexivity | reflexivity].
Defined.

(** Acknowledging and deleting.  By identifier, [oh_announcement_ack] and
    [oh_announcement_del] change exactly the entry that has it, or return
    [SA_ERR_HPI_NOT_PRESENT] without effect; with [SAHPI_ENTRY_UNSPECIFIED]
    they acknowledge, and delete, exactly the entries of the severity - the
    deletion loop, which starts again after each removal, ends. *)
Theorem announcements_ack_del (a : oh_announcement) (id sev : Z) :
  ann_ok a -> id <> SAHPI_ENTRY_UNSPECIFIED ->
  (forall l1 e l2, annentries a = l1 ++ e :: l2 -> ann_id e = id ->
     oh_announcement_ack (Some a) id sev
       = (SA_OK, Some (a <| annentries := l1 ++ acknowledge e :: l2 |>)) /\
     oh_announcement_del (Some a) id sev = Some (SA_OK, Some (a <| annentries := l1 ++ l2 |>))) /\
  (id ∉ ann_id <$> annentries a ->
     oh_announcement_ack (Some a) id sev = (SA_ERR_HPI_NOT_PRESENT, Some a) /\
     oh_announcement_del (Some a) id sev = Some (SA_ERR_HPI_NOT_PRESENT, Some a)) /\
  oh_announcement_ack (Some a) SAHPI_ENTRY_UNSPECIFIED sev =
    (SA_OK, Some (a <| annentries ::= fun l =>
       (fun e => if sev_matches sev e then acknowledge e else e) <$> l |>)) /\
  oh_announcement_del (Some a) SAHPI_ENTRY_UNSPECIFIED sev =
    Some (SA_OK, Some (a <| annentries ::= List.filter (fun e => negb (sev_matches sev e)) |>)).
Proof.
  intros [Hs _ _] Hid. unfold oh_announcement_ack, oh_announcement_del.
  rewrite (proj2 (Z.eqb_neq _ _) Hid). split; [|split; [|split; [done|]]]; simpl.
  - intros l1 e l2 El <-. rewrite El in *. destruct (one_entry _ _ _ Hs) as (-> & -> & _). done.
  - intros Hn. destruct (missing_entry _ _ Hn) as (-> & -> & _). done.
  - by rewrite del_loop_filter.
Qed.

Lemma announcements_ack_del_witness :
  oh_announcement_del (Some example_anns) SAHPI_ENTRY_UNSPECIFIED SAHPI_MAJOR
    = Some (SA_OK, Some (example_anns <| annentries ::=
        List.filter (fun e => negb (sev_matches SAHPI_MAJOR e)) |>)).
Proof. apply (announcements_ack_del example_anns 1 SAHPI_MAJOR example_anns_ok). discriminate. Defined.
