(* ===== verification/Conf.v ===== *)
(** The daemon's global parameters: [openhpid/conf.c].

    The parameters have defaults, are overridden once from the environment, and
    are then read and set by type.  The environment is an argument ([getenv]).
    [ConfigFile] reads the configuration file. *)
From S2P Require Import Prelude SaHpi.
From Stdlib Require Import Ascii.

(** [oh_global_param_type] *)
Definition OPENHPI_LOG_ON_SEV : Z := 2.
Definition OPENHPI_EVT_QUEUE_LIMIT : Z := 3.
Definition OPENHPI_DEL_SIZE_LIMIT : Z := 4.
Definition OPENHPI_DEL_SAVE : Z := 5.
Definition OPENHPI_DAT_SIZE_LIMIT : Z := 6.
Definition OPENHPI_DAT_USER_LIMIT : Z := 7.
Definition OPENHPI_DAT_SAVE : Z := 8.
Definition OPENHPI_PATH : Z := 9.
Definition OPENHPI_VARPATH : Z := 10.
Definition OPENHPI_CONF : Z := 11.
Definition OPENHPI_UNCONFIGURED : Z := 12.
Definition OPENHPI_AUTOINSERT_TIMEOUT : Z := 13.
Definition OPENHPI_AUTOINSERT_TIMEOUT_READONLY : Z := 14.
Definition OH_PATH_PARAM_MAX_LENGTH : nat := 2048.
#[export] Hint Unfold OPENHPI_LOG_ON_SEV OPENHPI_EVT_QUEUE_LIMIT OPENHPI_DEL_SIZE_LIMIT
  OPENHPI_DEL_SAVE OPENHPI_DAT_SIZE_LIMIT OPENHPI_DAT_USER_LIMIT OPENHPI_DAT_SAVE
  OPENHPI_PATH OPENHPI_VARPATH OPENHPI_CONF OPENHPI_UNCONFIGURED
  OPENHPI_AUTOINSERT_TIMEOUT OPENHPI_AUTOINSERT_TIMEOUT_READONLY : hpi_const.

(** [read_env] tells that the environment has been read; the paths are the
    compile-time constants of the build until set. *)
Record global_params := {
  log_on_sev : Z; evt_queue_limit : Z; del_size_limit : Z; del_save : Z;
  dat_size_limit : Z; dat_user_limit : Z; dat_save : Z; path : string;
  varpath : string; conf : string; unconfigured : Z; ai_timeout : Z;
  ai_timeout_readonly : Z; read_env : bool }.
#[export] Instance eta_global_params : Eta global_params := fun x =>
  Build_global_params (log_on_sev x) (evt_queue_limit x) (del_size_limit x)
    (del_save x) (dat_size_limit x) (dat_user_limit x) (dat_save x) (path x)
    (varpath x) (conf x) (unconfigured x) (ai_timeout x) (ai_timeout_readonly x)
    (read_env x).

Definition default_global_params (plugin_path var_path default_conf : string) : global_params :=
  {| log_on_sev := SAHPI_MINOR; evt_queue_limit := 10000; del_size_limit := 10000;
     del_save := SAHPI_FALSE; dat_size_limit := 0; dat_user_limit := 0;
     dat_save := SAHPI_FALSE; path := plugin_path; varpath := var_path;
     conf := default_conf; unconfigured := SAHPI_FALSE; ai_timeout := 0;
     ai_timeout_readonly := SAHPI_TRUE; read_env := false |}.

(** A member of [oh_global_param_union]: an integer or a path. *)
Inductive param_union := PNum (z : Z) | PStr (s : string).

(** ** C library functions on strings *)

Definition is_space (c : ascii) : bool :=
  let n := nat_of_ascii c in (n =? 32)%nat || ((9 <=? n)%nat && (n <=? 13)%nat).

Fixpoint digits (s : string) (acc : Z) : Z :=
  match s with
  | EmptyString => acc
  | String c s =>
      let n := nat_of_ascii c in
      if (48 <=? n)%nat && (n <=? 57)%nat then digits s (10 * acc + Z.of_nat (n - 48)) else acc
  end.

Fixpoint skip_spaces (s : string) : string :=
  match s with
  | String c s' => if is_space c then skip_spaces s' else s
  | EmptyString => s
  end.

(** [strtoll(s, 0, 10)]: the value is cut to 64 bits. *)
Definition strtoll (s : string) : Z :=
  let v := match skip_spaces s with
           | String "-"%char s => - digits s 0
           | String "+"%char s => digits s 0
           | s => digits s 0
           end in
  Z.max (- 2 ^ 63) (Z.min v (2 ^ 63 - 1)).

(** [atoi] stored in a 32-bit unsigned integer. *)
Definition atoi_u32 (s : string) : Z := u32 (strtoll s).

Definition lower (c : ascii) : ascii :=
  let n := nat_of_ascii c in
  if (65 <=? n)%nat && (n <=? 90)%nat then ascii_of_nat (n + 32) else c.

Fixpoint strcasecmp_eq (s t : string) : bool :=
  match s, t with
  | EmptyString, EmptyString => true
  | String a s, String b t => Ascii.eqb (lower a) (lower b) && strcasecmp_eq s t
  | _, _ => false
  end.

Definition severity_strings : list (Z * string) :=
  [(SAHPI_CRITICAL, "CRITICAL"%string); (SAHPI_MAJOR, "MAJOR"%string);
   (SAHPI_MINOR, "MINOR"%string); (SAHPI_INFORMATIONAL, "INFORMATIONAL"%string);
   (SAHPI_OK, "OK"%string); (SAHPI_DEBUG, "DEBUG"%string);
   (SAHPI_ALL_SEVERITIES, "ALL_SEVERITIES"%string)].

(** [buffer] is the text of the buffer, [type] the old contents of the result. *)
Definition oh_encode_severity (buffer : string) (type : Z) : Z * Z :=
  if String.eqb buffer "" then (SA_ERR_HPI_INVALID_PARAMS, type)
  else match List.find (fun e => strcasecmp_eq buffer e.2) severity_strings with
       | Some e => (SA_OK, e.1)
       | None => (SA_ERR_HPI_INVALID_DATA, type)
       end.

(** [strncpy] into a zeroed array of [OH_PATH_PARAM_MAX_LENGTH] bytes. *)
Definition cut_path (s : string) : string := String.substring 0 (OH_PATH_PARAM_MAX_LENGTH - 1) s.

Definition yes_no (value : string) : Z :=
  if String.eqb "YES" value then SAHPI_TRUE else SAHPI_FALSE.

Definition process_global_param (name value : string) (g : global_params) : global_params :=
  if String.eqb "OPENHPI_LOG_ON_SEV" name
  then g <| log_on_sev ::= fun old => snd (oh_encode_severity value old) |>
  else if String.eqb "OPENHPI_EVT_QUEUE_LIMIT" name then g <| evt_queue_limit := atoi_u32 value |>
  else if String.eqb "OPENHPI_DEL_SIZE_LIMIT" name then g <| del_size_limit := atoi_u32 value |>
  else if String.eqb "OPENHPI_DEL_SAVE" name then g <| del_save := yes_no value |>
  else if String.eqb "OPENHPI_DAT_SIZE_LIMIT" name then g <| dat_size_limit := atoi_u32 value |>
  else if String.eqb "OPENHPI_DAT_USER_LIMIT" name then g <| dat_user_limit := atoi_u32 value |>
  else if String.eqb "OPENHPI_DAT_SAVE" name then g <| dat_save := yes_no value |>
  else if String.eqb "OPENHPI_PATH" name then g <| path := cut_path value |>
  else if String.eqb "OPENHPI_VARPATH" name then g <| varpath := cut_path value |>
  else if String.eqb "OPENHPI_CONF" name then g <| conf := cut_path value |>
  else if String.eqb "OPENHPI_UNCONFIGURED" name then g <| unconfigured := yes_no value |>
  else if String.eqb "OPENHPI_AUTOINSERT_TIMEOUT" name then
    if String.eqb value "BLOCK" then g <| ai_timeout := SAHPI_TIMEOUT_BLOCK |>
    else if String.eqb value "IMMEDIATE" then g <| ai_timeout := SAHPI_TIMEOUT_IMMEDIATE |>
    else let t := strtoll value in
         g <| ai_timeout := if t <? 0 then SAHPI_TIMEOUT_BLOCK else t |>
  else if String.eqb "OPENHPI_AUTOINSERT_TIMEOUT_READONLY" name
  then g <| ai_timeout_readonly := yes_no value |>
  else g.

Definition known_globals : list string :=
  ["OPENHPI_LOG_ON_SEV"; "OPENHPI_EVT_QUEUE_LIMIT"; "OPENHPI_DEL_SIZE_LIMIT";
   "OPENHPI_DEL_SAVE"; "OPENHPI_DAT_SIZE_LIMIT"; "OPENHPI_DAT_USER_LIMIT";
   "OPENHPI_DAT_SAVE"; "OPENHPI_PATH"; "OPENHPI_VARPATH"; "OPENHPI_CONF";
   "OPENHPI_UNCONFIGURED"; "OPENHPI_AUTOINSERT_TIMEOUT";
   "OPENHPI_AUTOINSERT_TIMEOUT_READONLY"]%string.

Definition read_globals_from_env (getenv : string -> option string) (force : bool)
    (g : global_params) : global_params :=
  if negb force && read_env g then g
  else
    let g := foldl (fun g name =>
        match getenv name with
        | Some value => process_global_param name value g
        | None => g
        end) g known_globals in
    g <| read_env := true |>.

(** The member of the parameter's type, [None] for an unknown type (the C
    function returns a negative value). *)
Definition get_param (type : Z) (g : global_params) : option param_union :=
  if type =? OPENHPI_LOG_ON_SEV then Some (PNum (log_on_sev g))
  else if type =? OPENHPI_EVT_QUEUE_LIMIT then Some (PNum (evt_queue_limit g))
  else if type =? OPENHPI_DEL_SIZE_LIMIT then Some (PNum (del_size_limit g))
  else if type =? OPENHPI_DEL_SAVE then Some (PNum (del_save g))
  else if type =? OPENHPI_DAT_SIZE_LIMIT then Some (PNum (dat_size_limit g))
  else if type =? OPENHPI_DAT_USER_LIMIT then Some (PNum (dat_user_limit g))
  else if type =? OPENHPI_DAT_SAVE then Some (PNum (dat_save g))
  else if type =? OPENHPI_PATH then Some (PStr (path g))
  else if type =? OPENHPI_VARPATH then Some (PStr (varpath g))
  else if type =? OPENHPI_CONF then Some (PStr (conf g))
  else if type =? OPENHPI_UNCONFIGURED then Some (PNum (unconfigured g))
  else if type =? OPENHPI_AUTOINSERT_TIMEOUT then Some (PNum (ai_timeout g))
  else if type =? OPENHPI_AUTOINSERT_TIMEOUT_READONLY then Some (PNum (ai_timeout_readonly g))
  else None.

(** The result is the return value, the parameters (which a first call reads
    from the environment) and the new contents of [param->u]. *)
Definition oh_get_global_param (getenv : string -> option string)
    (param : option (Z * param_union)) (g : global_params)
    : Z * global_params * option param_union :=
  match param with
  | None => (-1, g, None)
  | Some (type, u) =>
      if type =? 0 then (-1, g, Some u)
      else
        let g := read_globals_from_env getenv false g in
        match get_param type g with
        | Some u => (0, g, Some u)
        | None => (-2, g, Some u)
        end
  end.

Definition oh_get_global_param2 (getenv : string -> option string) (type : Z)
    (param : option param_union) (g : global_params)
    : Z * global_params * option param_union :=
  match param with
  | None => (-1, g, None)
  | Some u => oh_get_global_param getenv (Some (type, u)) g
  end.

(** Storing a member of the parameter's type. *)
Definition set_param (type : Z) (u : param_union) (g : global_params) : option global_params :=
  match u with
  | PNum z =>
      if type =? OPENHPI_LOG_ON_SEV then Some (g <| log_on_sev := z |>)
      else if type =? OPENHPI_EVT_QUEUE_LIMIT then Some (g <| evt_queue_limit := z |>)
      else if type =? OPENHPI_DEL_SIZE_LIMIT then Some (g <| del_size_limit := z |>)
      else if type =? OPENHPI_DEL_SAVE then Some (g <| del_save := z |>)
      else if type =? OPENHPI_DAT_SIZE_LIMIT then Some (g <| dat_size_limit := z |>)
      else if type =? OPENHPI_DAT_USER_LIMIT then Some (g <| dat_user_limit := z |>)
      else if type =? OPENHPI_DAT_SAVE then Some (g <| dat_save := z |>)
      else if type =? OPENHPI_UNCONFIGURED then Some (g <| unconfigured := z |>)
      else if type =? OPENHPI_AUTOINSERT_TIMEOUT then Some (g <| ai_timeout := z |>)
      else if type =? OPENHPI_AUTOINSERT_TIMEOUT_READONLY
      then Some (g <| ai_timeout_readonly := z |>)
      else None
  | PStr s =>
      if type =? OPENHPI_PATH then Some (g <| path := cut_path s |>)
      else if type =? OPENHPI_VARPATH then Some (g <| varpath := cut_path s |>)
      else if type =? OPENHPI_CONF then Some (g <| conf := cut_path s |>)
      else None
  end.

Definition oh_set_global_param (getenv : string -> option string)
    (param : option (Z * param_union)) (g : global_params) : Z * global_params :=
  match param with
  | None => (-1, g)
  | Some (type, u) =>
      if type =? 0 then (-1, g)
      else
        let g := read_globals_from_env getenv false g in
        match set_param type u g with
        | Some g => (0, g)
        | None => (-2, g)
        end
  end.

(** The value of an integer parameter, for the components that read one. *)
Definition param_num (type : Z) (g : global_params) : Z :=
  match get_param type g with Some (PNum z) => z | _ => 0 end.

(** * Lemmas *)

Lemma read_env_stable getenv g : read_env g = true -> read_globals_from_env getenv false g = g.
Proof. intros H. unfold read_globals_from_env. by rewrite H. Qed.

Lemma read_env_done getenv g : read_env (read_globals_from_env getenv false g) = true.
Proof. unfold read_globals_from_env. simpl. by destruct (read_env g) eqn:E. Qed.

Lemma substring_cut n (s : string) : String.substring 0 n (String.substring 0 n s) = String.substring 0 n s.
Proof.
  revert s. induction n as [|n IH]; intros [|c s]; simpl; try done. by rewrite IH.
Qed.

(** Whether the union member set is the one of the type. *)
Definition member_ok (type : Z) (u : param_union) : bool :=
  match u with
  | PStr _ => (9 <=? type) && (type <=? 11)
  | PNum _ => ((2 <=? type) && (type <=? 8)) || ((12 <=? type) && (type <=? 14))
  end.

Definition stored (u : param_union) : param_union :=
  match u with PNum z => PNum z | PStr s => PStr (cut_path s) end.

Lemma set_get_param type u g :
  member_ok type u = true ->
  exists g', set_param type u g = Some g' /\ get_param type g' = Some (stored u) /\
    read_env g' = read_env g /\
    forall type', type' <> type -> get_param type' g' = get_param type' g.
Proof.
  assert (Hcases : 2 <= type <= 14 ->
    type = 2 \/ type = 3 \/ type = 4 \/ type = 5 \/ type = 6 \/ type = 7 \/ type = 8 \/
    type = 9 \/ type = 10 \/ type = 11 \/ type = 12 \/ type = 13 \/ type = 14) by lia.
  intros Hm. assert (2 <= type <= 14) as Hr.
  { destruct u; simpl in Hm; rewrite ?orb_true_iff, !andb_true_iff, !Z.leb_le in Hm; lia. }
  specialize (Hcases Hr). clear Hr.
  destruct u; repeat destruct Hcases as [->|Hcases]; try subst type; try done;
    (eexists; split; [reflexivity|]; split; [reflexivity|]; split; [reflexivity|];
     intros type' Hne; unfold get_param; repeat case_if; try reflexivity; zbool; consts; lia).
Qed.

(** * Properties *)

(** Setting and reading global parameters.  A parameter set with the union
    member of its type reads back as it was set - a path cut to 2047 bytes -
    and no other parameter changes; an unknown type is refused and changes
    nothing.  The environment is consulted by the first call only. *)
Theorem global_param_set_get (getenv : string -> option string) (type : Z) (u old : param_union)
    (g : global_params) :
  member_ok type u = true ->
  exists g', oh_set_global_param getenv (Some (type, u)) g = (0, g') /\
    read_env g' = true /\
    (forall getenv', oh_get_global_param getenv' (Some (type, old)) g' = (0, g', Some (stored u))) /\
    (forall type', type' <> type ->
       get_param type' g' = get_param type' (read_globals_from_env getenv false g)) /\
    (get_param 0 g = None /\ forall bad getenv', 14 < bad ->
       oh_get_global_param getenv' (Some (bad, old)) g' = (-2, g', Some old)).
Proof.
  intros Hm. set (g0 := read_globals_from_env getenv false g).
  destruct (set_get_param type u g0 Hm) as (g' & Hs & Hg & He & Ho).
  assert (Hr : read_env g' = true) by (rewrite He; apply read_env_done).
  assert (Ht : (type =? 0) = false).
  { apply Z.eqb_neq. intros ->. by destruct u. }
  exists g'. split; [|split; [done|split; [|split; [done|split; [done|]]]]].
  - unfold oh_set_global_param. fold g0. by rewrite Ht, Hs.
  - intros getenv'. unfold oh_get_global_param. by rewrite Ht, read_env_stable, Hg.
  - intros bad getenv' Hb. unfold oh_get_global_param. rewrite read_env_stable by done.
    unfold get_param. consts.
    repeat (case_if; zbool; [lia|]). done.
Qed.

Definition example_params : global_params := default_global_params "/lib" "/var" "/etc".
Lemma global_param_set_get_witness :
  exists g', oh_set_global_param (fun _ => None) (Some (OPENHPI_EVT_QUEUE_LIMIT, PNum 3)) example_params
      = (0, g') /\ read_env g' = true /\
    (forall getenv', oh_get_global_param getenv' (Some (OPENHPI_EVT_QUEUE_LIMIT, PNum 0)) g'
       = (0, g', Some (PNum 3))) /\
    (forall type', type' <> OPENHPI_EVT_QUEUE_LIMIT ->
       get_param type' g' = get_param type' (read_globals_from_env (fun _ => None) false example_params)) /\
    (get_param 0 example_params = None /\ forall bad getenv', 14 < bad ->
       oh_get_global_param getenv' (Some (bad, PNum 0)) g' = (-2, g', Some (PNum 0))).
Proof. apply (global_param_set_get (fun _ => None) 3 (PNum 3) (PNum 0)). reflexivity. Defined.
