(* ===== verification/Uid.v ===== *)
(** Unique resource ids: [utils/uid_utils.c].

    Two hash tables relate entity paths and resource ids; both hold pointers to
    the same cross reference records ([EP_XREF]), which are also kept in the map
    file.  [oh_ep_table] has the file's own hash and equality functions; it is
    the list of its keys with their values, searched with
    [oh_entity_path_equal], which is what GLib documents for a hash function
    that agrees with the equality ([entity_path_hash_compatible] below).
    [oh_resource_id_table] is keyed by integers.

    The map file is a counter (absent in a file too short) followed by whole
    records; [None] is a file that does not exist.  Which file operations
    succeed is an argument. *)
From S2P Require Import Prelude SaHpi EntityPath Rpt.

Record EP_XREF := { resource_id : Z; entity_path : SaHpiEntityPathT }.

Record uid_file := { file_counter : option Z; file_xrefs : list EP_XREF }.
#[export] Instance eta_uid_file : Eta uid_file :=
  fun x => Build_uid_file (file_counter x) (file_xrefs x).

Record uid_state := {
  oh_ep_table : list (SaHpiEntityPathT * EP_XREF);
  oh_resource_id_table : gmap Z EP_XREF;
  next_resource_id : Z;
  oh_uid_map_file : option string;
  initialized : bool }.
#[export] Instance eta_uid_state : Eta uid_state := fun x =>
  Build_uid_state (oh_ep_table x) (oh_resource_id_table x) (next_resource_id x)
    (oh_uid_map_file x) (initialized x).

(** The bytes of an entity path in memory: little-endian type and location. *)
Definition u32_bytes (z : Z) : list Z :=
  [z mod 256; (z / 256) mod 256; (z / 65536) mod 256; (z / 16777216) mod 256].
Definition ep_bytes (ep : SaHpiEntityPathT) : list Z :=
  concat ((fun e => u32_bytes (EntityType e) ++ u32_bytes (EntityLocation e)) <$> Entry ep).

(** [char] is signed. *)
Definition signed_char (b : Z) : Z := if b <? 128 then b else b - 256.

Definition oh_entity_path_hash (key : SaHpiEntityPathT) : Z :=
  match ep_bytes key with
  | [] => 0
  | b :: p => foldl (fun h c => u32 (h * 131 + signed_char c)) (u32 (signed_char b)) p mod 1009
  end.

Definition oh_entity_path_equal (a b : SaHpiEntityPathT) : bool :=
  truthy (oh_cmp_ep (Some a) (Some b)).

(** [g_hash_table_lookup], [_insert] and [_remove] on the entity path table: an
    insertion under a key that is there replaces the value and keeps the key. *)
Definition ep_lookup (t : list (SaHpiEntityPathT * EP_XREF)) (key : SaHpiEntityPathT)
    : option EP_XREF :=
  snd <$> List.find (fun p => oh_entity_path_equal p.1 key) t.
Definition ep_insert (t : list (SaHpiEntityPathT * EP_XREF)) (key : SaHpiEntityPathT)
    (x : EP_XREF) : list (SaHpiEntityPathT * EP_XREF) :=
  match ep_lookup t key with
  | None => t ++ [(key, x)]
  | Some _ => (fun p => if oh_entity_path_equal p.1 key then (p.1, x) else p) <$> t
  end.
Definition ep_remove (t : list (SaHpiEntityPathT * EP_XREF)) (key : SaHpiEntityPathT)
    : list (SaHpiEntityPathT * EP_XREF) :=
  List.filter (fun p => negb (oh_entity_path_equal p.1 key)) t.

(** The normalised copy [oh_init_ep(&entitypath); oh_concat_ep(&entitypath, ep);] *)
Definition normalise (ep : SaHpiEntityPathT) : SaHpiEntityPathT :=
  default ep (snd (oh_concat_ep (snd (oh_init_ep (Some ep))) (Some ep))).

(** * Reading the map file *)

Definition insert_xref (s : uid_state) (x : EP_XREF) : uid_state :=
  s <| oh_ep_table ::= fun t => ep_insert t (entity_path x) x |>
    <| oh_resource_id_table ::= <[resource_id x := x]> |>.

(** [read_error]: the loop stopped on an error, not at the end of the file. *)
Definition build_uid_map_data (read_error : bool) (records : list EP_XREF) (s : uid_state)
    : Z * uid_state :=
  let s := foldl insert_xref s records in
  if read_error then (-1, s) else (0, s).

(** The initialisation of a new file can fail at the opening, the writing of the
    counter and the closing.  The file afterwards is the last component. *)
Record file_faults := {
  create_ok : bool; counter_write_ok : bool; close_ok : bool; read_error : bool }.

Definition uid_map_from_file (f : file_faults) (file : option uid_file) (s : uid_state)
    : Z * uid_state * option uid_file :=
  match oh_uid_map_file s with
  | None => (0, s, file)
  | Some _ =>
      match file with
      | None =>
          if negb (create_ok f) then (-1, s, None)
          else if negb (counter_write_ok f)
          then (-1, s, Some {| file_counter := None; file_xrefs := [] |})
          else
            let file := Some {| file_counter := Some (next_resource_id s); file_xrefs := [] |} in
            if negb (close_ok f) then (-1, s, file) else (0, s, file)
      | Some fl =>
          match file_counter fl with
          | None => (-1, s, file)
          | Some c =>
              let s := s <| next_resource_id := c |> in
              let '(rval, s) := build_uid_map_data (read_error f) (file_xrefs fl) s in
              (if rval <? 0 then -1 else 0, s, file)
          end
      end
  end.

(** [default_map] is the compile-time constant [OH_DEFAULT_UID_MAP]. *)
Definition oh_uid_initialize (default_map : string) (getenv : string -> option string)
    (f : file_faults) (file : option uid_file) (s : uid_state) : Z * uid_state * option uid_file :=
  if initialized s then (0, s, file)
  else
    let s := s <| oh_ep_table := [] |> <| oh_resource_id_table := ∅ |>
               <| initialized := true |> <| next_resource_id := 1 |> in
    let uid_map_file := default default_map (getenv "OPENHPI_UID_MAP"%string) in
    let s := if String.eqb uid_map_file "" then s
             else s <| oh_uid_map_file := Some uid_map_file |> in
    let '(cc, s, file) := uid_map_from_file f file s in
    let s := if negb (cc =? 0) then s <| oh_uid_map_file := None |> else s in
    (0, s, file).

Definition uid_is_initialized (s : uid_state) : Z :=
  if initialized s then SAHPI_TRUE else SAHPI_FALSE.

(** * Operations *)

(** [xref_ok] and [counter_ok]: whether the two writes succeed. *)
Definition save_new_xref (xref_ok counter_ok : bool) (x : EP_XREF) (next : Z) (ruid : Z)
    (fl : uid_file) : Z * uid_file :=
  if xref_ok then
    let fl := fl <| file_xrefs ::= fun l => l ++ [x] |> in
    if counter_ok then (ruid, fl <| file_counter := Some next |>) else (0, fl)
  else (0, fl).

Definition oh_uid_from_entity_path (xref_ok counter_ok : bool)
    (ep : option SaHpiEntityPathT) (file : option uid_file) (s : uid_state)
    : Z * uid_state * option uid_file :=
  match ep with
  | None => (0, s, file)
  | Some ep =>
      if negb (initialized s) then (0, s, file)
      else
        let entitypath := normalise ep in
        match ep_lookup (oh_ep_table s) entitypath with
        | Some x => (resource_id x, s, file)
        | None =>
            let x := {| resource_id := next_resource_id s; entity_path := entitypath |} in
            let ruid := resource_id x in
            let s := s <| next_resource_id ::= fun r => u32 (r + 1) |> in
            let s := insert_xref s x in
            match oh_uid_map_file s, file with
            | Some _, Some fl =>
                let '(ruid, fl) := save_new_xref xref_ok counter_ok x (next_resource_id s) ruid fl in
                (ruid, s, Some fl)
            | _, _ => (ruid, s, file)
            end
        end
  end.

(** [order] is the order in which [g_hash_table_foreach] visits the table, and
    [write_ok] tells which records can be written: a record that cannot be is
    skipped. *)
Definition oh_uid_map_to_file (order : gmap Z EP_XREF -> list EP_XREF) (open_ok counter_ok : bool)
    (write_ok : EP_XREF -> bool) (file : option uid_file) (s : uid_state)
    : Z * option uid_file :=
  match oh_uid_map_file s with
  | None => (SA_OK, file)
  | Some _ =>
      if negb open_ok then (SA_ERR_HPI_ERROR, file)
      else if negb counter_ok
      then (SA_ERR_HPI_ERROR, Some {| file_counter := None; file_xrefs := [] |})
      else (SA_OK, Some {| file_counter := Some (next_resource_id s);
                           file_xrefs := List.filter write_ok (order (oh_resource_id_table s)) |})
  end.

Definition oh_uid_remove (order : gmap Z EP_XREF -> list EP_XREF) (open_ok counter_ok : bool)
    (write_ok : EP_XREF -> bool) (uid : Z) (file : option uid_file) (s : uid_state)
    : Z * uid_state * option uid_file :=
  if negb (initialized s) then (SA_ERR_HPI_ERROR, s, file)
  else
    match oh_resource_id_table s !! uid with
    | None => (SA_ERR_HPI_NOT_PRESENT, s, file)
    | Some x =>
        match ep_lookup (oh_ep_table s) (entity_path x) with
        | None => (SA_ERR_HPI_NOT_PRESENT, s, file)
        | Some x =>
            let s := s <| oh_resource_id_table ::= delete (resource_id x) |>
                       <| oh_ep_table ::= fun t => ep_remove t (entity_path x) |> in
            let '(rv, file) := oh_uid_map_to_file order open_ok counter_ok write_ok file s in
            (rv, s, file)
        end
    end.

Definition uid_lookup (s : uid_state) (ep : option SaHpiEntityPathT) : Z :=
  match ep with
  | None => 0
  | Some ep =>
      if negb (initialized s) then 0
      else match ep_lookup (oh_ep_table s) (normalise ep) with
           | None => 0
           | Some x => resource_id x
           end
  end.

Definition oh_entity_path_lookup (s : uid_state) (id : Z) (ep : option SaHpiEntityPathT)
    : Z * option SaHpiEntityPathT :=
  match ep with
  | None => (SA_ERR_HPI_ERROR, None)
  | Some _ =>
      if id =? 0 then (SA_ERR_HPI_ERROR, ep)
      else if negb (initialized s) then (SA_ERR_HPI_ERROR, ep)
      else match oh_resource_id_table s !! id with
           | None => (SA_ERR_HPI_NOT_PRESENT, ep)
           | Some x => (SA_OK, Some (entity_path x))
           end
  end.

(** The unique id table as the Resource Presence Table uses it. *)
#[export] Instance uid_lookup_of (s : uid_state) : UidLookup :=
  {| oh_uid_is_initialized := truthy (uid_is_initialized s);
     oh_uid_lookup := uid_lookup s |}.

(** * The invariant *)

(** An entity path as [normalise] leaves it: its view, then elements equal to
    {ROOT,0} - except that the first root element keeps its location. *)
Definition normal (ep : SaHpiEntityPathT) : Prop := ep_wf ep /\ normalise ep = ep.

(** The two tables hold the same records; paths and ids are unique; the ids
    given out are below the next one. *)
Record uid_ok (s : uid_state) : Prop := {
  uid_init : initialized s = true;
  uid_keys : Forall (fun p => p.1 = entity_path p.2 /\ normal p.1) (oh_ep_table s);
  uid_paths : NoDup (oh_ep_table s).*1;
  uid_table : forall k x, oh_resource_id_table s !! k = Some x <->
                resource_id x = k /\ (entity_path x, x) ∈ oh_ep_table s;
  uid_range : Forall (fun p => 1 <= resource_id p.2 < next_resource_id s) (oh_ep_table s);
  uid_next : 1 <= next_resource_id s < 2 ^ 32 }.

(** The map file holds what the tables hold. *)
Definition uid_saved (s : uid_state) (fl : uid_file) : Prop :=
  file_counter fl = Some (next_resource_id s) /\
  Permutation (file_xrefs fl) ((oh_ep_table s).*2).

(** * Normalised paths *)

(** The entries that count: up to and including the first root. *)
Definition significant (ep : SaHpiEntityPathT) : list SaHpiEntityT :=
  take (cmp_index (Entry ep)) (Entry ep).

Lemma significant_take ep :
  ep_wf ep -> significant ep = take (S (root_index (Entry ep))) (Entry ep).
Proof.
  unfold ep_wf, significant, cmp_index. intros Hw. pose proof (root_index_le (Entry ep)).
  destruct (Nat.ltb_spec (root_index (Entry ep)) SAHPI_MAX_ENTITY_PATH); [done|].
  rewrite !take_ge; [done|lia..].
Qed.

Lemma normalise_entry ep :
  ep_wf ep ->
  Entry (normalise ep) =
    significant ep ++ replicate (SAHPI_MAX_ENTITY_PATH - length (significant ep)) root_entity.
Proof.
  intros Hw. rewrite significant_take by done. unfold ep_wf in Hw.
  change (Entry (normalise ep)) with
    (concat_loop SAHPI_MAX_ENTITY_PATH (replicate SAHPI_MAX_ENTITY_PATH root_entity) (Entry ep) 0 0).
  rewrite concat_loop_spec by (rewrite ?length_replicate; lia). rewrite drop_0, take_0.
  rewrite (take_ge (Entry ep) SAHPI_MAX_ENTITY_PATH) by lia. cbn [app]. f_equal.
  by rewrite drop_replicate.
Qed.

Lemma significant_length ep : ep_wf ep -> (length (significant ep) <= SAHPI_MAX_ENTITY_PATH)%nat.
Proof. unfold ep_wf, significant. intros H. rewrite length_take. lia. Qed.

Lemma normalise_wf ep : ep_wf ep -> ep_wf (normalise ep).
Proof.
  intros H. pose proof (significant_length ep H). unfold ep_wf.
  rewrite normalise_entry, length_app, length_replicate by done. lia.
Qed.

Lemma significant_normalise ep : ep_wf ep -> significant (normalise ep) = significant ep.
Proof.
  intros Hw. rewrite (significant_take (normalise ep)) by by apply normalise_wf.
  rewrite normalise_entry by done. rewrite significant_take by done. unfold ep_wf in Hw.
  set (es := Entry ep) in *. set (r := root_index es).
  destruct (decide (r = length es)) as [E|E].
  - rewrite (take_ge es) by lia. rewrite Hw, Nat.sub_diag. simpl replicate. rewrite app_nil_r.
    fold r. rewrite take_ge; [done|lia].
  - pose proof (root_index_le es). assert (r < length es)%nat as Hlt by (unfold r in *; lia).
    destruct (lookup_lt_is_Some_2 _ _ Hlt) as [e He].
    rewrite (take_S_r _ _ _ He). rewrite <- app_assoc, root_index_app by apply root_index_take.
    simpl. rewrite (root_index_at _ _ He), length_take, Nat.add_0_r, Nat.min_l by lia.
    replace (S r) with (r + 1)%nat by lia.
    rewrite take_app_add' by (rewrite length_take; lia). done.
Qed.

Lemma ep_eq_entry (a b : SaHpiEntityPathT) : Entry a = Entry b -> a = b.
Proof. destruct a, b. simpl. by intros ->. Qed.

Lemma normalise_idem ep : ep_wf ep -> normalise (normalise ep) = normalise ep.
Proof.
  intros H. apply ep_eq_entry. rewrite normalise_entry by by apply normalise_wf.
  rewrite significant_normalise by done. by rewrite normalise_entry.
Qed.

Lemma normalise_normal ep : ep_wf ep -> normal (normalise ep).
Proof. intros H. split; [by apply normalise_wf|by apply normalise_idem]. Qed.

(** Paths with the same normal form are the ones [oh_cmp_ep] identifies. *)
Lemma normalise_equiv a b : ep_wf a -> ep_wf b -> normalise a = normalise b <-> ep_equiv a b.
Proof.
  intros Ha Hb. unfold ep_equiv. change (take _ (Entry a)) with (significant a).
  change (take _ (Entry b)) with (significant b). split.
  - intros E. by rewrite <- (significant_normalise a), E, significant_normalise.
  - intros E. apply ep_eq_entry. by rewrite !normalise_entry, E.
Qed.

Lemma path_equal_spec a b : ep_wf a -> ep_wf b -> oh_entity_path_equal a b = true <-> ep_equiv a b.
Proof.
  intros Ha Hb. rewrite <- cmp_ep_equiv by done. unfold oh_entity_path_equal.
  rewrite truthy_true. unfold oh_cmp_ep. repeat case_if; consts; split; done.
Qed.

Lemma normal_equal a b : normal a -> normal b -> oh_entity_path_equal a b = true <-> a = b.
Proof.
  intros [Ha Ea] [Hb Eb]. rewrite path_equal_spec, <- normalise_equiv, Ea, Eb by done. done.
Qed.

(** * Table lookups *)

Definition keys_ok (t : list (SaHpiEntityPathT * EP_XREF)) : Prop :=
  Forall (fun p => p.1 = entity_path p.2 /\ normal p.1) t /\ NoDup t.*1.

Lemma ep_lookup_spec t key x :
  keys_ok t -> normal key -> ep_lookup t key = Some x <-> (key, x) ∈ t.
Proof.
  intros [Hf Hd] Hk. unfold ep_lookup. induction t as [|[k y] t IH]; simpl.
  - split; [done|]. intros H. by apply not_elem_of_nil in H.
  - inversion Hf as [|? ? [Hy Hn] Hf']; subst. simpl in Hd. apply NoDup_cons in Hd as [Hky Hd].
    simpl in *. rewrite elem_of_cons.
    destruct (oh_entity_path_equal k key) eqn:E.
    + apply normal_equal in E as ->; [|done|done]. simpl. split.
      * intros [= ->]. by left.
      * intros [[= ->]|H]; [done|]. destruct Hky. apply list_elem_of_fmap. by exists (key, x).
    + rewrite IH by done. split; [by right|]. intros [[= <- <-]|H]; [|done].
      assert (oh_entity_path_equal key key = true) by by apply normal_equal. congruence.
Qed.

Lemma ep_lookup_None t key :
  keys_ok t -> normal key -> ep_lookup t key = None <-> key ∉ t.*1.
Proof.
  intros Ht Hk. split.
  - intros H (p & -> & Hp)%list_elem_of_fmap. destruct p as [k x].
    apply (ep_lookup_spec t k x Ht Hk) in Hp. simpl in *. congruence.
  - intros H. destruct (ep_lookup t key) as [x|] eqn:E; [|done].
    apply ep_lookup_spec in E; [|done|done]. destruct H. apply list_elem_of_fmap. by exists (key, x).
Qed.

Lemma ep_remove_spec t key :
  keys_ok t -> normal key ->
  keys_ok (ep_remove t key) /\
  (forall p, p ∈ ep_remove t key <-> p ∈ t /\ p.1 <> key).
Proof.
  intros [Hf Hd] Hk.
  assert (Hel : forall p, p ∈ ep_remove t key <-> p ∈ t /\ p.1 <> key).
  { intros p. unfold ep_remove. rewrite list_elem_of_In, filter_In, <- list_elem_of_In, negb_true_iff.
    rewrite Forall_forall in Hf. split; intros [Hp E]; (split; [done|]); destruct (Hf p Hp) as [_ Hn].
    - intros <-. assert (oh_entity_path_equal p.1 p.1 = true) by by apply normal_equal. congruence.
    - destruct (oh_entity_path_equal p.1 key) eqn:Ee; [|done].
      apply normal_equal in Ee; [|done|done]. done. }
  split; [|done]. split.
  - apply Forall_forall. intros p [Hp _]%Hel. rewrite Forall_forall in Hf. by apply Hf.
  - clear Hel Hf. induction t as [|[k y] t IH]; simpl; [constructor|].
    simpl in Hd. apply NoDup_cons in Hd as [Hky Hd]. unfold ep_remove in *. simpl.
    destruct (negb _); simpl; [|by apply IH]. apply NoDup_cons. split; [|by apply IH].
    intros (p & -> & Hp)%list_elem_of_fmap. destruct Hky. apply list_elem_of_In, filter_In in Hp as [Hp _].
    apply list_elem_of_fmap. exists p. split; [done|]. by apply list_elem_of_In.
Qed.

Lemma ep_insert_new t x :
  keys_ok t -> normal (entity_path x) -> entity_path x ∉ t.*1 ->
  ep_insert t (entity_path x) x = t ++ [(entity_path x, x)] /\
  keys_ok (t ++ [(entity_path x, x)]).
Proof.
  intros Ht Hn Hx. unfold ep_insert. rewrite (proj2 (ep_lookup_None t _ Ht Hn)) by done.
  split; [done|]. destruct Ht as [Hf Hd]. split.
  - apply Forall_app. split; [done|]. apply Forall_singleton. by split.
  - rewrite fmap_app. apply NoDup_app. split; [done|]. split; [|apply NoDup_singleton].
    simpl. intros k Hk ->%list_elem_of_singleton. done.
Qed.

Lemma uid_keys_ok s : uid_ok s -> keys_ok (oh_ep_table s).
Proof. intros H. split; apply H. Qed.

(** Two records of a table with the same id are the same. *)
Lemma uid_inj s p q :
  uid_ok s -> p ∈ oh_ep_table s -> q ∈ oh_ep_table s -> resource_id p.2 = resource_id q.2 -> p = q.
Proof.
  intros Hs Hp Hq E. pose proof (uid_keys _ Hs) as Hk. rewrite Forall_forall in Hk.
  destruct p as [kp x], q as [kq y]. destruct (Hk _ Hp) as [Ep _], (Hk _ Hq) as [Eq _]. simpl in *. subst.
  assert (H1 : oh_resource_id_table s !! resource_id x = Some x) by by apply (uid_table _ Hs).
  assert (H2 : oh_resource_id_table s !! resource_id y = Some y) by by apply (uid_table _ Hs).
  rewrite E in H1. rewrite H1 in H2. by injection H2 as ->.
Qed.

Lemma uid_lookup_spec s ep id :
  uid_ok s -> ep_wf ep -> 1 <= id ->
  uid_lookup s (Some ep) = id <-> exists x, (normalise ep, x) ∈ oh_ep_table s /\ resource_id x = id.
Proof.
  intros Hs Hw Hid. unfold uid_lookup. rewrite (uid_init _ Hs). simpl.
  pose proof (normalise_normal ep Hw) as Hn. pose proof (uid_keys_ok _ Hs) as Hk. split.
  - destruct (ep_lookup _ _) as [x|] eqn:E; [|lia]. intros <-. exists x. split; [|done].
    by apply ep_lookup_spec in E.
  - intros (x & Hx & <-). by rewrite (proj2 (ep_lookup_spec _ _ x Hk Hn) Hx).
Qed.

Lemma uid_lookup_zero s ep :
  uid_ok s -> ep_wf ep -> uid_lookup s (Some ep) = 0 <-> normalise ep ∉ (oh_ep_table s).*1.
Proof.
  intros Hs Hw. unfold uid_lookup. rewrite (uid_init _ Hs). simpl.
  rewrite <- ep_lookup_None; [|by apply uid_keys_ok|by apply normalise_normal].
  destruct (ep_lookup _ _) as [x|] eqn:E; [|done].
  apply ep_lookup_spec in E; [|by apply uid_keys_ok|by apply normalise_normal].
  pose proof (uid_range _ Hs) as Hr. rewrite Forall_forall in Hr. specialize (Hr _ E). simpl in Hr.
  split; [lia|done].
Qed.

(** The two tables agree. *)
Definition tables_ok (s : uid_state) : Prop :=
  keys_ok (oh_ep_table s) /\
  forall k x, oh_resource_id_table s !! k = Some x <->
    resource_id x = k /\ (entity_path x, x) ∈ oh_ep_table s.

Lemma uid_tables_ok s : uid_ok s -> tables_ok s.
Proof. intros H. split; [by apply uid_keys_ok|apply H]. Qed.

Lemma insert_xref_tables s x :
  tables_ok s -> normal (entity_path x) -> entity_path x ∉ (oh_ep_table s).*1 ->
  resource_id x ∉ resource_id ∘ snd <$> oh_ep_table s ->
  tables_ok (insert_xref s x) /\
  oh_ep_table (insert_xref s x) = oh_ep_table s ++ [(entity_path x, x)].
Proof.
  intros [Hk Ht] Hn Hp Hid. destruct (ep_insert_new _ x Hk Hn Hp) as [Hi Hk'].
  split; [|exact Hi]. unfold tables_ok. simpl. rewrite Hi. split; [done|]. intros k y.
  rewrite lookup_insert. case_decide as Ek.
  - split; [intros [= <-]; split; [done|]; apply elem_of_app; right; left|].
    intros [Hy [Hin|Hin%list_elem_of_singleton]%elem_of_app].
    + destruct Hid. apply list_elem_of_fmap. exists (entity_path y, y). simpl. by rewrite Hy, Ek.
    + by injection Hin as _ ->.
  - rewrite Ht. split.
    + intros [H1 H2]. split; [done|]. apply elem_of_app. by left.
    + intros [H1 [Hin|Hin%list_elem_of_singleton]%elem_of_app]; [done|].
      injection Hin as _ ->. done.
Qed.

(** Entering a new path. *)
Lemma insert_ok s ep :
  uid_ok s -> ep_wf ep -> normalise ep ∉ (oh_ep_table s).*1 -> next_resource_id s + 1 < 2 ^ 32 ->
  let x := {| resource_id := next_resource_id s; entity_path := normalise ep |} in
  let s' := insert_xref (s <| next_resource_id ::= fun r => u32 (r + 1) |>) x in
  uid_ok s' /\ oh_ep_table s' = oh_ep_table s ++ [(normalise ep, x)] /\
  next_resource_id s' = next_resource_id s + 1.
Proof.
  intros Hs Hw Hnew Hb x s'. pose proof (uid_next _ Hs) as Hnx.
  assert (Hu : u32 (next_resource_id s + 1) = next_resource_id s + 1) by (apply u32_id; lia).
  destruct (insert_xref_tables (s <| next_resource_id ::= fun r => u32 (r + 1) |>) x)
    as [[[Hf Hd] Ht] Hl]; [exact (uid_tables_ok s Hs)|by apply normalise_normal|done| |].
  { intros (p & E & Hp)%list_elem_of_fmap. pose proof (uid_range _ Hs) as Hr.
    rewrite Forall_forall in Hr. specialize (Hr p Hp). simpl in *. lia. }
  fold s' in Hf, Hd, Ht, Hl. assert (Hn : next_resource_id s' = next_resource_id s + 1) by exact Hu.
  split; [|by split]. split; [apply Hs|done|done|done| |lia].
  rewrite Hl, Hn. apply Forall_app. split.
  - eapply Forall_impl; [exact (uid_range _ Hs)|]. simpl. intros p Hp. lia.
  - apply Forall_singleton. unfold x. simpl. lia.
Qed.

(** Reading a map file whose records have different paths and ids. *)
Lemma load_records records s :
  tables_ok s -> Forall (fun x => normal (entity_path x)) records ->
  NoDup ((oh_ep_table s).*1 ++ (entity_path <$> records)) ->
  NoDup ((resource_id ∘ snd <$> oh_ep_table s) ++ (resource_id <$> records)) ->
  let s' := foldl insert_xref s records in
  tables_ok s' /\ oh_ep_table s' = oh_ep_table s ++ ((fun x => (entity_path x, x)) <$> records) /\
  next_resource_id s' = next_resource_id s /\ initialized s' = initialized s /\
  oh_uid_map_file s' = oh_uid_map_file s.
Proof.
  revert s. induction records as [|x records IH]; intros s Hs Hn Hp Hi; simpl.
  { by rewrite app_nil_r. }
  inversion Hn as [|? ? Hx Hn']; subst. csimpl in *.
  assert (Hp' := Hp). apply NoDup_app in Hp' as (_ & Hp' & _).
  assert (Hi' := Hi). apply NoDup_app in Hi' as (_ & Hi' & _).
  destruct (insert_xref_tables s x Hs Hx) as [H1 H2].
  { intros H. apply (Hp' _ H). left. }
  { intros H. apply (Hi' _ H). left. }
  destruct (IH (insert_xref s x) H1 Hn') as (H3 & H4 & H5 & H6 & H7).
  - rewrite H2, fmap_app, <- app_assoc. done.
  - rewrite H2, fmap_app, <- app_assoc. done.
  - split; [done|]. split; [by rewrite H4, H2, <- app_assoc|]. by rewrite H5, H6, H7.
Qed.

(** Removing a record. *)
Lemma remove_ok s x :
  uid_ok s -> oh_resource_id_table s !! resource_id x = Some x ->
  let s' := s <| oh_resource_id_table ::= delete (resource_id x) |>
              <| oh_ep_table ::= fun t => ep_remove t (entity_path x) |> in
  uid_ok s' /\ (forall p, p ∈ oh_ep_table s' <-> p ∈ oh_ep_table s /\ p.1 <> entity_path x).
Proof.
  intros Hs Hx s'. apply (uid_table _ Hs) in Hx as [_ Hx].
  pose proof (uid_keys _ Hs) as Hf. rewrite Forall_forall in Hf. destruct (Hf _ Hx) as [_ Hn].
  destruct (ep_remove_spec (oh_ep_table s) (entity_path x) (uid_keys_ok _ Hs) Hn) as [Hk Hel].
  split; [|exact Hel]. split; simpl.
  - apply Hs.
  - apply Hk.
  - apply Hk.
  - intros k y. rewrite Hel, lookup_delete. case_decide as Ek.
    + split; [done|]. intros [E [Hy Hne]]. destruct Hne. simpl.
      assert (E' : (entity_path y, y) = (entity_path x, x)) by (apply (uid_inj s); [done..|simpl; congruence]).
      exact (f_equal fst E').
    + rewrite (uid_table _ Hs). split; [|tauto]. intros [E Hy]. split; [done|]. split; [done|].
      simpl. intros Ep. rewrite Ep in Hy.
      assert (y = x) as ->; [|done].
      apply (ep_lookup_spec _ _ _ (uid_keys_ok _ Hs) Hn) in Hy, Hx. congruence.
  - apply Forall_forall. intros p [Hp _]%Hel. pose proof (uid_range _ Hs) as Hr.
    rewrite Forall_forall in Hr. by apply Hr.
  - apply Hs.
Qed.

(** A saved file has the records of the tables, hence different paths and ids. *)
Lemma saved_records s fl :
  uid_ok s -> uid_saved s fl ->
  Forall (fun x => normal (entity_path x)) (file_xrefs fl) /\
  NoDup (entity_path <$> file_xrefs fl) /\ NoDup (resource_id <$> file_xrefs fl).
Proof.
  intros Hs [_ Hp].
  assert (Hpath : entity_path <$> (oh_ep_table s).*2 = (oh_ep_table s).*1).
  { rewrite <- list_fmap_compose. apply list_fmap_ext. intros _ p Hin%list_elem_of_lookup_2.
    pose proof (uid_keys _ Hs) as Hk. rewrite Forall_forall in Hk. by destruct (Hk p Hin) as [-> _]. }
  split; [|split].
  - rewrite Hp. rewrite Forall_fmap. eapply Forall_impl; [exact (uid_keys _ Hs)|].
    intros p [E H]. simpl. by rewrite <- E.
  - rewrite Hp, Hpath. apply Hs.
  - rewrite Hp, <- list_fmap_compose.
    assert (Hd : NoDup (oh_ep_table s)) by (eapply NoDup_fmap_1; apply Hs).
    apply NoDup_fmap_2_strong; [|done]. intros p q Hpq Hpp Hqq. by apply (uid_inj s).
Qed.

Lemma empty_tables_ok s : oh_ep_table s = [] -> oh_resource_id_table s = ∅ -> tables_ok s.
Proof.
  intros H1 H2. unfold tables_ok, keys_ok. rewrite H1, H2. repeat split; try constructor.
  - by rewrite lookup_empty in H.
  - by rewrite lookup_empty in H.
  - intros [_ H]. by apply not_elem_of_nil in H.
Qed.

(** * Properties *)

(** C40: [oh_uid_from_entity_path] gives ids.  For any entity path, in a
    consistent state whose map file is up to date: the id returned is not 0, a
    lookup of the path gives it and a lookup of the id gives the normalised path
    back; asking again gives the same id; the ids of other paths do not change;
    two paths have the same id only if [oh_cmp_ep] identifies them; and the
    state stays consistent with the file up to date. *)
Theorem uid_assignment (ep : SaHpiEntityPathT) (fl : uid_file) (s : uid_state) :
  uid_ok s -> uid_saved s fl -> ep_wf ep -> next_resource_id s + 1 < 2 ^ 32 ->
  exists id s' fl',
    oh_uid_from_entity_path true true (Some ep) (Some fl) s = (id, s', Some fl') /\
    uid_ok s' /\ (oh_uid_map_file s <> None -> uid_saved s' fl') /\ 1 <= id /\
    uid_lookup s' (Some ep) = id /\
    (forall out, oh_entity_path_lookup s' id (Some out) = (SA_OK, Some (normalise ep))) /\
    oh_uid_from_entity_path true true (Some ep) (Some fl') s' = (id, s', Some fl') /\
    (forall ep', ep_wf ep' -> uid_lookup s (Some ep') <> 0 ->
       uid_lookup s' (Some ep') = uid_lookup s (Some ep')) /\
    (forall ep', ep_wf ep' -> uid_lookup s' (Some ep') = id ->
       oh_cmp_ep (Some ep') (Some ep) = SAHPI_TRUE).
Proof.
  intros Hs Hfl Hw Hb.
  assert (Hmain : exists id s' fl', oh_uid_from_entity_path true true (Some ep) (Some fl) s = (id, s', Some fl') /\
    uid_ok s' /\ (oh_uid_map_file s <> None -> uid_saved s' fl') /\
    (exists x, (normalise ep, x) ∈ oh_ep_table s' /\ resource_id x = id) /\
    (forall p, p ∈ oh_ep_table s -> p ∈ oh_ep_table s')).
  { unfold oh_uid_from_entity_path. rewrite (uid_init _ Hs). simpl negb. cbn match.
    pose proof (uid_keys_ok _ Hs) as Hk. pose proof (normalise_normal ep Hw) as Hn.
    destruct (ep_lookup (oh_ep_table s) (normalise ep)) as [x|] eqn:El.
    - apply ep_lookup_spec in El; [|done|done]. eexists _, _, _. split; [done|]. split; [done|]. split; [done|]. by eauto.
    - apply ep_lookup_None in El; [|done|done].
      destruct (insert_ok s ep Hs Hw El Hb) as (H1 & H2 & H3). cbv zeta in *.
      set (x := {| resource_id := next_resource_id s; entity_path := normalise ep |}) in *.
      set (s' := insert_xref _ x) in *.
      assert (Hx : exists y, (normalise ep, y) ∈ oh_ep_table s' /\ resource_id y = next_resource_id s).
      { exists x. split; [|done]. rewrite H2. apply elem_of_app. right. left. }
      assert (Hmono : forall p, p ∈ oh_ep_table s -> p ∈ oh_ep_table s').
      { intros p Hp. rewrite H2. apply elem_of_app. by left. }
      change (oh_uid_map_file s') with (oh_uid_map_file s).
      destruct (oh_uid_map_file s); eexists _, _, _; (split; [reflexivity|]); (split; [done|]); (split; [|done]).
      + intros _. destruct Hfl as [_ Hp]. split; [done|]. rewrite H2, fmap_app, <- Hp. done.
      + done. }
  destruct Hmain as (id & s' & fl' & E & Hs' & Hsv & (x & Hx & Hid) & Hmono).
  assert (Hrange : 1 <= id).
  { pose proof (uid_range _ Hs') as Hr. rewrite Forall_forall in Hr. specialize (Hr _ Hx). simpl in Hr. lia. }
  assert (Hlk : uid_lookup s' (Some ep) = id) by (apply uid_lookup_spec; eauto).
  assert (Hxe : entity_path x = normalise ep).
  { pose proof (uid_keys _ Hs') as Hk. rewrite Forall_forall in Hk.
    destruct (Hk _ Hx) as [Ek _]. by simpl in Ek. }
  exists id, s', fl'. do 5 (split; [done|]). split; [|split; [|split]].
  - intros out. unfold oh_entity_path_lookup. rewrite (proj2 (Z.eqb_neq _ _)), (uid_init _ Hs') by lia.
    simpl. assert (oh_resource_id_table s' !! id = Some x) as ->; [|by rewrite Hxe].
    apply (uid_table _ Hs'). by rewrite Hxe.
  - unfold oh_uid_from_entity_path. rewrite (uid_init _ Hs'). simpl.
    rewrite (proj2 (ep_lookup_spec _ _ x (uid_keys_ok _ Hs') (normalise_normal ep Hw)) Hx). by rewrite Hid.
  - intros ep' Hw' Hne.
    destruct (ep_lookup (oh_ep_table s) (normalise ep')) as [y|] eqn:Ey.
    + apply ep_lookup_spec in Ey; [|by apply uid_keys_ok|by apply normalise_normal].
      pose proof (uid_range _ Hs) as Hr. rewrite Forall_forall in Hr. specialize (Hr _ Ey). simpl in Hr.
      assert (H1 : uid_lookup s (Some ep') = resource_id y) by (apply uid_lookup_spec; eauto; lia).
      rewrite H1. apply uid_lookup_spec; [done|done|lia|]. eauto.
    + unfold uid_lookup in Hne. by rewrite (uid_init _ Hs), Ey in Hne.
  - intros ep' Hw' Hl. apply uid_lookup_spec in Hl as (y & Hy & Ey); [|done|done|done].
    apply cmp_ep_equiv; [done|done|]. apply normalise_equiv; [done|done|].
    assert (Ep : (normalise ep', y) = (normalise ep, x)) by (apply (uid_inj s'); [done..|simpl; congruence]).
    exact (f_equal fst Ep).
Qed.

(** A state as [oh_uid_initialize] makes it when there is no map file. *)
Definition fresh_uid_state (f : option string) : uid_state :=
  {| oh_ep_table := []; oh_resource_id_table := ∅; next_resource_id := 1;
     oh_uid_map_file := f; initialized := true |}.
Definition fresh_uid_file : uid_file := {| file_counter := Some 1; file_xrefs := [] |}.

Lemma fresh_uid_ok f : uid_ok (fresh_uid_state f).
Proof.
  pose proof (empty_tables_ok (fresh_uid_state f) eq_refl eq_refl) as [[H1 H2] H3].
  split; try done; simpl; constructor.
Qed.
Lemma fresh_uid_saved f : uid_saved (fresh_uid_state f) fresh_uid_file.
Proof. by split. Qed.

Lemma zero_ep_wf : ep_wf zero_ep.
Proof. done. Qed.

Lemma uid_assignment_witness :
  exists id s' fl',
    oh_uid_from_entity_path true true (Some zero_ep) (Some fresh_uid_file)
      (fresh_uid_state (Some "map"%string)) = (id, s', Some fl') /\
    uid_ok s' /\ uid_lookup s' (Some zero_ep) = id.
Proof.
  destruct (uid_assignment zero_ep fresh_uid_file (fresh_uid_state (Some "map"%string)))
    as (id & s' & fl' & H1 & H2 & _ & _ & H3 & _);
    [apply fresh_uid_ok | apply fresh_uid_saved | reflexivity | reflexivity |].
  by exists id, s', fl'.
Defined.

Lemma filter_all_true {A} (l : list A) : List.filter (fun _ => true) l = l.
Proof. induction l as [|x l IH]; simpl; [done|]. by rewrite IH. Qed.

(** [oh_uid_remove] removes exactly the pair of the id: its path and its id
    are found no more, every other path keeps its id, and the counter does not
    move - the id is never given out again, since new ids are counted up from
    it.  The map file is rewritten with what the tables hold, in whatever order
    the hash table is visited.  An unknown id is [SA_ERR_HPI_NOT_PRESENT]. *)
Theorem uid_remove_correct (order : gmap Z EP_XREF -> list EP_XREF) (uid : Z) (fl : uid_file)
    (s : uid_state) :
  (forall m, Permutation (order m) (map_to_list m).*2) ->
  uid_ok s -> oh_uid_map_file s <> None ->
  match oh_resource_id_table s !! uid with
  | None => oh_uid_remove order true true (fun _ => true) uid (Some fl) s
              = (SA_ERR_HPI_NOT_PRESENT, s, Some fl)
  | Some x => exists s' fl',
      oh_uid_remove order true true (fun _ => true) uid (Some fl) s = (SA_OK, s', Some fl') /\
      uid_ok s' /\ uid_saved s' fl' /\ next_resource_id s' = next_resource_id s /\
      uid < next_resource_id s' /\
      (forall out, oh_entity_path_lookup s' uid (Some out) = (
         if uid =? 0 then SA_ERR_HPI_ERROR else SA_ERR_HPI_NOT_PRESENT, Some out)) /\
      (forall ep, ep_wf ep -> uid_lookup s' (Some ep) =
         if decide (normalise ep = entity_path x) then 0 else uid_lookup s (Some ep))
  end.
Proof.
  intros Hord Hs Hmap. unfold oh_uid_remove. rewrite (uid_init _ Hs). simpl negb. cbn match.
  destruct (oh_resource_id_table s !! uid) as [x|] eqn:Ex; [|done].
  assert (Hx := Ex). apply (uid_table _ Hs) in Hx as [Hid Hx].
  pose proof (uid_keys _ Hs) as Hf. rewrite Forall_forall in Hf. destruct (Hf _ Hx) as [_ Hn]. simpl in Hn.
  pose proof (uid_range _ Hs) as Hr. rewrite Forall_forall in Hr. specialize (Hr _ Hx) as Hrx. simpl in Hrx.
  rewrite (proj2 (ep_lookup_spec _ _ x (uid_keys_ok _ Hs) Hn) Hx).
  rewrite <- Hid in Ex. destruct (remove_ok s x Hs Ex) as [Hs' Hel]. cbv zeta in Hs', Hel.
  set (s' := s <| oh_resource_id_table ::= _ |> <| oh_ep_table ::= _ |>) in *.
  unfold oh_uid_map_to_file. change (oh_uid_map_file s') with (oh_uid_map_file s).
  destruct (oh_uid_map_file s) as [f|]; [|done]. simpl. eexists _, _. split; [done|].
  split; [done|]. split; [|split; [done|split; [simpl; lia|split]]].
  - split; [done|]. cbn [file_xrefs].
    rewrite filter_all_true.
    rewrite Hord. apply NoDup_Permutation.
    + apply (NoDup_fmap_1 resource_id). rewrite <- list_fmap_compose.
      assert (E : resource_id ∘ snd <$> map_to_list (oh_resource_id_table s')
                  = (map_to_list (oh_resource_id_table s')).*1).
      { apply list_fmap_ext. intros _ [k y] Hk%list_elem_of_lookup_2. apply elem_of_map_to_list in Hk.
        apply (uid_table _ Hs') in Hk. simpl. tauto. }
      change (NoDup (resource_id ∘ snd <$> map_to_list (oh_resource_id_table s'))).
      rewrite E. apply NoDup_fst_map_to_list.
    + assert (Hd : NoDup (oh_ep_table s')) by (eapply NoDup_fmap_1; apply Hs').
      apply NoDup_fmap_2_strong; [|done]. intros p q Hp Hq E.
      apply (uid_inj s'); [done..|]. by rewrite E.
    + intros y. split.
      * intros ([k z] & -> & Hk)%list_elem_of_fmap. apply elem_of_map_to_list in Hk.
        apply (uid_table _ Hs') in Hk as [_ Hk]. apply list_elem_of_fmap. by exists (entity_path z, z).
      * intros ([k z] & -> & Hk)%list_elem_of_fmap. simpl.
        pose proof (uid_keys _ Hs') as Hf'. rewrite Forall_forall in Hf'. destruct (Hf' _ Hk) as [Ek _].
        simpl in Ek. subst k. apply list_elem_of_fmap. exists (resource_id z, z). split; [done|].
        apply elem_of_map_to_list. by apply (uid_table _ Hs').
  - intros out. unfold oh_entity_path_lookup. case_if; [done|]. rewrite (uid_init _ Hs'). simpl negb. cbn match.
    change (oh_resource_id_table s') with (delete (resource_id x) (oh_resource_id_table s)).
    by rewrite Hid, lookup_delete_eq.
  - intros ep Hw. case_decide as Ed.
    + apply uid_lookup_zero; [done|done|]. intros (p & E & Hp)%list_elem_of_fmap.
      apply Hel in Hp as [_ Hp]. congruence.
    + unfold uid_lookup. rewrite (uid_init _ Hs), (uid_init _ Hs'). simpl negb. cbn match.
      destruct (ep_lookup (oh_ep_table s) (normalise ep)) as [y|] eqn:Ey.
      * apply ep_lookup_spec in Ey; [|by apply uid_keys_ok|by apply normalise_normal].
        rewrite (proj2 (ep_lookup_spec _ _ y (uid_keys_ok _ Hs') (normalise_normal ep Hw))); [done|].
        apply Hel. by split.
      * apply ep_lookup_None in Ey; [|by apply uid_keys_ok|by apply normalise_normal].
        rewrite (proj2 (ep_lookup_None _ _ (uid_keys_ok _ Hs') (normalise_normal ep Hw))); [done|].
        intros (p & E & Hp)%list_elem_of_fmap. apply Hel in Hp as [Hp _]. destruct Ey.
        apply list_elem_of_fmap. by exists p.
Qed.

Definition plain_order (m : gmap Z EP_XREF) : list EP_XREF := (map_to_list m).*2.
Definition one_xref : EP_XREF := {| resource_id := 1; entity_path := normalise zero_ep |}.
Definition one_uid_state : uid_state :=
  insert_xref (fresh_uid_state (Some "map"%string) <| next_resource_id ::= fun r => u32 (r + 1) |>) one_xref.

Lemma one_uid_ok : uid_ok one_uid_state.
Proof.
  apply (insert_ok (fresh_uid_state (Some "map"%string)) zero_ep (fresh_uid_ok _) zero_ep_wf);
    [apply not_elem_of_nil | reflexivity].
Qed.

Lemma uid_remove_correct_witness :
  exists s' fl', oh_uid_remove plain_order true true (fun _ => true) 1 (Some fresh_uid_file) one_uid_state
      = (SA_OK, s', Some fl') /\ uid_ok s' /\ uid_lookup s' (Some zero_ep) = 0.
Proof.
  destruct (uid_remove_correct plain_order 1 fresh_uid_file one_uid_state)
    as (s' & fl' & H1 & H2 & _ & _ & _ & _ & H3); [done | apply one_uid_ok | discriminate |].
  exists s', fl'. split; [exact H1|]. split; [exact H2|]. by rewrite H3.
Defined.

(** Where the environment names a map file. *)
Lemma initialize_from dm getenv name f fl s :
  initialized s = false -> getenv "OPENHPI_UID_MAP"%string = Some name -> name <> ""%string ->
  read_error f = false -> file_counter fl <> None ->
  oh_uid_initialize dm getenv f (Some fl) s =
    (0, foldl insert_xref (fresh_uid_state (Some name) <| next_resource_id := default 0 (file_counter fl) |>)
          (file_xrefs fl), Some fl).
Proof.
  intros Hi Hg Hne Hre Hc. unfold oh_uid_initialize. rewrite Hi, Hg. simpl default. cbv zeta.
  rewrite (proj2 (String.eqb_neq _ _) Hne). unfold uid_map_from_file, build_uid_map_data. simpl.
  destruct (file_counter fl) as [c|]; [|done]. by rewrite Hre.
Qed.

(** Ids survive a restart.  When a new process initialises the component
    from a map file that is up to date, it has the same pairs of ids and paths
    and the same counter as the old one: every lookup gives the same result. *)
Theorem uid_persistent (default_map name : string) (getenv : string -> option string)
    (f : file_faults) (fl : uid_file) (s s0 : uid_state) :
  uid_ok s -> uid_saved s fl -> initialized s0 = false ->
  getenv "OPENHPI_UID_MAP"%string = Some name -> name <> ""%string -> read_error f = false ->
  exists s', oh_uid_initialize default_map getenv f (Some fl) s0 = (0, s', Some fl) /\
    uid_ok s' /\ next_resource_id s' = next_resource_id s /\
    oh_resource_id_table s' = oh_resource_id_table s /\
    (forall ep, ep_wf ep -> uid_lookup s' (Some ep) = uid_lookup s (Some ep)) /\
    (forall id out, oh_entity_path_lookup s' id out = oh_entity_path_lookup s id out) /\
    uid_saved s' fl.
Proof.
  intros Hs Hfl Hi Hg Hne Hre. destruct (saved_records s fl Hs Hfl) as (Hn & Hdp & Hdi).
  destruct Hfl as [Hc Hp].
  rewrite (initialize_from _ _ name) by (done || congruence). rewrite Hc. simpl default.
  destruct (load_records (file_xrefs fl) (fresh_uid_state (Some name) <| next_resource_id := next_resource_id s |>))
    as (H1 & H2 & H3 & H4 & _); [by apply empty_tables_ok|done|done|done|]. cbv zeta in *.
  set (s' := foldl _ _ _) in *. simpl in H2. destruct H1 as [Hk Ht].
  assert (Hel : forall p, p ∈ oh_ep_table s' <-> p ∈ oh_ep_table s).
  { intros [k x]. rewrite H2. pose proof (uid_keys _ Hs) as Hf. rewrite Forall_forall in Hf. split.
    - intros (y & [= -> ->] & Hy)%list_elem_of_fmap. rewrite Hp in Hy.
      apply list_elem_of_fmap in Hy as ([k z] & -> & Hz). destruct (Hf _ Hz) as [E _]. simpl in *. by subst.
    - intros Hx. destruct (Hf _ Hx) as [E _]. simpl in E. subst. apply list_elem_of_fmap. exists x.
      split; [done|]. rewrite Hp. apply list_elem_of_fmap. by exists (entity_path x, x). }
  assert (Hs' : uid_ok s').
  { destruct Hk as [Hk1 Hk2]. split; [done|done|done|done| |rewrite H3; apply Hs].
    apply Forall_forall. intros p Hpp%Hel. pose proof (uid_range _ Hs) as Hr.
    rewrite Forall_forall in Hr. rewrite H3. by apply Hr. }
  assert (Htab : oh_resource_id_table s' = oh_resource_id_table s).
  { apply map_eq. intros k. apply option_eq. intros x.
    by rewrite (uid_table _ Hs'), (uid_table _ Hs), Hel. }
  exists s'. split; [done|]. split; [done|]. split; [done|]. split; [done|]. split; [|split].
  - intros ep Hw. destruct (Z.eq_dec (uid_lookup s (Some ep)) 0) as [E|E].
    + rewrite E. apply uid_lookup_zero; [done|done|]. apply uid_lookup_zero in E; [|done|done].
      intros (p & Ep & Hpp)%list_elem_of_fmap. destruct E. apply list_elem_of_fmap. exists p.
      split; [done|]. by apply Hel.
    + unfold uid_lookup in *. rewrite (uid_init _ Hs) in *. rewrite (uid_init _ Hs'). simpl in *.
      destruct (ep_lookup (oh_ep_table s) (normalise ep)) as [x|] eqn:Ex; [|done].
      apply ep_lookup_spec in Ex; [|by apply uid_keys_ok|by apply normalise_normal].
      by rewrite (proj2 (ep_lookup_spec _ _ x Hk (normalise_normal ep Hw)) (proj2 (Hel _) Ex)).
  - intros id out. unfold oh_entity_path_lookup. by rewrite (uid_init _ Hs), (uid_init _ Hs'), Htab.
  - split; [by rewrite H3|]. rewrite H2, <- list_fmap_compose. unfold compose. simpl.
    by rewrite list_fmap_id.
Qed.

Lemma uid_persistent_witness :
  let fl := {| file_counter := Some 2; file_xrefs := [one_xref] |} in
  exists s', oh_uid_initialize "d" (fun _ => Some "map"%string)
      {| create_ok := true; counter_write_ok := true; close_ok := true; read_error := false |}
      (Some fl) (one_uid_state <| initialized := false |>) = (0, s', Some fl) /\
    uid_lookup s' (Some zero_ep) = 1.
Proof.
  cbv zeta.
  destruct (uid_persistent "d" "map" (fun _ => Some "map"%string)
      {| create_ok := true; counter_write_ok := true; close_ok := true; read_error := false |}
      {| file_counter := Some 2; file_xrefs := [one_xref] |} one_uid_state
      (one_uid_state <| initialized := false |>))
    as (s' & H1 & _ & _ & _ & H2 & _); [apply one_uid_ok | by split | done | done | discriminate | done |].
  exists s'. split; [exact H1|]. by rewrite (H2 zero_ep zero_ep_wf).
Defined.

(** An interrupted save makes ids ambiguous.  If the record of a new path is
    written to the map file but the counter after it is not, the call reports
    failure; after a restart from that file the path has the id all the same,
    but the next new path gets the same id: two different entity paths with one
    id.  (Nothing compares the counter with the ids of the records read.) *)
Theorem uid_partial_save_duplicates (default_map name : string) (getenv : string -> option string)
    (f : file_faults) (fl : uid_file) (s s0 : uid_state) (a b : SaHpiEntityPathT) :
  uid_ok s -> uid_saved s fl -> oh_uid_map_file s <> None -> initialized s0 = false ->
  getenv "OPENHPI_UID_MAP"%string = Some name -> name <> ""%string -> read_error f = false ->
  ep_wf a -> ep_wf b -> uid_lookup s (Some a) = 0 -> uid_lookup s (Some b) = 0 -> ~ ep_equiv a b ->
  exists s1 fl1 s2 s3 fl3,
    oh_uid_from_entity_path true false (Some a) (Some fl) s = (0, s1, Some fl1) /\
    oh_uid_initialize default_map getenv f (Some fl1) s0 = (0, s2, Some fl1) /\
    oh_uid_from_entity_path true true (Some b) (Some fl1) s2 = (next_resource_id s, s3, Some fl3) /\
    uid_lookup s3 (Some a) = next_resource_id s /\ uid_lookup s3 (Some b) = next_resource_id s.
Proof.
  intros Hs Hfl Hm Hi Hg Hne Hre Ha Hb Hla Hlb Hab.
  apply uid_lookup_zero in Hla, Hlb; [|done..].
  destruct (saved_records s fl Hs Hfl) as (Hn & Hdp & Hdi). destruct Hfl as [Hc Hp].
  pose proof (uid_keys_ok _ Hs) as Hk. pose proof (uid_next _ Hs) as Hnx.
  set (n := next_resource_id s) in *.
  set (x := {| resource_id := n; entity_path := normalise a |}).
  set (fl1 := {| file_counter := Some n; file_xrefs := file_xrefs fl ++ [x] |}).
  assert (H1 : exists s1, oh_uid_from_entity_path true false (Some a) (Some fl) s = (0, s1, Some fl1)).
  { unfold oh_uid_from_entity_path. rewrite (uid_init _ Hs). simpl negb. cbn match.
    rewrite (proj2 (ep_lookup_None _ _ Hk (normalise_normal a Ha)) Hla). cbv zeta.
    set (s1 := insert_xref _ _). change (oh_uid_map_file s1) with (oh_uid_map_file s).
    destruct (oh_uid_map_file s); [|done]. exists s1. unfold save_new_xref, fl1. destruct fl.
    simpl in Hc. by rewrite Hc. }
  destruct H1 as [s1 H1]. exists s1, fl1.
  assert (Hpath : entity_path <$> file_xrefs fl ≡ₚ (oh_ep_table s).*1).
  { rewrite Hp, <- list_fmap_compose.
    assert (entity_path ∘ snd <$> oh_ep_table s = (oh_ep_table s).*1) as ->; [|done].
    apply list_fmap_ext. intros _ p Hin%list_elem_of_lookup_2. pose proof (uid_keys _ Hs) as Hf.
    rewrite Forall_forall in Hf. by destruct (Hf p Hin) as [-> _]. }
  assert (Hid : resource_id <$> file_xrefs fl ≡ₚ resource_id ∘ snd <$> oh_ep_table s).
  { by rewrite Hp, <- list_fmap_compose. }
  destruct (load_records (file_xrefs fl1) (fresh_uid_state (Some name) <| next_resource_id := n |>))
    as ([Hk2 _] & H2 & H3 & H4 & H5).
  { by apply empty_tables_ok. }
  { apply Forall_app. split; [done|]. apply Forall_singleton. by apply normalise_normal. }
  { simpl. rewrite fmap_app. apply NoDup_app. split; [done|]. split; [|apply NoDup_singleton].
    simpl. intros k Hkk ->%list_elem_of_singleton. by rewrite Hpath in Hkk. }
  { simpl. rewrite fmap_app. apply NoDup_app. split; [done|]. split; [|apply NoDup_singleton].
    simpl. intros k Hkk ->%list_elem_of_singleton. rewrite Hid in Hkk.
    apply list_elem_of_fmap in Hkk as (p & E & Hpp). pose proof (uid_range _ Hs) as Hr.
    rewrite Forall_forall in Hr. specialize (Hr p Hpp). simpl in *. fold n in Hr. lia. }
  cbv zeta in *. set (s2 := foldl _ _ _) in *. simpl in H2. rewrite fmap_app in H2.
  assert (Hb2 : normalise b ∉ (oh_ep_table s2).*1).
  { rewrite H2, fmap_app, <- list_fmap_compose. unfold compose. simpl. rewrite not_elem_of_app. split.
    - change (normalise b ∉ entity_path <$> file_xrefs fl). by rewrite Hpath.
    - intros E%list_elem_of_singleton. destruct Hab. by apply normalise_equiv. }
  set (y := {| resource_id := n; entity_path := normalise b |}).
  destruct (ep_insert_new (oh_ep_table s2) y Hk2) as [Hi2 Hk3]; [by apply normalise_normal|done|].
  change (entity_path y) with (normalise b) in Hk3.
  set (s3 := insert_xref (s2 <| next_resource_id ::= fun r => u32 (r + 1) |>) y).
  assert (Hl3 : oh_ep_table s3 = oh_ep_table s2 ++ [(normalise b, y)]) by exact Hi2.
  assert (Hin3 : initialized s3 = true) by exact H4.
  exists s2, s3, (fl1 <| file_xrefs ::= fun l => l ++ [y] |> <| file_counter := Some (u32 (n + 1)) |>).
  split; [done|]. split; [|split].
  - by rewrite (initialize_from _ _ name) by done.
  - unfold oh_uid_from_entity_path. rewrite H4. simpl negb. cbn match.
    rewrite (proj2 (ep_lookup_None _ _ Hk2 (normalise_normal b Hb)) Hb2). cbv zeta.
    assert (E : next_resource_id s2 = n) by exact H3. rewrite E. fold y. fold s3.
    change (oh_uid_map_file s3) with (oh_uid_map_file s2). rewrite H5. simpl.
    by rewrite E.
  - unfold uid_lookup. rewrite Hin3, Hl3. simpl negb. cbn match.
    rewrite (proj2 (ep_lookup_spec _ _ x Hk3 (normalise_normal a Ha))).
    + rewrite (proj2 (ep_lookup_spec _ _ y Hk3 (normalise_normal b Hb))); [done|].
      apply elem_of_app. right. left.
    + apply elem_of_app. left. rewrite H2. apply elem_of_app. right. left.
Qed.

Definition other_ep : SaHpiEntityPathT :=
  ep_of_path [{| EntityType := 3; EntityLocation := 1 |}].

Lemma uid_partial_save_duplicates_witness :
  let f := {| create_ok := true; counter_write_ok := true; close_ok := true; read_error := false |} in
  let s := fresh_uid_state (Some "map"%string) in
  exists s1 fl1 s2 s3 fl3,
    oh_uid_from_entity_path true false (Some zero_ep) (Some fresh_uid_file) s = (0, s1, Some fl1) /\
    oh_uid_initialize "d" (fun _ => Some "map"%string) f (Some fl1) (s <| initialized := false |>)
      = (0, s2, Some fl1) /\
    oh_uid_from_entity_path true true (Some other_ep) (Some fl1) s2 = (1, s3, Some fl3) /\
    uid_lookup s3 (Some zero_ep) = 1 /\ uid_lookup s3 (Some other_ep) = 1.
Proof.
  apply (uid_partial_save_duplicates "d" "map" (fun _ => Some "map"%string)
    {| create_ok := true; counter_write_ok := true; close_ok := true; read_error := false |}
    fresh_uid_file (fresh_uid_state (Some "map"%string))
    (fresh_uid_state (Some "map"%string) <| initialized := false |>));
    try done; apply fresh_uid_ok.
Defined.

(** The hash function agrees with the equality on normalised paths, which is
    what [g_hash_table_new] requires of the pair, and on those only: the bytes
    after the root, which the equality ignores, are hashed too. *)
Lemma entity_path_hash_compatible a b :
  normal a -> normal b -> oh_entity_path_equal a b = true ->
  oh_entity_path_hash a = oh_entity_path_hash b.
Proof. intros Ha Hb E. by apply normal_equal in E as ->. Qed.

Lemma entity_path_hash_incompatible :
  exists a b, ep_wf a /\ ep_wf b /\ oh_entity_path_equal a b = true /\
    oh_entity_path_hash a <> oh_entity_path_hash b.
Proof.
  exists (ep_of_path []), ((ep_of_path []) <| Entry ::= <[1%nat := {| EntityType := 5; EntityLocation := 0 |}]> |>).
  split; [done|]. split; [done|]. split; [done|]. vm_compute. discriminate.
Qed.
