(* ===== verification/DomainState.v ===== *)
(** The state of a domain: the structures of [include/oh_domain.h].

    A domain has a Resource Presence Table, a Domain Alarm Table, a Domain
    Reference Table and an event log.  The domain's locks are not part of the
    record: each modelled function runs with them held. *)
From S2P Require Import Prelude SaHpi Rpt EventLog.

Definition OH_DEFAULT_DOMAIN_ID : Z := 0.
#[export] Hint Unfold OH_DEFAULT_DOMAIN_ID : hpi_const.

(** Domain Alarm Table *)
Record oh_dat := {
  dat_next_id : Z; dat_list : list SaHpiAlarmT; dat_update_count : Z;
  dat_update_timestamp : Z; overflow : Z }.
#[export] Instance eta_dat : Eta oh_dat := fun x =>
  Build_oh_dat (dat_next_id x) (dat_list x) (dat_update_count x)
    (dat_update_timestamp x) (overflow x).

(** Domain Reference Table *)
Record oh_drt := {
  drt_next_id : Z; parent_id : Z; drt_list : list SaHpiDrtEntryT;
  drt_update_count : Z; drt_update_timestamp : Z }.
#[export] Instance eta_drt : Eta oh_drt := fun x =>
  Build_oh_drt (drt_next_id x) (parent_id x) (drt_list x) (drt_update_count x)
    (drt_update_timestamp x).

Record oh_domain := {
  domain_id : Z; tag : SaHpiTextBufferT; domain_ai_timeout : Z;
  capabilities : Z; guid : list Z; rpt : RPTable; dat : oh_dat; drt : oh_drt;
  del : oh_el; refcount : Z }.
#[export] Instance eta_domain : Eta oh_domain := fun x =>
  Build_oh_domain (domain_id x) (tag x) (domain_ai_timeout x) (capabilities x)
    (guid x) (rpt x) (dat x) (drt x) (del x) (refcount x).

(** [g_new0] *)
Definition zero_dat : oh_dat :=
  {| dat_next_id := 0; dat_list := []; dat_update_count := 0;
     dat_update_timestamp := 0; overflow := 0 |}.
Definition zero_drt : oh_drt :=
  {| drt_next_id := 0; parent_id := 0; drt_list := []; drt_update_count := 0;
     drt_update_timestamp := 0 |}.
Definition zero_rpt : RPTable :=
  {| table_update_count := 0; update_timestamp := 0; rptlist := []; rptable := None;
     alloc := 0; freed := [] |}.

(** ** Interfaces *)

(** What the alarm table needs of the unique id table: the result code and the
    entity path afterwards of [oh_entity_path_lookup(id, &ep)]. *)
Class EntityPathLookup :=
  entity_path_lookup : Z -> option SaHpiEntityPathT -> Z * option SaHpiEntityPathT.
