(* ===== verification/HotSwap.v ===== *)
(** Hot swap: [openhpid/hotswap.c]. *)
From S2P Require Import Prelude SaHpi DomainState.

Definition get_hotswap_auto_insert_timeout (d : oh_domain) : Z := domain_ai_timeout d.

Definition set_hotswap_auto_insert_timeout (d : oh_domain) (to : Z) : oh_domain :=
  d <| domain_ai_timeout := to |>.

Definition oh_allowed_hotswap_transition (from to : Z) : Z :=
  if from =? SAHPI_HS_STATE_INACTIVE then
    if (to =? SAHPI_HS_STATE_INSERTION_PENDING) || (to =? SAHPI_HS_STATE_NOT_PRESENT)
    then SAHPI_TRUE else SAHPI_FALSE
  else if from =? SAHPI_HS_STATE_INSERTION_PENDING then
    if (to =? SAHPI_HS_STATE_INACTIVE) || (to =? SAHPI_HS_STATE_NOT_PRESENT)
       || (to =? SAHPI_HS_STATE_ACTIVE)
    then SAHPI_TRUE else SAHPI_FALSE
  else if from =? SAHPI_HS_STATE_ACTIVE then
    if (to =? SAHPI_HS_STATE_EXTRACTION_PENDING) || (to =? SAHPI_HS_STATE_NOT_PRESENT)
    then SAHPI_TRUE else SAHPI_FALSE
  else if from =? SAHPI_HS_STATE_EXTRACTION_PENDING then
    if (to =? SAHPI_HS_STATE_ACTIVE) || (to =? SAHPI_HS_STATE_NOT_PRESENT)
       || (to =? SAHPI_HS_STATE_INACTIVE)
    then SAHPI_TRUE else SAHPI_FALSE
  else if from =? SAHPI_HS_STATE_NOT_PRESENT then
    if to =? SAHPI_HS_STATE_INSERTION_PENDING then SAHPI_TRUE else SAHPI_FALSE
  else SAHPI_FALSE.

(** The managed hot swap state machine as a relation: a resource leaves the
    NOT PRESENT state by insertion only; between the four other states it moves
    along the insertion and extraction sequences; it can be removed in any of
    them. *)
Inductive hs_step : Z -> Z -> Prop :=
  | hs_insert : hs_step SAHPI_HS_STATE_NOT_PRESENT SAHPI_HS_STATE_INSERTION_PENDING
  | hs_activate : hs_step SAHPI_HS_STATE_INSERTION_PENDING SAHPI_HS_STATE_ACTIVE
  | hs_abort_insertion : hs_step SAHPI_HS_STATE_INSERTION_PENDING SAHPI_HS_STATE_INACTIVE
  | hs_reinsert : hs_step SAHPI_HS_STATE_INACTIVE SAHPI_HS_STATE_INSERTION_PENDING
  | hs_request_extraction : hs_step SAHPI_HS_STATE_ACTIVE SAHPI_HS_STATE_EXTRACTION_PENDING
  | hs_abort_extraction : hs_step SAHPI_HS_STATE_EXTRACTION_PENDING SAHPI_HS_STATE_ACTIVE
  | hs_deactivate : hs_step SAHPI_HS_STATE_EXTRACTION_PENDING SAHPI_HS_STATE_INACTIVE
  | hs_remove s : 0 <= s <= 3 -> hs_step s SAHPI_HS_STATE_NOT_PRESENT.

Lemma allowed_step from to : oh_allowed_hotswap_transition from to = SAHPI_TRUE <-> hs_step from to.
Proof.
  unfold oh_allowed_hotswap_transition. split.
  - repeat case_if; try discriminate; intros _; rewrite ?orb_true_iff, ?Z.eqb_eq in *; subst;
      repeat match goal with H : _ \/ _ |- _ => destruct H end; subst; try constructor; consts; lia.
  - destruct 1; try reflexivity. consts.
    assert (s = 0 \/ s = 1 \/ s = 2 \/ s = 3) as [->|[->|[->| ->]]] by lia; reflexivity.
Qed.

(** The allowed transitions are exactly those of the hot swap state machine:
    a state is never its own successor, ACTIVE is entered only from a pending
    state, and a resource that was not present becomes active only through
    INSERTION PENDING - it is the second state of every sequence of allowed
    transitions from NOT PRESENT to ACTIVE. *)
Theorem hotswap_transitions_correct (from to : Z) :
  (oh_allowed_hotswap_transition from to = SAHPI_TRUE <-> hs_step from to) /\
  (oh_allowed_hotswap_transition from to = SAHPI_TRUE -> from <> to /\
     (to = SAHPI_HS_STATE_ACTIVE ->
        from = SAHPI_HS_STATE_INSERTION_PENDING \/ from = SAHPI_HS_STATE_EXTRACTION_PENDING)) /\
  (forall states : list Z,
     head states = Some SAHPI_HS_STATE_NOT_PRESENT -> last states = Some SAHPI_HS_STATE_ACTIVE ->
     (forall i a b, states !! i = Some a -> states !! S i = Some b ->
        oh_allowed_hotswap_transition a b = SAHPI_TRUE) ->
     states !! 1%nat = Some SAHPI_HS_STATE_INSERTION_PENDING).
Proof.
  split; [apply allowed_step|]. split.
  - rewrite allowed_step. destruct 1; consts; lia.
  - intros [|a [|b states]]; [done| |]; intros [= ->] Hl Hs; [done|]. simpl.
    assert (H : hs_step SAHPI_HS_STATE_NOT_PRESENT b) by (apply allowed_step; by apply (Hs 0%nat)).
    inversion H as [| | | | | | |s Hr]; subst; try done. consts. lia.
Qed.

Lemma hotswap_transitions_correct_witness :
  [SAHPI_HS_STATE_NOT_PRESENT; SAHPI_HS_STATE_INSERTION_PENDING; SAHPI_HS_STATE_ACTIVE] !! 1%nat
    = Some SAHPI_HS_STATE_INSERTION_PENDING.
Proof.
  destruct (hotswap_transitions_correct 0 0) as (_ & _ & H). apply H; [done|done|].
  intros [|[|i]] a b H1 H2; simplify_eq/=; done.
Defined.
