(* ===== verification/EventUtils.v ===== *)
(** Events as the daemon passes them around: [utils/event_utils.c].

    An [oh_event] is an HPI event with the resource it concerns and lists of
    RDRs to add to the resource and to remove from it.  The lists are owned by
    the event: [oh_dup_event] copies them, [oh_event_free] frees them. *)
From S2P Require Import Prelude SaHpi.

Record oh_event := {
  hid : Z; event : SaHpiEventT; resource : SaHpiRptEntryT;
  rdrs : list SaHpiRdrT; rdrs_to_remove : list SaHpiRdrT }.
#[export] Instance eta_oh_event : Eta oh_event := fun x =>
  Build_oh_event (hid x) (event x) (resource x) (rdrs x) (rdrs_to_remove x).
#[export] Instance oh_event_eq_dec : EqDecision oh_event.
Proof. solve_decision. Defined.

Definition zero_event : SaHpiEventT :=
  {| Source := 0; event_Timestamp := 0; event_Severity := 0;
     EventDataUnion := ResourceEvent 0 |}.
Definition zero_oh_event : oh_event :=
  {| hid := 0; event := zero_event; resource := zero_rpt_entry; rdrs := [];
     rdrs_to_remove := [] |}.

(** The copying loops, element by element. *)
Definition dup_rdrs (l : list SaHpiRdrT) : list SaHpiRdrT :=
  foldl (fun acc r => acc ++ [r]) [] l.

Definition oh_dup_event (old_event : option oh_event) : option oh_event :=
  match old_event with
  | None => None
  | Some old =>
      let e := old in
      let e := e <| rdrs := [] |> in
      let e := e <| rdrs := dup_rdrs (rdrs old) |> in
      let e := e <| rdrs_to_remove := [] |> in
      Some (e <| rdrs_to_remove := dup_rdrs (rdrs_to_remove old) |>)
  end.

Lemma dup_rdrs_app acc l : foldl (fun acc r => acc ++ [r]) acc l = acc ++ l :> list SaHpiRdrT.
Proof.
  revert acc. induction l as [|x l IH]; intros acc; simpl; [by rewrite app_nil_r|].
  by rewrite IH, <- app_assoc.
Qed.

Lemma dup_rdrs_id l : dup_rdrs l = l.
Proof. apply dup_rdrs_app. Qed.

Lemma dup_event_same e : oh_dup_event (Some e) = Some e.
Proof. destruct e. unfold oh_dup_event, set_field. simpl. by rewrite !dup_rdrs_id. Qed.
