(* ===== verification/Alarm.v ===== *)
(** The Domain Alarm Table: [openhpid/alarm.c].

    The alarms of a domain are a list in the order of their ids.  Alarms are
    added and removed by id, by a user, or because an event says that a
    condition holds or is over.  A parameter of the model is the value it has
    during a call: the clock [now], the global parameters [g], whether the save
    file can be opened ([fopen_ok]) and which records can be written to it
    ([fwrite_ok]).  The state is the domain and the contents of its save file
    [varpath/dat.<id>], [None] when there is no such file.  A static function
    takes a domain, a public one a domain pointer, [None] for [NULL]; an optional
    argument passed by pointer is an [option]. *)
From S2P Require Import Prelude SaHpi Rpt EventLog Conf DomainState EventUtils.

Definition OH_MAX_DAT_SIZE_LIMIT : Z := 0.
Definition OH_MAX_DAT_USER_LIMIT : Z := 0.
#[export] Hint Unfold OH_MAX_DAT_SIZE_LIMIT OH_MAX_DAT_USER_LIMIT : hpi_const.

(** The integer stored by [oh_get_global_param], [None] when it fails. *)
Definition get_num (type : Z) (g : global_params) : option Z :=
  match get_param type g with Some (PNum z) => Some z | _ => None end.

Record dat_state := { dom : oh_domain; dat_file : option (list SaHpiAlarmT) }.
#[export] Instance eta_dat_state : Eta dat_state := fun x => Build_dat_state (dom x) (dat_file x).

Definition alarms (d : oh_domain) : list SaHpiAlarmT := dat_list (dat d).
Definition set_alarms (d : oh_domain) (l : list SaHpiAlarmT) : oh_domain :=
  d <| dat ::= fun t => t <| dat_list := l |> |>.

Definition update_dat (now : Z) (d : oh_domain) : oh_domain :=
  d <| dat ::= fun t => t <| dat_update_count ::= fun n => u32 (n + 1) |>
                          <| dat_update_timestamp := now |> |>.

(** ** Looking for alarms *)

Definition opt_match (o : option Z) (v : Z) : bool :=
  match o with Some x => v =? x | None => true end.

Record criteria := {
  by_severity : option Z; by_type : option Z; by_rid : option Z; by_mid : option Z;
  by_num : option Z; by_state : option Z }.
Definition any : criteria :=
  {| by_severity := None; by_type := None; by_rid := None; by_mid := None;
     by_num := None; by_state := None |}.

(** The conjuncts of the search after the one on the id. *)
Definition alarm_matches (c : criteria) (unacknowledged : bool) (a : SaHpiAlarmT) : bool :=
  match by_severity c with
  | Some s => if negb (s =? SAHPI_ALL_SEVERITIES) then alarm_Severity a =? s else true
  | None => true
  end
  && opt_match (by_type c) (Type_ (AlarmCond a))
  && opt_match (by_rid c) (cond_ResourceId (AlarmCond a))
  && opt_match (by_mid c) (cond_Mid (AlarmCond a))
  && opt_match (by_num c) (cond_SensorNum (AlarmCond a))
  && opt_match (by_state c) (cond_EventState (AlarmCond a))
  && (if unacknowledged then negb (truthy (Acknowledged a)) else true).

Definition id_matches (aid : option Z) (get_next : bool) (a : SaHpiAlarmT) : bool :=
  match aid with
  | Some i => if get_next then i <? AlarmId a else AlarmId a =? i
  | None => true
  end.

(** A node of the list is its position and the alarm. *)
Fixpoint find_alarm (P : SaHpiAlarmT -> bool) (i : nat) (l : list SaHpiAlarmT)
    : option (nat * SaHpiAlarmT) :=
  match l with
  | [] => None
  | a :: l => if P a then Some (i, a) else find_alarm P (S i) l
  end.

Definition last_node (l : list SaHpiAlarmT) : option (nat * SaHpiAlarmT) :=
  match last l with Some a => Some (pred (length l), a) | None => None end.

Definition get_alarm_node (l : list SaHpiAlarmT) (aid : option Z) (c : criteria)
    (unacknowledged get_next : bool) : option (nat * SaHpiAlarmT) :=
  let search next := find_alarm (fun a => id_matches aid next a && alarm_matches c unacknowledged a) 0 l in
  match aid with
  | Some i =>
      if i =? SAHPI_FIRST_ENTRY then search true
      else if i =? SAHPI_LAST_ENTRY then if get_next then None else last_node l
      else search get_next
  | None => search get_next
  end.

Definition count_alarms (d : oh_domain) (type : option Z) (sev : Z) : Z :=
  match type with
  | None =>
      if sev =? SAHPI_ALL_SEVERITIES then Z.of_nat (length (alarms d))
      else foldl (fun n a => if (sev =? SAHPI_ALL_SEVERITIES) || (alarm_Severity a =? sev)
                             then u32 (n + 1) else n) 0 (alarms d)
  | Some t =>
      foldl (fun n a => if (Type_ (AlarmCond a) =? t)
                           && ((sev =? SAHPI_ALL_SEVERITIES) || (alarm_Severity a =? sev))
                        then u32 (n + 1) else n) 0 (alarms d)
  end.

Definition oh_get_alarm (d : option oh_domain) (aid : option Z) (c : criteria)
    (unacknowledged get_next : bool) : option SaHpiAlarmT :=
  match d with
  | None => None
  | Some d => snd <$> get_alarm_node (alarms d) aid c unacknowledged get_next
  end.

Definition oh_count_alarms (d : option oh_domain) (sev : Z) : Z :=
  match d with None => 0 | Some d => count_alarms d None sev end.

(** ** The save file *)

Definition oh_alarms_to_file (fopen_ok : bool) (fwrite_ok : nat -> bool)
    (at_ : option oh_dat) (filename : option string)
    (file : option (list SaHpiAlarmT)) : Z * option (list SaHpiAlarmT) :=
  match at_, filename with
  | Some t, Some _ =>
      if negb fopen_ok then (SA_ERR_HPI_ERROR, file)
      else let '(w, ok) := write_records fwrite_ok 0 (dat_list t) in
           (if ok then SA_OK else SA_ERR_HPI_ERROR, Some w)
  | _, _ => (SA_ERR_HPI_INVALID_PARAMS, file)
  end.

Section Alarms.
Context `{EntityPathLookup}.
Context (g : global_params) (now : Z) (fopen_ok : bool) (fwrite_ok : nat -> bool).

(** ** Adding an alarm *)

(** The table is at its limit. *)
Definition at_limit (limit count : Z) (max : Z) : bool := negb (limit =? max) && (limit <=? count).

Definition size_limit : Z := default OH_MAX_DAT_SIZE_LIMIT (get_num OPENHPI_DAT_SIZE_LIMIT g).
Definition user_limit : Z := default OH_MAX_DAT_USER_LIMIT (get_num OPENHPI_DAT_USER_LIMIT g).

Definition user_limit_reached (d : oh_domain) (alarm : option SaHpiAlarmT) : bool :=
match alarm with
| Some a =>
    (Type_ (AlarmCond a) =? SAHPI_STATUS_COND_TYPE_USER)
    && at_limit user_limit (count_alarms d (Some (Type_ (AlarmCond a))) SAHPI_ALL_SEVERITIES)
         OH_MAX_DAT_USER_LIMIT
| None => false
end.

Definition save_dat (s : dat_state) : dat_state :=
if truthy (default 0 (get_num OPENHPI_DAT_SAVE g))
then s <| dat_file := snd (oh_alarms_to_file fopen_ok fwrite_ok (Some (dat (dom s)))
                             (Some (varpath g)) (dat_file s)) |>
else s.

(** The result is the alarm added, the caller's alarm afterwards and the state. *)
Definition add_alarm (s : dat_state) (alarm : option SaHpiAlarmT) (fromfile : bool)
  : option SaHpiAlarmT * option SaHpiAlarmT * dat_state :=
let d := dom s in
if at_limit size_limit (Z.of_nat (length (alarms d))) OH_MAX_DAT_SIZE_LIMIT
then (None, alarm, s <| dom := d <| dat ::= fun t => t <| overflow := SAHPI_TRUE |> |> |>)
else if user_limit_reached d alarm then (None, alarm, s)
else
  let a := default zero_alarm alarm in
  let '(a, d) :=
    if fromfile then
      (a, if dat_next_id (dat d) <? AlarmId a
          then d <| dat ::= fun t => t <| dat_next_id := AlarmId a |> |> else d)
    else
      let id := u32 (dat_next_id (dat d) + 1) in
      (a <| AlarmId := id |> <| alarm_Timestamp := now |> <| Acknowledged := SAHPI_FALSE |>,
       d <| dat ::= fun t => t <| dat_next_id := id |> |>) in
  let a := a <| AlarmCond ::= fun c => c <| cond_DomainId := domain_id d |> |> in
  let d := set_alarms d (alarms d ++ [a]) in
  let alarm := (fun r => r <| AlarmId := AlarmId a |>
                           <| alarm_Timestamp := alarm_Timestamp a |>) <$> alarm in
  let s := s <| dom := d |> in
  let s := if fromfile then s else save_dat (s <| dom ::= update_dat now |>) in
  (Some a, alarm, s).

Definition oh_add_alarm (s : option dat_state) (alarm : option SaHpiAlarmT) (fromfile : bool)
  : option SaHpiAlarmT * option SaHpiAlarmT * option dat_state :=
match s with
| None => (None, alarm, None)
| Some s => let '(a, r, s) := add_alarm s alarm fromfile in (a, r, Some s)
end.

(** The reading loop over the records of the file. *)
Fixpoint read_alarms (s : dat_state) (records : list SaHpiAlarmT) : Z * dat_state :=
match records with
| [] => (SA_OK, s)
| alarm :: records =>
    let '(a, _, s) := add_alarm s (Some alarm) true in
    match a with
    | None => (SA_ERR_HPI_ERROR, s)
    | Some _ => read_alarms s records
    end
end.

Definition oh_alarms_from_file (s : option dat_state) (filename : option string)
  : Z * option dat_state :=
match s, filename with
| Some s, Some _ =>
    match dat_file s with
    | None => (SA_ERR_HPI_ERROR, Some s)
    | Some records => let '(err, s) := read_alarms s records in (err, Some s)
    end
| _, _ => (SA_ERR_HPI_ERROR, s)
end.

(** ** Removing alarms *)

Definition mask_matches (deassert_mask : option Z) (a : SaHpiAlarmT) : bool :=
match deassert_mask with
| Some m => truthy (Z.land m (cond_EventState (AlarmCond a)))
| None => true
end.

(** The [do ... while (multi)] loop; [None] when the fuel does not reach its end. *)
Fixpoint remove_alarms_loop (fuel : nat) (c : criteria) (deassert_mask : option Z) (multi : bool)
  (aid : Z) (l : list SaHpiAlarmT) : option (list SaHpiAlarmT) :=
match fuel with
| O => None
| S fuel =>
    match get_alarm_node l (Some aid) c false true with
    | None => Some l
    | Some (i, alarm) =>
        let aid := AlarmId alarm in
        let l := if mask_matches deassert_mask alarm then delete i l else l in
        if multi then remove_alarms_loop fuel c deassert_mask multi aid l else Some l
    end
end.

(** Enough fuel: [remove_alarms_loop_ends]. *)
Definition remove_fuel (l : list SaHpiAlarmT) : nat := S (length l).

Definition remove_alarm (d : oh_domain) (c : criteria) (deassert_mask : option Z) (multi : bool)
  : oh_domain :=
let l := default (alarms d)
           (remove_alarms_loop (remove_fuel (alarms d)) c deassert_mask multi SAHPI_FIRST_ENTRY
              (alarms d)) in
let d := update_dat now (set_alarms d l) in
match get_num OPENHPI_DAT_SIZE_LIMIT g with
| Some limit =>
    if negb (limit =? OH_MAX_DAT_SIZE_LIMIT) && (Z.of_nat (length (alarms d)) <? limit)
    then d <| dat ::= fun t => t <| overflow := SAHPI_FALSE |> |> else d
| None => d
end.

Definition oh_remove_alarm (d : option oh_domain) (c : criteria) (deassert_mask : option Z)
  (multi : bool) : Z * option oh_domain :=
match d with
| None => (SA_ERR_HPI_INVALID_PARAMS, None)
| Some d => (SA_OK, Some (remove_alarm d c deassert_mask multi))
end.

Definition oh_close_alarmtable (d : option oh_domain) : Z * option oh_domain :=
match d with
| None => (SA_ERR_HPI_INVALID_PARAMS, None)
| Some _ =>
    let '(error, d) := oh_remove_alarm d any None true in
    (error, (fun d => d <| dat ::= fun t => t <| dat_next_id := 0 |> <| dat_update_count := 0 |>
                                            <| dat_update_timestamp := SAHPI_TIME_UNSPECIFIED |> |>)
              <$> d)
end.

(** ** Detecting alarms *)

(** Alarms of a type on a resource. *)
Definition on_resource (type rid : Z) : criteria :=
{| by_severity := None; by_type := Some type; by_rid := Some rid; by_mid := None;
   by_num := None; by_state := None |}.
Definition on_sensor (rid num : Z) (state : option Z) : criteria :=
{| by_severity := None; by_type := Some SAHPI_STATUS_COND_TYPE_SENSOR; by_rid := Some rid;
   by_mid := None; by_num := Some num; by_state := state |}.
Definition on_oem (rid mid : Z) : criteria :=
{| by_severity := None; by_type := Some SAHPI_STATUS_COND_TYPE_OEM; by_rid := Some rid;
   by_mid := Some mid; by_num := None; by_state := None |}.

Definition remove_all (s : dat_state) (c : criteria) (deassert_mask : option Z) : dat_state :=
s <| dom := remove_alarm (dom s) c deassert_mask true |>.
Definition add_new (s : dat_state) (a : SaHpiAlarmT) : dat_state := snd (add_alarm s (Some a) false).

(** [oh_entity_path_lookup(rid, &a.AlarmCond.Entity)] on a zeroed alarm. *)
Definition entity_of (rid : Z) : SaHpiEntityPathT :=
default zero_ep (snd (entity_path_lookup rid (Some zero_ep))).

(** The zeroed alarm [a] with the fields that every detection sets. *)
Definition new_alarm (severity type rid : Z) : SaHpiAlarmT :=
zero_alarm <| alarm_Severity := severity |>
           <| AlarmCond := zero_condition <| Type_ := type |> <| cond_Entity := entity_of rid |>
                             <| cond_ResourceId := rid |> |>.

Definition oh_detect_oem_event_alarm (s : dat_state) (event : SaHpiEventT) : dat_state :=
match EventDataUnion event with
| OemEvent mid data =>
    if SAHPI_MINOR <? event_Severity event
    then remove_all s (on_oem (Source event) mid) None
    else add_new s (new_alarm (event_Severity event) SAHPI_STATUS_COND_TYPE_OEM (Source event)
                      <| AlarmCond ::= fun c => c <| cond_Mid := mid |> <| cond_Data := data |> |>)
| _ => s
end.

Definition oh_detect_resource_event_alarm (s : dat_state) (event : SaHpiEventT) : dat_state :=
match EventDataUnion event with
| ResourceEvent type =>
    if negb (type =? SAHPI_RESE_RESOURCE_FAILURE)
    then remove_all s (on_resource SAHPI_STATUS_COND_TYPE_RESOURCE (Source event)) None
    else if event_Severity event <=? SAHPI_MINOR
    then add_new s (new_alarm (event_Severity event) SAHPI_STATUS_COND_TYPE_RESOURCE (Source event))
    else s
| _ => s
end.

Definition oh_detect_sensor_event_alarm (s : dat_state) (event : SaHpiEventT) : dat_state :=
match EventDataUnion event with
| SensorEvent e =>
    let s :=
      if negb (Z.land (se_OptionalDataPresent e) SAHPI_SOD_CURRENT_STATE =? 0)
      then let deasserted := u16 (Z.lnot (se_CurrentState e)) in
           remove_all s (on_sensor (Source event) (se_SensorNum e) None) (Some deasserted)
      else s in
    if negb (truthy (se_Assertion e))
    then remove_all s (on_sensor (Source event) (se_SensorNum e) (Some (se_EventState e))) None
    else if (event_Severity event <=? SAHPI_MINOR) && truthy (se_Assertion e)
    then add_new s (new_alarm (event_Severity event) SAHPI_STATUS_COND_TYPE_SENSOR (Source event)
                      <| AlarmCond ::= fun c => c <| cond_SensorNum := se_SensorNum e |>
                                                  <| cond_EventState := se_EventState e |> |>)
    else s
| _ => s
end.

Definition oh_detect_sensor_enable_change_alarm (s : dat_state) (event : SaHpiEventT) : dat_state :=
match EventDataUnion event with
| SensorEnableChangeEvent e =>
    if negb (truthy (sec_SensorEnable e)) || negb (truthy (sec_SensorEventEnable e))
    then remove_all s (on_sensor (Source event) (sec_SensorNum e) None) None
    else s
| _ => s
end.

Definition oh_remove_resource_alarms (s : dat_state) (rid : Z) (all : bool) : dat_state :=
if rid =? 0 then s
else
  let s := remove_all s (on_resource SAHPI_STATUS_COND_TYPE_RESOURCE rid) None in
  if all then
    let s := remove_all s (on_resource SAHPI_STATUS_COND_TYPE_OEM rid) None in
    remove_all s (on_resource SAHPI_STATUS_COND_TYPE_SENSOR rid) None
  else s.

Definition oh_detect_hpi_alarm (s : dat_state) (event : SaHpiEventT) : dat_state :=
let t := EventType event in
if t =? SAHPI_ET_OEM then oh_detect_oem_event_alarm s event
else if t =? SAHPI_ET_RESOURCE then oh_detect_resource_event_alarm s event
else if t =? SAHPI_ET_SENSOR then oh_detect_sensor_event_alarm s event
else if t =? SAHPI_ET_SENSOR_ENABLE_CHANGE then oh_detect_sensor_enable_change_alarm s event
else s.

Definition oh_detect_resource_alarm (s : dat_state) (res : SaHpiRptEntryT) : dat_state :=
if negb (truthy (ResourceFailed res)) || (SAHPI_MINOR <? ResourceSeverity res)
then remove_all s (on_resource SAHPI_STATUS_COND_TYPE_RESOURCE (ResourceId res)) None
else if (ResourceSeverity res <=? SAHPI_MINOR) && truthy (ResourceFailed res)
then add_new s (new_alarm (ResourceSeverity res) SAHPI_STATUS_COND_TYPE_RESOURCE (ResourceId res)
                  <| AlarmCond ::= fun c => c <| cond_Mid := ManufacturerId (ResourceInfo res) |>
                                              <| cond_Data := ResourceTag res |> |>)
else s.

Definition detect_event_alarm (s : dat_state) (e : oh_event) : dat_state :=
let etype := EventType (EventUtils.event e) in
if etype =? SAHPI_ET_RESOURCE then
  if negb (ResourceId (resource e) =? 0) then oh_detect_resource_alarm s (resource e)
  else oh_detect_resource_event_alarm s (EventUtils.event e)
else if etype =? SAHPI_ET_HOTSWAP then
  match EventDataUnion (EventUtils.event e) with
  | HotSwapEvent h =>
      if HotSwapState h =? SAHPI_HS_STATE_NOT_PRESENT
      then let rid := ResourceId (resource e) in
           let rid := if rid =? 0 then Source (EventUtils.event e) else rid in
           oh_remove_resource_alarms s rid true
      else s
  | _ => s
  end
else oh_detect_hpi_alarm s (EventUtils.event e).

Definition oh_detect_event_alarm (s : option dat_state) (e : option oh_event)
  : Z * option dat_state :=
match s, e with
| Some s, Some e => (SA_OK, Some (detect_event_alarm s e))
| _, _ => (SA_ERR_HPI_INVALID_PARAMS, s)
end.

(** The three functions below look the domain up by its id: [d] is the result
  of [oh_get_domain(did)], released on every path. *)
Definition oh_detect_res_sev_alarm (d : option dat_state) (rid new_sev : Z)
  : Z * option dat_state :=
if rid =? 0 then (SA_ERR_HPI_INVALID_PARAMS, d)
else match d with
     | None => (SA_ERR_HPI_INVALID_DOMAIN, d)
     | Some s =>
         match oh_get_resource_by_id (Some (rpt (dom s))) rid with
         | None => (SA_ERR_HPI_INVALID_RESOURCE, d)
         | Some res =>
             (SA_OK,
              Some (if (ResourceSeverity res <=? SAHPI_MINOR) && (SAHPI_MINOR <? new_sev)
                    then oh_remove_resource_alarms s (ResourceId res) false else s))
         end
     end.

Definition oh_detect_sensor_enable_alarm (d : option dat_state) (rid num enable : Z)
  : Z * option dat_state :=
if rid =? 0 then (SA_ERR_HPI_INVALID_PARAMS, d)
else if truthy enable then (SA_OK, d)
else match d with
     | None => (SA_ERR_HPI_INVALID_DOMAIN, d)
     | Some s => (SA_OK, Some (remove_all s (on_sensor rid num None) None))
     end.

Definition oh_detect_sensor_mask_alarm (d : option dat_state) (rid num action deassert_mask : Z)
  : Z * option dat_state :=
if rid =? 0 then (SA_ERR_HPI_INVALID_PARAMS, d)
else if action =? SAHPI_SENS_ADD_EVENTS_TO_MASKS then (SA_OK, d)
else if negb (action =? SAHPI_SENS_REMOVE_EVENTS_FROM_MASKS) then (SA_ERR_HPI_INVALID_PARAMS, d)
else match d with
     | None => (SA_ERR_HPI_INVALID_DOMAIN, d)
     | Some s => (SA_OK, Some (remove_all s (on_sensor rid num None) (Some deassert_mask)))
     end.
End Alarms.

(** * Searching *)

Lemma find_alarm_spec P i l :
  match find_alarm P i l with
  | Some (j, a) =>
      exists l1 l2, l = l1 ++ a :: l2 /\ j = (i + length l1)%nat /\ P a = true /\
        Forall (fun x => P x = false) l1
  | None => Forall (fun x => P x = false) l
  end.
Proof.
  revert i. induction l as [|a l IH]; intros i; simpl; [constructor|].
  destruct (P a) eqn:Ea.
  - exists [], l. split; [done|]. split; [simpl; lia|]. split; [done|constructor].
  - specialize (IH (S i)). destruct (find_alarm P (S i) l) as [[j b]|]; [|by constructor].
    destruct IH as (l1 & l2 & -> & -> & Hb & Hl). exists (a :: l1), l2.
    split; [done|]. split; [simpl; lia|]. split; [done|by constructor].
Qed.

(** What the removal loop looks for: the next matching alarm. *)
Lemma next_node l aid c u :
  Forall (fun a => AlarmId a <= SAHPI_LAST_ENTRY) l ->
  get_alarm_node l (Some aid) c u true
  = find_alarm (fun a => (aid <? AlarmId a) && alarm_matches c u a) 0 l.
Proof.
  intros Hl. unfold get_alarm_node. simpl.
  destruct (aid =? SAHPI_FIRST_ENTRY); [done|].
  destruct (aid =? SAHPI_LAST_ENTRY) eqn:E; [|done]. apply Z.eqb_eq in E. subst aid.
  assert (Hg : forall i, find_alarm (fun a => (SAHPI_LAST_ENTRY <? AlarmId a) && alarm_matches c u a) i l = None).
  { induction Hl as [|a l Ha _ IH]; intros i; simpl; [done|].
    rewrite (proj2 (Z.ltb_ge _ _) Ha). simpl. apply IH. }
  by rewrite Hg.
Qed.

Lemma delete_split {A} (l1 l2 : list A) x : delete (length l1) (l1 ++ x :: l2) = l1 ++ l2.
Proof. induction l1 as [|y l1 IH]; simpl; [done|]. by rewrite IH. Qed.

(** Alarms above an id, the measure of the removal loop. *)
Definition above (aid : Z) (l : list SaHpiAlarmT) : list SaHpiAlarmT :=
  List.filter (fun a => aid <? AlarmId a) l.

Lemma above_le aid aid' l : aid <= aid' -> (length (above aid' l) <= length (above aid l))%nat.
Proof.
  intros Hle. induction l as [|a l IH]; simpl; [lia|].
  destruct (aid' <? AlarmId a) eqn:E1, (aid <? AlarmId a) eqn:E2; simpl; zbool; lia.
Qed.

Lemma above_app aid l1 l2 : above aid (l1 ++ l2) = above aid l1 ++ above aid l2.
Proof. apply List.filter_app. Qed.

(** One round of the loop. *)
Lemma remove_step l aid c :
  Forall (fun a => AlarmId a <= SAHPI_LAST_ENTRY) l ->
  match get_alarm_node l (Some aid) c false true with
  | Some (i, a) =>
      exists l1 l2, l = l1 ++ a :: l2 /\ aid < AlarmId a /\ alarm_matches c false a = true /\
        Forall (fun x => (aid <? AlarmId x) && alarm_matches c false x = false) l1 /\
        delete i l = l1 ++ l2 /\
        forall b : bool,
          (length (above (AlarmId a) (if b then delete i l else l)) < length (above aid l))%nat
  | None => Forall (fun x => (aid <? AlarmId x) && alarm_matches c false x = false) l
  end.
Proof.
  intros Hl. rewrite next_node by done.
  pose proof (find_alarm_spec (fun a => (aid <? AlarmId a) && alarm_matches c false a) 0 l) as Hs.
  destruct (find_alarm _ 0 l) as [[i a]|]; [|done].
  destruct Hs as (l1 & l2 & -> & -> & Ha & Hl1). simpl. zbool.
  exists l1, l2. rewrite delete_split. do 4 (split; [done|]). split; [done|].
  intros b. pose proof (above_le aid (AlarmId a) l1 ltac:(lia)).
  pose proof (above_le aid (AlarmId a) l2 ltac:(lia)).
  destruct b; rewrite !above_app, !length_app; simpl;
    rewrite ?Z.ltb_irrefl, (proj2 (Z.ltb_lt aid (AlarmId a)) ltac:(lia)); simpl; lia.
Qed.

Lemma ids_le_delete (P : SaHpiAlarmT -> Prop) i l : Forall P l -> Forall P (delete i l).
Proof. intros H. revert i. induction H as [|x l Hx Hl IH]; intros [|i]; simpl; [constructor|constructor|done|by constructor]. Qed.

#[local] Arguments get_alarm_node : simpl never.

Lemma remove_alarms_loop_ends fuel c m multi aid l :
  Forall (fun a => AlarmId a <= SAHPI_LAST_ENTRY) l ->
  (length (above aid l) < fuel)%nat ->
  exists l', remove_alarms_loop fuel c m multi aid l = Some l'.
Proof.
  revert aid l. induction fuel as [|fuel IH]; intros aid l Hl Hf; simpl; [lia|].
  pose proof (remove_step l aid c Hl) as Hs.
  destruct (get_alarm_node l (Some aid) c false true) as [[i a]|]; [|by exists l].
  destruct Hs as (_ & _ & _ & _ & _ & _ & _ & Hlt). specialize (Hlt (mask_matches m a)).
  destruct multi; [|eexists; reflexivity]. apply IH; [|lia].
  destruct (mask_matches m a); [by apply ids_le_delete|done].
Qed.

Lemma remove_fuel_enough aid l : (length (above aid l) < remove_fuel l)%nat.
Proof. unfold remove_fuel, above. pose proof (List.filter_length_le (fun a => aid <? AlarmId a) l). lia. Qed.

(** The alarms kept by the removal of all the matching ones. *)
Definition kept (c : criteria) (m : option Z) (l : list SaHpiAlarmT) : list SaHpiAlarmT :=
  List.filter (fun a => negb (alarm_matches c false a && mask_matches m a)) l.

Definition kept_after (aid : Z) (c : criteria) (m : option Z) (l : list SaHpiAlarmT) :=
  List.filter (fun a => negb ((aid <? AlarmId a) && alarm_matches c false a && mask_matches m a)) l.

Lemma kept_after_all aid c m l :
  Forall (fun x => (aid <? AlarmId x) && alarm_matches c false x = false) l ->
  kept_after aid c m l = l.
Proof. induction 1 as [|x l Hx _ IH]; simpl; [done|]. rewrite Hx. simpl. by rewrite IH. Qed.

Lemma kept_after_ext aid aid' c m l :
  aid <= aid' -> Forall (fun x => aid' < AlarmId x) l -> kept_after aid c m l = kept_after aid' c m l.
Proof.
  intros Hle. unfold kept_after. induction 1 as [|x l Hx _ IH]; simpl; [done|]. rewrite IH.
  by rewrite !(proj2 (Z.ltb_lt _ _)) by lia.
Qed.

Lemma kept_after_below aid c m l :
  Forall (fun x => AlarmId x <= aid) l -> kept_after aid c m l = l.
Proof.
  intros H. apply kept_after_all. eapply Forall_impl; [exact H|]. intros x Hx. simpl in *.
  by rewrite (proj2 (Z.ltb_ge _ _) Hx).
Qed.

Lemma sorted_split (l1 l2 : list SaHpiAlarmT) a :
  StronglySorted Z.lt (AlarmId <$> l1 ++ a :: l2) ->
  Forall (fun x => AlarmId x < AlarmId a) l1 /\ Forall (fun x => AlarmId a < AlarmId x) l2 /\
  StronglySorted Z.lt (AlarmId <$> l1 ++ l2).
Proof.
  rewrite !fmap_app. simpl. induction l1 as [|x l1 IH]; simpl.
  - inversion_clear 1 as [|? ? Hs Ha]. rewrite Forall_fmap in Ha. done.
  - inversion_clear 1 as [|? ? Hs Ha]. destruct (IH Hs) as (H1 & H2 & H3).
    rewrite Forall_app, Forall_cons in Ha. destruct Ha as (Ha1 & Hx & Ha2).
    split; [by constructor|]. split; [done|]. constructor; [done|]. by apply Forall_app.
Qed.

Lemma remove_alarms_loop_multi fuel c m aid l l' :
  Forall (fun a => AlarmId a <= SAHPI_LAST_ENTRY) l -> StronglySorted Z.lt (AlarmId <$> l) ->
  remove_alarms_loop fuel c m true aid l = Some l' -> l' = kept_after aid c m l.
Proof.
  revert aid l. induction fuel as [|fuel IH]; intros aid l Hl Hs Hr; [done|]. simpl in Hr.
  pose proof (remove_step l aid c Hl) as Hst.
  destruct (get_alarm_node l (Some aid) c false true) as [[i a]|].
  2:{ injection Hr as <-. by rewrite kept_after_all. }
  destruct Hst as (l1 & l2 & -> & Ha & Hm & Hl1 & Hd & _). rewrite Hd in Hr.
  destruct (sorted_split _ _ _ Hs) as (H1 & H2 & H3).
  assert (Hle : Forall (fun x => AlarmId x <= AlarmId a) l1).
  { eapply Forall_impl; [exact H1|]. simpl. lia. }
  assert (Hkept : kept_after aid c m (l1 ++ a :: l2)
                  = l1 ++ (if mask_matches m a then [] else [a]) ++ kept_after (AlarmId a) c m l2).
  { unfold kept_after at 1. rewrite List.filter_app. fold (kept_after aid c m l1).
    rewrite kept_after_all by done. simpl. rewrite (proj2 (Z.ltb_lt _ _) Ha), Hm. simpl.
    fold (kept_after aid c m l2). rewrite (kept_after_ext aid (AlarmId a)) by (done || lia).
    by destruct (mask_matches m a). }
  rewrite Hkept.
  assert (Hl' : Forall (fun a => AlarmId a <= SAHPI_LAST_ENTRY) (l1 ++ l2)).
  { apply Forall_app in Hl as [Hla Hlb]. inversion Hlb; subst. by apply Forall_app. }
  destruct (mask_matches m a).
  - rewrite (IH _ _ Hl' H3 Hr). unfold kept_after.
    rewrite List.filter_app. fold (kept_after (AlarmId a) c m l1). by rewrite kept_after_below.
  - rewrite (IH _ _ Hl Hs Hr). unfold kept_after.
    rewrite List.filter_app. fold (kept_after (AlarmId a) c m l1). rewrite kept_after_below by done.
    simpl. by rewrite Z.ltb_irrefl.
Qed.

(** * The invariant *)

Definition is_user (a : SaHpiAlarmT) : bool := Type_ (AlarmCond a) =? SAHPI_STATUS_COND_TYPE_USER.

Definition within (limit : Z) (n : nat) : Prop := limit = 0 \/ Z.of_nat n <= limit.

(** The ids ascend, none is above the last id given out, and the table and the
    user alarms in it are within their limits. *)
Record dat_ok (g : global_params) (d : oh_domain) : Prop := {
  da_sorted : StronglySorted Z.lt (AlarmId <$> alarms d);
  da_ids : Forall (fun a => 1 <= AlarmId a <= dat_next_id (dat d)) (alarms d);
  da_next : 0 <= dat_next_id (dat d) <= SAHPI_LAST_ENTRY;
  da_domain : Forall (fun a => cond_DomainId (AlarmCond a) = domain_id d) (alarms d);
  da_size : within (size_limit g) (length (alarms d));
  da_user : within (user_limit g) (length (List.filter is_user (alarms d))) }.

(** What the table keeps across a restart. *)
Record file_ok (l : list SaHpiAlarmT) : Prop := {
  fo_sorted : StronglySorted Z.lt (AlarmId <$> l);
  fo_ids : Forall (fun a => 1 <= AlarmId a <= SAHPI_LAST_ENTRY) l }.

Definition dat_state_ok (g : global_params) (s : dat_state) : Prop :=
  dat_ok g (dom s) /\ match dat_file s with Some l => file_ok l | None => True end.

(** The table of a new domain. *)
Definition dat_empty (d : oh_domain) : Prop := alarms d = [] /\ dat_next_id (dat d) = 0.

(** The limits are 32-bit unsigned integers. *)
Definition limits_u32 (g : global_params) : Prop :=
  0 <= size_limit g < 2 ^ 32 /\ 0 <= user_limit g < 2 ^ 32.

(** The limits of [G] are at least those of [g]; 0 is no limit. *)
Definition at_least (L l : Z) : Prop := L = 0 \/ l <> 0 /\ l <= L.
Definition covers (G g : global_params) : Prop :=
  at_least (size_limit G) (size_limit g) /\ at_least (user_limit G) (user_limit g).
Lemma at_least_refl l : at_least l l.
Proof. unfold at_least. lia. Qed.
Lemma covers_refl g : covers g g.
Proof. split; apply at_least_refl. Qed.
#[export] Hint Resolve covers_refl : core.

(** Sub-lists: what remains of a table after removals. *)
Lemma sublist_Forall {A} (P : A -> Prop) (l k : list A) : l `sublist_of` k -> Forall P k -> Forall P l.
Proof. intros H. induction H; [done|inversion_clear 1; constructor; auto|inversion_clear 1; auto]. Qed.

Lemma sorted_sublist (l k : list Z) :
  l `sublist_of` k -> StronglySorted Z.lt k -> StronglySorted Z.lt l.
Proof.
  induction 1 as [|x l k Hsub IH|x l k Hsub IH]; intros Hs; [done| |].
  - inversion_clear Hs as [|? ? Hs' Hx]. constructor; [by apply IH|].
    by eapply sublist_Forall.
  - inversion_clear Hs. by apply IH.
Qed.

Lemma fmap_sublist {A B} (f : A -> B) l k : l `sublist_of` k -> f <$> l `sublist_of` f <$> k.
Proof. induction 1; simpl; by constructor. Qed.

Lemma filter_sublist {A} (P : A -> bool) l : List.filter P l `sublist_of` l.
Proof. induction l as [|x l IH]; simpl; [constructor|]. destruct (P x); by constructor. Qed.

Lemma sublist_bfilter {A} (P : A -> bool) l k :
  l `sublist_of` k -> List.filter P l `sublist_of` List.filter P k.
Proof.
  induction 1 as [|x l k Hsub IH|x l k Hsub IH]; simpl; [constructor| |].
  - destruct (P x); [by constructor|done].
  - destruct (P x); [by constructor|done].
Qed.

Lemma within_le limit n n' : (n' <= n)%nat -> within limit n -> within limit n'.
Proof. unfold within. lia. Qed.

(** The fields of a table after its list is replaced by a sub-list of it. *)
Lemma dat_ok_sublist g d d' :
  alarms d' `sublist_of` alarms d -> dat_next_id (dat d') = dat_next_id (dat d) ->
  domain_id d' = domain_id d -> dat_ok g d -> dat_ok g d'.
Proof.
  intros Hsub Hn Hid [H1 H2 H3 H4 H5 H6]. constructor; rewrite ?Hn, ?Hid; try done.
  - eapply sorted_sublist; [by apply fmap_sublist|done].
  - by eapply sublist_Forall.
  - by eapply sublist_Forall.
  - eapply within_le; [|exact H5]. by apply sublist_length.
  - eapply within_le; [|exact H6]. apply sublist_length. by apply sublist_bfilter.
Qed.

Lemma ids_u32 g d : dat_ok g d -> Forall (fun a => AlarmId a <= SAHPI_LAST_ENTRY) (alarms d).
Proof.
  intros Hd. eapply Forall_impl; [apply (da_ids _ _ Hd)|]. intros a Ha. simpl in Ha.
  pose proof (da_next _ _ Hd). lia.
Qed.

(** ** Removal *)

Lemma remove_alarm_fields g now d c m multi :
  alarms (remove_alarm g now d c m multi)
    = default (alarms d) (remove_alarms_loop (remove_fuel (alarms d)) c m multi SAHPI_FIRST_ENTRY
                            (alarms d)) /\
  dat_next_id (dat (remove_alarm g now d c m multi)) = dat_next_id (dat d) /\
  domain_id (remove_alarm g now d c m multi) = domain_id d /\
  rpt (remove_alarm g now d c m multi) = rpt d /\
  dat_update_count (dat (remove_alarm g now d c m multi)) = u32 (dat_update_count (dat d) + 1).
Proof.
  unfold remove_alarm. set (l := default _ _). clearbody l.
  destruct (get_num OPENHPI_DAT_SIZE_LIMIT g) as [limit|]; [|done].
  by destruct (negb (limit =? OH_MAX_DAT_SIZE_LIMIT) && _).
Qed.

Lemma remove_alarm_sublist_loop fuel c m multi aid l l' :
  Forall (fun a => AlarmId a <= SAHPI_LAST_ENTRY) l ->
  remove_alarms_loop fuel c m multi aid l = Some l' -> l' `sublist_of` l.
Proof.
  revert aid l. induction fuel as [|fuel IH]; intros aid l Hl Hr; [done|]. simpl in Hr.
  pose proof (remove_step l aid c Hl) as Hs.
  destruct (get_alarm_node l (Some aid) c false true) as [[i a]|]; [|by simplify_eq].
  assert (Hd : (if mask_matches m a then delete i l else l) `sublist_of` l).
  { destruct (mask_matches m a); [apply sublist_delete|done]. }
  destruct multi; [|by simplify_eq]. etrans; [|exact Hd].
  apply (IH _ _ ltac:(by eapply sublist_Forall) Hr).
Qed.

Lemma remove_alarm_sublist G g now d c m multi :
  dat_ok G d -> alarms (remove_alarm g now d c m multi) `sublist_of` alarms d.
Proof.
  intros Hd. destruct (remove_alarm_fields g now d c m multi) as [-> _].
  destruct (remove_alarms_loop _ _ _ _ _ _) as [l|] eqn:E; [|done]. simpl.
  eapply remove_alarm_sublist_loop; [|exact E]. by eapply ids_u32.
Qed.

Lemma remove_alarm_ok G g now d c m multi : dat_ok G d -> dat_ok G (remove_alarm g now d c m multi).
Proof.
  intros Hd. destruct (remove_alarm_fields g now d c m multi) as (_ & Hn & Hid & _).
  eapply dat_ok_sublist; [by eapply remove_alarm_sublist|done|done|done].
Qed.

Lemma kept_after_zero g d c m :
  dat_ok g d -> kept_after SAHPI_FIRST_ENTRY c m (alarms d) = kept c m (alarms d).
Proof.
  intros Hd. pose proof (da_ids _ _ Hd) as Hi. unfold kept_after, kept.
  induction Hi as [|a l Ha _ IH]; [done|]. cbn [List.filter]. rewrite IH.
  by rewrite (proj2 (Z.ltb_lt SAHPI_FIRST_ENTRY (AlarmId a))) by (consts; lia).
Qed.

Lemma remove_all_alarms G g now d c m :
  dat_ok G d -> alarms (remove_alarm g now d c m true) = kept c m (alarms d).
Proof.
  intros Hd. pose proof (ids_u32 _ _ Hd) as Hi.
  destruct (remove_alarm_fields g now d c m true) as [-> _].
  destruct (remove_alarms_loop_ends (remove_fuel (alarms d)) c m true SAHPI_FIRST_ENTRY (alarms d) Hi
              (remove_fuel_enough _ _)) as [l Hl].
  rewrite Hl. simpl. rewrite <- (kept_after_zero G d) by done.
  by eapply remove_alarms_loop_multi; [|apply (da_sorted _ _ Hd)|].
Qed.

Lemma remove_all_ok G g now s c m : dat_state_ok G s -> dat_state_ok G (remove_all g now s c m).
Proof. intros [Hd Hf]. split; [by apply remove_alarm_ok|done]. Qed.

(** [g] has a value for every parameter. *)
Lemma size_limit_some g : get_num OPENHPI_DAT_SIZE_LIMIT g = Some (size_limit g).
Proof. done. Qed.

Lemma remove_alarm_overflow g now d c m multi :
  overflow (dat (remove_alarm g now d c m multi))
  = (if negb (size_limit g =? OH_MAX_DAT_SIZE_LIMIT)
        && (Z.of_nat (length (alarms (remove_alarm g now d c m multi))) <? size_limit g)
     then SAHPI_FALSE else overflow (dat d)).
Proof.
  destruct (remove_alarm_fields g now d c m multi) as [-> _].
  unfold remove_alarm. set (l := default _ _). clearbody l. rewrite size_limit_some.
  change (alarms (update_dat now (set_alarms d l))) with l.
  by destruct (negb (size_limit g =? OH_MAX_DAT_SIZE_LIMIT) && _).
Qed.

Lemma find_first {A} (P : A -> bool) l1 l2 a l :
  l = l1 ++ a :: l2 -> Forall (fun x => P x = false) l1 -> P a = true -> List.find P l = Some a.
Proof.
  intros -> H1 Ha. induction H1 as [|x l1 Hx _ IH]; simpl; [by rewrite Ha|]. by rewrite Hx.
Qed.

(** ** Addition *)

Lemma count_fold (P : SaHpiAlarmT -> bool) l n :
  0 <= n -> n + Z.of_nat (length l) < 2 ^ 32 ->
  foldl (fun n a => if P a then u32 (n + 1) else n) n l = n + Z.of_nat (length (List.filter P l)).
Proof.
  revert n. induction l as [|a l IH]; intros n Hn Hl; simpl in *; [lia|].
  destruct (P a); simpl; rewrite IH; rewrite ?u32_id; lia.
Qed.

Lemma foldl_ext_fn {A B} (f h : B -> A -> B) b l : (forall b a, f b a = h b a) -> foldl f b l = foldl h b l.
Proof. intros H. revert b. induction l as [|a l IH]; intros b; simpl; [done|]. by rewrite H, IH. Qed.

Lemma count_user d :
  Z.of_nat (length (alarms d)) < 2 ^ 32 ->
  count_alarms d (Some SAHPI_STATUS_COND_TYPE_USER) SAHPI_ALL_SEVERITIES
  = Z.of_nat (length (List.filter is_user (alarms d))).
Proof.
  intros Hl. etrans; [|apply (count_fold is_user (alarms d) 0); lia]. apply foldl_ext_fn.
  intros b a. unfold is_user. by rewrite andb_true_r.
Qed.

(** Distinct ids of 32 bits: there are less than [2^32] alarms. *)
Lemma sorted_length (l : list Z) lo hi :
  StronglySorted Z.lt l -> Forall (fun i => lo <= i <= hi) l -> lo <= hi + 1 ->
  Z.of_nat (length l) <= hi - lo + 1.
Proof.
  intros Hs. revert lo. induction Hs as [|x l Hs IH Hx]; intros lo Hb Hlo; simpl; [lia|].
  inversion_clear Hb as [|? ? Hxb Hb'].
  assert (Z.of_nat (length l) <= hi - (x + 1) + 1); [|lia].
  apply IH; [|lia]. apply Forall_forall. intros y Hy.
  rewrite Forall_forall in Hx, Hb'. specialize (Hx y Hy). specialize (Hb' y Hy). simpl in *. lia.
Qed.

Lemma alarms_u32 g d : dat_ok g d -> Z.of_nat (length (alarms d)) < 2 ^ 32.
Proof.
  intros Hd. pose proof (sorted_length (AlarmId <$> alarms d) 1 (dat_next_id (dat d)) (da_sorted _ _ Hd)) as H.
  rewrite length_fmap, Forall_fmap in H. pose proof (da_next _ _ Hd).
  specialize (H (da_ids _ _ Hd) ltac:(lia)). consts. lia.
Qed.

(** Whether the table refuses a new alarm. *)
Definition refused (g : global_params) (d : oh_domain) (alarm : option SaHpiAlarmT) : bool :=
  at_limit (size_limit g) (Z.of_nat (length (alarms d))) OH_MAX_DAT_SIZE_LIMIT
  || user_limit_reached g d alarm.

(** The alarm that is added. *)
Definition stored_alarm (now : Z) (d : oh_domain) (alarm : option SaHpiAlarmT) (fromfile : bool)
    : SaHpiAlarmT :=
  let a := default zero_alarm alarm in
  let a := if fromfile then a
           else a <| AlarmId := u32 (dat_next_id (dat d) + 1) |> <| alarm_Timestamp := now |>
                  <| Acknowledged := SAHPI_FALSE |> in
  a <| AlarmCond ::= fun c => c <| cond_DomainId := domain_id d |> |>.

Lemma add_alarm_fields g now fo fw s alarm ff :
  let '(r, _, s') := add_alarm g now fo fw s alarm ff in
  let d := dom s in let d' := dom s' in
  domain_id d' = domain_id d /\ rpt d' = rpt d /\
  if refused g d alarm
  then r = None /\ alarms d' = alarms d /\ dat_next_id (dat d') = dat_next_id (dat d) /\
       dat_update_count (dat d') = dat_update_count (dat d) /\ dat_file s' = dat_file s /\
       (at_limit (size_limit g) (Z.of_nat (length (alarms d))) OH_MAX_DAT_SIZE_LIMIT = true ->
          overflow (dat d') = SAHPI_TRUE)
  else
    let a := stored_alarm now d alarm ff in
    r = Some a /\ alarms d' = alarms d ++ [a] /\
    dat_next_id (dat d')
      = (if ff then Z.max (dat_next_id (dat d)) (AlarmId a) else u32 (dat_next_id (dat d) + 1)) /\
    dat_update_count (dat d')
      = (if ff then dat_update_count (dat d) else u32 (dat_update_count (dat d) + 1)) /\
    dat_file s' = (if negb ff && truthy (default 0 (get_num OPENHPI_DAT_SAVE g)) && fo
                   then Some (fst (write_records fw 0 (alarms d'))) else dat_file s).
Proof.
  unfold add_alarm, refused. destruct (at_limit _ _ _) eqn:El; [done|]. simpl.
  destruct (user_limit_reached g (dom s) alarm) eqn:Eu; [done|].
  destruct ff.
  - destruct (dat_next_id (dat (dom s)) <? AlarmId (default zero_alarm alarm)) eqn:E; zbool;
      (do 4 (split; [done|]); split; [|done]);
      unfold stored_alarm, set_field; simpl; lia.
  - unfold save_dat. simpl. destruct (truthy _); [|done].
    unfold oh_alarms_to_file, set_field. simpl. destruct fo; [|done]. simpl.
    by destruct (write_records fw 0 _) as [w ok].
Qed.

Lemma refused_room G g d alarm :
  covers G g -> dat_ok G d -> refused g d alarm = false ->
  within (size_limit G) (S (length (alarms d))) /\
  (is_user (default zero_alarm alarm) = true ->
     within (user_limit G) (S (length (List.filter is_user (alarms d))))).
Proof.
  intros [Hcs Hcu] Hd Hr. unfold refused in Hr. apply orb_false_iff in Hr as [Hs Hu]. split.
  - unfold at_limit in Hs. unfold within, at_least in *. consts. apply andb_false_iff in Hs as [Hs|Hs]; zbool; lia.
  - destruct alarm as [a|]; [|done]. intros Ha. unfold is_user in Ha. change (default zero_alarm (Some a)) with a in Ha.
    unfold user_limit_reached in Hu.
    apply Z.eqb_eq in Ha. rewrite Ha, Z.eqb_refl, count_user in Hu by by eapply alarms_u32. cbn [andb] in Hu.
    unfold at_limit in Hu. unfold within, at_least in *. consts. apply andb_false_iff in Hu as [Hu|Hu]; zbool; lia.
Qed.

Lemma sorted_snoc (l : list Z) x :
  StronglySorted Z.lt l -> Forall (fun y => y < x) l -> StronglySorted Z.lt (l ++ [x]).
Proof.
  induction 1 as [|y l Hs IH Hy]; intros Hx; simpl; [by repeat constructor|].
  inversion_clear Hx. constructor; [by apply IH|]. apply Forall_app. split; [done|by apply Forall_singleton].
Qed.

(** The table with one more alarm, whose id is above the others. *)
Lemma dat_ok_snoc g d d' a :
  dat_ok g d -> alarms d' = alarms d ++ [a] -> domain_id d' = domain_id d ->
  cond_DomainId (AlarmCond a) = domain_id d ->
  Forall (fun b => AlarmId b < AlarmId a) (alarms d) ->
  1 <= AlarmId a <= dat_next_id (dat d') -> dat_next_id (dat d) <= dat_next_id (dat d') ->
  dat_next_id (dat d') <= SAHPI_LAST_ENTRY ->
  within (size_limit g) (S (length (alarms d))) ->
  (is_user a = true -> within (user_limit g) (S (length (List.filter is_user (alarms d))))) ->
  dat_ok g d'.
Proof.
  intros [H1 H2 H3 H4 H5 H6] Ha Hid Hdom Hlt Hr Hn Hl Hs Hu. constructor; rewrite ?Ha, ?Hid.
  - rewrite fmap_app. apply sorted_snoc; [done|]. by rewrite Forall_fmap.
  - apply Forall_app. split; [|by apply Forall_singleton].
    eapply Forall_impl; [exact H2|]. simpl. lia.
  - lia.
  - apply Forall_app. split; [done|by apply Forall_singleton].
  - rewrite length_app, Nat.add_comm. done.
  - rewrite List.filter_app, length_app. simpl. destruct (is_user a); simpl; [|by rewrite Nat.add_0_r].
    rewrite Nat.add_comm. by apply Hu.
Qed.

Lemma stored_user now d alarm ff : is_user (stored_alarm now d alarm ff) = is_user (default zero_alarm alarm).
Proof. by destruct ff. Qed.

Lemma dat_file_ok g d l : dat_ok g d -> l `prefix_of` alarms d -> file_ok l.
Proof.
  intros Hd [k Hk]. assert (Hsub : l `sublist_of` alarms d).
  { rewrite Hk. by apply sublist_inserts_r. }
  constructor.
  - eapply sorted_sublist; [by apply fmap_sublist|apply (da_sorted _ _ Hd)].
  - eapply sublist_Forall; [exact Hsub|]. eapply Forall_impl; [apply (da_ids _ _ Hd)|].
    intros a Ha. simpl in Ha. pose proof (da_next _ _ Hd). lia.
Qed.

Lemma add_new_under G g now fo fw s alarm :
  covers G g -> dat_state_ok G s -> dat_next_id (dat (dom s)) < SAHPI_LAST_ENTRY ->
  dat_state_ok G (snd (add_alarm g now fo fw s alarm false)).
Proof.
  intros Hg [Hd Hf] Hn. pose proof (add_alarm_fields g now fo fw s alarm false) as Ha.
  destruct (add_alarm g now fo fw s alarm false) as [[r ref] s'] eqn:E. simpl.
  destruct Ha as (Hid & _ & Ha). destruct (refused g (dom s) alarm) eqn:Er.
  - destruct Ha as (_ & Hl & Hnx & _ & Hfile & _). split; [|by rewrite Hfile].
    eapply dat_ok_sublist; [by rewrite Hl|done|done|done].
  - destruct Ha as (_ & Hl & Hnx & _ & Hfile). pose proof (da_next _ _ Hd) as Hnext.
    rewrite u32_id in Hnx by (consts; lia).
    destruct (refused_room _ _ _ _ Hg Hd Er) as [Hs Hu].
    assert (Hok : dat_ok G (dom s')).
    { eapply dat_ok_snoc; [exact Hd|exact Hl|done|done| | |lia|lia|done|by rewrite stored_user];
        unfold stored_alarm, set_field; simpl; rewrite u32_id by (consts; lia).
      - eapply Forall_impl; [apply (da_ids _ _ Hd)|]. simpl. lia.
      - lia. }
    split; [done|]. rewrite Hfile. destruct (_ && fo); [|done].
    eapply dat_file_ok; [exact Hok|].
    destruct (write_records_prefix fw (alarms (dom s')) 0) as (rest & Hrest & _). by exists rest.
Qed.

Lemma add_new_ok g now fo fw s alarm :
  limits_u32 g -> dat_state_ok g s -> dat_next_id (dat (dom s)) < SAHPI_LAST_ENTRY ->
  dat_state_ok g (snd (add_alarm g now fo fw s alarm false)).
Proof. intros _. by apply add_new_under. Qed.

(** ** Reading the save file *)

Definition at_domain (id : Z) (a : SaHpiAlarmT) : SaHpiAlarmT :=
  a <| AlarmCond ::= fun c => c <| cond_DomainId := id |> |>.

Lemma at_domain_id id l :
  Forall (fun a => cond_DomainId (AlarmCond a) = id) l -> at_domain id <$> l = l.
Proof.
  induction 1 as [|a l Ha _ IH]; [done|]. rewrite fmap_cons, IH. f_equal.
  destruct a as [? ? ? ? c]. destruct c. simpl in Ha. by subst.
Qed.

Lemma add_from_file_ok G g now fo fw s a r ref s' :
  covers G g -> dat_ok G (dom s) -> dat_next_id (dat (dom s)) < AlarmId a <= SAHPI_LAST_ENTRY ->
  refused g (dom s) (Some a) = false -> add_alarm g now fo fw s (Some a) true = (r, ref, s') ->
  dat_ok G (dom s') /\ alarms (dom s') = alarms (dom s) ++ [at_domain (domain_id (dom s)) a] /\
  dat_next_id (dat (dom s')) = AlarmId a /\ r = Some (at_domain (domain_id (dom s)) a).
Proof.
  intros Hg Hd Hid Hr He. pose proof (add_alarm_fields g now fo fw s (Some a) true) as Ha.
  rewrite He in Ha. cbv zeta in Ha. rewrite Hr in Ha. destruct Ha as (Hdid & _ & -> & Hl & Hn & _ & _).
  change (stored_alarm now (dom s) (Some a) true) with (at_domain (domain_id (dom s)) a) in *.
  change (AlarmId (at_domain (domain_id (dom s)) a)) with (AlarmId a) in Hn.
  destruct (refused_room _ _ _ _ Hg Hd Hr) as [Hs Hu]. pose proof (da_next _ _ Hd).
  split; [|split; [done|split; [lia|done]]].
  eapply dat_ok_snoc; [exact Hd|exact Hl|done|done| | |lia|lia|done|exact Hu].
  - eapply Forall_impl; [apply (da_ids _ _ Hd)|]. intros b Hb.
    change (AlarmId (at_domain (domain_id (dom s)) a)) with (AlarmId a). simpl in Hb. lia.
  - change (AlarmId (at_domain (domain_id (dom s)) a)) with (AlarmId a). lia.
Qed.

Lemma read_alarms_spec G g now fo fw l s err s' :
  covers G g -> dat_ok G (dom s) -> file_ok l ->
  Forall (fun a => dat_next_id (dat (dom s)) < AlarmId a) l ->
  read_alarms g now fo fw s l = (err, s') ->
  dat_ok G (dom s') /\ dat_file s' = dat_file s /\ domain_id (dom s') = domain_id (dom s) /\
  exists k rest, l = k ++ rest /\
    alarms (dom s') = alarms (dom s) ++ (at_domain (domain_id (dom s)) <$> k) /\
    dat_next_id (dat (dom s')) = default (dat_next_id (dat (dom s))) (AlarmId <$> last k) /\
    match rest with
    | [] => err = SA_OK
    | a :: _ => err = SA_ERR_HPI_ERROR /\ refused g (dom s') (Some a) = true
    end.
Proof.
  intros Hg. revert s. induction l as [|a l IH]; intros s Hd Hf Hlt Hr; simpl in Hr.
  { simplify_eq. do 3 (split; [done|]). exists [], []. split; [done|]. simpl. by rewrite app_nil_r. }
  destruct Hf as [Hsort Hids]. inversion_clear Hsort as [|? ? Hsort' Ha].
  inversion_clear Hids as [|? ? Hid Hids']. inversion_clear Hlt as [|? ? Hn _].
  pose proof (add_alarm_fields g now fo fw s (Some a) true) as Hadd.
  destruct (add_alarm g now fo fw s (Some a) true) as [[r ref] s1] eqn:E. cbv zeta in Hadd.
  destruct (refused g (dom s) (Some a)) eqn:Er.
  - destruct Hadd as (Hdid & _ & -> & Hl & Hnx & _ & Hfile & _). simplify_eq/=.
    assert (Hok : dat_ok G (dom s')) by (apply (dat_ok_sublist G (dom s)); [by rewrite Hl|done|done|done]).
    do 3 (split; [done|]). exists [], (a :: l). simpl. rewrite app_nil_r. do 3 (split; [done|]).
    split; [done|]. unfold refused, user_limit_reached, count_alarms in *. by rewrite Hl.
  - destruct (add_from_file_ok G g now fo fw s a r ref s1 Hg Hd ltac:(lia) Er E) as (Hd1 & Hl1 & Hn1 & ->).
    destruct Hadd as (Hdid & _ & _ & _ & _ & _ & Hfile). simpl in Hfile.
    destruct (IH s1 Hd1) as (Hok & Hfile' & Hdid' & k & rest & -> & Hal & Hnx & Hrest).
    + by constructor.
    + rewrite Hn1. by rewrite Forall_fmap in Ha.
    + exact Hr.
    + split; [done|]. split; [congruence|]. split; [congruence|].
      exists (a :: k), rest. split; [done|]. rewrite Hal, Hl1, Hdid. simpl. rewrite <- app_assoc.
      split; [done|]. split; [|done]. rewrite Hnx, Hn1, last_cons. by destruct (last k).
Qed.

(** A table that was within its limits is read back whole. *)
Lemma read_alarms_fits g now fo fw l s err s' :
  limits_u32 g -> dat_ok g (dom s) -> dat_empty (dom s) -> file_ok l ->
  within (size_limit g) (length l) -> within (user_limit g) (length (List.filter is_user l)) ->
  read_alarms g now fo fw s l = (err, s') ->
  err = SA_OK /\ alarms (dom s') = at_domain (domain_id (dom s)) <$> l /\
  dat_next_id (dat (dom s')) = default 0 (AlarmId <$> last l).
Proof.
  intros Hg Hd [He Hz] Hf Hs Hu Hr.
  destruct (read_alarms_spec g g now fo fw l s err s' (covers_refl g) Hd Hf) as (Hok & _ & _ & k & rest & -> & Hal & Hn & Hrest).
  { eapply Forall_impl; [apply (fo_ids _ Hf)|]. rewrite Hz. simpl. lia. }
  { exact Hr. }
  rewrite He, Hz in *. simpl in Hal. destruct rest as [|a rest]; [by rewrite app_nil_r|].
  exfalso. destruct Hrest as [_ Href]. unfold refused in Href. apply orb_true_iff in Href as [Href|Href].
  - unfold at_limit in Href. rewrite Hal, length_fmap in Href. zbool. unfold within in Hs.
    rewrite length_app in Hs. simpl in Hs. consts. lia.
  - unfold user_limit_reached, at_limit in Href. apply andb_true_iff in Href as [Ha Href].
    apply Z.eqb_eq in Ha. rewrite Ha, count_user in Href by by eapply alarms_u32. zbool.
    rewrite List.filter_app, length_app in Hu. simpl in Hu. unfold is_user at 2 in Hu.
    rewrite Ha, Z.eqb_refl in Hu. simpl in Hu.
    assert (Hlen : length (List.filter is_user (alarms (dom s'))) = length (List.filter is_user k)).
    { rewrite Hal. clear. induction k as [|x k IH]; [done|]. rewrite fmap_cons. cbn [List.filter].
      change (is_user (at_domain (domain_id (dom s)) x)) with (is_user x).
      destruct (is_user x); simpl; by rewrite IH. }
    rewrite Hlen in *. unfold within in Hu. consts. lia.
Qed.

(** ** Detection: what an event means for the table *)

Definition is_type (t : Z) (a : SaHpiAlarmT) : bool := Type_ (AlarmCond a) =? t.
Definition of_resource (rid : Z) (a : SaHpiAlarmT) : bool := cond_ResourceId (AlarmCond a) =? rid.
Definition of_sensor (rid num : Z) (a : SaHpiAlarmT) : bool :=
  is_type SAHPI_STATUS_COND_TYPE_SENSOR a && of_resource rid a && (cond_SensorNum (AlarmCond a) =? num).

(** The states of an alarm are not all among the current states of its sensor. *)
Definition not_current (current : Z) (a : SaHpiAlarmT) : bool :=
  negb (Z.land (cond_EventState (AlarmCond a)) current =? cond_EventState (AlarmCond a)).

(** The condition of the alarm is over, by the event. *)
Definition cleared (e : oh_event) (a : SaHpiAlarmT) : bool :=
  let ev := EventUtils.event e in
  let severe := event_Severity ev <=? SAHPI_MINOR in
  match EventDataUnion ev with
  | ResourceEvent t =>
      let res := resource e in
      is_type SAHPI_STATUS_COND_TYPE_RESOURCE a &&
      (if ResourceId res =? 0 then of_resource (Source ev) a && negb (t =? SAHPI_RESE_RESOURCE_FAILURE)
       else of_resource (ResourceId res) a
            && negb (truthy (ResourceFailed res) && (ResourceSeverity res <=? SAHPI_MINOR)))
  | SensorEvent se =>
      of_sensor (Source ev) (se_SensorNum se) a
      && (negb (Z.land (se_OptionalDataPresent se) SAHPI_SOD_CURRENT_STATE =? 0)
          && not_current (se_CurrentState se) a
          || negb (truthy (se_Assertion se)) && (cond_EventState (AlarmCond a) =? se_EventState se))
  | SensorEnableChangeEvent se =>
      of_sensor (Source ev) (sec_SensorNum se) a
      && negb (truthy (sec_SensorEnable se) && truthy (sec_SensorEventEnable se))
  | HotSwapEvent h =>
      let rid := if ResourceId (resource e) =? 0 then Source ev else ResourceId (resource e) in
      (HotSwapState h =? SAHPI_HS_STATE_NOT_PRESENT) && negb (rid =? 0) && of_resource rid a
      && (is_type SAHPI_STATUS_COND_TYPE_RESOURCE a || is_type SAHPI_STATUS_COND_TYPE_OEM a
          || is_type SAHPI_STATUS_COND_TYPE_SENSOR a)
  | OemEvent mid _ =>
      is_type SAHPI_STATUS_COND_TYPE_OEM a && of_resource (Source ev) a
      && (cond_Mid (AlarmCond a) =? mid) && negb severe
  | _ => false
  end.

(** The severity and the condition that hold, by the event. *)
Definition raised `{EntityPathLookup} (e : oh_event) : option SaHpiAlarmT :=
  let ev := EventUtils.event e in
  let alarm sev type rid num state mid data :=
    {| AlarmId := 0; alarm_Timestamp := 0; alarm_Severity := sev; Acknowledged := SAHPI_FALSE;
       AlarmCond := {| Type_ := type; cond_Entity := entity_of rid; cond_DomainId := 0;
                       cond_ResourceId := rid; cond_SensorNum := num; cond_EventState := state;
                       cond_Name := cond_Name zero_condition; cond_Mid := mid; cond_Data := data |} |} in
  let severe := event_Severity ev <=? SAHPI_MINOR in
  match EventDataUnion ev with
  | ResourceEvent t =>
      let res := resource e in
      if ResourceId res =? 0 then
        if (t =? SAHPI_RESE_RESOURCE_FAILURE) && severe
        then Some (alarm (event_Severity ev) SAHPI_STATUS_COND_TYPE_RESOURCE (Source ev) 0 0 0 zero_textbuffer)
        else None
      else if truthy (ResourceFailed res) && (ResourceSeverity res <=? SAHPI_MINOR)
      then Some (alarm (ResourceSeverity res) SAHPI_STATUS_COND_TYPE_RESOURCE (ResourceId res) 0 0
                   (ManufacturerId (ResourceInfo res)) (ResourceTag res))
      else None
  | SensorEvent se =>
      if truthy (se_Assertion se) && severe
      then Some (alarm (event_Severity ev) SAHPI_STATUS_COND_TYPE_SENSOR (Source ev) (se_SensorNum se)
                   (se_EventState se) 0 zero_textbuffer)
      else None
  | OemEvent mid data =>
      if severe
      then Some (alarm (event_Severity ev) SAHPI_STATUS_COND_TYPE_OEM (Source ev) 0 0 mid data)
      else None
  | _ => None
  end.

(** What is left of the table, with the new alarm if there is one and room. *)
Definition detected `{EntityPathLookup} (g : global_params) (now : Z) (s : dat_state) (e : oh_event)
    : list SaHpiAlarmT :=
  let l := List.filter (fun a => negb (cleared e a)) (alarms (dom s)) in
  match raised e with
  | Some a =>
      if at_limit (size_limit g) (Z.of_nat (length l)) OH_MAX_DAT_SIZE_LIMIT then l
      else l ++ [a <| AlarmId := dat_next_id (dat (dom s)) + 1 |> <| alarm_Timestamp := now |>
                   <| AlarmCond ::= fun c => c <| cond_DomainId := domain_id (dom s) |> |>]
  | None => l
  end.

(** The complement of 16-bit states and the subset test. *)
Lemma deasserted_bits current state :
  0 <= state < 2 ^ 16 ->
  truthy (Z.land (u16 (Z.lnot current)) state) = negb (Z.land state current =? state).
Proof.
  intros Hs. unfold truthy. f_equal. apply Bool.eq_iff_eq_true. rewrite !Z.eqb_eq.
  assert (Hbit : forall i, 0 <= i -> Z.testbit (Z.land (u16 (Z.lnot current)) state) i
                                     = Z.testbit state i && negb (Z.testbit current i)).
  { intros i Hi. rewrite Z.land_spec. unfold u16. destruct (Z.lt_ge_cases i 16) as [Hlt|Hge].
    - rewrite Z.mod_pow2_bits_low, Z.lnot_spec by lia. apply andb_comm.
    - replace (Z.testbit state i) with false; [by rewrite andb_false_r|].
      symmetry. destruct (decide (state = 0)) as [->|Hne]; [apply Z.testbit_0_l|].
      apply Z.bits_above_log2; [lia|]. apply Z.log2_lt_pow2; [lia|].
      pose proof (Z.pow_le_mono_r 2 16 i). lia. }
  split; intros H; apply Z.bits_inj'; intros i Hi.
  - specialize (Hbit i Hi). rewrite H, Z.testbit_0_l in Hbit. rewrite Z.land_spec.
    by destruct (Z.testbit state i), (Z.testbit current i).
  - rewrite Hbit, Z.testbit_0_l by done.
    assert (Hb := f_equal (fun z => Z.testbit z i) H). simpl in Hb. rewrite Z.land_spec in Hb.
    by destruct (Z.testbit state i), (Z.testbit current i).
Qed.

Definition states_u16 (l : list SaHpiAlarmT) : Prop :=
  Forall (fun a => 0 <= cond_EventState (AlarmCond a) < 2 ^ 16) l.

Lemma filter_ext_Forall {A} (P Q : A -> bool) l :
  Forall (fun x => P x = Q x) l -> List.filter P l = List.filter Q l.
Proof. induction 1 as [|x l Hx _ IH]; simpl; [done|]. by rewrite Hx, IH. Qed.

Lemma filter_filter {A} (P Q : A -> bool) l :
  List.filter P (List.filter Q l) = List.filter (fun x => Q x && P x) l.
Proof. induction l as [|x l IH]; simpl; [done|]. destruct (Q x); simpl; [|done]. by destruct (P x); rewrite IH. Qed.

Lemma filter_id {A} (P : A -> bool) l : (forall x, P x = true) -> List.filter P l = l.
Proof. intros H. induction l as [|x l IH]; simpl; [done|]. by rewrite H, IH. Qed.

(** An event of an unknown type has none of the types of the interface. *)
Definition event_tagged (ev : SaHpiEventT) : Prop :=
  match EventDataUnion ev with UnknownEvent t _ => ~ (0 <= t <= 11) | _ => True end.

Section Detection.
Context `{EntityPathLookup}.
Context (g : global_params) (now : Z) (fo : bool) (fw : nat -> bool).

Lemma remove_kept d c m (P : SaHpiAlarmT -> bool) :
dat_ok g d -> Forall (fun a => alarm_matches c false a && mask_matches m a = P a) (alarms d) ->
alarms (remove_alarm g now d c m true) = List.filter (fun a => negb (P a)) (alarms d).
Proof.
intros Hd HP. rewrite (remove_all_alarms g) by done. apply filter_ext_Forall.
eapply Forall_impl; [exact HP|]. intros a Ha. simpl in Ha. by rewrite Ha.
Qed.

(** The alarm stored for a new alarm of the daemon. *)
Definition stamped (s : dat_state) (a : SaHpiAlarmT) : SaHpiAlarmT :=
a <| AlarmId := dat_next_id (dat (dom s)) + 1 |> <| alarm_Timestamp := now |>
  <| Acknowledged := SAHPI_FALSE |>
  <| AlarmCond ::= fun c => c <| cond_DomainId := domain_id (dom s) |> |>.

Lemma add_new_alarms s a :
is_user a = false -> 0 <= dat_next_id (dat (dom s)) < SAHPI_LAST_ENTRY ->
alarms (dom (add_new g now fo fw s a))
= if at_limit (size_limit g) (Z.of_nat (length (alarms (dom s)))) OH_MAX_DAT_SIZE_LIMIT
  then alarms (dom s) else alarms (dom s) ++ [stamped s a].
Proof.
intros Hu Hn. pose proof (add_alarm_fields g now fo fw s (Some a) false) as Ha. unfold add_new.
destruct (add_alarm g now fo fw s (Some a) false) as [[r ref] s'].
destruct Ha as (_ & _ & Ha). cbv zeta in Ha. simpl.
unfold refused, user_limit_reached in Ha. fold (is_user a) in Ha. rewrite Hu in Ha.
simpl in Ha. rewrite orb_false_r in Ha.
destruct (at_limit _ _ _); [by destruct Ha as (_ & -> & _)|].
destruct Ha as (_ & -> & _). f_equal. unfold stored_alarm, stamped. simpl.
by rewrite u32_id by (consts; lia).
Qed.

Lemma remove_all_frame s c m :
dat_next_id (dat (dom (remove_all g now s c m))) = dat_next_id (dat (dom s)) /\
domain_id (dom (remove_all g now s c m)) = domain_id (dom s).
Proof. by destruct (remove_alarm_fields g now (dom s) c m true) as (_ & ? & ? & _). Qed.

(** The criteria of the detections as predicates. *)
Lemma matches_resource t rid a :
alarm_matches (on_resource t rid) false a && mask_matches None a = is_type t a && of_resource rid a.
Proof. unfold alarm_matches. simpl. by rewrite !andb_true_r. Qed.

Lemma matches_oem rid mid a :
alarm_matches (on_oem rid mid) false a && mask_matches None a
= is_type SAHPI_STATUS_COND_TYPE_OEM a && of_resource rid a && (cond_Mid (AlarmCond a) =? mid).
Proof. unfold alarm_matches. simpl. by rewrite !andb_true_r. Qed.

Lemma matches_sensor rid num a m :
alarm_matches (on_sensor rid num None) false a && mask_matches m a
= of_sensor rid num a && mask_matches m a.
Proof. unfold alarm_matches. simpl. by rewrite !andb_true_r. Qed.

Lemma matches_sensor_state rid num st a :
alarm_matches (on_sensor rid num (Some st)) false a && mask_matches None a
= of_sensor rid num a && (cond_EventState (AlarmCond a) =? st).
Proof. unfold alarm_matches. simpl. by rewrite !andb_true_r. Qed.

#[local] Arguments remove_all : simpl never.
#[local] Arguments add_new : simpl never.
#[local] Arguments oh_remove_resource_alarms : simpl never.

Lemma detect_resource s e t :
dat_ok g (dom s) -> dat_next_id (dat (dom s)) < SAHPI_LAST_ENTRY ->
EventDataUnion (EventUtils.event e) = ResourceEvent t ->
alarms (dom (detect_event_alarm g now fo fw s e)) = detected g now s e.
Proof.
intros Hd Hn E. pose proof (da_next _ _ Hd) as H0.
unfold detect_event_alarm, detected, raised, EventType. rewrite E. simpl.
assert (Hk : forall P, (forall a, cleared e a = false) -> P = List.filter (fun a => negb (cleared e a)) P).
{ intros P Hf. symmetry. apply filter_id. intros x. by rewrite Hf. }
destruct (ResourceId (resource e) =? 0) eqn:Er; simpl.
- unfold oh_detect_resource_event_alarm. rewrite E.
  destruct (t =? SAHPI_RESE_RESOURCE_FAILURE) eqn:Et; simpl.
  + rewrite <- Hk by (intros a; unfold cleared; rewrite E, Er, Et; by rewrite !andb_false_r).
    destruct (event_Severity _ <=? SAHPI_MINOR); [|done]. rewrite add_new_alarms by (done || lia).
    by destruct (at_limit _ _ _).
  + rewrite (remove_kept (dom s) _ _ (cleared e)); [done|done|].
    apply Forall_forall. intros a _. rewrite matches_resource. unfold cleared.
    rewrite E, Er, Et. by rewrite andb_true_r.
- unfold oh_detect_resource_alarm. rewrite (Z.leb_antisym SAHPI_MINOR (ResourceSeverity (resource e))).
  destruct (truthy (ResourceFailed (resource e))) eqn:Ef, (SAHPI_MINOR <? ResourceSeverity (resource e)) eqn:Es;
    simpl.
  2:{ rewrite <- Hk by (intros a; unfold cleared; rewrite E, Er, Ef, Z.leb_antisym, Es; by rewrite !andb_false_r).
      rewrite add_new_alarms by (done || lia). by destruct (at_limit _ _ _). }
  all: rewrite (remove_kept (dom s) _ _ (cleared e)); [done|done|];
    apply Forall_forall; intros a _; rewrite matches_resource; unfold cleared;
    rewrite E, Er, Ef, ?Z.leb_antisym, ?Es; by rewrite andb_true_r.
Qed.

Lemma detect_oem s e mid data :
dat_ok g (dom s) -> dat_next_id (dat (dom s)) < SAHPI_LAST_ENTRY ->
EventDataUnion (EventUtils.event e) = OemEvent mid data ->
alarms (dom (detect_event_alarm g now fo fw s e)) = detected g now s e.
Proof.
intros Hd Hn E. pose proof (da_next _ _ Hd) as H0.
unfold detect_event_alarm, detected, raised, oh_detect_hpi_alarm, EventType. rewrite E. simpl.
unfold oh_detect_oem_event_alarm. rewrite E.
rewrite Z.leb_antisym. destruct (SAHPI_MINOR <? event_Severity (EventUtils.event e)) eqn:Es; simpl.
- rewrite (remove_kept (dom s) _ _ (cleared e)); [done|done|].
  apply Forall_forall. intros a _. rewrite matches_oem. unfold cleared. rewrite E, Z.leb_antisym, Es.
  by rewrite andb_true_r.
- rewrite filter_id; [|intros a; unfold cleared; rewrite E, Z.leb_antisym, Es; simpl; by rewrite andb_false_r].
  rewrite add_new_alarms by (done || lia). by destruct (at_limit _ _ _).
Qed.

Lemma dom_remove_all s c m : dom (remove_all g now s c m) = remove_alarm g now (dom s) c m true.
Proof. done. Qed.

Lemma kept_ext (P Q : SaHpiAlarmT -> bool) l :
Forall (fun a => P a = Q a) l ->
List.filter (fun a => negb (P a)) l = List.filter (fun a => negb (Q a)) l.
Proof. intros HP. apply filter_ext_Forall. eapply Forall_impl; [exact HP|]. simpl. congruence. Qed.

(** The first half of the handling of a sensor event. *)
Definition clear_deasserted (s : dat_state) (src : Z) (se : SaHpiSensorEventT) : dat_state :=
if negb (Z.land (se_OptionalDataPresent se) SAHPI_SOD_CURRENT_STATE =? 0)
then remove_all g now s (on_sensor src (se_SensorNum se) None) (Some (u16 (Z.lnot (se_CurrentState se))))
else s.

Definition past_state (src : Z) (se : SaHpiSensorEventT) (a : SaHpiAlarmT) : bool :=
of_sensor src (se_SensorNum se) a
&& (negb (Z.land (se_OptionalDataPresent se) SAHPI_SOD_CURRENT_STATE =? 0)
    && not_current (se_CurrentState se) a).

Lemma clear_deasserted_spec s src se :
dat_ok g (dom s) -> states_u16 (alarms (dom s)) ->
let s' := clear_deasserted s src se in
dat_ok g (dom s') /\ dat_next_id (dat (dom s')) = dat_next_id (dat (dom s)) /\
domain_id (dom s') = domain_id (dom s) /\
alarms (dom s') = List.filter (fun a => negb (past_state src se a)) (alarms (dom s)).
Proof.
intros Hd Hst. unfold clear_deasserted, past_state.
destruct (negb (Z.land _ SAHPI_SOD_CURRENT_STATE =? 0)).
- destruct (remove_all_frame s (on_sensor src (se_SensorNum se) None)
              (Some (u16 (Z.lnot (se_CurrentState se))))) as [Hn Hid].
  split; [by apply remove_alarm_ok|]. split; [done|]. split; [done|].
  rewrite dom_remove_all. apply remove_kept; [done|].
  eapply Forall_impl; [exact Hst|]. intros a Ha. rewrite matches_sensor. simpl.
  unfold not_current. by rewrite deasserted_bits.
- do 3 (split; [done|]). symmetry. apply filter_id. intros a. by rewrite andb_false_r.
Qed.

Lemma detect_sensor s e se :
dat_ok g (dom s) -> dat_next_id (dat (dom s)) < SAHPI_LAST_ENTRY -> states_u16 (alarms (dom s)) ->
EventDataUnion (EventUtils.event e) = SensorEvent se ->
alarms (dom (detect_event_alarm g now fo fw s e)) = detected g now s e.
Proof.
intros Hd Hn Hst E. pose proof (da_next _ _ Hd) as H0.
unfold detect_event_alarm, detected, raised, oh_detect_hpi_alarm, EventType. rewrite E. simpl.
unfold oh_detect_sensor_event_alarm. rewrite E.
set (src := Source (EventUtils.event e)). fold (clear_deasserted s src se).
destruct (clear_deasserted_spec s src se Hd Hst) as (Hd1 & Hn1 & Hid1 & Hl1).
set (s1 := clear_deasserted s src se) in *.
destruct (truthy (se_Assertion se)) eqn:Ea; simpl.
- assert (Hc : List.filter (fun a => negb (cleared e a)) (alarms (dom s)) = alarms (dom s1)).
  { rewrite Hl1. apply kept_ext, Forall_forall. intros a _. unfold cleared, past_state.
    rewrite E, Ea. simpl. by rewrite orb_false_r. }
  rewrite Hc. rewrite andb_true_r. destruct (event_Severity _ <=? SAHPI_MINOR); [|done].
  rewrite add_new_alarms by (done || lia). unfold stamped. rewrite Hn1, Hid1.
  by destruct (at_limit _ _ _).
- erewrite remove_kept; [|done|].
  2:{ apply Forall_forall. intros a _. by rewrite matches_sensor_state. }
  rewrite Hl1, filter_filter. apply filter_ext_Forall, Forall_forall. intros a _.
  unfold cleared, past_state. rewrite E, Ea. fold src. rewrite <- negb_orb. f_equal. simpl.
  by rewrite andb_orb_distrib_r.
Qed.

Lemma detect_sensor_enable s e se :
dat_ok g (dom s) -> EventDataUnion (EventUtils.event e) = SensorEnableChangeEvent se ->
alarms (dom (detect_event_alarm g now fo fw s e)) = detected g now s e.
Proof.
intros Hd E.
unfold detect_event_alarm, detected, raised, oh_detect_hpi_alarm, EventType. rewrite E. simpl.
unfold oh_detect_sensor_enable_change_alarm. rewrite E, <- negb_andb.
destruct (negb (truthy _ && truthy _)) eqn:Ee.
- rewrite dom_remove_all. apply remove_kept; [done|]. apply Forall_forall. intros a _.
  rewrite matches_sensor. unfold cleared. by rewrite E, Ee.
- symmetry. apply filter_id. intros a. unfold cleared. by rewrite E, Ee, andb_false_r.
Qed.

Lemma detect_hotswap s e h :
dat_ok g (dom s) -> EventDataUnion (EventUtils.event e) = HotSwapEvent h ->
alarms (dom (detect_event_alarm g now fo fw s e)) = detected g now s e.
Proof.
intros Hd E. unfold detect_event_alarm, detected, raised, EventType. rewrite E. simpl.
set (rid := if ResourceId (resource e) =? 0 then _ else _).
assert (Hcl : forall a, cleared e a = (HotSwapState h =? SAHPI_HS_STATE_NOT_PRESENT) && negb (rid =? 0)
   && of_resource rid a && (is_type SAHPI_STATUS_COND_TYPE_RESOURCE a
      || is_type SAHPI_STATUS_COND_TYPE_OEM a || is_type SAHPI_STATUS_COND_TYPE_SENSOR a)).
{ intros a. unfold cleared. by rewrite E. }
clearbody rid. rewrite (filter_ext_Forall _ _ _ (proj2 (Forall_forall _ _) (fun a _ => f_equal negb (Hcl a)))).
destruct (HotSwapState h =? SAHPI_HS_STATE_NOT_PRESENT) eqn:Eh; [|symmetry; by apply filter_id].
unfold oh_remove_resource_alarms. destruct (rid =? 0) eqn:Er; [symmetry; by apply filter_id|].
rewrite !dom_remove_all.
erewrite !remove_kept; try by repeat apply remove_alarm_ok.
2-4: apply Forall_forall; intros a _; by rewrite matches_resource.
rewrite !filter_filter. apply filter_ext_Forall, Forall_forall. intros a _. simpl.
destruct (is_type SAHPI_STATUS_COND_TYPE_RESOURCE a), (is_type SAHPI_STATUS_COND_TYPE_OEM a),
  (is_type SAHPI_STATUS_COND_TYPE_SENSOR a), (of_resource rid a); reflexivity.
Qed.

Lemma detect_event_detected s e :
dat_ok g (dom s) -> dat_next_id (dat (dom s)) < SAHPI_LAST_ENTRY -> states_u16 (alarms (dom s)) ->
event_tagged (EventUtils.event e) ->
alarms (dom (detect_event_alarm g now fo fw s e)) = detected g now s e.
Proof.
intros Hd Hn Hst Ht. unfold event_tagged in Ht.
destruct (EventDataUnion (EventUtils.event e)) eqn:E;
  eauto using detect_resource, detect_oem, detect_sensor, detect_sensor_enable, detect_hotswap.
all: unfold detect_event_alarm, detected, raised, oh_detect_hpi_alarm, SaHpi.EventType; rewrite E;
  rewrite filter_id by (intros a; unfold cleared; by rewrite E); try done.
repeat case_if; zbool; consts; try done; lia.
Qed.
End Detection.

Lemma detect_under `{EntityPathLookup} G g now fo fw s e :
  covers G g -> dat_state_ok G s -> dat_next_id (dat (dom s)) < SAHPI_LAST_ENTRY ->
  dat_state_ok G (detect_event_alarm g now fo fw s e).
Proof.
  intros Hg Hs Hn.
  unfold detect_event_alarm, oh_detect_hpi_alarm, oh_detect_resource_alarm, oh_detect_resource_event_alarm,
    oh_detect_oem_event_alarm, oh_detect_sensor_event_alarm, oh_detect_sensor_enable_change_alarm,
    oh_remove_resource_alarms, add_new.
  repeat match goal with
  | |- context [match ?x with _ => _ end] =>
      lazymatch x with
      | context [match _ with _ => _ end] => fail
      | _ => destruct x
      end
  end; repeat first [assumption | apply remove_all_ok | apply add_new_under];
  rewrite (proj1 (remove_all_frame g now s _ _)); done.
Qed.
Lemma detect_ok `{EntityPathLookup} g now fo fw s e :
  limits_u32 g -> dat_state_ok g s -> dat_next_id (dat (dom s)) < SAHPI_LAST_ENTRY ->
  dat_state_ok g (detect_event_alarm g now fo fw s e).
Proof. intros _. by apply detect_under. Qed.

(** The detection changes nothing of the domain but its alarm table. *)
Definition keeps_rest (d d' : oh_domain) : Prop := d' = d <| dat := dat d' |>.

Lemma keeps_rest_refl d : keeps_rest d d.
Proof. by destruct d. Qed.

Lemma keeps_rest_trans d d1 d2 : keeps_rest d d1 -> keeps_rest d1 d2 -> keeps_rest d d2.
Proof. unfold keeps_rest. intros H1 H2. rewrite H2, H1. done. Qed.

Lemma keeps_rest_remove g now s c m d :
  keeps_rest d (dom s) -> keeps_rest d (dom (remove_all g now s c m)).
Proof.
  intros H. eapply keeps_rest_trans; [exact H|]. change (dom (remove_all g now s c m)) with (remove_alarm g now (dom s) c m true).
  unfold remove_alarm, keeps_rest. set (l := default _ _). clearbody l.
  destruct (get_num OPENHPI_DAT_SIZE_LIMIT g); [|done]. by destruct (negb _ && _).
Qed.

Lemma keeps_rest_add g now fo fw s a d :
  keeps_rest d (dom s) -> keeps_rest d (dom (snd (add_alarm g now fo fw s a false))).
Proof.
  intros H. eapply keeps_rest_trans; [exact H|]. unfold add_alarm, keeps_rest.
  destruct (at_limit _ _ _); [done|]. destruct (user_limit_reached _ _ _); [apply keeps_rest_refl|].
  unfold save_dat. by destruct (truthy _).
Qed.

Lemma detect_keeps_rest `{EntityPathLookup} g now fo fw s e :
  keeps_rest (dom s) (dom (detect_event_alarm g now fo fw s e)).
Proof.
  unfold detect_event_alarm, oh_detect_hpi_alarm, oh_detect_resource_alarm, oh_detect_resource_event_alarm,
    oh_detect_oem_event_alarm, oh_detect_sensor_event_alarm, oh_detect_sensor_enable_change_alarm,
    oh_remove_resource_alarms, add_new.
  repeat match goal with
  | |- context [match ?x with _ => _ end] =>
      lazymatch x with
      | context [match _ with _ => _ end] => fail
      | _ => destruct x
      end
  end; repeat first [apply keeps_rest_remove | apply keeps_rest_add | apply keeps_rest_refl].
Qed.

(** A table in use, with the parameters that are in force.  [dr_params] is a change
    of the parameters at run time, [G] has the largest limits that are ever set;
    [dr_restart] is a new domain with the same id loading what the old one saved;
    [dr_other] is a change of the other parts of the domain. *)
Inductive dat_reach `{EntityPathLookup} (G : global_params) : global_params -> dat_state -> Prop :=
  | dr_new g d : covers G g -> dat_empty d -> dat_reach G g {| dom := d; dat_file := None |}
  | dr_params g g' s : dat_reach G g s -> covers G g' -> dat_reach G g' s
  | dr_add g now fo fw s alarm : dat_reach G g s -> dat_next_id (dat (dom s)) < SAHPI_LAST_ENTRY ->
      dat_reach G g (snd (add_alarm g now fo fw s alarm false))
  | dr_remove g now s c m multi : dat_reach G g s ->
      dat_reach G g (s <| dom := remove_alarm g now (dom s) c m multi |>)
  | dr_detect g now fo fw s e : dat_reach G g s -> dat_next_id (dat (dom s)) < SAHPI_LAST_ENTRY ->
      dat_reach G g (detect_event_alarm g now fo fw s e)
  | dr_close g now s d : dat_reach G g s -> snd (oh_close_alarmtable g now (Some (dom s))) = Some d ->
      dat_reach G g (s <| dom := d |>)
  | dr_restart g now fo fw s d filename err s' : dat_reach G g s -> dat_empty d ->
      oh_alarms_from_file g now fo fw (Some {| dom := d; dat_file := dat_file s |}) (Some filename)
        = (err, Some s') ->
      dat_reach G g s'
  | dr_other g s d : dat_reach G g s -> dat d = dat (dom s) -> domain_id d = domain_id (dom s) ->
      dat_reach G g (s <| dom := d |>).

Lemma dat_reach_covers `{EntityPathLookup} G g s : dat_reach G g s -> covers G g.
Proof. by induction 1. Qed.

Lemma dat_empty_ok g d : limits_u32 g -> dat_empty d -> dat_ok g d.
Proof.
  intros [Hs Hu] [Ha Hn]. constructor; rewrite ?Ha, ?Hn; simpl;
    [constructor|constructor|consts; lia|constructor|right; lia|right; lia].
Qed.

Lemma kept_any l : kept any None l = [].
Proof. unfold kept. induction l as [|a l IH]; simpl; [done|]. exact IH. Qed.

Lemma close_empties G g now d d' :
  dat_ok G d -> oh_close_alarmtable g now (Some d) = (SA_OK, Some d') ->
  dat_empty d' /\ domain_id d' = domain_id d.
Proof.
  intros Hd Hc. unfold oh_close_alarmtable, oh_remove_alarm in Hc. injection Hc as <-.
  destruct (remove_alarm_fields g now d any None true) as (_ & _ & Hid & _).
  split; [|exact Hid]. split; [|done].
  transitivity (alarms (remove_alarm g now d any None true)); [done|].
  rewrite (remove_all_alarms G) by done. apply kept_any.
Qed.

Lemma restart_ok G g now fo fw (f : option (list SaHpiAlarmT)) d filename err s' :
  limits_u32 G -> covers G g -> match f with Some l => file_ok l | None => True end -> dat_empty d ->
  oh_alarms_from_file g now fo fw (Some {| dom := d; dat_file := f |}) (Some filename) = (err, Some s') ->
  dat_state_ok G s'.
Proof.
  intros HG Hg Hf Hd He. unfold oh_alarms_from_file in He. simpl in He.
  pose proof (dat_empty_ok G d HG Hd) as Hok. destruct f as [l|]; [|by simplify_eq].
  destruct (read_alarms g now fo fw _ l) as [err' s1] eqn:E. simplify_eq.
  destruct (read_alarms_spec G g now fo fw l _ err s' Hg (Hok : dat_ok G (dom {| dom := d; dat_file := Some l |})) Hf)
    as (Hd' & Hfile & _); [|exact E|by split; [|rewrite Hfile]].
  eapply Forall_impl; [apply (fo_ids _ Hf)|]. destruct Hd as [_ Hz]. simpl. rewrite Hz. lia.
Qed.

(** * Properties *)

(** C39: the alarm table's invariant.  In every state that additions, removals,
    event detections, table closings, restarts and changes of the parameters can
    reach, the alarm ids ascend strictly between 1 and the last id given out, every
    alarm carries the id of its domain, and so the save file has ascending ids too;
    and the table respects the size and user limits - those configured, or the
    largest ones if they were changed at run time, as lowering a limit removes no
    alarm. *)
Theorem alarm_table_reach_ok `{EntityPathLookup} (G g : global_params) (s : dat_state) :
  limits_u32 G -> dat_reach G g s -> dat_state_ok G s.
Proof.
  intros Hg. induction 1 as [g d Hc Hd|g g' s _ IH Hc|g now fo fw s alarm Hs IH Hn|g now s c m multi _ IH
    |g now fo fw s e Hs IH Hn|g now s d _ IH Hc|g now fo fw s d fn err s' Hs IH Hd Hl|g s d _ IH Hdat Hid].
  - split; [by apply dat_empty_ok|done].
  - done.
  - apply add_new_under; [by eapply dat_reach_covers|done..].
  - destruct IH. split; [by apply remove_alarm_ok|done].
  - apply detect_under; [by eapply dat_reach_covers|done..].
  - destruct IH as [Hd Hf]. split; [|done]. apply dat_empty_ok; [done|].
    eapply (close_empties G); [exact Hd|]. simpl in Hc. injection Hc as <-. reflexivity.
  - destruct IH as [_ Hf]. eapply restart_ok; [done|by eapply dat_reach_covers|done..].
  - destruct IH as [[? ? ? ? ? ?] Hf]. split; [|done].
    constructor; unfold alarms in *; simpl; rewrite ?Hdat, ?Hid; done.
Qed.

(** An example domain and its alarms. *)
#[local] Instance example_paths : EntityPathLookup := fun _ ep => (SA_OK, ep).
Definition example_dat_params : global_params :=
  example_params <| dat_size_limit := 2 |> <| dat_save := SAHPI_TRUE |>.
Definition example_domain : oh_domain :=
  {| domain_id := 7; tag := zero_textbuffer; domain_ai_timeout := 0; capabilities := 0; guid := [];
     rpt := zero_rpt; dat := zero_dat; drt := zero_drt; del := oh_el_create 0; refcount := 0 |}.
Definition example_dat : dat_state := {| dom := example_domain; dat_file := None |}.
Definition example_sensor_event (assertion : Z) : oh_event :=
  zero_oh_event <| EventUtils.event :=
    {| Source := 5; event_Timestamp := 0; event_Severity := SAHPI_MAJOR;
       EventDataUnion := SensorEvent {| se_SensorNum := 3; se_SensorType := 1; se_EventCategory := 1;
         se_Assertion := assertion; se_EventState := 2; se_OptionalDataPresent := 0;
         se_TriggerReading := []; se_TriggerThreshold := []; se_PreviousState := 0;
         se_CurrentState := 0; se_Oem := 0; se_SensorSpecific := 0 |} |} |>.
Definition example_dat1 : dat_state :=
  detect_event_alarm example_dat_params 10 true (fun _ => true) example_dat (example_sensor_event 1).

(** The size limit is lowered from 2 to 1 after the first alarm. *)
Lemma alarm_table_reach_ok_witness :
  length (alarms (dom example_dat1)) = 1%nat /\ dat_state_ok example_dat_params example_dat1.
Proof.
  split; [by vm_compute|].
  apply (alarm_table_reach_ok example_dat_params (example_dat_params <| dat_size_limit := 1 |>));
    [vm_compute; intuition discriminate|].
  apply (dr_params _ example_dat_params); [|vm_compute; intuition discriminate].
  apply dr_detect; [by apply dr_new|by vm_compute].
Defined.

(** Events and alarms.  [oh_detect_event_alarm] takes out of the table
    exactly the alarms whose condition the event ends - a deasserted or no
    longer current sensor state, a disabled sensor, a resource that is restored,
    not severe any more or extracted, an OEM condition no longer severe - and
    then adds an alarm, with a new id, if the event is severe and asserts a
    condition and the table has room; the other alarms stay as they are. *)
Theorem oh_detect_event_alarm_correct `{EntityPathLookup} (g : global_params) (now : Z)
    (fopen_ok : bool) (fwrite_ok : nat -> bool) (s : dat_state) (e : oh_event) :
  dat_ok g (dom s) -> dat_next_id (dat (dom s)) < SAHPI_LAST_ENTRY ->
  states_u16 (alarms (dom s)) -> event_tagged (EventUtils.event e) ->
  exists s', oh_detect_event_alarm g now fopen_ok fwrite_ok (Some s) (Some e) = (SA_OK, Some s') /\
    alarms (dom s') = detected g now s e /\
    (forall a, a ∈ alarms (dom s) -> (a ∈ alarms (dom s') <-> cleared e a = false)).
Proof.
  intros Hd Hn Hst Ht. eexists. split; [reflexivity|]. rewrite detect_event_detected by done.
  split; [done|]. intros a Ha.
  assert (Hk : a ∈ List.filter (fun a => negb (cleared e a)) (alarms (dom s)) <-> cleared e a = false).
  { rewrite list_elem_of_In, filter_In, <- list_elem_of_In, negb_true_iff. tauto. }
  unfold detected. destruct (raised e) as [r|]; [|done]. destruct (at_limit _ _ _); [done|].
  rewrite elem_of_app, list_elem_of_singleton, Hk. split; [|by left]. intros [?| ->]; [done|].
  exfalso. pose proof (proj1 (Forall_forall _ _) (da_ids _ _ Hd) _ Ha) as Hi. simpl in Hi. lia.
Qed.

Lemma oh_detect_event_alarm_correct_witness :
  exists s', oh_detect_event_alarm example_dat_params 11 true (fun _ => true) (Some example_dat1)
      (Some (example_sensor_event 0)) = (SA_OK, Some s') /\
    alarms (dom s') = detected example_dat_params 11 example_dat1 (example_sensor_event 0) /\
    (forall a, a ∈ alarms (dom example_dat1) ->
       (a ∈ alarms (dom s') <-> cleared (example_sensor_event 0) a = false)).
Proof.
  apply oh_detect_event_alarm_correct; [|by vm_compute|by vm_compute; repeat constructor|done].
  constructor; vm_compute; repeat constructor; try discriminate; by right.
Defined.

(** Adding an alarm.  A table at its size limit refuses and flags the
    overflow, and a user alarm is refused at the user limit; neither changes the
    alarms.  Otherwise the alarm is stored last, unacknowledged, with the domain's
    id, the current time and an id above every id in the table, the caller's
    alarm gets that id, and when saving is on and the file can be written, the
    file holds exactly the new table. *)
Theorem oh_add_alarm_correct (g : global_params) (now : Z) (fopen_ok : bool)
    (s : dat_state) (alarm : SaHpiAlarmT) :
  dat_ok g (dom s) -> dat_next_id (dat (dom s)) < SAHPI_LAST_ENTRY ->
  let full := at_limit (size_limit g) (Z.of_nat (length (alarms (dom s)))) OH_MAX_DAT_SIZE_LIMIT in
  let user_full := is_user alarm &&
    at_limit (user_limit g) (Z.of_nat (length (List.filter is_user (alarms (dom s))))) OH_MAX_DAT_USER_LIMIT in
  let '(r, ref, s') := add_alarm g now fopen_ok (fun _ => true) s (Some alarm) false in
  if full || user_full
  then r = None /\ alarms (dom s') = alarms (dom s) /\ dat_file s' = dat_file s /\
       (full = true -> overflow (dat (dom s')) = SAHPI_TRUE)
  else exists a, r = Some a /\ alarms (dom s') = alarms (dom s) ++ [a] /\
       AlarmId a = dat_next_id (dat (dom s)) + 1 /\
       Forall (fun b => AlarmId b < AlarmId a) (alarms (dom s)) /\
       AlarmCond a = ((AlarmCond alarm) <| cond_DomainId := domain_id (dom s) |>) /\
       alarm_Severity a = alarm_Severity alarm /\
       alarm_Timestamp a = now /\ Acknowledged a = SAHPI_FALSE /\
       (get_num OPENHPI_DAT_SAVE g = Some SAHPI_TRUE -> fopen_ok = true ->
          dat_file s' = Some (alarms (dom s'))).
Proof.
  intros Hd Hn full user_full.
  assert (Hr : refused g (dom s) (Some alarm) = full || user_full).
  { unfold refused, user_limit_reached, full, user_full, is_user at 1.
    destruct (Type_ (AlarmCond alarm) =? SAHPI_STATUS_COND_TYPE_USER) eqn:Eu; [|done].
    apply Z.eqb_eq in Eu. rewrite Eu, count_user by by eapply alarms_u32. done. }
  pose proof (add_alarm_fields g now fopen_ok (fun _ => true) s (Some alarm) false) as Ha.
  destruct (add_alarm g now fopen_ok (fun _ => true) s (Some alarm) false) as [[r ref] s'].
  cbv zeta in Ha. rewrite Hr in Ha. destruct Ha as (_ & _ & Ha). destruct (full || user_full).
  - destruct Ha as (-> & -> & _ & _ & -> & Ho). done.
  - destruct Ha as (-> & Hl & _ & _ & Hf). exists (stored_alarm now (dom s) (Some alarm) false).
    pose proof (da_next _ _ Hd) as H0.
    assert (Hid : AlarmId (stored_alarm now (dom s) (Some alarm) false) = dat_next_id (dat (dom s)) + 1).
    { unfold stored_alarm, set_field. simpl. apply u32_id. consts. lia. }
    rewrite Hid. do 3 (split; [done|]). split; [|do 4 (split; [done|])].
    + eapply Forall_impl; [apply (da_ids _ _ Hd)|]. simpl. lia.
    + intros Hsv Hfo. rewrite Hf, Hsv, Hfo. simpl. by rewrite write_records_ok.
Qed.

Lemma oh_add_alarm_correct_witness :
  exists a, add_alarm example_dat_params 12 true (fun _ => true) example_dat1 (Some zero_alarm) false
    = (Some a, Some (zero_alarm <| AlarmId := 2 |> <| alarm_Timestamp := 12 |>),
       snd (add_alarm example_dat_params 12 true (fun _ => true) example_dat1 (Some zero_alarm) false)) /\
    AlarmId a = 2.
Proof.
  assert (Hok : dat_ok example_dat_params (dom example_dat1)).
  { constructor; vm_compute; repeat constructor; try discriminate; by right. }
  pose proof (oh_add_alarm_correct example_dat_params 12 true example_dat1 zero_alarm Hok ltac:(by vm_compute)) as H.
  vm_compute in H. destruct H as (a & Ha & _ & Hid & _). exists a. split; [|done].
  injection Ha as <-. by vm_compute.
Defined.

(** Removing alarms.  The search loop always ends.  With [multi] exactly the
    alarms that meet the criteria and the deassert mask are removed; without it,
    only the first alarm that meets the criteria is looked at, and removed if it
    meets the mask.  The update count goes up even when nothing is removed, and
    the overflow flag is reset exactly when a size limit is set and there is
    room. *)
Theorem oh_remove_alarm_correct (g : global_params) (now : Z) (d : oh_domain) (c : criteria)
    (deassert_mask : option Z) (multi : bool) :
  dat_ok g d ->
  (exists l, remove_alarms_loop (remove_fuel (alarms d)) c deassert_mask multi SAHPI_FIRST_ENTRY
               (alarms d) = Some l) /\
  exists d', oh_remove_alarm g now (Some d) c deassert_mask multi = (SA_OK, Some d') /\
    (if multi
     then alarms d' = List.filter (fun a => negb (alarm_matches c false a && mask_matches deassert_mask a))
                        (alarms d)
     else match List.find (alarm_matches c false) (alarms d) with
          | None => alarms d' = alarms d
          | Some a => exists l1 l2, alarms d = l1 ++ a :: l2 /\
              alarms d' = (if mask_matches deassert_mask a then l1 ++ l2 else alarms d)
          end) /\
    dat_update_count (dat d') = u32 (dat_update_count (dat d) + 1) /\
    overflow (dat d') = (if negb (size_limit g =? OH_MAX_DAT_SIZE_LIMIT)
                            && (Z.of_nat (length (alarms d')) <? size_limit g)
                         then SAHPI_FALSE else overflow (dat d)).
Proof.
  intros Hd. pose proof (ids_u32 _ _ Hd) as Hi. split.
  { apply remove_alarms_loop_ends; [done|apply remove_fuel_enough]. }
  exists (remove_alarm g now d c deassert_mask multi). split; [done|].
  destruct (remove_alarm_fields g now d c deassert_mask multi) as (Hal & _ & _ & _ & Hc).
  split; [|split; [done|apply remove_alarm_overflow]].
  destruct multi; [by rewrite (remove_all_alarms g)|]. rewrite Hal.
  unfold remove_fuel. cbn [remove_alarms_loop].
  pose proof (remove_step (alarms d) SAHPI_FIRST_ENTRY c Hi) as Hs.
  assert (Hpos : Forall (fun x => (SAHPI_FIRST_ENTRY <? AlarmId x) = true) (alarms d)).
  { eapply Forall_impl; [apply (da_ids _ _ Hd)|]. intros x Hx. apply Z.ltb_lt. simpl in Hx. consts. lia. }
  destruct (get_alarm_node _ _ _ _ _) as [[i a]|].
  - destruct Hs as (l1 & l2 & Hl & _ & Hm & Hl1 & Hdel & _).
    rewrite Hl in Hpos. apply Forall_app in Hpos as [Hp1 _].
    rewrite (find_first _ l1 l2 a); [|exact Hl| |exact Hm].
    + exists l1, l2. split; [done|]. destruct (mask_matches deassert_mask a); [done|done].
    + apply Forall_forall. intros x Hx. rewrite Forall_forall in Hl1, Hp1.
      specialize (Hl1 x Hx). specialize (Hp1 x Hx). simpl in *. by rewrite Hp1 in Hl1.
  - destruct (List.find _ _) as [a|] eqn:Ef; [|done]. apply find_some in Ef as [Hin Hm].
    rewrite <- list_elem_of_In in Hin. rewrite Forall_forall in Hs, Hpos.
    specialize (Hs a Hin). specialize (Hpos a Hin). simpl in *. by rewrite Hpos, Hm in Hs.
Qed.

Lemma oh_remove_alarm_correct_witness :
  exists d', oh_remove_alarm example_dat_params 13 (Some (dom example_dat1)) (on_sensor 5 3 None) None true
    = (SA_OK, Some d') /\ alarms d' = [].
Proof.
  assert (Hok : dat_ok example_dat_params (dom example_dat1)).
  { constructor; vm_compute; repeat constructor; try discriminate; by right. }
  destruct (oh_remove_alarm_correct example_dat_params 13 (dom example_dat1) (on_sensor 5 3 None) None true Hok)
    as (_ & d' & Hd & Hl & _).
  exists d'. split; [done|]. rewrite Hl. by vm_compute.
Defined.

(** The table survives a restart.  When saving is on and its file can be
    written, a new domain with the same id that loads the file gets the alarms
    that the table had after the last addition - ids, times and acknowledgements
    included - and new ids continue after the last of them. *)
Theorem alarms_file_roundtrip (g : global_params) (now now' : Z) (fo : bool) (fw : nat -> bool)
    (s : dat_state) (alarm : SaHpiAlarmT) (new : oh_domain) (filename : string) :
  limits_u32 g -> dat_state_ok g s -> dat_next_id (dat (dom s)) < SAHPI_LAST_ENTRY ->
  get_num OPENHPI_DAT_SAVE g = Some SAHPI_TRUE -> refused g (dom s) (Some alarm) = false ->
  dat_empty new -> domain_id new = domain_id (dom s) ->
  let s' := snd (add_alarm g now true (fun _ => true) s (Some alarm) false) in
  exists s'', oh_alarms_from_file g now' fo fw (Some {| dom := new; dat_file := dat_file s' |}) (Some filename)
      = (SA_OK, Some s'') /\
    alarms (dom s'') = alarms (dom s') /\
    dat_next_id (dat (dom s'')) = dat_next_id (dat (dom s')).
Proof.
  intros Hg Hs Hn Hsave Hr Hnew Hid s'. pose proof (da_next _ _ (proj1 Hs)) as H0.
  destruct (add_new_ok g now true (fun _ => true) s (Some alarm) Hg Hs Hn) as [Hd' _]. fold s' in Hd'.
  pose proof (add_alarm_fields g now true (fun _ => true) s (Some alarm) false) as Ha. unfold s' in *. clear s'.
  destruct (add_alarm g now true (fun _ => true) s (Some alarm) false) as [[r ref] s']. cbn [snd] in *.
  cbv zeta in Ha. rewrite Hr in Ha. destruct Ha as (Hdid & _ & _ & Hl & Hnx & _ & Hf).
  rewrite Hsave in Hf. simpl in Hf. rewrite write_records_ok in Hf by done. simpl in Hf.
  rewrite Hf. unfold oh_alarms_from_file. simpl.
  destruct (read_alarms g now' fo fw _ _) as [err s''] eqn:E. exists s''.
  destruct (read_alarms_fits g now' fo fw (alarms (dom s'))
    {| dom := new; dat_file := Some (alarms (dom s')) |} err s'' Hg) as (-> & Hal & Hnext); [..|exact E|].
  - simpl. by apply dat_empty_ok.
  - done.
  - eapply dat_file_ok; [exact Hd'|done].
  - apply (da_size _ _ Hd').
  - apply (da_user _ _ Hd').
  - split; [done|]. simpl in Hal. rewrite Hal, Hid, <- Hdid. split.
    + by eapply at_domain_id, da_domain.
    + rewrite Hnext, Hl, last_snoc, Hnx. unfold stored_alarm, set_field. simpl. done.
Qed.

Lemma alarms_file_roundtrip_witness :
  exists s'', oh_alarms_from_file example_dat_params 20 true (fun _ => true)
      (Some {| dom := example_domain;
               dat_file := dat_file (snd (add_alarm example_dat_params 12 true (fun _ => true) example_dat1
                                            (Some zero_alarm) false)) |}) (Some "dat.7"%string)
      = (SA_OK, Some s'') /\ length (alarms (dom s'')) = 2%nat.
Proof.
  destruct (alarms_file_roundtrip example_dat_params 12 20 true (fun _ => true) example_dat1 zero_alarm
              example_domain "dat.7") as (s'' & H1 & H2 & _);
    [vm_compute; intuition discriminate| |by vm_compute|by vm_compute|by vm_compute|done|done|].
  - split; [|by vm_compute; repeat constructor].
    constructor; vm_compute; repeat constructor; try discriminate; by right.
  - exists s''. split; [exact H1|]. rewrite H2. by vm_compute.
Defined.

(** Removals are not saved.  The file is written by additions only, so the
    alarms that a removal takes out of the table are still in the file and come
    back with the next restart: loading the file after a removal gives the
    alarms from before it. *)
Theorem alarm_removal_not_saved (g : global_params) (now now' : Z) (fo : bool) (fw : nat -> bool)
    (s : dat_state) (c : criteria) (m : option Z) (new : oh_domain) (filename : string) :
  limits_u32 g -> dat_ok g (dom s) -> dat_file s = Some (alarms (dom s)) ->
  dat_empty new -> domain_id new = domain_id (dom s) ->
  exists s'', oh_alarms_from_file g now' fo fw
      (Some ((remove_all g now s c m) <| dom := new |>)) (Some filename) = (SA_OK, Some s'') /\
    alarms (dom s'') = alarms (dom s) /\
    forall a, a ∈ alarms (dom s) -> alarm_matches c false a && mask_matches m a = true ->
      (a ∉ alarms (dom (remove_all g now s c m))) /\ a ∈ alarms (dom s'').
Proof.
  intros Hg Hd Hf Hnew Hid. unfold oh_alarms_from_file. simpl. rewrite Hf.
  destruct (read_alarms g now' fo fw _ _) as [err s''] eqn:E. exists s''.
  destruct (read_alarms_fits g now' fo fw (alarms (dom s))
    ((remove_all g now s c m) <| dom := new |>) err s'' Hg) as (-> & Hal & _); [..|exact E|].
  - simpl. by apply dat_empty_ok.
  - done.
  - eapply dat_file_ok; [exact Hd|done].
  - apply (da_size _ _ Hd).
  - apply (da_user _ _ Hd).
  - split; [done|]. simpl in Hal. rewrite Hid in Hal. rewrite (at_domain_id _ _ (da_domain _ _ Hd)) in Hal.
    split; [done|]. intros a Ha Hm. rewrite Hal. split; [|done].
    rewrite ?dom_remove_all, (remove_all_alarms g) by done. unfold kept.
    rewrite list_elem_of_In, filter_In, Hm. by intros [_ ?].
Qed.

Lemma alarm_removal_not_saved_witness :
  exists s'', oh_alarms_from_file example_dat_params 20 true (fun _ => true)
      (Some ((remove_all example_dat_params 13 example_dat1 any None) <| dom := example_domain |>))
      (Some "dat.7"%string) = (SA_OK, Some s'') /\ length (alarms (dom s'')) = 1%nat.
Proof.
  destruct (alarm_removal_not_saved example_dat_params 13 20 true (fun _ => true) example_dat1 any None
              example_domain "dat.7") as (s'' & H1 & H2 & _);
    [vm_compute; intuition discriminate| |by vm_compute|done|done|].
  - constructor; vm_compute; repeat constructor; try discriminate; by right.
  - exists s''. split; [exact H1|]. rewrite H2. by vm_compute.
Defined.
