(* ===== verification/QuitEvent.v ===== *)
(** The quit event: the first part of [openhpid/event.c].

    The daemon tells its event threads and the sessions that it is about to quit
    by an event that no plug-in sends: an HPI software event of an unspecified
    manufacturer whose data is a fixed signature of 255 bytes. *)
From S2P Require Import Prelude SaHpi EventUtils.

Definition ENOENT : Z := 2.

Definition signature : list Z :=
  [0x01; 0xE8; 0xEC; 0x84; 0xFE; 0x23; 0x41; 0x62; 0x82; 0xF8; 0xDC; 0x1A;
   0x32; 0xD9; 0x24; 0x14; 0x6A; 0x5B; 0x92; 0x41; 0xE1; 0xE4; 0x49; 0x34;
   0x89; 0x36; 0x5C; 0x94; 0xA9; 0x26; 0xBE; 0x70; 0x95; 0x12; 0x74; 0xA7;
   0xAE; 0x99; 0x49; 0x93; 0x87; 0x57; 0xAF; 0xA5; 0x0A; 0xF6; 0x6A; 0x3C;
   0xC3; 0x02; 0x83; 0x48; 0xAF; 0xCB; 0x49; 0x90; 0xA6; 0x5A; 0x1C; 0xDA;
   0x6E; 0x56; 0x09; 0x32; 0x38; 0x61; 0x87; 0x52; 0x76; 0x98; 0x4A; 0x6C;
   0x94; 0xEC; 0x67; 0xD2; 0xAE; 0xAB; 0x56; 0xC4; 0xA1; 0xFA; 0x65; 0x89;
   0xBA; 0x2A; 0x4F; 0x6B; 0x84; 0x8F; 0xE0; 0x53; 0xF4; 0xF7; 0xD2; 0x50;
   0x22; 0xFE; 0x68; 0xB6; 0x38; 0xDD; 0x4C; 0xA7; 0xB8; 0x17; 0xF8; 0xC8;
   0x5C; 0xE3; 0x27; 0x26; 0x8E; 0x76; 0x0F; 0x7C; 0x45; 0x50; 0x40; 0xA8;
   0x83; 0xE7; 0xCA; 0x73; 0x0C; 0x64; 0x19; 0x74; 0xFE; 0x92; 0x39; 0x2B;
   0x23; 0xBD; 0x43; 0x05; 0xB1; 0xE6; 0xA8; 0x9D; 0x81; 0x01; 0x16; 0x5A;
   0x05; 0x27; 0xEE; 0xBB; 0x08; 0xE1; 0x48; 0x9F; 0xBB; 0xD4; 0x90; 0xA9;
   0x46; 0x85; 0xF0; 0x09; 0x68; 0x93; 0xAA; 0x6A; 0x62; 0xA4; 0x43; 0xCD;
   0x8D; 0x80; 0x3B; 0x6C; 0x1A; 0xFF; 0xB3; 0xCD; 0x91; 0x09; 0x01; 0x4B;
   0x9E; 0xFB; 0x43; 0x1D; 0x83; 0xB0; 0x5C; 0x39; 0x6D; 0x6E; 0xB1; 0xDA;
   0xE0; 0x5D; 0x8D; 0x87; 0xF3; 0x01; 0x40; 0xC0; 0xA0; 0x83; 0xEC; 0x5B;
   0x71; 0x40; 0xE9; 0x2D; 0x54; 0xC1; 0x9B; 0x23; 0x29; 0xFC; 0x4E; 0x64;
   0xAA; 0x8C; 0xD3; 0x77; 0x8B; 0x19; 0xEC; 0xB8; 0xE2; 0xBE; 0xB9; 0x15;
   0x28; 0x69; 0x46; 0x73; 0x90; 0xFE; 0xE9; 0x24; 0xE6; 0x74; 0xAF; 0x4A;
   0x78; 0x7D; 0xC7; 0x44; 0x87; 0x51; 0x4A; 0x2C; 0x9E; 0x1B; 0xB1; 0x6C;
   0x31; 0xEA; 0x40].

(** The two structures whose padding and unused bytes are zero are equal, for
    [memcmp], exactly when all their fields are. *)
Definition make_quit_event (now : Z) : oh_event :=
  zero_oh_event
    <| EventUtils.event :=
         {| Source := SAHPI_UNSPECIFIED_RESOURCE_ID; event_Timestamp := now;
            event_Severity := SAHPI_CRITICAL;
            EventDataUnion :=
              HpiSwEvent SAHPI_MANUFACTURER_ID_UNSPECIFIED SAHPI_HPIE_OTHER
                {| DataType := SAHPI_TL_TYPE_BINARY; Language := SAHPI_LANG_UNDEF;
                   DataLength := Z.of_nat (length signature); Data := signature |} |} |>
    <| resource ::= fun r => r <| ResourceId := SAHPI_UNSPECIFIED_RESOURCE_ID |>
                               <| ResourceCapabilities := 0 |> |>
    <| rdrs := [] |> <| rdrs_to_remove := [] |>.

Definition oh_detect_quit_event (e : option oh_event) : Z :=
  match e with
  | None => ENOENT
  | Some e =>
      if negb (EventType (EventUtils.event e) =? SAHPI_ET_HPI_SW) then ENOENT
      else match EventDataUnion (EventUtils.event e) with
           | HpiSwEvent mid _ _ =>
               if negb (mid =? 0) then ENOENT
               else
                 let qe := make_quit_event 0 in
                 let qe := qe <| EventUtils.event ::= fun ev =>
                              ev <| event_Timestamp := event_Timestamp (EventUtils.event e) |> |> in
                 if negb (bool_decide (e = qe)) then ENOENT else 0
           | _ => ENOENT
           end
  end.

(** The detected events are exactly the quit events, of any time. *)
Lemma detect_quit_iff e :
  oh_detect_quit_event (Some e) = 0 <->
  e = make_quit_event (event_Timestamp (EventUtils.event e)).
Proof.
  split.
  - unfold oh_detect_quit_event. destruct (negb _); [done|].
    destruct (EventDataUnion (EventUtils.event e)) as [| | | | | |mid t d| | | | | |]; try done.
    destruct (negb (mid =? 0)); [done|]. case_bool_decide as Heq; [|done]. intros _. exact Heq.
  - intros ->. unfold oh_detect_quit_event. rewrite bool_decide_eq_true_2; [done|]. done.
Qed.

Lemma detect_quit_cases e : oh_detect_quit_event e = 0 \/ oh_detect_quit_event e = ENOENT.
Proof.
  unfold oh_detect_quit_event. destruct e as [e|]; [|by right].
  destruct (negb _); [by right|]. destruct (EventDataUnion _) as [| | | | | |mid t d| | | | | |]; try by right.
  destruct (negb (mid =? 0)); [by right|]. case_bool_decide; [by left|by right].
Qed.
