(* ===== verification/Session.v ===== *)
(** Sessions: [openhpid/session.c].

    A session has an event queue, an asynchronous queue of GLib with a
    reference count.  The session table (a hash table and a list of the same
    sessions) is protected by a lock; a reader takes a reference to the queue
    under the lock and waits for an event without it, so that the session can be
    closed meanwhile.  The parts of an operation that run under one lock are one
    definition each; [oh_dequeue_session_event] and [oh_destroy_session] compose
    them for a single thread, the relation [step] interleaves them for many.

    A session structure is named by its id and a queue by a number that is never
    used again.  What the operations do with a domain, they do with a reference
    that is released before they return: [domain_exists] tells whether
    [oh_get_domain] finds it. *)
From S2P Require Import Prelude SaHpi Conf DomainState EventUtils QuitEvent Alarm.

Record oh_session := {
  id : Z; did : Z; subscribed : Z; eventq_status : Z; eventq : nat }.
#[export] Instance eta_session : Eta oh_session := fun x =>
  Build_oh_session (id x) (did x) (subscribed x) (eventq_status x) (eventq x).

Record async_queue := { q_events : list oh_event; q_refs : nat }.
#[export] Instance eta_queue : Eta async_queue := fun x =>
  Build_async_queue (q_events x) (q_refs x).

(** [table] is the hash table, [list_] the list, [next_sid] the static counter of
    [oh_create_session]; [queues] are the queues that are not freed. *)
Record session_state := {
  table : gmap Z oh_session; list_ : list Z; next_sid : Z;
  queues : gmap nat async_queue; next_queue : nat }.
#[export] Instance eta_session_state : Eta session_state := fun x =>
  Build_session_state (table x) (list_ x) (next_sid x) (queues x) (next_queue x).

Definition init_sessions : session_state :=
  {| table := ∅; list_ := []; next_sid := 1; queues := ∅; next_queue := 0 |}.

(** ** Asynchronous queues *)

Definition g_async_queue_new (s : session_state) : nat * session_state :=
  (next_queue s,
   s <| queues ::= fun m => <[next_queue s := {| q_events := []; q_refs := 1 |}]> m |>
     <| next_queue ::= S |>).

Definition set_queue (q : nat) (f : async_queue -> option async_queue) (s : session_state)
    : session_state :=
  s <| queues ::= fun m => partial_alter (fun o => o ≫= f) q m |>.

Definition g_async_queue_ref (q : nat) : session_state -> session_state :=
  set_queue q (fun x => Some (x <| q_refs ::= S |>)).

(** The queue is freed with its last reference. *)
Definition g_async_queue_unref (q : nat) : session_state -> session_state :=
  set_queue q (fun x => match q_refs x with
                        | S (S n) => Some (x <| q_refs := S n |>)
                        | _ => None
                        end).

Definition g_async_queue_push (q : nat) (e : oh_event) : session_state -> session_state :=
  set_queue q (fun x => Some (x <| q_events ::= fun l => l ++ [e] |>)).

Definition queue_of (q : nat) (s : session_state) : list oh_event :=
  match queues s !! q with Some x => q_events x | None => [] end.

(** [g_async_queue_try_pop] *)
Definition try_pop (q : nat) (s : session_state) : option oh_event * session_state :=
  (head (queue_of q s), set_queue q (fun x => Some (x <| q_events ::= tail |>)) s).

(** ** Operations *)

Definition default_did (did : Z) : Z :=
  if did =? SAHPI_UNSPECIFIED_DOMAIN_ID then OH_DEFAULT_DOMAIN_ID else did.

Definition oh_create_session (domain_exists : Z -> bool) (did : Z) (s : session_state)
    : Z * session_state :=
  let did := default_did did in
  let '(q, s) := g_async_queue_new s in
  let session := {| id := 0; did := did; subscribed := SAHPI_FALSE; eventq_status := 0; eventq := q |} in
  if negb (domain_exists did) then (0, g_async_queue_unref q s)
  else
    let session := session <| id := next_sid s |> in
    let s := s <| next_sid ::= fun i => u32 (i + 1) |> in
    let s := s <| table ::= fun m => <[id session := session]> m |>
               <| list_ ::= fun l => l ++ [id session] |> in
    (id session, s).

Definition oh_get_session_domain (sid : Z) (s : session_state) : Z :=
  if sid <? 1 then SAHPI_UNSPECIFIED_DOMAIN_ID
  else match table s !! sid with
       | None => SAHPI_UNSPECIFIED_DOMAIN_ID
       | Some session => did session
       end.

(** The loop over the list; a session of the list is in the table. *)
Definition oh_list_sessions (domain_exists : Z -> bool) (wanted : Z) (s : session_state)
    : option (list Z) :=
  let wanted := default_did wanted in
  if negb (domain_exists wanted) then None
  else Some (List.filter (fun i => match table s !! i with
                                   | Some x => did x =? wanted
                                   | None => false
                                   end) (list_ s)).

(** [state] tells whether the caller gives a place for the result; the table
    exists since [oh_init]. *)
Definition oh_get_session_subscription (sid : Z) (state : bool) (s : session_state)
    : Z * option Z :=
  if sid <? 1 then (SA_ERR_HPI_INVALID_SESSION, None)
  else if negb state then (SA_ERR_HPI_INVALID_PARAMS, None)
  else match table s !! sid with
       | None => (SA_ERR_HPI_INVALID_SESSION, None)
       | Some session => (SA_OK, Some (subscribed session))
       end.

Definition set_session (sid : Z) (f : oh_session -> oh_session) (s : session_state) : session_state :=
  s <| table ::= fun m => alter f sid m |>.

(** [waiting] is the number of threads that wait for an event of the queue;
    [g_async_queue_length] subtracts it from the number of events. *)
Definition oh_queue_session_event (g : global_params) (waiting : Z) (sid : Z)
    (event : option oh_event) (s : session_state) : Z * session_state :=
  match event with
  | None => (SA_ERR_HPI_INVALID_PARAMS, s)
  | Some event =>
      if sid <? 1 then (SA_ERR_HPI_INVALID_PARAMS, s)
      else
        match oh_dup_event (Some event) with
        | None => (SA_ERR_HPI_OUT_OF_MEMORY, s)
        | Some qevent =>
            let limit := get_num OPENHPI_EVT_QUEUE_LIMIT g in
            match table s !! sid with
            | None => (SA_ERR_HPI_INVALID_SESSION, s)
            | Some session =>
                let qlength := Z.of_nat (length (queue_of (eventq session) s)) - waiting in
                let overflowed :=
                  match limit with Some n => (0 <? qlength) && (n <=? qlength) | None => false end in
                if overflowed
                then (SA_ERR_HPI_OUT_OF_SPACE,
                      set_session sid (fun x => x <| eventq_status := SAHPI_EVT_QUEUE_OVERFLOW |>) s)
                else (SA_OK, g_async_queue_push (eventq session) qevent s)
            end
        end
  end.

(** *** Reading *)

(** Under the lock: the queue, referenced, and the status. *)
Definition dequeue_begin (sid : Z) (s : session_state) : option (nat * Z * session_state) :=
  match table s !! sid with
  | None => None
  | Some session =>
      Some (eventq session, eventq_status session,
            g_async_queue_ref (eventq session) (set_session sid (fun x => x <| eventq_status := 0 |>) s))
  end.

(** [Some error] when the session is closed or not subscribed any more. *)
Definition check_open (sid : Z) (s : session_state) : option Z :=
  let '(invalid, sub) := oh_get_session_subscription sid true s in
  if negb (invalid =? SA_OK) then Some SA_ERR_HPI_INVALID_SESSION
  else if negb (truthy (default 0 sub)) then Some SA_ERR_HPI_INVALID_REQUEST
  else None.

(** The end: the result and the contents of the caller's event, [None] when it
    is not written. *)
Definition dequeue_end (devent : option oh_event) : Z * option oh_event :=
  match devent with
  | Some e =>
      if oh_detect_quit_event devent =? 0 then (SA_ERR_HPI_NO_RESPONSE, None) else (SA_OK, Some e)
  | None => (SA_ERR_HPI_TIMEOUT, Some zero_oh_event)
  end.

(** The blocking wait.  [wait i] is what the other threads do during the [i]-th
    timed pop, which then takes an event if there is one.  [None]: still
    waiting after [fuel] pops. *)
Fixpoint block_loop (fuel : nat) (wait : nat -> session_state -> session_state) (i : nat)
    (sid : Z) (q : nat) (s : session_state) : option (Z * option oh_event * session_state) :=
  match fuel with
  | O => None
  | S fuel =>
      let '(devent, s) := try_pop q (wait i s) in
      match check_open sid s with
      | Some err => Some (err, None, g_async_queue_unref q s)
      | None =>
          match devent with
          | None => block_loop fuel wait (S i) sid q s
          | Some _ => let '(err, e) := dequeue_end devent in Some (err, e, g_async_queue_unref q s)
          end
      end
  end.

(** [event] tells whether the caller gives a place for the event.  The result is
    the error, the event stored, the status stored and the state. *)
Definition oh_dequeue_session_event (fuel : nat) (wait : nat -> session_state -> session_state)
    (sid timeout : Z) (event : bool) (s : session_state)
    : option (Z * option oh_event * option Z * session_state) :=
  if (sid <? 1) || negb event then Some (SA_ERR_HPI_INVALID_PARAMS, None, None, s)
  else match dequeue_begin sid s with
       | None => Some (SA_ERR_HPI_INVALID_SESSION, None, None, s)
       | Some (q, status, s) =>
           if timeout =? SAHPI_TIMEOUT_IMMEDIATE then
             let '(devent, s) := try_pop q s in
             let '(err, e) := dequeue_end devent in
             Some (err, e, Some status, g_async_queue_unref q s)
           else if timeout =? SAHPI_TIMEOUT_BLOCK then
             match block_loop fuel wait 0 sid q s with
             | Some (err, e, s) => Some (err, e, Some status, s)
             | None => None
             end
           else
             let '(devent, s) := try_pop q (wait 0%nat s) in
             match check_open sid s with
             | Some err => Some (err, None, Some status, g_async_queue_unref q s)
             | None =>
                 let '(err, e) := dequeue_end devent in
                 Some (err, e, Some status, g_async_queue_unref q s)
             end
       end.

(** Without waiting. *)
Definition dequeue_now (sid : Z) (s : session_state) : Z * option oh_event * option Z * session_state :=
  default (SA_ERR_HPI_TIMEOUT, None, None, s)
    (oh_dequeue_session_event 0 (fun _ s => s) sid SAHPI_TIMEOUT_IMMEDIATE true s).

(** The flushing loop; the fuel is the number of events and one ([flush_ends]). *)
Fixpoint flush_queue (fuel : nat) (sid : Z) (s : session_state) : option session_state :=
  match fuel with
  | O => None
  | S fuel =>
      let '(err, _, _, s) := dequeue_now sid s in
      if err =? SA_OK then flush_queue fuel sid s else Some s
  end.

Definition oh_set_session_subscription (sid state : Z) (s : session_state) : Z * session_state :=
  if sid <? 1 then (SA_ERR_HPI_INVALID_PARAMS, s)
  else match table s !! sid with
       | None => (SA_ERR_HPI_INVALID_SESSION, s)
       | Some session =>
           let s := set_session sid (fun x => x <| subscribed := state |>) s in
           if state =? SAHPI_FALSE
           then (SA_OK, default s (flush_queue (S (length (queue_of (eventq session) s))) sid s))
           else (SA_OK, s)
       end.

(** *** Closing *)

(** Under the lock: the session is taken out of the table and the list. *)
Definition destroy_begin (sid : Z) (s : session_state) : option (nat * session_state) :=
  match table s !! sid with
  | None => None
  | Some session =>
      Some (eventq session,
            s <| list_ ::= fun l => List.filter (fun i => negb (i =? id session)) l |>
              <| table ::= fun m => delete (id session) m |>)
  end.

Fixpoint destroy_pops (len : nat) (q : nat) (s : session_state) : session_state :=
  match len with O => s | S len => destroy_pops len q (snd (try_pop q s)) end.

(** The session's structure is freed. *)
Definition destroy_end (q : nat) (s : session_state) : session_state :=
  g_async_queue_unref q (destroy_pops (length (queue_of q s)) q s).

Definition oh_destroy_session (sid : Z) (s : session_state) : Z * session_state :=
  if sid <? 1 then (SA_ERR_HPI_INVALID_PARAMS, s)
  else match destroy_begin sid s with
       | None => (SA_ERR_HPI_INVALID_SESSION, s)
       | Some (q, s) => (SA_OK, destroy_end q s)
       end.

(** * Interleaving *)

(** What a thread does outside of the lock.  [Popping], [Checking] and [Ending]
    are the parts of [oh_dequeue_session_event] after its locked part, [Closing]
    is the part of [oh_destroy_session] after its locked part. *)
Inductive thread :=
  | Idle
  | Popping (sid timeout : Z) (q : nat)
  | Checking (sid timeout : Z) (q : nat) (devent : option oh_event)
  | Ending (q : nat) (devent : option oh_event)
  | Closing (q : nat).

Definition after_pop (sid timeout : Z) (q : nat) (devent : option oh_event) : thread :=
  if timeout =? SAHPI_TIMEOUT_IMMEDIATE then Ending q devent else Checking sid timeout q devent.

(** Any thread may run any operation at any time; the parts of an operation run
    in order.  A timed pop of an empty queue may give up at any time. *)
Inductive step (g : global_params) (domain_exists : Z -> bool)
    : session_state * list thread -> session_state * list thread -> Prop :=
  | st_create s ths t d : ths !! t = Some Idle -> next_sid s + 1 < 2 ^ 32 ->
      step g domain_exists (s, ths) (snd (oh_create_session domain_exists d s), ths)
  | st_queue s ths t w sid e : ths !! t = Some Idle ->
      step g domain_exists (s, ths) (snd (oh_queue_session_event g w sid e s), ths)
  | st_subscribe s ths t sid v : ths !! t = Some Idle ->
      step g domain_exists (s, ths) (set_session sid (fun x => x <| subscribed := v |>) s, ths)
  | st_read s ths t sid timeout q status s' : ths !! t = Some Idle ->
      dequeue_begin sid s = Some (q, status, s') ->
      step g domain_exists (s, ths) (s', <[t := Popping sid timeout q]> ths)
  | st_pop s ths t sid timeout q devent s' : ths !! t = Some (Popping sid timeout q) ->
      try_pop q s = (devent, s') ->
      step g domain_exists (s, ths) (s', <[t := after_pop sid timeout q devent]> ths)
  | st_not_open s ths t sid timeout q devent err : ths !! t = Some (Checking sid timeout q devent) ->
      check_open sid s = Some err ->
      step g domain_exists (s, ths) (g_async_queue_unref q s, <[t := Idle]> ths)
  | st_again s ths t sid q : ths !! t = Some (Checking sid SAHPI_TIMEOUT_BLOCK q None) ->
      check_open sid s = None ->
      step g domain_exists (s, ths) (s, <[t := Popping sid SAHPI_TIMEOUT_BLOCK q]> ths)
  | st_open s ths t sid timeout q devent : ths !! t = Some (Checking sid timeout q devent) ->
      check_open sid s = None -> timeout <> SAHPI_TIMEOUT_BLOCK \/ devent <> None ->
      step g domain_exists (s, ths) (s, <[t := Ending q devent]> ths)
  | st_end s ths t q devent : ths !! t = Some (Ending q devent) ->
      step g domain_exists (s, ths) (g_async_queue_unref q s, <[t := Idle]> ths)
  | st_destroy s ths t sid q s' : ths !! t = Some Idle -> destroy_begin sid s = Some (q, s') ->
      step g domain_exists (s, ths) (s', <[t := Closing q]> ths)
  | st_destroyed s ths t q : ths !! t = Some (Closing q) ->
      step g domain_exists (s, ths) (destroy_end q s, <[t := Idle]> ths).

Inductive reach (g : global_params) (domain_exists : Z -> bool) (n : nat)
    : session_state * list thread -> Prop :=
  | reach_init : reach g domain_exists n (init_sessions, replicate n Idle)
  | reach_step c c' : reach g domain_exists n c -> step g domain_exists c c' -> reach g domain_exists n c'.

(** The queue a thread has a reference to. *)
Definition holds (th : thread) : option nat :=
  match th with
  | Idle => None
  | Popping _ _ q | Checking _ _ q _ | Ending q _ | Closing q => Some q
  end.

(** ** The invariant *)

Definition owns (m : gmap Z oh_session) (q : nat) (i : Z) : bool :=
  match m !! i with Some x => (eventq x =? q)%nat | None => false end.
Definition owners (s : session_state) (q : nat) : nat :=
  length (List.filter (owns (table s) q) (list_ s)).
Definition holds_b (q : nat) (th : thread) : bool := bool_decide (holds th = Some q).
Definition holders (ths : list thread) (q : nat) : nat := length (List.filter (holds_b q) ths).
Definition refs (s : session_state) (q : nat) : nat :=
  match queues s !! q with Some x => q_refs x | None => 0 end.

(** The table and the list. *)
Record sess_ok (s : session_state) : Prop := {
  so_ids : forall i x, table s !! i = Some x -> id x = i /\ 1 <= i < next_sid s;
  so_list : forall i, i ∈ list_ s <-> is_Some (table s !! i);
  so_nodup : NoDup (list_ s);
  so_next : 1 <= next_sid s < 2 ^ 32;
  so_queue : forall i x, table s !! i = Some x -> (eventq x < next_queue s)%nat;
  so_own : forall i j x y, table s !! i = Some x -> table s !! j = Some y -> eventq x = eventq y -> i = j;
  so_alive : forall q x, queues s !! q = Some x -> (q < next_queue s /\ 1 <= q_refs x)%nat }.

(** A queue has a reference per session and thread that uses it. *)
Record conf_ok (c : session_state * list thread) : Prop := {
  co_sess : sess_ok (fst c);
  co_refs : forall q, refs (fst c) q = (owners (fst c) q + holders (snd c) q)%nat }.

(** *** Counting *)

Lemma filter_length_ext {A} (P Q : A -> bool) l :
  (forall x, x ∈ l -> P x = Q x) -> length (List.filter P l) = length (List.filter Q l).
Proof.
  induction l as [|x l IH]; intros Hx; simpl; [done|].
  rewrite (Hx x) by (by left). destruct (Q x); simpl; rewrite IH; try done; intros y Hy; apply Hx; by right.
Qed.

Lemma count_insert {A} (P : A -> bool) l t x y :
  l !! t = Some x ->
  (length (List.filter P (<[t := y]> l)) + Nat.b2n (P x)
   = length (List.filter P l) + Nat.b2n (P y))%nat.
Proof.
  revert t. induction l as [|z l IH]; intros [|t] Ht; simpl in *; simplify_eq.
  - destruct (P x), (P y); simpl; lia.
  - specialize (IH t Ht). destruct (P z); simpl; lia.
Qed.

Lemma holders_insert ths t th th' q :
  ths !! t = Some th ->
  (holders (<[t := th']> ths) q + Nat.b2n (holds_b q th) = holders ths q + Nat.b2n (holds_b q th'))%nat.
Proof. apply count_insert. Qed.

Lemma holders_pos ths t th q : ths !! t = Some th -> holds th = Some q -> (1 <= holders ths q)%nat.
Proof.
  intros Ht Hh. pose proof (holders_insert ths t th Idle q Ht) as Hc.
  unfold holds_b in Hc. rewrite Hh in Hc. rewrite bool_decide_eq_true_2 in Hc by done.
  simpl in Hc. lia.
Qed.

Lemma owners_one s i x q : sess_ok s -> table s !! i = Some x -> eventq x = q -> owners s q = 1%nat.
Proof.
  intros Hs Hx Hq. unfold owners.
  assert (Hi : i ∈ list_ s) by (apply (so_list _ Hs); by eexists).
  pose proof (so_nodup _ Hs) as Hnd.
  assert (Ho : forall j, j ∈ list_ s -> owns (table s) q j = true <-> j = i).
  { intros j Hj. unfold owns. split.
    - destruct (table s !! j) as [y|] eqn:Ey; [|done]. intros Hq'. apply Nat.eqb_eq in Hq'.
      eapply so_own; [exact Hs|exact Ey|exact Hx|congruence].
    - intros ->. rewrite Hx. by apply Nat.eqb_eq. }
  revert Hi Hnd Ho. generalize (list_ s). clear Hs Hx. intros l. induction l as [|j l IH]; intros Hi Hnd Ho.
  { by apply not_elem_of_nil in Hi. }
  apply NoDup_cons in Hnd as [Hj Hnd]. simpl.
  apply elem_of_cons in Hi as [<-|Hi].
  - rewrite (proj2 (Ho i ltac:(by left)) eq_refl). simpl.
    rewrite (filter_length_ext _ (fun _ => false)).
    + clear. induction l; simpl; auto.
    + intros k Hk. destruct (owns (table s) q k) eqn:Ek; [|done].
      apply Ho in Ek; [|by right]. by subst.
  - destruct (owns (table s) q j) eqn:Ej.
    + apply Ho in Ej; [|by left]. by subst.
    + apply IH; [done|done|]. intros k Hk. apply Ho. by right.
Qed.

Lemma owners_zero s q :
  (forall i x, table s !! i = Some x -> eventq x <> q) -> owners s q = 0%nat.
Proof.
  intros Hn. unfold owners. rewrite (filter_length_ext _ (fun _ => false)).
  - induction (list_ s); simpl; auto.
  - intros i _. unfold owns. destruct (table s !! i) as [x|] eqn:E; [|done].
    apply Nat.eqb_neq. by eapply Hn.
Qed.

(** *** Operations and the invariant *)

Lemma refs_set_queue q f s q' :
  refs (set_queue q f s) q'
  = if (q' =? q)%nat
    then match queues s !! q with
         | Some x => match f x with Some y => q_refs y | None => 0%nat end
         | None => 0%nat
         end
    else refs s q'.
Proof.
  unfold refs, set_queue, set_field. simpl.
  destruct (Nat.eqb_spec q' q) as [->|Hne].
  - rewrite lookup_partial_alter_eq. destruct (queues s !! q); simpl; [|done]. by destruct (f _).
  - by rewrite lookup_partial_alter_ne.
Qed.

Lemma refs_ref q s q' :
  (1 <= refs s q)%nat ->
  refs (g_async_queue_ref q s) q' = (refs s q' + Nat.b2n (q' =? q)%nat)%nat.
Proof.
  intros Hq. unfold g_async_queue_ref. rewrite refs_set_queue.
  destruct (Nat.eqb_spec q' q) as [->|]; simpl; [|lia].
  unfold refs in *. destruct (queues s !! q); simpl in *; lia.
Qed.

Lemma refs_unref q s q' :
  refs (g_async_queue_unref q s) q' = (refs s q' - Nat.b2n (q' =? q)%nat)%nat.
Proof.
  unfold g_async_queue_unref. rewrite refs_set_queue.
  destruct (Nat.eqb_spec q' q) as [->|]; simpl; [|lia].
  unfold refs. destruct (queues s !! q) as [x|]; simpl; [|lia].
  destruct (q_refs x) as [|[|n]]; simpl; lia.
Qed.

Lemma refs_push q e s q' : refs (g_async_queue_push q e s) q' = refs s q'.
Proof.
  unfold g_async_queue_push. rewrite refs_set_queue. destruct (Nat.eqb_spec q' q) as [->|]; [|done].
  unfold refs. by destruct (queues s !! q).
Qed.

Lemma refs_pop q s q' : refs (snd (try_pop q s)) q' = refs s q'.
Proof.
  simpl. rewrite refs_set_queue. destruct (Nat.eqb_spec q' q) as [->|]; [|done].
  unfold refs. by destruct (queues s !! q).
Qed.

Lemma refs_alive s q : sess_ok s -> is_Some (queues s !! q) <-> (1 <= refs s q)%nat.
Proof.
  intros Hs. unfold refs. destruct (queues s !! q) as [x|] eqn:E.
  - split; [intros _; by apply (so_alive _ Hs q x)|by eexists].
  - split; [by intros [? ?]|lia].
Qed.

Lemma sess_ok_set_queue q f s :
  (forall x y, queues s !! q = Some x -> (1 <= q_refs x)%nat -> f x = Some y -> (1 <= q_refs y)%nat) ->
  sess_ok s -> sess_ok (set_queue q f s).
Proof.
  intros Hf [H1 H2 H3 H4 H5 H6 H7]. constructor; try done.
  intros q' y. unfold set_queue, set_field. simpl.
  destruct (decide (q' = q)) as [->|Hne].
  - rewrite lookup_partial_alter_eq. destruct (queues s !! q) as [x|] eqn:E; simpl; [|done].
    intros Hy. destruct (H7 _ _ E) as [Hlt Hr]. split; [done|]. by eapply Hf.
  - rewrite lookup_partial_alter_ne by done. apply H7.
Qed.

Lemma sess_ok_unref q s : sess_ok s -> sess_ok (g_async_queue_unref q s).
Proof.
  apply sess_ok_set_queue. intros x y _ _. destruct (q_refs x) as [|[|n]]; [done|done|].
  intros [= <-]. unfold set_field. simpl. lia.
Qed.

Lemma sess_ok_ref q s : sess_ok s -> sess_ok (g_async_queue_ref q s).
Proof. apply sess_ok_set_queue. intros x y _ _ [= <-]. unfold set_field. simpl. lia. Qed.

Lemma sess_ok_push q e s : sess_ok s -> sess_ok (g_async_queue_push q e s).
Proof. apply sess_ok_set_queue. by intros x y _ Hr [= <-]. Qed.

Lemma sess_ok_pop q s : sess_ok s -> sess_ok (snd (try_pop q s)).
Proof. apply sess_ok_set_queue. by intros x y _ Hr [= <-]. Qed.

(** Changing the flags of a session. *)
Lemma lookup_set_session sid f s i :
  table (set_session sid f s) !! i = if i =? sid then f <$> table s !! i else table s !! i.
Proof.
  unfold set_session, set_field. simpl. destruct (Z.eqb_spec i sid) as [->|Hne].
  - by rewrite lookup_alter_eq.
  - by rewrite lookup_alter_ne.
Qed.

Lemma set_session_inv sid f s i y :
  (forall x, id (f x) = id x /\ eventq (f x) = eventq x) -> table (set_session sid f s) !! i = Some y ->
  exists x, table s !! i = Some x /\ id y = id x /\ eventq y = eventq x.
Proof.
  intros Hf. rewrite lookup_set_session. destruct (i =? sid).
  - destruct (table s !! i) as [x|]; simpl; [|done]. intros [= <-]. exists x. split; [done|apply Hf].
  - intros Hy. by exists y.
Qed.

Lemma sess_ok_set_session sid f s :
  (forall x, id (f x) = id x /\ eventq (f x) = eventq x) -> sess_ok s -> sess_ok (set_session sid f s).
Proof.
  intros Hf [H1 H2 H3 H4 H5 H6 H7]. constructor; try done.
  - intros i y Hy. apply set_session_inv in Hy as (x & Hx & -> & _); [|done]. by apply H1.
  - intros i. etrans; [apply H2|]. rewrite lookup_set_session. destruct (i =? sid); [|done].
    by rewrite fmap_is_Some.
  - intros i y Hy. apply set_session_inv in Hy as (x & Hx & _ & ->); [|done]. by eapply H5.
  - intros i j x y Hx Hy. apply set_session_inv in Hx as (x' & Hx & _ & ->); [|done].
    apply set_session_inv in Hy as (y' & Hy & _ & ->); [|done]. by apply H6.
Qed.

Lemma owners_set_session sid f s q :
  (forall x, id (f x) = id x /\ eventq (f x) = eventq x) ->
  owners (set_session sid f s) q = owners s q.
Proof.
  intros Hf. unfold owners. apply filter_length_ext. intros i _. unfold owns.
  rewrite lookup_set_session. destruct (i =? sid); [|done].
  destruct (table s !! i) as [x|]; simpl; [|done]. by rewrite (proj2 (Hf x)).
Qed.

Lemma subscribed_keeps v x : id (x <| subscribed := v |>) = id x /\ eventq (x <| subscribed := v |>) = eventq x.
Proof. done. Qed.
Lemma status_keeps v x : id (x <| eventq_status := v |>) = id x /\ eventq (x <| eventq_status := v |>) = eventq x.
Proof. done. Qed.

(** A state that differs in the queues' contents only. *)
Lemma conf_ok_same s s' ths :
  sess_ok s' -> (forall q, refs s' q = refs s q) -> (forall q, owners s' q = owners s q) ->
  conf_ok (s, ths) -> conf_ok (s', ths).
Proof. intros Hs Hr Ho [_ Hc]. constructor; [done|]. intros q. simpl in *. rewrite Hr, Ho. apply Hc. Qed.

Lemma queue_event_ok g w sid e s ths :
  conf_ok (s, ths) -> conf_ok (snd (oh_queue_session_event g w sid e s), ths).
Proof.
  intros Hc. pose proof (co_sess _ Hc) as Hs. simpl in Hs. unfold oh_queue_session_event.
  destruct e as [e|]; [|done]. destruct (sid <? 1); [done|]. rewrite dup_event_same.
  destruct (table s !! sid) as [x|]; [|done].
  destruct (match _ with Some _ => _ | None => false end); simpl.
  - apply (conf_ok_same s); [|reflexivity| |exact Hc].
    + apply sess_ok_set_session; [apply status_keeps|done].
    + intros q. apply owners_set_session, status_keeps.
  - apply (conf_ok_same s); [|apply refs_push|done|exact Hc]. by apply sess_ok_push.
Qed.

Lemma create_ok dom d s ths :
  conf_ok (s, ths) -> next_sid s + 1 < 2 ^ 32 -> conf_ok (snd (oh_create_session dom d s), ths).
Proof.
  intros [Hs Hc] Hn. simpl in *. pose proof (so_next _ Hs) as Hnext.
  assert (Hfresh : table s !! next_sid s = None).
  { destruct (table s !! next_sid s) as [x|] eqn:E; [|done]. destruct (so_ids _ Hs _ _ E). lia. }
  assert (Hqfresh : queues s !! next_queue s = None).
  { destruct (queues s !! next_queue s) as [x|] eqn:E; [|done]. destruct (so_alive _ Hs _ _ E). lia. }
  unfold oh_create_session. simpl. destruct (negb (dom (default_did d))); simpl.
  - constructor; simpl.
    + apply sess_ok_unref. destruct Hs as [H1 H2 H3 H4 H5 H6 H7]. constructor; try done; simpl.
      * intros i x Hx. specialize (H5 i x Hx). unfold set_field. simpl. lia.
      * intros q x. destruct (decide (q = next_queue s)) as [->|Hne].
        -- rewrite lookup_insert_eq. intros [= <-]. simpl. lia.
        -- rewrite lookup_insert_ne by done. intros Hx. specialize (H7 q x Hx). lia.
    + intros q. rewrite refs_unref. unfold refs, set_field. simpl.
      destruct (Nat.eqb_spec q (next_queue s)) as [->|Hne].
      * rewrite lookup_insert_eq. simpl. specialize (Hc (next_queue s)). unfold refs in Hc.
        rewrite Hqfresh in Hc. unfold owners in *. simpl. lia.
      * rewrite lookup_insert_ne by done. simpl. specialize (Hc q). unfold refs in Hc.
        unfold owners in *. simpl. lia.
  - constructor; simpl.
    + destruct Hs as [H1 H2 H3 H4 H5 H6 H7].
      constructor; unfold set_field; simpl; rewrite ?(u32_id (next_sid s + 1)) by lia.
      * intros i x. destruct (decide (i = next_sid s)) as [->|Hne].
        -- rewrite lookup_insert_eq. intros [= <-]. simpl. lia.
        -- rewrite lookup_insert_ne by done. intros Hx. specialize (H1 i x Hx). lia.
      * intros i. rewrite elem_of_app, list_elem_of_singleton, H2.
        destruct (decide (i = next_sid s)) as [->|Hne].
        -- rewrite lookup_insert_eq. split; [by eexists|by right].
        -- rewrite lookup_insert_ne by done.
           split; [intros [Hi|Hi]; [done|congruence]|by left].
      * apply NoDup_app. split; [done|]. split; [|apply NoDup_singleton].
        intros i Hi. rewrite list_elem_of_singleton. intros ->. apply H2 in Hi as [? Hi]. congruence.
      * lia.
      * intros i x. destruct (decide (i = next_sid s)) as [->|Hne].
        -- rewrite lookup_insert_eq. intros [= <-]. simpl. lia.
        -- rewrite lookup_insert_ne by done. intros Hx. specialize (H5 i x Hx). lia.
      * intros i j x y. destruct (decide (i = next_sid s)) as [->|Hi], (decide (j = next_sid s)) as [->|Hj];
          rewrite ?lookup_insert_eq, ?lookup_insert_ne by done; [done| | |apply H6].
        -- intros [= <-] Hy Heq. simpl in Heq. specialize (H5 j y Hy). lia.
        -- intros Hx [= <-] Heq. simpl in Heq. specialize (H5 i x Hx). lia.
      * intros q x. destruct (decide (q = next_queue s)) as [->|Hne].
        -- rewrite lookup_insert_eq. intros [= <-]. simpl. lia.
        -- rewrite lookup_insert_ne by done. intros Hx. specialize (H7 q x Hx). lia.
    + intros q. unfold owners, refs, set_field. simpl. rewrite List.filter_app, length_app. simpl.
      rewrite (filter_length_ext (owns (<[next_sid s := _]> (table s)) q) (owns (table s) q) (list_ s)).
      2:{ intros i Hi. unfold owns. rewrite lookup_insert_ne; [done|].
          intros <-. apply (so_list _ Hs) in Hi as [? Hi]. congruence. }
      unfold owns at 2. rewrite lookup_insert_eq. simpl. specialize (Hc q). unfold owners, refs in Hc.
      destruct (Nat.eqb_spec (next_queue s) q) as [<-|Hne]; simpl.
      * rewrite lookup_insert_eq. rewrite Hqfresh in Hc. simpl. lia.
      * rewrite lookup_insert_ne by done. lia.
Qed.

Lemma destroy_begin_spec s sid q s' :
  sess_ok s -> destroy_begin sid s = Some (q, s') ->
  sess_ok s' /\ (forall q', refs s' q' = refs s q') /\
  (forall q', owners s q' = (owners s' q' + Nat.b2n (q' =? q)%nat)%nat).
Proof.
  intros Hs Hd. unfold destroy_begin in Hd. destruct (table s !! sid) as [x|] eqn:Ex; [|done].
  injection Hd as <- <-. destruct (so_ids _ Hs _ _ Ex) as [Hid _]. rewrite Hid.
  assert (Hin : forall i, i ∈ List.filter (fun i => negb (i =? sid)) (list_ s) <-> i ∈ list_ s /\ i <> sid).
  { intros i. rewrite !list_elem_of_In, filter_In, negb_true_iff, Z.eqb_neq. done. }
  assert (Hok : sess_ok (s <| list_ ::= fun l => List.filter (fun i => negb (i =? sid)) l |>
                            <| table ::= fun m => delete sid m |>)).
  { destruct Hs as [H1 H2 H3 H4 H5 H6 H7]. constructor; unfold set_field; simpl; try done.
    - intros i y Hy. apply lookup_delete_Some in Hy as [_ Hy]. by apply H1.
    - intros i. rewrite Hin, H2. destruct (decide (i = sid)) as [->|Hne].
      + rewrite lookup_delete_eq. split; [by intros [_ ?]|by intros [? ?]].
      + rewrite lookup_delete_ne by done. tauto.
    - clear -H3. induction H3 as [|i l Hi _ IH]; simpl; [constructor|].
      destruct (negb (i =? sid)); [|done]. constructor; [|done].
      rewrite list_elem_of_In, filter_In, <- list_elem_of_In. tauto.
    - intros i y Hy. apply lookup_delete_Some in Hy as [_ Hy]. by eapply H5.
    - intros i j y z Hy Hz. apply lookup_delete_Some in Hy as [_ Hy], Hz as [_ Hz]. by apply H6. }
  split; [done|]. split; [done|]. intros q'. destruct (Nat.eqb_spec q' (eventq x)) as [->|Hne]; simpl.
  - rewrite (owners_one s sid x) by done. rewrite owners_zero; [done|].
    intros i y Hy Hq. unfold set_field in Hy. simpl in Hy. apply lookup_delete_Some in Hy as [Hi Hy].
    apply Hi. exact (so_own _ Hs sid i x y Ex Hy (eq_sym Hq)).
  - rewrite Nat.add_0_r. destruct (decide (exists i y, table s !! i = Some y /\ eventq y = q')) as [(i & y & Hy & Hq)|Hno].
    + rewrite (owners_one s i y) by done. symmetry. eapply (owners_one _ i y); [done| |done].
      unfold set_field. simpl. rewrite lookup_delete_ne; [done|]. intros ->. congruence.
    + rewrite !owners_zero; [done| |].
      * intros i y Hy Hq. unfold set_field in Hy. simpl in Hy. apply lookup_delete_Some in Hy as [_ Hy].
        apply Hno. by exists i, y.
      * intros i y Hy Hq. apply Hno. by exists i, y.
Qed.

Lemma destroy_pops_spec n q s :
  sess_ok s -> sess_ok (destroy_pops n q s) /\ (forall q', refs (destroy_pops n q s) q' = refs s q') /\
  (forall q', owners (destroy_pops n q s) q' = owners s q').
Proof.
  revert s. induction n as [|n IH]; intros s Hs; [done|].
  destruct (IH (snd (try_pop q s)) (sess_ok_pop q s Hs)) as (H1 & H2 & H3).
  split; [done|]. split; [intros q'; etrans; [apply H2|apply refs_pop]|intros q'; apply H3].
Qed.

(** A thread that has a reference gives it back. *)
Lemma conf_ok_release s s' ths t th q :
  conf_ok (s, ths) -> ths !! t = Some th -> holds th = Some q -> sess_ok s' ->
  (forall q', refs s' q' = (refs s q' - Nat.b2n (q' =? q)%nat)%nat) ->
  (forall q', owners s' q' = owners s q') -> conf_ok (s', <[t := Idle]> ths).
Proof.
  intros [Hs Hc] Ht Hh Hs' Hr Ho. constructor; [done|]. intros q'. simpl in *. rewrite Hr, Ho, Hc.
  pose proof (holders_insert ths t th Idle q' Ht) as Hcount. unfold holds_b in Hcount. rewrite Hh in Hcount.
  pose proof (holders_pos ths t th q Ht Hh).
  destruct (Nat.eqb_spec q' q) as [->|Hne]; simpl in *.
  - rewrite bool_decide_eq_true_2 in Hcount by done. simpl in Hcount. lia.
  - rewrite bool_decide_eq_false_2 in Hcount by congruence. simpl in Hcount. lia.
Qed.

(** A thread goes on with the queue it has. *)
Lemma conf_ok_keep s s' ths t th th' :
  conf_ok (s, ths) -> ths !! t = Some th -> holds th' = holds th -> sess_ok s' ->
  (forall q', refs s' q' = refs s q') -> (forall q', owners s' q' = owners s q') ->
  conf_ok (s', <[t := th']> ths).
Proof.
  intros [Hs Hc] Ht Hh Hs' Hr Ho. constructor; [done|]. intros q'. simpl in *. rewrite Hr, Ho, Hc.
  pose proof (holders_insert ths t th th' q' Ht) as Hcount. unfold holds_b in Hcount. rewrite Hh in Hcount. lia.
Qed.

Lemma step_ok g dom c c' : step g dom c c' -> conf_ok c -> conf_ok c'.
Proof.
  destruct 1 as [s ths t d Ht Hn|s ths t w sid e Ht|s ths t sid v Ht|s ths t sid timeout q status s' Ht Hb
    |s ths t sid timeout q devent s' Ht Hp|s ths t sid timeout q devent err Ht He|s ths t sid q Ht He
    |s ths t sid timeout q devent Ht He Hor|s ths t q devent Ht|s ths t sid q s' Ht Hd|s ths t q Ht];
    intros Hc; pose proof (co_sess _ Hc) as Hs; simpl in Hs.
  - by apply create_ok.
  - by apply queue_event_ok.
  - apply (conf_ok_same s); [|done| |exact Hc].
    + apply sess_ok_set_session; [apply subscribed_keeps|done].
    + intros q. apply owners_set_session, subscribed_keeps.
  - unfold dequeue_begin in Hb. destruct (table s !! sid) as [x|] eqn:Ex; [|done]. injection Hb as <- <- <-.
    set (s1 := set_session sid (fun x => x <| eventq_status := 0 |>) s).
    assert (Hs1 : sess_ok s1) by (apply sess_ok_set_session; [apply status_keeps|done]).
    assert (Ho1 : forall q', owners s1 q' = owners s q') by (intros q'; apply owners_set_session, status_keeps).
    constructor; [by apply sess_ok_ref|]. intros q'. simpl.
    pose proof (co_refs _ Hc) as Hr. simpl in Hr. rewrite refs_ref.
    + pose proof (holders_insert ths t Idle (Popping sid timeout (eventq x)) q' Ht) as Hcount.
      change (refs s1 q') with (refs s q'). change (owners (g_async_queue_ref (eventq x) s1) q') with (owners s1 q').
      rewrite Ho1, Hr. unfold holds_b in Hcount. simpl in Hcount.
      destruct (Nat.eqb_spec q' (eventq x)) as [->|Hne]; simpl.
      * rewrite bool_decide_eq_true_2 in Hcount by done. simpl in Hcount. lia.
      * rewrite bool_decide_eq_false_2 in Hcount by congruence. simpl in Hcount. lia.
    + change (refs s1 (eventq x)) with (refs s (eventq x)). rewrite Hr, (owners_one s sid x) by done. lia.
  - replace s' with (snd (try_pop q s)) by by rewrite Hp.
    eapply conf_ok_keep; [exact Hc|exact Ht| |by apply sess_ok_pop|apply refs_pop|done].
    unfold after_pop. by destruct (timeout =? SAHPI_TIMEOUT_IMMEDIATE).
  - eapply conf_ok_release; [exact Hc|exact Ht|done|by apply sess_ok_unref|apply refs_unref|done].
  - by eapply conf_ok_keep; [exact Hc|exact Ht|..].
  - by eapply conf_ok_keep; [exact Hc|exact Ht|..].
  - eapply conf_ok_release; [exact Hc|exact Ht|done|by apply sess_ok_unref|apply refs_unref|done].
  - destruct (destroy_begin_spec s sid q s' Hs Hd) as (Hs' & Hr' & Ho').
    constructor; [done|]. intros q'. simpl. pose proof (co_refs _ Hc q') as Hr. simpl in Hr.
    rewrite Hr', Hr, Ho'. pose proof (holders_insert ths t Idle (Closing q) q' Ht) as Hcount.
    unfold holds_b in Hcount. simpl in Hcount. destruct (Nat.eqb_spec q' q) as [->|Hne]; simpl.
    + rewrite bool_decide_eq_true_2 in Hcount by done. simpl in Hcount. lia.
    + rewrite bool_decide_eq_false_2 in Hcount by congruence. simpl in Hcount. lia.
  - destruct (destroy_pops_spec (length (queue_of q s)) q s Hs) as (Hs' & Hr' & Ho').
    eapply conf_ok_release; [exact Hc|exact Ht|done|by apply sess_ok_unref| |exact Ho'].
    intros q'. unfold destroy_end. rewrite refs_unref. by rewrite Hr'.
Qed.

Lemma init_conf_ok n : conf_ok (init_sessions, replicate n Idle).
Proof.
  constructor.
  - constructor; simpl; try done; try lia.
    + intros i. rewrite lookup_empty. split; [by intros ?%not_elem_of_nil|by intros [? ?]].
    + constructor.
  - intros q. simpl. unfold refs, owners. simpl. rewrite lookup_empty. unfold holders.
    induction n as [|n IH]; simpl; [done|]. done.
Qed.

Lemma reach_conf_ok g dom n c : reach g dom n c -> conf_ok c.
Proof. induction 1 as [|c c' _ IH Hst]; [apply init_conf_ok|by eapply step_ok]. Qed.

(** * The operations of one thread *)

Lemma queue_of_set_queue q f s q' :
  queue_of q' (set_queue q f s)
  = if (q' =? q)%nat
    then match queues s !! q with
         | Some x => match f x with Some y => q_events y | None => [] end
         | None => []
         end
    else queue_of q' s.
Proof.
  unfold queue_of, set_queue, set_field. simpl. destruct (Nat.eqb_spec q' q) as [->|Hne].
  - rewrite lookup_partial_alter_eq. destruct (queues s !! q); simpl; [|done]. by destruct (f _).
  - by rewrite lookup_partial_alter_ne.
Qed.

(** A session whose queue is there. *)
Definition open_session (s : session_state) (sid : Z) (x : oh_session) : Prop :=
  table s !! sid = Some x /\ 1 <= sid /\ (1 <= refs s (eventq x))%nat.

Lemma open_session_of s ths sid x : conf_ok (s, ths) -> table s !! sid = Some x -> open_session s sid x.
Proof.
  intros Hc Hx. pose proof (co_sess _ Hc) as Hs. simpl in Hs. destruct (so_ids _ Hs _ _ Hx).
  split; [done|]. split; [lia|]. pose proof (co_refs _ Hc (eventq x)) as Hr. simpl in Hr.
  rewrite (owners_one s sid x) in Hr by done. lia.
Qed.

(** Well-formed sessions, whatever readers and closers are at work. *)
Definition sessions_ok (s : session_state) : Prop := exists ths, conf_ok (s, ths).

Lemma queue_alive s q : (1 <= refs s q)%nat -> exists x, queues s !! q = Some x /\ queue_of q s = q_events x /\ refs s q = q_refs x.
Proof. unfold refs, queue_of. destruct (queues s !! q) as [x|]; [|lia]. intros _. by exists x. Qed.

Definition status_reset (x : oh_session) : oh_session := x <| eventq_status := 0 |>.

(** The state after one event is taken. *)
Definition taken (sid : Z) (q : nat) (s : session_state) : session_state :=
  set_queue q (fun y => Some (y <| q_events ::= tail |>)) (set_session sid status_reset s).

Lemma ref_pop_unref q s :
  (1 <= refs s q)%nat ->
  g_async_queue_unref q (snd (try_pop q (g_async_queue_ref q s)))
  = set_queue q (fun y => Some (y <| q_events ::= tail |>)) s.
Proof.
  intros Hr. destruct (queue_alive s q Hr) as (x & Hx & _ & Hn). rewrite Hn in Hr.
  unfold try_pop, g_async_queue_unref, g_async_queue_ref, set_queue, set_field. simpl. f_equal.
  apply map_eq. intros i. destruct (decide (i = q)) as [->|Hne].
  - rewrite !lookup_partial_alter_eq, Hx. simpl. destruct x as [es [|n]]; [simpl in Hr; lia|]. done.
  - by rewrite !lookup_partial_alter_ne.
Qed.

Lemma dequeue_now_spec s sid x :
  open_session s sid x ->
  dequeue_now sid s
  = (let '(err, e) := dequeue_end (head (queue_of (eventq x) s)) in
     (err, e, Some (eventq_status x), taken sid (eventq x) s)).
Proof.
  intros (Hx & Hsid & Hr). unfold dequeue_now, oh_dequeue_session_event, dequeue_begin.
  rewrite (proj2 (Z.ltb_ge sid 1)) by done. rewrite Hx. simpl.
  set (s1 := set_session sid (fun x => x <| eventq_status := 0 |>) s).
  assert (Hr1 : (1 <= refs s1 (eventq x))%nat) by exact Hr.
  pose proof (ref_pop_unref (eventq x) s1 Hr1) as Hpop. simpl in Hpop.
  assert (Hq : queue_of (eventq x) (g_async_queue_ref (eventq x) s1) = queue_of (eventq x) s).
  { unfold g_async_queue_ref. rewrite queue_of_set_queue, Nat.eqb_refl.
    change (queues s1) with (queues s). unfold queue_of. by destruct (queues s !! eventq x). }
  rewrite Hq, Hpop. by destruct (dequeue_end _).
Qed.

Lemma taken_open s sid x : open_session s sid x -> open_session (taken sid (eventq x) s) sid (status_reset x).
Proof.
  intros (Hx & Hsid & Hr). split; [|split; [done|]].
  - unfold taken. change (table (set_session sid status_reset s) !! sid = Some (status_reset x)).
    rewrite lookup_set_session, Z.eqb_refl, Hx. done.
  - unfold taken. rewrite refs_set_queue. simpl. rewrite Nat.eqb_refl.
    unfold refs in Hr. by destruct (queues s !! eventq x).
Qed.

Lemma taken_queue s sid x q :
  open_session s sid x ->
  queue_of q (taken sid (eventq x) s)
  = if (q =? eventq x)%nat then tail (queue_of (eventq x) s) else queue_of q s.
Proof.
  intros (Hx & _ & Hr). unfold taken. rewrite queue_of_set_queue.
  destruct (q =? eventq x)%nat; [|done]. unfold queue_of, refs in *. simpl.
  by destruct (queues s !! eventq x).
Qed.

#[local] Arguments oh_detect_quit_event : simpl never.

Definition quit (e : oh_event) : bool := oh_detect_quit_event (Some e) =? 0.

(** Taking [n] events, as far as there are some. *)
Fixpoint dequeue_many (n : nat) (sid : Z) (s : session_state) : list oh_event * session_state :=
  match n with
  | O => ([], s)
  | S n =>
      let '(err, e, _, s) := dequeue_now sid s in
      match e with
      | Some e => if err =? SA_OK then let '(l, s) := dequeue_many n sid s in (e :: l, s) else ([], s)
      | None => ([], s)
      end
  end.

Lemma dequeue_many_spec l s sid x :
  open_session s sid x -> queue_of (eventq x) s = l -> Forall (fun e => quit e = false) l ->
  exists s' x', dequeue_many (length l) sid s = (l, s') /\ open_session s' sid x' /\
    eventq x' = eventq x /\ queue_of (eventq x) s' = [].
Proof.
  revert s x. induction l as [|e l IH]; intros s x Ho Hq Hn; simpl; [by exists s, x|].
  inversion_clear Hn as [|? ? He Hn']. rewrite (dequeue_now_spec s sid x Ho), Hq. simpl.
  unfold quit in He. rewrite He. simpl.
  destruct (IH (taken sid (eventq x) s) (status_reset x) (taken_open _ _ _ Ho)) as (s' & x' & E & Ho' & Hx' & Hq').
  - change (eventq (status_reset x)) with (eventq x). by rewrite taken_queue, Nat.eqb_refl, Hq.
  - done.
  - rewrite E. exists s', x'. done.
Qed.

(** The flush takes every event. *)
Lemma flush_ends l s sid x :
  open_session s sid x -> queue_of (eventq x) s = l -> Forall (fun e => quit e = false) l ->
  exists s', flush_queue (S (length l)) sid s = Some s' /\ queue_of (eventq x) s' = [] /\
    table s' !! sid = Some (status_reset x) /\
    (forall i, i <> sid -> table s' !! i = table s !! i) /\
    (forall q, q <> eventq x -> queue_of q s' = queue_of q s).
Proof.
  revert s x. induction l as [|e l IH]; intros s x Ho Hq Hn; cbn [flush_queue length].
  - rewrite (dequeue_now_spec s sid x Ho), Hq. simpl. eexists. split; [reflexivity|].
    rewrite taken_queue, Nat.eqb_refl, Hq by done. split; [done|]. split; [apply (taken_open _ _ _ Ho)|].
    split.
    + intros i Hi. unfold taken. change (table (set_session sid status_reset s) !! i = table s !! i).
      by rewrite lookup_set_session, (proj2 (Z.eqb_neq _ _) Hi).
    + intros q Hne. by rewrite taken_queue, (proj2 (Nat.eqb_neq _ _) Hne).
  - inversion_clear Hn as [|? ? He Hn']. rewrite (dequeue_now_spec s sid x Ho), Hq. simpl.
    unfold quit in He. rewrite He. simpl.
    destruct (IH (taken sid (eventq x) s) (status_reset x) (taken_open _ _ _ Ho)) as (s' & E & Hq' & Hx' & Ht & Hqs).
    + change (eventq (status_reset x)) with (eventq x). by rewrite taken_queue, Nat.eqb_refl, Hq.
    + done.
    + exists s'. split; [exact E|]. split; [done|]. split; [done|]. split.
      * intros i Hi. rewrite Ht by done. unfold taken.
        change (table (set_session sid status_reset s) !! i = table s !! i).
        by rewrite lookup_set_session, (proj2 (Z.eqb_neq _ _) Hi).
      * intros q Hne. rewrite Hqs by done. by rewrite taken_queue, (proj2 (Nat.eqb_neq _ _) Hne).
Qed.

(** A reader that waits and whose pop takes an event, in a blocking read and in a
    timed one. *)
Section PoppingReader.
Context (s : session_state) (sid : Z) (x : oh_session) (e : oh_event) (l : list oh_event).
Context (err : Z) (out : option oh_event).
Hypothesis (Ho : open_session s sid x) (Hsub : truthy (subscribed x) = true)
  (Hq : queue_of (eventq x) s = e :: l) (He : dequeue_end (Some e) = (err, out)).

Lemma reader_pop : exists s1, try_pop (eventq x) s = (Some e, s1) /\ check_open sid s1 = None.
Proof.
  eexists. split; [unfold try_pop; by rewrite Hq|]. unfold check_open, oh_get_session_subscription.
  destruct Ho as (Hx & Hsid & _). rewrite (proj2 (Z.ltb_ge sid 1)) by done. simpl. rewrite Hx. simpl.
  by rewrite Hsub.
Qed.

Lemma blocked_reader_ends fuel wait i s0 :
  wait i s0 = s ->
  exists s1, block_loop (S fuel) wait i sid (eventq x) s0 = Some (err, out, s1).
Proof using All.
  intros Hw. destruct reader_pop as (s1 & E & Hc). cbn [block_loop]. rewrite Hw, E, Hc, He.
  by eexists.
Qed.

Lemma timed_reader_ends fuel wait timeout status s0 s1 :
  dequeue_begin sid s0 = Some (eventq x, status, s1) -> wait 0%nat s1 = s ->
  timeout <> SAHPI_TIMEOUT_IMMEDIATE -> timeout <> SAHPI_TIMEOUT_BLOCK ->
  exists s2, oh_dequeue_session_event fuel wait sid timeout true s0
             = Some (err, out, Some status, s2).
Proof using All.
  intros Hb Hw Hi Hbl. destruct reader_pop as (s2 & E & Hc), Ho as (_ & Hsid & _).
  unfold oh_dequeue_session_event. rewrite (proj2 (Z.ltb_ge sid 1)) by done. simpl orb. cbn match.
  rewrite Hb, (proj2 (Z.eqb_neq _ _) Hi), (proj2 (Z.eqb_neq _ _) Hbl), Hw, E, Hc, He. by eexists.
Qed.
End PoppingReader.

Lemma queue_event_spec g w sid e s x :
  open_session s sid x ->
  let limit := default 0 (get_num OPENHPI_EVT_QUEUE_LIMIT g) in
  let n := Z.of_nat (length (queue_of (eventq x) s)) - w in
  let '(err, s') := oh_queue_session_event g w sid (Some e) s in
  if (0 <? n) && (limit <=? n)
  then err = SA_ERR_HPI_OUT_OF_SPACE /\
       s' = set_session sid (fun x => x <| eventq_status := SAHPI_EVT_QUEUE_OVERFLOW |>) s
  else err = SA_OK /\ table s' = table s /\ (forall q, refs s' q = refs s q) /\
       forall q, queue_of q s' = if (q =? eventq x)%nat then queue_of q s ++ [e] else queue_of q s.
Proof.
  intros (Hx & Hsid & Hr) limit n. unfold oh_queue_session_event.
  rewrite (proj2 (Z.ltb_ge sid 1)) by done. rewrite dup_event_same, Hx.
  change (get_num OPENHPI_EVT_QUEUE_LIMIT g) with (Some (default 0 (get_num OPENHPI_EVT_QUEUE_LIMIT g))).
  fold limit n. cbv zeta. destruct ((0 <? n) && (limit <=? n)); [done|].
  split; [done|]. split; [done|]. split; [intros q; apply refs_push|]. intros q.
  unfold g_async_queue_push. rewrite queue_of_set_queue. destruct (Nat.eqb_spec q (eventq x)) as [->|]; [|done].
  unfold queue_of, refs in *. destruct (queues s !! eventq x); [done|lia].
Qed.

(** * Properties *)

(** C20: the event queues under any interleaving.  However the operations of any
    number of threads interleave - readers that block while their session is
    unsubscribed, closed or filled included -, the session table and list agree,
    ids are unique, and a thread never uses a freed queue: the queue of every
    session and of every reader or closer in progress is allocated.  And nothing
    leaks: when no operation is in progress, the allocated queues are exactly
    those of the open sessions, each with one reference. *)
Theorem session_queues_safe (g : global_params) (domain_exists : Z -> bool) (n : nat)
    (s : session_state) (ths : list thread) :
  reach g domain_exists n (s, ths) ->
  sess_ok s /\
  (forall t th q, ths !! t = Some th -> holds th = Some q -> is_Some (queues s !! q)) /\
  (forall sid x, table s !! sid = Some x -> is_Some (queues s !! eventq x)) /\
  (Forall (fun th => th = Idle) ths ->
     forall q y, queues s !! q = Some y ->
       q_refs y = 1%nat /\ exists sid x, table s !! sid = Some x /\ eventq x = q).
Proof.
  intros Hr. pose proof (reach_conf_ok _ _ _ _ Hr) as [Hs Hc]. simpl in *.
  split; [done|]. split; [|split].
  - intros t th q Ht Hh. apply refs_alive; [done|]. rewrite Hc.
    pose proof (holders_pos ths t th q Ht Hh). lia.
  - intros sid x Hx. apply refs_alive; [done|]. rewrite Hc, (owners_one s sid x) by done. lia.
  - intros Hidle q y Hy.
    assert (Hh : holders ths q = 0%nat).
    { unfold holders. clear -Hidle. induction Hidle as [|th l -> _ IH]; simpl; done. }
    assert (Hq : q_refs y = owners s q).
    { specialize (Hc q). unfold refs in Hc. rewrite Hy, Hh in Hc. lia. }
    pose proof (so_alive _ Hs q y Hy) as [_ Hpos].
    destruct (decide (exists sid x, table s !! sid = Some x /\ eventq x = q)) as [(sid & x & Hx & Hqx)|Hno].
    + split; [|by exists sid, x]. by rewrite Hq, (owners_one s sid x).
    + rewrite Hq, owners_zero in Hpos; [lia|]. intros i x Hx Hqx. apply Hno. by exists i, x.
Qed.

(** A thread reads while another one closes the session. *)
Definition example_session : session_state := snd (oh_create_session (fun _ => true) 0 init_sessions).
Definition race_read : session_state :=
  match dequeue_begin 1 example_session with Some (_, _, s) => s | None => example_session end.
Definition race_closed : session_state :=
  match destroy_begin 1 race_read with Some (_, s) => s | None => race_read end.
Lemma race_reach :
  reach example_params (fun _ => true) 2 (race_closed, [Popping 1 SAHPI_TIMEOUT_BLOCK 0; Closing 0]).
Proof.
  apply (reach_step _ _ _ (race_read, [Popping 1 SAHPI_TIMEOUT_BLOCK 0; Idle])).
  - apply (reach_step _ _ _ (example_session, [Idle; Idle])).
    + apply (reach_step _ _ _ (init_sessions, [Idle; Idle])); [apply (reach_init _ _ 2)|].
      by apply (st_create _ _ _ _ 0%nat 0).
    + by apply (st_read _ _ _ [Idle; Idle] 0%nat 1 SAHPI_TIMEOUT_BLOCK 0%nat 0).
  - by apply (st_destroy _ _ _ [Popping 1 SAHPI_TIMEOUT_BLOCK 0; Idle] 1%nat 1 0%nat).
Qed.
Lemma session_queues_safe_witness :
  table race_closed !! 1 = None /\ is_Some (queues race_closed !! 0%nat).
Proof.
  split; [by vm_compute|].
  destruct (session_queues_safe _ _ _ _ _ race_reach) as (_ & H & _). by apply (H 0%nat (Popping 1 SAHPI_TIMEOUT_BLOCK 0) 0%nat).
Defined.

(** C34: events of a session.  An event queued to an open session is delivered
    after those queued before it, and only to that session; at the queue limit
    it is refused, nothing is queued, and the next read reports the overflow -
    once.  Reading delivers the queued events in order, then times out.
    Unsubscribing ends and empties the queue.  An empty queue always takes an
    event, a longer one has to be shorter than the limit: a limit of 0 is not
    "unlimited", as [openhpi.conf.example] says, but lets a single event wait
    ([zero_limit_refuses]). *)
Theorem session_events_correct (g : global_params) (s : session_state) (sid : Z) (x : oh_session)
    (e : oh_event) :
  open_session s sid x -> Forall (fun e => quit e = false) (queue_of (eventq x) s) -> quit e = false ->
  let limit := default 0 (get_num OPENHPI_EVT_QUEUE_LIMIT g) in
  let l := queue_of (eventq x) s in
  (if (0 <? Z.of_nat (length l)) && (limit <=? Z.of_nat (length l))
   then exists s', oh_queue_session_event g 0 sid (Some e) s = (SA_ERR_HPI_OUT_OF_SPACE, s') /\
     (forall q, queue_of q s' = queue_of q s) /\
     exists s'' ev, dequeue_now sid s' = (SA_OK, ev, Some SAHPI_EVT_QUEUE_OVERFLOW, s'') /\ ev = head l /\
       (exists x'', open_session s'' sid x'' /\ eventq_status x'' = 0)
   else exists s', oh_queue_session_event g 0 sid (Some e) s = (SA_OK, s') /\
     table s' = table s /\ (forall q, q <> eventq x -> queue_of q s' = queue_of q s) /\
     exists s'', dequeue_many (S (length l)) sid s' = (l ++ [e], s'') /\
       (let '(err, _, _, _) := dequeue_now sid s'' in err = SA_ERR_HPI_TIMEOUT)) /\
  (exists s', oh_set_session_subscription sid SAHPI_FALSE s = (SA_OK, s') /\
     queue_of (eventq x) s' = [] /\ subscribed <$> (table s' !! sid) = Some SAHPI_FALSE /\
     forall i, i <> sid -> table s' !! i = table s !! i).
Proof.
  intros Ho Hn He limit l. pose proof (queue_event_spec g 0 sid e s x Ho) as Hq. cbv zeta in Hq.
  rewrite Z.sub_0_r in Hq. fold limit l in Hq. assert (Hl : queue_of (eventq x) s = l) by done. rewrite Hl in Hn.
  clearbody l. split.
  - destruct (oh_queue_session_event g 0 sid (Some e) s) as [err s'] eqn:E.
    destruct ((0 <? Z.of_nat (length l)) && (limit <=? Z.of_nat (length l))) eqn:Efull.
    + destruct Hq as [-> ->]. eexists. split; [reflexivity|]. split; [done|].
      set (x' := x <| eventq_status := SAHPI_EVT_QUEUE_OVERFLOW |>).
      assert (Ho' : open_session (set_session sid (fun x => x <| eventq_status := SAHPI_EVT_QUEUE_OVERFLOW |>) s) sid x').
      { destruct Ho as (Hx & Hsid & Hr). split; [|split; [done|exact Hr]].
        rewrite lookup_set_session, Z.eqb_refl, Hx. done. }
      rewrite (dequeue_now_spec _ sid x' Ho').
      change (queue_of (eventq x') (set_session sid _ s)) with (queue_of (eventq x) s). rewrite Hl.
      destruct l as [|e0 l0] eqn:El; [done|]. inversion_clear Hn as [|? ? He0 _]. simpl.
      unfold quit in He0. rewrite He0. eexists _, _. split; [reflexivity|]. split; [done|].
      eexists. split; [apply (taken_open _ _ _ Ho')|done].
    + destruct Hq as (-> & Ht & Hr & Hqs). eexists. split; [reflexivity|]. split; [done|]. split.
      * intros q Hne. by rewrite Hqs, (proj2 (Nat.eqb_neq _ _) Hne).
      * assert (Ho' : open_session s' sid x).
        { destruct Ho as (Hx & Hsid & Hal). split; [by rewrite Ht|]. split; [done|]. by rewrite Hr. }
        assert (Hl' : queue_of (eventq x) s' = l ++ [e]) by by rewrite Hqs, Nat.eqb_refl, Hl.
        destruct (dequeue_many_spec (l ++ [e]) s' sid x Ho' Hl') as (s'' & x'' & Hm & Ho'' & Hx'' & Hempty).
        { apply Forall_app. split; [done|]. by apply Forall_singleton. }
        exists s''. split; [by rewrite <- Hm, length_app, Nat.add_comm|].
        rewrite (dequeue_now_spec _ _ _ Ho''), Hx'', Hempty. done.
  - destruct Ho as (Hx & Hsid & Hr). unfold oh_set_session_subscription.
    rewrite (proj2 (Z.ltb_ge sid 1)) by done. rewrite Hx. rewrite (Z.eqb_refl SAHPI_FALSE).
    set (s1 := set_session sid (fun x => x <| subscribed := SAHPI_FALSE |>) s).
    set (x1 := x <| subscribed := SAHPI_FALSE |>).
    assert (Ho1 : open_session s1 sid x1).
    { split; [|split; [done|exact Hr]]. unfold s1. by rewrite lookup_set_session, Z.eqb_refl, Hx. }
    destruct (flush_ends l s1 sid x1 Ho1 Hl Hn) as (s' & Hf & Hq' & Hx' & Ht' & _).
    change (queue_of (eventq x) s1) with (queue_of (eventq x) s). rewrite Hl, Hf. exists s'. split; [done|]. split; [done|].
    split; [by rewrite Hx'|]. intros i Hi. rewrite Ht' by done. unfold s1.
    by rewrite lookup_set_session, (proj2 (Z.eqb_neq _ _) Hi).
Qed.

Lemma session_events_correct_witness :
  exists s', oh_queue_session_event example_params 0 1 (Some zero_oh_event) example_session = (SA_OK, s') /\
    exists s'', dequeue_many 1 1 s' = ([zero_oh_event], s'') /\
      (let '(err, _, _, _) := dequeue_now 1 s'' in err = SA_ERR_HPI_TIMEOUT).
Proof.
  destruct (session_events_correct example_params example_session 1
              {| id := 1; did := 0; subscribed := 0; eventq_status := 0; eventq := 0 |} zero_oh_event)
    as [(s' & H1 & _ & _ & s'' & H2 & H3) _].
  - split; [by vm_compute|]. split; [lia|by vm_compute; lia].
  - vm_compute. constructor.
  - by vm_compute.
  - exists s'. split; [exact H1|]. exists s''. split; [exact H2|exact H3].
Defined.

(** [openhpi.conf.example] says that OPENHPI_EVT_QUEUE_LIMIT = 0 means unlimited.
    The code has no case for 0: with that limit a queue that holds an event
    refuses every further one, and marks the session as overflowed. *)
Theorem zero_limit_refuses (g : global_params) (s : session_state) (sid : Z) (x : oh_session) (e : oh_event) :
  open_session s sid x -> get_num OPENHPI_EVT_QUEUE_LIMIT g = Some 0 -> queue_of (eventq x) s <> [] ->
  exists s', oh_queue_session_event g 0 sid (Some e) s = (SA_ERR_HPI_OUT_OF_SPACE, s') /\
    (forall q, queue_of q s' = queue_of q s) /\
    eventq_status <$> (table s' !! sid) = Some SAHPI_EVT_QUEUE_OVERFLOW.
Proof.
  intros Ho Hg Hq. pose proof (queue_event_spec g 0 sid e s x Ho) as Hs. cbv zeta in Hs. rewrite Hg in Hs.
  change (default 0 (Some 0)) with 0 in Hs. destruct (oh_queue_session_event _ _ _ _ _) as [err s'].
  destruct (queue_of (eventq x) s) as [|y l] eqn:El; [done|].
  assert ((0 <? Z.of_nat (length (y :: l)) - 0) && (0 <=? Z.of_nat (length (y :: l)) - 0) = true) as Hfull.
  { apply andb_true_iff. split; [apply Z.ltb_lt|apply Z.leb_le]; simpl; lia. }
  rewrite Hfull in Hs. destruct Hs as [-> ->]. eexists. split; [done|]. split; [done|].
  rewrite lookup_set_session, Z.eqb_refl. by rewrite (proj1 Ho).
Qed.

Lemma zero_limit_refuses_witness :
  exists s', oh_queue_session_event (example_params <| evt_queue_limit := 0 |>) 0 1
      (Some zero_oh_event) (g_async_queue_push 0 zero_oh_event example_session) = (SA_ERR_HPI_OUT_OF_SPACE, s').
Proof.
  destruct (zero_limit_refuses (example_params <| evt_queue_limit := 0 |>)
              (g_async_queue_push 0 zero_oh_event example_session) 1
              {| id := 1; did := 0; subscribed := 0; eventq_status := 0; eventq := 0 |} zero_oh_event)
    as (s' & H & _).
  - split; [by vm_compute|]. split; [lia|by vm_compute; lia].
  - by vm_compute.
  - by vm_compute.
  - by exists s'.
Defined.
