(* ===== verification/TextBuffer.v ===== *)
(** Text buffers: the functions on [SaHpiTextBufferT] of
    [utils/sahpi_struct_utils.c].

    The data of a buffer is an array of [SAHPI_MAX_TEXT_BUFFER_LENGTH] bytes of
    which [DataLength] are used. *)
From S2P Require Import Prelude SaHpi.

Definition SAHPI_TL_TYPE_UNICODE : Z := 0.
Definition SAHPI_TL_TYPE_BCDPLUS : Z := 1.
Definition SAHPI_TL_TYPE_ASCII6 : Z := 2.
Definition SAHPI_LANG_ZULU : Z := 136.
#[export] Hint Unfold SAHPI_TL_TYPE_UNICODE SAHPI_TL_TYPE_BCDPLUS SAHPI_TL_TYPE_ASCII6
  SAHPI_TL_TYPE_TEXT SAHPI_TL_TYPE_BINARY SAHPI_LANG_UNDEF SAHPI_LANG_ZULU : hpi_const.

(** Whether [oh_lookup_texttype] and [oh_lookup_language] have a name for the
    value: every value of the enumerations has one. *)
Definition oh_lookup_texttype (value : Z) : bool :=
  (SAHPI_TL_TYPE_UNICODE <=? value) && (value <=? SAHPI_TL_TYPE_BINARY).
Definition oh_lookup_language (value : Z) : bool :=
  (SAHPI_LANG_UNDEF <=? value) && (value <=? SAHPI_LANG_ZULU).

Definition oh_init_textbuffer (buffer : option SaHpiTextBufferT) : Z * option SaHpiTextBufferT :=
  match buffer with
  | None => (SA_ERR_HPI_INVALID_PARAMS, None)
  | Some _ =>
      (SA_OK, Some (zero_textbuffer <| DataType := SAHPI_TL_TYPE_TEXT |>
                      <| Language := SAHPI_LANG_ENGLISH |> <| DataLength := 0 |>))
  end.

Definition oh_copy_textbuffer (dest from : option SaHpiTextBufferT) : Z * option SaHpiTextBufferT :=
  match dest, from with
  | Some d, Some f =>
      (SA_OK, Some (d <| DataType := DataType f |> <| Language := Language f |>
                      <| DataLength := DataLength f |> <| Data := Data f |>))
  | _, _ => (SA_ERR_HPI_INVALID_PARAMS, dest)
  end.

(** [strncpy(p, from, strlen(from))] at an offset of the array. *)
Definition write_at (off : nat) (bytes data : list Z) : list Z :=
  take off data ++ bytes ++ drop (off + length bytes) data.

(** [from] is the bytes of the string before its terminating zero. *)
Definition oh_append_textbuffer (buffer : option SaHpiTextBufferT) (from : option (list Z))
    : Z * option SaHpiTextBufferT :=
  match buffer, from with
  | Some b, Some from =>
      let size := Z.of_nat (length from) in
      if Z.of_nat SAHPI_MAX_TEXT_BUFFER_LENGTH <=? size + DataLength b
      then (SA_ERR_HPI_OUT_OF_SPACE, buffer)
      else (SA_OK, Some (b <| Data ::= write_at (Z.to_nat (DataLength b)) from |>
                           <| DataLength ::= fun n => u8 (n + size) |>))
  | _, _ => (SA_ERR_HPI_INVALID_PARAMS, buffer)
  end.

(** ** Validity *)

Definition U_IS_SURROGATE (c : Z) : bool := Z.land c 0xfffff800 =? 0xd800.
Definition U_IS_LEAD (c : Z) : bool := Z.land c 0xfffffc00 =? 0xd800.
Definition U_IS_TRAIL (c : Z) : bool := Z.land c 0xfffffc00 =? 0xdc00.

(** The 16-bit character at byte [i], least significant byte first. *)
Definition char_at (data : list Z) (i : Z) : Z :=
  Z.lor (nth (Z.to_nat i) data 0) (Z.shiftl (nth (Z.to_nat (i + 1)) data 0) 8).

(** The loop over the characters from byte [i]; the fuel is [DataLength], which
    is enough as [i] grows in every round. *)
Fixpoint unicode_loop (fuel : nat) (data : list Z) (len i : Z) : bool :=
  match fuel with
  | O => true
  | S fuel =>
      if i <? len then
        let c1 := char_at data i in
        if U_IS_SURROGATE c1 then
          if i + 3 <? len then
            let c2 := char_at data (i + 2) in
            if U_IS_LEAD c1 && U_IS_TRAIL c2 then unicode_loop fuel data len (i + 2 + 2) else false
          else false
        else unicode_loop fuel data len (i + 2)
      else true
  end.

Definition bcdplus_char (c : Z) : bool :=
  negb (((c <? 0x30) || (0x39 <? c)) && negb (c =? 0x20) && negb (c =? 0x2d) && negb (c =? 0x2e)
        && negb (c =? 0x3a) && negb (c =? 0x2c) && negb (c =? 0x5f)).
Definition ascii6_char (c : Z) : bool := negb ((c <? 0x20) || (0x5f <? c)).

(** The bytes the loops look at. *)
Definition used_bytes (b : SaHpiTextBufferT) : list Z :=
  take (Nat.min (Z.to_nat (DataLength b)) SAHPI_MAX_TEXT_BUFFER_LENGTH) (Data b).

Definition oh_valid_textbuffer (buffer : option SaHpiTextBufferT) : Z :=
  match buffer with
  | None => SAHPI_FALSE
  | Some b =>
      if negb (oh_lookup_texttype (DataType b)) then SAHPI_FALSE
      else if DataType b =? SAHPI_TL_TYPE_UNICODE then
        if negb (oh_lookup_language (Language b)) then SAHPI_FALSE
        else if negb (DataLength b mod 2 =? 0) then SAHPI_FALSE
        else if negb (unicode_loop (Z.to_nat (DataLength b)) (Data b) (DataLength b) 0)
        then SAHPI_FALSE else SAHPI_TRUE
      else if DataType b =? SAHPI_TL_TYPE_BCDPLUS then
        if forallb bcdplus_char (used_bytes b) then SAHPI_TRUE else SAHPI_FALSE
      else if DataType b =? SAHPI_TL_TYPE_ASCII6 then
        if forallb ascii6_char (used_bytes b) then SAHPI_TRUE else SAHPI_FALSE
      else if DataType b =? SAHPI_TL_TYPE_TEXT then
        if negb (oh_lookup_language (Language b)) then SAHPI_FALSE else SAHPI_TRUE
      else if DataType b =? SAHPI_TL_TYPE_BINARY then SAHPI_TRUE
      else SAHPI_FALSE
  end.

(** * UTF-16 *)

(** Well-formed UTF-16: characters outside of the surrogate range, and pairs of
    a leading and a trailing surrogate. *)
Inductive utf16 : list Z -> Prop :=
  | utf16_nil : utf16 []
  | utf16_char c l : 0 <= c < 0xd800 \/ 0xe000 <= c < 0x10000 -> utf16 l -> utf16 (c :: l)
  | utf16_pair c1 c2 l : 0xd800 <= c1 < 0xdc00 -> 0xdc00 <= c2 < 0xe000 -> utf16 l ->
      utf16 (c1 :: c2 :: l).

(** The 16-bit units of little-endian bytes. *)
Fixpoint units (l : list Z) : list Z :=
  match l with a :: b :: l => a + 256 * b :: units l | _ => [] end.

(** The mask that clears the [k] low bits. *)
Lemma land_mask c k :
  0 <= c < 2 ^ 32 -> 0 <= k <= 32 ->
  Z.land c (Z.shiftl (Z.ones (32 - k)) k) = c / 2 ^ k * 2 ^ k.
Proof.
  intros Hc Hk. rewrite <- Z.shiftr_div_pow2, <- Z.shiftl_mul_pow2 by lia.
  apply Z.bits_inj'. intros i Hi. rewrite Z.land_spec, !Z.shiftl_spec by lia.
  destruct (Z.lt_ge_cases i k) as [Hlt|Hge].
  - rewrite !(Z.testbit_neg_r _ (i - k)) by lia. apply andb_false_r.
  - rewrite Z.shiftr_spec, Z.testbit_ones by lia. rewrite Z.sub_add.
    destruct (Z.lt_ge_cases i 32) as [Hi32|Hi32].
    + rewrite (proj2 (Z.leb_le 0 (i - k))), (proj2 (Z.ltb_lt (i - k) (32 - k))) by lia. apply andb_true_r.
    + rewrite (proj2 (Z.ltb_ge (i - k) (32 - k))) by lia. rewrite !andb_false_r.
      symmetry. apply Z.testbit_false; [lia|]. rewrite Z.div_small; [done|].
      pose proof (Z.pow_le_mono_r 2 32 i). lia.
Qed.

Lemma surrogate_ranges c :
  0 <= c < 2 ^ 16 ->
  U_IS_SURROGATE c = (0xd800 <=? c) && (c <? 0xe000) /\
  U_IS_LEAD c = (0xd800 <=? c) && (c <? 0xdc00) /\
  U_IS_TRAIL c = (0xdc00 <=? c) && (c <? 0xe000).
Proof.
  intros Hc. unfold U_IS_SURROGATE, U_IS_LEAD, U_IS_TRAIL.
  change 0xfffff800 with (Z.shiftl (Z.ones (32 - 11)) 11). change 0xfffffc00 with (Z.shiftl (Z.ones (32 - 10)) 10).
  rewrite !land_mask by lia. change (2 ^ 11) with 2048. change (2 ^ 10) with 1024.
  pose proof (Z.div_mod c 2048). pose proof (Z.mod_pos_bound c 2048).
  pose proof (Z.div_mod c 1024). pose proof (Z.mod_pos_bound c 1024).
  repeat split; apply Bool.eq_iff_eq_true; rewrite andb_true_iff, Z.eqb_eq, Z.leb_le, Z.ltb_lt; lia.
Qed.

Definition bytes (l : list Z) : Prop := Forall (fun b => 0 <= b < 256) l.

Lemma byte_pair a b : 0 <= a < 256 -> Z.lor a (Z.shiftl b 8) = a + 256 * b.
Proof.
  intros Ha. apply Z.bits_inj'. intros n Hn. rewrite Z.lor_spec, Z.shiftl_spec by done.
  replace (a + 256 * b) with (a + b * 2 ^ 8) by lia.
  destruct (Z.lt_ge_cases n 8) as [Hlt|Hge].
  - rewrite (Z.testbit_neg_r b) by lia. rewrite orb_false_r.
    rewrite <- (Z.mod_pow2_bits_low (a + b * 2 ^ 8) 8) by lia. rewrite Z.mod_add by lia.
    by rewrite Z.mod_small by lia.
  - replace (Z.testbit a n) with false.
    + replace n with (n - 8 + 8) at 2 by lia. rewrite <- Z.shiftr_spec by lia.
      rewrite Z.shiftr_div_pow2, Z.div_add, Z.div_small by lia. done.
    + symmetry. destruct (decide (a = 0)) as [->|]; [apply Z.testbit_0_l|].
      apply Z.bits_above_log2; [lia|]. apply Z.log2_lt_pow2; [lia|].
      pose proof (Z.pow_le_mono_r 2 8 n). lia.
Qed.

(** The loop on the remaining units. *)
Fixpoint units_ok (l : list Z) : bool :=
  match l with
  | [] => true
  | c1 :: l =>
      if U_IS_SURROGATE c1 then
        match l with c2 :: l => U_IS_LEAD c1 && U_IS_TRAIL c2 && units_ok l | [] => false end
      else units_ok l
  end.

Lemma unicode_loop_units fuel (pre l : list Z) :
  bytes l -> (exists k, length l = 2 * k)%nat -> (length l <= fuel)%nat ->
  forall post, unicode_loop fuel (pre ++ l ++ post) (Z.of_nat (length pre + length l)) (Z.of_nat (length pre))
  = units_ok (units l).
Proof.
  revert pre l. induction fuel as [fuel IH] using lt_wf_ind. intros pre l Hb [k Hk] Hf post.
  destruct l as [|a [|b l]]; simpl in Hk; [|lia|].
  { destruct fuel; simpl; [done|]. by rewrite (proj2 (Z.ltb_ge _ _)) by (simpl; lia). }
  destruct fuel as [|fuel]; simpl in Hf; [lia|].
  inversion_clear Hb as [|? ? Ha Hb1]. inversion_clear Hb1 as [|? ? Hb Hl].
  assert (Hat : forall x y l1 l2, 0 <= x < 256 ->
            char_at (l1 ++ x :: y :: l2) (Z.of_nat (length l1)) = x + 256 * y).
  { intros x y l1 l2 Hx. unfold char_at. rewrite Nat2Z.id.
    replace (Z.to_nat (Z.of_nat (length l1) + 1)) with (length l1 + 1)%nat by lia.
    rewrite !app_nth2_plus, <- (Nat.add_0_r (length l1)), app_nth2_plus. simpl. by apply byte_pair. }
  cbn [unicode_loop]. rewrite (proj2 (Z.ltb_lt _ _)) by (simpl; lia).
  simpl app. rewrite Hat by done. cbn [units units_ok].
  assert (Hshift : forall pre', pre ++ a :: b :: pre' = (pre ++ [a; b]) ++ pre') by (intros; by rewrite <- app_assoc).
  destruct (U_IS_SURROGATE (a + 256 * b)).
  - destruct l as [|c [|d l]]; simpl in Hk; [|lia|].
    + by rewrite (proj2 (Z.ltb_ge _ _)) by (simpl; lia).
    + rewrite (proj2 (Z.ltb_lt _ _)) by (simpl; lia). cbn [units].
      inversion_clear Hl as [|? ? Hc Hl1]. inversion_clear Hl1 as [|? ? Hd Hl].
      simpl app. rewrite (Hshift (c :: d :: l ++ post)).
      replace (Z.of_nat (length pre) + 2) with (Z.of_nat (length (pre ++ [a; b])))
        by (rewrite length_app; simpl; lia).
      rewrite Hat by done. destruct (U_IS_LEAD _ && U_IS_TRAIL _); [|done]. simpl andb.
      specialize (IH fuel ltac:(lia) ((pre ++ [a; b]) ++ [c; d]) l Hl).
      rewrite <- (IH ltac:(exists (k - 2)%nat; lia) ltac:(simpl in Hf; lia) post).
      rewrite <- (app_assoc (pre ++ [a; b])). simpl app. f_equal; rewrite ?length_app; simpl; lia.
  - specialize (IH fuel ltac:(lia) (pre ++ [a; b]) l Hl).
    rewrite <- (IH ltac:(exists (k - 1)%nat; lia) ltac:(lia) post).
    rewrite (Hshift (l ++ post)). f_equal; rewrite ?length_app; simpl; lia.
Qed.

Lemma units_ok_utf16 l : Forall (fun c => 0 <= c < 2 ^ 16) l -> units_ok l = true <-> utf16 l.
Proof.
  intros Hl. remember (length l) as n eqn:Hn. revert l Hl Hn.
  induction n as [n IH] using lt_wf_ind. intros l Hl ->. destruct l as [|c l].
  { split; [intros _; constructor|done]. }
  inversion_clear Hl as [|? ? Hc Hl']. destruct (surrogate_ranges c Hc) as (Hs & Hlead & _). simpl.
  rewrite Hs. destruct ((0xd800 <=? c) && (c <? 0xe000)) eqn:Es; zbool.
  - destruct l as [|d l].
    + split; [done|]. inversion 1; subst; lia.
    + inversion_clear Hl' as [|? ? Hd Hl]. destruct (surrogate_ranges d Hd) as (_ & _ & Ht).
      rewrite Hlead, Ht, !andb_true_iff. rewrite (IH (length l) ltac:(simpl; lia) l Hl eq_refl).
      rewrite !Z.leb_le, !Z.ltb_lt. split.
      * intros [[[? ?] [? ?]] ?]. by apply utf16_pair.
      * inversion 1; subst; [lia|]. done.
  - rewrite (IH (length l) ltac:(simpl; lia) l Hl' eq_refl). apply andb_false_iff in Es.
    split.
    + intros Hu. constructor; [|done]. destruct Es; zbool; lia.
    + inversion 1; subst; [done|]. destruct Es; zbool; lia.
Qed.

Lemma units_range l : bytes l -> Forall (fun c => 0 <= c < 2 ^ 16) (units l).
Proof.
  remember (length l) as n eqn:Hn. revert l Hn. induction n as [n IH] using lt_wf_ind.
  intros [|a [|b l]] Hn Hb; simpl; try constructor; inversion_clear Hb as [|? ? Ha Hb1];
    inversion_clear Hb1 as [|? ? Hb Hl].
  - lia.
  - apply (IH (length l)); [simpl in Hn; lia|done|done].
Qed.

(** * Properties *)

(** Validity of text buffers.  For any buffer whose length is within its
    array, [oh_valid_textbuffer] accepts exactly the valid ones: a known language
    and well-formed UTF-16 of whole characters for UNICODE - a surrogate only as
    half of a pair -, the allowed characters for BCDPLUS and ASCII6, a known
    language for TEXT, and any BINARY data; the loops never read behind the
    used bytes. *)
Theorem oh_valid_textbuffer_correct (b : SaHpiTextBufferT) :
  0 <= DataLength b <= 255 -> length (Data b) = SAHPI_MAX_TEXT_BUFFER_LENGTH -> bytes (Data b) ->
  let used := take (Z.to_nat (DataLength b)) (Data b) in
  oh_valid_textbuffer (Some b) = SAHPI_TRUE <->
  (DataType b = SAHPI_TL_TYPE_UNICODE /\ 0 <= Language b <= SAHPI_LANG_ZULU /\
     Z.even (DataLength b) = true /\ utf16 (units used)) \/
  (DataType b = SAHPI_TL_TYPE_BCDPLUS /\
     Forall (fun c => 0x30 <= c <= 0x39 \/ c ∈ [0x20; 0x2d; 0x2e; 0x3a; 0x2c; 0x5f]) used) \/
  (DataType b = SAHPI_TL_TYPE_ASCII6 /\ Forall (fun c => 0x20 <= c <= 0x5f) used) \/
  (DataType b = SAHPI_TL_TYPE_TEXT /\ 0 <= Language b <= SAHPI_LANG_ZULU) \/
  DataType b = SAHPI_TL_TYPE_BINARY.
Proof.
  intros Hlen Hdata Hbytes used.
  assert (Hused : used_bytes b = used).
  { unfold used_bytes, used. f_equal. unfold SAHPI_MAX_TEXT_BUFFER_LENGTH. lia. }
  assert (Hul : length used = Z.to_nat (DataLength b)).
  { unfold used. rewrite length_take, Hdata. unfold SAHPI_MAX_TEXT_BUFFER_LENGTH. lia. }
  unfold oh_valid_textbuffer, oh_lookup_texttype. rewrite Hused.
  assert (Hlang : oh_lookup_language (Language b) = true <-> 0 <= Language b <= SAHPI_LANG_ZULU).
  { unfold oh_lookup_language. rewrite andb_true_iff, !Z.leb_le. done. }
  destruct ((SAHPI_TL_TYPE_UNICODE <=? DataType b) && (DataType b <=? SAHPI_TL_TYPE_BINARY)) eqn:Et; simpl.
  2:{ apply andb_false_iff in Et. split; [done|]. consts.
      intros [(? & _)|[(? & _)|[(? & _)|[(? & _)|?]]]]; destruct Et; zbool; lia. }
  zbool. consts.
  assert (DataType b = 0 \/ DataType b = 1 \/ DataType b = 2 \/ DataType b = 3 \/ DataType b = 4)
    as [Ht|[Ht|[Ht|[Ht|Ht]]]] by lia; rewrite Ht; simpl.
  - rewrite <- Hlang. destruct (oh_lookup_language (Language b)); simpl.
    2:{ split; [done|]. intros [(_ & ? & _)|[(? & _)|[(? & _)|[(? & _)|?]]]]; lia || done. }
    assert (Heven : (DataLength b mod 2 =? 0) = Z.even (DataLength b)) by (by rewrite Zeven_mod).
    rewrite Heven. destruct (Z.even (DataLength b)) eqn:Ee; simpl.
    2:{ split; [done|]. intros [(_ & _ & ? & _)|[(? & _)|[(? & _)|[(? & _)|?]]]]; lia || done. }
    assert (Hloop : unicode_loop (Z.to_nat (DataLength b)) (Data b) (DataLength b) 0 = units_ok (units used)).
    { rewrite <- (take_drop (Z.to_nat (DataLength b)) (Data b)) at 1. fold used.
      pose proof (unicode_loop_units (Z.to_nat (DataLength b)) [] used) as Hloop. simpl in Hloop.
      rewrite Hul, Z2Nat.id in Hloop by lia. apply Hloop; [by apply Forall_take| |lia].
      apply Z.even_spec in Ee as [k Hk]. exists (Z.to_nat k). lia. }
    rewrite Hloop. assert (Hu : units_ok (units used) = true <-> utf16 (units used)).
    { apply units_ok_utf16, units_range, Forall_take. exact Hbytes. }
    rewrite <- Hu. destruct (units_ok (units used)); simpl; split; try done; [tauto|].
    intros [(_ & _ & _ & ?)|[(? & _)|[(? & _)|[(? & _)|?]]]]; lia || done.
  - assert (Hf : forallb bcdplus_char used = true <->
      Forall (fun c => 0x30 <= c <= 0x39 \/ c ∈ [0x20; 0x2d; 0x2e; 0x3a; 0x2c; 0x5f]) used).
    { rewrite forallb_forall, Forall_forall. setoid_rewrite list_elem_of_In at 1.
      apply forall_proper. intros c. split; intros Hx Hin; specialize (Hx Hin); revert Hx;
        unfold bcdplus_char; rewrite !elem_of_cons, ?negb_true_iff, ?elem_of_nil;
        repeat match goal with |- context [?x =? ?y] => destruct (Z.eqb_spec x y) end;
        repeat match goal with |- context [?x <? ?y] => destruct (Z.ltb_spec x y) end; simpl; intros; try done; lia. }
    rewrite <- Hf. destruct (forallb bcdplus_char used); split; try done; [tauto|].
    intros [(? & _)|[(_ & ?)|[(? & _)|[(? & _)|?]]]]; lia || done.
  - assert (Hf : forallb ascii6_char used = true <-> Forall (fun c => 0x20 <= c <= 0x5f) used).
    { rewrite forallb_forall, Forall_forall. setoid_rewrite list_elem_of_In at 1.
      apply forall_proper. intros c. unfold ascii6_char. rewrite negb_true_iff, orb_false_iff, !Z.ltb_ge. done. }
    rewrite <- Hf. destruct (forallb ascii6_char used); split; try done; [tauto|].
    intros [(? & _)|[(? & _)|[(_ & ?)|[(? & _)|?]]]]; lia || done.
  - rewrite <- Hlang. destruct (oh_lookup_language (Language b)); simpl; split; try done; [tauto|].
    intros [(? & _)|[(? & _)|[(? & _)|[(_ & ?)|?]]]]; lia || done.
  - split; [|done]. intros _. by do 4 right.
Qed.

(** A surrogate pair and a letter. *)
Definition example_text : SaHpiTextBufferT :=
  {| DataType := SAHPI_TL_TYPE_UNICODE; Language := SAHPI_LANG_ENGLISH; DataLength := 6;
     Data := [0x3d; 0xd8; 0x00; 0xde; 0x61; 0x00] ++ replicate 249 0 |}.
Lemma oh_valid_textbuffer_correct_witness : oh_valid_textbuffer (Some example_text) = SAHPI_TRUE.
Proof.
  apply oh_valid_textbuffer_correct; [simpl; lia|done| |].
  - apply Forall_app. split; [repeat constructor; lia|]. apply Forall_replicate. lia.
  - left. split; [done|]. split; [by vm_compute|]. split; [done|]. vm_compute.
    apply utf16_pair; [lia|lia|]. apply utf16_char; [lia|]. constructor.
Defined.

(** Appending keeps what is there and adds the string after it. *)
Lemma append_textbuffer_bytes (b : SaHpiTextBufferT) (from : list Z) :
  0 <= DataLength b -> length (Data b) = SAHPI_MAX_TEXT_BUFFER_LENGTH ->
  Z.of_nat (length from) + DataLength b < Z.of_nat SAHPI_MAX_TEXT_BUFFER_LENGTH ->
  exists b', oh_append_textbuffer (Some b) (Some from) = (SA_OK, Some b') /\
    take (Z.to_nat (DataLength b')) (Data b') = take (Z.to_nat (DataLength b)) (Data b) ++ from /\
    length (Data b') = SAHPI_MAX_TEXT_BUFFER_LENGTH /\ DataType b' = DataType b /\ Language b' = Language b.
Proof.
  intros H0 Hd Hs. unfold oh_append_textbuffer. rewrite (proj2 (Z.leb_gt _ _)) by lia.
  eexists. split; [reflexivity|]. unfold set_field, write_at. simpl.
  unfold SAHPI_MAX_TEXT_BUFFER_LENGTH in *.
  assert (Ht : length (take (Z.to_nat (DataLength b)) (Data b)) = Z.to_nat (DataLength b))
    by (rewrite length_take; lia).
  rewrite u8_id by lia. split; [|split; [|done]].
  - rewrite app_assoc. rewrite take_app_le by (rewrite length_app; lia).
    apply take_ge. rewrite length_app. lia.
  - rewrite !length_app, length_drop. lia.
Qed.
