(* ===== verification/Domain.v ===== *)
(** Domains: [openhpid/domain.c].

    The domain table, the creation of domains with their place among the other
    domains (the Domain Reference Tables of parents and peers), and the lookups.
    Here one thread runs at a time: every [oh_get_domain] of an operation is
    paired with an [oh_release_domain], so the reference counts are the same
    before and after it and are left out; [DomainLife] models the counts, the
    locks and the destruction of domains under interleaving. *)
From S2P Require Import Prelude SaHpi TextBuffer Rpt EventLog Conf DomainState EventUtils Alarm Session.

Definition SAHPI_DOMAIN_REF_ADDED : Z := 0.
Definition SAHPI_DOMAIN_REF_REMOVED : Z := 1.

(** [oh_domains] with the queue of events to process, [oh_process_q]. *)
Record domain_table := {
  dt_table : gmap Z oh_domain; dt_list : list Z; process_q : list oh_event }.
#[export] Instance eta_domain_table : Eta domain_table := fun x =>
  Build_domain_table (dt_table x) (dt_list x) (process_q x).

Definition init_domains : domain_table := {| dt_table := ∅; dt_list := []; process_q := [] |}.

Definition oh_get_domain (did : Z) (w : domain_table) : option oh_domain :=
  dt_table w !! default_did did.

(** A change of a domain that was found. *)
Definition set_domain (did : Z) (f : oh_domain -> oh_domain) (w : domain_table) : domain_table :=
  w <| dt_table ::= fun m => alter f (default_did did) m |>.

Definition gen_domain_event (now target_id subject_id addition : Z) (w : domain_table) : domain_table :=
  let type := if truthy addition then SAHPI_DOMAIN_REF_ADDED else SAHPI_DOMAIN_REF_REMOVED in
  let e := zero_oh_event
             <| resource ::= fun r => r <| ResourceId := SAHPI_UNSPECIFIED_RESOURCE_ID |> |>
             <| EventUtils.event := {| Source := target_id; event_Timestamp := now;
                                       event_Severity := SAHPI_INFORMATIONAL;
                                       EventDataUnion := DomainEvent type subject_id |} |> in
  w <| process_q ::= fun q => q ++ [e] |>.

(** The loop that removes the first entry for a domain. *)
Fixpoint remove_drt_entry (l : list SaHpiDrtEntryT) (subject_id : Z) : option (list SaHpiDrtEntryT) :=
  match l with
  | [] => None
  | e :: l =>
      if drt_DomainId e =? subject_id then Some l
      else match remove_drt_entry l subject_id with Some l => Some (e :: l) | None => None end
  end.

Definition touch_drt (now : Z) (d : oh_domain) : oh_domain :=
  d <| drt ::= fun t => t <| drt_update_timestamp := now |>
                          <| drt_update_count ::= fun n => u32 (n + 1) |> |>.

Definition update_drt (now target_id subject_id subject_is_peer addition : Z) (w : domain_table)
    : domain_table :=
  match oh_get_domain target_id w with
  | None => w
  | Some domain =>
      if truthy addition then
        let entry := {| drt_EntryId := u32 (drt_next_id (drt domain) + 1); drt_DomainId := subject_id;
                        IsPeer := subject_is_peer |} in
        let w := set_domain target_id (fun d =>
                   d <| drt ::= fun t => t <| drt_next_id := drt_EntryId entry |>
                                           <| drt_list ::= fun l => l ++ [entry] |> |>) w in
        let w := gen_domain_event now target_id subject_id SAHPI_TRUE w in
        set_domain target_id (touch_drt now) w
      else
        match remove_drt_entry (drt_list (drt domain)) subject_id with
        | Some l =>
            let w := set_domain target_id (fun d => d <| drt ::= fun t => t <| drt_list := l |> |>) w in
            let w := gen_domain_event now target_id subject_id SAHPI_FALSE w in
            set_domain target_id (touch_drt now) w
        | None => w
        end
  end.

Definition add_drtentry (now target_id subject_id subject_is_peer : Z) : domain_table -> domain_table :=
  update_drt now target_id subject_id subject_is_peer SAHPI_TRUE.
Definition del_drtentry (now target_id subject_id : Z) : domain_table -> domain_table :=
  update_drt now target_id subject_id SAHPI_FALSE SAHPI_FALSE.

Definition connect2parent (now domain parent : Z) (w : domain_table) : Z * domain_table :=
  if parent =? SAHPI_UNSPECIFIED_DOMAIN_ID then (-2, w)
  else match oh_get_domain parent w with
       | None => (-3, w)
       | Some _ =>
           let w := add_drtentry now parent domain SAHPI_FALSE w in
           (0, set_domain domain (fun d => d <| drt ::= fun t => t <| parent_id := parent |> |>) w)
       end.

(** The loop over the nodes of the peer's list, from node [i]: the list is read
    as it is when a node is reached.  [None] when the fuel is not enough. *)
Fixpoint peer_loop (fuel : nat) (now domain peer : Z) (i : nat) (w : domain_table)
    : option domain_table :=
  match fuel with
  | O => None
  | S fuel =>
      match oh_get_domain peer w ≫= (fun p => drt_list (drt p) !! i) with
      | None => Some w
      | Some e =>
          let w := add_drtentry now domain (drt_DomainId e) (IsPeer e) w in
          let w := if truthy (IsPeer e) then add_drtentry now (drt_DomainId e) domain SAHPI_TRUE w else w in
          peer_loop fuel now domain peer (S i) w
      end
  end.

(** A peer is in its own list at most through its entries for itself, each of
    which makes the loop add one more node. *)
Definition peer_fuel (peer : Z) (w : domain_table) : nat :=
  match oh_get_domain peer w with Some p => S (2 * length (drt_list (drt p))) | None => 1 end.

Definition connect2peer (now domain peer : Z) (w : domain_table) : Z * domain_table :=
  if peer =? SAHPI_UNSPECIFIED_DOMAIN_ID then (-2, w)
  else match oh_get_domain peer w with
       | None => (-3, w)
       | Some _ =>
           let w := default w (peer_loop (peer_fuel peer w) now domain peer 0 w) in
           let w := add_drtentry now domain peer SAHPI_TRUE w in
           (0, add_drtentry now peer domain SAHPI_TRUE w)
       end.

Definition zero_domain : oh_domain :=
  {| domain_id := 0; DomainState.tag := zero_textbuffer; domain_ai_timeout := 0; capabilities := 0;
     guid := replicate 16 0; rpt := zero_rpt; dat := zero_dat; drt := zero_drt; del := oh_el_create 0;
     refcount := 0 |}.

(** The domain before it is put into the table.  [del_file] and [dat_file] are
    the contents of its save files. *)
Definition new_domain (g : global_params) (now : Z) (del_file : option (list oh_el_entry))
    (dat_file : option (list SaHpiAlarmT)) (id : Z) (tag : option (list Z)) (caps ai_timeout : Z)
    : oh_domain :=
  let d := zero_domain <| domain_id := id |> in
  let d := match tag with
           | Some text =>
               let b := snd (oh_init_textbuffer (Some (DomainState.tag d))) in
               let b := snd (oh_append_textbuffer b (Some text)) in
               d <| DomainState.tag := default zero_textbuffer b |>
           | None => d
           end in
  let d := d <| capabilities := caps |> <| domain_ai_timeout := ai_timeout |> in
  let d := d <| rpt := default zero_rpt (snd (oh_init_rpt (Some (rpt d)))) |> in
  let d := d <| drt ::= fun t => t <| drt_update_timestamp := SAHPI_TIME_UNSPECIFIED |> |> in
  let d := d <| del := oh_el_create (default 0 (get_num OPENHPI_DEL_SIZE_LIMIT g)) |> in
  let d := if truthy (default 0 (get_num OPENHPI_DEL_SAVE g))
           then d <| del := default (del d) (snd (oh_el_map_from_file (Some (del d)) (Some (varpath g)) del_file)) |>
           else d in
  if truthy (default 0 (get_num OPENHPI_DAT_SAVE g))
  then match snd (oh_alarms_from_file g now true (fun _ => true)
                    (Some {| dom := d; dat_file := dat_file |}) (Some (varpath g))) with
       | Some s => dom s
       | None => d
       end
  else d.

Definition oh_create_domain (g : global_params) (now : Z) (del_file : option (list oh_el_entry))
    (dat_file : option (list SaHpiAlarmT)) (id : Z) (tag : option (list Z))
    (child_of peer_of caps ai_timeout : Z) (w : domain_table) : Z * domain_table :=
  let id := default_did id in
  if (peer_of =? id) || (child_of =? id)
     || ((child_of =? peer_of) && negb (child_of =? SAHPI_UNSPECIFIED_DOMAIN_ID))
  then (SA_ERR_HPI_INVALID_PARAMS, w)
  else match dt_table w !! id with
       | Some _ => (SA_ERR_HPI_INVALID_DOMAIN, w)
       | None =>
           let domain := new_domain g now del_file dat_file id tag caps ai_timeout in
           let w := w <| dt_list ::= fun l => l ++ [id] |> <| dt_table ::= fun m => <[id := domain]> m |> in
           let w := if negb (child_of =? SAHPI_UNSPECIFIED_DOMAIN_ID)
                    then snd (connect2parent now id child_of w) else w in
           let w := if negb (peer_of =? SAHPI_UNSPECIFIED_DOMAIN_ID)
                    then snd (connect2peer now id peer_of w) else w in
           (SA_OK, w)
       end.

(** What is left of a domain when its parts are freed. *)
Definition delete_domain (clock : nat -> Z) (g : global_params) (now : Z) (d : oh_domain) : oh_domain :=
  let d := d <| rpt := default (rpt d) (snd (oh_flush_rpt clock (Some (rpt d)))) |> in
  let _ := oh_el_close (Some (del d)) in
  let d := default d (snd (oh_close_alarmtable g now (Some d))) in
  d <| drt ::= fun t => t <| drt_list := [] |> |>.

(** Without other threads the domain is deleted at once. *)
Definition oh_destroy_domain (clock : nat -> Z) (g : global_params) (now did : Z) (w : domain_table)
    : Z * option oh_domain * domain_table :=
  if (did =? OH_DEFAULT_DOMAIN_ID) || (did =? SAHPI_UNSPECIFIED_DOMAIN_ID)
  then (SA_ERR_HPI_INVALID_PARAMS, None, w)
  else match oh_get_domain did w with
       | None => (SA_ERR_HPI_NOT_PRESENT, None, w)
       | Some d =>
           (SA_OK, Some (delete_domain clock g now d),
            w <| dt_table ::= fun m => delete (domain_id d) m |>
              <| dt_list ::= fun l => List.filter (fun i => negb (i =? domain_id d)) l |>)
       end.

(** The loop over the entries: the entry found and the one after it. *)
Fixpoint find_drt_entry (l : list SaHpiDrtEntryT) (entryid : Z) : option (SaHpiDrtEntryT * Z) :=
  match l with
  | [] => None
  | cur :: rest =>
      if (drt_EntryId cur =? entryid) || (entryid =? SAHPI_FIRST_ENTRY)
      then Some (cur, match rest with [] => SAHPI_LAST_ENTRY | next :: _ => drt_EntryId next end)
      else find_drt_entry rest entryid
  end.

(** The result: the error, the id after the entry and the entry. *)
Definition oh_drt_entry_get (did entryid : Z) (nextentryid drtentry : bool) (w : domain_table)
    : Z * option (Z * SaHpiDrtEntryT) :=
  if negb nextentryid || negb drtentry then (SA_ERR_HPI_INVALID_PARAMS, None)
  else match oh_get_domain did w with
       | None => (SA_ERR_HPI_INTERNAL_ERROR, None)
       | Some d =>
           match find_drt_entry (drt_list (drt d)) entryid with
           | Some (e, next) => (SA_OK, Some (next, e))
           | None => (SA_ERR_HPI_NOT_PRESENT, None)
           end
       end.

(** * The reference tables as a graph *)

(** The entries of a domain's table: the other domain, and whether it is a peer. *)
Definition entry_of (e : SaHpiDrtEntryT) : Z * Z := (drt_DomainId e, IsPeer e).
Definition entries (w : domain_table) (a : Z) : list (Z * Z) :=
  match dt_table w !! a with Some d => entry_of <$> drt_list (drt d) | None => [] end.

(** Everything of a domain but its reference table. *)
Definition core (d : oh_domain) : oh_domain := d <| drt := zero_drt |>.

(** The entry ids count up from 1. *)
Definition drt_ids (d : oh_domain) : Prop :=
  drt_next_id (drt d) = u32 (Z.of_nat (length (drt_list (drt d)))) /\
  forall i e, drt_list (drt d) !! i = Some e -> drt_EntryId e = u32 (Z.of_nat i + 1).

(** [w'] has the same domains as [w], up to the reference tables. *)
Record same_domains (w w' : domain_table) : Prop := {
  sd_core : forall a, core <$> dt_table w' !! a = core <$> dt_table w !! a;
  sd_list : dt_list w' = dt_list w;
  sd_ids : (forall a d, dt_table w !! a = Some d -> drt_ids d) ->
           forall a d, dt_table w' !! a = Some d -> drt_ids d }.

#[export] Instance same_domains_preorder : PreOrder same_domains.
Proof.
  split; [by constructor|]. intros w1 w2 w3 [H1 H2 H3] [K1 K2 K3]. constructor.
  - intros a. by rewrite K1, H1.
  - by rewrite K2.
  - intros Hi. apply K3, H3, Hi.
Qed.

Lemma same_is_Some w w' a : same_domains w w' -> is_Some (dt_table w' !! a) <-> is_Some (dt_table w !! a).
Proof.
  intros [Hc _ _]. specialize (Hc a).
  destruct (dt_table w' !! a), (dt_table w !! a); simplify_eq/=; by split; intros [? ?].
Qed.

Lemma default_did_id a : a <> SAHPI_UNSPECIFIED_DOMAIN_ID -> default_did a = a.
Proof. intros H. unfold default_did. by rewrite (proj2 (Z.eqb_neq _ _) H). Qed.

Lemma lookup_set_domain did f w a :
  dt_table (set_domain did f w) !! a
  = if a =? default_did did then f <$> dt_table w !! a else dt_table w !! a.
Proof.
  unfold set_domain, set_field. simpl. destruct (Z.eqb_spec a (default_did did)) as [->|Hne].
  - by rewrite lookup_alter_eq.
  - by rewrite lookup_alter_ne.
Qed.

Lemma gen_table now t s a w : dt_table (gen_domain_event now t s a w) = dt_table w.
Proof. done. Qed.

Lemma add_drtentry_lookup now t s p w d :
  t <> SAHPI_UNSPECIFIED_DOMAIN_ID -> dt_table w !! t = Some d ->
  exists d', (forall a, dt_table (add_drtentry now t s p w) !! a
                        = if a =? t then Some d' else dt_table w !! a) /\
    core d' = core d /\
    drt_list (drt d') = drt_list (drt d) ++
      [{| drt_EntryId := u32 (drt_next_id (drt d) + 1); drt_DomainId := s; IsPeer := p |}] /\
    drt_next_id (drt d') = u32 (drt_next_id (drt d) + 1).
Proof.
  intros Ht Hd. unfold add_drtentry, update_drt, oh_get_domain. rewrite default_did_id, Hd by done.
  change (truthy SAHPI_TRUE) with true. cbv zeta iota. eexists. split; [|split; [|split]].
  - intros a. rewrite lookup_set_domain, gen_table, lookup_set_domain, default_did_id by done.
    destruct (Z.eqb_spec a t) as [->|]; [|done]. rewrite Hd. reflexivity.
  - done.
  - done.
  - done.
Qed.

Lemma add_drtentry_spec now t s p w :
  t <> SAHPI_UNSPECIFIED_DOMAIN_ID -> is_Some (dt_table w !! t) ->
  same_domains w (add_drtentry now t s p w) /\
  forall a, entries (add_drtentry now t s p w) a
            = if a =? t then entries w a ++ [(s, p)] else entries w a.
Proof.
  intros Ht [d Hd]. destruct (add_drtentry_lookup now t s p w d Ht Hd) as (d' & Hl & Hcore & Hlist & Hnext).
  split.
  - constructor.
    + intros a. rewrite Hl. destruct (Z.eqb_spec a t) as [->|]; [|done]. rewrite Hd. simpl. by rewrite Hcore.
    + unfold add_drtentry, update_drt. destruct (oh_get_domain t w); done.
    + intros Hids a x. rewrite Hl. destruct (Z.eqb_spec a t) as [->|]; [|by apply Hids].
      intros [= <-]. destruct (Hids t d Hd) as [Hn Hi]. unfold drt_ids. rewrite Hlist, Hnext, Hn.
      assert (Hu : forall z, u32 (u32 z + 1) = u32 (z + 1)) by (intros z; unfold u32; apply Zplus_mod_idemp_l).
      rewrite Hu, length_app. simpl. split; [f_equal; lia|]. intros i e He.
      apply lookup_app_Some in He as [He|[Hge He]]; [by apply Hi|].
      apply list_lookup_singleton_Some in He as [Hi0 <-]. simpl. f_equal. lia.
  - intros a. unfold entries. rewrite Hl. destruct (Z.eqb_spec a t) as [->|]; [|done].
    rewrite Hd, Hlist, fmap_app. done.
Qed.

(** ** Connecting to a peer *)

(** How often a domain is a peer in a list of entries. *)
Definition is_peer (a : Z) (e : Z * Z) : bool := (e.1 =? a) && truthy e.2.
Definition count_peer (a : Z) (l : list (Z * Z)) : nat := length (List.filter (is_peer a) l).

(** The entries of the peer lead to other known domains. *)
Definition known_others (w : domain_table) (n p : Z) (l : list (Z * Z)) : Prop :=
  Forall (fun e => e.1 <> n /\ e.1 <> p /\ e.1 <> SAHPI_UNSPECIFIED_DOMAIN_ID /\
                   is_Some (dt_table w !! e.1)) l.

Lemma peer_node w p i :
  p <> SAHPI_UNSPECIFIED_DOMAIN_ID ->
  entry_of <$> (oh_get_domain p w ≫= (fun d => drt_list (drt d) !! i)) = entries w p !! i.
Proof.
  intros Hp. unfold oh_get_domain, entries. rewrite default_did_id by done.
  destruct (dt_table w !! p) as [d|]; simpl; [|done]. by rewrite list_lookup_fmap.
Qed.

Lemma known_same w w' n p l : same_domains w w' -> known_others w n p l -> known_others w' n p l.
Proof.
  intros Hs Hk. eapply Forall_impl; [exact Hk|]. intros e (? & ? & ? & ?). by rewrite same_is_Some.
Qed.

(** One round. *)
Lemma peer_round now n p w b q :
  n <> SAHPI_UNSPECIFIED_DOMAIN_ID -> n <> p -> is_Some (dt_table w !! n) ->
  b <> n -> b <> p -> b <> SAHPI_UNSPECIFIED_DOMAIN_ID -> is_Some (dt_table w !! b) ->
  let w1 := add_drtentry now n b q w in
  let w2 := if truthy q then add_drtentry now b n SAHPI_TRUE w1 else w1 in
  same_domains w w2 /\ entries w2 n = entries w n ++ [(b, q)] /\
  forall a, a <> n -> entries w2 a = entries w a ++ replicate (count_peer a [(b, q)]) (n, SAHPI_TRUE).
Proof.
  intros Hn Hnp Hns Hbn Hbp Hb Hbs w1 w2.
  destruct (add_drtentry_spec now n b q w Hn Hns) as [Hs1 He1]. fold w1 in Hs1, He1.
  unfold count_peer, is_peer, w2. simpl. destruct (truthy q).
  - destruct (add_drtentry_spec now b n SAHPI_TRUE w1 Hb) as [Hs2 He2]; [by rewrite same_is_Some|].
    split; [by etrans|]. split.
    + rewrite He2, (proj2 (Z.eqb_neq n b)) by congruence. by rewrite He1, Z.eqb_refl.
    + intros a Ha. rewrite He2, !He1, (proj2 (Z.eqb_neq a n)) by done.
      rewrite (Z.eqb_sym b a). destruct (a =? b); simpl; [done|by rewrite app_nil_r].
  - split; [done|]. split; [by rewrite He1, Z.eqb_refl|].
    intros a Ha. rewrite He1, (proj2 (Z.eqb_neq a n)) by done. rewrite andb_false_r. simpl. by rewrite app_nil_r.
Qed.

Lemma count_peer_app a l k : count_peer a (l ++ k) = (count_peer a l + count_peer a k)%nat.
Proof. unfold count_peer. by rewrite List.filter_app, length_app. Qed.

Lemma count_peer_none a l : Forall (fun e => e.1 <> a) l -> count_peer a l = 0%nat.
Proof.
  unfold count_peer. induction 1 as [|e l He _ IH]; simpl; [done|].
  unfold is_peer at 1. by rewrite (proj2 (Z.eqb_neq _ _) He).
Qed.

Lemma peer_loop_spec now n p E :
  n <> SAHPI_UNSPECIFIED_DOMAIN_ID -> p <> SAHPI_UNSPECIFIED_DOMAIN_ID -> n <> p ->
  forall fuel i w, (length E - i < fuel)%nat -> entries w p = E -> is_Some (dt_table w !! n) ->
  known_others w n p E ->
  exists w', peer_loop fuel now n p i w = Some w' /\ same_domains w w' /\
    entries w' n = entries w n ++ drop i E /\
    forall a, a <> n -> entries w' a = entries w a ++ replicate (count_peer a (drop i E)) (n, SAHPI_TRUE).
Proof.
  intros Hn Hp Hnp. induction fuel as [|fuel IH]; intros i w Hf HE Hns Hk; [lia|]. cbn [peer_loop].
  pose proof (peer_node w p i Hp) as Hnode. rewrite HE in Hnode.
  destruct (oh_get_domain p w ≫= _) as [e|]; simpl in Hnode.
  2:{ exists w. symmetry in Hnode. apply lookup_ge_None in Hnode. rewrite drop_ge by done.
      split; [done|]. split; [done|]. split; [by rewrite app_nil_r|].
      intros a _. simpl. by rewrite app_nil_r. }
  symmetry in Hnode. pose proof (lookup_lt_Some _ _ _ Hnode) as Hi.
  pose proof Hk as Hk'. unfold known_others in Hk'. rewrite Forall_lookup in Hk'.
  destruct (Hk' i _ Hnode) as (Hbn & Hbp & Hb & Hbs). simpl in Hbn, Hbp, Hb, Hbs.
  destruct (peer_round now n p w (drt_DomainId e) (IsPeer e) Hn Hnp Hns Hbn Hbp Hb Hbs) as (Hs & Hen & Hea).
  set (w2 := if truthy (IsPeer e) then _ else _) in *. clearbody w2.
  destruct (IH (S i) w2) as (w' & Hl & Hs' & Hen' & Hea').
  - lia.
  - rewrite Hea by done. rewrite HE. rewrite count_peer_none; [apply app_nil_r|].
    by apply Forall_singleton.
  - by rewrite same_is_Some.
  - by eapply known_same.
  - exists w'. split; [done|]. split; [by etrans|]. rewrite (drop_S E _ i Hnode).
    change (entry_of e) with (drt_DomainId e, IsPeer e). split.
    + by rewrite Hen', Hen, <- app_assoc.
    + intros a Ha. rewrite Hea', Hea by done.
      change ((drt_DomainId e, IsPeer e) :: drop (S i) E) with ([(drt_DomainId e, IsPeer e)] ++ drop (S i) E).
      by rewrite count_peer_app, replicate_add, app_assoc.
Qed.

(** ** A new domain *)

Definition no_dat (d : oh_domain) : oh_domain := d <| dat := zero_dat |>.

Lemma add_alarm_no_dat g now fo fw s a ff : no_dat (dom (snd (add_alarm g now fo fw s a ff))) = no_dat (dom s).
Proof.
  unfold add_alarm. destruct (at_limit _ _ _); [done|]. destruct (user_limit_reached _ _ _); [done|].
  destruct ff.
  - destruct (_ <? _); done.
  - unfold save_dat. destruct (truthy _); done.
Qed.

Lemma read_alarms_no_dat g now fo fw l s :
  no_dat (dom (snd (read_alarms g now fo fw s l))) = no_dat (dom s).
Proof.
  revert s. induction l as [|a l IH]; intros s; simpl; [done|].
  pose proof (add_alarm_no_dat g now fo fw s (Some a) true) as H.
  destruct (add_alarm g now fo fw s (Some a) true) as [[[r|] ref] s']; simpl in *; [|done].
  by rewrite IH.
Qed.

Lemma new_domain_fields g now df af n tag caps to :
  domain_id (new_domain g now df af n tag caps to) = n /\
  drt (new_domain g now df af n tag caps to)
    = zero_drt <| drt_update_timestamp := SAHPI_TIME_UNSPECIFIED |> /\
  capabilities (new_domain g now df af n tag caps to) = caps /\
  domain_ai_timeout (new_domain g now df af n tag caps to) = to /\
  rptlist (rpt (new_domain g now df af n tag caps to)) = [].
Proof.
  unfold new_domain. set (d0 := match tag with Some _ => _ | None => _ end).
  assert (H0 : domain_id d0 = n /\ drt d0 = zero_drt) by (unfold d0; by destruct tag).
  clearbody d0. destruct H0 as [Hid Hdrt].
  set (d1 := if truthy (default 0 (get_num OPENHPI_DEL_SAVE g)) then _ else _).
  assert (H1 : domain_id d1 = n /\ drt d1 = zero_drt <| drt_update_timestamp := SAHPI_TIME_UNSPECIFIED |> /\
    capabilities d1 = caps /\ domain_ai_timeout d1 = to /\ rptlist (rpt d1) = []).
  { unfold d1. rewrite <- Hdrt, <- Hid.
    destruct (truthy _); (split; [reflexivity|]; split; [reflexivity|]; split; [reflexivity|]; split; reflexivity). }
  clearbody d1. destruct (truthy _); [|done]. unfold oh_alarms_from_file. simpl.
  destruct af as [l|]; [|done].
  pose proof (read_alarms_no_dat g now true (fun _ => true) l {| dom := d1; dat_file := Some l |}) as Hr.
  destruct (read_alarms _ _ _ _ _ _) as [err s]. cbn [snd dom] in *.
  destruct H1 as (<- & <- & <- & <- & Hrpt).
  split; [exact (f_equal domain_id Hr)|]. split; [exact (f_equal drt Hr)|].
  split; [exact (f_equal capabilities Hr)|]. split; [exact (f_equal domain_ai_timeout Hr)|].
  etrans; [exact (f_equal (fun d => rptlist (rpt d)) Hr)|exact Hrpt].
Qed.

Record dt_ok (w : domain_table) : Prop := {
  dk_ids : forall a d, dt_table w !! a = Some d -> domain_id d = a /\ drt_ids d;
  dk_unspecified : dt_table w !! SAHPI_UNSPECIFIED_DOMAIN_ID = None;
  dk_list : forall a, a ∈ dt_list w <-> is_Some (dt_table w !! a);
  dk_nodup : NoDup (dt_list w);
  dk_known : forall a, Forall (fun e => e.1 <> a /\ e.1 <> SAHPI_UNSPECIFIED_DOMAIN_ID /\
                                         is_Some (dt_table w !! e.1)) (entries w a);
  dk_peers : forall a b, count_peer b (entries w a) = count_peer a (entries w b) }.

(** The effect of the creation on the entries. *)
Definition parent_part (w : domain_table) (n child_of a : Z) : list (Z * Z) :=
  if bool_decide (is_Some (dt_table w !! child_of)) && (a =? child_of) then [(n, SAHPI_FALSE)] else [].
Definition peer_part (w : domain_table) (n peer_of a : Z) : list (Z * Z) :=
  if bool_decide (is_Some (dt_table w !! peer_of)) then
    if a =? n then entries w peer_of ++ [(peer_of, SAHPI_TRUE)]
    else replicate (count_peer a (entries w peer_of)) (n, SAHPI_TRUE)
         ++ (if a =? peer_of then [(n, SAHPI_TRUE)] else [])
  else [].

(** The table with the new domain in it. *)
Definition with_domain (n : Z) (d : oh_domain) (w : domain_table) : domain_table :=
  w <| dt_list ::= fun l => l ++ [n] |> <| dt_table ::= fun m => <[n := d]> m |>.

Lemma with_domain_lookup n d w a :
  dt_table (with_domain n d w) !! a = if a =? n then Some d else dt_table w !! a.
Proof.
  unfold with_domain, set_field. simpl. destruct (Z.eqb_spec a n) as [->|Hne].
  - by rewrite lookup_insert_eq.
  - by rewrite lookup_insert_ne.
Qed.

Lemma with_domain_is_Some n d w a :
  is_Some (dt_table (with_domain n d w) !! a) <-> a = n \/ is_Some (dt_table w !! a).
Proof.
  rewrite with_domain_lookup. destruct (Z.eqb_spec a n) as [->|Hne].
  - split; [by left|by eexists].
  - split; [by right|by intros [?|?]].
Qed.

Lemma with_domain_entries n d w a :
  drt_list (drt d) = [] -> dt_table w !! n = None -> entries (with_domain n d w) a = entries w a.
Proof.
  intros Hd Hn. unfold entries. rewrite with_domain_lookup. destruct (Z.eqb_spec a n) as [->|]; [|done].
  by rewrite Hd, Hn.
Qed.

Lemma set_parent_spec n q w :
  n <> SAHPI_UNSPECIFIED_DOMAIN_ID ->
  let w' := set_domain n (fun d => d <| drt ::= fun t => t <| parent_id := q |> |>) w in
  same_domains w w' /\ forall a, entries w' a = entries w a.
Proof.
  intros Hn w'. assert (Hl : forall a, dt_table w' !! a = if a =? n
      then (fun d => d <| drt ::= fun t => t <| parent_id := q |> |>) <$> dt_table w !! a else dt_table w !! a).
  { intros a. unfold w'. by rewrite lookup_set_domain, default_did_id. }
  split; [constructor|].
  - intros a. rewrite Hl. destruct (a =? n); [|done]. by destruct (dt_table w !! a).
  - done.
  - intros Hi a d. rewrite Hl. destruct (a =? n); [|apply Hi].
    destruct (dt_table w !! a) as [x|] eqn:E; simpl; [|done]. intros [= <-]. apply (Hi a x E).
  - intros a. unfold entries. rewrite Hl. destruct (a =? n); [|done]. by destruct (dt_table w !! a).
Qed.

Lemma connect2parent_spec now n q w :
  n <> SAHPI_UNSPECIFIED_DOMAIN_ID -> q <> SAHPI_UNSPECIFIED_DOMAIN_ID -> 
  same_domains w (snd (connect2parent now n q w)) /\
  forall a, entries (snd (connect2parent now n q w)) a = entries w a ++ parent_part w n q a.
Proof.
  intros Hn Hq. unfold connect2parent, parent_part, oh_get_domain.
  rewrite (proj2 (Z.eqb_neq _ _) Hq), default_did_id by done.
  destruct (dt_table w !! q) as [dq|] eqn:Eq; simpl.
  - destruct (add_drtentry_spec now q n SAHPI_FALSE w Hq) as [Hs He]; [by eexists|].
    destruct (set_parent_spec n q (add_drtentry now q n SAHPI_FALSE w) Hn) as [Hs' He'].
    split; [by etrans|]. intros a. rewrite He', He. destruct (a =? q); [done|by rewrite app_nil_r].
  - split; [done|]. intros a. by rewrite app_nil_r.
Qed.

Lemma connect2peer_spec now n p w :
  n <> SAHPI_UNSPECIFIED_DOMAIN_ID -> p <> SAHPI_UNSPECIFIED_DOMAIN_ID -> n <> p ->
  is_Some (dt_table w !! n) -> known_others w n p (entries w p) ->
  same_domains w (snd (connect2peer now n p w)) /\
  forall a, entries (snd (connect2peer now n p w)) a = entries w a ++ peer_part w n p a.
Proof.
  intros Hn Hp Hnp Hns Hk. unfold connect2peer, peer_fuel, peer_part.
  rewrite (proj2 (Z.eqb_neq _ _) Hp). unfold oh_get_domain. rewrite default_did_id by done.
  destruct (dt_table w !! p) as [dp|] eqn:Ep.
  2:{ split; [done|]. intros a. by rewrite app_nil_r. }
  assert (Hlen : length (entries w p) = length (drt_list (drt dp))).
  { unfold entries. by rewrite Ep, length_fmap. }
  destruct (peer_loop_spec now n p (entries w p) Hn Hp Hnp (S (2 * length (drt_list (drt dp)))) 0 w)
    as (w1 & Hl & Hs1 & Hen & Hea); [lia|done|done|done|].
  rewrite Hl. simpl. rewrite drop_0 in Hen, Hea.
  assert (Hns1 : is_Some (dt_table w1 !! n)) by by rewrite same_is_Some.
  destruct (add_drtentry_spec now n p SAHPI_TRUE w1 Hn Hns1) as [Hs2 He2].
  set (w2 := add_drtentry now n p SAHPI_TRUE w1) in *.
  assert (Hps2 : is_Some (dt_table w2 !! p)).
  { rewrite (same_is_Some w1) by done. rewrite same_is_Some by done. by eexists. }
  destruct (add_drtentry_spec now p n SAHPI_TRUE w2 Hp Hps2) as [Hs3 He3].
  split; [by etrans; [|etrans]|]. intros a. rewrite He3, !He2.
  destruct (Z.eqb_spec a n) as [->|Han].
  - rewrite (proj2 (Z.eqb_neq n p)) by done. by rewrite Hen, <- app_assoc.
  - rewrite Hea by done. destruct (a =? p); [by rewrite <- app_assoc|by rewrite app_nil_r].
Qed.

(** Counting in the new entries. *)
Lemma count_replicate_ne a n k : a <> n -> count_peer a (replicate k (n, SAHPI_TRUE)) = 0%nat.
Proof. intros H. apply count_peer_none, Forall_replicate. simpl. congruence. Qed.

Lemma count_replicate n k : count_peer n (replicate k (n, SAHPI_TRUE)) = k.
Proof.
  unfold count_peer. induction k as [|k IH]; simpl; [done|].
  unfold is_peer at 1. simpl. rewrite Z.eqb_refl. simpl. by rewrite IH.
Qed.

Lemma count_parent_part w n c a b : count_peer b (parent_part w n c a) = 0%nat.
Proof.
  unfold parent_part. destruct (_ && _); [|done]. unfold count_peer. simpl.
  unfold is_peer. simpl. by rewrite andb_false_r.
Qed.

Lemma count_peer_part w n p a b :
  a <> n -> b <> n -> count_peer b (peer_part w n p a) = 0%nat.
Proof.
  intros Ha Hb. unfold peer_part. destruct (bool_decide _); [|done].
  rewrite (proj2 (Z.eqb_neq _ _) Ha), count_peer_app, count_replicate_ne by done.
  destruct (a =? p); [|done]. by apply (count_replicate_ne b n 1).
Qed.

Lemma count_peer_part_new w n p b :
  b <> n -> count_peer b (peer_part w n p n) = count_peer n (peer_part w n p b).
Proof.
  intros Hb. unfold peer_part. destruct (bool_decide _); [|done].
  rewrite Z.eqb_refl, (proj2 (Z.eqb_neq _ _) Hb), !count_peer_app, count_replicate. f_equal.
  destruct (Z.eqb_spec b p) as [->|Hne].
  - etrans; [apply (count_replicate p 1)|symmetry; apply (count_replicate n 1)].
  - exact (count_replicate_ne b p 1 Hne).
Qed.

(** The table and list of a well-formed state with a new domain and its entries. *)
Lemma dt_ok_extend w w' n c p d :
  dt_ok w -> n <> SAHPI_UNSPECIFIED_DOMAIN_ID -> dt_table w !! n = None -> c <> n -> p <> n ->
  domain_id d = n -> drt_next_id (drt d) = 0 -> drt_list (drt d) = [] ->
  same_domains (with_domain n d w) w' ->
  (forall a, entries w' a = entries w a ++ parent_part w n c a ++ peer_part w n p a) -> dt_ok w'.
Proof.
  intros [H1 H2 H3 H4 H5 H6] Hn Hfresh Hc Hp Hid Hnext Hlist Hs He.
  assert (Hsome : forall a, is_Some (dt_table w' !! a) <-> a = n \/ is_Some (dt_table w !! a)).
  { intros a. rewrite (same_is_Some _ _ _ Hs). apply with_domain_is_Some. }
  assert (Hnone : forall a, count_peer n (entries w a) = 0%nat).
  { intros a. apply count_peer_none. eapply Forall_impl; [apply H5|]. intros e (_ & _ & [x Hx]) Heq.
    rewrite Heq in Hx. congruence. }
  assert (Hen : entries w n = []) by (unfold entries; by rewrite Hfresh).
  constructor.
  - intros a x Hx. split.
    + pose proof (sd_core _ _ Hs a) as Hco. rewrite Hx, with_domain_lookup in Hco.
      destruct (Z.eqb_spec a n) as [->|_].
      * apply (f_equal (fmap domain_id)) in Hco. simpl in Hco. congruence.
      * destruct (dt_table w !! a) as [y|] eqn:Ey; [|done].
        apply (f_equal (fmap domain_id)) in Hco. simpl in Hco. destruct (H1 a y Ey). congruence.
    + eapply (sd_ids _ _ Hs); [|exact Hx]. intros b y. rewrite with_domain_lookup.
      destruct (b =? n); [|intros Hy; by apply (H1 b y)]. intros [= <-]. split; [by rewrite Hnext, Hlist|].
      by rewrite Hlist.
  - apply eq_None_not_Some. rewrite Hsome, H2. by intros [?|[? ?]].
  - intros a. rewrite (sd_list _ _ Hs), Hsome, <- H3. unfold with_domain, set_field. simpl.
    rewrite elem_of_app, list_elem_of_singleton. tauto.
  - rewrite (sd_list _ _ Hs). unfold with_domain, set_field. simpl. apply NoDup_app.
    split; [done|]. split; [|apply NoDup_singleton]. intros a Ha. rewrite list_elem_of_singleton. intros ->.
    apply H3 in Ha as [? Ha]. congruence.
  - assert (Hkeep : forall a x, a <> n -> Forall (fun e => e.1 <> x /\ e.1 <> SAHPI_UNSPECIFIED_DOMAIN_ID /\
        is_Some (dt_table w !! e.1)) (entries w a) ->
        Forall (fun e => e.1 <> x /\ e.1 <> SAHPI_UNSPECIFIED_DOMAIN_ID /\ is_Some (dt_table w' !! e.1)) (entries w a)).
    { intros a x _ Hf. eapply Forall_impl; [exact Hf|]. intros e (? & ? & ?). rewrite Hsome. auto. }
    intros a. rewrite He. destruct (Z.eqb_spec a n) as [->|Han].
    + rewrite Hen. unfold parent_part. rewrite (proj2 (Z.eqb_neq n c)), andb_false_r by congruence. simpl.
      unfold peer_part. case_bool_decide as Hps; [|constructor]. rewrite Z.eqb_refl. apply Forall_app. split.
      * eapply Forall_impl; [apply H5|]. intros e (_ & He2 & Hes). rewrite Hsome. split; [|auto].
        intros Heq. rewrite Heq in Hes. destruct Hes. congruence.
      * apply Forall_singleton. simpl. rewrite Hsome. split; [done|]. split; [|auto].
        intros ->. destruct Hps. congruence.
    + assert (Hns : n <> a /\ n <> SAHPI_UNSPECIFIED_DOMAIN_ID /\ is_Some (dt_table w' !! n)).
      { rewrite Hsome. auto. }
      apply Forall_app. split; [by apply Hkeep|]. apply Forall_app. split.
      * unfold parent_part. destruct (_ && _); [|constructor]. by apply Forall_singleton.
      * unfold peer_part. destruct (bool_decide _); [|constructor].
        rewrite (proj2 (Z.eqb_neq _ _) Han). apply Forall_app. split; [by apply Forall_replicate|].
        destruct (a =? p); [by apply Forall_singleton|constructor].
  - intros a b. rewrite !He, !count_peer_app, !count_parent_part. simpl.
    destruct (Z.eqb_spec a n) as [->|Ha], (Z.eqb_spec b n) as [->|Hb].
    + done.
    + rewrite Hen, Hnone. simpl. by apply count_peer_part_new.
    + rewrite Hen, Hnone. simpl. symmetry. by apply count_peer_part_new.
    + rewrite !count_peer_part by done. by rewrite H6.
Qed.

(** * Properties *)

(** Domains and their relations.  [oh_create_domain] refuses contradictory
    arguments and a known id without effect.  Otherwise the new domain is in the
    table, the loop over the peer's references ends, a known parent gets a child
    entry, and a peer relation is made symmetric: the new domain refers to all
    that its peer refers to and to the peer, and the peer and every peer of the
    peer refer to the new domain; no other entry changes.  All of this keeps the
    tables consistent: entries lead to other known domains, entry ids count up
    from 1, and [b] is a peer of [a] as often as [a] is one of [b]. *)
Theorem oh_create_domain_correct (g : global_params) (now : Z) (df : option (list oh_el_entry))
    (af : option (list SaHpiAlarmT)) (id : Z) (tag : option (list Z)) (child_of peer_of caps to : Z)
    (w : domain_table) :
  dt_ok w ->
  let n := default_did id in
  let '(err, w') := oh_create_domain g now df af id tag child_of peer_of caps to w in
  dt_ok w' /\
  if (peer_of =? n) || (child_of =? n)
     || ((child_of =? peer_of) && negb (child_of =? SAHPI_UNSPECIFIED_DOMAIN_ID))
  then err = SA_ERR_HPI_INVALID_PARAMS /\ w' = w
  else if bool_decide (is_Some (dt_table w !! n)) then err = SA_ERR_HPI_INVALID_DOMAIN /\ w' = w
  else err = SA_OK /\
    (forall a, is_Some (oh_get_domain a w') <-> default_did a = n \/ is_Some (oh_get_domain a w)) /\
    (forall a, entries w' a = entries w a ++ parent_part w n child_of a ++ peer_part w n peer_of a).
Proof.
  intros Hw n. assert (Hn : n <> SAHPI_UNSPECIFIED_DOMAIN_ID).
  { unfold n, default_did. destruct (Z.eqb_spec id SAHPI_UNSPECIFIED_DOMAIN_ID); [by consts|done]. }
  unfold oh_create_domain. fold n.
  destruct ((peer_of =? n) || (child_of =? n) || _) eqn:Ebad; [done|].
  destruct (dt_table w !! n) as [x|] eqn:Efresh; [done|].
  rewrite orb_false_iff in Ebad. destruct Ebad as [Ebad Eboth]. zbool.
  destruct (new_domain_fields g now df af n tag caps to) as (Hid & Hdrt & _).
  set (d := new_domain g now df af n tag caps to) in *. clearbody d.
  assert (Hd0 : drt_list (drt d) = [] /\ drt_next_id (drt d) = 0) by by rewrite Hdrt.
  destruct Hd0 as [Hlist Hnext].
  fold (with_domain n d w). set (w1 := with_domain n d w).
  set (w2 := if negb (child_of =? SAHPI_UNSPECIFIED_DOMAIN_ID) then _ else w1).
  set (w3 := if negb (peer_of =? SAHPI_UNSPECIFIED_DOMAIN_ID) then _ else w2).
  assert (He1 : forall a, entries w1 a = entries w a) by (intros a; by apply with_domain_entries).
  assert (Hpart1 : forall q a, q <> n -> parent_part w1 n q a = parent_part w n q a).
  { intros q a Hq. unfold parent_part, w1. by rewrite with_domain_lookup, (proj2 (Z.eqb_neq _ _) Hq). }
  assert (H2 : same_domains w1 w2 /\ forall a, entries w2 a = entries w a ++ parent_part w n child_of a).
  { unfold w2. destruct (Z.eqb_spec child_of SAHPI_UNSPECIFIED_DOMAIN_ID) as [->|Hc]; simpl.
    - split; [done|]. intros a. rewrite He1. unfold parent_part.
      rewrite (dk_unspecified _ Hw). simpl. by rewrite app_nil_r.
    - destruct (connect2parent_spec now n child_of w1 Hn Hc) as [Hs He]. split; [done|].
      intros a. by rewrite He, He1, Hpart1. }
  clearbody w2. destruct H2 as [Hs2 He2].
  assert (H3 : same_domains w2 w3 /\ forall a, entries w3 a = entries w2 a ++ peer_part w n peer_of a).
  { unfold w3. destruct (Z.eqb_spec peer_of SAHPI_UNSPECIFIED_DOMAIN_ID) as [->|Hp]; simpl.
    - split; [done|]. intros a. unfold peer_part. rewrite (dk_unspecified _ Hw). simpl. by rewrite app_nil_r.
    - assert (Hcp : child_of <> peer_of).
      { intros ->. rewrite Z.eqb_refl, (proj2 (Z.eqb_neq _ _) Hp) in Eboth. done. }
      assert (Hep : entries w2 peer_of = entries w peer_of).
      { rewrite He2. unfold parent_part. rewrite (proj2 (Z.eqb_neq peer_of child_of)) by congruence.
        by rewrite andb_false_r, app_nil_r. }
      destruct (connect2peer_spec now n peer_of w2 Hn Hp) as [Hs He]; [congruence| | |].
      + rewrite (same_is_Some _ _ _ Hs2). unfold w1. rewrite with_domain_is_Some. by left.
      + rewrite Hep. eapply Forall_impl; [apply (dk_known _ Hw)|]. intros e (He1' & He2' & Hes).
        split; [intros Heq; rewrite Heq in Hes; destruct Hes; congruence|]. split; [done|]. split; [done|].
        rewrite (same_is_Some _ _ _ Hs2). unfold w1. rewrite with_domain_is_Some. by right.
      + split; [done|]. intros a. rewrite He. f_equal. unfold peer_part. rewrite Hep.
        assert (Hiff : is_Some (dt_table w2 !! peer_of) <-> is_Some (dt_table w !! peer_of)).
        { rewrite (same_is_Some _ _ _ Hs2). unfold w1. rewrite with_domain_is_Some.
          split; [intros [?|?]; [congruence|done]|by right]. }
        by rewrite (bool_decide_ext _ _ Hiff). }
  clearbody w3. destruct H3 as [Hs3 He3].
  assert (He : forall a, entries w3 a = entries w a ++ parent_part w n child_of a ++ peer_part w n peer_of a).
  { intros a. by rewrite He3, He2, <- app_assoc. }
  assert (Hs : same_domains w1 w3) by by etrans.
  split; [by apply (dt_ok_extend w w3 n child_of peer_of d)|]. split; [done|]. split; [|done].
  intros a. unfold oh_get_domain. rewrite (same_is_Some _ _ _ Hs). apply with_domain_is_Some.
Qed.

(** Domain 1, a peer of the default domain. *)
Definition example_domains : domain_table :=
  snd (oh_create_domain example_params 0 None None 0 None SAHPI_UNSPECIFIED_DOMAIN_ID
         SAHPI_UNSPECIFIED_DOMAIN_ID 0 0 init_domains).
Lemma init_domains_ok : dt_ok init_domains.
Proof.
  constructor; simpl; try done.
  - intros a. rewrite lookup_empty. split; [by intros ?%not_elem_of_nil|by intros [? ?]].
  - constructor.
Qed.

Lemma oh_create_domain_correct_witness :
  exists w', oh_create_domain example_params 0 None None 1 None SAHPI_UNSPECIFIED_DOMAIN_ID 0 0 0
      example_domains = (SA_OK, w') /\
    entries w' 1 = [(0, SAHPI_TRUE)] /\ entries w' 0 = [(1, SAHPI_TRUE)] /\ dt_ok w'.
Proof.
  assert (Hok : dt_ok example_domains).
  { exact (proj1 (oh_create_domain_correct example_params 0 None None 0 None SAHPI_UNSPECIFIED_DOMAIN_ID
                    SAHPI_UNSPECIFIED_DOMAIN_ID 0 0 init_domains init_domains_ok)). }
  pose proof (oh_create_domain_correct example_params 0 None None 1 None SAHPI_UNSPECIFIED_DOMAIN_ID
                0 0 0 example_domains Hok) as H.
  destruct (oh_create_domain example_params 0 None None 1 None SAHPI_UNSPECIFIED_DOMAIN_ID 0 0 0
              example_domains) as [err w'] eqn:E.
  exists w'. destruct H as (Hw & Herr & _ & He). cbv in Herr.
  split; [by rewrite Herr|]. split; [|split; [|done]]; rewrite He; by vm_compute.
Defined.
