(* ===== verification/DomainLife.v ===== *)
(** The life of a domain under many threads: the reference counts and locks of
    [openhpid/domain.c].

    [oh_get_domain] counts a reference under the lock of the table, waits for
    the lock of the domain, and only then reads the domain from the node of the
    domain list that the lookup found.  [oh_destroy_domain] does the same, takes
    the domain out of the table, frees its list node and gives its reference
    back; whoever finds the count below its limit deletes the domain.  The steps
    here are the parts of these functions between which other threads run.

    A domain structure and its list node are named by one number; the lock of a
    domain is recursive, so that it is free for a thread when no other thread is
    between its own acquisition and its own release. *)
From S2P Require Import Prelude SaHpi DomainState Session.

(** [in_list]: the node of the domain list is allocated; [live]: the structure
    is; [given_back] (not in the code): the destroyer has released it twice. *)
Record dom_object := { o_refcount : Z; in_list : bool; live : bool; given_back : bool }.
#[export] Instance eta_dom_object : Eta dom_object := fun x =>
  Build_dom_object (o_refcount x) (in_list x) (live x) (given_back x).

Inductive kind := Get | Destroy.

(** Where a thread is: [Waiting] for the lock, [Locked] before it reads the node,
    [Unlinking] and [Dropping] in [oh_destroy_domain] after that; [Crashed] when
    it read a freed node. *)
Inductive position :=
  | Running
  | Waiting (o : nat) (k : kind)
  | Locked (o : nat) (k : kind)
  | Unlinking (o : nat)
  | Dropping (o : nat)
  | Crashed (o : nat).

(** [held]: the domains it got and has not released. *)
Record dom_thread := { held : list nat; pos : position }.
#[export] Instance eta_dom_thread : Eta dom_thread := fun x => Build_dom_thread (held x) (pos x).

Record dom_world := { by_id : gmap Z nat; objects : gmap nat dom_object; threads : list dom_thread }.
#[export] Instance eta_dom_world : Eta dom_world := fun x =>
  Build_dom_world (by_id x) (objects x) (threads x).

Definition refers (p : position) : option nat :=
  match p with
  | Running => None
  | Waiting o _ | Locked o _ | Unlinking o | Dropping o | Crashed o => Some o
  end.

(** The thread is inside the lock of the domain. *)
Definition inside (o : nat) (t : dom_thread) : Prop :=
  o ∈ held t \/ pos t = Locked o Get \/ pos t = Locked o Destroy \/ pos t = Unlinking o \/
  pos t = Dropping o \/ pos t = Crashed o.

Definition set_object (o : nat) (f : dom_object -> dom_object) (w : dom_world) : dom_world :=
  w <| objects ::= fun m => alter f o m |>.
Definition set_thread (i : nat) (t : dom_thread) (w : dom_world) : dom_world :=
  w <| threads ::= fun l => <[i := t]> l |>.

Definition inc_domain_refcount (o : nat) : dom_world -> dom_world :=
  set_object o (fun x => x <| o_refcount ::= fun n => n + 1 |>).
Definition dec_domain_refcount (o : nat) : dom_world -> dom_world :=
  set_object o (fun x => x <| o_refcount ::= fun n => n - 1 |>).
Definition count_of (o : nat) (w : dom_world) : Z :=
  match objects w !! o with Some x => o_refcount x | None => 0 end.

Definition delete_object (o : nat) : dom_world -> dom_world := set_object o (fun x => x <| live := false |>).

(** [oh_release_domain]: the unlocking is that the caller leaves [held]. *)
Definition release_domain (o : nat) (w : dom_world) : dom_world :=
  let w := dec_domain_refcount o w in
  if count_of o w <? 0 then delete_object o w else w.

(** The end of [oh_destroy_domain]. *)
Definition drop_domain (o : nat) (w : dom_world) : dom_world :=
  let w := dec_domain_refcount o w in
  if count_of o w <? 1 then delete_object o w
  else set_object o (fun x => x <| given_back := true |>) (release_domain o w).

Inductive dom_step : dom_world -> dom_world -> Prop :=
  | ds_create w did o : by_id w !! did = None -> objects w !! o = None ->
      dom_step w (w <| by_id ::= fun m => <[did := o]> m |>
                    <| objects ::= fun m => <[o := {| o_refcount := 0; in_list := true; live := true;
                                                      given_back := false |}]> m |>)
  | ds_lookup w i t did o k : threads w !! i = Some t -> pos t = Running ->
      by_id w !! default_did did = Some o ->
      (k = Destroy -> did <> OH_DEFAULT_DOMAIN_ID /\ did <> SAHPI_UNSPECIFIED_DOMAIN_ID) ->
      dom_step w (set_thread i (t <| pos := Waiting o k |>) (inc_domain_refcount o w))
  | ds_lock w i t o k : threads w !! i = Some t -> pos t = Waiting o k ->
      (forall j u, threads w !! j = Some u -> inside o u -> j = i) ->
      dom_step w (set_thread i (t <| pos := Locked o k |>) w)
  | ds_got w i t o x : threads w !! i = Some t -> pos t = Locked o Get ->
      objects w !! o = Some x -> in_list x = true ->
      dom_step w (set_thread i {| held := o :: held t; pos := Running |} w)
  | ds_destroying w i t o x : threads w !! i = Some t -> pos t = Locked o Destroy ->
      objects w !! o = Some x -> in_list x = true ->
      dom_step w (set_thread i (t <| pos := Unlinking o |>) w)
  | ds_crash w i t o k x : threads w !! i = Some t -> pos t = Locked o k ->
      objects w !! o = Some x -> in_list x = false ->
      dom_step w (set_thread i (t <| pos := Crashed o |>) w)
  | ds_unlink w i t o did : threads w !! i = Some t -> pos t = Unlinking o -> by_id w !! did = Some o ->
      dom_step w (set_thread i (t <| pos := Dropping o |>)
                    (set_object o (fun x => x <| in_list := false |>)
                       (w <| by_id ::= fun m => delete did m |>)))
  | ds_drop w i t o : threads w !! i = Some t -> pos t = Dropping o ->
      dom_step w (set_thread i (t <| pos := Running |>) (drop_domain o w))
  | ds_release w i t o l1 l2 : threads w !! i = Some t -> pos t = Running -> held t = l1 ++ o :: l2 ->
      dom_step w (set_thread i (t <| held := l1 ++ l2 |>) (release_domain o w)).

Inductive dom_reach (n : nat) : dom_world -> Prop :=
  | dreach_init : dom_reach n {| by_id := ∅; objects := ∅; threads := replicate n {| held := []; pos := Running |} |}
  | dreach_step w w' : dom_reach n w -> dom_step w w' -> dom_reach n w'.

(** ** Counting the users of a domain *)

Definition uses (o : nat) (t : dom_thread) : nat :=
  length (List.filter (Nat.eqb o) (held t)) + (if decide (refers (pos t) = Some o) then 1 else 0).
Fixpoint users (o : nat) (l : list dom_thread) : nat :=
  match l with [] => 0 | t :: l => uses o t + users o l end.

#[local] Arguments uses : simpl never.

Lemma users_insert o l i t u :
  l !! i = Some t -> (users o (<[i := u]> l) + uses o t = users o l + uses o u)%nat.
Proof.
  revert i. induction l as [|v l IH]; intros [|i] Hi; simpl in *; simplify_eq; [lia|].
  specialize (IH i Hi). lia.
Qed.

Lemma users_pos o l i t : l !! i = Some t -> (uses o t <= users o l)%nat.
Proof.
  revert i. induction l as [|v l IH]; intros [|i] Hi; simpl in *; simplify_eq; [lia|].
  specialize (IH i Hi). lia.
Qed.

Lemma uses_held o t : o ∈ held t -> (1 <= uses o t)%nat.
Proof.
  intros Hin. unfold uses. assert (1 <= length (List.filter (Nat.eqb o) (held t)))%nat; [|lia].
  induction (held t) as [|x l IH]; [by apply not_elem_of_nil in Hin|]. simpl.
  apply elem_of_cons in Hin as [<-|Hin]; [rewrite Nat.eqb_refl; simpl; lia|].
  specialize (IH Hin). destruct (o =? x)%nat; simpl; lia.
Qed.

Lemma uses_refers o t : refers (pos t) = Some o -> (1 <= uses o t)%nat.
Proof. intros H. unfold uses. rewrite decide_True by done. lia. Qed.

(** ** The invariant *)

Record obj_ok (w : dom_world) (o : nat) (x : dom_object) : Prop := {
  oo_count : live x = true ->
    o_refcount x = Z.of_nat (users o (threads w)) - (if given_back x then 1 else 0);
  oo_dead : live x = false -> users o (threads w) = 0%nat /\ in_list x = false;
  oo_given : given_back x = true -> in_list x = false /\
    (forall i t, threads w !! i = Some t -> pos t <> Dropping o);
  oo_linked : in_list x = true <-> exists did, by_id w !! did = Some o;
  oo_orphan : live x = true -> in_list x = false -> given_back x = true \/
    (exists i t, threads w !! i = Some t /\ pos t = Dropping o);
  oo_users : live x = true -> given_back x = true -> (1 <= users o (threads w))%nat }.

Record dom_ok (w : dom_world) : Prop := {
  do_objects : forall o x, objects w !! o = Some x -> obj_ok w o x;
  do_known : forall i t o, threads w !! i = Some t -> (1 <= uses o t)%nat -> is_Some (objects w !! o);
  do_linked : forall did o, by_id w !! did = Some o -> is_Some (objects w !! o);
  do_unique : forall d d' o, by_id w !! d = Some o -> by_id w !! d' = Some o -> d = d';
  do_exclusive : forall i j t u o, threads w !! i = Some t -> threads w !! j = Some u ->
    inside o t -> inside o u -> i = j;
  do_unlinking : forall i t o x, threads w !! i = Some t -> pos t = Unlinking o ->
    objects w !! o = Some x -> in_list x = true;
  do_dropping : forall i t o x, threads w !! i = Some t -> pos t = Dropping o ->
    objects w !! o = Some x -> in_list x = false }.

Lemma users_ex o l : (1 <= users o l)%nat -> exists i t, l !! i = Some t /\ (1 <= uses o t)%nat.
Proof.
  induction l as [|t l IH]; simpl; [lia|]. intros H. destruct (decide (1 <= uses o t)%nat) as [Hu|Hu].
  - by exists 0%nat, t.
  - destruct IH as (i & u & Hi & Hu'); [lia|]. by exists (S i), u.
Qed.

Lemma inside_uses o t : inside o t -> (1 <= uses o t)%nat.
Proof.
  intros [H|[H|[H|[H|[H|H]]]]]; [by apply uses_held|..]; apply uses_refers; by rewrite H.
Qed.

Lemma thread_live w i t o :
  dom_ok w -> threads w !! i = Some t -> (1 <= uses o t)%nat ->
  exists x, objects w !! o = Some x /\ live x = true.
Proof.
  intros Hw Ht Hu. destruct (do_known _ Hw i t o Ht Hu) as [x Hx]. exists x. split; [done|].
  destruct (live x) eqn:E; [done|]. destruct (oo_dead _ _ _ (do_objects _ Hw o x Hx) E) as [H0 _].
  pose proof (users_pos o (threads w) i t Ht). lia.
Qed.

(** Looking a thread up after one has moved. *)
Lemma threads_insert_inv (l : list dom_thread) (i : nat) (u : dom_thread) j v :
  <[i := u]> l !! j = Some v -> (j = i /\ v = u) \/ (j <> i /\ l !! j = Some v).
Proof.
  intros [(-> & -> & _)|[Hne Hj]]%list_lookup_insert_Some; [by left|by right].
Qed.

Lemma threads_insert_eq (l : list dom_thread) (i : nat) (t u : dom_thread) : l !! i = Some t -> <[i := u]> l !! i = Some u.
Proof. intros H. apply list_lookup_insert_eq. by eapply lookup_lt_Some. Qed.

(** *** Steps that only move a thread *)
Lemma dom_ok_move w i t u :
  dom_ok w -> threads w !! i = Some t -> (forall o, uses o u = uses o t) ->
  (forall o, inside o u -> inside o t \/ (forall j v, threads w !! j = Some v -> inside o v -> j = i)) ->
  (forall o, pos u <> Dropping o) -> (forall o, pos t <> Dropping o) ->
  (forall o x, pos u = Unlinking o -> objects w !! o = Some x -> in_list x = true) ->
  dom_ok (set_thread i u w).
Proof.
  intros Hw Ht Huses Hin Hnd Hnd' Hunl.
  assert (Husers : forall o, users o (<[i := u]> (threads w)) = users o (threads w)).
  { intros o. pose proof (users_insert o (threads w) i t u Ht). rewrite Huses in *. lia. }
  constructor; unfold set_thread, set_field; simpl.
  - intros o x Hx. destruct (do_objects _ Hw o x Hx) as [H1 H2 H3 H4 H5 H6].
    constructor; simpl; rewrite ?Husers; try done.
    + intros Hg. destruct (H3 Hg) as [Hl Hd]. split; [done|]. intros j v Hj.
      apply threads_insert_inv in Hj as [[-> ->]|[_ Hj]]; [done|by eapply Hd].
    + intros Hlv Hl. destruct (H5 Hlv Hl) as [?|(j & v & Hj & Hp)]; [by left|]. right. exists j, v.
      split; [|done]. rewrite list_lookup_insert_ne; [done|]. intros ->. simplify_eq. by eapply Hnd'.
  - intros j v o Hj Hu. apply threads_insert_inv in Hj as [[-> ->]|[_ Hj]].
    + rewrite Huses in Hu. by eapply (do_known _ Hw).
    + by eapply (do_known _ Hw).
  - apply (do_linked _ Hw).
  - apply (do_unique _ Hw).
  - intros j k v v' o Hj Hk Hv Hv'.
    apply threads_insert_inv in Hj as [[-> ->]|[Hji Hj]], Hk as [[-> ->]|[Hki Hk]]; [done| | |].
    + destruct (Hin o Hv) as [Hti|Hex]; [by eapply (do_exclusive _ Hw)|]. symmetry. by eapply Hex.
    + destruct (Hin o Hv') as [Hti|Hex]; [by eapply (do_exclusive _ Hw)|]. by eapply Hex.
    + by eapply (do_exclusive _ Hw).
  - intros j v o x Hj Hp Hx. apply threads_insert_inv in Hj as [[-> ->]|[_ Hj]]; [by eapply Hunl|].
    by eapply (do_unlinking _ Hw).
  - intros j v o x Hj Hp Hx. apply threads_insert_inv in Hj as [[-> ->]|[_ Hj]]; [by destruct (Hnd o)|].
    by eapply (do_dropping _ Hw).
Qed.

(** *** Steps that change one object and move a thread *)
Lemma lookup_set_object o f w o' :
  objects (set_object o f w) !! o' = if decide (o' = o) then f <$> objects w !! o' else objects w !! o'.
Proof.
  unfold set_object, set_field. simpl. destruct (decide (o' = o)) as [->|Hne].
  - by rewrite lookup_alter_eq.
  - by rewrite lookup_alter_ne.
Qed.

(** The state after object [o] became [y] and thread [i] became [u], the table
    being unchanged. *)
Lemma dom_ok_update w w' i t u o y :
  dom_ok w -> threads w !! i = Some t -> threads w' = <[i := u]> (threads w) -> by_id w' = by_id w ->
  (forall o', objects w' !! o' = if decide (o' = o) then Some y else objects w !! o') ->
  (exists x, objects w !! o = Some x /\ in_list y = in_list x) ->
  (forall o', o' <> o -> uses o' u = uses o' t) ->
  (forall o', inside o' u -> inside o' t) ->
  (forall o', pos u <> Dropping o' /\ pos u <> Unlinking o') ->
  (forall o', o' <> o -> pos t <> Dropping o') ->
  obj_ok w' o y -> dom_ok w'.
Proof.
  intros Hw Ht Hth Hid Hobj (x & Hx & Hl) Huses Hin Hpos Hdrop Hy.
  assert (Hold : forall o' z, o' <> o -> objects w !! o' = Some z -> obj_ok w' o' z).
  { intros o' z Hne Hz. destruct (do_objects _ Hw o' z Hz) as [H1 H2 H3 H4 H5 H6].
    assert (Husers : users o' (threads w') = users o' (threads w)).
    { pose proof (users_insert o' (threads w) i t u Ht). rewrite Hth, Huses in * by done. lia. }
    constructor; rewrite ?Husers, ?Hid; try done.
    - intros Hg. destruct (H3 Hg) as [Hll Hd]. split; [done|]. intros j v Hj. rewrite Hth in Hj.
      apply threads_insert_inv in Hj as [[-> ->]|[_ Hj]]; [apply Hpos|by eapply Hd].
    - intros Hlv Hll. destruct (H5 Hlv Hll) as [?|(j & v & Hj & Hp)]; [by left|]. right. exists j, v.
      rewrite Hth. split; [|done]. rewrite list_lookup_insert_ne; [done|]. intros ->. simplify_eq.
      by eapply Hdrop. }
  assert (Hsome : forall o', is_Some (objects w' !! o') <-> is_Some (objects w !! o')).
  { intros o'. rewrite Hobj. destruct (decide (o' = o)) as [->|]; [|done]. by rewrite Hx. }
  constructor.
  - intros o' z. rewrite Hobj. destruct (decide (o' = o)) as [->|Hne]; [by intros [= <-]|by apply Hold].
  - intros j v o' Hj Hu. rewrite Hsome. rewrite Hth in Hj.
    apply threads_insert_inv in Hj as [[-> ->]|[_ Hj]]; [|by eapply (do_known _ Hw)].
    destruct (decide (o' = o)) as [->|Hne]; [by eexists|].
    rewrite Huses in Hu by done. by eapply (do_known _ Hw).
  - intros d o' Hd. rewrite Hsome. rewrite Hid in Hd. by eapply (do_linked _ Hw).
  - rewrite Hid. apply (do_unique _ Hw).
  - intros j k v v' o' Hj Hk Hv Hv'. rewrite Hth in Hj, Hk.
    apply threads_insert_inv in Hj as [[-> ->]|[Hji Hj]], Hk as [[-> ->]|[Hki Hk]];
      [done|apply Hin in Hv|apply Hin in Hv'|]; by eapply (do_exclusive _ Hw).
  - intros j v o' z Hj Hp Hz. rewrite Hth in Hj.
    apply threads_insert_inv in Hj as [[-> ->]|[_ Hj]]; [by destruct (Hpos o')|].
    rewrite Hobj in Hz. destruct (decide (o' = o)) as [->|Hne].
    + injection Hz as <-. rewrite Hl. by eapply (do_unlinking _ Hw).
    + by eapply (do_unlinking _ Hw).
  - intros j v o' z Hj Hp Hz. rewrite Hth in Hj.
    apply threads_insert_inv in Hj as [[-> ->]|[_ Hj]]; [by destruct (Hpos o')|].
    rewrite Hobj in Hz. destruct (decide (o' = o)) as [->|Hne].
    + injection Hz as <-. rewrite Hl. by eapply (do_dropping _ Hw).
    + by eapply (do_dropping _ Hw).
Qed.

Lemma uses_pos o t p : uses o (t <| pos := p |>)
  = (length (List.filter (Nat.eqb o) (held t)) + (if decide (refers p = Some o) then 1 else 0))%nat.
Proof. done. Qed.

Lemma uses_running o t : pos t = Running -> uses o t = length (List.filter (Nat.eqb o) (held t)).
Proof. intros H. unfold uses. rewrite H. simpl. lia. Qed.

Lemma linked_live w o x : dom_ok w -> objects w !! o = Some x -> in_list x = true ->
  live x = true /\ given_back x = false.
Proof.
  intros Hw Hx Hl. destruct (do_objects _ Hw o x Hx) as [H1 H2 H3 H4 H5 H6]. split.
  - destruct (live x); [done|]. destruct (H2 eq_refl). congruence.
  - destruct (given_back x); [|done]. destruct (H3 eq_refl). congruence.
Qed.

Lemma step_lookup w i t did o k :
  dom_ok w -> threads w !! i = Some t -> pos t = Running -> by_id w !! default_did did = Some o ->
  dom_ok (set_thread i (t <| pos := Waiting o k |>) (inc_domain_refcount o w)).
Proof.
  intros Hw Ht Hp Hd. destruct (do_linked _ Hw _ _ Hd) as [x Hx].
  assert (Hlist : in_list x = true) by (apply (oo_linked _ _ _ (do_objects _ Hw o x Hx)); eauto).
  destruct (linked_live w o x Hw Hx Hlist) as [Hlive Hgiven].
  set (u := t <| pos := Waiting o k |>).
  assert (Hu : forall o', uses o' u = (uses o' t + if decide (o' = o) then 1 else 0)%nat).
  { intros o'. unfold u. rewrite uses_pos, (uses_running o' t Hp). simpl. f_equal.
    destruct (decide (Some o = Some o')), (decide (o' = o)); congruence. }
  eapply (dom_ok_update w _ i t u o (x <| o_refcount ::= fun n => n + 1 |>)); try done.
  - intros o'. unfold inc_domain_refcount. etrans; [apply lookup_set_object|].
    destruct (decide (o' = o)) as [->|]; [by rewrite Hx|done].
  - by exists x.
  - intros o' Hne. rewrite Hu, decide_False by done. lia.
  - intros o' [H|[H|[H|[H|[H|H]]]]]; [by left|done..].
  - intros o' _. by rewrite Hp.
  - pose proof (users_insert o (threads w) i t u Ht) as Hc. rewrite Hu, decide_True in Hc by done.
    destruct (do_objects _ Hw o x Hx) as [H1 H2 H3 H4 H5 H6].
    constructor; unfold set_thread, set_field; simpl; rewrite ?Hlive, ?Hgiven, ?Hlist; try done.
    + intros _. rewrite H1, Hgiven by done. lia.
    + split; [intros _; apply H4; exact Hlist|done].
Qed.

(** An object that is inside no thread but [i], where [i] is not dropping it. *)
Lemma no_dropping w w' i t u o :
  dom_ok w -> threads w !! i = Some t -> inside o t -> threads w' = <[i := u]> (threads w) ->
  pos u <> Dropping o -> forall j v, threads w' !! j = Some v -> pos v <> Dropping o.
Proof.
  intros Hw Ht Hin Hth Hu j v Hj Hp. rewrite Hth in Hj.
  apply threads_insert_inv in Hj as [[-> ->]|[Hne Hj]]; [done|]. apply Hne.
  eapply (do_exclusive _ Hw); [exact Hj|exact Ht| |exact Hin]. unfold inside. by rewrite Hp; auto 10.
Qed.

Lemma count_of_set o f w x : objects w !! o = Some x -> count_of o (set_object o f w) = o_refcount (f x).
Proof. intros Hx. unfold count_of. by rewrite lookup_set_object, decide_True, Hx. Qed.

(** What the two ends do to the object. *)
Lemma release_lookup w o x :
  objects w !! o = Some x ->
  forall o', objects (release_domain o w) !! o'
    = if decide (o' = o)
      then Some (x <| o_refcount ::= fun n => n - 1 |>
                   <| live ::= fun b => if o_refcount x - 1 <? 0 then false else b |>)
      else objects w !! o'.
Proof.
  intros Hx o'. unfold release_domain, dec_domain_refcount. rewrite (count_of_set o _ w x Hx).
  change (o_refcount (x <| o_refcount ::= fun n => n - 1 |>)) with (o_refcount x - 1).
  destruct (o_refcount x - 1 <? 0); unfold delete_object; rewrite ?lookup_set_object;
    destruct (decide (o' = o)) as [->|]; try done; by rewrite Hx.
Qed.

Lemma release_frame w o : by_id (release_domain o w) = by_id w /\ threads (release_domain o w) = threads w.
Proof. unfold release_domain. by destruct (_ <? _). Qed.

Lemma drop_lookup w o x :
  objects w !! o = Some x ->
  forall o', objects (drop_domain o w) !! o'
    = if decide (o' = o)
      then Some (if o_refcount x - 1 <? 1
                 then x <| o_refcount ::= fun n => n - 1 |> <| live := false |>
                 else x <| o_refcount ::= fun n => n - 1 - 1 |>
                        <| live ::= fun b => if o_refcount x - 1 - 1 <? 0 then false else b |>
                        <| given_back := true |>)
      else objects w !! o'.
Proof.
  intros Hx o'. unfold drop_domain. unfold dec_domain_refcount at 1. rewrite (count_of_set o _ w x Hx).
  change (o_refcount (x <| o_refcount ::= fun n => n - 1 |>)) with (o_refcount x - 1).
  assert (Hdec : forall o', objects (dec_domain_refcount o w) !! o'
      = if decide (o' = o) then Some (x <| o_refcount ::= fun n => n - 1 |>) else objects w !! o').
  { intros a. unfold dec_domain_refcount. rewrite lookup_set_object.
    destruct (decide (a = o)) as [->|]; [by rewrite Hx|done]. }
  destruct (o_refcount x - 1 <? 1).
  - unfold delete_object. rewrite lookup_set_object, Hdec. by destruct (decide (o' = o)).
  - rewrite lookup_set_object.
    rewrite (release_lookup (dec_domain_refcount o w) o (x <| o_refcount ::= fun n => n - 1 |>))
      by by rewrite Hdec, decide_True.
    rewrite Hdec. by destruct (decide (o' = o)).
Qed.

Lemma drop_frame w o : by_id (drop_domain o w) = by_id w /\ threads (drop_domain o w) = threads w.
Proof.
  unfold drop_domain. destruct (_ <? _); [done|].
  destruct (release_frame (dec_domain_refcount o w) o) as [H1 H2].
  unfold set_object, set_field. simpl. by rewrite H1, H2.
Qed.

Lemma step_drop w i t o :
  dom_ok w -> threads w !! i = Some t -> pos t = Dropping o ->
  dom_ok (set_thread i (t <| pos := Running |>) (drop_domain o w)).
Proof.
  intros Hw Ht Hp. set (u := t <| pos := Running |>).
  assert (Hut : (1 <= uses o t)%nat) by (apply uses_refers; by rewrite Hp).
  destruct (thread_live w i t o Hw Ht Hut) as (x & Hx & Hlive).
  assert (Hlist : in_list x = false) by by eapply (do_dropping _ Hw).
  destruct (do_objects _ Hw o x Hx) as [H1 H2 H3 H4 H5 H6].
  assert (Hgiven : given_back x = false).
  { destruct (given_back x); [|done]. destruct (H3 eq_refl) as [_ H]. by destruct (H i t Ht). }
  destruct (drop_frame w o) as [Hid Hth].
  assert (Hu : forall o', uses o' t = (uses o' u + if decide (o' = o) then 1 else 0)%nat).
  { intros o'. unfold u. rewrite uses_pos. unfold uses. rewrite Hp. simpl.
    destruct (decide (Some o = Some o')), (decide (o' = o)); simplify_eq; lia || congruence. }
  assert (Hcount : (users o (<[i := u]> (threads w)) + 1 = users o (threads w))%nat).
  { pose proof (users_insert o (threads w) i t u Ht) as Hc. specialize (Hu o).
    rewrite decide_True in Hu by done. lia. }
  specialize (H1 Hlive). rewrite Hgiven in H1.
  set (y := if o_refcount x - 1 <? 1 then x <| o_refcount ::= fun n => n - 1 |> <| live := false |>
            else x <| o_refcount ::= fun n => n - 1 - 1 |>
                   <| live ::= fun b => if o_refcount x - 1 - 1 <? 0 then false else b |>
                   <| given_back := true |>).
  assert (Hin : inside o t) by (unfold inside; rewrite Hp; auto 10).
  assert (Hyl : in_list y = false) by (unfold y; by destruct (_ <? _)).
  eapply (dom_ok_update w _ i t u o y); try done.
  - unfold set_thread, set_field. simpl. by rewrite Hth.
  - intros o'. apply (drop_lookup w o x Hx).
  - exists x. by rewrite Hyl, Hlist.
  - intros o' Hne. rewrite (Hu o'), decide_False by done. lia.
  - intros o' [H|H]; [by left|]. unfold u in H. simpl in H. intuition discriminate.
  - intros o' Hne Heq. rewrite Hp in Heq. congruence.
  - set (w' := set_thread i u (drop_domain o w)).
    assert (Hth' : threads w' = <[i := u]> (threads w)) by (unfold w', set_thread, set_field; simpl; by rewrite Hth).
    assert (Hid' : by_id w' = by_id w) by exact Hid. clearbody w'.
    unfold y. destruct (Z.ltb_spec (o_refcount x - 1) 1) as [Hlt|Hge].
    + constructor; rewrite ?Hth', ?Hid'; unfold set_field; simpl; rewrite ?Hgiven, ?Hlist in *; try done.
      intros _. split; [lia|done].
    + constructor; rewrite ?Hid'; unfold set_field; simpl; rewrite ?Hlive, ?Hlist in *.
      * intros _. rewrite Hth'. lia.
      * rewrite (proj2 (Z.ltb_ge _ _)) by lia. done.
      * intros _. split; [done|]. eapply (no_dropping w w' i t u o Hw Ht Hin Hth'). done.
      * done.
      * intros _ _. by left.
      * intros _ _. rewrite Hth'. lia.
Qed.

Lemma step_release w i t o l1 l2 :
  dom_ok w -> threads w !! i = Some t -> pos t = Running -> held t = l1 ++ o :: l2 ->
  dom_ok (set_thread i (t <| held := l1 ++ l2 |>) (release_domain o w)).
Proof.
  intros Hw Ht Hp Hheld. set (u := t <| held := l1 ++ l2 |>).
  assert (Hin : inside o t) by (left; rewrite Hheld; apply elem_of_app; right; by left).
  destruct (thread_live w i t o Hw Ht (inside_uses o t Hin)) as (x & Hx & Hlive).
  destruct (do_objects _ Hw o x Hx) as [H1 H2 H3 H4 H5 H6]. specialize (H1 Hlive).
  destruct (release_frame w o) as [Hid Hth].
  assert (Hu : forall o', uses o' t = (uses o' u + if decide (o' = o) then 1 else 0)%nat).
  { intros o'. rewrite (uses_running o' t Hp), (uses_running o' u Hp), Hheld. unfold u. simpl.
    rewrite !List.filter_app, !length_app. simpl.
    destruct (Nat.eqb_spec o' o), (decide (o' = o)); simpl; lia || congruence. }
  assert (Hcount : (users o (<[i := u]> (threads w)) + 1 = users o (threads w))%nat).
  { pose proof (users_insert o (threads w) i t u Ht) as Hc. specialize (Hu o).
    rewrite decide_True in Hu by done. lia. }
  set (y := x <| o_refcount ::= fun n => n - 1 |>
              <| live ::= fun b => if o_refcount x - 1 <? 0 then false else b |>).
  eapply (dom_ok_update w _ i t u o y); try done.
  - unfold set_thread, set_field. simpl. by rewrite Hth.
  - intros o'. apply (release_lookup w o x Hx).
  - by exists x.
  - intros o' Hne. rewrite (Hu o'), decide_False by done. lia.
  - intros o' [H|H].
    + left. unfold u in H. simpl in H. rewrite Hheld. apply elem_of_app in H as [H|H]; apply elem_of_app;
        [by left|right; by right].
    + unfold u in H. simpl in H. rewrite Hp in H. intuition discriminate.
  - intros o'. unfold u. simpl. by rewrite Hp.
  - intros o' _. by rewrite Hp.
  - set (w' := set_thread i u (release_domain o w)).
    assert (Hth' : threads w' = <[i := u]> (threads w)) by (unfold w', set_thread, set_field; simpl; by rewrite Hth).
    assert (Hid' : by_id w' = by_id w) by exact Hid. clearbody w'.
    unfold y. constructor; rewrite ?Hid', ?Hth'; unfold set_field; simpl; rewrite ?Hlive.
    + intros _. lia.
    + destruct (Z.ltb_spec (o_refcount x - 1) 0) as [Hlt|Hge]; [|done]. intros _.
      destruct (given_back x) eqn:Eg; [|lia]. split; [lia|]. by apply H3.
    + intros Hg. destruct (H3 Hg) as [Hl Hd]. split; [done|]. intros j v Hj.
      apply threads_insert_inv in Hj as [[-> ->]|[_ Hj]]; [unfold u; simpl; by rewrite Hp|by eapply Hd].
    + exact H4.
    + intros _ Hl. destruct (H5 Hlive Hl) as [?|(j & v & Hj & Hpv)]; [by left|]. right. exists j, v.
      split; [|done]. rewrite list_lookup_insert_ne; [done|]. intros ->. simplify_eq. congruence.
    + destruct (Z.ltb_spec (o_refcount x - 1) 0) as [Hlt|Hge]; [done|]. intros _ Hg. rewrite Hg in H1. lia.
Qed.

Lemma step_unlink w i t o did :
  dom_ok w -> threads w !! i = Some t -> pos t = Unlinking o -> by_id w !! did = Some o ->
  dom_ok (set_thread i (t <| pos := Dropping o |>)
            (set_object o (fun x => x <| in_list := false |>) (w <| by_id ::= fun m => delete did m |>))).
Proof.
  intros Hw Ht Hp Hd. set (u := t <| pos := Dropping o |>).
  assert (Hin : inside o t) by (unfold inside; rewrite Hp; auto 10).
  destruct (thread_live w i t o Hw Ht (inside_uses o t Hin)) as (x & Hx & Hlive).
  assert (Hlist : in_list x = true) by by eapply (do_unlinking _ Hw).
  destruct (linked_live w o x Hw Hx Hlist) as [_ Hgiven].
  set (w' := set_thread i u _).
  assert (Hobj : forall o', objects w' !! o' = if decide (o' = o) then Some (x <| in_list := false |>)
                                               else objects w !! o').
  { intros o'. etrans; [apply lookup_set_object|]. simpl. destruct (decide (o' = o)) as [->|]; [|done].
    by rewrite Hx. }
  assert (Hth : threads w' = <[i := u]> (threads w)) by done.
  assert (Hid : by_id w' = delete did (by_id w)) by done. clearbody w'.
  assert (Huses : forall o', uses o' u = uses o' t).
  { intros o'. unfold uses, u. simpl. by rewrite Hp. }
  assert (Husers : forall o', users o' (threads w') = users o' (threads w)).
  { intros o'. pose proof (users_insert o' (threads w) i t u Ht). rewrite Hth, Huses in *. lia. }
  assert (Hinside : forall o', inside o' u -> inside o' t).
  { intros o' [H|H]; [by left|]. unfold u in H. simpl in H.
    assert (o' = o) as -> by (intuition congruence). exact Hin. }
  constructor.
  - intros o' z. rewrite Hobj. destruct (decide (o' = o)) as [->|Hne].
    + intros [= <-]. destruct (do_objects _ Hw o x Hx) as [H1 H2 H3 H4 H5 H6].
      constructor; rewrite ?Husers; unfold set_field; simpl; rewrite ?Hlive, ?Hgiven in *; try done.
      * split; [done|]. intros [d Hd']. rewrite Hid in Hd'. apply lookup_delete_Some in Hd' as [Hne Hd'].
        destruct Hne. by eapply (do_unique _ Hw).
      * intros _ _. right. exists i, u. split; [|done]. rewrite Hth. by eapply threads_insert_eq.
    + intros Hz. destruct (do_objects _ Hw o' z Hz) as [H1 H2 H3 H4 H5 H6].
      constructor; rewrite ?Husers; try done.
      * intros Hg. destruct (H3 Hg) as [Hl Hdr]. split; [done|]. intros j v Hj. rewrite Hth in Hj.
        apply threads_insert_inv in Hj as [[-> ->]|[_ Hj]]; [unfold u; simpl; congruence|by eapply Hdr].
      * rewrite H4, Hid. split; intros [d Hd']; exists d.
        -- rewrite lookup_delete_ne; [done|]. intros ->. congruence.
        -- by apply lookup_delete_Some in Hd' as [_ ?].
      * intros Hl1 Hl2. destruct (H5 Hl1 Hl2) as [?|(j & v & Hj & Hpv)]; [by left|]. right. exists j, v.
        rewrite Hth. split; [|done]. rewrite list_lookup_insert_ne; [done|]. intros ->. simplify_eq. congruence.
  - intros j v o' Hj Hu. rewrite Hobj. destruct (decide (o' = o)) as [->|Hne]; [by eexists|].
    rewrite Hth in Hj. apply threads_insert_inv in Hj as [[-> ->]|[_ Hj]].
    + rewrite Huses in Hu. by eapply (do_known _ Hw).
    + by eapply (do_known _ Hw).
  - intros d o' Hd'. rewrite Hobj. destruct (decide (o' = o)) as [->|Hne]; [by eexists|].
    rewrite Hid in Hd'. apply lookup_delete_Some in Hd' as [_ Hd']. by eapply (do_linked _ Hw).
  - intros d d' o' H1 H2. rewrite Hid in H1, H2. apply lookup_delete_Some in H1 as [_ H1], H2 as [_ H2].
    by eapply (do_unique _ Hw).
  - intros j k v v' o' Hj Hk Hv Hv'. rewrite Hth in Hj, Hk.
    apply threads_insert_inv in Hj as [[-> ->]|[Hji Hj]], Hk as [[-> ->]|[Hki Hk]];
      [done|apply Hinside in Hv|apply Hinside in Hv'|]; by eapply (do_exclusive _ Hw).
  - intros j v o' z Hj Hpv Hz. rewrite Hth in Hj. apply threads_insert_inv in Hj as [[-> ->]|[Hji Hj]]; [done|].
    rewrite Hobj in Hz. destruct (decide (o' = o)) as [->|Hne]; [|by eapply (do_unlinking _ Hw)].
    destruct Hji. eapply (do_exclusive _ Hw); [exact Hj|exact Ht| |exact Hin]. unfold inside. rewrite Hpv. auto 10.
  - intros j v o' z Hj Hpv Hz. rewrite Hth in Hj. rewrite Hobj in Hz.
    destruct (decide (o' = o)) as [->|Hne]; [by injection Hz as <-|].
    apply threads_insert_inv in Hj as [[-> ->]|[Hji Hj]]; [unfold u in Hpv; simpl in Hpv; congruence|].
    by eapply (do_dropping _ Hw).
Qed.

Lemma step_create w did o :
  dom_ok w -> by_id w !! did = None -> objects w !! o = None ->
  dom_ok (w <| by_id ::= fun m => <[did := o]> m |>
            <| objects ::= fun m => <[o := {| o_refcount := 0; in_list := true; live := true;
                                              given_back := false |}]> m |>).
Proof.
  intros Hw Hd Ho. set (w' := w <| by_id ::= _ |> <| objects ::= _ |>).
  assert (Hobj : forall o', objects w' !! o' = if decide (o' = o)
      then Some {| o_refcount := 0; in_list := true; live := true; given_back := false |} else objects w !! o').
  { intros o'. unfold w', set_field. simpl. destruct (decide (o' = o)) as [->|Hne].
    - by rewrite lookup_insert_eq.
    - by rewrite lookup_insert_ne. }
  assert (Hid : forall d, by_id w' !! d = if decide (d = did) then Some o else by_id w !! d).
  { intros d. unfold w', set_field. simpl. destruct (decide (d = did)) as [->|Hne].
    - by rewrite lookup_insert_eq.
    - by rewrite lookup_insert_ne. }
  assert (Hnone : users o (threads w) = 0%nat).
  { destruct (decide (1 <= users o (threads w))%nat) as [Hu|]; [|lia].
    apply users_ex in Hu as (i & t & Ht & Hu). destruct (do_known _ Hw i t o Ht Hu). congruence. }
  assert (Hnew : forall d, by_id w !! d <> Some o).
  { intros d Hd'. destruct (do_linked _ Hw d o Hd'). congruence. }
  constructor; try done.
  - intros o' z. rewrite Hobj. destruct (decide (o' = o)) as [->|Hne].
    + intros [= <-]. constructor; simpl; try done.
      * intros _. change (threads w') with (threads w). by rewrite Hnone.
      * split; [intros _; exists did; by rewrite Hid, decide_True|done].
    + intros Hz. destruct (do_objects _ Hw o' z Hz) as [H1 H2 H3 H4 H5 H6]. constructor; try done.
      rewrite H4. split; intros [d Hd']; exists d; rewrite Hid in *.
      * rewrite decide_False; [done|]. intros ->. congruence.
      * destruct (decide (d = did)); [congruence|done].
  - intros i t o' Ht Hu. rewrite Hobj. destruct (decide (o' = o)); [by eexists|]. by eapply (do_known _ Hw).
  - intros d o'. rewrite Hid, Hobj. destruct (decide (o' = o)); [by eexists|].
    destruct (decide (d = did)); [congruence|]. apply (do_linked _ Hw).
  - intros d d' o'. rewrite !Hid. destruct (decide (d = did)) as [->|], (decide (d' = did)) as [->|]; try done.
    + intros [= <-] H. by apply Hnew in H.
    + intros H [= <-]. by apply Hnew in H.
    + apply (do_unique _ Hw).
  - apply (do_exclusive _ Hw).
  - intros i t o' z Ht Hp. rewrite Hobj. destruct (decide (o' = o)) as [->|]; [by intros [= <-]|].
    by eapply (do_unlinking _ Hw).
  - intros i t o' z Ht Hp. rewrite Hobj. destruct (decide (o' = o)) as [->|]; [|by eapply (do_dropping _ Hw)].
    assert (1 <= uses o t)%nat by (apply uses_refers; by rewrite Hp).
    pose proof (users_pos o (threads w) i t Ht). lia.
Qed.

Lemma dom_step_ok w w' : dom_step w w' -> dom_ok w -> dom_ok w'.
Proof.
  destruct 1 as [w did o Hd Ho|w i t did o k Ht Hp Hd _|w i t o k Ht Hp Hfree|w i t o x Ht Hp Hx Hl
    |w i t o x Ht Hp Hx Hl|w i t o k x Ht Hp Hx Hl|w i t o did Ht Hp Hd|w i t o Ht Hp|w i t o l1 l2 Ht Hp Hh];
    intros Hw.
  - by apply step_create.
  - by apply (step_lookup w i t did o k).
  - eapply dom_ok_move; [exact Hw|exact Ht|..]; try done; try (intros o'; by rewrite Hp).
    + intros o'. rewrite uses_pos. unfold uses. by rewrite Hp.
    + intros o' [H|H]; [left; by left|]. simpl in H. right.
      assert (o' = o) as -> by (destruct k; intuition congruence). exact Hfree.
  - eapply dom_ok_move; [exact Hw|exact Ht|..]; try done; try (intros o'; by rewrite Hp).
    + intros o'. unfold uses. rewrite Hp. simpl.
      destruct (Nat.eqb_spec o' o), (decide (Some o = Some o')); simpl; simplify_eq; lia || congruence.
    + intros o' [H|H]; [|simpl in H; intuition discriminate]. left. simpl in H.
      apply elem_of_cons in H as [->|H]; [|by left]. unfold inside. rewrite Hp. auto 10.
  - eapply dom_ok_move; [exact Hw|exact Ht|..]; try done; try (intros o'; by rewrite Hp).
    + intros o'. rewrite uses_pos. unfold uses. by rewrite Hp.
    + intros o' [H|H]; [left; by left|]. simpl in H. left.
      assert (o' = o) as -> by (intuition congruence). unfold inside. rewrite Hp. auto 10.
    + intros o' z [= <-] Hz. simplify_eq. exact Hl.
  - eapply dom_ok_move; [exact Hw|exact Ht|..]; try done; try (intros o'; by rewrite Hp).
    + intros o'. rewrite uses_pos. unfold uses. by rewrite Hp.
    + intros o' [H|H]; [left; by left|]. simpl in H. left.
      assert (o' = o) as -> by (intuition congruence). unfold inside. rewrite Hp. destruct k; auto 10.
  - by apply (step_unlink w i t o did).
  - by apply step_drop.
  - by apply step_release.
Qed.

Lemma dom_init_ok n :
  dom_ok {| by_id := ∅; objects := ∅; threads := replicate n {| held := []; pos := Running |} |}.
Proof.
  assert (Hth : forall i t, (replicate n {| held := []; pos := Running |}) !! i = Some t ->
            t = {| held := []; pos := Running |}).
  { intros i t Ht. by apply lookup_replicate in Ht as [-> _]. }
  constructor; simpl; try done.
  - intros i t o Ht Hu. apply Hth in Ht as ->. unfold uses in Hu. simpl in Hu. lia.
  - intros i j t u o Ht Hu [H|H] _; apply Hth in Ht as ->; simpl in H;
      [by apply not_elem_of_nil in H|intuition discriminate].
Qed.

Lemma dom_reach_ok n w : dom_reach n w -> dom_ok w.
Proof. induction 1 as [|w w' _ IH Hs]; [apply dom_init_ok|by eapply dom_step_ok]. Qed.

(** * Properties *)

(** C21: the reference counts protect the domains.  However the lookups,
    releases and destructions of any number of threads interleave: a domain that
    is in the table, that a thread holds, waits for or is destroying is not
    deleted; and a destroyed domain is not lost - when the last thread has
    released it, it has been deleted. *)
Theorem domain_references_safe (n : nat) (w : dom_world) :
  dom_reach n w ->
  (forall did o, by_id w !! did = Some o -> exists x, objects w !! o = Some x /\ live x = true) /\
  (forall i t o, threads w !! i = Some t -> o ∈ held t \/ refers (pos t) = Some o ->
     exists x, objects w !! o = Some x /\ live x = true) /\
  (forall o x, objects w !! o = Some x -> in_list x = false ->
     (forall i t, threads w !! i = Some t -> ~ (o ∈ held t) /\ refers (pos t) <> Some o) -> live x = false).
Proof.
  intros Hr. pose proof (dom_reach_ok n w Hr) as Hw. split; [|split].
  - intros did o Hd. destruct (do_linked _ Hw _ _ Hd) as [x Hx]. exists x. split; [done|].
    apply (linked_live w o x Hw Hx). apply (oo_linked _ _ _ (do_objects _ Hw o x Hx)). by exists did.
  - intros i t o Ht Hu. eapply thread_live; [exact Hw|exact Ht|].
    destruct Hu as [Hu|Hu]; [by apply uses_held|by apply uses_refers].
  - intros o x Hx Hl Hnone. destruct (live x) eqn:E; [exfalso|done].
    destruct (do_objects _ Hw o x Hx) as [_ _ _ _ H5 H6].
    assert (Hu : (1 <= users o (threads w))%nat).
    { destruct (H5 E Hl) as [Hg|(i & t & Ht & Hp)]; [by apply H6|].
      assert (1 <= uses o t)%nat by (apply uses_refers; by rewrite Hp).
      pose proof (users_pos o (threads w) i t Ht). lia. }
    apply users_ex in Hu as (i & t & Ht & Hu). destruct (Hnone i t Ht) as [Hh Hp].
    unfold uses in Hu. rewrite decide_False in Hu by done.
    destruct (List.filter (Nat.eqb o) (held t)) as [|y l] eqn:Ef; simpl in Hu; [lia|].
    apply Hh. assert (Hy : In y (List.filter (Nat.eqb o) (held t))) by (rewrite Ef; by left).
    apply filter_In in Hy as [Hy Heq]. apply Nat.eqb_eq in Heq as ->. by apply list_elem_of_In.
Qed.

(** The worlds of a run with a destroyer and a getter of domain 5. *)
Definition idle_thread : dom_thread := {| held := []; pos := Running |}.
Definition race0 : dom_world :=
  {| by_id := {[5 := 0%nat]};
     objects := {[0%nat := {| o_refcount := 0; in_list := true; live := true; given_back := false |}]};
     threads := [idle_thread; idle_thread] |}.
Definition at_pos (p : position) : dom_thread := {| held := []; pos := p |}.
Definition race1 : dom_world :=
  set_thread 0 (at_pos (Waiting 0 Destroy)) (inc_domain_refcount 0 race0).
Definition race2 : dom_world :=
  set_thread 1 (at_pos (Waiting 0 Get)) (inc_domain_refcount 0 race1).
Definition race3 : dom_world := set_thread 0 (at_pos (Locked 0 Destroy)) race2.
Definition race4 : dom_world := set_thread 0 (at_pos (Unlinking 0)) race3.
Definition race5 : dom_world :=
  set_thread 0 (at_pos (Dropping 0))
    (set_object 0 (fun x => x <| in_list := false |>) (race4 <| by_id ::= fun m => delete 5 m |>)).
Definition race6 : dom_world := set_thread 0 idle_thread (drop_domain 0 race5).
Definition race7 : dom_world := set_thread 1 (at_pos (Locked 0 Get)) race6.

Lemma race7_reach : dom_reach 2 race7.
Proof.
  assert (H0 : dom_reach 2 race0).
  { eapply (dreach_step 2 _ _ (dreach_init 2)).
    apply (ds_create {| by_id := ∅; objects := ∅; threads := replicate 2 idle_thread |} 5 0); done. }
  assert (H1 : dom_reach 2 race1).
  { apply (dreach_step 2 race0); [done|]. by apply (ds_lookup race0 0 idle_thread 5 0 Destroy). }
  assert (H2 : dom_reach 2 race2).
  { apply (dreach_step 2 race1); [done|]. by apply (ds_lookup race1 1 idle_thread 5 0 Get). }
  assert (H3 : dom_reach 2 race3).
  { apply (dreach_step 2 race2); [done|].
    apply (ds_lock race2 0 (at_pos (Waiting 0 Destroy)) 0 Destroy); [done|done|].
    intros [|[|j]] u Hu [H|H]; simpl in Hu; simplify_eq; simpl in H; try done;
      try (by apply not_elem_of_nil in H); intuition discriminate. }
  assert (H4 : dom_reach 2 race4).
  { apply (dreach_step 2 race3); [done|].
    by eapply (ds_destroying race3 0 (at_pos (Locked 0 Destroy)) 0). }
  assert (H5 : dom_reach 2 race5).
  { apply (dreach_step 2 race4); [done|].
    by apply (ds_unlink race4 0 (at_pos (Unlinking 0)) 0 5). }
  assert (H6 : dom_reach 2 race6).
  { apply (dreach_step 2 race5); [done|].
    by apply (ds_drop race5 0 (at_pos (Dropping 0)) 0). }
  apply (dreach_step 2 race6); [done|].
  apply (ds_lock race6 1 (at_pos (Waiting 0 Get)) 0 Get); [done|done|].
  assert (Hth : threads race6 = [idle_thread; at_pos (Waiting 0 Get)]) by done.
  rewrite Hth. intros [|[|j]] u Hu [H|H]; simpl in Hu; simplify_eq; simpl in H; try done;
    try (by apply not_elem_of_nil in H); intuition discriminate.
Qed.

Lemma domain_references_safe_witness : exists x, objects race7 !! 0%nat = Some x /\ live x = true.
Proof.
  destruct (domain_references_safe 2 race7 race7_reach) as (_ & H & _).
  apply (H 1%nat (at_pos (Locked 0 Get)) 0%nat); [reflexivity|by right].
Defined.

(** A lookup can read a freed list node.  The reference counts keep the
    domain alive, but [__get_domain] hands the list node, not the domain, over
    the wait for the domain's lock, and [oh_destroy_domain] frees the node while
    others wait: a thread that called [oh_get_domain] before the destruction and
    gets the lock after it reads the freed node. *)
Theorem domain_get_reads_freed_node :
  exists w w' i t, dom_reach 2 w /\ threads w !! i = Some t /\ pos t = Locked 0 Get /\
    (exists x, objects w !! 0%nat = Some x /\ live x = true /\ in_list x = false) /\
    dom_step w w' /\ pos <$> threads w' !! i = Some (Crashed 0).
Proof.
  exists race7, (set_thread 1 (at_pos (Crashed 0)) race7), 1%nat,
    (at_pos (Locked 0 Get)).
  split; [exact race7_reach|]. split; [done|]. split; [done|]. split; [by eexists|].
  split; [|done]. by eapply (ds_crash race7 1 (at_pos (Locked 0 Get)) 0 Get).
Qed.
