(* ===== verification/Event.v ===== *)
(** The processing of events: [openhpid/event.c].

    Events that the plug-ins have put into the processing queue are applied one
    after the other to the domain: its Resource Presence Table, its event log
    (and the log's save file), the queues of the sessions subscribed to it and
    its alarm table.  The quit event, which ends the processing, is in
    [QuitEvent].

    A parameter of the model is the value it has during a call: the clock [now],
    the global parameters [g], the number [waiting] of threads that wait for an
    event of a session, and which files can be opened and written ([io]).  The
    sessions are those of one thread: what other threads may do between the
    steps is the subject of [Session]. *)
From stdpp Require Import pretty.
From S2P Require Import Prelude SaHpi GIndex EntityPath Rpt EventLog Conf DomainState.
From S2P Require Import EventUtils QuitEvent Alarm Session.

Record io_faults := {
  el_fopen : bool; el_fwrite : nat -> bool; dat_fopen : bool; dat_fwrite : nat -> bool }.

(** The domain of an event with its alarm file and its log file, the sessions,
    and the handler ids allocated for resources: the pointer to the [i]-th cell
    is the integer [i + 1]. *)
Record world := {
  dat_st : dat_state; del_file : option (list oh_el_entry);
  sess : session_state; hidps : list Z }.
#[export] Instance eta_world : Eta world := fun x =>
  Build_world (dat_st x) (del_file x) (sess x) (hidps x).

Definition w_dom (w : world) : oh_domain := dom (dat_st w).
Definition set_dom (f : oh_domain -> oh_domain) (w : world) : world :=
  w <| dat_st ::= fun s => s <| dom ::= f |> |>.

(** The table after a call of [rpt_utils.c]. *)
Definition put_rpt (t : option RPTable) (w : world) : world :=
  set_dom (fun d => d <| rpt ::= fun t0 => default t0 t |>) w.

(** [g_new0] and the assignment to the cell. *)
Definition new_hidp (h : Z) (w : world) : Z * world :=
  (Z.of_nat (length (hidps w)) + 1, w <| hidps ::= fun l => l ++ [h] |>).

(** [snprintf] cuts the name to the size of the buffer. *)
Definition del_filepath (g : global_params) (d : oh_domain) : string :=
  String.substring 0 (2 * SAHPI_MAX_TEXT_BUFFER_LENGTH - 1)
    (String.append (varpath g) (String.append "/del." (pretty (domain_id d)))).

(** What a user event may not carry. *)
Definition strip_user (e : oh_event) : oh_event :=
  e <| resource ::= fun r => r <| ResourceCapabilities := 0 |> |>
    <| rdrs ::= fun l => match l with
                         | r :: l => r <| RdrType := SAHPI_NO_RECORD |> :: l
                         | [] => []
                         end |>.

(** The loops over the RDRs of an event; [oh_add_rdr] sets the ids of the
    event's own records. *)
Fixpoint add_rdrs (t : option RPTable) (rid : Z) (l : list SaHpiRdrT)
    : option RPTable * list SaHpiRdrT :=
  match l with
  | [] => (t, [])
  | r :: l =>
      let '(_, t, r') := oh_add_rdr t rid (Some r) 0 0 in
      let '(t, l) := add_rdrs t rid l in (t, default r r' :: l)
  end.

Definition remove_rdrs (t : option RPTable) (rid : Z) (l : list SaHpiRdrT) : option RPTable :=
  foldl (fun t r =>
    let instr_id := oh_get_instrument_id r in
    let rdrid := oh_get_rdr_uid (RdrType r) instr_id in
    snd (oh_remove_rdr t rid rdrid)) t l.

Section Events.
Context `{EntityPathLookup} (g : global_params) (now : Z) (domain_exists : Z -> bool)
  (waiting : Z -> Z) (io : io_faults).

(** The saving of the log. *)
Definition save_del (w : world) : world :=
  if truthy (default 0 (get_num OPENHPI_DEL_SAVE g))
  then match snd (oh_el_map_to_file (el_fopen io) (el_fwrite io) (Some (del (w_dom w)))
                    (Some (del_filepath g (w_dom w)))) with
       | Some f => w <| del_file := Some f |>
       | None => w
       end
  else w.

(** [oh_get_global_param] of a number leaves the zeroed union if it fails. *)
Definition oh_add_event_to_del (w : option world) (e : option oh_event) : Z * option world :=
  match w, e with
  | Some w, Some e =>
      let log_on_sev := default 0 (get_num OPENHPI_LOG_ON_SEV g) in
      if (EventType (EventUtils.event e) =? SAHPI_ET_USER)
         || (event_Severity (EventUtils.event e) <=? log_on_sev)
      then
        let rdr := head (rdrs e) in
        let rpte := if truthy (ResourceCapabilities (resource e)) then Some (resource e) else None in
        let '(error, elinfo) := oh_el_info now (Some (del (w_dom w))) (Some (info (del (w_dom w)))) in
        let enabled := match elinfo with Some i => truthy (Enabled i) | None => false end in
        let '(error, w) :=
          if (error =? SA_OK) && enabled
          then let '(error, l) := oh_el_append now (Some (del (w_dom w)))
                                    (Some (EventUtils.event e)) rdr rpte in
               (error, set_dom (fun d => d <| del ::= fun l0 => default l0 l |>) w)
          else (error, w) in
        (error, Some (save_del w))
      else (0, Some w)
  | _, _ => (-1, w)
  end.

(** The body of the multiplexing loop. *)
Definition deliver (e : oh_event) (s : session_state) (sid : Z) : session_state :=
  let is_subscribed := default SAHPI_FALSE (snd (oh_get_session_subscription sid true s)) in
  if truthy is_subscribed
  then snd (oh_queue_session_event g (waiting sid) sid (Some e) s)
  else s.

Definition process_hpi_event (w : option world) (e : option oh_event)
    : Z * option world * option oh_event :=
  match w, e with
  | Some w, Some e =>
      let e := if EventType (EventUtils.event e) =? SAHPI_ET_USER then strip_user e else e in
      let w := default w (snd (oh_add_event_to_del (Some w) (Some e))) in
      match oh_list_sessions domain_exists (domain_id (w_dom w)) (sess w) with
      | None => (-2, Some w, Some e)
      | Some sessions =>
          if (length sessions <? 1)%nat then (0, Some w, Some e)
          else (0, Some (w <| sess := foldl (deliver e) (sess w) sessions |>), Some e)
      end
  | _, _ => (-1, w, e)
  end.

(** The switch of [process_resource_event]: the event and the flags [process],
    [update] and [remove]; [None] is the error return. *)
Definition resource_event_case (type : Z) (found : option SaHpiRptEntryT) (e : oh_event)
    : option (oh_event * bool * bool * bool) :=
  let was_failed := match found with Some x => truthy (ResourceFailed x) | None => false end in
  let set_failed v := e <| resource ::= fun r => r <| ResourceFailed := v |> |> in
  if (type =? SAHPI_RESE_RESOURCE_FAILURE) || (type =? SAHPI_RESE_RESOURCE_INACCESSIBLE)
  then if was_failed then Some (e, false, false, false)
       else Some (set_failed SAHPI_TRUE, true, false, false)
  else if type =? SAHPI_RESE_RESOURCE_RESTORED
  then if was_failed then Some (set_failed SAHPI_FALSE, true, false, false)
       else Some (e, false, false, false)
  else if (type =? SAHPI_RESE_RESOURCE_ADDED) || (type =? SAHPI_RESE_RESOURCE_UPDATED)
  then Some (e, true, true, false)
  else if type =? SAHPI_RESE_RESOURCE_REMOVED
  then Some (e, bool_decide (is_Some found), false, true)
  else None.

Definition resource_event_type (e : oh_event) : Z :=
  match EventDataUnion (EventUtils.event e) with ResourceEvent t => t | _ => -1 end.

Definition process_resource_event (w : option world) (e : option oh_event)
    : Z * option world * option oh_event :=
  match w, e with
  | Some w, Some e =>
      let found := oh_get_resource_by_id (Some (rpt (w_dom w))) (ResourceId (resource e)) in
      match resource_event_case (resource_event_type e) found e with
      | None => (-1, Some w, Some e)
      | Some (e, process, update, remove) =>
          let finish w e :=
            if process
            then let '(_, w, e) := process_hpi_event (Some w) (Some e) in (0, w, e)
            else (0, Some w, Some e) in
          if remove then
            if bool_decide (is_Some found)
            then finish (put_rpt (snd (oh_remove_resource now (Some (rpt (w_dom w)))
                                         (ResourceId (resource e)))) w) e
            else finish w e
          else
            let '(hidp, w) := new_hidp (hid e) w in
            let '(error, t, en) := oh_add_resource now (Some (rpt (w_dom w))) (Some (resource e)) hidp 0 in
            let w := put_rpt t w in
            let e := e <| resource ::= fun r => default r en |> in
            if negb (error =? SA_OK)
            then (-1, Some (put_rpt (Some (g_free hidp (rpt (w_dom w)))) w), Some e)
            else if update then
              let rid := ResourceId (resource e) in
              let t := remove_rdrs (Some (rpt (w_dom w))) rid (rdrs_to_remove e) in
              let '(t, l) := add_rdrs t rid (rdrs e) in
              finish (put_rpt t w) (e <| rdrs := l |>)
            else finish w e
      end
  | _, _ => (-1, w, e)
  end.

Definition process_hs_event (w : option world) (e : option oh_event)
    : Z * option world * option oh_event :=
  match w, e with
  | Some w, Some e =>
      let found := oh_get_resource_by_id (Some (rpt (w_dom w))) (ResourceId (resource e)) in
      match EventDataUnion (EventUtils.event e) with
      | HotSwapEvent hse =>
          let '(w, e) :=
            if HotSwapState hse =? SAHPI_HS_STATE_NOT_PRESENT
            then (put_rpt (snd (oh_remove_resource now (Some (rpt (w_dom w)))
                                  (ResourceId (resource e)))) w, e)
            else
              let '(hidp, w) := new_hidp (hid e) w in
              let '(error, t, en) := oh_add_resource now (Some (rpt (w_dom w))) (Some (resource e)) hidp 0 in
              let w := put_rpt t w in
              let e := e <| resource ::= fun r => default r en |> in
              if (error =? SA_OK) && bool_decide (found = None)
              then let '(t, l) := add_rdrs (Some (rpt (w_dom w))) (ResourceId (resource e)) (rdrs e) in
                   (put_rpt t w, e <| rdrs := l |>)
              else (w, e) in
          if negb (HotSwapState hse =? PreviousHotSwapState hse)
          then let '(_, w, e) := process_hpi_event (Some w) (Some e) in (0, w, e)
          else (0, Some w, Some e)
      | _ => (0, Some w, Some e)
      end
  | _, _ => (-1, w, e)
  end.

(** The resource of an event without capabilities is looked up by the
    event's source. *)
Definition restore_resource (w : world) (e : oh_event) : oh_event :=
  if ResourceCapabilities (resource e) =? 0
  then match oh_get_resource_by_id (Some (rpt (w_dom w))) (Source (EventUtils.event e)) with
       | Some restored => e <| resource := restored |>
       | None => e
       end
  else e.

Definition has_capability (e : oh_event) (c : Z) : bool :=
  truthy (Z.land (ResourceCapabilities (resource e)) c).

(** The switch of [process_event] on the type of the event. *)
Definition dispatch (w : world) (e : oh_event) : world * oh_event :=
  let type := EventType (EventUtils.event e) in
  let result (r : Z * option world * option oh_event) := (default w r.1.2, default e r.2) in
  if type =? SAHPI_ET_RESOURCE then
    if hid e =? 0 then (w, e)
    else
      let e := restore_resource w e in
      if negb (has_capability e SAHPI_CAPABILITY_RESOURCE) then (w, e)
      else if has_capability e SAHPI_CAPABILITY_FRU
              && (resource_event_type e =? SAHPI_RESE_RESOURCE_ADDED)
      then (w, e)
      else result (process_resource_event (Some w) (Some e))
  else if type =? SAHPI_ET_HOTSWAP then
    if hid e =? 0 then (w, e)
    else
      let e := restore_resource w e in
      if negb (has_capability e SAHPI_CAPABILITY_RESOURCE) then (w, e)
      else if negb (has_capability e SAHPI_CAPABILITY_FRU) then (w, e)
      else result (process_hs_event (Some w) (Some e))
  else if (type =? SAHPI_ET_SENSOR) || (type =? SAHPI_ET_SENSOR_ENABLE_CHANGE)
          || (type =? SAHPI_ET_WATCHDOG) || (type =? SAHPI_ET_HPI_SW) || (type =? SAHPI_ET_OEM)
          || (type =? SAHPI_ET_DOMAIN) || (type =? SAHPI_ET_USER) || (type =? SAHPI_ET_DIMI)
          || (type =? SAHPI_ET_DIMI_UPDATE) || (type =? SAHPI_ET_FUMI)
  then result (process_hpi_event (Some w) (Some e))
  else (w, e).

(** [w] is [None] when there is no domain of the id. *)
Definition process_event (w : option world) (e : option oh_event)
    : Z * option world * option oh_event :=
  match e with
  | None => (-1, w, e)
  | Some e =>
      match w with
      | None => (-2, None, Some e)
      | Some w =>
          let '(w, e) := dispatch w e in
          let s := snd (oh_detect_event_alarm g now (dat_fopen io) (dat_fwrite io)
                          (Some (dat_st w)) (Some e)) in
          (0, Some (w <| dat_st ::= fun s0 => default s0 s |>), Some e)
      end
  end.
End Events.

(** The loop of the processing thread on the events that are in the queue.  The
    clock and the files may change from one event to the next.  The result has
    the events that stay in the queue; [false] says that the thread waits for
    another event. *)
Fixpoint oh_process_events `{EntityPathLookup} (g : global_params) (domain_exists : Z -> bool)
    (env : nat -> Z * (Z -> Z) * io_faults) (i : nat) (q : list oh_event) (w : option world)
    : bool * list oh_event * option world :=
  match q with
  | [] => (false, [], w)
  | e :: q =>
      let '(now, waiting, io) := env i in
      let '(_, w, e) := process_event g now domain_exists waiting io w (Some e) in
      let cc := oh_detect_quit_event e in
      if cc =? 0 then (true, q, w)
      else oh_process_events g domain_exists env (S i) q w
  end.

(** * Delivery to the sessions *)

(** The queue of the session has reached the limit. *)
Definition queue_full (g : global_params) (waiting : Z) (l : list oh_event) : bool :=
  let limit := default 0 (get_num OPENHPI_EVT_QUEUE_LIMIT g) in
  (0 <? Z.of_nat (length l) - waiting) && (limit <=? Z.of_nat (length l) - waiting).

(** What the sessions are after the event went to the [target] sessions: each
    of them that is subscribed has a copy at the end of its queue, or is marked
    as overflowed; the others are as before. *)
Definition delivered (g : global_params) (waiting : Z -> Z) (e : oh_event) (target : Z -> bool)
    (s s' : session_state) : Prop :=
  list_ s' = list_ s /\
  (forall i, table s !! i = None -> table s' !! i = None) /\
  forall i x, table s !! i = Some x ->
    let l := queue_of (eventq x) s in
    let hit := target i && truthy (subscribed x) in
    let full := queue_full g (waiting i) l in
    queue_of (eventq x) s' = (if hit && negb full then l ++ [e] else l) /\
    table s' !! i = Some (if hit && full
                          then x <| eventq_status := SAHPI_EVT_QUEUE_OVERFLOW |> else x).

#[local] Arguments oh_queue_session_event : simpl never.

Lemma delivered_none g waiting e target s :
  (forall i x, table s !! i = Some x -> target i && truthy (subscribed x) = false) ->
  delivered g waiting e target s s.
Proof.
  intros H. split; [done|]. split; [done|]. intros i x Hx. cbv zeta. by rewrite (H i x Hx).
Qed.

Lemma queue_event_list g w sid e s : list_ (snd (oh_queue_session_event g w sid e s)) = list_ s.
Proof.
  unfold oh_queue_session_event. destruct e as [e|]; [|done]. destruct (sid <? 1); [done|].
  destruct (oh_dup_event (Some e)); [|done]. destruct (table s !! sid); [|done]. by destruct (match get_num _ _ with Some _ => _ | None => _ end).
Qed.

Lemma deliver_one g waiting e s ths sid x :
  conf_ok (s, ths) -> table s !! sid = Some x ->
  conf_ok (deliver g waiting e s sid, ths) /\
  delivered g waiting e (fun i => i =? sid) s (deliver g waiting e s sid).
Proof.
  intros Hc Hx. pose proof (open_session_of s ths sid x Hc Hx) as Ho.
  unfold deliver, oh_get_session_subscription.
  rewrite (proj2 (Z.ltb_ge sid 1)) by apply Ho. simpl. rewrite Hx. simpl.
  destruct (truthy (subscribed x)) eqn:Esub.
  - split; [by apply queue_event_ok|]. split; [apply queue_event_list|].
    pose proof (queue_event_spec g (waiting sid) sid e s x Ho) as Hq. cbv zeta in Hq.
    destruct (oh_queue_session_event _ _ _ _ _) as [err s']. simpl.
    fold (queue_full g (waiting sid) (queue_of (eventq x) s)) in Hq.
    destruct (queue_full g (waiting sid) (queue_of (eventq x) s)) eqn:Efull.
    + destruct Hq as [_ ->]. split.
      * intros i Hi. rewrite lookup_set_session. case_if; [|done]. by rewrite Hi.
      * intros i y Hy. rewrite lookup_set_session. cbv zeta.
        destruct (Z.eqb_spec i sid) as [->|Hne]; simpl; [|done].
        rewrite Hx in Hy |- *. injection Hy as <-. by rewrite Esub, Efull.
    + destruct Hq as (_ & Ht & _ & Hqs). split; [intros i Hi; by rewrite Ht|].
      intros i y Hy. cbv zeta. rewrite Ht, Hqs, Hy. destruct (Z.eqb_spec i sid) as [->|Hne]; simpl.
      * rewrite Hx in Hy. injection Hy as <-. by rewrite Esub, Efull, Nat.eqb_refl.
      * split; [|done]. destruct (Nat.eqb_spec (eventq y) (eventq x)) as [E|]; [|done].
        destruct Hne. apply (so_own _ (co_sess _ Hc) i sid y x); done.
  - split; [done|]. apply delivered_none. intros i y Hy.
    destruct (Z.eqb_spec i sid) as [->|]; [|done]. rewrite Hx in Hy. injection Hy as <-. by rewrite Esub.
Qed.

(** Deliveries to different sessions. *)
Lemma delivered_trans g waiting e (p q r : Z -> bool) s s1 s2 :
  delivered g waiting e p s s1 -> delivered g waiting e q s1 s2 ->
  (forall i, r i = p i || q i) -> (forall i, p i && q i = false) ->
  delivered g waiting e r s s2.
Proof.
  intros (Hl1 & Hn1 & H1) (Hl2 & Hn2 & H2) Hr Hd. split; [by rewrite Hl2|].
  split; [intros i Hi; by apply Hn2, Hn1|]. intros i x Hx. cbv zeta.
  destruct (H1 i x Hx) as [Hq1 Ht1]. specialize (H2 i _ Ht1). cbv zeta in H2.
  specialize (Hd i). rewrite Hr.
  destruct (p i), (q i); try done; simpl in *.
  - destruct H2 as [Hq2 Ht2].
    destruct (truthy (subscribed x)) eqn:Es; simpl in *; [|by rewrite Hq2, Ht2].
    destruct (queue_full g (waiting i) (queue_of (eventq x) s)); simpl in *; by rewrite Hq2, Ht2.
  - rewrite Hq1 in H2. exact H2.
  - rewrite Hq1 in H2. exact H2.
Qed.

Lemma deliver_all g waiting e l s ths :
  conf_ok (s, ths) -> NoDup l -> (forall i, i ∈ l -> is_Some (table s !! i)) ->
  conf_ok (foldl (deliver g waiting e) s l, ths) /\
  delivered g waiting e (fun i => bool_decide (i ∈ l)) s (foldl (deliver g waiting e) s l).
Proof.
  revert s. induction l as [|a l IH]; intros s Hc Hd Hl; simpl.
  - split; [done|]. by apply delivered_none.
  - apply NoDup_cons in Hd as [Ha Hd]. destruct (Hl a) as [x Hx]; [by left|].
    destruct (deliver_one g waiting e s ths a x Hc Hx) as [Hc1 H1].
    destruct (IH (deliver g waiting e s a) Hc1 Hd) as [Hc2 H2].
    { intros i Hi. destruct (Hl i) as [y Hy]; [by right|].
      destruct H1 as (_ & _ & H1). destruct (H1 i y Hy) as [_ H1']. rewrite H1'. by eexists. }
    split; [done|]. eapply delivered_trans; [exact H1|exact H2| |].
    + intros i. rewrite Bool.eq_iff_eq_true, orb_true_iff, !bool_decide_eq_true, Z.eqb_eq. apply elem_of_cons.
    + intros i. cbv beta. destruct (Z.eqb_spec i a) as [->|Hne]; cbn [andb]; [|done]. by apply bool_decide_eq_false_2.
Qed.

Lemma list_sessions_spec domain_exists did s :
  sess_ok s -> domain_exists did = true -> did <> SAHPI_UNSPECIFIED_DOMAIN_ID ->
  exists l, oh_list_sessions domain_exists did s = Some l /\ NoDup l /\
    forall i, i ∈ l <-> exists x, table s !! i = Some x /\ Session.did x = did.
Proof.
  intros Hs Hd Hu. unfold oh_list_sessions, default_did. rewrite (proj2 (Z.eqb_neq _ _) Hu), Hd. simpl.
  eexists. split; [reflexivity|]. split.
  - apply NoDup_ListNoDup, List.NoDup_filter, NoDup_ListNoDup, so_nodup, Hs.
  - intros i. rewrite list_elem_of_In, filter_In, <- list_elem_of_In, (so_list _ Hs). split.
    + intros [[x Hx] Hi]. rewrite Hx in Hi. apply Z.eqb_eq in Hi. by exists x.
    + intros (x & Hx & Hi). split; [by exists x|]. rewrite Hx. by apply Z.eqb_eq.
Qed.

(** * Logging *)

Definition set_del (l : oh_el) (d : oh_domain) : oh_domain := d <| del := l |>.

(** The event is logged: a user event, or one that is severe enough, in an
    enabled log. *)
Definition logged (g : global_params) (d : oh_domain) (e : oh_event) : bool :=
  ((EventType (EventUtils.event e) =? SAHPI_ET_USER)
   || (event_Severity (EventUtils.event e) <=? default 0 (get_num OPENHPI_LOG_ON_SEV g)))
  && truthy (Enabled (info (del d))).

(** The entries after the event. *)
Definition entries_after (g : global_params) (d : oh_domain) (e : oh_event) (ts : Z) : list oh_el_entry :=
  let l := el_list (del d) in
  if logged g d e
  then (if el_full (del d) then tail l else l) ++
       [{| EventLog.event := {| log_EntryId := nextid (del d); log_Timestamp := ts;
                                Event := EventUtils.event e |};
           el_rdr := default zero_rdr (head (rdrs e));
           el_res := if truthy (ResourceCapabilities (resource e)) then resource e else zero_rpt_entry |}]
  else l.

Lemma save_del_spec g io w :
  let w' := save_del g io w in
  dat_st w' = dat_st w /\ sess w' = sess w /\ hidps w' = hidps w /\
  ((forall i, el_fwrite io i = true) -> el_fopen io = true -> get_num OPENHPI_DEL_SAVE g = Some SAHPI_TRUE ->
   del_file w' = Some (el_list (del (w_dom w)))).
Proof.
  unfold save_del. destruct (truthy _) eqn:E.
  - unfold oh_el_map_to_file. destruct (el_fopen io) eqn:Ef; simpl; [|by repeat split].
    destruct (write_records (el_fwrite io) 0 _) as [f ok] eqn:Ew. simpl. split; [done|]. split; [done|].
    split; [done|]. intros Hw _ _. rewrite write_records_ok in Ew by done. by injection Ew as <- _.
  - split; [done|]. split; [done|]. split; [done|]. intros _ _ Hs. by rewrite Hs in E.
Qed.

Lemma add_to_del_spec g now io w e :
  exists w' l' ts, snd (oh_add_event_to_del g now io (Some w) (Some e)) = Some w' /\
    dat_st w' = ((dat_st w) <| dom ::= set_del l' |>) /\
    sess w' = sess w /\ hidps w' = hidps w /\
    el_list l' = entries_after g (w_dom w) e ts /\
    (nextid l' = if logged g (w_dom w) e then u32 (nextid (del (w_dom w)) + 1) else nextid (del (w_dom w))) /\
    Enabled (info l') = Enabled (info (del (w_dom w))) /\ Size (info l') = Size (info (del (w_dom w))) /\
    ((forall i, el_fwrite io i = true) -> el_fopen io = true -> get_num OPENHPI_DEL_SAVE g = Some SAHPI_TRUE ->
     logged g (w_dom w) e = true -> del_file w' = Some (el_list l')).
Proof.
  assert (Hsame : dat_st w = ((dat_st w) <| dom ::= set_del (del (w_dom w)) |>)) by by destruct w as [[[] ?] ? ? ?].
  unfold oh_add_event_to_del, entries_after, logged.
  destruct ((EventType (EventUtils.event e) =? SAHPI_ET_USER) || _); simpl andb;
    [|by exists w, (del (w_dom w)), 0].
  unfold oh_el_info. rewrite Z.eqb_refl. simpl andb. cbn match.
  set (l := del (w_dom w)) in *.
  destruct (truthy (Enabled (info l))) eqn:Een.
  - set (rpte := if truthy _ then _ else _).
    destruct (oh_el_append now (Some l) (Some (EventUtils.event e)) (head (rdrs e)) rpte) as [err o] eqn:Ea.
    assert (exists l', err = SA_OK /\ o = Some l') as (l' & -> & ->).
    { unfold oh_el_append in Ea. rewrite Een in Ea. simpl in Ea. injection Ea as <- <-. by eexists. }
    destruct (append_result _ _ _ _ _ _ Ea) as (ts & H1 & H2 & H3 & H4 & _).
    set (w1 := set_dom _ w). destruct (save_del_spec g io w1) as (S1 & S2 & S3 & S4).
    exists (save_del g io w1), l', ts. split; [done|]. split; [done|]. split; [done|]. split; [done|].
    split; [rewrite H1; unfold rpte; by destruct (truthy (ResourceCapabilities (resource e)))|].
    split; [exact H2|]. split; [exact H4|]. split; [exact H3|]. intros Hw Hf Hs _. by rewrite (S4 Hw Hf Hs).
  - destruct (save_del_spec g io w) as (S1 & S2 & S3 & S4).
    exists (save_del g io w), l, 0. split; [done|]. split; [by rewrite S1|]. done.
Qed.

(** What [process_hpi_event] does with an event: it is logged, and delivered to
    the subscribed sessions of the domain. *)
Definition to_domain (s : session_state) (did : Z) (i : Z) : bool :=
  match table s !! i with Some x => Session.did x =? did | None => false end.

Record posted (g : global_params) (waiting : Z -> Z) (io : io_faults) (e : oh_event) (w w' : world) : Prop := {
  po_dom : exists l' ts, dat_st w' = ((dat_st w) <| dom ::= set_del l' |>) /\
    el_list l' = entries_after g (w_dom w) e ts /\
    nextid l' = (if logged g (w_dom w) e then u32 (nextid (del (w_dom w)) + 1) else nextid (del (w_dom w))) /\
    Enabled (info l') = Enabled (info (del (w_dom w))) /\ Size (info l') = Size (info (del (w_dom w))) /\
    ((forall i, el_fwrite io i = true) -> el_fopen io = true -> get_num OPENHPI_DEL_SAVE g = Some SAHPI_TRUE ->
     logged g (w_dom w) e = true -> del_file w' = Some (el_list l'));
  po_hidps : hidps w' = hidps w;
  po_sess : delivered g waiting e (to_domain (sess w) (domain_id (w_dom w))) (sess w) (sess w');
  po_conf : forall ths, conf_ok (sess w, ths) -> conf_ok (sess w', ths) }.

Definition user_stripped (e : oh_event) : oh_event :=
  if EventType (EventUtils.event e) =? SAHPI_ET_USER then strip_user e else e.

(** The domain of the world is there, and its sessions are well formed; readers
    may be waiting for their events. *)
Record world_ok (domain_exists : Z -> bool) (w : world) : Prop := {
  wo_sess : sessions_ok (sess w);
  wo_dom : domain_exists (domain_id (w_dom w)) = true;
  wo_did : domain_id (w_dom w) <> SAHPI_UNSPECIFIED_DOMAIN_ID }.

Lemma delivered_ext g waiting e p q s s' :
  (forall i, is_Some (table s !! i) -> p i = q i) ->
  delivered g waiting e p s s' -> delivered g waiting e q s s'.
Proof.
  intros He (H1 & H2 & H3). split; [done|]. split; [done|]. intros i x Hx. cbv zeta.
  rewrite <- (He i) by by eexists. by apply H3.
Qed.

Lemma hpi_event_spec g now domain_exists waiting io w e :
  world_ok domain_exists w ->
  exists w', process_hpi_event g now domain_exists waiting io (Some w) (Some e)
             = (0, Some w', Some (user_stripped e)) /\
    posted g waiting io (user_stripped e) w w'.
Proof.
  intros [[ths0 Hc] Hd Hu]. unfold process_hpi_event. fold (user_stripped e). set (e' := user_stripped e).
  clearbody e'. destruct (add_to_del_spec g now io w e') as (w1 & l' & ts & E & H1 & H2 & H3 & H4).
  rewrite E. simpl default.
  assert (Hid : domain_id (w_dom w1) = domain_id (w_dom w)) by by (unfold w_dom; rewrite H1).
  rewrite Hid, H2. destruct (list_sessions_spec domain_exists _ _ (co_sess _ Hc : sess_ok (sess w)) Hd Hu) as (l & -> & Hnd & Hl).
  assert (Hto : forall i, is_Some (table (sess w) !! i) ->
                bool_decide (i ∈ l) = to_domain (sess w) (domain_id (w_dom w)) i).
  { intros i [x Hx]. unfold to_domain. rewrite Hx. apply Bool.eq_iff_eq_true.
    rewrite bool_decide_eq_true, Z.eqb_eq, Hl. split; [|by exists x].
    intros (y & Hy & Hyd). by simplify_eq. }
  assert (Hin : forall i, i ∈ l -> is_Some (table (sess w) !! i))
    by (intros i Hi; apply Hl in Hi as (x & Hx & _); by exists x).
  destruct (deliver_all g waiting e' l (sess w) ths0 Hc Hnd Hin) as [_ Hdel].
  exists (if (length l <? 1)%nat then w1 else w1 <| sess := foldl (deliver g waiting e') (sess w) l |>).
  split; [by destruct (length l <? 1)%nat|].
  assert (Hs : sess (if (length l <? 1)%nat then w1 else w1 <| sess := foldl (deliver g waiting e') (sess w) l |>)
               = foldl (deliver g waiting e') (sess w) l).
  { destruct l; [exact H2|done]. }
  constructor; rewrite ?Hs; [|by destruct (length l <? 1)%nat| |].
  - exists l', ts. destruct (length l <? 1)%nat; (split; [exact H1|exact H4]).
  - eapply delivered_ext; [exact Hto|exact Hdel].
  - intros ths Hths. by apply (deliver_all g waiting e' l (sess w) ths Hths Hnd Hin).
Qed.

(** * The table after resource and hot swap events *)

(** The record under its own id. *)
Definition with_id (r : SaHpiRdrT) : SaHpiRdrT :=
  r <| RecordId := oh_get_rdr_uid (RdrType r) (oh_get_instrument_id r) |>.

(** A record added to and removed from the RDRs of the resource [en]. *)
Definition rdr_added (en : SaHpiRptEntryT) (rs : list SaHpiRdrT) (r : SaHpiRdrT) : list SaHpiRdrT :=
  if truthy (check_instrument_id en r) then rs else put_rdr (with_id r) rs.
Definition rdr_removed (rs : list SaHpiRdrT) (r : SaHpiRdrT) : list SaHpiRdrT :=
  filter (fun x => RecordId x <> RecordId (with_id r)) rs.

(** The records of the event have ids; see [Rpt.oh_add_rdr_zero_id_overwrites]
    for those that have not. *)
Definition ids_set (l : list SaHpiRdrT) : Prop := Forall (fun r => RecordId (with_id r) <> SAHPI_FIRST_ENTRY) l.

Lemma view_update_compose k g1 g2 v :
  (forall x, ResourceId (g1 x).1 = ResourceId x.1) ->
  view_update k g2 (view_update k g1 v) = view_update k (fun x => g2 (g1 x)) v.
Proof.
  intros Hk. unfold view_update. rewrite <- list_fmap_compose. apply list_fmap_ext. intros _ x _. simpl.
  destruct (ResourceId x.1 =? k) eqn:E; [by rewrite Hk, E|by rewrite E].
Qed.

Lemma view_update_id k v : view_update k (fun x => (x.1, x.2)) v = v.
Proof.
  unfold view_update. rewrite <- (list_fmap_id v) at 2. apply list_fmap_ext. intros _ x _.
  destruct x. simpl. by destruct (_ =? k).
Qed.

Lemma view_update_ext k g1 g2 v :
  (forall x, x ∈ v -> ResourceId x.1 = k -> g1 x = g2 x) -> view_update k g1 v = view_update k g2 v.
Proof.
  intros Hg. unfold view_update. apply list_fmap_ext. intros _ x Hx%list_elem_of_lookup_2.
  destruct (Z.eqb_spec (ResourceId x.1) k); [by apply Hg|done].
Qed.

Lemma view_find_update k g v :
  k <> SAHPI_FIRST_ENTRY -> (forall x, ResourceId (g x).1 = ResourceId x.1) ->
  view_find k (view_update k g v) = g <$> view_find k v.
Proof.
  intros Hk Hg. unfold view_find. rewrite (proj2 (Z.eqb_neq _ _) Hk).
  induction v as [|x v IH]; simpl; [done|]. destruct (ResourceId x.1 =? k) eqn:E; simpl.
  - by rewrite Hg, E.
  - by rewrite E.
Qed.

Lemma view_find_rid k v x : k <> SAHPI_FIRST_ENTRY -> view_find k v = Some x -> ResourceId x.1 = k.
Proof.
  intros Hk. unfold view_find. rewrite (proj2 (Z.eqb_neq _ _) Hk). intros [_ H]%find_some. by apply Z.eqb_eq.
Qed.

Lemma add_rdrs_view t rid l x :
  rpt_ok t -> rid <> SAHPI_FIRST_ENTRY -> view_find rid (rpt_view t) = Some x -> ids_set l ->
  exists t', add_rdrs (Some t) rid l
      = (Some t', (fun r => if truthy (check_instrument_id x.1 r) then r else with_id r) <$> l) /\
    rpt_ok t' /\
    rpt_view t' = view_update rid (fun y => (y.1, foldl (rdr_added x.1) y.2 l)) (rpt_view t).
Proof.
  intros Ht Hr. revert t x Ht. induction l as [|r l IH]; intros t x Ht Hx Hl.
  { exists t. split; [done|]. split; [done|]. by rewrite view_update_id. }
  apply Forall_cons in Hl as [Hz Hl]. cbn [add_rdrs foldl fmap list_fmap].
  pose proof (view_find_elem t rid Ht) as Hv.
  destruct (get_rptentry_by_rid (Some t) rid) as [[n e]|] eqn:Hget; [|congruence].
  rewrite Hx in Hv. injection Hv as ->. unfold rdr_added at 2. change (entry_view e).1 with (rpt_entry e) in *.
  destruct (truthy (check_instrument_id (rpt_entry e) r)) eqn:Echk.
  - assert (oh_add_rdr (Some t) rid (Some r) 0 0 = (SA_ERR_HPI_INVALID_PARAMS, Some t, Some r)) as ->.
    { unfold oh_add_rdr. by rewrite Hget, Echk. }
    destruct (IH t (entry_view e) Ht Hx Hl) as (t' & E & H1 & H2).
    rewrite E. exists t'. split; [done|]. split; [done|]. exact H2.
  - apply truthy_false in Echk as Echk'.
    destruct (add_rdr_view t rid r 0 0 n e Ht Hget Echk' Hz) as (t1 & E1 & H1 & H2 & _).
    cbv zeta in E1. rewrite E1. fold (with_id r) in *.
    assert (Hid := view_find_rid rid _ (entry_view e) Hr Hx). simpl in Hid.
    rewrite Hid in H2.
    destruct (IH t1 (rpt_entry e, put_rdr (with_id r) (rdr_view e)) H1) as (t' & E & H3 & H4); [|done|].
    { by rewrite H2, view_find_update, Hx. }
    rewrite E. exists t'. split; [done|]. split; [done|].
    rewrite H4, H2, view_update_compose by done. done.
Qed.

Lemma list_filter_keep {A} (P : A -> Prop) `{forall x, Decision (P x)} (l : list A) :
  (forall x, x ∈ l -> P x) -> filter P l = l.
Proof.
  induction l as [|x l IH]; intros H'; [done|].
  rewrite filter_cons_True by (apply H'; by left). rewrite IH; [done|]. intros y Hy. apply H'. by right.
Qed.

Lemma remove_rdr_spec t rid r x :
  rpt_ok t -> rid <> SAHPI_FIRST_ENTRY -> view_find rid (rpt_view t) = Some x ->
  RecordId (with_id r) <> SAHPI_FIRST_ENTRY ->
  exists t', snd (oh_remove_rdr (Some t) rid (RecordId (with_id r))) = Some t' /\ rpt_ok t' /\
    rpt_view t' = view_update rid (fun y => (y.1, rdr_removed y.2 r)) (rpt_view t).
Proof.
  intros Ht Hr Hx Hz. pose proof (view_find_elem t rid Ht) as Hv.
  destruct (get_rptentry_by_rid (Some t) rid) as [[n e]|] eqn:Hget; [|congruence].
  assert (Hid : ResourceId x.1 = rid) by by apply (view_find_rid rid (rpt_view t)).
  rewrite Hx in Hv. injection Hv as ->. simpl in Hid.
  destruct (get_rptentry_elem _ Ht _ _ _ Hget) as (Hin & Hok & _).
  destruct (get_rdrecord_by_id (Some e) (RecordId (with_id r))) as [[m d]|] eqn:Hrec.
  - destruct (remove_rdr_view t rid _ n e m d Ht Hget Hrec) as (t' & f & E & H1 & H2 & _).
    exists t'. rewrite E. split; [done|]. split; [done|]. rewrite H2, Hid.
    destruct (get_rdrecord_elem _ _ Hok _ _ _ Hrec) as [_ Hk]. unfold rdr_removed.
    by rewrite <- (Hk Hz).
  - exists t. unfold oh_remove_rdr. rewrite Hget, Hrec. split; [done|]. split; [done|].
    rewrite <- (view_update_id rid) at 1. apply view_update_ext. intros y Hy Hyr. f_equal.
    assert (Hy' : y = entry_view e).
    { pose proof (elem_view_find t y Ht Hy) as Hf. rewrite Hyr, Hx in Hf. by injection Hf. }
    subst y. simpl. unfold rdr_removed. symmetry. apply list_filter_keep. intros z Hz' Heq.
    pose proof (get_rdrecord_view _ _ Hok (RecordId (with_id r))) as Hrv. rewrite Hrec in Hrv.
    unfold rdr_find in Hrv. rewrite (proj2 (Z.eqb_neq _ _) Hz) in Hrv. symmetry in Hrv. simpl in Hrv.
    apply list_elem_of_In in Hz'. pose proof (find_none _ _ Hrv z Hz') as Hne. simpl in Hne.
    by apply Z.eqb_neq in Hne.
Qed.

#[local] Arguments oh_remove_rdr : simpl never.
#[local] Arguments oh_add_rdr : simpl never.
#[local] Arguments oh_add_resource : simpl never.
#[local] Arguments oh_remove_resource : simpl never.
#[local] Arguments get_rptentry_by_rid : simpl never.

Lemma remove_rdrs_view t rid l x :
  rpt_ok t -> rid <> SAHPI_FIRST_ENTRY -> view_find rid (rpt_view t) = Some x -> ids_set l ->
  exists t', remove_rdrs (Some t) rid l = Some t' /\ rpt_ok t' /\
    rpt_view t' = view_update rid (fun y => (y.1, foldl rdr_removed y.2 l)) (rpt_view t).
Proof.
  intros Ht Hr. revert t x Ht. unfold remove_rdrs.
  induction l as [|r l IH]; intros t x Ht Hx Hl; cbn [foldl]; cbv zeta.
  { exists t. by rewrite view_update_id. }
  apply Forall_cons in Hl as [Hz Hl].
  destruct (remove_rdr_spec t rid r x Ht Hr Hx Hz) as (t1 & E1 & H1 & H2).
  change (oh_get_rdr_uid (RdrType r) (oh_get_instrument_id r)) with (RecordId (with_id r)).
  rewrite E1. destruct (IH t1 (x.1, rdr_removed x.2 r) H1) as (t' & E & H3 & H4); [|done|].
  { by rewrite H2, view_find_update, Hx. }
  exists t'. split; [exact E|]. split; [done|]. by rewrite H4, H2, view_update_compose.
Qed.

(** The private data of the resources: the handler that announced each. *)
Definition rpt_hids (t : RPTable) : list (Z * Z) :=
  (fun e => (ResourceId (rpt_entry e), data e)) <$> (rptlist t).*2.

Lemma set_entry_hids n f t :
  (forall e, rpt_entry (f e) = rpt_entry e /\ data (f e) = data e) ->
  rpt_hids (set_entry n f t) = rpt_hids t.
Proof.
  intros Hf. unfold rpt_hids, set_entry, store_at. simpl. rewrite <- !list_fmap_compose.
  apply list_fmap_ext. intros _ [m e] _. simpl. destruct (Nat.eqb m n); simpl; [|done].
  by destruct (Hf e) as [-> ->].
Qed.

Lemma release_hids old own new t : rpt_hids (release_old_data old own new t) = rpt_hids t.
Proof. by rewrite release_spec. Qed.

Lemma add_rdr_hids t rid r dat own t' :
  snd (fst (oh_add_rdr (Some t) rid r dat own)) = Some t' -> rpt_hids t' = rpt_hids t.
Proof.
  unfold oh_add_rdr. destruct r as [r|]; [|by intros [= ->]].
  destruct (get_rptentry_by_rid (Some t) rid) as [[n e]|]; [|by intros [= ->]].
  destruct (truthy (check_instrument_id (rpt_entry e) r)); [by intros [= ->]|].
  destruct (get_rdrecord_by_id (Some e) _) as [[m d]|]; intros [= <-];
    rewrite set_entry_hids by done; rewrite release_hids; [done|]. by rewrite set_entry_hids.
Qed.

Lemma remove_rdr_hids t rid id t' :
  snd (oh_remove_rdr (Some t) rid id) = Some t' -> rpt_hids t' = rpt_hids t.
Proof.
  unfold oh_remove_rdr. destruct (get_rptentry_by_rid (Some t) rid) as [[n e]|]; [|by intros [= ->]].
  destruct (get_rdrecord_by_id (Some e) id) as [[m d]|]; intros [= <-]; [|done].
  rewrite set_entry_hids by done. destruct (truthy _); [done|]. by rewrite g_free_spec.
Qed.

Lemma add_rdrs_hids t rid l t' l' :
  add_rdrs (Some t) rid l = (Some t', l') -> rpt_hids t' = rpt_hids t.
Proof.
  revert t l'. induction l as [|r l IH]; intros t l'; simpl; [by intros [= ->]|].
  destruct (oh_add_rdr (Some t) rid (Some r) 0 0) as [[err o] r'] eqn:E.
  assert (exists t1, o = Some t1) as [t1 ->].
  { unfold oh_add_rdr in E. destruct (get_rptentry_by_rid (Some t) rid) as [[n e]|]; [|simplify_eq; by eexists].
    destruct (truthy _); [simplify_eq; by eexists|].
    destruct (get_rdrecord_by_id _ _) as [[m d]|]; simplify_eq; by eexists. }
  destruct (add_rdrs (Some t1) rid l) as [o l1] eqn:E2. intros [= -> <-].
  rewrite (IH t1 l1 E2). apply (add_rdr_hids t rid (Some r) 0 0). by rewrite E.
Qed.

Lemma remove_rdrs_hids t rid l t' :
  remove_rdrs (Some t) rid l = Some t' -> rpt_hids t' = rpt_hids t.
Proof.
  unfold remove_rdrs. revert t. induction l as [|r l IH]; intros t; simpl; [by intros [= ->]|].
  destruct (oh_remove_rdr (Some t) rid _) as [err o] eqn:E. simpl.
  assert (exists t1, o = Some t1) as [t1 ->].
  { unfold oh_remove_rdr in E. destruct (get_rptentry_by_rid (Some t) rid) as [[n e]|]; [|simplify_eq; by eexists].
    destruct (get_rdrecord_by_id _ _) as [[m d]|]; simplify_eq; by eexists. }
  intros H. rewrite (IH t1 H). eapply remove_rdr_hids. by rewrite E.
Qed.

Lemma elem_of_hids p t :
  p ∈ rpt_hids t <-> exists m e, (m, e) ∈ rptlist t /\ p = (ResourceId (rpt_entry e), data e).
Proof.
  unfold rpt_hids. rewrite list_elem_of_fmap. split.
  - intros (e & -> & He). apply list_elem_of_fmap in He as ([m e'] & -> & He). by exists m, e'.
  - intros (m & e & He & ->). exists e. split; [done|]. apply list_elem_of_fmap. by exists (m, e).
Qed.

(** A store at one node: the resource there gets the handler [dat]. *)
Lemma store_hids t t' n e f rid dat :
  rpt_ok t -> (n, e) ∈ rptlist t -> rptlist t' = store_at (rptlist t) n f ->
  ResourceId (rpt_entry e) = rid -> ResourceId (rpt_entry (f e)) = rid -> data (f e) = dat ->
  (rid, dat) ∈ rpt_hids t' /\ forall p, p.1 <> rid -> (p ∈ rpt_hids t' <-> p ∈ rpt_hids t).
Proof.
  intros Ht Hin El He Hf Hd.
  assert (Hu : forall a, (n, a) ∈ rptlist t -> a = e).
  { intros a Ha. apply (nodup_fst (rptlist t) n); [apply Ht|done|done]. }
  split.
  - apply elem_of_hids. exists n, (f e). rewrite El, Hf, Hd. split; [|done]. apply store_at_elem.
    exists e. by rewrite Nat.eqb_refl.
  - intros p Hp. rewrite !elem_of_hids, El. split.
    + intros (m & c & Hc & ->). apply store_at_elem in Hc as (a & Ha & ->).
      destruct (Nat.eqb_spec m n) as [->|]; [|by exists m, a].
      rewrite (Hu a Ha) in Hp. simpl in Hp. congruence.
    + intros (m & c & Hc & ->). exists m, c. split; [|done]. apply store_at_elem. exists c.
      split; [done|]. destruct (Nat.eqb_spec m n) as [->|]; [|done].
      rewrite (Hu c Hc) in Hp. simpl in Hp. congruence.
Qed.

(** A resource that is stored has the handler that stored it. *)
Lemma add_resource_data now t en dat own t' :
  rpt_ok t -> rid_ok (ResourceId en) ->
  snd (fst (oh_add_resource now (Some t) (Some en) dat own)) = Some t' ->
  (ResourceId en, dat) ∈ rpt_hids t' /\
  forall p, p.1 <> ResourceId en -> (p ∈ rpt_hids t' <-> p ∈ rpt_hids t).
Proof.
  intros Ht [Hr1 Hr2]. unfold oh_add_resource. cbv zeta.
  apply Z.eqb_neq in Hr1 as Hr1', Hr2 as Hr2'. rewrite Hr1', Hr2'. simpl negb. cbn match.
  set (en' := en <| EntryId := ResourceId en |>). change (ResourceId en') with (ResourceId en).
  destruct (get_rptentry_by_rid (Some t) (ResourceId en)) as [[n e]|] eqn:Hget.
  - destruct (get_rptentry_elem _ Ht _ _ _ Hget) as (Hin & Hok & Hid). specialize (Hid Hr1).
    rewrite release_spec. set (u := _ || _). intros [= <-].
    apply (store_hids t _ n e (fun e => let e := e <| data := dat |> <| owndata := own |> in
                                  if u then e <| rpt_entry := en' |> else e)); try done.
    + by destruct u.
    + destruct u; simpl; [done|exact Hid].
    + by destruct u.
  - rewrite release_spec. simpl. intros [= <-]. split.
    + apply elem_of_hids. simpl. rewrite (store_at_last rpt_key _ _ _ _ _ (rpt_index _ Ht)).
      eexists (alloc t), _. split; [apply elem_of_app; right; by left|done].
    + intros p Hp. rewrite !elem_of_hids. simpl. rewrite (store_at_last rpt_key _ _ _ _ _ (rpt_index _ Ht)).
      split.
      * intros (m & c & Hc & ->). apply elem_of_app in Hc as [Hc|Hc]; [by exists m, c|].
        apply list_elem_of_singleton in Hc as [= -> ->]. simpl in Hp. congruence.
      * intros (m & c & Hc & ->). exists m, c. split; [|done]. apply elem_of_app. by left.
Qed.

Lemma add_resource_put now t en dat :
  rpt_ok t -> rid_ok (ResourceId en) ->
  let en' := en <| EntryId := ResourceId en |> in
  exists t', oh_add_resource now (Some t) (Some en) dat 0 = (SA_OK, Some t', Some en') /\
    rpt_ok t' /\ rpt_view t' = put_resource en' (rpt_view t) /\ (ResourceId en, dat) ∈ rpt_hids t' /\
    exists rs, view_find (ResourceId en) (rpt_view t') = Some (en', rs).
Proof.
  intros Ht Hr en'. pose proof (view_find_elem t (ResourceId en) Ht) as Hv.
  assert (Hkey := view_find_key t (ResourceId en) (proj1 Hr)). unfold put_resource.
  change (ResourceId en') with (ResourceId en). rewrite <- Hkey.
  destruct (get_rptentry_by_rid (Some t) (ResourceId en)) as [[n e]|] eqn:Hget; rewrite Hv.
  - destruct (add_resource_existing now t en dat 0 n e Ht Hr Hget) as (t' & H1 & H2 & H3 & _).
    exists t'. split; [done|]. split; [done|]. split; [done|]. split.
    + apply (proj1 (add_resource_data now t en dat 0 t' Ht Hr (f_equal (fun x => snd (fst x)) H1))).
    + exists (rdr_view e). apply (elem_view_find t' (en', rdr_view e) H2). rewrite H3.
      apply list_elem_of_fmap. exists (entry_view e).
      assert (Hid := view_find_rid _ _ _ (proj1 Hr) Hv). rewrite Hid, Z.eqb_refl. split; [done|].
      destruct (get_rptentry_elem _ Ht _ _ _ Hget) as (Hin & _). unfold rpt_view.
      apply list_elem_of_fmap. exists e. split; [done|]. apply list_elem_of_fmap. by exists (n, e).
  - destruct (add_resource_new now t en dat 0 Ht Hr Hget) as (t' & H1 & H2 & H3 & _).
    exists t'. split; [done|]. split; [done|]. split; [done|]. split.
    + apply (proj1 (add_resource_data now t en dat 0 t' Ht Hr (f_equal (fun x => snd (fst x)) H1))).
    + exists []. apply (elem_view_find t' (en', []) H2). rewrite H3. apply elem_of_app. right. by left.
Qed.

Lemma remove_resource_view now t rid :
  rpt_ok t -> rid <> SAHPI_FIRST_ENTRY ->
  exists t', snd (oh_remove_resource now (Some t) rid) = Some t' /\ rpt_ok t' /\
    rpt_view t' = filter (fun x => ResourceId x.1 <> rid) (rpt_view t).
Proof.
  intros Ht Hr. pose proof (view_find_elem t rid Ht) as Hv.
  destruct (get_rptentry_by_rid (Some t) rid) as [[n e]|] eqn:Hget.
  - destruct (remove_resource_spec now t rid n e Ht Hget) as (t' & E & H1 & H2 & _).
    exists t'. rewrite E. split; [done|]. split; [done|].
    destruct (get_rptentry_elem _ Ht _ _ _ Hget) as (Hin & _ & Hid). rewrite <- (Hid Hr).
    rewrite <- remove_at_rpt_view with (2 := Hin) by done. unfold rpt_view. by rewrite H2.
  - exists t. unfold oh_remove_resource. rewrite Hget. split; [done|]. split; [done|].
    symmetry. apply list_filter_keep. intros x Hx Heq.
    pose proof (elem_view_find t x Ht Hx) as Hf. rewrite Heq, Hv in Hf. done.
Qed.

(** ** The specification *)

Definition failed_before (rid : Z) (v : list (SaHpiRptEntryT * list SaHpiRdrT)) : bool :=
  match view_find rid v with Some x => truthy (ResourceFailed x.1) | None => false end.

Definition is_failure (type : Z) : bool :=
  (type =? SAHPI_RESE_RESOURCE_FAILURE) || (type =? SAHPI_RESE_RESOURCE_INACCESSIBLE).
Definition is_update (type : Z) : bool :=
  (type =? SAHPI_RESE_RESOURCE_ADDED) || (type =? SAHPI_RESE_RESOURCE_UPDATED).

(** The resource as the event reports it: failed after a failure or when it
    cannot be reached, working after it was restored, and as it comes in the event
    after every other event. *)
Definition marked (type : Z) (r : SaHpiRptEntryT) : SaHpiRptEntryT :=
  if is_failure type then r <| ResourceFailed := SAHPI_TRUE |>
  else if type =? SAHPI_RESE_RESOURCE_RESTORED then r <| ResourceFailed := SAHPI_FALSE |>
  else r.
Definition reported_entry (type : Z) (r : SaHpiRptEntryT) : SaHpiRptEntryT :=
  (marked type r) <| EntryId := ResourceId r |>.

(** The event repeats what the table says: a resource that the table has as
    failed fails, or one that it does not have as failed is restored. *)
Definition repeated (type : Z) (v : list (SaHpiRptEntryT * list SaHpiRdrT)) (rid : Z) : bool :=
  is_failure type && failed_before rid v
  || (type =? SAHPI_RESE_RESOURCE_RESTORED) && negb (failed_before rid v).

(** The table after the event, with the entry [en] for the resource. *)
Definition resource_view (type : Z) (v : list (SaHpiRptEntryT * list SaHpiRdrT)) (en : SaHpiRptEntryT)
    (e : oh_event) : list (SaHpiRptEntryT * list SaHpiRdrT) :=
  let rid := ResourceId (resource e) in
  if type =? SAHPI_RESE_RESOURCE_REMOVED then filter (fun x => ResourceId x.1 <> rid) v
  else if is_update type
  then view_update rid (fun y => (y.1, foldl (rdr_added en) (foldl rdr_removed y.2 (rdrs_to_remove e)) (rdrs e)))
         (put_resource en v)
  else put_resource en v.

(** Whether it is news: not what the table says already, nor the removal of a
    resource that is not there. *)
Definition resource_news (type : Z) (v : list (SaHpiRptEntryT * list SaHpiRdrT)) (rid : Z) : bool :=
  negb (repeated type v rid) &&
  (negb (type =? SAHPI_RESE_RESOURCE_REMOVED) || bool_decide (is_Some (view_find rid v))).

(** What the code stores: the resource as the event reports it, unless the event
    repeats what the table says - then the entry of the event as it came. *)
Definition flagged (type : Z) (v : list (SaHpiRptEntryT * list SaHpiRdrT)) (r : SaHpiRptEntryT)
    : SaHpiRptEntryT :=
  if repeated type v (ResourceId r) then r else marked type r.
Definition stored_entry (type : Z) (v : list (SaHpiRptEntryT * list SaHpiRdrT)) (r : SaHpiRptEntryT)
    : SaHpiRptEntryT :=
  (flagged type v r) <| EntryId := ResourceId r |>.

Lemma stored_reported type v r :
  repeated type v (ResourceId r) = false \/ marked type r = r -> stored_entry type v r = reported_entry type r.
Proof.
  unfold stored_entry, flagged, reported_entry. destruct (repeated _ _ _); [|done].
  by intros [| ->].
Qed.
Lemma stored_repeated type v r :
  repeated type v (ResourceId r) = true -> stored_entry type v r = r <| EntryId := ResourceId r |>.
Proof. unfold stored_entry, flagged. by intros ->. Qed.

Lemma flagged_rid type v r : ResourceId (flagged type v r) = ResourceId r.
Proof.
  unfold flagged, marked. destruct (repeated _ _ _); [done|]. destruct (is_failure type); [done|].
  by destruct (type =? _).
Qed.

(** The event is posted if it is news. *)
Definition posted_if (news : bool) (g : global_params) (waiting : Z -> Z) (io : io_faults)
    (e : oh_event) (w w' : world) : Prop :=
  if news then posted g waiting io e w w' else w' = w.

Lemma finish_spec g now domain_exists waiting io (news : bool) w e :
  world_ok domain_exists w -> EventType (EventUtils.event e) <> SAHPI_ET_USER ->
  exists w',
    (if news
     then let '(_, w, e) := process_hpi_event g now domain_exists waiting io (Some w) (Some e) in (0, w, e)
     else (0, Some w, Some e)) = (0, Some w', Some e) /\ posted_if news g waiting io e w w'.
Proof.
  intros Hw He. destruct news; [|by exists w].
  destruct (hpi_event_spec g now domain_exists waiting io w e Hw) as (w' & E & H).
  assert (Hs : user_stripped e = e) by (unfold user_stripped; by rewrite (proj2 (Z.eqb_neq _ _) He)).
  rewrite Hs in *. exists w'. by rewrite E.
Qed.

Lemma world_ok_rpt domain_exists t h w :
  world_ok domain_exists w -> world_ok domain_exists (put_rpt t (w <| hidps := h |>)).
Proof. intros [H1 H2 H3]. by constructor. Qed.

Lemma case_spec type v e :
  0 <= type <= 5 ->
  let rid := ResourceId (resource e) in
  resource_event_case type (fst <$> view_find rid v) e
  = Some (e <| resource := flagged type v (resource e) |>, resource_news type v rid,
          is_update type, type =? SAHPI_RESE_RESOURCE_REMOVED).
Proof.
  intros Ht rid.
  unfold resource_event_case, flagged, marked, resource_news, repeated, is_update, is_failure, failed_before.
  fold rid. set (f := view_find rid v).
  assert (Hid : e <| resource := resource e |> = e) by by destruct e.
  assert (type = 0 \/ type = 1 \/ type = 2 \/ type = 3 \/ type = 4 \/ type = 5)
    as [->|[->|[->|[->|[->| ->]]]]] by lia; simpl.
  all: destruct f as [x|]; simpl; try destruct (truthy (ResourceFailed x.1)); simpl;
    try done; by rewrite Hid.
Qed.

(** What an update does with the records. *)
Lemma update_rdrs_view t rid l1 l2 x :
  rpt_ok t -> rid <> SAHPI_FIRST_ENTRY -> view_find rid (rpt_view t) = Some x -> ids_set l1 -> ids_set l2 ->
  exists t', add_rdrs (remove_rdrs (Some t) rid l1) rid l2
      = (Some t', (fun r => if truthy (check_instrument_id x.1 r) then r else with_id r) <$> l2) /\
    rpt_ok t' /\ rpt_hids t' = rpt_hids t /\
    rpt_view t' = view_update rid (fun y => (y.1, foldl (rdr_added x.1) (foldl rdr_removed y.2 l1) l2)) (rpt_view t).
Proof.
  intros Ht Hr Hx H1 H2. destruct (remove_rdrs_view t rid l1 x Ht Hr Hx H1) as (t1 & E1 & Ht1 & Hv1).
  destruct (add_rdrs_view t1 rid l2 (x.1, foldl rdr_removed x.2 l1) Ht1 Hr) as (t2 & E2 & Ht2 & Hv2); [|done|].
  { by rewrite Hv1, view_find_update, Hx. }
  exists t2. rewrite E1, E2. split; [done|]. split; [done|]. split.
  - rewrite (add_rdrs_hids _ _ _ _ _ E2). by apply (remove_rdrs_hids t rid l1).
  - by rewrite Hv2, Hv1, view_update_compose.
Qed.

Lemma resource_event_spec g now domain_exists waiting io w e type :
  let t := rpt (w_dom w) in
  let rid := ResourceId (resource e) in
  world_ok domain_exists w -> rpt_ok t -> rid_ok rid ->
  EventDataUnion (EventUtils.event e) = ResourceEvent type -> 0 <= type <= 5 ->
  ids_set (rdrs e) -> ids_set (rdrs_to_remove e) ->
  exists t' e' h w',
    process_resource_event g now domain_exists waiting io (Some w) (Some e) = (0, Some w', Some e') /\
    rpt_ok t' /\ rpt_view t' = resource_view type (rpt_view t) (stored_entry type (rpt_view t) (resource e)) e /\
    EventUtils.event e' = EventUtils.event e /\
    resource e' = (if type =? SAHPI_RESE_RESOURCE_REMOVED then resource e
                   else stored_entry type (rpt_view t) (resource e)) /\
    (type <> SAHPI_RESE_RESOURCE_REMOVED ->
     (rid, Z.of_nat (length (hidps w)) + 1) ∈ rpt_hids t' /\ h = hidps w ++ [hid e]) /\
    posted_if (resource_news type (rpt_view t) rid) g waiting io e'
      (put_rpt (Some t') (w <| hidps := h |>)) w'.
Proof.
  intros t rid Hw Ht Hr Hev Htype Hl1 Hl2. unfold process_resource_event.
  assert (Htag : resource_event_type e = type) by (unfold resource_event_type; by rewrite Hev).
  rewrite Htag, (res_by_id_view t Ht), case_spec by done. fold rid.
  set (e1 := e <| resource := flagged type (rpt_view t) (resource e) |>).
  assert (Hrid : ResourceId (resource e1) = rid).
  { apply flagged_rid. }
  assert (Het : EventType (EventUtils.event e1) <> SAHPI_ET_USER) by (unfold EventType; simpl; by rewrite Hev).
  destruct (type =? SAHPI_RESE_RESOURCE_REMOVED) eqn:Erem.
  - destruct (remove_resource_view now t rid Ht (proj1 Hr)) as (t' & E & Ht' & Hv').
    assert (Hf : e1 = e).
    { apply Z.eqb_eq in Erem. unfold e1.
      assert (flagged type (rpt_view t) (resource e) = resource e) as ->; [|by destruct e].
      unfold flagged, marked. rewrite Erem. by destruct (repeated _ _ _). }
    assert (Hview : resource_view type (rpt_view t) (stored_entry type (rpt_view t) (resource e)) e
                    = filter (fun x => ResourceId x.1 <> rid) (rpt_view t))
      by (unfold resource_view; by rewrite Erem).
    rewrite Hf in *. destruct (view_find rid (rpt_view t)) as [x|] eqn:Hx; simpl.
    + fold rid. change (rpt (w_dom w)) with t. rewrite E.
      destruct (finish_spec g now domain_exists waiting io (resource_news type (rpt_view t) rid)
                  (put_rpt (Some t') (w <| hidps := hidps w |>)) e) as (w' & Ew & Hp);
        [by apply world_ok_rpt|exact Het|].
      exists t', e, (hidps w), w'. split; [rewrite <- Ew; by destruct w|].
      split; [done|]. split; [by rewrite Hview|]. split; [done|]. split; [done|].
      split; [by intros ?%Z.eqb_neq; congruence|exact Hp].
    + destruct (finish_spec g now domain_exists waiting io (resource_news type (rpt_view t) rid)
                  (put_rpt (Some t) (w <| hidps := hidps w |>)) e) as (w' & Ew & Hp);
        [by apply world_ok_rpt|exact Het|].
      exists t, e, (hidps w), w'.
      split; [rewrite <- Ew; unfold t; by destruct w as [[[] ?] ? ? ?]|].
      split; [done|]. split; [|split; [done|split; [done|split; [by intros ?%Z.eqb_neq; congruence|exact Hp]]]].
      rewrite Hview. symmetry. apply list_filter_keep. intros y Hy Heq.
      pose proof (elem_view_find t y Ht Hy) as Hfy. rewrite Heq, Hx in Hfy. done.
  - assert (Hr1 : rid_ok (ResourceId (resource e1))) by by rewrite Hrid.
    set (p := Z.of_nat (length (hidps w)) + 1).
    destruct (add_resource_put now t (resource e1) p Ht Hr1) as (t1 & E1 & Ht1 & Hv1 & Hh1 & rs & Hx1).
    set (en := stored_entry type (rpt_view t) (resource e)).
    assert (Hen : (resource e1) <| EntryId := ResourceId (resource e1) |> = en)
      by (unfold en, stored_entry; by rewrite Hrid).
    rewrite Hen, Hrid in *. set (h := hidps w ++ [hid e]).
    set (w1 := put_rpt (Some t1) (w <| hidps := h |>)).
    unfold new_hidp. fold p. cbn match.
    change (rpt (w_dom (w <| hidps ::= fun l => l ++ [hid e1] |>))) with t. rewrite E1. cbn match zeta.
    change (put_rpt (Some t1) (w <| hidps ::= fun l => l ++ [hid e1] |>)) with w1.
    set (e2 := e1 <| resource ::= fun r => default r (Some en) |>).
    change (ResourceId (resource e2)) with (ResourceId en).
    change (ResourceId en) with (ResourceId (resource e1)). rewrite Hrid.
    change (rpt (w_dom w1)) with t1. change (rdrs e2) with (rdrs e).
    change (rdrs_to_remove e2) with (rdrs_to_remove e). simpl negb. cbn match.
    unfold resource_view. rewrite Erem. fold rid en.
    destruct (is_update type) eqn:Eup.
    + destruct (update_rdrs_view t1 rid (rdrs_to_remove e) (rdrs e) (en, rs) Ht1 (proj1 Hr) Hx1 Hl2 Hl1)
        as (t2 & E2 & Ht2 & Hh2 & Hv2).
      rewrite E2. set (l := _ <$> rdrs e).
      destruct (finish_spec g now domain_exists waiting io (resource_news type (rpt_view t) rid)
                  (put_rpt (Some t2) w1) (e2 <| rdrs := l |>)) as (w' & Ew & Hp); [by destruct Hw; constructor|done|].
      exists t2, (e2 <| rdrs := l |>), h, w'. split; [exact Ew|]. split; [done|]. split; [by rewrite Hv2, Hv1|].
      split; [done|]. split; [done|]. split; [by rewrite Hh2|exact Hp].
    + destruct (finish_spec g now domain_exists waiting io (resource_news type (rpt_view t) rid)
                  w1 e2) as (w' & Ew & Hp); [by apply world_ok_rpt|done|].
      exists t1, e2, h, w'. split; [exact Ew|]. done.
Qed.

(** * The whole of [process_event] *)

(** What the processing needs of the domain. *)
Record dom_ok (g : global_params) (d : oh_domain) : Prop := {
  do_rpt : rpt_ok (rpt d);
  do_dat : dat_ok g d;
  do_next : dat_next_id (dat d) < SAHPI_LAST_ENTRY;
  do_states : states_u16 (alarms d) }.

(** The end of [process_event]. *)
Definition with_alarms `{EntityPathLookup} (g : global_params) (now : Z) (io : io_faults) (e : oh_event)
    (w : world) : world :=
  let s := snd (oh_detect_event_alarm g now (dat_fopen io) (dat_fwrite io) (Some (dat_st w)) (Some e)) in
  w <| dat_st ::= fun s0 => default s0 s |>.

Lemma with_alarms_spec `{EntityPathLookup} g now io e w d :
  dom_ok g d -> event_tagged (EventUtils.event e) ->
  dat (w_dom w) = dat d -> domain_id (w_dom w) = domain_id d ->
  let w' := with_alarms g now io e w in
  alarms (w_dom w') = detected g now {| dom := d; dat_file := None |} e /\
  rpt (w_dom w') = rpt (w_dom w) /\ del (w_dom w') = del (w_dom w) /\
  domain_id (w_dom w') = domain_id (w_dom w) /\ sess w' = sess w /\ hidps w' = hidps w.
Proof.
  intros [_ Hd Hn Hs] He Hdat Hid w'.
  assert (Hdat' : dat_ok g (dom (dat_st w))).
  { destruct Hd as [H1 H2 H3 H4 H5 H6]. constructor; unfold alarms, w_dom in *; rewrite ?Hdat, ?Hid; done. }
  pose proof (detect_event_detected g now (dat_fopen io) (dat_fwrite io) (dat_st w) e Hdat') as Hdet.
  pose proof (detect_keeps_rest g now (dat_fopen io) (dat_fwrite io) (dat_st w) e) as Hk.
  unfold w_dom in *. split.
  - unfold w', with_alarms. simpl. rewrite Hdet by (unfold alarms in *; rewrite ?Hdat; done).
    unfold detected, alarms. simpl. by rewrite Hdat, Hid.
  - unfold w', with_alarms. simpl. unfold keeps_rest in Hk. rewrite Hk. done.
Qed.

Lemma process_event_dispatch `{EntityPathLookup} g now domain_exists waiting io w e :
  process_event g now domain_exists waiting io (Some w) (Some e)
  = (let '(w, e) := dispatch g now domain_exists waiting io w e in (0, Some (with_alarms g now io e w), Some e)).
Proof. unfold process_event. by destruct (dispatch _ _ _ _ _ _ _). Qed.

(** The sessions and the log after an event that was posted, or was not. *)
Definition announced (news : bool) (g : global_params) (waiting : Z -> Z) (e : oh_event) (w w' : world) : Prop :=
  if news
  then delivered g waiting e (to_domain (sess w) (domain_id (w_dom w))) (sess w) (sess w') /\
       exists ts, el_list (del (w_dom w')) = entries_after g (w_dom w) e ts
  else sess w' = sess w /\ del (w_dom w') = del (w_dom w).

Lemma posted_frame news g waiting io e w w1 w' t h :
  w1 = put_rpt (Some t) (w <| hidps := h |>) -> posted_if news g waiting io e w1 w' ->
  dat (w_dom w') = dat (w_dom w) /\ domain_id (w_dom w') = domain_id (w_dom w) /\
  rpt (w_dom w') = t /\ hidps w' = h /\ announced news g waiting e w w'.
Proof.
  intros ->. unfold posted_if, announced. destruct news; [|by intros ->].
  intros [(l' & ts & H1 & H2 & _) H3 H4 _]. unfold w_dom. rewrite H1.
  split; [done|]. split; [done|]. split; [done|]. split; [done|]. split; [exact H4|].
  exists ts. exact H2.
Qed.

(** A resource event of a plug-in that [process_event] does not drop. *)
Record accepted_resource_event (e : oh_event) (type : Z) : Prop := {
  ar_type : EventDataUnion (EventUtils.event e) = ResourceEvent type;
  ar_known : 0 <= type <= 5;
  ar_hid : hid e <> 0;
  ar_cap : has_capability e SAHPI_CAPABILITY_RESOURCE = true;
  ar_fru : has_capability e SAHPI_CAPABILITY_FRU = false \/ type <> SAHPI_RESE_RESOURCE_ADDED;
  ar_rid : rid_ok (ResourceId (resource e));
  ar_rdrs : ids_set (rdrs e);
  ar_remove : ids_set (rdrs_to_remove e) }.

Lemma has_capability_restore w e c : has_capability e c = true -> restore_resource w e = e.
Proof.
  unfold has_capability, restore_resource. intros H. destruct (Z.eqb_spec (ResourceCapabilities (resource e)) 0) as [E|]; [|done].
  by rewrite E, Z.land_0_l in H.
Qed.

Lemma dispatch_resource `{EntityPathLookup} g now domain_exists waiting io w e type :
  accepted_resource_event e type ->
  dispatch g now domain_exists waiting io w e
  = (let r := process_resource_event g now domain_exists waiting io (Some w) (Some e) in
     (default w r.1.2, default e r.2)).
Proof.
  intros [Hev _ Hh Hc Hf _ _ _]. unfold dispatch.
  assert (EventType (EventUtils.event e) = SAHPI_ET_RESOURCE) as -> by (unfold EventType; by rewrite Hev).
  rewrite Z.eqb_refl, (proj2 (Z.eqb_neq _ _) Hh), (has_capability_restore w e _ Hc), Hc. simpl negb. cbn match.
  unfold resource_event_type. rewrite Hev.
  assert (has_capability e SAHPI_CAPABILITY_FRU && (type =? SAHPI_RESE_RESOURCE_ADDED) = false) as ->; [|done].
  destruct Hf as [->|Hf]; [done|]. by rewrite (proj2 (Z.eqb_neq _ _) Hf), andb_false_r.
Qed.

(** C18: resource events.  A valid resource event of a plug-in brings the
    Resource Presence Table to the state that it reports: the resource is stored -
    as failed after a failure, as working after it was restored, as it comes in the
    event otherwise, with the event's RDRs removed and added when it was added or
    updated - or removed with its RDRs; the other resources stay, and the table
    knows the handler that sent the event.  The event is logged and delivered to
    the subscribed sessions of the domain exactly if it is news: not if a resource
    that the table has as failed fails again, one that it does not have as failed
    is restored or one that is not there is removed.  The alarms follow the event.

    One exception: an event that repeats what the table says does not mark the
    resource.  The entry of the event is then stored as it came, and is the entry
    reported only if the plug-in marked it itself; a failure repeated by an event
    whose entry is not marked as failed makes the resource a working one
    ([repeated_failure_clears]). *)
Theorem resource_event_correct `{EntityPathLookup} (g : global_params) (now : Z)
    (domain_exists : Z -> bool) (waiting : Z -> Z) (io : io_faults) (w : world) (e : oh_event) (type : Z) :
  world_ok domain_exists w -> dom_ok g (w_dom w) -> accepted_resource_event e type ->
  let v := rpt_view (rpt (w_dom w)) in
  let r := resource e in
  let rid := ResourceId r in
  exists w' e' en,
    process_event g now domain_exists waiting io (Some w) (Some e) = (0, Some w', Some e') /\
    (repeated type v rid = false \/ marked type r = r -> en = reported_entry type r) /\
    (repeated type v rid = true -> en = r <| EntryId := rid |>) /\
    rpt_ok (rpt (w_dom w')) /\ rpt_view (rpt (w_dom w')) = resource_view type v en e /\
    EventUtils.event e' = EventUtils.event e /\
    resource e' = (if type =? SAHPI_RESE_RESOURCE_REMOVED then r else en) /\
    (type <> SAHPI_RESE_RESOURCE_REMOVED ->
     exists p, (rid, p) ∈ rpt_hids (rpt (w_dom w')) /\ 0 < p /\ hidps w' !! Z.to_nat (p - 1) = Some (hid e)) /\
    announced (resource_news type v rid) g waiting e' w w' /\
    alarms (w_dom w') = detected g now {| dom := w_dom w; dat_file := None |} e'.
Proof.
  intros Hw Hd Ha v r rid. rewrite process_event_dispatch, (dispatch_resource g now _ _ _ _ _ _ Ha).
  destruct (resource_event_spec g now domain_exists waiting io w e type Hw (do_rpt _ _ Hd)
              (ar_rid _ _ Ha) (ar_type _ _ Ha) (ar_known _ _ Ha) (ar_rdrs _ _ Ha) (ar_remove _ _ Ha))
    as (t' & e' & h & w1 & E & Ht' & Hv' & Hev & Hres & Hh & Hp).
  rewrite E. simpl. fold v r rid in Hv', Hres, Hh, Hp.
  destruct (posted_frame _ _ _ _ _ _ _ _ _ _ eq_refl Hp) as (H1 & H2 & H3 & H4 & H5).
  destruct (with_alarms_spec g now io e' w1 (w_dom w) Hd) as (A1 & A2 & A3 & A4 & A5 & A6); [|done|done|].
  { unfold event_tagged. by rewrite Hev, (ar_type _ _ Ha). }
  exists (with_alarms g now io e' w1), e', (stored_entry type v r). split; [done|].
  split; [apply stored_reported|]. split; [apply stored_repeated|]. rewrite A2, H3.
  split; [done|]. split; [done|]. split; [done|]. split; [done|]. split; [|split; [|done]].
  - intros Hrem. destruct (Hh Hrem) as [Hin ->]. eexists. split; [exact Hin|]. split; [lia|].
    rewrite A6, H4, Z.add_simpl_r, Nat2Z.id. apply list_lookup_middle. done.
  - unfold announced in *. destruct (resource_news type v rid); by rewrite A3, A5.
Qed.

(** An example world: a domain with one resource, and a subscribed session. *)
#[local] Instance example_paths : EntityPathLookup := fun _ ep => (SA_OK, ep).
Definition example_sessions : session_state :=
  set_session 1 (fun x => x <| subscribed := SAHPI_TRUE |>) example_session.
Definition example_world : world :=
  {| dat_st := {| dom := example_domain <| domain_id := OH_DEFAULT_DOMAIN_ID |> <| rpt := example_rpt |>;
                  dat_file := None |};
     del_file := None; sess := example_sessions; hidps := [] |}.
Definition example_io : io_faults :=
  {| el_fopen := true; el_fwrite := fun _ => true; dat_fopen := true; dat_fwrite := fun _ => true |}.
Definition example_resource_event (type failed : Z) : oh_event :=
  zero_oh_event
    <| hid := 3 |>
    <| EventUtils.event := {| Source := 7; event_Timestamp := 1; event_Severity := SAHPI_MAJOR;
                              EventDataUnion := ResourceEvent type |} |>
    <| resource := example_resource 7 <| ResourceCapabilities := SAHPI_CAPABILITY_RESOURCE |>
                                      <| ResourceFailed := failed |> |>.

Lemma example_sessions_ok : conf_ok (example_sessions, []).
Proof.
  assert (Hc : conf_ok (example_sessions, [Idle])).
  { apply (reach_conf_ok example_params (fun _ => true) 1).
    apply (reach_step _ _ _ (example_session, [Idle])); [|by apply (st_subscribe _ _ _ _ 0%nat)].
    apply (reach_step _ _ _ (init_sessions, [Idle])); [apply (reach_init _ _ 1)|].
    by apply (st_create _ _ _ _ 0%nat 0). }
  destruct Hc as [H1 H2]. by constructor.
Qed.

Lemma example_world_ok : world_ok (fun d => d =? OH_DEFAULT_DOMAIN_ID) example_world.
Proof. constructor; [eexists; apply example_sessions_ok|done|done]. Qed.

Lemma example_world_dom_ok : dom_ok example_params (w_dom example_world).
Proof.
  constructor; [apply example_rpt_ok| |done|constructor].
  constructor; vm_compute; repeat constructor; try discriminate; by left.
Qed.

Lemma resource_event_correct_witness :
  rpt_view (rpt (w_dom example_world)) = [(example_resource 7, [example_rdr SAHPI_SENSOR_RDR 3])] /\
  exists w' e',
    process_event example_params 20 (fun d => d =? OH_DEFAULT_DOMAIN_ID) (fun _ => 0) example_io
      (Some example_world) (Some (example_resource_event SAHPI_RESE_RESOURCE_FAILURE 0)) = (0, Some w', Some e') /\
    rpt_view (rpt (w_dom w'))
    = [(example_resource 7 <| ResourceCapabilities := SAHPI_CAPABILITY_RESOURCE |>
                           <| ResourceFailed := SAHPI_TRUE |>, [example_rdr SAHPI_SENSOR_RDR 3])] /\
    length (alarms (w_dom w')) = 1%nat.
Proof.
  split; [by vm_compute|].
  destruct (resource_event_correct example_params 20 (fun d => d =? OH_DEFAULT_DOMAIN_ID) (fun _ => 0) example_io
              example_world (example_resource_event SAHPI_RESE_RESOURCE_FAILURE 0) SAHPI_RESE_RESOURCE_FAILURE
              example_world_ok example_world_dom_ok)
    as (w' & e' & en & H1 & Hen & _ & _ & H2 & H3 & H4 & _ & _ & H5).
  - constructor; try done; [by left|constructor|constructor].
  - rewrite Hen in H2, H4 by (left; by vm_compute).
    exists w', e'. split; [exact H1|]. split; [rewrite H2; by vm_compute|].
    rewrite H5. destruct e'. simpl in H3, H4. rewrite H3, H4. by vm_compute.
Defined.

(** * Hot swap events *)

Record accepted_hs_event (e : oh_event) (h : SaHpiHotSwapEventT) : Prop := {
  ah_type : EventDataUnion (EventUtils.event e) = HotSwapEvent h;
  ah_hid : hid e <> 0;
  ah_cap : has_capability e SAHPI_CAPABILITY_RESOURCE = true;
  ah_fru : has_capability e SAHPI_CAPABILITY_FRU = true;
  ah_rid : rid_ok (ResourceId (resource e));
  ah_rdrs : ids_set (rdrs e) }.

Definition absent (h : SaHpiHotSwapEventT) : bool := HotSwapState h =? SAHPI_HS_STATE_NOT_PRESENT.

(** The table after the event: the RDRs count for a new resource only. *)
Definition hotswap_view (h : SaHpiHotSwapEventT) (v : list (SaHpiRptEntryT * list SaHpiRdrT)) (e : oh_event)
    : list (SaHpiRptEntryT * list SaHpiRdrT) :=
  let rid := ResourceId (resource e) in
  let en := (resource e) <| EntryId := rid |> in
  if absent h then filter (fun x => ResourceId x.1 <> rid) v
  else match view_find rid v with
       | Some _ => put_resource en v
       | None => v ++ [(en, foldl (rdr_added en) [] (rdrs e))]
       end.

Lemma view_update_last k g v x :
  view_find k v = None -> k <> SAHPI_FIRST_ENTRY -> ResourceId x.1 = k ->
  view_update k g (v ++ [x]) = v ++ [g x].
Proof.
  intros Hf Hk Hx. unfold view_update, view_find in *. rewrite (proj2 (Z.eqb_neq _ _) Hk) in Hf.
  rewrite fmap_app. f_equal.
  - rewrite <- (list_fmap_id v) at 2. apply list_fmap_ext. intros _ y Hy%list_elem_of_lookup_2%list_elem_of_In.
    pose proof (find_none _ _ Hf y Hy) as Hne. simpl in Hne. by rewrite Hne.
  - simpl. by rewrite Hx, Z.eqb_refl.
Qed.

Lemma hs_event_spec g now domain_exists waiting io w e h :
  let t := rpt (w_dom w) in
  let rid := ResourceId (resource e) in
  world_ok domain_exists w -> rpt_ok t -> accepted_hs_event e h ->
  exists t' e' hp w',
    process_hs_event g now domain_exists waiting io (Some w) (Some e) = (0, Some w', Some e') /\
    rpt_ok t' /\ rpt_view t' = hotswap_view h (rpt_view t) e /\
    EventUtils.event e' = EventUtils.event e /\ ResourceId (resource e') = rid /\
    (absent h = false ->
     (rid, Z.of_nat (length (hidps w)) + 1) ∈ rpt_hids t' /\ hp = hidps w ++ [hid e]) /\
    posted_if (negb (HotSwapState h =? PreviousHotSwapState h)) g waiting io e'
      (put_rpt (Some t') (w <| hidps := hp |>)) w'.
Proof.
  intros t rid Hw Ht [Hev _ _ _ Hr Hl]. unfold process_hs_event. rewrite Hev. fold t rid.
  rewrite (res_by_id_view t Ht). unfold hotswap_view. fold rid (absent h).
  set (news := negb (HotSwapState h =? PreviousHotSwapState h)).
  assert (Het : EventType (EventUtils.event e) <> SAHPI_ET_USER) by (unfold EventType; by rewrite Hev).
  assert (Hok : forall t hp, world_ok domain_exists (put_rpt t (w <| hidps := hp |>)))
    by (intros; by apply world_ok_rpt).
  destruct (absent h) eqn:Eabs.
  - destruct (remove_resource_view now t rid Ht (proj1 Hr)) as (t' & E & Ht' & Hv').
    destruct (finish_spec g now domain_exists waiting io news (put_rpt (Some t') (w <| hidps := hidps w |>)) e)
      as (w' & Ew & Hp); [apply Hok|exact Het|].
    exists t', e, (hidps w), w'. rewrite E. split; [rewrite <- Ew; by destruct w|]. done.
  - set (p := Z.of_nat (length (hidps w)) + 1).
    destruct (add_resource_put now t (resource e) p Ht Hr) as (t1 & E1 & Ht1 & Hv1 & Hh1 & rs & Hx1).
    fold rid in E1, Hv1, Hh1, Hx1. set (en := (resource e) <| EntryId := rid |>) in *.
    set (hp := hidps w ++ [hid e]). set (w1 := put_rpt (Some t1) (w <| hidps := hp |>)).
    unfold new_hidp. fold p. cbn match.
    change (rpt (w_dom (w <| hidps ::= fun l => l ++ [hid e] |>))) with t. rewrite E1. cbn match zeta.
    change (put_rpt (Some t1) (w <| hidps ::= fun l => l ++ [hid e] |>)) with w1.
    set (e2 := e <| resource ::= fun r => default r (Some en) |>).
    change (rpt (w_dom w1)) with t1. change (rdrs e2) with (rdrs e). change (ResourceId (resource e2)) with rid.
    destruct (view_find rid (rpt_view t)) as [x|] eqn:Hx; simpl bool_decide; cbn [andb].
    + destruct (finish_spec g now domain_exists waiting io news w1 e2) as (w' & Ew & Hp); [apply Hok|done|].
      exists t1, e2, hp, w'. split; [exact Ew|]. done.
    + destruct (add_rdrs_view t1 rid (rdrs e) (en, rs) Ht1 (proj1 Hr) Hx1 Hl) as (t2 & E2 & Ht2 & Hv2).
      rewrite E2. set (l := _ <$> rdrs e).
      destruct (finish_spec g now domain_exists waiting io news (put_rpt (Some t2) w1) (e2 <| rdrs := l |>))
        as (w' & Ew & Hp); [by destruct Hw; constructor|done|].
      exists t2, (e2 <| rdrs := l |>), hp, w'. split; [exact Ew|]. split; [done|]. split; [|split; [done|split; [done|split; [|exact Hp]]]].
      * rewrite Hv2, Hv1. unfold put_resource. change (ResourceId en) with rid.
        rewrite <- (view_find_key t rid (proj1 Hr)), Hx. by rewrite view_update_last by (done || apply Hr).
      * intros _. by rewrite (add_rdrs_hids _ _ _ _ _ E2).
Qed.

(** C33: hot swap events.  A valid hot swap event of a plug-in stores the
    resource with its new state of the entry, with the event's RDRs if the
    resource is new, or removes it - and its sensor, resource and OEM alarms - if
    it is not present any more; the user's alarms on it stay.  It is logged and delivered to the subscribed
    sessions of the domain exactly if the hot swap state changes. *)
Theorem hotswap_event_correct `{EntityPathLookup} (g : global_params) (now : Z)
    (domain_exists : Z -> bool) (waiting : Z -> Z) (io : io_faults) (w : world) (e : oh_event)
    (h : SaHpiHotSwapEventT) :
  world_ok domain_exists w -> dom_ok g (w_dom w) -> accepted_hs_event e h ->
  let v := rpt_view (rpt (w_dom w)) in
  let rid := ResourceId (resource e) in
  exists w' e',
    process_event g now domain_exists waiting io (Some w) (Some e) = (0, Some w', Some e') /\
    rpt_ok (rpt (w_dom w')) /\ rpt_view (rpt (w_dom w')) = hotswap_view h v e /\
    (absent h = false ->
     exists p, (rid, p) ∈ rpt_hids (rpt (w_dom w')) /\ 0 < p /\ hidps w' !! Z.to_nat (p - 1) = Some (hid e)) /\
    (absent h = true -> forall a, a ∈ alarms (w_dom w') ->
       cond_ResourceId (AlarmCond a) = rid ->
       ~ (SAHPI_STATUS_COND_TYPE_SENSOR <= Type_ (AlarmCond a) <= SAHPI_STATUS_COND_TYPE_OEM)) /\
    announced (negb (HotSwapState h =? PreviousHotSwapState h)) g waiting e' w w'.
Proof.
  intros Hw Hd Ha v rid. rewrite process_event_dispatch.
  destruct (hs_event_spec g now domain_exists waiting io w e h Hw (do_rpt _ _ Hd) Ha)
    as (t' & e' & hp & w1 & E & Ht' & Hv' & Hev & Hrid & Hh & Hp).
  assert (dispatch g now domain_exists waiting io w e = (w1, e')) as ->.
  { unfold dispatch. rewrite (has_capability_restore w e _ (ah_cap _ _ Ha)), (ah_cap _ _ Ha), (ah_fru _ _ Ha).
    assert (EventType (EventUtils.event e) = SAHPI_ET_HOTSWAP) as -> by (unfold EventType; by rewrite (ah_type _ _ Ha)).
    rewrite (proj2 (Z.eqb_neq _ _) (ah_hid _ _ Ha)), E. done. }
  fold v rid in Hv', Hh, Hp.
  destruct (posted_frame _ _ _ _ _ _ _ _ _ _ eq_refl Hp) as (H1 & H2 & H3 & H4 & H5).
  destruct (with_alarms_spec g now io e' w1 (w_dom w) Hd) as (A1 & A2 & A3 & A4 & A5 & A6); [|done|done|].
  { unfold event_tagged. by rewrite Hev, (ah_type _ _ Ha). }
  exists (with_alarms g now io e' w1), e'. split; [done|]. rewrite A2, H3.
  split; [done|]. split; [done|]. split; [|split].
  - intros Habs. destruct (Hh Habs) as [Hin ->]. eexists. split; [exact Hin|]. split; [lia|].
    rewrite A6, H4, Z.add_simpl_r, Nat2Z.id. apply list_lookup_middle. done.
  - intros Habs a Hal Hres.
    assert (Hrid0 : rid <> 0) by apply (ah_rid _ _ Ha). rewrite A1 in Hal. unfold detected, raised in Hal.
    rewrite Hev, (ah_type _ _ Ha) in Hal. apply list_elem_of_In, filter_In in Hal as [_ Hc].
    unfold cleared in Hc. rewrite Hev, (ah_type _ _ Ha) in Hc. fold (absent h) in Hc.
    rewrite Habs, Hrid in Hc. unfold of_resource, is_type in Hc.
    fold rid in Hc. rewrite !(proj2 (Z.eqb_neq _ _) Hrid0), Hres, Z.eqb_refl in Hc. cbn [andb negb] in Hc.
    zbool. consts. lia.
  - unfold announced in *. destruct (negb _); by rewrite A3, A5.
Qed.

Definition example_hs_event (state : Z) : oh_event :=
  zero_oh_event
    <| hid := 3 |>
    <| EventUtils.event := {| Source := 7; event_Timestamp := 1; event_Severity := SAHPI_MAJOR;
         EventDataUnion := HotSwapEvent {| HotSwapState := state; PreviousHotSwapState := SAHPI_HS_STATE_ACTIVE;
                                           CauseOfStateChange := 0 |} |} |>
    <| resource := example_resource 7
         <| ResourceCapabilities := Z.lor SAHPI_CAPABILITY_RESOURCE SAHPI_CAPABILITY_FRU |> |>.

Lemma hotswap_event_correct_witness :
  exists w' e',
    process_event example_params 20 (fun d => d =? OH_DEFAULT_DOMAIN_ID) (fun _ => 0) example_io
      (Some example_world) (Some (example_hs_event SAHPI_HS_STATE_NOT_PRESENT)) = (0, Some w', Some e') /\
    rpt_view (rpt (w_dom w')) = [].
Proof.
  destruct (hotswap_event_correct example_params 20 (fun d => d =? OH_DEFAULT_DOMAIN_ID) (fun _ => 0) example_io
              example_world (example_hs_event SAHPI_HS_STATE_NOT_PRESENT)
              {| HotSwapState := SAHPI_HS_STATE_NOT_PRESENT; PreviousHotSwapState := SAHPI_HS_STATE_ACTIVE;
                 CauseOfStateChange := 0 |} example_world_ok example_world_dom_ok)
    as (w' & e' & H1 & _ & H2 & _).
  - constructor; try done. constructor.
  - exists w', e'. split; [exact H1|]. rewrite H2. by vm_compute.
Defined.

(** * Any event *)

(** An event that concerns neither the resource nor its hot swap state. *)
Definition plain (e : oh_event) : Prop :=
  match EventDataUnion (EventUtils.event e) with
  | ResourceEvent _ | HotSwapEvent _ | UnknownEvent _ _ => False
  | _ => True
  end.

Lemma dispatch_plain g now domain_exists waiting io w e :
  plain e ->
  dispatch g now domain_exists waiting io w e
  = (let r := process_hpi_event g now domain_exists waiting io (Some w) (Some e) in
     (default w r.1.2, default e r.2)).
Proof.
  unfold plain, dispatch, EventType. by destruct (EventDataUnion (EventUtils.event e)).
Qed.

Lemma plain_event_spec `{EntityPathLookup} (g : global_params) (now : Z)
    (domain_exists : Z -> bool) (waiting : Z -> Z) (io : io_faults) (w : world) (e : oh_event) :
  world_ok domain_exists w -> dom_ok g (w_dom w) -> plain e ->
  let e' := user_stripped e in
  exists w',
    process_event g now domain_exists waiting io (Some w) (Some e) = (0, Some w', Some e') /\
    rpt (w_dom w') = rpt (w_dom w) /\ hidps w' = hidps w /\
    announced true g waiting e' w w' /\
    alarms (w_dom w') = detected g now {| dom := w_dom w; dat_file := None |} e' /\
    forall ths, conf_ok (sess w, ths) -> conf_ok (sess w', ths).
Proof.
  intros Hw Hd Hp e'. rewrite process_event_dispatch, (dispatch_plain _ _ _ _ _ _ _ Hp).
  destruct (hpi_event_spec g now domain_exists waiting io w e Hw) as (w1 & E & [(l' & ts & H1 & H2 & _) H3 H4 Hc]).
  rewrite E. simpl. fold e' in H2, H4 |- *.
  assert (Hev : event_tagged (EventUtils.event e')).
  { assert (Hee : EventUtils.event e' = EventUtils.event e) by (unfold e', user_stripped; by case_if).
    unfold event_tagged, plain in *. rewrite Hee. by destruct (EventDataUnion (EventUtils.event e)). }
  destruct (with_alarms_spec g now io e' w1 (w_dom w) Hd Hev) as (A1 & A2 & A3 & A4 & A5 & A6);
    [unfold w_dom; by rewrite H1..|].
  exists (with_alarms g now io e' w1). split; [done|]. rewrite A2, A6. unfold w_dom at 1. rewrite H1.
  split; [done|]. split; [done|]. split; [|split; [exact A1|by rewrite A5]]. unfold announced. rewrite A3, A5. split; [exact H4|].
  exists ts. unfold w_dom at 1. by rewrite H1.
Qed.

(** C19: the other events.  A sensor, watchdog, OEM, user or another event of
    these kinds leaves the resources as they are; it is logged - if it is severe
    enough or a user event, and the log is enabled - dropping the oldest entry of
    a full log, and delivered to the subscribed sessions of the domain and to no
    others.  A user event passes no resource on.  The alarms follow the event. *)
Theorem plain_event_correct `{EntityPathLookup} (g : global_params) (now : Z)
    (domain_exists : Z -> bool) (waiting : Z -> Z) (io : io_faults) (w : world) (e : oh_event) :
  world_ok domain_exists w -> dom_ok g (w_dom w) -> plain e ->
  let e' := user_stripped e in
  exists w',
    process_event g now domain_exists waiting io (Some w) (Some e) = (0, Some w', Some e') /\
    rpt (w_dom w') = rpt (w_dom w) /\ hidps w' = hidps w /\
    announced true g waiting e' w w' /\
    alarms (w_dom w') = detected g now {| dom := w_dom w; dat_file := None |} e'.
Proof.
  intros Hw Hd Hp e'. destruct (plain_event_spec g now domain_exists waiting io w e Hw Hd Hp)
    as (w' & H1 & H2 & H3 & H4 & H5 & _). by exists w'.
Qed.

Lemma plain_event_correct_witness :
  exists w', process_event example_params 20 (fun d => d =? OH_DEFAULT_DOMAIN_ID) (fun _ => 0) example_io
      (Some example_world) (Some (example_sensor_event 1)) = (0, Some w', Some (example_sensor_event 1)) /\
    queue_of 0 (sess w') = [example_sensor_event 1] /\ length (el_list (del (w_dom w'))) = 1%nat.
Proof.
  destruct (plain_event_correct example_params 20 (fun d => d =? OH_DEFAULT_DOMAIN_ID) (fun _ => 0) example_io
              example_world (example_sensor_event 1) example_world_ok example_world_dom_ok)
    as (w' & H1 & _ & _ & ((_ & _ & H2) & ts & H3) & _); [done|].
  exists w'. split; [exact H1|]. split.
  - destruct (H2 1 {| id := 1; did := 0; subscribed := 1; eventq_status := 0; eventq := 0 |}) as [H4 _]; [by vm_compute|].
    etransitivity; [exact H4|by vm_compute].
  - rewrite H3. by vm_compute.
Defined.

(** Whatever the event, the sessions stay well formed, and the event keeps its
    HPI event. *)
Definition keeps_world (domain_exists : Z -> bool) (r : Z * option world * option oh_event) (e : oh_event) : Prop :=
  exists err w' e', r = (err, Some w', Some e') /\ world_ok domain_exists w' /\
    EventUtils.event e' = EventUtils.event e.

Lemma posted_if_ok domain_exists news g waiting io e w w' :
  world_ok domain_exists w -> posted_if news g waiting io e w w' -> world_ok domain_exists w'.
Proof.
  intros [[ths H1] H2 H3]. unfold posted_if. destruct news; [|intros ->; constructor; [by eexists|done..]].
  intros [(l' & ts & Hd & _) _ _ Hc]. constructor; [eexists; by apply Hc|..]; unfold w_dom; rewrite Hd; done.
Qed.

Lemma finish_keeps g now domain_exists waiting io (news : bool) w e e0 :
  world_ok domain_exists w -> EventType (EventUtils.event e) <> SAHPI_ET_USER ->
  EventUtils.event e = EventUtils.event e0 ->
  keeps_world domain_exists
    (if news
     then let '(_, w, e) := process_hpi_event g now domain_exists waiting io (Some w) (Some e) in (0, w, e)
     else (0, Some w, Some e)) e0.
Proof.
  intros Hw He Hee. destruct (finish_spec g now domain_exists waiting io news w e Hw He) as (w' & -> & Hp).
  exists 0, w', e. split; [done|]. split; [|done]. by eapply posted_if_ok.
Qed.

Lemma world_ok_put domain_exists t w : world_ok domain_exists w -> world_ok domain_exists (put_rpt t w).
Proof. intros [H1 H2 H3]. by constructor. Qed.

Lemma world_ok_hidps domain_exists h w : world_ok domain_exists w -> world_ok domain_exists (w <| hidps ::= h |>).
Proof. intros [H1 H2 H3]. by constructor. Qed.

Lemma resource_event_keeps g now domain_exists waiting io w e :
  world_ok domain_exists w -> EventType (EventUtils.event e) <> SAHPI_ET_USER ->
  keeps_world domain_exists (process_resource_event g now domain_exists waiting io (Some w) (Some e)) e.
Proof.
  intros Hw He. unfold process_resource_event.
  destruct (resource_event_case _ _ e) as [[[[e1 process] update] remove]|] eqn:Ec; cycle 1.
  { by exists (-1), w, e. }
  assert (Hev : EventUtils.event e1 = EventUtils.event e).
  { revert Ec. unfold resource_event_case. cbv zeta. destruct (oh_get_resource_by_id _ _);
    repeat case_if; intros Ec; try done; by injection Ec as <-. }
  rewrite <- Hev in He.
  destruct remove.
  { case_if; apply finish_keeps; try done. by apply world_ok_put. }
  unfold new_hidp. cbn match. destruct (oh_add_resource _ _ _ _ _) as [[error t] en]. cbv zeta.
  assert (Hw1 : world_ok domain_exists (put_rpt t (w <| hidps ::= fun l => l ++ [hid e1] |>)))
    by by apply world_ok_put, world_ok_hidps.
  case_if; [eexists _, _, _; split; [done|]; split; [by apply world_ok_put|done]|].
  destruct update; [|by apply finish_keeps].
  destruct (add_rdrs _ _ _) as [t2 l]. apply finish_keeps; [by apply world_ok_put|done..].
Qed.

Lemma hs_event_keeps g now domain_exists waiting io w e :
  world_ok domain_exists w -> EventType (EventUtils.event e) <> SAHPI_ET_USER ->
  keeps_world domain_exists (process_hs_event g now domain_exists waiting io (Some w) (Some e)) e.
Proof.
  intros Hw He. unfold process_hs_event.
  destruct (EventDataUnion (EventUtils.event e)) as [| | | |h| | | | | | | |]; try by exists 0, w, e.
  assert (Hfin : forall w1 e1, world_ok domain_exists w1 -> EventUtils.event e1 = EventUtils.event e ->
    keeps_world domain_exists
      (if negb (HotSwapState h =? PreviousHotSwapState h)
       then let '(_, w, e) := process_hpi_event g now domain_exists waiting io (Some w1) (Some e1) in (0, w, e)
       else (0, Some w1, Some e1)) e).
  { intros w1 e1 Hw1 He1. apply finish_keeps; [done| |done]. by rewrite He1. }
  case_if; [apply Hfin; [by apply world_ok_put|done]|].
  unfold new_hidp. cbn match. destruct (oh_add_resource _ _ _ _ _) as [[error t] en]. cbv zeta.
  assert (Hw1 : world_ok domain_exists (put_rpt t (w <| hidps ::= fun l => l ++ [hid e] |>)))
    by by apply world_ok_put, world_ok_hidps.
  case_if; [|by apply Hfin]. destruct (add_rdrs _ _ _) as [t2 l]. apply Hfin; [by apply world_ok_put|done].
Qed.

Lemma with_alarms_ok `{EntityPathLookup} g now domain_exists io e w :
  world_ok domain_exists w -> world_ok domain_exists (with_alarms g now io e w).
Proof.
  intros [H1 H2 H3].
  pose proof (detect_keeps_rest g now (dat_fopen io) (dat_fwrite io) (dat_st w) e) as Hk.
  assert (Hid : domain_id (w_dom (with_alarms g now io e w)) = domain_id (w_dom w))
    by (unfold w_dom, with_alarms; simpl; unfold keeps_rest in Hk; by rewrite Hk).
  constructor; [exact H1|by rewrite Hid..].
Qed.

Lemma process_event_keeps `{EntityPathLookup} g now domain_exists waiting io w e :
  world_ok domain_exists w ->
  exists w' e', process_event g now domain_exists waiting io (Some w) (Some e) = (0, Some w', Some e') /\
    world_ok domain_exists w' /\ EventUtils.event e' = EventUtils.event e /\
    (EventType (EventUtils.event e) = SAHPI_ET_HPI_SW -> e' = e).
Proof.
  intros Hw. rewrite process_event_dispatch.
  assert (Hd : exists w' e', dispatch g now domain_exists waiting io w e = (w', e') /\
    world_ok domain_exists w' /\ EventUtils.event e' = EventUtils.event e /\
    (EventType (EventUtils.event e) = SAHPI_ET_HPI_SW -> e' = e)).
  { assert (Hpost : forall r, keeps_world domain_exists r e -> exists w' e',
      (default w r.1.2, default e r.2) = (w', e') /\ world_ok domain_exists w' /\
      EventUtils.event e' = EventUtils.event e).
    { intros r (err & w' & e' & -> & H1 & H2). by exists w', e'. }
    assert (Hres : EventUtils.event (restore_resource w e) = EventUtils.event e).
    { unfold restore_resource. case_if; [|done]. by destruct (oh_get_resource_by_id _ _). }
    unfold dispatch. case_if; zbool.
    { assert (Hno : EventType (EventUtils.event e) = SAHPI_ET_HPI_SW -> False) by (consts; lia).
      case_if; [by exists w, e|]. case_if; [by exists w, (restore_resource w e)|].
      case_if; [by exists w, (restore_resource w e)|].
      destruct (resource_event_keeps g now domain_exists waiting io w (restore_resource w e) Hw)
        as (err & w' & e' & -> & H1 & H2); [rewrite Hres; consts; lia|].
      exists w', e'. split; [done|]. split; [done|]. split; [by rewrite H2|done]. }
    case_if; zbool.
    { assert (Hno : EventType (EventUtils.event e) = SAHPI_ET_HPI_SW -> False) by (consts; lia).
      case_if; [by exists w, e|]. case_if; [by exists w, (restore_resource w e)|].
      case_if; [by exists w, (restore_resource w e)|].
      destruct (hs_event_keeps g now domain_exists waiting io w (restore_resource w e) Hw)
        as (err & w' & e' & -> & H1 & H2); [rewrite Hres; consts; lia|].
      exists w', e'. split; [done|]. split; [done|]. split; [by rewrite H2|done]. }
    case_if; [|by exists w, e].
    destruct (hpi_event_spec g now domain_exists waiting io w e Hw) as (w' & -> & [(l' & ts & Hd & _) _ _ Hc]).
    exists w', (user_stripped e). split; [done|]. split.
    - destruct Hw as [[ths W1] W2 W3]. constructor; [eexists; by apply Hc|..]; unfold w_dom; rewrite Hd; done.
    - unfold user_stripped. split; [by case_if|]. intros ->. done. }
  destruct Hd as (w' & e' & -> & H1 & H2). exists (with_alarms g now io e' w'), e'.
  split; [done|]. split; [by apply with_alarms_ok|exact H2].
Qed.

(** Processing neither makes nor unmakes a quit event. *)
Lemma quit_kept e e' :
  EventUtils.event e' = EventUtils.event e -> (EventType (EventUtils.event e) = SAHPI_ET_HPI_SW -> e' = e) ->
  quit e' = quit e.
Proof.
  intros He Hs. destruct (Z.eqb_spec (EventType (EventUtils.event e)) SAHPI_ET_HPI_SW) as [Ht|Ht]; [by rewrite Hs|].
  unfold quit, oh_detect_quit_event. rewrite He. by rewrite (proj2 (Z.eqb_neq _ _) Ht).
Qed.

(** The world after the events of a list. *)
Fixpoint process_all `{EntityPathLookup} (g : global_params) (domain_exists : Z -> bool)
    (env : nat -> Z * (Z -> Z) * io_faults) (i : nat) (l : list oh_event) (w : option world) : option world :=
  match l with
  | [] => w
  | e :: l =>
      let '(now, waiting, io) := env i in
      process_all g domain_exists env (S i) l
        (snd (fst (process_event g now domain_exists waiting io w (Some e))))
  end.

Lemma process_events_prefix `{EntityPathLookup} g domain_exists env l1 l2 i w :
  world_ok domain_exists w -> Forall (fun e => quit e = false) l1 ->
  exists w', process_all g domain_exists env i l1 (Some w) = Some w' /\ world_ok domain_exists w' /\
    oh_process_events g domain_exists env i (l1 ++ l2) (Some w)
    = oh_process_events g domain_exists env (i + length l1) l2 (Some w').
Proof.
  revert i w. induction l1 as [|e l1 IH]; intros i w Hw Hl.
  { exists w. split; [done|]. split; [done|]. by rewrite Nat.add_0_r. }
  apply Forall_cons in Hl as [He Hl]. cbn [process_all oh_process_events app].
  destruct (env i) as [[now waiting] io].
  destruct (process_event_keeps g now domain_exists waiting io w e Hw) as (w1 & e1 & E & Hw1 & Hev & Hs).
  rewrite E. cbn [fst snd]. cbv zeta. fold (quit e1). rewrite (quit_kept e e1 Hev Hs), He.
  destruct (IH (S i) w1 Hw1 Hl) as (w' & E1 & E2 & E3). exists w'. split; [done|]. split; [done|].
  rewrite E3. f_equal. simpl. lia.
Qed.

Lemma process_all_app `{EntityPathLookup} g domain_exists env i l1 l2 w :
  process_all g domain_exists env i (l1 ++ l2) w
  = process_all g domain_exists env (i + length l1) l2 (process_all g domain_exists env i l1 w).
Proof.
  revert i w. induction l1 as [|e l1 IH]; intros i w; cbn [process_all app length].
  - by rewrite Nat.add_0_r.
  - destruct (env i) as [[now waiting] io]. rewrite IH. f_equal. lia.
Qed.

Lemma quit_make t : oh_detect_quit_event (Some (make_quit_event t)) = 0.
Proof. by apply detect_quit_iff. Qed.

(** A subscribed session of the domain whose queue is empty: its readers wait. *)
Definition waiting_session (w : world) (i : Z) (x : oh_session) : Prop :=
  table (sess w) !! i = Some x /\ Session.did x = domain_id (w_dom w) /\ truthy (subscribed x) = true /\
  queue_of (eventq x) (sess w) = [].

(** The first reader to take an event of the session in [s] returns
    [SA_ERR_HPI_NO_RESPONSE]: one that comes now, and does not wait; one that is
    blocked, when its pop - the [k]-th of its loop - finds the sessions as in [s];
    and one that waits with a timeout. *)
Definition reader_quits (s : session_state) (i : Z) (q : nat) : Prop :=
  (exists status s1, dequeue_now i s = (SA_ERR_HPI_NO_RESPONSE, None, status, s1)) /\
  (forall fuel wait k s0, wait k s0 = s ->
     exists s1, block_loop (S fuel) wait k i q s0 = Some (SA_ERR_HPI_NO_RESPONSE, None, s1)) /\
  (forall fuel wait timeout status s0 s1,
     dequeue_begin i s0 = Some (q, status, s1) -> wait 0%nat s1 = s ->
     timeout <> SAHPI_TIMEOUT_IMMEDIATE -> timeout <> SAHPI_TIMEOUT_BLOCK ->
     exists s2, oh_dequeue_session_event fuel wait i timeout true s0
                = Some (SA_ERR_HPI_NO_RESPONSE, None, Some status, s2)).

#[local] Arguments make_quit_event : simpl never.

(** The quit event reaches the sessions whose readers wait, however many they
    are: their queues are not full. *)
Lemma quit_wakes `{EntityPathLookup} g now domain_exists waiting io t w :
  world_ok domain_exists w ->
  exists w', process_event g now domain_exists waiting io (Some w) (Some (make_quit_event t))
      = (0, Some w', Some (make_quit_event t)) /\
    forall i x, waiting_session w i x -> 0 <= waiting i ->
      queue_of (eventq x) (sess w') = [make_quit_event t] /\ reader_quits (sess w') i (eventq x).
Proof.
  intros Hw. rewrite process_event_dispatch, dispatch_plain by done.
  destruct (hpi_event_spec g now domain_exists waiting io w (make_quit_event t) Hw) as (w1 & E & [_ _ Hd Hc]).
  rewrite E. eexists. split; [done|]. intros i x (Hx & Hdid & Hsub & Hq) Hwait.
  change (sess (with_alarms _ _ _ _ _)) with (sess w1).
  change (user_stripped (make_quit_event t)) with (make_quit_event t) in Hd.
  destruct Hd as (_ & _ & Hd). destruct (Hd i x Hx) as [Hq' Hx'].
  assert (Hroom : queue_full g (waiting i) [] = false)
    by (unfold queue_full; simpl; apply andb_false_iff; left; apply Z.ltb_ge; lia).
  unfold to_domain in Hq', Hx'. rewrite Hx, Hdid, Z.eqb_refl, Hsub, Hq, Hroom in Hq', Hx'. simpl in Hq', Hx'.
  destruct (wo_sess _ _ Hw) as [ths Hths].
  assert (Ho := open_session_of _ _ _ _ (Hc ths Hths) Hx').
  assert (Hquit : dequeue_end (Some (make_quit_event t)) = (SA_ERR_HPI_NO_RESPONSE, None))
    by (unfold dequeue_end; by rewrite quit_make).
  split; [done|]. split; [|split].
  - rewrite (dequeue_now_spec (sess w1) i x Ho), Hq'. cbn [head]. rewrite Hquit. by eexists _, _.
  - intros fuel wait k s0 Hs. by apply (blocked_reader_ends (sess w1) i x _ [] _ _ Ho Hsub Hq' Hquit).
  - intros fuel wait timeout status s0 s1 Hb Hs H1 H2.
    by apply (timed_reader_ends (sess w1) i x _ [] _ _ Ho Hsub Hq' Hquit fuel wait timeout status s0 s1).
Qed.

(** C32: the processing loop.  The events of the queue are processed in order, one
    after the other, up to the first quit event: the loop then returns and leaves
    the later events in the queue.  Every subscribed session of the domain whose
    queue is empty then has the quit event in it, whatever number of readers waits
    there, and the first reader to take an event of it - one that is blocked or
    that waits with a timeout, or else the next one to come - returns
    [SA_ERR_HPI_NO_RESPONSE].  (The event is taken by one reader: further readers
    of the same session go on waiting.  A session with events in its queue has the
    quit event behind them, if its queue is not full.)  Without a quit event the
    loop processes all events and waits for more. *)
Theorem oh_process_events_quits `{EntityPathLookup} (g : global_params) (domain_exists : Z -> bool)
    (env : nat -> Z * (Z -> Z) * io_faults) (l1 l2 : list oh_event) (t : Z) (w : world) :
  world_ok domain_exists w -> Forall (fun e => quit e = false) l1 ->
  oh_process_events g domain_exists env 0 l1 (Some w)
  = (false, [], process_all g domain_exists env 0 l1 (Some w)) /\
  exists w1 w2,
    process_all g domain_exists env 0 l1 (Some w) = Some w1 /\
    process_all g domain_exists env 0 (l1 ++ [make_quit_event t]) (Some w) = Some w2 /\
    oh_process_events g domain_exists env 0 (l1 ++ make_quit_event t :: l2) (Some w) = (true, l2, Some w2) /\
    forall i x, waiting_session w1 i x -> 0 <= (env (length l1)).1.2 i ->
      queue_of (eventq x) (sess w2) = [make_quit_event t] /\ reader_quits (sess w2) i (eventq x).
Proof.
  intros Hw Hl.
  destruct (process_events_prefix g domain_exists env l1 [] 0 w Hw Hl) as (w1 & E1 & Hw1 & E2).
  destruct (process_events_prefix g domain_exists env l1 (make_quit_event t :: l2) 0 w Hw Hl) as (w1' & E1' & _ & E3).
  rewrite E1 in E1'. injection E1' as <-. split; [by rewrite app_nil_r in E2; rewrite E2, E1|].
  destruct (env (length l1)) as [[now waiting] io] eqn:Eenv.
  destruct (quit_wakes g now domain_exists waiting io t w1 Hw1) as (w2 & E4 & Hwake).
  exists w1, w2. split; [done|]. split; [|split; [|exact Hwake]].
  - rewrite process_all_app, E1. cbn [process_all]. by rewrite Nat.add_0_l, Eenv, E4.
  - rewrite E3. cbn [oh_process_events]. rewrite Nat.add_0_l, Eenv, E4. cbv zeta. by rewrite quit_make.
Qed.

(** The example world while a reader of session 1 is blocked. *)
Definition blocked_sessions : session_state :=
  match dequeue_begin 1 example_sessions with Some (_, _, s) => s | None => example_sessions end.
Definition blocked_world : world := example_world <| sess := blocked_sessions |>.

Lemma blocked_world_ok : world_ok (fun d => d =? OH_DEFAULT_DOMAIN_ID) blocked_world.
Proof.
  constructor; [|done|done]. exists [Popping 1 SAHPI_TIMEOUT_BLOCK 0].
  apply (step_ok example_params (fun _ => true) (example_sessions, [Idle]) _).
  - by apply (st_read _ _ _ [Idle] 0%nat 1 SAHPI_TIMEOUT_BLOCK 0 0).
  - destruct example_sessions_ok as [H1 H2]. by constructor.
Qed.

Lemma oh_process_events_quits_witness :
  exists w2 s, oh_process_events example_params (fun d => d =? OH_DEFAULT_DOMAIN_ID)
      (fun _ => (20, fun _ => 1, example_io)) 0 [make_quit_event 5; zero_oh_event] (Some blocked_world)
      = (true, [zero_oh_event], Some w2) /\
    oh_dequeue_session_event 1 (fun _ _ => sess w2) 1 SAHPI_TIMEOUT_BLOCK true example_sessions
    = Some (SA_ERR_HPI_NO_RESPONSE, None, Some 0, s).
Proof.
  destruct (oh_process_events_quits example_params (fun d => d =? OH_DEFAULT_DOMAIN_ID)
      (fun _ => (20, fun _ => 1, example_io)) [] [zero_oh_event] 5 blocked_world blocked_world_ok)
    as (_ & w1 & w2 & H1 & _ & H2 & H3); [constructor|]. injection H1 as <-.
  destruct (H3 1 {| id := 1; did := 0; subscribed := 1; eventq_status := 0; eventq := 0 |})
    as (_ & _ & Hb & _); [split; [by vm_compute|]; split; [by vm_compute|]; by split; vm_compute|done|].
  destruct (Hb 0%nat (fun _ _ => sess w2) 0%nat blocked_sessions eq_refl) as [s Hs].
  exists w2, s. split; [exact H2|]. unfold oh_dequeue_session_event.
  change (dequeue_begin 1 example_sessions) with (Some (0%nat, 0, blocked_sessions)).
  cbn match zeta. simpl orb. cbn match. cbn [eventq] in Hs. by rewrite Hs.
Defined.

(** Overlaying the resource found under an id. *)
Lemma view_find_update_key k g v x :
  k <> SAHPI_FIRST_ENTRY -> view_find k v = Some x -> ResourceId (g x).1 = k ->
  view_find k (view_update k g v) = Some (g x).
Proof.
  intros Hk. unfold view_find. rewrite (proj2 (Z.eqb_neq _ _) Hk). intros Hf Hg.
  induction v as [|y v IH]; simpl in *; [done|]. destruct (ResourceId y.1 =? k) eqn:E; simpl.
  - injection Hf as ->. by rewrite Hg, Z.eqb_refl.
  - rewrite E. by apply IH.
Qed.

(** The example table with its resource marked as failed. *)
Definition failed_rpt : RPTable :=
  default empty_rpt (snd (fst (oh_add_resource 6 (Some example_rpt)
    (Some (example_resource 7 <| ResourceFailed := SAHPI_TRUE |>)) 0 0))).
Lemma failed_rpt_ok : rpt_ok failed_rpt.
Proof.
  unfold failed_rpt.
  destruct (add_resource_put 6 example_rpt (example_resource 7 <| ResourceFailed := SAHPI_TRUE |>) 0
              example_rpt_ok) as (t' & E & Ht & _); [by split|]. by rewrite E.
Qed.

(** A failed resource that fails again.  A resource that the table knows as
    failed, with an alarm, and that its plug-in reports as failed once more - in
    an event that itself does not mark the resource as failed - is taken as
    working: the repeated event is not passed on, but the entry of the event is
    stored as it is, not marked as failed, and the alarm goes. *)
Theorem repeated_failure_clears `{EntityPathLookup} (g : global_params) (now : Z)
    (domain_exists : Z -> bool) (waiting : Z -> Z) (io : io_faults) (w : world) (e : oh_event)
    (en : SaHpiRptEntryT) (rs : list SaHpiRdrT) :
  world_ok domain_exists w -> dom_ok g (w_dom w) ->
  accepted_resource_event e SAHPI_RESE_RESOURCE_FAILURE ->
  view_find (ResourceId (resource e)) (rpt_view (rpt (w_dom w))) = Some (en, rs) ->
  truthy (ResourceFailed en) = true -> ResourceFailed (resource e) = SAHPI_FALSE ->
  exists w' e', process_event g now domain_exists waiting io (Some w) (Some e) = (0, Some w', Some e') /\
    sess w' = sess w /\
    (exists en' rs', view_find (ResourceId (resource e)) (rpt_view (rpt (w_dom w'))) = Some (en', rs') /\
       ResourceFailed en' = SAHPI_FALSE) /\
    forall a, a ∈ alarms (w_dom w') -> Type_ (AlarmCond a) = SAHPI_STATUS_COND_TYPE_RESOURCE ->
      cond_ResourceId (AlarmCond a) <> ResourceId (resource e).
Proof.
  intros Hw Hd Ha Hx Hf Hnf. set (rid := ResourceId (resource e)) in *.
  assert (Hwas : failed_before rid (rpt_view (rpt (w_dom w))) = true) by (unfold failed_before; by rewrite Hx).
  rewrite process_event_dispatch, (dispatch_resource g now _ _ _ _ _ _ Ha).
  destruct (resource_event_spec g now domain_exists waiting io w e _ Hw (do_rpt _ _ Hd)
              (ar_rid _ _ Ha) (ar_type _ _ Ha) (ar_known _ _ Ha) (ar_rdrs _ _ Ha) (ar_remove _ _ Ha))
    as (t' & e' & h & w1 & E & Ht' & Hv' & Hev & Hres & _ & Hp).
  rewrite E. simpl. fold rid in Hv', Hp. change (SAHPI_RESE_RESOURCE_FAILURE =? SAHPI_RESE_RESOURCE_REMOVED) with false in Hres.
  unfold resource_news, repeated in Hp. simpl in Hp. rewrite Hwas in Hp. simpl in Hp.
  destruct (posted_frame false g waiting io e' _ _ _ _ _ eq_refl Hp) as (H1 & H2 & H3 & H4 & H5 & H6).
  destruct (with_alarms_spec g now io e' w1 (w_dom w) Hd) as (A1 & A2 & A3 & A4 & A5 & A6); [|done|done|].
  { unfold event_tagged. by rewrite Hev, (ar_type _ _ Ha). }
  assert (Hen : stored_entry SAHPI_RESE_RESOURCE_FAILURE (rpt_view (rpt (w_dom w))) (resource e)
                = (resource e) <| EntryId := rid |>).
  { apply stored_repeated. fold rid. unfold repeated. by rewrite Hwas. }
  rewrite Hen in Hres. exists (with_alarms g now io e' w1), e'. split; [done|].
  split; [by rewrite A5|]. split.
  - rewrite A2, H3, Hv'. unfold resource_view. simpl. rewrite Hen.
    exists ((resource e) <| EntryId := rid |>), rs. split; [|exact Hnf].
    assert (Hr0 := proj1 (ar_rid _ _ Ha)).
    unfold put_resource. change (ResourceId ((resource e) <| EntryId := rid |>)) with rid.
    rewrite <- (view_find_key _ rid Hr0), Hx.
    rewrite (view_find_update_key rid _ _ (en, rs) Hr0 Hx); done.
  - intros a Hal Ht Hrid. rewrite A1 in Hal. unfold detected, raised in Hal.
    rewrite Hev, (ar_type _ _ Ha), Hres in Hal. change (ResourceFailed ((resource e) <| EntryId := rid |>)) with (ResourceFailed (resource e)) in Hal.
    rewrite Hnf in Hal. change (ResourceId ((resource e) <| EntryId := rid |>)) with rid in Hal.
    rewrite (proj2 (Z.eqb_neq _ _) (proj1 (ar_rid _ _ Ha) : rid <> 0)) in Hal. simpl in Hal.
    apply list_elem_of_In, filter_In in Hal as [_ Hc]. unfold cleared in Hc.
    rewrite Hev, (ar_type _ _ Ha), Hres in Hc.
    change (ResourceFailed ((resource e) <| EntryId := rid |>)) with (ResourceFailed (resource e)) in Hc.
    change (ResourceId ((resource e) <| EntryId := rid |>)) with rid in Hc.
    rewrite Hnf, (proj2 (Z.eqb_neq _ _) (proj1 (ar_rid _ _ Ha) : rid <> 0)) in Hc.
    unfold is_type, of_resource in Hc. by rewrite Ht, Hrid, !Z.eqb_refl in Hc.
Qed.

Lemma repeated_failure_clears_witness :
  exists w' e', process_event example_params 21 (fun d => d =? OH_DEFAULT_DOMAIN_ID) (fun _ => 0) example_io
      (Some (example_world <| dat_st ::= fun s => s <| dom ::= fun d => d <| rpt := failed_rpt |> |> |>))
      (Some (example_resource_event SAHPI_RESE_RESOURCE_FAILURE 0)) = (0, Some w', Some e') /\
    exists en' rs', view_find 7 (rpt_view (rpt (w_dom w'))) = Some (en', rs') /\ ResourceFailed en' = SAHPI_FALSE.
Proof.
  destruct (repeated_failure_clears example_params 21 (fun d => d =? OH_DEFAULT_DOMAIN_ID) (fun _ => 0) example_io
      (example_world <| dat_st ::= fun s => s <| dom ::= fun d => d <| rpt := failed_rpt |> |> |>)
      (example_resource_event SAHPI_RESE_RESOURCE_FAILURE 0)
      (example_resource 7 <| ResourceFailed := SAHPI_TRUE |>) [example_rdr SAHPI_SENSOR_RDR 3])
    as (w' & e' & H1 & _ & H2 & _).
  - by destruct example_world_ok; constructor.
  - destruct example_world_dom_ok as [_ H2 H3 H4]. constructor; [apply failed_rpt_ok| |done|done].
    by destruct H2; constructor.
  - constructor; try done; [by left|constructor|constructor].
  - by vm_compute.
  - done.
  - done.
  - exists w', e'. split; [exact H1|exact H2].
Defined.
