(* ===== verification/Validate.v ===== *)
(** The checks of parameters that the HPI functions share:
    [oh_lookup_*] of [utils/sahpi_enum_utils.c], [oh_valid_thresholds],
    [oh_valid_ordering], [oh_compare_sensorreading] and
    [oh_valid_ctrl_state_mode] of [utils/sahpi_struct_utils.c] and
    [oh_valid_addevent] of [utils/sahpi_event_utils.c].

    An [oh_lookup_*] returns the name of a value or [NULL]; here it tells
    whether there is a name.  A pointer that may be [NULL] is an [option]. *)
From S2P Require Import Prelude SaHpi TextBuffer.

(** ** The names of the enumerations *)

Definition in_enum (values : list Z) (v : Z) : bool := existsb (Z.eqb v) values.

Definition oh_lookup_severity : Z -> bool :=
  in_enum [SAHPI_CRITICAL; SAHPI_MAJOR; SAHPI_MINOR; SAHPI_INFORMATIONAL; SAHPI_OK;
           SAHPI_DEBUG; SAHPI_ALL_SEVERITIES].
Definition oh_lookup_rdrtype : Z -> bool :=
  in_enum [SAHPI_NO_RECORD; SAHPI_CTRL_RDR; SAHPI_SENSOR_RDR; SAHPI_INVENTORY_RDR;
           SAHPI_WATCHDOG_RDR; SAHPI_ANNUNCIATOR_RDR; SAHPI_DIMI_RDR; SAHPI_FUMI_RDR].
Definition oh_lookup_sensoreventmaskaction : Z -> bool :=
  in_enum [SAHPI_SENS_ADD_EVENTS_TO_MASKS; SAHPI_SENS_REMOVE_EVENTS_FROM_MASKS].

Definition SAHPI_CTRL_MODE_AUTO : Z := 0.
Definition SAHPI_CTRL_MODE_MANUAL : Z := 1.
Definition SAHPI_CTRL_STATE_OFF : Z := 0.
Definition SAHPI_CTRL_STATE_ON : Z := 1.
Definition SAHPI_CTRL_STATE_PULSE_OFF : Z := 2.
Definition SAHPI_CTRL_STATE_PULSE_ON : Z := 3.
Definition SAHPI_CTRL_MAX_STREAM_LENGTH : Z := 4.
Definition SAHPI_TLN_ALL_LINES : Z := 0.
#[export] Hint Unfold SAHPI_CTRL_MODE_AUTO SAHPI_CTRL_MODE_MANUAL SAHPI_CTRL_STATE_OFF
  SAHPI_CTRL_STATE_ON SAHPI_CTRL_STATE_PULSE_OFF SAHPI_CTRL_STATE_PULSE_ON
  SAHPI_CTRL_MAX_STREAM_LENGTH SAHPI_TLN_ALL_LINES : hpi_const.
Definition oh_lookup_ctrlmode : Z -> bool := in_enum [SAHPI_CTRL_MODE_AUTO; SAHPI_CTRL_MODE_MANUAL].
Definition oh_lookup_ctrlstatedigital : Z -> bool :=
  in_enum [SAHPI_CTRL_STATE_OFF; SAHPI_CTRL_STATE_ON; SAHPI_CTRL_STATE_PULSE_OFF;
           SAHPI_CTRL_STATE_PULSE_ON].
Definition oh_lookup_ctrltype : Z -> bool :=
  in_enum [SAHPI_CTRL_TYPE_DIGITAL; SAHPI_CTRL_TYPE_DISCRETE; SAHPI_CTRL_TYPE_ANALOG;
           SAHPI_CTRL_TYPE_STREAM; SAHPI_CTRL_TYPE_TEXT; SAHPI_CTRL_TYPE_OEM].

Definition SAHPI_IDR_AREATYPE_INTERNAL_USE : Z := 0xB0.
Definition SAHPI_IDR_AREATYPE_CHASSIS_INFO : Z := 0xB1.
Definition SAHPI_IDR_AREATYPE_BOARD_INFO : Z := 0xB2.
Definition SAHPI_IDR_AREATYPE_PRODUCT_INFO : Z := 0xB3.
Definition SAHPI_IDR_AREATYPE_OEM : Z := 0xC0.
Definition SAHPI_IDR_AREATYPE_UNSPECIFIED : Z := 0xFF.
Definition oh_lookup_idrareatype : Z -> bool :=
  in_enum [SAHPI_IDR_AREATYPE_INTERNAL_USE; SAHPI_IDR_AREATYPE_CHASSIS_INFO;
           SAHPI_IDR_AREATYPE_BOARD_INFO; SAHPI_IDR_AREATYPE_PRODUCT_INFO;
           SAHPI_IDR_AREATYPE_OEM; SAHPI_IDR_AREATYPE_UNSPECIFIED].
Definition SAHPI_IDR_FIELDTYPE_CUSTOM : Z := 9.
Definition SAHPI_IDR_FIELDTYPE_UNSPECIFIED : Z := 0xFF.
(** [SAHPI_IDR_FIELDTYPE_CHASSIS_TYPE] to [_CUSTOM], and [_UNSPECIFIED]. *)
Definition oh_lookup_idrfieldtype : Z -> bool :=
  in_enum [0; 1; 2; 3; 4; 5; 6; 7; 8; SAHPI_IDR_FIELDTYPE_CUSTOM; SAHPI_IDR_FIELDTYPE_UNSPECIFIED].

(** [SAHPI_WTU_NONE] to [_OEM], and [_UNSPECIFIED]. *)
Definition oh_lookup_watchdogtimeruse : Z -> bool := in_enum [0; 1; 2; 3; 4; 5; 0x0F].
(** [SAHPI_WA_NO_ACTION] to [SAHPI_WA_POWER_CYCLE]. *)
Definition oh_lookup_watchdogaction : Z -> bool := in_enum [0; 1; 2; 3].
(** [SAHPI_WPI_NONE] to [_MESSAGE_INTERRUPT], and [_OEM]. *)
Definition oh_lookup_watchdogpretimerinterrupt : Z -> bool := in_enum [0; 1; 2; 3; 0x0F].
Definition oh_lookup_statuscondtype : Z -> bool :=
  in_enum [SAHPI_STATUS_COND_TYPE_SENSOR; SAHPI_STATUS_COND_TYPE_RESOURCE;
           SAHPI_STATUS_COND_TYPE_OEM; SAHPI_STATUS_COND_TYPE_USER].
Definition SAHPI_ANNUNCIATOR_MODE_AUTO : Z := 0.
(** [SAHPI_ANNUNCIATOR_MODE_AUTO], [_USER] and [_SHARED]. *)
Definition oh_lookup_annunciatormode : Z -> bool := in_enum [SAHPI_ANNUNCIATOR_MODE_AUTO; 1; 2].
Definition SAHPI_HS_ACTION_INSERTION : Z := 0.
Definition SAHPI_HS_ACTION_EXTRACTION : Z := 1.
Definition oh_lookup_hsaction : Z -> bool :=
  in_enum [SAHPI_HS_ACTION_INSERTION; SAHPI_HS_ACTION_EXTRACTION].
(** [SAHPI_HS_INDICATOR_OFF] and [_ON]. *)
Definition oh_lookup_hsindicatorstate : Z -> bool := in_enum [0; 1].
(** [SAHPI_DEFAULT_PARM], [SAHPI_SAVE_PARM] and [SAHPI_RESTORE_PARM]. *)
Definition oh_lookup_parmaction : Z -> bool := in_enum [0; 1; 2].
(** [SAHPI_COLD_RESET], [SAHPI_WARM_RESET], [SAHPI_RESET_ASSERT] and [_DEASSERT]. *)
Definition oh_lookup_resetaction : Z -> bool := in_enum [0; 1; 2; 3].
(** [SAHPI_POWER_OFF], [_ON] and [_CYCLE]. *)
Definition oh_lookup_powerstate : Z -> bool := in_enum [0; 1; 2].

Lemma in_enum_spec l v : in_enum l v = true <-> v ∈ l.
Proof.
  unfold in_enum. rewrite existsb_exists. split.
  - intros (x & Hx & E). zbool. subst. by apply list_elem_of_In.
  - intros Hv. exists v. rewrite Z.eqb_refl. by rewrite <- list_elem_of_In.
Qed.

(** ** Sensor readings *)
Definition SAHPI_SENSOR_READING_TYPE_INT64 : Z := 0.
Definition SAHPI_SENSOR_READING_TYPE_UINT64 : Z := 1.
Definition SAHPI_SENSOR_READING_TYPE_FLOAT64 : Z := 2.
Definition SAHPI_SENSOR_READING_TYPE_BUFFER : Z := 3.
#[export] Hint Unfold SAHPI_SENSOR_READING_TYPE_INT64 SAHPI_SENSOR_READING_TYPE_UINT64
  SAHPI_SENSOR_READING_TYPE_FLOAT64 SAHPI_SENSOR_READING_TYPE_BUFFER : hpi_const.

Definition SensorInt64 (v : SaHpiSensorReadingUnionT) : Z := i64 (word64 v).
Definition SensorUint64 (v : SaHpiSensorReadingUnionT) : Z := u64 (word64 v).

(** A 64-bit float is its IEEE 754 representation: the sign and the magnitude,
    which orders the numbers; magnitudes above that of the infinity are the
    NaNs, which compare to nothing. *)
Definition float_magnitude (bits : Z) : Z := bits mod 2 ^ 63.
Definition float_nan (bits : Z) : bool := 0x7FF0000000000000 <? float_magnitude bits.
Definition float_key (bits : Z) : Z :=
  if Z.testbit bits 63 then - float_magnitude bits else float_magnitude bits.
Definition float_lt (a b : Z) : bool :=
  negb (float_nan a) && negb (float_nan b) && (float_key a <? float_key b).
Definition float_eq (a b : Z) : bool :=
  negb (float_nan a) && negb (float_nan b) && (float_key a =? float_key b).
Definition SensorFloat64 (v : SaHpiSensorReadingUnionT) : Z := u64 (word64 v).

(** The bytes of [SensorBuffer] on a little-endian machine. *)
Definition SensorBuffer (v : SaHpiSensorReadingUnionT) : list Z :=
  map (fun i => u8 (Z.shiftr (word64 v) (8 * Z.of_nat i))) (seq 0 8) ++ buffer_rest v.
Fixpoint memcmp (a b : list Z) : Z :=
  match a, b with
  | x :: a, y :: b => if x <? y then -1 else if y <? x then 1 else memcmp a b
  | _, _ => 0
  end.

Definition oh_compare_sensorreading (type : Z) (reading1 reading2 : SaHpiSensorReadingT) : Z :=
  let v1 := Value reading1 in let v2 := Value reading2 in
  if type =? SAHPI_SENSOR_READING_TYPE_INT64 then
    if SensorInt64 v1 <? SensorInt64 v2 then -1
    else if SensorInt64 v1 =? SensorInt64 v2 then 0 else 1
  else if type =? SAHPI_SENSOR_READING_TYPE_UINT64 then
    if SensorUint64 v1 <? SensorUint64 v2 then -1
    else if SensorUint64 v1 =? SensorUint64 v2 then 0 else 1
  else if type =? SAHPI_SENSOR_READING_TYPE_FLOAT64 then
    if float_lt (SensorFloat64 v1) (SensorFloat64 v2) then -1
    else if float_eq (SensorFloat64 v1) (SensorFloat64 v2) then 0 else 1
  else if type =? SAHPI_SENSOR_READING_TYPE_BUFFER then
    let res := memcmp (SensorBuffer v1) (SensorBuffer v2) in
    if res <? 0 then -1 else if 0 <? res then 1 else 0
  else 0.

(** ** Thresholds *)
Definition SAHPI_EC_THRESHOLD : Z := 1.
Definition SAHPI_STM_LOW_MINOR : Z := 0x01.
Definition SAHPI_STM_LOW_MAJOR : Z := 0x02.
Definition SAHPI_STM_LOW_CRIT : Z := 0x04.
Definition SAHPI_STM_UP_MINOR : Z := 0x08.
Definition SAHPI_STM_UP_MAJOR : Z := 0x10.
Definition SAHPI_STM_UP_CRIT : Z := 0x20.
Definition SAHPI_STM_UP_HYSTERESIS : Z := 0x40.
Definition SAHPI_STM_LOW_HYSTERESIS : Z := 0x80.
Definition SAHPI_SRF_MIN : Z := 0x10.
Definition SAHPI_SRF_MAX : Z := 0x08.
#[export] Hint Unfold SAHPI_EC_THRESHOLD SAHPI_STM_UP_HYSTERESIS SAHPI_STM_LOW_HYSTERESIS
  SAHPI_STM_LOW_MINOR SAHPI_STM_LOW_MAJOR SAHPI_STM_LOW_CRIT SAHPI_STM_UP_MINOR
  SAHPI_STM_UP_MAJOR SAHPI_STM_UP_CRIT : hpi_const.

(** The comparison [<] of two values of the type that the sensor reads. *)
Definition value_lt (type : Z) (a b : SaHpiSensorReadingUnionT) : bool :=
  if type =? SAHPI_SENSOR_READING_TYPE_INT64 then SensorInt64 a <? SensorInt64 b
  else if type =? SAHPI_SENSOR_READING_TYPE_FLOAT64 then float_lt (SensorFloat64 a) (SensorFloat64 b)
  else SensorUint64 a <? SensorUint64 b.
(** [... < 0] *)
Definition negative (type : Z) (a : SaHpiSensorReadingUnionT) : bool :=
  value_lt type a zero_reading_union.

(** The macro [validate_threshold]: the error it returns. *)
Definition validate_threshold (writable_thds : Z) (format : SaHpiSensorDataFormatT)
    (thd : SaHpiSensorReadingT) (thdmask : Z) : option Z :=
  if truthy (IsSupported thd) then
    if negb (truthy (Z.land writable_thds thdmask)) then Some SA_ERR_HPI_INVALID_CMD
    else if negb (ReadingType format =? reading_Type thd) then Some SA_ERR_HPI_INVALID_DATA
    else
      let type := ReadingType format in
      let hysteresis := (thdmask =? SAHPI_STM_UP_HYSTERESIS) || (thdmask =? SAHPI_STM_LOW_HYSTERESIS) in
      if (type =? SAHPI_SENSOR_READING_TYPE_INT64) || (type =? SAHPI_SENSOR_READING_TYPE_FLOAT64)
         || (type =? SAHPI_SENSOR_READING_TYPE_UINT64)
      then
        if hysteresis then
          if negb (type =? SAHPI_SENSOR_READING_TYPE_UINT64) && negative type (Value thd)
          then Some SA_ERR_HPI_INVALID_DATA else None
        else if truthy (Z.land (Flags (Range format)) SAHPI_SRF_MAX)
                && value_lt type (Value (Max (Range format))) (Value thd)
        then Some SA_ERR_HPI_INVALID_CMD
        else if truthy (Z.land (Flags (Range format)) SAHPI_SRF_MIN)
                && value_lt type (Value thd) (Value (Min (Range format)))
        then Some SA_ERR_HPI_INVALID_CMD
        else None
      else if type =? SAHPI_SENSOR_READING_TYPE_BUFFER then None
      else Some SA_ERR_HPI_INVALID_CMD
  else None.

(** The thresholds in the order in which they are validated. *)
Definition thresholds_in_turn (thds : SaHpiSensorThresholdsT) : list (SaHpiSensorReadingT * Z) :=
  [(LowCritical thds, SAHPI_STM_LOW_CRIT); (LowMajor thds, SAHPI_STM_LOW_MAJOR);
   (LowMinor thds, SAHPI_STM_LOW_MINOR); (UpCritical thds, SAHPI_STM_UP_CRIT);
   (UpMajor thds, SAHPI_STM_UP_MAJOR); (UpMinor thds, SAHPI_STM_UP_MINOR);
   (PosThdHysteresis thds, SAHPI_STM_UP_HYSTERESIS);
   (NegThdHysteresis thds, SAHPI_STM_LOW_HYSTERESIS)].

(** A statement after the other, until one returns. *)
Fixpoint first_error (l : list (option Z)) : Z :=
  match l with
  | [] => SA_OK
  | Some err :: _ => err
  | None :: l => first_error l
  end.

(** [None]: the record of the union is not the one of a sensor. *)
Definition oh_valid_thresholds (thds : option SaHpiSensorThresholdsT) (rdr : option SaHpiRdrT)
    : option Z :=
  match thds, rdr with
  | Some thds, Some rdr =>
      if negb (RdrType rdr =? SAHPI_SENSOR_RDR) then Some SA_ERR_HPI_INVALID_PARAMS
      else match SensorRec rdr with
           | None => None
           | Some rec =>
               let writable_thds := WriteThold (ThresholdDefn rec) in
               if negb (sensor_Category rec =? SAHPI_EC_THRESHOLD)
                  || (IsAccessible (ThresholdDefn rec) =? SAHPI_FALSE)
                  || (WriteThold (ThresholdDefn rec) =? 0)
               then Some SA_ERR_HPI_INVALID_CMD
               else Some (first_error
                      (map (fun p => validate_threshold writable_thds (DataFormat rec) p.1 p.2)
                         (thresholds_in_turn thds)))
           end
  | _, _ => Some SA_ERR_HPI_INVALID_PARAMS
  end.

(** The macro [validate_threshold_order]: each threshold is compared with every
    lower one. *)
Definition order_pair (type : Z) (high low : SaHpiSensorReadingT) : option Z :=
  if (IsSupported high =? SAHPI_TRUE) && (IsSupported low =? SAHPI_TRUE)
     && value_lt type (Value high) (Value low)
  then Some SA_ERR_HPI_INVALID_DATA else None.
Fixpoint validate_threshold_order (type : Z) (falling : list SaHpiSensorReadingT) : list (option Z) :=
  match falling with
  | [] => []
  | high :: lower => map (order_pair type high) lower ++ validate_threshold_order type lower
  end.
Definition falling_thresholds (thds : SaHpiSensorThresholdsT) : list SaHpiSensorReadingT :=
  [UpCritical thds; UpMajor thds; UpMinor thds; LowMinor thds; LowMajor thds; LowCritical thds].

Definition oh_valid_ordering (thds : option SaHpiSensorThresholdsT) (rdr : option SaHpiRdrT)
    : option Z :=
  match thds, rdr with
  | Some thds, Some rdr =>
      if negb (RdrType rdr =? SAHPI_SENSOR_RDR) then Some SA_ERR_HPI_INVALID_PARAMS
      else match SensorRec rdr with
           | None => None
           | Some rec =>
               let type := ReadingType (DataFormat rec) in
               if (type =? SAHPI_SENSOR_READING_TYPE_INT64)
                  || (type =? SAHPI_SENSOR_READING_TYPE_FLOAT64)
                  || (type =? SAHPI_SENSOR_READING_TYPE_UINT64)
               then Some (first_error (validate_threshold_order type (falling_thresholds thds)))
               else if type =? SAHPI_SENSOR_READING_TYPE_BUFFER then Some SA_OK
               else Some SA_ERR_HPI_INVALID_CMD
           end
  | _, _ => Some SA_ERR_HPI_INVALID_PARAMS
  end.

(** ** Control states *)

(** [int] arithmetic: the operands are bytes, nothing overflows. *)
Definition text_fits (line maxlines maxchars char_num : Z) : bool :=
  let max_chars :=
    if line =? SAHPI_TLN_ALL_LINES then maxlines * maxchars
    else maxlines * maxchars - (line - 1) * maxchars in
  if truthy char_num then char_num <=? max_chars else true.

Definition oh_valid_ctrl_state_mode (ctrl_rdr : SaHpiCtrlRecT) (mode : Z)
    (state : option SaHpiCtrlStateT) : Z :=
  if negb (oh_lookup_ctrlmode mode) then SA_ERR_HPI_INVALID_PARAMS
  else if (DefaultMode_ReadOnly ctrl_rdr =? SAHPI_TRUE) && negb (mode =? DefaultMode_Mode ctrl_rdr)
  then SA_ERR_HPI_READ_ONLY
  else if mode =? SAHPI_CTRL_MODE_AUTO then SA_OK
  else match state with
  | None => SA_ERR_HPI_INVALID_PARAMS
  | Some state =>
      if negb (ctrl_Type ctrl_rdr =? state_Type state) then SA_ERR_HPI_INVALID_DATA
      else if negb (oh_lookup_ctrltype (state_Type state)) then SA_ERR_HPI_INVALID_DATA
      else match state, TypeUnion ctrl_rdr with
      | StateDigital d, _ =>
          if negb (oh_lookup_ctrlstatedigital d) then SA_ERR_HPI_INVALID_PARAMS else SA_OK
      | StateAnalog a, RecAnalog min max _ =>
          if a <? min then SA_ERR_HPI_INVALID_DATA
          else if max <? a then SA_ERR_HPI_INVALID_DATA else SA_OK
      | StateStream _ len _, _ =>
          if SAHPI_CTRL_MAX_STREAM_LENGTH <? len then SA_ERR_HPI_INVALID_PARAMS else SA_OK
      | StateText line text, RecText maxchars maxlines lang type _ =>
          if negb (DataType text =? type) then SA_ERR_HPI_INVALID_DATA
          else if ((DataType text =? SAHPI_TL_TYPE_UNICODE) || (DataType text =? SAHPI_TL_TYPE_TEXT))
                  && negb (Language text =? lang)
          then SA_ERR_HPI_INVALID_DATA
          else if negb (truthy (oh_valid_textbuffer (Some text))) then SA_ERR_HPI_INVALID_PARAMS
          else if maxlines <? line then SA_ERR_HPI_INVALID_DATA
          else
            let char_num := if DataType text =? SAHPI_TL_TYPE_UNICODE
                            then DataLength text / 2 else DataLength text in
            if text_fits line maxlines maxchars char_num then SA_OK else SA_ERR_HPI_INVALID_DATA
      | (StateDiscrete _ | StateOem _ _ _), _ => SA_OK
      | _, _ => SA_ERR_HPI_INTERNAL_ERROR
      end
  end.

(** ** User events *)
Definition oh_valid_addevent (e : option SaHpiEventT) : Z :=
  match e with
  | None => SA_ERR_HPI_INVALID_PARAMS
  | Some e =>
      match EventDataUnion e with
      | UserEvent text =>
          if negb (Source e =? SAHPI_UNSPECIFIED_RESOURCE_ID)
             || negb (oh_lookup_severity (event_Severity e))
             || (event_Severity e =? SAHPI_ALL_SEVERITIES)
             || negb (truthy (oh_valid_textbuffer (Some text)))
          then SA_ERR_HPI_INVALID_PARAMS else SA_OK
      | _ => SA_ERR_HPI_INVALID_PARAMS
      end
  end.
