(* ===== verification/Api.v ===== *)
(** The frame of the HPI functions of [openhpid/safhpi.c]: the daemon they act
    on, the calls of plug-in functions through the handlers' ABI tables
    ([include/oh_handler.h]) and the macros of [include/sahpimacros.h].

    The functions are in a monad over the daemon with three endings besides the
    normal one: an early [return], behaviour that C leaves undefined (a [NULL]
    dereference, an uninitialised variable, a union member that was not stored,
    a domain or handler used without being held), and a wait that is not over.
    An HPI function returns a code and what it stores through its [SAHPI_OUT]
    pointers; a pointer argument is a [bool] (is it not [NULL]?) or an [option].

    A plug-in is code that is loaded at run time: the calls made so far and the
    arguments determine, by the parameter [respond], its result code and what it
    stores through the pointers.  A domain or handler in [held_domains] or
    [held_handlers] was obtained (referenced and locked) and not released yet.
    The functions are run by one thread alone. *)
From S2P Require Import Prelude SaHpi EntityPath Rpt EventLog Conf DomainState EventUtils Alarm Session.
From S2P Require Import Validate Domain Event.

(** ** The ABI of the plug-ins *)

(** The functions of [struct oh_abi_v2] that the HPI functions call. *)
Inductive abi_fn :=
  | set_resource_tag | set_resource_severity | resource_failed_remove
  | get_el_info | get_el_caps | set_el_time | add_el_entry | get_el_entry | clear_el
  | set_el_state | reset_el_overflow
  | get_sensor_reading | get_sensor_thresholds | set_sensor_thresholds | get_sensor_enable
  | set_sensor_enable | get_sensor_event_enables | set_sensor_event_enables
  | get_sensor_event_masks | set_sensor_event_masks
  | get_control_state | set_control_state
  | get_idr_info | get_idr_area_header | add_idr_area | add_idr_area_id | del_idr_area
  | get_idr_field | add_idr_field | add_idr_field_id | set_idr_field | del_idr_field
  | get_watchdog_info | set_watchdog_info | reset_watchdog
  | get_next_announce | get_announce | ack_announce | add_announce | del_announce
  | get_annunc_mode | set_annunc_mode
  | get_dimi_info | get_dimi_test | get_dimi_test_ready | start_dimi_test | cancel_dimi_test
  | get_dimi_test_status | get_dimi_test_results
  | get_fumi_spec | get_fumi_service_impact | set_fumi_source | validate_fumi_source
  | get_fumi_source | get_fumi_source_component | get_fumi_target | get_fumi_target_component
  | get_fumi_logical_target | get_fumi_logical_target_component | start_fumi_backup
  | set_fumi_bank_order | start_fumi_bank_copy | start_fumi_install | get_fumi_status
  | start_fumi_verify | start_fumi_verify_main | cancel_fumi_upgrade
  | get_fumi_autorollback_disable | set_fumi_autorollback_disable | start_fumi_rollback
  | activate_fumi | start_fumi_activate | cleanup_fumi
  | hotswap_policy_cancel | get_hotswap_state | set_hotswap_state | set_autoinsert_timeout
  | get_autoextract_timeout | set_autoextract_timeout | request_hotswap_action
  | get_indicator_state | set_indicator_state
  | control_parm | load_id_get | load_id_set
  | get_reset_state | set_reset_state | get_power_state | set_power_state.

(** Structures of the interface that the daemon only passes on are the list of
    their scalars. *)
Definition opaque : Type := list Z.

Record SaHpiIdrFieldT := {
  field_AreaId : Z; FieldId : Z; field_Type : Z; field_ReadOnly : Z; Field : SaHpiTextBufferT }.
Record SaHpiIdrAreaHeaderT := {
  header_AreaId : Z; header_Type : Z; header_ReadOnly : Z; NumFields : Z }.
Record SaHpiIdrInfoT := {
  info_IdrId : Z; info_UpdateCount : Z; info_ReadOnly : Z; NumAreas : Z }.
Record SaHpiWatchdogT := {
  Log : Z; Running : Z; TimerUse : Z; TimerAction : Z; PretimerInterrupt : Z;
  PreTimeoutInterval : Z; TimerUseExpFlags : Z; InitialCount : Z; PresentCount : Z }.
(** [SourceStatus] and the other fields. *)
Record SaHpiFumiSourceInfoT := { SourceStatus : Z; source_rest : opaque }.

(** The arguments after the resource id; an [SAHPI_INOUT] pointer that may be
    [NULL] is an [option], an [SAHPI_OUT] one a [bool].  The state given to
    [get_control_state] is [Some None] if it is not initialised. *)
Definition args_of (f : abi_fn) : Type :=
  match f with
  | set_resource_tag => SaHpiTextBufferT
  | set_resource_severity => Z
  | set_el_time => Z
  | add_el_entry => SaHpiEventT
  | get_el_entry => Z * bool * bool
  | set_el_state => Z
  | get_sensor_reading => Z * bool * bool
  | get_sensor_thresholds => Z
  | set_sensor_thresholds => Z * SaHpiSensorThresholdsT
  | get_sensor_enable => Z
  | set_sensor_enable => Z * Z
  | get_sensor_event_enables => Z
  | set_sensor_event_enables => Z * Z
  | get_sensor_event_masks => Z * bool * bool
  | set_sensor_event_masks => Z * Z * Z * Z
  | get_control_state => Z * bool * option (option SaHpiCtrlStateT)
  | set_control_state => Z * Z * option SaHpiCtrlStateT
  | get_idr_info => Z
  | get_idr_area_header => Z * Z * Z
  | add_idr_area => Z * Z
  | add_idr_area_id => Z * Z * Z
  | del_idr_area => Z * Z
  | get_idr_field => Z * Z * Z * Z
  | add_idr_field | add_idr_field_id | set_idr_field => Z * SaHpiIdrFieldT
  | del_idr_field => Z * Z * Z
  | get_watchdog_info | reset_watchdog => Z
  | set_watchdog_info => Z * SaHpiWatchdogT
  | get_next_announce => Z * Z * Z * SaHpiAnnouncementT
  | get_announce => Z * Z
  | ack_announce => Z * Z * Z
  | add_announce => Z * SaHpiAnnouncementT
  | del_announce => Z * Z * Z
  | get_annunc_mode => Z
  | set_annunc_mode => Z * Z
  | get_dimi_info => Z
  | get_dimi_test | get_dimi_test_ready | cancel_dimi_test | get_dimi_test_results => Z * Z
  | start_dimi_test => Z * Z * Z * option (list opaque)
  | get_dimi_test_status => Z * Z * bool
  | get_fumi_spec | get_fumi_service_impact => Z
  | set_fumi_source => Z * Z * SaHpiTextBufferT
  | validate_fumi_source | get_fumi_source | get_fumi_target => Z * Z
  | get_fumi_source_component | get_fumi_target_component => Z * Z * Z
  | get_fumi_logical_target => Z
  | get_fumi_logical_target_component => Z * Z
  | start_fumi_backup => Z
  | set_fumi_bank_order | start_fumi_bank_copy => Z * Z * Z
  | start_fumi_install | get_fumi_status | start_fumi_verify | cancel_fumi_upgrade => Z * Z
  | start_fumi_verify_main => Z
  | get_fumi_autorollback_disable | start_fumi_rollback | activate_fumi => Z
  | set_fumi_autorollback_disable | start_fumi_activate | cleanup_fumi => Z * Z
  | hotswap_policy_cancel => Z
  | set_hotswap_state | set_autoinsert_timeout | set_autoextract_timeout
  | request_hotswap_action | set_indicator_state | control_parm | set_reset_state
  | set_power_state => Z
  | load_id_set => opaque
  | _ => unit
  end.

(** What the function stores. *)
Definition reply_of (f : abi_fn) : Type :=
  match f with
  | get_el_info => SaHpiEventLogInfoT
  | get_el_caps => Z
  | get_el_entry => Z * Z * SaHpiEventLogEntryT * option SaHpiRdrT * option SaHpiRptEntryT
  | get_sensor_reading => option SaHpiSensorReadingT * option Z
  | get_sensor_thresholds => SaHpiSensorThresholdsT
  | get_sensor_enable | get_sensor_event_enables => Z
  | get_sensor_event_masks => option Z * option Z
  | get_control_state => option Z * option SaHpiCtrlStateT
  | get_idr_info => SaHpiIdrInfoT
  | get_idr_area_header => Z * SaHpiIdrAreaHeaderT
  | add_idr_area => Z
  | get_idr_field => Z * SaHpiIdrFieldT
  | add_idr_field | add_idr_field_id => SaHpiIdrFieldT
  | get_watchdog_info => SaHpiWatchdogT
  | get_next_announce | get_announce | add_announce => SaHpiAnnouncementT
  | get_annunc_mode => Z
  | get_dimi_info | get_dimi_test | get_dimi_test_results => opaque
  | get_dimi_test_ready => Z
  | get_dimi_test_status => option Z * Z
  | get_fumi_spec | get_fumi_service_impact => opaque
  | get_fumi_source => SaHpiFumiSourceInfoT
  | get_fumi_source_component | get_fumi_target_component
  | get_fumi_logical_target_component => Z * opaque
  | get_fumi_target | get_fumi_logical_target => opaque
  | get_fumi_status | get_fumi_autorollback_disable => Z
  | get_hotswap_state | get_autoextract_timeout | get_indicator_state => Z
  | load_id_get => opaque
  | get_reset_state | get_power_state => Z
  | _ => unit
  end.

(** A call: the handler's id, the function, the resource ([None] for the one
    function that has no such argument) and the other arguments. *)
Record abi_call := {
  call_hid : Z; call_fn : abi_fn; call_resource : option Z; call_args : args_of call_fn }.

Class Plugins :=
  respond : list abi_call -> Z -> forall f : abi_fn, option Z -> args_of f -> Z * option (reply_of f).

(** ** The daemon *)

(** A handler: does the plug-in have an instance for it, and which functions
    does its ABI table have? *)
Record oh_handler := { hnd : bool; abi : abi_fn -> bool }.

(** [cells] are the handler ids that the resources' private data points to (as
    in [Event]); [dat_files] and [del_files] are the save files of the alarm
    tables and the event logs, by domain. *)
Record daemon := {
  doms : domain_table; sessions : session_state;
  dat_files : gmap Z (list SaHpiAlarmT); del_files : gmap Z (list oh_el_entry);
  cells : list Z; handlers : gmap Z oh_handler; calls : list abi_call;
  held_domains : list Z; held_handlers : list Z }.
#[export] Instance eta_daemon : Eta daemon := fun x =>
  Build_daemon (doms x) (sessions x) (dat_files x) (del_files x) (cells x) (handlers x)
    (calls x) (held_domains x) (held_handlers x).

(** ** The monad *)

Inductive outcome (O A : Type) :=
  | Next (a : A)
  | Return (rv : Z) (out : option O)
  | Undefined
  | Waits.
Arguments Next {O A} a.
Arguments Return {O A} rv out.
Arguments Undefined {O A}.
Arguments Waits {O A}.

Definition M (O A : Type) : Type := daemon -> outcome O A * daemon.
(** A function: it ends by a [return]. *)
Notation api O := (M O Empty_set).

#[export] Instance M_ret O : MRet (M O) := fun A a w => (Next a, w).
#[export] Instance M_bind O : MBind (M O) := fun A B k m w =>
  match m w with
  | (Next a, w) => k a w
  | (Return rv out, w) => (Return rv out, w)
  | (Undefined, w) => (Undefined, w)
  | (Waits, w) => (Waits, w)
  end.

Definition return_ {O A} (rv : Z) (out : option O) : M O A := fun w => (Return rv out, w).
Definition fail {O A} (rv : Z) : M O A := return_ rv None.
Definition undefined {O A} : M O A := fun w => (Undefined, w).
Definition get {O A} (f : daemon -> A) : M O A := fun w => (Next (f w), w).
Definition modify {O} (f : daemon -> daemon) : M O unit := fun w => (Next tt, f w).
Definition when {O} (b : bool) (m : M O unit) : M O unit := if b then m else mret tt.
(** [if (b) return rv;] *)
Definition reject {O} (b : bool) (rv : Z) : M O unit := when b (fail rv).
(** The value that was stored. *)
Definition read {O A} (o : option A) : M O A := match o with Some a => mret a | None => undefined end.
(** A loop that used up its fuel would not have ended. *)
Definition ends {O A} (o : option A) : M O A :=
  match o with Some a => mret a | None => fun w => (Waits, w) end.

(** A call of another function of the interface. *)
Definition call {O O'} (m : api O') : M O (Z * option O') := fun w =>
  match m w with
  | (Next a, w) => match a with end
  | (Return rv out, w) => (Next (rv, out), w)
  | (Undefined, w) => (Undefined, w)
  | (Waits, w) => (Waits, w)
  end.

(** The elements but the first occurrence. *)
Fixpoint remove_first (x : Z) (l : list Z) : list Z :=
  match l with [] => [] | y :: l => if y =? x then l else y :: remove_first x l end.

(** ** Domains *)

(** The object of a held domain. *)
Definition domain {O} (d : Z) : M O oh_domain := fun w =>
  if bool_decide (d ∈ held_domains w) then
    match dt_table (doms w) !! d with Some x => (Next x, w) | None => (Undefined, w) end
  else (Undefined, w).
Definition set_d {O} (d : Z) (f : oh_domain -> oh_domain) : M O unit :=
  _ ← domain d;
  modify (fun w => w <| doms ::= fun t => t <| dt_table ::= alter f d |> |>).

Definition oh_release_domain {O} (d : Z) : M O unit := fun w =>
  if bool_decide (d ∈ held_domains w)
  then (Next tt, w <| held_domains ::= remove_first d |>)
  else (Undefined, w).

(** ** Handlers *)

(** The result of [oh_get_handler] is the id of the handler found. *)
Definition oh_get_handler {O} (hid : Z) : M O (option Z) := fun w =>
  match handlers w !! hid with
  | None => (Next None, w)
  | Some _ => (Next (Some hid), w <| held_handlers ::= cons hid |>)
  end.
Definition oh_release_handler {O} (h : option Z) : M O unit := fun w =>
  match h with
  | None => (Next tt, w)
  | Some hid =>
      if bool_decide (hid ∈ held_handlers w)
      then (Next tt, w <| held_handlers ::= remove_first hid |>)
      else (Undefined, w)
  end.
Definition handler_has {O} (hid : Z) (p : oh_handler -> bool) : M O bool := fun w =>
  if bool_decide (hid ∈ held_handlers w) then
    match handlers w !! hid with Some h => (Next (p h), w) | None => (Undefined, w) end
  else (Undefined, w).

(** The cell that a resource's private data points to. *)
Definition cell {O} (p : Z) : M O Z := fun w =>
  if p <=? 0 then (Undefined, w)
  else match cells w !! Z.to_nat (p - 1) with Some h => (Next h, w) | None => (Undefined, w) end.

(** ** The macros *)

Definition OH_CHECK_INIT_STATE {O} (sid : Z) : M O unit :=
  s ← get sessions;
  let init_error := fst (oh_get_session_subscription sid true s) in
  reject (negb (init_error =? SA_OK)) init_error.

Definition OH_GET_DID {O} (sid : Z) : M O Z :=
  s ← get sessions;
  let did := oh_get_session_domain sid s in
  reject (did =? SAHPI_UNSPECIFIED_DOMAIN_ID) SA_ERR_HPI_INVALID_SESSION;;
  mret did.

(** The domain found is named by its key in the table. *)
Definition OH_GET_DOMAIN {O} (did : Z) : M O Z := fun w =>
  match oh_get_domain did (doms w) with
  | None => (Return SA_ERR_HPI_INVALID_DOMAIN None, w)
  | Some _ => (Next (default_did did), w <| held_domains ::= cons (default_did did) |>)
  end.

Definition OH_HANDLER_GET {O} (d rid : Z) : M O (option Z) :=
  x ← domain d;
  let hid := oh_get_resource_data (Some (rpt x)) rid in
  when (hid =? 0) (oh_release_domain d;; fail SA_ERR_HPI_INVALID_RESOURCE);;
  hid ← cell hid;
  h ← oh_get_handler hid;
  match h with
  | None => mret None
  | Some hid =>
      b ← handler_has hid hnd;
      if (b : bool) then mret (Some hid) else oh_release_handler (Some hid);; mret None
  end.

Definition OH_RESOURCE_GET {O} (d rid : Z) : M O SaHpiRptEntryT :=
  x ← domain d;
  match oh_get_resource_by_id (Some (rpt x)) rid with
  | None => oh_release_domain d;; fail SA_ERR_HPI_INVALID_RESOURCE
  | Some r => mret r
  end.

Definition OH_RESOURCE_GET_CHECK {O} (d rid : Z) : M O SaHpiRptEntryT :=
  x ← domain d;
  match oh_get_resource_by_id (Some (rpt x)) rid with
  | None => oh_release_domain d;; fail SA_ERR_HPI_INVALID_RESOURCE
  | Some r =>
      if negb (ResourceFailed r =? SAHPI_FALSE)
      then oh_release_domain d;; fail SA_ERR_HPI_NO_RESPONSE
      else mret r
  end.

(** [if (...) { oh_release_domain(d); return rv; }] *)
Definition bail {O} (d : Z) (b : bool) (rv : Z) : M O unit :=
  when b (oh_release_domain d;; fail rv).

(** The guard on a capability of the resource. *)
Definition has_cap (caps c : Z) : bool := truthy (Z.land caps c).
Definition need {O} (d : Z) (res : SaHpiRptEntryT) (c rv : Z) : M O unit :=
  bail d (negb (has_cap (ResourceCapabilities res) c)) rv.

Section Calls.
Context `{Plugins}.

(** [handler->abi->func(handler->hnd, params)] *)
Definition plugin_call {O} (hid : Z) (f : abi_fn) (resource : option Z) (args : args_of f)
    : M O (Z * option (reply_of f)) := fun w =>
  (Next (respond (calls w) hid f resource args),
   w <| calls ::= fun l => l ++ [Build_abi_call hid f resource args] |>).

Definition call_abi {O} (h : option Z) (f : abi_fn) (err : Z) (resource : option Z) (args : args_of f)
    : M O (Z * option (reply_of f)) :=
  match h with
  | None => fail err
  | Some hid =>
      b ← handler_has hid (fun h => abi h f);
      if (b : bool) then plugin_call hid f resource args
      else oh_release_handler h;; fail err
  end.

Definition OH_CALL_ABI {O} (h : option Z) (f : abi_fn) (err rid : Z) (args : args_of f)
    : M O (Z * option (reply_of f)) :=
  call_abi h f err (Some rid) args.

(** The end of most functions: the plug-in's function is called and its result
    passed on. *)
Definition forward (d rid : Z) (f : abi_fn) (err : Z) (args : args_of f) : api (reply_of f) :=
  h ← OH_HANDLER_GET d rid;
  oh_release_domain d;;
  '(rv, out) ← OH_CALL_ABI h f err rid args;
  oh_release_handler h;;
  return_ rv out.
End Calls.

(** ** What a call meets outside of the daemon's state *)

(** The global parameters, the clock, which files can be written, whether
    [oh_init] succeeds, and what other threads do to the sessions during each of
    the timed waits of [saHpiEventGet], at most [e_pops] of them.  [e_started]: the
    discovery thread was started; [e_round] is what the other threads do while
    [saHpiDiscover] waits for a round of it, until the wait ends, and [None] if it
    does not end ([Threads] has the threads themselves). *)
Record env := {
  e_params : global_params; e_now : Z; e_io : io_faults; e_init : bool;
  e_others : nat -> session_state -> session_state; e_pops : nat;
  e_started : bool; e_round : option (daemon -> daemon) }.

(** An operation of [alarm.c] on a held domain. *)
Definition with_dat {O A} (d : Z) (f : dat_state -> A * dat_state) : M O A :=
  x ← domain d;
  files ← get dat_files;
  let '(a, s) := f {| dom := x; dat_file := files !! d |} in
  set_d d (fun _ => dom s);;
  modify (fun w => w <| dat_files ::= partial_alter (fun _ => dat_file s) d |>);;
  mret a.

(** A function of [alarm.c] that gets and releases the domain itself; its code
    is not used. *)
Definition detect {O} (did : Z) (f : option dat_state -> Z * option dat_state) : M O unit := fun w =>
  match oh_get_domain did (doms w) with
  | None => (Next tt, w)
  | Some x =>
      match snd (f (Some {| dom := x; dat_file := dat_files w !! default_did did |})) with
      | None => (Next tt, w)
      | Some s =>
          (Next tt, w <| doms ::= fun t => t <| dt_table ::= <[default_did did := dom s]> |> |>
                      <| dat_files ::= partial_alter (fun _ => dat_file s) (default_did did) |>)
      end
  end.

(** An assignment through the pointer that [oh_get_resource_by_id] returned. *)
Definition store_resource (rid : Z) (f : SaHpiRptEntryT -> SaHpiRptEntryT) (t : RPTable) : RPTable :=
  match get_rptentry_by_rid (Some t) rid with
  | Some (n, _) => set_entry n (fun e => e <| rpt_entry ::= f |>) t
  | None => t
  end.

Definition oh_evt_queue_push {O} (e : oh_event) : M O unit :=
  modify (fun w => w <| doms ::= fun t => t <| process_q ::= fun q => q ++ [e] |> |>).
