(* ===== verification/ApiDomain.v ===== *)
(** The HPI functions of [openhpid/safhpi.c] on sessions, domains and
    resources. *)
From S2P Require Import Prelude SaHpi EntityPath EPathPattern Rpt EventLog Conf DomainState EventUtils.
From S2P Require Import Alarm Session TextBuffer Validate Domain Event HotSwap Api.

Definition SAHPI_INTERFACE_VERSION : Z := 0x020302.
Definition SAHPI_HS_CAUSE_USER_UPDATE : Z := 4.

Record SaHpiDomainInfoT := {
  di_DomainId : Z; DomainCapabilities : Z; di_IsPeer : Z; DomainTag : SaHpiTextBufferT;
  DrtUpdateCount : Z; DrtUpdateTimestamp : Z; RptUpdateCount : Z; RptUpdateTimestamp : Z;
  DatUpdateCount : Z; DatUpdateTimestamp : Z; ActiveAlarms : Z; CriticalAlarms : Z;
  MajorAlarms : Z; MinorAlarms : Z; DatUserAlarmLimit : Z; DatOverflow : Z; di_Guid : list Z }.

Section Functions.
Context `{Plugins} `{UidLookup} `{EntityPathLookup} (E : env).

(** ** Sessions *)

Definition saHpiVersionGet : Z := SAHPI_INTERFACE_VERSION.

Definition saHpiSessionOpen (DomainId : Z) (SessionId : bool) (SecurityParams : bool) : api Z :=
  reject (negb SessionId) SA_ERR_HPI_INVALID_PARAMS;;
  reject SecurityParams SA_ERR_HPI_INVALID_PARAMS;;
  reject (negb (e_init E)) SA_ERR_HPI_INTERNAL_ERROR;;
  w ← get (fun w => w);
  let '(sid, s) := oh_create_session
                     (fun did => bool_decide (is_Some (oh_get_domain did (doms w)))) DomainId (sessions w) in
  modify (fun w => w <| sessions := s |>);;
  reject (sid =? 0) SA_ERR_HPI_INVALID_DOMAIN;;
  return_ SA_OK (Some sid).

Definition saHpiSessionClose (SessionId : Z) : api unit :=
  OH_CHECK_INIT_STATE SessionId;;
  s ← get sessions;
  let '(rv, s) := oh_destroy_session SessionId s in
  modify (fun w => w <| sessions := s |>);;
  return_ rv (Some tt).

(** [openhpid/threaded.c]: the discovery thread is woken up, and the caller waits
    for its signal while the other threads run. *)
Definition oh_wake_discovery_thread {O} : M O unit := fun w =>
  if negb (e_started E) then (Next tt, w)
  else match e_round E with
       | Some others => (Next tt, others w)
       | None => (Waits, w)
       end.

Definition saHpiDiscover (SessionId : Z) : api unit :=
  OH_CHECK_INIT_STATE SessionId;;
  oh_wake_discovery_thread;;
  return_ SA_OK (Some tt).

(** ** Domains *)

Definition saHpiDomainInfoGet (SessionId : Z) (DomainInfo : bool) : api SaHpiDomainInfoT :=
  reject (negb DomainInfo) SA_ERR_HPI_INVALID_PARAMS;;
  OH_CHECK_INIT_STATE SessionId;;
  did ← OH_GET_DID SessionId;
  d ← OH_GET_DOMAIN did;
  x ← domain d;
  let info :=
    {| di_DomainId := domain_id x; DomainCapabilities := capabilities x; di_IsPeer := 0;
       DrtUpdateCount := drt_update_count (drt x);
       DrtUpdateTimestamp := drt_update_timestamp (drt x);
       RptUpdateCount := table_update_count (rpt x);
       RptUpdateTimestamp := update_timestamp (rpt x);
       DatUpdateCount := dat_update_count (dat x);
       DatUpdateTimestamp := dat_update_timestamp (dat x);
       ActiveAlarms := oh_count_alarms (Some x) SAHPI_ALL_SEVERITIES;
       CriticalAlarms := oh_count_alarms (Some x) SAHPI_CRITICAL;
       MajorAlarms := oh_count_alarms (Some x) SAHPI_MAJOR;
       MinorAlarms := oh_count_alarms (Some x) SAHPI_MINOR;
       DatUserAlarmLimit := default OH_MAX_DAT_USER_LIMIT (get_num OPENHPI_DAT_USER_LIMIT (e_params E));
       DatOverflow := overflow (dat x); di_Guid := guid x; DomainTag := tag x |} in
  oh_release_domain d;;
  return_ SA_OK (Some info).

Definition saHpiDrtEntryGet (SessionId EntryId : Z) (NextEntryId DrtEntry : bool)
    : api (Z * SaHpiDrtEntryT) :=
  OH_CHECK_INIT_STATE SessionId;;
  did ← OH_GET_DID SessionId;
  reject (negb DrtEntry || negb NextEntryId || (EntryId =? SAHPI_LAST_ENTRY)) SA_ERR_HPI_INVALID_PARAMS;;
  t ← get doms;
  let '(rv, out) := oh_drt_entry_get did EntryId NextEntryId DrtEntry t in
  return_ rv out.

Definition saHpiDomainTagSet (SessionId : Z) (DomainTag : option SaHpiTextBufferT) : api unit :=
  reject (negb (truthy (oh_valid_textbuffer DomainTag))) SA_ERR_HPI_INVALID_PARAMS;;
  OH_CHECK_INIT_STATE SessionId;;
  did ← OH_GET_DID SessionId;
  d ← OH_GET_DOMAIN did;
  set_d d (fun x => x <| tag := default zero_textbuffer DomainTag |>);;
  oh_release_domain d;;
  return_ SA_OK (Some tt).

(** ** Resources *)

Definition saHpiRptEntryGet (SessionId EntryId_ : Z) (NextEntryId RptEntry : bool)
    : api (Z * SaHpiRptEntryT) :=
  OH_CHECK_INIT_STATE SessionId;;
  did ← OH_GET_DID SessionId;
  reject (negb NextEntryId || negb RptEntry) SA_ERR_HPI_INVALID_PARAMS;;
  reject (EntryId_ =? SAHPI_LAST_ENTRY) SA_ERR_HPI_INVALID_PARAMS;;
  d ← OH_GET_DOMAIN did;
  x ← domain d;
  let req_entry :=
    if EntryId_ =? SAHPI_FIRST_ENTRY then oh_get_resource_next (Some (rpt x)) SAHPI_FIRST_ENTRY
    else oh_get_resource_by_id (Some (rpt x)) EntryId_ in
  match req_entry with
  | None => oh_release_domain d;; fail SA_ERR_HPI_NOT_PRESENT
  | Some req_entry =>
      let next_entry := oh_get_resource_next (Some (rpt x)) (EntryId req_entry) in
      let next := match next_entry with Some n => EntryId n | None => SAHPI_LAST_ENTRY end in
      oh_release_domain d;;
      return_ SA_OK (Some (next, req_entry))
  end.

Definition saHpiRptEntryGetByResourceId (SessionId ResourceId : Z) (RptEntry : bool)
    : api SaHpiRptEntryT :=
  OH_CHECK_INIT_STATE SessionId;;
  did ← OH_GET_DID SessionId;
  reject ((ResourceId =? SAHPI_UNSPECIFIED_RESOURCE_ID) || negb RptEntry) SA_ERR_HPI_INVALID_PARAMS;;
  d ← OH_GET_DOMAIN did;
  x ← domain d;
  match oh_get_resource_by_id (Some (rpt x)) ResourceId with
  | None => oh_release_domain d;; fail SA_ERR_HPI_INVALID_RESOURCE
  | Some req_entry => oh_release_domain d;; return_ SA_OK (Some req_entry)
  end.

Definition saHpiResourceSeveritySet (SessionId ResourceId Severity : Z) : api unit :=
  OH_CHECK_INIT_STATE SessionId;;
  reject (ResourceId =? SAHPI_UNSPECIFIED_RESOURCE_ID) SA_ERR_HPI_INVALID_PARAMS;;
  reject (negb (oh_lookup_severity Severity) || (Severity =? SAHPI_ALL_SEVERITIES))
    SA_ERR_HPI_INVALID_PARAMS;;
  did ← OH_GET_DID SessionId;
  d ← OH_GET_DOMAIN did;
  h ← OH_HANDLER_GET d ResourceId;
  oh_release_domain d;;
  '(error, _) ← OH_CALL_ABI h set_resource_severity SA_ERR_HPI_INVALID_CMD ResourceId Severity;
  when (negb (error =? SA_OK)) (oh_release_handler h;; fail error);;
  oh_release_handler h;;
  when (error =? SA_OK)
    (detect did (fun s => oh_detect_res_sev_alarm (e_params E) (e_now E) s ResourceId Severity));;
  d ← OH_GET_DOMAIN did;
  x ← domain d;
  match oh_get_resource_by_id (Some (rpt x)) ResourceId with
  | None => oh_release_domain d;; fail SA_ERR_HPI_NOT_PRESENT
  | Some _ =>
      set_d d (fun x => x <| rpt ::= store_resource ResourceId
                               (fun r => r <| ResourceSeverity := Severity |>) |>);;
      oh_release_domain d;;
      return_ error (Some tt)
  end.

Definition saHpiResourceTagSet (SessionId ResourceId_ : Z) (ResourceTag_ : option SaHpiTextBufferT)
    : api unit :=
  OH_CHECK_INIT_STATE SessionId;;
  reject (negb (truthy (oh_valid_textbuffer ResourceTag_))) SA_ERR_HPI_INVALID_PARAMS;;
  let tag_ := default zero_textbuffer ResourceTag_ in
  did ← OH_GET_DID SessionId;
  d ← OH_GET_DOMAIN did;
  h ← OH_HANDLER_GET d ResourceId_;
  oh_release_domain d;;
  '(rv, _) ← OH_CALL_ABI h set_resource_tag SA_ERR_HPI_INVALID_CMD ResourceId_ tag_;
  when (negb (rv =? SA_OK)) (oh_release_handler h;; fail rv);;
  oh_release_handler h;;
  d ← OH_GET_DOMAIN did;
  x ← domain d;
  match oh_get_resource_by_id (Some (rpt x)) ResourceId_ with
  | None => oh_release_domain d;; fail SA_ERR_HPI_NOT_PRESENT
  | Some _ =>
      set_d d (fun x => x <| rpt ::= store_resource ResourceId_
                               (fun r => r <| ResourceTag := tag_ |>) |>);;
      oh_release_domain d;;
      return_ SA_OK (Some tt)
  end.

Definition saHpiMyEntityPathGet (SessionId : Z) : api unit := fail SA_ERR_HPI_UNSUPPORTED_API.
Definition saHpiResourceIdGet (SessionId : Z) : api unit := fail SA_ERR_HPI_UNSUPPORTED_API.

(** What the four pointers receive; [InstrumentId] when an instrument was found. *)
Record by_path := {
  bp_InstanceId : Z; bp_ResourceId : Z; bp_InstrumentId : option Z; bp_RptUpdateCount : Z }.

Definition saHpiGetIdByEntityPath (SessionId : Z) (EntityPath : SaHpiEntityPathT) (InstrumentType : Z)
    (InstanceId : option Z) (ResourceId_ InstrumentId RptUpdateCount_ : bool) : api by_path :=
  reject (bool_decide (InstanceId = None) || negb ResourceId_
          || bool_decide (InstanceId = Some SAHPI_LAST_ENTRY)
          || (negb InstrumentId && negb (InstrumentType =? SAHPI_NO_RECORD)) || negb RptUpdateCount_)
    SA_ERR_HPI_INVALID_PARAMS;;
  instance ← read InstanceId;
  OH_CHECK_INIT_STATE SessionId;;
  did ← OH_GET_DID SessionId;
  d ← OH_GET_DOMAIN did;
  x ← domain d;
  match oh_get_resource_by_ep (Some (rpt x)) (Some EntityPath) with
  | None => oh_release_domain d;; fail SA_ERR_HPI_NOT_PRESENT
  | Some rptentry =>
      let rid := ResourceId rptentry in
      let out i num := {| bp_InstanceId := i; bp_ResourceId := rid; bp_InstrumentId := num;
                          bp_RptUpdateCount := table_update_count (rpt x) |} in
      if InstrumentType =? SAHPI_NO_RECORD
      then oh_release_domain d;; return_ SA_OK (Some (out SAHPI_LAST_ENTRY None))
      else
        let rdr :=
          if instance =? SAHPI_FIRST_ENTRY
          then oh_get_rdr_by_type_first (Some (rpt x)) rid InstrumentType
          else oh_get_rdr_by_type (Some (rpt x)) rid InstrumentType (oh_get_rdr_num instance) in
        match rdr with
        | None => oh_release_domain d;; return_ SA_ERR_HPI_NOT_PRESENT (Some (out instance None))
        | Some rdr =>
            let num := oh_get_rdr_num (RecordId rdr) in
            let next := oh_get_rdr_by_type_next (Some (rpt x)) rid InstrumentType num in
            let i := match next with
                     | None => SAHPI_LAST_ENTRY
                     | Some rdr => oh_get_rdr_uid (RdrType rdr) (oh_get_rdr_num (RecordId rdr))
                     end in
            oh_release_domain d;;
            return_ SA_OK (Some (out i (Some num)))
        end
  end.

(** The pattern [{.,.}] before the parent's path. *)
Definition child_pattern (parent : SaHpiEntityPathT) : oh_entitypath_pattern :=
  let dot := {| is_splat := 0; etp := {| etp_is_dot := 1; type := 0 |};
                elp := {| elp_is_dot := 1; location := 0 |} |} in
  let tuple e := {| is_splat := 0; etp := {| etp_is_dot := 0; type := EntityType e |};
                    elp := {| elp_is_dot := 0; location := EntityLocation e |} |} in
  {| epattern := dot :: map (fun i => tuple (Entry parent !!! i)) (seq 0 SAHPI_MAX_ENTITY_PATH) |}.

Definition is_child (epp : oh_entitypath_pattern) (r : SaHpiRptEntryT) : bool :=
  truthy (default SAHPI_FALSE (oh_match_entitypath_pattern (Some epp) (Some (ResourceEntity r)))).

(** The two loops over the resources from [rpte] on; the first one stops after
    the first resource unless [all].  [None]: the fuel is used up. *)
Fixpoint find_child (fuel : nat) (t : RPTable) (epp : oh_entitypath_pattern) (all : bool)
    (rpte : option SaHpiRptEntryT) : option (option SaHpiRptEntryT) :=
  match rpte with
  | None => Some None
  | Some r =>
      if is_child epp r then Some (Some r)
      else if negb all then Some None
      else match fuel with
           | O => None
           | S fuel => find_child fuel t epp all (oh_get_resource_next (Some t) (ResourceId r))
           end
  end.

(** Enough fuel: [find_child_ends]. *)
Definition resource_fuel (t : RPTable) : nat := length (rptlist t).

Definition saHpiGetChildEntityPath (SessionId : Z) (ParentEntityPath : SaHpiEntityPathT)
    (InstanceId : option Z) (ChildEntityPath RptUpdateCount_ : bool)
    : api (Z * SaHpiEntityPathT * Z) :=
  reject (bool_decide (InstanceId = None) || bool_decide (InstanceId = Some SAHPI_LAST_ENTRY)
          || negb RptUpdateCount_) SA_ERR_HPI_INVALID_PARAMS;;
  instance ← read InstanceId;
  OH_CHECK_INIT_STATE SessionId;;
  did ← OH_GET_DID SessionId;
  d ← OH_GET_DOMAIN did;
  x ← domain d;
  let first := Entry ParentEntityPath !!! 0%nat in
  when (negb (EntityType first =? SAHPI_ENT_ROOT) || negb (EntityLocation first =? 0))
    (bail d (bool_decide (oh_get_resource_by_ep (Some (rpt x)) (Some ParentEntityPath) = None))
       SA_ERR_HPI_INVALID_DATA);;
  let epp := child_pattern ParentEntityPath in
  let find := find_child (resource_fuel (rpt x)) (rpt x) epp in
  rpte ← ends (find (instance =? SAHPI_FIRST_ENTRY) (oh_get_resource_by_id (Some (rpt x)) instance));
  match rpte with
  | None => oh_release_domain d;; fail SA_ERR_HPI_NOT_PRESENT
  | Some rpte =>
      nrpte ← ends (find true (oh_get_resource_next (Some (rpt x)) (ResourceId rpte)));
      let next := match nrpte with Some n => ResourceId n | None => SAHPI_LAST_ENTRY end in
      when (negb ChildEntityPath) undefined;;
      oh_release_domain d;;
      return_ SA_OK (Some (next, ResourceEntity rpte, table_update_count (rpt x)))
  end.

(** [h->id] of no handler is undefined.  The resource's entry, which is read once
    more after the domain is released, is the one found before: only another
    thread could have changed it. *)
Definition saHpiResourceFailedRemove (SessionId ResourceId : Z) : api unit :=
  OH_CHECK_INIT_STATE SessionId;;
  did ← OH_GET_DID SessionId;
  d ← OH_GET_DOMAIN did;
  x ← domain d;
  match oh_get_resource_by_id (Some (rpt x)) ResourceId with
  | None => oh_release_domain d;; fail SA_ERR_HPI_NOT_PRESENT
  | Some rpte =>
      bail d (negb (truthy (ResourceFailed rpte))) SA_ERR_HPI_INVALID_REQUEST;;
      need d rpte SAHPI_CAPABILITY_FRU SA_ERR_HPI_INVALID_CMD;;
      let saved_res := rpte in
      h ← OH_HANDLER_GET d ResourceId;
      oh_release_domain d;;
      has ← match h with
            | Some hid => handler_has hid (fun h => abi h resource_failed_remove)
            | None => mret false
            end;
      when has
        ('(error, _) ← OH_CALL_ABI h resource_failed_remove SA_ERR_HPI_INTERNAL_ERROR ResourceId tt;
         oh_release_handler h;;
         return_ error (Some tt));;
      hid ← read h;
      hsstate ←
        (if has_cap (ResourceCapabilities rpte) SAHPI_CAPABILITY_MANAGED_HOTSWAP then
           '(error, hsstate) ← OH_CALL_ABI h get_hotswap_state SA_ERR_HPI_INTERNAL_ERROR ResourceId tt;
           when (negb (error =? SA_OK)) (oh_release_handler h;; fail error);;
           read hsstate
         else mret SAHPI_HS_STATE_ACTIVE);
      oh_release_handler h;;
      oh_evt_queue_push
        {| hid := hid; resource := saved_res; rdrs := []; rdrs_to_remove := [];
           event := {| Source := ResourceId; event_Timestamp := e_now E;
                       event_Severity := ResourceSeverity saved_res;
                       EventDataUnion := HotSwapEvent
                         {| PreviousHotSwapState := hsstate;
                            HotSwapState := SAHPI_HS_STATE_NOT_PRESENT;
                            CauseOfStateChange := SAHPI_HS_CAUSE_USER_UPDATE |} |} |};;
      return_ SA_OK (Some tt)
  end.
End Functions.
