(* ===== verification/ApiEvents.v ===== *)
(** The HPI functions of [openhpid/safhpi.c] on event logs, events and alarms. *)
From stdpp Require Import pretty.
From S2P Require Import Prelude SaHpi Rpt EventLog Conf DomainState EventUtils.
From S2P Require Import Alarm Session TextBuffer Validate Domain Event Api.

Definition SAHPI_EVTLOG_CAPABILITY_ENTRY_ADD : Z := 0x01.
Definition SAHPI_EVTLOG_CAPABILITY_CLEAR : Z := 0x02.
Definition SAHPI_EVTLOG_CAPABILITY_TIME_SET : Z := 0x04.
Definition SAHPI_EVTLOG_CAPABILITY_STATE_SET : Z := 0x08.
Definition SAHPI_EVTLOG_CAPABILITY_OVERFLOW_RESET : Z := 0x10.

Section Functions.
Context `{Plugins} (E : env).

(** ** Event logs *)

(** The part that the functions on a resource's log share: the resource is not
    failed and has a log. *)
Definition log_resource {O} (d rid : Z) : M O unit :=
  res ← OH_RESOURCE_GET_CHECK d rid;
  need d res SAHPI_CAPABILITY_EVENT_LOG SA_ERR_HPI_CAPABILITY.

Definition saHpiEventLogInfoGet (SessionId ResourceId : Z) (Info : bool) : api SaHpiEventLogInfoT :=
  reject (negb Info) SA_ERR_HPI_INVALID_PARAMS;;
  OH_CHECK_INIT_STATE SessionId;;
  did ← OH_GET_DID SessionId;
  d ← OH_GET_DOMAIN did;
  x ← domain d;
  if ResourceId =? SAHPI_UNSPECIFIED_RESOURCE_ID then
    let '(rv, i) := oh_el_info (e_now E) (Some (del x)) (Some (info (del x))) in
    oh_release_domain d;;
    return_ rv i
  else
    log_resource d ResourceId;;
    forward d ResourceId get_el_info SA_ERR_HPI_INVALID_CMD tt.

Definition saHpiEventLogCapabilitiesGet (SessionId ResourceId : Z) (EventLogCapabilities : bool) : api Z :=
  reject (negb EventLogCapabilities) SA_ERR_HPI_INVALID_PARAMS;;
  OH_CHECK_INIT_STATE SessionId;;
  did ← OH_GET_DID SessionId;
  if ResourceId =? SAHPI_UNSPECIFIED_RESOURCE_ID then
    return_ SA_OK (Some (Z.lor (Z.lor (Z.lor (Z.lor
      SAHPI_EVTLOG_CAPABILITY_ENTRY_ADD SAHPI_EVTLOG_CAPABILITY_CLEAR)
      SAHPI_EVTLOG_CAPABILITY_TIME_SET) SAHPI_EVTLOG_CAPABILITY_STATE_SET)
      SAHPI_EVTLOG_CAPABILITY_OVERFLOW_RESET))
  else
    d ← OH_GET_DOMAIN did;
    log_resource d ResourceId;;
    forward d ResourceId get_el_caps SA_ERR_HPI_INTERNAL_ERROR tt.

Definition saHpiEventLogEntryGet (SessionId ResourceId EntryId : Z)
    (PrevEntryId NextEntryId EventLogEntry Rdr RptEntry : bool)
    : api (Z * Z * SaHpiEventLogEntryT * option SaHpiRdrT * option SaHpiRptEntryT) :=
  reject (negb PrevEntryId || negb EventLogEntry || negb NextEntryId
          || (EntryId =? SAHPI_NO_MORE_ENTRIES)) SA_ERR_HPI_INVALID_PARAMS;;
  OH_CHECK_INIT_STATE SessionId;;
  did ← OH_GET_DID SessionId;
  d ← OH_GET_DOMAIN did;
  x ← domain d;
  if ResourceId =? SAHPI_UNSPECIFIED_RESOURCE_ID then
    let '(retc, found) := oh_el_get (Some (del x)) EntryId (Some tt) in
    oh_release_domain d;;
    return_ retc ((fun '(prev, next, e) =>
      (prev, next, EventLog.event e, if Rdr then Some (el_rdr e) else None,
       if RptEntry then Some (el_res e) else None)) <$> found)
  else
    log_resource d ResourceId;;
    forward d ResourceId get_el_entry SA_ERR_HPI_INVALID_CMD (EntryId, Rdr, RptEntry).

(** The saving of the log of a domain. *)
Definition save_log {O} (did d : Z) : M O unit :=
  x ← domain d;
  if truthy (default 0 (get_num OPENHPI_DEL_SAVE (e_params E))) then
    let del_filepath :=
      String.substring 0 (2 * SAHPI_MAX_TEXT_BUFFER_LENGTH - 1)
        (String.append (varpath (e_params E)) (String.append "/del." (pretty did))) in
    match snd (oh_el_map_to_file (el_fopen (e_io E)) (el_fwrite (e_io E)) (Some (del x))
                 (Some del_filepath)) with
    | Some f => modify (fun w => w <| del_files ::= <[d := f]> |>)
    | None => mret tt
    end
  else mret tt.

(** The checks of the event; [None] if it is not a user event. *)
Definition user_text (e : option SaHpiEventT) : option SaHpiTextBufferT :=
  match e with
  | Some e =>
      match EventDataUnion e with
      | UserEvent text =>
          if negb (Source e =? SAHPI_UNSPECIFIED_RESOURCE_ID)
             || (event_Severity e =? SAHPI_ALL_SEVERITIES)
             || negb (oh_lookup_severity (event_Severity e))
             || negb (truthy (oh_valid_textbuffer (Some text)))
          then None else Some text
      | _ => None
      end
  | None => None
  end.

(** [if ((rv == SA_OK) && ((caps & c) == 0)) return SA_ERR_HPI_INVALID_CMD;]
    where [caps] were stored if the call succeeded. *)
Definition log_lacks {O} (r : Z * option Z) (c : Z) : M O bool :=
  if fst r =? SA_OK then caps ← read (snd r); mret (Z.land caps c =? 0) else mret false.

Definition saHpiEventLogEntryAdd (SessionId ResourceId : Z) (EvtEntry : option SaHpiEventT) : api unit :=
  OH_CHECK_INIT_STATE SessionId;;
  match user_text EvtEntry with
  | None => fail SA_ERR_HPI_INVALID_PARAMS
  | Some text =>
      r ← call (saHpiEventLogInfoGet SessionId ResourceId true);
      reject (negb (fst r =? SA_OK)) (fst r);;
      info ← read (snd r);
      r ← call (saHpiEventLogCapabilitiesGet SessionId ResourceId true);
      lacks ← log_lacks r SAHPI_EVTLOG_CAPABILITY_ENTRY_ADD;
      reject lacks SA_ERR_HPI_INVALID_CMD;;
      reject (UserEventMaxSize info <? DataLength text) SA_ERR_HPI_INVALID_DATA;;
      did ← OH_GET_DID SessionId;
      d ← OH_GET_DOMAIN did;
      x ← domain d;
      if ResourceId =? SAHPI_UNSPECIFIED_RESOURCE_ID then
        let '(rv, l) := oh_el_append (e_now E) (Some (del x)) EvtEntry None None in
        set_d d (fun x => x <| del ::= fun l0 => default l0 l |>);;
        save_log did d;;
        oh_release_domain d;;
        return_ rv (Some tt)
      else
        log_resource d ResourceId;;
        entry ← read EvtEntry;
        forward d ResourceId add_el_entry SA_ERR_HPI_INVALID_CMD entry
  end.

(** An operation on the log of a held domain. *)
Definition set_log {O} (d : Z) (f : option oh_el -> Z * option oh_el) : M O Z :=
  x ← domain d;
  let '(rv, l) := f (Some (del x)) in
  set_d d (fun x => x <| del ::= fun l0 => default l0 l |>);;
  mret rv.

(** The guard on the capability of a resource's log, in the functions that have
    the domain. *)
Definition log_capability {O} (SessionId d ResourceId c : Z) : M O unit :=
  r ← call (saHpiEventLogCapabilitiesGet SessionId ResourceId true);
  lacks ← log_lacks r c;
  bail d lacks SA_ERR_HPI_INVALID_CMD.

Definition saHpiEventLogClear (SessionId ResourceId : Z) : api unit :=
  OH_CHECK_INIT_STATE SessionId;;
  did ← OH_GET_DID SessionId;
  d ← OH_GET_DOMAIN did;
  if ResourceId =? SAHPI_UNSPECIFIED_RESOURCE_ID then
    rv ← set_log d oh_el_clear;
    oh_release_domain d;;
    return_ rv (Some tt)
  else
    log_resource d ResourceId;;
    log_capability SessionId d ResourceId SAHPI_EVTLOG_CAPABILITY_CLEAR;;
    forward d ResourceId clear_el SA_ERR_HPI_INVALID_CMD tt.

Definition saHpiEventLogTimeGet (SessionId ResourceId : Z) (Time : bool) : api Z :=
  reject (negb Time) SA_ERR_HPI_INVALID_PARAMS;;
  r ← call (saHpiEventLogInfoGet SessionId ResourceId true);
  reject (negb (fst r =? SA_OK)) (fst r);;
  info ← read (snd r);
  return_ SA_OK (Some (CurrentTime info)).

Definition saHpiEventLogTimeSet (SessionId ResourceId Time : Z) : api unit :=
  OH_CHECK_INIT_STATE SessionId;;
  did ← OH_GET_DID SessionId;
  d ← OH_GET_DOMAIN did;
  if ResourceId =? SAHPI_UNSPECIFIED_RESOURCE_ID then
    rv ← set_log d (fun l => oh_el_timeset (e_now E) l Time);
    oh_release_domain d;;
    return_ rv (Some tt)
  else
    log_resource d ResourceId;;
    log_capability SessionId d ResourceId SAHPI_EVTLOG_CAPABILITY_TIME_SET;;
    bail d (Time =? SAHPI_TIME_UNSPECIFIED) SA_ERR_HPI_INVALID_PARAMS;;
    forward d ResourceId set_el_time SA_ERR_HPI_INVALID_CMD Time.

Definition saHpiEventLogStateGet (SessionId ResourceId : Z) (Enable : bool) : api Z :=
  reject (negb Enable) SA_ERR_HPI_INVALID_PARAMS;;
  r ← call (saHpiEventLogInfoGet SessionId ResourceId true);
  reject (negb (fst r =? SA_OK)) (fst r);;
  info ← read (snd r);
  return_ SA_OK (Some (Enabled info)).

Definition saHpiEventLogStateSet (SessionId ResourceId Enable : Z) : api unit :=
  OH_CHECK_INIT_STATE SessionId;;
  did ← OH_GET_DID SessionId;
  d ← OH_GET_DOMAIN did;
  if ResourceId =? SAHPI_UNSPECIFIED_RESOURCE_ID then
    _ ← set_log d (fun l => oh_el_enableset l Enable);
    oh_release_domain d;;
    return_ SA_OK (Some tt)
  else
    log_resource d ResourceId;;
    log_capability SessionId d ResourceId SAHPI_EVTLOG_CAPABILITY_STATE_SET;;
    forward d ResourceId set_el_state SA_ERR_HPI_INVALID_CMD Enable.

Definition saHpiEventLogOverflowReset (SessionId ResourceId : Z) : api unit :=
  OH_CHECK_INIT_STATE SessionId;;
  did ← OH_GET_DID SessionId;
  d ← OH_GET_DOMAIN did;
  if ResourceId =? SAHPI_UNSPECIFIED_RESOURCE_ID then
    rv ← set_log d oh_el_overflowreset;
    oh_release_domain d;;
    return_ rv (Some tt)
  else
    log_resource d ResourceId;;
    log_capability SessionId d ResourceId SAHPI_EVTLOG_CAPABILITY_OVERFLOW_RESET;;
    forward d ResourceId reset_el_overflow SA_ERR_HPI_INVALID_CMD tt.

(** ** Events *)

Definition saHpiSubscribe (SessionId : Z) : api unit :=
  OH_CHECK_INIT_STATE SessionId;;
  _ ← OH_GET_DID SessionId;
  s ← get sessions;
  let '(error, subscribed) := oh_get_session_subscription SessionId true s in
  reject (negb (error =? SA_OK)) error;;
  subscribed ← read subscribed;
  reject (truthy subscribed) SA_ERR_HPI_DUPLICATE;;
  let '(error, s) := oh_set_session_subscription SessionId SAHPI_TRUE s in
  modify (fun w => w <| sessions := s |>);;
  return_ error (Some tt).

Definition saHpiUnsubscribe (SessionId : Z) : api unit :=
  OH_CHECK_INIT_STATE SessionId;;
  _ ← OH_GET_DID SessionId;
  s ← get sessions;
  let '(error, subscribed) := oh_get_session_subscription SessionId true s in
  reject (negb (error =? SA_OK)) error;;
  subscribed ← read subscribed;
  reject (negb (truthy subscribed)) SA_ERR_HPI_INVALID_REQUEST;;
  let '(error, s) := oh_set_session_subscription SessionId SAHPI_FALSE s in
  modify (fun w => w <| sessions := s |>);;
  reject (negb (error =? SA_OK)) error;;
  return_ error (Some tt).

(** A call of [oh_dequeue_session_event] with the addresses of local variables. *)
Definition dequeue {O} (sid timeout : Z) : M O (Z * option oh_event * option Z) :=
  s ← get sessions;
  match oh_dequeue_session_event (e_pops E) (e_others E) sid timeout true s with
  | None => fun w => (Waits, w)
  | Some (err, e, status, s) => modify (fun w => w <| sessions := s |>);; mret (err, e, status)
  end.

(** [Rdr] is [SAHPI_INOUT]: only its type is stored if the event has no RDR. *)
Definition saHpiEventGet (SessionId Timeout : Z) (Event : bool) (Rdr : option SaHpiRdrT)
    (RptEntry EventQueueStatus : bool)
    : api (SaHpiEventT * option SaHpiRdrT * option SaHpiRptEntryT * option Z) :=
  OH_CHECK_INIT_STATE SessionId;;
  _ ← OH_GET_DID SessionId;
  reject (negb Event) SA_ERR_HPI_INVALID_PARAMS;;
  reject ((Timeout <=? 0) && negb (Timeout =? SAHPI_TIMEOUT_BLOCK)
          && negb (Timeout =? SAHPI_TIMEOUT_IMMEDIATE)) SA_ERR_HPI_INVALID_PARAMS;;
  s ← get sessions;
  let '(error, subscribed) := oh_get_session_subscription SessionId true s in
  reject (negb (error =? SA_OK)) error;;
  subscribed ← read subscribed;
  reject (negb (truthy subscribed)) SA_ERR_HPI_INVALID_REQUEST;;
  r ← dequeue SessionId SAHPI_TIMEOUT_IMMEDIATE;
  '(error, e, qstatus) ←
    (if fst (fst r) =? SA_ERR_HPI_TIMEOUT then dequeue SessionId Timeout else mret r);
  reject (negb (error =? SA_OK)) error;;
  e ← read e;
  let status := if EventQueueStatus then Some (default 0 qstatus) else None in
  let res := if RptEntry then Some (resource e) else None in
  let r := (fun r => default (r <| RdrType := SAHPI_NO_RECORD |>) (head (rdrs e))) <$> Rdr in
  return_ SA_OK (Some (EventUtils.event e, r, res, status)).

(** The result is the caller's event, which gets a time stamp. *)
Definition saHpiEventAdd (SessionId : Z) (EvtEntry : option SaHpiEventT) : api SaHpiEventT :=
  reject (negb (oh_valid_addevent EvtEntry =? SA_OK)) (oh_valid_addevent EvtEntry);;
  ev ← read EvtEntry;
  OH_CHECK_INIT_STATE SessionId;;
  did ← OH_GET_DID SessionId;
  r ← call (saHpiEventLogInfoGet SessionId SAHPI_UNSPECIFIED_RESOURCE_ID true);
  reject (negb (fst r =? SA_OK)) (fst r);;
  info ← read (snd r);
  match EventDataUnion ev with
  | UserEvent text =>
      reject (UserEventMaxSize info <? DataLength text) SA_ERR_HPI_INVALID_DATA;;
      let ev := if event_Timestamp ev =? SAHPI_TIME_UNSPECIFIED
                then ev <| event_Timestamp := e_now E |> else ev in
      oh_evt_queue_push
        {| hid := 0; event := ev; rdrs := []; rdrs_to_remove := [];
           resource := zero_rpt_entry <| ResourceId := did |> <| ResourceCapabilities := 0 |>
                                      <| ResourceSeverity := SAHPI_INFORMATIONAL |> |};;
      return_ SA_OK (Some ev)
  | _ => undefined
  end.

(** ** Alarms *)

Definition of_severity (sev : Z) : criteria :=
  {| by_severity := Some sev; by_type := None; by_rid := None; by_mid := None;
     by_num := None; by_state := None |}.
Definition user_of_severity (sev : Z) : criteria :=
  {| by_severity := Some sev; by_type := Some SAHPI_STATUS_COND_TYPE_USER; by_rid := None;
     by_mid := None; by_num := None; by_state := None |}.

Definition saHpiAlarmGetNext (SessionId Severity UnacknowledgedOnly : Z) (Alarm : option SaHpiAlarmT)
    : api SaHpiAlarmT :=
  OH_CHECK_INIT_STATE SessionId;;
  reject (negb (oh_lookup_severity Severity) || bool_decide (Alarm = None)) SA_ERR_HPI_INVALID_PARAMS;;
  alarm ← read Alarm;
  reject (AlarmId alarm =? SAHPI_LAST_ENTRY) SA_ERR_HPI_NOT_PRESENT;;
  did ← OH_GET_DID SessionId;
  d ← OH_GET_DOMAIN did;
  x ← domain d;
  let search := oh_get_alarm (Some x) (Some (AlarmId alarm)) (of_severity Severity)
                  (truthy UnacknowledgedOnly) in
  let error :=
    if negb (AlarmId alarm =? SAHPI_FIRST_ENTRY) then
      match search false with
      | Some a => if negb (alarm_Timestamp a =? alarm_Timestamp alarm) then SA_ERR_HPI_INVALID_DATA
                  else SA_ERR_HPI_NOT_PRESENT
      | None => SA_ERR_HPI_NOT_PRESENT
      end
    else SA_ERR_HPI_NOT_PRESENT in
  match search true with
  | Some a =>
      oh_release_domain d;;
      return_ (if negb (error =? SA_ERR_HPI_INVALID_DATA) then SA_OK else error) (Some a)
  | None => oh_release_domain d;; return_ error None
  end.

Definition saHpiAlarmGet (SessionId AlarmId : Z) (Alarm : bool) : api SaHpiAlarmT :=
  OH_CHECK_INIT_STATE SessionId;;
  reject (negb Alarm || (AlarmId =? SAHPI_FIRST_ENTRY) || (AlarmId =? SAHPI_LAST_ENTRY))
    SA_ERR_HPI_INVALID_PARAMS;;
  did ← OH_GET_DID SessionId;
  d ← OH_GET_DOMAIN did;
  x ← domain d;
  let a := oh_get_alarm (Some x) (Some AlarmId) any false false in
  oh_release_domain d;;
  return_ (if bool_decide (is_Some a) then SA_OK else SA_ERR_HPI_NOT_PRESENT) a.

(** [a->Acknowledged = SAHPI_TRUE;] *)
Definition acknowledge (i : nat) (l : list SaHpiAlarmT) : list SaHpiAlarmT :=
  alter (fun a => a <| Acknowledged := SAHPI_TRUE |>) i l.

(** The [while (a)] loop; [None] when the fuel is used up. *)
Fixpoint ack_loop (fuel : nat) (sev : Z) (a : option (nat * SaHpiAlarmT)) (l : list SaHpiAlarmT)
    : option (list SaHpiAlarmT) :=
  match a with
  | None => Some l
  | Some (i, a) =>
      match fuel with
      | O => None
      | S fuel =>
          let l := acknowledge i l in
          ack_loop fuel sev (get_alarm_node l (Some (AlarmId a)) (of_severity sev) false true) l
      end
  end.

Definition saHpiAlarmAcknowledge (SessionId AlarmId_ Severity : Z) : api unit :=
  OH_CHECK_INIT_STATE SessionId;;
  reject ((AlarmId_ =? SAHPI_ENTRY_UNSPECIFIED) && negb (oh_lookup_severity Severity))
    SA_ERR_HPI_INVALID_PARAMS;;
  did ← OH_GET_DID SessionId;
  d ← OH_GET_DOMAIN did;
  x ← domain d;
  if negb (AlarmId_ =? SAHPI_ENTRY_UNSPECIFIED) then
    match get_alarm_node (alarms x) (Some AlarmId_) any false false with
    | Some (i, _) =>
        set_d d (fun x => set_alarms x (acknowledge i (alarms x)));;
        oh_release_domain d;;
        return_ SA_OK (Some tt)
    | None => oh_release_domain d;; fail SA_ERR_HPI_NOT_PRESENT
    end
  else
    let first := get_alarm_node (alarms x) (Some SAHPI_FIRST_ENTRY) (of_severity Severity) false true in
    l ← ends (ack_loop (length (alarms x)) Severity first (alarms x));
    set_d d (fun x => set_alarms x l);;
    oh_release_domain d;;
    return_ SA_OK (Some tt).

Definition saHpiAlarmAdd (SessionId : Z) (Alarm : option SaHpiAlarmT) : api SaHpiAlarmT :=
  OH_CHECK_INIT_STATE SessionId;;
  reject (match Alarm with
          | None => true
          | Some a =>
              negb ((alarm_Severity a =? SAHPI_CRITICAL) || (alarm_Severity a =? SAHPI_MAJOR)
                    || (alarm_Severity a =? SAHPI_MINOR))
              || negb (Type_ (AlarmCond a) =? SAHPI_STATUS_COND_TYPE_USER)
              || negb (truthy (oh_valid_textbuffer (Some (cond_Data (AlarmCond a)))))
          end) SA_ERR_HPI_INVALID_PARAMS;;
  did ← OH_GET_DID SessionId;
  d ← OH_GET_DOMAIN did;
  '(a, alarm) ← with_dat d (fun s =>
      let '(a, alarm, s) := add_alarm (e_params E) (e_now E) (dat_fopen (e_io E)) (dat_fwrite (e_io E))
                              s Alarm false in ((a, alarm), s));
  oh_release_domain d;;
  if bool_decide (a = None) then fail SA_ERR_HPI_OUT_OF_SPACE else return_ SA_OK alarm.

Definition saHpiAlarmDelete (SessionId AlarmId_ Severity : Z) : api unit :=
  OH_CHECK_INIT_STATE SessionId;;
  reject ((AlarmId_ =? SAHPI_ENTRY_UNSPECIFIED) && negb (oh_lookup_severity Severity))
    SA_ERR_HPI_INVALID_PARAMS;;
  did ← OH_GET_DID SessionId;
  d ← OH_GET_DOMAIN did;
  x ← domain d;
  if negb (AlarmId_ =? SAHPI_ENTRY_UNSPECIFIED) then
    match get_alarm_node (alarms x) (Some AlarmId_) any false false with
    | Some (i, a) =>
        bail d (negb (Type_ (AlarmCond a) =? SAHPI_STATUS_COND_TYPE_USER)) SA_ERR_HPI_READ_ONLY;;
        set_d d (fun x => set_alarms x (delete i (alarms x)));;
        oh_release_domain d;;
        return_ SA_OK (Some tt)
    | None => oh_release_domain d;; fail SA_ERR_HPI_NOT_PRESENT
    end
  else
    set_d d (fun x => remove_alarm (e_params E) (e_now E) x (user_of_severity Severity) None true);;
    oh_release_domain d;;
    return_ SA_OK (Some tt).
End Functions.
