(* ===== verification/ApiInstruments.v ===== *)
(** The HPI functions of [openhpid/safhpi.c] on RDRs, sensors and controls. *)
From S2P Require Import Prelude SaHpi Rpt DomainState Alarm TextBuffer Validate Event Api.

Definition SAHPI_SEC_READ_ONLY_MASKS : Z := 1.
Definition SAHPI_SEC_READ_ONLY : Z := 2.
Definition SAHPI_ALL_EVENT_STATES : Z := 0xFFFF.
Definition SA_HPI_MAX_NAME_LENGTH : Z := 256.

Section Functions.
Context `{Plugins} (E : env).

(** ** RDRs *)

Definition saHpiRdrGet (SessionId ResourceId EntryId : Z) (NextEntryId Rdr : bool) : api (Z * SaHpiRdrT) :=
  OH_CHECK_INIT_STATE SessionId;;
  did ← OH_GET_DID SessionId;
  reject ((EntryId =? SAHPI_LAST_ENTRY) || negb Rdr || negb NextEntryId) SA_ERR_HPI_INVALID_PARAMS;;
  d ← OH_GET_DOMAIN did;
  res ← OH_RESOURCE_GET d ResourceId;
  need d res SAHPI_CAPABILITY_RDR SA_ERR_HPI_CAPABILITY;;
  x ← domain d;
  let rdr_cur :=
    if EntryId =? SAHPI_FIRST_ENTRY then oh_get_rdr_next (Some (rpt x)) ResourceId SAHPI_FIRST_ENTRY
    else oh_get_rdr_by_id (Some (rpt x)) ResourceId EntryId in
  match rdr_cur with
  | None => oh_release_domain d;; fail SA_ERR_HPI_NOT_PRESENT
  | Some rdr_cur =>
      let rdr_next := oh_get_rdr_next (Some (rpt x)) ResourceId (RecordId rdr_cur) in
      let next := match rdr_next with None => SAHPI_LAST_ENTRY | Some r => RecordId r end in
      oh_release_domain d;;
      return_ SA_OK (Some (next, rdr_cur))
  end.

(** The switch on the type: the capability that the resource must have. *)
Definition type_capability (type : Z) : option Z :=
  if type =? SAHPI_CTRL_RDR then Some SAHPI_CAPABILITY_CONTROL
  else if type =? SAHPI_SENSOR_RDR then Some SAHPI_CAPABILITY_SENSOR
  else if type =? SAHPI_INVENTORY_RDR then Some SAHPI_CAPABILITY_INVENTORY_DATA
  else if type =? SAHPI_WATCHDOG_RDR then Some SAHPI_CAPABILITY_WATCHDOG
  else if type =? SAHPI_ANNUNCIATOR_RDR then Some SAHPI_CAPABILITY_ANNUNCIATOR
  else if type =? SAHPI_DIMI_RDR then Some SAHPI_CAPABILITY_DIMI
  else if type =? SAHPI_FUMI_RDR then Some SAHPI_CAPABILITY_FUMI
  else None.

(** The RDR of an instrument of a held domain. *)
Definition instrument {O} (d rid type num : Z) : M O SaHpiRdrT :=
  x ← domain d;
  match oh_get_rdr_by_type (Some (rpt x)) rid type num with
  | None => oh_release_domain d;; fail SA_ERR_HPI_NOT_PRESENT
  | Some r => mret r
  end.

Definition saHpiRdrGetByInstrumentId (SessionId ResourceId RdrType InstrumentId : Z) (Rdr : bool)
    : api SaHpiRdrT :=
  reject (negb (oh_lookup_rdrtype RdrType) || (RdrType =? SAHPI_NO_RECORD) || negb Rdr)
    SA_ERR_HPI_INVALID_PARAMS;;
  OH_CHECK_INIT_STATE SessionId;;
  did ← OH_GET_DID SessionId;
  d ← OH_GET_DOMAIN did;
  res ← OH_RESOURCE_GET d ResourceId;
  let cap := ResourceCapabilities res in
  need d res SAHPI_CAPABILITY_RDR SA_ERR_HPI_CAPABILITY;;
  match type_capability RdrType with
  | Some c => need d res c SA_ERR_HPI_CAPABILITY
  | None => bail d true SA_ERR_HPI_INVALID_PARAMS
  end;;
  rdr_cur ← instrument d ResourceId RdrType InstrumentId;
  oh_release_domain d;;
  return_ SA_OK (Some rdr_cur).

Definition saHpiRdrUpdateCountGet (SessionId ResourceId : Z) (UpdateCount : bool) : api Z :=
  reject (negb UpdateCount) SA_ERR_HPI_INVALID_PARAMS;;
  OH_CHECK_INIT_STATE SessionId;;
  did ← OH_GET_DID SessionId;
  d ← OH_GET_DOMAIN did;
  res ← OH_RESOURCE_GET d ResourceId;
  need d res SAHPI_CAPABILITY_RDR SA_ERR_HPI_CAPABILITY;;
  x ← domain d;
  let '(rv, count) := oh_get_rdr_update_count (Some (rpt x)) ResourceId (Some 0) in
  oh_release_domain d;;
  return_ rv count.

(** ** Sensors *)

(** The beginning of the functions on sensors: the domain's id, the domain, the
    resource and the sensor's RDR. *)
Definition sensor_rdr {O} (SessionId ResourceId SensorNum : Z)
    : M O (Z * Z * SaHpiRptEntryT * SaHpiRdrT) :=
  did ← OH_GET_DID SessionId;
  d ← OH_GET_DOMAIN did;
  res ← OH_RESOURCE_GET_CHECK d ResourceId;
  need d res SAHPI_CAPABILITY_SENSOR SA_ERR_HPI_CAPABILITY;;
  rdr ← instrument d ResourceId SAHPI_SENSOR_RDR SensorNum;
  mret (did, d, res, rdr).
Definition sensor {O} (SessionId ResourceId SensorNum : Z)
    : M O (Z * Z * SaHpiRptEntryT * SaHpiRdrT) :=
  OH_CHECK_INIT_STATE SessionId;;
  sensor_rdr SessionId ResourceId SensorNum.

(** [memset] of the value of a reading that is not supported. *)
Definition clear_unsupported (r : SaHpiSensorReadingT) : SaHpiSensorReadingT :=
  if IsSupported r =? SAHPI_FALSE then r <| reading_Type := 0 |> <| Value := zero_reading_union |> else r.

Definition saHpiSensorReadingGet (SessionId ResourceId SensorNum : Z)
    (Reading : option SaHpiSensorReadingT) (EventState : bool)
    : api (option SaHpiSensorReadingT * option Z) :=
  '(_, d, _, _) ← sensor SessionId ResourceId SensorNum;
  h ← OH_HANDLER_GET d ResourceId;
  oh_release_domain d;;
  '(rv, out) ← OH_CALL_ABI h get_sensor_reading SA_ERR_HPI_INVALID_CMD ResourceId
                 (SensorNum, bool_decide (is_Some Reading), EventState);
  let out := (fun o => if rv =? SA_OK
                       then ((fun r => clear_unsupported (default r (fst o))) <$> Reading, snd o)
                       else o) <$> out in
  oh_release_handler h;;
  return_ rv out.

Definition saHpiSensorThresholdsGet (SessionId ResourceId SensorNum : Z) (SensorThresholds : bool)
    : api SaHpiSensorThresholdsT :=
  reject (negb SensorThresholds) SA_ERR_HPI_INVALID_PARAMS;;
  '(_, d, _, rdr_cur) ← sensor SessionId ResourceId SensorNum;
  rec ← read (SensorRec rdr_cur);
  let thd := ThresholdDefn rec in
  bail d ((IsAccessible thd =? SAHPI_FALSE) || (ReadThold thd =? 0)) SA_ERR_HPI_INVALID_CMD;;
  forward d ResourceId get_sensor_thresholds SA_ERR_HPI_INVALID_CMD SensorNum.

(** [COPY_TH] *)
Definition copy_th (new old : SaHpiSensorReadingT) : SaHpiSensorReadingT :=
  if IsSupported new =? SAHPI_TRUE then new else old.
Definition copy_thresholds (SensorThresholds tmp : SaHpiSensorThresholdsT) : SaHpiSensorThresholdsT :=
  {| UpCritical := copy_th (UpCritical SensorThresholds) (UpCritical tmp);
     UpMajor := copy_th (UpMajor SensorThresholds) (UpMajor tmp);
     UpMinor := copy_th (UpMinor SensorThresholds) (UpMinor tmp);
     LowCritical := copy_th (LowCritical SensorThresholds) (LowCritical tmp);
     LowMajor := copy_th (LowMajor SensorThresholds) (LowMajor tmp);
     LowMinor := copy_th (LowMinor SensorThresholds) (LowMinor tmp);
     PosThdHysteresis := copy_th (PosThdHysteresis SensorThresholds) (PosThdHysteresis tmp);
     NegThdHysteresis := copy_th (NegThdHysteresis SensorThresholds) (NegThdHysteresis tmp) |}.

Definition saHpiSensorThresholdsSet (SessionId ResourceId SensorNum : Z)
    (SensorThresholds : option SaHpiSensorThresholdsT) : api unit :=
  reject (bool_decide (SensorThresholds = None)) SA_ERR_HPI_INVALID_PARAMS;;
  thds ← read SensorThresholds;
  '(_, d, _, rdr) ← sensor SessionId ResourceId SensorNum;
  rv ← read (oh_valid_thresholds (Some thds) (Some rdr));
  bail d (negb (rv =? SA_OK)) rv;;
  r ← call (saHpiSensorThresholdsGet SessionId ResourceId SensorNum true);
  bail d (negb (fst r =? SA_OK)) (fst r);;
  tmp ← read (snd r);
  let tmp := copy_thresholds thds tmp in
  rv ← read (oh_valid_ordering (Some tmp) (Some rdr));
  bail d (negb (rv =? SA_OK)) rv;;
  forward d ResourceId set_sensor_thresholds SA_ERR_HPI_INVALID_CMD (SensorNum, tmp).

Definition saHpiSensorTypeGet (SessionId ResourceId SensorNum : Z) (Type_ Category : bool) : api (Z * Z) :=
  reject (negb Type_ || negb Category) SA_ERR_HPI_INVALID_PARAMS;;
  OH_CHECK_INIT_STATE SessionId;;
  did ← OH_GET_DID SessionId;
  d ← OH_GET_DOMAIN did;
  res ← OH_RESOURCE_GET d ResourceId;
  need d res SAHPI_CAPABILITY_SENSOR SA_ERR_HPI_CAPABILITY;;
  rdr ← instrument d ResourceId SAHPI_SENSOR_RDR SensorNum;
  rec ← read (SensorRec rdr);
  oh_release_domain d;;
  return_ SA_OK (Some (sensor_Type rec, sensor_Category rec)).

Definition saHpiSensorEnableGet (SessionId ResourceId SensorNum : Z) (SensorEnabled : bool) : api Z :=
  reject (negb SensorEnabled) SA_ERR_HPI_INVALID_PARAMS;;
  '(_, d, _, _) ← sensor SessionId ResourceId SensorNum;
  forward d ResourceId get_sensor_enable SA_ERR_HPI_INVALID_CMD SensorNum.

(** The end of the functions after which an alarm of the sensor may be over. *)
Definition forward_sensor (did d ResourceId : Z) (f : abi_fn) (args : args_of f)
    (alarm : option dat_state -> Z * option dat_state) : api (reply_of f) :=
  h ← OH_HANDLER_GET d ResourceId;
  oh_release_domain d;;
  '(rv, out) ← OH_CALL_ABI h f SA_ERR_HPI_INVALID_CMD ResourceId args;
  oh_release_handler h;;
  when (rv =? SA_OK) (detect did alarm);;
  return_ rv out.

Definition saHpiSensorEnableSet (SessionId ResourceId SensorNum SensorEnabled : Z) : api unit :=
  '(did, d, _, rdr_cur) ← sensor SessionId ResourceId SensorNum;
  rec ← read (SensorRec rdr_cur);
  bail d (negb (truthy (EnableCtrl rec))) SA_ERR_HPI_READ_ONLY;;
  forward_sensor did d ResourceId set_sensor_enable (SensorNum, SensorEnabled)
    (fun s => oh_detect_sensor_enable_alarm (e_params E) (e_now E) s ResourceId SensorNum SensorEnabled).

Definition saHpiSensorEventEnableGet (SessionId ResourceId SensorNum : Z) (SensorEventsEnabled : bool)
    : api Z :=
  reject (negb SensorEventsEnabled) SA_ERR_HPI_INVALID_PARAMS;;
  '(_, d, _, _) ← sensor SessionId ResourceId SensorNum;
  forward d ResourceId get_sensor_event_enables SA_ERR_HPI_INVALID_CMD SensorNum.

Definition saHpiSensorEventEnableSet (SessionId ResourceId SensorNum SensorEventsEnabled : Z) : api unit :=
  '(did, d, _, rdr_cur) ← sensor SessionId ResourceId SensorNum;
  rec ← read (SensorRec rdr_cur);
  bail d (EventCtrl rec =? SAHPI_SEC_READ_ONLY) SA_ERR_HPI_READ_ONLY;;
  forward_sensor did d ResourceId set_sensor_event_enables (SensorNum, SensorEventsEnabled)
    (fun s => oh_detect_sensor_enable_alarm (e_params E) (e_now E) s ResourceId SensorNum
                SensorEventsEnabled).

Definition saHpiSensorEventMasksGet (SessionId ResourceId SensorNum : Z)
    (AssertEventMask DeassertEventMask : bool) : api (option Z * option Z) :=
  '(_, d, _, _) ← sensor SessionId ResourceId SensorNum;
  forward d ResourceId get_sensor_event_masks SA_ERR_HPI_INVALID_CMD
    (SensorNum, AssertEventMask, DeassertEventMask).

(** The mask has an event that the sensor does not support. *)
Definition unsupported_events (rec : SaHpiSensorRecT) (mask : Z) : bool :=
  negb (mask =? SAHPI_ALL_EVENT_STATES) && negb (Z.lor (Events rec) mask =? Events rec).

Definition saHpiSensorEventMasksSet (SessionId ResourceId SensorNum Action
    AssertEventMask DeassertEventMask : Z) : api unit :=
  OH_CHECK_INIT_STATE SessionId;;
  reject (negb (oh_lookup_sensoreventmaskaction Action)) SA_ERR_HPI_INVALID_PARAMS;;
  '(did, d, res, rdr_cur) ← sensor_rdr SessionId ResourceId SensorNum;
  rec ← read (SensorRec rdr_cur);
  bail d ((EventCtrl rec =? SAHPI_SEC_READ_ONLY_MASKS) || (EventCtrl rec =? SAHPI_SEC_READ_ONLY))
    SA_ERR_HPI_READ_ONLY;;
  when (Action =? SAHPI_SENS_ADD_EVENTS_TO_MASKS)
    (bail d (unsupported_events rec AssertEventMask) SA_ERR_HPI_INVALID_DATA;;
     bail d (negb (has_cap (ResourceCapabilities res) SAHPI_CAPABILITY_EVT_DEASSERTS)
             && unsupported_events rec DeassertEventMask) SA_ERR_HPI_INVALID_DATA);;
  forward_sensor did d ResourceId set_sensor_event_masks
    (SensorNum, Action, AssertEventMask, DeassertEventMask)
    (fun s => oh_detect_sensor_mask_alarm (e_params E) (e_now E) s ResourceId SensorNum Action
                DeassertEventMask).
(** ** Controls *)

Definition control {O} (SessionId ResourceId CtrlNum : Z) : M O (Z * SaHpiRdrT) :=
  OH_CHECK_INIT_STATE SessionId;;
  did ← OH_GET_DID SessionId;
  d ← OH_GET_DOMAIN did;
  res ← OH_RESOURCE_GET_CHECK d ResourceId;
  need d res SAHPI_CAPABILITY_CONTROL SA_ERR_HPI_CAPABILITY;;
  rdr ← instrument d ResourceId SAHPI_CTRL_RDR CtrlNum;
  mret (d, rdr).

Definition saHpiControlTypeGet (SessionId ResourceId CtrlNum : Z) (Type_ : bool) : api Z :=
  reject (negb Type_) SA_ERR_HPI_INVALID_PARAMS;;
  OH_CHECK_INIT_STATE SessionId;;
  did ← OH_GET_DID SessionId;
  d ← OH_GET_DOMAIN did;
  res ← OH_RESOURCE_GET d ResourceId;
  need d res SAHPI_CAPABILITY_CONTROL SA_ERR_HPI_CAPABILITY;;
  rdr ← instrument d ResourceId SAHPI_CTRL_RDR CtrlNum;
  rec ← read (CtrlRec rdr);
  oh_release_domain d;;
  return_ SA_OK (Some (ctrl_Type rec)).

(** [CtrlState->StateUnion.Text.Line] is the first byte of the union, whatever
    was stored in it (on a little-endian machine). *)
Definition Text_Line (s : SaHpiCtrlStateT) : Z :=
  match s with
  | StateText line _ => line
  | StateDigital v | StateDiscrete v | StateAnalog v => u8 v
  | StateStream repeat _ _ => u8 repeat
  | StateOem mid _ _ => u8 mid
  | StateUnknown _ words => u8 (default 0 (head words))
  end.

(** The line that the caller asks for is beyond the control's last one; [None]
    if the record is not the one of a text control. *)
Definition line_beyond (rec : SaHpiCtrlRecT) (state : SaHpiCtrlStateT) : option bool :=
  match TypeUnion rec with
  | RecText _ maxlines _ _ _ =>
      Some (negb (Text_Line state =? SAHPI_TLN_ALL_LINES) && (maxlines <? Text_Line state))
  | _ => None
  end.

Definition saHpiControlGet (SessionId ResourceId CtrlNum : Z) (CtrlMode : bool)
    (CtrlState : option SaHpiCtrlStateT) : api (option Z * option SaHpiCtrlStateT) :=
  '(d, rdr) ← control SessionId ResourceId CtrlNum;
  rec ← read (CtrlRec rdr);
  bail d (truthy (WriteOnly rec)) SA_ERR_HPI_INVALID_CMD;;
  match CtrlState with
  | None => when (negb CtrlMode) (oh_release_domain d;; return_ SA_OK (Some (None, None)))
  | Some state =>
      when (ctrl_Type rec =? SAHPI_CTRL_TYPE_TEXT)
        (beyond ← read (line_beyond rec state); bail d beyond SA_ERR_HPI_INVALID_DATA)
  end;;
  forward d ResourceId get_control_state SA_ERR_HPI_INVALID_CMD (CtrlNum, CtrlMode, Some <$> CtrlState).

(** The checks of the state before anything else. *)
Definition bad_state (state : option SaHpiCtrlStateT) : bool :=
  match state with
  | Some (StateDigital v) => negb (oh_lookup_ctrlstatedigital v)
  | Some (StateStream _ len _) => SAHPI_CTRL_MAX_STREAM_LENGTH <? len
  | Some (StateText _ text) => negb (truthy (oh_valid_textbuffer (Some text)))
  | _ => false
  end.
(** [StateUnion.Digital], the first word; of a stream or a text it would have
    bytes that were never stored. *)
Definition digital (s : option SaHpiCtrlStateT) : option Z :=
  match s with
  | Some (StateDigital v | StateDiscrete v | StateOem v _ _) => Some v
  | Some (StateAnalog v) => Some (u32 v)
  | Some (StateUnknown _ (v :: _)) => Some v
  | _ => None
  end.
Definition stored_state (out : option (option Z * option SaHpiCtrlStateT)) : option SaHpiCtrlStateT :=
  match out with Some (_, s) => s | None => None end.

(** A pulse to the state in which the control is. *)
Definition idle_pulse (cur new : Z) : bool :=
  (((cur =? SAHPI_CTRL_STATE_PULSE_ON) || (cur =? SAHPI_CTRL_STATE_ON))
   && (new =? SAHPI_CTRL_STATE_PULSE_ON))
  || (((cur =? SAHPI_CTRL_STATE_PULSE_OFF) || (cur =? SAHPI_CTRL_STATE_OFF))
      && (new =? SAHPI_CTRL_STATE_PULSE_OFF)).

(** The current state of a digital control is asked for, whether or not the
    answer is a success; the variable it is stored in is not initialised.  The
    RDR is read once more after the domain is released: it is the one found
    before unless another thread changes it. *)
Definition saHpiControlSet (SessionId ResourceId CtrlNum CtrlMode : Z)
    (CtrlState : option SaHpiCtrlStateT) : api unit :=
  let manual := negb (CtrlMode =? SAHPI_CTRL_MODE_AUTO) in
  reject (negb (oh_lookup_ctrlmode CtrlMode) || (manual && bool_decide (CtrlState = None)))
    SA_ERR_HPI_INVALID_PARAMS;;
  reject (manual && bad_state CtrlState) SA_ERR_HPI_INVALID_PARAMS;;
  '(d, rdr) ← control SessionId ResourceId CtrlNum;
  bail d (negb (RdrType rdr =? SAHPI_CTRL_RDR)) SA_ERR_HPI_NOT_PRESENT;;
  rec ← read (CtrlRec rdr);
  let rv := oh_valid_ctrl_state_mode rec CtrlMode CtrlState in
  bail d (negb (rv =? SA_OK)) rv;;
  h ← OH_HANDLER_GET d ResourceId;
  oh_release_domain d;;
  when (negb (truthy (WriteOnly rec)) && (ctrl_Type rec =? SAHPI_CTRL_TYPE_DIGITAL))
    ('(_, out) ← OH_CALL_ABI h get_control_state SA_ERR_HPI_INVALID_CMD ResourceId
                   (CtrlNum, true, Some None);
     when manual
       (cur ← read (digital (stored_state out));
        new ← read (digital CtrlState);
        when (idle_pulse cur new) (oh_release_handler h;; fail SA_ERR_HPI_INVALID_REQUEST)));;
  '(rv, out) ← OH_CALL_ABI h set_control_state SA_ERR_HPI_INVALID_CMD ResourceId
                 (CtrlNum, CtrlMode, CtrlState);
  oh_release_handler h;;
  return_ rv out.
End Functions.
