(* ===== verification/ApiInventory.v ===== *)
(** The HPI functions of [openhpid/safhpi.c] on inventories, watchdogs and
    annunciators. *)
From S2P Require Import Prelude SaHpi Rpt DomainState TextBuffer Validate Api ApiInstruments.

Section Functions.
Context `{Plugins}.

(** ** Inventories *)

(** The beginning that the functions share: the domain, the resource with the
    capability and the RDR of the instrument; the RDR's contents are not used. *)
Definition instrument_of {O} (SessionId ResourceId cap type num : Z) : M O (Z * SaHpiRdrT) :=
  OH_CHECK_INIT_STATE SessionId;;
  did ← OH_GET_DID SessionId;
  d ← OH_GET_DOMAIN did;
  res ← OH_RESOURCE_GET_CHECK d ResourceId;
  need d res cap SA_ERR_HPI_CAPABILITY;;
  rdr ← instrument d ResourceId type num;
  mret (d, rdr).

Definition inventory {O} (SessionId ResourceId IdrId : Z) : M O (Z * SaHpiRdrT) :=
  instrument_of SessionId ResourceId SAHPI_CAPABILITY_INVENTORY_DATA SAHPI_INVENTORY_RDR IdrId.

Definition saHpiIdrInfoGet (SessionId ResourceId IdrId : Z) (IdrInfo : bool) : api SaHpiIdrInfoT :=
  reject (negb IdrInfo) SA_ERR_HPI_INVALID_PARAMS;;
  OH_CHECK_INIT_STATE SessionId;;
  did ← OH_GET_DID SessionId;
  d ← OH_GET_DOMAIN did;
  res ← OH_RESOURCE_GET d ResourceId;
  need d res SAHPI_CAPABILITY_INVENTORY_DATA SA_ERR_HPI_CAPABILITY;;
  _ ← instrument d ResourceId SAHPI_INVENTORY_RDR IdrId;
  forward d ResourceId get_idr_info SA_ERR_HPI_INVALID_CMD IdrId.

Definition saHpiIdrAreaHeaderGet (SessionId ResourceId IdrId AreaType AreaId : Z)
    (NextAreaId Header : bool) : api (Z * SaHpiIdrAreaHeaderT) :=
  reject ((AreaType <? SAHPI_IDR_AREATYPE_INTERNAL_USE)
          || ((SAHPI_IDR_AREATYPE_PRODUCT_INFO <? AreaType)
              && negb (AreaType =? SAHPI_IDR_AREATYPE_UNSPECIFIED)
              && negb (AreaType =? SAHPI_IDR_AREATYPE_OEM))
          || (AreaId =? SAHPI_LAST_ENTRY) || negb NextAreaId || negb Header)
    SA_ERR_HPI_INVALID_PARAMS;;
  '(d, _) ← inventory SessionId ResourceId IdrId;
  forward d ResourceId get_idr_area_header SA_ERR_HPI_INVALID_CMD (IdrId, AreaType, AreaId).

Definition saHpiIdrAreaAdd (SessionId ResourceId IdrId AreaType : Z) (AreaId : bool) : api Z :=
  reject (negb (oh_lookup_idrareatype AreaType) || negb AreaId) SA_ERR_HPI_INVALID_PARAMS;;
  reject (AreaType =? SAHPI_IDR_AREATYPE_UNSPECIFIED) SA_ERR_HPI_INVALID_DATA;;
  '(d, _) ← inventory SessionId ResourceId IdrId;
  forward d ResourceId add_idr_area SA_ERR_HPI_INVALID_CMD (IdrId, AreaType).

Definition saHpiIdrAreaAddById (SessionId ResourceId IdrId AreaType AreaId : Z) : api unit :=
  reject (negb (oh_lookup_idrareatype AreaType) || (AreaId =? SAHPI_LAST_ENTRY))
    SA_ERR_HPI_INVALID_PARAMS;;
  reject (AreaType =? SAHPI_IDR_AREATYPE_UNSPECIFIED) SA_ERR_HPI_INVALID_DATA;;
  '(d, _) ← inventory SessionId ResourceId IdrId;
  h ← OH_HANDLER_GET d ResourceId;
  oh_release_domain d;;
  '(error, info) ← OH_CALL_ABI h get_idr_info SA_ERR_HPI_INTERNAL_ERROR ResourceId IdrId;
  when (negb (error =? SA_OK)) (oh_release_handler h;; fail SA_ERR_HPI_NOT_PRESENT);;
  info ← read info;
  when (truthy (info_ReadOnly info)) (oh_release_handler h;; fail SA_ERR_HPI_READ_ONLY);;
  when (negb (AreaId =? SAHPI_FIRST_ENTRY))
    ('(error, _) ← OH_CALL_ABI h get_idr_area_header SA_ERR_HPI_INTERNAL_ERROR ResourceId
                     (IdrId, AreaType, AreaId);
     when (error =? SA_OK) (oh_release_handler h;; fail SA_ERR_HPI_DUPLICATE));;
  '(error, out) ← OH_CALL_ABI h add_idr_area_id SA_ERR_HPI_INTERNAL_ERROR ResourceId
                    (IdrId, AreaType, AreaId);
  oh_release_handler h;;
  return_ error out.

Definition saHpiIdrAreaDelete (SessionId ResourceId IdrId AreaId : Z) : api unit :=
  reject (AreaId =? SAHPI_LAST_ENTRY) SA_ERR_HPI_INVALID_PARAMS;;
  '(d, _) ← inventory SessionId ResourceId IdrId;
  forward d ResourceId del_idr_area SA_ERR_HPI_INVALID_CMD (IdrId, AreaId).

Definition saHpiIdrFieldGet (SessionId ResourceId IdrId AreaId FieldType FieldId : Z)
    (NextFieldId Field : bool) : api (Z * SaHpiIdrFieldT) :=
  reject (negb Field || negb (oh_lookup_idrfieldtype FieldType) || (AreaId =? SAHPI_LAST_ENTRY)
          || (FieldId =? SAHPI_LAST_ENTRY) || negb NextFieldId) SA_ERR_HPI_INVALID_PARAMS;;
  '(d, _) ← inventory SessionId ResourceId IdrId;
  forward d ResourceId get_idr_field SA_ERR_HPI_INVALID_CMD (IdrId, AreaId, FieldType, FieldId).

(** The checks of a field that is added. *)
Definition bad_field (f : option SaHpiIdrFieldT) : bool :=
  match f with
  | None => true
  | Some f =>
      negb (oh_lookup_idrfieldtype (field_Type f))
      || (field_Type f =? SAHPI_IDR_FIELDTYPE_UNSPECIFIED)
      || negb (oh_valid_textbuffer (Some (Field f)) =? SAHPI_TRUE)
  end.

Definition saHpiIdrFieldAdd (SessionId ResourceId IdrId : Z) (Field : option SaHpiIdrFieldT)
    : api SaHpiIdrFieldT :=
  reject (bad_field Field) SA_ERR_HPI_INVALID_PARAMS;;
  field ← read Field;
  '(d, _) ← inventory SessionId ResourceId IdrId;
  forward d ResourceId add_idr_field SA_ERR_HPI_INVALID_CMD (IdrId, field).

Definition saHpiIdrFieldAddById (SessionId ResourceId IdrId : Z) (Field : option SaHpiIdrFieldT)
    : api SaHpiIdrFieldT :=
  reject (bad_field Field) SA_ERR_HPI_INVALID_PARAMS;;
  field ← read Field;
  reject ((field_AreaId field =? SAHPI_LAST_ENTRY) || (FieldId field =? SAHPI_LAST_ENTRY))
    SA_ERR_HPI_INVALID_PARAMS;;
  '(d, _) ← inventory SessionId ResourceId IdrId;
  h ← OH_HANDLER_GET d ResourceId;
  oh_release_domain d;;
  '(error, out) ← OH_CALL_ABI h get_idr_area_header SA_ERR_HPI_INTERNAL_ERROR ResourceId
                    (IdrId, SAHPI_IDR_AREATYPE_UNSPECIFIED, field_AreaId field);
  when (negb (error =? SA_OK)) (oh_release_handler h;; fail SA_ERR_HPI_NOT_PRESENT);;
  out ← read out;
  when (truthy (header_ReadOnly (snd out))) (oh_release_handler h;; fail SA_ERR_HPI_READ_ONLY);;
  when (negb (FieldId field =? SAHPI_FIRST_ENTRY))
    ('(error, _) ← OH_CALL_ABI h get_idr_field SA_ERR_HPI_INTERNAL_ERROR ResourceId
                     (IdrId, field_AreaId field, SAHPI_IDR_FIELDTYPE_UNSPECIFIED, FieldId field);
     when (error =? SA_OK) (oh_release_handler h;; fail SA_ERR_HPI_DUPLICATE));;
  '(error, out) ← OH_CALL_ABI h add_idr_field_id SA_ERR_HPI_INTERNAL_ERROR ResourceId (IdrId, field);
  oh_release_handler h;;
  return_ error out.

Definition saHpiIdrFieldSet (SessionId ResourceId IdrId : Z) (Field : option SaHpiIdrFieldT) : api unit :=
  reject (match Field with
          | None => true
          | Some f => (SAHPI_IDR_FIELDTYPE_CUSTOM <? field_Type f)
                      || negb (truthy (oh_valid_textbuffer (Some (Api.Field f))))
          end) SA_ERR_HPI_INVALID_PARAMS;;
  field ← read Field;
  '(d, _) ← inventory SessionId ResourceId IdrId;
  forward d ResourceId set_idr_field SA_ERR_HPI_INVALID_CMD (IdrId, field).

Definition saHpiIdrFieldDelete (SessionId ResourceId IdrId AreaId FieldId : Z) : api unit :=
  reject ((FieldId =? SAHPI_LAST_ENTRY) || (AreaId =? SAHPI_LAST_ENTRY)) SA_ERR_HPI_INVALID_PARAMS;;
  '(d, _) ← inventory SessionId ResourceId IdrId;
  forward d ResourceId del_idr_field SA_ERR_HPI_INVALID_CMD (IdrId, AreaId, FieldId).

(** ** Watchdogs *)

(** The beginning of the functions that need a capability of the resource but
    no RDR. *)
Definition capable {O} (SessionId ResourceId cap : Z) : M O (Z * SaHpiRptEntryT) :=
  OH_CHECK_INIT_STATE SessionId;;
  did ← OH_GET_DID SessionId;
  d ← OH_GET_DOMAIN did;
  res ← OH_RESOURCE_GET_CHECK d ResourceId;
  need d res cap SA_ERR_HPI_CAPABILITY;;
  mret (d, res).

Definition saHpiWatchdogTimerGet (SessionId ResourceId WatchdogNum : Z) (Watchdog : bool)
    : api SaHpiWatchdogT :=
  reject (negb Watchdog) SA_ERR_HPI_INVALID_PARAMS;;
  '(d, _) ← capable SessionId ResourceId SAHPI_CAPABILITY_WATCHDOG;
  forward d ResourceId get_watchdog_info SA_ERR_HPI_INVALID_CMD WatchdogNum.

Definition saHpiWatchdogTimerSet (SessionId ResourceId WatchdogNum : Z)
    (Watchdog : option SaHpiWatchdogT) : api unit :=
  reject (match Watchdog with
          | None => true
          | Some w => negb (oh_lookup_watchdogtimeruse (TimerUse w))
                      || negb (oh_lookup_watchdogaction (TimerAction w))
                      || negb (oh_lookup_watchdogpretimerinterrupt (PretimerInterrupt w))
          end) SA_ERR_HPI_INVALID_PARAMS;;
  watchdog ← read Watchdog;
  reject (InitialCount watchdog <? PreTimeoutInterval watchdog) SA_ERR_HPI_INVALID_DATA;;
  '(d, _) ← capable SessionId ResourceId SAHPI_CAPABILITY_WATCHDOG;
  forward d ResourceId set_watchdog_info SA_ERR_HPI_INVALID_CMD (WatchdogNum, watchdog).

Definition saHpiWatchdogTimerReset (SessionId ResourceId WatchdogNum : Z) : api unit :=
  '(d, _) ← capable SessionId ResourceId SAHPI_CAPABILITY_WATCHDOG;
  forward d ResourceId reset_watchdog SA_ERR_HPI_INVALID_CMD WatchdogNum.

(** ** Annunciators *)

Definition annunciator {O} (SessionId ResourceId AnnunciatorNum : Z) : M O (Z * SaHpiRdrT) :=
  instrument_of SessionId ResourceId SAHPI_CAPABILITY_ANNUNCIATOR SAHPI_ANNUNCIATOR_RDR AnnunciatorNum.

Definition saHpiAnnunciatorGetNext (SessionId ResourceId AnnunciatorNum Severity UnacknowledgedOnly : Z)
    (Announcement : option SaHpiAnnouncementT) : api SaHpiAnnouncementT :=
  reject (bool_decide (Announcement = None)) SA_ERR_HPI_INVALID_PARAMS;;
  announcement ← read Announcement;
  reject (negb (oh_lookup_severity Severity)) SA_ERR_HPI_INVALID_PARAMS;;
  '(d, _) ← annunciator SessionId ResourceId AnnunciatorNum;
  forward d ResourceId get_next_announce SA_ERR_HPI_INVALID_CMD
    (AnnunciatorNum, Severity, UnacknowledgedOnly, announcement).

Definition saHpiAnnunciatorGet (SessionId ResourceId AnnunciatorNum EntryId : Z) (Announcement : bool)
    : api SaHpiAnnouncementT :=
  reject (negb Announcement || (EntryId =? SAHPI_FIRST_ENTRY) || (EntryId =? SAHPI_LAST_ENTRY))
    SA_ERR_HPI_INVALID_PARAMS;;
  '(d, _) ← annunciator SessionId ResourceId AnnunciatorNum;
  forward d ResourceId get_announce SA_ERR_HPI_INVALID_CMD (AnnunciatorNum, EntryId).

Definition saHpiAnnunciatorAcknowledge (SessionId ResourceId AnnunciatorNum EntryId Severity : Z)
    : api unit :=
  reject ((EntryId =? SAHPI_ENTRY_UNSPECIFIED) && negb (oh_lookup_severity Severity))
    SA_ERR_HPI_INVALID_PARAMS;;
  '(d, _) ← annunciator SessionId ResourceId AnnunciatorNum;
  forward d ResourceId ack_announce SA_ERR_HPI_INVALID_CMD (AnnunciatorNum, EntryId, Severity).

Definition saHpiAnnunciatorModeGet (SessionId ResourceId AnnunciatorNum : Z) (Mode : bool) : api Z :=
  reject (negb Mode) SA_ERR_HPI_INVALID_PARAMS;;
  '(d, _) ← annunciator SessionId ResourceId AnnunciatorNum;
  forward d ResourceId get_annunc_mode SA_ERR_HPI_INVALID_CMD AnnunciatorNum.

(** The guard of the functions that change the set of announcements. *)
Definition not_automatic {O} (SessionId d ResourceId AnnunciatorNum : Z) : M O unit :=
  r ← call (saHpiAnnunciatorModeGet SessionId ResourceId AnnunciatorNum true);
  bail d (negb (fst r =? SA_OK)) (fst r);;
  mode ← read (snd r);
  bail d (mode =? SAHPI_ANNUNCIATOR_MODE_AUTO) SA_ERR_HPI_READ_ONLY.

Definition saHpiAnnunciatorAdd (SessionId ResourceId AnnunciatorNum : Z)
    (Announcement : option SaHpiAnnouncementT) : api SaHpiAnnouncementT :=
  reject (match Announcement with
          | None => true
          | Some a => (ann_Severity a =? SAHPI_ALL_SEVERITIES)
                      || negb (oh_lookup_severity (ann_Severity a))
                      || negb (truthy (oh_valid_textbuffer (Some (cond_Data (StatusCond a)))))
                      || negb (oh_lookup_statuscondtype (Type_ (StatusCond a)))
                      || (SA_HPI_MAX_NAME_LENGTH <? fst (cond_Name (StatusCond a)))
          end) SA_ERR_HPI_INVALID_PARAMS;;
  announcement ← read Announcement;
  '(d, _) ← annunciator SessionId ResourceId AnnunciatorNum;
  not_automatic SessionId d ResourceId AnnunciatorNum;;
  forward d ResourceId add_announce SA_ERR_HPI_INVALID_CMD (AnnunciatorNum, announcement).

Definition saHpiAnnunciatorDelete (SessionId ResourceId AnnunciatorNum EntryId Severity : Z) : api unit :=
  reject ((EntryId =? SAHPI_ENTRY_UNSPECIFIED) && negb (oh_lookup_severity Severity))
    SA_ERR_HPI_INVALID_PARAMS;;
  '(d, _) ← annunciator SessionId ResourceId AnnunciatorNum;
  not_automatic SessionId d ResourceId AnnunciatorNum;;
  forward d ResourceId del_announce SA_ERR_HPI_INVALID_CMD (AnnunciatorNum, EntryId, Severity).

Definition saHpiAnnunciatorModeSet (SessionId ResourceId AnnunciatorNum Mode : Z) : api unit :=
  reject (negb (oh_lookup_annunciatormode Mode)) SA_ERR_HPI_INVALID_PARAMS;;
  '(d, rdr) ← annunciator SessionId ResourceId AnnunciatorNum;
  rec ← read (AnnunciatorRec rdr);
  bail d (truthy (ModeReadOnly rec)) SA_ERR_HPI_READ_ONLY;;
  forward d ResourceId set_annunc_mode SA_ERR_HPI_INVALID_CMD (AnnunciatorNum, Mode).
End Functions.
