(* ===== verification/ApiManagement.v ===== *)
(** The HPI functions of [openhpid/safhpi.c] on diagnostics (DIMI), firmware
    upgrades (FUMI), hot swap, configuration, load, reset and power. *)
From S2P Require Import Prelude SaHpi Rpt DomainState TextBuffer Validate HotSwap Api ApiInstruments.
From S2P Require Import ApiInventory.

Definition SAHPI_FUMI_CAP_ROLLBACK : Z := 0x001.
Definition SAHPI_FUMI_CAP_BANKCOPY : Z := 0x002.
Definition SAHPI_FUMI_CAP_BANKREORDER : Z := 0x004.
Definition SAHPI_FUMI_CAP_BACKUP : Z := 0x008.
Definition SAHPI_FUMI_CAP_TARGET_VERIFY : Z := 0x010.
Definition SAHPI_FUMI_CAP_TARGET_VERIFY_MAIN : Z := 0x020.
Definition SAHPI_FUMI_CAP_COMPONENTS : Z := 0x040.
Definition SAHPI_FUMI_CAP_AUTOROLLBACK : Z := 0x080.
Definition SAHPI_FUMI_CAP_AUTOROLLBACK_CAN_BE_DISABLED : Z := 0x100.
Definition SAHPI_FUMI_SRC_VALID : Z := 0.
Definition SAHPI_FUMI_SRC_VALIDITY_UNKNOWN : Z := 8.
Definition SAHPI_DOMAIN_CAP_AUTOINSERT_READ_ONLY : Z := 0x1.

Section Functions.
Context `{Plugins}.

(** ** Diagnostics *)

Definition dimi {O} (SessionId ResourceId DimiNum : Z) : M O (Z * SaHpiRdrT) :=
  instrument_of SessionId ResourceId SAHPI_CAPABILITY_DIMI SAHPI_DIMI_RDR DimiNum.

Definition saHpiDimiInfoGet (SessionId ResourceId DimiNum : Z) (DimiInfo : bool) : api opaque :=
  reject (negb DimiInfo) SA_ERR_HPI_INVALID_PARAMS;;
  '(d, _) ← dimi SessionId ResourceId DimiNum;
  forward d ResourceId get_dimi_info SA_ERR_HPI_INVALID_CMD DimiNum.

Definition saHpiDimiTestInfoGet (SessionId ResourceId DimiNum TestNum : Z) (DimiTest : bool) : api opaque :=
  reject (negb DimiTest) SA_ERR_HPI_INVALID_PARAMS;;
  '(d, _) ← dimi SessionId ResourceId DimiNum;
  forward d ResourceId get_dimi_test SA_ERR_HPI_INVALID_CMD (DimiNum, TestNum).

Definition saHpiDimiTestReadinessGet (SessionId ResourceId DimiNum TestNum : Z) (DimiReady : bool) : api Z :=
  reject (negb DimiReady) SA_ERR_HPI_INVALID_PARAMS;;
  '(d, _) ← dimi SessionId ResourceId DimiNum;
  forward d ResourceId get_dimi_test_ready SA_ERR_HPI_INVALID_CMD (DimiNum, TestNum).

Definition saHpiDimiTestStart (SessionId ResourceId DimiNum TestNum NumberOfParams : Z)
    (ParamsList : option (list opaque)) : api unit :=
  reject (bool_decide (ParamsList = None) && negb (NumberOfParams =? 0)) SA_ERR_HPI_INVALID_PARAMS;;
  '(d, _) ← dimi SessionId ResourceId DimiNum;
  forward d ResourceId start_dimi_test SA_ERR_HPI_INVALID_CMD (DimiNum, TestNum, NumberOfParams, ParamsList).

Definition saHpiDimiTestCancel (SessionId ResourceId DimiNum TestNum : Z) : api unit :=
  '(d, _) ← dimi SessionId ResourceId DimiNum;
  forward d ResourceId cancel_dimi_test SA_ERR_HPI_INVALID_CMD (DimiNum, TestNum).

Definition saHpiDimiTestStatusGet (SessionId ResourceId DimiNum TestNum : Z)
    (PercentCompleted RunStatus : bool) : api (option Z * Z) :=
  reject (negb RunStatus) SA_ERR_HPI_INVALID_PARAMS;;
  '(d, _) ← dimi SessionId ResourceId DimiNum;
  forward d ResourceId get_dimi_test_status SA_ERR_HPI_INVALID_CMD (DimiNum, TestNum, PercentCompleted).

Definition saHpiDimiTestResultsGet (SessionId ResourceId DimiNum TestNum : Z) (TestResults : bool)
    : api opaque :=
  reject (negb TestResults) SA_ERR_HPI_INVALID_PARAMS;;
  '(d, _) ← dimi SessionId ResourceId DimiNum;
  forward d ResourceId get_dimi_test_results SA_ERR_HPI_INVALID_CMD (DimiNum, TestNum).

(** ** Firmware upgrades *)

Definition fumi {O} (SessionId ResourceId FumiNum : Z) : M O (Z * SaHpiRdrT) :=
  instrument_of SessionId ResourceId SAHPI_CAPABILITY_FUMI SAHPI_FUMI_RDR FumiNum.

(** The guard on a capability of the FUMI. *)
Definition fumi_cap {O} (d : Z) (rdr : SaHpiRdrT) (c : Z) : M O unit :=
  rec ← read (FumiRec rdr);
  bail d (negb (has_cap (Capability rec) c)) SA_ERR_HPI_CAPABILITY.

Definition saHpiFumiSpecInfoGet (SessionId ResourceId FumiNum : Z) (SpecInfo : bool) : api opaque :=
  reject (negb SpecInfo) SA_ERR_HPI_INVALID_PARAMS;;
  '(d, _) ← fumi SessionId ResourceId FumiNum;
  forward d ResourceId get_fumi_spec SA_ERR_HPI_INVALID_CMD FumiNum.

Definition saHpiFumiServiceImpactGet (SessionId ResourceId FumiNum : Z) (ServiceImpact : bool) : api opaque :=
  reject (negb ServiceImpact) SA_ERR_HPI_INVALID_PARAMS;;
  '(d, _) ← fumi SessionId ResourceId FumiNum;
  forward d ResourceId get_fumi_service_impact SA_ERR_HPI_INVALID_CMD FumiNum.

Definition saHpiFumiSourceSet (SessionId ResourceId FumiNum BankNum : Z)
    (SourceUri : option SaHpiTextBufferT) : api unit :=
  reject (match SourceUri with
          | None => true
          | Some uri => negb (DataType uri =? SAHPI_TL_TYPE_TEXT)
          end) SA_ERR_HPI_INVALID_PARAMS;;
  uri ← read SourceUri;
  '(d, _) ← fumi SessionId ResourceId FumiNum;
  forward d ResourceId set_fumi_source SA_ERR_HPI_INVALID_CMD (FumiNum, BankNum, uri).

Definition saHpiFumiSourceInfoValidateStart (SessionId ResourceId FumiNum BankNum : Z) : api unit :=
  '(d, _) ← fumi SessionId ResourceId FumiNum;
  forward d ResourceId validate_fumi_source SA_ERR_HPI_INVALID_CMD (FumiNum, BankNum).

Definition saHpiFumiSourceInfoGet (SessionId ResourceId FumiNum BankNum : Z) (SourceInfo : bool)
    : api SaHpiFumiSourceInfoT :=
  reject (negb SourceInfo) SA_ERR_HPI_INVALID_PARAMS;;
  '(d, _) ← fumi SessionId ResourceId FumiNum;
  forward d ResourceId get_fumi_source SA_ERR_HPI_INVALID_CMD (FumiNum, BankNum).

Definition saHpiFumiSourceComponentInfoGet (SessionId ResourceId FumiNum BankNum ComponentEntryId : Z)
    (NextComponentEntryId ComponentInfo : bool) : api (Z * opaque) :=
  reject (negb NextComponentEntryId || negb ComponentInfo) SA_ERR_HPI_INVALID_PARAMS;;
  reject (ComponentEntryId =? SAHPI_LAST_ENTRY) SA_ERR_HPI_INVALID_PARAMS;;
  '(d, rdr) ← fumi SessionId ResourceId FumiNum;
  fumi_cap d rdr SAHPI_FUMI_CAP_COMPONENTS;;
  forward d ResourceId get_fumi_source_component SA_ERR_HPI_INVALID_CMD (FumiNum, BankNum, ComponentEntryId).

Definition saHpiFumiTargetInfoGet (SessionId ResourceId FumiNum BankNum : Z) (BankInfo : bool) : api opaque :=
  reject (negb BankInfo) SA_ERR_HPI_INVALID_PARAMS;;
  '(d, _) ← fumi SessionId ResourceId FumiNum;
  forward d ResourceId get_fumi_target SA_ERR_HPI_INVALID_CMD (FumiNum, BankNum).

Definition saHpiFumiTargetComponentInfoGet (SessionId ResourceId FumiNum BankNum ComponentEntryId : Z)
    (NextComponentEntryId ComponentInfo : bool) : api (Z * opaque) :=
  reject (negb NextComponentEntryId || negb ComponentInfo) SA_ERR_HPI_INVALID_PARAMS;;
  reject (ComponentEntryId =? SAHPI_LAST_ENTRY) SA_ERR_HPI_INVALID_PARAMS;;
  '(d, rdr) ← fumi SessionId ResourceId FumiNum;
  fumi_cap d rdr SAHPI_FUMI_CAP_COMPONENTS;;
  forward d ResourceId get_fumi_target_component SA_ERR_HPI_INVALID_CMD (FumiNum, BankNum, ComponentEntryId).

Definition saHpiFumiLogicalTargetInfoGet (SessionId ResourceId FumiNum : Z) (BankInfo : bool) : api opaque :=
  reject (negb BankInfo) SA_ERR_HPI_INVALID_PARAMS;;
  '(d, _) ← fumi SessionId ResourceId FumiNum;
  forward d ResourceId get_fumi_logical_target SA_ERR_HPI_INVALID_CMD FumiNum.

Definition saHpiFumiLogicalTargetComponentInfoGet (SessionId ResourceId FumiNum ComponentEntryId : Z)
    (NextComponentEntryId ComponentInfo : bool) : api (Z * opaque) :=
  reject (negb NextComponentEntryId || negb ComponentInfo) SA_ERR_HPI_INVALID_PARAMS;;
  reject (ComponentEntryId =? SAHPI_LAST_ENTRY) SA_ERR_HPI_INVALID_PARAMS;;
  '(d, rdr) ← fumi SessionId ResourceId FumiNum;
  fumi_cap d rdr SAHPI_FUMI_CAP_COMPONENTS;;
  forward d ResourceId get_fumi_logical_target_component SA_ERR_HPI_INVALID_CMD (FumiNum, ComponentEntryId).

Definition saHpiFumiBackupStart (SessionId ResourceId FumiNum : Z) : api unit :=
  '(d, rdr) ← fumi SessionId ResourceId FumiNum;
  fumi_cap d rdr SAHPI_FUMI_CAP_BACKUP;;
  forward d ResourceId start_fumi_backup SA_ERR_HPI_INVALID_CMD FumiNum.

Definition saHpiFumiBankBootOrderSet (SessionId ResourceId FumiNum BankNum Position : Z) : api unit :=
  '(d, rdr) ← fumi SessionId ResourceId FumiNum;
  fumi_cap d rdr SAHPI_FUMI_CAP_BANKREORDER;;
  forward d ResourceId set_fumi_bank_order SA_ERR_HPI_INVALID_CMD (FumiNum, BankNum, Position).

Definition saHpiFumiBankCopyStart (SessionId ResourceId FumiNum SourceBankNum TargetBankNum : Z) : api unit :=
  reject (SourceBankNum =? TargetBankNum) SA_ERR_HPI_INVALID_REQUEST;;
  '(d, rdr) ← fumi SessionId ResourceId FumiNum;
  fumi_cap d rdr SAHPI_FUMI_CAP_BANKCOPY;;
  forward d ResourceId start_fumi_bank_copy SA_ERR_HPI_INVALID_CMD (FumiNum, SourceBankNum, TargetBankNum).

(** The guard on the source image of a bank. *)
Definition source_usable {O} (SessionId d ResourceId FumiNum BankNum : Z) : M O unit :=
  r ← call (saHpiFumiSourceInfoGet SessionId ResourceId FumiNum BankNum true);
  bail d (negb (fst r =? SA_OK)) (fst r);;
  sourceinfo ← read (snd r);
  bail d (negb (SourceStatus sourceinfo =? SAHPI_FUMI_SRC_VALID)
          && negb (SourceStatus sourceinfo =? SAHPI_FUMI_SRC_VALIDITY_UNKNOWN))
    SA_ERR_HPI_INVALID_REQUEST.

Definition saHpiFumiInstallStart (SessionId ResourceId FumiNum BankNum : Z) : api unit :=
  '(d, _) ← fumi SessionId ResourceId FumiNum;
  source_usable SessionId d ResourceId FumiNum BankNum;;
  forward d ResourceId start_fumi_install SA_ERR_HPI_INVALID_CMD (FumiNum, BankNum).

Definition saHpiFumiUpgradeStatusGet (SessionId ResourceId FumiNum BankNum : Z) (UpgradeStatus : bool)
    : api Z :=
  reject (negb UpgradeStatus) SA_ERR_HPI_INVALID_PARAMS;;
  '(d, _) ← fumi SessionId ResourceId FumiNum;
  forward d ResourceId get_fumi_status SA_ERR_HPI_INVALID_CMD (FumiNum, BankNum).

Definition saHpiFumiTargetVerifyStart (SessionId ResourceId FumiNum BankNum : Z) : api unit :=
  '(d, rdr) ← fumi SessionId ResourceId FumiNum;
  fumi_cap d rdr SAHPI_FUMI_CAP_TARGET_VERIFY;;
  source_usable SessionId d ResourceId FumiNum BankNum;;
  forward d ResourceId start_fumi_verify SA_ERR_HPI_INVALID_CMD (FumiNum, BankNum).

Definition saHpiFumiTargetVerifyMainStart (SessionId ResourceId FumiNum : Z) : api unit :=
  '(d, rdr) ← fumi SessionId ResourceId FumiNum;
  fumi_cap d rdr SAHPI_FUMI_CAP_TARGET_VERIFY_MAIN;;
  source_usable SessionId d ResourceId FumiNum 0;;
  forward d ResourceId start_fumi_verify_main SA_ERR_HPI_INVALID_CMD FumiNum.

Definition saHpiFumiUpgradeCancel (SessionId ResourceId FumiNum BankNum : Z) : api unit :=
  '(d, _) ← fumi SessionId ResourceId FumiNum;
  forward d ResourceId cancel_fumi_upgrade SA_ERR_HPI_INVALID_CMD (FumiNum, BankNum).

Definition saHpiFumiAutoRollbackDisableGet (SessionId ResourceId FumiNum : Z) (Disable : bool) : api Z :=
  reject (negb Disable) SA_ERR_HPI_INVALID_PARAMS;;
  '(d, rdr) ← fumi SessionId ResourceId FumiNum;
  fumi_cap d rdr SAHPI_FUMI_CAP_AUTOROLLBACK;;
  forward d ResourceId get_fumi_autorollback_disable SA_ERR_HPI_INVALID_CMD FumiNum.

Definition saHpiFumiAutoRollbackDisableSet (SessionId ResourceId FumiNum Disable : Z) : api unit :=
  '(d, rdr) ← fumi SessionId ResourceId FumiNum;
  fumi_cap d rdr SAHPI_FUMI_CAP_AUTOROLLBACK;;
  fumi_cap d rdr SAHPI_FUMI_CAP_AUTOROLLBACK_CAN_BE_DISABLED;;
  forward d ResourceId set_fumi_autorollback_disable SA_ERR_HPI_INVALID_CMD (FumiNum, Disable).

Definition saHpiFumiRollbackStart (SessionId ResourceId FumiNum : Z) : api unit :=
  '(d, rdr) ← fumi SessionId ResourceId FumiNum;
  fumi_cap d rdr SAHPI_FUMI_CAP_ROLLBACK;;
  forward d ResourceId start_fumi_rollback SA_ERR_HPI_INVALID_CMD FumiNum.

Definition saHpiFumiActivate (SessionId ResourceId FumiNum : Z) : api unit :=
  '(d, _) ← fumi SessionId ResourceId FumiNum;
  forward d ResourceId activate_fumi SA_ERR_HPI_INVALID_CMD FumiNum.

Definition saHpiFumiActivateStart (SessionId ResourceId FumiNum Logical : Z) : api unit :=
  '(d, _) ← fumi SessionId ResourceId FumiNum;
  forward d ResourceId start_fumi_activate SA_ERR_HPI_INVALID_CMD (FumiNum, Logical).

Definition saHpiFumiCleanup (SessionId ResourceId FumiNum BankNum : Z) : api unit :=
  '(d, _) ← fumi SessionId ResourceId FumiNum;
  forward d ResourceId cleanup_fumi SA_ERR_HPI_INVALID_CMD (FumiNum, BankNum).

(** ** Hot swap *)

Definition saHpiHotSwapStateGet (SessionId ResourceId : Z) (State : bool) : api Z :=
  reject (negb State) SA_ERR_HPI_INVALID_PARAMS;;
  '(d, _) ← capable SessionId ResourceId SAHPI_CAPABILITY_FRU;
  forward d ResourceId get_hotswap_state SA_ERR_HPI_INVALID_CMD tt.

(** The beginning of the functions for managed hot swap. *)
Definition managed {O} (SessionId ResourceId : Z) : M O (Z * SaHpiRptEntryT) :=
  '(d, res) ← capable SessionId ResourceId SAHPI_CAPABILITY_FRU;
  need d res SAHPI_CAPABILITY_MANAGED_HOTSWAP SA_ERR_HPI_CAPABILITY;;
  mret (d, res).

(** The current hot swap state. *)
Definition current_state {O} (SessionId d ResourceId : Z) : M O Z :=
  r ← call (saHpiHotSwapStateGet SessionId ResourceId true);
  bail d (negb (fst r =? SA_OK)) (fst r);;
  read (snd r).

(** [OH_CALL_ABI] returns [SA_OK] if the plug-in has no such function. *)
Definition saHpiHotSwapPolicyCancel (SessionId ResourceId : Z) : api unit :=
  '(d, _) ← managed SessionId ResourceId;
  currentstate ← current_state SessionId d ResourceId;
  bail d (negb (currentstate =? SAHPI_HS_STATE_INSERTION_PENDING)
          && negb (currentstate =? SAHPI_HS_STATE_EXTRACTION_PENDING)) SA_ERR_HPI_INVALID_REQUEST;;
  h ← OH_HANDLER_GET d ResourceId;
  x ← domain d;
  let timeout := domain_ai_timeout x in
  oh_release_domain d;;
  '(error, out) ← OH_CALL_ABI h hotswap_policy_cancel SA_OK ResourceId timeout;
  oh_release_handler h;;
  return_ error out.

Definition saHpiResourceActiveSet (SessionId ResourceId : Z) : api unit :=
  '(d, _) ← managed SessionId ResourceId;
  from ← current_state SessionId d ResourceId;
  bail d (negb (truthy (oh_allowed_hotswap_transition from SAHPI_HS_STATE_ACTIVE)))
    SA_ERR_HPI_INVALID_REQUEST;;
  forward d ResourceId set_hotswap_state SA_ERR_HPI_INVALID_CMD SAHPI_HS_STATE_ACTIVE.

Definition saHpiResourceInactiveSet (SessionId ResourceId : Z) : api unit :=
  '(d, _) ← managed SessionId ResourceId;
  from ← current_state SessionId d ResourceId;
  bail d (negb (truthy (oh_allowed_hotswap_transition from SAHPI_HS_STATE_INACTIVE)))
    SA_ERR_HPI_INVALID_REQUEST;;
  forward d ResourceId set_hotswap_state SA_ERR_HPI_INVALID_CMD SAHPI_HS_STATE_INACTIVE.

Definition saHpiAutoInsertTimeoutGet (SessionId : Z) (Timeout : bool) : api Z :=
  reject (negb Timeout) SA_ERR_HPI_INVALID_PARAMS;;
  OH_CHECK_INIT_STATE SessionId;;
  did ← OH_GET_DID SessionId;
  d ← OH_GET_DOMAIN did;
  x ← domain d;
  oh_release_domain d;;
  return_ SA_OK (Some (get_hotswap_auto_insert_timeout x)).

(** The handler ids of the resources from [rpte] on, each once, in the order of
    the first resource of each; [None]: the fuel is used up, or a cell is not
    one of those allocated. *)
Fixpoint collect_hids (fuel : nat) (cells : list Z) (t : RPTable) (rpte : option SaHpiRptEntryT)
    (hids : list Z) : option (list Z) :=
  match rpte with
  | None => Some hids
  | Some r =>
      match fuel with
      | O => None
      | S fuel =>
          let hidp := oh_get_resource_data (Some t) (ResourceId r) in
          let next := oh_get_resource_next (Some t) (ResourceId r) in
          if truthy hidp then
            match cells !! Z.to_nat (hidp - 1) with
            | None => None
            | Some hid =>
                collect_hids fuel cells t next
                  (if bool_decide (hid ∈ hids) then hids else hids ++ [hid])
            end
          else collect_hids fuel cells t next hids
      end
  end.

(** The loop over the handlers.  A handler without an instance of its plug-in is
    not released. *)
Fixpoint push_timeout {O} (hids : list Z) (Timeout error : Z) : M O Z :=
  match hids with
  | [] => mret error
  | hid :: hids =>
      h ← oh_get_handler hid;
      match h with
      | None => mret SA_ERR_HPI_INTERNAL_ERROR
      | Some hid =>
          b ← handler_has hid hnd;
          if negb (b : bool) then mret SA_ERR_HPI_INTERNAL_ERROR
          else
            has ← handler_has hid (fun h => abi h set_autoinsert_timeout);
            error ← (if (has : bool)
                     then '(error, _) ← call_abi h set_autoinsert_timeout SA_ERR_HPI_INTERNAL_ERROR
                                          None Timeout; mret error
                     else mret error);
            oh_release_handler h;;
            if negb (error =? SA_OK) then mret error else push_timeout hids Timeout error
      end
  end.

Definition saHpiAutoInsertTimeoutSet (SessionId Timeout : Z) : api unit :=
  reject (negb (Timeout =? SAHPI_TIMEOUT_IMMEDIATE) && negb (Timeout =? SAHPI_TIMEOUT_BLOCK)
          && (Timeout <? 0)) SA_ERR_HPI_INVALID_PARAMS;;
  OH_CHECK_INIT_STATE SessionId;;
  did ← OH_GET_DID SessionId;
  d ← OH_GET_DOMAIN did;
  x ← domain d;
  bail d (has_cap (capabilities x) SAHPI_DOMAIN_CAP_AUTOINSERT_READ_ONLY) SA_ERR_HPI_READ_ONLY;;
  set_d d (fun x => set_hotswap_auto_insert_timeout x Timeout);;
  cs ← get cells;
  hids ← ends (collect_hids (length (rptlist (rpt x))) cs (rpt x)
                 (oh_get_resource_by_id (Some (rpt x)) SAHPI_FIRST_ENTRY) []);
  oh_release_domain d;;
  error ← push_timeout hids Timeout SA_OK;
  return_ error (Some tt).

Definition saHpiAutoExtractTimeoutGet (SessionId ResourceId : Z) (Timeout : bool) : api Z :=
  reject (negb Timeout) SA_ERR_HPI_INVALID_PARAMS;;
  '(d, _) ← managed SessionId ResourceId;
  forward d ResourceId get_autoextract_timeout SA_ERR_HPI_INVALID_CMD tt.

Definition saHpiAutoExtractTimeoutSet (SessionId ResourceId Timeout : Z) : api unit :=
  reject (negb (Timeout =? SAHPI_TIMEOUT_IMMEDIATE) && negb (Timeout =? SAHPI_TIMEOUT_BLOCK)
          && (Timeout <? 0)) SA_ERR_HPI_INVALID_PARAMS;;
  '(d, _) ← managed SessionId ResourceId;
  forward d ResourceId set_autoextract_timeout SA_ERR_HPI_INVALID_CMD Timeout.

Definition saHpiHotSwapActionRequest (SessionId ResourceId Action : Z) : api unit :=
  reject (negb (oh_lookup_hsaction Action)) SA_ERR_HPI_INVALID_PARAMS;;
  '(d, _) ← managed SessionId ResourceId;
  currentstate ← current_state SessionId d ResourceId;
  bail d (((Action =? SAHPI_HS_ACTION_INSERTION) && negb (currentstate =? SAHPI_HS_STATE_INACTIVE))
          || ((Action =? SAHPI_HS_ACTION_EXTRACTION) && negb (currentstate =? SAHPI_HS_STATE_ACTIVE)))
    SA_ERR_HPI_INVALID_REQUEST;;
  forward d ResourceId request_hotswap_action SA_ERR_HPI_INVALID_CMD Action.

(** The beginning of the functions on the indicator. *)
Definition indicator {O} (SessionId ResourceId : Z) : M O Z :=
  '(d, res) ← managed SessionId ResourceId;
  bail d (negb (has_cap (HotSwapCapabilities res) SAHPI_HS_CAPABILITY_INDICATOR_SUPPORTED))
    SA_ERR_HPI_CAPABILITY;;
  mret d.

Definition saHpiHotSwapIndicatorStateGet (SessionId ResourceId : Z) (State : bool) : api Z :=
  reject (negb State) SA_ERR_HPI_INVALID_PARAMS;;
  d ← indicator SessionId ResourceId;
  forward d ResourceId get_indicator_state SA_ERR_HPI_INVALID_CMD tt.

Definition saHpiHotSwapIndicatorStateSet (SessionId ResourceId State : Z) : api unit :=
  reject (negb (oh_lookup_hsindicatorstate State)) SA_ERR_HPI_INVALID_PARAMS;;
  d ← indicator SessionId ResourceId;
  forward d ResourceId set_indicator_state SA_ERR_HPI_INVALID_CMD State.

(** ** Configuration, load, reset and power *)

Definition saHpiParmControl (SessionId ResourceId Action : Z) : api unit :=
  reject (negb (oh_lookup_parmaction Action)) SA_ERR_HPI_INVALID_PARAMS;;
  '(d, _) ← capable SessionId ResourceId SAHPI_CAPABILITY_CONFIGURATION;
  forward d ResourceId control_parm SA_ERR_HPI_INVALID_CMD Action.

Definition saHpiResourceLoadIdGet (SessionId ResourceId : Z) (LoadId : bool) : api opaque :=
  reject (negb LoadId) SA_ERR_HPI_INVALID_PARAMS;;
  '(d, _) ← capable SessionId ResourceId SAHPI_CAPABILITY_LOAD_ID;
  forward d ResourceId load_id_get SA_ERR_HPI_INTERNAL_ERROR tt.

Definition saHpiResourceLoadIdSet (SessionId ResourceId : Z) (LoadId : option opaque) : api unit :=
  reject (bool_decide (LoadId = None)) SA_ERR_HPI_INVALID_PARAMS;;
  loadid ← read LoadId;
  '(d, _) ← capable SessionId ResourceId SAHPI_CAPABILITY_LOAD_ID;
  forward d ResourceId load_id_set SA_ERR_HPI_INTERNAL_ERROR loadid.

Definition saHpiResourceResetStateGet (SessionId ResourceId : Z) (ResetAction : bool) : api Z :=
  reject (negb ResetAction) SA_ERR_HPI_INVALID_PARAMS;;
  '(d, _) ← capable SessionId ResourceId SAHPI_CAPABILITY_RESET;
  forward d ResourceId get_reset_state SA_ERR_HPI_INVALID_CMD tt.

Definition saHpiResourceResetStateSet (SessionId ResourceId ResetAction : Z) : api unit :=
  reject (negb (oh_lookup_resetaction ResetAction)) SA_ERR_HPI_INVALID_PARAMS;;
  '(d, _) ← capable SessionId ResourceId SAHPI_CAPABILITY_RESET;
  forward d ResourceId set_reset_state SA_ERR_HPI_INVALID_CMD ResetAction.

Definition saHpiResourcePowerStateGet (SessionId ResourceId : Z) (State : bool) : api Z :=
  reject (negb State) SA_ERR_HPI_INVALID_PARAMS;;
  '(d, _) ← capable SessionId ResourceId SAHPI_CAPABILITY_POWER;
  forward d ResourceId get_power_state SA_ERR_HPI_INVALID_CMD tt.

Definition saHpiResourcePowerStateSet (SessionId ResourceId State : Z) : api unit :=
  reject (negb (oh_lookup_powerstate State)) SA_ERR_HPI_INVALID_PARAMS;;
  '(d, _) ← capable SessionId ResourceId SAHPI_CAPABILITY_POWER;
  forward d ResourceId set_power_state SA_ERR_HPI_INVALID_CMD State.
End Functions.
