(* ===== verification/ApiRules.v ===== *)
(** Reasoning about the HPI functions: what a daemon's state has to satisfy,
    which calls of plug-ins are permitted, and a rule for each step from which a
    function is built.

    [wp m Q E w]: from the daemon [w], [m] ends, without undefined behaviour and
    without an endless wait, normally in a state with [Q] or by a return in a
    state with [E]. *)
From S2P Require Import Prelude SaHpi GIndex Rpt Conf DomainState EventUtils Alarm Session Validate.
From S2P Require Import Domain Event Api ApiInstruments ApiInventory.

(** * Well-formed daemons *)

(** The union of an RDR holds the member of its type, under the id that
    [oh_add_rdr] gives it. *)
Definition ctrl_typed (c : SaHpiCtrlRecT) : Prop :=
  match TypeUnion c with RecUnknown t => oh_lookup_ctrltype t = false | _ => True end.
Record rdr_typed (r : SaHpiRdrT) : Prop := {
  rt_type : 0 <= RdrType r < 2 ^ 16;
  rt_num : 0 <= Num (RdrTypeUnion r) < 2 ^ 16;
  rt_id : RecordId r = oh_get_rdr_uid (RdrType r) (Num (RdrTypeUnion r));
  rt_rest :
    match Rest (RdrTypeUnion r) with
    | CtrlRest c => RdrType r = SAHPI_CTRL_RDR /\ ctrl_typed c
    | SensorRest _ => RdrType r = SAHPI_SENSOR_RDR
    | AnnunciatorRest _ => RdrType r = SAHPI_ANNUNCIATOR_RDR
    | FumiRest _ => RdrType r = SAHPI_FUMI_RDR
    | OtherRest _ => RdrType r ∉ [SAHPI_CTRL_RDR; SAHPI_SENSOR_RDR; SAHPI_ANNUNCIATOR_RDR; SAHPI_FUMI_RDR]
    end }.

(** A well-formed table whose entries point to one of [n] cells, or to none. *)
Record table_ok (n : nat) (t : RPTable) : Prop := {
  to_rpt : rpt_ok t;
  to_data : Forall (fun p => 0 <= data p.2 <= Z.of_nat n) (rptlist t);
  to_rdrs : forall e r, e ∈ rpt_view t -> r ∈ e.2 -> rdr_typed r }.

Record daemon_ok (g : global_params) (w : daemon) : Prop := {
  ok_sessions : conf_ok (sessions w, []);
  ok_rpt : forall d x, dt_table (doms w) !! d = Some x -> table_ok (length (cells w)) (rpt x);
  ok_dat : forall d x, dt_table (doms w) !! d = Some x -> dat_ok g x;
  ok_files : forall d l, dat_files w !! d = Some l -> file_ok l }.

(** What the documentation of the ABI promises: a function that succeeds has
    stored its results. *)
Definition plugins_store `{Plugins} : Prop :=
  forall past hid f r a, fst (respond past hid f r a) = SA_OK -> is_Some (snd (respond past hid f r a)).

(** * Permitted calls *)

(** The capabilities that a resource must have for a function to be called. *)
Definition caps_of (f : abi_fn) : list Z :=
  match f with
  | set_resource_tag | set_resource_severity | set_autoinsert_timeout => []
  | get_el_info | get_el_caps | set_el_time | add_el_entry | get_el_entry | clear_el
  | set_el_state | reset_el_overflow => [SAHPI_CAPABILITY_EVENT_LOG]
  | get_sensor_reading | get_sensor_thresholds | set_sensor_thresholds | get_sensor_enable
  | set_sensor_enable | get_sensor_event_enables | set_sensor_event_enables
  | get_sensor_event_masks | set_sensor_event_masks => [SAHPI_CAPABILITY_SENSOR]
  | get_control_state | set_control_state => [SAHPI_CAPABILITY_CONTROL]
  | get_idr_info | get_idr_area_header | add_idr_area | add_idr_area_id | del_idr_area
  | get_idr_field | add_idr_field | add_idr_field_id | set_idr_field | del_idr_field =>
      [SAHPI_CAPABILITY_INVENTORY_DATA]
  | get_watchdog_info | set_watchdog_info | reset_watchdog => [SAHPI_CAPABILITY_WATCHDOG]
  | get_next_announce | get_announce | ack_announce | add_announce | del_announce
  | get_annunc_mode | set_annunc_mode => [SAHPI_CAPABILITY_ANNUNCIATOR]
  | get_dimi_info | get_dimi_test | get_dimi_test_ready | start_dimi_test | cancel_dimi_test
  | get_dimi_test_status | get_dimi_test_results => [SAHPI_CAPABILITY_DIMI]
  | resource_failed_remove | get_hotswap_state => [SAHPI_CAPABILITY_FRU]
  | hotswap_policy_cancel | set_hotswap_state | get_autoextract_timeout | set_autoextract_timeout
  | request_hotswap_action | get_indicator_state | set_indicator_state =>
      [SAHPI_CAPABILITY_FRU; SAHPI_CAPABILITY_MANAGED_HOTSWAP]
  | control_parm => [SAHPI_CAPABILITY_CONFIGURATION]
  | load_id_get | load_id_set => [SAHPI_CAPABILITY_LOAD_ID]
  | get_reset_state | set_reset_state => [SAHPI_CAPABILITY_RESET]
  | get_power_state | set_power_state => [SAHPI_CAPABILITY_POWER]
  | _ => [SAHPI_CAPABILITY_FUMI]
  end.

(** Does the function work on a resource that is failed, or not failed? *)
Definition state_fits (f : abi_fn) (r : SaHpiRptEntryT) : bool :=
  match f with
  | resource_failed_remove => truthy (ResourceFailed r)
  | set_resource_tag | set_resource_severity | get_idr_info | get_hotswap_state => true
  | _ => ResourceFailed r =? SAHPI_FALSE
  end.

(** The type and the number of the instrument that a call is for. *)
Definition instrument_no (f : abi_fn) : args_of f -> option (Z * Z) :=
  match f return args_of f -> option (Z * Z) with
  | get_sensor_reading | get_sensor_event_masks => fun '(n, _, _) => Some (SAHPI_SENSOR_RDR, n)
  | get_sensor_thresholds | get_sensor_enable | get_sensor_event_enables =>
      fun n => Some (SAHPI_SENSOR_RDR, n)
  | set_sensor_thresholds => fun '(n, _) => Some (SAHPI_SENSOR_RDR, n)
  | set_sensor_enable | set_sensor_event_enables => fun '(n, _) => Some (SAHPI_SENSOR_RDR, n)
  | set_sensor_event_masks => fun '(n, _, _, _) => Some (SAHPI_SENSOR_RDR, n)
  | get_control_state => fun '(n, _, _) => Some (SAHPI_CTRL_RDR, n)
  | set_control_state => fun '(n, _, _) => Some (SAHPI_CTRL_RDR, n)
  | get_idr_info => fun n => Some (SAHPI_INVENTORY_RDR, n)
  | get_idr_area_header | add_idr_area_id | del_idr_field => fun '(n, _, _) => Some (SAHPI_INVENTORY_RDR, n)
  | add_idr_area | del_idr_area => fun '(n, _) => Some (SAHPI_INVENTORY_RDR, n)
  | get_idr_field => fun '(n, _, _, _) => Some (SAHPI_INVENTORY_RDR, n)
  | add_idr_field | add_idr_field_id | set_idr_field => fun '(n, _) => Some (SAHPI_INVENTORY_RDR, n)
  | get_next_announce => fun '(n, _, _, _) => Some (SAHPI_ANNUNCIATOR_RDR, n)
  | get_announce | set_annunc_mode => fun '(n, _) => Some (SAHPI_ANNUNCIATOR_RDR, n)
  | add_announce => fun '(n, _) => Some (SAHPI_ANNUNCIATOR_RDR, n)
  | ack_announce | del_announce => fun '(n, _, _) => Some (SAHPI_ANNUNCIATOR_RDR, n)
  | get_annunc_mode => fun n => Some (SAHPI_ANNUNCIATOR_RDR, n)
  | get_dimi_info => fun n => Some (SAHPI_DIMI_RDR, n)
  | get_dimi_test | get_dimi_test_ready | cancel_dimi_test | get_dimi_test_results =>
      fun '(n, _) => Some (SAHPI_DIMI_RDR, n)
  | start_dimi_test => fun '(n, _, _, _) => Some (SAHPI_DIMI_RDR, n)
  | get_dimi_test_status => fun '(n, _, _) => Some (SAHPI_DIMI_RDR, n)
  | get_fumi_spec | get_fumi_service_impact | get_fumi_logical_target | start_fumi_backup
  | start_fumi_verify_main | get_fumi_autorollback_disable | start_fumi_rollback | activate_fumi =>
      fun n => Some (SAHPI_FUMI_RDR, n)
  | set_fumi_source => fun '(n, _, _) => Some (SAHPI_FUMI_RDR, n)
  | validate_fumi_source | get_fumi_source | get_fumi_target | get_fumi_logical_target_component
  | start_fumi_install | get_fumi_status | start_fumi_verify | cancel_fumi_upgrade
  | set_fumi_autorollback_disable | start_fumi_activate | cleanup_fumi =>
      fun '(n, _) => Some (SAHPI_FUMI_RDR, n)
  | get_fumi_source_component | get_fumi_target_component | set_fumi_bank_order
  | start_fumi_bank_copy => fun '(n, _, _) => Some (SAHPI_FUMI_RDR, n)
  | _ => fun _ => None
  end.

Section Rules.
Context `{Plugins} (g : global_params) (sid : Z) (w0 : daemon).

(** The domain of the session, and its Resource Presence Table, when the
    function is called. *)
Definition home : Z := default_did (oh_get_session_domain sid (sessions w0)).
Definition home_rpt : option RPTable := rpt <$> dt_table (doms w0) !! home.

(** The handler [hid] owns the resource, has an instance of its plug-in and
    implements the function. *)
Definition owner (rid hid : Z) : Prop :=
  let p := oh_get_resource_data home_rpt rid in p <> 0 /\ cells w0 !! Z.to_nat (p - 1) = Some hid.
Definition implements (hid : Z) (f : abi_fn) : Prop :=
  exists h, handlers w0 !! hid = Some h /\ hnd h = true /\ abi h f = true.

(** A function may be called for a resource of the session's domain that is in
    the right state, has the capabilities and has the instrument. *)
Record allowed (f : abi_fn) (rid : Z) (a : args_of f) : Prop := {
  al_resource : exists r, oh_get_resource_by_id home_rpt rid = Some r /\ state_fits f r = true /\
    Forall (fun c => has_cap (ResourceCapabilities r) c = true) (caps_of f);
  al_instrument : match instrument_no f a with
    | Some (type, num) => is_Some (oh_get_rdr_by_type home_rpt rid type num)
    | None => True
    end }.
Definition permitted (c : abi_call) : Prop :=
  implements (call_hid c) (call_fn c) /\
  match call_resource c with
  | Some rid => owner rid (call_hid c) /\ allowed (call_fn c) rid (call_args c)
  | None => call_fn c = set_autoinsert_timeout /\ exists rid, owner rid (call_hid c)
  end.

(** The calls made since the function began are permitted. *)
Definition calls_ok (w : daemon) : Prop :=
  exists new, calls w = calls w0 ++ new /\ Forall permitted new.

(** During a function: the state is well formed, the sessions and the tables of
    the resources are those of the beginning, and [ds] and [hs] are the domains
    and handlers held. *)
Record frame (ds hs : list Z) (w : daemon) : Prop := {
  fr_ok : daemon_ok g w;
  fr_sessions : sessions w = sessions w0;
  fr_cells : cells w = cells w0;
  fr_handlers : handlers w = handlers w0;
  fr_rpt : forall d, rpt <$> dt_table (doms w) !! d = rpt <$> dt_table (doms w0) !! d;
  fr_calls : calls_ok w;
  fr_domains : held_domains w = ds;
  fr_exist : home ∈ ds -> is_Some (dt_table (doms w0) !! home);
  fr_hids : held_handlers w = hs }.

(** After a function. *)
Record post (ds hs : list Z) (w : daemon) : Prop := {
  po_ok : daemon_ok g w;
  po_calls : calls_ok w;
  po_domains : held_domains w = ds;
  po_hids : held_handlers w = hs }.

Lemma frame_post ds hs w : frame ds hs w -> post ds hs w.
Proof. intros Hw. split; apply Hw. Qed.

Lemma frame_start : daemon_ok g w0 -> held_domains w0 = [] -> held_handlers w0 = [] -> frame [] [] w0.
Proof. intros Hw Hd Hh. split; try done. - exists []. by rewrite app_nil_r. - by intros ?%not_elem_of_nil. Qed.

(** * Weakest preconditions *)

Definition wp {O A} (m : M O A) (Q : A -> daemon -> Prop) (R : Z -> option O -> daemon -> Prop)
    (w : daemon) : Prop :=
  match m w with
  | (Next a, w) => Q a w
  | (Return rv o, w) => R rv o w
  | (Undefined, _) | (Waits, _) => False
  end.

Section Steps.
Context {O : Type}.
Implicit Type R : Z -> option O -> daemon -> Prop.

Lemma wp_bind {A B} (m : M O A) (k : A -> M O B) Q R w :
  wp m (fun a w => wp (k a) Q R w) R w -> wp (m ≫= k) Q R w.
Proof. unfold wp, mbind, M_bind. by destruct (m w) as [[a|rv o| |] w']. Qed.

Lemma wp_ret {A} (a : A) Q R w : Q a w -> wp (mret a) Q R w.
Proof. done. Qed.

Lemma wp_return {A} rv o (Q : A -> daemon -> Prop) R w : R rv o w -> wp (return_ rv o) Q R w.
Proof. done. Qed.

Lemma wp_fail {A} rv (Q : A -> daemon -> Prop) R w : R rv None w -> wp (fail rv) Q R w.
Proof. done. Qed.

Lemma wp_get {A} (f : daemon -> A) Q R w : Q (f w) w -> wp (get f) Q R w.
Proof. done. Qed.

Lemma wp_modify f Q R w : Q tt (f w) -> wp (O := O) (modify f) Q R w.
Proof. done. Qed.

Lemma wp_when b (m : M O unit) Q R w :
  (b = true -> wp m Q R w) -> (b = false -> Q tt w) -> wp (when b m) Q R w.
Proof. intros H1 H2. destruct b; [by apply H1|by apply H2]. Qed.

Lemma wp_reject b rv Q R w :
  (b = true -> R rv None w) -> (b = false -> Q tt w) -> wp (reject b rv) Q R w.
Proof. intros H1 H2. apply wp_when; auto. Qed.

Lemma wp_read {A} (o : option A) Q R w :
  is_Some o -> (forall a, o = Some a -> Q a w) -> wp (read o) Q R w.
Proof. intros [a ->] HQ. by apply HQ. Qed.

Lemma wp_ends {A} (o : option A) Q R w :
  is_Some o -> (forall a, o = Some a -> Q a w) -> wp (ends o) Q R w.
Proof. intros [a ->] HQ. by apply HQ. Qed.

(** ** Sessions *)

Lemma wp_check ds hs Q R w :
  frame ds hs w -> (forall rv, rv <> SA_OK -> R rv None w) ->
  ((exists x, table (sessions w0) !! sid = Some x) -> 1 <= sid -> Q tt w) -> wp (OH_CHECK_INIT_STATE sid) Q R w.
Proof.
  intros Hw HR HQ. unfold OH_CHECK_INIT_STATE. apply wp_bind, wp_get.
  rewrite (fr_sessions _ _ _ Hw). unfold oh_get_session_subscription.
  destruct (Z.ltb_spec sid 1); [by apply wp_reject; intros E; [apply HR|]|].
  destruct (table (sessions w0) !! sid) as [x|]; apply wp_reject; intros E; try done; [|by apply HR].
  apply HQ; [by exists x|lia].
Qed.

Lemma wp_did ds hs Q R w :
  frame ds hs w -> R SA_ERR_HPI_INVALID_SESSION None w ->
  (forall did, default_did did = home -> Q did w) -> wp (OH_GET_DID sid) Q R w.
Proof.
  intros Hw HR HQ. unfold OH_GET_DID. apply wp_bind, wp_get. cbv zeta. apply wp_bind, wp_reject; [done|].
  intros _. apply wp_ret, HQ. by rewrite (fr_sessions _ _ _ Hw).
Qed.

(** ** Domains *)

(** Acquiring and releasing changes what is held and nothing else. *)
Lemma frame_held ds hs ds' hs' w f h :
  frame ds hs w -> f (held_domains w) = ds' -> h (held_handlers w) = hs' ->
  (home ∈ ds' -> is_Some (dt_table (doms w0) !! home)) ->
  frame ds' hs' (w <| held_domains ::= f |> <| held_handlers ::= h |>).
Proof. intros [[H1 H2 H3 H4] ? ? ? ? ? ? ? ?] E1 E2 E3. split; [split|..]; done. Qed.

Lemma home_exists did ds hs w x :
  frame ds hs w -> default_did did = home -> oh_get_domain did (doms w) = Some x ->
  dt_table (doms w) !! home = Some x /\ is_Some (dt_table (doms w0) !! home).
Proof.
  intros Hw Ed Hx. unfold oh_get_domain in Hx. pose proof (fr_rpt _ _ _ Hw home) as E. rewrite <- Ed in *.
  unfold default_did in *. rewrite Hx in E. split; [done|].
  by destruct (dt_table (doms w0) !! _).
Qed.

Lemma wp_get_domain did ds hs Q R w :
  default_did did = home -> frame ds hs w -> R SA_ERR_HPI_INVALID_DOMAIN None w ->
  (forall w', frame (home :: ds) hs w' -> doms w' = doms w -> Q home w') -> wp (OH_GET_DOMAIN did) Q R w.
Proof.
  intros Ed Hw HR HQ. unfold wp, OH_GET_DOMAIN. rewrite Ed.
  destruct (oh_get_domain did (doms w)) eqn:E; [|done]. apply HQ; [|done].
  apply (frame_held _ _ _ _ _ (cons home) (fun l => l) Hw); [|apply Hw|].
  - by rewrite (fr_domains _ _ _ Hw).
  - intros _. by eapply home_exists.
Qed.

Lemma wp_domain ds hs Q R w :
  frame (home :: ds) hs w ->
  (forall x, dt_table (doms w) !! home = Some x -> home_rpt = Some (rpt x) ->
     table_ok (length (cells w0)) (rpt x) -> Q x w) ->
  wp (domain home) Q R w.
Proof.
  intros Hw HQ. unfold wp, domain. rewrite (fr_domains _ _ _ Hw), bool_decide_true by left.
  pose proof (fr_rpt _ _ _ Hw home) as E. destruct (fr_exist _ _ _ Hw) as [x0 Hx0]; [by left|].
  rewrite Hx0 in E. simpl in E.
  destruct (dt_table (doms w) !! home) as [x|] eqn:Ex; [|done]. simpl in E. injection E as E.
  apply HQ; [done| |].
  - unfold home_rpt. by rewrite Hx0, E.
  - rewrite <- (fr_cells _ _ _ Hw). apply (ok_rpt _ _ (fr_ok _ _ _ Hw) _ _ Ex).
Qed.

Lemma wp_release ds hs Q R w :
  frame (home :: ds) hs w -> (forall w, frame ds hs w -> Q tt w) -> wp (O := O) (oh_release_domain home) Q R w.
Proof.
  intros Hw HQ. unfold wp, oh_release_domain. rewrite (fr_domains _ _ _ Hw), bool_decide_true by left.
  apply HQ. apply (frame_held _ _ _ _ _ (remove_first home) (fun l => l) Hw); [|apply Hw|].
  - rewrite (fr_domains _ _ _ Hw). simpl. by rewrite Z.eqb_refl.
  - intros _. apply (fr_exist _ _ _ Hw). by left.
Qed.

Lemma wp_bail ds hs b rv Q R w :
  frame (home :: ds) hs w -> (b = true -> forall w, frame ds hs w -> R rv None w) ->
  (b = false -> Q tt w) -> wp (O := O) (bail home b rv) Q R w.
Proof.
  intros Hw HR HQ. apply wp_when; [|done]. intros Hb. apply wp_bind. eapply wp_release; [done|].
  intros w' Hw'. by apply HR.
Qed.

Lemma wp_need ds hs r c rv Q R w :
  frame (home :: ds) hs w -> (forall w, frame ds hs w -> R rv None w) ->
  (has_cap (ResourceCapabilities r) c = true -> Q tt w) -> wp (O := O) (need home r c rv) Q R w.
Proof.
  intros Hw HR HQ. unfold need. eapply wp_bail; [done|by intros _|]. intros Hb. apply HQ. by zbool.
Qed.

Lemma wp_resource ds hs rid Q R w :
  frame (home :: ds) hs w -> (forall w, frame ds hs w -> R SA_ERR_HPI_INVALID_RESOURCE None w) ->
  (forall r, oh_get_resource_by_id home_rpt rid = Some r -> Q r w) ->
  wp (O := O) (OH_RESOURCE_GET home rid) Q R w.
Proof.
  intros Hw HR HQ. apply wp_bind. eapply wp_domain; [done|]. intros x _ Ex _.
  destruct (oh_get_resource_by_id (Some (rpt x)) rid) as [r|] eqn:Er.
  - apply HQ. by rewrite Ex.
  - apply wp_bind. by eapply wp_release.
Qed.

Lemma wp_resource_check ds hs rid Q R w :
  frame (home :: ds) hs w ->
  (forall rv w, rv <> SA_OK -> frame ds hs w -> R rv None w) ->
  (forall r, oh_get_resource_by_id home_rpt rid = Some r -> ResourceFailed r = SAHPI_FALSE -> Q r w) ->
  wp (O := O) (OH_RESOURCE_GET_CHECK home rid) Q R w.
Proof.
  intros Hw HR HQ. apply wp_bind. eapply wp_domain; [done|]. intros x _ Ex _.
  destruct (oh_get_resource_by_id (Some (rpt x)) rid) as [r|] eqn:Er.
  - destruct (Z.eqb_spec (ResourceFailed r) SAHPI_FALSE); simpl.
    + apply HQ; [by rewrite Ex|done].
    + apply wp_bind. eapply wp_release; [done|]. intros w' Hw'. by apply HR.
  - apply wp_bind. eapply wp_release; [done|]. intros w' Hw'. by apply HR.
Qed.

Lemma wp_instrument ds hs rid type num Q R w :
  frame (home :: ds) hs w -> (forall w, frame ds hs w -> R SA_ERR_HPI_NOT_PRESENT None w) ->
  (forall r, oh_get_rdr_by_type home_rpt rid type num = Some r -> Q r w) ->
  wp (O := O) (instrument home rid type num) Q R w.
Proof.
  intros Hw HR HQ. apply wp_bind. eapply wp_domain; [done|]. intros x _ Ex _.
  destruct (oh_get_rdr_by_type (Some (rpt x)) rid type num) as [r|] eqn:Er.
  - apply HQ. by rewrite Ex.
  - apply wp_bind. by eapply wp_release.
Qed.

(** ** Handlers and calls *)

(** The handler with an instance that owns the resource, if it has one. *)
Definition live (hid : Z) : Prop := exists x, handlers w0 !! hid = Some x /\ hnd x = true.
Definition handler_of (rid : Z) (h : option Z) : Prop :=
  match h with
  | Some hid => owner rid hid /\ live hid
  | None => forall hid, owner rid hid -> ~ live hid
  end.
Definition holding (h : option Z) (hs : list Z) : list Z :=
  match h with Some hid => hid :: hs | None => hs end.

Lemma resource_data_range n t rid : table_ok n t -> 0 <= oh_get_resource_data (Some t) rid <= Z.of_nat n.
Proof.
  intros Ht. unfold oh_get_resource_data. destruct (get_rptentry_by_rid (Some t) rid) as [[m e]|] eqn:E; [|lia].
  apply get_rptentry_elem in E as (Hin & _); [|apply Ht].
  pose proof (to_data _ _ Ht) as Hf. rewrite Forall_forall in Hf. apply (Hf _ Hin).
Qed.

Lemma wp_release_handler h ds hs Q R w :
  frame ds (holding h hs) w -> (forall w, frame ds hs w -> Q tt w) ->
  wp (O := O) (oh_release_handler h) Q R w.
Proof.
  intros Hw HQ. unfold wp, oh_release_handler. destruct h as [hid|]; [|by apply HQ].
  rewrite (fr_hids _ _ _ Hw), bool_decide_true by left. apply HQ.
  apply (frame_held _ _ _ _ _ (fun l => l) (remove_first hid) Hw); [apply Hw| |apply Hw].
  rewrite (fr_hids _ _ _ Hw). simpl. by rewrite Z.eqb_refl.
Qed.

Lemma wp_handler_has hid p x ds hs Q R w :
  frame ds hs w -> hid ∈ hs -> handlers w0 !! hid = Some x -> Q (p x) w ->
  wp (O := O) (handler_has hid p) Q R w.
Proof.
  intros Hw Hin Hx HQ. unfold wp, handler_has.
  rewrite (fr_hids _ _ _ Hw), bool_decide_true by done. by rewrite (fr_handlers _ _ _ Hw), Hx.
Qed.

Lemma wp_get_handler hid ds hs Q R w :
  frame ds hs w ->
  (handlers w0 !! hid = None -> Q None w) ->
  (forall x w, handlers w0 !! hid = Some x -> frame ds (hid :: hs) w -> Q (Some hid) w) ->
  wp (O := O) (oh_get_handler hid) Q R w.
Proof.
  intros Hw HN HS. unfold wp, oh_get_handler. rewrite (fr_handlers _ _ _ Hw).
  destruct (handlers w0 !! hid) as [x|]; [|by apply HN]. eapply HS; [done|].
  apply (frame_held _ _ _ _ _ (fun l => l) (cons hid) Hw); [apply Hw| |apply Hw].
  by rewrite (fr_hids _ _ _ Hw).
Qed.

Lemma wp_handler ds hs rid Q R w :
  frame (home :: ds) hs w -> (forall w, frame ds hs w -> R SA_ERR_HPI_INVALID_RESOURCE None w) ->
  (forall h w, frame (home :: ds) (holding h hs) w -> handler_of rid h -> (exists hid, owner rid hid) -> Q h w) ->
  wp (O := O) (OH_HANDLER_GET home rid) Q R w.
Proof.
  intros Hw HR HQ. apply wp_bind. eapply wp_domain; [done|]. intros x _ Ex Ht. cbv zeta.
  pose proof (resource_data_range _ _ rid Ht) as Hp. apply wp_bind, wp_when.
  - intros _. apply wp_bind. by eapply wp_release.
  - intros Hz. zbool. apply wp_bind. unfold wp at 1, cell.
    rewrite (proj2 (Z.leb_gt _ _)) by lia. rewrite (fr_cells _ _ _ Hw).
    destruct (cells w0 !! Z.to_nat (oh_get_resource_data (Some (rpt x)) rid - 1)) as [hid|] eqn:Ec.
    2:{ apply lookup_ge_None in Ec. lia. }
    assert (Ho : owner rid hid) by (unfold owner; cbv zeta; rewrite Ex; by split).
    assert (Hu : forall i, owner rid i -> i = hid).
    { intros i [_ Hi]. destruct Ho as [_ Ho]. cbv zeta in *. congruence. }
    apply wp_bind. eapply wp_get_handler; [done| |].
    + intros Hn. apply (HQ None); [done| |by exists hid]. intros i ->%Hu (y & Hy & _). congruence.
    + intros y w' Hy Hw'. apply wp_bind. eapply wp_handler_has; [done|left|done|]. destruct (hnd y) eqn:Eh.
      * apply (HQ (Some hid)); [done| |by exists hid]. split; [done|by exists y].
      * apply wp_bind. eapply (wp_release_handler (Some hid)); [done|]. intros w'' Hw''. apply (HQ None); [done| |by exists hid].
        intros i ->%Hu (u & Eu & Hlu). congruence.
Qed.

Lemma wp_owner_has hid rid p ds hs Q R w :
  frame ds (holding (Some hid) hs) w -> handler_of rid (Some hid) -> (forall b, Q b w) ->
  wp (O := O) (handler_has hid p) Q R w.
Proof. intros Hw [_ (x & Hx & _)] HQ. eapply wp_handler_has; [done|left|done|apply HQ]. Qed.

Definition stores {A} (rv : Z) (o : option A) : Prop := rv = SA_OK -> is_Some o.

Lemma frame_call ds hs w c :
  frame ds hs w -> permitted c -> frame ds hs (w <| calls ::= fun l => l ++ [c] |>).
Proof.
  intros [[H1 H2 H3 H4] ? ? ? ? (new & E & Hnew) ? ? ?] Hc. split; [split| | | | | | | |]; try done.
  exists (new ++ [c]). split.
  - unfold set_field. simpl. by rewrite E, app_assoc.
  - apply Forall_app. split; [done|]. by apply Forall_singleton.
Qed.

Lemma wp_call_abi h f err rid a ds hs Q R w :
  plugins_store -> frame ds (holding h hs) w -> handler_of rid h ->
  (forall hid, owner rid hid -> allowed f rid a) -> (forall w, frame ds hs w -> R err None w) ->
  (forall rv o w, (exists past hid, respond past hid f (Some rid) a = (rv, o)) -> stores rv o ->
     frame ds (holding h hs) w -> Q (rv, o) w) ->
  wp (O := O) (OH_CALL_ABI h f err rid a) Q R w.
Proof.
  intros HP Hw Hh Ha HR HQ. unfold OH_CALL_ABI, call_abi. destruct h as [hid|]; [|by apply HR].
  destruct Hh as [Ho (x & Hx & Hi)]. apply wp_bind. eapply wp_handler_has; [done|left|done|].
  destruct (abi x f) eqn:Ef.
  - unfold wp, plugin_call. destruct (respond (calls w) hid f (Some rid) a) as [rv o] eqn:E. apply HQ.
    + by exists (calls w), hid.
    + pose proof (HP (calls w) hid f (Some rid) a) as Hs. by rewrite E in Hs.
    + apply frame_call; [done|]. split; [by exists x|]. split; [done|by eapply Ha].
  - apply wp_bind. eapply (wp_release_handler (Some hid)); [done|]. intros w' Hw'. by apply HR.
Qed.

(** A call of another function of the interface. *)
Definition fn_ok {O'} (m : api O') : Prop := forall ds hs w,
  frame ds hs w -> wp m (fun _ _ => False) (fun rv o w => frame ds hs w /\ stores rv o) w.

Lemma wp_call {O'} (m : api O') ds hs (Q : Z * option O' -> daemon -> Prop) R w :
  fn_ok m -> frame ds hs w ->
  (forall rv o w, stores rv o -> frame ds hs w -> Q (rv, o) w) -> wp (O := O) (call m) Q R w.
Proof.
  intros Hm Hw HQ. specialize (Hm _ _ _ Hw). unfold wp in *. unfold call.
  destruct (m w) as [[[]|rv o| |] w']; try done. by destruct Hm as [Hw' Ho]; apply HQ.
Qed.

(** ** Changes of a domain *)

Lemma frame_ext ds hs w w' :
  frame ds hs w -> sessions w' = sessions w -> dt_table (doms w') = dt_table (doms w) ->
  dat_files w' = dat_files w -> cells w' = cells w -> handlers w' = handlers w ->
  calls w' = calls w -> held_domains w' = held_domains w -> held_handlers w' = held_handlers w ->
  frame ds hs w'.
Proof.
  intros [[H1 H2 H3 H4] ? ? ? ? (new & ? & ?) ? ? ?] E1 E2 E3 E4 E5 E6 E7 E8.
  split; [split|..]; rewrite ?E1, ?E2, ?E3, ?E4, ?E5, ?E7, ?E8; try done. exists new. by rewrite E6.
Qed.

Lemma wp_push e ds hs Q R w :
  frame ds hs w -> (forall w, frame ds hs w -> Q tt w) -> wp (O := O) (oh_evt_queue_push e) Q R w.
Proof. intros Hw HQ. apply HQ. by eapply frame_ext. Qed.

Lemma wp_del_files ds hs f Q R w :
  frame ds hs w -> (forall w, frame ds hs w -> Q tt w) ->
  wp (O := O) (modify (fun w => w <| del_files ::= f |>)) Q R w.
Proof. intros Hw HQ. apply HQ. by eapply frame_ext. Qed.

(** Everything but the tables of the domains and the alarm files is kept. *)
Lemma frame_update ds hs w t files :
  frame ds hs w ->
  (forall d, rpt <$> t !! d = rpt <$> dt_table (doms w) !! d) ->
  (forall d x, t !! d = Some x -> dat_ok g x) -> (forall d l, files !! d = Some l -> file_ok l) ->
  frame ds hs (w <| doms ::= fun m => m <| dt_table := t |> |> <| dat_files := files |>).
Proof.
  intros [[H1 H2 H3 H4] ? ? ? Hr ? ? ? ?] Ht Hd Hf. split; [split|..]; try done.
  - intros d x Hx. pose proof (Ht d) as E. simpl in Hx. rewrite Hx in E. simpl in E.
    destruct (dt_table (doms w) !! d) as [y|] eqn:Ey; [|done]. simpl in E. injection E as E.
    rewrite E. by apply (H2 d).
  - intros d. simpl. by rewrite Ht.
Qed.

Lemma fmap_alter_same {A B} (h : A -> B) (f : A -> A) (m : gmap Z A) k i :
  (forall x, m !! k = Some x -> h (f x) = h x) -> h <$> alter f k m !! i = h <$> m !! i.
Proof.
  intros Hf. destruct (decide (k = i)) as [<-|]; [|by rewrite lookup_alter_ne].
  rewrite lookup_alter_eq. destruct (m !! k) as [x|]; simpl; [by rewrite Hf|done].
Qed.

Lemma wp_set_d ds hs f Q R w :
  frame (home :: ds) hs w ->
  (forall x, dt_table (doms w) !! home = Some x -> rpt (f x) = rpt x /\ (dat_ok g x -> dat_ok g (f x))) ->
  (forall w, frame (home :: ds) hs w -> Q tt w) -> wp (O := O) (set_d home f) Q R w.
Proof.
  intros Hw Hf HQ. apply wp_bind. eapply wp_domain; [done|]. intros x Hx _ _. apply wp_modify, HQ.
  replace (w <| doms ::= _ |>) with
    (w <| doms ::= fun m => m <| dt_table := alter f home (dt_table (doms w)) |> |>
       <| dat_files := dat_files w |>) by (destruct w as [[] ? ? ? ? ? ? ? ?]; done).
  pose proof (ok_dat _ _ (fr_ok _ _ _ Hw)) as Hd.
  apply frame_update; [done| | |apply (fr_ok _ _ _ Hw)].
  - intros d. apply fmap_alter_same. intros y Hy. by apply Hf.
  - intros d y. destruct (decide (home = d)) as [<-|].
    + rewrite lookup_alter_eq, Hx. intros [= <-]. apply Hf; [done|]. by apply (Hd home).
    + rewrite lookup_alter_ne by done. apply Hd.
Qed.

(** ** Alarms *)

(** A function of [alarm.c] that leaves the resources alone and keeps the alarm
    table well formed. *)
Definition dat_step (f : dat_state -> dat_state) (s : dat_state) : Prop :=
  dat_state_ok g s -> dat_state_ok g (f s) /\ rpt (dom (f s)) = rpt (dom s).

Lemma stored_dat ds hs w (f : dat_state -> dat_state) x t :
  frame ds hs w -> dat_step f {| dom := x; dat_file := dat_files w !! home |} ->
  dt_table (doms w) !! home = Some x ->
  (forall d, t !! d = if decide (d = home)
     then Some (dom (f {| dom := x; dat_file := dat_files w !! home |})) else dt_table (doms w) !! d) ->
  frame ds hs
    (w <| doms ::= fun m => m <| dt_table := t |> |>
       <| dat_files := partial_alter
            (fun _ => dat_file (f {| dom := x; dat_file := dat_files w !! home |})) home (dat_files w) |>).
Proof.
  intros Hw Hf Hx Ht. destruct (fr_ok _ _ _ Hw) as [_ _ Hd Hl].
  destruct Hf as [[Hok Hfile] Er].
  { split; simpl; [by apply (Hd home)|]. destruct (dat_files w !! home) eqn:E; [|done]. by eapply Hl. }
  apply frame_update; [done| | |].
  - intros d. rewrite Ht. destruct (decide (d = home)) as [->|]; [|done]. rewrite Hx. simpl. by rewrite Er.
  - intros d y. rewrite Ht. destruct (decide (d = home)) as [->|]; [by intros [= <-]|apply Hd].
  - intros d l. destruct (decide (home = d)) as [<-|].
    + rewrite lookup_partial_alter_eq. intros E. by rewrite E in Hfile.
    + rewrite lookup_partial_alter_ne by done. apply Hl.
Qed.

Lemma wp_with_dat {A} ds hs (f : dat_state -> A * dat_state) Q R w :
  frame (home :: ds) hs w ->
  (forall s, dt_table (doms w) !! home = Some (dom s) -> dat_step (fun s => snd (f s)) s) ->
  (forall a w, frame (home :: ds) hs w -> Q a w) -> wp (O := O) (with_dat home f) Q R w.
Proof.
  intros Hw Hf HQ. apply wp_bind. eapply wp_domain; [done|]. intros x Hx _ _. apply wp_bind, wp_get.
  pose proof (stored_dat _ _ _ _ x (alter (fun _ => dom (snd (f {| dom := x; dat_file := dat_files w !! home |})))
    home (dt_table (doms w))) Hw (Hf {| dom := x; dat_file := _ |} Hx) Hx) as Hs.
  cbv beta in Hs.
  destruct (f {| dom := x; dat_file := dat_files w !! home |}) as [a s]. simpl in Hs.
  apply wp_bind, wp_bind. eapply wp_domain; [done|]. intros y _ _ _. apply wp_modify, wp_bind, wp_modify, wp_ret, HQ.
  replace (_ <| dat_files ::= _ |>) with
    (w <| doms ::= fun m => m <| dt_table := alter (fun _ => dom s) home (dt_table (doms w)) |> |>
       <| dat_files := partial_alter (fun _ => dat_file s) home (dat_files w) |>)
    by (destruct w as [[] ? ? ? ? ? ? ? ?]; done).
  apply Hs. intros d. case_decide as E; [subst; by rewrite lookup_alter_eq, Hx|].
  by rewrite lookup_alter_ne.
Qed.

Lemma wp_detect did ds hs f Q R w :
  default_did did = home -> frame ds hs w ->
  (forall s, dat_step (fun s => default s (snd (f (Some s)))) s) ->
  (forall w, frame ds hs w -> Q tt w) -> wp (O := O) (detect did f) Q R w.
Proof.
  intros Ed Hw Hf HQ. unfold wp, detect. rewrite Ed.
  destruct (oh_get_domain did (doms w)) as [x|] eqn:E; [|by apply HQ].
  destruct (home_exists _ _ _ _ _ Hw Ed E) as [Hx _].
  pose proof (stored_dat _ _ _ _ x
    (<[home := dom (default {| dom := x; dat_file := dat_files w !! home |}
                      (snd (f (Some {| dom := x; dat_file := dat_files w !! home |}))))]>
      (dt_table (doms w))) Hw (Hf _) Hx) as Hs. cbv beta in Hs.
  destruct (snd (f _)) as [s|]; [|by apply HQ]. simpl in Hs. apply HQ.
  replace (_ <| dat_files ::= _ |>) with
    (w <| doms ::= fun m => m <| dt_table := <[home := dom s]> (dt_table (doms w)) |> |>
       <| dat_files := partial_alter (fun _ => dat_file s) home (dat_files w) |>)
    by (destruct w as [[] ? ? ? ? ? ? ? ?]; done).
  apply Hs. intros d. case_decide as E'; [subst; by rewrite lookup_insert_eq|].
  by rewrite lookup_insert_ne.
Qed.
End Steps.

(** The end of the functions that change a resource's entry. *)
Lemma table_ok_store n t rid f :
  (forall r, EntryId (f r) = EntryId r /\ ResourceId (f r) = ResourceId r) ->
  table_ok n t -> table_ok n (store_resource rid f t).
Proof.
  intros Hf [Hr Hd Hs]. unfold store_resource.
  destruct (get_rptentry_by_rid (Some t) rid) as [[m e]|] eqn:E; [|done].
  destruct (get_rptentry_elem _ Hr _ _ _ E) as (Hin & Hok & _).
  destruct (Hf (rpt_entry e)) as [E1 E2].
  set (h := fun e => e <| rpt_entry ::= f |>).
  pose proof (set_entry_ok (alloc t) t m e h Hr Hin (le_n _) E1) as Hok'.
  assert (Ht : set_entry m h (t <| alloc := alloc t |>) = set_entry m h t) by (by destruct t).
  rewrite Ht in Hok'. split.
  - apply Hok'. destruct Hok as [H1 H2]. split; [|done]. unfold h. simpl. congruence.
  - apply Forall_forall. intros [i c] (a & Ha & ->)%store_at_elem. rewrite Forall_forall in Hd.
    specialize (Hd _ Ha). simpl in *. by destruct (Nat.eqb i m).
  - intros x r Hx Hrdr. rewrite (set_entry_view t m e h (fun x => (f x.1, x.2))) in Hx by done.
    unfold view_update in Hx. apply list_elem_of_fmap in Hx as (y & -> & Hy).
    destruct (ResourceId y.1 =? _); by apply (Hs y).
Qed.

Lemma wp_store_end {O} ds hs rid f rv (o : option O) (Q : Empty_set -> daemon -> Prop) w :
  (forall r, EntryId (f r) = EntryId r /\ ResourceId (f r) = ResourceId r) ->
  frame (home :: ds) hs w ->
  wp (set_d home (fun x => x <| rpt ::= store_resource rid f |>);; oh_release_domain home;; return_ rv o)
    Q (fun _ _ w => post ds hs w) w.
Proof.
  intros Hf Hw. apply wp_bind, wp_bind. eapply wp_domain; [done|]. intros x Hx _ _.
  apply wp_modify, wp_bind. destruct Hw as [[H1 H2 H3 H4] Hs Hc Hh Hr Hcalls Hd He Hi].
  unfold wp, oh_release_domain. simpl. rewrite Hd, bool_decide_true by left. simpl.
  split; [split|..]; simpl; try done.
  - intros d y. destruct (decide (home = d)) as [<-|].
    + rewrite lookup_alter_eq, Hx. intros [= <-]. apply table_ok_store; [done|]. by apply (H2 home).
    + rewrite lookup_alter_ne by done. apply H2.
  - intros d y. destruct (decide (home = d)) as [<-|].
    + rewrite lookup_alter_eq, Hx. intros [= <-]. specialize (H3 _ _ Hx). destruct H3. by constructor.
    + rewrite lookup_alter_ne by done. apply H3.
  - rewrite Hd. simpl. by rewrite Z.eqb_refl.
Qed.

(** Nothing but the handler is needed to set a tag or a severity. *)
Lemma owner_resource rid hid : owner rid hid -> exists r, oh_get_resource_by_id home_rpt rid = Some r.
Proof.
  unfold owner, oh_get_resource_data, oh_get_resource_by_id. cbv zeta.
  destruct (get_rptentry_by_rid home_rpt rid) as [[n e]|]; [by eexists|by intros [? _]].
Qed.
Lemma allowed_tag rid hid a : owner rid hid -> allowed set_resource_tag rid a.
Proof. intros [r Hr]%owner_resource. split; [by exists r|done]. Qed.
Lemma allowed_severity rid hid a : owner rid hid -> allowed set_resource_severity rid a.
Proof. intros [r Hr]%owner_resource. split; [by exists r|done]. Qed.

(** The capabilities and the state of the resource are all that is needed. *)
Lemma wp_forward f err rid a ds hs Q R w :
  plugins_store -> frame (home :: ds) hs w -> allowed f rid a ->
  (forall rv w, rv = err \/ rv = SA_ERR_HPI_INVALID_RESOURCE -> frame ds hs w -> R rv None w) ->
  (forall rv o w, stores rv o -> frame ds hs w -> R rv o w) ->
  wp (forward home rid f err a) Q R w.
Proof.
  intros HP Hw Ha HE HR. unfold forward. apply wp_bind.
  eapply wp_handler; [done|by intros w' Hw'; apply HE; [right|]|]. intros h w1 Hw1 Hh _. apply wp_bind.
  eapply wp_release; [done|]. intros w2 Hw2. apply wp_bind.
  eapply wp_call_abi; [done..|by intros w' Hw'; apply HE; [left|]|]. intros rv o w3 _ Ho Hw3. simpl.
  apply wp_bind. eapply wp_release_handler; [done|]. intros w4 Hw4. by apply HR.
Qed.

End Rules.
