(* ===== verification/ApiWalk.v ===== *)
(** The loops of the HPI functions over resources and alarms: each of them ends
    and visits every element once. *)
From S2P Require Import Prelude SaHpi GIndex EntityPath EPathPattern Rpt DomainState Alarm.
From S2P Require Import Api ApiDomain ApiEvents ApiManagement.

(** * Resources *)

Definition resources (t : RPTable) : list SaHpiRptEntryT := (rpt_view t).*1.

Lemma resources_length t : length (resources t) = length (rptlist t).
Proof. unfold resources, rpt_view. by rewrite !length_fmap. Qed.

Lemma resource_first t : rpt_ok t -> oh_get_resource_by_id (Some t) SAHPI_FIRST_ENTRY = head (resources t).
Proof. intros Ht. rewrite res_by_id_view by done. unfold view_find, resources. by rewrite head_fmap. Qed.

(** The resource after a resource. *)
Lemma resource_next t l1 x l2 :
  rpt_ok t -> resources t = l1 ++ x :: l2 -> oh_get_resource_next (Some t) (ResourceId x) = head l2.
Proof.
  intros Ht E. rewrite res_next_view by done. destruct (rpt_view_nodup t Ht) as [Hd Hz].
  transitivity (if ResourceId x =? SAHPI_FIRST_ENTRY then head (resources t)
                else after (fun a => ResourceId a =? ResourceId x) (resources t)).
  { unfold resources. rewrite after_map, head_fmap. by case_if. }
  apply (keys_walk ResourceId) with l1; [|by unfold resources; rewrite Forall_fmap|done].
  unfold resources. by rewrite <- list_fmap_compose.
Qed.

(** A resource found is one of the list; any id but the first entry's names at
    most one. *)
Lemma resource_split t rid x :
  rpt_ok t -> oh_get_resource_by_id (Some t) rid = Some x -> exists l1 l2, resources t = l1 ++ x :: l2.
Proof.
  intros Ht Hx. apply list_elem_of_split. rewrite res_by_id_view in Hx by done. unfold resources.
  unfold view_find in Hx. destruct (rid =? SAHPI_FIRST_ENTRY).
  - apply head_Some_elem_of. by rewrite head_fmap.
  - destruct (List.find _ _) as [y|] eqn:Ey; [|done]. injection Hx as <-.
    apply List.find_some in Ey as [Ey%list_elem_of_In _]. apply list_elem_of_fmap. by exists y.
Qed.

(** ** [saHpiGetChildEntityPath] *)

Lemma find_child_all fuel t epp l1 l2 :
  rpt_ok t -> resources t = l1 ++ l2 -> (length l2 <= fuel)%nat ->
  find_child fuel t epp true (head l2) = Some (List.find (is_child epp) l2).
Proof.
  intros Ht. revert l1 l2. induction fuel as [|fuel IH]; intros l1 [|x l2] E Hf; cbn [length] in Hf; try done.
  - lia.
  - cbn [head find_child List.find]. destruct (is_child epp x); [done|]. simpl negb. cbn iota.
    rewrite (resource_next t l1 x l2) by done. apply (IH (l1 ++ [x])); [|lia].
    by rewrite E, <- app_assoc.
Qed.

(** The search from an instance, and the search for the one after it. *)
Definition child_from (t : RPTable) (epp : oh_entitypath_pattern) (rid : Z) : option SaHpiRptEntryT :=
  if rid =? SAHPI_FIRST_ENTRY then List.find (is_child epp) (resources t)
  else x ← oh_get_resource_by_id (Some t) rid; if is_child epp x then Some x else None.

Lemma find_child_ends t epp rid :
  rpt_ok t ->
  find_child (resource_fuel t) t epp (rid =? SAHPI_FIRST_ENTRY) (oh_get_resource_by_id (Some t) rid)
  = Some (child_from t epp rid).
Proof.
  intros Ht. unfold child_from. destruct (Z.eqb_spec rid SAHPI_FIRST_ENTRY) as [->|_].
  - rewrite resource_first by done. apply (find_child_all _ t epp []); [done|done|].
    by rewrite resources_length.
  - destruct (oh_get_resource_by_id (Some t) rid) as [x|]; [|by destruct (resource_fuel t)].
    destruct (resource_fuel t); simpl; by destruct (is_child epp x).
Qed.

Lemma find_child_after t epp l1 x l2 :
  rpt_ok t -> resources t = l1 ++ x :: l2 ->
  find_child (resource_fuel t) t epp true (oh_get_resource_next (Some t) (ResourceId x))
  = Some (List.find (is_child epp) l2).
Proof.
  intros Ht E. rewrite (resource_next t l1 x l2) by done.
  apply (find_child_all _ t epp (l1 ++ [x])); [done|by rewrite E, <- app_assoc|].
  unfold resource_fuel. rewrite <- resources_length, E, length_app. simpl. lia.
Qed.

Lemma child_from_elem t epp rid x : rpt_ok t -> child_from t epp rid = Some x -> x ∈ resources t.
Proof.
  intros Ht. unfold child_from. destruct (rid =? SAHPI_FIRST_ENTRY).
  - intros [Hx%list_elem_of_In _]%List.find_some. done.
  - destruct (oh_get_resource_by_id (Some t) rid) as [y|] eqn:Ey; [|done]. simpl.
    destruct (is_child epp y); [|done]. intros [= ->].
    apply resource_split in Ey as (l1 & l2 & ->); [|done]. apply elem_of_app. right. left.
Qed.

(** ** [saHpiAutoInsertTimeoutSet] *)

(** The handler that owns a resource. *)
Definition owned (cells : list Z) (t : RPTable) (rid hid : Z) : Prop :=
  let p := oh_get_resource_data (Some t) rid in p <> 0 /\ cells !! Z.to_nat (p - 1) = Some hid.

Lemma collect_hids_ends fuel cells t l1 l2 hids :
  rpt_ok t -> resources t = l1 ++ l2 -> (length l2 <= fuel)%nat ->
  (forall rid, 0 <= oh_get_resource_data (Some t) rid <= Z.of_nat (length cells)) ->
  Forall (fun hid => exists rid, owned cells t rid hid) hids ->
  exists hids', collect_hids fuel cells t (head l2) hids = Some hids' /\
    Forall (fun hid => exists rid, owned cells t rid hid) hids'.
Proof.
  intros Ht E Hf Hp. revert l1 l2 hids E Hf. induction fuel as [|fuel IH]; intros l1 [|x l2] hids E Hf Hh;
    cbn [length] in Hf; try (by exists hids); [lia|].
  cbn [head collect_hids]. rewrite (resource_next t l1 x l2) by done. cbv zeta.
  assert (E' : resources t = (l1 ++ [x]) ++ l2) by by rewrite E, <- app_assoc.
  destruct (truthy (oh_get_resource_data (Some t) (ResourceId x))) eqn:Et; [|by eapply IH; [done|lia|]].
  apply truthy_true in Et. pose proof (Hp (ResourceId x)) as Hx.
  destruct (cells !! Z.to_nat (oh_get_resource_data (Some t) (ResourceId x) - 1)) as [hid|] eqn:Ec.
  2:{ apply lookup_ge_None in Ec. lia. }
  eapply IH; [done|lia|]. case_bool_decide; [done|]. apply Forall_app. split; [done|].
  apply Forall_singleton. by exists (ResourceId x).
Qed.

(** * Alarms *)

(** The acknowledging loop ends, with every alarm of the severity acknowledged. *)
Definition acked (a : SaHpiAlarmT) : SaHpiAlarmT := a <| Acknowledged := SAHPI_TRUE |>.
Definition ack_above (aid sev : Z) (a : SaHpiAlarmT) : SaHpiAlarmT :=
  if (aid <? AlarmId a) && alarm_matches (of_severity sev) false a then acked a else a.

Lemma acknowledge_split l1 a l2 : acknowledge (length l1) (l1 ++ a :: l2) = l1 ++ acked a :: l2.
Proof. unfold acknowledge. induction l1 as [|b l1 IH]; simpl; [done|]. by rewrite <- IH. Qed.

Lemma ack_loop_spec fuel sev aid l :
  StronglySorted Z.lt (AlarmId <$> l) -> Forall (fun a => AlarmId a <= SAHPI_LAST_ENTRY) l ->
  (length (above aid l) <= fuel)%nat ->
  ack_loop fuel sev (get_alarm_node l (Some aid) (of_severity sev) false true) l
  = Some (ack_above aid sev <$> l).
Proof.
  revert aid l. induction fuel as [|fuel IH]; intros aid l Hs Hb Hf; rewrite next_node by done.
  all: pose proof (find_alarm_spec (fun a => (aid <? AlarmId a) && alarm_matches (of_severity sev) false a) 0 l) as Hn.
  all: destruct (find_alarm _ 0 l) as [[i a]|] eqn:Ef.
  2,4: simpl; f_equal; etrans; [symmetry; apply list_fmap_id|]; apply list_fmap_ext;
       intros _ x Hx%list_elem_of_lookup_2; unfold ack_above;
       rewrite Forall_forall in Hn; by rewrite (Hn x Hx).
  all: destruct Hn as (l1 & l2 & -> & -> & Ha & Hl1); rewrite above_app, length_app in Hf; cbn [above List.filter] in Hf.
  all: apply andb_true_iff in Ha as [Ha1 Ha2]; rewrite Ha1 in Hf; cbn [length] in Hf; try (exfalso; lia).
  cbn [ack_loop]. cbv zeta. change (0 + length l1)%nat with (length l1). rewrite acknowledge_split.
  assert (Hid : AlarmId <$> l1 ++ acked a :: l2 = AlarmId <$> l1 ++ a :: l2) by by rewrite !fmap_app.
  destruct (sorted_split _ _ _ Hs) as (Hlt & Hgt & _).
  rewrite IH.
  - f_equal. rewrite !fmap_app, !fmap_cons. f_equal; [|f_equal].
    + apply list_fmap_ext. intros _ x Hx%list_elem_of_lookup_2. rewrite Forall_forall in Hlt, Hl1.
      unfold ack_above. rewrite (Hl1 x Hx). by rewrite (proj2 (Z.ltb_ge _ _)) by (apply Z.lt_le_incl, Hlt, Hx).
    + unfold ack_above. rewrite Ha1, Ha2. cbn [AlarmId acked set_field].
      change (AlarmId (acked a)) with (AlarmId a). by rewrite Z.ltb_irrefl.
    + apply list_fmap_ext. intros _ x Hx%list_elem_of_lookup_2. rewrite Forall_forall in Hgt.
      specialize (Hgt x Hx). zbool. unfold ack_above.
      by rewrite (proj2 (Z.ltb_lt (AlarmId a) _)), (proj2 (Z.ltb_lt aid _)) by lia.
  - by rewrite Hid.
  - apply Forall_app in Hb as [Hb1 Hb2]. apply Forall_app. split; [done|]. by inversion_clear Hb2; constructor.
  - rewrite above_app, length_app. cbn [above List.filter]. change (AlarmId (acked a)) with (AlarmId a).
    rewrite Z.ltb_irrefl. zbool.
    pose proof (above_le aid (AlarmId a) l1). pose proof (above_le aid (AlarmId a) l2).
    unfold above in *. lia.
Qed.

Lemma acknowledge_same {A} (p : SaHpiAlarmT -> A) i l :
  (forall a, p (acked a) = p a) -> p <$> acknowledge i l = p <$> l.
Proof.
  intros Hp. unfold acknowledge. revert i. induction l as [|a l IH]; intros [|i]; simpl; try done.
  - by rewrite Hp.
  - f_equal. apply IH.
Qed.

Lemma ack_above_same {A} (p : SaHpiAlarmT -> A) aid sev (l : list SaHpiAlarmT) :
  (forall a, p (acked a) = p a) -> p <$> (ack_above aid sev <$> l) = p <$> l.
Proof.
  intros Hp. rewrite <- list_fmap_compose. apply list_fmap_ext. intros _ a _. unfold ack_above. simpl.
  destruct (_ && _); [apply Hp|done].
Qed.

