(* ===== verification/ApiSafe.v ===== *)
(** Every HPI function ends without undefined behaviour, releases the domains and
    handlers that it locks, calls only functions of plug-ins that are permitted,
    and keeps the daemon well formed.

    [api] executes a function symbolically with the rules of [ApiRules]; the
    requests of each part of the interface are a predicate, with the conditions
    under which the code is safe. *)
From S2P Require Import Prelude SaHpi GIndex EntityPath EPathPattern Rpt EventLog Conf DomainState EventUtils.
From S2P Require Import Alarm Session TextBuffer Validate Domain Event Api ApiDomain ApiEvents.
From S2P Require Import ApiInstruments ApiInventory ApiManagement ApiRules ApiWalk.

Arguments wp {O A} m Q R w : simpl never.

(** * Symbolic execution *)

Create HintDb api_fn.

(** The definition at the head of a function. *)
Ltac head_of t := lazymatch t with ?f _ => head_of f | _ => t end.

(** A return, or what a rule asks for on an error path. *)
Ltac api_stores :=
  first [assumption | solve [eauto with api_fn] | let E := fresh in intros E; first
    [ done | by rewrite E | by eexists | exfalso; revert E; by apply Z.eqb_neq
    | exfalso; zbool; done | by (zbool; simplify_eq) ] ].
Ltac api_close :=
  intros; cbv beta; first
    [ eapply frame_post; eassumption
    | split; [eassumption | api_stores] ].

Ltac api_found :=
  first [eassumption | match goal with Hh : home_rpt _ _ = Some _ |- _ => rewrite Hh; eassumption end].
Ltac api_allowed :=
  first
    [ by eapply allowed_tag | by eapply allowed_severity
    | constructor;
      [ eexists; split; [api_found|]; cbn [state_fits caps_of]; split;
        [first [reflexivity | by apply Z.eqb_eq | by zbool]
        |repeat (apply List.Forall_cons; [assumption|]); apply List.Forall_nil ]
      | cbn [instrument_no]; first [exact I | eexists; eassumption] ] ].

(** A change of a domain that its alarms and resources do not notice. *)
Lemma dat_ok_same g x y : dat y = dat x -> domain_id y = domain_id x -> dat_ok g x -> dat_ok g y.
Proof. intros E1 E2 [H1 H2 H3 H4 H5 H6]. unfold alarms in *. split; unfold alarms; rewrite ?E1, ?E2; done. Qed.
Ltac api_keep := split; [done | by apply dat_ok_same].

(** What is read was stored. *)
Ltac api_some :=
  cbn [fst snd] in *;
  first [ by eexists
        | match goal with Hs : stores ?rv ?o |- is_Some ?o => apply Hs; zbool; by simplify_eq end
        | zbool; match goal with |- is_Some ?o => destruct o; [by eexists|done] end
        | match goal with o : option _ |- is_Some ?o => destruct o; [by eexists|done] end
        | solve [eauto with api_fn] ].

Ltac api_step :=
  cbv beta iota;
  lazymatch goal with
  | |- wp (set_d _ (fun x => x <| rpt ::= store_resource _ _ |>) ≫= _) _ _ _ =>
      eapply wp_store_end; [by intros|eassumption]
  | |- wp (_ ≫= _) _ _ _ => apply wp_bind
  | |- wp (mret _) _ _ _ => apply wp_ret
  | |- wp (return_ _ _) _ _ _ => apply wp_return; api_close
  | |- wp (fail _) _ _ _ => apply wp_fail; api_close
  | |- wp (reject _ _) _ _ _ => apply wp_reject; [api_close|intros ?]
  | |- wp (when _ _) _ _ _ => apply wp_when; intros ?
  | |- wp (OH_CHECK_INIT_STATE _) _ _ _ => eapply wp_check; [eassumption|api_close|intros ? ?]
  | |- wp (OH_GET_DID _) _ _ _ => eapply wp_did; [eassumption|api_close|intros ? ?]
  | |- wp (OH_GET_DOMAIN _) _ _ _ => eapply wp_get_domain; [eassumption|eassumption|api_close|intros ? ? ?]
  | |- wp (domain _) _ _ _ => eapply wp_domain; [eassumption|intros ? ? ? ?]
  | |- wp (oh_release_domain _) _ _ _ => eapply wp_release; [eassumption|intros ? ?]
  | |- wp (bail _ _ _) _ _ _ => eapply wp_bail; [eassumption|api_close|intros ?]
  | |- wp (need _ _ _ _) _ _ _ => eapply wp_need; [eassumption|api_close|intros ?]
  | |- wp (OH_RESOURCE_GET _ _) _ _ _ => eapply wp_resource; [eassumption|api_close|intros ? ?]
  | |- wp (OH_RESOURCE_GET_CHECK _ _) _ _ _ => eapply wp_resource_check; [eassumption|api_close|intros ? ? ?]
  | |- wp (instrument _ _ _ _) _ _ _ => eapply wp_instrument; [eassumption|api_close|intros ? ?]
  | |- wp (OH_HANDLER_GET _ _) _ _ _ => eapply wp_handler; [eassumption|api_close|intros ? ? ? ? ?]
  | |- wp (handler_has _ _) _ _ _ => eapply wp_owner_has; [eassumption|eassumption|intros ?]
  | |- wp (oh_release_handler _) _ _ _ => eapply wp_release_handler; [eassumption|intros ? ?]
  | |- wp (OH_CALL_ABI _ ?f _ _ _) _ _ _ =>
      eapply (wp_call_abi _ _ _ _ f); [eassumption|eassumption|eassumption|intros ? ?; api_allowed|api_close|intros ? ? ? ? ? ?]
  | |- wp (forward _ _ ?f _ _) _ _ _ =>
      eapply (wp_forward _ _ _ f); [eassumption|eassumption|api_allowed|intros ? ? [->| ->] ?; api_close|api_close]
  | |- wp (call _) _ _ _ => eapply wp_call; [solve [eauto with api_fn]|eassumption|intros ? ? ? ? ?]
  | |- wp (read _) _ _ _ => eapply wp_read; [api_some|intros ? ?]
  | |- wp (set_d _ _) _ _ _ => eapply wp_set_d; [eassumption|intros ? ?; try api_keep|intros ? ?]
  | |- wp (with_dat _ _) _ _ _ => eapply wp_with_dat; [eassumption|solve [auto with api_fn]|intros ? ? ?]
  | |- wp (oh_evt_queue_push _) _ _ _ => eapply wp_push; [eassumption|intros ? ?]
  | |- wp (modify (fun w => w <| del_files ::= _ |>)) _ _ _ => eapply wp_del_files; [eassumption|intros ? ?]
  | |- wp (dequeue _ _ _) _ _ _ => fail
  | |- wp (detect _ _) _ _ _ => eapply wp_detect; [eassumption|eassumption|solve [auto with api_fn]|intros ? ?]
  | |- wp (get _) _ _ _ => apply wp_get
  | |- wp (ends _) _ _ _ => eapply wp_ends; [solve [eauto with api_fn]|intros ? ?]
  | |- wp (let _ := _ in _) _ _ _ => cbv zeta
  | |- wp (match ?x with _ => _ end) _ _ _ => destruct x eqn:?
  | |- wp ?m _ _ _ => let h := head_of m in unfold h
  end.
Ltac api := repeat api_step.

Section Safety.
Context `{Plugins} `{UidLookup} `{EntityPathLookup} (E : env) (sid : Z) (w0 : daemon).
Context (Hplugins : plugins_store) (Hok : daemon_ok (e_params E) w0).

#[local] Notation frame := (frame (e_params E) sid w0).
#[local] Notation post := (post (e_params E) sid w0).

(** The number of an instrument has 16 bits. *)
Definition number (n : Z) : Prop := 0 <= n < 2 ^ 16.

(** A function is safe: it ends in a return, with nothing held any more. *)
Definition safe {O} (m : api O) : Prop :=
  frame [] [] w0 -> wp m (fun _ _ => False) (fun _ _ w => post [] [] w) w0.

(** ** What is stored in the tables *)

Lemma home_table t : home_rpt sid w0 = Some t -> table_ok (length (cells w0)) t.
Proof using Hok.
  unfold home_rpt. destruct (dt_table (doms w0) !! home sid w0) as [x|] eqn:Ex; [|done].
  intros [= <-]. apply (ok_rpt _ _ Hok _ _ Ex).
Qed.

(** The record found by a type and a number of 16 bits is of that type. *)
Lemma home_rdr rid type num r :
  oh_get_rdr_by_type (home_rpt sid w0) rid type num = Some r -> number num ->
  0 < type < 2 ^ 16 -> rdr_typed r /\ RdrType r = type.
Proof using Hok.
  intros Hr Hn Ht. unfold number in Hn. destruct (home_rpt sid w0) as [t|] eqn:Et; [|done].
  pose proof (home_table _ Et) as Hok'. pose proof (to_rpt _ _ Hok') as Ht'.
  change (oh_get_rdr_by_type (Some t) rid type num) with (oh_get_rdr_by_id (Some t) rid (oh_get_rdr_uid type num)) in Hr.
  rewrite rdr_by_id_view in Hr by done.
  destruct (view_find rid (rpt_view t)) as [x|] eqn:Ex; [|done]. simpl in Hr. unfold rdr_find in Hr.
  rewrite uid_small in Hr by lia. rewrite (proj2 (Z.eqb_neq _ _)) in Hr by (consts; lia).
  apply List.find_some in Hr as [Hin%list_elem_of_In Hid]. zbool.
  assert (Hx : x ∈ rpt_view t).
  { unfold view_find in Ex. destruct (rid =? SAHPI_FIRST_ENTRY); [by apply head_Some_elem_of|].
    by apply List.find_some in Ex as [Ex%list_elem_of_In _]. }
  pose proof (to_rdrs _ _ Hok' x r Hx Hin) as Hr.
  split; [done|]. destruct Hr as [Hr1 Hr2 Hr3 _]. rewrite Hr3, uid_small in Hid by lia. lia.
Qed.

Lemma home_rest rid type num r :
  oh_get_rdr_by_type (home_rpt sid w0) rid type num = Some r -> number num ->
  type ∈ [SAHPI_CTRL_RDR; SAHPI_SENSOR_RDR; SAHPI_ANNUNCIATOR_RDR; SAHPI_FUMI_RDR] ->
  match Rest (RdrTypeUnion r) with
  | CtrlRest c => type = SAHPI_CTRL_RDR /\ ctrl_typed c
  | SensorRest _ => type = SAHPI_SENSOR_RDR
  | AnnunciatorRest _ => type = SAHPI_ANNUNCIATOR_RDR
  | FumiRest _ => type = SAHPI_FUMI_RDR
  | OtherRest _ => False
  end.
Proof using Hok.
  intros Hr Hn Ht. destruct (home_rdr _ _ _ _ Hr Hn) as [[_ _ _ Hc] Et].
  { repeat (apply elem_of_cons in Ht as [->|Ht]; [done|]). by apply not_elem_of_nil in Ht. }
  rewrite Et in Hc. destruct (Rest (RdrTypeUnion r)); done.
Qed.

Ltac rest := intros Hr Hn; apply home_rest in Hr; [|done|apply list_elem_of_In; simpl; tauto].
Lemma sensor_rec rid num r :
  oh_get_rdr_by_type (home_rpt sid w0) rid SAHPI_SENSOR_RDR num = Some r -> number num -> is_Some (SensorRec r).
Proof using Hok. rest. unfold SensorRec. destruct (Rest (RdrTypeUnion r)); try done; by destruct Hr. Qed.
Lemma ctrl_rec rid num r :
  oh_get_rdr_by_type (home_rpt sid w0) rid SAHPI_CTRL_RDR num = Some r -> number num ->
  exists c, CtrlRec r = Some c /\ ctrl_typed c.
Proof using Hok. rest. unfold CtrlRec. destruct (Rest (RdrTypeUnion r)); try done. destruct Hr. by eexists. Qed.
Lemma annunciator_rec rid num r :
  oh_get_rdr_by_type (home_rpt sid w0) rid SAHPI_ANNUNCIATOR_RDR num = Some r -> number num ->
  is_Some (AnnunciatorRec r).
Proof using Hok. rest. unfold AnnunciatorRec. destruct (Rest (RdrTypeUnion r)); try done; by destruct Hr. Qed.
Lemma fumi_rec rid num r :
  oh_get_rdr_by_type (home_rpt sid w0) rid SAHPI_FUMI_RDR num = Some r -> number num -> is_Some (FumiRec r).
Proof using Hok. rest. unfold FumiRec. destruct (Rest (RdrTypeUnion r)); try done; by destruct Hr. Qed.
Lemma ctrl_some rid num r :
  oh_get_rdr_by_type (home_rpt sid w0) rid SAHPI_CTRL_RDR num = Some r -> number num -> is_Some (CtrlRec r).
Proof using Hok. intros Hr Hn. destruct (ctrl_rec _ _ _ Hr Hn) as (c & -> & _). by eexists. Qed.
Lemma line_beyond_some rid num r c s :
  oh_get_rdr_by_type (home_rpt sid w0) rid SAHPI_CTRL_RDR num = Some r -> number num -> CtrlRec r = Some c ->
  (ctrl_Type c =? SAHPI_CTRL_TYPE_TEXT) = true -> is_Some (line_beyond c s).
Proof using Hok.
  intros Hr Hn Hc Ht. destruct (ctrl_rec _ _ _ Hr Hn) as (c' & Hc' & Hty).
  assert (c' = c) as -> by congruence. unfold line_beyond, ctrl_Type, ctrl_typed in *.
  destruct (TypeUnion c); try done. zbool. by subst.
Qed.
Lemma thresholds_some rid num r a :
  oh_get_rdr_by_type (home_rpt sid w0) rid SAHPI_SENSOR_RDR num = Some r -> number num ->
  is_Some (oh_valid_thresholds (Some a) (Some r)) /\ is_Some (oh_valid_ordering (Some a) (Some r)).
Proof using Hok.
  intros Hr Hn. destruct (sensor_rec _ _ _ Hr Hn) as [c Hc].
  unfold oh_valid_thresholds, oh_valid_ordering. rewrite Hc.
  destruct (negb _); [split; by eexists|]. split; repeat case_match; by eexists.
Qed.
Lemma valid_thresholds_some rid num r a :
  oh_get_rdr_by_type (home_rpt sid w0) rid SAHPI_SENSOR_RDR num = Some r -> number num ->
  is_Some (oh_valid_thresholds (Some a) (Some r)).
Proof using Hok. intros Hr Hn. by eapply thresholds_some. Qed.
Lemma valid_ordering_some rid num r a :
  oh_get_rdr_by_type (home_rpt sid w0) rid SAHPI_SENSOR_RDR num = Some r -> number num ->
  is_Some (oh_valid_ordering (Some a) (Some r)).
Proof using Hok. intros Hr Hn. by eapply thresholds_some. Qed.
#[local] Hint Resolve sensor_rec ctrl_some annunciator_rec fumi_rec line_beyond_some
  valid_thresholds_some valid_ordering_some : api_fn.

(** ** The functions that others call *)

#[local] Notation fn_ok := (fn_ok (e_params E) sid w0).

Lemma hotswap_state_ok rid a : fn_ok (saHpiHotSwapStateGet sid rid a).
Proof using Hplugins. intros ds hs w Hw. api. Qed.
Lemma source_info_ok rid num a b : fn_ok (saHpiFumiSourceInfoGet sid rid num a b).
Proof using Hplugins. intros ds hs w Hw. api. Qed.
Lemma annunciator_mode_ok rid num a : fn_ok (saHpiAnnunciatorModeGet sid rid num a).
Proof using Hplugins. intros ds hs w Hw. api. Qed.
Lemma log_caps_ok rid a : fn_ok (saHpiEventLogCapabilitiesGet sid rid a).
Proof using Hplugins. intros ds hs w Hw. api. Qed.
Lemma el_info_stores now l i rv o : oh_el_info now l (Some i) = (rv, o) -> stores rv o.
Proof. unfold oh_el_info. destruct l; intros [= <- <-] ?; [by eexists|done]. Qed.
#[local] Hint Resolve el_info_stores : api_fn.
Lemma log_info_ok rid a : fn_ok (saHpiEventLogInfoGet E sid rid a).
Proof using Hplugins. intros ds hs w Hw. api. Qed.
Lemma thresholds_ok rid num a : number num -> fn_ok (saHpiSensorThresholdsGet sid rid num a).
Proof using Hplugins Hok. intros Hn ds hs w Hw. api. Qed.
#[local] Hint Resolve hotswap_state_ok source_info_ok annunciator_mode_ok log_caps_ok log_info_ok
  thresholds_ok : api_fn.

(** ** The requests

    Beside the type of its arguments a request has the conditions on the state
    and on the plug-ins without which the code is not safe. *)

(** Every handler that owns a resource is there. *)
Definition handlers_live : Prop := forall rid hid, owner sid w0 rid hid -> live w0 hid.

(** A digital control always has a digital state. *)
Definition digital_controls : Prop := forall past hid rid a,
  exists m v, snd (respond past hid get_control_state rid a) = Some (m, Some (StateDigital v)).

(** What the other threads do meanwhile keeps the sessions well formed. *)
Definition others_ok : Prop :=
  forall i s ths, conf_ok (s, ths) -> conf_ok (e_others E i s, ths).

(** The wait for a round of the discovery thread ends, and what the other threads
    do meanwhile keeps the daemon well formed; what they hold, they release, and
    their calls of plug-ins are not those of the request. *)
Definition round_ok : Prop :=
  e_started E = true -> exists others, e_round E = Some others /\
    forall w, daemon_ok (e_params E) w ->
      daemon_ok (e_params E) (others w) /\ calls (others w) = calls w /\
      held_domains (others w) = held_domains w /\ held_handlers (others w) = held_handlers w.

(** There is an id for one more alarm. *)
Definition alarm_id_free : Prop :=
  limits_u32 (e_params E) /\
  forall x, dt_table (doms w0) !! home sid w0 = Some x -> dat_next_id (dat x) < SAHPI_LAST_ENTRY.

Inductive domain_request : forall {O}, api O -> Prop :=
  | SessionClose_req : domain_request (saHpiSessionClose sid)
  | Discover_req : round_ok -> domain_request (saHpiDiscover E sid)
  | DomainInfoGet_req a : domain_request (saHpiDomainInfoGet E sid a)
  | DrtEntryGet_req a b c : domain_request (saHpiDrtEntryGet sid a b c)
  | DomainTagSet_req a : domain_request (saHpiDomainTagSet sid a)
  | RptEntryGet_req a b c : domain_request (saHpiRptEntryGet sid a b c)
  | RptEntryGetByResourceId_req rid a : domain_request (saHpiRptEntryGetByResourceId sid rid a)
  | ResourceSeveritySet_req rid a : domain_request (saHpiResourceSeveritySet E sid rid a)
  | ResourceTagSet_req rid a : domain_request (saHpiResourceTagSet sid rid a)
  | MyEntityPathGet_req : domain_request (saHpiMyEntityPathGet sid)
  | ResourceIdGet_req : domain_request (saHpiResourceIdGet sid)
  | GetIdByEntityPath_req a b c d e f : domain_request (saHpiGetIdByEntityPath sid a b c d e f)
  | GetChildEntityPath_req a b d : domain_request (saHpiGetChildEntityPath sid a b true d)
  | ResourceFailedRemove_req rid : handlers_live -> domain_request (saHpiResourceFailedRemove E sid rid).

Inductive event_request : forall {O}, api O -> Prop :=
  | EventLogInfoGet_req rid a : event_request (saHpiEventLogInfoGet E sid rid a)
  | EventLogCapabilitiesGet_req rid a : event_request (saHpiEventLogCapabilitiesGet sid rid a)
  | EventLogEntryGet_req rid a b c d e f : event_request (saHpiEventLogEntryGet sid rid a b c d e f)
  | EventLogEntryAdd_req rid a : event_request (saHpiEventLogEntryAdd E sid rid a)
  | EventLogClear_req rid : event_request (saHpiEventLogClear sid rid)
  | EventLogTimeGet_req rid a : event_request (saHpiEventLogTimeGet E sid rid a)
  | EventLogTimeSet_req rid a : event_request (saHpiEventLogTimeSet E sid rid a)
  | EventLogStateGet_req rid a : event_request (saHpiEventLogStateGet E sid rid a)
  | EventLogStateSet_req rid a : event_request (saHpiEventLogStateSet sid rid a)
  | EventLogOverflowReset_req rid : event_request (saHpiEventLogOverflowReset sid rid)
  | Subscribe_req : event_request (saHpiSubscribe sid)
  | Unsubscribe_req : event_request (saHpiUnsubscribe sid)
  | EventGet_req a b c d e : others_ok -> a <> SAHPI_TIMEOUT_BLOCK -> event_request (saHpiEventGet E sid a b c d e)
  | EventAdd_req a : event_request (saHpiEventAdd E sid a)
  | AlarmGetNext_req a b c : event_request (saHpiAlarmGetNext sid a b c)
  | AlarmGet_req a b : event_request (saHpiAlarmGet sid a b)
  | AlarmAcknowledge_req a b : event_request (saHpiAlarmAcknowledge sid a b)
  | AlarmAdd_req a : alarm_id_free -> event_request (saHpiAlarmAdd E sid a)
  | AlarmDelete_req a b : event_request (saHpiAlarmDelete E sid a b).

Inductive instrument_request : forall {O}, api O -> Prop :=
  | RdrGet_req rid a b c : instrument_request (saHpiRdrGet sid rid a b c)
  | RdrGetByInstrumentId_req rid a b c : instrument_request (saHpiRdrGetByInstrumentId sid rid a b c)
  | RdrUpdateCountGet_req rid a : instrument_request (saHpiRdrUpdateCountGet sid rid a)
  | SensorReadingGet_req rid num a b : instrument_request (saHpiSensorReadingGet sid rid num a b)
  | SensorThresholdsGet_req rid num a : number num -> instrument_request (saHpiSensorThresholdsGet sid rid num a)
  | SensorThresholdsSet_req rid num a : number num -> instrument_request (saHpiSensorThresholdsSet sid rid num a)
  | SensorTypeGet_req rid num a b : number num -> instrument_request (saHpiSensorTypeGet sid rid num a b)
  | SensorEnableGet_req rid num a : instrument_request (saHpiSensorEnableGet sid rid num a)
  | SensorEnableSet_req rid num a : number num -> instrument_request (saHpiSensorEnableSet E sid rid num a)
  | SensorEventEnableGet_req rid num a : instrument_request (saHpiSensorEventEnableGet sid rid num a)
  | SensorEventEnableSet_req rid num a : number num -> instrument_request (saHpiSensorEventEnableSet E sid rid num a)
  | SensorEventMasksGet_req rid num a b : instrument_request (saHpiSensorEventMasksGet sid rid num a b)
  | SensorEventMasksSet_req rid num a b c : number num -> instrument_request (saHpiSensorEventMasksSet E sid rid num a b c)
  | ControlTypeGet_req rid num a : number num -> instrument_request (saHpiControlTypeGet sid rid num a)
  | ControlGet_req rid num a b : number num -> instrument_request (saHpiControlGet sid rid num a b)
  | ControlSet_req rid num a b : number num -> a = SAHPI_CTRL_MODE_AUTO \/ digital_controls -> instrument_request (saHpiControlSet sid rid num a b).

Inductive inventory_request : forall {O}, api O -> Prop :=
  | IdrInfoGet_req rid num a : inventory_request (saHpiIdrInfoGet sid rid num a)
  | IdrAreaHeaderGet_req rid num a b c d : inventory_request (saHpiIdrAreaHeaderGet sid rid num a b c d)
  | IdrAreaAdd_req rid num a b : inventory_request (saHpiIdrAreaAdd sid rid num a b)
  | IdrAreaAddById_req rid num a b : inventory_request (saHpiIdrAreaAddById sid rid num a b)
  | IdrAreaDelete_req rid num a : inventory_request (saHpiIdrAreaDelete sid rid num a)
  | IdrFieldGet_req rid num a b c d e : inventory_request (saHpiIdrFieldGet sid rid num a b c d e)
  | IdrFieldAdd_req rid num a : inventory_request (saHpiIdrFieldAdd sid rid num a)
  | IdrFieldAddById_req rid num a : inventory_request (saHpiIdrFieldAddById sid rid num a)
  | IdrFieldSet_req rid num a : inventory_request (saHpiIdrFieldSet sid rid num a)
  | IdrFieldDelete_req rid num a b : inventory_request (saHpiIdrFieldDelete sid rid num a b)
  | WatchdogTimerGet_req rid num a : inventory_request (saHpiWatchdogTimerGet sid rid num a)
  | WatchdogTimerSet_req rid num a : inventory_request (saHpiWatchdogTimerSet sid rid num a)
  | WatchdogTimerReset_req rid num : inventory_request (saHpiWatchdogTimerReset sid rid num)
  | AnnunciatorGetNext_req rid num a b c : inventory_request (saHpiAnnunciatorGetNext sid rid num a b c)
  | AnnunciatorGet_req rid num a b : inventory_request (saHpiAnnunciatorGet sid rid num a b)
  | AnnunciatorAcknowledge_req rid num a b : inventory_request (saHpiAnnunciatorAcknowledge sid rid num a b)
  | AnnunciatorModeGet_req rid num a : inventory_request (saHpiAnnunciatorModeGet sid rid num a)
  | AnnunciatorAdd_req rid num a : inventory_request (saHpiAnnunciatorAdd sid rid num a)
  | AnnunciatorDelete_req rid num a b : inventory_request (saHpiAnnunciatorDelete sid rid num a b)
  | AnnunciatorModeSet_req rid num a : number num -> inventory_request (saHpiAnnunciatorModeSet sid rid num a).

Inductive management_request : forall {O}, api O -> Prop :=
  | DimiInfoGet_req rid num a : management_request (saHpiDimiInfoGet sid rid num a)
  | DimiTestInfoGet_req rid num a b : management_request (saHpiDimiTestInfoGet sid rid num a b)
  | DimiTestReadinessGet_req rid num a b : management_request (saHpiDimiTestReadinessGet sid rid num a b)
  | DimiTestStart_req rid num a b c : management_request (saHpiDimiTestStart sid rid num a b c)
  | DimiTestCancel_req rid num a : management_request (saHpiDimiTestCancel sid rid num a)
  | DimiTestStatusGet_req rid num a b c : management_request (saHpiDimiTestStatusGet sid rid num a b c)
  | DimiTestResultsGet_req rid num a b : management_request (saHpiDimiTestResultsGet sid rid num a b)
  | FumiSpecInfoGet_req rid num a : management_request (saHpiFumiSpecInfoGet sid rid num a)
  | FumiServiceImpactGet_req rid num a : management_request (saHpiFumiServiceImpactGet sid rid num a)
  | FumiSourceSet_req rid num a b : management_request (saHpiFumiSourceSet sid rid num a b)
  | FumiSourceInfoValidateStart_req rid num a : management_request (saHpiFumiSourceInfoValidateStart sid rid num a)
  | FumiSourceInfoGet_req rid num a b : management_request (saHpiFumiSourceInfoGet sid rid num a b)
  | FumiSourceComponentInfoGet_req rid num a b c d : number num -> management_request (saHpiFumiSourceComponentInfoGet sid rid num a b c d)
  | FumiTargetInfoGet_req rid num a b : management_request (saHpiFumiTargetInfoGet sid rid num a b)
  | FumiTargetComponentInfoGet_req rid num a b c d : number num -> management_request (saHpiFumiTargetComponentInfoGet sid rid num a b c d)
  | FumiLogicalTargetInfoGet_req rid num a : management_request (saHpiFumiLogicalTargetInfoGet sid rid num a)
  | FumiLogicalTargetComponentInfoGet_req rid num a b c : number num -> management_request (saHpiFumiLogicalTargetComponentInfoGet sid rid num a b c)
  | FumiBackupStart_req rid num : number num -> management_request (saHpiFumiBackupStart sid rid num)
  | FumiBankBootOrderSet_req rid num a b : number num -> management_request (saHpiFumiBankBootOrderSet sid rid num a b)
  | FumiBankCopyStart_req rid num a b : number num -> management_request (saHpiFumiBankCopyStart sid rid num a b)
  | FumiInstallStart_req rid num a : management_request (saHpiFumiInstallStart sid rid num a)
  | FumiUpgradeStatusGet_req rid num a b : management_request (saHpiFumiUpgradeStatusGet sid rid num a b)
  | FumiTargetVerifyStart_req rid num a : number num -> management_request (saHpiFumiTargetVerifyStart sid rid num a)
  | FumiTargetVerifyMainStart_req rid num : number num -> management_request (saHpiFumiTargetVerifyMainStart sid rid num)
  | FumiUpgradeCancel_req rid num a : management_request (saHpiFumiUpgradeCancel sid rid num a)
  | FumiAutoRollbackDisableGet_req rid num a : number num -> management_request (saHpiFumiAutoRollbackDisableGet sid rid num a)
  | FumiAutoRollbackDisableSet_req rid num a : number num -> management_request (saHpiFumiAutoRollbackDisableSet sid rid num a)
  | FumiRollbackStart_req rid num : number num -> management_request (saHpiFumiRollbackStart sid rid num)
  | FumiActivate_req rid num : management_request (saHpiFumiActivate sid rid num)
  | FumiActivateStart_req rid num a : management_request (saHpiFumiActivateStart sid rid num a)
  | FumiCleanup_req rid num a : management_request (saHpiFumiCleanup sid rid num a)
  | HotSwapStateGet_req rid a : management_request (saHpiHotSwapStateGet sid rid a)
  | HotSwapPolicyCancel_req rid : management_request (saHpiHotSwapPolicyCancel sid rid)
  | ResourceActiveSet_req rid : management_request (saHpiResourceActiveSet sid rid)
  | ResourceInactiveSet_req rid : management_request (saHpiResourceInactiveSet sid rid)
  | AutoInsertTimeoutGet_req a : management_request (saHpiAutoInsertTimeoutGet sid a)
  | AutoInsertTimeoutSet_req a : handlers_live -> management_request (saHpiAutoInsertTimeoutSet sid a)
  | AutoExtractTimeoutGet_req rid a : management_request (saHpiAutoExtractTimeoutGet sid rid a)
  | AutoExtractTimeoutSet_req rid a : management_request (saHpiAutoExtractTimeoutSet sid rid a)
  | HotSwapActionRequest_req rid a : management_request (saHpiHotSwapActionRequest sid rid a)
  | HotSwapIndicatorStateGet_req rid a : management_request (saHpiHotSwapIndicatorStateGet sid rid a)
  | HotSwapIndicatorStateSet_req rid a : management_request (saHpiHotSwapIndicatorStateSet sid rid a)
  | ParmControl_req rid a : management_request (saHpiParmControl sid rid a)
  | ResourceLoadIdGet_req rid a : management_request (saHpiResourceLoadIdGet sid rid a)
  | ResourceLoadIdSet_req rid a : management_request (saHpiResourceLoadIdSet sid rid a)
  | ResourceResetStateGet_req rid a : management_request (saHpiResourceResetStateGet sid rid a)
  | ResourceResetStateSet_req rid a : management_request (saHpiResourceResetStateSet sid rid a)
  | ResourcePowerStateGet_req rid a : management_request (saHpiResourcePowerStateGet sid rid a)
  | ResourcePowerStateSet_req rid a : management_request (saHpiResourcePowerStateSet sid rid a).

(** ** Alarms *)

#[local] Notation dat_step := (dat_step (e_params E)).

Lemma remove_step_ok c m s : dat_step (fun s => remove_all (e_params E) (e_now E) s c m) s.
Proof.
  intros Hs. split; [by apply remove_all_ok|]. rewrite dom_remove_all.
  by destruct (remove_alarm_fields (e_params E) (e_now E) (dom s) c m true) as (_ & _ & _ & ? & _).
Qed.

Lemma severity_step rid v s :
  dat_step (fun s => default s (snd (oh_detect_res_sev_alarm (e_params E) (e_now E) (Some s) rid v))) s.
Proof.
  unfold oh_detect_res_sev_alarm, oh_remove_resource_alarms. destruct (rid =? 0); [done|].
  intros Hs. destruct (oh_get_resource_by_id _ rid) as [r|]; [|done]. simpl.
  destruct (_ && _); [|done]. destruct (ResourceId r =? 0); [done|]. by apply remove_step_ok.
Qed.
Lemma enable_step rid num v s :
  dat_step (fun s => default s (snd (oh_detect_sensor_enable_alarm (e_params E) (e_now E) (Some s) rid num v))) s.
Proof.
  unfold oh_detect_sensor_enable_alarm. destruct (rid =? 0), (truthy v); try done. apply remove_step_ok.
Qed.
Lemma mask_step rid num a v s :
  dat_step (fun s => default s (snd (oh_detect_sensor_mask_alarm (e_params E) (e_now E) (Some s) rid num a v))) s.
Proof.
  unfold oh_detect_sensor_mask_alarm. destruct (rid =? 0); [done|].
  destruct (a =? _); [done|]. destruct (negb _); [done|]. apply remove_step_ok.
Qed.
#[local] Hint Resolve severity_step enable_step mask_step : api_fn.

Lemma dat_ok_marked x y :
  AlarmId <$> alarms y = AlarmId <$> alarms x -> AlarmCond <$> alarms y = AlarmCond <$> alarms x ->
  dat_next_id (dat y) = dat_next_id (dat x) -> domain_id y = domain_id x ->
  dat_ok (e_params E) x -> dat_ok (e_params E) y.
Proof.
  intros E1 E2 E3 E4 [H1' H2' H3' H4' H5' H6'].
  assert (Hu : forall l, length (List.filter is_user l)
    = length (List.filter (fun c => Type_ c =? SAHPI_STATUS_COND_TYPE_USER) (AlarmCond <$> l))).
  { intros l. induction l as [|a l IH]; [done|]. simpl. unfold is_user at 1.
    destruct (Type_ (AlarmCond a) =? _); simpl; by rewrite IH. }
  split; rewrite ?E1, ?E3, ?E4; try done.
  - apply (Forall_fmap AlarmId (fun i => 1 <= i <= dat_next_id (dat x))). rewrite E1. by apply Forall_fmap.
  - apply (Forall_fmap AlarmCond (fun c => cond_DomainId c = domain_id x)). rewrite E2. by apply Forall_fmap.
  - by rewrite <- (length_fmap AlarmId), E1, length_fmap.
  - by rewrite Hu, E2, <- Hu.
Qed.

(** ** The functions whose code is not safe on every request *)

Lemma child_path_safe a b d : safe (saHpiGetChildEntityPath sid a b true d).
Proof using Hok.
  intros Hw. api.
  all: assert (Ht : rpt_ok (rpt x)) by (by eapply to_rpt).
  all: eapply wp_ends; rewrite find_child_ends by done; [by eexists|]; intros c [= <-].
  all: destruct (child_from _ _ _) as [c|] eqn:Ec; [|by api].
  all: apply child_from_elem, list_elem_of_split in Ec as (l1 & l2 & El); [|done].
  all: api_step; eapply wp_ends; rewrite (find_child_after _ _ l1 c l2) by done; [by eexists|]; intros n [= <-]; by api.
Qed.

Lemma failed_remove_safe rid : handlers_live -> safe (saHpiResourceFailedRemove E sid rid).
Proof using Hplugins Hok.
  intros Hl Hw. api.
  all: exfalso; match goal with Ho : exists hid, owner _ _ _ _ |- _ => destruct Ho as [i Hi] end.
  all: match goal with Hn : handler_of _ _ _ None |- _ => by apply (Hn i Hi), Hl with rid end.
Qed.

Lemma valid_digital c m b :
  oh_valid_ctrl_state_mode c m b = SA_OK -> m <> SAHPI_CTRL_MODE_AUTO ->
  ctrl_Type c = SAHPI_CTRL_TYPE_DIGITAL -> exists v, b = Some (StateDigital v).
Proof.
  unfold oh_valid_ctrl_state_mode. intros Hv Hm%Z.eqb_neq Hc. rewrite Hm, Hc in Hv.
  destruct (negb (oh_lookup_ctrlmode m)); [done|]. destruct (_ && _); [done|].
  destruct b as [s|]; [|done]. destruct (Z.eqb_spec SAHPI_CTRL_TYPE_DIGITAL (state_Type s)) as [Es|]; [|done].
  destruct s as [v| | | | | |t w]; try done; [by exists v|]. simpl in *. by destruct (negb _).
Qed.
Lemma control_set_safe rid num a b :
  number num -> a = SAHPI_CTRL_MODE_AUTO \/ digital_controls -> safe (saHpiControlSet sid rid num a b).
Proof using Hplugins Hok.
  intros Hn Hd Hw. api. zbool.
  destruct Hd as [Hd|Hd]; [done|].
  match goal with Hr : exists past hid, _ |- _ => destruct Hr as (past & hid & Hresp) end.
  destruct (Hd past hid (Some rid) (num, true, Some None)) as (m & v & Hv). rewrite Hresp in Hv. simpl in Hv. subst.
  match goal with Hv1 : oh_valid_ctrl_state_mode ?c _ _ = SA_OK |- _ => destruct (valid_digital c a b) as [v1 ->]; [done..|] end. api.
Qed.

(** The loop over the handlers calls each of them for a resource it owns. *)
Lemma push_timeout_safe {O} hids v err hs (Q : Z -> daemon -> Prop) (R : Z -> option O -> daemon -> Prop) w :
  frame [] hs w -> Forall (fun hid => live w0 hid /\ exists rid, owner sid w0 rid hid) hids ->
  (forall e w, frame [] hs w -> Q e w) -> wp (push_timeout hids v err) Q R w.
Proof.
  intros Hw Hh HQ. revert err w Hw. induction Hh as [|hid hids [(x & Hx & Hi) Ho] _ IH]; intros err w Hw.
  { by apply HQ. }
  cbn [push_timeout]. apply wp_bind. eapply wp_get_handler; [done|by rewrite Hx|]. intros y w1 Hy Hw1.
  apply wp_bind. eapply wp_handler_has; [done|left|exact Hx|]. rewrite Hi. simpl negb. cbn iota.
  apply wp_bind. eapply wp_handler_has; [done|left|exact Hx|]. apply wp_bind.
  assert (Hend : forall e w, frame [] (hid :: hs) w ->
    wp (oh_release_handler (Some hid) ≫= fun _ =>
          if negb (e =? SA_OK) then mret e else push_timeout hids v e) Q R w).
  { intros e w2 Hw2. apply wp_bind. eapply (wp_release_handler _ _ _ (Some hid)); [done|]. intros w3 Hw3.
    destruct (negb (e =? SA_OK)); [by apply wp_ret, HQ|by apply IH]. }
  destruct (abi x set_autoinsert_timeout) eqn:Ha; [|by apply wp_ret, Hend].
  apply wp_bind. unfold call_abi. apply wp_bind. eapply wp_handler_has; [done|left|exact Hx|]. rewrite Ha.
  unfold wp at 1, plugin_call. destruct (respond _ _ _ _ _) as [e o]. apply wp_ret, Hend, frame_call; [done|].
  split; [by exists x|]. simpl. done.
Qed.

Lemma auto_insert_safe a : handlers_live -> safe (saHpiAutoInsertTimeoutSet sid a).
Proof using Hplugins Hok.
  intros Hl Hw. api. rewrite resource_first by (by eapply to_rpt).
  edestruct (collect_hids_ends (length (rptlist (rpt x))) (cells w) (rpt x) [] (resources (rpt x)) []) as (hids & -> & Hh).
  all: try done.
  - by eapply to_rpt.
  - by rewrite resources_length.
  - intros i. erewrite fr_cells by eassumption. by eapply resource_data_range.
  - eapply wp_ends; [by eexists|]. intros l [= <-]. do 2 api_step. apply wp_bind. eapply push_timeout_safe; [eassumption| |].
    + eapply Forall_impl; [exact Hh|]. intros i [r Hr]. erewrite fr_cells in Hr by eassumption.
      assert (Ho : owner sid w0 r i).
      { unfold owner, owned in *. match goal with Ht : home_rpt _ _ = Some _ |- _ => by rewrite Ht end. }
      split; [by apply (Hl r)|by exists r].
    + intros e w2 Hw2. api.
Qed.

(** ** Sessions *)

Lemma idle_conf s : conf_ok (s, [Idle]) <-> conf_ok (s, []).
Proof. split; intros [H1' H2']; by constructor. Qed.

(** A step of the one thread there is. *)
Lemma thread_step s th c' :
  step (e_params E) (fun _ => true) (s, [th]) c' -> conf_ok (s, [th]) -> conf_ok c'.
Proof. apply step_ok. Qed.

Lemma destroy_conf i s : conf_ok (s, []) -> conf_ok (snd (oh_destroy_session i s), []).
Proof.
  intros Hc. unfold oh_destroy_session. destruct (i <? 1); [done|].
  destruct (destroy_begin i s) as [[q s']|] eqn:Eb; [|done]. apply idle_conf.
  apply (thread_step _ _ _ (st_destroyed _ _ s' [Closing q] 0 q eq_refl)).
  apply (thread_step _ _ _ (st_destroy _ _ s [Idle] 0 i q s' eq_refl Eb)). by apply idle_conf.
Qed.

Lemma dequeue_conf wait i timeout s :
  (forall i s ths, conf_ok (s, ths) -> conf_ok (wait i s, ths)) -> timeout <> SAHPI_TIMEOUT_BLOCK ->
  conf_ok (s, []) -> forall fuel, exists err e status s',
    oh_dequeue_session_event fuel wait i timeout true s = Some (err, e, status, s') /\
    conf_ok (s', []) /\ stores err e.
Proof.
  intros Hwait Ht Hc fuel. unfold oh_dequeue_session_event. destruct (i <? 1); [by do 4 eexists|].
  destruct (dequeue_begin i s) as [[[q status] s1]|] eqn:Eb; [|by do 4 eexists]. simpl orb. cbn iota.
  assert (H1' : conf_ok (s1, [Popping i timeout q])).
  { apply (thread_step _ _ _ (st_read _ _ s [Idle] 0 i timeout q status s1 eq_refl Eb)). by apply idle_conf. }
  assert (Hpop : forall s1, conf_ok (s1, [Popping i timeout q]) ->
    conf_ok (snd (try_pop q s1), [after_pop i timeout q (fst (try_pop q s1))])).
  { intros s2. apply (thread_step _ _ _ (st_pop _ _ s2 [Popping i timeout q] 0 i timeout q _ _ eq_refl eq_refl)). }
  assert (Hend : forall s2 e, conf_ok (s2, [Ending q e]) -> conf_ok (g_async_queue_unref q s2, [])).
  { intros s2 e H2'. apply idle_conf.
    apply (thread_step _ _ _ (st_end _ _ s2 [Ending q e] 0 q e eq_refl) H2'). }
  assert (Hst : forall devent, stores (dequeue_end devent).1 (dequeue_end devent).2).
  { intros [e|]; unfold dequeue_end; [|done]. destruct (_ =? 0); [done|]. by intros _; eexists. }
  destruct (timeout =? SAHPI_TIMEOUT_IMMEDIATE) eqn:Ei.
  - specialize (Hpop s1 H1'). destruct (try_pop q s1) as [devent s2]. simpl in Hpop.
    unfold after_pop in Hpop. rewrite Ei in Hpop. specialize (Hst devent).
    destruct (dequeue_end devent) as [err e]. do 4 eexists. split; [done|]. split; [by eapply Hend|done].
  - rewrite (proj2 (Z.eqb_neq _ _) Ht). specialize (Hpop _ (Hwait 0%nat _ _ H1')).
    destruct (try_pop q (wait 0%nat s1)) as [devent s2]. simpl in Hpop.
    unfold after_pop in Hpop. rewrite Ei in Hpop. specialize (Hst devent).
    destruct (check_open i s2) as [err|] eqn:Eo.
    + do 4 eexists. split; [done|]. split.
      * apply idle_conf.
        by apply (thread_step _ _ _ (st_not_open _ _ s2 [Checking i timeout q devent] 0 i timeout q devent _ eq_refl Eo)).
      * unfold check_open in Eo. destruct (oh_get_session_subscription i true s2) as [inv sub].
        destruct (negb (inv =? SA_OK)); [by injection Eo as <-|]. destruct (negb _); [by injection Eo as <-|done].
    + destruct (dequeue_end devent) as [err e]. do 4 eexists. split; [done|]. split; [|done].
      apply (Hend s2 devent).
      by apply (thread_step _ _ _ (st_open _ _ s2 [Checking i timeout q devent] 0 i timeout q devent eq_refl Eo
                                     (or_introl Ht))).
Qed.

Lemma flush_conf fuel i s : conf_ok (s, []) -> conf_ok (default s (flush_queue fuel i s), []).
Proof.
  intros Hc. destruct (flush_queue fuel i s) as [s'|] eqn:E'; [|done]. simpl. revert s Hc E'.
  induction fuel as [|fuel IH]; intros s Hc; [done|]. cbn [flush_queue]. unfold dequeue_now.
  destruct (dequeue_conf (fun _ s => s) i SAHPI_TIMEOUT_IMMEDIATE s ltac:(done) ltac:(done) Hc 0)
    as (err & e & status & s1 & -> & Hc1 & _).
  simpl default. cbn iota. destruct (err =? SA_OK); [by apply IH|]. by intros [= <-].
Qed.

Lemma subscription_conf i v s : conf_ok (s, []) -> conf_ok (snd (oh_set_session_subscription i v s), []).
Proof.
  intros Hc. unfold oh_set_session_subscription. destruct (i <? 1); [done|].
  destruct (table s !! i) as [x|] eqn:Ex; [|done].
  assert (Hc' : conf_ok (set_session i (fun x => x <| subscribed := v |>) s, [])).
  { apply idle_conf, (thread_step _ _ _ (st_subscribe _ _ s [Idle] 0 i v eq_refl)). by apply idle_conf. }
  destruct (v =? SAHPI_FALSE); [by apply flush_conf|done].
Qed.

Lemma frame_sessions s : frame [] [] w0 -> conf_ok (s, []) -> post [] [] (w0 <| sessions := s |>).
Proof. intros [[H1' H2' H3' H4'] ? ? ? ? ? ? ? ?] Hs. by split; [split|..]. Qed.

Lemma open_safe a b c : next_sid (sessions w0) + 1 < 2 ^ 32 -> safe (saHpiSessionOpen E a b c).
Proof using Hok.
  intros Hn Hw. pose proof (create_ok (fun did => bool_decide (is_Some (oh_get_domain did (doms w0)))) a
    (sessions w0) [] (ok_sessions _ _ Hok) Hn) as Hc. api. apply wp_modify. pose proof (frame_sessions _ Hw Hc).
  apply wp_bind, wp_reject; intros _; [done|by apply wp_return].
Qed.
Lemma close_safe : safe (saHpiSessionClose sid).
Proof using Hok.
  intros Hw. pose proof (destroy_conf sid (sessions w0) (ok_sessions _ _ Hok)) as Hc. api.
  by apply wp_modify, wp_return, frame_sessions.
Qed.

Lemma subscription_stores i s rv o : oh_get_session_subscription i true s = (rv, o) -> stores rv o.
Proof.
  unfold oh_get_session_subscription. destruct (i <? 1); [by intros [= <- <-]|].
  destruct (table s !! i); intros [= <- <-] ?; [by eexists|done].
Qed.
Ltac subscribed := match goal with Hs : oh_get_session_subscription _ _ _ = _ |- _ => apply subscription_stores in Hs end.

Lemma subscribe_safe : safe (saHpiSubscribe sid).
Proof using Hok.
  intros Hw. pose proof (subscription_conf sid SAHPI_TRUE (sessions w0) (ok_sessions _ _ Hok)) as Hc. api.
  subscribed. api.
  by apply wp_modify, wp_return, frame_sessions.
Qed.
Lemma unsubscribe_safe : safe (saHpiUnsubscribe sid).
Proof using Hok.
  intros Hw. pose proof (subscription_conf sid SAHPI_FALSE (sessions w0) (ok_sessions _ _ Hok)) as Hc. api.
  subscribed. api.
  apply wp_modify. pose proof (frame_sessions _ Hw Hc). apply wp_bind, wp_reject; intros _; [done|by apply wp_return].
Qed.

Lemma wp_dequeue {O} timeout (Q : _ -> daemon -> Prop) (R : Z -> option O -> daemon -> Prop) w :
  others_ok -> timeout <> SAHPI_TIMEOUT_BLOCK -> conf_ok (sessions w, []) ->
  (forall err e status s, conf_ok (s, []) -> stores err e -> Q (err, e, status) (w <| sessions := s |>)) ->
  wp (dequeue E sid timeout) Q R w.
Proof.
  intros Ho Ht Hc HQ. unfold dequeue. apply wp_bind, wp_get.
  destruct (dequeue_conf (e_others E) sid timeout _ Ho Ht Hc (e_pops E)) as (err & e & status & s & -> & Hs & He).
  apply wp_bind, wp_modify, wp_ret, HQ; done.
Qed.
Lemma event_get_safe a b c d e :
  others_ok -> a <> SAHPI_TIMEOUT_BLOCK -> safe (saHpiEventGet E sid a b c d e).
Proof using Hok.
  intros Ho Ha Hw. pose proof (ok_sessions _ _ Hok) as Hs. api. subscribed. api.
  apply wp_dequeue; [done..|]. intros err ev st s Hs1 Hev. apply wp_bind.
  assert (Hend : forall err ev st s, conf_ok (s, []) -> stores err ev ->
    wp (reject (negb (err =? SA_OK)) err;; ev ← read ev;
        return_ SA_OK (Some (EventUtils.event ev,
          (fun r => default (r <| RdrType := SAHPI_NO_RECORD |>) (head (rdrs ev))) <$> c,
          if d then Some (resource ev) else None, if e then Some (default 0 st) else None)))
      (fun _ : Empty_set => fun _ => False) (fun _ _ w => post [] [] w) (w0 <| sessions := s |>)).
  { clear -Hw. intros err ev st s Hs Hev. pose proof (frame_sessions _ Hw Hs).
    apply wp_bind, wp_reject; intros Herr; [done|]. apply wp_bind, wp_read; [apply Hev; zbool; done|].
    intros ? _. by apply wp_return. }
  cbn [fst]. destruct (err =? SA_ERR_HPI_TIMEOUT); [|by apply wp_ret, Hend].
  apply wp_dequeue; [done..|]. intros err' ev' st' s' Hs2 Hev'. by apply Hend.
Qed.
Lemma discover_safe : round_ok -> safe (saHpiDiscover E sid).
Proof using.
  intros Hr Hw. unfold saHpiDiscover. apply wp_bind. eapply wp_check; [exact Hw|by intros; apply frame_post|].
  intros _ _. apply wp_bind. unfold wp at 1, oh_wake_discovery_thread.
  destruct (e_started E) eqn:Es; simpl; [|by apply wp_return, frame_post].
  destruct (Hr Es) as (others & -> & Ho). destruct (Ho w0 (fr_ok _ _ _ _ _ _ Hw)) as (H1' & H2' & H3' & H4').
  apply wp_return. split; [done| |by rewrite H3', (fr_domains _ _ _ _ _ _ Hw)|by rewrite H4', (fr_hids _ _ _ _ _ _ Hw)].
  unfold calls_ok. rewrite H2'. apply (fr_calls _ _ _ _ _ _ Hw).
Qed.

Lemma domain_safe O (m : api O) : domain_request m -> safe m.
Proof using Hplugins Hok.
  intros Hm Hw. destruct Hm; first [ by apply discover_safe | by api | by apply close_safe | by apply child_path_safe | by apply failed_remove_safe ].
Qed.

(** The acknowledging loop on the table of a well-formed domain. *)
Lemma ack_loop_all x sev :
  dat_ok (e_params E) x ->
  ack_loop (length (alarms x)) sev
    (get_alarm_node (alarms x) (Some SAHPI_FIRST_ENTRY) (of_severity sev) false true) (alarms x)
  = Some (ack_above SAHPI_FIRST_ENTRY sev <$> alarms x).
Proof.
  intros Hx. apply ack_loop_spec; [apply Hx|by eapply ids_u32|]. unfold above. apply filter_length_le.
Qed.
Lemma frame_dat ds hs w x :
  frame ds hs w -> dt_table (doms w) !! home sid w0 = Some x -> dat_ok (e_params E) x.
Proof. intros Hw. apply (ok_dat _ _ (fr_ok _ _ _ _ _ _ Hw)). Qed.

(** The functions on alarms that change the table. *)
Lemma alarm_ack_safe a b : safe (saHpiAlarmAcknowledge sid a b).
Proof using Hok.
  intros Hw. api.
  - split; [done|]. apply dat_ok_marked; try done; by apply acknowledge_same.
  - eapply wp_ends; rewrite ack_loop_all by (by eapply frame_dat); [by eexists|]. intros l [= <-]. api.
    replace x0 with x by congruence. split; [done|]. apply dat_ok_marked; try done; by apply ack_above_same.
Qed.
Lemma alarm_delete_safe a b : safe (saHpiAlarmDelete E sid a b).
Proof using Hok.
  intros Hw. api.
  - split; [done|]. apply dat_ok_sublist; try done. apply sublist_delete.
  - pose proof (remove_alarm_fields (e_params E) (e_now E) x0 (user_of_severity b) None true) as (_ & _ & _ & ? & _).
    split; [done|]. apply remove_alarm_ok.
Qed.
Lemma alarm_add_safe a : alarm_id_free -> safe (saHpiAlarmAdd E sid a).
Proof using Hok.
  intros [Hl Hn] Hw. api. eapply wp_with_dat; [eassumption| |intros [? ?] ? ?; api].
  intros s Hs Hd. replace (snd _) with (snd (add_alarm (e_params E) (e_now E) (dat_fopen (e_io E))
    (dat_fwrite (e_io E)) s a false)) by (by destruct (add_alarm _ _ _ _ s a false) as [[? ?] ?]).
  split.
  - apply add_new_ok; [done|done|]. apply Hn. congruence.
  - by rewrite (keeps_rest_add (e_params E) (e_now E) (dat_fopen (e_io E)) (dat_fwrite (e_io E)) s a _
                  (keeps_rest_refl _)).
Qed.

(** A user event is one of a text. *)
Lemma valid_addevent e : oh_valid_addevent (Some e) = SA_OK -> exists t, EventDataUnion e = UserEvent t.
Proof. simpl. destruct (EventDataUnion e); try done. by eexists. Qed.
Lemma event_add_safe a : safe (saHpiEventAdd E sid a).
Proof using Hplugins Hok.
  intros Hw. api. all: exfalso; zbool; subst. all: edestruct valid_addevent as [? ?]; [eassumption|congruence].
Qed.

Lemma event_safe O (m : api O) : event_request m -> safe m.
Proof using Hplugins Hok.
  intros Hm Hw. destruct Hm; first [ by api | by apply subscribe_safe | by apply unsubscribe_safe | by apply event_get_safe | by apply event_add_safe | by apply alarm_ack_safe | by apply alarm_add_safe | by apply alarm_delete_safe ].
Qed.

Lemma instrument_safe O (m : api O) : instrument_request m -> safe m.
Proof using Hplugins Hok.
  intros Hm Hw. destruct Hm; first [ by api | by apply control_set_safe ].
Qed.

Lemma inventory_safe O (m : api O) : inventory_request m -> safe m.
Proof using Hplugins Hok.
  intros Hm Hw. destruct Hm; by api.
Qed.

Lemma management_safe O (m : api O) : management_request m -> safe m.
Proof using Hplugins Hok.
  intros Hm Hw. destruct Hm; first [ by api | by apply auto_insert_safe ].
Qed.

(** The requests: opening a session, and the functions that need one. *)
Inductive session_request {O} (m : api O) : Prop :=
  | req_domain : domain_request m -> session_request m
  | req_event : event_request m -> session_request m
  | req_instrument : instrument_request m -> session_request m
  | req_inventory : inventory_request m -> session_request m
  | req_management : management_request m -> session_request m.
Inductive request : forall {O}, api O -> Prop :=
  | req_open a b c : next_sid (sessions w0) + 1 < 2 ^ 32 -> request (saHpiSessionOpen E a b c)
  | req_session {O} (m : api O) : session_request m -> request m.

Lemma request_safe O (m : api O) : request m -> safe m.
Proof using Hplugins Hok.
  intros Hm. destruct Hm as [a b c Hn|O m [Hm|Hm|Hm|Hm|Hm]]; [by apply open_safe|..].
  - by apply domain_safe.
  - by apply event_safe.
  - by apply instrument_safe.
  - by apply inventory_safe.
  - by apply management_safe.
Qed.
End Safety.
