(* ===== verification/ApiCorrect.v ===== *)
(** What the HPI functions promise to every client: each request is answered,
    the daemon stays well formed, and nothing is done without a session. *)
From S2P Require Import Prelude SaHpi EntityPath Rpt Conf DomainState EventUtils Alarm Session Validate.
From S2P Require Import Domain Event Api ApiDomain ApiEvents ApiInstruments ApiInventory ApiManagement.
From S2P Require Import ApiRules ApiSafe.

(** * A running daemon *)

(** A daemon between two requests. *)
Record idle_daemon (g : global_params) (w : daemon) : Prop := {
  id_ok : daemon_ok g w;
  id_domains : held_domains w = [];
  id_handlers : held_handlers w = [] }.

Section Exchange.
Context `{Plugins} `{UidLookup} (g : global_params).

(** A client's request and the daemon's answer. *)
Inductive exchange (w w' : daemon) : Prop :=
  | exchanged E sid O (m : api O) rv o :
      e_params E = g -> request E sid w m -> m w = (Return rv o, w') -> exchange w w'.

Lemma request_ends E sid w O (m : api O) :
  plugins_store -> e_params E = g -> idle_daemon g w -> request E sid w m ->
  exists rv o w', m w = (Return rv o, w') /\ idle_daemon g w' /\
    exists new, calls w' = calls w ++ new /\ Forall (permitted sid w) new.
Proof.
  intros HP HE [Hok Hd Hh] Hm. subst g. pose proof (request_safe E sid w HP Hok O m Hm) as Hs.
  specialize (Hs (frame_start (e_params E) sid w Hok Hd Hh)). unfold wp in Hs.
  destruct (m w) as [[[]|rv o| |] w'] eqn:Ew; try done.
  exists rv, o, w'. destruct Hs as [H1 H2 H3 H4]. by split.
Qed.

Lemma exchange_idle w w' : plugins_store -> idle_daemon g w -> rtc exchange w w' -> idle_daemon g w'.
Proof.
  intros HP Hw Hr. induction Hr as [|w w1 w2 [E sid O m rv o HE Hm Ew] _ IH]; [done|].
  destruct (request_ends E sid w O m HP HE Hw Hm) as (rv' & o' & w' & E' & Hw' & _).
  rewrite Ew in E'. injection E' as <- <- <-. by apply IH.
Qed.
End Exchange.

(** * Without a session *)

Section Closed.
Context `{Plugins} `{UidLookup} (E : env) (sid : Z) (w0 : daemon).
Context (Hclosed : table (sessions w0) !! sid = None).

(** The function returns an error and has no effect. *)
Definition rejected {O} (m : api O) : Prop := exists rv, rv <> SA_OK /\ m w0 = (Return rv None, w0).

#[local] Notation refuses m := (wp m (fun _ _ => False) (fun rv o w => rv <> SA_OK /\ o = None /\ w = w0) w0).

Lemma refuses_rejected {O} (m : api O) : refuses m <-> rejected m.
Proof.
  unfold wp, rejected. split.
  - destruct (m w0) as [[[]|rv o| |] w] eqn:Ew; try done. intros (Hrv & -> & ->). by exists rv.
  - by intros (rv & Hrv & ->).
Qed.

Lemma check_closed {O} (Q : unit -> daemon -> Prop) :
  wp (O := O) (OH_CHECK_INIT_STATE sid) Q (fun rv o w => rv <> SA_OK /\ o = None /\ w = w0) w0.
Proof using Hclosed.
  unfold OH_CHECK_INIT_STATE, oh_get_session_subscription. apply wp_bind, wp_get. rewrite Hclosed.
  by destruct (sid <? 1).
Qed.

Lemma call_closed {O O'} (m : api O') (Q : Z * option O' -> daemon -> Prop) (R : Z -> option O -> daemon -> Prop) :
  rejected m -> (forall rv, rv <> SA_OK -> Q (rv, None) w0) -> wp (call m) Q R w0.
Proof. intros (rv & Hrv & Hm) HQ. unfold wp, call. rewrite Hm. by apply HQ. Qed.

Create HintDb closed.
Ltac refused := split; [first [done | by (intros ?; zbool)]|done].
Ltac closed_step :=
  cbv beta iota;
  lazymatch goal with
  | |- wp (_ ≫= _) _ _ _ => apply wp_bind
  | |- wp (OH_CHECK_INIT_STATE _) _ _ _ => apply check_closed
  | |- wp (call _) _ _ _ => apply call_closed; [solve [auto with closed]|intros ? ?; cbn [fst snd]]
  | |- wp (reject _ _) _ _ _ => apply wp_reject; intros ?; [refused|try by (exfalso; zbool)]
  | |- wp (fail _) _ _ _ => apply wp_fail; refused
  | |- wp (read _) _ _ _ => apply wp_read; [api_some|intros ? ?]
  | |- wp (match ?x with _ => _ end) _ _ _ => destruct x eqn:?
  | |- wp (let _ := _ in _) _ _ _ => cbv zeta
  | |- wp ?m _ _ _ => let h := head_of m in unfold h
  end.
Ltac closed := apply refuses_rejected; repeat closed_step.

Lemma log_info_closed rid a : rejected (saHpiEventLogInfoGet E sid rid a).
Proof using Hclosed. closed. Qed.
Lemma log_caps_closed rid a : rejected (saHpiEventLogCapabilitiesGet sid rid a).
Proof using Hclosed. closed. Qed.
#[local] Hint Resolve log_info_closed log_caps_closed : closed.
Lemma discover_closed : rejected (saHpiDiscover E sid).
Proof using Hclosed. closed. Qed.
Lemma domain_closed O (m : api O) : domain_request E sid w0 m -> rejected m.
Proof using Hclosed. intros []; closed. Qed.
Lemma event_closed O (m : api O) : event_request E sid w0 m -> rejected m.
Proof using Hclosed. intros []; closed. Qed.
Lemma instrument_closed O (m : api O) : instrument_request E sid m -> rejected m.
Proof using Hclosed. intros []; closed. Qed.
Lemma inventory_closed O (m : api O) : inventory_request sid m -> rejected m.
Proof using Hclosed. intros []; closed. Qed.
Lemma management_closed O (m : api O) : management_request sid w0 m -> rejected m.
Proof using Hclosed. intros []; closed. Qed.

Lemma session_closed O (m : api O) : session_request E sid w0 m -> rejected m.
Proof using Hclosed.
  intros [Hm|Hm|Hm|Hm|Hm].
  - by apply domain_closed.
  - by apply event_closed.
  - by apply instrument_closed.
  - by apply inventory_closed.
  - by apply management_closed.
Qed.
End Closed.

(** * An example daemon

    One domain, one open session, and a resource with an inventory whose handler
    has the id 4. *)
Definition root_path : SaHpiEntityPathT :=
  {| Entry := {| EntityType := SAHPI_ENT_ROOT; EntityLocation := 0 |}
              :: replicate 15 {| EntityType := 0; EntityLocation := 0 |} |}.
Definition hub_path : SaHpiEntityPathT :=
  {| Entry := {| EntityType := 3; EntityLocation := 1 |} :: firstn 15 (Entry root_path) |}.
Definition hub_resource : SaHpiRptEntryT :=
  example_resource 7 <| ResourceEntity := hub_path |>
    <| ResourceCapabilities := Z.lor SAHPI_CAPABILITY_RDR SAHPI_CAPABILITY_INVENTORY_DATA |>.
Definition hub_rpt : RPTable :=
  let add1 := oh_add_resource 5 (Some empty_rpt) (Some hub_resource) 1 0 in
  let add2 := oh_add_rdr (snd (fst add1)) 7 (Some (example_rdr SAHPI_INVENTORY_RDR 3)) 0 0 in
  default empty_rpt (snd (fst add2)).
Definition hub_domain : oh_domain := example_domain <| domain_id := 0 |> <| rpt := hub_rpt |>.
Definition hub : daemon :=
  {| doms := {| dt_table := {[0 := hub_domain]}; dt_list := [0]; process_q := [] |};
     sessions := example_session; dat_files := ∅; del_files := ∅; cells := [4];
     handlers := {[4 := {| hnd := true; abi := fun _ => true |}]}; calls := [];
     held_domains := []; held_handlers := [] |}.
#[local] Instance hub_plugins : Plugins := fun past hid f r =>
  match f return args_of f -> Z * option (reply_of f) with
  | get_idr_info => fun n =>
      (SA_OK, Some {| info_IdrId := n; info_UpdateCount := 1; info_ReadOnly := SAHPI_FALSE; NumAreas := 2 |})
  | _ => fun _ => (SA_ERR_HPI_ERROR, None)
  end.
Definition hub_env : env :=
  {| e_params := example_params; e_now := 10; e_io := example_io; e_init := true;
     e_others := fun _ s => s; e_pops := 0; e_started := true; e_round := Some (fun w => w) |}.

Lemma hub_stores : plugins_store.
Proof. intros past hid [] r a; try done; by eexists. Qed.

Lemma hub_rpt_ok : rpt_ok hub_rpt.
Proof.
  unfold hub_rpt. cbv zeta.
  destruct (add_resource_new 5 empty_rpt hub_resource 1 0 empty_rpt_ok)
    as (t1 & E1 & H1 & _); [by split|done|]. cbv zeta in *. rewrite E1. cbn [fst snd].
  assert (E1' : t1 = default empty_rpt (snd (fst
    (oh_add_resource 5 (Some empty_rpt) (Some hub_resource) 1 0)))) by by rewrite E1.
  destruct (get_rptentry_by_rid (Some t1) 7) as [[n e]|] eqn:Eg; [|by rewrite E1' in Eg].
  destruct (add_rdr_view t1 7 (example_rdr SAHPI_INVENTORY_RDR 3) 0 0 n e H1 Eg) as (t2 & E2 & H2 & _);
    [by rewrite E1' in Eg; injection Eg as <- <- | done |].
  rewrite E2. exact H2.
Qed.

Lemma hub_idle : idle_daemon example_params hub.
Proof.
  assert (Hd : forall d x, dt_table (doms hub) !! d = Some x -> x = hub_domain).
  { intros d x Hx. change (({[0 := hub_domain]} : gmap Z oh_domain) !! d = Some x) in Hx.
    by apply lookup_singleton_Some in Hx as [_ <-]. }
  split; [|done..]. constructor.
  - apply (create_ok (fun _ => true) 0 init_sessions []); [|by vm_compute].
    apply (reach_conf_ok example_params (fun _ => true) 0), (reach_init _ _ 0).
  - intros d x ->%Hd. constructor; [apply hub_rpt_ok| |].
    + vm_compute. repeat constructor; discriminate.
    + intros e r He%list_elem_of_In Hr%list_elem_of_In. vm_compute in He. destruct He as [<-|[]].
      vm_compute in Hr. destruct Hr as [<-|[]]. constructor; [by vm_compute..|].
      intros Hin%list_elem_of_In. vm_compute in Hin. intuition discriminate.
  - intros d x ->%Hd. constructor; vm_compute; repeat constructor; try discriminate; by left.
  - done.
Qed.

(** * Properties *)

(** C1: a request is answered, if it is one that the code can answer.  In a
    well-formed daemon with no domain or handler held, and with plug-ins that
    store what they promise, every function of the interface, on every argument of
    its type that [request] admits, ends by returning: no [NULL] is dereferenced,
    no uninitialised variable or wrong member of a union read, no object used
    without being held, and no loop or wait is endless.  After it the daemon is
    well formed and nothing is held.

    [request] lists the functions, each with the conditions that its code does not
    check itself and without which it is not safe:
    - the numbers of sensors, controls, annunciators and FUMIs have 16 bits, where
      the record found is used as one of the type asked for
      ([ApiErrors.instrument_number_confusion]);
    - [saHpiResourceFailedRemove] and [saHpiAutoInsertTimeoutSet]: the handlers
      that own resources are there ([ApiErrors.failed_remove_null_handler]);
    - [saHpiControlSet] with another mode than [SAHPI_CTRL_MODE_AUTO]: the plug-ins
      have digital states for controls ([ApiErrors.control_set_uninitialised]);
    - [saHpiGetChildEntityPath]: ChildEntityPath is not NULL;
    - [saHpiEventGet]: the read does not block, and [saHpiDiscover]: the wait for a
      round of the discovery ends; what the other threads do meanwhile keeps the
      daemon well formed;
    - [saHpiSessionOpen] and [saHpiAlarmAdd]: there is an id for one more session
      and one more alarm. *)
Theorem request_answered `{Plugins} `{UidLookup} (E : env) (sid : Z) (w : daemon) (O : Type) (m : api O) :
  plugins_store -> idle_daemon (e_params E) w -> request E sid w m ->
  exists rv o w', m w = (Return rv o, w') /\ idle_daemon (e_params E) w'.
Proof.
  intros HP Hw Hm. destruct (request_ends _ E sid w O m HP eq_refl Hw Hm) as (rv & o & w' & Ew & Hw' & _).
  by exists rv, o, w'.
Qed.

#[local] Instance hub_uids : UidLookup := {| oh_uid_is_initialized := true; oh_uid_lookup := fun _ => 0 |}.
Definition ask_inventory : api SaHpiIdrInfoT := saHpiIdrInfoGet 1 7 3 true.
Lemma ask_inventory_request : request hub_env 1 hub ask_inventory.
Proof. apply req_session, req_inventory, IdrInfoGet_req. Qed.

Lemma request_answered_witness :
  fst (ask_inventory hub) = Return SA_OK (Some {| info_IdrId := 3; info_UpdateCount := 1;
                                                  info_ReadOnly := SAHPI_FALSE; NumAreas := 2 |}) /\
  exists rv o w', ask_inventory hub = (Return rv o, w') /\ idle_daemon example_params w'.
Proof.
  split; [by vm_compute|].
  exact (request_answered hub_env 1 hub _ ask_inventory hub_stores hub_idle ask_inventory_request).
Defined.

(** C2: the daemon is a gatekeeper.  A request calls a function of a plug-in only
    through the handler that owns the resource, if the handler has an instance
    and implements the function, and only for a resource that is in the table of
    the session's domain, is not failed (or, for [resource_failed_remove], is),
    has the capabilities that the function is about, and has the instrument
    named. *)
Theorem plugin_calls_permitted `{Plugins} `{UidLookup} (E : env) (sid : Z) (w : daemon) (O : Type) (m : api O) :
  plugins_store -> idle_daemon (e_params E) w -> request E sid w m ->
  exists new, calls (snd (m w)) = calls w ++ new /\ Forall (permitted sid w) new.
Proof.
  intros HP Hw Hm. destruct (request_ends _ E sid w O m HP eq_refl Hw Hm) as (rv & o & w' & -> & _ & Hc). done.
Qed.

Lemma plugin_calls_permitted_witness :
  calls (snd (ask_inventory hub)) = [Build_abi_call 4 get_idr_info (Some 7) 3] /\
  permitted 1 hub (Build_abi_call 4 get_idr_info (Some 7) 3).
Proof.
  assert (E : calls (snd (ask_inventory hub)) = [Build_abi_call 4 get_idr_info (Some 7) 3]) by by vm_compute.
  split; [exact E|].
  destruct (plugin_calls_permitted hub_env 1 hub _ ask_inventory hub_stores hub_idle ask_inventory_request)
    as (new & En & Hn).
  rewrite E in En. simpl in En. subst new. by inversion Hn.
Defined.

(** The service goes on.  After any sequence of requests of any clients, with
    plug-ins that behave as they like as long as they store what they promise,
    every further request is answered. *)
Theorem requests_always_answered `{Plugins} `{UidLookup} (E : env) (sid : Z) (w0 w : daemon) (O : Type) (m : api O) :
  plugins_store -> idle_daemon (e_params E) w0 -> rtc (exchange (e_params E)) w0 w -> request E sid w m ->
  exists rv o w', m w = (Return rv o, w') /\ exchange (e_params E) w w'.
Proof.
  intros HP Hw Hr Hm. pose proof (exchange_idle _ _ _ HP Hw Hr) as Hw1.
  destruct (request_ends _ E sid w O m HP eq_refl Hw1 Hm) as (rv & o & w' & Ew & _).
  exists rv, o, w'. split; [done|]. by apply (exchanged _ _ _ E sid O m rv o).
Qed.

Lemma requests_always_answered_witness :
  exists rv o w', ask_inventory (snd (ask_inventory hub)) = (Return rv o, w') /\
    exchange example_params (snd (ask_inventory hub)) w'.
Proof.
  apply (requests_always_answered hub_env 1 hub _ _ ask_inventory hub_stores hub_idle).
  - apply rtc_once. refine (exchanged _ _ _ hub_env 1 _ ask_inventory _ _ eq_refl ask_inventory_request _).
    vm_compute. reflexivity.
  - apply req_session, req_inventory, IdrInfoGet_req.
Defined.

(** C6: no session, no service.  Every function that needs a session returns an
    error if the session is not open, stores nothing, calls no plug-in and leaves
    the daemon as it is; [saHpiDiscover] then does not wait either, even if its
    wait would not end. *)
Theorem closed_session_rejected `{Plugins} `{UidLookup} (E : env) (sid : Z) (w : daemon) (O : Type) (m : api O) :
  table (sessions w) !! sid = None ->
  (session_request E sid w m -> exists rv, rv <> SA_OK /\ m w = (Return rv None, w)) /\
  exists rv, rv <> SA_OK /\ saHpiDiscover E sid w = (Return rv None, w).
Proof.
  intros Hw. split; [intros Hm; by apply (session_closed E sid w Hw O m)|]. by apply discover_closed.
Qed.

Lemma closed_session_rejected_witness :
  exists rv, rv <> SA_OK /\ saHpiIdrInfoGet 2 7 3 true hub = (Return rv None, hub).
Proof.
  apply (closed_session_rejected hub_env 2 hub SaHpiIdrInfoT (saHpiIdrInfoGet 2 7 3 true)); [done|].
  apply req_inventory, IdrInfoGet_req.
Defined.
