(* ===== verification/ApiClients.v ===== *)
(** What clients obtain by sequences of requests: the walks over the resources,
    the RDRs and the alarms that the HPI specification describes, written with
    the HPI functions alone, visit everything once and in order. *)
From S2P Require Import Prelude SaHpi GIndex EntityPath Rpt Conf DomainState EventUtils Alarm Session Validate.
From S2P Require Import EPathPattern Domain Event Api ApiDomain ApiEvents ApiInstruments ApiRules ApiWalk ApiSafe ApiCorrect.

(** * Clients *)

(** Follow the entry ids that a function returns, from [SAHPI_FIRST_ENTRY] until
    [SAHPI_LAST_ENTRY] or an error. *)
Fixpoint entries {O A} (fuel : nat) (read : O -> Z * A) (get : Z -> api O) (entry : Z) (w : daemon)
    : option (list A * daemon) :=
  match fuel with
  | O => None
  | S fuel =>
      match get entry w with
      | (Return rv (Some o), w) =>
          if negb (rv =? SA_OK) then Some ([], w)
          else if fst (read o) =? SAHPI_LAST_ENTRY then Some ([snd (read o)], w)
          else '(l, w) ← entries fuel read get (fst (read o)) w; Some (snd (read o) :: l, w)
      | (Return _ None, w) => Some ([], w)
      | _ => None
      end
  end.

(** Ask for the alarm after the last one until there is none. *)
Fixpoint alarms_after (fuel : nat) (get : SaHpiAlarmT -> api SaHpiAlarmT) (a : SaHpiAlarmT) (w : daemon)
    : option (list SaHpiAlarmT * daemon) :=
  match fuel with
  | O => None
  | S fuel =>
      match get a w with
      | (Return rv (Some a), w) =>
          if negb (rv =? SA_OK) then Some ([], w)
          else '(l, w) ← alarms_after fuel get a w; Some (a :: l, w)
      | (Return _ None, w) => Some ([], w)
      | _ => None
      end
  end.

(** A session of the domain [x] that is open. *)
Record attached (sid : Z) (w : daemon) (x : oh_domain) : Prop := {
  at_sid : 1 <= sid;
  at_session : is_Some (table (sessions w) !! sid);
  at_did : oh_get_session_domain sid (sessions w) <> SAHPI_UNSPECIFIED_DOMAIN_ID;
  at_domain : dt_table (doms w) !! home sid w = Some x }.

(** * Running a function *)

Section Run.
Context (sid : Z) (w : daemon) (x : oh_domain) (Hw : attached sid w x).

Definition holding_domain : daemon := w <| held_domains ::= cons (home sid w) |>.

Lemma bind_next {O A B} (m : M O A) (k : A -> M O B) w1 a w2 : m w1 = (Next a, w2) -> (m ≫= k) w1 = k a w2.
Proof. intros E. unfold mbind, M_bind. by rewrite E. Qed.
Lemma bind_return {O A B} (m : M O A) (k : A -> M O B) w1 rv o w2 :
  m w1 = (Return rv o, w2) -> (m ≫= k) w1 = (Return rv o, w2).
Proof. intros E. unfold mbind, M_bind. by rewrite E. Qed.

Lemma run_check {O} : OH_CHECK_INIT_STATE (O := O) sid w = (Next tt, w).
Proof using Hw.
  unfold OH_CHECK_INIT_STATE, oh_get_session_subscription. erewrite bind_next by done. destruct (at_session _ _ _ Hw) as [s ->].
  by rewrite (proj2 (Z.ltb_ge _ _) (at_sid _ _ _ Hw)).
Qed.
Lemma run_did {O} : OH_GET_DID (O := O) sid w = (Next (oh_get_session_domain sid (sessions w)), w).
Proof using Hw.
  unfold OH_GET_DID. erewrite bind_next by done. cbv zeta. by rewrite (proj2 (Z.eqb_neq _ _) (at_did _ _ _ Hw)).
Qed.
Lemma run_get_domain {O} :
  OH_GET_DOMAIN (O := O) (oh_get_session_domain sid (sessions w)) w = (Next (home sid w), holding_domain).
Proof using Hw.
  unfold OH_GET_DOMAIN, oh_get_domain. pose proof (at_domain _ _ _ Hw) as Hx. unfold home in Hx.
  by rewrite Hx.
Qed.
Lemma run_domain {O} : domain (O := O) (home sid w) holding_domain = (Next x, holding_domain).
Proof using Hw.
  unfold domain. rewrite bool_decide_true by (simpl; left). simpl. by rewrite (at_domain _ _ _ Hw).
Qed.
Lemma run_release {O} : oh_release_domain (O := O) (home sid w) holding_domain = (Next tt, w).
Proof using Hw.
  unfold oh_release_domain. rewrite bool_decide_true by (simpl; left). f_equal.
  unfold holding_domain. destruct w. unfold set_field. simpl. by rewrite Z.eqb_refl.
Qed.
Lemma run_reject {O} w1 rv : reject (O := O) false rv w1 = (Next tt, w1).
Proof. done. Qed.
End Run.

(** One step of a function that changes nothing but what is held. *)
Ltac run_step :=
  cbv beta;
  first
    [ erewrite bind_next by (eapply run_check; eassumption)
    | erewrite bind_next by (eapply run_did; eassumption)
    | erewrite bind_next by (eapply run_get_domain; eassumption)
    | erewrite bind_next by (eapply run_domain; eassumption)
    | erewrite bind_next by (eapply run_release; eassumption)
    | erewrite bind_next by reflexivity ].

Section Answers.
Context (sid : Z) (w : daemon) (x : oh_domain) (Hw : attached sid w x).
#[local] Notation holding_domain := (holding_domain sid w).

(** ** Resources *)

Definition next_entry {A} (key : A -> Z) (l : list A) : Z :=
  match l with [] => SAHPI_LAST_ENTRY | a :: _ => key a end.

Lemma run_rpt_entry r l2 entry :
  entry <> SAHPI_LAST_ENTRY ->
  (if entry =? SAHPI_FIRST_ENTRY then oh_get_resource_next (Some (rpt x)) SAHPI_FIRST_ENTRY
   else oh_get_resource_by_id (Some (rpt x)) entry) = Some r ->
  oh_get_resource_next (Some (rpt x)) (EntryId r) = head l2 ->
  saHpiRptEntryGet sid entry true true w = (Return SA_OK (Some (next_entry EntryId l2, r)), w).
Proof using Hw.
  intros Hl%Z.eqb_neq Hr Hn. unfold saHpiRptEntryGet. do 3 run_step. rewrite Hl. do 3 run_step.
  cbv beta zeta. rewrite Hr, Hn. run_step. by destruct l2.
Qed.
Lemma run_rpt_none :
  oh_get_resource_next (Some (rpt x)) SAHPI_FIRST_ENTRY = None ->
  saHpiRptEntryGet sid SAHPI_FIRST_ENTRY true true w = (Return SA_ERR_HPI_NOT_PRESENT None, w).
Proof using Hw.
  intros Hr. unfold saHpiRptEntryGet. do 6 run_step. cbv beta zeta. change (SAHPI_FIRST_ENTRY =? SAHPI_FIRST_ENTRY) with true.
  cbv iota. rewrite Hr. by run_step.
Qed.

(** ** RDRs *)

Section Rdrs.
Context (rid : Z) (res : SaHpiRptEntryT) (Hres : oh_get_resource_by_id (Some (rpt x)) rid = Some res).
Context (Hcap : has_cap (ResourceCapabilities res) SAHPI_CAPABILITY_RDR = true).

Lemma run_resource {O} :
  OH_RESOURCE_GET (O := O) (home sid w) rid (holding_domain) = (Next res, holding_domain).
Proof using Hw Hres. unfold OH_RESOURCE_GET. run_step. by rewrite Hres. Qed.
Lemma run_need {O} rv :
  need (O := O) (home sid w) res SAHPI_CAPABILITY_RDR rv holding_domain = (Next tt, holding_domain).
Proof using Hcap. unfold need. by rewrite Hcap. Qed.

Lemma run_rdr r l2 entry :
  entry <> SAHPI_LAST_ENTRY ->
  (if entry =? SAHPI_FIRST_ENTRY then oh_get_rdr_next (Some (rpt x)) rid SAHPI_FIRST_ENTRY
   else oh_get_rdr_by_id (Some (rpt x)) rid entry) = Some r ->
  oh_get_rdr_next (Some (rpt x)) rid (RecordId r) = head l2 ->
  saHpiRdrGet sid rid entry true true w = (Return SA_OK (Some (next_entry RecordId l2, r)), w).
Proof using Hw Hres Hcap.
  intros Hl%Z.eqb_neq Hr Hn. unfold saHpiRdrGet. do 2 run_step. rewrite Hl. do 2 run_step.
  erewrite bind_next by apply run_resource. erewrite bind_next by apply run_need. run_step.
  cbv beta zeta. rewrite Hr, Hn. run_step. by destruct l2.
Qed.
Lemma run_rdr_none :
  oh_get_rdr_next (Some (rpt x)) rid SAHPI_FIRST_ENTRY = None ->
  saHpiRdrGet sid rid SAHPI_FIRST_ENTRY true true w = (Return SA_ERR_HPI_NOT_PRESENT None, w).
Proof using Hw Hres Hcap.
  intros Hr. unfold saHpiRdrGet. do 4 run_step.
  erewrite bind_next by apply run_resource. erewrite bind_next by apply run_need. run_step.
  cbv beta zeta. change (SAHPI_FIRST_ENTRY =? SAHPI_FIRST_ENTRY) with true.
  cbv iota. rewrite Hr. by run_step.
Qed.
End Rdrs.

(** ** Children *)

Section Children.
Context `{UidLookup} (parent : SaHpiEntityPathT) (Hok : rpt_ok (rpt x)).

(** The parent is the root, or the path of a resource. *)
Definition parent_known : Prop :=
  (EntityType (Entry parent !!! 0%nat) = SAHPI_ENT_ROOT /\ EntityLocation (Entry parent !!! 0%nat) = 0) \/
  is_Some (oh_get_resource_by_ep (Some (rpt x)) (Some parent)).
Definition is_child_of (r : SaHpiRptEntryT) : bool := is_child (child_pattern parent) r.

Lemma run_parent {A O} (k : unit -> M O A) : parent_known ->
  (when (negb (EntityType (Entry parent !!! 0%nat) =? SAHPI_ENT_ROOT)
         || negb (EntityLocation (Entry parent !!! 0%nat) =? 0))
    (bail (home sid w) (bool_decide (oh_get_resource_by_ep (Some (rpt x)) (Some parent) = None))
       SA_ERR_HPI_INVALID_DATA) ≫= k) holding_domain = k tt holding_domain.
Proof.
  intros [[-> ->]|[r ->]]; [done|]. rewrite bool_decide_false by done. unfold bail. simpl.
  by destruct (_ || _).
Qed.

Lemma run_child inst :
  parent_known -> inst <> SAHPI_LAST_ENTRY ->
  saHpiGetChildEntityPath sid parent (Some inst) true true w =
    match child_from (rpt x) (child_pattern parent) inst with
    | None => (Return SA_ERR_HPI_NOT_PRESENT None, w)
    | Some r =>
        match find_child (resource_fuel (rpt x)) (rpt x) (child_pattern parent) true
                (oh_get_resource_next (Some (rpt x)) (ResourceId r)) with
        | None => (Waits, holding_domain)
        | Some n => (Return SA_OK (Some (from_option ResourceId SAHPI_LAST_ENTRY n, ResourceEntity r,
                                         table_update_count (rpt x))), w)
        end
    end.
Proof using Hw Hok.
  intros Hp Hi. unfold saHpiGetChildEntityPath. rewrite !bool_decide_false by congruence.
  do 6 run_step. cbv zeta. rewrite run_parent by done. rewrite find_child_ends by done. cbn [ends]. run_step.
  destruct (child_from _ _ _) as [r|]; [|by run_step].
  destruct (find_child _ _ _ _ _) as [n|]; cbn [ends]; [|done]. do 2 run_step. run_step. by destruct n.
Qed.
End Children.

(** ** Alarms *)

Section Alarms.
Context (sev unack : Z) (Hsev : oh_lookup_severity sev = true).
Context (Hsorted : StronglySorted Z.lt (AlarmId <$> alarms x)).
Context (Hids : Forall (fun a => 1 <= AlarmId a <= SAHPI_LAST_ENTRY) (alarms x)).

Definition wanted (a : SaHpiAlarmT) : bool := alarm_matches (of_severity sev) (truthy unack) a.

Lemma find_alarm_head (Q : SaHpiAlarmT -> bool) i l : snd <$> find_alarm Q i l = head (List.filter Q l).
Proof. revert i. induction l as [|a l IH]; intros i; simpl; [done|]. by destruct (Q a). Qed.

Lemma next_alarm aid :
  oh_get_alarm (Some x) (Some aid) (of_severity sev) (truthy unack) true
  = head (List.filter (fun a => (aid <? AlarmId a) && wanted a) (alarms x)).
Proof using Hids.
  unfold oh_get_alarm. rewrite next_node; [apply find_alarm_head|]. eapply Forall_impl; [exact Hids|]. by intros a [_ Ha].
Qed.

Lemma wanted_after l1 a l2 :
  alarms x = l1 ++ a :: l2 ->
  List.filter (fun b => (AlarmId a <? AlarmId b) && wanted b) (alarms x) = List.filter wanted l2.
Proof using Hsorted Hids.
  intros E. pose proof Hsorted as Hs. rewrite E in *. destruct (sorted_split _ _ _ Hs) as (H1 & H2 & _).
  assert (Hf : forall l, Forall (fun b => AlarmId b < AlarmId a) l ->
    List.filter (fun b => (AlarmId a <? AlarmId b) && wanted b) l = []).
  { induction 1 as [|b l Hb _ IH]; simpl; [done|]. by rewrite (proj2 (Z.ltb_ge _ _)) by lia. }
  rewrite List.filter_app, Hf by done. simpl. rewrite Z.ltb_irrefl. simpl. apply filter_ext_Forall.
  eapply Forall_impl; [exact H2|]. intros b Hb. simpl. by rewrite (proj2 (Z.ltb_lt _ _)).
Qed.

Lemma this_alarm l1 a l2 :
  alarms x = l1 ++ a :: l2 -> wanted a = true -> AlarmId a <> SAHPI_LAST_ENTRY ->
  oh_get_alarm (Some x) (Some (AlarmId a)) (of_severity sev) (truthy unack) false = Some a.
Proof using Hsorted Hids.
  intros E Ha Hl. assert (Hpos : 1 <= AlarmId a).
  { pose proof Hids as Hi. rewrite E in Hi. apply Forall_app in Hi as [_ Hi]. inversion_clear Hi as [|? ? Hi1 _]. lia. }
  unfold oh_get_alarm, get_alarm_node. rewrite !(proj2 (Z.eqb_neq _ _)) by (consts; lia).
  rewrite find_alarm_head. pose proof Hsorted as Hs. rewrite E in *. destruct (sorted_split _ _ _ Hs) as (H1 & _).
  assert (Hf : forall l, Forall (fun b => AlarmId b < AlarmId a) l -> List.filter (fun b =>
      id_matches (Some (AlarmId a)) false b && alarm_matches (of_severity sev) (truthy unack) b) l = []).
  { induction 1 as [|b l Hb _ IH]; simpl; [done|]. by rewrite (proj2 (Z.eqb_neq _ _)) by lia. }
  rewrite List.filter_app, (Hf l1) by done. simpl. rewrite Z.eqb_refl. unfold wanted in Ha. by rewrite Ha.
Qed.

Lemma run_alarm a l2 :
  AlarmId a <> SAHPI_LAST_ENTRY ->
  (AlarmId a = SAHPI_FIRST_ENTRY \/
   oh_get_alarm (Some x) (Some (AlarmId a)) (of_severity sev) (truthy unack) false = Some a) ->
  oh_get_alarm (Some x) (Some (AlarmId a)) (of_severity sev) (truthy unack) true = head l2 ->
  saHpiAlarmGetNext sid sev unack (Some a) w =
    match l2 with
    | [] => (Return SA_ERR_HPI_NOT_PRESENT None, w)
    | b :: _ => (Return SA_OK (Some b), w)
    end.
Proof using Hw Hsev.
  intros Hl%Z.eqb_neq Ha Hn. unfold saHpiAlarmGetNext. run_step. rewrite Hsev. do 2 run_step. rewrite Hl. do 4 run_step.
  cbv zeta. rewrite Hn. assert (He : negb (AlarmId a =? SAHPI_FIRST_ENTRY) = false \/
    oh_get_alarm (Some x) (Some (AlarmId a)) (of_severity sev) (truthy unack) false = Some a).
  { destruct Ha as [->|Ha]; [by left|by right]. }
  set (err := if negb (AlarmId a =? SAHPI_FIRST_ENTRY) then _ else _).
  assert (Herr : err = SA_ERR_HPI_NOT_PRESENT).
  { unfold err. destruct He as [-> | ->]; [done|]. rewrite Z.eqb_refl. by destruct (negb _). }
  rewrite Herr. destruct l2; cbn [head]; cbv iota; by run_step.
Qed.

Lemma run_last_alarm a :
  AlarmId a = SAHPI_LAST_ENTRY -> saHpiAlarmGetNext sid sev unack (Some a) w = (Return SA_ERR_HPI_NOT_PRESENT None, w).
Proof using Hw Hsev. intros Ha. unfold saHpiAlarmGetNext. run_step. rewrite Hsev. do 2 run_step. by rewrite Ha. Qed.
End Alarms.
End Answers.

(** * The walks *)

(** A function that returns the element named by its key and the key of the next
    one enumerates the list. *)
Lemma entries_walk {O A B} (key : B -> Z) (f : B -> A) (read : O -> Z * A) (get : Z -> api O) (w : daemon) rv l :
  let found entry a l2 :=
    exists o, get entry w = (Return SA_OK (Some o), w) /\ read o = (next_entry key l2, f a) in
  Forall (fun a => key a <> SAHPI_LAST_ENTRY) l ->
  (forall l1 a l2, l = l1 ++ a :: l2 -> found (key a) a l2) ->
  match l with
  | [] => get SAHPI_FIRST_ENTRY w = (Return rv None, w)
  | a :: l2 => found SAHPI_FIRST_ENTRY a l2
  end ->
  entries (S (length l)) read get SAHPI_FIRST_ENTRY w = Some (f <$> l, w).
Proof.
  intros found Hl Hg H0.
  assert (Hk : forall l1 a l2, l = l1 ++ a :: l2 -> (key a =? SAHPI_LAST_ENTRY) = false).
  { intros l1 a l2 ->. apply Forall_app in Hl as [_ Hl]. apply Z.eqb_neq. by inversion_clear Hl. }
  assert (Hstep : forall l2 l1 a fuel entry, l = l1 ++ a :: l2 -> found entry a l2 -> (length l2 <= fuel)%nat ->
    entries (S fuel) read get entry w = Some (f <$> a :: l2, w)).
  { induction l2 as [|b l2 IH]; intros l1 a fuel entry E (o & Ho & Hr) Hf; cbn [entries]; rewrite Ho, Hr;
      simpl negb; cbv iota; cbn [fst snd next_entry]; [done|].
    assert (E' : l = (l1 ++ [a]) ++ b :: l2) by by rewrite E, <- app_assoc.
    rewrite (Hk (l1 ++ [a]) b l2 E'). destruct fuel as [|fuel]; [simpl in Hf; lia|].
    rewrite (IH (l1 ++ [a]) b); [done|done|by apply (Hg (l1 ++ [a]))|simpl in Hf; lia]. }
  destruct l as [|a l]; [cbn [entries]; by rewrite H0|]. apply (Hstep l []); [done|done|simpl; lia].
Qed.

(** A function that returns the wanted alarm after an alarm enumerates them. *)
Lemma alarms_walk (get : SaHpiAlarmT -> api SaHpiAlarmT) (w : daemon) rv (P : SaHpiAlarmT -> bool) l a0 :
  (forall l1 a l2, l = l1 ++ a :: l2 -> P a = true ->
     get a w = match List.filter P l2 with [] => (Return rv None, w) | b :: _ => (Return SA_OK (Some b), w) end) ->
  get a0 w = match List.filter P l with [] => (Return rv None, w) | b :: _ => (Return SA_OK (Some b), w) end ->
  alarms_after (S (length l)) get a0 w = Some (List.filter P l, w).
Proof.
  intros Hg. assert (Hn : forall l2 l1 a fuel, l = l1 ++ l2 -> (length l2 < fuel)%nat ->
    get a w = match List.filter P l2 with [] => (Return rv None, w) | b :: _ => (Return SA_OK (Some b), w) end ->
    alarms_after fuel get a w = Some (List.filter P l2, w)).
  { induction l2 as [|b l2 IH]; intros l1 a [|fuel] E Hf Ha; try (simpl in Hf; lia); cbn [alarms_after].
    - by rewrite Ha.
    - assert (E' : l = (l1 ++ [b]) ++ l2) by by rewrite E, <- app_assoc. simpl in Hf, Ha |- *.
      destruct (P b) eqn:Hb.
      + rewrite Ha. simpl. rewrite (IH (l1 ++ [b])); [done|done|lia|]. by apply (Hg l1).
      + specialize (IH (l1 ++ [b]) a (S fuel) E'). cbn [alarms_after] in IH. apply IH; [lia|done]. }
  intros H0. by apply (Hn l []); [|lia|].
Qed.

Section Walks.
Context (sid : Z) (w : daemon) (x : oh_domain) (Hw : attached sid w x) (Hok : rpt_ok (rpt x)).

Lemma resource_ids : Forall (fun r => EntryId r = ResourceId r) (resources (rpt x)).
Proof using Hok.
  unfold resources, rpt_view. rewrite <- list_fmap_compose, Forall_fmap, Forall_fmap.
  eapply Forall_impl; [apply (rpt_entries _ Hok)|]. by intros p [Hp _].
Qed.

Lemma resource_by_id l1 r l2 :
  resources (rpt x) = l1 ++ r :: l2 ->
  ResourceId r <> 0 /\ oh_get_resource_by_id (Some (rpt x)) (ResourceId r) = Some r.
Proof using Hok.
  intros Er. assert (Hr : r ∈ resources (rpt x)) by (rewrite Er, elem_of_app; right; left).
  apply list_elem_of_fmap in Hr as (e & -> & He). destruct (rpt_view_nodup _ Hok) as [_ Hz].
  rewrite Forall_forall in Hz. split; [by apply Hz|]. by rewrite res_by_id_view, elem_view_find.
Qed.

Lemma first_resource : oh_get_resource_next (Some (rpt x)) SAHPI_FIRST_ENTRY = head (resources (rpt x)).
Proof using Hok. rewrite res_next_view by done. simpl. unfold resources. by rewrite head_fmap. Qed.

Lemma resources_enumerated :
  Forall (fun r => ResourceId r <> SAHPI_LAST_ENTRY) (resources (rpt x)) ->
  entries (S (length (resources (rpt x)))) (fun o => o) (fun e => saHpiRptEntryGet sid e true true) SAHPI_FIRST_ENTRY w
  = Some (resources (rpt x), w).
Proof using Hw Hok.
  intros Hl. pose proof resource_ids as Hid.
  assert (Hkey : forall l1 r l2, resources (rpt x) = l1 ++ r :: l2 ->
    EntryId r = ResourceId r /\ EntryId r <> SAHPI_LAST_ENTRY /\
    oh_get_resource_next (Some (rpt x)) (EntryId r) = head l2).
  { intros l1 r l2 Er. assert (Hr : r ∈ resources (rpt x)) by (rewrite Er, elem_of_app; right; left).
    rewrite Forall_forall in Hid, Hl. rewrite (Hid r Hr). split; [done|]. split; [by apply Hl|].
    by apply resource_next with l1. }
  etrans; [apply (entries_walk EntryId (fun r => r) _ _ _ SA_ERR_HPI_NOT_PRESENT)|by rewrite list_fmap_id].
  - rewrite Forall_forall in *. intros r Hr. rewrite Hid by done. by apply Hl.
  - intros l1 r l2 Er. destruct (Hkey _ _ _ Er) as (Hi & Hne & Hn). destruct (resource_by_id _ _ _ Er) as [Hz Hb].
    eexists. split; [|done]. eapply run_rpt_entry; [done|done| |done]. by rewrite Hi, (proj2 (Z.eqb_neq _ SAHPI_FIRST_ENTRY) Hz).
  - pose proof first_resource as Hf. destruct (resources (rpt x)) as [|r l2] eqn:Er; [by eapply run_rpt_none|].
    destruct (Hkey [] r l2 eq_refl) as (_ & _ & Hn). eexists. split; [|done]. by eapply run_rpt_entry.
Qed.

Lemma find_by_key {A} (key : A -> Z) l a :
  NoDup (key <$> l) -> a ∈ l -> List.find (fun b => key b =? key a) l = Some a.
Proof.
  induction l as [|b l IH]; intros Hd Ha; [by apply not_elem_of_nil in Ha|]. rewrite fmap_cons in Hd.
  apply NoDup_cons in Hd as [Hb Hd]. simpl. destruct (Z.eqb_spec (key b) (key a)) as [Ek|Hne].
  - apply elem_of_cons in Ha as [->|Ha]; [done|]. exfalso. apply Hb. rewrite Ek. by apply list_elem_of_fmap_2.
  - apply IH; [done|]. by apply elem_of_cons in Ha as [->|Ha].
Qed.

Lemma rdrs_keys rid y : view_find rid (rpt_view (rpt x)) = Some y ->
  NoDup (RecordId <$> y.2) /\ Forall (fun r => RecordId r <> 0) y.2.
Proof using Hok.
  intros Hy. rewrite <- get_rptentry_view in Hy by done.
  destruct (get_rptentry_by_rid (Some (rpt x)) rid) as [[n e]|] eqn:Ee; [|done]. injection Hy as <-.
  apply get_rptentry_elem in Ee as (_ & He & _); [|done]. by apply rdr_view_nodup in He.
Qed.

Lemma rdrs_enumerated rid res rs :
  view_find rid (rpt_view (rpt x)) = Some (res, rs) ->
  has_cap (ResourceCapabilities res) SAHPI_CAPABILITY_RDR = true ->
  Forall (fun r => RecordId r <> SAHPI_LAST_ENTRY) rs ->
  entries (S (length rs)) (fun o => o) (fun e => saHpiRdrGet sid rid e true true) SAHPI_FIRST_ENTRY w = Some (rs, w).
Proof using Hw Hok.
  intros Hv Hcap Hl. destruct (rdrs_keys _ _ Hv) as [Hd Hz]. simpl in Hd, Hz.
  assert (Hres : oh_get_resource_by_id (Some (rpt x)) rid = Some res) by by rewrite res_by_id_view, Hv.
  assert (Hkey : forall l1 r l2, rs = l1 ++ r :: l2 -> RecordId r <> SAHPI_LAST_ENTRY /\ RecordId r <> 0 /\
    oh_get_rdr_by_id (Some (rpt x)) rid (RecordId r) = Some r /\
    oh_get_rdr_next (Some (rpt x)) rid (RecordId r) = head l2).
  { intros l1 r l2 Er. assert (Hr : r ∈ rs) by (rewrite Er, elem_of_app; right; left).
    pose proof (proj1 (Forall_forall _ _) Hl r Hr). pose proof (proj1 (Forall_forall _ _) Hz r Hr).
    split; [done|]. split; [done|]. rewrite rdr_by_id_view, rdr_next_view, Hv by done. simpl. split.
    - unfold rdr_find. rewrite (proj2 (Z.eqb_neq _ SAHPI_FIRST_ENTRY)) by done. by apply find_by_key.
    - by apply keys_walk with l1. }
  etrans; [apply (entries_walk RecordId (fun r => r) _ _ _ SA_ERR_HPI_NOT_PRESENT)|by rewrite list_fmap_id]; [done| |].
  - intros l1 r l2 Er. destruct (Hkey _ _ _ Er) as (Hne & Hnz & Hb & Hn).
    eexists. split; [|done]. eapply run_rdr; [done..| |done]. by rewrite (proj2 (Z.eqb_neq _ SAHPI_FIRST_ENTRY) Hnz).
  - assert (Hf : oh_get_rdr_next (Some (rpt x)) rid SAHPI_FIRST_ENTRY = head rs) by by rewrite rdr_next_view, Hv.
    destruct rs as [|r l2]; [by eapply run_rdr_none|].
    destruct (Hkey [] r l2 eq_refl) as (_ & _ & _ & Hn). eexists. split; [|done]. by eapply run_rdr.
Qed.
Lemma filter_split {A} (P : A -> bool) l m1 a m2 :
  List.filter P l = m1 ++ a :: m2 -> exists l1 l2, l = l1 ++ a :: l2 /\ P a = true /\ List.filter P l2 = m2.
Proof.
  revert m1. induction l as [|b l IH]; intros m1; simpl; [by destruct m1|]. destruct (P b) eqn:Hb.
  - destruct m1 as [|c m1]; intros [= -> E].
    + by exists [], l.
    + destruct (IH _ E) as (l1 & l2 & -> & Ha & E'). by exists (c :: l1), l2.
  - intros E. destruct (IH _ E) as (l1 & l2 & -> & Ha & E'). by exists (b :: l1), l2.
Qed.
Lemma find_head {A} (P : A -> bool) l : List.find P l = head (List.filter P l).
Proof. induction l as [|a l IH]; simpl; [done|]. by destruct (P a). Qed.

Lemma children_enumerated `{UidLookup} parent :
  parent_known x parent -> Forall (fun r => ResourceId r <> SAHPI_LAST_ENTRY) (resources (rpt x)) ->
  let children := List.filter (is_child_of parent) (resources (rpt x)) in
  entries (S (length children)) (fun o => (o.1.1, (o.1.2, o.2)))
    (fun i => saHpiGetChildEntityPath sid parent (Some i) true true) SAHPI_FIRST_ENTRY w
  = Some ((fun r => (ResourceEntity r, table_update_count (rpt x))) <$> children, w).
Proof using Hw Hok.
  intros Hp Hl children.
  assert (Hrun : forall inst l1 a l2, inst <> SAHPI_LAST_ENTRY -> resources (rpt x) = l1 ++ a :: l2 ->
    child_from (rpt x) (child_pattern parent) inst = Some a ->
    exists o, saHpiGetChildEntityPath sid parent (Some inst) true true w = (Return SA_OK (Some o), w) /\
      (o.1.1, (o.1.2, o.2)) = (next_entry ResourceId (List.filter (is_child_of parent) l2),
                               (ResourceEntity a, table_update_count (rpt x)))).
  { intros inst l1 a l2 Hi Er Ha. eexists. erewrite run_child, Ha by done.
    rewrite (find_child_after _ _ l1 a l2) by done. split; [done|]. simpl. rewrite find_head.
    unfold is_child_of. by destruct (List.filter _ l2). }
  apply (entries_walk ResourceId (fun r => (ResourceEntity r, table_update_count (rpt x))) _ _ _
           SA_ERR_HPI_NOT_PRESENT).
  - rewrite Forall_forall in *. intros r Hr. apply Hl. unfold children in Hr.
    by apply list_elem_of_In, filter_In in Hr as [Hr%list_elem_of_In _].
  - intros m1 a m2 E'. apply filter_split in E' as (l1 & l2 & Er & Ha & <-).
    destruct (resource_by_id _ _ _ Er) as [Hz Hb]. apply (Hrun _ l1); [|done|].
    + rewrite Forall_forall in Hl. apply Hl. rewrite Er, elem_of_app. right. left.
    + unfold child_from. rewrite (proj2 (Z.eqb_neq _ SAHPI_FIRST_ENTRY)), Hb by done. simpl.
      unfold is_child_of in Ha. by rewrite Ha.
  - assert (Hf : child_from (rpt x) (child_pattern parent) SAHPI_FIRST_ENTRY = head children).
    { unfold child_from. simpl. apply find_head. }
    unfold children in *. destruct (List.filter _ (resources (rpt x))) as [|a m2] eqn:E'.
    + by erewrite run_child, Hf by done.
    + apply (filter_split _ _ []) in E' as (l1 & l2 & Er & Ha & <-). by apply (Hrun _ l1).
Qed.

Lemma alarms_enumerated g sev unack a0 :
  oh_lookup_severity sev = true -> dat_ok g x -> AlarmId a0 = SAHPI_FIRST_ENTRY ->
  alarms_after (S (length (alarms x))) (fun a => saHpiAlarmGetNext sid sev unack (Some a)) a0 w
  = Some (List.filter (wanted sev unack) (alarms x), w).
Proof using Hw.
  intros Hsev Hd H0. assert (Hids : Forall (fun a => 1 <= AlarmId a <= SAHPI_LAST_ENTRY) (alarms x)).
  { eapply Forall_impl; [apply (da_ids _ _ Hd)|]. intros a [Ha1 Ha2]. pose proof (da_next _ _ Hd). lia. }
  pose proof (da_sorted _ _ Hd) as Hs.
  pose proof (run_alarm sid w x Hw sev unack Hsev) as Hrun. apply (alarms_walk _ _ SA_ERR_HPI_NOT_PRESENT).
  - intros l1 a l2 E' Ha. destruct (decide (AlarmId a = SAHPI_LAST_ENTRY)) as [El|Hne].
    + assert (l2 = []) as ->.
      { rewrite E' in Hs, Hids. apply sorted_split in Hs as (_ & H2 & _). destruct l2 as [|b l2]; [done|].
        apply Forall_app in Hids as [_ Hids]. inversion_clear H2. inversion_clear Hids as [|? ? _ Hb].
        inversion_clear Hb. lia. }
      by apply (run_last_alarm sid w x Hw).
    + apply Hrun; [done|right; by eapply this_alarm|]. rewrite next_alarm by done. by erewrite wanted_after.
  - apply Hrun; [by rewrite H0|by left|]. rewrite next_alarm by done. f_equal. apply filter_ext_Forall.
    eapply Forall_impl; [exact Hids|]. intros b Hb. simpl. by rewrite H0, (proj2 (Z.ltb_lt _ _)) by (consts; lia).
Qed.
End Walks.

(** * Properties *)

(** C5: a client that follows [saHpiRptEntryGet] from [SAHPI_FIRST_ENTRY] to
    [SAHPI_LAST_ENTRY] obtains every resource of the domain once and in order, and
    one that follows [saHpiRdrGet] every RDR of a resource; neither changes
    anything.  (No resource has the id that is reserved for the end.) *)
Theorem inventory_walks_complete (sid : Z) (w : daemon) (x : oh_domain) :
  attached sid w x -> rpt_ok (rpt x) ->
  Forall (fun r => ResourceId r <> SAHPI_LAST_ENTRY) (resources (rpt x)) ->
  entries (S (length (resources (rpt x)))) (fun o => o) (fun e => saHpiRptEntryGet sid e true true)
    SAHPI_FIRST_ENTRY w = Some (resources (rpt x), w) /\
  forall rid res rs,
    view_find rid (rpt_view (rpt x)) = Some (res, rs) ->
    has_cap (ResourceCapabilities res) SAHPI_CAPABILITY_RDR = true ->
    Forall (fun r => RecordId r <> SAHPI_LAST_ENTRY) rs ->
    entries (S (length rs)) (fun o => o) (fun e => saHpiRdrGet sid rid e true true) SAHPI_FIRST_ENTRY w
    = Some (rs, w).
Proof.
  intros Hw Hok Hl. split; [by apply resources_enumerated|]. intros rid res rs Hv Hc Hr.
  by eapply rdrs_enumerated.
Qed.

Lemma hub_attached : attached 1 hub hub_domain.
Proof. constructor; [done|by eexists|done|done]. Qed.

Lemma inventory_walks_complete_witness :
  resources hub_rpt = [hub_resource] /\
  entries 2 (fun o => o) (fun e => saHpiRptEntryGet 1 e true true) SAHPI_FIRST_ENTRY hub
  = Some ([hub_resource], hub) /\
  entries 2 (fun o => o) (fun e => saHpiRdrGet 1 7 e true true) SAHPI_FIRST_ENTRY hub
  = Some ([example_rdr SAHPI_INVENTORY_RDR 3], hub).
Proof.
  assert (E : resources hub_rpt = [hub_resource]) by by vm_compute. split; [exact E|].
  destruct (inventory_walks_complete 1 hub hub_domain hub_attached hub_rpt_ok) as [H1 H2].
  - change (rpt hub_domain) with hub_rpt. rewrite E. by constructor.
  - change (rpt hub_domain) with hub_rpt in *. rewrite E in H1. split; [exact H1|].
    apply (H2 7 hub_resource [example_rdr SAHPI_INVENTORY_RDR 3]); [by vm_compute|by vm_compute|].
    by constructor.
Defined.

(** A client that gives [saHpiAlarmGetNext] the alarm it returned last, and
    first an alarm with the id [SAHPI_FIRST_ENTRY], obtains exactly the alarms of
    the severity - or the unacknowledged ones only - oldest first, and ends; the
    table does not change. *)
Theorem alarm_walk_complete (g : global_params) (sid : Z) (w : daemon) (x : oh_domain) (sev unack : Z)
    (a0 : SaHpiAlarmT) :
  attached sid w x -> dat_ok g x -> oh_lookup_severity sev = true -> AlarmId a0 = SAHPI_FIRST_ENTRY ->
  alarms_after (S (length (alarms x))) (fun a => saHpiAlarmGetNext sid sev unack (Some a)) a0 w
  = Some (List.filter (fun a => ((sev =? SAHPI_ALL_SEVERITIES) || (alarm_Severity a =? sev))
                                && (negb (truthy unack) || negb (truthy (Acknowledged a)))) (alarms x), w).
Proof.
  intros Hw Hd Hs H0. rewrite (alarms_enumerated sid w x Hw g) by done. do 2 f_equal.
  apply filter_ext_Forall, Forall_forall. intros a _. unfold wanted, alarm_matches. simpl.
  destruct (sev =? SAHPI_ALL_SEVERITIES), (alarm_Severity a =? sev), (truthy unack); by destruct (truthy (Acknowledged a)).
Qed.

Lemma alarm_walk_complete_witness :
  alarms_after 1 (fun a => saHpiAlarmGetNext 1 SAHPI_ALL_SEVERITIES SAHPI_FALSE (Some a)) zero_alarm hub
  = Some ([], hub).
Proof.
  apply (alarm_walk_complete example_params 1 hub hub_domain SAHPI_ALL_SEVERITIES SAHPI_FALSE zero_alarm
           hub_attached); [|done|done].
  apply (ok_dat _ _ (id_ok _ _ hub_idle) 0). done.
Defined.

(** A client that follows the instances of [saHpiGetChildEntityPath] obtains
    the entity paths of exactly the resources whose path matches one element
    before the parent's path, in the order of the table, with the table's update
    count. *)
Theorem child_walk_complete `{UidLookup} (sid : Z) (w : daemon) (x : oh_domain) (parent : SaHpiEntityPathT) :
  attached sid w x -> rpt_ok (rpt x) -> parent_known x parent ->
  Forall (fun r => ResourceId r <> SAHPI_LAST_ENTRY) (resources (rpt x)) ->
  let children := List.filter (fun r => is_child (child_pattern parent) r) (resources (rpt x)) in
  entries (S (length children)) (fun o => (o.1.1, (o.1.2, o.2)))
    (fun i => saHpiGetChildEntityPath sid parent (Some i) true true) SAHPI_FIRST_ENTRY w
  = Some ((fun r => (ResourceEntity r, table_update_count (rpt x))) <$> children, w).
Proof. intros Hw Hok Hp Hl. by apply children_enumerated. Qed.

#[local] Instance hub_uids : UidLookup := {| oh_uid_is_initialized := true; oh_uid_lookup := fun _ => 0 |}.
Lemma child_walk_complete_witness :
  entries 2 (fun o => (o.1.1, (o.1.2, o.2)))
    (fun i => saHpiGetChildEntityPath 1 root_path (Some i) true true) SAHPI_FIRST_ENTRY hub
  = Some ([(hub_path, table_update_count hub_rpt)], hub).
Proof.
  apply (child_walk_complete 1 hub hub_domain root_path hub_attached hub_rpt_ok); [by left|].
  apply Forall_forall. intros r Hr%list_elem_of_In. vm_compute in Hr. by destruct Hr as [<-|[]].
Defined.
