(* ===== verification/ApiAlarms.v ===== *)
(** What the HPI functions that change the alarms of a domain do: acknowledging
    and deleting, of one alarm and of all of a severity. *)
From S2P Require Import Prelude SaHpi Rpt Conf DomainState EventUtils Alarm Session Validate.
From S2P Require Import Domain Event Api ApiDomain ApiEvents ApiRules ApiWalk ApiSafe ApiCorrect ApiClients.

Section Changes.
Context (sid : Z) (w : daemon) (x : oh_domain) (Hw : attached sid w x).

(** The daemon after a change of the session's domain. *)
Definition changed (f : oh_domain -> oh_domain) : daemon :=
  w <| doms ::= fun t => t <| dt_table ::= alter f (home sid w) |> |>.

Lemma run_change {O A} f (k : unit -> M O A) :
  (set_d (home sid w) f ≫= fun _ => oh_release_domain (home sid w) ≫= k) (holding_domain sid w)
  = k tt (changed f).
Proof using Hw.
  unfold set_d. erewrite bind_next; [|erewrite bind_next by (by apply run_domain); reflexivity].
  erewrite bind_next; [done|]. unfold oh_release_domain. rewrite bool_decide_true by (simpl; left). f_equal.
  unfold holding_domain, changed. destruct w. unfold set_field. simpl. by rewrite Z.eqb_refl.
Qed.

Lemma changed_domain f : dt_table (doms (changed f)) !! home sid w = Some (f x).
Proof using Hw. simpl. by rewrite lookup_alter_eq, (at_domain _ _ _ Hw). Qed.

Section Table.
Context (E : env) (Hdat : dat_ok (e_params E) x).

(** The alarm with an id. *)
Lemma id_node aid : 1 <= aid < SAHPI_LAST_ENTRY ->
  match get_alarm_node (alarms x) (Some aid) any false false with
  | Some (i, a) => exists l1 l2, alarms x = l1 ++ a :: l2 /\ i = length l1 /\ AlarmId a = aid
  | None => Forall (fun a => AlarmId a <> aid) (alarms x)
  end.
Proof.
  intros Ha. unfold get_alarm_node. rewrite !(proj2 (Z.eqb_neq _ _)) by (consts; lia).
  pose proof (find_alarm_spec (fun a => id_matches (Some aid) false a && alarm_matches any false a) 0 (alarms x)) as Hs.
  destruct (find_alarm _ 0 _) as [[i a]|].
  - destruct Hs as (l1 & l2 & E1 & -> & Hm & _). exists l1, l2. apply andb_true_iff in Hm as [Hm _].
    by apply Z.eqb_eq in Hm.
  - eapply Forall_impl; [exact Hs|]. intros a Hm Eid. simpl in Hm. by rewrite Eid, Z.eqb_refl in Hm.
Qed.

Definition ack_id (aid : Z) (a : SaHpiAlarmT) : SaHpiAlarmT := if AlarmId a =? aid then acked a else a.

Lemma others_differ l1 a l2 :
  alarms x = l1 ++ a :: l2 -> Forall (fun b => AlarmId b <> AlarmId a) (l1 ++ l2).
Proof using Hdat.
  intros Ex. pose proof (da_sorted _ _ Hdat) as Hs. rewrite Ex in Hs.
  apply sorted_split in Hs as (H1 & H2 & _). apply Forall_app. split; eapply Forall_impl; try done; simpl; lia.
Qed.

Lemma acknowledge_id l1 a l2 :
  alarms x = l1 ++ a :: l2 -> acknowledge (length l1) (alarms x) = ack_id (AlarmId a) <$> alarms x.
Proof using Hdat.
  intros Ex. pose proof (others_differ _ _ _ Ex) as Ho. rewrite Ex, acknowledge_split, fmap_app, fmap_cons.
  apply Forall_app in Ho as [H1 H2].
  assert (Hid : forall l, Forall (fun b => AlarmId b <> AlarmId a) l -> ack_id (AlarmId a) <$> l = l).
  { induction 1 as [|b l Hb _ IH]; [done|]. rewrite fmap_cons, IH. unfold ack_id. by rewrite (proj2 (Z.eqb_neq _ _) Hb). }
  rewrite !Hid by done. unfold ack_id. by rewrite Z.eqb_refl.
Qed.

Lemma delete_id l1 a l2 :
  alarms x = l1 ++ a :: l2 ->
  delete (length l1) (alarms x) = List.filter (fun b => negb (AlarmId b =? AlarmId a)) (alarms x).
Proof using Hdat.
  intros Ex. pose proof (others_differ _ _ _ Ex) as Ho. rewrite Ex, delete_middle, List.filter_app. simpl.
  rewrite Z.eqb_refl. simpl. rewrite <- List.filter_app. symmetry. induction Ho as [|b l Hb _ IH]; [done|].
  simpl. by rewrite (proj2 (Z.eqb_neq _ _) Hb), IH.
Qed.

(** The search by id finds the alarm that has it, if one does. *)
Lemma node_find aid : 1 <= aid < SAHPI_LAST_ENTRY ->
  match get_alarm_node (alarms x) (Some aid) any false false with
  | Some (i, a) => exists l1 l2, alarms x = l1 ++ a :: l2 /\ i = length l1 /\ AlarmId a = aid /\
      List.find (fun a => AlarmId a =? aid) (alarms x) = Some a /\
      List.filter (fun a => AlarmId a =? aid) (alarms x) = [a]
  | None => List.find (fun a => AlarmId a =? aid) (alarms x) = None /\
      List.filter (fun a => AlarmId a =? aid) (alarms x) = []
  end.
Proof using Hdat.
  intros Ha. pose proof (id_node aid Ha) as Hn.
  assert (Hnone : forall l, Forall (fun a => AlarmId a <> aid) l -> List.filter (fun a => AlarmId a =? aid) l = []).
  { induction 1 as [|b l Hb _ IH]; [done|]. simpl. by rewrite (proj2 (Z.eqb_neq _ _) Hb). }
  destruct (get_alarm_node _ _ _ _ _) as [[i a]|].
  - destruct Hn as (l1 & l2 & Ex & Hi & Eid). pose proof (others_differ _ _ _ Ex) as Ho. rewrite Eid in Ho.
    apply Forall_app in Ho as [H1 H2]. exists l1, l2. do 3 (split; [done|]).
    assert (Hf : List.filter (fun a => AlarmId a =? aid) (alarms x) = [a]).
    { rewrite Ex, List.filter_app. simpl. by rewrite Eid, Z.eqb_refl, !Hnone. }
    split; [|done]. by rewrite find_head, Hf.
  - by rewrite find_head, Hnone.
Qed.

(** ** Acknowledging *)

Lemma run_ack_id aid sev :
  1 <= aid < SAHPI_LAST_ENTRY ->
  match List.find (fun a => AlarmId a =? aid) (alarms x) with
  | Some a => exists f, saHpiAlarmAcknowledge sid aid sev w = (Return SA_OK (Some tt), changed f) /\
         f x = set_alarms x (ack_id aid <$> alarms x)
  | None => saHpiAlarmAcknowledge sid aid sev w = (Return SA_ERR_HPI_NOT_PRESENT None, w)
  end.
Proof using Hw Hdat.
  intros Ha. unfold saHpiAlarmAcknowledge.
  assert (Hz : (aid =? SAHPI_ENTRY_UNSPECIFIED) = false) by (apply Z.eqb_neq; consts; lia).
  rewrite Hz. cbn [andb negb]. pose proof (node_find aid Ha) as Hn.
  destruct (get_alarm_node (alarms x) (Some aid) any false false) as [[i a]|] eqn:En.
  - destruct Hn as (l1 & l2 & Ex & -> & Eid & -> & _). eexists. split.
    + do 5 run_step. rewrite En. by rewrite run_change.
    + cbv beta. by rewrite (acknowledge_id _ _ _ Ex), Eid.
  - destruct Hn as [-> _]. do 5 run_step. rewrite En. by run_step.
Qed.

Lemma run_ack_all sev :
  oh_lookup_severity sev = true ->
  saHpiAlarmAcknowledge sid SAHPI_ENTRY_UNSPECIFIED sev w
  = (Return SA_OK (Some tt), changed (fun y => set_alarms y (ack_above SAHPI_FIRST_ENTRY sev <$> alarms x))).
Proof using Hw Hdat.
  intros Hs. unfold saHpiAlarmAcknowledge. rewrite Hs. do 5 run_step. cbv zeta.
  change (negb (SAHPI_ENTRY_UNSPECIFIED =? SAHPI_ENTRY_UNSPECIFIED)) with false. cbv iota.
  rewrite (ack_loop_all E x) by done. cbn [ends]. run_step. by rewrite run_change.
Qed.

Lemma ack_above_first sev :
  ack_above SAHPI_FIRST_ENTRY sev <$> alarms x
  = (fun a => if wanted sev SAHPI_FALSE a then acked a else a) <$> alarms x.
Proof using Hdat.
  apply list_fmap_ext. intros i a Ha%list_elem_of_lookup_2. unfold ack_above, wanted.
  pose proof (proj1 (Forall_forall _ _) (da_ids _ _ Hdat) a Ha) as Hi. simpl in Hi.
  by rewrite (proj2 (Z.ltb_lt _ _)) by (consts; lia).
Qed.

(** ** Deleting *)

Definition user_alarm (a : SaHpiAlarmT) : bool := Type_ (AlarmCond a) =? SAHPI_STATUS_COND_TYPE_USER.

Lemma run_delete_id aid sev :
  1 <= aid < SAHPI_LAST_ENTRY ->
  match List.find (fun a => AlarmId a =? aid) (alarms x) with
  | Some a =>
      if user_alarm a
      then exists f, saHpiAlarmDelete E sid aid sev w = (Return SA_OK (Some tt), changed f) /\
             f x = set_alarms x (List.filter (fun a => negb (AlarmId a =? aid)) (alarms x))
      else saHpiAlarmDelete E sid aid sev w = (Return SA_ERR_HPI_READ_ONLY None, w)
  | None => saHpiAlarmDelete E sid aid sev w = (Return SA_ERR_HPI_NOT_PRESENT None, w)
  end.
Proof using Hw Hdat.
  intros Ha. unfold saHpiAlarmDelete.
  assert (Hz : (aid =? SAHPI_ENTRY_UNSPECIFIED) = false) by (apply Z.eqb_neq; consts; lia).
  rewrite Hz. cbn [andb negb]. pose proof (node_find aid Ha) as Hn.
  destruct (get_alarm_node (alarms x) (Some aid) any false false) as [[i a]|] eqn:En.
  - destruct Hn as (l1 & l2 & Ex & -> & Eid & -> & _).
    unfold user_alarm. destruct (Type_ (AlarmCond a) =? SAHPI_STATUS_COND_TYPE_USER) eqn:Et.
    + eexists. split.
      * do 5 run_step. rewrite En, Et. run_step. by rewrite run_change.
      * cbv beta. by rewrite (delete_id _ _ _ Ex), Eid.
    + do 5 run_step. rewrite En, Et. unfold bail, when. cbn [negb]. apply bind_return. by run_step.
  - destruct Hn as [-> _]. do 5 run_step. rewrite En. by run_step.
Qed.

Lemma run_delete_all sev :
  oh_lookup_severity sev = true ->
  saHpiAlarmDelete E sid SAHPI_ENTRY_UNSPECIFIED sev w
  = (Return SA_OK (Some tt),
     changed (fun y => remove_alarm (e_params E) (e_now E) y (user_of_severity sev) None true)) /\
  alarms (remove_alarm (e_params E) (e_now E) x (user_of_severity sev) None true)
  = List.filter (fun a => negb (user_alarm a && wanted sev SAHPI_FALSE a)) (alarms x).
Proof using Hw Hdat.
  intros Hs. split.
  - unfold saHpiAlarmDelete. rewrite Hs. do 5 run_step.
    change (negb (SAHPI_ENTRY_UNSPECIFIED =? SAHPI_ENTRY_UNSPECIFIED)) with false. cbv iota. by rewrite run_change.
  - rewrite (remove_all_alarms (e_params E)) by done. apply filter_ext_Forall, Forall_forall. intros a _.
    unfold user_alarm, wanted, alarm_matches. simpl. f_equal.
    destruct (if negb _ then _ else _), (Type_ (AlarmCond a) =? SAHPI_STATUS_COND_TYPE_USER); done.
Qed.
End Table.
End Changes.

(** * Properties *)

(** C4: the alarms that a client acknowledges or deletes.  With the id of an alarm
    [saHpiAlarmAcknowledge] acknowledges that alarm and [saHpiAlarmDelete] removes
    it if it is a user alarm, and is refused if not; with
    [SAHPI_ENTRY_UNSPECIFIED] all alarms of the severity, or all user alarms of
    the severity, are.  No other alarm changes, in particular no alarm of the
    system is ever removed, and nothing changes outside of the session's domain. *)
Theorem alarm_commands_correct (E : env) (sid : Z) (w : daemon) (x : oh_domain) (aid sev : Z) :
  attached sid w x -> dat_ok (e_params E) x -> oh_lookup_severity sev = true ->
  aid = SAHPI_ENTRY_UNSPECIFIED \/ 1 <= aid < SAHPI_LAST_ENTRY ->
  let selected a := if aid =? SAHPI_ENTRY_UNSPECIFIED then wanted sev SAHPI_FALSE a else AlarmId a =? aid in
  let found := List.filter selected (alarms x) in
  (if negb (aid =? SAHPI_ENTRY_UNSPECIFIED) && bool_decide (found = [])
   then saHpiAlarmAcknowledge sid aid sev w = (Return SA_ERR_HPI_NOT_PRESENT None, w) /\
        saHpiAlarmDelete E sid aid sev w = (Return SA_ERR_HPI_NOT_PRESENT None, w)
   else
     (exists f, saHpiAlarmAcknowledge sid aid sev w = (Return SA_OK (Some tt), changed sid w f) /\
        f x = set_alarms x ((fun a => if selected a then a <| Acknowledged := SAHPI_TRUE |> else a) <$> alarms x)) /\
     (if negb (aid =? SAHPI_ENTRY_UNSPECIFIED) && negb (forallb user_alarm found)
      then saHpiAlarmDelete E sid aid sev w = (Return SA_ERR_HPI_READ_ONLY None, w)
      else exists f, saHpiAlarmDelete E sid aid sev w = (Return SA_OK (Some tt), changed sid w f) /\
        alarms (f x) = List.filter (fun a => negb (user_alarm a && selected a)) (alarms x))).
Proof.
  intros Hw Hd Hs [->|Ha]; cbv zeta.
  - simpl. split.
    + eexists. split; [by apply (run_ack_all sid w x Hw E Hd)|]. cbv beta. by rewrite (ack_above_first x E Hd).
    + destruct (run_delete_all sid w x Hw E Hd sev Hs) as [H1 H2]. eexists. by split.
  - assert (Hz : (aid =? SAHPI_ENTRY_UNSPECIFIED) = false) by (apply Z.eqb_neq; consts; lia).
    rewrite Hz. cbn [negb andb]. pose proof (run_ack_id sid w x Hw E Hd aid sev Ha) as Hack.
    pose proof (run_delete_id sid w x Hw E Hd aid sev Ha) as Hdel. pose proof (node_find x E Hd aid Ha) as Hn.
    destruct (get_alarm_node _ _ _ _ _) as [[i a]|].
    + destruct Hn as (l1 & l2 & Ex & _ & Eid & Ef & ->). rewrite Ef in Hack, Hdel.
      rewrite bool_decide_false by done. split.
      * destruct Hack as (f & Hf & Hfx). exists f. split; [done|]. by rewrite Hfx.
      * simpl. rewrite andb_true_r. destruct (user_alarm a) eqn:Eu; [|done].
        destruct Hdel as (f & Hf & Hfx). exists f. split; [done|]. rewrite Hfx. unfold alarms at 1. simpl.
        apply filter_ext_Forall, Forall_forall. intros b Hb. destruct (AlarmId b =? aid) eqn:Eb.
        -- assert (b = a) as ->; [|by rewrite Eu].
           pose proof (others_differ x E Hd _ _ _ Ex) as Ho. rewrite Ex in Hb. rewrite Forall_app in Ho.
           destruct Ho as [H1 H2]. rewrite Forall_forall in H1, H2.
           apply elem_of_app in Hb as [Hb|Hb]; [by destruct (H1 b Hb); zbool; congruence|].
           apply elem_of_cons in Hb as [->|Hb]; [done|]. by destruct (H2 b Hb); zbool; congruence.
        -- by rewrite andb_false_r.
    + destruct Hn as [Ef ->]. rewrite Ef in Hack, Hdel. by rewrite bool_decide_true.
Qed.

(** A user alarm and an alarm of the system. *)
Definition hub_alarm (id type : Z) : SaHpiAlarmT :=
  zero_alarm <| AlarmId := id |> <| alarm_Severity := SAHPI_MAJOR |>
             <| AlarmCond ::= fun c => c <| Type_ := type |> |>.
Definition alarmed_domain : oh_domain :=
  set_alarms hub_domain [hub_alarm 1 SAHPI_STATUS_COND_TYPE_USER; hub_alarm 2 SAHPI_STATUS_COND_TYPE_OEM]
    <| dat ::= fun t => t <| dat_next_id := 2 |> |>.
Definition alarmed_hub : daemon := changed 1 hub (fun _ => alarmed_domain).
Lemma alarmed_attached : attached 1 alarmed_hub alarmed_domain.
Proof. constructor; [done|by eexists|done|done]. Qed.
Lemma alarmed_dat_ok : dat_ok example_params alarmed_domain.
Proof. constructor; vm_compute; repeat constructor; try discriminate; by left. Qed.

Lemma alarm_commands_correct_witness :
  exists f, saHpiAlarmDelete hub_env 1 SAHPI_ENTRY_UNSPECIFIED SAHPI_MAJOR alarmed_hub
              = (Return SA_OK (Some tt), changed 1 alarmed_hub f) /\
    alarms (f alarmed_domain) = [hub_alarm 2 SAHPI_STATUS_COND_TYPE_OEM].
Proof.
  destruct (alarm_commands_correct hub_env 1 alarmed_hub alarmed_domain SAHPI_ENTRY_UNSPECIFIED SAHPI_MAJOR
              alarmed_attached alarmed_dat_ok eq_refl (or_introl eq_refl)) as [_ (f & Hf & Hal)].
  exists f. split; [exact Hf|]. rewrite Hal. by vm_compute.
Defined.
