(* ===== verification/ApiErrors.v ===== *)
(** Requests for which the behaviour of the code is undefined: what the
    conditions of [request] in [ApiSafe] exclude does happen. *)
From S2P Require Import Prelude SaHpi Rpt Conf DomainState EventUtils Alarm Session Validate.
From S2P Require Import Domain Event Api ApiDomain ApiInstruments ApiRules ApiSafe ApiCorrect ApiClients.

Section Undefined.
Context `{Plugins} (sid : Z) (w : daemon) (x : oh_domain) (Hw : attached sid w x) (rid : Z).
#[local] Notation holding_domain := (holding_domain sid w).

Lemma bind_undefined {O A B} (m : M O A) (k : A -> M O B) w1 w2 :
  m w1 = (Undefined, w2) -> fst ((m ≫= k) w1) = Undefined.
Proof. intros E. unfold mbind, M_bind. by rewrite E. Qed.

Lemma run_handler {O} hid :
  0 < oh_get_resource_data (Some (rpt x)) rid ->
  cells w !! Z.to_nat (oh_get_resource_data (Some (rpt x)) rid - 1) = Some hid ->
  OH_HANDLER_GET (O := O) (home sid w) rid holding_domain =
    match handlers w !! hid with
    | None => (Next None, holding_domain)
    | Some h =>
        if hnd h then (Next (Some hid), holding_domain <| held_handlers ::= cons hid |>)
        else (Next None, holding_domain)
    end.
Proof using Hw.
  intros Hp Hc. unfold OH_HANDLER_GET. run_step. cbv zeta. rewrite (proj2 (Z.eqb_neq _ _)) by lia. run_step.
  erewrite bind_next; [|unfold cell; rewrite (proj2 (Z.leb_gt _ _)) by lia; simpl; by rewrite Hc].
  destruct (handlers w !! hid) as [h|] eqn:Eh.
  2:{ erewrite bind_next by (unfold oh_get_handler; simpl handlers; rewrite Eh; reflexivity). done. }
  erewrite bind_next by (unfold oh_get_handler; simpl handlers; rewrite Eh; reflexivity). cbv beta iota.
  erewrite bind_next; [|unfold handler_has; rewrite bool_decide_true by (simpl; left); simpl; by rewrite Eh].
  destruct (hnd h); [done|]. erewrite bind_next; [done|]. unfold oh_release_handler.
  rewrite bool_decide_true by (simpl; left). f_equal. unfold ApiClients.holding_domain. destruct w.
  unfold set_field. simpl. by rewrite Z.eqb_refl.
Qed.

Lemma run_checked {O} r :
  oh_get_resource_by_id (Some (rpt x)) rid = Some r -> ResourceFailed r = SAHPI_FALSE ->
  OH_RESOURCE_GET_CHECK (O := O) (home sid w) rid holding_domain = (Next r, holding_domain).
Proof using Hw. intros Hr Hf. unfold OH_RESOURCE_GET_CHECK. run_step. by rewrite Hr, Hf. Qed.
Lemma run_needed {O} r c rv :
  has_cap (ResourceCapabilities r) c = true ->
  need (O := O) (home sid w) r c rv holding_domain = (Next tt, holding_domain).
Proof. intros Hc. unfold need. by rewrite Hc. Qed.
Lemma run_instrument {O} type num r :
  oh_get_rdr_by_type (Some (rpt x)) rid type num = Some r ->
  instrument (O := O) (home sid w) rid type num holding_domain = (Next r, holding_domain).
Proof using Hw. intros Hr. unfold instrument. run_step. by rewrite Hr. Qed.

(** ** No handler *)

Lemma run_failed_remove E r hid :
  oh_get_resource_by_id (Some (rpt x)) rid = Some r -> truthy (ResourceFailed r) = true ->
  has_cap (ResourceCapabilities r) SAHPI_CAPABILITY_FRU = true ->
  0 < oh_get_resource_data (Some (rpt x)) rid ->
  cells w !! Z.to_nat (oh_get_resource_data (Some (rpt x)) rid - 1) = Some hid ->
  handlers w !! hid = None ->
  fst (saHpiResourceFailedRemove E sid rid w) = Undefined.
Proof using Hw.
  intros Hr Hf Hc Hp Hh Hn. unfold saHpiResourceFailedRemove. do 4 run_step. rewrite Hr, Hf. run_step.
  erewrite bind_next by by apply run_needed. cbv zeta.
  erewrite bind_next by (erewrite run_handler by done; by rewrite Hn). run_step. do 2 run_step. done.
Qed.

(** ** The wrong instrument *)

Lemma run_wrong_sensor num res r :
  oh_get_resource_by_id (Some (rpt x)) rid = Some res -> ResourceFailed res = SAHPI_FALSE ->
  has_cap (ResourceCapabilities res) SAHPI_CAPABILITY_SENSOR = true ->
  oh_get_rdr_by_type (Some (rpt x)) rid SAHPI_SENSOR_RDR num = Some r -> SensorRec r = None ->
  fst (saHpiSensorThresholdsGet sid rid num true w) = Undefined.
Proof using Hw.
  intros Hr Hf Hc Hi Hs. unfold saHpiSensorThresholdsGet. run_step.
  assert (E : forall O, sensor (O := O) sid rid num w
    = (Next (oh_get_session_domain sid (sessions w), home sid w, res, r), holding_domain)).
  { intros O. unfold sensor, sensor_rdr. do 3 run_step. erewrite bind_next by by apply run_checked.
    erewrite bind_next by by apply run_needed. erewrite bind_next by by apply run_instrument. done. }
  erewrite bind_next by apply E. cbv beta iota. eapply bind_undefined. by rewrite Hs.
Qed.

(** ** A state that was not stored *)

Lemma run_uninitialised num v res r c hid h :
  oh_get_resource_by_id (Some (rpt x)) rid = Some res -> ResourceFailed res = SAHPI_FALSE ->
  has_cap (ResourceCapabilities res) SAHPI_CAPABILITY_CONTROL = true ->
  oh_get_rdr_by_type (Some (rpt x)) rid SAHPI_CTRL_RDR num = Some r -> RdrType r = SAHPI_CTRL_RDR ->
  CtrlRec r = Some c -> WriteOnly c = SAHPI_FALSE -> ctrl_Type c = SAHPI_CTRL_TYPE_DIGITAL ->
  oh_lookup_ctrlstatedigital v = true ->
  oh_valid_ctrl_state_mode c SAHPI_CTRL_MODE_MANUAL (Some (StateDigital v)) = SA_OK ->
  0 < oh_get_resource_data (Some (rpt x)) rid ->
  cells w !! Z.to_nat (oh_get_resource_data (Some (rpt x)) rid - 1) = Some hid ->
  handlers w !! hid = Some h -> hnd h = true -> abi h get_control_state = true ->
  snd (respond (calls w) hid get_control_state (Some rid) (num, true, Some None)) = None ->
  fst (saHpiControlSet sid rid num SAHPI_CTRL_MODE_MANUAL (Some (StateDigital v)) w) = Undefined.
Proof using Hw.
  intros Hr Hf Hc Hi Ht Hrec Hwo Hd Hv Hvalid Hp Hcell Hh Hhnd Habi Hresp. unfold saHpiControlSet. cbv zeta.
  run_step. unfold bad_state at 1. rewrite Hv. run_step.
  assert (E : forall O, control (O := O) sid rid num w = (Next (home sid w, r), holding_domain)).
  { intros O. unfold control. do 3 run_step. erewrite bind_next by by apply run_checked.
    erewrite bind_next by by apply run_needed. erewrite bind_next by by apply run_instrument. done. }
  erewrite bind_next by apply E. cbv beta iota. rewrite Ht. run_step. rewrite Hrec. run_step. rewrite Hvalid.
  run_step. erewrite bind_next by (erewrite run_handler by done; by rewrite Hh, Hhnd).
  set (w1 := w <| held_handlers ::= cons hid |>).
  erewrite bind_next.
  2:{ unfold oh_release_domain. rewrite bool_decide_true by (simpl; left).
      transitivity (Next (O := unit) tt, w1); [|done]. f_equal. unfold w1, ApiClients.holding_domain.
      destruct w. unfold set_field. simpl. by rewrite Z.eqb_refl. }
  cbv beta. rewrite Hwo, Hd. cbn [truthy negb andb when].
  assert (Hhas : forall O p, handler_has (O := O) hid p w1 = (Next (p h), w1)).
  { intros O p. unfold handler_has. rewrite bool_decide_true by (simpl; left). simpl. by rewrite Hh. }
  assert (Hcall : forall O, exists rv w2,
    OH_CALL_ABI (O := O) (Some hid) get_control_state SA_ERR_HPI_INVALID_CMD rid (num, true, Some None) w1
    = (Next (rv, None), w2)).
  { intros O. unfold OH_CALL_ABI, call_abi. erewrite bind_next by apply Hhas. rewrite Habi. unfold plugin_call.
    change (calls w1) with (calls w). destruct (respond _ _ _ _ _) as [rv o]. simpl in Hresp. subst o. by do 2 eexists. }
  destruct (Hcall unit) as (rv & w2 & Ec). eapply bind_undefined.
  rewrite Z.eqb_refl. change (negb (truthy SAHPI_FALSE)) with true. cbn [andb when]. by erewrite bind_next by exact Ec.
Qed.
End Undefined.

(** * Properties *)

(** An example daemon with one resource, whose private data points to the
    handler 4. *)
Definition hub_with (r : SaHpiRptEntryT) (d : SaHpiRdrT) : oh_domain :=
  let add1 := oh_add_resource 5 (Some empty_rpt) (Some r) 1 0 in
  let add2 := oh_add_rdr (snd (fst add1)) (ResourceId r) (Some d) 0 0 in
  hub_domain <| rpt := default empty_rpt (snd (fst add2)) |>.
Definition hub_of (x : oh_domain) (hs : gmap Z oh_handler) : daemon :=
  hub <| doms ::= fun t => t <| dt_table := {[0 := x]} |> |> <| handlers := hs |>.
Lemma hub_of_attached x hs : attached 1 (hub_of x hs) x.
Proof. constructor; [done|by eexists|done|apply lookup_singleton_eq]. Qed.

(** [saHpiResourceFailedRemove] uses the handler of a failed FRU without
    looking whether it was found: when the handler is gone, as after its plug-in
    was unloaded, a [NULL] pointer is dereferenced. *)
Theorem failed_remove_null_handler `{Plugins} (E : env) (sid : Z) (w : daemon) (x : oh_domain)
    (rid hid : Z) (r : SaHpiRptEntryT) :
  attached sid w x -> oh_get_resource_by_id (Some (rpt x)) rid = Some r -> truthy (ResourceFailed r) = true ->
  has_cap (ResourceCapabilities r) SAHPI_CAPABILITY_FRU = true ->
  0 < oh_get_resource_data (Some (rpt x)) rid ->
  cells w !! Z.to_nat (oh_get_resource_data (Some (rpt x)) rid - 1) = Some hid -> handlers w !! hid = None ->
  fst (saHpiResourceFailedRemove E sid rid w) = Undefined.
Proof. intros Hw. by apply (run_failed_remove sid w x Hw). Qed.

Definition failed_fru : SaHpiRptEntryT :=
  example_resource 7 <| ResourceFailed := SAHPI_TRUE |> <| ResourceCapabilities := SAHPI_CAPABILITY_FRU |>.
Definition failed_domain : oh_domain := hub_with failed_fru (example_rdr SAHPI_INVENTORY_RDR 3).
Lemma failed_remove_null_handler_witness :
  fst (saHpiResourceFailedRemove (H := hub_plugins) hub_env 1 7 (hub_of failed_domain ∅)) = Undefined.
Proof.
  apply (failed_remove_null_handler hub_env 1 _ failed_domain 7 4 (failed_fru <| EntryId := 7 |>)
           (hub_of_attached failed_domain ∅)); by vm_compute.
Defined.

(** The number of an instrument is not checked to have 16 bits, and the type
    and the number make one record id: the number 2^16 + n of a sensor is the
    inventory n, whose RDR [saHpiSensorThresholdsGet] then reads as that of a
    sensor. *)
Theorem instrument_number_confusion `{Plugins} (sid : Z) (w : daemon) (x : oh_domain) (rid n : Z)
    (res : SaHpiRptEntryT) (r : SaHpiRdrT) :
  attached sid w x -> oh_get_resource_by_id (Some (rpt x)) rid = Some res ->
  ResourceFailed res = SAHPI_FALSE -> has_cap (ResourceCapabilities res) SAHPI_CAPABILITY_SENSOR = true ->
  oh_get_rdr_by_type (Some (rpt x)) rid SAHPI_INVENTORY_RDR n = Some r -> SensorRec r = None -> 0 <= n < 2 ^ 16 ->
  fst (saHpiSensorThresholdsGet sid rid (2 ^ 16 + n) true w) = Undefined.
Proof.
  intros Hw Hr Hf Hc Hi Hs Hn. apply (run_wrong_sensor sid w x Hw rid _ res r); try done.
  rewrite <- Hi. unfold oh_get_rdr_by_type. destruct (get_rptentry_by_rid _ _) as [[m e]|]; [|done]. cbv zeta.
  replace (oh_get_rdr_uid SAHPI_SENSOR_RDR (2 ^ 16 + n)) with (oh_get_rdr_uid SAHPI_INVENTORY_RDR n); [done|].
  rewrite uid_small by (done || lia). unfold oh_get_rdr_uid.
  change (u32 (Z.shiftl (u32 SAHPI_SENSOR_RDR) 16)) with (2 * 2 ^ 16). rewrite u32_id; consts; lia.
Qed.

Definition both_instruments : SaHpiRptEntryT :=
  example_resource 7
    <| ResourceCapabilities := Z.lor SAHPI_CAPABILITY_INVENTORY_DATA SAHPI_CAPABILITY_SENSOR |>.
Definition inventory_domain : oh_domain := hub_with both_instruments (example_rdr SAHPI_INVENTORY_RDR 3).
Lemma instrument_number_confusion_witness :
  fst (saHpiSensorThresholdsGet (H := hub_plugins) 1 7 65539 true (hub_of inventory_domain ∅)) = Undefined.
Proof.
  apply (instrument_number_confusion 1 _ inventory_domain 7 3 (both_instruments <| EntryId := 7 |>)
           (example_rdr SAHPI_INVENTORY_RDR 3) (hub_of_attached inventory_domain ∅)); [by vm_compute..|done].
Defined.

(** [saHpiControlSet] asks for the state of a digital control and does not
    look at the result: when the plug-in fails and stores nothing, the state that
    it decides by is a variable that was never initialised. *)
Theorem control_set_uninitialised `{Plugins} (sid : Z) (w : daemon) (x : oh_domain) (rid num v hid : Z)
    (res : SaHpiRptEntryT) (r : SaHpiRdrT) (c : SaHpiCtrlRecT) (h : oh_handler) :
  attached sid w x -> oh_get_resource_by_id (Some (rpt x)) rid = Some res ->
  ResourceFailed res = SAHPI_FALSE -> has_cap (ResourceCapabilities res) SAHPI_CAPABILITY_CONTROL = true ->
  oh_get_rdr_by_type (Some (rpt x)) rid SAHPI_CTRL_RDR num = Some r -> RdrType r = SAHPI_CTRL_RDR ->
  CtrlRec r = Some c -> WriteOnly c = SAHPI_FALSE -> ctrl_Type c = SAHPI_CTRL_TYPE_DIGITAL ->
  oh_lookup_ctrlstatedigital v = true ->
  oh_valid_ctrl_state_mode c SAHPI_CTRL_MODE_MANUAL (Some (StateDigital v)) = SA_OK ->
  0 < oh_get_resource_data (Some (rpt x)) rid ->
  cells w !! Z.to_nat (oh_get_resource_data (Some (rpt x)) rid - 1) = Some hid ->
  handlers w !! hid = Some h -> hnd h = true -> abi h get_control_state = true ->
  snd (respond (calls w) hid get_control_state (Some rid) (num, true, Some None)) = None ->
  fst (saHpiControlSet sid rid num SAHPI_CTRL_MODE_MANUAL (Some (StateDigital v)) w) = Undefined.
Proof. intros Hw. by apply (run_uninitialised sid w x Hw). Qed.

Definition digital_control : SaHpiCtrlRecT :=
  {| OutputType := 0; TypeUnion := RecDigital 0; DefaultMode_Mode := SAHPI_CTRL_MODE_AUTO;
     DefaultMode_ReadOnly := SAHPI_FALSE; WriteOnly := SAHPI_FALSE; ctrl_Oem := 0 |}.
Definition digital_rdr : SaHpiRdrT :=
  example_rdr SAHPI_CTRL_RDR 3 <| RdrTypeUnion := {| Num := 3; Rest := CtrlRest digital_control |} |>.
Definition controlled : SaHpiRptEntryT :=
  example_resource 7 <| ResourceCapabilities := SAHPI_CAPABILITY_CONTROL |>.
Definition control_domain : oh_domain := hub_with controlled digital_rdr.
Lemma control_set_uninitialised_witness :
  fst (saHpiControlSet (H := hub_plugins) 1 7 3 SAHPI_CTRL_MODE_MANUAL (Some (StateDigital SAHPI_CTRL_STATE_ON))
         (hub_of control_domain (handlers hub))) = Undefined.
Proof.
  apply (control_set_uninitialised 1 _ control_domain 7 3 SAHPI_CTRL_STATE_ON 4 (controlled <| EntryId := 7 |>)
           digital_rdr digital_control {| hnd := true; abi := fun _ => true |}
           (hub_of_attached control_domain (handlers hub))); by vm_compute.
Defined.
