(* ===== verification/ApiUserEvent.v ===== *)
(** A user event from the client that adds it to the clients that read it: the
    path through the HPI functions, the event processing and the sessions. *)
From S2P Require Import Prelude SaHpi Rpt EventLog Conf DomainState EventUtils Alarm QuitEvent Session TextBuffer Validate.
From S2P Require Import Domain Event Api ApiDomain ApiEvents ApiRules ApiSafe ApiCorrect ApiClients.

(** The default domain and what belongs to it, as the event processing sees it. *)
Definition world_of (w : daemon) (x : oh_domain) : world :=
  {| dat_st := {| dom := x; dat_file := dat_files w !! OH_DEFAULT_DOMAIN_ID |};
     del_file := del_files w !! OH_DEFAULT_DOMAIN_ID; sess := sessions w; hidps := cells w |}.

(** The daemon after the processing of an event. *)
Definition put_world (wd : world) (w : daemon) : daemon :=
  w <| doms ::= fun t => t <| dt_table ::= <[OH_DEFAULT_DOMAIN_ID := w_dom wd]> |> |>
    <| dat_files ::= partial_alter (fun _ => dat_file (dat_st wd)) OH_DEFAULT_DOMAIN_ID |>
    <| del_files ::= partial_alter (fun _ => del_file wd) OH_DEFAULT_DOMAIN_ID |>
    <| sessions := sess wd |> <| cells := hidps wd |>.

(** ** Adding *)

Section Adding.
Context `{Plugins} (E : env) (sid : Z) (w : daemon) (x : oh_domain) (Hw : attached sid w x).

(** The event that is pushed, and the result. *)
Definition stamped (ev : SaHpiEventT) : SaHpiEventT :=
  if event_Timestamp ev =? SAHPI_TIME_UNSPECIFIED then ev <| event_Timestamp := e_now E |> else ev.
Definition pushed (ev : SaHpiEventT) : oh_event :=
  {| hid := 0; event := stamped ev; rdrs := []; rdrs_to_remove := [];
     resource := zero_rpt_entry <| ResourceId := oh_get_session_domain sid (sessions w) |>
                   <| ResourceCapabilities := 0 |> <| ResourceSeverity := SAHPI_INFORMATIONAL |> |}.

Lemma run_log_info :
  exists i, saHpiEventLogInfoGet E sid SAHPI_UNSPECIFIED_RESOURCE_ID true w = (Return SA_OK (Some i), w) /\
    UserEventMaxSize i = UserEventMaxSize (info (del x)).
Proof using Hw.
  eexists. split.
  - unfold saHpiEventLogInfoGet. do 5 run_step. change (_ =? _) with true. cbv iota. cbn [oh_el_info]. by run_step.
  - done.
Qed.

Lemma run_event_add ev text :
  oh_valid_addevent (Some ev) = SA_OK -> EventDataUnion ev = UserEvent text ->
  DataLength text <= UserEventMaxSize (info (del x)) ->
  saHpiEventAdd E sid (Some ev) w
  = (Return SA_OK (Some (stamped ev)),
     w <| doms ::= fun t => t <| process_q ::= fun q => q ++ [pushed ev] |> |>).
Proof using Hw.
  intros Hv Ht Hl. destruct run_log_info as (i & Hi & Hm). unfold saHpiEventAdd. rewrite Hv. do 4 run_step.
  erewrite bind_next by (unfold call; rewrite Hi; reflexivity). cbv beta. cbn [fst snd]. do 2 run_step.
  rewrite Ht, Hm. rewrite (proj2 (Z.ltb_ge _ _)) by done. run_step. cbv zeta. by run_step.
Qed.
End Adding.

(** ** Reading *)

Section Reading.
Context (E : env) (sid : Z) (w : daemon) (x : oh_domain) (Hw : attached sid w x).

Lemma dequeue_immediate fuel wait i s :
  oh_dequeue_session_event fuel wait i SAHPI_TIMEOUT_IMMEDIATE true s = Some (dequeue_now i s).
Proof.
  unfold dequeue_now, oh_dequeue_session_event. destruct (_ || _); [done|].
  destruct (dequeue_begin i s) as [[[q status] s1]|]; [|done].
  change (SAHPI_TIMEOUT_IMMEDIATE =? SAHPI_TIMEOUT_IMMEDIATE) with true. cbv iota.
  destruct (try_pop q s1) as [e s2]. by destruct (dequeue_end e).
Qed.

Lemma run_event_get s e l :
  open_session (sessions w) sid s -> truthy (subscribed s) = true ->
  queue_of (eventq s) (sessions w) = e :: l -> quit e = false ->
  saHpiEventGet E sid SAHPI_TIMEOUT_IMMEDIATE true None false true w
  = (Return SA_OK (Some (EventUtils.event e, None, None, Some (eventq_status s))),
     w <| sessions := taken sid (eventq s) (sessions w) |>).
Proof using Hw.
  intros Ho Hs Hq He. unfold saHpiEventGet. do 5 run_step.
  assert (Hsub : oh_get_session_subscription sid true (sessions w) = (SA_OK, Some (subscribed s))).
  { destruct Ho as (Hx & Hsid & _). unfold oh_get_session_subscription.
    by rewrite (proj2 (Z.ltb_ge _ _)), Hx by done. }
  rewrite Hsub. do 2 run_step. rewrite Hs. run_step.
  pose proof (dequeue_now_spec _ _ _ Ho) as Hd. rewrite Hq in Hd. unfold quit in He.
  unfold dequeue_end in Hd. cbn [head] in Hd. rewrite He in Hd.
  assert (E1 : forall O, dequeue (O := O) E sid SAHPI_TIMEOUT_IMMEDIATE w
    = (Next (SA_OK, Some e, Some (eventq_status s)), w <| sessions := taken sid (eventq s) (sessions w) |>)).
  { intros O. unfold dequeue. run_step. by rewrite dequeue_immediate, Hd. }
  erewrite bind_next by apply E1. cbv beta. cbn [fst snd]. change (SA_OK =? SA_ERR_HPI_TIMEOUT) with false.
  cbv iota.
  run_step. cbv beta iota. by do 2 run_step.
Qed.
End Reading.

(** [n] reads by a client, one after the other: the events, as far as there are
    some. *)
Fixpoint read_events (E : env) (sid : Z) (n : nat) (w : daemon) : list SaHpiEventT * daemon :=
  match n with
  | O => ([], w)
  | S n =>
      match saHpiEventGet E sid SAHPI_TIMEOUT_IMMEDIATE true None false true w with
      | (Return rv (Some (ev, _, _, _)), w) =>
          if rv =? SA_OK then let '(l, w) := read_events E sid n w in (ev :: l, w) else ([], w)
      | (_, w) => ([], w)
      end
  end.

Lemma attached_taken sid w x s :
  attached sid w x -> open_session (sessions w) sid s ->
  attached sid (w <| sessions := taken sid (eventq s) (sessions w) |>) x.
Proof.
  intros [H1 H2 H3 H4] Ho. pose proof (taken_open _ _ _ Ho) as (Ht & _).
  assert (Hd : oh_get_session_domain sid (taken sid (eventq s) (sessions w))
               = oh_get_session_domain sid (sessions w)).
  { unfold oh_get_session_domain. rewrite (proj2 (Z.ltb_ge sid 1)), Ht, (proj1 Ho) by done. done. }
  constructor; [done|eexists; exact Ht|..].
  - change (oh_get_session_domain sid (taken sid (eventq s) (sessions w)) <> SAHPI_UNSPECIFIED_DOMAIN_ID).
    by rewrite Hd.
  - unfold home in *. change (sessions (w <| sessions := ?t |>)) with t.
    change (doms (w <| sessions := taken sid (eventq s) (sessions w) |>)) with (doms w).
    cbn. rewrite Hd. exact H4.
Qed.

(** The reads return the events of the queue, in order. *)
Lemma read_queue E sid x l : forall w s,
  attached sid w x -> open_session (sessions w) sid s -> truthy (subscribed s) = true ->
  queue_of (eventq s) (sessions w) = l -> Forall (fun e => quit e = false) l ->
  fst (read_events E sid (length l) w) = EventUtils.event <$> l.
Proof.
  induction l as [|e l IH]; intros w s Hw Ho Hs Hq Hn; [done|].
  apply Forall_cons in Hn as [He Hn]. cbn [read_events length].
  rewrite (run_event_get E sid w x Hw s e l Ho Hs Hq He).
  change (SA_OK =? SA_OK) with true. cbv iota.
  pose proof (IH (w <| sessions := taken sid (eventq s) (sessions w) |>) (status_reset s)
                (attached_taken _ _ _ _ Hw Ho) (taken_open _ _ _ Ho) Hs) as Hr.
  destruct (read_events E sid (length l) _) as [l' w'] eqn:El. cbn [fst fmap list_fmap] in *. f_equal.
  apply Hr; [|done]. change (sessions (w <| sessions := ?t |>)) with t.
  change (eventq (status_reset s)) with (eventq s).
  cbn. rewrite taken_queue by done. by rewrite Nat.eqb_refl, Hq.
Qed.

(** * Properties *)

(** C3: a user event from end to end.  [saHpiEventAdd], in a session of any
    domain, stamps a valid event that has no time and queues it; when the event
    thread processes it, it is logged in the default domain and delivered to
    exactly the subscribed sessions of the default domain, without resource and
    RDR.  Such a session that has room in its queue then has it behind the events
    that are queued already: the reads by [saHpiEventGet] return these, in order,
    and then the event.  So the next read returns it if the queue was empty; and if
    a reader is blocked on the empty queue, the first pop there takes it.  (An
    event added in another domain does not reach the clients of that domain.) *)
Theorem user_event_delivered `{Plugins} `{EntityPathLookup} (E : env) (sid : Z) (w : daemon) (x x0 : oh_domain)
    (ev : SaHpiEventT) (text : SaHpiTextBufferT) (domain_exists : Z -> bool) (waiting : Z -> Z) :
  attached sid w x -> oh_valid_addevent (Some ev) = SA_OK -> EventDataUnion ev = UserEvent text ->
  DataLength text <= UserEventMaxSize (info (del x)) ->
  world_ok domain_exists (world_of w x0) -> Event.dom_ok (e_params E) x0 ->
  domain_id x0 = OH_DEFAULT_DOMAIN_ID ->
  let w1 := w <| doms ::= fun t => t <| process_q ::= fun q => q ++ [pushed E sid w ev] |> |> in
  saHpiEventAdd E sid (Some ev) w = (Return SA_OK (Some (stamped E ev)), w1) /\
  exists wd e,
    process_event (e_params E) (e_now E) domain_exists waiting (e_io E) (Some (world_of w1 x0))
      (Some (pushed E sid w ev)) = (0, Some wd, Some e) /\
    EventUtils.event e = stamped E ev /\ rdrs e = [] /\ rpt (w_dom wd) = rpt x0 /\
    announced true (e_params E) waiting e (world_of w1 x0) wd /\
    forall i s, table (sessions w) !! i = Some s -> 1 <= i -> did s = OH_DEFAULT_DOMAIN_ID ->
      truthy (subscribed s) = true ->
      let l := queue_of (eventq s) (sessions w) in
      queue_full (e_params E) (waiting i) l = false ->
      (Forall (fun e => quit e = false) l ->
       fst (read_events E i (S (length l)) (put_world wd w1)) = (EventUtils.event <$> l) ++ [stamped E ev]) /\
      (l = [] ->
       fst (saHpiEventGet E i SAHPI_TIMEOUT_IMMEDIATE true None false true (put_world wd w1))
       = Return SA_OK (Some (stamped E ev, None, None, Some (eventq_status s))) /\
       forall fuel wait k s0, wait k s0 = sess wd ->
         exists s1, block_loop (S fuel) wait k i (eventq s) s0 = Some (SA_OK, Some e, s1)).
Proof.
  intros Hw Hv Ht Hl Hwo Hdo Hid w1. split; [by eapply run_event_add|].
  assert (Hst : EventDataUnion (stamped E ev) = UserEvent text) by (unfold stamped; by destruct (_ =? _)).
  assert (Hp : plain (pushed E sid w ev)).
  { unfold plain. change (EventUtils.event (pushed E sid w ev)) with (stamped E ev). by rewrite Hst. }
  assert (Hwo1 : world_ok domain_exists (world_of w1 x0)) by by destruct Hwo; constructor.
  destruct (plain_event_spec (e_params E) (e_now E) domain_exists waiting (e_io E) (world_of w1 x0)
              (pushed E sid w ev) Hwo1 Hdo Hp) as (wd & Hproc & Hrpt & _ & Hann & _ & Hconf).
  set (e := user_stripped (pushed E sid w ev)) in *. exists wd, e. split; [done|].
  assert (Hev : EventUtils.event e = stamped E ev) by (unfold e, user_stripped; by destruct (_ =? _)).
  split; [done|]. split; [unfold e, user_stripped; by destruct (_ =? _)|]. split; [done|]. split; [done|].
  intros i s Hi Hpos Hdid Hsub l Hroom.
  destruct Hann as [(_ & _ & Hdel) _]. specialize (Hdel i s Hi). cbv zeta in Hdel.
  assert (Hto : to_domain (sessions w) (domain_id x0) i = true).
  { unfold to_domain. rewrite Hi, Hdid, Hid. done. }
  change (sess (world_of w1 x0)) with (sessions w) in Hdel. change (w_dom (world_of w1 x0)) with x0 in Hdel.
  fold l in Hdel. rewrite Hto, Hsub, Hroom in Hdel. cbn [andb negb] in Hdel. destruct Hdel as [Hqd Htd].
  assert (Ha : attached i (put_world wd w1) (w_dom wd)).
  { assert (Hgd : oh_get_session_domain i (sess wd) = OH_DEFAULT_DOMAIN_ID).
    { unfold oh_get_session_domain. by rewrite (proj2 (Z.ltb_ge _ _)), Htd by done. }
    constructor; [done|eexists; exact Htd|by change (oh_get_session_domain i (sess wd) <> SAHPI_UNSPECIFIED_DOMAIN_ID); rewrite Hgd|]. unfold home. change (sessions (put_world wd w1)) with (sess wd).
    rewrite Hgd. apply lookup_insert_eq. }
  destruct (wo_sess _ _ Hwo1) as [ths Hths].
  assert (Ho : open_session (sess wd) i s) by (eapply open_session_of; [by apply Hconf|exact Htd]).
  assert (Hquit : quit e = false) by (unfold quit, oh_detect_quit_event, EventType; by rewrite Hev, Hst).
  split.
  - intros Hn. replace (S (length l)) with (length (l ++ [e])) by (rewrite length_app; simpl; lia).
    rewrite (read_queue E i (w_dom wd) (l ++ [e]) (put_world wd w1) s Ha Ho Hsub Hqd).
    + by rewrite fmap_app, <- Hev.
    + apply Forall_app. split; [done|]. by constructor.
  - intros Hnil. rewrite Hnil in Hqd. split.
    + rewrite <- Hev. by rewrite (run_event_get E i _ _ Ha s e [] Ho Hsub Hqd Hquit).
    + intros fuel wait k s0 Hs0. apply (blocked_reader_ends (sess wd) i s e []); try done.
      unfold dequeue_end. unfold quit in Hquit. by rewrite Hquit.
Qed.

#[local] Instance hub_paths : EntityPathLookup := fun _ ep => (SA_OK, ep).
#[local] Instance hub_calls : Plugins := hub_plugins.
Definition hub_subscribed : daemon := hub <| sessions := example_sessions |>.
Definition hub_event : SaHpiEventT :=
  {| Source := SAHPI_UNSPECIFIED_RESOURCE_ID; event_Timestamp := SAHPI_TIME_UNSPECIFIED;
     event_Severity := SAHPI_MINOR; EventDataUnion := UserEvent example_text |}.
Lemma hub_subscribed_attached : attached 1 hub_subscribed hub_domain.
Proof. constructor; [done|by eexists|done|done]. Qed.
Lemma hub_world_ok : world_ok (fun d => d =? OH_DEFAULT_DOMAIN_ID) (world_of hub_subscribed hub_domain).
Proof. constructor; [eexists; apply example_sessions_ok|done|done]. Qed.
Lemma hub_dom_ok : Event.dom_ok example_params hub_domain.
Proof.
  constructor; [apply hub_rpt_ok| |done|constructor].
  apply (ok_dat _ _ (id_ok _ _ hub_idle) 0). done.
Qed.

(** A session with one event in its queue. *)
Definition hub_backlog : daemon :=
  hub <| sessions := g_async_queue_push 0 zero_oh_event example_sessions |>.
Lemma hub_backlog_attached : attached 1 hub_backlog hub_domain.
Proof. constructor; [done|by eexists|done|done]. Qed.
Lemma hub_backlog_ok : world_ok (fun d => d =? OH_DEFAULT_DOMAIN_ID) (world_of hub_backlog hub_domain).
Proof.
  constructor; [|done|done]. exists []. apply (conf_ok_same example_sessions); [|apply refs_push|done|apply example_sessions_ok].
  apply sess_ok_push, (co_sess _ example_sessions_ok).
Qed.

Lemma user_event_delivered_witness :
  (exists wd, fst (saHpiEventGet hub_env 1 SAHPI_TIMEOUT_IMMEDIATE true None false true
      (put_world wd (snd (saHpiEventAdd hub_env 1 (Some hub_event) hub_subscribed))))
    = Return SA_OK (Some (hub_event <| event_Timestamp := 10 |>, None, None, Some 0))) /\
  exists wd, fst (read_events hub_env 1 2 (put_world wd (snd (saHpiEventAdd hub_env 1 (Some hub_event) hub_backlog))))
    = [EventUtils.event zero_oh_event; hub_event <| event_Timestamp := 10 |>].
Proof.
  split.
  - destruct (user_event_delivered hub_env 1 hub_subscribed hub_domain hub_domain hub_event example_text
                (fun d => d =? OH_DEFAULT_DOMAIN_ID) (fun _ => 0) hub_subscribed_attached)
      as (Hadd & wd & e & _ & _ & _ & _ & _ & Hget);
      [by vm_compute|done|by vm_compute|exact hub_world_ok|exact hub_dom_ok|done|].
    exists wd. rewrite Hadd.
    apply (Hget 1 {| id := 1; did := 0; subscribed := 1; eventq_status := 0; eventq := 0 |}); by vm_compute.
  - destruct (user_event_delivered hub_env 1 hub_backlog hub_domain hub_domain hub_event example_text
                (fun d => d =? OH_DEFAULT_DOMAIN_ID) (fun _ => 0) hub_backlog_attached)
      as (Hadd & wd & e & _ & _ & _ & _ & _ & Hget);
      [by vm_compute|done|by vm_compute|exact hub_backlog_ok|exact hub_dom_ok|done|].
    exists wd. rewrite Hadd.
    apply (Hget 1 {| id := 1; did := 0; subscribed := 1; eventq_status := 0; eventq := 0 |});
      [by vm_compute..|]. vm_compute. by repeat constructor.
Defined.
