(* ===== verification/Marshal.v ===== *)
(** The wire format of the remote interface (marshal/marshal.c).

    A [cMarshalType] describes the layout of a C object; [Marshal] writes an
    object into a byte buffer in the byte order of the host and [Demarshal]
    reads it back on a host of either byte order.  An object in memory is a
    tree of values, a field of a structure being found by its index in the
    table instead of its offset; the member of a union that the modifier
    selects is the value of the union; a variable array is the array its
    pointer refers to.  A read outside the buffer, or of an object that has
    not the described shape, is [Undefined]: neither function is given the
    length of its buffer. *)
From S2P Require Import Prelude.

(** * Results *)

Definition EINVAL : Z := 22.
Definition ENOSYS : Z := 38.

(** [Cc cc] is a negative return code. *)
Inductive outcome (A : Type) : Type :=
| Done (a : A)
| Cc (cc : Z)
| Undefined.
Arguments Done {A} a.
Arguments Cc {A} cc.
Arguments Undefined {A}.

Definition obind {A B} (x : outcome A) (k : A -> outcome B) : outcome B :=
  match x with Done a => k a | Cc cc => Cc cc | Undefined => Undefined end.

Declare Scope marshal_scope.
Delimit Scope marshal_scope with marshal.
Notation "'let*' x := e 'in' k" := (obind e (fun x => k))
  (at level 10, x pattern, e at level 100, k at level 200) : marshal_scope.
Open Scope marshal_scope.

(** * Machine representation of numbers *)

Inductive ByteOrder := LittleEndian | BigEndian.
#[export] Instance ByteOrder_eq_dec : EqDecision ByteOrder.
Proof. solve_decision. Defined.

(** The [n] low bytes of a number, least significant first; the arithmetic
    shift gives the two's complement of a negative one. *)
Fixpoint le_bytes (n : nat) (z : Z) : list Z :=
  match n with
  | O => []
  | S n' => z mod 256 :: le_bytes n' (z / 256)
  end.

Fixpoint le_value (bs : list Z) : Z :=
  match bs with [] => 0 | b :: bs' => b + 256 * le_value bs' end.

(** An [n]-byte number stored at, and loaded from, an address of the host. *)
Definition store (host : ByteOrder) (n : nat) (z : Z) : list Z :=
  match host with
  | LittleEndian => le_bytes n z
  | BigEndian => rev (le_bytes n z)
  end.

Definition load (host : ByteOrder) (bs : list Z) : Z :=
  match host with
  | LittleEndian => le_value bs
  | BigEndian => le_value (rev bs)
  end.

(** [GUINT16_SWAP_LE_BE], [GUINT32_SWAP_LE_BE] and [GUINT64_SWAP_LE_BE]. *)
Definition SWAP_LE_BE (n : nat) (u : Z) : Z := le_value (rev (le_bytes n u)).

(** * Types and objects *)

(** The types [IsSimpleType] accepts. *)
Inductive tSimpleType :=
| eMtVoid
| eMtUint8 | eMtUint16 | eMtUint32 | eMtUint64
| eMtInt8 | eMtInt16 | eMtInt32 | eMtInt64
| eMtFloat32 | eMtFloat64.
#[export] Instance tSimpleType_eq_dec : EqDecision tSimpleType.
Proof. solve_decision. Defined.

(** An object: a number (a floating point number by its bit pattern), the
    elements of an array, the fields of a structure in the order of its
    table. *)
Inductive value :=
| VVoid
| VNum (z : Z)
| VArray (vs : list value)
| VStruct (vs : list value).

(** [eMtUnknown] also stands for a structure or union element used as a type
    of its own. *)
Inductive cMarshalType :=
| Simple (t : tSimpleType)
| eMtArray (name : string) (nelements : Z) (element : cMarshalType)
| eMtVarArray (name : string) (nelements_idx : nat) (element : cMarshalType)
| eMtStruct (name : string) (elements : list (string * cMarshalType))
| eMtUnion (name : string) (mod_idx : nat) (elements : list (Z * cMarshalType))
| eMtUserDefined (marshaller : option (value -> outcome (list Z)))
                 (demarshaller : option (ByteOrder -> list Z -> outcome (value * Z)))
| eMtUnknown.

Definition IsSimpleType (t : cMarshalType) : bool :=
  match t with Simple _ => true | _ => false end.

Definition sizeof (t : tSimpleType) : nat :=
  match t with
  | eMtVoid => 0
  | eMtUint8 | eMtInt8 => 1
  | eMtUint16 | eMtInt16 => 2
  | eMtUint32 | eMtInt32 | eMtFloat32 => 4
  | eMtUint64 | eMtInt64 | eMtFloat64 => 8
  end.

Definition is_signed (t : tSimpleType) : bool :=
  match t with eMtInt8 | eMtInt16 | eMtInt32 | eMtInt64 => true | _ => false end.

Definition is_integer (t : tSimpleType) : bool :=
  match t with eMtVoid | eMtFloat32 | eMtFloat64 => false | _ => true end.

(** The number of type [t] with the unsigned representation [u]. *)
Definition interpret (t : tSimpleType) (u : Z) : Z :=
  if is_signed t && (2 ^ (8 * Z.of_nat (sizeof t) - 1) <=? u)
  then u - 2 ^ (8 * Z.of_nat (sizeof t)) else u.

(** * Simple types *)

Definition MarshalSimpleType (host : ByteOrder) (t : tSimpleType) (d : value)
  : outcome (list Z) :=
  match t, d with
  | eMtVoid, _ => Done []
  | _, VNum z => Done (store host (sizeof t) z)
  | _, _ => Undefined
  end.

Definition DemarshalSimpleTypes (host byte_order : ByteOrder) (t : tSimpleType)
    (b : list Z) : outcome (value * Z) :=
  match t with
  | eMtVoid => Done (VVoid, 0)
  | _ =>
      let n := sizeof t in
      if (length b <? n)%nat then Undefined else
      let u := load host (take n b) in
      let u := if decide (host = byte_order) then u else SWAP_LE_BE n u in
      Done (VNum (interpret t u), Z.of_nat n)
  end.

(** * Access to the tables *)

Definition SIZE_MAX : Z := 2 ^ 64 - 1.

Definition GetStructElementIntegerValue (elems : list (string * cMarshalType))
    (data : list value) (idx : nat) : outcome Z :=
  match elems !! idx, data !! idx with
  | Some (_, Simple t), Some (VNum z) =>
      if is_integer t then Done (u64 z) else Done SIZE_MAX
  | Some (_, Simple t), _ => if is_integer t then Undefined else Done SIZE_MAX
  | Some _, _ => Done SIZE_MAX
  | None, _ => Undefined
  end.

(** The member of a union with the modifier, handed to [f]. *)
Definition GetUnionElement {A} (f : cMarshalType -> A) (modifier : Z)
  : list (Z * cMarshalType) -> option A :=
  fix go elems :=
    match elems with
    | [] => None
    | (m, e) :: elems' => if m =? modifier then Some (f e) else go elems'
    end.

(** * Marshalling *)

Definition marshal_loop (f : value -> outcome (list Z))
  : Z -> list value -> outcome (list Z) :=
  fix go nelems ds {struct ds} :=
    if nelems <=? 0 then Done [] else
    match ds with
    | [] => Undefined
    | d :: ds' =>
        let* b := f d in
        let* bs := go (nelems - 1) ds' in
        Done (b ++ bs)
    end.

(** One element of a structure whose table is [elems] and data [ds]. *)
Definition marshal_element (M : cMarshalType -> value -> outcome (list Z))
    (elems : list (string * cMarshalType)) (ds : list value)
    (elem : cMarshalType) (d : value) : outcome (list Z) :=
  match elem with
  | eMtUnion _ mod2_idx us =>
      let* mod2 := GetStructElementIntegerValue elems ds mod2_idx in
      match GetUnionElement (fun elem2 => M elem2 d) mod2 us with
      | None => Cc (- EINVAL)
      | Some (Cc _) => Cc (- EINVAL)
      | Some r => r
      end
  | eMtVarArray _ nelems2_idx elem2 =>
      let* nelems2 := GetStructElementIntegerValue elems ds nelems2_idx in
      match d with
      | VArray ds2 => marshal_loop (M elem2) nelems2 ds2
      | _ => Undefined
      end
  | _ => M elem d
  end.

Definition marshal_struct (M : cMarshalType -> value -> outcome (list Z))
    (elems : list (string * cMarshalType)) (ds : list value)
  : list (string * cMarshalType) -> list value -> outcome (list Z) :=
  fix go es ds' {struct es} :=
    match es, ds' with
    | [], _ => Done []
    | (_, elem) :: es', d :: ds'' =>
        let* b := marshal_element M elems ds elem d in
        let* bs := go es' ds'' in
        Done (b ++ bs)
    | _ :: _, [] => Undefined
    end.

(** The bytes [Marshal] writes; their number is its return value. *)
Fixpoint Marshal (host : ByteOrder) (type : cMarshalType) (d : value)
  : outcome (list Z) :=
  match type with
  | Simple t => MarshalSimpleType host t d
  | eMtArray _ nelems elem =>
      match d with
      | VArray ds => marshal_loop (Marshal host elem) nelems ds
      | _ => Undefined
      end
  | eMtStruct _ elems =>
      match d with
      | VStruct ds => marshal_struct (Marshal host) elems ds elems ds
      | _ => Undefined
      end
  | eMtUserDefined marshaller _ =>
      match marshaller with Some f => f d | None => Done [] end
  | eMtVarArray _ _ _ | eMtUnion _ _ _ | eMtUnknown => Cc (- ENOSYS)
  end.

Fixpoint MarshalArray (host : ByteOrder) (types : list cMarshalType)
    (data : list value) : outcome (list Z) :=
  match types, data with
  | [], _ => Done []
  | t :: types', d :: data' =>
      let* b := Marshal host t d in
      let* bs := MarshalArray host types' data' in
      Done (b ++ bs)
  | _ :: _, [] => Undefined
  end.

(** * Demarshalling *)

Definition demarshal_loop (f : list Z -> outcome (value * Z))
  : nat -> list Z -> outcome (list value * Z) :=
  fix go nelems b :=
    match nelems with
    | O => Done ([], 0)
    | S n =>
        let* (v, cc) := f b in
        let* (vs, size) := go n (drop (Z.to_nat cc) b) in
        Done (v :: vs, cc + size)
    end.

(** Element number [i], the elements before it being [data] already. *)
Definition demarshal_element (D : cMarshalType -> list Z -> outcome (value * Z))
    (elems : list (string * cMarshalType)) (data : list value) (i : nat)
    (elem : cMarshalType) (b : list Z) : outcome (value * Z) :=
  match elem with
  | eMtUnion _ mod2_idx us =>
      if (i <=? mod2_idx)%nat then Cc (- EINVAL) else
      let* mod2 := GetStructElementIntegerValue elems data mod2_idx in
      match GetUnionElement (fun elem2 => D elem2 b) mod2 us with
      | None => Cc (- EINVAL)
      | Some r => r
      end
  | eMtVarArray _ nelems2_idx elem2 =>
      if (i <=? nelems2_idx)%nat then Cc (- EINVAL) else
      let* nelems2 := GetStructElementIntegerValue elems data nelems2_idx in
      let* (vs, cc) := demarshal_loop (D elem2) (Z.to_nat nelems2) b in
      Done (VArray vs, cc)
  | _ => D elem b
  end.

Definition demarshal_struct (D : cMarshalType -> list Z -> outcome (value * Z))
    (elems : list (string * cMarshalType))
  : nat -> list (string * cMarshalType) -> list value -> list Z
    -> outcome (list value * Z) :=
  fix go i es data b {struct es} :=
    match es with
    | [] => Done (data, 0)
    | (_, elem) :: es' =>
        let* (v, cc) := demarshal_element D elems data i elem b in
        let* (vs, size) := go (S i) es' (data ++ [v]) (drop (Z.to_nat cc) b) in
        Done (vs, cc + size)
    end.

(** The object read from the front of the buffer and the bytes consumed. *)
Fixpoint Demarshal (host byte_order : ByteOrder) (type : cMarshalType)
    (b : list Z) : outcome (value * Z) :=
  match type with
  | Simple t => DemarshalSimpleTypes host byte_order t b
  | eMtArray _ nelems elem =>
      let* (vs, size) :=
        demarshal_loop (Demarshal host byte_order elem) (Z.to_nat nelems) b in
      Done (VArray vs, size)
  | eMtStruct _ elems =>
      let* (vs, size) :=
        demarshal_struct (Demarshal host byte_order) elems 0 elems [] b in
      Done (VStruct vs, size)
  | eMtUserDefined _ demarshaller =>
      match demarshaller with Some f => f byte_order b | None => Done (VVoid, 0) end
  | eMtVarArray _ _ _ | eMtUnion _ _ _ | eMtUnknown => Cc (- ENOSYS)
  end.

Fixpoint DemarshalArray (host byte_order : ByteOrder) (types : list cMarshalType)
    (b : list Z) : outcome (list value * Z) :=
  match types with
  | [] => Done ([], 0)
  | t :: types' =>
      let* (v, cc) := Demarshal host byte_order t b in
      let* (vs, size) := DemarshalArray host byte_order types' (drop (Z.to_nat cc) b) in
      Done (v :: vs, cc + size)
  end.

(** What [DemarshalArray] has stored when it ends, by an error too: the objects up
    to the one it failed on, [None], which may be written in part; the objects
    after that are as before. *)
Fixpoint stored_by_array (host byte_order : ByteOrder) (types : list cMarshalType)
    (b : list Z) : list (option value) :=
  match types with
  | [] => []
  | t :: types' =>
      match Demarshal host byte_order t b with
      | Done (v, cc) => Some v :: stored_by_array host byte_order types' (drop (Z.to_nat cc) b)
      | _ => [None]
      end
  end.

(** * Well-formed types and well-typed objects *)

(** The tables the library is meant for: a modifier or element count is an
    integer field in front of its union or array (the limitation noted in
    [Demarshal]), and no two elements describe the same field. *)
Definition index_ok (elems : list (string * cMarshalType)) (i idx : nat) : bool :=
  (idx <? i)%nat &&
  match elems !! idx with Some (_, Simple t) => is_integer t | _ => false end.

Definition wf_element (W : cMarshalType -> bool)
    (elems : list (string * cMarshalType)) (i : nat) (elem : cMarshalType) : bool :=
  match elem with
  | eMtUnion _ idx us => index_ok elems i idx && forallb (fun me => W me.2) us
  | eMtVarArray _ idx e => index_ok elems i idx && W e
  | _ => W elem
  end.

Definition wf_struct (W : cMarshalType -> bool) (elems : list (string * cMarshalType))
  : nat -> list (string * cMarshalType) -> bool :=
  fix go i es {struct es} :=
    match es with
    | [] => true
    | (_, elem) :: es' => wf_element W elems i elem && go (S i) es'
    end.

Fixpoint wf_type (t : cMarshalType) : bool :=
  match t with
  | Simple _ => true
  | eMtArray _ n e => (0 <=? n) && wf_type e
  | eMtStruct _ elems =>
      bool_decide (NoDup elems.*1) && wf_struct wf_type elems 0 elems
  | _ => false
  end.

(** The objects of a type: numbers in the range of their type, as many array
    elements as the type or the count says, the union member selected by its
    modifier. *)
Definition num_typed (t : tSimpleType) (z : Z) : bool :=
  let w := 8 * Z.of_nat (sizeof t) in
  if is_signed t then (- 2 ^ (w - 1) <=? z) && (z <? 2 ^ (w - 1))
  else (0 <=? z) && (z <? 2 ^ w).

Definition simple_typed (t : tSimpleType) (v : value) : bool :=
  match t, v with
  | eMtVoid, VVoid => true
  | eMtVoid, _ => false
  | _, VNum z => num_typed t z
  | _, _ => false
  end.

Definition array_typed (T : value -> bool) (n : Z) (v : value) : bool :=
  match v with
  | VArray vs => (Z.of_nat (length vs) =? n) && forallb T vs
  | _ => false
  end.

Definition element_typed (T : cMarshalType -> value -> bool)
    (elems : list (string * cMarshalType)) (vs : list value)
    (elem : cMarshalType) (v : value) : bool :=
  match elem with
  | eMtUnion _ idx us =>
      match GetStructElementIntegerValue elems vs idx with
      | Done m =>
          match GetUnionElement (fun e => T e v) m us with
          | Some b => b
          | None => false
          end
      | _ => false
      end
  | eMtVarArray _ idx e =>
      match GetStructElementIntegerValue elems vs idx with
      | Done n => array_typed (T e) n v
      | _ => false
      end
  | _ => T elem v
  end.

Definition struct_typed (T : cMarshalType -> value -> bool)
    (elems : list (string * cMarshalType)) (vs : list value)
  : list (string * cMarshalType) -> list value -> bool :=
  fix go es vs' {struct es} :=
    match es, vs' with
    | [], [] => true
    | (_, elem) :: es', v :: vs'' => element_typed T elems vs elem v && go es' vs''
    | _, _ => false
    end.

Fixpoint well_typed (t : cMarshalType) (v : value) : bool :=
  match t with
  | Simple s => simple_typed s v
  | eMtArray _ n e => array_typed (well_typed e) n v
  | eMtStruct _ elems =>
      match v with VStruct vs => struct_typed well_typed elems vs elems vs | _ => false end
  | _ => false
  end.

Definition byte (b : Z) : Prop := 0 <= b < 256.

(** The most bytes an object of a type takes. *)
Definition count_max (elems : list (string * cMarshalType)) (idx : nat) : Z :=
  match elems !! idx with
  | Some (_, Simple t) =>
      if is_signed t then SIZE_MAX else 2 ^ (8 * Z.of_nat (sizeof t)) - 1
  | _ => SIZE_MAX
  end.

Definition union_max (X : cMarshalType -> Z) (us : list (Z * cMarshalType)) : Z :=
  foldr (fun me acc => Z.max (X me.2) acc) 0 us.

Definition element_max (X : cMarshalType -> Z) (elems : list (string * cMarshalType))
    (elem : cMarshalType) : Z :=
  match elem with
  | eMtUnion _ _ us => union_max X us
  | eMtVarArray _ idx e => count_max elems idx * X e
  | _ => X elem
  end.

Definition struct_max (X : cMarshalType -> Z) (elems es : list (string * cMarshalType)) : Z :=
  foldr (fun ne acc => element_max X elems ne.2 + acc) 0 es.

Fixpoint max_size (t : cMarshalType) : Z :=
  match t with
  | Simple s => Z.of_nat (sizeof s)
  | eMtArray _ n e => Z.max 0 n * max_size e
  | eMtStruct _ elems => struct_max max_size elems elems
  | _ => 0
  end.

(** A list of types, as the arguments of a call. *)
Fixpoint args_typed (types : list cMarshalType) (vs : list value) : bool :=
  match types, vs with
  | [], [] => true
  | t :: types', v :: vs' => well_typed t v && args_typed types' vs'
  | _, _ => false
  end.

Definition args_max (types : list cMarshalType) : Z :=
  foldr (fun t acc => max_size t + acc) 0 types.

(** * The contract of a coder

    [M] writes the objects that satisfy [T], in at most [mx] bytes, so that
    [D] reads them back whatever follows in the buffer; [D] accepts only what
    [M] writes; and [D] fails only with [-EINVAL], or by reading past a buffer
    of less than [mx] bytes. *)
Record Coder {A} (T : A -> bool) (mx : Z) (M : A -> outcome (list Z))
    (D : list Z -> outcome (A * Z)) : Prop := {
  coder_enc : forall v, T v = true ->
    exists bs, M v = Done bs /\ Forall byte bs /\ Z.of_nat (length bs) <= mx /\
      forall rest, D (bs ++ rest) = Done (v, Z.of_nat (length bs));
  coder_dec : forall b v n, Forall byte b -> D b = Done (v, n) ->
    T v = true /\ 0 <= n <= Z.of_nat (length b) /\ M v = Done (take (Z.to_nat n) b);
  coder_err : forall b, Forall byte b ->
    (exists v n, D b = Done (v, n)) \/ D b = Cc (- EINVAL) \/
    (D b = Undefined /\ Z.of_nat (length b) < mx)
}.

(** * Induction over types

    The types a structure refers to through a union or a variable array are
    two levels down. *)
Definition children (t : cMarshalType) : list cMarshalType :=
  match t with
  | eMtArray _ _ e | eMtVarArray _ _ e => [e]
  | eMtStruct _ es => es.*2
  | eMtUnion _ _ us => us.*2
  | _ => []
  end.

Lemma marshal_type_ind (P : cMarshalType -> Prop) :
  (forall t, Forall (fun c => P c /\ Forall P (children c)) (children t) -> P t) ->
  forall t, P t.
Proof.
  intros step. cut (forall t, P t /\ Forall P (children t)); [firstorder|].
  assert (close : forall t, Forall (fun c => P c /\ Forall P (children c)) (children t) ->
                            P t /\ Forall P (children t)).
  { intros t H. split; [by apply step|]. apply (Forall_impl _ _ _ H). tauto. }
  fix go 1. intros t. apply close.
  destruct t as [s|nm n e|nm i e|nm es|nm i us|m d|]; cbn [children];
    repeat (constructor; try apply go).
  - induction es as [|[n e] es IH]; constructor; [apply go|exact IH].
  - induction us as [|[n e] us IH]; constructor; [apply go|exact IH].
Qed.

(** * Bytes *)

Lemma le_bytes_length n z : length (le_bytes n z) = n.
Proof. revert z. induction n; intros z; simpl; [done|]. by rewrite IHn. Qed.

Lemma le_bytes_byte n z : Forall byte (le_bytes n z).
Proof.
  revert z. induction n; intros z; simpl; constructor; [|done].
  apply Z.mod_pos_bound. lia.
Qed.

Lemma pow_256_S n : 256 ^ Z.of_nat (S n) = 256 * 256 ^ Z.of_nat n.
Proof. rewrite Nat2Z.inj_succ, Z.pow_succ_r; lia. Qed.

Lemma le_value_bytes n z : le_value (le_bytes n z) = z mod 256 ^ Z.of_nat n.
Proof.
  revert z. induction n as [|n IH]; intros z; [simpl; by rewrite Z.mod_1_r|].
  cbn [le_bytes le_value]. rewrite IH, pow_256_S.
  rewrite Z.rem_mul_r; [done|lia|].
  apply Z.pow_pos_nonneg; lia.
Qed.

Lemma le_value_range bs : Forall byte bs -> 0 <= le_value bs < 256 ^ Z.of_nat (length bs).
Proof.
  induction 1 as [|b bs Hb _ IH]; [simpl; lia|].
  cbn [length le_value]. rewrite pow_256_S. unfold byte in Hb. nia.
Qed.

Lemma le_bytes_value bs : Forall byte bs -> le_bytes (length bs) (le_value bs) = bs.
Proof.
  induction 1 as [|b bs Hb _ IH]; [done|]. cbn [length le_value le_bytes]. f_equal.
  - rewrite Z.mul_comm, Z_mod_plus_full, Z.mod_small; [done|apply Hb].
  - rewrite Z.mul_comm, Z_div_plus_full by lia. by rewrite Z.div_small, Z.add_0_l by apply Hb.
Qed.

Lemma swap_involutive n u :
  0 <= u < 256 ^ Z.of_nat n -> SWAP_LE_BE n (SWAP_LE_BE n u) = u.
Proof.
  intros H. unfold SWAP_LE_BE.
  assert (E : n = length (rev (le_bytes n u))) by by rewrite length_rev, le_bytes_length.
  rewrite E at 1. rewrite le_bytes_value by (apply Forall_rev, le_bytes_byte).
  rewrite rev_involutive, le_value_bytes. by apply Z.mod_small.
Qed.

Lemma store_length h n z : length (store h n z) = n.
Proof. destruct h; simpl; [|rewrite length_rev]; apply le_bytes_length. Qed.

Lemma store_byte h n z : Forall byte (store h n z).
Proof. destruct h; simpl; [|apply Forall_rev]; apply le_bytes_byte. Qed.

Lemma load_store h n z : load h (store h n z) = z mod 256 ^ Z.of_nat n.
Proof. destruct h; simpl; rewrite ?rev_involutive; apply le_value_bytes. Qed.

Lemma store_load h bs : Forall byte bs -> store h (length bs) (load h bs) = bs.
Proof.
  intros H. destruct h; simpl; [by apply le_bytes_value|].
  rewrite <- (length_rev bs), le_bytes_value by (by apply Forall_rev).
  apply rev_involutive.
Qed.

Lemma load_range h bs : Forall byte bs -> 0 <= load h bs < 256 ^ Z.of_nat (length bs).
Proof.
  intros H. destruct h; simpl; [by apply le_value_range|].
  rewrite <- length_rev. by apply le_value_range, Forall_rev.
Qed.

(** What one host stored the other loads, up to the swap. *)
Lemma load_other h h' bs : Forall byte bs -> h <> h' ->
  SWAP_LE_BE (length bs) (load h bs) = load h' bs.
Proof.
  intros H Hne. unfold SWAP_LE_BE. destruct h, h'; try done; cbn [load].
  - by rewrite le_bytes_value.
  - rewrite <- (length_rev bs), le_bytes_value by (by apply Forall_rev).
    by rewrite rev_involutive.
Qed.

Lemma store_mod h n z : store h n (z mod 256 ^ Z.of_nat n) = store h n z.
Proof.
  rewrite <- (store_load h (store h n z)) by apply store_byte.
  by rewrite store_length, load_store.
Qed.

(** * Simple types *)

Lemma width_256 t : 2 ^ (8 * Z.of_nat (sizeof t)) = 256 ^ Z.of_nat (sizeof t).
Proof. destruct t; reflexivity. Qed.

Lemma interpret_mod t z :
  t <> eMtVoid -> num_typed t z = true ->
  interpret t (z mod 256 ^ Z.of_nat (sizeof t)) = z.
Proof.
  intros Hv H. rewrite <- width_256. unfold interpret, num_typed in *.
  destruct (is_signed t) eqn:Es; cbn [andb]; zbool.
  - assert (E : 2 ^ (8 * Z.of_nat (sizeof t)) = 2 * 2 ^ (8 * Z.of_nat (sizeof t) - 1)).
    { destruct t; done. }
    destruct (Z.leb_spec (2 ^ (8 * Z.of_nat (sizeof t) - 1))
                         (z mod 2 ^ (8 * Z.of_nat (sizeof t)))) as [Hl|Hl].
    all: rewrite E in *; set (p := 2 ^ _) in *.
    all: destruct (Z_lt_le_dec z 0).
    all: try (rewrite (Z.mod_small z (2 * p)) in * by lia; lia).
    all: replace (z mod (2 * p)) with (z + 2 * p) in *
      by (apply (Z.mod_unique _ _ (-1)); lia); lia.
  - apply Z.mod_small. lia.
Qed.

Lemma interpret_typed t u :
  t <> eMtVoid -> 0 <= u < 256 ^ Z.of_nat (sizeof t) ->
  num_typed t (interpret t u) = true /\
  interpret t u mod 256 ^ Z.of_nat (sizeof t) = u.
Proof.
  intros Hv H. rewrite <- width_256 in *. unfold interpret, num_typed.
  assert (E : 2 ^ (8 * Z.of_nat (sizeof t)) = 2 * 2 ^ (8 * Z.of_nat (sizeof t) - 1))
    by (destruct t; done).
  assert (0 < 2 ^ (8 * Z.of_nat (sizeof t) - 1)) by (apply Z.pow_pos_nonneg; destruct t; done || simpl; lia).
  set (p := 2 ^ (8 * Z.of_nat (sizeof t) - 1)) in *. rewrite E in *.
  destruct (is_signed t); cbn [andb].
  - destruct (Z.leb_spec p u); split; try (apply andb_true_iff; split; lia).
    + rewrite <- (Z_mod_plus_full _ 1), Z.mod_small by lia. lia.
    + apply Z.mod_small. lia.
  - split; [apply andb_true_iff; split; lia|]. apply Z.mod_small. lia.
Qed.

Lemma coder_used {A} (T : A -> bool) mx M D b v n :
  Coder T mx M D -> Forall byte b -> D b = Done (v, n) ->
  T v = true /\ M v = Done (take (Z.to_nat n) b) /\
  0 <= n <= mx /\ n <= Z.of_nat (length b) /\
  Z.of_nat (length (drop (Z.to_nat n) b)) = Z.of_nat (length b) - n /\
  Forall byte (drop (Z.to_nat n) b).
Proof.
  intros C Hb H. destruct (coder_dec _ _ _ _ C _ _ _ Hb H) as (Ht & Hn & Hm).
  destruct (coder_enc _ _ _ _ C _ Ht) as (bs & Hm' & _ & Hmx & _).
  rewrite Hm in Hm'. simplify_eq. rewrite length_take in Hmx.
  rewrite length_drop. repeat split; try done; try lia. by apply Forall_drop.
Qed.

Lemma MarshalSimpleType_num h t z : t <> eMtVoid ->
  MarshalSimpleType h t (VNum z) = Done (store h (sizeof t) z).
Proof. by destruct t. Qed.

(** Any host loads the number of the bytes another host stored. *)
Lemma DemarshalSimpleTypes_num h s t b : t <> eMtVoid -> Forall byte (take (sizeof t) b) ->
  DemarshalSimpleTypes h s t b =
  if (length b <? sizeof t)%nat then Undefined
  else Done (VNum (interpret t (load s (take (sizeof t) b))), Z.of_nat (sizeof t)).
Proof.
  intros Ht Hb. unfold DemarshalSimpleTypes. cbv zeta.
  destruct (Nat.ltb_spec (length b) (sizeof t)) as [Hl|Hl]; [by destruct t|].
  assert (E : length (take (sizeof t) b) = sizeof t) by (rewrite length_take; lia).
  assert (L : (if decide (h = s) then load h (take (sizeof t) b)
               else SWAP_LE_BE (sizeof t) (load h (take (sizeof t) b))) =
              load s (take (sizeof t) b)).
  { case_decide as Hd; [by rewrite Hd|]. rewrite <- E at 1.
    by apply load_other. }
  rewrite L. by destruct t.
Qed.

Lemma simple_coder h s t :
  Coder (simple_typed t) (Z.of_nat (sizeof t)) (MarshalSimpleType s t)
        (DemarshalSimpleTypes h s t).
Proof.
  destruct (decide (t = eMtVoid)) as [->|Ht].
  { split; simpl.
    - intros [] ?; try done. exists []. split_and!; done.
    - intros b v n _ [= <- <-]. split_and!; try done. lia.
    - intros b _. eauto. }
  split.
  - intros v Hv. assert (exists z, v = VNum z /\ num_typed t z = true) as (z & -> & Hz).
    { destruct t, v; try done; eauto. }
    exists (store s (sizeof t) z). rewrite MarshalSimpleType_num by done.
    rewrite store_length. split_and!; [done|apply store_byte|lia|]. intros rest.
    assert (E : take (sizeof t) (store s (sizeof t) z ++ rest) = store s (sizeof t) z).
    { apply take_app_length'. by rewrite store_length. }
    rewrite DemarshalSimpleTypes_num by (done || rewrite E; apply store_byte).
    rewrite E, length_app, store_length, load_store, interpret_mod by done.
    destruct (Nat.ltb_spec (sizeof t + length rest) (sizeof t)); [lia|done].
  - intros b v n Hb. rewrite DemarshalSimpleTypes_num by (done || by apply Forall_take).
    destruct (Nat.ltb_spec (length b) (sizeof t)) as [Hl|Hl]; [done|]. intros [= <- <-].
    assert (E : length (take (sizeof t) b) = sizeof t) by (rewrite length_take; lia).
    assert (Hby : Forall byte (take (sizeof t) b)) by by apply Forall_take.
    pose proof (load_range s _ Hby) as Hr. rewrite E in Hr.
    destruct (interpret_typed t _ Ht Hr) as [Hn Hm].
    rewrite MarshalSimpleType_num, Nat2Z.id by done. split_and!; try lia.
    + by destruct t.
    + rewrite <- store_mod, Hm. rewrite <- E at 1. by rewrite store_load.
  - intros b Hb. rewrite DemarshalSimpleTypes_num by (done || by apply Forall_take).
    destruct (Nat.ltb_spec (length b) (sizeof t)); [right; right; split; [done|lia]|eauto].
Qed.

(** * Combining coders *)

Lemma coder_map {A B} (f : A -> B) (T : A -> bool) T' mx mx' M M' D D' :
  Coder T mx M D ->
  (forall y, T' y = true -> exists x, y = f x /\ T x = true) ->
  (forall x, T x = true -> T' (f x) = true /\ M' (f x) = M x) ->
  (forall b, D' b = let* (x, n) := D b in Done (f x, n)) ->
  mx <= mx' -> Coder T' mx' M' D'.
Proof.
  intros C Hinv Heq HD Hmx. split.
  - intros y Hy. destruct (Hinv y Hy) as (x & -> & Hx).
    destruct (coder_enc _ _ _ _ C x Hx) as (bs & HM & Hb & Hl & HR).
    exists bs. rewrite (proj2 (Heq x Hx)). split_and!; [done|done|lia|].
    intros rest. by rewrite HD, HR.
  - intros b y n Hb. rewrite HD.
    destruct (D b) as [[x m]| |] eqn:E; intros [= <- <-].
    destruct (coder_dec _ _ _ _ C _ _ _ Hb E) as (Ht & Hn & HM).
    destruct (Heq x Ht) as [H1 H2]. by rewrite H2.
  - intros b Hb. rewrite HD.
    destruct (coder_err _ _ _ _ C b Hb) as [(x & n & ->)|[->|[-> H]]]; simpl; eauto.
    right; right. split; [done|lia].
Qed.

(** One object after the other, the coder of the second depending on the
    first. *)
Definition seq_marshal {A B} (M : A -> outcome (list Z)) (M' : A -> B -> outcome (list Z))
    (xy : A * B) : outcome (list Z) :=
  let* b := M xy.1 in let* bs := M' xy.1 xy.2 in Done (b ++ bs).

Definition seq_demarshal {A B} (D : list Z -> outcome (A * Z))
    (D' : A -> list Z -> outcome (B * Z)) (b : list Z) : outcome ((A * B) * Z) :=
  let* (x, cc) := D b in
  let* (y, size) := D' x (drop (Z.to_nat cc) b) in
  Done ((x, y), cc + size).

Lemma coder_seq {A B} (T : A -> bool) (T' : A -> B -> bool) mx mx' M M' D D' :
  Coder T mx M D ->
  0 <= mx' -> (forall x, T x = true -> Coder (T' x) mx' (M' x) (D' x)) ->
  Coder (fun xy => T xy.1 && T' xy.1 xy.2) (mx + mx')
        (seq_marshal M M') (seq_demarshal D D').
Proof.
  intros C Hmx C'. unfold seq_marshal, seq_demarshal. split.
  - intros [x y] [Hx Hy]%andb_true_iff. cbn [fst snd] in *.
    destruct (coder_enc _ _ _ _ C x Hx) as (b1 & HM1 & Hb1 & Hl1 & HR1).
    destruct (coder_enc _ _ _ _ (C' x Hx) y Hy) as (b2 & HM2 & Hb2 & Hl2 & HR2).
    exists (b1 ++ b2). rewrite HM1. simpl. rewrite HM2. simpl.
    rewrite length_app. split_and!; [done|by apply Forall_app|lia|].
    intros rest. rewrite <- app_assoc, HR1. simpl.
    rewrite Nat2Z.id, drop_app_length, HR2. simpl. by rewrite Nat2Z.inj_add.
  - intros b [x y] n Hb H.
    destruct (D b) as [[x' n1]| |] eqn:E1; try done. cbn [obind] in H.
    destruct (coder_used _ _ _ _ _ _ _ C Hb E1) as (Hx & HM1 & Hn1 & Hl1 & Hl & Hb').
    destruct (D' x' _) as [[y' n2]| |] eqn:E2; try done. injection H as <- <- <-.
    destruct (coder_dec _ _ _ _ (C' _ Hx) _ _ _ Hb' E2) as (Hy & Hn2 & HM2).
    cbn [fst snd]. rewrite Hx, Hy, HM1. simpl. rewrite HM2. simpl.
    split_and!; [done|lia|lia|]. rewrite Z2Nat.inj_add by lia.
    by rewrite <- take_take_drop.
  - intros b Hb.
    destruct (coder_err _ _ _ _ C b Hb) as [(x & n1 & E1)|[E|[E ?]]].
    + rewrite E1. simpl.
      destruct (coder_used _ _ _ _ _ _ _ C Hb E1) as (Hx & _ & Hn1 & Hl1 & Hl & Hb').
      destruct (coder_err _ _ _ _ (C' _ Hx) _ Hb') as [(y & n2 & ->)|[->|[-> H2]]];
        simpl; eauto. right; right. split; [done|lia].
    + rewrite E. simpl. auto.
    + rewrite E. simpl. right; right. split; [done|lia].
Qed.

Lemma loop_coder {T mx M D} k : Coder T mx M D -> 0 <= mx ->
  Coder (fun vs => (Z.of_nat (length vs) =? Z.of_nat k) && forallb T vs)
        (Z.of_nat k * mx) (marshal_loop M (Z.of_nat k)) (demarshal_loop D k).
Proof.
  intros C Hmx. induction k as [|k IH].
  - split; simpl.
    + intros [|v vs]; [|done]. exists []. split_and!; done.
    + intros b v n _ [= <- <-]. split_and!; try done. lia.
    + intros b _. eauto.
  - assert (Hk : 0 <= Z.of_nat k * mx) by nia.
    pose proof (coder_seq _ (fun _ => _) _ _ _ (fun _ => _) _ (fun _ => _) C Hk
                  (fun _ _ => IH)) as SC.
    apply (coder_map (fun '(v, vs) => v :: vs) _ _ _ _ _ _ _ _ SC).
    + intros [|v vs] [Hl H]%andb_true_iff; apply Z.eqb_eq in Hl; [done|].
      cbn [forallb] in H. apply andb_true_iff in H as [Hv Hvs].
      exists (v, vs). split; [done|]. cbn [fst snd].
      rewrite Hv, Hvs, (proj2 (Z.eqb_eq _ _)); [done|]. cbn [length] in Hl. lia.
    + intros [v vs] [Hv [Hl Hvs]%andb_true_iff]%andb_true_iff. cbn [fst snd] in *.
      apply Z.eqb_eq in Hl. split.
      * cbn [length forallb]. rewrite Hv, Hvs, (proj2 (Z.eqb_eq _ _)); [done|lia].
      * unfold seq_marshal. cbn [marshal_loop fst snd].
        destruct (Z.leb_spec (Z.of_nat (S k)) 0); [lia|].
        by replace (Z.of_nat (S k) - 1) with (Z.of_nat k) by lia.
    + intros b. unfold seq_demarshal. cbn [demarshal_loop].
      destruct (D b) as [[v n]| |]; try done. simpl.
      by destruct (demarshal_loop D k _) as [[vs m]| |].
    + lia.
Qed.

Lemma array_coder {T mx M D} n : Coder T mx M D -> 0 <= mx -> 0 <= n ->
  Coder (array_typed T n) (n * mx)
    (fun d => match d with VArray ds => marshal_loop M n ds | _ => Undefined end)
    (fun b => let* (vs, cc) := demarshal_loop D (Z.to_nat n) b in Done (VArray vs, cc)).
Proof.
  intros C Hmx Hn. pose proof (loop_coder (Z.to_nat n) C Hmx) as L.
  rewrite Z2Nat.id in L by done.
  apply (coder_map VArray _ _ _ _ _ _ _ _ L); simpl; try done; try lia.
  intros [] ?; try done. eauto.
Qed.

(** * Unions *)

Lemma GetUnionElement_fmap {A} (f : cMarshalType -> A) m us :
  GetUnionElement f m us = f <$> GetUnionElement id m us.
Proof. induction us as [|[m' e] us IH]; simpl; [done|]. by destruct (m' =? m). Qed.

Lemma GetUnionElement_in m us e :
  GetUnionElement id m us = Some e -> e ∈ us.*2.
Proof.
  induction us as [|[m' e'] us IH]; simpl; [done|].
  destruct (m' =? m); [intros [= <-]; constructor|]. intros H. constructor. by apply IH.
Qed.

Lemma union_max_in X us e : e ∈ us.*2 -> X e <= union_max X us.
Proof.
  induction us as [|[m e'] us IH]; cbn [fmap list_fmap]; intros H; [by apply elem_of_nil in H|].
  cbn. apply elem_of_cons in H as [->|H]; [cbn; lia|]. specialize (IH H).
  unfold union_max in IH. lia.
Qed.

Lemma union_max_nonneg X us : 0 <= union_max X us.
Proof. induction us as [|[m e] us IH]; cbn; [lia|]. unfold union_max in IH. lia. Qed.

Lemma count_max_nonneg elems idx : 0 <= count_max elems idx.
Proof.
  unfold count_max, SIZE_MAX.
  assert (forall t, 0 <= 2 ^ (8 * Z.of_nat (sizeof t)) - 1) by (intros []; done).
  repeat case_match; auto with lia.
Qed.

(** * Structures *)

Section structure.
Context (T : cMarshalType -> value -> bool) (X : cMarshalType -> Z).
Context (M : cMarshalType -> value -> outcome (list Z)).
Context (D : cMarshalType -> list Z -> outcome (value * Z)).
Context (X_nonneg : forall t, 0 <= X t).
Context (elems : list (string * cMarshalType)).

Let coder_of (e : cMarshalType) : Prop := Coder (T e) (X e) (M e) (D e).

(** The fields already there agree with the table. *)
Definition prefix_typed (done : list value) : Prop :=
  forall j nm t v, elems !! j = Some (nm, Simple t) -> done !! j = Some v ->
    simple_typed t v = true.

Lemma GetStructElementIntegerValue_prefix done ds idx : (idx < length done)%nat ->
  GetStructElementIntegerValue elems (done ++ ds) idx =
  GetStructElementIntegerValue elems done idx.
Proof. intros H. unfold GetStructElementIntegerValue. by rewrite lookup_app_l. Qed.

Lemma GetStructElementIntegerValue_index done idx :
  index_ok elems (length done) idx = true -> prefix_typed done ->
  exists m, GetStructElementIntegerValue elems done idx = Done m /\
    0 <= m <= count_max elems idx.
Proof.
  unfold index_ok, GetStructElementIntegerValue, count_max.
  intros [Hl He]%andb_true_iff Hp. apply Nat.ltb_lt in Hl.
  destruct (elems !! idx) as [[nm t]|] eqn:E; [|done]. destruct t as [t| | | | | |]; try done.
  destruct (lookup_lt_is_Some_2 done idx Hl) as [v Hv]. rewrite Hv.
  specialize (Hp _ _ _ _ E Hv).
  destruct v as [|z| |]; try by destruct t. rewrite He. eexists. split; [done|].
  unfold u64, SIZE_MAX. assert (Hz : num_typed t z = true) by by destruct t.
  pose proof (Z.mod_pos_bound z (2 ^ 64) eq_refl). unfold num_typed in Hz.
  assert (2 ^ (8 * Z.of_nat (sizeof t)) <= 2 ^ 64) by (destruct t; vm_compute; congruence).
  destruct (is_signed t) eqn:Es; [clear Hz; lia|]. zbool.
  set (p := 2 ^ (8 * Z.of_nat (sizeof t))) in *. set (q := 2 ^ 64) in *.
  rewrite Z.mod_small; lia.
Qed.

Lemma union_coder us m :
  Forall coder_of us.*2 ->
  Coder (fun v => match GetUnionElement (fun e => T e v) m us with
                  | Some b => b | None => false end)
        (union_max X us)
        (fun d => match GetUnionElement (fun e => M e d) m us with
                  | None => Cc (- EINVAL) | Some (Cc _) => Cc (- EINVAL)
                  | Some r => r end)
        (fun b => match GetUnionElement (fun e => D e b) m us with
                  | None => Cc (- EINVAL) | Some r => r end).
Proof.
  intros H. pose proof (union_max_nonneg X us).
  destruct (GetUnionElement id m us) as [e|] eqn:E.
  - pose proof (GetUnionElement_in _ _ _ E) as Hin.
    assert (C : coder_of e) by by eapply Forall_forall in H.
    assert (G : forall A (f : cMarshalType -> A), GetUnionElement f m us = Some (f e)).
    { intros A f. by rewrite GetUnionElement_fmap, E. }
    apply (coder_map id _ _ _ _ _ _ _ _ C); [| | |by apply union_max_in].
    + intros v. rewrite G. eauto.
    + intros v Hv. rewrite !G. split; [done|].
      unfold id. by destruct (coder_enc _ _ _ _ C v Hv) as (bs & -> & _).
    + intros b. rewrite G. by destruct (D e b) as [[]| |].
  - split.
    + intros v. by rewrite GetUnionElement_fmap, E.
    + intros b v n _. by rewrite GetUnionElement_fmap, E.
    + intros b _. rewrite GetUnionElement_fmap, E. simpl. auto.
Qed.

(** The types an element is coded with are coded correctly. *)
Definition element_coded (e : cMarshalType) : Prop :=
  match e with
  | eMtUnion _ _ us => Forall coder_of us.*2
  | eMtVarArray _ _ e2 => coder_of e2
  | _ => coder_of e
  end.

Lemma element_coder done ds e :
  wf_element (fun _ => true) elems (length done) e = true -> prefix_typed done ->
  element_coded e ->
  Coder (element_typed T elems (done ++ ds) e) (element_max X elems e)
        (marshal_element M elems (done ++ ds) e)
        (demarshal_element D elems done (length done) e).
Proof.
  intros Hwf Hp Hc.
  destruct e as [s|nm n e|nm idx e|nm es|nm idx us|mf df|]; try exact Hc.
  - cbn [wf_element] in Hwf. rewrite andb_true_r in Hwf.
    assert (Hi : (idx < length done)%nat).
    { unfold index_ok in Hwf. apply andb_true_iff in Hwf as [Hi _]. by apply Nat.ltb_lt. }
    destruct (GetStructElementIntegerValue_index done idx Hwf Hp) as (m & Hm & Hr).
    pose proof (array_coder m Hc (X_nonneg e) ltac:(lia)) as A.
    apply (coder_map id _ _ _ _ _ _ _ _ A).
    + intros v. cbn [element_typed].
      rewrite GetStructElementIntegerValue_prefix, Hm by done. eauto.
    + intros v Hv. cbn [element_typed marshal_element].
      rewrite GetStructElementIntegerValue_prefix, Hm by done. done.
    + intros b. cbn [demarshal_element].
      destruct (Nat.leb_spec (length done) idx); [lia|]. rewrite Hm. simpl.
      by destruct (demarshal_loop _ _ b) as [[]| |].
    + simpl. pose proof (X_nonneg e). nia.
  - assert (Hwf' : index_ok elems (length done) idx = true)
      by (cbn [wf_element] in Hwf; by apply andb_true_iff in Hwf as [? _]).
    assert (Hi : (idx < length done)%nat).
    { unfold index_ok in Hwf'. apply andb_true_iff in Hwf' as [Hi _]. by apply Nat.ltb_lt. }
    destruct (GetStructElementIntegerValue_index done idx Hwf' Hp) as (m & Hm & Hr).
    apply (coder_map id _ _ _ _ _ _ _ _ (union_coder us m Hc)).
    + intros v. cbn [element_typed].
      rewrite GetStructElementIntegerValue_prefix, Hm by done. eauto.
    + intros v Hv. cbn [element_typed marshal_element].
      rewrite GetStructElementIntegerValue_prefix, Hm by done. done.
    + intros b. cbn [demarshal_element].
      destruct (Nat.leb_spec (length done) idx); [lia|]. rewrite Hm. simpl.
      by destruct (GetUnionElement _ m us) as [[[]| |]|].
    + done.
Qed.

Lemma element_prefix done ds e v :
  wf_element (fun _ => true) elems (length done) e = true ->
  element_typed T elems (done ++ ds) e v = element_typed T elems done e v /\
  marshal_element M elems (done ++ ds) e v = marshal_element M elems done e v.
Proof.
  destruct e as [| |nm idx e| |nm idx us| |]; try done; cbn [wf_element].
  all: intros [Hi _]%andb_true_iff; apply andb_true_iff in Hi as [Hi _].
  all: apply Nat.ltb_lt in Hi; cbn [element_typed marshal_element].
  all: by rewrite GetStructElementIntegerValue_prefix.
Qed.

Lemma demarshal_struct_prefix i es done b vs n :
  demarshal_struct D elems i es done b = Done (vs, n) -> exists ds, vs = done ++ ds.
Proof.
  revert i done b vs n. induction es as [|[nm e] es IH]; intros i done b vs n; simpl.
  - intros [= <- <-]. exists []. by rewrite app_nil_r.
  - destruct (demarshal_element D elems done i e b) as [[v cc]| |]; try done. simpl.
    destruct (demarshal_struct _ _ _ _ _ _) as [[vs' m]| |] eqn:E; try done.
    intros [= <- <-]. destruct (IH _ _ _ _ _ E) as [ds ->].
    exists (v :: ds). by rewrite <- app_assoc.
Qed.

Lemma prefix_typed_snoc pre nm e es done v ds :
  elems = pre ++ (nm, e) :: es -> length pre = length done ->
  prefix_typed done -> element_typed T elems ds e v = true ->
  (forall t, e = Simple t -> T e v = simple_typed t v) ->
  prefix_typed (done ++ [v]).
Proof.
  intros He Hl Hp Hv HT j nm' t v' Hj Hv'.
  destruct (decide (j < length done)%nat) as [Hlt|Hge].
  - rewrite lookup_app_l in Hv' by done. by eapply Hp.
  - rewrite lookup_app_r in Hv' by lia.
    destruct (j - length done)%nat as [|k] eqn:Ej; [|done]. injection Hv' as <-.
    rewrite He, lookup_app_r, Hl, Ej in Hj by lia. injection Hj as -> ->.
    by rewrite <- HT.
Qed.

Context (T_simple : forall t v, T (Simple t) v = simple_typed t v).

Lemma struct_max_nonneg es : 0 <= struct_max X elems es.
Proof.
  induction es as [|[nm e] es IH]; cbn; [done|]. unfold struct_max in IH.
  enough (0 <= element_max X elems e) by lia.
  destruct e; cbn [element_max]; auto using union_max_nonneg.
  apply Z.mul_nonneg_nonneg; auto using count_max_nonneg.
Qed.

Lemma struct_coder es pre done :
  elems = pre ++ es -> length pre = length done ->
  wf_struct (fun _ => true) elems (length done) es = true -> prefix_typed done ->
  Forall element_coded es.*2 ->
  Coder (fun ds => struct_typed T elems (done ++ ds) es ds) (struct_max X elems es)
        (fun ds => marshal_struct M elems (done ++ ds) es ds)
        (fun b => let* (vs, n) := demarshal_struct D elems (length done) es done b in
                  Done (drop (length done) vs, n)).
Proof.
  revert pre done. induction es as [|[nm e] es IH]; intros pre done He Hl Hwf Hp Hc.
  { split; simpl.
    - intros [|]; [|done]. intros _. exists []. rewrite drop_all. split_and!; done.
    - intros b v n _. rewrite drop_all. intros [= <- <-]. split_and!; try done. lia.
    - intros b _. eauto. }
  apply Forall_cons in Hc as [Hc Hcs]. cbn [wf_struct] in Hwf.
  apply andb_true_iff in Hwf as [Hwe Hws].
  pose proof (element_coder done [] e Hwe Hp Hc) as CE. rewrite app_nil_r in CE.
  assert (CS : forall v, element_typed T elems done e v = true ->
    Coder (fun ds => struct_typed T elems (done ++ v :: ds) es ds)
          (struct_max X elems es)
          (fun ds => marshal_struct M elems (done ++ v :: ds) es ds)
          (fun b => let* (vs, n) := demarshal_struct D elems (S (length done)) es (done ++ [v]) b in
                    Done (drop (S (length done)) vs, n))).
  { intros v Hv. assert (El : length (done ++ [v]) = S (length done))
      by (rewrite length_app; simpl; lia).
    eapply coder_map with (f := id); [apply (IH (pre ++ [(nm, e)]) (done ++ [v]))| | | |].
    all: rewrite ?El, ?length_app, <- ?app_assoc; try done.
    - simpl. lia.
    - eapply prefix_typed_snoc; [done..|exact Hv|]. intros t ->. apply T_simple.
    - intros ds H. exists ds. cbv beta. by rewrite <- app_assoc.
    - intros ds. cbv beta. by rewrite <- app_assoc.
    - intros b. by destruct (demarshal_struct _ _ _ _ _ _) as [[vs n]| |]. }
  apply (coder_map (fun '(v, ds) => v :: ds) _ _ _ _ _ _ _ _
    (coder_seq _ _ _ _ _ _ _ _ CE (struct_max_nonneg es) CS)).
  - intros [|v ds]; [done|]. cbn [struct_typed]. intros [Hv Hds]%andb_true_iff.
    rewrite (proj1 (element_prefix _ _ _ _ Hwe)) in Hv.
    exists (v, ds). cbn [fst snd]. by rewrite Hv, Hds.
  - intros [v ds] [Hv Hds]%andb_true_iff. cbn [fst snd] in *. cbn [struct_typed].
    destruct (element_prefix done (v :: ds) e v Hwe) as [E1 E2].
    rewrite E1, Hv, Hds. split; [done|]. unfold seq_marshal. cbn [fst snd marshal_struct].
    by rewrite E2.
  - intros b. unfold seq_demarshal. cbn [demarshal_struct].
    destruct (demarshal_element _ _ _ _ _ _) as [[v cc]| |]; try done. simpl.
    destruct (demarshal_struct _ _ _ _ _ _) as [[vs m]| |] eqn:E; try done. simpl.
    destruct (demarshal_struct_prefix _ _ _ _ _ _ E) as [ds ->].
    rewrite <- app_assoc. cbn [app]. rewrite drop_app_length.
    replace (done ++ v :: ds) with ((done ++ [v]) ++ ds) by by rewrite <- app_assoc.
    by rewrite (drop_app_length' (done ++ [v]))
      by (rewrite length_app; simpl; lia).
  - done.
Qed.
End structure.

(** * Correctness of the marshaller *)

Lemma max_size_nonneg t : 0 <= max_size t.
Proof.
  induction t as [t IH] using marshal_type_ind.
  destruct t as [s|nm n e|nm idx e|nm es|nm idx us|m d|]; simpl; try lia.
  - apply Forall_cons in IH as [[IH _] _]. nia.
  - unfold struct_max. generalize es at 1. intros elems.
    induction es as [|[nm' e] es IHes]; cbn; [lia|].
    apply Forall_cons in IH as [[He Hc] IH]. specialize (IHes IH).
    enough (0 <= element_max max_size elems e) by lia.
    destruct e; cbn [element_max]; try done; [|apply union_max_nonneg].
    apply Forall_cons in Hc as [Hc _].
    apply Z.mul_nonneg_nonneg; auto using count_max_nonneg.
Qed.

Lemma wf_struct_elements W elems i es :
  wf_struct W elems i es = true ->
  wf_struct (fun _ => true) elems i es = true /\
  Forall (fun e => match e with
                   | eMtUnion _ _ us => Forall (fun e2 => W e2 = true) us.*2
                   | eMtVarArray _ _ e2 => W e2 = true
                   | _ => W e = true end) es.*2.
Proof.
  revert i. induction es as [|[nm e] es IH]; intros i; cbn [wf_struct fmap list_fmap]; [done|].
  intros [He Hes]%andb_true_iff. destruct (IH _ Hes) as [-> H]. rewrite andb_true_r.
  destruct e; cbn [wf_element] in *; split; try (by constructor); try done.
  - by apply andb_true_iff in He as [-> _].
  - constructor; [|done]. by apply andb_true_iff in He as [_ ?].
  - apply andb_true_iff in He as [-> _]. clear. by induction elements.
  - constructor; [|done]. apply andb_true_iff in He as [_ He].
    apply Forall_fmap, Forall_forall. intros [m e] Hin.
    by apply (proj1 (forallb_forall _ elements) He (m, e)), list_elem_of_In.
Qed.

(** Every well-formed type is coded correctly between hosts of any byte
    orders. *)
Lemma marshal_coder host byte_order t : wf_type t = true ->
  Coder (well_typed t) (max_size t) (Marshal byte_order t) (Demarshal host byte_order t).
Proof.
  induction t as [t IH] using marshal_type_ind. intros Hwf.
  destruct t as [s|nm n e|nm idx e|nm es|nm idx us|m d|]; try done.
  - apply simple_coder.
  - cbn [wf_type] in Hwf. apply andb_true_iff in Hwf as [Hn He]. apply Z.leb_le in Hn.
    apply Forall_cons in IH as [[IH _] _]. cbn [max_size]. rewrite Z.max_r by done.
    exact (array_coder n (IH He) (max_size_nonneg e) Hn).
  - cbn [wf_type] in Hwf. apply andb_true_iff in Hwf as [_ Hwf].
    destruct (wf_struct_elements _ _ _ _ Hwf) as [Hws Hes]. cbn [children] in IH.
    pose proof (struct_coder well_typed max_size (Marshal byte_order)
      (Demarshal host byte_order) max_size_nonneg es (fun _ _ => eq_refl) es [] []
      eq_refl eq_refl Hws) as C. cbn [app length drop] in C.
    assert (Hp : prefix_typed es []) by (intros j; rewrite lookup_nil; done).
    assert (Hc : Forall (element_coded well_typed max_size (Marshal byte_order)
                           (Demarshal host byte_order)) es.*2).
    { eapply Forall_impl; [apply Forall_and; split; [exact IH|exact Hes]|].
      cbv beta. intros e [[He Hch] Hw]. destruct e; cbn [element_coded]; auto.
      - apply Forall_cons in Hch as [Hch _]. auto.
      - eapply Forall_impl; [apply Forall_and; split; [exact Hch|exact Hw]|].
        intros e2 [H1 H2]. auto. }
    apply (coder_map VStruct _ _ _ _ _ _ _ _ (C Hp Hc)).
    + intros []; try done. cbn [well_typed]. eauto.
    + done.
    + intros b. cbn [Demarshal].
      by destruct (demarshal_struct _ _ _ _ _ _) as [[vs n]| |].
    + done.
Qed.

Lemma args_max_nonneg types : 0 <= args_max types.
Proof.
  induction types as [|t types IH]; cbn; [done|]. unfold args_max in IH.
  pose proof (max_size_nonneg t). lia.
Qed.

Lemma args_coder host byte_order types : forallb wf_type types = true ->
  Coder (args_typed types) (args_max types) (MarshalArray byte_order types)
        (DemarshalArray host byte_order types).
Proof.
  induction types as [|t types IH]; intros Hwf.
  { split; simpl.
    - intros [|]; [|done]. intros _. exists []. split_and!; done.
    - intros b v n _ [= <- <-]. split_and!; try done. lia.
    - intros b _. eauto. }
  cbn [forallb] in Hwf. apply andb_true_iff in Hwf as [Ht Hts].
  pose proof (args_max_nonneg types) as Hm.
  apply (coder_map (fun '(v, vs) => v :: vs) _ _ _ _ _ _ _ _
    (coder_seq _ (fun _ => _) _ _ _ (fun _ => _) _ (fun _ => _)
      (marshal_coder host byte_order t Ht) Hm (fun _ _ => IH Hts))).
  - intros [|v vs] H; [done|]. cbn [args_typed] in H.
    apply andb_true_iff in H as [Hv Hvs].
    exists (v, vs). cbn [fst snd]. by rewrite Hv, Hvs.
  - intros [v vs] [Hv Hvs]%andb_true_iff. cbn [fst snd] in *. cbn [args_typed].
    by rewrite Hv, Hvs.
  - intros b. unfold seq_demarshal. cbn [DemarshalArray].
    destruct (Demarshal _ _ _ _) as [[v n]| |]; try done. simpl.
    by destruct (DemarshalArray _ _ _ _) as [[vs m]| |].
  - done.
Qed.
