(* ===== verification/MarshalTypes.v ===== *)
(** The marshalling tables of the HPI data types
    (marshal/marshal_hpi_types.c, marshal/marshal_hpi_types.h).

    One definition per table of the source, in its order: the names the
    header gives to the simple types, the array types, the element tables of
    the structures and unions, and their types.  A union or variable array
    names the index, in the table of the structure it is in, of its modifier
    or element count. *)
From S2P Require Import Prelude SaHpi Marshal.
#[local] Open Scope string_scope.
#[local] Open Scope Z_scope.

(** * Limits and enumerations of SaHpi.h and oHpi.h that the tables use *)

Definition SAHPI_SENSOR_BUFFER_LENGTH : Z := 32.
Definition SAHPI_SENSOR_READING_TYPE_INT64 : Z := 0.
Definition SAHPI_SENSOR_READING_TYPE_UINT64 : Z := 1.
Definition SAHPI_SENSOR_READING_TYPE_FLOAT64 : Z := 2.
Definition SAHPI_SENSOR_READING_TYPE_BUFFER : Z := 3.
Definition SAHPI_CTRL_MAX_STREAM_LENGTH : Z := 4.
Definition SAHPI_CTRL_MAX_OEM_BODY_LENGTH : Z := 255.
Definition SAHPI_CTRL_OEM_CONFIG_LENGTH : Z := 10.
Definition SA_HPI_MAX_NAME_LENGTH : Z := 256.
Definition SAHPI_DIMITEST_PARAM_TYPE_BOOLEAN : Z := 0.
Definition SAHPI_DIMITEST_PARAM_TYPE_INT32 : Z := 1.
Definition SAHPI_DIMITEST_PARAM_TYPE_FLOAT64 : Z := 2.
Definition SAHPI_DIMITEST_PARAM_TYPE_TEXT : Z := 3.
Definition SAHPI_DIMITEST_MAX_PARAMETERS : Z := 10.
Definition SAHPI_DIMITEST_PARAM_NAME_LEN : Z := 20.
Definition SAHPI_DIMITEST_MAX_ENTITIESIMPACTED : Z := 5.
Definition SAHPI_FUMI_SPEC_INFO_NONE : Z := 0.
Definition SAHPI_FUMI_SPEC_INFO_SAF_DEFINED : Z := 1.
Definition SAHPI_FUMI_SPEC_INFO_OEM_DEFINED : Z := 2.
Definition SAHPI_FUMI_MAX_OEM_BODY_LENGTH : Z := 255.
Definition SAHPI_FUMI_MAX_ENTITIES_IMPACTED : Z := 5.
Definition MAX_PLUGIN_NAME_LENGTH : Z := 32.
Definition OH_PATH_PARAM_MAX_LENGTH : Z := 2048.
Definition OHPI_ON_EP : Z := 1.
Definition OHPI_LOG_ON_SEV : Z := 2.
Definition OHPI_EVT_QUEUE_LIMIT : Z := 3.
Definition OHPI_DEL_SIZE_LIMIT : Z := 4.
Definition OHPI_DEL_SAVE : Z := 5.
Definition OHPI_DAT_SIZE_LIMIT : Z := 6.
Definition OHPI_DAT_USER_LIMIT : Z := 7.
Definition OHPI_DAT_SAVE : Z := 8.
Definition OHPI_PATH : Z := 9.
Definition OHPI_VARPATH : Z := 10.
Definition OHPI_CONF : Z := 11.

(** * The table macros of marshal.h *)

Definition dArray (name : string) (nelements : Z) (element : cMarshalType) : cMarshalType :=
  eMtArray name nelements element.
Definition dVarArray (name : string) (nelements_idx : nat) (element : cMarshalType)
  : cMarshalType := eMtVarArray name nelements_idx element.
Definition dStruct (name : string) (elements : list (string * cMarshalType))
  : cMarshalType := eMtStruct name elements.
Definition dStructElement (field : string) (element : cMarshalType)
  : string * cMarshalType := (field, element).
Definition dUnion (mod_idx : nat) (name : string) (elements : list (Z * cMarshalType))
  : cMarshalType := eMtUnion name mod_idx elements.
Definition dUnionElement (mod_ : Z) (element : cMarshalType) : Z * cMarshalType :=
  (mod_, element).

(** * Names of simple types (marshal_hpi_types.h) *)

Definition SaHpiVoidType : cMarshalType := Simple eMtUint8.
Definition SaHpiUint8Type : cMarshalType := Simple eMtUint8.
Definition SaHpiUint16Type : cMarshalType := Simple eMtUint16.
Definition SaHpiUint32Type : cMarshalType := Simple eMtUint32.
Definition SaHpiInt8Type : cMarshalType := Simple eMtInt8.
Definition SaHpiInt16Type : cMarshalType := Simple eMtInt16.
Definition SaHpiInt32Type : cMarshalType := Simple eMtInt32.
Definition SaHpiInt64Type : cMarshalType := Simple eMtInt64.
Definition SaHpiUint64Type : cMarshalType := Simple eMtUint64.
Definition SaHpiFloat32Type : cMarshalType := Simple eMtFloat32.
Definition SaHpiFloat64Type : cMarshalType := Simple eMtFloat64.
Definition SaHpiBoolType : cMarshalType := SaHpiUint8Type.
Definition SaHpiManufacturerIdType : cMarshalType := SaHpiUint32Type.
Definition SaHpiVersionType : cMarshalType := SaHpiUint32Type.
Definition SaErrorType : cMarshalType := SaHpiInt32Type.
Definition SaHpiDomainIdType : cMarshalType := SaHpiUint32Type.
Definition SaHpiSessionIdType : cMarshalType := SaHpiUint32Type.
Definition SaHpiResourceIdType : cMarshalType := SaHpiUint32Type.
Definition SaHpiHsCapabilitiesType : cMarshalType := SaHpiUint32Type.
Definition SaHpiEntryIdType : cMarshalType := SaHpiUint32Type.
Definition SaHpiTimeType : cMarshalType := SaHpiInt64Type.
Definition SaHpiTimeoutType : cMarshalType := SaHpiInt64Type.
Definition SaHpiLoadNumberType : cMarshalType := SaHpiUint32Type.
Definition SaHpiEventLogCapabilitiesType : cMarshalType := SaHpiUint32Type.
Definition SaHpiTextTypeType : cMarshalType := SaHpiUint32Type.
Definition SaHpiLanguageType : cMarshalType := SaHpiUint32Type.
Definition SaHpiInstrumentIdType : cMarshalType := SaHpiUint32Type.
Definition SaHpiEntityTypeType : cMarshalType := SaHpiUint32Type.
Definition SaHpiEntityLocationType : cMarshalType := SaHpiUint32Type.
Definition SaHpiEventCategoryType : cMarshalType := SaHpiUint8Type.
Definition SaHpiEventStateType : cMarshalType := SaHpiUint16Type.
Definition SaHpiSensorNumType : cMarshalType := SaHpiUint32Type.
Definition SaHpiSensorTypeType : cMarshalType := SaHpiUint32Type.
Definition SaHpiSensorReadingTypeType : cMarshalType := SaHpiUint32Type.
Definition SaHpiSensorRangeFlagsType : cMarshalType := SaHpiUint8Type.
Definition SaHpiSensorUnitsType : cMarshalType := SaHpiUint32Type.
Definition SaHpiSensorModUnitUseType : cMarshalType := SaHpiUint32Type.
Definition SaHpiSensorThdMaskType : cMarshalType := SaHpiUint8Type.
Definition SaHpiSensorEventCtrlType : cMarshalType := SaHpiUint32Type.
Definition SaHpiCtrlNumType : cMarshalType := SaHpiUint32Type.
Definition SaHpiCtrlTypeType : cMarshalType := SaHpiUint32Type.
Definition SaHpiCtrlStateDigitalType : cMarshalType := SaHpiUint32Type.
Definition SaHpiCtrlStateDiscreteType : cMarshalType := SaHpiUint32Type.
Definition SaHpiCtrlStateAnalogType : cMarshalType := SaHpiInt32Type.
Definition SaHpiCtrlModeType : cMarshalType := SaHpiUint32Type.
Definition SaHpiTxtLineNumType : cMarshalType := SaHpiUint8Type.
Definition SaHpiCtrlOutputTypeType : cMarshalType := SaHpiUint32Type.
Definition SaHpiIdrIdType : cMarshalType := SaHpiUint32Type.
Definition SaHpiIdrAreaTypeType : cMarshalType := SaHpiUint32Type.
Definition SaHpiIdrFieldTypeType : cMarshalType := SaHpiUint32Type.
Definition SaHpiWatchdogNumType : cMarshalType := SaHpiUint32Type.
Definition SaHpiWatchdogActionType : cMarshalType := SaHpiUint32Type.
Definition SaHpiWatchdogActionEventType : cMarshalType := SaHpiUint32Type.
Definition SaHpiWatchdogPretimerInterruptType : cMarshalType := SaHpiUint32Type.
Definition SaHpiWatchdogTimerUseType : cMarshalType := SaHpiUint32Type.
Definition SaHpiWatchdogExpFlagsType : cMarshalType := SaHpiUint8Type.
Definition SaHpiAnnunciatorNumType : cMarshalType := SaHpiUint32Type.
Definition SaHpiStatusCondTypeType : cMarshalType := SaHpiUint32Type.
Definition SaHpiAnnunciatorModeType : cMarshalType := SaHpiUint32Type.
Definition SaHpiAnnunciatorTypeType : cMarshalType := SaHpiUint32Type.
Definition SaHpiDimiNumType : cMarshalType := SaHpiUint32Type.
Definition SaHpiDimiTestNumType : cMarshalType := SaHpiUint32Type.
Definition SaHpiDimiTotalTestsType : cMarshalType := SaHpiUint32Type.
Definition SaHpiDimiTestServiceImpactType : cMarshalType := SaHpiUint32Type.
Definition SaHpiDimiTestCapabilityType : cMarshalType := SaHpiUint32Type.
Definition SaHpiDimiTestParamTypeType : cMarshalType := SaHpiUint32Type.
Definition SaHpiDimiReadyType : cMarshalType := SaHpiUint32Type.
Definition SaHpiDimiTestPercentCompletedType : cMarshalType := SaHpiUint32Type.
Definition SaHpiDimiTestRunStatusType : cMarshalType := SaHpiUint32Type.
Definition SaHpiDimiTestErrCodeType : cMarshalType := SaHpiUint32Type.
Definition SaHpiFumiNumType : cMarshalType := SaHpiUint32Type.
Definition SaHpiBankNumType : cMarshalType := SaHpiUint8Type.
Definition SaHpiFumiProtocolType : cMarshalType := SaHpiUint32Type.
Definition SaHpiFumiCapabilityType : cMarshalType := SaHpiUint32Type.
Definition SaHpiFumiUpgradeStatusType : cMarshalType := SaHpiUint32Type.
Definition SaHpiFumiSourceStatusType : cMarshalType := SaHpiUint32Type.
Definition SaHpiFumiBankStateType : cMarshalType := SaHpiUint32Type.
Definition SaHpiFumiSafDefinedSpecIdType : cMarshalType := SaHpiUint32Type.
Definition SaHpiFumiSpecInfoTypeType : cMarshalType := SaHpiUint32Type.
Definition SaHpiFumiServiceImpactType : cMarshalType := SaHpiUint32Type.
Definition SaHpiFumiLogicalBankStateFlagsType : cMarshalType := SaHpiUint32Type.
Definition SaHpiRdrTypeType : cMarshalType := SaHpiUint32Type.
Definition SaHpiHsIndicatorStateType : cMarshalType := SaHpiUint32Type.
Definition SaHpiHsActionType : cMarshalType := SaHpiUint32Type.
Definition SaHpiHsStateType : cMarshalType := SaHpiUint32Type.
Definition SaHpiSeverityType : cMarshalType := SaHpiUint32Type.
Definition SaHpiResourceEventTypeType : cMarshalType := SaHpiUint32Type.
Definition SaHpiDomainEventTypeType : cMarshalType := SaHpiUint32Type.
Definition SaHpiSensorOptionalDataType : cMarshalType := SaHpiUint8Type.
Definition SaHpiSensorEnableOptDataType : cMarshalType := SaHpiUint8Type.
Definition SaHpiHsCauseOfStateChangeType : cMarshalType := SaHpiUint32Type.
Definition SaHpiSwEventTypeType : cMarshalType := SaHpiUint32Type.
Definition SaHpiEventTypeType : cMarshalType := SaHpiUint32Type.
Definition SaHpiEvtQueueStatusType : cMarshalType := SaHpiUint32Type.
Definition SaHpiParmActionType : cMarshalType := SaHpiUint32Type.
Definition SaHpiResetActionType : cMarshalType := SaHpiUint32Type.
Definition SaHpiPowerStateType : cMarshalType := SaHpiUint32Type.
Definition SaHpiCapabilitiesType : cMarshalType := SaHpiUint32Type.
Definition SaHpiDomainCapabilitiesType : cMarshalType := SaHpiUint32Type.
Definition SaHpiAlarmIdType : cMarshalType := SaHpiUint32Type.
Definition SaHpiSelOverflowActionType : cMarshalType := SaHpiUint32Type.
Definition SaHpiEventLogEntryIdType : cMarshalType := SaHpiUint32Type.
Definition oHpiHandlerIdType : cMarshalType := SaHpiUint32Type.
Definition oHpiGlobalParamTypeType : cMarshalType := SaHpiUint32Type.

(** * Tables (marshal_hpi_types.c) *)

Definition SaHpiTextBufferDataArray : cMarshalType :=
  dArray "SaHpiTextBufferDataArray" (Z.of_nat SAHPI_MAX_TEXT_BUFFER_LENGTH) SaHpiUint8Type.
Definition SaHpiTextBufferElements : list (string * cMarshalType) :=
  [dStructElement "DataType" SaHpiTextTypeType;
   dStructElement "Language" SaHpiLanguageType;
   dStructElement "DataLength" SaHpiUint8Type;
   dStructElement "Data" SaHpiTextBufferDataArray].
Definition SaHpiTextBufferType : cMarshalType := dStruct "SaHpiTextBufferElements" SaHpiTextBufferElements.
Definition oHpiHandlerConfigParamTypeNameArray : cMarshalType :=
  dArray "oHpiHandlerConfigParamTypeNameArray" (Z.of_nat SAHPI_MAX_TEXT_BUFFER_LENGTH) SaHpiUint8Type.
Definition oHpiHandlerConfigParamTypeValueArray : cMarshalType :=
  dArray "oHpiHandlerConfigParamTypeValueArray" (Z.of_nat SAHPI_MAX_TEXT_BUFFER_LENGTH) SaHpiUint8Type.
Definition oHpiHandlerConfigParamTypeElements : list (string * cMarshalType) :=
  [dStructElement "Name" oHpiHandlerConfigParamTypeNameArray;
   dStructElement "Value" oHpiHandlerConfigParamTypeValueArray].
Definition oHpiHandlerConfigParamType : cMarshalType := dStruct "oHpiHandlerConfigParamTypeElements" oHpiHandlerConfigParamTypeElements.
Definition HandlerConfigParamsArray : cMarshalType :=
  dVarArray "HandlerConfigParamsArray" 0 oHpiHandlerConfigParamType.
Definition oHpiHandlerConfigTypeElements : list (string * cMarshalType) :=
  [dStructElement "NumberOfParams" SaHpiUint8Type;
   dStructElement "Params" HandlerConfigParamsArray].
Definition oHpiHandlerConfigType : cMarshalType := dStruct "oHpiHandlerConfigTypeElements" oHpiHandlerConfigTypeElements.
Definition SaHpiEntityElements : list (string * cMarshalType) :=
  [dStructElement "EntityType" SaHpiEntityTypeType;
   dStructElement "EntityLocation" SaHpiEntityLocationType].
Definition SaHpiEntityType : cMarshalType := dStruct "SaHpiEntityElements" SaHpiEntityElements.
Definition SaHpiEntityPathEntryArray : cMarshalType :=
  dArray "SaHpiEntityPathEntryArray" (Z.of_nat SAHPI_MAX_ENTITY_PATH) SaHpiEntityType.
Definition SaHpiEntityPathElements : list (string * cMarshalType) :=
  [dStructElement "Entry" SaHpiEntityPathEntryArray].
Definition SaHpiEntityPathType : cMarshalType := dStruct "SaHpiEntityPathElements" SaHpiEntityPathElements.
Definition SaHpiSensorInterpretedUnionBufferArray : cMarshalType :=
  dArray "SaHpiSensorInterpretedUnionBufferArray" SAHPI_SENSOR_BUFFER_LENGTH SaHpiUint8Type.
Definition SaHpiSensorReadingUnionElements : list (Z * cMarshalType) :=
  [dUnionElement SAHPI_SENSOR_READING_TYPE_INT64 SaHpiInt64Type;
   dUnionElement SAHPI_SENSOR_READING_TYPE_UINT64 SaHpiUint64Type;
   dUnionElement SAHPI_SENSOR_READING_TYPE_FLOAT64 SaHpiFloat64Type;
   dUnionElement SAHPI_SENSOR_READING_TYPE_BUFFER SaHpiSensorInterpretedUnionBufferArray].
Definition SaHpiSensorReadingUnionType : cMarshalType := dUnion 1 "SaHpiSensorReadingUnionElements" SaHpiSensorReadingUnionElements.
Definition SaHpiSensorReadingTElements : list (string * cMarshalType) :=
  [dStructElement "IsSupported" SaHpiBoolType;
   dStructElement "Type" SaHpiSensorReadingTypeType;
   dStructElement "Value" SaHpiSensorReadingUnionType].
Definition SaHpiSensorReadingType : cMarshalType := dStruct "SaHpiSensorReadingTElements" SaHpiSensorReadingTElements.
Definition SaHpiSensorThresholdsElements : list (string * cMarshalType) :=
  [dStructElement "LowCritical" SaHpiSensorReadingType;
   dStructElement "LowMajor" SaHpiSensorReadingType;
   dStructElement "LowMinor" SaHpiSensorReadingType;
   dStructElement "UpCritical" SaHpiSensorReadingType;
   dStructElement "UpMajor" SaHpiSensorReadingType;
   dStructElement "UpMinor" SaHpiSensorReadingType;
   dStructElement "PosThdHysteresis" SaHpiSensorReadingType;
   dStructElement "NegThdHysteresis" SaHpiSensorReadingType].
Definition SaHpiSensorThresholdsType : cMarshalType := dStruct "SaHpiSensorThresholdsElements" SaHpiSensorThresholdsElements.
Definition SaHpiSensorRangeElements : list (string * cMarshalType) :=
  [dStructElement "Flags" SaHpiSensorRangeFlagsType;
   dStructElement "Max" SaHpiSensorReadingType;
   dStructElement "Min" SaHpiSensorReadingType;
   dStructElement "Nominal" SaHpiSensorReadingType;
   dStructElement "NormalMax" SaHpiSensorReadingType;
   dStructElement "NormalMin" SaHpiSensorReadingType].
Definition SaHpiSensorRangeType : cMarshalType := dStruct "SaHpiSensorRangeElements" SaHpiSensorRangeElements.
Definition SaHpiSensorDataFormatElements : list (string * cMarshalType) :=
  [dStructElement "IsSupported" SaHpiBoolType;
   dStructElement "ReadingType" SaHpiSensorReadingTypeType;
   dStructElement "BaseUnits" SaHpiSensorUnitsType;
   dStructElement "ModifierUnits" SaHpiSensorUnitsType;
   dStructElement "ModifierUse" SaHpiSensorModUnitUseType;
   dStructElement "Percentage" SaHpiBoolType;
   dStructElement "Range" SaHpiSensorRangeType;
   dStructElement "AccuracyFactor" SaHpiFloat64Type].
Definition SaHpiSensorDataFormatType : cMarshalType := dStruct "SaHpiSensorDataFormatElements" SaHpiSensorDataFormatElements.
Definition SaHpiSensorThdDefnElements : list (string * cMarshalType) :=
  [dStructElement "IsAccessible" SaHpiBoolType;
   dStructElement "ReadThold" SaHpiSensorThdMaskType;
   dStructElement "WriteThold" SaHpiSensorThdMaskType;
   dStructElement "Nonlinear" SaHpiBoolType].
Definition SaHpiSensorThdDefnType : cMarshalType := dStruct "SaHpiSensorThdDefnElements" SaHpiSensorThdDefnElements.
Definition SaHpiSensorRecElements : list (string * cMarshalType) :=
  [dStructElement "Num" SaHpiSensorNumType;
   dStructElement "Type" SaHpiSensorTypeType;
   dStructElement "Category" SaHpiEventCategoryType;
   dStructElement "EnableCtrl" SaHpiBoolType;
   dStructElement "EventCtrl" SaHpiSensorEventCtrlType;
   dStructElement "Events" SaHpiEventStateType;
   dStructElement "DataFormat" SaHpiSensorDataFormatType;
   dStructElement "ThresholdDefn" SaHpiSensorThdDefnType;
   dStructElement "Oem" SaHpiUint32Type].
Definition SaHpiSensorRecType : cMarshalType := dStruct "SaHpiSensorRecElements" SaHpiSensorRecElements.
Definition SaHpiCtrlStateStreamArray : cMarshalType :=
  dArray "SaHpiCtrlStateStreamArray" SAHPI_CTRL_MAX_STREAM_LENGTH SaHpiUint8Type.
Definition SaHpiCtrlStateStreamElements : list (string * cMarshalType) :=
  [dStructElement "Repeat" SaHpiBoolType;
   dStructElement "StreamLength" SaHpiUint32Type;
   dStructElement "Stream" SaHpiCtrlStateStreamArray].
Definition SaHpiCtrlStateStreamType : cMarshalType := dStruct "SaHpiCtrlStateStreamElements" SaHpiCtrlStateStreamElements.
Definition SaHpiCtrlStateTextElements : list (string * cMarshalType) :=
  [dStructElement "Line" SaHpiTxtLineNumType;
   dStructElement "Text" SaHpiTextBufferType].
Definition SaHpiCtrlStateTextType : cMarshalType := dStruct "SaHpiCtrlStateTextElements" SaHpiCtrlStateTextElements.
Definition SaHpiCtrlStateOemBodyArray : cMarshalType :=
  dArray "SaHpiCtrlStateOemBodyArray" SAHPI_CTRL_MAX_OEM_BODY_LENGTH SaHpiUint8Type.
Definition SaHpiCtrlStateOemElements : list (string * cMarshalType) :=
  [dStructElement "MId" SaHpiManufacturerIdType;
   dStructElement "BodyLength" SaHpiUint8Type;
   dStructElement "Body" SaHpiCtrlStateOemBodyArray].
Definition SaHpiCtrlStateOemType : cMarshalType := dStruct "SaHpiCtrlStateOemElements" SaHpiCtrlStateOemElements.
Definition SaHpiCtrlStateUnionElements : list (Z * cMarshalType) :=
  [dUnionElement SAHPI_CTRL_TYPE_DIGITAL SaHpiCtrlStateDigitalType;
   dUnionElement SAHPI_CTRL_TYPE_DISCRETE SaHpiCtrlStateDiscreteType;
   dUnionElement SAHPI_CTRL_TYPE_ANALOG SaHpiCtrlStateAnalogType;
   dUnionElement SAHPI_CTRL_TYPE_STREAM SaHpiCtrlStateStreamType;
   dUnionElement SAHPI_CTRL_TYPE_TEXT SaHpiCtrlStateTextType;
   dUnionElement SAHPI_CTRL_TYPE_OEM SaHpiCtrlStateOemType].
Definition SaHpiCtrlStateUnionType : cMarshalType := dUnion 0 "SaHpiCtrlStateUnionElements" SaHpiCtrlStateUnionElements.
Definition SaHpiCtrlStateElements : list (string * cMarshalType) :=
  [dStructElement "Type" SaHpiCtrlTypeType;
   dStructElement "StateUnion" SaHpiCtrlStateUnionType].
Definition SaHpiCtrlStateType : cMarshalType := dStruct "SaHpiCtrlStateElements" SaHpiCtrlStateElements.
Definition SaHpiCtrlRecDigitalElements : list (string * cMarshalType) :=
  [dStructElement "Default" SaHpiCtrlStateDigitalType].
Definition SaHpiCtrlRecDigitalType : cMarshalType := dStruct "SaHpiCtrlRecDigitalElements" SaHpiCtrlRecDigitalElements.
Definition SaHpiCtrlRecDiscreteElements : list (string * cMarshalType) :=
  [dStructElement "Default" SaHpiCtrlStateDiscreteType].
Definition SaHpiCtrlRecDiscreteType : cMarshalType := dStruct "SaHpiCtrlRecDiscreteElements" SaHpiCtrlRecDiscreteElements.
Definition SaHpiCtrlRecAnalogElements : list (string * cMarshalType) :=
  [dStructElement "Min" SaHpiCtrlStateAnalogType;
   dStructElement "Max" SaHpiCtrlStateAnalogType;
   dStructElement "Default" SaHpiCtrlStateAnalogType].
Definition SaHpiCtrlRecAnalogType : cMarshalType := dStruct "SaHpiCtrlRecAnalogElements" SaHpiCtrlRecAnalogElements.
Definition SaHpiCtrlRecStreamElements : list (string * cMarshalType) :=
  [dStructElement "Default" SaHpiCtrlStateStreamType].
Definition SaHpiCtrlRecStreamType : cMarshalType := dStruct "SaHpiCtrlRecStreamElements" SaHpiCtrlRecStreamElements.
Definition SaHpiCtrlRecTextElements : list (string * cMarshalType) :=
  [dStructElement "MaxChars" SaHpiUint8Type;
   dStructElement "MaxLines" SaHpiUint8Type;
   dStructElement "Language" SaHpiLanguageType;
   dStructElement "DataType" SaHpiTextTypeType;
   dStructElement "Default" SaHpiCtrlStateTextType].
Definition SaHpiCtrlRecTextType : cMarshalType := dStruct "SaHpiCtrlRecTextElements" SaHpiCtrlRecTextElements.
Definition SaHpiCtrlRecOemConfigDataArray : cMarshalType :=
  dArray "SaHpiCtrlRecOemConfigDataArray" SAHPI_CTRL_OEM_CONFIG_LENGTH SaHpiUint8Type.
Definition SaHpiCtrlRecOemElements : list (string * cMarshalType) :=
  [dStructElement "MId" SaHpiManufacturerIdType;
   dStructElement "ConfigData" SaHpiCtrlRecOemConfigDataArray;
   dStructElement "Default" SaHpiCtrlStateOemType].
Definition SaHpiCtrlRecOemType : cMarshalType := dStruct "SaHpiCtrlRecOemElements" SaHpiCtrlRecOemElements.
Definition SaHpiCtrlRecUnionElements : list (Z * cMarshalType) :=
  [dUnionElement SAHPI_CTRL_TYPE_DIGITAL SaHpiCtrlRecDigitalType;
   dUnionElement SAHPI_CTRL_TYPE_DISCRETE SaHpiCtrlRecDiscreteType;
   dUnionElement SAHPI_CTRL_TYPE_ANALOG SaHpiCtrlRecAnalogType;
   dUnionElement SAHPI_CTRL_TYPE_STREAM SaHpiCtrlRecStreamType;
   dUnionElement SAHPI_CTRL_TYPE_TEXT SaHpiCtrlRecTextType;
   dUnionElement SAHPI_CTRL_TYPE_OEM SaHpiCtrlRecOemType].
Definition SaHpiCtrlRecUnionType : cMarshalType := dUnion 2 "SaHpiCtrlRecUnionElements" SaHpiCtrlRecUnionElements.
Definition SaHpiCtrlDefaultModeElements : list (string * cMarshalType) :=
  [dStructElement "Mode" SaHpiCtrlModeType;
   dStructElement "ReadOnly" SaHpiBoolType].
Definition SaHpiCtrlDefaultModeType : cMarshalType := dStruct "SaHpiCtrlDefaultModeElements" SaHpiCtrlDefaultModeElements.
Definition SaHpiCtrlRecElements : list (string * cMarshalType) :=
  [dStructElement "Num" SaHpiCtrlNumType;
   dStructElement "OutputType" SaHpiCtrlOutputTypeType;
   dStructElement "Type" SaHpiCtrlTypeType;
   dStructElement "TypeUnion" SaHpiCtrlRecUnionType;
   dStructElement "DefaultMode" SaHpiCtrlDefaultModeType;
   dStructElement "WriteOnly" SaHpiBoolType;
   dStructElement "Oem" SaHpiUint32Type].
Definition SaHpiCtrlRecType : cMarshalType := dStruct "SaHpiCtrlRecElements" SaHpiCtrlRecElements.
Definition SaHpiIdrFieldTElements : list (string * cMarshalType) :=
  [dStructElement "AreaId" SaHpiEntryIdType;
   dStructElement "FieldId" SaHpiEntryIdType;
   dStructElement "Type" SaHpiIdrFieldTypeType;
   dStructElement "ReadOnly" SaHpiBoolType;
   dStructElement "Field" SaHpiTextBufferType].
Definition SaHpiIdrFieldType : cMarshalType := dStruct "SaHpiIdrFieldTElements" SaHpiIdrFieldTElements.
Definition SaHpiIdrAreaHeaderTElements : list (string * cMarshalType) :=
  [dStructElement "AreaId" SaHpiEntryIdType;
   dStructElement "Type" SaHpiIdrAreaTypeType;
   dStructElement "ReadOnly" SaHpiBoolType;
   dStructElement "NumFields" SaHpiUint32Type].
Definition SaHpiIdrAreaHeaderType : cMarshalType := dStruct "SaHpiIdrAreaHeaderTElements" SaHpiIdrAreaHeaderTElements.
Definition SaHpiIdrInfoTElements : list (string * cMarshalType) :=
  [dStructElement "IdrId" SaHpiIdrIdType;
   dStructElement "UpdateCount" SaHpiUint32Type;
   dStructElement "ReadOnly" SaHpiBoolType;
   dStructElement "NumAreas" SaHpiUint32Type].
Definition SaHpiIdrInfoType : cMarshalType := dStruct "SaHpiIdrInfoTElements" SaHpiIdrInfoTElements.
Definition SaHpiInventoryRecElements : list (string * cMarshalType) :=
  [dStructElement "IdrId" SaHpiUint32Type;
   dStructElement "Persistent" SaHpiBoolType;
   dStructElement "Oem" SaHpiUint32Type].
Definition SaHpiInventoryRecType : cMarshalType := dStruct "SaHpiInventoryRecElements" SaHpiInventoryRecElements.
Definition SaHpiWatchdogElements : list (string * cMarshalType) :=
  [dStructElement "Log" SaHpiBoolType;
   dStructElement "Running" SaHpiBoolType;
   dStructElement "TimerUse" SaHpiWatchdogTimerUseType;
   dStructElement "TimerAction" SaHpiWatchdogActionType;
   dStructElement "PretimerInterrupt" SaHpiWatchdogPretimerInterruptType;
   dStructElement "PreTimeoutInterval" SaHpiUint32Type;
   dStructElement "TimerUseExpFlags" SaHpiWatchdogExpFlagsType;
   dStructElement "InitialCount" SaHpiUint32Type;
   dStructElement "PresentCount" SaHpiUint32Type].
Definition SaHpiWatchdogType : cMarshalType := dStruct "SaHpiWatchdogElements" SaHpiWatchdogElements.
Definition SaHpiWatchdogRecElements : list (string * cMarshalType) :=
  [dStructElement "WatchdogNum" SaHpiWatchdogNumType;
   dStructElement "Oem" SaHpiUint32Type].
Definition SaHpiWatchdogRecType : cMarshalType := dStruct "SaHpiWatchdogRecElements" SaHpiWatchdogRecElements.
Definition SaHpiNameDataArray : cMarshalType :=
  dArray "SaHpiNameDataArray" SA_HPI_MAX_NAME_LENGTH SaHpiUint8Type.
Definition SaHpiNameElements : list (string * cMarshalType) :=
  [dStructElement "Length" SaHpiUint16Type;
   dStructElement "Value" SaHpiNameDataArray].
Definition SaHpiNameType : cMarshalType := dStruct "SaHpiNameElements" SaHpiNameElements.
Definition SaHpiConditionTypeElements : list (string * cMarshalType) :=
  [dStructElement "Type" SaHpiStatusCondTypeType;
   dStructElement "Entity" SaHpiEntityPathType;
   dStructElement "DomainId" SaHpiDomainIdType;
   dStructElement "ResourceId" SaHpiResourceIdType;
   dStructElement "SensorNum" SaHpiSensorNumType;
   dStructElement "EventState" SaHpiEventStateType;
   dStructElement "Name" SaHpiNameType;
   dStructElement "Mid" SaHpiManufacturerIdType;
   dStructElement "Data" SaHpiTextBufferType].
Definition SaHpiConditionType : cMarshalType := dStruct "SaHpiConditionTypeElements" SaHpiConditionTypeElements.
Definition SaHpiAnnouncementTypeElements : list (string * cMarshalType) :=
  [dStructElement "EntryId" SaHpiEntryIdType;
   dStructElement "Timestamp" SaHpiTimeType;
   dStructElement "AddedByUser" SaHpiBoolType;
   dStructElement "Severity" SaHpiSeverityType;
   dStructElement "Acknowledged" SaHpiBoolType;
   dStructElement "StatusCond" SaHpiConditionType].
Definition SaHpiAnnouncementType : cMarshalType := dStruct "SaHpiAnnouncementTypeElements" SaHpiAnnouncementTypeElements.
Definition SaHpiAnnunciatorRecElements : list (string * cMarshalType) :=
  [dStructElement "AnnunciatorNum" SaHpiAnnunciatorNumType;
   dStructElement "AnnunciatorType" SaHpiAnnunciatorTypeType;
   dStructElement "ModeReadOnly" SaHpiBoolType;
   dStructElement "MaxConditions" SaHpiUint32Type;
   dStructElement "Oem" SaHpiUint32Type].
Definition SaHpiAnnunciatorRecType : cMarshalType := dStruct "SaHpiAnnunciatorRecElements" SaHpiAnnunciatorRecElements.
Definition SaHpiDimiInfoElements : list (string * cMarshalType) :=
  [dStructElement "NumberOfTests" SaHpiDimiTotalTestsType;
   dStructElement "TestNumUpdateCounter" SaHpiUint32Type].
Definition SaHpiDimiInfoType : cMarshalType := dStruct "SaHpiDimiInfoElements" SaHpiDimiInfoElements.
Definition SaHpiDimiTestParameterValueUnionTypeElements : list (Z * cMarshalType) :=
  [dUnionElement SAHPI_DIMITEST_PARAM_TYPE_INT32 SaHpiInt32Type;
   dUnionElement SAHPI_DIMITEST_PARAM_TYPE_FLOAT64 SaHpiFloat64Type;
   dUnionElement SAHPI_DIMITEST_PARAM_TYPE_BOOLEAN SaHpiFloat64Type;
   dUnionElement SAHPI_DIMITEST_PARAM_TYPE_TEXT SaHpiFloat64Type].
Definition SaHpiDimiTestParameterValueUnionType : cMarshalType := dUnion 2 "SaHpiDimiTestParameterValueUnionTypeElements" SaHpiDimiTestParameterValueUnionTypeElements.
Definition SaHpiDimiTestParamValue2TypeElements : list (Z * cMarshalType) :=
  [dUnionElement SAHPI_DIMITEST_PARAM_TYPE_INT32 SaHpiInt32Type;
   dUnionElement SAHPI_DIMITEST_PARAM_TYPE_FLOAT64 SaHpiFloat64Type;
   dUnionElement SAHPI_DIMITEST_PARAM_TYPE_BOOLEAN SaHpiBoolType;
   dUnionElement SAHPI_DIMITEST_PARAM_TYPE_TEXT SaHpiTextBufferType].
Definition SaHpiDimiTestParamValue2Type : cMarshalType := dUnion 2 "SaHpiDimiTestParamValue2TypeElements" SaHpiDimiTestParamValue2TypeElements.
Definition SaHpiDimiTestParamValue1TypeElements : list (Z * cMarshalType) :=
  [dUnionElement SAHPI_DIMITEST_PARAM_TYPE_INT32 SaHpiInt32Type;
   dUnionElement SAHPI_DIMITEST_PARAM_TYPE_FLOAT64 SaHpiFloat64Type;
   dUnionElement SAHPI_DIMITEST_PARAM_TYPE_BOOLEAN SaHpiBoolType;
   dUnionElement SAHPI_DIMITEST_PARAM_TYPE_TEXT SaHpiTextBufferType].
Definition SaHpiDimiTestParamValue1Type : cMarshalType := dUnion 1 "SaHpiDimiTestParamValue1TypeElements" SaHpiDimiTestParamValue1TypeElements.
Definition ParamNameArray : cMarshalType :=
  dArray "ParamNameArray" SAHPI_DIMITEST_PARAM_NAME_LEN SaHpiUint8Type.
Definition SaHpiDimiTestParamsDefinitionTypeElements : list (string * cMarshalType) :=
  [dStructElement "ParamName" ParamNameArray;
   dStructElement "ParamInfo" SaHpiTextBufferType;
   dStructElement "ParamType" SaHpiDimiTestParamTypeType;
   dStructElement "MinValue" SaHpiDimiTestParameterValueUnionType;
   dStructElement "MaxValue" SaHpiDimiTestParameterValueUnionType;
   dStructElement "DefaultParam" SaHpiDimiTestParamValue2Type].
Definition SaHpiDimiTestParamsDefinitionType : cMarshalType := dStruct "SaHpiDimiTestParamsDefinitionTypeElements" SaHpiDimiTestParamsDefinitionTypeElements.
Definition SaHpiDimiTestAffectedEntityTypeElements : list (string * cMarshalType) :=
  [dStructElement "EntityImpacted" SaHpiEntityPathType;
   dStructElement "ServiceImpact" SaHpiDimiTestServiceImpactType].
Definition SaHpiDimiTestAffectedEntityType : cMarshalType := dStruct "SaHpiDimiTestAffectedEntityTypeElements" SaHpiDimiTestAffectedEntityTypeElements.
Definition EntitiesImpactedArray : cMarshalType :=
  dArray "EntitiesImpactedArray" SAHPI_DIMITEST_MAX_ENTITIESIMPACTED SaHpiDimiTestAffectedEntityType.
Definition TestParametersArray : cMarshalType :=
  dArray "TestParametersArray" SAHPI_DIMITEST_MAX_PARAMETERS SaHpiDimiTestParamsDefinitionType.
Definition SaHpiDimiTestTypeElements : list (string * cMarshalType) :=
  [dStructElement "TestName" SaHpiTextBufferType;
   dStructElement "ServiceImpact" SaHpiDimiTestServiceImpactType;
   dStructElement "EntitiesImpacted" EntitiesImpactedArray;
   dStructElement "NeedServiceOS" SaHpiBoolType;
   dStructElement "ServiceOS" SaHpiTextBufferType;
   dStructElement "ExpectedRunDuration" SaHpiTimeType;
   dStructElement "TestCapabilities" SaHpiDimiTestCapabilityType;
   dStructElement "TestParameters" TestParametersArray].
Definition SaHpiDimiTestType : cMarshalType := dStruct "SaHpiDimiTestTypeElements" SaHpiDimiTestTypeElements.
Definition SaHpiDimiTestResultsTypeElements : list (string * cMarshalType) :=
  [dStructElement "ResultTimeStamp" SaHpiTimeType;
   dStructElement "RunDuration" SaHpiTimeoutType;
   dStructElement "LastRunStatus" SaHpiDimiTestRunStatusType;
   dStructElement "TestErrorCode" SaHpiDimiTestErrCodeType;
   dStructElement "TestResultString" SaHpiTextBufferType;
   dStructElement "TestResultStringIsURI" SaHpiBoolType].
Definition SaHpiDimiTestResultsType : cMarshalType := dStruct "SaHpiDimiTestResultsTypeElements" SaHpiDimiTestResultsTypeElements.
Definition SaHpiDimiTestVariableParamsTypeElements : list (string * cMarshalType) :=
  [dStructElement "ParamName" ParamNameArray;
   dStructElement "ParamType" SaHpiDimiTestParamTypeType;
   dStructElement "Value" SaHpiDimiTestParamValue1Type].
Definition SaHpiDimiTestVariableParamsType : cMarshalType := dStruct "SaHpiDimiTestVariableParamsTypeElements" SaHpiDimiTestVariableParamsTypeElements.
Definition ParamsListArray : cMarshalType :=
  dVarArray "ParamsListArray" 0 SaHpiDimiTestVariableParamsType.
Definition SaHpiDimiTestVariableParamsListTypeElements : list (string * cMarshalType) :=
  [dStructElement "NumberOfParams" SaHpiUint8Type;
   dStructElement "ParamsList" ParamsListArray].
Definition SaHpiDimiTestVariableParamsListType : cMarshalType := dStruct "SaHpiDimiTestVariableParamsListTypeElements" SaHpiDimiTestVariableParamsListTypeElements.
Definition SaHpiDimiRecElements : list (string * cMarshalType) :=
  [dStructElement "DimiNum" SaHpiDimiNumType;
   dStructElement "Oem" SaHpiUint32Type].
Definition SaHpiDimiRecType : cMarshalType := dStruct "SaHpiDimiRecElements" SaHpiDimiRecElements.
Definition SaHpiFumiSafDefinedSpecInfoElements : list (string * cMarshalType) :=
  [dStructElement "SpecID" SaHpiFumiSafDefinedSpecIdType;
   dStructElement "RevisionID" SaHpiUint32Type].
Definition SaHpiFumiSafDefinedSpecInfoType : cMarshalType := dStruct "SaHpiFumiSafDefinedSpecInfoElements" SaHpiFumiSafDefinedSpecInfoElements.
Definition SaHpiFumiOemDefinedSpecInfoBodyArray : cMarshalType :=
  dArray "SaHpiFumiOemDefinedSpecInfoBodyArray" SAHPI_FUMI_MAX_OEM_BODY_LENGTH SaHpiUint8Type.
Definition SaHpiFumiOemDefinedSpecInfoElements : list (string * cMarshalType) :=
  [dStructElement "Mid" SaHpiManufacturerIdType;
   dStructElement "BodyLength" SaHpiUint8Type;
   dStructElement "Body" SaHpiFumiOemDefinedSpecInfoBodyArray].
Definition SaHpiFumiOemDefinedSpecInfoType : cMarshalType := dStruct "SaHpiFumiOemDefinedSpecInfoElements" SaHpiFumiOemDefinedSpecInfoElements.
Definition SaHpiFumiSpecInfoTypeUnionElements : list (Z * cMarshalType) :=
  [dUnionElement SAHPI_FUMI_SPEC_INFO_NONE SaHpiVoidType;
   dUnionElement SAHPI_FUMI_SPEC_INFO_SAF_DEFINED SaHpiFumiSafDefinedSpecInfoType;
   dUnionElement SAHPI_FUMI_SPEC_INFO_OEM_DEFINED SaHpiFumiOemDefinedSpecInfoType].
Definition SaHpiFumiSpecInfoTypeUnionType : cMarshalType := dUnion 0 "SaHpiFumiSpecInfoTypeUnionElements" SaHpiFumiSpecInfoTypeUnionElements.
Definition SaHpiFumiSpecInfoTypeElements : list (string * cMarshalType) :=
  [dStructElement "SpecInfoType" SaHpiFumiSpecInfoTypeType;
   dStructElement "SpecInfoTypeUnion" SaHpiFumiSpecInfoTypeUnionType].
Definition SaHpiFumiSpecInfoType : cMarshalType := dStruct "SaHpiFumiSpecInfoTypeElements" SaHpiFumiSpecInfoTypeElements.
Definition SaHpiFumiImpactedEntityTypeElements : list (string * cMarshalType) :=
  [dStructElement "ImpactedEntity" SaHpiEntityPathType;
   dStructElement "ServiceImpact" SaHpiFumiServiceImpactType].
Definition SaHpiFumiImpactedEntityType : cMarshalType := dStruct "SaHpiFumiImpactedEntityTypeElements" SaHpiFumiImpactedEntityTypeElements.
Definition SaHpiFumiServiceImpactDataImpactedEntitiesArray : cMarshalType :=
  dArray "SaHpiFumiServiceImpactDataImpactedEntitiesArray" SAHPI_FUMI_MAX_ENTITIES_IMPACTED SaHpiFumiImpactedEntityType.
Definition SaHpiFumiServiceImpactDataElements : list (string * cMarshalType) :=
  [dStructElement "NumEntities" SaHpiUint32Type;
   dStructElement "ImpactedEntities" SaHpiFumiServiceImpactDataImpactedEntitiesArray].
Definition SaHpiFumiServiceImpactDataType : cMarshalType := dStruct "SaHpiFumiServiceImpactDataElements" SaHpiFumiServiceImpactDataElements.
Definition SaHpiFumiSourceInfoTypeElements : list (string * cMarshalType) :=
  [dStructElement "SourceUri" SaHpiTextBufferType;
   dStructElement "SourceStatus" SaHpiFumiSourceStatusType;
   dStructElement "Identifier" SaHpiTextBufferType;
   dStructElement "Description" SaHpiTextBufferType;
   dStructElement "DateTime" SaHpiTextBufferType;
   dStructElement "MajorVersion" SaHpiUint32Type;
   dStructElement "MinorVersion" SaHpiUint32Type;
   dStructElement "AuxVersion" SaHpiUint32Type].
Definition SaHpiFumiSourceInfoType : cMarshalType := dStruct "SaHpiFumiSourceInfoTypeElements" SaHpiFumiSourceInfoTypeElements.
Definition SaHpiFumiBankInfoTypeElements : list (string * cMarshalType) :=
  [dStructElement "BankId" SaHpiUint8Type;
   dStructElement "BankSize" SaHpiUint32Type;
   dStructElement "Position" SaHpiUint32Type;
   dStructElement "BankState" SaHpiFumiBankStateType;
   dStructElement "Identifier" SaHpiTextBufferType;
   dStructElement "Description" SaHpiTextBufferType;
   dStructElement "DateTime" SaHpiTextBufferType;
   dStructElement "MajorVersion" SaHpiUint32Type;
   dStructElement "MinorVersion" SaHpiUint32Type;
   dStructElement "AuxVersion" SaHpiUint32Type].
Definition SaHpiFumiBankInfoType : cMarshalType := dStruct "SaHpiFumiBankInfoTypeElements" SaHpiFumiBankInfoTypeElements.
Definition SaHpiFumiFirmwareInstanceInfoTypeElements : list (string * cMarshalType) :=
  [dStructElement "InstancePresent" SaHpiBoolType;
   dStructElement "Identifier" SaHpiTextBufferType;
   dStructElement "Description" SaHpiTextBufferType;
   dStructElement "DateTime" SaHpiTextBufferType;
   dStructElement "MajorVersion" SaHpiUint32Type;
   dStructElement "MinorVersion" SaHpiUint32Type;
   dStructElement "AuxVersion" SaHpiUint32Type].
Definition SaHpiFumiFirmwareInstanceInfoType : cMarshalType := dStruct "SaHpiFumiFirmwareInstanceInfoTypeElements" SaHpiFumiFirmwareInstanceInfoTypeElements.
Definition SaHpiFumiLogicalBankInfoTypeElements : list (string * cMarshalType) :=
  [dStructElement "FirmwarePersistentLocationCount" SaHpiUint8Type;
   dStructElement "BankStateFlags" SaHpiFumiLogicalBankStateFlagsType;
   dStructElement "PendingFwInstance" SaHpiFumiFirmwareInstanceInfoType;
   dStructElement "RollbackFwInstance" SaHpiFumiFirmwareInstanceInfoType].
Definition SaHpiFumiLogicalBankInfoType : cMarshalType := dStruct "SaHpiFumiLogicalBankInfoTypeElements" SaHpiFumiLogicalBankInfoTypeElements.
Definition SaHpiFumiComponentInfoTypeElements : list (string * cMarshalType) :=
  [dStructElement "EntryId" SaHpiEntryIdType;
   dStructElement "ComponentId" SaHpiUint32Type;
   dStructElement "MainFwInstance" SaHpiFumiFirmwareInstanceInfoType;
   dStructElement "ComponentFlags" SaHpiUint32Type].
Definition SaHpiFumiComponentInfoType : cMarshalType := dStruct "SaHpiFumiComponentInfoTypeElements" SaHpiFumiComponentInfoTypeElements.
Definition SaHpiFumiLogicalComponentInfoTypeElements : list (string * cMarshalType) :=
  [dStructElement "EntryId" SaHpiEntryIdType;
   dStructElement "ComponentId" SaHpiUint32Type;
   dStructElement "PendingFwInstance" SaHpiFumiFirmwareInstanceInfoType;
   dStructElement "RollbackFwInstance" SaHpiFumiFirmwareInstanceInfoType;
   dStructElement "ComponentFlags" SaHpiUint32Type].
Definition SaHpiFumiLogicalComponentInfoType : cMarshalType := dStruct "SaHpiFumiLogicalComponentInfoTypeElements" SaHpiFumiLogicalComponentInfoTypeElements.
Definition SaHpiFumiRecElements : list (string * cMarshalType) :=
  [dStructElement "Num" SaHpiFumiNumType;
   dStructElement "AccessProt" SaHpiFumiProtocolType;
   dStructElement "Capability" SaHpiFumiCapabilityType;
   dStructElement "NumBanks" SaHpiUint8Type;
   dStructElement "Oem" SaHpiUint32Type].
Definition SaHpiFumiRecType : cMarshalType := dStruct "SaHpiFumiRecElements" SaHpiFumiRecElements.
Definition SaHpiRdrTypeUnionTypeElements : list (Z * cMarshalType) :=
  [dUnionElement SAHPI_NO_RECORD SaHpiVoidType;
   dUnionElement SAHPI_CTRL_RDR SaHpiCtrlRecType;
   dUnionElement SAHPI_SENSOR_RDR SaHpiSensorRecType;
   dUnionElement SAHPI_INVENTORY_RDR SaHpiInventoryRecType;
   dUnionElement SAHPI_WATCHDOG_RDR SaHpiWatchdogRecType;
   dUnionElement SAHPI_ANNUNCIATOR_RDR SaHpiAnnunciatorRecType;
   dUnionElement SAHPI_DIMI_RDR SaHpiDimiRecType;
   dUnionElement SAHPI_FUMI_RDR SaHpiFumiRecType].
Definition SaHpiRdrTypeUnionType : cMarshalType := dUnion 1 "SaHpiRdrTypeUnionTypeElements" SaHpiRdrTypeUnionTypeElements.
Definition SaHpiRdrElements : list (string * cMarshalType) :=
  [dStructElement "RecordId" SaHpiEntryIdType;
   dStructElement "RdrType" SaHpiRdrTypeType;
   dStructElement "Entity" SaHpiEntityPathType;
   dStructElement "IsFru" SaHpiBoolType;
   dStructElement "RdrTypeUnion" SaHpiRdrTypeUnionType;
   dStructElement "IdString" SaHpiTextBufferType].
Definition SaHpiRdrType : cMarshalType := dStruct "SaHpiRdrElements" SaHpiRdrElements.
Definition SaHpiResourceEventTypeElements : list (string * cMarshalType) :=
  [dStructElement "ResourceEventType" SaHpiResourceEventTypeType].
Definition SaHpiResourceEventType : cMarshalType := dStruct "SaHpiResourceEventTypeElements" SaHpiResourceEventTypeElements.
Definition SaHpiDomainEventTypeElements : list (string * cMarshalType) :=
  [dStructElement "Type" SaHpiDomainEventTypeType;
   dStructElement "DomainId" SaHpiDomainIdType].
Definition SaHpiDomainEventType : cMarshalType := dStruct "SaHpiDomainEventTypeElements" SaHpiDomainEventTypeElements.
Definition SaHpiSensorEventElements : list (string * cMarshalType) :=
  [dStructElement "SensorNum" SaHpiSensorNumType;
   dStructElement "SensorType" SaHpiSensorTypeType;
   dStructElement "EventCategory" SaHpiEventCategoryType;
   dStructElement "Assertion" SaHpiBoolType;
   dStructElement "EventState" SaHpiEventStateType;
   dStructElement "OptionalDataPresent" SaHpiSensorOptionalDataType;
   dStructElement "TriggerReading" SaHpiSensorReadingType;
   dStructElement "TriggerThreshold" SaHpiSensorReadingType;
   dStructElement "PreviousState" SaHpiEventStateType;
   dStructElement "CurrentState" SaHpiEventStateType;
   dStructElement "Oem" SaHpiUint32Type;
   dStructElement "SensorSpecific" SaHpiUint32Type].
Definition SaHpiSensorEventType : cMarshalType := dStruct "SaHpiSensorEventElements" SaHpiSensorEventElements.
Definition SaHpiSensorEnableChangeEventTElements : list (string * cMarshalType) :=
  [dStructElement "SensorNum" SaHpiSensorNumType;
   dStructElement "SensorType" SaHpiSensorTypeType;
   dStructElement "EventCategory" SaHpiEventCategoryType;
   dStructElement "SensorEnable" SaHpiBoolType;
   dStructElement "SensorEventEnable" SaHpiBoolType;
   dStructElement "AssertEventMask" SaHpiEventStateType;
   dStructElement "DeassertEventMask" SaHpiEventStateType;
   dStructElement "OptionalDataPresent" SaHpiSensorEnableOptDataType;
   dStructElement "CurrentState" SaHpiEventStateType].
Definition SaHpiSensorEnableChangeEventType : cMarshalType := dStruct "SaHpiSensorEnableChangeEventTElements" SaHpiSensorEnableChangeEventTElements.
Definition SaHpiHotSwapEventElements : list (string * cMarshalType) :=
  [dStructElement "HotSwapState" SaHpiHsStateType;
   dStructElement "PreviousHotSwapState" SaHpiHsStateType;
   dStructElement "CauseOfStateChange" SaHpiHsCauseOfStateChangeType].
Definition SaHpiHotSwapEventType : cMarshalType := dStruct "SaHpiHotSwapEventElements" SaHpiHotSwapEventElements.
Definition SaHpiWatchdogEventElements : list (string * cMarshalType) :=
  [dStructElement "WatchdogNum" SaHpiWatchdogNumType;
   dStructElement "WatchdogAction" SaHpiWatchdogActionEventType;
   dStructElement "WatchdogPreTimerAction" SaHpiWatchdogPretimerInterruptType;
   dStructElement "WatchdogUse" SaHpiWatchdogTimerUseType].
Definition SaHpiWatchdogEventType : cMarshalType := dStruct "SaHpiWatchdogEventElements" SaHpiWatchdogEventElements.
Definition SaHpiHpiSwEventTypeElements : list (string * cMarshalType) :=
  [dStructElement "MId" SaHpiManufacturerIdType;
   dStructElement "Type" SaHpiSwEventTypeType;
   dStructElement "EventData" SaHpiTextBufferType].
Definition SaHpiHpiSwEventType : cMarshalType := dStruct "SaHpiHpiSwEventTypeElements" SaHpiHpiSwEventTypeElements.
Definition SaHpiOemEventTypeElements : list (string * cMarshalType) :=
  [dStructElement "MId" SaHpiManufacturerIdType;
   dStructElement "OemEventData" SaHpiTextBufferType].
Definition SaHpiOemEventType : cMarshalType := dStruct "SaHpiOemEventTypeElements" SaHpiOemEventTypeElements.
Definition SaHpiUserEventElements : list (string * cMarshalType) :=
  [dStructElement "UserEventData" SaHpiTextBufferType].
Definition SaHpiUserEventType : cMarshalType := dStruct "SaHpiUserEventElements" SaHpiUserEventElements.
Definition SaHpiDimiEventElements : list (string * cMarshalType) :=
  [dStructElement "DimiNum" SaHpiDimiNumType;
   dStructElement "TestNum" SaHpiDimiTestNumType;
   dStructElement "DimiTestRunStatus" SaHpiDimiTestRunStatusType;
   dStructElement "DimiTestPercentCompleted" SaHpiDimiTestPercentCompletedType].
Definition SaHpiDimiEventType : cMarshalType := dStruct "SaHpiDimiEventElements" SaHpiDimiEventElements.
Definition SaHpiDimiUpdateEventElements : list (string * cMarshalType) :=
  [dStructElement "DimiNum" SaHpiDimiNumType].
Definition SaHpiDimiUpdateEventType : cMarshalType := dStruct "SaHpiDimiUpdateEventElements" SaHpiDimiUpdateEventElements.
Definition SaHpiFumiEventElements : list (string * cMarshalType) :=
  [dStructElement "FumiNum" SaHpiFumiNumType;
   dStructElement "BankNum" SaHpiUint8Type;
   dStructElement "UpgradeStatus" SaHpiFumiUpgradeStatusType].
Definition SaHpiFumiEventType : cMarshalType := dStruct "SaHpiFumiEventElements" SaHpiFumiEventElements.
Definition SaHpiEventUnionElements : list (Z * cMarshalType) :=
  [dUnionElement SAHPI_ET_RESOURCE SaHpiResourceEventType;
   dUnionElement SAHPI_ET_DOMAIN SaHpiDomainEventType;
   dUnionElement SAHPI_ET_SENSOR SaHpiSensorEventType;
   dUnionElement SAHPI_ET_SENSOR_ENABLE_CHANGE SaHpiSensorEnableChangeEventType;
   dUnionElement SAHPI_ET_HOTSWAP SaHpiHotSwapEventType;
   dUnionElement SAHPI_ET_WATCHDOG SaHpiWatchdogEventType;
   dUnionElement SAHPI_ET_HPI_SW SaHpiHpiSwEventType;
   dUnionElement SAHPI_ET_OEM SaHpiOemEventType;
   dUnionElement SAHPI_ET_USER SaHpiUserEventType;
   dUnionElement SAHPI_ET_DIMI SaHpiDimiEventType;
   dUnionElement SAHPI_ET_DIMI_UPDATE SaHpiDimiUpdateEventType;
   dUnionElement SAHPI_ET_FUMI SaHpiFumiEventType].
Definition SaHpiEventUnionType : cMarshalType := dUnion 1 "SaHpiEventUnionElements" SaHpiEventUnionElements.
Definition SaHpiEventElements : list (string * cMarshalType) :=
  [dStructElement "Source" SaHpiResourceIdType;
   dStructElement "EventType" SaHpiEventTypeType;
   dStructElement "Timestamp" SaHpiTimeType;
   dStructElement "Severity" SaHpiSeverityType;
   dStructElement "EventDataUnion" SaHpiEventUnionType].
Definition SaHpiEventType : cMarshalType := dStruct "SaHpiEventElements" SaHpiEventElements.
Definition GuidDataArray : cMarshalType :=
  dArray "GuidDataArray" 16 SaHpiUint8Type.
Definition SaHpiResourceInfoElements : list (string * cMarshalType) :=
  [dStructElement "ResourceRev" SaHpiUint8Type;
   dStructElement "SpecificVer" SaHpiUint8Type;
   dStructElement "DeviceSupport" SaHpiUint8Type;
   dStructElement "ManufacturerId" SaHpiManufacturerIdType;
   dStructElement "ProductId" SaHpiUint16Type;
   dStructElement "FirmwareMajorRev" SaHpiUint8Type;
   dStructElement "FirmwareMinorRev" SaHpiUint8Type;
   dStructElement "AuxFirmwareRev" SaHpiUint8Type;
   dStructElement "Guid" GuidDataArray].
Definition SaHpiResourceInfoType : cMarshalType := dStruct "SaHpiResourceInfoElements" SaHpiResourceInfoElements.
Definition SaHpiRptEntryElements : list (string * cMarshalType) :=
  [dStructElement "EntryId" SaHpiEntryIdType;
   dStructElement "ResourceId" SaHpiResourceIdType;
   dStructElement "ResourceInfo" SaHpiResourceInfoType;
   dStructElement "ResourceEntity" SaHpiEntityPathType;
   dStructElement "ResourceCapabilities" SaHpiCapabilitiesType;
   dStructElement "HotSwapCapabilities" SaHpiHsCapabilitiesType;
   dStructElement "ResourceSeverity" SaHpiSeverityType;
   dStructElement "ResourceFailed" SaHpiBoolType;
   dStructElement "ResourceTag" SaHpiTextBufferType].
Definition SaHpiRptEntryType : cMarshalType := dStruct "SaHpiRptEntryElements" SaHpiRptEntryElements.
Definition SaHpiLoadIdElements : list (string * cMarshalType) :=
  [dStructElement "LoadNumber" SaHpiLoadNumberType;
   dStructElement "LoadName" SaHpiTextBufferType].
Definition SaHpiLoadIdType : cMarshalType := dStruct "SaHpiLoadIdElements" SaHpiLoadIdElements.
Definition SaHpiDomainInfoTElements : list (string * cMarshalType) :=
  [dStructElement "DomainId" SaHpiDomainIdType;
   dStructElement "DomainCapabilities" SaHpiDomainCapabilitiesType;
   dStructElement "IsPeer" SaHpiBoolType;
   dStructElement "DomainTag" SaHpiTextBufferType;
   dStructElement "DrtUpdateCount" SaHpiUint32Type;
   dStructElement "DrtUpdateTimestamp" SaHpiTimeType;
   dStructElement "RptUpdateCount" SaHpiUint32Type;
   dStructElement "RptUpdateTimestamp" SaHpiTimeType;
   dStructElement "DatUpdateCount" SaHpiUint32Type;
   dStructElement "DatUpdateTimestamp" SaHpiTimeType;
   dStructElement "ActiveAlarms" SaHpiUint32Type;
   dStructElement "CriticalAlarms" SaHpiUint32Type;
   dStructElement "MajorAlarms" SaHpiUint32Type;
   dStructElement "MinorAlarms" SaHpiUint32Type;
   dStructElement "DatUserAlarmLimit" SaHpiUint32Type;
   dStructElement "DatOverflow" SaHpiBoolType;
   dStructElement "Guid" GuidDataArray].
Definition SaHpiDomainInfoType : cMarshalType := dStruct "SaHpiDomainInfoTElements" SaHpiDomainInfoTElements.
Definition SaHpiDrtEntryTElements : list (string * cMarshalType) :=
  [dStructElement "EntryId" SaHpiEntryIdType;
   dStructElement "DomainId" SaHpiDomainIdType;
   dStructElement "IsPeer" SaHpiBoolType].
Definition SaHpiDrtEntryType : cMarshalType := dStruct "SaHpiDrtEntryTElements" SaHpiDrtEntryTElements.
Definition SaHpiAlarmTElements : list (string * cMarshalType) :=
  [dStructElement "AlarmId" SaHpiAlarmIdType;
   dStructElement "Timestamp" SaHpiTimeType;
   dStructElement "Severity" SaHpiSeverityType;
   dStructElement "Acknowledged" SaHpiBoolType;
   dStructElement "AlarmCond" SaHpiConditionType].
Definition SaHpiAlarmType : cMarshalType := dStruct "SaHpiAlarmTElements" SaHpiAlarmTElements.
Definition SaHpiEventLogInfoTElements : list (string * cMarshalType) :=
  [dStructElement "Entries" SaHpiUint32Type;
   dStructElement "Size" SaHpiUint32Type;
   dStructElement "UserEventMaxSize" SaHpiUint32Type;
   dStructElement "UpdateTimestamp" SaHpiTimeType;
   dStructElement "CurrentTime" SaHpiTimeType;
   dStructElement "Enabled" SaHpiBoolType;
   dStructElement "OverflowFlag" SaHpiBoolType;
   dStructElement "OverflowResetable" SaHpiBoolType;
   dStructElement "OverflowAction" SaHpiSelOverflowActionType].
Definition SaHpiEventLogInfoType : cMarshalType := dStruct "SaHpiEventLogInfoTElements" SaHpiEventLogInfoTElements.
Definition SaHpiEventLogEntryElements : list (string * cMarshalType) :=
  [dStructElement "EntryId" SaHpiEventLogEntryIdType;
   dStructElement "Timestamp" SaHpiTimeType;
   dStructElement "Event" SaHpiEventType].
Definition SaHpiEventLogEntryType : cMarshalType := dStruct "SaHpiEventLogEntryElements" SaHpiEventLogEntryElements.
Definition plugin_nameBufferArray : cMarshalType :=
  dArray "plugin_nameBufferArray" MAX_PLUGIN_NAME_LENGTH SaHpiUint8Type.
Definition oHpiHandlerInfoElements : list (string * cMarshalType) :=
  [dStructElement "id" oHpiHandlerIdType;
   dStructElement "plugin_name" plugin_nameBufferArray;
   dStructElement "entity_root" SaHpiEntityPathType;
   dStructElement "load_failed" SaHpiInt32Type].
Definition oHpiHandlerInfoType : cMarshalType := dStruct "oHpiHandlerInfoElements" oHpiHandlerInfoElements.
Definition GlobalParamPathArray : cMarshalType :=
  dArray "GlobalParamPathArray" OH_PATH_PARAM_MAX_LENGTH SaHpiUint8Type.
Definition GlobalParamVarPathArray : cMarshalType :=
  dArray "GlobalParamVarPathArray" OH_PATH_PARAM_MAX_LENGTH SaHpiUint8Type.
Definition GlobalParamConfArray : cMarshalType :=
  dArray "GlobalParamConfArray" OH_PATH_PARAM_MAX_LENGTH SaHpiUint8Type.
Definition oHpiGlobalParamUnionTypeElements : list (Z * cMarshalType) :=
  [dUnionElement OHPI_ON_EP SaHpiEntityPathType;
   dUnionElement OHPI_LOG_ON_SEV SaHpiSeverityType;
   dUnionElement OHPI_EVT_QUEUE_LIMIT SaHpiUint32Type;
   dUnionElement OHPI_DEL_SIZE_LIMIT SaHpiUint32Type;
   dUnionElement OHPI_DEL_SAVE SaHpiBoolType;
   dUnionElement OHPI_DAT_SIZE_LIMIT SaHpiUint32Type;
   dUnionElement OHPI_DAT_USER_LIMIT SaHpiUint32Type;
   dUnionElement OHPI_DAT_SAVE SaHpiBoolType;
   dUnionElement OHPI_PATH GlobalParamPathArray;
   dUnionElement OHPI_VARPATH GlobalParamVarPathArray;
   dUnionElement OHPI_CONF GlobalParamConfArray].
Definition oHpiGlobalParamUnionType : cMarshalType := dUnion 0 "oHpiGlobalParamUnionTypeElements" oHpiGlobalParamUnionTypeElements.
Definition oHpiGlobalParamTypeElements : list (string * cMarshalType) :=
  [dStructElement "Type" oHpiGlobalParamTypeType;
   dStructElement "u" oHpiGlobalParamUnionType].
Definition oHpiGlobalParamType : cMarshalType := dStruct "oHpiGlobalParamTypeElements" oHpiGlobalParamTypeElements.
