(* ===== verification/MarshalHpi.v ===== *)
(** The marshalling of the HPI functions (marshal/marshal_hpi.c,
    marshal/marshal_hpi.h): the types of the arguments and results of every
    function, the table of the functions, and the functions that code requests
    and replies. *)
From S2P Require Import Prelude SaHpi Marshal MarshalTypes.
#[local] Open Scope string_scope.
#[local] Open Scope Z_scope.

(** * Function identifiers *)

Inductive tHpiFucntionId :=
| eFsaHpiNull
| eFsaHpiSessionOpen
| eFsaHpiSessionClose
| eFsaHpiDiscover
| eFsaHpiDomainInfoGet
| eFsaHpiDrtEntryGet
| eFsaHpiDomainTagSet
| eFsaHpiRptEntryGet
| eFsaHpiRptEntryGetByResourceId
| eFsaHpiResourceSeveritySet
| eFsaHpiResourceTagSet
| eFsaHpiResourceIdGet
| eFsaHpiGetIdByEntityPath
| eFsaHpiGetChildEntityPath
| eFsaHpiResourceFailedRemove
| eFsaHpiEventLogInfoGet
| eFsaHpiEventLogCapabilitiesGet
| eFsaHpiEventLogEntryGet
| eFsaHpiEventLogEntryAdd
| eFsaHpiEventLogClear
| eFsaHpiEventLogTimeGet
| eFsaHpiEventLogTimeSet
| eFsaHpiEventLogStateGet
| eFsaHpiEventLogStateSet
| eFsaHpiEventLogOverflowReset
| eFsaHpiSubscribe
| eFsaHpiUnsubscribe
| eFsaHpiEventGet
| eFsaHpiEventAdd
| eFsaHpiAlarmGetNext
| eFsaHpiAlarmGet
| eFsaHpiAlarmAcknowledge
| eFsaHpiAlarmAdd
| eFsaHpiAlarmDelete
| eFsaHpiRdrGet
| eFsaHpiRdrGetByInstrumentId
| eFsaHpiSensorReadingGet
| eFsaHpiSensorThresholdsGet
| eFsaHpiSensorThresholdsSet
| eFsaHpiSensorTypeGet
| eFsaHpiSensorEnableGet
| eFsaHpiSensorEnableSet
| eFsaHpiSensorEventEnableGet
| eFsaHpiSensorEventEnableSet
| eFsaHpiSensorEventMasksGet
| eFsaHpiSensorEventMasksSet
| eFsaHpiControlTypeGet
| eFsaHpiControlGet
| eFsaHpiControlSet
| eFsaHpiIdrInfoGet
| eFsaHpiIdrAreaHeaderGet
| eFsaHpiIdrAreaAdd
| eFsaHpiIdrAreaAddById
| eFsaHpiIdrAreaDelete
| eFsaHpiIdrFieldGet
| eFsaHpiIdrFieldAdd
| eFsaHpiIdrFieldAddById
| eFsaHpiIdrFieldSet
| eFsaHpiIdrFieldDelete
| eFsaHpiWatchdogTimerGet
| eFsaHpiWatchdogTimerSet
| eFsaHpiWatchdogTimerReset
| eFsaHpiAnnunciatorGetNext
| eFsaHpiAnnunciatorGet
| eFsaHpiAnnunciatorAcknowledge
| eFsaHpiAnnunciatorAdd
| eFsaHpiAnnunciatorDelete
| eFsaHpiAnnunciatorModeGet
| eFsaHpiAnnunciatorModeSet
| eFsaHpiDimiInfoGet
| eFsaHpiDimiTestInfoGet
| eFsaHpiDimiTestReadinessGet
| eFsaHpiDimiTestStart
| eFsaHpiDimiTestCancel
| eFsaHpiDimiTestStatusGet
| eFsaHpiDimiTestResultsGet
| eFsaHpiFumiSourceSet
| eFsaHpiFumiSourceInfoValidateStart
| eFsaHpiFumiSourceInfoGet
| eFsaHpiFumiTargetInfoGet
| eFsaHpiFumiBackupStart
| eFsaHpiFumiBankBootOrderSet
| eFsaHpiFumiBankCopyStart
| eFsaHpiFumiInstallStart
| eFsaHpiFumiUpgradeStatusGet
| eFsaHpiFumiTargetVerifyStart
| eFsaHpiFumiUpgradeCancel
| eFsaHpiFumiRollbackStart
| eFsaHpiFumiActivate
| eFsaHpiHotSwapPolicyCancel
| eFsaHpiResourceActiveSet
| eFsaHpiResourceInactiveSet
| eFsaHpiAutoInsertTimeoutGet
| eFsaHpiAutoInsertTimeoutSet
| eFsaHpiAutoExtractTimeoutGet
| eFsaHpiAutoExtractTimeoutSet
| eFsaHpiHotSwapStateGet
| eFsaHpiHotSwapActionRequest
| eFsaHpiHotSwapIndicatorStateGet
| eFsaHpiHotSwapIndicatorStateSet
| eFsaHpiParmControl
| eFsaHpiResourceLoadIdGet
| eFsaHpiResourceLoadIdSet
| eFsaHpiResourceResetStateGet
| eFsaHpiResourceResetStateSet
| eFsaHpiResourcePowerStateGet
| eFsaHpiResourcePowerStateSet
| eFoHpiHandlerCreate
| eFoHpiHandlerDestroy
| eFoHpiHandlerInfo
| eFoHpiHandlerGetNext
| eFoHpiHandlerFind
| eFoHpiHandlerRetry
| eFoHpiGlobalParamGet
| eFoHpiGlobalParamSet
| eFoHpiInjectEvent
| eFsaHpiMyEntityPathGet
| eFsaHpiRdrUpdateCountGet
| eFsaHpiFumiSpecInfoGet
| eFsaHpiFumiServiceImpactGet
| eFsaHpiFumiSourceComponentInfoGet
| eFsaHpiFumiTargetComponentInfoGet
| eFsaHpiFumiLogicalTargetInfoGet
| eFsaHpiFumiLogicalTargetComponentInfoGet
| eFsaHpiFumiTargetVerifyMainStart
| eFsaHpiFumiAutoRollbackDisableGet
| eFsaHpiFumiAutoRollbackDisableSet
| eFsaHpiFumiActivateStart
| eFsaHpiFumiCleanup.

Definition function_number (f : tHpiFucntionId) : Z :=
  match f with
  | eFsaHpiNull => 0
  | eFsaHpiSessionOpen => 1
  | eFsaHpiSessionClose => 2
  | eFsaHpiDiscover => 3
  | eFsaHpiDomainInfoGet => 4
  | eFsaHpiDrtEntryGet => 5
  | eFsaHpiDomainTagSet => 6
  | eFsaHpiRptEntryGet => 7
  | eFsaHpiRptEntryGetByResourceId => 8
  | eFsaHpiResourceSeveritySet => 9
  | eFsaHpiResourceTagSet => 10
  | eFsaHpiResourceIdGet => 11
  | eFsaHpiGetIdByEntityPath => 12
  | eFsaHpiGetChildEntityPath => 13
  | eFsaHpiResourceFailedRemove => 14
  | eFsaHpiEventLogInfoGet => 15
  | eFsaHpiEventLogCapabilitiesGet => 16
  | eFsaHpiEventLogEntryGet => 17
  | eFsaHpiEventLogEntryAdd => 18
  | eFsaHpiEventLogClear => 19
  | eFsaHpiEventLogTimeGet => 20
  | eFsaHpiEventLogTimeSet => 21
  | eFsaHpiEventLogStateGet => 22
  | eFsaHpiEventLogStateSet => 23
  | eFsaHpiEventLogOverflowReset => 24
  | eFsaHpiSubscribe => 25
  | eFsaHpiUnsubscribe => 26
  | eFsaHpiEventGet => 27
  | eFsaHpiEventAdd => 28
  | eFsaHpiAlarmGetNext => 29
  | eFsaHpiAlarmGet => 30
  | eFsaHpiAlarmAcknowledge => 31
  | eFsaHpiAlarmAdd => 32
  | eFsaHpiAlarmDelete => 33
  | eFsaHpiRdrGet => 34
  | eFsaHpiRdrGetByInstrumentId => 35
  | eFsaHpiSensorReadingGet => 36
  | eFsaHpiSensorThresholdsGet => 37
  | eFsaHpiSensorThresholdsSet => 38
  | eFsaHpiSensorTypeGet => 39
  | eFsaHpiSensorEnableGet => 40
  | eFsaHpiSensorEnableSet => 41
  | eFsaHpiSensorEventEnableGet => 42
  | eFsaHpiSensorEventEnableSet => 43
  | eFsaHpiSensorEventMasksGet => 44
  | eFsaHpiSensorEventMasksSet => 45
  | eFsaHpiControlTypeGet => 46
  | eFsaHpiControlGet => 47
  | eFsaHpiControlSet => 48
  | eFsaHpiIdrInfoGet => 49
  | eFsaHpiIdrAreaHeaderGet => 50
  | eFsaHpiIdrAreaAdd => 51
  | eFsaHpiIdrAreaAddById => 52
  | eFsaHpiIdrAreaDelete => 53
  | eFsaHpiIdrFieldGet => 54
  | eFsaHpiIdrFieldAdd => 55
  | eFsaHpiIdrFieldAddById => 56
  | eFsaHpiIdrFieldSet => 57
  | eFsaHpiIdrFieldDelete => 58
  | eFsaHpiWatchdogTimerGet => 59
  | eFsaHpiWatchdogTimerSet => 60
  | eFsaHpiWatchdogTimerReset => 61
  | eFsaHpiAnnunciatorGetNext => 62
  | eFsaHpiAnnunciatorGet => 63
  | eFsaHpiAnnunciatorAcknowledge => 64
  | eFsaHpiAnnunciatorAdd => 65
  | eFsaHpiAnnunciatorDelete => 66
  | eFsaHpiAnnunciatorModeGet => 67
  | eFsaHpiAnnunciatorModeSet => 68
  | eFsaHpiDimiInfoGet => 69
  | eFsaHpiDimiTestInfoGet => 70
  | eFsaHpiDimiTestReadinessGet => 71
  | eFsaHpiDimiTestStart => 72
  | eFsaHpiDimiTestCancel => 73
  | eFsaHpiDimiTestStatusGet => 74
  | eFsaHpiDimiTestResultsGet => 75
  | eFsaHpiFumiSourceSet => 76
  | eFsaHpiFumiSourceInfoValidateStart => 77
  | eFsaHpiFumiSourceInfoGet => 78
  | eFsaHpiFumiTargetInfoGet => 79
  | eFsaHpiFumiBackupStart => 80
  | eFsaHpiFumiBankBootOrderSet => 81
  | eFsaHpiFumiBankCopyStart => 82
  | eFsaHpiFumiInstallStart => 83
  | eFsaHpiFumiUpgradeStatusGet => 84
  | eFsaHpiFumiTargetVerifyStart => 85
  | eFsaHpiFumiUpgradeCancel => 86
  | eFsaHpiFumiRollbackStart => 87
  | eFsaHpiFumiActivate => 88
  | eFsaHpiHotSwapPolicyCancel => 89
  | eFsaHpiResourceActiveSet => 90
  | eFsaHpiResourceInactiveSet => 91
  | eFsaHpiAutoInsertTimeoutGet => 92
  | eFsaHpiAutoInsertTimeoutSet => 93
  | eFsaHpiAutoExtractTimeoutGet => 94
  | eFsaHpiAutoExtractTimeoutSet => 95
  | eFsaHpiHotSwapStateGet => 96
  | eFsaHpiHotSwapActionRequest => 97
  | eFsaHpiHotSwapIndicatorStateGet => 98
  | eFsaHpiHotSwapIndicatorStateSet => 99
  | eFsaHpiParmControl => 100
  | eFsaHpiResourceLoadIdGet => 101
  | eFsaHpiResourceLoadIdSet => 102
  | eFsaHpiResourceResetStateGet => 103
  | eFsaHpiResourceResetStateSet => 104
  | eFsaHpiResourcePowerStateGet => 105
  | eFsaHpiResourcePowerStateSet => 106
  | eFoHpiHandlerCreate => 107
  | eFoHpiHandlerDestroy => 108
  | eFoHpiHandlerInfo => 109
  | eFoHpiHandlerGetNext => 110
  | eFoHpiHandlerFind => 111
  | eFoHpiHandlerRetry => 112
  | eFoHpiGlobalParamGet => 113
  | eFoHpiGlobalParamSet => 114
  | eFoHpiInjectEvent => 115
  | eFsaHpiMyEntityPathGet => 116
  | eFsaHpiRdrUpdateCountGet => 117
  | eFsaHpiFumiSpecInfoGet => 118
  | eFsaHpiFumiServiceImpactGet => 119
  | eFsaHpiFumiSourceComponentInfoGet => 120
  | eFsaHpiFumiTargetComponentInfoGet => 121
  | eFsaHpiFumiLogicalTargetInfoGet => 122
  | eFsaHpiFumiLogicalTargetComponentInfoGet => 123
  | eFsaHpiFumiTargetVerifyMainStart => 124
  | eFsaHpiFumiAutoRollbackDisableGet => 125
  | eFsaHpiFumiAutoRollbackDisableSet => 126
  | eFsaHpiFumiActivateStart => 127
  | eFsaHpiFumiCleanup => 128
  end.

(** * Types of arguments and results *)

Definition saHpiSessionOpenIn : list cMarshalType := [SaHpiDomainIdType].
Definition saHpiSessionOpenOut : list cMarshalType := [SaErrorType; SaHpiSessionIdType].
Definition saHpiSessionCloseIn : list cMarshalType := [SaHpiSessionIdType].
Definition saHpiSessionCloseOut : list cMarshalType := [SaErrorType].
Definition saHpiDiscoverIn : list cMarshalType := [SaHpiSessionIdType].
Definition saHpiDiscoverOut : list cMarshalType := [SaErrorType].
Definition saHpiDomainInfoGetIn : list cMarshalType := [SaHpiSessionIdType].
Definition saHpiDomainInfoGetOut : list cMarshalType := [SaErrorType;
  SaHpiDomainInfoType].
Definition saHpiDrtEntryGetIn : list cMarshalType := [SaHpiSessionIdType;
  SaHpiEntryIdType].
Definition saHpiDrtEntryGetOut : list cMarshalType := [SaErrorType; SaHpiEntryIdType;
  SaHpiDrtEntryType].
Definition saHpiDomainTagSetIn : list cMarshalType := [SaHpiSessionIdType;
  SaHpiTextBufferType].
Definition saHpiDomainTagSetOut : list cMarshalType := [SaErrorType].
Definition saHpiRptEntryGetIn : list cMarshalType := [SaHpiSessionIdType;
  SaHpiEntryIdType].
Definition saHpiRptEntryGetOut : list cMarshalType := [SaErrorType; SaHpiEntryIdType;
  SaHpiRptEntryType].
Definition saHpiRptEntryGetByResourceIdIn : list cMarshalType := [SaHpiSessionIdType;
  SaHpiResourceIdType].
Definition saHpiRptEntryGetByResourceIdOut : list cMarshalType := [SaErrorType;
  SaHpiRptEntryType].
Definition saHpiResourceSeveritySetIn : list cMarshalType := [SaHpiSessionIdType;
  SaHpiResourceIdType; SaHpiSeverityType].
Definition saHpiResourceSeveritySetOut : list cMarshalType := [SaErrorType].
Definition saHpiResourceTagSetIn : list cMarshalType := [SaHpiSessionIdType;
  SaHpiResourceIdType; SaHpiTextBufferType].
Definition saHpiResourceTagSetOut : list cMarshalType := [SaErrorType].
Definition saHpiMyEntityPathGetIn : list cMarshalType := [SaHpiSessionIdType].
Definition saHpiMyEntityPathGetOut : list cMarshalType := [SaErrorType;
  SaHpiEntityPathType].
Definition saHpiResourceIdGetIn : list cMarshalType := [SaHpiSessionIdType].
Definition saHpiResourceIdGetOut : list cMarshalType := [SaErrorType;
  SaHpiResourceIdType].
Definition saHpiGetIdByEntityPathIn : list cMarshalType := [SaHpiSessionIdType;
  SaHpiEntityPathType; SaHpiRdrTypeType; SaHpiUint32Type].
Definition saHpiGetIdByEntityPathOut : list cMarshalType := [SaErrorType; SaHpiUint32Type;
  SaHpiResourceIdType; SaHpiInstrumentIdType; SaHpiUint32Type].
Definition saHpiGetChildEntityPathIn : list cMarshalType := [SaHpiSessionIdType;
  SaHpiEntityPathType; SaHpiUint32Type].
Definition saHpiGetChildEntityPathOut : list cMarshalType := [SaErrorType;
  SaHpiUint32Type; SaHpiEntityPathType; SaHpiUint32Type].
Definition saHpiResourceFailedRemoveIn : list cMarshalType := [SaHpiSessionIdType;
  SaHpiResourceIdType].
Definition saHpiResourceFailedRemoveOut : list cMarshalType := [SaErrorType].
Definition saHpiEventLogInfoGetIn : list cMarshalType := [SaHpiSessionIdType;
  SaHpiResourceIdType].
Definition saHpiEventLogInfoGetOut : list cMarshalType := [SaErrorType;
  SaHpiEventLogInfoType].
Definition saHpiEventLogCapabilitiesGetIn : list cMarshalType := [SaHpiSessionIdType;
  SaHpiResourceIdType].
Definition saHpiEventLogCapabilitiesGetOut : list cMarshalType := [SaErrorType;
  SaHpiEventLogCapabilitiesType].
Definition saHpiEventLogEntryGetIn : list cMarshalType := [SaHpiSessionIdType;
  SaHpiResourceIdType; SaHpiEventLogEntryIdType].
Definition saHpiEventLogEntryGetOut : list cMarshalType := [SaErrorType;
  SaHpiEventLogEntryIdType; SaHpiEventLogEntryIdType; SaHpiEventLogEntryType;
  SaHpiRdrType; SaHpiRptEntryType].
Definition saHpiEventLogEntryAddIn : list cMarshalType := [SaHpiSessionIdType;
  SaHpiResourceIdType; SaHpiEventType].
Definition saHpiEventLogEntryAddOut : list cMarshalType := [SaErrorType].
Definition saHpiEventLogClearIn : list cMarshalType := [SaHpiSessionIdType;
  SaHpiResourceIdType].
Definition saHpiEventLogClearOut : list cMarshalType := [SaErrorType].
Definition saHpiEventLogTimeGetIn : list cMarshalType := [SaHpiSessionIdType;
  SaHpiResourceIdType].
Definition saHpiEventLogTimeGetOut : list cMarshalType := [SaErrorType; SaHpiTimeType].
Definition saHpiEventLogTimeSetIn : list cMarshalType := [SaHpiSessionIdType;
  SaHpiResourceIdType; SaHpiTimeType].
Definition saHpiEventLogTimeSetOut : list cMarshalType := [SaErrorType].
Definition saHpiEventLogStateGetIn : list cMarshalType := [SaHpiSessionIdType;
  SaHpiResourceIdType].
Definition saHpiEventLogStateGetOut : list cMarshalType := [SaErrorType; SaHpiBoolType].
Definition saHpiEventLogStateSetIn : list cMarshalType := [SaHpiSessionIdType;
  SaHpiResourceIdType; SaHpiBoolType].
Definition saHpiEventLogStateSetOut : list cMarshalType := [SaErrorType].
Definition saHpiEventLogOverflowResetIn : list cMarshalType := [SaHpiSessionIdType;
  SaHpiResourceIdType].
Definition saHpiEventLogOverflowResetOut : list cMarshalType := [SaErrorType].
Definition saHpiSubscribeIn : list cMarshalType := [SaHpiSessionIdType].
Definition saHpiSubscribeOut : list cMarshalType := [SaErrorType].
Definition saHpiUnsubscribeIn : list cMarshalType := [SaHpiSessionIdType].
Definition saHpiUnsubscribeOut : list cMarshalType := [SaErrorType].
Definition saHpiEventGetIn : list cMarshalType := [SaHpiSessionIdType; SaHpiTimeoutType].
Definition saHpiEventGetOut : list cMarshalType := [SaErrorType; SaHpiEventType;
  SaHpiRdrType; SaHpiRptEntryType; SaHpiEvtQueueStatusType].
Definition saHpiEventAddIn : list cMarshalType := [SaHpiSessionIdType; SaHpiEventType].
Definition saHpiEventAddOut : list cMarshalType := [SaErrorType].
Definition saHpiAlarmGetNextIn : list cMarshalType := [SaHpiSessionIdType;
  SaHpiSeverityType; SaHpiBoolType; SaHpiAlarmType].
Definition saHpiAlarmGetNextOut : list cMarshalType := [SaErrorType; SaHpiAlarmType].
Definition saHpiAlarmGetIn : list cMarshalType := [SaHpiSessionIdType; SaHpiAlarmIdType].
Definition saHpiAlarmGetOut : list cMarshalType := [SaErrorType; SaHpiAlarmType].
Definition saHpiAlarmAcknowledgeIn : list cMarshalType := [SaHpiSessionIdType;
  SaHpiAlarmIdType; SaHpiSeverityType].
Definition saHpiAlarmAcknowledgeOut : list cMarshalType := [SaErrorType].
Definition saHpiAlarmAddIn : list cMarshalType := [SaHpiSessionIdType; SaHpiAlarmType].
Definition saHpiAlarmAddOut : list cMarshalType := [SaErrorType; SaHpiAlarmType].
Definition saHpiAlarmDeleteIn : list cMarshalType := [SaHpiSessionIdType;
  SaHpiAlarmIdType; SaHpiSeverityType].
Definition saHpiAlarmDeleteOut : list cMarshalType := [SaErrorType].
Definition saHpiRdrGetIn : list cMarshalType := [SaHpiSessionIdType; SaHpiResourceIdType;
  SaHpiEntryIdType].
Definition saHpiRdrGetOut : list cMarshalType := [SaErrorType; SaHpiEntryIdType;
  SaHpiRdrType].
Definition saHpiRdrGetByInstrumentIdIn : list cMarshalType := [SaHpiSessionIdType;
  SaHpiResourceIdType; SaHpiRdrTypeType; SaHpiInstrumentIdType].
Definition saHpiRdrGetByInstrumentIdOut : list cMarshalType := [SaErrorType;
  SaHpiRdrType].
Definition saHpiRdrUpdateCountGetIn : list cMarshalType := [SaHpiSessionIdType;
  SaHpiResourceIdType].
Definition saHpiRdrUpdateCountGetOut : list cMarshalType := [SaErrorType;
  SaHpiUint32Type].
Definition saHpiSensorReadingGetIn : list cMarshalType := [SaHpiSessionIdType;
  SaHpiResourceIdType; SaHpiSensorNumType].
Definition saHpiSensorReadingGetOut : list cMarshalType := [SaErrorType;
  SaHpiSensorReadingType; SaHpiEventStateType].
Definition saHpiSensorThresholdsGetIn : list cMarshalType := [SaHpiSessionIdType;
  SaHpiResourceIdType; SaHpiSensorNumType].
Definition saHpiSensorThresholdsGetOut : list cMarshalType := [SaErrorType;
  SaHpiSensorThresholdsType].
Definition saHpiSensorThresholdsSetIn : list cMarshalType := [SaHpiSessionIdType;
  SaHpiResourceIdType; SaHpiSensorNumType; SaHpiSensorThresholdsType].
Definition saHpiSensorThresholdsSetOut : list cMarshalType := [SaErrorType].
Definition saHpiSensorTypeGetIn : list cMarshalType := [SaHpiSessionIdType;
  SaHpiResourceIdType; SaHpiSensorNumType].
Definition saHpiSensorTypeGetOut : list cMarshalType := [SaErrorType; SaHpiSensorTypeType;
  SaHpiEventCategoryType].
Definition saHpiSensorEnableGetIn : list cMarshalType := [SaHpiSessionIdType;
  SaHpiResourceIdType; SaHpiSensorNumType].
Definition saHpiSensorEnableGetOut : list cMarshalType := [SaErrorType; SaHpiBoolType].
Definition saHpiSensorEnableSetIn : list cMarshalType := [SaHpiSessionIdType;
  SaHpiResourceIdType; SaHpiSensorNumType; SaHpiBoolType].
Definition saHpiSensorEnableSetOut : list cMarshalType := [SaErrorType].
Definition saHpiSensorEventEnableGetIn : list cMarshalType := [SaHpiSessionIdType;
  SaHpiResourceIdType; SaHpiSensorNumType].
Definition saHpiSensorEventEnableGetOut : list cMarshalType := [SaErrorType;
  SaHpiBoolType].
Definition saHpiSensorEventEnableSetIn : list cMarshalType := [SaHpiSessionIdType;
  SaHpiResourceIdType; SaHpiSensorNumType; SaHpiBoolType].
Definition saHpiSensorEventEnableSetOut : list cMarshalType := [SaErrorType].
Definition saHpiSensorEventMasksGetIn : list cMarshalType := [SaHpiSessionIdType;
  SaHpiResourceIdType; SaHpiSensorNumType; SaHpiEventStateType; SaHpiEventStateType].
Definition saHpiSensorEventMasksGetOut : list cMarshalType := [SaErrorType;
  SaHpiEventStateType; SaHpiEventStateType].
Definition saHpiSensorEventMasksSetIn : list cMarshalType := [SaHpiSessionIdType;
  SaHpiResourceIdType; SaHpiSensorNumType; SaHpiUint32Type; SaHpiEventStateType;
  SaHpiEventStateType].
Definition saHpiSensorEventMasksSetOut : list cMarshalType := [SaErrorType].
Definition saHpiControlTypeGetIn : list cMarshalType := [SaHpiSessionIdType;
  SaHpiResourceIdType; SaHpiCtrlNumType].
Definition saHpiControlTypeGetOut : list cMarshalType := [SaErrorType; SaHpiCtrlTypeType].
Definition saHpiControlGetIn : list cMarshalType := [SaHpiSessionIdType;
  SaHpiResourceIdType; SaHpiCtrlNumType; SaHpiCtrlStateType].
Definition saHpiControlGetOut : list cMarshalType := [SaErrorType; SaHpiCtrlModeType;
  SaHpiCtrlStateType].
Definition saHpiControlSetIn : list cMarshalType := [SaHpiSessionIdType;
  SaHpiResourceIdType; SaHpiCtrlNumType; SaHpiCtrlModeType; SaHpiCtrlStateType].
Definition saHpiControlSetOut : list cMarshalType := [SaErrorType].
Definition saHpiIdrInfoGetIn : list cMarshalType := [SaHpiSessionIdType;
  SaHpiResourceIdType; SaHpiIdrIdType].
Definition saHpiIdrInfoGetOut : list cMarshalType := [SaErrorType; SaHpiIdrInfoType].
Definition saHpiIdrAreaHeaderGetIn : list cMarshalType := [SaHpiSessionIdType;
  SaHpiResourceIdType; SaHpiIdrIdType; SaHpiIdrAreaTypeType; SaHpiEntryIdType].
Definition saHpiIdrAreaHeaderGetOut : list cMarshalType := [SaErrorType; SaHpiEntryIdType;
  SaHpiIdrAreaHeaderType].
Definition saHpiIdrAreaAddIn : list cMarshalType := [SaHpiSessionIdType;
  SaHpiResourceIdType; SaHpiIdrIdType; SaHpiIdrAreaTypeType].
Definition saHpiIdrAreaAddOut : list cMarshalType := [SaErrorType; SaHpiEntryIdType].
Definition saHpiIdrAreaAddByIdIn : list cMarshalType := [SaHpiSessionIdType;
  SaHpiResourceIdType; SaHpiIdrIdType; SaHpiIdrAreaTypeType; SaHpiEntryIdType].
Definition saHpiIdrAreaAddByIdOut : list cMarshalType := [SaErrorType].
Definition saHpiIdrAreaDeleteIn : list cMarshalType := [SaHpiSessionIdType;
  SaHpiResourceIdType; SaHpiIdrIdType; SaHpiEntryIdType].
Definition saHpiIdrAreaDeleteOut : list cMarshalType := [SaErrorType].
Definition saHpiIdrFieldGetIn : list cMarshalType := [SaHpiSessionIdType;
  SaHpiResourceIdType; SaHpiIdrIdType; SaHpiEntryIdType; SaHpiIdrFieldTypeType;
  SaHpiEntryIdType].
Definition saHpiIdrFieldGetOut : list cMarshalType := [SaErrorType; SaHpiEntryIdType;
  SaHpiIdrFieldType].
Definition saHpiIdrFieldAddIn : list cMarshalType := [SaHpiSessionIdType;
  SaHpiResourceIdType; SaHpiIdrIdType; SaHpiIdrFieldType].
Definition saHpiIdrFieldAddOut : list cMarshalType := [SaErrorType; SaHpiIdrFieldType].
Definition saHpiIdrFieldAddByIdIn : list cMarshalType := [SaHpiSessionIdType;
  SaHpiResourceIdType; SaHpiIdrIdType; SaHpiIdrFieldType].
Definition saHpiIdrFieldAddByIdOut : list cMarshalType := [SaErrorType;
  SaHpiIdrFieldType].
Definition saHpiIdrFieldSetIn : list cMarshalType := [SaHpiSessionIdType;
  SaHpiResourceIdType; SaHpiIdrIdType; SaHpiIdrFieldType].
Definition saHpiIdrFieldSetOut : list cMarshalType := [SaErrorType].
Definition saHpiIdrFieldDeleteIn : list cMarshalType := [SaHpiSessionIdType;
  SaHpiResourceIdType; SaHpiIdrIdType; SaHpiEntryIdType; SaHpiEntryIdType].
Definition saHpiIdrFieldDeleteOut : list cMarshalType := [SaErrorType].
Definition saHpiWatchdogTimerGetIn : list cMarshalType := [SaHpiSessionIdType;
  SaHpiResourceIdType; SaHpiWatchdogNumType].
Definition saHpiWatchdogTimerGetOut : list cMarshalType := [SaErrorType;
  SaHpiWatchdogType].
Definition saHpiWatchdogTimerSetIn : list cMarshalType := [SaHpiSessionIdType;
  SaHpiResourceIdType; SaHpiWatchdogNumType; SaHpiWatchdogType].
Definition saHpiWatchdogTimerSetOut : list cMarshalType := [SaErrorType].
Definition saHpiWatchdogTimerResetIn : list cMarshalType := [SaHpiSessionIdType;
  SaHpiResourceIdType; SaHpiWatchdogNumType].
Definition saHpiWatchdogTimerResetOut : list cMarshalType := [SaErrorType].
Definition saHpiAnnunciatorGetNextIn : list cMarshalType := [SaHpiSessionIdType;
  SaHpiResourceIdType; SaHpiAnnunciatorNumType; SaHpiSeverityType; SaHpiBoolType;
  SaHpiAnnouncementType].
Definition saHpiAnnunciatorGetNextOut : list cMarshalType := [SaErrorType;
  SaHpiAnnouncementType].
Definition saHpiAnnunciatorGetIn : list cMarshalType := [SaHpiSessionIdType;
  SaHpiResourceIdType; SaHpiAnnunciatorNumType; SaHpiEntryIdType].
Definition saHpiAnnunciatorGetOut : list cMarshalType := [SaErrorType;
  SaHpiAnnouncementType].
Definition saHpiAnnunciatorAcknowledgeIn : list cMarshalType := [SaHpiSessionIdType;
  SaHpiResourceIdType; SaHpiAnnunciatorNumType; SaHpiEntryIdType; SaHpiSeverityType].
Definition saHpiAnnunciatorAcknowledgeOut : list cMarshalType := [SaErrorType].
Definition saHpiAnnunciatorAddIn : list cMarshalType := [SaHpiSessionIdType;
  SaHpiResourceIdType; SaHpiAnnunciatorNumType; SaHpiAnnouncementType].
Definition saHpiAnnunciatorAddOut : list cMarshalType := [SaErrorType;
  SaHpiAnnouncementType].
Definition saHpiAnnunciatorDeleteIn : list cMarshalType := [SaHpiSessionIdType;
  SaHpiResourceIdType; SaHpiAnnunciatorNumType; SaHpiEntryIdType; SaHpiSeverityType].
Definition saHpiAnnunciatorDeleteOut : list cMarshalType := [SaErrorType].
Definition saHpiAnnunciatorModeGetIn : list cMarshalType := [SaHpiSessionIdType;
  SaHpiResourceIdType; SaHpiAnnunciatorNumType].
Definition saHpiAnnunciatorModeGetOut : list cMarshalType := [SaErrorType;
  SaHpiAnnunciatorModeType].
Definition saHpiAnnunciatorModeSetIn : list cMarshalType := [SaHpiSessionIdType;
  SaHpiResourceIdType; SaHpiAnnunciatorNumType; SaHpiAnnunciatorModeType].
Definition saHpiAnnunciatorModeSetOut : list cMarshalType := [SaErrorType].
Definition saHpiDimiInfoGetIn : list cMarshalType := [SaHpiSessionIdType;
  SaHpiResourceIdType; SaHpiDimiNumType].
Definition saHpiDimiInfoGetOut : list cMarshalType := [SaErrorType; SaHpiDimiInfoType].
Definition saHpiDimiTestInfoGetIn : list cMarshalType := [SaHpiSessionIdType;
  SaHpiResourceIdType; SaHpiDimiNumType; SaHpiDimiTestNumType].
Definition saHpiDimiTestInfoGetOut : list cMarshalType := [SaErrorType;
  SaHpiDimiTestType].
Definition saHpiDimiTestReadinessGetIn : list cMarshalType := [SaHpiSessionIdType;
  SaHpiResourceIdType; SaHpiDimiNumType; SaHpiDimiTestNumType].
Definition saHpiDimiTestReadinessGetOut : list cMarshalType := [SaErrorType;
  SaHpiDimiReadyType].
Definition saHpiDimiTestStartIn : list cMarshalType := [SaHpiSessionIdType;
  SaHpiResourceIdType; SaHpiDimiNumType; SaHpiDimiTestNumType;
  SaHpiDimiTestVariableParamsListType].
Definition saHpiDimiTestStartOut : list cMarshalType := [SaErrorType].
Definition saHpiDimiTestCancelIn : list cMarshalType := [SaHpiSessionIdType;
  SaHpiResourceIdType; SaHpiDimiNumType; SaHpiDimiTestNumType].
Definition saHpiDimiTestCancelOut : list cMarshalType := [SaErrorType].
Definition saHpiDimiTestStatusGetIn : list cMarshalType := [SaHpiSessionIdType;
  SaHpiResourceIdType; SaHpiDimiNumType; SaHpiDimiTestNumType].
Definition saHpiDimiTestStatusGetOut : list cMarshalType := [SaErrorType;
  SaHpiDimiTestPercentCompletedType; SaHpiDimiTestRunStatusType].
Definition saHpiDimiTestResultsGetIn : list cMarshalType := [SaHpiSessionIdType;
  SaHpiResourceIdType; SaHpiDimiNumType; SaHpiDimiTestNumType].
Definition saHpiDimiTestResultsGetOut : list cMarshalType := [SaErrorType;
  SaHpiDimiTestResultsType].
Definition saHpiFumiSpecInfoGetIn : list cMarshalType := [SaHpiSessionIdType;
  SaHpiResourceIdType; SaHpiFumiNumType].
Definition saHpiFumiSpecInfoGetOut : list cMarshalType := [SaErrorType;
  SaHpiFumiSpecInfoType].
Definition saHpiFumiServiceImpactGetIn : list cMarshalType := [SaHpiSessionIdType;
  SaHpiResourceIdType; SaHpiFumiNumType].
Definition saHpiFumiServiceImpactGetOut : list cMarshalType := [SaErrorType;
  SaHpiFumiServiceImpactDataType].
Definition saHpiFumiSourceSetIn : list cMarshalType := [SaHpiSessionIdType;
  SaHpiResourceIdType; SaHpiFumiNumType; SaHpiBankNumType; SaHpiTextBufferType].
Definition saHpiFumiSourceSetOut : list cMarshalType := [SaErrorType].
Definition saHpiFumiSourceInfoValidateStartIn : list cMarshalType := [SaHpiSessionIdType;
  SaHpiResourceIdType; SaHpiFumiNumType; SaHpiBankNumType].
Definition saHpiFumiSourceInfoValidateStartOut : list cMarshalType := [SaErrorType].
Definition saHpiFumiSourceInfoGetIn : list cMarshalType := [SaHpiSessionIdType;
  SaHpiResourceIdType; SaHpiFumiNumType; SaHpiBankNumType].
Definition saHpiFumiSourceInfoGetOut : list cMarshalType := [SaErrorType;
  SaHpiFumiSourceInfoType].
Definition saHpiFumiSourceComponentInfoGetIn : list cMarshalType := [SaHpiSessionIdType;
  SaHpiResourceIdType; SaHpiFumiNumType; SaHpiBankNumType; SaHpiEntryIdType].
Definition saHpiFumiSourceComponentInfoGetOut : list cMarshalType := [SaErrorType;
  SaHpiEntryIdType; SaHpiFumiComponentInfoType].
Definition saHpiFumiTargetInfoGetIn : list cMarshalType := [SaHpiSessionIdType;
  SaHpiResourceIdType; SaHpiFumiNumType; SaHpiBankNumType].
Definition saHpiFumiTargetInfoGetOut : list cMarshalType := [SaErrorType;
  SaHpiFumiBankInfoType].
Definition saHpiFumiTargetComponentInfoGetIn : list cMarshalType := [SaHpiSessionIdType;
  SaHpiResourceIdType; SaHpiFumiNumType; SaHpiBankNumType; SaHpiEntryIdType].
Definition saHpiFumiTargetComponentInfoGetOut : list cMarshalType := [SaErrorType;
  SaHpiEntryIdType; SaHpiFumiComponentInfoType].
Definition saHpiFumiLogicalTargetInfoGetIn : list cMarshalType := [SaHpiSessionIdType;
  SaHpiResourceIdType; SaHpiFumiNumType].
Definition saHpiFumiLogicalTargetInfoGetOut : list cMarshalType := [SaErrorType;
  SaHpiFumiLogicalBankInfoType].
Definition saHpiFumiLogicalTargetComponentInfoGetIn : list cMarshalType :=
  [SaHpiSessionIdType; SaHpiResourceIdType; SaHpiFumiNumType; SaHpiEntryIdType].
Definition saHpiFumiLogicalTargetComponentInfoGetOut : list cMarshalType := [SaErrorType;
  SaHpiEntryIdType; SaHpiFumiLogicalComponentInfoType].
Definition saHpiFumiBackupStartIn : list cMarshalType := [SaHpiSessionIdType;
  SaHpiResourceIdType; SaHpiFumiNumType].
Definition saHpiFumiBackupStartOut : list cMarshalType := [SaErrorType].
Definition saHpiFumiBankBootOrderSetIn : list cMarshalType := [SaHpiSessionIdType;
  SaHpiResourceIdType; SaHpiFumiNumType; SaHpiBankNumType; SaHpiUint32Type].
Definition saHpiFumiBankBootOrderSetOut : list cMarshalType := [SaErrorType].
Definition saHpiFumiBankCopyStartIn : list cMarshalType := [SaHpiSessionIdType;
  SaHpiResourceIdType; SaHpiFumiNumType; SaHpiBankNumType; SaHpiBankNumType].
Definition saHpiFumiBankCopyStartOut : list cMarshalType := [SaErrorType].
Definition saHpiFumiInstallStartIn : list cMarshalType := [SaHpiSessionIdType;
  SaHpiResourceIdType; SaHpiFumiNumType; SaHpiBankNumType].
Definition saHpiFumiInstallStartOut : list cMarshalType := [SaErrorType].
Definition saHpiFumiUpgradeStatusGetIn : list cMarshalType := [SaHpiSessionIdType;
  SaHpiResourceIdType; SaHpiFumiNumType; SaHpiBankNumType].
Definition saHpiFumiUpgradeStatusGetOut : list cMarshalType := [SaErrorType;
  SaHpiFumiUpgradeStatusType].
Definition saHpiFumiTargetVerifyStartIn : list cMarshalType := [SaHpiSessionIdType;
  SaHpiResourceIdType; SaHpiFumiNumType; SaHpiBankNumType].
Definition saHpiFumiTargetVerifyStartOut : list cMarshalType := [SaErrorType].
Definition saHpiFumiTargetVerifyMainStartIn : list cMarshalType := [SaHpiSessionIdType;
  SaHpiResourceIdType; SaHpiFumiNumType].
Definition saHpiFumiTargetVerifyMainStartOut : list cMarshalType := [SaErrorType].
Definition saHpiFumiUpgradeCancelIn : list cMarshalType := [SaHpiSessionIdType;
  SaHpiResourceIdType; SaHpiFumiNumType; SaHpiBankNumType].
Definition saHpiFumiUpgradeCancelOut : list cMarshalType := [SaErrorType].
Definition saHpiFumiAutoRollbackDisableGetIn : list cMarshalType := [SaHpiSessionIdType;
  SaHpiResourceIdType; SaHpiFumiNumType].
Definition saHpiFumiAutoRollbackDisableGetOut : list cMarshalType := [SaErrorType;
  SaHpiBoolType].
Definition saHpiFumiAutoRollbackDisableSetIn : list cMarshalType := [SaHpiSessionIdType;
  SaHpiResourceIdType; SaHpiFumiNumType; SaHpiBoolType].
Definition saHpiFumiAutoRollbackDisableSetOut : list cMarshalType := [SaErrorType].
Definition saHpiFumiRollbackStartIn : list cMarshalType := [SaHpiSessionIdType;
  SaHpiResourceIdType; SaHpiFumiNumType].
Definition saHpiFumiRollbackStartOut : list cMarshalType := [SaErrorType].
Definition saHpiFumiActivateIn : list cMarshalType := [SaHpiSessionIdType;
  SaHpiResourceIdType; SaHpiFumiNumType].
Definition saHpiFumiActivateOut : list cMarshalType := [SaErrorType].
Definition saHpiFumiActivateStartIn : list cMarshalType := [SaHpiSessionIdType;
  SaHpiResourceIdType; SaHpiFumiNumType; SaHpiBoolType].
Definition saHpiFumiActivateStartOut : list cMarshalType := [SaErrorType].
Definition saHpiFumiCleanupIn : list cMarshalType := [SaHpiSessionIdType;
  SaHpiResourceIdType; SaHpiFumiNumType; SaHpiBankNumType].
Definition saHpiFumiCleanupOut : list cMarshalType := [SaErrorType].
Definition saHpiHotSwapPolicyCancelIn : list cMarshalType := [SaHpiSessionIdType;
  SaHpiResourceIdType].
Definition saHpiHotSwapPolicyCancelOut : list cMarshalType := [SaErrorType].
Definition saHpiResourceActiveSetIn : list cMarshalType := [SaHpiSessionIdType;
  SaHpiResourceIdType].
Definition saHpiResourceActiveSetOut : list cMarshalType := [SaErrorType].
Definition saHpiResourceInactiveSetIn : list cMarshalType := [SaHpiSessionIdType;
  SaHpiResourceIdType].
Definition saHpiResourceInactiveSetOut : list cMarshalType := [SaErrorType].
Definition saHpiAutoInsertTimeoutGetIn : list cMarshalType := [SaHpiSessionIdType].
Definition saHpiAutoInsertTimeoutGetOut : list cMarshalType := [SaErrorType;
  SaHpiTimeoutType].
Definition saHpiAutoInsertTimeoutSetIn : list cMarshalType := [SaHpiSessionIdType;
  SaHpiTimeoutType].
Definition saHpiAutoInsertTimeoutSetOut : list cMarshalType := [SaErrorType].
Definition saHpiAutoExtractTimeoutGetIn : list cMarshalType := [SaHpiSessionIdType;
  SaHpiResourceIdType].
Definition saHpiAutoExtractTimeoutGetOut : list cMarshalType := [SaErrorType;
  SaHpiTimeoutType].
Definition saHpiAutoExtractTimeoutSetIn : list cMarshalType := [SaHpiSessionIdType;
  SaHpiResourceIdType; SaHpiTimeoutType].
Definition saHpiAutoExtractTimeoutSetOut : list cMarshalType := [SaErrorType].
Definition saHpiHotSwapStateGetIn : list cMarshalType := [SaHpiSessionIdType;
  SaHpiResourceIdType].
Definition saHpiHotSwapStateGetOut : list cMarshalType := [SaErrorType; SaHpiHsStateType].
Definition saHpiHotSwapActionRequestIn : list cMarshalType := [SaHpiSessionIdType;
  SaHpiResourceIdType; SaHpiHsActionType].
Definition saHpiHotSwapActionRequestOut : list cMarshalType := [SaErrorType].
Definition saHpiHotSwapIndicatorStateGetIn : list cMarshalType := [SaHpiSessionIdType;
  SaHpiResourceIdType].
Definition saHpiHotSwapIndicatorStateGetOut : list cMarshalType := [SaErrorType;
  SaHpiHsIndicatorStateType].
Definition saHpiHotSwapIndicatorStateSetIn : list cMarshalType := [SaHpiSessionIdType;
  SaHpiResourceIdType; SaHpiHsIndicatorStateType].
Definition saHpiHotSwapIndicatorStateSetOut : list cMarshalType := [SaErrorType].
Definition saHpiParmControlIn : list cMarshalType := [SaHpiSessionIdType;
  SaHpiResourceIdType; SaHpiParmActionType].
Definition saHpiParmControlOut : list cMarshalType := [SaErrorType].
Definition saHpiResourceLoadIdGetIn : list cMarshalType := [SaHpiSessionIdType;
  SaHpiResourceIdType].
Definition saHpiResourceLoadIdGetOut : list cMarshalType := [SaErrorType;
  SaHpiLoadIdType].
Definition saHpiResourceLoadIdSetIn : list cMarshalType := [SaHpiSessionIdType;
  SaHpiResourceIdType; SaHpiLoadIdType].
Definition saHpiResourceLoadIdSetOut : list cMarshalType := [SaErrorType].
Definition saHpiResourceResetStateGetIn : list cMarshalType := [SaHpiSessionIdType;
  SaHpiResourceIdType].
Definition saHpiResourceResetStateGetOut : list cMarshalType := [SaErrorType;
  SaHpiResetActionType].
Definition saHpiResourceResetStateSetIn : list cMarshalType := [SaHpiSessionIdType;
  SaHpiResourceIdType; SaHpiResetActionType].
Definition saHpiResourceResetStateSetOut : list cMarshalType := [SaErrorType].
Definition saHpiResourcePowerStateGetIn : list cMarshalType := [SaHpiSessionIdType;
  SaHpiResourceIdType].
Definition saHpiResourcePowerStateGetOut : list cMarshalType := [SaErrorType;
  SaHpiPowerStateType].
Definition saHpiResourcePowerStateSetIn : list cMarshalType := [SaHpiSessionIdType;
  SaHpiResourceIdType; SaHpiPowerStateType].
Definition saHpiResourcePowerStateSetOut : list cMarshalType := [SaErrorType].
Definition oHpiHandlerCreateIn : list cMarshalType := [SaHpiSessionIdType;
  oHpiHandlerConfigType].
Definition oHpiHandlerCreateOut : list cMarshalType := [SaErrorType; oHpiHandlerIdType].
Definition oHpiHandlerDestroyIn : list cMarshalType := [SaHpiSessionIdType;
  oHpiHandlerIdType].
Definition oHpiHandlerDestroyOut : list cMarshalType := [SaErrorType].
Definition oHpiHandlerInfoIn : list cMarshalType := [SaHpiSessionIdType;
  oHpiHandlerIdType].
Definition oHpiHandlerInfoOut : list cMarshalType := [SaErrorType; oHpiHandlerInfoType;
  oHpiHandlerConfigType].
Definition oHpiHandlerGetNextIn : list cMarshalType := [SaHpiSessionIdType;
  oHpiHandlerIdType].
Definition oHpiHandlerGetNextOut : list cMarshalType := [SaErrorType; oHpiHandlerIdType].
Definition oHpiHandlerFindIn : list cMarshalType := [SaHpiSessionIdType;
  SaHpiResourceIdType].
Definition oHpiHandlerFindOut : list cMarshalType := [SaErrorType; oHpiHandlerIdType].
Definition oHpiHandlerRetryIn : list cMarshalType := [SaHpiSessionIdType;
  oHpiHandlerIdType].
Definition oHpiHandlerRetryOut : list cMarshalType := [SaErrorType].
Definition oHpiGlobalParamGetIn : list cMarshalType := [SaHpiSessionIdType;
  oHpiGlobalParamType].
Definition oHpiGlobalParamGetOut : list cMarshalType := [SaErrorType;
  oHpiGlobalParamType].
Definition oHpiGlobalParamSetIn : list cMarshalType := [SaHpiSessionIdType;
  oHpiGlobalParamType].
Definition oHpiGlobalParamSetOut : list cMarshalType := [SaErrorType].
Definition oHpiInjectEventIn : list cMarshalType := [SaHpiSessionIdType;
  oHpiHandlerIdType; SaHpiEventType; SaHpiRptEntryType; SaHpiRdrType].
Definition oHpiInjectEventOut : list cMarshalType := [SaErrorType].

(** * The table *)

Record cHpiMarshal := {
  m_id : Z;
  m_name : string;
  m_request : list cMarshalType;
  m_reply : list cMarshalType  (* the first is the result *)
}.

Definition dHpiMarshalEntry (f : tHpiFucntionId) (name : string)
    (request reply : list cMarshalType) : cHpiMarshal :=
  {| m_id := function_number f; m_name := name; m_request := request; m_reply := reply |}.

Definition hpi_marshal : list cHpiMarshal :=
  [dHpiMarshalEntry eFsaHpiSessionOpen "saHpiSessionOpen" saHpiSessionOpenIn saHpiSessionOpenOut;
   dHpiMarshalEntry eFsaHpiSessionClose "saHpiSessionClose" saHpiSessionCloseIn saHpiSessionCloseOut;
   dHpiMarshalEntry eFsaHpiDiscover "saHpiDiscover" saHpiDiscoverIn saHpiDiscoverOut;
   dHpiMarshalEntry eFsaHpiDomainInfoGet "saHpiDomainInfoGet" saHpiDomainInfoGetIn saHpiDomainInfoGetOut;
   dHpiMarshalEntry eFsaHpiDrtEntryGet "saHpiDrtEntryGet" saHpiDrtEntryGetIn saHpiDrtEntryGetOut;
   dHpiMarshalEntry eFsaHpiDomainTagSet "saHpiDomainTagSet" saHpiDomainTagSetIn saHpiDomainTagSetOut;
   dHpiMarshalEntry eFsaHpiRptEntryGet "saHpiRptEntryGet" saHpiRptEntryGetIn saHpiRptEntryGetOut;
   dHpiMarshalEntry eFsaHpiRptEntryGetByResourceId "saHpiRptEntryGetByResourceId" saHpiRptEntryGetByResourceIdIn saHpiRptEntryGetByResourceIdOut;
   dHpiMarshalEntry eFsaHpiResourceSeveritySet "saHpiResourceSeveritySet" saHpiResourceSeveritySetIn saHpiResourceSeveritySetOut;
   dHpiMarshalEntry eFsaHpiResourceTagSet "saHpiResourceTagSet" saHpiResourceTagSetIn saHpiResourceTagSetOut;
   dHpiMarshalEntry eFsaHpiResourceIdGet "saHpiResourceIdGet" saHpiResourceIdGetIn saHpiResourceIdGetOut;
   dHpiMarshalEntry eFsaHpiGetIdByEntityPath "saHpiGetIdByEntityPath" saHpiGetIdByEntityPathIn saHpiGetIdByEntityPathOut;
   dHpiMarshalEntry eFsaHpiGetChildEntityPath "saHpiGetChildEntityPath" saHpiGetChildEntityPathIn saHpiGetChildEntityPathOut;
   dHpiMarshalEntry eFsaHpiResourceFailedRemove "saHpiResourceFailedRemove" saHpiResourceFailedRemoveIn saHpiResourceFailedRemoveOut;
   dHpiMarshalEntry eFsaHpiEventLogInfoGet "saHpiEventLogInfoGet" saHpiEventLogInfoGetIn saHpiEventLogInfoGetOut;
   dHpiMarshalEntry eFsaHpiEventLogCapabilitiesGet "saHpiEventLogCapabilitiesGet" saHpiEventLogCapabilitiesGetIn saHpiEventLogCapabilitiesGetOut;
   dHpiMarshalEntry eFsaHpiEventLogEntryGet "saHpiEventLogEntryGet" saHpiEventLogEntryGetIn saHpiEventLogEntryGetOut;
   dHpiMarshalEntry eFsaHpiEventLogEntryAdd "saHpiEventLogEntryAdd" saHpiEventLogEntryAddIn saHpiEventLogEntryAddOut;
   dHpiMarshalEntry eFsaHpiEventLogClear "saHpiEventLogClear" saHpiEventLogClearIn saHpiEventLogClearOut;
   dHpiMarshalEntry eFsaHpiEventLogTimeGet "saHpiEventLogTimeGet" saHpiEventLogTimeGetIn saHpiEventLogTimeGetOut;
   dHpiMarshalEntry eFsaHpiEventLogTimeSet "saHpiEventLogTimeSet" saHpiEventLogTimeSetIn saHpiEventLogTimeSetOut;
   dHpiMarshalEntry eFsaHpiEventLogStateGet "saHpiEventLogStateGet" saHpiEventLogStateGetIn saHpiEventLogStateGetOut;
   dHpiMarshalEntry eFsaHpiEventLogStateSet "saHpiEventLogStateSet" saHpiEventLogStateSetIn saHpiEventLogStateSetOut;
   dHpiMarshalEntry eFsaHpiEventLogOverflowReset "saHpiEventLogOverflowReset" saHpiEventLogOverflowResetIn saHpiEventLogOverflowResetOut;
   dHpiMarshalEntry eFsaHpiSubscribe "saHpiSubscribe" saHpiSubscribeIn saHpiSubscribeOut;
   dHpiMarshalEntry eFsaHpiUnsubscribe "saHpiUnsubscribe" saHpiUnsubscribeIn saHpiUnsubscribeOut;
   dHpiMarshalEntry eFsaHpiEventGet "saHpiEventGet" saHpiEventGetIn saHpiEventGetOut;
   dHpiMarshalEntry eFsaHpiEventAdd "saHpiEventAdd" saHpiEventAddIn saHpiEventAddOut;
   dHpiMarshalEntry eFsaHpiAlarmGetNext "saHpiAlarmGetNext" saHpiAlarmGetNextIn saHpiAlarmGetNextOut;
   dHpiMarshalEntry eFsaHpiAlarmGet "saHpiAlarmGet" saHpiAlarmGetIn saHpiAlarmGetOut;
   dHpiMarshalEntry eFsaHpiAlarmAcknowledge "saHpiAlarmAcknowledge" saHpiAlarmAcknowledgeIn saHpiAlarmAcknowledgeOut;
   dHpiMarshalEntry eFsaHpiAlarmAdd "saHpiAlarmAdd" saHpiAlarmAddIn saHpiAlarmAddOut;
   dHpiMarshalEntry eFsaHpiAlarmDelete "saHpiAlarmDelete" saHpiAlarmDeleteIn saHpiAlarmDeleteOut;
   dHpiMarshalEntry eFsaHpiRdrGet "saHpiRdrGet" saHpiRdrGetIn saHpiRdrGetOut;
   dHpiMarshalEntry eFsaHpiRdrGetByInstrumentId "saHpiRdrGetByInstrumentId" saHpiRdrGetByInstrumentIdIn saHpiRdrGetByInstrumentIdOut;
   dHpiMarshalEntry eFsaHpiSensorReadingGet "saHpiSensorReadingGet" saHpiSensorReadingGetIn saHpiSensorReadingGetOut;
   dHpiMarshalEntry eFsaHpiSensorThresholdsGet "saHpiSensorThresholdsGet" saHpiSensorThresholdsGetIn saHpiSensorThresholdsGetOut;
   dHpiMarshalEntry eFsaHpiSensorThresholdsSet "saHpiSensorThresholdsSet" saHpiSensorThresholdsSetIn saHpiSensorThresholdsSetOut;
   dHpiMarshalEntry eFsaHpiSensorTypeGet "saHpiSensorTypeGet" saHpiSensorTypeGetIn saHpiSensorTypeGetOut;
   dHpiMarshalEntry eFsaHpiSensorEnableGet "saHpiSensorEnableGet" saHpiSensorEnableGetIn saHpiSensorEnableGetOut;
   dHpiMarshalEntry eFsaHpiSensorEnableSet "saHpiSensorEnableSet" saHpiSensorEnableSetIn saHpiSensorEnableSetOut;
   dHpiMarshalEntry eFsaHpiSensorEventEnableGet "saHpiSensorEventEnableGet" saHpiSensorEventEnableGetIn saHpiSensorEventEnableGetOut;
   dHpiMarshalEntry eFsaHpiSensorEventEnableSet "saHpiSensorEventEnableSet" saHpiSensorEventEnableSetIn saHpiSensorEventEnableSetOut;
   dHpiMarshalEntry eFsaHpiSensorEventMasksGet "saHpiSensorEventMasksGet" saHpiSensorEventMasksGetIn saHpiSensorEventMasksGetOut;
   dHpiMarshalEntry eFsaHpiSensorEventMasksSet "saHpiSensorEventMasksSet" saHpiSensorEventMasksSetIn saHpiSensorEventMasksSetOut;
   dHpiMarshalEntry eFsaHpiControlTypeGet "saHpiControlTypeGet" saHpiControlTypeGetIn saHpiControlTypeGetOut;
   dHpiMarshalEntry eFsaHpiControlGet "saHpiControlGet" saHpiControlGetIn saHpiControlGetOut;
   dHpiMarshalEntry eFsaHpiControlSet "saHpiControlSet" saHpiControlSetIn saHpiControlSetOut;
   dHpiMarshalEntry eFsaHpiIdrInfoGet "saHpiIdrInfoGet" saHpiIdrInfoGetIn saHpiIdrInfoGetOut;
   dHpiMarshalEntry eFsaHpiIdrAreaHeaderGet "saHpiIdrAreaHeaderGet" saHpiIdrAreaHeaderGetIn saHpiIdrAreaHeaderGetOut;
   dHpiMarshalEntry eFsaHpiIdrAreaAdd "saHpiIdrAreaAdd" saHpiIdrAreaAddIn saHpiIdrAreaAddOut;
   dHpiMarshalEntry eFsaHpiIdrAreaAddById "saHpiIdrAreaAddById" saHpiIdrAreaAddByIdIn saHpiIdrAreaAddByIdOut;
   dHpiMarshalEntry eFsaHpiIdrAreaDelete "saHpiIdrAreaDelete" saHpiIdrAreaDeleteIn saHpiIdrAreaDeleteOut;
   dHpiMarshalEntry eFsaHpiIdrFieldGet "saHpiIdrFieldGet" saHpiIdrFieldGetIn saHpiIdrFieldGetOut;
   dHpiMarshalEntry eFsaHpiIdrFieldAdd "saHpiIdrFieldAdd" saHpiIdrFieldAddIn saHpiIdrFieldAddOut;
   dHpiMarshalEntry eFsaHpiIdrFieldAddById "saHpiIdrFieldAddById" saHpiIdrFieldAddByIdIn saHpiIdrFieldAddByIdOut;
   dHpiMarshalEntry eFsaHpiIdrFieldSet "saHpiIdrFieldSet" saHpiIdrFieldSetIn saHpiIdrFieldSetOut;
   dHpiMarshalEntry eFsaHpiIdrFieldDelete "saHpiIdrFieldDelete" saHpiIdrFieldDeleteIn saHpiIdrFieldDeleteOut;
   dHpiMarshalEntry eFsaHpiWatchdogTimerGet "saHpiWatchdogTimerGet" saHpiWatchdogTimerGetIn saHpiWatchdogTimerGetOut;
   dHpiMarshalEntry eFsaHpiWatchdogTimerSet "saHpiWatchdogTimerSet" saHpiWatchdogTimerSetIn saHpiWatchdogTimerSetOut;
   dHpiMarshalEntry eFsaHpiWatchdogTimerReset "saHpiWatchdogTimerReset" saHpiWatchdogTimerResetIn saHpiWatchdogTimerResetOut;
   dHpiMarshalEntry eFsaHpiAnnunciatorGetNext "saHpiAnnunciatorGetNext" saHpiAnnunciatorGetNextIn saHpiAnnunciatorGetNextOut;
   dHpiMarshalEntry eFsaHpiAnnunciatorGet "saHpiAnnunciatorGet" saHpiAnnunciatorGetIn saHpiAnnunciatorGetOut;
   dHpiMarshalEntry eFsaHpiAnnunciatorAcknowledge "saHpiAnnunciatorAcknowledge" saHpiAnnunciatorAcknowledgeIn saHpiAnnunciatorAcknowledgeOut;
   dHpiMarshalEntry eFsaHpiAnnunciatorAdd "saHpiAnnunciatorAdd" saHpiAnnunciatorAddIn saHpiAnnunciatorAddOut;
   dHpiMarshalEntry eFsaHpiAnnunciatorDelete "saHpiAnnunciatorDelete" saHpiAnnunciatorDeleteIn saHpiAnnunciatorDeleteOut;
   dHpiMarshalEntry eFsaHpiAnnunciatorModeGet "saHpiAnnunciatorModeGet" saHpiAnnunciatorModeGetIn saHpiAnnunciatorModeGetOut;
   dHpiMarshalEntry eFsaHpiAnnunciatorModeSet "saHpiAnnunciatorModeSet" saHpiAnnunciatorModeSetIn saHpiAnnunciatorModeSetOut;
   dHpiMarshalEntry eFsaHpiDimiInfoGet "saHpiDimiInfoGet" saHpiDimiInfoGetIn saHpiDimiInfoGetOut;
   dHpiMarshalEntry eFsaHpiDimiTestInfoGet "saHpiDimiTestInfoGet" saHpiDimiTestInfoGetIn saHpiDimiTestInfoGetOut;
   dHpiMarshalEntry eFsaHpiDimiTestReadinessGet "saHpiDimiTestReadinessGet" saHpiDimiTestReadinessGetIn saHpiDimiTestReadinessGetOut;
   dHpiMarshalEntry eFsaHpiDimiTestStart "saHpiDimiTestStart" saHpiDimiTestStartIn saHpiDimiTestStartOut;
   dHpiMarshalEntry eFsaHpiDimiTestCancel "saHpiDimiTestCancel" saHpiDimiTestCancelIn saHpiDimiTestCancelOut;
   dHpiMarshalEntry eFsaHpiDimiTestStatusGet "saHpiDimiTestStatusGet" saHpiDimiTestStatusGetIn saHpiDimiTestStatusGetOut;
   dHpiMarshalEntry eFsaHpiDimiTestResultsGet "saHpiDimiTestResultsGet" saHpiDimiTestResultsGetIn saHpiDimiTestResultsGetOut;
   dHpiMarshalEntry eFsaHpiFumiSourceSet "saHpiFumiSourceSet" saHpiFumiSourceSetIn saHpiFumiSourceSetOut;
   dHpiMarshalEntry eFsaHpiFumiSourceInfoValidateStart "saHpiFumiSourceInfoValidateStart" saHpiFumiSourceInfoValidateStartIn saHpiFumiSourceInfoValidateStartOut;
   dHpiMarshalEntry eFsaHpiFumiSourceInfoGet "saHpiFumiSourceInfoGet" saHpiFumiSourceInfoGetIn saHpiFumiSourceInfoGetOut;
   dHpiMarshalEntry eFsaHpiFumiTargetInfoGet "saHpiFumiTargetInfoGet" saHpiFumiTargetInfoGetIn saHpiFumiTargetInfoGetOut;
   dHpiMarshalEntry eFsaHpiFumiBackupStart "saHpiFumiBackupStart" saHpiFumiBackupStartIn saHpiFumiBackupStartOut;
   dHpiMarshalEntry eFsaHpiFumiBankBootOrderSet "saHpiFumiBankBootOrderSet" saHpiFumiBankBootOrderSetIn saHpiFumiBankBootOrderSetOut;
   dHpiMarshalEntry eFsaHpiFumiBankCopyStart "saHpiFumiBankCopyStart" saHpiFumiBankCopyStartIn saHpiFumiBankCopyStartOut;
   dHpiMarshalEntry eFsaHpiFumiInstallStart "saHpiFumiInstallStart" saHpiFumiInstallStartIn saHpiFumiInstallStartOut;
   dHpiMarshalEntry eFsaHpiFumiUpgradeStatusGet "saHpiFumiUpgradeStatusGet" saHpiFumiUpgradeStatusGetIn saHpiFumiUpgradeStatusGetOut;
   dHpiMarshalEntry eFsaHpiFumiTargetVerifyStart "saHpiFumiTargetVerifyStart" saHpiFumiTargetVerifyStartIn saHpiFumiTargetVerifyStartOut;
   dHpiMarshalEntry eFsaHpiFumiUpgradeCancel "saHpiFumiUpgradeCancel" saHpiFumiUpgradeCancelIn saHpiFumiUpgradeCancelOut;
   dHpiMarshalEntry eFsaHpiFumiRollbackStart "saHpiFumiRollbackStart" saHpiFumiRollbackStartIn saHpiFumiRollbackStartOut;
   dHpiMarshalEntry eFsaHpiFumiActivate "saHpiFumiActivate" saHpiFumiActivateIn saHpiFumiActivateOut;
   dHpiMarshalEntry eFsaHpiHotSwapPolicyCancel "saHpiHotSwapPolicyCancel" saHpiHotSwapPolicyCancelIn saHpiHotSwapPolicyCancelOut;
   dHpiMarshalEntry eFsaHpiResourceActiveSet "saHpiResourceActiveSet" saHpiResourceActiveSetIn saHpiResourceActiveSetOut;
   dHpiMarshalEntry eFsaHpiResourceInactiveSet "saHpiResourceInactiveSet" saHpiResourceInactiveSetIn saHpiResourceInactiveSetOut;
   dHpiMarshalEntry eFsaHpiAutoInsertTimeoutGet "saHpiAutoInsertTimeoutGet" saHpiAutoInsertTimeoutGetIn saHpiAutoInsertTimeoutGetOut;
   dHpiMarshalEntry eFsaHpiAutoInsertTimeoutSet "saHpiAutoInsertTimeoutSet" saHpiAutoInsertTimeoutSetIn saHpiAutoInsertTimeoutSetOut;
   dHpiMarshalEntry eFsaHpiAutoExtractTimeoutGet "saHpiAutoExtractTimeoutGet" saHpiAutoExtractTimeoutGetIn saHpiAutoExtractTimeoutGetOut;
   dHpiMarshalEntry eFsaHpiAutoExtractTimeoutSet "saHpiAutoExtractTimeoutSet" saHpiAutoExtractTimeoutSetIn saHpiAutoExtractTimeoutSetOut;
   dHpiMarshalEntry eFsaHpiHotSwapStateGet "saHpiHotSwapStateGet" saHpiHotSwapStateGetIn saHpiHotSwapStateGetOut;
   dHpiMarshalEntry eFsaHpiHotSwapActionRequest "saHpiHotSwapActionRequest" saHpiHotSwapActionRequestIn saHpiHotSwapActionRequestOut;
   dHpiMarshalEntry eFsaHpiHotSwapIndicatorStateGet "saHpiHotSwapIndicatorStateGet" saHpiHotSwapIndicatorStateGetIn saHpiHotSwapIndicatorStateGetOut;
   dHpiMarshalEntry eFsaHpiHotSwapIndicatorStateSet "saHpiHotSwapIndicatorStateSet" saHpiHotSwapIndicatorStateSetIn saHpiHotSwapIndicatorStateSetOut;
   dHpiMarshalEntry eFsaHpiParmControl "saHpiParmControl" saHpiParmControlIn saHpiParmControlOut;
   dHpiMarshalEntry eFsaHpiResourceLoadIdGet "saHpiResourceLoadIdGet" saHpiResourceLoadIdGetIn saHpiResourceLoadIdGetOut;
   dHpiMarshalEntry eFsaHpiResourceLoadIdSet "saHpiResourceLoadIdSet" saHpiResourceLoadIdSetIn saHpiResourceLoadIdSetOut;
   dHpiMarshalEntry eFsaHpiResourceResetStateGet "saHpiResourceResetStateGet" saHpiResourceResetStateGetIn saHpiResourceResetStateGetOut;
   dHpiMarshalEntry eFsaHpiResourceResetStateSet "saHpiResourceResetStateSet" saHpiResourceResetStateSetIn saHpiResourceResetStateSetOut;
   dHpiMarshalEntry eFsaHpiResourcePowerStateGet "saHpiResourcePowerStateGet" saHpiResourcePowerStateGetIn saHpiResourcePowerStateGetOut;
   dHpiMarshalEntry eFsaHpiResourcePowerStateSet "saHpiResourcePowerStateSet" saHpiResourcePowerStateSetIn saHpiResourcePowerStateSetOut;
   dHpiMarshalEntry eFoHpiHandlerCreate "oHpiHandlerCreate" oHpiHandlerCreateIn oHpiHandlerCreateOut;
   dHpiMarshalEntry eFoHpiHandlerDestroy "oHpiHandlerDestroy" oHpiHandlerDestroyIn oHpiHandlerDestroyOut;
   dHpiMarshalEntry eFoHpiHandlerInfo "oHpiHandlerInfo" oHpiHandlerInfoIn oHpiHandlerInfoOut;
   dHpiMarshalEntry eFoHpiHandlerGetNext "oHpiHandlerGetNext" oHpiHandlerGetNextIn oHpiHandlerGetNextOut;
   dHpiMarshalEntry eFoHpiHandlerFind "oHpiHandlerFind" oHpiHandlerFindIn oHpiHandlerFindOut;
   dHpiMarshalEntry eFoHpiHandlerRetry "oHpiHandlerRetry" oHpiHandlerRetryIn oHpiHandlerRetryOut;
   dHpiMarshalEntry eFoHpiGlobalParamGet "oHpiGlobalParamGet" oHpiGlobalParamGetIn oHpiGlobalParamGetOut;
   dHpiMarshalEntry eFoHpiGlobalParamSet "oHpiGlobalParamSet" oHpiGlobalParamSetIn oHpiGlobalParamSetOut;
   dHpiMarshalEntry eFoHpiInjectEvent "oHpiInjectEvent" oHpiInjectEventIn oHpiInjectEventOut;
   dHpiMarshalEntry eFsaHpiMyEntityPathGet "saHpiMyEntityPathGet" saHpiMyEntityPathGetIn saHpiMyEntityPathGetOut;
   dHpiMarshalEntry eFsaHpiRdrUpdateCountGet "saHpiRdrUpdateCountGet" saHpiRdrUpdateCountGetIn saHpiRdrUpdateCountGetOut;
   dHpiMarshalEntry eFsaHpiFumiSpecInfoGet "saHpiFumiSpecInfoGet" saHpiFumiSpecInfoGetIn saHpiFumiSpecInfoGetOut;
   dHpiMarshalEntry eFsaHpiFumiServiceImpactGet "saHpiFumiServiceImpactGet" saHpiFumiServiceImpactGetIn saHpiFumiServiceImpactGetOut;
   dHpiMarshalEntry eFsaHpiFumiSourceComponentInfoGet "saHpiFumiSourceComponentInfoGet" saHpiFumiSourceComponentInfoGetIn saHpiFumiSourceComponentInfoGetOut;
   dHpiMarshalEntry eFsaHpiFumiTargetComponentInfoGet "saHpiFumiTargetComponentInfoGet" saHpiFumiTargetComponentInfoGetIn saHpiFumiTargetComponentInfoGetOut;
   dHpiMarshalEntry eFsaHpiFumiLogicalTargetInfoGet "saHpiFumiLogicalTargetInfoGet" saHpiFumiLogicalTargetInfoGetIn saHpiFumiLogicalTargetInfoGetOut;
   dHpiMarshalEntry eFsaHpiFumiLogicalTargetComponentInfoGet "saHpiFumiLogicalTargetComponentInfoGet" saHpiFumiLogicalTargetComponentInfoGetIn saHpiFumiLogicalTargetComponentInfoGetOut;
   dHpiMarshalEntry eFsaHpiFumiTargetVerifyMainStart "saHpiFumiTargetVerifyMainStart" saHpiFumiTargetVerifyMainStartIn saHpiFumiTargetVerifyMainStartOut;
   dHpiMarshalEntry eFsaHpiFumiAutoRollbackDisableGet "saHpiFumiAutoRollbackDisableGet" saHpiFumiAutoRollbackDisableGetIn saHpiFumiAutoRollbackDisableGetOut;
   dHpiMarshalEntry eFsaHpiFumiAutoRollbackDisableSet "saHpiFumiAutoRollbackDisableSet" saHpiFumiAutoRollbackDisableSetIn saHpiFumiAutoRollbackDisableSetOut;
   dHpiMarshalEntry eFsaHpiFumiActivateStart "saHpiFumiActivateStart" saHpiFumiActivateStartIn saHpiFumiActivateStartOut;
   dHpiMarshalEntry eFsaHpiFumiCleanup "saHpiFumiCleanup" saHpiFumiCleanupIn saHpiFumiCleanupOut].

Definition hpi_marshal_num : Z := Z.of_nat (length hpi_marshal).

Definition HpiMarshalFind (id : Z) : option cHpiMarshal :=
  let id := id - 1 in
  if (id <? 0) || (hpi_marshal_num <=? id) then None
  else hpi_marshal !! Z.to_nat id.

(** * Requests *)

Definition HpiMarshalRequest (host : ByteOrder) (m : cHpiMarshal) (param : list value)
  : outcome (list Z) := MarshalArray host (m_request m) param.

Definition HpiMarshalRequest1 host m (p1 : value) : outcome (list Z) :=
  HpiMarshalRequest host m [p1].
Definition HpiMarshalRequest2 host m (p1 p2 : value) : outcome (list Z) :=
  HpiMarshalRequest host m [p1; p2].
Definition HpiMarshalRequest3 host m (p1 p2 p3 : value) : outcome (list Z) :=
  HpiMarshalRequest host m [p1; p2; p3].
Definition HpiMarshalRequest4 host m (p1 p2 p3 p4 : value) : outcome (list Z) :=
  HpiMarshalRequest host m [p1; p2; p3; p4].
Definition HpiMarshalRequest5 host m (p1 p2 p3 p4 p5 : value) : outcome (list Z) :=
  HpiMarshalRequest host m [p1; p2; p3; p4; p5].
Definition HpiMarshalRequest6 host m (p1 p2 p3 p4 p5 p6 : value) : outcome (list Z) :=
  HpiMarshalRequest host m [p1; p2; p3; p4; p5; p6].

(** The values written to the parameters, in their order. *)
Definition HpiDemarshalRequest (host byte_order : ByteOrder) (m : cHpiMarshal)
    (buffer : list Z) : outcome (list value * Z) :=
  DemarshalArray host byte_order (m_request m) buffer.

(** * Replies *)

Definition HpiMarshalReply (host : ByteOrder) (m : cHpiMarshal) (params : list value)
  : outcome (list Z) :=
  match params with
  | VNum err :: _ =>
      if err =? SA_OK then MarshalArray host (m_reply m) params
      else Marshal host SaErrorType (VNum err)
  | _ => Undefined
  end.

Definition HpiMarshalReply0 host m (result : value) : outcome (list Z) :=
  HpiMarshalReply host m [result].
Definition HpiMarshalReply1 host m (result p1 : value) : outcome (list Z) :=
  HpiMarshalReply host m [result; p1].
Definition HpiMarshalReply2 host m (result p1 p2 : value) : outcome (list Z) :=
  HpiMarshalReply host m [result; p1; p2].
Definition HpiMarshalReply3 host m (result p1 p2 p3 : value) : outcome (list Z) :=
  HpiMarshalReply host m [result; p1; p2; p3].
Definition HpiMarshalReply4 host m (result p1 p2 p3 p4 : value) : outcome (list Z) :=
  HpiMarshalReply host m [result; p1; p2; p3; p4].
Definition HpiMarshalReply5 host m (result p1 p2 p3 p4 p5 : value) : outcome (list Z) :=
  HpiMarshalReply host m [result; p1; p2; p3; p4; p5].

(** The values written to the parameters: the error code alone, or all. *)
Definition HpiDemarshalReply (host byte_order : ByteOrder) (m : cHpiMarshal)
    (buffer : list Z) : outcome (list value * Z) :=
  let* (result, cc) := Demarshal host byte_order SaErrorType buffer in
  if 0 <? cc then
    match result with
    | VNum err =>
        if err =? SA_OK then DemarshalArray host byte_order (m_reply m) buffer
        else Done ([result], cc)
    | _ => Undefined
    end
  else Done ([result], cc).

(** The objects stored by it, as in [stored_by_array]. *)
Definition stored_by_reply (host byte_order : ByteOrder) (m : cHpiMarshal)
    (buffer : list Z) : list (option value) :=
  match Demarshal host byte_order SaErrorType buffer with
  | Done (VNum err, cc) =>
      if (0 <? cc) && (err =? SA_OK)
      then stored_by_array host byte_order (m_reply m) buffer
      else [Some (VNum err)]
  | _ => [None]
  end.

(** * Correctness *)

(** Every type the table refers to is well-formed. *)
Lemma hpi_marshal_wf :
  forallb (fun m => forallb wf_type (m_request m) && forallb wf_type (m_reply m))
          hpi_marshal = true.
Proof. vm_compute. reflexivity. Qed.

Lemma HpiMarshalFind_in id m : HpiMarshalFind id = Some m -> In m hpi_marshal.
Proof.
  unfold HpiMarshalFind. destruct (_ || _); [done|]. intros H.
  apply list_elem_of_In. by eapply list_elem_of_lookup_2.
Qed.

Lemma HpiMarshalFind_wf id m : HpiMarshalFind id = Some m ->
  forallb wf_type (m_request m) = true /\ forallb wf_type (m_reply m) = true.
Proof.
  intros H%HpiMarshalFind_in.
  by apply (proj1 (forallb_forall _ _) hpi_marshal_wf m), andb_true_iff in H.
Qed.

(** Every reply starts with the result. *)
Lemma hpi_marshal_results :
  forallb (fun m => match m_reply m with Simple eMtInt32 :: _ => true | _ => false end)
          hpi_marshal = true.
Proof. vm_compute. reflexivity. Qed.

Lemma HpiMarshalFind_result id m : HpiMarshalFind id = Some m ->
  exists ts, m_reply m = SaErrorType :: ts.
Proof.
  intros H%HpiMarshalFind_in.
  apply (proj1 (forallb_forall _ _) hpi_marshal_results m) in H.
  destruct (m_reply m) as [|[[]| | | | | |] ts]; try done. by exists ts.
Qed.

(** The rows of the table are in the order of the identifiers. *)
Lemma hpi_marshal_ids :
  forallb (fun i => match hpi_marshal !! i with
                    | Some m => m_id m =? Z.of_nat i + 1 | None => false end)
          (seq 0 (length hpi_marshal)) = true.
Proof. vm_compute. reflexivity. Qed.

Lemma HpiMarshalFind_numbers id :
  if (1 <=? id) && (id <=? function_number eFsaHpiFumiCleanup)
  then exists m, HpiMarshalFind id = Some m /\ m_id m = id
  else HpiMarshalFind id = None.
Proof.
  assert (N : hpi_marshal_num = function_number eFsaHpiFumiCleanup) by reflexivity.
  unfold HpiMarshalFind. cbv zeta. rewrite N.
  destruct (Z.leb_spec 1 id), (Z.leb_spec id (function_number eFsaHpiFumiCleanup));
    cbn [andb].
  all: destruct (Z.ltb_spec (id - 1) 0), (Z.leb_spec (function_number eFsaHpiFumiCleanup) (id - 1));
    cbn [orb]; try lia; try done.
  assert (Hin : In (Z.to_nat (id - 1)) (seq 0 (length hpi_marshal))).
  { apply in_seq. unfold hpi_marshal_num in N. lia. }
  apply (proj1 (forallb_forall _ _) hpi_marshal_ids) in Hin.
  destruct (hpi_marshal !! Z.to_nat (id - 1)) as [m|]; [|done].
  exists m. split; [done|]. apply Z.eqb_eq in Hin. lia.
Qed.

(** HpiMarshalFind finds the row of every function by its identifier,
    though the row is taken by its position, and nothing for any other
    number. *)
Theorem HpiMarshalFind_correct id :
  if (1 <=? id) && (id <=? function_number eFsaHpiFumiCleanup)
  then exists m, HpiMarshalFind id = Some m /\ m_id m = id
  else HpiMarshalFind id = None.
Proof. apply HpiMarshalFind_numbers. Qed.

(** The coder of a request, and of a reply without error. *)
Lemma request_coder host byte_order id m : HpiMarshalFind id = Some m ->
  Coder (args_typed (m_request m)) (args_max (m_request m))
        (HpiMarshalRequest byte_order m) (HpiDemarshalRequest host byte_order m).
Proof. intros H. apply args_coder. by apply (HpiMarshalFind_wf id). Qed.

(** The values a reply may consist of: an error code, or [SA_OK] and the
    results of the function. *)
Definition reply_typed (m : cHpiMarshal) (ps : list value) : bool :=
  match ps with
  | VNum err :: ps' =>
      if err =? SA_OK then args_typed (m_reply m) ps
      else num_typed eMtInt32 err && match ps' with [] => true | _ => false end
  | _ => false
  end.

Lemma demarshal_error host byte_order b v cc :
  Demarshal host byte_order SaErrorType b = Done (v, cc) -> cc = 4 /\ exists err, v = VNum err.
Proof.
  change (Demarshal host byte_order SaErrorType b)
    with (DemarshalSimpleTypes host byte_order eMtInt32 b).
  unfold DemarshalSimpleTypes. cbv zeta.
  destruct (length b <? sizeof eMtInt32)%nat; [done|]. intros [= <- <-]. eauto.
Qed.

(** The arguments of a reply start with the value read as the result. *)
Lemma demarshal_reply_head host byte_order ts b vs n :
  DemarshalArray host byte_order (SaErrorType :: ts) b = Done (vs, n) ->
  exists err vs', vs = VNum err :: vs' /\
    Demarshal host byte_order SaErrorType b = Done (VNum err, 4).
Proof.
  cbn [DemarshalArray].
  destruct (Demarshal host byte_order SaErrorType b) as [[v cc]| |] eqn:E; try done.
  destruct (demarshal_error _ _ _ _ _ E) as (-> & err & ->). cbn [obind].
  destruct (DemarshalArray _ _ _ _) as [[vs' m]| |]; [|done..].
  intros [= <- <-]. eauto.
Qed.

Lemma reply_coder host byte_order id m : HpiMarshalFind id = Some m ->
  Coder (reply_typed m) (args_max (m_reply m))
        (HpiMarshalReply byte_order m) (HpiDemarshalReply host byte_order m).
Proof.
  intros H. pose proof (proj2 (HpiMarshalFind_wf _ _ H)) as Hwf.
  destruct (HpiMarshalFind_result _ _ H) as [ts Hts].
  pose proof (args_coder host byte_order _ Hwf) as C.
  pose proof (simple_coder host byte_order eMtInt32) as CE.
  assert (Hmx : 4 <= args_max (m_reply m)).
  { rewrite Hts. cbn. pose proof (args_max_nonneg ts). unfold args_max in *. lia. }
  unfold HpiMarshalReply, HpiDemarshalReply. split.
  - intros [|[|err| |] ps]; try done. cbn [reply_typed].
    destruct (err =? SA_OK) eqn:Ee.
    + intros Ht. destruct (coder_enc _ _ _ _ C _ Ht) as (bs & HM & Hb & Hl & HR).
      exists bs. split_and!; try done. intros rest. specialize (HR rest).
      pose proof HR as HR'. rewrite Hts in HR'.
      destruct (demarshal_reply_head _ _ _ _ _ _ HR') as (err' & vs' & [= <- <-] & ->).
      cbn [obind]. rewrite Ee. exact HR.
    + intros [Ht Hps]%andb_true_iff. destruct ps; [|done].
      destruct (coder_enc _ _ _ _ CE (VNum err) Ht) as (bs & HM & Hb & Hl & HR).
      exists bs. split_and!; try done. { cbn in Hl. lia. }
      intros rest. change (Demarshal host byte_order SaErrorType)
        with (DemarshalSimpleTypes host byte_order eMtInt32).
      rewrite HR. pose proof (HR rest) as HR'.
      destruct (demarshal_error _ _ _ _ _ HR') as [Hcc _]. cbn [obind].
      rewrite Hcc. cbn. by rewrite Ee.
  - intros b vs n Hb.
    destruct (Demarshal host byte_order SaErrorType b) as [[v cc]| |] eqn:E; try done.
    destruct (demarshal_error _ _ _ _ _ E) as (-> & err & ->). cbn [obind].
    destruct (err =? SA_OK) eqn:Ee; cbn -[DemarshalArray reply_typed].
    + intros HD. destruct (coder_dec _ _ _ _ C _ _ _ Hb HD) as (Ht & Hn & HM).
      rewrite Hts in HD.
      destruct (demarshal_reply_head _ _ _ _ _ _ HD) as (err' & vs' & -> & E').
      rewrite E in E'. injection E' as <-. cbn [reply_typed]. by rewrite Ee.
    + intros [= <- <-]. destruct (coder_dec _ _ _ _ CE _ _ _ Hb E) as (Ht & Hn & HM).
      cbn [reply_typed]. rewrite Ee. split_and!; try done; try lia.
      apply andb_true_iff. done.
  - intros b Hb.
    destruct (coder_err _ _ _ _ CE b Hb) as [(v & n & E)|[E|[E Hl]]];
      change (DemarshalSimpleTypes host byte_order eMtInt32)
        with (Demarshal host byte_order SaErrorType) in E; rewrite E; cbn [obind].
    + destruct (demarshal_error _ _ _ _ _ E) as (-> & err & ->).
      destruct (err =? SA_OK); cbn -[DemarshalArray]; [by apply C|eauto].
    + auto.
    + right; right. cbn in Hl. split; [done|lia].
Qed.

(** C12: A request that a client of either byte order marshals is read back
    by the daemon with the same arguments, and a reply of the daemon by the
    client, whatever follows in the buffers; an error reply carries the error
    code alone. *)
Theorem rpc_roundtrip id m client server :
  HpiMarshalFind id = Some m ->
  (forall args, args_typed (m_request m) args = true ->
     exists bs, HpiMarshalRequest client m args = Done bs /\
       Z.of_nat (length bs) <= args_max (m_request m) /\
       forall rest, HpiDemarshalRequest server client m (bs ++ rest) =
                    Done (args, Z.of_nat (length bs))) /\
  (forall results, args_typed (m_reply m) (VNum SA_OK :: results) = true ->
     exists bs, HpiMarshalReply server m (VNum SA_OK :: results) = Done bs /\
       Z.of_nat (length bs) <= args_max (m_reply m) /\
       forall rest, HpiDemarshalReply client server m (bs ++ rest) =
                    Done (VNum SA_OK :: results, Z.of_nat (length bs))) /\
  (forall err results, err <> SA_OK -> num_typed eMtInt32 err = true ->
     exists bs, HpiMarshalReply server m (VNum err :: results) = Done bs /\
       length bs = 4%nat /\
       forall rest, HpiDemarshalReply client server m (bs ++ rest) = Done ([VNum err], 4)).
Proof.
  intros H. pose proof (request_coder server client _ _ H) as CQ.
  pose proof (reply_coder client server _ _ H) as CP. split_and!.
  - intros args Ha. destruct (coder_enc _ _ _ _ CQ _ Ha) as (bs & HM & _ & Hl & HR). eauto.
  - intros rs Hr. destruct (coder_enc _ _ _ _ CP (VNum SA_OK :: rs) Hr) as (bs & HM & _ & Hl & HR).
    eauto.
  - intros err rs He Ht. apply Z.eqb_neq in He.
    assert (Hr : reply_typed m [VNum err] = true)
      by (cbn [reply_typed]; by rewrite He, Ht).
    destruct (coder_enc _ _ _ _ CP _ Hr) as (bs & HM & _ & _ & HR).
    exists bs. unfold HpiMarshalReply in *. rewrite He in *.
    assert (Hl : length bs = 4%nat).
    { cbn [Marshal] in HM. change (Marshal server SaErrorType (VNum err))
        with (Done (store server 4 err)) in HM. injection HM as <-. apply store_length. }
    split_and!; [done..|]. intros rest. by rewrite HR, Hl.
Qed.

(** C13: Whatever bytes the network delivers, the daemon's reading of a
    request ends with well-typed arguments whose marshalled form is exactly
    the bytes consumed, or with [-EINVAL]; it reads beyond the bytes only if
    they are fewer than the largest request of the function has. *)
Theorem request_from_network id m client server data :
  HpiMarshalFind id = Some m -> Forall byte data ->
  match HpiDemarshalRequest server client m data with
  | Done (args, n) =>
      args_typed (m_request m) args = true /\ 0 <= n <= Z.of_nat (length data) /\
      HpiMarshalRequest client m args = Done (take (Z.to_nat n) data)
  | Cc cc => cc = - EINVAL
  | Undefined => Z.of_nat (length data) < args_max (m_request m)
  end.
Proof.
  intros H Hb. pose proof (request_coder server client _ _ H) as C.
  destruct (coder_err _ _ _ _ C data Hb) as [(v & n & E)|[E|[E Hl]]].
  - rewrite E. apply (coder_dec _ _ _ _ C _ _ _ Hb E).
  - by rewrite E.
  - by rewrite E.
Qed.

Definition discover_row : cHpiMarshal :=
  dHpiMarshalEntry eFsaHpiDiscover "saHpiDiscover" saHpiDiscoverIn saHpiDiscoverOut.

Lemma rpc_roundtrip_witness :
  (exists bs, HpiMarshalRequest BigEndian discover_row [VNum 7] = Done bs /\
     Z.of_nat (length bs) <= 4 /\
     forall rest, HpiDemarshalRequest LittleEndian BigEndian discover_row (bs ++ rest) =
                  Done ([VNum 7], Z.of_nat (length bs))) /\
  (exists bs, HpiMarshalReply LittleEndian discover_row [VNum SA_ERR_HPI_INVALID_SESSION] = Done bs /\
     length bs = 4%nat /\
     forall rest, HpiDemarshalReply BigEndian LittleEndian discover_row (bs ++ rest) =
                  Done ([VNum SA_ERR_HPI_INVALID_SESSION], 4)).
Proof.
  destruct (rpc_roundtrip (function_number eFsaHpiDiscover) discover_row BigEndian LittleEndian eq_refl)
    as (H1 & _ & H3). split; [by apply H1|by apply H3].
Defined.

Lemma request_from_network_witness :
  match HpiDemarshalRequest BigEndian LittleEndian discover_row [7; 0; 0; 0; 9] with
  | Done (args, n) =>
      args_typed (m_request discover_row) args = true /\ 0 <= n <= 5 /\
      HpiMarshalRequest LittleEndian discover_row args = Done (take (Z.to_nat n) [7; 0; 0; 0; 9])
  | Cc cc => cc = - EINVAL
  | Undefined => 5 < args_max (m_request discover_row)
  end.
Proof.
  apply (request_from_network (function_number eFsaHpiDiscover) discover_row LittleEndian BigEndian
           [7; 0; 0; 0; 9] eq_refl).
  repeat constructor; by vm_compute.
Defined.
