(* ===== verification/MarshalStructs.v ===== *)
(** The C declarations of the structures that cross the wire
    (include/SaHpi.h, include/oHpi.h, marshal/marshal_hpi_types.h), and their
    agreement with the marshalling tables.

    A declaration lists the fields with their types, typedefs of numbers being
    resolved; an enumeration has the size of an [unsigned int]. *)
From S2P Require Import Prelude SaHpi Marshal MarshalTypes.
#[local] Open Scope string_scope.
#[local] Open Scope Z_scope.

Inductive ctype :=
| CNum (t : tSimpleType)
| CEnum (name : string)
| CArray (element : ctype) (n : Z)
| CPointer (element : ctype)
| CStruct (fields : list (string * ctype))
| CUnion (members : list (string * ctype)).

(** * Declarations *)

Definition SaHpiTextBufferT_decl : ctype :=
  CStruct [("DataType", CEnum "SaHpiTextTypeT");
    ("Language", CEnum "SaHpiLanguageT");
    ("DataLength", CNum eMtUint8);
    ("Data", CArray (CNum eMtUint8) (Z.of_nat SAHPI_MAX_TEXT_BUFFER_LENGTH))].
Definition oHpiHandlerConfigParamT_decl : ctype :=
  CStruct [("Name", CArray (CNum eMtUint8) (Z.of_nat SAHPI_MAX_TEXT_BUFFER_LENGTH));
    ("Value", CArray (CNum eMtUint8) (Z.of_nat SAHPI_MAX_TEXT_BUFFER_LENGTH))].
Definition oHpiHandlerConfigT_decl : ctype :=
  CStruct [("NumberOfParams", CNum eMtUint8);
    ("Params", CPointer oHpiHandlerConfigParamT_decl)].
Definition SaHpiEntityT_decl : ctype :=
  CStruct [("EntityType", CEnum "SaHpiEntityTypeT");
    ("EntityLocation", CNum eMtUint32)].
Definition SaHpiEntityPathT_decl : ctype :=
  CStruct [("Entry", CArray SaHpiEntityT_decl (Z.of_nat SAHPI_MAX_ENTITY_PATH))].
Definition SaHpiSensorReadingUnionT_decl : ctype :=
  CUnion [("SensorInt64", CNum eMtInt64);
    ("SensorUint64", CNum eMtUint64);
    ("SensorFloat64", CNum eMtFloat64);
    ("SensorBuffer", CArray (CNum eMtUint8) SAHPI_SENSOR_BUFFER_LENGTH)].
Definition SaHpiSensorReadingT_decl : ctype :=
  CStruct [("IsSupported", CNum eMtUint8);
    ("Type", CEnum "SaHpiSensorReadingTypeT");
    ("Value", SaHpiSensorReadingUnionT_decl)].
Definition SaHpiSensorThresholdsT_decl : ctype :=
  CStruct [("LowCritical", SaHpiSensorReadingT_decl);
    ("LowMajor", SaHpiSensorReadingT_decl);
    ("LowMinor", SaHpiSensorReadingT_decl);
    ("UpCritical", SaHpiSensorReadingT_decl);
    ("UpMajor", SaHpiSensorReadingT_decl);
    ("UpMinor", SaHpiSensorReadingT_decl);
    ("PosThdHysteresis", SaHpiSensorReadingT_decl);
    ("NegThdHysteresis", SaHpiSensorReadingT_decl)].
Definition SaHpiSensorRangeT_decl : ctype :=
  CStruct [("Flags", CNum eMtUint8);
    ("Max", SaHpiSensorReadingT_decl);
    ("Min", SaHpiSensorReadingT_decl);
    ("Nominal", SaHpiSensorReadingT_decl);
    ("NormalMax", SaHpiSensorReadingT_decl);
    ("NormalMin", SaHpiSensorReadingT_decl)].
Definition SaHpiSensorDataFormatT_decl : ctype :=
  CStruct [("IsSupported", CNum eMtUint8);
    ("ReadingType", CEnum "SaHpiSensorReadingTypeT");
    ("BaseUnits", CEnum "SaHpiSensorUnitsT");
    ("ModifierUnits", CEnum "SaHpiSensorUnitsT");
    ("ModifierUse", CEnum "SaHpiSensorModUnitUseT");
    ("Percentage", CNum eMtUint8);
    ("Range", SaHpiSensorRangeT_decl);
    ("AccuracyFactor", CNum eMtFloat64)].
Definition SaHpiSensorThdDefnT_decl : ctype :=
  CStruct [("IsAccessible", CNum eMtUint8);
    ("ReadThold", CNum eMtUint8);
    ("WriteThold", CNum eMtUint8);
    ("Nonlinear", CNum eMtUint8)].
Definition SaHpiSensorRecT_decl : ctype :=
  CStruct [("Num", CNum eMtUint32);
    ("Type", CEnum "SaHpiSensorTypeT");
    ("Category", CNum eMtUint8);
    ("EnableCtrl", CNum eMtUint8);
    ("EventCtrl", CEnum "SaHpiSensorEventCtrlT");
    ("Events", CNum eMtUint16);
    ("DataFormat", SaHpiSensorDataFormatT_decl);
    ("ThresholdDefn", SaHpiSensorThdDefnT_decl);
    ("Oem", CNum eMtUint32)].
Definition SaHpiCtrlStateStreamT_decl : ctype :=
  CStruct [("Repeat", CNum eMtUint8);
    ("StreamLength", CNum eMtUint32);
    ("Stream", CArray (CNum eMtUint8) SAHPI_CTRL_MAX_STREAM_LENGTH)].
Definition SaHpiCtrlStateTextT_decl : ctype :=
  CStruct [("Line", CNum eMtUint8);
    ("Text", SaHpiTextBufferT_decl)].
Definition SaHpiCtrlStateOemT_decl : ctype :=
  CStruct [("MId", CNum eMtUint32);
    ("BodyLength", CNum eMtUint8);
    ("Body", CArray (CNum eMtUint8) SAHPI_CTRL_MAX_OEM_BODY_LENGTH)].
Definition SaHpiCtrlStateUnionT_decl : ctype :=
  CUnion [("Digital", CEnum "SaHpiCtrlStateDigitalT");
    ("Discrete", CNum eMtUint32);
    ("Analog", CNum eMtInt32);
    ("Stream", SaHpiCtrlStateStreamT_decl);
    ("Text", SaHpiCtrlStateTextT_decl);
    ("Oem", SaHpiCtrlStateOemT_decl)].
Definition SaHpiCtrlStateT_decl : ctype :=
  CStruct [("Type", CEnum "SaHpiCtrlTypeT");
    ("StateUnion", SaHpiCtrlStateUnionT_decl)].
Definition SaHpiCtrlRecDigitalT_decl : ctype :=
  CStruct [("Default", CEnum "SaHpiCtrlStateDigitalT")].
Definition SaHpiCtrlRecDiscreteT_decl : ctype :=
  CStruct [("Default", CNum eMtUint32)].
Definition SaHpiCtrlRecAnalogT_decl : ctype :=
  CStruct [("Min", CNum eMtInt32);
    ("Max", CNum eMtInt32);
    ("Default", CNum eMtInt32)].
Definition SaHpiCtrlRecStreamT_decl : ctype :=
  CStruct [("Default", SaHpiCtrlStateStreamT_decl)].
Definition SaHpiCtrlRecTextT_decl : ctype :=
  CStruct [("MaxChars", CNum eMtUint8);
    ("MaxLines", CNum eMtUint8);
    ("Language", CEnum "SaHpiLanguageT");
    ("DataType", CEnum "SaHpiTextTypeT");
    ("Default", SaHpiCtrlStateTextT_decl)].
Definition SaHpiCtrlRecOemT_decl : ctype :=
  CStruct [("MId", CNum eMtUint32);
    ("ConfigData", CArray (CNum eMtUint8) SAHPI_CTRL_OEM_CONFIG_LENGTH);
    ("Default", SaHpiCtrlStateOemT_decl)].
Definition SaHpiCtrlDefaultModeT_decl : ctype :=
  CStruct [("Mode", CEnum "SaHpiCtrlModeT");
    ("ReadOnly", CNum eMtUint8)].
Definition SaHpiCtrlRecUnionT_decl : ctype :=
  CUnion [("Digital", SaHpiCtrlRecDigitalT_decl);
    ("Discrete", SaHpiCtrlRecDiscreteT_decl);
    ("Analog", SaHpiCtrlRecAnalogT_decl);
    ("Stream", SaHpiCtrlRecStreamT_decl);
    ("Text", SaHpiCtrlRecTextT_decl);
    ("Oem", SaHpiCtrlRecOemT_decl)].
Definition SaHpiCtrlRecT_decl : ctype :=
  CStruct [("Num", CNum eMtUint32);
    ("OutputType", CEnum "SaHpiCtrlOutputTypeT");
    ("Type", CEnum "SaHpiCtrlTypeT");
    ("TypeUnion", SaHpiCtrlRecUnionT_decl);
    ("DefaultMode", SaHpiCtrlDefaultModeT_decl);
    ("WriteOnly", CNum eMtUint8);
    ("Oem", CNum eMtUint32)].
Definition SaHpiIdrFieldT_decl : ctype :=
  CStruct [("AreaId", CNum eMtUint32);
    ("FieldId", CNum eMtUint32);
    ("Type", CEnum "SaHpiIdrFieldTypeT");
    ("ReadOnly", CNum eMtUint8);
    ("Field", SaHpiTextBufferT_decl)].
Definition SaHpiIdrAreaHeaderT_decl : ctype :=
  CStruct [("AreaId", CNum eMtUint32);
    ("Type", CEnum "SaHpiIdrAreaTypeT");
    ("ReadOnly", CNum eMtUint8);
    ("NumFields", CNum eMtUint32)].
Definition SaHpiIdrInfoT_decl : ctype :=
  CStruct [("IdrId", CNum eMtUint32);
    ("UpdateCount", CNum eMtUint32);
    ("ReadOnly", CNum eMtUint8);
    ("NumAreas", CNum eMtUint32)].
Definition SaHpiInventoryRecT_decl : ctype :=
  CStruct [("IdrId", CNum eMtUint32);
    ("Persistent", CNum eMtUint8);
    ("Oem", CNum eMtUint32)].
Definition SaHpiWatchdogT_decl : ctype :=
  CStruct [("Log", CNum eMtUint8);
    ("Running", CNum eMtUint8);
    ("TimerUse", CEnum "SaHpiWatchdogTimerUseT");
    ("TimerAction", CEnum "SaHpiWatchdogActionT");
    ("PretimerInterrupt", CEnum "SaHpiWatchdogPretimerInterruptT");
    ("PreTimeoutInterval", CNum eMtUint32);
    ("TimerUseExpFlags", CNum eMtUint8);
    ("InitialCount", CNum eMtUint32);
    ("PresentCount", CNum eMtUint32)].
Definition SaHpiWatchdogRecT_decl : ctype :=
  CStruct [("WatchdogNum", CNum eMtUint32);
    ("Oem", CNum eMtUint32)].
Definition SaHpiNameT_decl : ctype :=
  CStruct [("Length", CNum eMtUint16);
    ("Value", CArray (CNum eMtUint8) SA_HPI_MAX_NAME_LENGTH)].
Definition SaHpiConditionT_decl : ctype :=
  CStruct [("Type", CEnum "SaHpiStatusCondTypeT");
    ("Entity", SaHpiEntityPathT_decl);
    ("DomainId", CNum eMtUint32);
    ("ResourceId", CNum eMtUint32);
    ("SensorNum", CNum eMtUint32);
    ("EventState", CNum eMtUint16);
    ("Name", SaHpiNameT_decl);
    ("Mid", CNum eMtUint32);
    ("Data", SaHpiTextBufferT_decl)].
Definition SaHpiAnnouncementT_decl : ctype :=
  CStruct [("EntryId", CNum eMtUint32);
    ("Timestamp", CNum eMtInt64);
    ("AddedByUser", CNum eMtUint8);
    ("Severity", CEnum "SaHpiSeverityT");
    ("Acknowledged", CNum eMtUint8);
    ("StatusCond", SaHpiConditionT_decl)].
Definition SaHpiAnnunciatorRecT_decl : ctype :=
  CStruct [("AnnunciatorNum", CNum eMtUint32);
    ("AnnunciatorType", CEnum "SaHpiAnnunciatorTypeT");
    ("ModeReadOnly", CNum eMtUint8);
    ("MaxConditions", CNum eMtUint32);
    ("Oem", CNum eMtUint32)].
Definition SaHpiDimiInfoT_decl : ctype :=
  CStruct [("NumberOfTests", CNum eMtUint32);
    ("TestNumUpdateCounter", CNum eMtUint32)].
Definition SaHpiDimiTestParameterValueUnionT_decl : ctype :=
  CUnion [("IntValue", CNum eMtInt32);
    ("FloatValue", CNum eMtFloat64)].
Definition SaHpiDimiTestParamValueT_decl : ctype :=
  CUnion [("paramint", CNum eMtInt32);
    ("parambool", CNum eMtUint8);
    ("paramfloat", CNum eMtFloat64);
    ("paramtext", SaHpiTextBufferT_decl)].
Definition SaHpiDimiTestParamsDefinitionT_decl : ctype :=
  CStruct [("ParamName", CArray (CNum eMtUint8) SAHPI_DIMITEST_PARAM_NAME_LEN);
    ("ParamInfo", SaHpiTextBufferT_decl);
    ("ParamType", CEnum "SaHpiDimiTestParamTypeT");
    ("MinValue", SaHpiDimiTestParameterValueUnionT_decl);
    ("MaxValue", SaHpiDimiTestParameterValueUnionT_decl);
    ("DefaultParam", SaHpiDimiTestParamValueT_decl)].
Definition SaHpiDimiTestAffectedEntityT_decl : ctype :=
  CStruct [("EntityImpacted", SaHpiEntityPathT_decl);
    ("ServiceImpact", CEnum "SaHpiDimiTestServiceImpactT")].
Definition SaHpiDimiTestT_decl : ctype :=
  CStruct [("TestName", SaHpiTextBufferT_decl);
    ("ServiceImpact", CEnum "SaHpiDimiTestServiceImpactT");
    ("EntitiesImpacted", CArray SaHpiDimiTestAffectedEntityT_decl SAHPI_DIMITEST_MAX_ENTITIESIMPACTED);
    ("NeedServiceOS", CNum eMtUint8);
    ("ServiceOS", SaHpiTextBufferT_decl);
    ("ExpectedRunDuration", CNum eMtInt64);
    ("TestCapabilities", CNum eMtUint32);
    ("TestParameters", CArray SaHpiDimiTestParamsDefinitionT_decl SAHPI_DIMITEST_MAX_PARAMETERS)].
Definition SaHpiDimiTestResultsT_decl : ctype :=
  CStruct [("ResultTimeStamp", CNum eMtInt64);
    ("RunDuration", CNum eMtInt64);
    ("LastRunStatus", CEnum "SaHpiDimiTestRunStatusT");
    ("TestErrorCode", CEnum "SaHpiDimiTestErrCodeT");
    ("TestResultString", SaHpiTextBufferT_decl);
    ("TestResultStringIsURI", CNum eMtUint8)].
Definition SaHpiDimiTestVariableParamsT_decl : ctype :=
  CStruct [("ParamName", CArray (CNum eMtUint8) SAHPI_DIMITEST_PARAM_NAME_LEN);
    ("ParamType", CEnum "SaHpiDimiTestParamTypeT");
    ("Value", SaHpiDimiTestParamValueT_decl)].
Definition SaHpiDimiTestVariableParamsListT_decl : ctype :=
  CStruct [("NumberOfParams", CNum eMtUint8);
    ("ParamsList", CPointer SaHpiDimiTestVariableParamsT_decl)].
Definition SaHpiDimiRecT_decl : ctype :=
  CStruct [("DimiNum", CNum eMtUint32);
    ("Oem", CNum eMtUint32)].
Definition SaHpiFumiSafDefinedSpecInfoT_decl : ctype :=
  CStruct [("SpecID", CEnum "SaHpiFumiSafDefinedSpecIdT");
    ("RevisionID", CNum eMtUint32)].
Definition SaHpiFumiOemDefinedSpecInfoT_decl : ctype :=
  CStruct [("Mid", CNum eMtUint32);
    ("BodyLength", CNum eMtUint8);
    ("Body", CArray (CNum eMtUint8) SAHPI_FUMI_MAX_OEM_BODY_LENGTH)].
Definition SaHpiFumiSpecInfoTypeUnionT_decl : ctype :=
  CUnion [("SafDefined", SaHpiFumiSafDefinedSpecInfoT_decl);
    ("OemDefined", SaHpiFumiOemDefinedSpecInfoT_decl)].
Definition SaHpiFumiSpecInfoT_decl : ctype :=
  CStruct [("SpecInfoType", CEnum "SaHpiFumiSpecInfoTypeT");
    ("SpecInfoTypeUnion", SaHpiFumiSpecInfoTypeUnionT_decl)].
Definition SaHpiFumiImpactedEntityT_decl : ctype :=
  CStruct [("ImpactedEntity", SaHpiEntityPathT_decl);
    ("ServiceImpact", CEnum "SaHpiFumiServiceImpactT")].
Definition SaHpiFumiServiceImpactDataT_decl : ctype :=
  CStruct [("NumEntities", CNum eMtUint32);
    ("ImpactedEntities", CArray SaHpiFumiImpactedEntityT_decl SAHPI_FUMI_MAX_ENTITIES_IMPACTED)].
Definition SaHpiFumiSourceInfoT_decl : ctype :=
  CStruct [("SourceUri", SaHpiTextBufferT_decl);
    ("SourceStatus", CEnum "SaHpiFumiSourceStatusT");
    ("Identifier", SaHpiTextBufferT_decl);
    ("Description", SaHpiTextBufferT_decl);
    ("DateTime", SaHpiTextBufferT_decl);
    ("MajorVersion", CNum eMtUint32);
    ("MinorVersion", CNum eMtUint32);
    ("AuxVersion", CNum eMtUint32)].
Definition SaHpiFumiBankInfoT_decl : ctype :=
  CStruct [("BankId", CNum eMtUint8);
    ("BankSize", CNum eMtUint32);
    ("Position", CNum eMtUint32);
    ("BankState", CEnum "SaHpiFumiBankStateT");
    ("Identifier", SaHpiTextBufferT_decl);
    ("Description", SaHpiTextBufferT_decl);
    ("DateTime", SaHpiTextBufferT_decl);
    ("MajorVersion", CNum eMtUint32);
    ("MinorVersion", CNum eMtUint32);
    ("AuxVersion", CNum eMtUint32)].
Definition SaHpiFumiFirmwareInstanceInfoT_decl : ctype :=
  CStruct [("InstancePresent", CNum eMtUint8);
    ("Identifier", SaHpiTextBufferT_decl);
    ("Description", SaHpiTextBufferT_decl);
    ("DateTime", SaHpiTextBufferT_decl);
    ("MajorVersion", CNum eMtUint32);
    ("MinorVersion", CNum eMtUint32);
    ("AuxVersion", CNum eMtUint32)].
Definition SaHpiFumiLogicalBankInfoT_decl : ctype :=
  CStruct [("FirmwarePersistentLocationCount", CNum eMtUint8);
    ("BankStateFlags", CNum eMtUint32);
    ("PendingFwInstance", SaHpiFumiFirmwareInstanceInfoT_decl);
    ("RollbackFwInstance", SaHpiFumiFirmwareInstanceInfoT_decl)].
Definition SaHpiFumiComponentInfoT_decl : ctype :=
  CStruct [("EntryId", CNum eMtUint32);
    ("ComponentId", CNum eMtUint32);
    ("MainFwInstance", SaHpiFumiFirmwareInstanceInfoT_decl);
    ("ComponentFlags", CNum eMtUint32)].
Definition SaHpiFumiLogicalComponentInfoT_decl : ctype :=
  CStruct [("EntryId", CNum eMtUint32);
    ("ComponentId", CNum eMtUint32);
    ("PendingFwInstance", SaHpiFumiFirmwareInstanceInfoT_decl);
    ("RollbackFwInstance", SaHpiFumiFirmwareInstanceInfoT_decl);
    ("ComponentFlags", CNum eMtUint32)].
Definition SaHpiFumiRecT_decl : ctype :=
  CStruct [("Num", CNum eMtUint32);
    ("AccessProt", CNum eMtUint32);
    ("Capability", CNum eMtUint32);
    ("NumBanks", CNum eMtUint8);
    ("Oem", CNum eMtUint32)].
Definition SaHpiRdrTypeUnionT_decl : ctype :=
  CUnion [("CtrlRec", SaHpiCtrlRecT_decl);
    ("SensorRec", SaHpiSensorRecT_decl);
    ("InventoryRec", SaHpiInventoryRecT_decl);
    ("WatchdogRec", SaHpiWatchdogRecT_decl);
    ("AnnunciatorRec", SaHpiAnnunciatorRecT_decl);
    ("DimiRec", SaHpiDimiRecT_decl);
    ("FumiRec", SaHpiFumiRecT_decl)].
Definition SaHpiRdrT_decl : ctype :=
  CStruct [("RecordId", CNum eMtUint32);
    ("RdrType", CEnum "SaHpiRdrTypeT");
    ("Entity", SaHpiEntityPathT_decl);
    ("IsFru", CNum eMtUint8);
    ("RdrTypeUnion", SaHpiRdrTypeUnionT_decl);
    ("IdString", SaHpiTextBufferT_decl)].
Definition SaHpiResourceEventT_decl : ctype :=
  CStruct [("ResourceEventType", CEnum "SaHpiResourceEventTypeT")].
Definition SaHpiDomainEventT_decl : ctype :=
  CStruct [("Type", CEnum "SaHpiDomainEventTypeT");
    ("DomainId", CNum eMtUint32)].
Definition SaHpiSensorEventT_decl : ctype :=
  CStruct [("SensorNum", CNum eMtUint32);
    ("SensorType", CEnum "SaHpiSensorTypeT");
    ("EventCategory", CNum eMtUint8);
    ("Assertion", CNum eMtUint8);
    ("EventState", CNum eMtUint16);
    ("OptionalDataPresent", CNum eMtUint8);
    ("TriggerReading", SaHpiSensorReadingT_decl);
    ("TriggerThreshold", SaHpiSensorReadingT_decl);
    ("PreviousState", CNum eMtUint16);
    ("CurrentState", CNum eMtUint16);
    ("Oem", CNum eMtUint32);
    ("SensorSpecific", CNum eMtUint32)].
Definition SaHpiSensorEnableChangeEventT_decl : ctype :=
  CStruct [("SensorNum", CNum eMtUint32);
    ("SensorType", CEnum "SaHpiSensorTypeT");
    ("EventCategory", CNum eMtUint8);
    ("SensorEnable", CNum eMtUint8);
    ("SensorEventEnable", CNum eMtUint8);
    ("AssertEventMask", CNum eMtUint16);
    ("DeassertEventMask", CNum eMtUint16);
    ("OptionalDataPresent", CNum eMtUint8);
    ("CurrentState", CNum eMtUint16);
    ("CriticalAlarms", CNum eMtUint16);
    ("MajorAlarms", CNum eMtUint16);
    ("MinorAlarms", CNum eMtUint16)].
Definition SaHpiHotSwapEventT_decl : ctype :=
  CStruct [("HotSwapState", CEnum "SaHpiHsStateT");
    ("PreviousHotSwapState", CEnum "SaHpiHsStateT");
    ("CauseOfStateChange", CEnum "SaHpiHsCauseOfStateChangeT")].
Definition SaHpiWatchdogEventT_decl : ctype :=
  CStruct [("WatchdogNum", CNum eMtUint32);
    ("WatchdogAction", CEnum "SaHpiWatchdogActionEventT");
    ("WatchdogPreTimerAction", CEnum "SaHpiWatchdogPretimerInterruptT");
    ("WatchdogUse", CEnum "SaHpiWatchdogTimerUseT")].
Definition SaHpiHpiSwEventT_decl : ctype :=
  CStruct [("MId", CNum eMtUint32);
    ("Type", CEnum "SaHpiSwEventTypeT");
    ("EventData", SaHpiTextBufferT_decl)].
Definition SaHpiOemEventT_decl : ctype :=
  CStruct [("MId", CNum eMtUint32);
    ("OemEventData", SaHpiTextBufferT_decl)].
Definition SaHpiUserEventT_decl : ctype :=
  CStruct [("UserEventData", SaHpiTextBufferT_decl)].
Definition SaHpiDimiEventT_decl : ctype :=
  CStruct [("DimiNum", CNum eMtUint32);
    ("TestNum", CNum eMtUint32);
    ("DimiTestRunStatus", CEnum "SaHpiDimiTestRunStatusT");
    ("DimiTestPercentCompleted", CNum eMtUint8)].
Definition SaHpiDimiUpdateEventT_decl : ctype :=
  CStruct [("DimiNum", CNum eMtUint32)].
Definition SaHpiFumiEventT_decl : ctype :=
  CStruct [("FumiNum", CNum eMtUint32);
    ("BankNum", CNum eMtUint8);
    ("UpgradeStatus", CEnum "SaHpiFumiUpgradeStatusT")].
Definition SaHpiEventUnionT_decl : ctype :=
  CUnion [("ResourceEvent", SaHpiResourceEventT_decl);
    ("DomainEvent", SaHpiDomainEventT_decl);
    ("SensorEvent", SaHpiSensorEventT_decl);
    ("SensorEnableChangeEvent", SaHpiSensorEnableChangeEventT_decl);
    ("HotSwapEvent", SaHpiHotSwapEventT_decl);
    ("WatchdogEvent", SaHpiWatchdogEventT_decl);
    ("HpiSwEvent", SaHpiHpiSwEventT_decl);
    ("OemEvent", SaHpiOemEventT_decl);
    ("UserEvent", SaHpiUserEventT_decl);
    ("DimiEvent", SaHpiDimiEventT_decl);
    ("DimiUpdateEvent", SaHpiDimiUpdateEventT_decl);
    ("FumiEvent", SaHpiFumiEventT_decl)].
Definition SaHpiEventT_decl : ctype :=
  CStruct [("Source", CNum eMtUint32);
    ("EventType", CEnum "SaHpiEventTypeT");
    ("Timestamp", CNum eMtInt64);
    ("Severity", CEnum "SaHpiSeverityT");
    ("EventDataUnion", SaHpiEventUnionT_decl)].
Definition SaHpiResourceInfoT_decl : ctype :=
  CStruct [("ResourceRev", CNum eMtUint8);
    ("SpecificVer", CNum eMtUint8);
    ("DeviceSupport", CNum eMtUint8);
    ("ManufacturerId", CNum eMtUint32);
    ("ProductId", CNum eMtUint16);
    ("FirmwareMajorRev", CNum eMtUint8);
    ("FirmwareMinorRev", CNum eMtUint8);
    ("AuxFirmwareRev", CNum eMtUint8);
    ("Guid", CArray (CNum eMtUint8) 16)].
Definition SaHpiRptEntryT_decl : ctype :=
  CStruct [("EntryId", CNum eMtUint32);
    ("ResourceId", CNum eMtUint32);
    ("ResourceInfo", SaHpiResourceInfoT_decl);
    ("ResourceEntity", SaHpiEntityPathT_decl);
    ("ResourceCapabilities", CNum eMtUint32);
    ("HotSwapCapabilities", CNum eMtUint32);
    ("ResourceSeverity", CEnum "SaHpiSeverityT");
    ("ResourceFailed", CNum eMtUint8);
    ("ResourceTag", SaHpiTextBufferT_decl)].
Definition SaHpiLoadIdT_decl : ctype :=
  CStruct [("LoadNumber", CNum eMtUint32);
    ("LoadName", SaHpiTextBufferT_decl)].
Definition SaHpiDomainInfoT_decl : ctype :=
  CStruct [("DomainId", CNum eMtUint32);
    ("DomainCapabilities", CNum eMtUint32);
    ("IsPeer", CNum eMtUint8);
    ("DomainTag", SaHpiTextBufferT_decl);
    ("DrtUpdateCount", CNum eMtUint32);
    ("DrtUpdateTimestamp", CNum eMtInt64);
    ("RptUpdateCount", CNum eMtUint32);
    ("RptUpdateTimestamp", CNum eMtInt64);
    ("DatUpdateCount", CNum eMtUint32);
    ("DatUpdateTimestamp", CNum eMtInt64);
    ("ActiveAlarms", CNum eMtUint32);
    ("CriticalAlarms", CNum eMtUint32);
    ("MajorAlarms", CNum eMtUint32);
    ("MinorAlarms", CNum eMtUint32);
    ("DatUserAlarmLimit", CNum eMtUint32);
    ("DatOverflow", CNum eMtUint8);
    ("Guid", CArray (CNum eMtUint8) 16)].
Definition SaHpiDrtEntryT_decl : ctype :=
  CStruct [("EntryId", CNum eMtUint32);
    ("DomainId", CNum eMtUint32);
    ("IsPeer", CNum eMtUint8)].
Definition SaHpiAlarmT_decl : ctype :=
  CStruct [("AlarmId", CNum eMtUint32);
    ("Timestamp", CNum eMtInt64);
    ("Severity", CEnum "SaHpiSeverityT");
    ("Acknowledged", CNum eMtUint8);
    ("AlarmCond", SaHpiConditionT_decl)].
Definition SaHpiEventLogInfoT_decl : ctype :=
  CStruct [("Entries", CNum eMtUint32);
    ("Size", CNum eMtUint32);
    ("UserEventMaxSize", CNum eMtUint32);
    ("UpdateTimestamp", CNum eMtInt64);
    ("CurrentTime", CNum eMtInt64);
    ("Enabled", CNum eMtUint8);
    ("OverflowFlag", CNum eMtUint8);
    ("OverflowResetable", CNum eMtUint8);
    ("OverflowAction", CEnum "SaHpiEventLogOverflowActionT")].
Definition SaHpiEventLogEntryT_decl : ctype :=
  CStruct [("EntryId", CNum eMtUint32);
    ("Timestamp", CNum eMtInt64);
    ("Event", SaHpiEventT_decl)].
Definition oHpiHandlerInfoT_decl : ctype :=
  CStruct [("id", CNum eMtUint32);
    ("plugin_name", CArray (CNum eMtUint8) MAX_PLUGIN_NAME_LENGTH);
    ("entity_root", SaHpiEntityPathT_decl);
    ("load_failed", CNum eMtInt32)].
Definition oHpiGlobalParamUnionT_decl : ctype :=
  CUnion [("OnEP", SaHpiEntityPathT_decl);
    ("LogOnSev", CEnum "SaHpiSeverityT");
    ("EvtQueueLimit", CNum eMtUint32);
    ("DelSizeLimit", CNum eMtUint32);
    ("DelSave", CNum eMtUint8);
    ("DatSizeLimit", CNum eMtUint32);
    ("DatUserLimit", CNum eMtUint32);
    ("DatSave", CNum eMtUint8);
    ("Path", CArray (CNum eMtUint8) OH_PATH_PARAM_MAX_LENGTH);
    ("VarPath", CArray (CNum eMtUint8) OH_PATH_PARAM_MAX_LENGTH);
    ("Conf", CArray (CNum eMtUint8) OH_PATH_PARAM_MAX_LENGTH)].
Definition oHpiGlobalParamT_decl : ctype :=
  CStruct [("Type", CEnum "oHpiGlobalParamTypeT");
    ("u", oHpiGlobalParamUnionT_decl)].

(** * Agreement *)

(** [t] marshals objects declared as [c]: numbers of the same size and sign,
    the same fields in the same order, and for every modifier of a union a
    member of it, or the single byte that stands for no member
    ([SaHpiVoidType]). *)
Fixpoint agrees (c : ctype) (t : cMarshalType) {struct c} : bool :=
  match c, t with
  | CNum s, Simple s' => bool_decide (s = s')
  | CEnum _, Simple s => bool_decide (s = eMtUint32)
  | CArray c' n, eMtArray _ n' e => (n =? n') && agrees c' e
  | CPointer c', eMtVarArray _ _ e => agrees c' e
  | CStruct fields, eMtStruct _ elems =>
      (fix go (fs : list (string * ctype)) (es : list (string * cMarshalType)) :=
         match fs, es with
         | [], [] => true
         | (f, c') :: fs', (n, e) :: es' => String.eqb f n && agrees c' e && go fs' es'
         | _, _ => false
         end) fields elems
  | CUnion members, eMtUnion _ _ us =>
      forallb (fun me : Z * cMarshalType =>
        match me.2 with Simple eMtUint8 => true | _ => false end ||
        (fix any (ms : list (string * ctype)) :=
           match ms with
           | [] => false
           | (_, c') :: ms' => agrees c' me.2 || any ms'
           end) members) us
  | _, _ => false
  end.

(** The fields of a declaration that its table does not name. *)
Definition fields_lost (c : ctype) (t : cMarshalType) : list string :=
  match c, t with
  | CStruct fields, eMtStruct _ elems =>
      filter (fun f => f ∉ elems.*1) fields.*1
  | _, _ => []
  end.

(** The structures with their tables. *)
Definition table_of : list (string * (ctype * cMarshalType)) :=
  [("SaHpiTextBufferT", (SaHpiTextBufferT_decl, SaHpiTextBufferType));
   ("oHpiHandlerConfigParamT", (oHpiHandlerConfigParamT_decl, oHpiHandlerConfigParamType));
   ("oHpiHandlerConfigT", (oHpiHandlerConfigT_decl, oHpiHandlerConfigType));
   ("SaHpiEntityT", (SaHpiEntityT_decl, SaHpiEntityType));
   ("SaHpiEntityPathT", (SaHpiEntityPathT_decl, SaHpiEntityPathType));
   ("SaHpiSensorReadingT", (SaHpiSensorReadingT_decl, SaHpiSensorReadingType));
   ("SaHpiSensorThresholdsT", (SaHpiSensorThresholdsT_decl, SaHpiSensorThresholdsType));
   ("SaHpiSensorRangeT", (SaHpiSensorRangeT_decl, SaHpiSensorRangeType));
   ("SaHpiSensorDataFormatT", (SaHpiSensorDataFormatT_decl, SaHpiSensorDataFormatType));
   ("SaHpiSensorThdDefnT", (SaHpiSensorThdDefnT_decl, SaHpiSensorThdDefnType));
   ("SaHpiSensorRecT", (SaHpiSensorRecT_decl, SaHpiSensorRecType));
   ("SaHpiCtrlStateStreamT", (SaHpiCtrlStateStreamT_decl, SaHpiCtrlStateStreamType));
   ("SaHpiCtrlStateTextT", (SaHpiCtrlStateTextT_decl, SaHpiCtrlStateTextType));
   ("SaHpiCtrlStateOemT", (SaHpiCtrlStateOemT_decl, SaHpiCtrlStateOemType));
   ("SaHpiCtrlStateT", (SaHpiCtrlStateT_decl, SaHpiCtrlStateType));
   ("SaHpiCtrlRecDigitalT", (SaHpiCtrlRecDigitalT_decl, SaHpiCtrlRecDigitalType));
   ("SaHpiCtrlRecDiscreteT", (SaHpiCtrlRecDiscreteT_decl, SaHpiCtrlRecDiscreteType));
   ("SaHpiCtrlRecAnalogT", (SaHpiCtrlRecAnalogT_decl, SaHpiCtrlRecAnalogType));
   ("SaHpiCtrlRecStreamT", (SaHpiCtrlRecStreamT_decl, SaHpiCtrlRecStreamType));
   ("SaHpiCtrlRecTextT", (SaHpiCtrlRecTextT_decl, SaHpiCtrlRecTextType));
   ("SaHpiCtrlRecOemT", (SaHpiCtrlRecOemT_decl, SaHpiCtrlRecOemType));
   ("SaHpiCtrlDefaultModeT", (SaHpiCtrlDefaultModeT_decl, SaHpiCtrlDefaultModeType));
   ("SaHpiCtrlRecT", (SaHpiCtrlRecT_decl, SaHpiCtrlRecType));
   ("SaHpiIdrFieldT", (SaHpiIdrFieldT_decl, SaHpiIdrFieldType));
   ("SaHpiIdrAreaHeaderT", (SaHpiIdrAreaHeaderT_decl, SaHpiIdrAreaHeaderType));
   ("SaHpiIdrInfoT", (SaHpiIdrInfoT_decl, SaHpiIdrInfoType));
   ("SaHpiInventoryRecT", (SaHpiInventoryRecT_decl, SaHpiInventoryRecType));
   ("SaHpiWatchdogT", (SaHpiWatchdogT_decl, SaHpiWatchdogType));
   ("SaHpiWatchdogRecT", (SaHpiWatchdogRecT_decl, SaHpiWatchdogRecType));
   ("SaHpiNameT", (SaHpiNameT_decl, SaHpiNameType));
   ("SaHpiConditionT", (SaHpiConditionT_decl, SaHpiConditionType));
   ("SaHpiAnnouncementT", (SaHpiAnnouncementT_decl, SaHpiAnnouncementType));
   ("SaHpiAnnunciatorRecT", (SaHpiAnnunciatorRecT_decl, SaHpiAnnunciatorRecType));
   ("SaHpiDimiInfoT", (SaHpiDimiInfoT_decl, SaHpiDimiInfoType));
   ("SaHpiDimiTestParamsDefinitionT", (SaHpiDimiTestParamsDefinitionT_decl, SaHpiDimiTestParamsDefinitionType));
   ("SaHpiDimiTestAffectedEntityT", (SaHpiDimiTestAffectedEntityT_decl, SaHpiDimiTestAffectedEntityType));
   ("SaHpiDimiTestT", (SaHpiDimiTestT_decl, SaHpiDimiTestType));
   ("SaHpiDimiTestResultsT", (SaHpiDimiTestResultsT_decl, SaHpiDimiTestResultsType));
   ("SaHpiDimiTestVariableParamsT", (SaHpiDimiTestVariableParamsT_decl, SaHpiDimiTestVariableParamsType));
   ("SaHpiDimiTestVariableParamsListT", (SaHpiDimiTestVariableParamsListT_decl, SaHpiDimiTestVariableParamsListType));
   ("SaHpiDimiRecT", (SaHpiDimiRecT_decl, SaHpiDimiRecType));
   ("SaHpiFumiSafDefinedSpecInfoT", (SaHpiFumiSafDefinedSpecInfoT_decl, SaHpiFumiSafDefinedSpecInfoType));
   ("SaHpiFumiOemDefinedSpecInfoT", (SaHpiFumiOemDefinedSpecInfoT_decl, SaHpiFumiOemDefinedSpecInfoType));
   ("SaHpiFumiSpecInfoT", (SaHpiFumiSpecInfoT_decl, SaHpiFumiSpecInfoType));
   ("SaHpiFumiImpactedEntityT", (SaHpiFumiImpactedEntityT_decl, SaHpiFumiImpactedEntityType));
   ("SaHpiFumiServiceImpactDataT", (SaHpiFumiServiceImpactDataT_decl, SaHpiFumiServiceImpactDataType));
   ("SaHpiFumiSourceInfoT", (SaHpiFumiSourceInfoT_decl, SaHpiFumiSourceInfoType));
   ("SaHpiFumiBankInfoT", (SaHpiFumiBankInfoT_decl, SaHpiFumiBankInfoType));
   ("SaHpiFumiFirmwareInstanceInfoT", (SaHpiFumiFirmwareInstanceInfoT_decl, SaHpiFumiFirmwareInstanceInfoType));
   ("SaHpiFumiLogicalBankInfoT", (SaHpiFumiLogicalBankInfoT_decl, SaHpiFumiLogicalBankInfoType));
   ("SaHpiFumiComponentInfoT", (SaHpiFumiComponentInfoT_decl, SaHpiFumiComponentInfoType));
   ("SaHpiFumiLogicalComponentInfoT", (SaHpiFumiLogicalComponentInfoT_decl, SaHpiFumiLogicalComponentInfoType));
   ("SaHpiFumiRecT", (SaHpiFumiRecT_decl, SaHpiFumiRecType));
   ("SaHpiRdrT", (SaHpiRdrT_decl, SaHpiRdrType));
   ("SaHpiResourceEventT", (SaHpiResourceEventT_decl, SaHpiResourceEventType));
   ("SaHpiDomainEventT", (SaHpiDomainEventT_decl, SaHpiDomainEventType));
   ("SaHpiSensorEventT", (SaHpiSensorEventT_decl, SaHpiSensorEventType));
   ("SaHpiSensorEnableChangeEventT", (SaHpiSensorEnableChangeEventT_decl, SaHpiSensorEnableChangeEventType));
   ("SaHpiHotSwapEventT", (SaHpiHotSwapEventT_decl, SaHpiHotSwapEventType));
   ("SaHpiWatchdogEventT", (SaHpiWatchdogEventT_decl, SaHpiWatchdogEventType));
   ("SaHpiHpiSwEventT", (SaHpiHpiSwEventT_decl, SaHpiHpiSwEventType));
   ("SaHpiOemEventT", (SaHpiOemEventT_decl, SaHpiOemEventType));
   ("SaHpiUserEventT", (SaHpiUserEventT_decl, SaHpiUserEventType));
   ("SaHpiDimiEventT", (SaHpiDimiEventT_decl, SaHpiDimiEventType));
   ("SaHpiDimiUpdateEventT", (SaHpiDimiUpdateEventT_decl, SaHpiDimiUpdateEventType));
   ("SaHpiFumiEventT", (SaHpiFumiEventT_decl, SaHpiFumiEventType));
   ("SaHpiEventT", (SaHpiEventT_decl, SaHpiEventType));
   ("SaHpiResourceInfoT", (SaHpiResourceInfoT_decl, SaHpiResourceInfoType));
   ("SaHpiRptEntryT", (SaHpiRptEntryT_decl, SaHpiRptEntryType));
   ("SaHpiLoadIdT", (SaHpiLoadIdT_decl, SaHpiLoadIdType));
   ("SaHpiDomainInfoT", (SaHpiDomainInfoT_decl, SaHpiDomainInfoType));
   ("SaHpiDrtEntryT", (SaHpiDrtEntryT_decl, SaHpiDrtEntryType));
   ("SaHpiAlarmT", (SaHpiAlarmT_decl, SaHpiAlarmType));
   ("SaHpiEventLogInfoT", (SaHpiEventLogInfoT_decl, SaHpiEventLogInfoType));
   ("SaHpiEventLogEntryT", (SaHpiEventLogEntryT_decl, SaHpiEventLogEntryType));
   ("oHpiHandlerInfoT", (oHpiHandlerInfoT_decl, oHpiHandlerInfoType));
   ("oHpiGlobalParamT", (oHpiGlobalParamT_decl, oHpiGlobalParamType))].

(** The structures whose tables disagree with their declarations, with those
    they are part of. *)
Definition deviating : list string :=
  ["SaHpiSensorEnableChangeEventT"; "SaHpiDimiEventT"; "SaHpiEventT"; "SaHpiEventLogEntryT"].

Definition fields (c : ctype) : list (string * ctype) :=
  match c with CStruct fs => fs | CUnion ms => ms | _ => [] end.

(** * Theorems *)

(** C14: The marshalling table of every structure names its fields, all of
    them and in their order, with types of the declared sizes.  The exceptions
    are the sensor enable change event, whose sets of critical, major and minor
    alarm states are not transferred, the DIMI event, whose one-byte percentage
    is transferred as a four-byte number, and the event structures they are
    part of. *)
Theorem tables_match_headers :
  Forall (fun row : string * (ctype * cMarshalType) =>
    if decide (row.1 ∈ deviating) then agrees row.2.1 row.2.2 = false
    else agrees row.2.1 row.2.2 = true /\ fields_lost row.2.1 row.2.2 = []) table_of /\
  fields_lost SaHpiSensorEnableChangeEventT_decl SaHpiSensorEnableChangeEventType =
    ["CriticalAlarms"; "MajorAlarms"; "MinorAlarms"] /\
  In ("DimiTestPercentCompleted", CNum eMtUint8) (fields SaHpiDimiEventT_decl) /\
  In ("DimiTestPercentCompleted", Simple eMtUint32) SaHpiDimiEventElements.
Proof.
  split_and!; [|by vm_compute|by vm_compute; tauto|by vm_compute; tauto].
  unfold table_of.
  repeat (apply Forall_cons; split; [vm_compute; try split; reflexivity|]). constructor.
Qed.
