(* ===== verification/Transport.v ===== *)
(** The message transport of the remote interface (transport/strmsock.h,
    transport/strmsock.cpp): the header, [WriteMsg] and [ReadMsg].

    A socket is the stream of bytes the peer sent and has not been received
    yet; a call of [recv] delivers a non-empty part of what is left and asked
    for, of a size the network chooses, or fails, and finds the stream closed
    when nothing is left.  Creating, accepting and configuring sockets are
    calls of the operating system. *)
From S2P Require Import Prelude Marshal.
#[local] Open Scope Z_scope.

(** * Message header *)

Definition dMhSize : Z := 12.
Definition eMhMsg : Z := 1.
Definition eMhError : Z := 2.
Definition dMhEndianBit : Z := 1.
Definition dMhRpcVersion : Z := 1.
Definition dMaxMessageLength : Z := 0xFFFF.
Definition dMaxPayloadLength : Z := dMaxMessageLength - dMhSize.

Definition DecodeUint32 (host : ByteOrder) (bytes : list Z) (byte_order : ByteOrder) : Z :=
  let x := load host bytes in
  if decide (byte_order = host) then x else SWAP_LE_BE 4 x.

Definition EncodeUint32 (host : ByteOrder) (x : Z) (byte_order : ByteOrder) : list Z :=
  let x2 := if decide (byte_order = host) then x else SWAP_LE_BE 4 x in
  store host 4 x2.

(** The header [WriteMsg] builds: type, flags, two reserved bytes, id and
    payload length. *)
Definition header (host : ByteOrder) (type id payload_len : Z) : list Z :=
  let flags := Z.shiftl dMhRpcVersion 4 in
  let flags := match host with LittleEndian => Z.lor flags dMhEndianBit | BigEndian => flags end in
  [type; flags; 0; 0] ++ EncodeUint32 host id host ++ EncodeUint32 host payload_len host.

(** * Sending

    [send] is the number of bytes the system accepts of the message, or a
    negative error.  The result is the return value and the bytes sent. *)
Definition WriteMsg (host : ByteOrder) (type id : Z) (payload : option (list Z))
    (payload_len : Z) (send : list Z -> Z) : outcome (bool * list Z) :=
  if (0 <? payload_len) && bool_decide (payload = None) then Done (false, []) else
  if dMaxPayloadLength <? payload_len then Done (false, []) else
  let hdr := header host type id payload_len in
  let* msg := match payload with
              | Some p => if Z.of_nat (length p) <? payload_len then Undefined
                          else Done (hdr ++ take (Z.to_nat payload_len) p)
              | None => Done hdr
              end in
  let cc := send msg in
  Done (cc =? Z.of_nat (length msg), take (Z.to_nat cc) msg).

(** * Receiving *)

(** What one call of [recv] does: deliver at most [n + 1] bytes, or fail. *)
Inductive recv_event := Received (n : nat) | RecvError.

(** The fields of a header that was read. *)
Record msg_header := {
  mh_type : Z; mh_id : Z; mh_len : Z; mh_byte_order : ByteOrder }.

(** The ends of [ReadMsg]: [true] with the payload and what is left of the
    stream; [false], with the header if it was read and the bytes written to
    the payload so far; a write past the buffer of the caller; still waiting
    when the events are used up. *)
Inductive read_result :=
| ReadTrue (h : msg_header) (payload : list Z) (stream : list Z)
| ReadFalse (h : option msg_header) (payload : list Z)
| ReadOverflow
| ReadWaiting.

Definition decode_header (host : ByteOrder) (hdr : list Z) : option msg_header :=
  let flags := nth 1 hdr 0 in
  if negb (Z.shiftr flags 4 =? dMhRpcVersion) then None else
  let bo := if negb (Z.land flags dMhEndianBit =? 0) then LittleEndian else BigEndian in
  Some {| mh_type := nth 0 hdr 0;
          mh_id := DecodeUint32 host (take 4 (drop 4 hdr)) bo;
          mh_len := DecodeUint32 host (take 4 (drop 8 hdr)) bo;
          mh_byte_order := bo |}.

(** The receiving loop: [hdr] is [None] while the header is received; [got]
    are the bytes of the header, then of the payload. *)
Fixpoint read_loop (host : ByteOrder) (capacity : Z) (events : list recv_event)
    (stream : list Z) (hdr : option msg_header) (got : list Z) (need : Z) : read_result :=
  let payload := match hdr with Some _ => got | None => [] end in
  if Z.of_nat (length got) <? need then
    match events with
    | [] => ReadWaiting
    | RecvError :: _ => ReadFalse hdr payload
    | Received n :: events' =>
        let len := Z.min (Z.of_nat n + 1) (need - Z.of_nat (length got)) in
        let chunk := take (Z.to_nat len) stream in
        let stream' := drop (length chunk) stream in
        let got' := got ++ chunk in
        if bool_decide (chunk = []) then ReadFalse hdr payload else
        match hdr with
        | None =>
            if Z.of_nat (length got') =? need then
              match decode_header host got' with
              | None => ReadFalse None []
              | Some h => read_loop host capacity events' stream' (Some h) [] (mh_len h)
              end
            else read_loop host capacity events' stream' None got' need
        | Some h =>
            if capacity <? Z.of_nat (length got') then ReadOverflow
            else read_loop host capacity events' stream' (Some h) got' need
        end
    end
  else
    match hdr with
    | Some h => ReadTrue h got stream
    | None => ReadFalse None []
    end.

(** [capacity] is the size of the caller's payload buffer, which [ReadMsg] is
    not told. *)
Definition ReadMsg (host : ByteOrder) (capacity : Z) (events : list recv_event)
    (stream : list Z) : read_result :=
  read_loop host capacity events stream None [] dMhSize.

(** * Lemmas *)

Lemma DecodeUint32_Encode host host' x : 0 <= x < 2 ^ 32 ->
  DecodeUint32 host' (EncodeUint32 host x host) host = x.
Proof.
  intros H. unfold DecodeUint32, EncodeUint32. rewrite (decide_True_pi eq_refl).
  assert (L : load host (store host 4 x) = x)
    by (rewrite load_store; apply Z.mod_small; exact H).
  case_decide as Hd; [by rewrite <- Hd at 1|].
  rewrite <- (store_length host 4 x) at 1.
  rewrite (load_other host' host); [done|apply store_byte|congruence].
Qed.

Lemma EncodeUint32_length host x bo : length (EncodeUint32 host x bo) = 4%nat.
Proof. apply store_length. Qed.

Lemma header_length host type id len : length (header host type id len) = 12%nat.
Proof. unfold header. by rewrite !length_app, !EncodeUint32_length. Qed.

Lemma decode_header_header host host' type id len :
  0 <= id < 2 ^ 32 -> 0 <= len < 2 ^ 32 ->
  decode_header host' (header host type id len) =
  Some {| mh_type := type; mh_id := id; mh_len := len; mh_byte_order := host |}.
Proof.
  intros Hid Hlen. unfold header.
  pose proof (EncodeUint32_length host id host) as L1.
  pose proof (EncodeUint32_length host len host) as L2.
  pose proof (DecodeUint32_Encode host host' id Hid) as D1.
  pose proof (DecodeUint32_Encode host host' len Hlen) as D2.
  destruct (EncodeUint32 host id host) as [|i0 [|i1 [|i2 [|i3 [|]]]]]; try done.
  destruct (EncodeUint32 host len host) as [|l0 [|l1 [|l2 [|l3 [|]]]]]; try done.
  unfold decode_header. destruct host; cbn -[DecodeUint32].
  all: rewrite <- D1, <- D2 at 1; reflexivity.
Qed.

Definition no_error (e : recv_event) : Prop := match e with Received _ => True | _ => False end.

(** Enough calls of [recv] that deliver something complete the payload. *)
Lemma read_payload host cap h events : forall stream got need,
  Forall no_error events ->
  Z.of_nat (length got) <= need <= cap ->
  need - Z.of_nat (length got) <= Z.of_nat (length stream) ->
  need - Z.of_nat (length got) <= Z.of_nat (length events) ->
  read_loop host cap events stream (Some h) got need =
  ReadTrue h (got ++ take (Z.to_nat (need - Z.of_nat (length got))) stream)
           (drop (Z.to_nat (need - Z.of_nat (length got))) stream).
Proof.
  induction events as [|[n|] events IH]; intros stream got need He Hg Hs Hl; cbn [read_loop].
  - destruct (Z.ltb_spec (Z.of_nat (length got)) need); [simpl in Hl; lia|].
    replace (need - Z.of_nat (length got)) with 0 by lia. by rewrite app_nil_r.
  - apply Forall_cons in He as [_ He].
    destruct (Z.ltb_spec (Z.of_nat (length got)) need).
    2: { replace (need - Z.of_nat (length got)) with 0 by lia. by rewrite app_nil_r. }
    cbv zeta. set (k := Z.to_nat (Z.min (Z.of_nat n + 1) (need - Z.of_nat (length got)))).
    assert (Hk : length (take k stream) = k) by (rewrite length_take; lia).
    rewrite bool_decide_eq_false_2 by (intros E; rewrite E in Hk; simpl in Hk; lia).
    rewrite length_app, Hk. destruct (Z.ltb_spec cap (Z.of_nat (length got + k))); [lia|].
    cbn [length] in Hl. rewrite IH; try done; rewrite ?length_app, ?length_drop, ?Hk; try lia.
    rewrite <- app_assoc, drop_drop. f_equal; [f_equal|f_equal; lia].
    replace (Z.to_nat (need - Z.of_nat (length got)))
      with (k + Z.to_nat (need - Z.of_nat (length got + k)))%nat by lia.
    by rewrite take_take_drop.
  - by inversion He.
Qed.

Lemma read_header host cap h events : forall stream got,
  Forall no_error events ->
  (length got < 12)%nat -> (12 - length got <= length stream)%nat ->
  (12 - length got <= length events)%nat ->
  decode_header host (got ++ take (12 - length got) stream) = Some h ->
  exists events', Forall no_error events' /\
    (length events <= length events' + (12 - length got))%nat /\
    read_loop host cap events stream None got dMhSize =
    read_loop host cap events' (drop (12 - length got) stream) (Some h) [] (mh_len h).
Proof.
  induction events as [|[n|] events IH]; intros stream got He Hg Hs Hl Hd; cbn [read_loop].
  - simpl in Hl. lia.
  - apply Forall_cons in He as [_ He]. unfold dMhSize in *.
    destruct (Z.ltb_spec (Z.of_nat (length got)) 12); [|lia].
    cbv zeta. set (k := Z.to_nat (Z.min (Z.of_nat n + 1) (12 - Z.of_nat (length got)))).
    assert (Hk : length (take k stream) = k) by (rewrite length_take; lia).
    rewrite bool_decide_eq_false_2 by (intros E; rewrite E in Hk; simpl in Hk; lia).
    rewrite length_app, Hk. cbn [length] in Hl.
    destruct (Z.eqb_spec (Z.of_nat (length got + k)) 12) as [E|E].
    + replace (12 - length got)%nat with k in * by lia. rewrite Hd.
      exists events. split_and!; [done|simpl; lia|done].
    + destruct (IH (drop k stream) (got ++ take k stream)) as (ev & H1 & H2 & H3).
      all: rewrite ?length_app, ?length_drop, ?Hk; try done; try lia.
      * replace (12 - length got)%nat with (k + (12 - (length got + k)))%nat in Hd by lia.
        by rewrite <- app_assoc, take_take_drop.
      * exists ev. rewrite length_app, Hk in H2, H3. split_and!; [done|simpl; lia|].
        rewrite H3, drop_drop. do 2 f_equal. lia.
  - by inversion He.
Qed.

(** * Correctness *)

(** What a message that was sent completely consists of. *)
Lemma WriteMsg_sent host type id payload payload_len send sent :
  0 <= payload_len -> WriteMsg host type id payload payload_len send = Done (true, sent) ->
  payload_len <= dMaxPayloadLength /\
  exists body, sent = header host type id payload_len ++ body /\
    body = take (Z.to_nat payload_len) (default [] payload) /\
    Z.of_nat (length body) = payload_len.
Proof.
  unfold WriteMsg. intros Hl.
  destruct (_ && _) eqn:Ep; [done|].
  destruct (Z.ltb_spec dMaxPayloadLength payload_len) as [|Hmax]; [done|]. cbv zeta.
  destruct payload as [p|]; cbn [default].
  - destruct (Z.ltb_spec (Z.of_nat (length p)) payload_len); [done|]. cbn [obind].
    intros [= Hcc <-]. apply Z.eqb_eq in Hcc. rewrite Hcc, Nat2Z.id, take_ge by done.
    split; [done|]. eexists. split_and!; [done..|]. rewrite length_take. lia.
  - cbn [obind]. intros [= Hcc <-]. apply Z.eqb_eq in Hcc. rewrite Hcc, Nat2Z.id, take_ge by done.
    assert (payload_len = 0).
    { rewrite bool_decide_eq_true_2, andb_true_r in Ep by done. apply Z.ltb_ge in Ep. lia. }
    split; [done|]. exists []. rewrite app_nil_r. subst. split_and!; done.
Qed.

Lemma message_received host host' type id payload payload_len send sent rest events capacity :
  0 <= id < 2 ^ 32 -> 0 <= payload_len ->
  WriteMsg host type id payload payload_len send = Done (true, sent) ->
  Forall no_error events -> dMhSize + payload_len <= Z.of_nat (length events) ->
  payload_len <= capacity ->
  ReadMsg host' capacity events (sent ++ rest) =
  ReadTrue {| mh_type := type; mh_id := id; mh_len := payload_len; mh_byte_order := host |}
    (take (Z.to_nat payload_len) (default [] payload)) rest.
Proof.
  intros Hid Hl HW He Hev Hcap. unfold ReadMsg.
  destruct (WriteMsg_sent _ _ _ _ _ _ _ Hl HW) as (Hmax & body & -> & Hb & Hbl).
  rewrite <- Hb. pose proof (header_length host type id payload_len) as HL.
  assert (Hl32 : 0 <= payload_len < 2 ^ 32)
    by (unfold dMaxPayloadLength, dMaxMessageLength, dMhSize in Hmax; lia).
  pose proof (decode_header_header host host' type id payload_len Hid Hl32) as HD.
  unfold dMhSize in Hev.
  set (h := Build_msg_header type id payload_len host) in *.
  destruct (read_header host' capacity h events
               ((header host type id payload_len ++ body) ++ rest) [] He)
    as (ev & Hev1 & Hev2 & ->).
  - simpl. lia.
  - rewrite !length_app, HL. simpl. lia.
  - simpl. lia.
  - cbn [length app Nat.sub]. rewrite <- app_assoc, take_app_length' by (by rewrite HL). exact HD.
  - cbn [length Nat.sub mh_len] in *. rewrite <- app_assoc, drop_app_length' by (by rewrite HL).
    rewrite read_payload; cbn [length app]; rewrite ?length_app; try done; try lia.
    all: subst h; cbn [mh_len]; try lia.
    rewrite Z.sub_0_r, take_app_length', drop_app_length' by lia. done.
Qed.

(** A message that WriteMsg sent completely is received by ReadMsg on a
    host of either byte order with its type, identifier, payload and byte
    order, however the network cuts the stream, and what follows stays in the
    stream. *)
Theorem message_roundtrip host host' type id payload payload_len send sent rest events capacity :
  0 <= id < 2 ^ 32 -> 0 <= payload_len ->
  WriteMsg host type id payload payload_len send = Done (true, sent) ->
  Forall no_error events -> dMhSize + payload_len <= Z.of_nat (length events) ->
  payload_len <= capacity ->
  ReadMsg host' capacity events (sent ++ rest) =
  ReadTrue {| mh_type := type; mh_id := id; mh_len := payload_len; mh_byte_order := host |}
    (take (Z.to_nat payload_len) (default [] payload)) rest.
Proof. apply message_received. Qed.

(** ReadMsg trusts the length in the header: a peer that announces and sends
    more than the callers' buffers hold makes it write past them. *)
Theorem read_message_overflow host id payload_len body :
  0 <= id < 2 ^ 32 -> dMaxPayloadLength < payload_len < 2 ^ 32 ->
  Z.of_nat (length body) = payload_len ->
  ReadMsg host dMaxPayloadLength
    [Received 11; Received (Z.to_nat payload_len)]
    (header host eMhMsg id payload_len ++ body) = ReadOverflow.
Proof.
  intros Hid Hl Hb. unfold ReadMsg.
  pose proof (header_length host eMhMsg id payload_len) as HL.
  unfold dMaxPayloadLength, dMaxMessageLength, dMhSize in *.
  cbn [read_loop]. cbv zeta.
  replace (Z.to_nat (Z.min (Z.of_nat 11 + 1) (12 - Z.of_nat (length (@nil Z))))) with 12%nat by done.
  rewrite take_app_length' by (by rewrite HL). rewrite HL, drop_app_length' by (by rewrite HL).
  rewrite bool_decide_eq_false_2 by (intros E; by rewrite E in HL).
  cbn [length app]. rewrite HL. cbn [Z.of_nat Z.ltb Z.eqb].
  rewrite decode_header_header by (done || lia). cbn [mh_len].
  destruct (Z.ltb_spec (Z.of_nat 0) payload_len); [|lia]. cbn [length].
  rewrite take_ge by lia.
  rewrite bool_decide_eq_false_2 by (intros ->; simpl in Hb; lia). rewrite Hb.
  destruct (Z.ltb_spec (0xFFFF - 12) payload_len); [done|lia].
Qed.

Lemma message_roundtrip_witness :
  ReadMsg BigEndian 100 (replicate 20 (Received 0))
    ((header LittleEndian eMhMsg 2 4 ++ [7; 0; 0; 0]) ++ [99]) =
  ReadTrue {| mh_type := eMhMsg; mh_id := 2; mh_len := 4; mh_byte_order := LittleEndian |}
    [7; 0; 0; 0] [99].
Proof.
  apply (message_roundtrip LittleEndian BigEndian eMhMsg 2 (Some [7; 0; 0; 0]) 4
           (fun msg => Z.of_nat (length msg)) _ [99] (replicate 20 (Received 0)) 100).
  - lia.
  - lia.
  - reflexivity.
  - by apply Forall_replicate.
  - vm_compute. congruence.
  - lia.
Defined.
