(* ===== verification/Server.v ===== *)
(** The server of the daemon (openhpid/server.cpp): a thread per connection
    reads requests, [process_msg] demarshals the arguments of the function,
    calls it and marshals its results, and the reply is sent.

    The HPI functions are the interface [HpiService]: a function is called with
    the values of its arguments, a pointer argument standing for the object it
    points to, and returns its code and what it stored through its pointers. *)
From S2P Require Import Prelude SaHpi DomainState Marshal MarshalTypes MarshalHpi MarshalStructs Transport.
#[local] Open Scope string_scope.
#[local] Open Scope list_scope.
#[local] Open Scope Z_scope.

(** * The interface of the HPI functions *)

(** The results are aligned with the arguments: [None] for an argument that is
    not a pointer or through which nothing was stored. *)
Class HpiService (D : Type) :=
  hpi_call : string -> list (option value) -> D -> Z * list (option value) * D.

(** * The cases of process_msg

    [Var x] passes a variable, [Ref x] its address, [Field x i] a field of a
    structure, [DefaultDomain] the constant [OH_DEFAULT_DOMAIN_ID] and
    [NullPtr] the null pointer [security]. *)
Inductive argument :=
| Var (x : string)
| Ref (x : string)
| Field (x : string) (i : nat)
| DefaultDomain
| NullPtr.

(** The variables given to [iparams] and [oparams] with their types, and the
    call between them. *)
Record rpc_case := {
  callee : string;
  iparams : list (string * ctype);
  arguments : list argument;
  oparams : list (string * ctype)
}.

Definition case_saHpiSessionOpen : rpc_case :=
  {| callee := "saHpiSessionOpen"; iparams := [("did", CNum eMtUint32)];
     arguments := [DefaultDomain; Ref "sid"; NullPtr];
     oparams := [("rv", CNum eMtInt32); ("sid", CNum eMtUint32)] |}.
Definition case_saHpiSessionClose : rpc_case :=
  {| callee := "saHpiSessionClose"; iparams := [("sid", CNum eMtUint32)];
     arguments := [Var "sid"];
     oparams := [("rv", CNum eMtInt32)] |}.
Definition case_saHpiDiscover : rpc_case :=
  {| callee := "saHpiDiscover"; iparams := [("sid", CNum eMtUint32)];
     arguments := [Var "sid"];
     oparams := [("rv", CNum eMtInt32)] |}.
Definition case_saHpiDomainInfoGet : rpc_case :=
  {| callee := "saHpiDomainInfoGet"; iparams := [("sid", CNum eMtUint32)];
     arguments := [Var "sid"; Ref "info"];
     oparams := [("rv", CNum eMtInt32); ("info", SaHpiDomainInfoT_decl)] |}.
Definition case_saHpiDrtEntryGet : rpc_case :=
  {| callee := "saHpiDrtEntryGet"; iparams := [("sid", CNum eMtUint32); ("eid", CNum eMtUint32)];
     arguments := [Var "sid"; Var "eid"; Ref "next_eid"; Ref "drte"];
     oparams := [("rv", CNum eMtInt32); ("next_eid", CNum eMtUint32); ("drte", SaHpiDrtEntryT_decl)]
       |}.
Definition case_saHpiDomainTagSet : rpc_case :=
  {| callee := "saHpiDomainTagSet"; iparams := [("sid", CNum eMtUint32); ("tag",
       SaHpiTextBufferT_decl)];
     arguments := [Var "sid"; Ref "tag"];
     oparams := [("rv", CNum eMtInt32)] |}.
Definition case_saHpiRptEntryGet : rpc_case :=
  {| callee := "saHpiRptEntryGet"; iparams := [("sid", CNum eMtUint32); ("eid", CNum eMtUint32)];
     arguments := [Var "sid"; Var "eid"; Ref "next_eid"; Ref "rpte"];
     oparams := [("rv", CNum eMtInt32); ("next_eid", CNum eMtUint32); ("rpte", SaHpiRptEntryT_decl)]
       |}.
Definition case_saHpiRptEntryGetByResourceId : rpc_case :=
  {| callee := "saHpiRptEntryGetByResourceId"; iparams := [("sid", CNum eMtUint32); ("rid", CNum
       eMtUint32)];
     arguments := [Var "sid"; Var "rid"; Ref "rpte"];
     oparams := [("rv", CNum eMtInt32); ("rpte", SaHpiRptEntryT_decl)] |}.
Definition case_saHpiResourceSeveritySet : rpc_case :=
  {| callee := "saHpiResourceSeveritySet"; iparams := [("sid", CNum eMtUint32); ("rid", CNum
       eMtUint32); ("sev", CEnum "SaHpiSeverityT")];
     arguments := [Var "sid"; Var "rid"; Var "sev"];
     oparams := [("rv", CNum eMtInt32)] |}.
Definition case_saHpiResourceTagSet : rpc_case :=
  {| callee := "saHpiResourceTagSet"; iparams := [("sid", CNum eMtUint32); ("rid", CNum
       eMtUint32); ("tag", SaHpiTextBufferT_decl)];
     arguments := [Var "sid"; Var "rid"; Ref "tag"];
     oparams := [("rv", CNum eMtInt32)] |}.
Definition case_saHpiMyEntityPathGet : rpc_case :=
  {| callee := "saHpiMyEntityPathGet"; iparams := [("sid", CNum eMtUint32)];
     arguments := [Var "sid"; Ref "ep"];
     oparams := [("rv", CNum eMtInt32); ("ep", SaHpiEntityPathT_decl)] |}.
Definition case_saHpiResourceIdGet : rpc_case :=
  {| callee := "saHpiResourceIdGet"; iparams := [("sid", CNum eMtUint32)];
     arguments := [Var "sid"; Ref "rid"];
     oparams := [("rv", CNum eMtInt32); ("rid", CNum eMtUint32)] |}.
Definition case_saHpiGetIdByEntityPath : rpc_case :=
  {| callee := "saHpiGetIdByEntityPath"; iparams := [("sid", CNum eMtUint32); ("ep",
       SaHpiEntityPathT_decl); ("instr_type", CEnum "SaHpiRdrTypeT"); ("instance", CNum
       eMtUint32)];
     arguments := [Var "sid"; Var "ep"; Var "instr_type"; Ref "instance"; Ref "rid"; Ref "instr_id";
       Ref "rpt_update_cnt"];
     oparams := [("rv", CNum eMtInt32); ("instance", CNum eMtUint32); ("rid", CNum eMtUint32);
       ("instr_id", CNum eMtUint32); ("rpt_update_cnt", CNum eMtUint32)] |}.
Definition case_saHpiGetChildEntityPath : rpc_case :=
  {| callee := "saHpiGetChildEntityPath"; iparams := [("sid", CNum eMtUint32); ("parent_ep",
       SaHpiEntityPathT_decl); ("instance", CNum eMtUint32)];
     arguments := [Var "sid"; Var "parent_ep"; Ref "instance"; Ref "child_ep"; Ref "rpt_update_cnt"];
     oparams := [("rv", CNum eMtInt32); ("instance", CNum eMtUint32); ("child_ep",
       SaHpiEntityPathT_decl); ("rpt_update_cnt", CNum eMtUint32)] |}.
Definition case_saHpiResourceFailedRemove : rpc_case :=
  {| callee := "saHpiResourceFailedRemove"; iparams := [("sid", CNum eMtUint32); ("rid", CNum
       eMtUint32)];
     arguments := [Var "sid"; Var "rid"];
     oparams := [("rv", CNum eMtInt32)] |}.
Definition case_saHpiEventLogInfoGet : rpc_case :=
  {| callee := "saHpiEventLogInfoGet"; iparams := [("sid", CNum eMtUint32); ("rid", CNum
       eMtUint32)];
     arguments := [Var "sid"; Var "rid"; Ref "info"];
     oparams := [("rv", CNum eMtInt32); ("info", SaHpiEventLogInfoT_decl)] |}.
Definition case_saHpiEventLogCapabilitiesGet : rpc_case :=
  {| callee := "saHpiEventLogCapabilitiesGet"; iparams := [("sid", CNum eMtUint32); ("rid", CNum
       eMtUint32)];
     arguments := [Var "sid"; Var "rid"; Ref "caps"];
     oparams := [("rv", CNum eMtInt32); ("caps", CNum eMtUint32)] |}.
Definition case_saHpiEventLogEntryGet : rpc_case :=
  {| callee := "saHpiEventLogEntryGet"; iparams := [("sid", CNum eMtUint32); ("rid", CNum
       eMtUint32); ("eid", CNum eMtUint32)];
     arguments := [Var "sid"; Var "rid"; Var "eid"; Ref "prev_eid"; Ref "next_eid"; Ref "ele"; Ref
       "rdr"; Ref "rpte"];
     oparams := [("rv", CNum eMtInt32); ("prev_eid", CNum eMtUint32); ("next_eid", CNum eMtUint32);
       ("ele", SaHpiEventLogEntryT_decl); ("rdr", SaHpiRdrT_decl); ("rpte", SaHpiRptEntryT_decl)]
       |}.
Definition case_saHpiEventLogEntryAdd : rpc_case :=
  {| callee := "saHpiEventLogEntryAdd"; iparams := [("sid", CNum eMtUint32); ("rid", CNum
       eMtUint32); ("evt", SaHpiEventT_decl)];
     arguments := [Var "sid"; Var "rid"; Ref "evt"];
     oparams := [("rv", CNum eMtInt32)] |}.
Definition case_saHpiEventLogClear : rpc_case :=
  {| callee := "saHpiEventLogClear"; iparams := [("sid", CNum eMtUint32); ("rid", CNum
       eMtUint32)];
     arguments := [Var "sid"; Var "rid"];
     oparams := [("rv", CNum eMtInt32)] |}.
Definition case_saHpiEventLogTimeGet : rpc_case :=
  {| callee := "saHpiEventLogTimeGet"; iparams := [("sid", CNum eMtUint32); ("rid", CNum
       eMtUint32)];
     arguments := [Var "sid"; Var "rid"; Ref "time"];
     oparams := [("rv", CNum eMtInt32); ("time", CNum eMtInt64)] |}.
Definition case_saHpiEventLogTimeSet : rpc_case :=
  {| callee := "saHpiEventLogTimeSet"; iparams := [("sid", CNum eMtUint32); ("rid", CNum
       eMtUint32); ("time", CNum eMtInt64)];
     arguments := [Var "sid"; Var "rid"; Var "time"];
     oparams := [("rv", CNum eMtInt32)] |}.
Definition case_saHpiEventLogStateGet : rpc_case :=
  {| callee := "saHpiEventLogStateGet"; iparams := [("sid", CNum eMtUint32); ("rid", CNum
       eMtUint32)];
     arguments := [Var "sid"; Var "rid"; Ref "enable"];
     oparams := [("rv", CNum eMtInt32); ("enable", CNum eMtUint8)] |}.
Definition case_saHpiEventLogStateSet : rpc_case :=
  {| callee := "saHpiEventLogStateSet"; iparams := [("sid", CNum eMtUint32); ("rid", CNum
       eMtUint32); ("enable", CNum eMtUint8)];
     arguments := [Var "sid"; Var "rid"; Var "enable"];
     oparams := [("rv", CNum eMtInt32)] |}.
Definition case_saHpiEventLogOverflowReset : rpc_case :=
  {| callee := "saHpiEventLogOverflowReset"; iparams := [("sid", CNum eMtUint32); ("rid", CNum
       eMtUint32)];
     arguments := [Var "sid"; Var "rid"];
     oparams := [("rv", CNum eMtInt32)] |}.
Definition case_saHpiSubscribe : rpc_case :=
  {| callee := "saHpiSubscribe"; iparams := [("sid", CNum eMtUint32)];
     arguments := [Var "sid"];
     oparams := [("rv", CNum eMtInt32)] |}.
Definition case_saHpiUnsubscribe : rpc_case :=
  {| callee := "saHpiUnsubscribe"; iparams := [("sid", CNum eMtUint32)];
     arguments := [Var "sid"];
     oparams := [("rv", CNum eMtInt32)] |}.
Definition case_saHpiEventGet : rpc_case :=
  {| callee := "saHpiEventGet"; iparams := [("sid", CNum eMtUint32); ("timeout", CNum eMtInt64)];
     arguments := [Var "sid"; Var "timeout"; Ref "evt"; Ref "rdr"; Ref "rpte"; Ref "status"];
     oparams := [("rv", CNum eMtInt32); ("evt", SaHpiEventT_decl); ("rdr", SaHpiRdrT_decl); ("rpte",
       SaHpiRptEntryT_decl); ("status", CNum eMtUint32)] |}.
Definition case_saHpiEventAdd : rpc_case :=
  {| callee := "saHpiEventAdd"; iparams := [("sid", CNum eMtUint32); ("evt", SaHpiEventT_decl)];
     arguments := [Var "sid"; Ref "evt"];
     oparams := [("rv", CNum eMtInt32)] |}.
Definition case_saHpiAlarmGetNext : rpc_case :=
  {| callee := "saHpiAlarmGetNext"; iparams := [("sid", CNum eMtUint32); ("sev", CEnum
       "SaHpiSeverityT"); ("unack", CNum eMtUint8); ("alarm", SaHpiAlarmT_decl)];
     arguments := [Var "sid"; Var "sev"; Var "unack"; Ref "alarm"];
     oparams := [("rv", CNum eMtInt32); ("alarm", SaHpiAlarmT_decl)] |}.
Definition case_saHpiAlarmGet : rpc_case :=
  {| callee := "saHpiAlarmGet"; iparams := [("sid", CNum eMtUint32); ("aid", CNum eMtUint32)];
     arguments := [Var "sid"; Var "aid"; Ref "alarm"];
     oparams := [("rv", CNum eMtInt32); ("alarm", SaHpiAlarmT_decl)] |}.
Definition case_saHpiAlarmAcknowledge : rpc_case :=
  {| callee := "saHpiAlarmAcknowledge"; iparams := [("sid", CNum eMtUint32); ("aid", CNum
       eMtUint32); ("sev", CEnum "SaHpiSeverityT")];
     arguments := [Var "sid"; Var "aid"; Var "sev"];
     oparams := [("rv", CNum eMtInt32)] |}.
Definition case_saHpiAlarmAdd : rpc_case :=
  {| callee := "saHpiAlarmAdd"; iparams := [("sid", CNum eMtUint32); ("alarm", SaHpiAlarmT_decl)];
     arguments := [Var "sid"; Ref "alarm"];
     oparams := [("rv", CNum eMtInt32); ("alarm", SaHpiAlarmT_decl)] |}.
Definition case_saHpiAlarmDelete : rpc_case :=
  {| callee := "saHpiAlarmDelete"; iparams := [("sid", CNum eMtUint32); ("aid", CNum eMtUint32);
       ("sev", CEnum "SaHpiSeverityT")];
     arguments := [Var "sid"; Var "aid"; Var "sev"];
     oparams := [("rv", CNum eMtInt32)] |}.
Definition case_saHpiRdrGet : rpc_case :=
  {| callee := "saHpiRdrGet"; iparams := [("sid", CNum eMtUint32); ("rid", CNum eMtUint32);
       ("eid", CNum eMtUint32)];
     arguments := [Var "sid"; Var "rid"; Var "eid"; Ref "next_eid"; Ref "rdr"];
     oparams := [("rv", CNum eMtInt32); ("next_eid", CNum eMtUint32); ("rdr", SaHpiRdrT_decl)] |}.
Definition case_saHpiRdrGetByInstrumentId : rpc_case :=
  {| callee := "saHpiRdrGetByInstrumentId"; iparams := [("sid", CNum eMtUint32); ("rid", CNum
       eMtUint32); ("rdr_type", CEnum "SaHpiRdrTypeT"); ("instr_id", CNum eMtUint32)];
     arguments := [Var "sid"; Var "rid"; Var "rdr_type"; Var "instr_id"; Ref "rdr"];
     oparams := [("rv", CNum eMtInt32); ("rdr", SaHpiRdrT_decl)] |}.
Definition case_saHpiRdrUpdateCountGet : rpc_case :=
  {| callee := "saHpiRdrUpdateCountGet"; iparams := [("sid", CNum eMtUint32); ("rid", CNum
       eMtUint32)];
     arguments := [Var "sid"; Var "rid"; Ref "rdr_update_cnt"];
     oparams := [("rv", CNum eMtInt32); ("rdr_update_cnt", CNum eMtUint32)] |}.
Definition case_saHpiSensorReadingGet : rpc_case :=
  {| callee := "saHpiSensorReadingGet"; iparams := [("sid", CNum eMtUint32); ("rid", CNum
       eMtUint32); ("snum", CNum eMtUint32)];
     arguments := [Var "sid"; Var "rid"; Var "snum"; Ref "reading"; Ref "state"];
     oparams := [("rv", CNum eMtInt32); ("reading", SaHpiSensorReadingT_decl); ("state", CNum
       eMtUint16)] |}.
Definition case_saHpiSensorThresholdsGet : rpc_case :=
  {| callee := "saHpiSensorThresholdsGet"; iparams := [("sid", CNum eMtUint32); ("rid", CNum
       eMtUint32); ("snum", CNum eMtUint32)];
     arguments := [Var "sid"; Var "rid"; Var "snum"; Ref "tholds"];
     oparams := [("rv", CNum eMtInt32); ("tholds", SaHpiSensorThresholdsT_decl)] |}.
Definition case_saHpiSensorThresholdsSet : rpc_case :=
  {| callee := "saHpiSensorThresholdsSet"; iparams := [("sid", CNum eMtUint32); ("rid", CNum
       eMtUint32); ("snum", CNum eMtUint32); ("tholds", SaHpiSensorThresholdsT_decl)];
     arguments := [Var "sid"; Var "rid"; Var "snum"; Ref "tholds"];
     oparams := [("rv", CNum eMtInt32)] |}.
Definition case_saHpiSensorTypeGet : rpc_case :=
  {| callee := "saHpiSensorTypeGet"; iparams := [("sid", CNum eMtUint32); ("rid", CNum eMtUint32);
       ("snum", CNum eMtUint32)];
     arguments := [Var "sid"; Var "rid"; Var "snum"; Ref "type"; Ref "cat"];
     oparams := [("rv", CNum eMtInt32); ("type", CEnum "SaHpiSensorTypeT"); ("cat", CNum eMtUint8)] |}.
Definition case_saHpiSensorEnableGet : rpc_case :=
  {| callee := "saHpiSensorEnableGet"; iparams := [("sid", CNum eMtUint32); ("rid", CNum
       eMtUint32); ("snum", CNum eMtUint32)];
     arguments := [Var "sid"; Var "rid"; Var "snum"; Ref "enabled"];
     oparams := [("rv", CNum eMtInt32); ("enabled", CNum eMtUint8)] |}.
Definition case_saHpiSensorEnableSet : rpc_case :=
  {| callee := "saHpiSensorEnableSet"; iparams := [("sid", CNum eMtUint32); ("rid", CNum
       eMtUint32); ("snum", CNum eMtUint32); ("enabled", CNum eMtUint8)];
     arguments := [Var "sid"; Var "rid"; Var "snum"; Var "enabled"];
     oparams := [("rv", CNum eMtInt32)] |}.
Definition case_saHpiSensorEventEnableGet : rpc_case :=
  {| callee := "saHpiSensorEventEnableGet"; iparams := [("sid", CNum eMtUint32); ("rid", CNum
       eMtUint32); ("snum", CNum eMtUint32)];
     arguments := [Var "sid"; Var "rid"; Var "snum"; Ref "enabled"];
     oparams := [("rv", CNum eMtInt32); ("enabled", CNum eMtUint8)] |}.
Definition case_saHpiSensorEventEnableSet : rpc_case :=
  {| callee := "saHpiSensorEventEnableSet"; iparams := [("sid", CNum eMtUint32); ("rid", CNum
       eMtUint32); ("snum", CNum eMtUint32); ("enabled", CNum eMtUint8)];
     arguments := [Var "sid"; Var "rid"; Var "snum"; Var "enabled"];
     oparams := [("rv", CNum eMtInt32)] |}.
Definition case_saHpiSensorEventMasksGet : rpc_case :=
  {| callee := "saHpiSensorEventMasksGet"; iparams := [("sid", CNum eMtUint32); ("rid", CNum
       eMtUint32); ("snum", CNum eMtUint32); ("amask", CNum eMtUint16); ("dmask", CNum
       eMtUint16)];
     arguments := [Var "sid"; Var "rid"; Var "snum"; Ref "amask"; Ref "dmask"];
     oparams := [("rv", CNum eMtInt32); ("amask", CNum eMtUint16); ("dmask", CNum eMtUint16)] |}.
Definition case_saHpiSensorEventMasksSet : rpc_case :=
  {| callee := "saHpiSensorEventMasksSet"; iparams := [("sid", CNum eMtUint32); ("rid", CNum
       eMtUint32); ("snum", CNum eMtUint32); ("action", CEnum "SaHpiSensorEventMaskActionT");
       ("amask", CNum eMtUint16); ("dmask", CNum eMtUint16)];
     arguments := [Var "sid"; Var "rid"; Var "snum"; Var "action"; Var "amask"; Var "dmask"];
     oparams := [("rv", CNum eMtInt32)] |}.
Definition case_saHpiControlTypeGet : rpc_case :=
  {| callee := "saHpiControlTypeGet"; iparams := [("sid", CNum eMtUint32); ("rid", CNum
       eMtUint32); ("cnum", CNum eMtUint32)];
     arguments := [Var "sid"; Var "rid"; Var "cnum"; Ref "type"];
     oparams := [("rv", CNum eMtInt32); ("type", CEnum "SaHpiCtrlTypeT")] |}.
Definition case_saHpiControlGet : rpc_case :=
  {| callee := "saHpiControlGet"; iparams := [("sid", CNum eMtUint32); ("rid", CNum eMtUint32);
       ("cnum", CNum eMtUint32); ("state", SaHpiCtrlStateT_decl)];
     arguments := [Var "sid"; Var "rid"; Var "cnum"; Ref "mode"; Ref "state"];
     oparams := [("rv", CNum eMtInt32); ("mode", CEnum "SaHpiCtrlModeT"); ("state",
       SaHpiCtrlStateT_decl)] |}.
Definition case_saHpiControlSet : rpc_case :=
  {| callee := "saHpiControlSet"; iparams := [("sid", CNum eMtUint32); ("rid", CNum eMtUint32);
       ("cnum", CNum eMtUint32); ("mode", CEnum "SaHpiCtrlModeT"); ("state",
       SaHpiCtrlStateT_decl)];
     arguments := [Var "sid"; Var "rid"; Var "cnum"; Var "mode"; Ref "state"];
     oparams := [("rv", CNum eMtInt32)] |}.
Definition case_saHpiIdrInfoGet : rpc_case :=
  {| callee := "saHpiIdrInfoGet"; iparams := [("sid", CNum eMtUint32); ("rid", CNum eMtUint32);
       ("iid", CNum eMtUint32)];
     arguments := [Var "sid"; Var "rid"; Var "iid"; Ref "info"];
     oparams := [("rv", CNum eMtInt32); ("info", SaHpiIdrInfoT_decl)] |}.
Definition case_saHpiIdrAreaHeaderGet : rpc_case :=
  {| callee := "saHpiIdrAreaHeaderGet"; iparams := [("sid", CNum eMtUint32); ("rid", CNum
       eMtUint32); ("iid", CNum eMtUint32); ("area", CEnum "SaHpiIdrAreaTypeT"); ("aid", CNum
       eMtUint32)];
     arguments := [Var "sid"; Var "rid"; Var "iid"; Var "area"; Var "aid"; Ref "next_aid"; Ref "hdr"];
     oparams := [("rv", CNum eMtInt32); ("next_aid", CNum eMtUint32); ("hdr",
       SaHpiIdrAreaHeaderT_decl)] |}.
Definition case_saHpiIdrAreaAdd : rpc_case :=
  {| callee := "saHpiIdrAreaAdd"; iparams := [("sid", CNum eMtUint32); ("rid", CNum eMtUint32);
       ("iid", CNum eMtUint32); ("area", CEnum "SaHpiIdrAreaTypeT")];
     arguments := [Var "sid"; Var "rid"; Var "iid"; Var "area"; Ref "aid"];
     oparams := [("rv", CNum eMtInt32); ("aid", CNum eMtUint32)] |}.
Definition case_saHpiIdrAreaAddById : rpc_case :=
  {| callee := "saHpiIdrAreaAddById"; iparams := [("sid", CNum eMtUint32); ("rid", CNum
       eMtUint32); ("iid", CNum eMtUint32); ("type", CEnum "SaHpiIdrAreaTypeT"); ("aid", CNum
       eMtUint32)];
     arguments := [Var "sid"; Var "rid"; Var "iid"; Var "type"; Var "aid"];
     oparams := [("rv", CNum eMtInt32)] |}.
Definition case_saHpiIdrAreaDelete : rpc_case :=
  {| callee := "saHpiIdrAreaDelete"; iparams := [("sid", CNum eMtUint32); ("rid", CNum eMtUint32);
       ("iid", CNum eMtUint32); ("aid", CNum eMtUint32)];
     arguments := [Var "sid"; Var "rid"; Var "iid"; Var "aid"];
     oparams := [("rv", CNum eMtInt32)] |}.
Definition case_saHpiIdrFieldGet : rpc_case :=
  {| callee := "saHpiIdrFieldGet"; iparams := [("sid", CNum eMtUint32); ("rid", CNum eMtUint32);
       ("iid", CNum eMtUint32); ("aid", CNum eMtUint32); ("type", CEnum "SaHpiIdrFieldTypeT");
       ("fid", CNum eMtUint32)];
     arguments := [Var "sid"; Var "rid"; Var "iid"; Var "aid"; Var "type"; Var "fid"; Ref "next_fid";
       Ref "field"];
     oparams := [("rv", CNum eMtInt32); ("next_fid", CNum eMtUint32); ("field", SaHpiIdrFieldT_decl)]
       |}.
Definition case_saHpiIdrFieldAdd : rpc_case :=
  {| callee := "saHpiIdrFieldAdd"; iparams := [("sid", CNum eMtUint32); ("rid", CNum eMtUint32);
       ("iid", CNum eMtUint32); ("field", SaHpiIdrFieldT_decl)];
     arguments := [Var "sid"; Var "rid"; Var "iid"; Ref "field"];
     oparams := [("rv", CNum eMtInt32); ("field", SaHpiIdrFieldT_decl)] |}.
Definition case_saHpiIdrFieldAddById : rpc_case :=
  {| callee := "saHpiIdrFieldAddById"; iparams := [("sid", CNum eMtUint32); ("rid", CNum
       eMtUint32); ("iid", CNum eMtUint32); ("field", SaHpiIdrFieldT_decl)];
     arguments := [Var "sid"; Var "rid"; Var "iid"; Ref "field"];
     oparams := [("rv", CNum eMtInt32); ("field", SaHpiIdrFieldT_decl)] |}.
Definition case_saHpiIdrFieldSet : rpc_case :=
  {| callee := "saHpiIdrFieldSet"; iparams := [("sid", CNum eMtUint32); ("rid", CNum eMtUint32);
       ("iid", CNum eMtUint32); ("field", SaHpiIdrFieldT_decl)];
     arguments := [Var "sid"; Var "rid"; Var "iid"; Ref "field"];
     oparams := [("rv", CNum eMtInt32)] |}.
Definition case_saHpiIdrFieldDelete : rpc_case :=
  {| callee := "saHpiIdrFieldDelete"; iparams := [("sid", CNum eMtUint32); ("rid", CNum
       eMtUint32); ("iid", CNum eMtUint32); ("aid", CNum eMtUint32); ("fid", CNum eMtUint32)];
     arguments := [Var "sid"; Var "rid"; Var "iid"; Var "aid"; Var "fid"];
     oparams := [("rv", CNum eMtInt32)] |}.
Definition case_saHpiWatchdogTimerGet : rpc_case :=
  {| callee := "saHpiWatchdogTimerGet"; iparams := [("sid", CNum eMtUint32); ("rid", CNum
       eMtUint32); ("wnum", CNum eMtUint32)];
     arguments := [Var "sid"; Var "rid"; Var "wnum"; Ref "wdt"];
     oparams := [("rv", CNum eMtInt32); ("wdt", SaHpiWatchdogT_decl)] |}.
Definition case_saHpiWatchdogTimerSet : rpc_case :=
  {| callee := "saHpiWatchdogTimerSet"; iparams := [("sid", CNum eMtUint32); ("rid", CNum
       eMtUint32); ("wnum", CNum eMtUint32); ("wdt", SaHpiWatchdogT_decl)];
     arguments := [Var "sid"; Var "rid"; Var "wnum"; Ref "wdt"];
     oparams := [("rv", CNum eMtInt32)] |}.
Definition case_saHpiWatchdogTimerReset : rpc_case :=
  {| callee := "saHpiWatchdogTimerReset"; iparams := [("sid", CNum eMtUint32); ("rid", CNum
       eMtUint32); ("wnum", CNum eMtUint32)];
     arguments := [Var "sid"; Var "rid"; Var "wnum"];
     oparams := [("rv", CNum eMtInt32)] |}.
Definition case_saHpiAnnunciatorGetNext : rpc_case :=
  {| callee := "saHpiAnnunciatorGetNext"; iparams := [("sid", CNum eMtUint32); ("rid", CNum
       eMtUint32); ("anum", CNum eMtUint32); ("sev", CEnum "SaHpiSeverityT"); ("unack", CNum
       eMtUint8); ("ann", SaHpiAnnouncementT_decl)];
     arguments := [Var "sid"; Var "rid"; Var "anum"; Var "sev"; Var "unack"; Ref "ann"];
     oparams := [("rv", CNum eMtInt32); ("ann", SaHpiAnnouncementT_decl)] |}.
Definition case_saHpiAnnunciatorGet : rpc_case :=
  {| callee := "saHpiAnnunciatorGet"; iparams := [("sid", CNum eMtUint32); ("rid", CNum
       eMtUint32); ("anum", CNum eMtUint32); ("eid", CNum eMtUint32)];
     arguments := [Var "sid"; Var "rid"; Var "anum"; Var "eid"; Ref "ann"];
     oparams := [("rv", CNum eMtInt32); ("ann", SaHpiAnnouncementT_decl)] |}.
Definition case_saHpiAnnunciatorAcknowledge : rpc_case :=
  {| callee := "saHpiAnnunciatorAcknowledge"; iparams := [("sid", CNum eMtUint32); ("rid", CNum
       eMtUint32); ("anum", CNum eMtUint32); ("eid", CNum eMtUint32); ("sev", CEnum
       "SaHpiSeverityT")];
     arguments := [Var "sid"; Var "rid"; Var "anum"; Var "eid"; Var "sev"];
     oparams := [("rv", CNum eMtInt32)] |}.
Definition case_saHpiAnnunciatorAdd : rpc_case :=
  {| callee := "saHpiAnnunciatorAdd"; iparams := [("sid", CNum eMtUint32); ("rid", CNum
       eMtUint32); ("anum", CNum eMtUint32); ("ann", SaHpiAnnouncementT_decl)];
     arguments := [Var "sid"; Var "rid"; Var "anum"; Ref "ann"];
     oparams := [("rv", CNum eMtInt32); ("ann", SaHpiAnnouncementT_decl)] |}.
Definition case_saHpiAnnunciatorDelete : rpc_case :=
  {| callee := "saHpiAnnunciatorDelete"; iparams := [("sid", CNum eMtUint32); ("rid", CNum
       eMtUint32); ("anum", CNum eMtUint32); ("eid", CNum eMtUint32); ("sev", CEnum
       "SaHpiSeverityT")];
     arguments := [Var "sid"; Var "rid"; Var "anum"; Var "eid"; Var "sev"];
     oparams := [("rv", CNum eMtInt32)] |}.
Definition case_saHpiAnnunciatorModeGet : rpc_case :=
  {| callee := "saHpiAnnunciatorModeGet"; iparams := [("sid", CNum eMtUint32); ("rid", CNum
       eMtUint32); ("anum", CNum eMtUint32)];
     arguments := [Var "sid"; Var "rid"; Var "anum"; Ref "mode"];
     oparams := [("rv", CNum eMtInt32); ("mode", CEnum "SaHpiAnnunciatorModeT")] |}.
Definition case_saHpiAnnunciatorModeSet : rpc_case :=
  {| callee := "saHpiAnnunciatorModeSet"; iparams := [("sid", CNum eMtUint32); ("rid", CNum
       eMtUint32); ("anum", CNum eMtUint32); ("mode", CEnum "SaHpiAnnunciatorModeT")];
     arguments := [Var "sid"; Var "rid"; Var "anum"; Var "mode"];
     oparams := [("rv", CNum eMtInt32)] |}.
Definition case_saHpiDimiInfoGet : rpc_case :=
  {| callee := "saHpiDimiInfoGet"; iparams := [("sid", CNum eMtUint32); ("rid", CNum eMtUint32);
       ("dnum", CNum eMtUint32)];
     arguments := [Var "sid"; Var "rid"; Var "dnum"; Ref "info"];
     oparams := [("rv", CNum eMtInt32); ("info", SaHpiDimiInfoT_decl)] |}.
Definition case_saHpiDimiTestInfoGet : rpc_case :=
  {| callee := "saHpiDimiTestInfoGet"; iparams := [("sid", CNum eMtUint32); ("rid", CNum
       eMtUint32); ("dnum", CNum eMtUint32); ("tnum", CNum eMtUint32)];
     arguments := [Var "sid"; Var "rid"; Var "dnum"; Var "tnum"; Ref "test"];
     oparams := [("rv", CNum eMtInt32); ("test", SaHpiDimiTestT_decl)] |}.
Definition case_saHpiDimiTestReadinessGet : rpc_case :=
  {| callee := "saHpiDimiTestReadinessGet"; iparams := [("sid", CNum eMtUint32); ("rid", CNum
       eMtUint32); ("dnum", CNum eMtUint32); ("tnum", CNum eMtUint32)];
     arguments := [Var "sid"; Var "rid"; Var "dnum"; Var "tnum"; Ref "ready"];
     oparams := [("rv", CNum eMtInt32); ("ready", CEnum "SaHpiDimiReadyT")] |}.
Definition case_saHpiDimiTestStart : rpc_case :=
  {| callee := "saHpiDimiTestStart"; iparams := [("sid", CNum eMtUint32); ("rid", CNum eMtUint32);
       ("dnum", CNum eMtUint32); ("tnum", CNum eMtUint32); ("pl",
       SaHpiDimiTestVariableParamsListT_decl)];
     arguments := [Var "sid"; Var "rid"; Var "dnum"; Var "tnum"; Field "pl" 0; Field "pl" 1];
     oparams := [("rv", CNum eMtInt32)] |}.
Definition case_saHpiDimiTestCancel : rpc_case :=
  {| callee := "saHpiDimiTestCancel"; iparams := [("sid", CNum eMtUint32); ("rid", CNum
       eMtUint32); ("dnum", CNum eMtUint32); ("tnum", CNum eMtUint32)];
     arguments := [Var "sid"; Var "rid"; Var "dnum"; Var "tnum"];
     oparams := [("rv", CNum eMtInt32)] |}.
Definition case_saHpiDimiTestStatusGet : rpc_case :=
  {| callee := "saHpiDimiTestStatusGet"; iparams := [("sid", CNum eMtUint32); ("rid", CNum
       eMtUint32); ("dnum", CNum eMtUint32); ("tnum", CNum eMtUint32)];
     arguments := [Var "sid"; Var "rid"; Var "dnum"; Var "tnum"; Ref "percent"; Ref "status"];
     oparams := [("rv", CNum eMtInt32); ("percent", CNum eMtUint8); ("status", CEnum
       "SaHpiDimiTestRunStatusT")] |}.
Definition case_saHpiDimiTestResultsGet : rpc_case :=
  {| callee := "saHpiDimiTestResultsGet"; iparams := [("sid", CNum eMtUint32); ("rid", CNum
       eMtUint32); ("dnum", CNum eMtUint32); ("tnum", CNum eMtUint32)];
     arguments := [Var "sid"; Var "rid"; Var "dnum"; Var "tnum"; Ref "results"];
     oparams := [("rv", CNum eMtInt32); ("results", SaHpiDimiTestResultsT_decl)] |}.
Definition case_saHpiFumiSpecInfoGet : rpc_case :=
  {| callee := "saHpiFumiSpecInfoGet"; iparams := [("sid", CNum eMtUint32); ("rid", CNum
       eMtUint32); ("fnum", CNum eMtUint32)];
     arguments := [Var "sid"; Var "rid"; Var "fnum"; Ref "info"];
     oparams := [("rv", CNum eMtInt32); ("info", SaHpiFumiSpecInfoT_decl)] |}.
Definition case_saHpiFumiServiceImpactGet : rpc_case :=
  {| callee := "saHpiFumiServiceImpactGet"; iparams := [("sid", CNum eMtUint32); ("rid", CNum
       eMtUint32); ("fnum", CNum eMtUint32)];
     arguments := [Var "sid"; Var "rid"; Var "fnum"; Ref "impact"];
     oparams := [("rv", CNum eMtInt32); ("impact", SaHpiFumiServiceImpactDataT_decl)] |}.
Definition case_saHpiFumiSourceSet : rpc_case :=
  {| callee := "saHpiFumiSourceSet"; iparams := [("sid", CNum eMtUint32); ("rid", CNum eMtUint32);
       ("fnum", CNum eMtUint32); ("bnum", CNum eMtUint8); ("uri", SaHpiTextBufferT_decl)];
     arguments := [Var "sid"; Var "rid"; Var "fnum"; Var "bnum"; Ref "uri"];
     oparams := [("rv", CNum eMtInt32)] |}.
Definition case_saHpiFumiSourceInfoValidateStart : rpc_case :=
  {| callee := "saHpiFumiSourceInfoValidateStart"; iparams := [("sid", CNum eMtUint32); ("rid",
       CNum eMtUint32); ("fnum", CNum eMtUint32); ("bnum", CNum eMtUint8)];
     arguments := [Var "sid"; Var "rid"; Var "fnum"; Var "bnum"];
     oparams := [("rv", CNum eMtInt32)] |}.
Definition case_saHpiFumiSourceInfoGet : rpc_case :=
  {| callee := "saHpiFumiSourceInfoGet"; iparams := [("sid", CNum eMtUint32); ("rid", CNum
       eMtUint32); ("fnum", CNum eMtUint32); ("bnum", CNum eMtUint8)];
     arguments := [Var "sid"; Var "rid"; Var "fnum"; Var "bnum"; Ref "info"];
     oparams := [("rv", CNum eMtInt32); ("info", SaHpiFumiSourceInfoT_decl)] |}.
Definition case_saHpiFumiSourceComponentInfoGet : rpc_case :=
  {| callee := "saHpiFumiSourceComponentInfoGet"; iparams := [("sid", CNum eMtUint32); ("rid",
       CNum eMtUint32); ("fnum", CNum eMtUint32); ("bnum", CNum eMtUint8); ("eid", CNum
       eMtUint32)];
     arguments := [Var "sid"; Var "rid"; Var "fnum"; Var "bnum"; Var "eid"; Ref "next_eid"; Ref
       "info"];
     oparams := [("rv", CNum eMtInt32); ("next_eid", CNum eMtUint32); ("info",
       SaHpiFumiComponentInfoT_decl)] |}.
Definition case_saHpiFumiTargetInfoGet : rpc_case :=
  {| callee := "saHpiFumiTargetInfoGet"; iparams := [("sid", CNum eMtUint32); ("rid", CNum
       eMtUint32); ("fnum", CNum eMtUint32); ("bnum", CNum eMtUint8)];
     arguments := [Var "sid"; Var "rid"; Var "fnum"; Var "bnum"; Ref "info"];
     oparams := [("rv", CNum eMtInt32); ("info", SaHpiFumiBankInfoT_decl)] |}.
Definition case_saHpiFumiTargetComponentInfoGet : rpc_case :=
  {| callee := "saHpiFumiTargetComponentInfoGet"; iparams := [("sid", CNum eMtUint32); ("rid",
       CNum eMtUint32); ("fnum", CNum eMtUint32); ("bnum", CNum eMtUint8); ("eid", CNum
       eMtUint32)];
     arguments := [Var "sid"; Var "rid"; Var "fnum"; Var "bnum"; Var "eid"; Ref "next_eid"; Ref
       "info"];
     oparams := [("rv", CNum eMtInt32); ("next_eid", CNum eMtUint32); ("info",
       SaHpiFumiComponentInfoT_decl)] |}.
Definition case_saHpiFumiLogicalTargetInfoGet : rpc_case :=
  {| callee := "saHpiFumiLogicalTargetInfoGet"; iparams := [("sid", CNum eMtUint32); ("rid", CNum
       eMtUint32); ("fnum", CNum eMtUint32)];
     arguments := [Var "sid"; Var "rid"; Var "fnum"; Ref "info"];
     oparams := [("rv", CNum eMtInt32); ("info", SaHpiFumiLogicalBankInfoT_decl)] |}.
Definition case_saHpiFumiLogicalTargetComponentInfoGet : rpc_case :=
  {| callee := "saHpiFumiLogicalTargetComponentInfoGet"; iparams := [("sid", CNum eMtUint32);
       ("rid", CNum eMtUint32); ("fnum", CNum eMtUint32); ("eid", CNum eMtUint32)];
     arguments := [Var "sid"; Var "rid"; Var "fnum"; Var "eid"; Ref "next_eid"; Ref "info"];
     oparams := [("rv", CNum eMtInt32); ("next_eid", CNum eMtUint32); ("info",
       SaHpiFumiLogicalComponentInfoT_decl)] |}.
Definition case_saHpiFumiBackupStart : rpc_case :=
  {| callee := "saHpiFumiBackupStart"; iparams := [("sid", CNum eMtUint32); ("rid", CNum
       eMtUint32); ("fnum", CNum eMtUint32)];
     arguments := [Var "sid"; Var "rid"; Var "fnum"];
     oparams := [("rv", CNum eMtInt32)] |}.
Definition case_saHpiFumiBankBootOrderSet : rpc_case :=
  {| callee := "saHpiFumiBankBootOrderSet"; iparams := [("sid", CNum eMtUint32); ("rid", CNum
       eMtUint32); ("fnum", CNum eMtUint32); ("bnum", CNum eMtUint8); ("pos", CNum eMtUint32)];
     arguments := [Var "sid"; Var "rid"; Var "fnum"; Var "bnum"; Var "pos"];
     oparams := [("rv", CNum eMtInt32)] |}.
Definition case_saHpiFumiBankCopyStart : rpc_case :=
  {| callee := "saHpiFumiBankCopyStart"; iparams := [("sid", CNum eMtUint32); ("rid", CNum
       eMtUint32); ("fnum", CNum eMtUint32); ("src_bnum", CNum eMtUint8); ("dst_bnum", CNum
       eMtUint8)];
     arguments := [Var "sid"; Var "rid"; Var "fnum"; Var "src_bnum"; Var "dst_bnum"];
     oparams := [("rv", CNum eMtInt32)] |}.
Definition case_saHpiFumiInstallStart : rpc_case :=
  {| callee := "saHpiFumiInstallStart"; iparams := [("sid", CNum eMtUint32); ("rid", CNum
       eMtUint32); ("fnum", CNum eMtUint32); ("bnum", CNum eMtUint8)];
     arguments := [Var "sid"; Var "rid"; Var "fnum"; Var "bnum"];
     oparams := [("rv", CNum eMtInt32)] |}.
Definition case_saHpiFumiUpgradeStatusGet : rpc_case :=
  {| callee := "saHpiFumiUpgradeStatusGet"; iparams := [("sid", CNum eMtUint32); ("rid", CNum
       eMtUint32); ("fnum", CNum eMtUint32); ("bnum", CNum eMtUint8)];
     arguments := [Var "sid"; Var "rid"; Var "fnum"; Var "bnum"; Ref "status"];
     oparams := [("rv", CNum eMtInt32); ("status", CEnum "SaHpiFumiUpgradeStatusT")] |}.
Definition case_saHpiFumiTargetVerifyStart : rpc_case :=
  {| callee := "saHpiFumiTargetVerifyStart"; iparams := [("sid", CNum eMtUint32); ("rid", CNum
       eMtUint32); ("fnum", CNum eMtUint32); ("bnum", CNum eMtUint8)];
     arguments := [Var "sid"; Var "rid"; Var "fnum"; Var "bnum"];
     oparams := [("rv", CNum eMtInt32)] |}.
Definition case_saHpiFumiTargetVerifyMainStart : rpc_case :=
  {| callee := "saHpiFumiTargetVerifyMainStart"; iparams := [("sid", CNum eMtUint32); ("rid", CNum
       eMtUint32); ("fnum", CNum eMtUint32)];
     arguments := [Var "sid"; Var "rid"; Var "fnum"];
     oparams := [("rv", CNum eMtInt32)] |}.
Definition case_saHpiFumiUpgradeCancel : rpc_case :=
  {| callee := "saHpiFumiUpgradeCancel"; iparams := [("sid", CNum eMtUint32); ("rid", CNum
       eMtUint32); ("fnum", CNum eMtUint32); ("bnum", CNum eMtUint8)];
     arguments := [Var "sid"; Var "rid"; Var "fnum"; Var "bnum"];
     oparams := [("rv", CNum eMtInt32)] |}.
Definition case_saHpiFumiAutoRollbackDisableGet : rpc_case :=
  {| callee := "saHpiFumiAutoRollbackDisableGet"; iparams := [("sid", CNum eMtUint32); ("rid",
       CNum eMtUint32); ("fnum", CNum eMtUint32)];
     arguments := [Var "sid"; Var "rid"; Var "fnum"; Ref "disable"];
     oparams := [("rv", CNum eMtInt32); ("disable", CNum eMtUint8)] |}.
Definition case_saHpiFumiAutoRollbackDisableSet : rpc_case :=
  {| callee := "saHpiFumiAutoRollbackDisableSet"; iparams := [("sid", CNum eMtUint32); ("rid",
       CNum eMtUint32); ("fnum", CNum eMtUint32); ("disable", CNum eMtUint8)];
     arguments := [Var "sid"; Var "rid"; Var "fnum"; Var "disable"];
     oparams := [("rv", CNum eMtInt32)] |}.
Definition case_saHpiFumiRollbackStart : rpc_case :=
  {| callee := "saHpiFumiRollbackStart"; iparams := [("sid", CNum eMtUint32); ("rid", CNum
       eMtUint32); ("fnum", CNum eMtUint32)];
     arguments := [Var "sid"; Var "rid"; Var "fnum"];
     oparams := [("rv", CNum eMtInt32)] |}.
Definition case_saHpiFumiActivate : rpc_case :=
  {| callee := "saHpiFumiActivate"; iparams := [("sid", CNum eMtUint32); ("rid", CNum eMtUint32);
       ("fnum", CNum eMtUint32)];
     arguments := [Var "sid"; Var "rid"; Var "fnum"];
     oparams := [("rv", CNum eMtInt32)] |}.
Definition case_saHpiFumiActivateStart : rpc_case :=
  {| callee := "saHpiFumiActivateStart"; iparams := [("sid", CNum eMtUint32); ("rid", CNum
       eMtUint32); ("fnum", CNum eMtUint32); ("logical", CNum eMtUint8)];
     arguments := [Var "sid"; Var "rid"; Var "fnum"; Var "logical"];
     oparams := [("rv", CNum eMtInt32)] |}.
Definition case_saHpiFumiCleanup : rpc_case :=
  {| callee := "saHpiFumiCleanup"; iparams := [("sid", CNum eMtUint32); ("rid", CNum eMtUint32);
       ("fnum", CNum eMtUint32); ("bnum", CNum eMtUint8)];
     arguments := [Var "sid"; Var "rid"; Var "fnum"; Var "bnum"];
     oparams := [("rv", CNum eMtInt32)] |}.
Definition case_saHpiHotSwapPolicyCancel : rpc_case :=
  {| callee := "saHpiHotSwapPolicyCancel"; iparams := [("sid", CNum eMtUint32); ("rid", CNum
       eMtUint32)];
     arguments := [Var "sid"; Var "rid"];
     oparams := [("rv", CNum eMtInt32)] |}.
Definition case_saHpiResourceActiveSet : rpc_case :=
  {| callee := "saHpiResourceActiveSet"; iparams := [("sid", CNum eMtUint32); ("rid", CNum
       eMtUint32)];
     arguments := [Var "sid"; Var "rid"];
     oparams := [("rv", CNum eMtInt32)] |}.
Definition case_saHpiResourceInactiveSet : rpc_case :=
  {| callee := "saHpiResourceInactiveSet"; iparams := [("sid", CNum eMtUint32); ("rid", CNum
       eMtUint32)];
     arguments := [Var "sid"; Var "rid"];
     oparams := [("rv", CNum eMtInt32)] |}.
Definition case_saHpiAutoInsertTimeoutGet : rpc_case :=
  {| callee := "saHpiAutoInsertTimeoutGet"; iparams := [("sid", CNum eMtUint32)];
     arguments := [Var "sid"; Ref "timeout"];
     oparams := [("rv", CNum eMtInt32); ("timeout", CNum eMtInt64)] |}.
Definition case_saHpiAutoInsertTimeoutSet : rpc_case :=
  {| callee := "saHpiAutoInsertTimeoutSet"; iparams := [("sid", CNum eMtUint32); ("timeout", CNum
       eMtInt64)];
     arguments := [Var "sid"; Var "timeout"];
     oparams := [("rv", CNum eMtInt32)] |}.
Definition case_saHpiAutoExtractTimeoutGet : rpc_case :=
  {| callee := "saHpiAutoExtractTimeoutGet"; iparams := [("sid", CNum eMtUint32); ("rid", CNum
       eMtUint32)];
     arguments := [Var "sid"; Var "rid"; Ref "timeout"];
     oparams := [("rv", CNum eMtInt32); ("timeout", CNum eMtInt64)] |}.
Definition case_saHpiAutoExtractTimeoutSet : rpc_case :=
  {| callee := "saHpiAutoExtractTimeoutSet"; iparams := [("sid", CNum eMtUint32); ("rid", CNum
       eMtUint32); ("timeout", CNum eMtInt64)];
     arguments := [Var "sid"; Var "rid"; Var "timeout"];
     oparams := [("rv", CNum eMtInt32)] |}.
Definition case_saHpiHotSwapStateGet : rpc_case :=
  {| callee := "saHpiHotSwapStateGet"; iparams := [("sid", CNum eMtUint32); ("rid", CNum
       eMtUint32)];
     arguments := [Var "sid"; Var "rid"; Ref "state"];
     oparams := [("rv", CNum eMtInt32); ("state", CEnum "SaHpiHsStateT")] |}.
Definition case_saHpiHotSwapActionRequest : rpc_case :=
  {| callee := "saHpiHotSwapActionRequest"; iparams := [("sid", CNum eMtUint32); ("rid", CNum
       eMtUint32); ("action", CEnum "SaHpiHsActionT")];
     arguments := [Var "sid"; Var "rid"; Var "action"];
     oparams := [("rv", CNum eMtInt32)] |}.
Definition case_saHpiHotSwapIndicatorStateGet : rpc_case :=
  {| callee := "saHpiHotSwapIndicatorStateGet"; iparams := [("sid", CNum eMtUint32); ("rid", CNum
       eMtUint32)];
     arguments := [Var "sid"; Var "rid"; Ref "state"];
     oparams := [("rv", CNum eMtInt32); ("state", CEnum "SaHpiHsIndicatorStateT")] |}.
Definition case_saHpiHotSwapIndicatorStateSet : rpc_case :=
  {| callee := "saHpiHotSwapIndicatorStateSet"; iparams := [("sid", CNum eMtUint32); ("rid", CNum
       eMtUint32); ("state", CEnum "SaHpiHsIndicatorStateT")];
     arguments := [Var "sid"; Var "rid"; Var "state"];
     oparams := [("rv", CNum eMtInt32)] |}.
Definition case_saHpiParmControl : rpc_case :=
  {| callee := "saHpiParmControl"; iparams := [("sid", CNum eMtUint32); ("rid", CNum eMtUint32);
       ("action", CEnum "SaHpiParmActionT")];
     arguments := [Var "sid"; Var "rid"; Var "action"];
     oparams := [("rv", CNum eMtInt32)] |}.
Definition case_saHpiResourceLoadIdGet : rpc_case :=
  {| callee := "saHpiResourceLoadIdGet"; iparams := [("sid", CNum eMtUint32); ("rid", CNum
       eMtUint32)];
     arguments := [Var "sid"; Var "rid"; Ref "lid"];
     oparams := [("rv", CNum eMtInt32); ("lid", SaHpiLoadIdT_decl)] |}.
Definition case_saHpiResourceLoadIdSet : rpc_case :=
  {| callee := "saHpiResourceLoadIdSet"; iparams := [("sid", CNum eMtUint32); ("rid", CNum
       eMtUint32); ("lid", SaHpiLoadIdT_decl)];
     arguments := [Var "sid"; Var "rid"; Ref "lid"];
     oparams := [("rv", CNum eMtInt32)] |}.
Definition case_saHpiResourceResetStateGet : rpc_case :=
  {| callee := "saHpiResourceResetStateGet"; iparams := [("sid", CNum eMtUint32); ("rid", CNum
       eMtUint32)];
     arguments := [Var "sid"; Var "rid"; Ref "action"];
     oparams := [("rv", CNum eMtInt32); ("action", CEnum "SaHpiResetActionT")] |}.
Definition case_saHpiResourceResetStateSet : rpc_case :=
  {| callee := "saHpiResourceResetStateSet"; iparams := [("sid", CNum eMtUint32); ("rid", CNum
       eMtUint32); ("action", CEnum "SaHpiResetActionT")];
     arguments := [Var "sid"; Var "rid"; Var "action"];
     oparams := [("rv", CNum eMtInt32)] |}.
Definition case_saHpiResourcePowerStateGet : rpc_case :=
  {| callee := "saHpiResourcePowerStateGet"; iparams := [("sid", CNum eMtUint32); ("rid", CNum
       eMtUint32)];
     arguments := [Var "sid"; Var "rid"; Ref "state"];
     oparams := [("rv", CNum eMtInt32); ("state", CEnum "SaHpiPowerStateT")] |}.
Definition case_saHpiResourcePowerStateSet : rpc_case :=
  {| callee := "saHpiResourcePowerStateSet"; iparams := [("sid", CNum eMtUint32); ("rid", CNum
       eMtUint32); ("state", CEnum "SaHpiPowerStateT")];
     arguments := [Var "sid"; Var "rid"; Var "state"];
     oparams := [("rv", CNum eMtInt32)] |}.
Definition case_oHpiHandlerCreate : rpc_case :=
  {| callee := "oHpiHandlerCreate"; iparams := [("sid", CNum eMtUint32); ("cfg",
       oHpiHandlerConfigT_decl)];
     arguments := [Var "sid"; Ref "cfg_tbl"; Ref "hid"];
     oparams := [("rv", CNum eMtInt32); ("hid", CNum eMtUint32)] |}.
Definition case_oHpiHandlerDestroy : rpc_case :=
  {| callee := "oHpiHandlerDestroy"; iparams := [("sid", CNum eMtUint32); ("hid", CNum
       eMtUint32)];
     arguments := [Var "sid"; Var "hid"];
     oparams := [("rv", CNum eMtInt32)] |}.
Definition case_oHpiHandlerInfo : rpc_case :=
  {| callee := "oHpiHandlerInfo"; iparams := [("sid", CNum eMtUint32); ("hid", CNum eMtUint32)];
     arguments := [Var "sid"; Var "hid"; Ref "info"; Ref "cfg_tbl"];
     oparams := [("rv", CNum eMtInt32); ("info", oHpiHandlerInfoT_decl); ("cfg",
       oHpiHandlerConfigT_decl)] |}.
Definition case_oHpiHandlerGetNext : rpc_case :=
  {| callee := "oHpiHandlerGetNext"; iparams := [("sid", CNum eMtUint32); ("hid", CNum
       eMtUint32)];
     arguments := [Var "sid"; Var "hid"; Ref "next_hid"];
     oparams := [("rv", CNum eMtInt32); ("next_hid", CNum eMtUint32)] |}.
Definition case_oHpiHandlerFind : rpc_case :=
  {| callee := "oHpiHandlerFind"; iparams := [("sid", CNum eMtUint32); ("rid", CNum eMtUint32)];
     arguments := [Var "sid"; Var "rid"; Ref "hid"];
     oparams := [("rv", CNum eMtInt32); ("hid", CNum eMtUint32)] |}.
Definition case_oHpiHandlerRetry : rpc_case :=
  {| callee := "oHpiHandlerRetry"; iparams := [("sid", CNum eMtUint32); ("hid", CNum eMtUint32)];
     arguments := [Var "sid"; Var "hid"];
     oparams := [("rv", CNum eMtInt32)] |}.
Definition case_oHpiGlobalParamGet : rpc_case :=
  {| callee := "oHpiGlobalParamGet"; iparams := [("sid", CNum eMtUint32); ("param",
       oHpiGlobalParamT_decl)];
     arguments := [Var "sid"; Ref "param"];
     oparams := [("rv", CNum eMtInt32); ("param", oHpiGlobalParamT_decl)] |}.
Definition case_oHpiGlobalParamSet : rpc_case :=
  {| callee := "oHpiGlobalParamSet"; iparams := [("sid", CNum eMtUint32); ("param",
       oHpiGlobalParamT_decl)];
     arguments := [Var "sid"; Ref "param"];
     oparams := [("rv", CNum eMtInt32)] |}.
Definition case_oHpiInjectEvent : rpc_case :=
  {| callee := "oHpiInjectEvent"; iparams := [("sid", CNum eMtUint32); ("hid", CNum eMtUint32);
       ("evt", SaHpiEventT_decl); ("rpte", SaHpiRptEntryT_decl); ("rdr", SaHpiRdrT_decl)];
     arguments := [Var "sid"; Var "hid"; Ref "evt"; Ref "rpte"; Ref "rdr"];
     oparams := [("rv", CNum eMtInt32)] |}.

Definition cases : list (tHpiFucntionId * rpc_case) :=
  [(eFsaHpiSessionOpen, case_saHpiSessionOpen);
   (eFsaHpiSessionClose, case_saHpiSessionClose);
   (eFsaHpiDiscover, case_saHpiDiscover);
   (eFsaHpiDomainInfoGet, case_saHpiDomainInfoGet);
   (eFsaHpiDrtEntryGet, case_saHpiDrtEntryGet);
   (eFsaHpiDomainTagSet, case_saHpiDomainTagSet);
   (eFsaHpiRptEntryGet, case_saHpiRptEntryGet);
   (eFsaHpiRptEntryGetByResourceId, case_saHpiRptEntryGetByResourceId);
   (eFsaHpiResourceSeveritySet, case_saHpiResourceSeveritySet);
   (eFsaHpiResourceTagSet, case_saHpiResourceTagSet);
   (eFsaHpiMyEntityPathGet, case_saHpiMyEntityPathGet);
   (eFsaHpiResourceIdGet, case_saHpiResourceIdGet);
   (eFsaHpiGetIdByEntityPath, case_saHpiGetIdByEntityPath);
   (eFsaHpiGetChildEntityPath, case_saHpiGetChildEntityPath);
   (eFsaHpiResourceFailedRemove, case_saHpiResourceFailedRemove);
   (eFsaHpiEventLogInfoGet, case_saHpiEventLogInfoGet);
   (eFsaHpiEventLogCapabilitiesGet, case_saHpiEventLogCapabilitiesGet);
   (eFsaHpiEventLogEntryGet, case_saHpiEventLogEntryGet);
   (eFsaHpiEventLogEntryAdd, case_saHpiEventLogEntryAdd);
   (eFsaHpiEventLogClear, case_saHpiEventLogClear);
   (eFsaHpiEventLogTimeGet, case_saHpiEventLogTimeGet);
   (eFsaHpiEventLogTimeSet, case_saHpiEventLogTimeSet);
   (eFsaHpiEventLogStateGet, case_saHpiEventLogStateGet);
   (eFsaHpiEventLogStateSet, case_saHpiEventLogStateSet);
   (eFsaHpiEventLogOverflowReset, case_saHpiEventLogOverflowReset);
   (eFsaHpiSubscribe, case_saHpiSubscribe);
   (eFsaHpiUnsubscribe, case_saHpiUnsubscribe);
   (eFsaHpiEventGet, case_saHpiEventGet);
   (eFsaHpiEventAdd, case_saHpiEventAdd);
   (eFsaHpiAlarmGetNext, case_saHpiAlarmGetNext);
   (eFsaHpiAlarmGet, case_saHpiAlarmGet);
   (eFsaHpiAlarmAcknowledge, case_saHpiAlarmAcknowledge);
   (eFsaHpiAlarmAdd, case_saHpiAlarmAdd);
   (eFsaHpiAlarmDelete, case_saHpiAlarmDelete);
   (eFsaHpiRdrGet, case_saHpiRdrGet);
   (eFsaHpiRdrGetByInstrumentId, case_saHpiRdrGetByInstrumentId);
   (eFsaHpiRdrUpdateCountGet, case_saHpiRdrUpdateCountGet);
   (eFsaHpiSensorReadingGet, case_saHpiSensorReadingGet);
   (eFsaHpiSensorThresholdsGet, case_saHpiSensorThresholdsGet);
   (eFsaHpiSensorThresholdsSet, case_saHpiSensorThresholdsSet);
   (eFsaHpiSensorTypeGet, case_saHpiSensorTypeGet);
   (eFsaHpiSensorEnableGet, case_saHpiSensorEnableGet);
   (eFsaHpiSensorEnableSet, case_saHpiSensorEnableSet);
   (eFsaHpiSensorEventEnableGet, case_saHpiSensorEventEnableGet);
   (eFsaHpiSensorEventEnableSet, case_saHpiSensorEventEnableSet);
   (eFsaHpiSensorEventMasksGet, case_saHpiSensorEventMasksGet);
   (eFsaHpiSensorEventMasksSet, case_saHpiSensorEventMasksSet);
   (eFsaHpiControlTypeGet, case_saHpiControlTypeGet);
   (eFsaHpiControlGet, case_saHpiControlGet);
   (eFsaHpiControlSet, case_saHpiControlSet);
   (eFsaHpiIdrInfoGet, case_saHpiIdrInfoGet);
   (eFsaHpiIdrAreaHeaderGet, case_saHpiIdrAreaHeaderGet);
   (eFsaHpiIdrAreaAdd, case_saHpiIdrAreaAdd);
   (eFsaHpiIdrAreaAddById, case_saHpiIdrAreaAddById);
   (eFsaHpiIdrAreaDelete, case_saHpiIdrAreaDelete);
   (eFsaHpiIdrFieldGet, case_saHpiIdrFieldGet);
   (eFsaHpiIdrFieldAdd, case_saHpiIdrFieldAdd);
   (eFsaHpiIdrFieldAddById, case_saHpiIdrFieldAddById);
   (eFsaHpiIdrFieldSet, case_saHpiIdrFieldSet);
   (eFsaHpiIdrFieldDelete, case_saHpiIdrFieldDelete);
   (eFsaHpiWatchdogTimerGet, case_saHpiWatchdogTimerGet);
   (eFsaHpiWatchdogTimerSet, case_saHpiWatchdogTimerSet);
   (eFsaHpiWatchdogTimerReset, case_saHpiWatchdogTimerReset);
   (eFsaHpiAnnunciatorGetNext, case_saHpiAnnunciatorGetNext);
   (eFsaHpiAnnunciatorGet, case_saHpiAnnunciatorGet);
   (eFsaHpiAnnunciatorAcknowledge, case_saHpiAnnunciatorAcknowledge);
   (eFsaHpiAnnunciatorAdd, case_saHpiAnnunciatorAdd);
   (eFsaHpiAnnunciatorDelete, case_saHpiAnnunciatorDelete);
   (eFsaHpiAnnunciatorModeGet, case_saHpiAnnunciatorModeGet);
   (eFsaHpiAnnunciatorModeSet, case_saHpiAnnunciatorModeSet);
   (eFsaHpiDimiInfoGet, case_saHpiDimiInfoGet);
   (eFsaHpiDimiTestInfoGet, case_saHpiDimiTestInfoGet);
   (eFsaHpiDimiTestReadinessGet, case_saHpiDimiTestReadinessGet);
   (eFsaHpiDimiTestStart, case_saHpiDimiTestStart);
   (eFsaHpiDimiTestCancel, case_saHpiDimiTestCancel);
   (eFsaHpiDimiTestStatusGet, case_saHpiDimiTestStatusGet);
   (eFsaHpiDimiTestResultsGet, case_saHpiDimiTestResultsGet);
   (eFsaHpiFumiSpecInfoGet, case_saHpiFumiSpecInfoGet);
   (eFsaHpiFumiServiceImpactGet, case_saHpiFumiServiceImpactGet);
   (eFsaHpiFumiSourceSet, case_saHpiFumiSourceSet);
   (eFsaHpiFumiSourceInfoValidateStart, case_saHpiFumiSourceInfoValidateStart);
   (eFsaHpiFumiSourceInfoGet, case_saHpiFumiSourceInfoGet);
   (eFsaHpiFumiSourceComponentInfoGet, case_saHpiFumiSourceComponentInfoGet);
   (eFsaHpiFumiTargetInfoGet, case_saHpiFumiTargetInfoGet);
   (eFsaHpiFumiTargetComponentInfoGet, case_saHpiFumiTargetComponentInfoGet);
   (eFsaHpiFumiLogicalTargetInfoGet, case_saHpiFumiLogicalTargetInfoGet);
   (eFsaHpiFumiLogicalTargetComponentInfoGet, case_saHpiFumiLogicalTargetComponentInfoGet);
   (eFsaHpiFumiBackupStart, case_saHpiFumiBackupStart);
   (eFsaHpiFumiBankBootOrderSet, case_saHpiFumiBankBootOrderSet);
   (eFsaHpiFumiBankCopyStart, case_saHpiFumiBankCopyStart);
   (eFsaHpiFumiInstallStart, case_saHpiFumiInstallStart);
   (eFsaHpiFumiUpgradeStatusGet, case_saHpiFumiUpgradeStatusGet);
   (eFsaHpiFumiTargetVerifyStart, case_saHpiFumiTargetVerifyStart);
   (eFsaHpiFumiTargetVerifyMainStart, case_saHpiFumiTargetVerifyMainStart);
   (eFsaHpiFumiUpgradeCancel, case_saHpiFumiUpgradeCancel);
   (eFsaHpiFumiAutoRollbackDisableGet, case_saHpiFumiAutoRollbackDisableGet);
   (eFsaHpiFumiAutoRollbackDisableSet, case_saHpiFumiAutoRollbackDisableSet);
   (eFsaHpiFumiRollbackStart, case_saHpiFumiRollbackStart);
   (eFsaHpiFumiActivate, case_saHpiFumiActivate);
   (eFsaHpiFumiActivateStart, case_saHpiFumiActivateStart);
   (eFsaHpiFumiCleanup, case_saHpiFumiCleanup);
   (eFsaHpiHotSwapPolicyCancel, case_saHpiHotSwapPolicyCancel);
   (eFsaHpiResourceActiveSet, case_saHpiResourceActiveSet);
   (eFsaHpiResourceInactiveSet, case_saHpiResourceInactiveSet);
   (eFsaHpiAutoInsertTimeoutGet, case_saHpiAutoInsertTimeoutGet);
   (eFsaHpiAutoInsertTimeoutSet, case_saHpiAutoInsertTimeoutSet);
   (eFsaHpiAutoExtractTimeoutGet, case_saHpiAutoExtractTimeoutGet);
   (eFsaHpiAutoExtractTimeoutSet, case_saHpiAutoExtractTimeoutSet);
   (eFsaHpiHotSwapStateGet, case_saHpiHotSwapStateGet);
   (eFsaHpiHotSwapActionRequest, case_saHpiHotSwapActionRequest);
   (eFsaHpiHotSwapIndicatorStateGet, case_saHpiHotSwapIndicatorStateGet);
   (eFsaHpiHotSwapIndicatorStateSet, case_saHpiHotSwapIndicatorStateSet);
   (eFsaHpiParmControl, case_saHpiParmControl);
   (eFsaHpiResourceLoadIdGet, case_saHpiResourceLoadIdGet);
   (eFsaHpiResourceLoadIdSet, case_saHpiResourceLoadIdSet);
   (eFsaHpiResourceResetStateGet, case_saHpiResourceResetStateGet);
   (eFsaHpiResourceResetStateSet, case_saHpiResourceResetStateSet);
   (eFsaHpiResourcePowerStateGet, case_saHpiResourcePowerStateGet);
   (eFsaHpiResourcePowerStateSet, case_saHpiResourcePowerStateSet);
   (eFoHpiHandlerCreate, case_oHpiHandlerCreate);
   (eFoHpiHandlerDestroy, case_oHpiHandlerDestroy);
   (eFoHpiHandlerInfo, case_oHpiHandlerInfo);
   (eFoHpiHandlerGetNext, case_oHpiHandlerGetNext);
   (eFoHpiHandlerFind, case_oHpiHandlerFind);
   (eFoHpiHandlerRetry, case_oHpiHandlerRetry);
   (eFoHpiGlobalParamGet, case_oHpiGlobalParamGet);
   (eFoHpiGlobalParamSet, case_oHpiGlobalParamSet);
   (eFoHpiInjectEvent, case_oHpiInjectEvent)].

(** [switch (hm->m_id)] *)
Definition case_of (id : Z) : option rpc_case :=
  snd <$> List.find (fun ic : tHpiFucntionId * rpc_case => function_number ic.1 =? id) cases.

(** * process_msg *)

Definition env := gmap string value.

(** The object of a variable is large enough for what its table accesses;
    structures are, since their tables access fields by their offsets. *)
Definition param_fits (c : ctype) (t : cMarshalType) : bool :=
  match c, t with
  | CNum s, Simple s' => (sizeof s' <=? sizeof s)%nat
  | CEnum _, Simple s' => (sizeof s' <=? 4)%nat
  | CStruct _, eMtStruct _ _ => true
  | _, _ => false
  end.

Fixpoint params_fit (ps : list (string * ctype)) (ts : list cMarshalType) : bool :=
  match ps, ts with
  | _, [] => true
  | (_, c) :: ps', t :: ts' => param_fits c t && params_fit ps' ts'
  | [], _ :: _ => false  (* the null pointers at the end of RpcParams *)
  end.

(** [DEMARSHAL_RQ] *)
Definition DEMARSHAL_RQ (host byte_order : ByteOrder) (hm : cHpiMarshal) (data : list Z)
    (ps : list (string * ctype)) : outcome env :=
  if negb (params_fit ps (m_request hm)) then Undefined else
  let* (vs, _) := HpiDemarshalRequest host byte_order hm data in
  Done (list_to_map (zip ps.*1 vs)).

(** [MARSHAL_RP] with the variables' values after the call; the reply is
    written into the buffer the request was read from. *)
Definition MARSHAL_RP (host : ByteOrder) (hm : cHpiMarshal) (e : env)
    (ps : list (string * ctype)) : outcome (list Z) :=
  let* bs :=
    match e !! "rv" with
    | Some (VNum rv) =>
        if rv =? SA_OK then
          if negb (params_fit ps (m_reply hm)) then Undefined else
          match mapM (fun x : string => e !! x) ps.*1 with
          | Some vs => HpiMarshalReply host hm vs
          | None => Undefined
          end
        else HpiMarshalReply host hm [VNum rv]
    | _ => Undefined
    end in
  if dMaxPayloadLength <? Z.of_nat (length bs) then Undefined else Done bs.

Definition argument_value (e : env) (a : argument) : option value :=
  match a with
  | Var x | Ref x => e !! x
  | Field x i => match e !! x with Some (VStruct vs) => vs !! i | _ => None end
  | DefaultDomain => Some (VNum OH_DEFAULT_DOMAIN_ID)
  | NullPtr => Some VVoid
  end.

(** What the function stored through the addresses it was given. *)
Fixpoint store_results (args : list argument) (results : list (option value)) (e : env) : env :=
  match args, results with
  | Ref x :: args', Some v :: results' => store_results args' results' (<[x := v]> e)
  | _ :: args', _ :: results' => store_results args' results' e
  | _, _ => e
  end.

(** *** The hash table of a handler configuration

    A GHashTable of strings is the list of its pairs in the order
    [g_hash_table_foreach] visits them. *)
Fixpoint c_string (bytes : list value) : option (list value) :=
  match bytes with
  | VNum z :: bytes' => if z =? 0 then Some [] else (VNum z ::.) <$> c_string bytes'
  | _ => None
  end.

Fixpoint table_insert (eqb : list value -> list value -> bool) (k v : list value)
    (t : list (list value * list value)) : list (list value * list value) :=
  match t with
  | [] => [(k, v)]
  | (k', v') :: t' => if eqb k' k then (k', v) :: t' else (k', v') :: table_insert eqb k v t'
  end.

Definition chars_eqb (s s' : list value) : bool :=
  bool_decide (((fun v => match v with VNum z => z | _ => 0 end) <$> s) =
               ((fun v => match v with VNum z => z | _ => 0 end) <$> s')).

Definition value_of_table (t : list (list value * list value)) : value :=
  VArray ((fun kv => VStruct [VArray kv.1; VArray kv.2]) <$> t).

Fixpoint table_of_value (vs : list value) : option (list (list value * list value)) :=
  match vs with
  | [] => Some []
  | VStruct [VArray k; VArray v] :: vs' => ((k, v) ::.) <$> table_of_value vs'
  | _ => None
  end.

(** The loop of [eFoHpiHandlerCreate]; a name or value without a terminator
    is read past its array. *)
Fixpoint hash_handler_cfg (params : list value) (t : list (list value * list value))
  : outcome (list (list value * list value)) :=
  match params with
  | [] => Done t
  | VStruct [VArray name; VArray val] :: params' =>
      match c_string name, c_string val with
      | Some k, Some v => hash_handler_cfg params' (table_insert chars_eqb k v t)
      | _, _ => Undefined
      end
  | _ => Undefined
  end.

(** [strncpy] of a string into an array of [n] bytes. *)
Definition strncpy (n : nat) (s : list value) : value :=
  VArray (take n (s ++ replicate n (VNum 0))).

(** [dehash_handler_cfg] on the structure [(NumberOfParams, Params)]. *)
Definition dehash_handler_cfg (hc : Z * list value) (kv : list value * list value)
  : Z * list value :=
  let '(NumberOfParams, Params) := hc in
  (u8 (NumberOfParams + 1),
   <[Z.to_nat NumberOfParams := VStruct [strncpy SAHPI_MAX_TEXT_BUFFER_LENGTH kv.1;
                                         strncpy SAHPI_MAX_TEXT_BUFFER_LENGTH kv.2]]> Params).

Definition handler_cfg (t : list (list value * list value)) : value :=
  let empty := VStruct [strncpy SAHPI_MAX_TEXT_BUFFER_LENGTH []; strncpy SAHPI_MAX_TEXT_BUFFER_LENGTH []] in
  let '(n, params) := fold_left dehash_handler_cfg t (0, replicate (length t) empty) in
  VStruct [VNum n; VArray params].

(** The statements of a case between [DEMARSHAL_RQ] and the call, and between
    the call and [MARSHAL_RP]. *)
Definition before_call (id : Z) (e : env) : outcome env :=
  if id =? function_number eFoHpiHandlerCreate then
    match e !! "cfg" with
    | Some (VStruct [VNum n; VArray params]) =>
        let* t := hash_handler_cfg (take (Z.to_nat n) params) [] in
        Done (<["cfg_tbl" := value_of_table t]> e)
    | _ => Undefined
    end
  else if id =? function_number eFoHpiHandlerInfo then
    Done (<["cfg_tbl" := value_of_table []]> e)
  else Done e.

Definition after_call (id : Z) (e : env) : outcome env :=
  if id =? function_number eFoHpiHandlerInfo then
    match e !! "cfg_tbl" with
    | Some (VArray vs) =>
        match table_of_value vs with
        | Some t => Done (<["cfg" := handler_cfg t]> e)
        | None => Undefined
        end
    | _ => Undefined
    end
  else Done e.

(** The result of [process_msg]: its return value, the reply if it was
    marshalled, and [changed_sid]. *)
Record msg_result (D : Type) := {
  process_rv : Z;
  reply : option (list Z);
  changed_sid : Z;
  daemon : D
}.
Arguments process_rv {D} _.
Arguments reply {D} _.
Arguments changed_sid {D} _.
Arguments daemon {D} _.

Definition call_case `{HpiService D} (c : rpc_case) (e : env) (d : D) : Z * env * D :=
  let '(rv, results, d') := hpi_call (callee c) (argument_value e <$> arguments c) d in
  (rv, <["rv" := VNum rv]> (store_results (arguments c) results e), d').

Definition process_msg `{HpiService D} (host byte_order : ByteOrder) (hm : cHpiMarshal)
    (data : list Z) (d : D) : outcome (msg_result D) :=
  match case_of (m_id hm) with
  | None => Done {| process_rv := SA_ERR_HPI_UNSUPPORTED_API; reply := None;
                    changed_sid := 0; daemon := d |}
  | Some c =>
      match DEMARSHAL_RQ host byte_order hm data (iparams c) with
      | Undefined => Undefined
      | Cc _ => Done {| process_rv := SA_ERR_HPI_INVALID_PARAMS; reply := None;
                        changed_sid := 0; daemon := d |}
      | Done e =>
          let* e := before_call (m_id hm) e in
          let '(rv, e, d') := call_case c e d in
          let* e := after_call (m_id hm) e in
          let sid := match e !! "sid" with Some (VNum sid) => sid | _ => 0 end in
          let changed :=
            if ((m_id hm =? function_number eFsaHpiSessionOpen)
                || (m_id hm =? function_number eFsaHpiSessionClose)) && (rv =? SA_OK)
            then sid else 0 in
          match MARSHAL_RP host hm e (oparams c) with
          | Undefined => Undefined
          | Cc _ => Done {| process_rv := SA_ERR_HPI_INTERNAL_ERROR; reply := None;
                            changed_sid := changed; daemon := d' |}
          | Done bs => Done {| process_rv := SA_OK; reply := Some bs;
                               changed_sid := changed; daemon := d' |}
          end
      end
  end.

(** * The thread of a connection *)

(** The conversion of the message id, a [uint32_t], to the [int] parameter of
    [HpiMarshalFind]. *)
Definition int_of_uint32 (z : Z) : Z := if z <? 2 ^ 31 then z else z - 2 ^ 32.

(** What happens around one iteration: what [ReadMsg] ends with, the bytes
    left in the buffer after the payload (the buffer is not initialised), how
    much of the reply the network takes, and the stop flag of the daemon after
    reading and after writing. *)
Record iteration := {
  read : read_result;
  stale : list Z;
  send : list Z -> Z;
  stop_read : bool;
  stop_write : bool
}.

Record thread_state (D : Type) := { my_sid : Z; thread_daemon : D }.
Arguments my_sid {D} _.
Arguments thread_daemon {D} _.

(** The message sent in an iteration, if [WriteMsg] was called, and whether the
    loop goes on. *)
Inductive step_end := Next | Break.

Definition reply_error (host : ByteOrder) (hm : option cHpiMarshal) (rv : Z) : outcome (list Z) :=
  match hm with
  | Some m => HpiMarshalReply0 host m (VNum rv)
  | None => Marshal host SaErrorType (VNum rv)  (* the row is not looked at *)
  end.

Definition service_iteration `{HpiService D} (host : ByteOrder) (it : iteration)
    (st : thread_state D) : outcome (thread_state D * list (list Z) * step_end) :=
  match read it with
  | ReadOverflow => Undefined
  | ReadWaiting => Done (st, [], Next)
  | ReadFalse _ _ => Done (st, [], Break)
  | ReadTrue h payload _ =>
      if stop_read it then Done (st, [], Break) else
      if negb (mh_type h =? eMhMsg) then
        let* (_, sent) := WriteMsg host eMhError (mh_id h) None 0 (send it) in
        Done (st, [sent], Next)
      else
        let hm := HpiMarshalFind (int_of_uint32 (mh_id h)) in
        let* r :=
          match hm with
          | Some m => process_msg host (mh_byte_order h) m (payload ++ stale it)%list (thread_daemon st)
          | None => Done {| process_rv := SA_ERR_HPI_UNSUPPORTED_API; reply := None;
                            changed_sid := 0; daemon := thread_daemon st |}
          end in
        let st' := {| my_sid := my_sid st; thread_daemon := daemon r |} in
        match (match reply r with
               | Some bs => Done bs
               | None => reply_error host hm (process_rv r)
               end) with
        | Undefined => Undefined
        | Cc _ => Done (st', [], Break)
        | Done data =>
            let* (rc, sent) :=
              WriteMsg host eMhMsg (mh_id h) (Some data) (Z.of_nat (length data)) (send it) in
            if stop_write it then Done (st', [sent], Break) else
            if negb rc then Done (st', [sent], Break) else
            if (process_rv r =? SA_OK) && negb (changed_sid r =? 0) then
              if mh_id h =? function_number eFsaHpiSessionOpen then
                Done ({| my_sid := changed_sid r; thread_daemon := daemon r |}, [sent], Next)
              else if mh_id h =? function_number eFsaHpiSessionClose then
                Done ({| my_sid := 0; thread_daemon := daemon r |}, [sent], Break)
              else Done (st', [sent], Next)
            else Done (st', [sent], Next)
        end
  end.

(** The loop, and the session closed after it; without a further iteration the
    thread is still reading. *)
Fixpoint service_loop `{HpiService D} (host : ByteOrder) (its : list iteration)
    (st : thread_state D) : outcome (thread_state D * list (list Z) * step_end) :=
  match its with
  | [] => Done (st, [], Next)
  | it :: its' =>
      let* (st', sent, e) := service_iteration host it st in
      match e with
      | Break => Done (st', sent, Break)
      | Next =>
          let* (st'', sent', e') := service_loop host its' st' in
          Done (st'', (sent ++ sent')%list, e')
      end
  end.

Definition service_thread `{HpiService D} (host : ByteOrder) (its : list iteration) (d : D)
  : outcome (D * list (list Z) * step_end) :=
  let* (st, sent, e) := service_loop host its {| my_sid := 0; thread_daemon := d |} in
  match e with
  | Next => Done (thread_daemon st, sent, Next)
  | Break =>
      if my_sid st =? 0 then Done (thread_daemon st, sent, Break)
      else
        let '(_, _, d') := hpi_call "saHpiSessionClose" [Some (VNum (my_sid st))] (thread_daemon st) in
        Done (d', sent, Break)
  end.

(** * The contract of the functions *)

(** Given well-typed arguments, a function returns an error code or stores
    well-typed results; configurations have terminated strings, and the tables
    handed out hold no more entries than a counter of one byte counts. *)
Class HpiServiceTyped (D : Type) `{HpiService D} := {
  calls_typed : forall id m c args e d rv e' d',
    HpiMarshalFind id = Some m -> case_of (m_id m) = Some c ->
    args_typed (m_request m) args = true ->
    before_call (m_id m) (list_to_map (zip (iparams c).*1 args)) = Done e ->
    call_case c e d = (rv, e', d') ->
    num_typed eMtInt32 rv = true /\
    exists e'', after_call (m_id m) e' = Done e'' /\
      (rv = SA_OK -> exists rs, mapM (fun x : string => e'' !! x) (oparams c).*1 = Some rs /\
         args_typed (m_reply m) rs = true)
}.

(** * Theorems *)

(** The functions whose messages may not fit into the buffers of the server and
    the client. *)
Definition oversize : list Z :=
  function_number <$> [eFsaHpiDimiTestStart; eFoHpiHandlerCreate; eFoHpiHandlerInfo].

Lemma hpi_marshal_payload :
  forallb (fun m => bool_decide (m_id m ∈ oversize)
                    || ((args_max (m_request m) <=? dMaxPayloadLength)
                        && (args_max (m_reply m) <=? dMaxPayloadLength))) hpi_marshal = true.
Proof. vm_compute. reflexivity. Qed.

(** The variables of every case have the types of the tables, with the
    exception of one of [saHpiDimiTestStatusGet]. *)
Lemma cases_fit :
  forallb (fun m => match case_of (m_id m) with
                    | Some c => params_fit (iparams c) (m_request m)
                                && match oparams c with (x, _) :: _ => String.eqb x "rv" | [] => false end
                                && ((m_id m =? function_number eFsaHpiDimiTestStatusGet)
                                    || params_fit (oparams c) (m_reply m))
                    | None => false end) hpi_marshal = true.
Proof. vm_compute. reflexivity. Qed.

Lemma case_of_find id m : HpiMarshalFind id = Some m ->
  exists c, case_of (m_id m) = Some c /\ params_fit (iparams c) (m_request m) = true /\
    (exists os, (oparams c).*1 = "rv" :: os) /\
    (m_id m <> function_number eFsaHpiDimiTestStatusGet ->
     params_fit (oparams c) (m_reply m) = true).
Proof.
  intros H%HpiMarshalFind_in. apply (proj1 (forallb_forall _ _) cases_fit m) in H.
  destruct (case_of (m_id m)) as [c|]; [|done]. exists c.
  apply andb_true_iff in H as [[H1 Hrv]%andb_true_iff H2]. split_and!; [done..| |].
  { destruct (oparams c) as [|[x t] os]; [done|]. apply String.eqb_eq in Hrv as ->. by exists os.*1. }
  intros Hn.
  apply orb_true_iff in H2 as [H2|H2]; [|done]. apply Z.eqb_eq in H2. done.
Qed.

Lemma payload_fits id m : HpiMarshalFind id = Some m -> m_id m ∉ oversize ->
  args_max (m_request m) <= dMaxPayloadLength /\ args_max (m_reply m) <= dMaxPayloadLength.
Proof.
  intros H%HpiMarshalFind_in Hn. apply (proj1 (forallb_forall _ _) hpi_marshal_payload m) in H.
  apply orb_true_iff in H as [H|H]; [by apply bool_decide_eq_true in H|]. zbool. done.
Qed.

Section functions.
Context {D : Type} `{HpiServiceTyped D}.
Context (id : Z) (m : cHpiMarshal) (c : rpc_case).
Context (find : HpiMarshalFind id = Some m) (case : case_of (m_id m) = Some c).
Context (small : m_id m ∉ oversize).
Context (not_status : m_id m <> function_number eFsaHpiDimiTestStatusGet).

Lemma before_call_id e : before_call (m_id m) e = Done e.
Proof.
  unfold before_call. destruct (Z.eqb_spec (m_id m) (function_number eFoHpiHandlerCreate)) as [E|].
  { destruct small. rewrite E. cbn. set_solver. }
  destruct (Z.eqb_spec (m_id m) (function_number eFoHpiHandlerInfo)) as [E|]; [|done].
  destruct small. rewrite E. cbn. set_solver.
Qed.

Lemma after_call_id e : after_call (m_id m) e = Done e.
Proof.
  unfold after_call. destruct (Z.eqb_spec (m_id m) (function_number eFoHpiHandlerInfo)) as [E|]; [|done].
  destruct small. rewrite E. cbn. set_solver.
Qed.

Lemma case_fits : params_fit (iparams c) (m_request m) = true /\
  params_fit (oparams c) (m_reply m) = true /\ (exists os, (oparams c).*1 = "rv" :: os).
Proof.
  destruct (case_of_find _ _ find) as (c' & Hc & H1 & H2 & H3).
  rewrite case in Hc. injection Hc as <-. auto.
Qed.

(** What the client is to receive after the call. *)
Definition answer (rv : Z) (e : env) : option (list value) :=
  if rv =? SA_OK then mapM (fun x : string => e !! x) (oparams c).*1 else Some [VNum rv].

Lemma MARSHAL_RP_correct client server args d rv e d' :
  args_typed (m_request m) args = true ->
  call_case c (list_to_map (zip (iparams c).*1 args)) d = (rv, e, d') ->
  exists bs rs, MARSHAL_RP server m e (oparams c) = Done bs /\
    Forall byte bs /\ Z.of_nat (length bs) <= dMaxPayloadLength /\
    answer rv e = Some rs /\
    forall rest, HpiDemarshalReply client server m (bs ++ rest) = Done (rs, Z.of_nat (length bs)).
Proof.
  intros Ha Hcall. destruct case_fits as (_ & Hfit & os & Hos).
  edestruct calls_typed as (Hrv & e'' & He & Hok);
    [exact find|exact case|exact Ha|apply before_call_id|exact Hcall|].
  rewrite after_call_id in He. injection He as <-.
  assert (Erv : e !! "rv" = Some (VNum rv)).
  { unfold call_case in Hcall. destruct (hpi_call _ _ _) as [[rv0 results] d0].
    injection Hcall as -> <- _. apply lookup_insert_eq. }
  pose proof (payload_fits _ _ find small) as [_ Hmax].
  pose proof (reply_coder client server _ _ find) as C.
  assert (exists rs, answer rv e = Some rs /\ reply_typed m rs = true /\
            (if rv =? SA_OK then mapM (fun x : string => e !! x) (oparams c).*1 = Some rs
             else rs = [VNum rv])) as (rs & Hans & Ht & Hrs).
  { unfold answer. destruct (rv =? SA_OK) eqn:Ek.
    - apply Z.eqb_eq in Ek as ->. destruct (Hok eq_refl) as (rs & Hm & Ht).
      exists rs. split_and!; [done| |done].
      rewrite Hos in Hm. cbn [mapM] in Hm. rewrite Erv in Hm. cbn in Hm.
      destruct (mapM _ os) as [rs'|]; [|done]. injection Hm as <-. exact Ht.
    - exists [VNum rv]. cbn [reply_typed]. by rewrite Ek, Hrv. }
  destruct (coder_enc _ _ _ _ C rs Ht) as (bs & HM & Hb & Hl & HR).
  exists bs, rs. split_and!; try done; [|lia]. unfold MARSHAL_RP. rewrite Erv.
  destruct (rv =? SA_OK).
  - rewrite Hfit. cbn [negb]. rewrite Hrs, HM. cbn [obind].
    destruct (Z.ltb_spec dMaxPayloadLength (Z.of_nat (length bs))); [lia|done].
  - subst rs. rewrite HM. cbn [obind].
    destruct (Z.ltb_spec dMaxPayloadLength (Z.of_nat (length bs))); [lia|done].
Qed.

(** The rest of [process_msg] once the arguments are read. *)
Lemma process_msg_args client server data args n d rv e d' :
  HpiDemarshalRequest server client m data = Done (args, n) ->
  args_typed (m_request m) args = true ->
  call_case c (list_to_map (zip (iparams c).*1 args)) d = (rv, e, d') ->
  exists bs rs changed,
    process_msg server client m data d =
      Done {| process_rv := SA_OK; reply := Some bs; changed_sid := changed; daemon := d' |} /\
    Forall byte bs /\ Z.of_nat (length bs) <= dMaxPayloadLength /\
    answer rv e = Some rs /\
    forall rest, HpiDemarshalReply client server m (bs ++ rest) = Done (rs, Z.of_nat (length bs)).
Proof.
  intros HD Ha Hcall.
  destruct (MARSHAL_RP_correct client server args d rv e d' Ha Hcall) as (bs & rs & HM & H1 & H2 & H3 & H4).
  destruct case_fits as (Hfit & _ & _). unfold process_msg. rewrite case.
  unfold DEMARSHAL_RQ. rewrite Hfit, HD. cbn [negb obind].
  rewrite before_call_id. cbn [obind]. rewrite Hcall, after_call_id. cbn [obind].
  rewrite HM. eauto 10.
Qed.
End functions.

(** A request that a client of either byte order marshalled makes the
    daemon call the function with exactly the client's arguments, once, and the
    client reads from the reply exactly what the function returned: its results
    or its error code. *)
Theorem server_executes_request {D : Type} `{HpiServiceTyped D} id m c client server args request stale d rv e d' :
  HpiMarshalFind id = Some m -> case_of (m_id m) = Some c ->
  m_id m ∉ oversize -> m_id m <> function_number eFsaHpiDimiTestStatusGet ->
  args_typed (m_request m) args = true ->
  HpiMarshalRequest client m args = Done request ->
  call_case c (list_to_map (zip (iparams c).*1 args)) d = (rv, e, d') ->
  exists bs results changed,
    process_msg server client m (request ++ stale)%list d =
      Done {| process_rv := SA_OK; reply := Some bs; changed_sid := changed; daemon := d' |} /\
    Z.of_nat (length bs) <= dMaxPayloadLength /\
    (if rv =? SA_OK then mapM (fun x : string => e !! x) (oparams c).*1 = Some results
     else results = [VNum rv]) /\
    forall rest, HpiDemarshalReply client server m (bs ++ rest) = Done (results, Z.of_nat (length bs)).
Proof.
  intros Hf Hc Hs Hns Ha HM Hcall.
  destruct (coder_enc _ _ _ _ (request_coder server client _ _ Hf) args Ha) as (bs & HM' & _ & _ & HR).
  rewrite HM in HM'. injection HM' as <-.
  destruct (process_msg_args id m c Hf Hc Hs Hns client server _ args _ d rv e d' (HR stale) Ha Hcall)
    as (reply & rs & ch & HP & _ & Hl & Hans & HD).
  exists reply, rs, ch. split_and!; try done. unfold answer in Hans.
  destruct (rv =? SA_OK); congruence.
Qed.

(** The replies the server sends on one message. *)
Definition complete_message (host : ByteOrder) (id : Z) (msg : list Z) : Prop :=
  exists type body, msg = header host type id (Z.of_nat (length body)) ++ body /\
    (type = eMhMsg \/ type = eMhError) /\ Z.of_nat (length body) <= dMaxPayloadLength.

Lemma WriteMsg_all host type id data send :
  (forall msg, send msg = Z.of_nat (length msg)) ->
  Z.of_nat (length data) <= dMaxPayloadLength ->
  WriteMsg host type id (Some data) (Z.of_nat (length data)) send =
  Done (true, header host type id (Z.of_nat (length data)) ++ data).
Proof.
  intros Hs Hl. unfold WriteMsg. rewrite andb_false_r.
  destruct (Z.ltb_spec dMaxPayloadLength (Z.of_nat (length data))); [lia|]. cbv zeta.
  destruct (Z.ltb_spec (Z.of_nat (length data)) (Z.of_nat (length data))); [lia|]. cbn [obind].
  rewrite Nat2Z.id, (take_ge data), Hs, Z.eqb_refl, Nat2Z.id, take_ge by done. done.
Qed.

Lemma reply_error_correct host id rv hm : hm = HpiMarshalFind id -> rv <> SA_OK ->
  exists bs, reply_error host hm rv = Done bs /\ length bs = 4%nat.
Proof.
  intros -> Hrv. apply Z.eqb_neq in Hrv. exists (store host 4 rv).
  split; [|apply store_length]. unfold reply_error.
  destruct (HpiMarshalFind id); [|done]. unfold HpiMarshalReply0, HpiMarshalReply.
  by rewrite Hrv.
Qed.

Lemma process_msg_total {D : Type} `{HpiServiceTyped D} server client id m data d :
  HpiMarshalFind id = Some m -> m_id m ∉ function_number eFsaHpiDimiTestStatusGet :: oversize ->
  Forall byte data -> Z.of_nat (length data) = dMaxPayloadLength ->
  exists r, process_msg server client m data d = Done r /\
    match reply r with
    | Some bs => Z.of_nat (length bs) <= dMaxPayloadLength
    | None => process_rv r <> SA_OK
    end.
Proof.
  intros Hf Hid Hb Hl. apply not_elem_of_cons in Hid as [Hns Hs].
  destruct (case_of_find _ _ Hf) as (c & Hc & Hfit & _).
  destruct (payload_fits _ _ Hf Hs) as [Hq _].
  destruct (coder_err _ _ _ _ (request_coder server client _ _ Hf) data Hb)
    as [(args & n & E)|[E|[_ Hlt]]]; [| |lia].
  - destruct (coder_dec _ _ _ _ (request_coder server client _ _ Hf) _ _ _ Hb E) as (Ha & _ & _).
    destruct (call_case c (list_to_map (zip (iparams c).*1 args)) d) as [[rv e] d'] eqn:Ecall.
    destruct (process_msg_args id m c Hf Hc Hs Hns client server data args n d rv e d' E Ha Ecall)
      as (bs & rs & ch & HP & _ & Hbl & _). rewrite HP. eexists. by split.
  - unfold process_msg. rewrite Hc. unfold DEMARSHAL_RQ. rewrite Hfit, E. cbn [negb obind].
    eexists. split; [done|]. cbn [reply process_rv]. by vm_compute.
Qed.

Lemma HpiMarshalFind_id id m : HpiMarshalFind id = Some m -> m_id m = id.
Proof.
  intros H. pose proof (HpiMarshalFind_numbers id) as N. rewrite H in N.
  destruct (_ && _); [|done]. by destruct N as (m' & [= <-] & E).
Qed.

(** C11: Whatever a client sends in a message that fits the buffer, the server
    handles it without touching memory outside its objects and, if the network
    takes it, sends exactly one complete message with the identifier of the
    request in reply; the functions with unbounded lists and
    saHpiDimiTestStatusGet are excepted. *)
Theorem server_always_replies {D : Type} `{HpiServiceTyped D} host it st h payload stream :
  read it = ReadTrue h payload stream ->
  stop_read it = false -> (forall msg, send it msg = Z.of_nat (length msg)) ->
  Forall byte (payload ++ stale it) ->
  Z.of_nat (length (payload ++ stale it)) = dMaxPayloadLength ->
  int_of_uint32 (mh_id h) ∉ function_number eFsaHpiDimiTestStatusGet :: oversize ->
  exists st' msg e, service_iteration host it st = Done (st', [msg], e) /\
    complete_message host (mh_id h) msg.
Proof.
  intros Hr Hst Hsend Hb Hlen Hid. unfold service_iteration. rewrite Hr, Hst.
  destruct (mh_type h =? eMhMsg) eqn:Et; cbn [negb].
  2: { unfold WriteMsg. cbn [andb Z.ltb Z.compare obind]. change (dMaxPayloadLength <? 0) with false.
       cbn [obind]. rewrite Hsend, Nat2Z.id, take_ge by done. do 3 eexists. split; [done|].
       exists eMhError, []. rewrite app_nil_r. split_and!; [done|by right|by vm_compute]. }
  cbv zeta. set (hm := HpiMarshalFind (int_of_uint32 (mh_id h))) in *.
  assert (exists r, match hm with
      | Some m => process_msg host (mh_byte_order h) m (payload ++ stale it) (thread_daemon st)
      | None => Done {| process_rv := SA_ERR_HPI_UNSUPPORTED_API; reply := None;
                        changed_sid := 0; daemon := thread_daemon st |} end = Done r /\
      match reply r with
      | Some bs => Z.of_nat (length bs) <= dMaxPayloadLength
      | None => process_rv r <> SA_OK end) as (r & -> & Hrep).
  { destruct hm as [m|] eqn:Em; [|eexists; split; [done|by vm_compute]].
    subst hm. eapply process_msg_total; [exact Em| |done|done].
    by rewrite (HpiMarshalFind_id _ _ Em). }
  cbn [obind].
  assert (exists data, match reply r with Some bs => Done bs | None => reply_error host hm (process_rv r) end
            = Done data /\ Z.of_nat (length data) <= dMaxPayloadLength) as (data & -> & Hdl).
  { destruct (reply r) as [bs|]; [eauto|].
    destruct (reply_error_correct host _ (process_rv r) hm eq_refl Hrep) as (bs & -> & Hl4).
    exists bs. rewrite Hl4. split; [done|by vm_compute]. }
  rewrite WriteMsg_all by done. cbn [obind negb].
  assert (HC : complete_message host (mh_id h)
                 (header host eMhMsg (mh_id h) (Z.of_nat (length data)) ++ data))
    by (exists eMhMsg, data; auto).
  repeat case_match; eauto.
Qed.
