(* ===== verification/Client.v ===== *)
(** The session layer of the client library (baselib/session.cpp): the table
    of the client's sessions, each with a connection to the daemon of its
    domain, and the remote call [DoRpc].

    The calling thread is the only one, so a session has one socket.  The
    peers are the interface [Peer]: connecting gives a connection or fails, and
    bytes sent over a connection are answered by the bytes the peer sends
    back. *)
From S2P Require Import Prelude SaHpi DomainState EntityPath Marshal MarshalTypes MarshalHpi Transport.
#[local] Open Scope list_scope.
#[local] Open Scope Z_scope.

(** * The peers *)

Class Peer (P : Type) := {
  peer_connect : Z -> P -> option Z * P;  (* the connection to the domain, if it is made *)
  peer_exchange : Z -> list Z -> P -> outcome (list Z * P)
}.

(** What the network does in one attempt: the bytes it takes of the request,
    and the deliveries of the reply. *)
Record network := { net_send : list Z -> Z; net_events : list recv_event }.

(** * Sessions *)

(** class [cSession]; [m_sid] is the key in the table. *)
Record cSession := {
  m_ref_cnt : Z;
  m_did : Z;
  m_remote_sid : Z;
  m_socket : option Z
}.
#[export] Instance eta_cSession : Eta cSession := fun x =>
  Build_cSession (m_ref_cnt x) (m_did x) (m_remote_sid x) (m_socket x).

Definition new_session : cSession :=
  {| m_ref_cnt := 0; m_did := SAHPI_UNSPECIFIED_DOMAIN_ID; m_remote_sid := 0; m_socket := None |}.

Record client := { sessions : gmap Z cSession; next_sid : Z }.
#[export] Instance eta_client : Eta client := fun x => Build_client (sessions x) (next_sid x).

Definition RPC_ATTEMPTS : nat := 2.

Section client.
Context {P : Type} `{Peer P}.
(** The byte order of the client, the configuration of the domains with
    their entity roots, and what the uninitialised buffer of [DoRpc] holds. *)
Context (host : ByteOrder) (domain_conf : Z -> option SaHpiEntityPathT) (garbage : list Z).

(** Writing a prefix of the buffer. *)
Definition overwrite (bs buffer : list Z) : list Z := bs ++ drop (length bs) buffer.

Definition GetSock (s : cSession) (p : P) : Z * option Z * cSession * P :=
  match m_socket s with
  | Some c => (SA_OK, Some c, s, p)
  | None =>
      match domain_conf (m_did s) with
      | None => (SA_ERR_HPI_INVALID_DOMAIN, None, s, p)
      | Some _ =>
          match peer_connect (m_did s) p with
          | (None, p') => (SA_ERR_HPI_NO_RESPONSE, None, s, p')
          | (Some c, p') => (SA_OK, Some c, s <| m_socket := Some c |>, p')
          end
      end
  end.

(** The attempts of [DoRpc]; [data] is the buffer, which the request is sent
    from and the reply is read into, and [data_len] what both calls share. *)
Inductive attempts_end :=
| Answered (h : msg_header) (data : list Z)
| Unanswered
| Refused (rv : Z).

Fixpoint attempts (n : nat) (net : nat -> network) (id : Z) (data : list Z) (data_len : Z)
    (s : cSession) (p : P) : outcome (attempts_end * cSession * P) :=
  match n with
  | O => Done (Unanswered, s, p)
  | S n' =>
      let '(rv, sock, s, p) := GetSock s p in
      match sock with
      | None => Done (Refused rv, s, p)
      | Some c =>
          let nw := net (RPC_ATTEMPTS - n)%nat in
          let* (rc, sent) := WriteMsg host eMhMsg id (Some data) data_len (net_send nw) in
          let* (stream, p) := peer_exchange c sent p in
          if negb rc then attempts n' net id data data_len (s <| m_socket := None |>) p else
          match ReadMsg host dMaxPayloadLength (net_events nw) stream with
          | ReadOverflow => Undefined
          | ReadWaiting => Undefined  (* the call has not returned *)
          | ReadTrue h payload _ => Done (Answered h (overwrite payload data), s, p)
          | ReadFalse h payload =>
              let data_len := match h with Some h => mh_len h | None => data_len end in
              attempts n' net id (overwrite payload data) data_len (s <| m_socket := None |>) p
          end
      end
  end.

(** The return code and what was stored to the output parameters, as in
    [stored_by_array].  The first result is the code, a local variable.  An answer
    that is not one to the request, or that cannot be demarshalled, is stored as far
    as it goes before it is refused. *)
Definition DoRpc (net : nat -> network) (id : Z) (iparams : list value)
    (s : cSession) (p : P) : outcome (Z * list (option value) * cSession * P) :=
  match HpiMarshalFind id with
  | None => Done (SA_ERR_HPI_UNSUPPORTED_API, [], s, p)
  | Some hm =>
      match HpiMarshalRequest host hm iparams with
      | Undefined => Undefined
      | Cc _ => Done (SA_ERR_HPI_INTERNAL_ERROR, [], s, p)
      | Done request =>
          if dMaxPayloadLength <? Z.of_nat (length request) then Undefined else
          let* (e, s, p) :=
            attempts RPC_ATTEMPTS net id (overwrite request garbage)
                     (Z.of_nat (length request)) s p in
          match e with
          | Refused rv => Done (rv, [], s, p)
          | Unanswered => Done (SA_ERR_HPI_NO_RESPONSE, [], s, p)
          | Answered h data =>
              match HpiDemarshalReply host (mh_byte_order h) hm data with
              | Undefined => Undefined
              | Cc _ =>
                  Done (SA_ERR_HPI_NO_RESPONSE, tail (stored_by_reply host (mh_byte_order h) hm data), s, p)
              | Done (results, cc) =>
                  if (cc <=? 0) || negb (mh_type h =? eMhMsg) || negb (id =? mh_id h)
                  then Done (SA_ERR_HPI_NO_RESPONSE, Some <$> tail results, s, p)
                  else
                    match results with
                    | VNum rv :: outs => Done (rv, Some <$> outs, s, p)
                    | _ => Undefined
                    end
              end
          end
      end
  end.

Definition RpcOpen (net : nat -> network) (did : Z) (s : cSession) (p : P)
  : outcome (Z * cSession * P) :=
  let s := s <| m_did := did |> in
  let* (rv, outs, s, p) :=
    DoRpc net (function_number eFsaHpiSessionOpen) [VNum SAHPI_UNSPECIFIED_DOMAIN_ID] s p in
  let s := match outs with Some (VNum sid) :: _ => s <| m_remote_sid := sid |> | _ => s end in
  Done (rv, s, p).

Definition RpcClose (net : nat -> network) (s : cSession) (p : P)
  : outcome (Z * list (option value) * cSession * P) :=
  DoRpc net (function_number eFsaHpiSessionClose) [VNum (m_remote_sid s)] s p.

(** [iparams.SetFirst( &m_remote_sid )] puts the remote session first. *)
Definition Rpc (net : nat -> network) (id : Z) (iparams : list value) (s : cSession) (p : P)
  : outcome (Z * list (option value) * cSession * P) :=
  DoRpc net id (VNum (m_remote_sid s) :: iparams) s p.

(** * The session table *)

Definition sessions_add (s : cSession) (c : client) : Z * client :=
  (next_sid c,
   c <| sessions := <[next_sid c := s]> (sessions c) |> <| next_sid := u32 (next_sid c + 1) |>).

Definition sessions_get_ref (sid : Z) (c : client) : option (cSession * client) :=
  match sessions c !! sid with
  | None => None
  | Some s =>
      let s := s <| m_ref_cnt ::= fun n => n + 1 |> in
      Some (s, c <| sessions := <[sid := s]> (sessions c) |>)
  end.

(** [s] is the object the caller holds.  A closed session loses the count of
    the table, too; the object is deleted when its count gets negative. *)
Definition sessions_unref (sid : Z) (s : cSession) (closed : bool) (c : client) : client :=
  let s := s <| m_ref_cnt ::= fun n => n - 1 |> in
  if closed then
    let s := s <| m_ref_cnt ::= fun n => n - 1 |> in
    c <| sessions := delete sid (sessions c) |>
  else c <| sessions := <[sid := s]> (sessions c) |>.

Definition ohc_sess_open (net : nat -> network) (did : Z) (c : client) (p : P)
  : outcome (Z * option Z * client * P) :=
  let* (rv, s, p) := RpcOpen net did new_session p in
  if rv =? SA_OK then
    let '(sid, c) := sessions_add s c in Done (rv, Some sid, c, p)
  else Done (rv, None, c, p).

Definition ohc_sess_close (net : nat -> network) (sid : Z) (c : client) (p : P)
  : outcome (Z * client * P) :=
  match sessions_get_ref sid c with
  | None => Done (SA_ERR_HPI_INVALID_SESSION, c, p)
  | Some (s, c) =>
      let* (rv, _, s, p) := RpcClose net s p in
      Done (rv, sessions_unref sid s (rv =? SA_OK) c, p)
  end.

(** The sessions are closed in the order of the table, whatever the daemon
    answers. *)
Fixpoint close_list (net : nat -> network) (sids : list Z) (c : client) (p : P)
  : outcome (client * P) :=
  match sids with
  | [] => Done (c, p)
  | sid :: sids' =>
      match sessions c !! sid with
      | None => close_list net sids' c p
      | Some s =>
          let* (_, _, s, p) := RpcClose net s p in
          close_list net sids' (sessions_unref sid s true c) p
      end
  end.

Definition ohc_sess_close_all (net : nat -> network) (c : client) (p : P)
  : outcome (Z * client * P) :=
  let sids := (map_to_list (sessions c)).*1 in
  let c := c <| sessions := (fun s => s <| m_ref_cnt ::= fun n => n + 1 |>) <$> sessions c |> in
  let* (c, p) := close_list net sids c p in
  Done (SA_OK, c, p).

Definition ohc_sess_rpc (net : nat -> network) (id sid : Z) (iparams : list value)
    (c : client) (p : P) : outcome (Z * list (option value) * client * P) :=
  match sessions_get_ref sid c with
  | None => Done (SA_ERR_HPI_INVALID_SESSION, [], c, p)
  | Some (s, c) =>
      let* (rv, outs, s, p) := Rpc net id iparams s p in
      Done (rv, outs, sessions_unref sid s false c, p)
  end.

Definition ohc_sess_get_did (sid : Z) (c : client) : Z * option Z * client :=
  match sessions_get_ref sid c with
  | None => (SA_ERR_HPI_INVALID_SESSION, None, c)
  | Some (s, c) => (SA_OK, Some (m_did s), sessions_unref sid s false c)
  end.

Definition GetEntityRoot (s : cSession) : Z * option SaHpiEntityPathT :=
  match domain_conf (m_did s) with
  | Some root => (SA_OK, Some root)
  | None => (SA_ERR_HPI_INVALID_DOMAIN, None)
  end.

Definition ohc_sess_get_entity_root (sid : Z) (c : client)
  : Z * option SaHpiEntityPathT * client :=
  match sessions_get_ref sid c with
  | None => (SA_ERR_HPI_INVALID_SESSION, None, c)
  | Some (s, c) =>
      let '(rv, ep) := GetEntityRoot s in (rv, ep, sessions_unref sid s false c)
  end.
End client.
