(* ===== verification/RpcCorrect.v ===== *)
(** The client library and the server of the daemon together: a remote call has
    the effect and the results of the call in the daemon. *)
From S2P Require Import Prelude SaHpi DomainState EntityPath Marshal MarshalTypes MarshalHpi MarshalStructs.
From S2P Require Import Transport Server Client.
#[local] Open Scope string_scope.
#[local] Open Scope list_scope.
#[local] Open Scope Z_scope.

(** * The daemon as a peer

    A connection is served by its thread, whose state is the session it opened
    last; all threads act on the one daemon. *)
Record served (D : Type) := {
  threads : gmap Z Z;
  next_connection : Z;
  the_daemon : D
}.
Arguments Build_served {D} _ _ _.
Arguments threads {D} _.
Arguments next_connection {D} _.
Arguments the_daemon {D} _.

Section daemon_peer.
Context {D : Type} `{HpiService D}.
(** The byte order of the server, the deliveries of the network to it, and
    what its buffer holds after a payload. *)
Context (server : ByteOrder) (deliveries : list recv_event) (rest_of_buffer : list Z -> list Z).

Definition serve (c : Z) (bytes : list Z) (p : served D) : outcome (list Z * served D) :=
  match threads p !! c with
  | None => Done ([], p)
  | Some sid =>
      let r := ReadMsg server dMaxPayloadLength deliveries bytes in
      let it := {| read := r;
                   stale := match r with ReadTrue _ payload _ => rest_of_buffer payload | _ => [] end;
                   send := fun msg => Z.of_nat (length msg);
                   stop_read := false; stop_write := false |} in
      let* (st, sent, e) :=
        service_iteration server it {| my_sid := sid; thread_daemon := the_daemon p |} in
      let p := match e with
               | Next => Build_served (<[c := my_sid st]> (threads p)) (next_connection p)
                                      (thread_daemon st)
               | Break =>
                   let d := if my_sid st =? 0 then thread_daemon st
                            else snd (hpi_call "saHpiSessionClose" [Some (VNum (my_sid st))]
                                               (thread_daemon st)) in
                   Build_served (delete c (threads p)) (next_connection p) d
               end in
      Done (mjoin sent, p)
  end.

#[export] Instance daemon_peer : Peer (served D) := {
  peer_connect _ p :=
    (Some (next_connection p),
     Build_served (<[next_connection p := 0]> (threads p)) (next_connection p + 1) (the_daemon p));
  peer_exchange := serve
}.
End daemon_peer.

(** * A call over a working network *)

Section remote_call.
Context {D : Type} `{HpiServiceTyped D}.
Context (client server : ByteOrder) (domain_conf : Z -> option SaHpiEntityPathT).
Context (deliveries : list recv_event) (rest_of_buffer : list Z -> list Z) (garbage : list Z).
(** The network delivers, in pieces of any size, and takes everything. *)
Context (delivers : Forall no_error deliveries)
        (enough : dMaxMessageLength <= Z.of_nat (length deliveries)).
Context (net : nat -> network)
        (net_ok : forall n, (forall msg, net_send (net n) msg = Z.of_nat (length msg)) /\
           Forall no_error (net_events (net n)) /\
           dMaxMessageLength <= Z.of_nat (length (net_events (net n)))).

#[local] Instance peer : Peer (served D) := daemon_peer server deliveries rest_of_buffer.

Context (id : Z) (m : cHpiMarshal) (c : rpc_case).
Context (find : HpiMarshalFind id = Some m) (case : case_of (m_id m) = Some c).
Context (small : m_id m ∉ oversize).
Context (not_status : m_id m <> function_number eFsaHpiDimiTestStatusGet).

Lemma id_range : 1 <= id <= 128.
Proof.
  pose proof (HpiMarshalFind_numbers id) as N. rewrite find in N.
  destruct (Z.leb_spec 1 id); [|done]. cbn [andb] in N.
  destruct (Z.leb_spec id (function_number eFsaHpiFumiCleanup)) as [Hl|]; [|done].
  change (function_number eFsaHpiFumiCleanup) with 128 in Hl. lia.
Qed.

(** What the server does with the request. *)
Lemma server_iteration args request stale0 h stream sid d rv e d' :
  id <> function_number eFsaHpiSessionOpen -> id <> function_number eFsaHpiSessionClose ->
  args_typed (m_request m) args = true ->
  HpiMarshalRequest client m args = Done request ->
  call_case c (list_to_map (zip (iparams c).*1 args)) d = (rv, e, d') ->
  mh_type h = eMhMsg -> mh_id h = id -> mh_byte_order h = client ->
  exists reply results,
    service_iteration server
      {| read := ReadTrue h request stream; stale := stale0;
         send := fun msg => Z.of_nat (length msg); stop_read := false; stop_write := false |}
      {| my_sid := sid; thread_daemon := d |} =
    Done ({| my_sid := sid; thread_daemon := d' |},
          [header server eMhMsg id (Z.of_nat (length reply)) ++ reply], Next) /\
    Z.of_nat (length reply) <= dMaxPayloadLength /\
    answer c rv e = Some results /\
    forall rest, HpiDemarshalReply client server m (reply ++ rest) =
                 Done (results, Z.of_nat (length reply)).
Proof.
  intros Ho Hcl Ha HM Hcall Ht Hid Hbo.
  destruct (coder_enc _ _ _ _ (request_coder server client _ _ find) args Ha) as (bs & HM' & _ & _ & HR).
  rewrite HM in HM'. injection HM' as <-.
  destruct (process_msg_args id m c find case small not_status client server _ args _ d rv e d'
              (HR stale0) Ha Hcall) as (rep & rs & ch & HP & _ & Hl & Hans & HD).
  exists rep, rs. split_and!; try done. pose proof id_range as Hr.
  unfold service_iteration. cbn [read stop_read stop_write stale send]. rewrite Ht, Hid, Hbo.
  change (eMhMsg =? eMhMsg) with true. cbn [negb].
  replace (int_of_uint32 id) with id
    by (unfold int_of_uint32; destruct (Z.ltb_spec id (2 ^ 31)); [done|lia]).
  rewrite find. cbn [thread_daemon]. rewrite HP. cbn [obind reply].
  rewrite WriteMsg_all by done. cbn [obind negb process_rv changed_sid daemon my_sid].
  apply Z.eqb_neq in Ho, Hcl. rewrite Ho, Hcl. by destruct (_ && _).
Qed.

Lemma WriteMsg_prefix host i data rest snd :
  (forall msg, snd msg = Z.of_nat (length msg)) ->
  Z.of_nat (length data) <= dMaxPayloadLength ->
  WriteMsg host eMhMsg i (Some (data ++ rest)) (Z.of_nat (length data)) snd =
  Done (true, header host eMhMsg i (Z.of_nat (length data)) ++ data).
Proof.
  intros Hs Hl. unfold WriteMsg. rewrite andb_false_r.
  destruct (Z.ltb_spec dMaxPayloadLength (Z.of_nat (length data))); [lia|]. cbv zeta.
  rewrite length_app. destruct (Z.ltb_spec (Z.of_nat (length data + length rest)) (Z.of_nat (length data))); [lia|].
  cbn [obind].
  rewrite Nat2Z.id, take_app_length, Hs, Z.eqb_refl, Nat2Z.id, take_ge by done. done.
Qed.

(** A whole message is read by a host of either byte order. *)
Lemma ReadMsg_whole host host' data evs :
  Forall no_error evs -> dMaxMessageLength <= Z.of_nat (length evs) ->
  Z.of_nat (length data) <= dMaxPayloadLength ->
  ReadMsg host' dMaxPayloadLength evs (header host eMhMsg id (Z.of_nat (length data)) ++ data) =
  ReadTrue {| mh_type := eMhMsg; mh_id := id; mh_len := Z.of_nat (length data); mh_byte_order := host |}
    data [].
Proof.
  intros He Hl Hd. pose proof id_range.
  pose proof (WriteMsg_prefix host id data [] (fun msg => Z.of_nat (length msg)) ltac:(done) Hd) as HW.
  rewrite app_nil_r in HW.
  pose proof (message_received host host' eMhMsg id (Some data) (Z.of_nat (length data)) _ _ [] evs
    dMaxPayloadLength ltac:(lia) ltac:(lia) HW He) as R.
  rewrite app_nil_r in R. rewrite R; [|unfold dMaxPayloadLength in *; lia|done].
  cbn [default]. by rewrite Nat2Z.id, take_ge.
Qed.

Lemma answer_head rv (e : env) results :
  e !! "rv" = Some (VNum rv) -> answer c rv e = Some results ->
  exists outs, results = VNum rv :: outs /\
    (if rv =? SA_OK then mapM (fun x : string => e !! x) (tl (oparams c).*1) = Some outs
     else outs = []).
Proof.
  intros Erv. destruct (case_fits _ _ _ find case not_status) as (_ & _ & os & Hos).
  unfold answer. destruct (rv =? SA_OK).
  - rewrite Hos. cbn [mapM]. rewrite Erv. cbn. destruct (mapM _ os) as [outs|]; [|done].
    intros [= <-]. eauto.
  - intros [= <-]. eauto.
Qed.

Lemma HpiDemarshalReply_nonempty reply results n :
  HpiDemarshalReply client server m reply = Done (results, n) -> reply <> [].
Proof. by intros E ->. Qed.

Lemma call_case_rv e d rv e' d' : call_case c e d = (rv, e', d') -> e' !! "rv" = Some (VNum rv).
Proof.
  unfold call_case. destruct (hpi_call _ _ _) as [[rv0 results] d0].
  intros [= -> <- _]. apply lookup_insert_eq.
Qed.

Lemma DoRpc_correct args s k sid p rv e d' :
  id <> function_number eFsaHpiSessionOpen -> id <> function_number eFsaHpiSessionClose ->
  args_typed (m_request m) args = true ->
  m_socket s = Some k -> threads p !! k = Some sid ->
  call_case c (list_to_map (zip (iparams c).*1 args)) (the_daemon p) = (rv, e, d') ->
  exists outs,
    DoRpc client domain_conf garbage net id args s p =
      Done (rv, Some <$> outs, s, Build_served (<[k := sid]> (threads p)) (next_connection p) d') /\
    (if rv =? SA_OK then mapM (fun x : string => e !! x) (tl (oparams c).*1) = Some outs
     else outs = []).
Proof.
  intros Ho Hcl Ha Hk Hth Hcall.
  destruct (coder_enc _ _ _ _ (request_coder server client _ _ find) args Ha) as (request & HM & _ & Hl & _).
  destruct (payload_fits _ _ find small) as [Hmax _].
  unfold DoRpc. rewrite find, HM.
  destruct (Z.ltb_spec dMaxPayloadLength (Z.of_nat (length request))); [lia|].
  unfold RPC_ATTEMPTS. cbn [attempts]. unfold GetSock. rewrite Hk. cbv beta iota zeta.
  destruct (net_ok (RPC_ATTEMPTS - 2)) as (Hs & He & Hev). unfold RPC_ATTEMPTS in *.
  unfold overwrite. rewrite WriteMsg_prefix by (done || lia). cbn [obind peer_exchange peer daemon_peer].
  unfold serve. rewrite Hth. rewrite ReadMsg_whole by (done || lia).
  destruct (server_iteration args request (rest_of_buffer request)
    {| mh_type := eMhMsg; mh_id := id; mh_len := Z.of_nat (length request); mh_byte_order := client |}
    [] sid (the_daemon p) rv e d' Ho Hcl Ha HM Hcall eq_refl eq_refl eq_refl)
    as (reply & results & -> & Hrl & Hans & HD).
  cbn [obind mjoin list_join negb]. rewrite app_nil_r, ReadMsg_whole by (done || lia).
  cbn [obind mh_byte_order mh_type mh_id].
  rewrite HD.
  assert (Hnn : reply <> []).
  { specialize (HD []). rewrite app_nil_r in HD. by apply HpiDemarshalReply_nonempty in HD. }
  destruct (Z.leb_spec (Z.of_nat (length reply)) 0); [destruct reply; [done|simpl in *; lia]|].
  rewrite !Z.eqb_refl. cbn [negb orb].
  destruct (answer_head rv e results (call_case_rv _ _ _ _ _ Hcall) Hans) as (outs & -> & Houts).
  eauto.
Qed.
End remote_call.

(** The remote call of a session, for the client and for the server. *)
Lemma ohc_sess_rpc_correct {D : Type} `{HpiServiceTyped D} client server domain_conf
    deliveries rest_of_buffer garbage net id m c table sid s k tsid p args rv e d' :
  Forall no_error deliveries -> dMaxMessageLength <= Z.of_nat (length deliveries) ->
  (forall n, (forall msg, net_send (net n) msg = Z.of_nat (length msg)) /\
     Forall no_error (net_events (net n)) /\
     dMaxMessageLength <= Z.of_nat (length (net_events (net n)))) ->
  HpiMarshalFind id = Some m -> case_of (m_id m) = Some c ->
  id ∉ function_number <$> [eFsaHpiSessionOpen; eFsaHpiSessionClose; eFsaHpiDimiTestStatusGet;
                            eFsaHpiDimiTestStart; eFoHpiHandlerCreate; eFoHpiHandlerInfo] ->
  sessions table !! sid = Some s -> m_socket s = Some k -> threads p !! k = Some tsid ->
  args_typed (m_request m) (VNum (m_remote_sid s) :: args) = true ->
  call_case c (list_to_map (zip (iparams c).*1 (VNum (m_remote_sid s) :: args))) (the_daemon p) =
    (rv, e, d') ->
  exists outs,
    ohc_sess_rpc (H := daemon_peer server deliveries rest_of_buffer) client domain_conf garbage net
      id sid args table p =
      Done (rv, Some <$> outs, table, Build_served (threads p) (next_connection p) d') /\
    (if rv =? SA_OK then mapM (fun x : string => e !! x) (tl (oparams c).*1) = Some outs
     else outs = []).
Proof.
  intros Hd Hdl Hn Hf Hc Hid Hs Hk Hth Ha Hcall.
  assert (Hm : m_id m = id) by exact (HpiMarshalFind_id _ _ Hf).
  cbn in Hid. rewrite !not_elem_of_cons in Hid. destruct Hid as (Ho & Hcl & Hst & H1 & H2 & H3 & _).
  assert (Hsm : m_id m ∉ oversize) by (rewrite Hm; cbn; rewrite !not_elem_of_cons; set_solver).
  assert (Hns : m_id m <> function_number eFsaHpiDimiTestStatusGet) by by rewrite Hm.
  unfold ohc_sess_rpc, sessions_get_ref. rewrite Hs. unfold Rpc. cbn [m_remote_sid].
  set (s1 := s <| m_ref_cnt ::= _ |>).
  destruct (DoRpc_correct client server domain_conf deliveries rest_of_buffer garbage Hd Hdl net Hn
              id m c Hf Hc Hsm Hns (VNum (m_remote_sid s) :: args) s1 k tsid p rv e d' Ho Hcl Ha Hk Hth Hcall)
    as (outs & HR & Houts).
  change (m_remote_sid s1) with (m_remote_sid s). exists outs. split; [|done].
  unfold peer in HR. rewrite HR. cbn [obind]. rewrite (insert_id (threads p) k tsid Hth).
  do 2 f_equal. f_equal. unfold sessions_unref. subst s1.
  destruct table as [ss nx]. cbn [sessions next_sid set_field sessions_unref] in *.
  unfold set_field. cbn. f_equal. rewrite insert_insert_eq.
  apply insert_id. rewrite Hs. f_equal. destruct s; cbn. f_equal. lia.
Qed.

(** Over a working network a call through the client library returns to
    the client what the function returned in the daemon, called once with the
    session that the daemon knows and the client's arguments; the daemon's
    state is the one after that call, and the client's table and the connection
    are as before. *)
Theorem remote_call_correct {D : Type} `{HpiServiceTyped D} client server domain_conf
    deliveries rest_of_buffer garbage net id m c table sid s k tsid p args rv e d' :
  Forall no_error deliveries -> dMaxMessageLength <= Z.of_nat (length deliveries) ->
  (forall n, (forall msg, net_send (net n) msg = Z.of_nat (length msg)) /\
     Forall no_error (net_events (net n)) /\
     dMaxMessageLength <= Z.of_nat (length (net_events (net n)))) ->
  HpiMarshalFind id = Some m -> case_of (m_id m) = Some c ->
  id ∉ function_number <$> [eFsaHpiSessionOpen; eFsaHpiSessionClose; eFsaHpiDimiTestStatusGet;
                            eFsaHpiDimiTestStart; eFoHpiHandlerCreate; eFoHpiHandlerInfo] ->
  sessions table !! sid = Some s -> m_socket s = Some k -> threads p !! k = Some tsid ->
  args_typed (m_request m) (VNum (m_remote_sid s) :: args) = true ->
  call_case c (list_to_map (zip (iparams c).*1 (VNum (m_remote_sid s) :: args))) (the_daemon p) =
    (rv, e, d') ->
  exists outs,
    ohc_sess_rpc (H := daemon_peer server deliveries rest_of_buffer) client domain_conf garbage net
      id sid args table p =
      Done (rv, Some <$> outs, table, Build_served (threads p) (next_connection p) d') /\
    (if rv =? SA_OK then mapM (fun x : string => e !! x) (tl (oparams c).*1) = Some outs
     else outs = []).
Proof. exact (ohc_sess_rpc_correct client server domain_conf deliveries rest_of_buffer garbage net id m c table
  sid s k tsid p args rv e d'). Qed.

(** * A service that counts, for examples

    Opening a session and discovery succeed and are counted; every other
    function is refused. *)
Definition counting_call (f : string) (args : list (option value)) (d : Z)
  : Z * list (option value) * Z :=
  if String.eqb f "saHpiSessionOpen" then
    (SA_OK, [None; Some (VNum (u32 (d + 1))); None], d + 1)
  else if String.eqb f "saHpiDiscover" then (SA_OK, [None], d + 1)
  else (SA_ERR_HPI_UNSUPPORTED_API, [], d).

#[export] Instance counting_service : HpiService Z := counting_call.

(** The two functions are called in their own cases only. *)
Lemma counting_callees :
  forallb (fun m => match case_of (m_id m) with
    | Some c => (negb (String.eqb (callee c) "saHpiSessionOpen")
                 || (m_id m =? function_number eFsaHpiSessionOpen))
                && (negb (String.eqb (callee c) "saHpiDiscover")
                    || (m_id m =? function_number eFsaHpiDiscover))
    | None => true end) hpi_marshal = true.
Proof. vm_compute. reflexivity. Qed.

Lemma after_call_refused id e e0 rv :
  before_call id e0 = Done e ->
  exists e', after_call id (<["rv" := VNum rv]> e) = Done e'.
Proof.
  unfold before_call, after_call. intros Hb.
  destruct (Z.eqb_spec id (function_number eFoHpiHandlerInfo)) as [->|]; [|eauto].
  change (function_number eFoHpiHandlerInfo =? function_number eFoHpiHandlerCreate) with false in Hb.
  injection Hb as <-.
  unfold env in *. rewrite lookup_insert_ne, lookup_insert_eq by done.
  unfold value_of_table. cbn [fmap list_fmap table_of_value]. eauto.
Qed.

#[export] Instance counting_service_typed : HpiServiceTyped Z.
Proof.
  split. intros id m c args e d rv e' d' Hf Hc Ha Hb Hcall.
  pose proof (HpiMarshalFind_id _ _ Hf) as Hid.
  pose proof (proj1 (forallb_forall _ _) counting_callees m (HpiMarshalFind_in _ _ Hf)) as Hn.
  cbv beta in Hn. rewrite Hc in Hn. apply andb_true_iff in Hn as [Hn1 Hn2].
  unfold call_case, hpi_call, counting_service, counting_call in Hcall.
  destruct (String.eqb (callee c) "saHpiSessionOpen") eqn:E1.
  { apply Z.eqb_eq in Hn1.
    assert (Ei : id = function_number eFsaHpiSessionOpen) by (rewrite <- Hid; exact Hn1).
    rewrite Ei in *. clear Ei id.
    assert (E : HpiMarshalFind (function_number eFsaHpiSessionOpen) =
                Some (dHpiMarshalEntry eFsaHpiSessionOpen "saHpiSessionOpen" saHpiSessionOpenIn saHpiSessionOpenOut))
      by reflexivity.
    rewrite E in Hf. injection Hf as <-.
    assert (E' : case_of (function_number eFsaHpiSessionOpen) = Some case_saHpiSessionOpen) by reflexivity.
    cbn [m_id dHpiMarshalEntry] in Hc. rewrite E' in Hc. injection Hc as <-. injection Hcall as <- <- <-.
    split; [done|]. eexists. split; [reflexivity|]. intros _. unfold env in *. eexists.
    cbn [oparams case_saHpiSessionOpen arguments store_results fmap list_fmap fst].
    cbn [mapM]. rewrite lookup_insert_eq. rewrite lookup_insert_ne by done.
    rewrite lookup_insert_eq. split; [reflexivity|].
    cbn -[u32]. pose proof (u32_range (d + 1)).
    apply andb_true_iff. split; [reflexivity|]. rewrite andb_true_r.
    apply andb_true_iff. split; [apply Z.leb_le|apply Z.ltb_lt].
    - exact (proj1 H).
    - exact (proj2 H). }
  destruct (String.eqb (callee c) "saHpiDiscover") eqn:E2.
  { apply Z.eqb_eq in Hn2.
    assert (Ei : id = function_number eFsaHpiDiscover) by (rewrite <- Hid; exact Hn2).
    rewrite Ei in *. clear Ei id.
    assert (E : HpiMarshalFind (function_number eFsaHpiDiscover) =
                Some (dHpiMarshalEntry eFsaHpiDiscover "saHpiDiscover" saHpiDiscoverIn saHpiDiscoverOut))
      by reflexivity.
    rewrite E in Hf. injection Hf as <-.
    assert (E' : case_of (function_number eFsaHpiDiscover) = Some case_saHpiDiscover) by reflexivity.
    cbn [m_id dHpiMarshalEntry] in Hc. rewrite E' in Hc. injection Hc as <-. injection Hcall as <- <- <-.
    split; [done|]. eexists. split; [reflexivity|]. intros _. unfold env in *. eexists.
    cbn [oparams case_saHpiDiscover arguments store_results fmap list_fmap fst].
    cbn [mapM]. rewrite lookup_insert_eq. split; reflexivity. }
  assert (Hs : store_results (arguments c) [] e = e) by by destruct (arguments c) as [|[] ?].
  injection Hcall as <- <- <-. rewrite Hs. split; [done|].
  destruct (after_call_refused (m_id m) e _ SA_ERR_HPI_UNSUPPORTED_API Hb) as [e' He].
  exists e'. split; [done|]. discriminate.
Qed.

(** * Examples *)

(** A network that delivers byte by byte. *)
Definition slow_deliveries : list recv_event :=
  replicate (Z.to_nat dMaxMessageLength) (Received 0).
Definition slow_network : nat -> network := fun _ =>
  {| net_send := fun msg => Z.of_nat (length msg); net_events := slow_deliveries |}.

Lemma slow_delivers : Forall no_error slow_deliveries /\
  dMaxMessageLength <= Z.of_nat (length slow_deliveries).
Proof.
  split; [by apply Forall_replicate|]. unfold slow_deliveries.
  rewrite length_replicate, Z2Nat.id; [lia|]. by vm_compute.
Qed.

(** A client with session 5, the daemon's session 7, on connection 0. *)
Definition one_session : client :=
  {| sessions := {[5 := {| m_ref_cnt := 0; m_did := 0; m_remote_sid := 7; m_socket := Some 0 |}]};
     next_sid := 6 |}.
Definition one_thread (calls : Z) : served Z := Build_served {[0 := 7]} 1 calls.

Lemma remote_call_correct_witness :
  exists outs,
    ohc_sess_rpc (H := daemon_peer BigEndian slow_deliveries (fun _ => [])) LittleEndian
      (fun _ => None) [] slow_network (function_number eFsaHpiDiscover) 5 [] one_session (one_thread 10) =
      Done (SA_OK, Some <$> outs, one_session, one_thread 11) /\ Some [] = Some outs.
Proof.
  pose proof slow_delivers as [H1 H2].
  refine (remote_call_correct LittleEndian BigEndian (fun _ => None) slow_deliveries (fun _ => []) []
    slow_network (function_number eFsaHpiDiscover) _ case_saHpiDiscover one_session 5
    {| m_ref_cnt := 0; m_did := 0; m_remote_sid := 7; m_socket := Some 0 |} 0 7 (one_thread 10) []
    SA_OK _ 11 H1 H2 _ _ _ _ _ _ _ _ _); try reflexivity.
  - intros n. split; [done|]. by split.
  - cbn. rewrite !not_elem_of_cons. repeat (split; [done|]). apply not_elem_of_nil.
Defined.

Lemma server_executes_request_witness :
  exists bs results changed,
    process_msg BigEndian LittleEndian
      (dHpiMarshalEntry eFsaHpiDiscover "saHpiDiscover" saHpiDiscoverIn saHpiDiscoverOut)
      ([7; 0; 0; 0] ++ [1; 2; 3])%list 10 =
      Done {| process_rv := SA_OK; reply := Some bs; changed_sid := changed; daemon := 11 |} /\
    Z.of_nat (length bs) <= dMaxPayloadLength /\
    Some [VNum SA_OK] = Some results /\
    forall rest, HpiDemarshalReply LittleEndian BigEndian
      (dHpiMarshalEntry eFsaHpiDiscover "saHpiDiscover" saHpiDiscoverIn saHpiDiscoverOut) (bs ++ rest) =
      Done (results, Z.of_nat (length bs)).
Proof.
  refine (server_executes_request (function_number eFsaHpiDiscover) _ case_saHpiDiscover
    LittleEndian BigEndian [VNum 7] [7; 0; 0; 0] [1; 2; 3] 10 SA_OK
    (snd (fst (call_case case_saHpiDiscover {["sid" := VNum 7]} 10))) 11 _ _ _ _ _ _ _);
    try reflexivity.
  - cbn. rewrite !not_elem_of_cons. repeat (split; [done|]). apply not_elem_of_nil.
  - done.
Defined.

(** An unknown function is answered with an error code. *)
Definition unknown_request : iteration :=
  {| read := ReadTrue {| mh_type := eMhMsg; mh_id := 200; mh_len := 0; mh_byte_order := BigEndian |} [] [];
     stale := replicate (Z.to_nat dMaxPayloadLength) 0;
     send := fun msg => Z.of_nat (length msg); stop_read := false; stop_write := false |}.

Lemma server_always_replies_witness :
  exists st' msg e,
    service_iteration LittleEndian unknown_request {| my_sid := 7; thread_daemon := 10 |} =
      Done (st', [msg], e) /\
    complete_message LittleEndian 200 msg.
Proof.
  refine (server_always_replies LittleEndian unknown_request _
    {| mh_type := eMhMsg; mh_id := 200; mh_len := 0; mh_byte_order := BigEndian |} [] [] eq_refl eq_refl
    _ _ _ _).
  - done.
  - cbn [stale unknown_request app]. by apply Forall_replicate.
  - cbn [stale unknown_request app]. by rewrite length_replicate.
  - cbn. rewrite !not_elem_of_cons. repeat (split; [done|]). apply not_elem_of_nil.
Defined.

(** * Deviations of the code, as examples *)

(** [saHpiDimiTestStatusGet]: the percentage is a variable of one byte, of
    which the table marshals four. *)
Lemma dimi_test_status_overrun host m e :
  HpiMarshalFind (function_number eFsaHpiDimiTestStatusGet) = Some m ->
  e !! "rv" = Some (VNum SA_OK) ->
  MARSHAL_RP host m e (oparams case_saHpiDimiTestStatusGet) = Undefined.
Proof.
  intros Hf Hrv. unfold MARSHAL_RP. rewrite Hrv.
  assert (E : HpiMarshalFind (function_number eFsaHpiDimiTestStatusGet) =
    Some (dHpiMarshalEntry eFsaHpiDimiTestStatusGet "saHpiDimiTestStatusGet"
            saHpiDimiTestStatusGetIn saHpiDimiTestStatusGetOut)) by reflexivity.
  rewrite E in Hf. injection Hf as <-. reflexivity.
Qed.

(** The configuration of a handler with 200 parameters does not fit into the
    buffer the reply of [oHpiHandlerInfo] is marshalled into. *)
Definition chars (n : Z) : list value := [VNum (65 + n / 26); VNum (65 + n mod 26)].
Definition big_table : list (list value * list value) :=
  (fun n => (chars (Z.of_nat n), chars (Z.of_nat n))) <$> seq 0 200.
Definition default_info : value :=
  VStruct [VNum 1; strncpy 32 [];
           VStruct [VArray (replicate 16 (VStruct [VNum 0; VNum 0]))]; VNum 0].

Lemma handler_info_overflow :
  match HpiMarshalFind (function_number eFoHpiHandlerInfo) with
  | Some m =>
      MARSHAL_RP LittleEndian m
        {["rv" := VNum SA_OK; "info" := default_info; "cfg" := handler_cfg big_table]}
        (oparams case_oHpiHandlerInfo)
  | None => Done []
  end = Undefined.
Proof. vm_compute. reflexivity. Qed.

(** A handler parameter without a terminator is read past its array. *)
Lemma handler_create_unterminated :
  hash_handler_cfg [VStruct [VArray (replicate 255 (VNum 65)); strncpy 255 []]] [] = Undefined.
Proof. vm_compute. reflexivity. Qed.

(** A peer that records what it receives and answers with a success. *)
Definition recording_peer : Peer (list (list Z)) := {|
  peer_connect _ p := (Some 0, p);
  peer_exchange _ bytes p := Done (header LittleEndian eMhMsg 3 4 ++ [0; 0; 0; 0], p ++ [bytes]) |}.

(** The reply breaks off after its first byte in the first attempt: the call
    is repeated, with the byte received in place of the first byte of the
    request, so for session 0 instead of session 7. *)
Definition breaking_network : nat -> network := fun n =>
  {| net_send := fun msg => Z.of_nat (length msg);
     net_events := match n with O => [Received 11; Received 0; RecvError] | _ => replicate 20 (Received 0) end |}.

Lemma rpc_retry_sends_other_request :
  match ohc_sess_rpc (H := recording_peer) LittleEndian (fun _ => Some zero_ep)
          (replicate 100 0) breaking_network (function_number eFsaHpiDiscover) 5 [] one_session [] with
  | Done (rv, _, _, log) =>
      rv = SA_OK /\
      log = [header LittleEndian eMhMsg 3 4 ++ [7; 0; 0; 0];
             header LittleEndian eMhMsg 3 4 ++ [0; 0; 0; 0]]
  | _ => False
  end.
Proof. vm_compute. split; reflexivity. Qed.

(** The answer to another request is refused, but after it was stored: the
    caller has an error code and the timeout of somebody else. *)
Definition confused_peer : Peer unit := {|
  peer_connect _ p := (Some 0, p);
  peer_exchange _ _ p := Done (header LittleEndian eMhMsg 1 12 ++ [0; 0; 0; 0] ++ [42; 0; 0; 0; 0; 0; 0; 0], p) |}.

Lemma refused_answer_stored :
  match ohc_sess_rpc (H := confused_peer) LittleEndian (fun _ => Some zero_ep) (replicate 100 0)
          (fun _ => {| net_send := fun msg => Z.of_nat (length msg); net_events := replicate 40 (Received 11) |})
          (function_number eFsaHpiAutoInsertTimeoutGet) 5 [] one_session tt with
  | Done (rv, outs, _, _) => rv = SA_ERR_HPI_NO_RESPONSE /\ outs = [Some (VNum 42)]
  | _ => False
  end.
Proof. vm_compute. split; reflexivity. Qed.

(** A reply that does not arrive makes the library call the function again. *)
Lemma rpc_retry_calls_twice :
  match ohc_sess_rpc (H := daemon_peer LittleEndian (replicate 20 (Received 11)) (fun _ => []))
          LittleEndian (fun _ => Some zero_ep) (replicate 100 0)
          (fun n => {| net_send := fun msg => Z.of_nat (length msg);
                       net_events := match n with O => [RecvError] | _ => replicate 20 (Received 11) end |})
          (function_number eFsaHpiDiscover) 5 [] one_session (one_thread 10) with
  | Done (rv, _, _, p) => rv = SA_OK /\ the_daemon p = 12
  | _ => False
  end.
Proof. vm_compute. split; reflexivity. Qed.
