(* ===== verification/CText.v ===== *)
(** Functions of the C library and of GLib on strings, on texts as lists of
    characters, with the facts on decimal numbers that the conversions of the
    repository need. *)
From S2P Require Import Prelude.
From Stdlib Require Import Ascii.

Definition text : Type := list ascii.
Definition text_of (s : string) : text := String.list_ascii_of_string s.
Definition string_of (t : text) : string := String.string_of_list_ascii t.

Definition i32 (z : Z) : Z := (z + 2 ^ 31) mod 2 ^ 32 - 2 ^ 31.

(** [isspace] of C and [g_ascii_isspace], which leaves out the vertical tab. *)
Definition isspace (c : ascii) : bool :=
  let n := nat_of_ascii c in (n =? 32)%nat || ((9 <=? n)%nat && (n <=? 13)%nat).
Definition g_ascii_isspace (c : ascii) : bool := isspace c && negb (nat_of_ascii c =? 11)%nat.

Fixpoint skip (p : ascii -> bool) (t : text) : text :=
  match t with
  | [] => []
  | c :: t' => if p c then skip p t' else t
  end.

(** [g_strstrip] *)
Definition g_strstrip (t : text) : text :=
  rev (skip g_ascii_isspace (rev (skip g_ascii_isspace t))).

(** [g_strsplit( , , -1)] with a delimiter of one character: the empty text
    gives the empty vector, any other one a piece more than it has delimiters. *)
Fixpoint split_from (d : ascii) (piece : text) (t : text) : list text :=
  match t with
  | [] => [rev piece]
  | c :: t' => if Ascii.eqb c d then rev piece :: split_from d [] t'
               else split_from d (c :: piece) t'
  end.
Definition g_strsplit (d : ascii) (t : text) : list text :=
  match t with [] => [] | _ => split_from d [] t end.

(** [g_strsplit( , , 2)] of a text with the delimiter: the second piece is the
    rest. *)
Fixpoint split_first (d : ascii) (t : text) : option (text * text) :=
  match t with
  | [] => None
  | c :: t' =>
      if Ascii.eqb c d then Some ([], t')
      else match split_first d t' with Some (a, b) => Some (c :: a, b) | None => None end
  end.

(** [g_strdelimit] with one delimiter. *)
Definition g_strdelimit (d new : ascii) (t : text) : text :=
  (fun c => if Ascii.eqb c d then new else c) <$> t.

Definition has (d : ascii) (t : text) : bool := existsb (Ascii.eqb d) t.

(** *** Numbers *)

Definition digit_value (c : ascii) : option Z :=
  let n := Z.of_nat (nat_of_ascii c) in
  if (48 <=? n) && (n <=? 57) then Some (n - 48)
  else if (97 <=? n) && (n <=? 122) then Some (n - 87)
  else if (65 <=? n) && (n <=? 90) then Some (n - 55)
  else None.
Definition digit_in (base : Z) (c : ascii) : option Z :=
  match digit_value c with Some d => if d <? base then Some d else None | None => None end.

(** The value of the leading digits and the rest. *)
Fixpoint read_digits (base acc : Z) (t : text) : Z * text :=
  match t with
  | [] => (acc, [])
  | c :: t' =>
      match digit_in base c with
      | Some d => read_digits base (base * acc + d) t'
      | None => (acc, t)
      end
  end.
Definition starts_number (base : Z) (t : text) : bool :=
  match t with c :: _ => bool_decide (is_Some (digit_in base c)) | [] => false end.

Definition sign_of (t : text) : Z * text :=
  match t with
  | c :: t' => if Ascii.eqb c "-" then (-1, t') else if Ascii.eqb c "+" then (1, t') else (1, t)
  | [] => (1, [])
  end.
Definition hex_prefix (t : text) : bool :=
  match t with
  | a :: b :: t' => Ascii.eqb a "0" && (Ascii.eqb b "x" || Ascii.eqb b "X") && starts_number 16 t'
  | _ => false
  end.
Definition zero_first (t : text) : bool :=
  match t with c :: _ => Ascii.eqb c "0" | [] => false end.

(** [strtol]: the number, which is cut to 64 bits, and the text from [endptr];
    without a digit that is the whole text.  A prefix [0x] is read for base 16
    and, like a leading [0], chooses the base if it is 0. *)
Definition strtol (base : Z) (t : text) : Z * text :=
  let '(sign, s) := sign_of (skip isspace t) in
  let '(base, s) :=
    if ((base =? 0) || (base =? 16)) && hex_prefix s then (16, drop 2 s)
    else if base =? 0 then (if zero_first s then 8 else 10, s)
    else (base, s) in
  if starts_number base s then
    let '(v, rest) := read_digits base 0 s in
    (Z.max (- 2 ^ 63) (Z.min (sign * v) (2 ^ 63 - 1)), rest)
  else (0, t).

(** The digits of a number, [%u]; [n] bounds their number. *)
Definition digit_char (d : Z) : ascii := ascii_of_nat (Z.to_nat (d + 48)).
Fixpoint dec_digits (n : nat) (z : Z) : text :=
  match n with
  | O => []
  | S n => if z <? 10 then [digit_char z] else dec_digits n (z / 10) ++ [digit_char (z mod 10)]
  end.
Definition decimal (z : Z) : text := dec_digits (S (Z.to_nat (Z.log2 (Z.max z 1)))) z.
(** [%d] of an [int]. *)
Definition signed_decimal (z : Z) : text :=
  if z <? 0 then "-"%char :: decimal (- z) else decimal z.

(** ** Lemmas *)

Definition is_digit (c : ascii) : bool :=
  let n := Z.of_nat (nat_of_ascii c) in (48 <=? n) && (n <=? 57).

Lemma digit_char_code d : 0 <= d < 10 -> Z.of_nat (nat_of_ascii (digit_char d)) = d + 48.
Proof.
  intros H. unfold digit_char. rewrite nat_ascii_embedding by lia. lia.
Qed.

Lemma digit_char_digit d : 0 <= d < 10 -> is_digit (digit_char d) = true.
Proof. intros H. unfold is_digit. rewrite digit_char_code by done. apply andb_true_iff. split; lia. Qed.

Lemma digit_char_in base d : 0 <= d < 10 -> d < base -> digit_in base (digit_char d) = Some d.
Proof.
  intros H Hb. unfold digit_in, digit_value. rewrite digit_char_code by done.
  assert ((48 <=? d + 48) && (d + 48 <=? 57) = true) as -> by (apply andb_true_iff; lia).
  replace (d + 48 - 48) with d by lia. by apply Z.ltb_lt in Hb as ->.
Qed.

(** The number that a text of digits is read as. *)
Definition digits_value (acc : Z) (t : text) : Z :=
  fold_left (fun a c => 10 * a + (Z.of_nat (nat_of_ascii c) - 48)) t acc.
Definition digits (t : text) : Prop := Forall (fun c => is_digit c = true) t.

Lemma is_digit_in c : is_digit c = true -> digit_in 10 c = Some (Z.of_nat (nat_of_ascii c) - 48).
Proof.
  unfold is_digit, digit_in, digit_value. intros H. rewrite H.
  apply andb_true_iff in H as [H1 H2]. zbool. case_match; zbool; [done|lia].
Qed.

Lemma is_digit_range c : is_digit c = true -> 48 <= Z.of_nat (nat_of_ascii c) <= 57.
Proof. unfold is_digit. intros H. zbool. lia. Qed.

Lemma read_digits_digits t rest : digits t -> starts_number 10 rest = false ->
  forall acc, read_digits 10 acc (t ++ rest) = (digits_value acc t, rest).
Proof.
  intros Ht Hr. induction Ht as [|c t Hc Ht IH]; intros acc.
  - destruct rest as [|c rest]; [done|]. cbn in *. by destruct (digit_in 10 c).
  - cbn [app read_digits]. rewrite is_digit_in by done. by rewrite IH.
Qed.

Lemma digits_value_app acc t t' : digits_value acc (t ++ t') = digits_value (digits_value acc t) t'.
Proof. apply fold_left_app. Qed.

Lemma digits_value_char acc d : 0 <= d < 10 -> digits_value acc [digit_char d] = 10 * acc + d.
Proof. intros H. cbn. rewrite digit_char_code by done. lia. Qed.

Lemma dec_digits_correct n : forall z, 0 <= z < 2 ^ Z.of_nat n -> (0 < n)%nat ->
  digits (dec_digits n z) /\ digits_value 0 (dec_digits n z) = z /\
  (exists c t, dec_digits n z = c :: t /\ (0 < z -> c <> "0"%char)) /\
  (forall k, z < 10 ^ Z.of_nat k -> (0 < k)%nat -> (length (dec_digits n z) <= k)%nat).
Proof.
  induction n as [|n IH]; intros z Hz Hn; [lia|]. cbn [dec_digits].
  destruct (z <? 10) eqn:E; zbool.
  - split_and!.
    + repeat constructor. apply digit_char_digit. lia.
    + rewrite digits_value_char by lia. lia.
    + exists (digit_char z), []. split; [done|]. intros H Hc.
      apply (f_equal nat_of_ascii) in Hc. pose proof (digit_char_code z ltac:(lia)) as Hx.
      rewrite Hc in Hx. change (Z.of_nat (nat_of_ascii "0"%char)) with 48 in Hx. lia.
    + intros k _ Hk. cbn. lia.
  - assert (Hn' : (0 < n)%nat).
    { destruct n; [|lia]. change (2 ^ Z.of_nat 1) with 2 in Hz. lia. }
    assert (Hz' : 0 <= z / 10 < 2 ^ Z.of_nat n).
    { split; [apply Z.div_pos; lia|]. apply Z.div_lt_upper_bound; [lia|].
      rewrite Nat2Z.inj_succ, Z.pow_succ_r in Hz by lia. lia. }
    destruct (IH (z / 10) Hz' Hn') as (Hd & Hv & (c & t & Ht & Hc) & Hlen).
    pose proof (Z.mod_pos_bound z 10 ltac:(lia)) as Hm. split_and!.
    + apply Forall_app. split; [done|]. repeat constructor. by apply digit_char_digit.
    + rewrite digits_value_app, Hv, digits_value_char by done. pose proof (Z.div_mod z 10). lia.
    + rewrite Ht. exists c, (t ++ [digit_char (z mod 10)]). split; [done|]. intros _. apply Hc.
      apply Z.div_str_pos. lia.
    + intros k Hk Hk'. rewrite length_app. cbn. destruct k as [|[|k]]; [lia| |].
      * change (10 ^ Z.of_nat 1) with 10 in Hk. lia.
      * assert ((length (dec_digits n (z / 10)) <= S k)%nat); [|lia].
        apply Hlen; [|lia]. apply Z.div_lt_upper_bound; [lia|].
        rewrite Nat2Z.inj_succ, Z.pow_succ_r in Hk by lia. lia.
Qed.

Lemma decimal_correct z : 0 <= z ->
  digits (decimal z) /\ digits_value 0 (decimal z) = z /\
  (exists c t, decimal z = c :: t /\ (0 < z -> c <> "0"%char)) /\
  (forall k, z < 10 ^ Z.of_nat k -> (0 < k)%nat -> (length (decimal z) <= k)%nat).
Proof.
  intros Hz. apply dec_digits_correct; [|lia]. split; [done|].
  rewrite Nat2Z.inj_succ, Z2Nat.id by apply Z.log2_nonneg.
  destruct (Z.eq_dec z 0) as [->|Hne]; [by vm_compute|].
  rewrite Z.max_l by lia. pose proof (Z.log2_spec z ltac:(lia)). lia.
Qed.

Lemma digit_not_space c : is_digit c = true -> isspace c = false /\ g_ascii_isspace c = false.
Proof.
  intros H%is_digit_range. unfold g_ascii_isspace, isspace.
  assert ((nat_of_ascii c =? 32)%nat || (9 <=? nat_of_ascii c)%nat && (nat_of_ascii c <=? 13)%nat = false) as ->.
  { apply orb_false_iff. split; [apply Nat.eqb_neq; lia|]. apply andb_false_iff. right. apply Nat.leb_gt. lia. }
  done.
Qed.

Lemma digit_not c d : is_digit c = true -> is_digit d = false -> Ascii.eqb c d = false.
Proof. intros Hc Hd. apply Ascii.eqb_neq. intros ->. congruence. Qed.

(** Reading a number that was printed. *)
Lemma strtol_decimal base z rest : base = 10 \/ base = 0 /\ 0 < z -> 0 <= z < 2 ^ 63 ->
  starts_number 10 rest = false -> hex_prefix (decimal z ++ rest) = false ->
  strtol base (decimal z ++ rest) = (z, rest).
Proof.
  intros Hb Hz Hr Hx. destruct (decimal_correct z) as (Hd & Hv & (c & t & Ht & Hc) & _); [lia|].
  assert (Hcd : is_digit c = true) by (rewrite Ht in Hd; by inversion Hd).
  assert (Hs : sign_of (skip isspace (decimal z ++ rest)) = (1, decimal z ++ rest)).
  { rewrite Ht. cbn [app skip]. rewrite (proj1 (digit_not_space c Hcd)). cbn [sign_of].
    by rewrite !digit_not by done. }
  unfold strtol. rewrite Hs, Hx, andb_false_r.
  transitivity (let '(base, s) := (10, decimal z ++ rest) in
    if starts_number base s then
      let '(v, rest) := read_digits base 0 s in
      (Z.max (- 2 ^ 63) (Z.min (1 * v) (2 ^ 63 - 1)), rest)
    else (0, decimal z ++ rest)).
  { destruct Hb as [->|[-> Hpos]]; [done|]. rewrite Ht. cbn [app zero_first Z.eqb].
    apply Hc, Ascii.eqb_neq in Hpos. by rewrite Hpos. }
  assert (starts_number 10 (decimal z ++ rest) = true) as ->.
  { rewrite Ht. cbn [app starts_number]. rewrite is_digit_in by done. by rewrite bool_decide_true by done. }
  rewrite read_digits_digits, Hv by done. f_equal. lia.
Qed.

Lemma decimal_no_hex z rest : 0 <= z -> hex_prefix rest = false ->
  (forall c t, rest = c :: t -> Ascii.eqb c "x" = false /\ Ascii.eqb c "X" = false) ->
  hex_prefix (decimal z ++ rest) = false.
Proof.
  intros Hz _ Hr. destruct (decimal_correct z Hz) as (Hd & _ & (c & t & Ht & _) & _).
  rewrite Ht in *. inversion_clear Hd as [|? ? Hc Hd']. destruct t as [|c' t]; cbn [app hex_prefix].
  - destruct rest as [|d rest]; [done|]. destruct (Hr d rest eq_refl) as [-> ->]. by rewrite andb_false_r.
  - inversion_clear Hd' as [|? ? Hc' _]. rewrite !(digit_not c') by done. by rewrite andb_false_r.
Qed.
