(* ===== verification/EnumNames.v ===== *)
(** The names of the enumerations of the interface:
    [utils/sahpi_enum_utils.c], [utils/sahpiatca_enum_utils.c] and
    [utils/sahpixtca_enum_utils.c].

    For each enumeration, the members as SaHpi.h, SaHpiXtca.h and SaHpiAtca.h
    declare them, the table of names, the switch of [oh_lookup_*] and the search
    of [oh_encode_*].  A lookup returns [None] for [NULL].  The text of a buffer
    is its [Data] up to the terminator; a pointer that may be [NULL] is an
    [option], and an encoding returns its code and what [type] points to. *)
From S2P Require Import Prelude SaHpi Conf TextBuffer Validate.
From Stdlib Require Import Ascii.
#[local] Open Scope string_scope.
#[local] Open Scope Z_scope.

(** The numbering of the members of a C enumeration. *)
Fixpoint number_from (n : Z) (members : list (string * option Z)) : list (string * Z) :=
  match members with
  | [] => []
  | (x, v) :: members =>
      let n := default n v in (x, n) :: number_from (n + 1) members
  end.
Definition c_enum : list (string * option Z) -> list (string * Z) := number_from 0.

Definition value_of (members : list (string * Z)) (x : string) : Z :=
  match List.find (fun m => String.eqb m.1 x) members with Some m => m.2 | None => -1 end.

(** Rows of constants and their names. *)
Definition names (members : list (string * Z)) (rows : list (string * string))
  : list (Z * string) := (fun r => (value_of members r.1, r.2)) <$> rows.

(** A [switch] with a [return] in every case. *)
Definition switch (cases : list (Z * string)) (value : Z) (otherwise : option string)
  : option string :=
  match List.find (fun c : Z * string => c.1 =? value) cases with
  | Some c => Some c.2
  | None => otherwise
  end.

(** The body of [oh_encode_*]; [otherwise] is its last resort. *)
Definition encode_name (strings : list (Z * string)) (max : nat)
    (otherwise : option string -> option Z -> Z * option Z)
    (buffer : option string) (type : option Z) : Z * option Z :=
  match buffer, type with
  | Some data, Some _ =>
      if String.eqb data "" then (SA_ERR_HPI_INVALID_PARAMS, type) else
      match List.find (fun e : Z * string => strcasecmp_eq data e.2) (take max strings) with
      | Some e => (SA_OK, Some e.1)
      | None => otherwise buffer type
      end
  | _, _ => (SA_ERR_HPI_INVALID_PARAMS, type)
  end.

(** * utils/sahpixtca_enum_utils.c *)

Definition XtcaHpiLedColorT : list (string * Z) :=
  c_enum [("XTCAHPI_LED_COLOR_RESERVED", Some 0);
    ("XTCAHPI_LED_COLOR_BLUE", None);
    ("XTCAHPI_LED_COLOR_RED", None);
    ("XTCAHPI_LED_COLOR_GREEN", None);
    ("XTCAHPI_LED_COLOR_AMBER", None);
    ("XTCAHPI_LED_COLOR_ORANGE", None);
    ("XTCAHPI_LED_COLOR_WHITE", None);
    ("XTCAHPI_LED_COLOR_NO_CHANGE", Some 14);
    ("XTCAHPI_LED_COLOR_USE_DEFAULT", Some 15)].

Definition xtcahpiledcolor_strings : list (Z * string) := Eval vm_compute in
  names XtcaHpiLedColorT [("XTCAHPI_LED_COLOR_RESERVED", "COLOR_RESERVED");
    ("XTCAHPI_LED_COLOR_BLUE", "COLOR_BLUE");
    ("XTCAHPI_LED_COLOR_RED", "COLOR_RED");
    ("XTCAHPI_LED_COLOR_GREEN", "COLOR_GREEN");
    ("XTCAHPI_LED_COLOR_AMBER", "COLOR_AMBER");
    ("XTCAHPI_LED_COLOR_ORANGE", "COLOR_ORANGE");
    ("XTCAHPI_LED_COLOR_WHITE", "COLOR_WHITE");
    ("XTCAHPI_LED_COLOR_NO_CHANGE", "COLOR_NO_CHANGE");
    ("XTCAHPI_LED_COLOR_USE_DEFAULT", "COLOR_USE_DEFAULT")].

Definition OH_MAX_XTCAHPILEDCOLOR : nat := 9.

Definition xtcahpiledcolor_cases : list (Z * string) := Eval vm_compute in
  names XtcaHpiLedColorT [("XTCAHPI_LED_COLOR_RESERVED", "COLOR_RESERVED");
    ("XTCAHPI_LED_COLOR_BLUE", "COLOR_BLUE");
    ("XTCAHPI_LED_COLOR_RED", "COLOR_RED");
    ("XTCAHPI_LED_COLOR_GREEN", "COLOR_GREEN");
    ("XTCAHPI_LED_COLOR_AMBER", "COLOR_AMBER");
    ("XTCAHPI_LED_COLOR_ORANGE", "COLOR_ORANGE");
    ("XTCAHPI_LED_COLOR_WHITE", "COLOR_WHITE");
    ("XTCAHPI_LED_COLOR_NO_CHANGE", "COLOR_NO_CHANGE");
    ("XTCAHPI_LED_COLOR_USE_DEFAULT", "COLOR_USE_DEFAULT")].

Definition oh_lookup_xtcahpiledcolor (value : Z) : option string :=
  switch xtcahpiledcolor_cases value None.

Definition oh_encode_xtcahpiledcolor : option string -> option Z -> Z * option Z :=
  encode_name xtcahpiledcolor_strings OH_MAX_XTCAHPILEDCOLOR (fun _ type => (SA_ERR_HPI_INVALID_DATA, type)).

Definition XtcaHpiResourceLedModeT : list (string * Z) :=
  c_enum [("XTCAHPI_LED_AUTO", None);
    ("XTCAHPI_LED_MANUAL", None);
    ("XTCAHPI_LED_LAMP_TEST", None)].

Definition xtcahpiresourceledmode_strings : list (Z * string) := Eval vm_compute in
  names XtcaHpiResourceLedModeT [("XTCAHPI_LED_AUTO", "AUTO");
    ("XTCAHPI_LED_MANUAL", "MANUAL");
    ("XTCAHPI_LED_LAMP_TEST", "LAMP_TEST")].

Definition OH_MAX_XTCAHPIRESOURCELEDMODE : nat := 3.

Definition xtcahpiresourceledmode_cases : list (Z * string) := Eval vm_compute in
  names XtcaHpiResourceLedModeT [("XTCAHPI_LED_AUTO", "AUTO");
    ("XTCAHPI_LED_MANUAL", "MANUAL");
    ("XTCAHPI_LED_LAMP_TEST", "LAMP_TEST")].

Definition oh_lookup_xtcahpiresourceledmode (value : Z) : option string :=
  switch xtcahpiresourceledmode_cases value None.

Definition oh_encode_xtcahpiresourceledmode : option string -> option Z -> Z * option Z :=
  encode_name xtcahpiresourceledmode_strings OH_MAX_XTCAHPIRESOURCELEDMODE (fun _ type => (SA_ERR_HPI_INVALID_DATA, type)).

Definition XtcaHpiLedBrSupportT : list (string * Z) :=
  c_enum [("XTCAHPI_LED_BR_SUPPORTED", None);
    ("XTCAHPI_LED_BR_NOT_SUPPORTED", None);
    ("XTCAHPI_LED_BR_UNKNOWN", None)].

Definition xtcahpiledbrsupport_strings : list (Z * string) := Eval vm_compute in
  names XtcaHpiLedBrSupportT [("XTCAHPI_LED_BR_SUPPORTED", "BR_SUPPORTED");
    ("XTCAHPI_LED_BR_NOT_SUPPORTED", "BR_NOT_SUPPORTED");
    ("XTCAHPI_LED_BR_UNKNOWN", "BR_UNKNOWN")].

Definition OH_MAX_XTCAHPILEDBRSUPPORT : nat := 3.

Definition xtcahpiledbrsupport_cases : list (Z * string) := Eval vm_compute in
  names XtcaHpiLedBrSupportT [("XTCAHPI_LED_BR_SUPPORTED", "BR_SUPPORTED");
    ("XTCAHPI_LED_BR_NOT_SUPPORTED", "BR_NOT_SUPPORTED");
    ("XTCAHPI_LED_BR_UNKNOWN", "BR_UNKNOWN")].

Definition oh_lookup_xtcahpiledbrsupport (value : Z) : option string :=
  switch xtcahpiledbrsupport_cases value None.

Definition oh_encode_xtcahpiledbrsupport : option string -> option Z -> Z * option Z :=
  encode_name xtcahpiledbrsupport_strings OH_MAX_XTCAHPILEDBRSUPPORT (fun _ type => (SA_ERR_HPI_INVALID_DATA, type)).

Definition XtcaHpiEntityTypeT : list (string * Z) :=
  [("XTCAHPI_ENT_POWER_SLOT", 145);
    ("XTCAHPI_ENT_SHELF_FRU_DEVICE_SLOT", 146);
    ("XTCAHPI_ENT_SHELF_MANAGER_SLOT", 147);
    ("XTCAHPI_ENT_FAN_TRAY_SLOT", 148);
    ("XTCAHPI_ENT_FAN_FILTER_TRAY_SLOT", 149);
    ("XTCAHPI_ENT_ALARM_SLOT", 150);
    ("XTCAHPI_ENT_AMC_SLOT", 151);
    ("XTCAHPI_ENT_PMC_SLOT", 152);
    ("XTCAHPI_ENT_RTM_SLOT", 153);
    ("XTCAHPI_ENT_CARRIER_MANAGER_SLOT", 154);
    ("XTCAHPI_ENT_CARRIER_SLOT", 155);
    ("XTCAHPI_ENT_COM_E_SLOT", 156)].

Definition xtcahpientitytype_strings : list (Z * string) := Eval vm_compute in
  names XtcaHpiEntityTypeT [("XTCAHPI_ENT_POWER_SLOT", "POWER_SLOT");
    ("XTCAHPI_ENT_SHELF_FRU_DEVICE_SLOT", "SHELF_FRU_DEVICE_SLOT");
    ("XTCAHPI_ENT_SHELF_MANAGER_SLOT", "SHELF_MANAGER_SLOT");
    ("XTCAHPI_ENT_FAN_TRAY_SLOT", "FAN_TRAY_SLOT");
    ("XTCAHPI_ENT_FAN_FILTER_TRAY_SLOT", "FAN_FILTER_TRAY_SLOT");
    ("XTCAHPI_ENT_ALARM_SLOT", "ALARM_SLOT");
    ("XTCAHPI_ENT_AMC_SLOT", "AMC_SLOT");
    ("XTCAHPI_ENT_PMC_SLOT", "PMC_SLOT");
    ("XTCAHPI_ENT_RTM_SLOT", "RTM_SLOT");
    ("XTCAHPI_ENT_CARRIER_MANAGER_SLOT", "CARRIER_MANAGER_SLOT");
    ("XTCAHPI_ENT_CARRIER_SLOT", "CARRIER_SLOT");
    ("XTCAHPI_ENT_COM_E_SLOT", "COM_E_SLOT")].

Definition OH_MAX_XTCAHPIENTITYTYPE : nat := 12.

Definition xtcahpientitytype_cases : list (Z * string) := Eval vm_compute in
  names XtcaHpiEntityTypeT [("XTCAHPI_ENT_POWER_SLOT", "POWER_SLOT");
    ("XTCAHPI_ENT_SHELF_FRU_DEVICE_SLOT", "SHELF_FRU_DEVICE_SLOT");
    ("XTCAHPI_ENT_SHELF_MANAGER_SLOT", "SHELF_MANAGER_SLOT");
    ("XTCAHPI_ENT_FAN_TRAY_SLOT", "FAN_TRAY_SLOT");
    ("XTCAHPI_ENT_FAN_FILTER_TRAY_SLOT", "FAN_FILTER_TRAY_SLOT");
    ("XTCAHPI_ENT_ALARM_SLOT", "ALARM_SLOT");
    ("XTCAHPI_ENT_AMC_SLOT", "AMC_SLOT");
    ("XTCAHPI_ENT_PMC_SLOT", "PMC_SLOT");
    ("XTCAHPI_ENT_RTM_SLOT", "RTM_SLOT");
    ("XTCAHPI_ENT_CARRIER_MANAGER_SLOT", "CARRIER_MANAGER_SLOT");
    ("XTCAHPI_ENT_CARRIER_SLOT", "CARRIER_SLOT");
    ("XTCAHPI_ENT_COM_E_SLOT", "COM_E_SLOT")].

Definition oh_lookup_xtcahpientitytype (value : Z) : option string :=
  switch xtcahpientitytype_cases value None.

Definition oh_encode_xtcahpientitytype : option string -> option Z -> Z * option Z :=
  encode_name xtcahpientitytype_strings OH_MAX_XTCAHPIENTITYTYPE (fun _ type => (SA_ERR_HPI_INVALID_DATA, type)).

(** * utils/sahpi_enum_utils.c *)

Definition SaHpiLanguageT : list (string * Z) :=
  c_enum [("SAHPI_LANG_UNDEF", Some 0);
    ("SAHPI_LANG_AFAR", None);
    ("SAHPI_LANG_ABKHAZIAN", None);
    ("SAHPI_LANG_AFRIKAANS", None);
    ("SAHPI_LANG_AMHARIC", None);
    ("SAHPI_LANG_ARABIC", None);
    ("SAHPI_LANG_ASSAMESE", None);
    ("SAHPI_LANG_AYMARA", None);
    ("SAHPI_LANG_AZERBAIJANI", None);
    ("SAHPI_LANG_BASHKIR", None);
    ("SAHPI_LANG_BYELORUSSIAN", None);
    ("SAHPI_LANG_BULGARIAN", None);
    ("SAHPI_LANG_BIHARI", None);
    ("SAHPI_LANG_BISLAMA", None);
    ("SAHPI_LANG_BENGALI", None);
    ("SAHPI_LANG_TIBETAN", None);
    ("SAHPI_LANG_BRETON", None);
    ("SAHPI_LANG_CATALAN", None);
    ("SAHPI_LANG_CORSICAN", None);
    ("SAHPI_LANG_CZECH", None);
    ("SAHPI_LANG_WELSH", None);
    ("SAHPI_LANG_DANISH", None);
    ("SAHPI_LANG_GERMAN", None);
    ("SAHPI_LANG_BHUTANI", None);
    ("SAHPI_LANG_GREEK", None);
    ("SAHPI_LANG_ENGLISH", None);
    ("SAHPI_LANG_ESPERANTO", None);
    ("SAHPI_LANG_SPANISH", None);
    ("SAHPI_LANG_ESTONIAN", None);
    ("SAHPI_LANG_BASQUE", None);
    ("SAHPI_LANG_PERSIAN", None);
    ("SAHPI_LANG_FINNISH", None);
    ("SAHPI_LANG_FIJI", None);
    ("SAHPI_LANG_FAEROESE", None);
    ("SAHPI_LANG_FRENCH", None);
    ("SAHPI_LANG_FRISIAN", None);
    ("SAHPI_LANG_IRISH", None);
    ("SAHPI_LANG_SCOTSGAELIC", None);
    ("SAHPI_LANG_GALICIAN", None);
    ("SAHPI_LANG_GUARANI", None);
    ("SAHPI_LANG_GUJARATI", None);
    ("SAHPI_LANG_HAUSA", None);
    ("SAHPI_LANG_HINDI", None);
    ("SAHPI_LANG_CROATIAN", None);
    ("SAHPI_LANG_HUNGARIAN", None);
    ("SAHPI_LANG_ARMENIAN", None);
    ("SAHPI_LANG_INTERLINGUA", None);
    ("SAHPI_LANG_INTERLINGUE", None);
    ("SAHPI_LANG_INUPIAK", None);
    ("SAHPI_LANG_INDONESIAN", None);
    ("SAHPI_LANG_ICELANDIC", None);
    ("SAHPI_LANG_ITALIAN", None);
    ("SAHPI_LANG_HEBREW", None);
    ("SAHPI_LANG_JAPANESE", None);
    ("SAHPI_LANG_YIDDISH", None);
    ("SAHPI_LANG_JAVANESE", None);
    ("SAHPI_LANG_GEORGIAN", None);
    ("SAHPI_LANG_KAZAKH", None);
    ("SAHPI_LANG_GREENLANDIC", None);
    ("SAHPI_LANG_CAMBODIAN", None);
    ("SAHPI_LANG_KANNADA", None);
    ("SAHPI_LANG_KOREAN", None);
    ("SAHPI_LANG_KASHMIRI", None);
    ("SAHPI_LANG_KURDISH", None);
    ("SAHPI_LANG_KIRGHIZ", None);
    ("SAHPI_LANG_LATIN", None);
    ("SAHPI_LANG_LINGALA", None);
    ("SAHPI_LANG_LAOTHIAN", None);
    ("SAHPI_LANG_LITHUANIAN", None);
    ("SAHPI_LANG_LATVIANLETTISH", None);
    ("SAHPI_LANG_MALAGASY", None);
    ("SAHPI_LANG_MAORI", None);
    ("SAHPI_LANG_MACEDONIAN", None);
    ("SAHPI_LANG_MALAYALAM", None);
    ("SAHPI_LANG_MONGOLIAN", None);
    ("SAHPI_LANG_MOLDAVIAN", None);
    ("SAHPI_LANG_MARATHI", None);
    ("SAHPI_LANG_MALAY", None);
    ("SAHPI_LANG_MALTESE", None);
    ("SAHPI_LANG_BURMESE", None);
    ("SAHPI_LANG_NAURU", None);
    ("SAHPI_LANG_NEPALI", None);
    ("SAHPI_LANG_DUTCH", None);
    ("SAHPI_LANG_NORWEGIAN", None);
    ("SAHPI_LANG_OCCITAN", None);
    ("SAHPI_LANG_AFANOROMO", None);
    ("SAHPI_LANG_ORIYA", None);
    ("SAHPI_LANG_PUNJABI", None);
    ("SAHPI_LANG_POLISH", None);
    ("SAHPI_LANG_PASHTOPUSHTO", None);
    ("SAHPI_LANG_PORTUGUESE", None);
    ("SAHPI_LANG_QUECHUA", None);
    ("SAHPI_LANG_RHAETOROMANCE", None);
    ("SAHPI_LANG_KIRUNDI", None);
    ("SAHPI_LANG_ROMANIAN", None);
    ("SAHPI_LANG_RUSSIAN", None);
    ("SAHPI_LANG_KINYARWANDA", None);
    ("SAHPI_LANG_SANSKRIT", None);
    ("SAHPI_LANG_SINDHI", None);
    ("SAHPI_LANG_SANGRO", None);
    ("SAHPI_LANG_SERBOCROATIAN", None);
    ("SAHPI_LANG_SINGHALESE", None);
    ("SAHPI_LANG_SLOVAK", None);
    ("SAHPI_LANG_SLOVENIAN", None);
    ("SAHPI_LANG_SAMOAN", None);
    ("SAHPI_LANG_SHONA", None);
    ("SAHPI_LANG_SOMALI", None);
    ("SAHPI_LANG_ALBANIAN", None);
    ("SAHPI_LANG_SERBIAN", None);
    ("SAHPI_LANG_SISWATI", None);
    ("SAHPI_LANG_SESOTHO", None);
    ("SAHPI_LANG_SUDANESE", None);
    ("SAHPI_LANG_SWEDISH", None);
    ("SAHPI_LANG_SWAHILI", None);
    ("SAHPI_LANG_TAMIL", None);
    ("SAHPI_LANG_TELUGU", None);
    ("SAHPI_LANG_TAJIK", None);
    ("SAHPI_LANG_THAI", None);
    ("SAHPI_LANG_TIGRINYA", None);
    ("SAHPI_LANG_TURKMEN", None);
    ("SAHPI_LANG_TAGALOG", None);
    ("SAHPI_LANG_SETSWANA", None);
    ("SAHPI_LANG_TONGA", None);
    ("SAHPI_LANG_TURKISH", None);
    ("SAHPI_LANG_TSONGA", None);
    ("SAHPI_LANG_TATAR", None);
    ("SAHPI_LANG_TWI", None);
    ("SAHPI_LANG_UKRAINIAN", None);
    ("SAHPI_LANG_URDU", None);
    ("SAHPI_LANG_UZBEK", None);
    ("SAHPI_LANG_VIETNAMESE", None);
    ("SAHPI_LANG_VOLAPUK", None);
    ("SAHPI_LANG_WOLOF", None);
    ("SAHPI_LANG_XHOSA", None);
    ("SAHPI_LANG_YORUBA", None);
    ("SAHPI_LANG_CHINESE", None);
    ("SAHPI_LANG_ZULU", None);
    ("SAHPI_LANG_MAX_VALID", Some 136)].

Definition language_strings : list (Z * string) := Eval vm_compute in
  names SaHpiLanguageT [("SAHPI_LANG_UNDEF", "UNDEF");
    ("SAHPI_LANG_AFAR", "AFAR");
    ("SAHPI_LANG_ABKHAZIAN", "ABKHAZIAN");
    ("SAHPI_LANG_AFRIKAANS", "AFRIKAANS");
    ("SAHPI_LANG_AMHARIC", "AMHARIC");
    ("SAHPI_LANG_ARABIC", "ARABIC");
    ("SAHPI_LANG_ASSAMESE", "ASSAMESE");
    ("SAHPI_LANG_AYMARA", "AYMARA");
    ("SAHPI_LANG_AZERBAIJANI", "AZERBAIJANI");
    ("SAHPI_LANG_BASHKIR", "BASHKIR");
    ("SAHPI_LANG_BYELORUSSIAN", "BYELORUSSIAN");
    ("SAHPI_LANG_BULGARIAN", "BULGARIAN");
    ("SAHPI_LANG_BIHARI", "BIHARI");
    ("SAHPI_LANG_BISLAMA", "BISLAMA");
    ("SAHPI_LANG_BENGALI", "BENGALI");
    ("SAHPI_LANG_TIBETAN", "TIBETAN");
    ("SAHPI_LANG_BRETON", "BRETON");
    ("SAHPI_LANG_CATALAN", "CATALAN");
    ("SAHPI_LANG_CORSICAN", "CORSICAN");
    ("SAHPI_LANG_CZECH", "CZECH");
    ("SAHPI_LANG_WELSH", "WELSH");
    ("SAHPI_LANG_DANISH", "DANISH");
    ("SAHPI_LANG_GERMAN", "GERMAN");
    ("SAHPI_LANG_BHUTANI", "BHUTANI");
    ("SAHPI_LANG_GREEK", "GREEK");
    ("SAHPI_LANG_ENGLISH", "ENGLISH");
    ("SAHPI_LANG_ESPERANTO", "ESPERANTO");
    ("SAHPI_LANG_SPANISH", "SPANISH");
    ("SAHPI_LANG_ESTONIAN", "ESTONIAN");
    ("SAHPI_LANG_BASQUE", "BASQUE");
    ("SAHPI_LANG_PERSIAN", "PERSIAN");
    ("SAHPI_LANG_FINNISH", "FINNISH");
    ("SAHPI_LANG_FIJI", "FIJI");
    ("SAHPI_LANG_FAEROESE", "FAEROESE");
    ("SAHPI_LANG_FRENCH", "FRENCH");
    ("SAHPI_LANG_FRISIAN", "FRISIAN");
    ("SAHPI_LANG_IRISH", "IRISH");
    ("SAHPI_LANG_SCOTSGAELIC", "SCOTSGAELIC");
    ("SAHPI_LANG_GALICIAN", "GALICIAN");
    ("SAHPI_LANG_GUARANI", "GUARANI");
    ("SAHPI_LANG_GUJARATI", "GUJARATI");
    ("SAHPI_LANG_HAUSA", "HAUSA");
    ("SAHPI_LANG_HINDI", "HINDI");
    ("SAHPI_LANG_CROATIAN", "CROATIAN");
    ("SAHPI_LANG_HUNGARIAN", "HUNGARIAN");
    ("SAHPI_LANG_ARMENIAN", "ARMENIAN");
    ("SAHPI_LANG_INTERLINGUA", "INTERLINGUA");
    ("SAHPI_LANG_INTERLINGUE", "INTERLINGUE");
    ("SAHPI_LANG_INUPIAK", "INUPIAK");
    ("SAHPI_LANG_INDONESIAN", "INDONESIAN");
    ("SAHPI_LANG_ICELANDIC", "ICELANDIC");
    ("SAHPI_LANG_ITALIAN", "ITALIAN");
    ("SAHPI_LANG_HEBREW", "HEBREW");
    ("SAHPI_LANG_JAPANESE", "JAPANESE");
    ("SAHPI_LANG_YIDDISH", "YIDDISH");
    ("SAHPI_LANG_JAVANESE", "JAVANESE");
    ("SAHPI_LANG_GEORGIAN", "GEORGIAN");
    ("SAHPI_LANG_KAZAKH", "KAZAKH");
    ("SAHPI_LANG_GREENLANDIC", "GREENLANDIC");
    ("SAHPI_LANG_CAMBODIAN", "CAMBODIAN");
    ("SAHPI_LANG_KANNADA", "KANNADA");
    ("SAHPI_LANG_KOREAN", "KOREAN");
    ("SAHPI_LANG_KASHMIRI", "KASHMIRI");
    ("SAHPI_LANG_KURDISH", "KURDISH");
    ("SAHPI_LANG_KIRGHIZ", "KIRGHIZ");
    ("SAHPI_LANG_LATIN", "LATIN");
    ("SAHPI_LANG_LINGALA", "LINGALA");
    ("SAHPI_LANG_LAOTHIAN", "LAOTHIAN");
    ("SAHPI_LANG_LITHUANIAN", "LITHUANIAN");
    ("SAHPI_LANG_LATVIANLETTISH", "LATVIANLETTISH");
    ("SAHPI_LANG_MALAGASY", "MALAGASY");
    ("SAHPI_LANG_MAORI", "MAORI");
    ("SAHPI_LANG_MACEDONIAN", "MACEDONIAN");
    ("SAHPI_LANG_MALAYALAM", "MALAYALAM");
    ("SAHPI_LANG_MONGOLIAN", "MONGOLIAN");
    ("SAHPI_LANG_MOLDAVIAN", "MOLDAVIAN");
    ("SAHPI_LANG_MARATHI", "MARATHI");
    ("SAHPI_LANG_MALAY", "MALAY");
    ("SAHPI_LANG_MALTESE", "MALTESE");
    ("SAHPI_LANG_BURMESE", "BURMESE");
    ("SAHPI_LANG_NAURU", "NAURU");
    ("SAHPI_LANG_NEPALI", "NEPALI");
    ("SAHPI_LANG_DUTCH", "DUTCH");
    ("SAHPI_LANG_NORWEGIAN", "NORWEGIAN");
    ("SAHPI_LANG_OCCITAN", "OCCITAN");
    ("SAHPI_LANG_AFANOROMO", "AFANOROMO");
    ("SAHPI_LANG_ORIYA", "ORIYA");
    ("SAHPI_LANG_PUNJABI", "PUNJABI");
    ("SAHPI_LANG_POLISH", "POLISH");
    ("SAHPI_LANG_PASHTOPUSHTO", "PASHTOPUSHTO");
    ("SAHPI_LANG_PORTUGUESE", "PORTUGUESE");
    ("SAHPI_LANG_QUECHUA", "QUECHUA");
    ("SAHPI_LANG_RHAETOROMANCE", "RHAETOROMANCE");
    ("SAHPI_LANG_KIRUNDI", "KIRUNDI");
    ("SAHPI_LANG_ROMANIAN", "ROMANIAN");
    ("SAHPI_LANG_RUSSIAN", "RUSSIAN");
    ("SAHPI_LANG_KINYARWANDA", "KINYARWANDA");
    ("SAHPI_LANG_SANSKRIT", "SANSKRIT");
    ("SAHPI_LANG_SINDHI", "SINDHI");
    ("SAHPI_LANG_SANGRO", "SANGRO");
    ("SAHPI_LANG_SERBOCROATIAN", "SERBOCROATIAN");
    ("SAHPI_LANG_SINGHALESE", "SINGHALESE");
    ("SAHPI_LANG_SLOVAK", "SLOVAK");
    ("SAHPI_LANG_SLOVENIAN", "SLOVENIAN");
    ("SAHPI_LANG_SAMOAN", "SAMOAN");
    ("SAHPI_LANG_SHONA", "SHONA");
    ("SAHPI_LANG_SOMALI", "SOMALI");
    ("SAHPI_LANG_ALBANIAN", "ALBANIAN");
    ("SAHPI_LANG_SERBIAN", "SERBIAN");
    ("SAHPI_LANG_SISWATI", "SISWATI");
    ("SAHPI_LANG_SESOTHO", "SESOTHO");
    ("SAHPI_LANG_SUDANESE", "SUDANESE");
    ("SAHPI_LANG_SWEDISH", "SWEDISH");
    ("SAHPI_LANG_SWAHILI", "SWAHILI");
    ("SAHPI_LANG_TAMIL", "TAMIL");
    ("SAHPI_LANG_TELUGU", "TELUGU");
    ("SAHPI_LANG_TAJIK", "TAJIK");
    ("SAHPI_LANG_THAI", "THAI");
    ("SAHPI_LANG_TIGRINYA", "TIGRINYA");
    ("SAHPI_LANG_TURKMEN", "TURKMEN");
    ("SAHPI_LANG_TAGALOG", "TAGALOG");
    ("SAHPI_LANG_SETSWANA", "SETSWANA");
    ("SAHPI_LANG_TONGA", "TONGA");
    ("SAHPI_LANG_TURKISH", "TURKISH");
    ("SAHPI_LANG_TSONGA", "TSONGA");
    ("SAHPI_LANG_TATAR", "TATAR");
    ("SAHPI_LANG_TWI", "TWI");
    ("SAHPI_LANG_UKRAINIAN", "UKRAINIAN");
    ("SAHPI_LANG_URDU", "URDU");
    ("SAHPI_LANG_UZBEK", "UZBEK");
    ("SAHPI_LANG_VIETNAMESE", "VIETNAMESE");
    ("SAHPI_LANG_VOLAPUK", "VOLAPUK");
    ("SAHPI_LANG_WOLOF", "WOLOF");
    ("SAHPI_LANG_XHOSA", "XHOSA");
    ("SAHPI_LANG_YORUBA", "YORUBA");
    ("SAHPI_LANG_CHINESE", "CHINESE");
    ("SAHPI_LANG_ZULU", "ZULU")].

Definition OH_MAX_LANGUAGE : nat := 137.

Definition language_cases : list (Z * string) := Eval vm_compute in
  names SaHpiLanguageT [("SAHPI_LANG_UNDEF", "UNDEF");
    ("SAHPI_LANG_AFAR", "AFAR");
    ("SAHPI_LANG_ABKHAZIAN", "ABKHAZIAN");
    ("SAHPI_LANG_AFRIKAANS", "AFRIKAANS");
    ("SAHPI_LANG_AMHARIC", "AMHARIC");
    ("SAHPI_LANG_ARABIC", "ARABIC");
    ("SAHPI_LANG_ASSAMESE", "ASSAMESE");
    ("SAHPI_LANG_AYMARA", "AYMARA");
    ("SAHPI_LANG_AZERBAIJANI", "AZERBAIJANI");
    ("SAHPI_LANG_BASHKIR", "BASHKIR");
    ("SAHPI_LANG_BYELORUSSIAN", "BYELORUSSIAN");
    ("SAHPI_LANG_BULGARIAN", "BULGARIAN");
    ("SAHPI_LANG_BIHARI", "BIHARI");
    ("SAHPI_LANG_BISLAMA", "BISLAMA");
    ("SAHPI_LANG_BENGALI", "BENGALI");
    ("SAHPI_LANG_TIBETAN", "TIBETAN");
    ("SAHPI_LANG_BRETON", "BRETON");
    ("SAHPI_LANG_CATALAN", "CATALAN");
    ("SAHPI_LANG_CORSICAN", "CORSICAN");
    ("SAHPI_LANG_CZECH", "CZECH");
    ("SAHPI_LANG_WELSH", "WELSH");
    ("SAHPI_LANG_DANISH", "DANISH");
    ("SAHPI_LANG_GERMAN", "GERMAN");
    ("SAHPI_LANG_BHUTANI", "BHUTANI");
    ("SAHPI_LANG_GREEK", "GREEK");
    ("SAHPI_LANG_ENGLISH", "ENGLISH");
    ("SAHPI_LANG_ESPERANTO", "ESPERANTO");
    ("SAHPI_LANG_SPANISH", "SPANISH");
    ("SAHPI_LANG_ESTONIAN", "ESTONIAN");
    ("SAHPI_LANG_BASQUE", "BASQUE");
    ("SAHPI_LANG_PERSIAN", "PERSIAN");
    ("SAHPI_LANG_FINNISH", "FINNISH");
    ("SAHPI_LANG_FIJI", "FIJI");
    ("SAHPI_LANG_FAEROESE", "FAEROESE");
    ("SAHPI_LANG_FRENCH", "FRENCH");
    ("SAHPI_LANG_FRISIAN", "FRISIAN");
    ("SAHPI_LANG_IRISH", "IRISH");
    ("SAHPI_LANG_SCOTSGAELIC", "SCOTSGAELIC");
    ("SAHPI_LANG_GALICIAN", "GALICIAN");
    ("SAHPI_LANG_GUARANI", "GUARANI");
    ("SAHPI_LANG_GUJARATI", "GUJARATI");
    ("SAHPI_LANG_HAUSA", "HAUSA");
    ("SAHPI_LANG_HINDI", "HINDI");
    ("SAHPI_LANG_CROATIAN", "CROATIAN");
    ("SAHPI_LANG_HUNGARIAN", "HUNGARIAN");
    ("SAHPI_LANG_ARMENIAN", "ARMENIAN");
    ("SAHPI_LANG_INTERLINGUA", "INTERLINGUA");
    ("SAHPI_LANG_INTERLINGUE", "INTERLINGUE");
    ("SAHPI_LANG_INUPIAK", "INUPIAK");
    ("SAHPI_LANG_INDONESIAN", "INDONESIAN");
    ("SAHPI_LANG_ICELANDIC", "ICELANDIC");
    ("SAHPI_LANG_ITALIAN", "ITALIAN");
    ("SAHPI_LANG_HEBREW", "HEBREW");
    ("SAHPI_LANG_JAPANESE", "JAPANESE");
    ("SAHPI_LANG_YIDDISH", "YIDDISH");
    ("SAHPI_LANG_JAVANESE", "JAVANESE");
    ("SAHPI_LANG_GEORGIAN", "GEORGIAN");
    ("SAHPI_LANG_KAZAKH", "KAZAKH");
    ("SAHPI_LANG_GREENLANDIC", "GREENLANDIC");
    ("SAHPI_LANG_CAMBODIAN", "CAMBODIAN");
    ("SAHPI_LANG_KANNADA", "KANNADA");
    ("SAHPI_LANG_KOREAN", "KOREAN");
    ("SAHPI_LANG_KASHMIRI", "KASHMIRI");
    ("SAHPI_LANG_KURDISH", "KURDISH");
    ("SAHPI_LANG_KIRGHIZ", "KIRGHIZ");
    ("SAHPI_LANG_LATIN", "LATIN");
    ("SAHPI_LANG_LINGALA", "LINGALA");
    ("SAHPI_LANG_LAOTHIAN", "LAOTHIAN");
    ("SAHPI_LANG_LITHUANIAN", "LITHUANIAN");
    ("SAHPI_LANG_LATVIANLETTISH", "LATVIANLETTISH");
    ("SAHPI_LANG_MALAGASY", "MALAGASY");
    ("SAHPI_LANG_MAORI", "MAORI");
    ("SAHPI_LANG_MACEDONIAN", "MACEDONIAN");
    ("SAHPI_LANG_MALAYALAM", "MALAYALAM");
    ("SAHPI_LANG_MONGOLIAN", "MONGOLIAN");
    ("SAHPI_LANG_MOLDAVIAN", "MOLDAVIAN");
    ("SAHPI_LANG_MARATHI", "MARATHI");
    ("SAHPI_LANG_MALAY", "MALAY");
    ("SAHPI_LANG_MALTESE", "MALTESE");
    ("SAHPI_LANG_BURMESE", "BURMESE");
    ("SAHPI_LANG_NAURU", "NAURU");
    ("SAHPI_LANG_NEPALI", "NEPALI");
    ("SAHPI_LANG_DUTCH", "DUTCH");
    ("SAHPI_LANG_NORWEGIAN", "NORWEGIAN");
    ("SAHPI_LANG_OCCITAN", "OCCITAN");
    ("SAHPI_LANG_AFANOROMO", "AFANOROMO");
    ("SAHPI_LANG_ORIYA", "ORIYA");
    ("SAHPI_LANG_PUNJABI", "PUNJABI");
    ("SAHPI_LANG_POLISH", "POLISH");
    ("SAHPI_LANG_PASHTOPUSHTO", "PASHTOPUSHTO");
    ("SAHPI_LANG_PORTUGUESE", "PORTUGUESE");
    ("SAHPI_LANG_QUECHUA", "QUECHUA");
    ("SAHPI_LANG_RHAETOROMANCE", "RHAETOROMANCE");
    ("SAHPI_LANG_KIRUNDI", "KIRUNDI");
    ("SAHPI_LANG_ROMANIAN", "ROMANIAN");
    ("SAHPI_LANG_RUSSIAN", "RUSSIAN");
    ("SAHPI_LANG_KINYARWANDA", "KINYARWANDA");
    ("SAHPI_LANG_SANSKRIT", "SANSKRIT");
    ("SAHPI_LANG_SINDHI", "SINDHI");
    ("SAHPI_LANG_SANGRO", "SANGRO");
    ("SAHPI_LANG_SERBOCROATIAN", "SERBOCROATIAN");
    ("SAHPI_LANG_SINGHALESE", "SINGHALESE");
    ("SAHPI_LANG_SLOVAK", "SLOVAK");
    ("SAHPI_LANG_SLOVENIAN", "SLOVENIAN");
    ("SAHPI_LANG_SAMOAN", "SAMOAN");
    ("SAHPI_LANG_SHONA", "SHONA");
    ("SAHPI_LANG_SOMALI", "SOMALI");
    ("SAHPI_LANG_ALBANIAN", "ALBANIAN");
    ("SAHPI_LANG_SERBIAN", "SERBIAN");
    ("SAHPI_LANG_SISWATI", "SISWATI");
    ("SAHPI_LANG_SESOTHO", "SESOTHO");
    ("SAHPI_LANG_SUDANESE", "SUDANESE");
    ("SAHPI_LANG_SWEDISH", "SWEDISH");
    ("SAHPI_LANG_SWAHILI", "SWAHILI");
    ("SAHPI_LANG_TAMIL", "TAMIL");
    ("SAHPI_LANG_TELUGU", "TELUGU");
    ("SAHPI_LANG_TAJIK", "TAJIK");
    ("SAHPI_LANG_THAI", "THAI");
    ("SAHPI_LANG_TIGRINYA", "TIGRINYA");
    ("SAHPI_LANG_TURKMEN", "TURKMEN");
    ("SAHPI_LANG_TAGALOG", "TAGALOG");
    ("SAHPI_LANG_SETSWANA", "SETSWANA");
    ("SAHPI_LANG_TONGA", "TONGA");
    ("SAHPI_LANG_TURKISH", "TURKISH");
    ("SAHPI_LANG_TSONGA", "TSONGA");
    ("SAHPI_LANG_TATAR", "TATAR");
    ("SAHPI_LANG_TWI", "TWI");
    ("SAHPI_LANG_UKRAINIAN", "UKRAINIAN");
    ("SAHPI_LANG_URDU", "URDU");
    ("SAHPI_LANG_UZBEK", "UZBEK");
    ("SAHPI_LANG_VIETNAMESE", "VIETNAMESE");
    ("SAHPI_LANG_VOLAPUK", "VOLAPUK");
    ("SAHPI_LANG_WOLOF", "WOLOF");
    ("SAHPI_LANG_XHOSA", "XHOSA");
    ("SAHPI_LANG_YORUBA", "YORUBA");
    ("SAHPI_LANG_CHINESE", "CHINESE");
    ("SAHPI_LANG_ZULU", "ZULU")].

Definition oh_lookup_language (value : Z) : option string :=
  switch language_cases value None.

Definition oh_encode_language : option string -> option Z -> Z * option Z :=
  encode_name language_strings OH_MAX_LANGUAGE (fun _ type => (SA_ERR_HPI_INVALID_DATA, type)).

Definition SaHpiTextTypeT : list (string * Z) :=
  c_enum [("SAHPI_TL_TYPE_UNICODE", Some 0);
    ("SAHPI_TL_TYPE_BCDPLUS", None);
    ("SAHPI_TL_TYPE_ASCII6", None);
    ("SAHPI_TL_TYPE_TEXT", None);
    ("SAHPI_TL_TYPE_BINARY", None);
    ("SAHPI_TL_TYPE_MAX_VALID", Some 4)].

Definition texttype_strings : list (Z * string) := Eval vm_compute in
  names SaHpiTextTypeT [("SAHPI_TL_TYPE_UNICODE", "UNICODE");
    ("SAHPI_TL_TYPE_BCDPLUS", "BCDPLUS");
    ("SAHPI_TL_TYPE_ASCII6", "ASCII6");
    ("SAHPI_TL_TYPE_TEXT", "TEXT");
    ("SAHPI_TL_TYPE_BINARY", "BINARY")].

Definition OH_MAX_TEXTTYPE : nat := 5.

Definition texttype_cases : list (Z * string) := Eval vm_compute in
  names SaHpiTextTypeT [("SAHPI_TL_TYPE_UNICODE", "UNICODE");
    ("SAHPI_TL_TYPE_BCDPLUS", "BCDPLUS");
    ("SAHPI_TL_TYPE_ASCII6", "ASCII6");
    ("SAHPI_TL_TYPE_TEXT", "TEXT");
    ("SAHPI_TL_TYPE_BINARY", "BINARY")].

Definition oh_lookup_texttype (value : Z) : option string :=
  switch texttype_cases value None.

Definition oh_encode_texttype : option string -> option Z -> Z * option Z :=
  encode_name texttype_strings OH_MAX_TEXTTYPE (fun _ type => (SA_ERR_HPI_INVALID_DATA, type)).

Definition SaHpiEntityTypeT : list (string * Z) :=
  c_enum [("SAHPI_ENT_UNSPECIFIED", Some 0);
    ("SAHPI_ENT_OTHER", None);
    ("SAHPI_ENT_UNKNOWN", None);
    ("SAHPI_ENT_PROCESSOR", None);
    ("SAHPI_ENT_DISK_BAY", None);
    ("SAHPI_ENT_PERIPHERAL_BAY", None);
    ("SAHPI_ENT_SYS_MGMNT_MODULE", None);
    ("SAHPI_ENT_SYSTEM_BOARD", None);
    ("SAHPI_ENT_MEMORY_MODULE", None);
    ("SAHPI_ENT_PROCESSOR_MODULE", None);
    ("SAHPI_ENT_POWER_SUPPLY", None);
    ("SAHPI_ENT_ADD_IN_CARD", None);
    ("SAHPI_ENT_FRONT_PANEL_BOARD", None);
    ("SAHPI_ENT_BACK_PANEL_BOARD", None);
    ("SAHPI_ENT_POWER_SYSTEM_BOARD", None);
    ("SAHPI_ENT_DRIVE_BACKPLANE", None);
    ("SAHPI_ENT_SYS_EXPANSION_BOARD", None);
    ("SAHPI_ENT_OTHER_SYSTEM_BOARD", None);
    ("SAHPI_ENT_PROCESSOR_BOARD", None);
    ("SAHPI_ENT_POWER_UNIT", None);
    ("SAHPI_ENT_POWER_MODULE", None);
    ("SAHPI_ENT_POWER_MGMNT", None);
    ("SAHPI_ENT_CHASSIS_BACK_PANEL_BOARD", None);
    ("SAHPI_ENT_SYSTEM_CHASSIS", None);
    ("SAHPI_ENT_SUB_CHASSIS", None);
    ("SAHPI_ENT_OTHER_CHASSIS_BOARD", None);
    ("SAHPI_ENT_DISK_DRIVE_BAY", None);
    ("SAHPI_ENT_PERIPHERAL_BAY_2", None);
    ("SAHPI_ENT_DEVICE_BAY", None);
    ("SAHPI_ENT_COOLING_DEVICE", None);
    ("SAHPI_ENT_COOLING_UNIT", None);
    ("SAHPI_ENT_INTERCONNECT", None);
    ("SAHPI_ENT_MEMORY_DEVICE", None);
    ("SAHPI_ENT_SYS_MGMNT_SOFTWARE", None);
    ("SAHPI_ENT_BIOS", None);
    ("SAHPI_ENT_OPERATING_SYSTEM", None);
    ("SAHPI_ENT_SYSTEM_BUS", None);
    ("SAHPI_ENT_GROUP", None);
    ("SAHPI_ENT_REMOTE", None);
    ("SAHPI_ENT_EXTERNAL_ENVIRONMENT", None);
    ("SAHPI_ENT_BATTERY", None);
    ("SAHPI_ENT_RESERVED_1", None);
    ("SAHPI_ENT_RESERVED_2", None);
    ("SAHPI_ENT_RESERVED_3", None);
    ("SAHPI_ENT_RESERVED_4", None);
    ("SAHPI_ENT_RESERVED_5", None);
    ("SAHPI_ENT_PROCESSING_BLADE", Some 41);
    ("SAHPI_ENT_CONNECTIVITY_SWITCH", Some 42);
    ("SAHPI_ENT_PROCESSOR_MEMORY_MODULE", Some 43);
    ("SAHPI_ENT_IO_MODULE", Some 44);
    ("SAHPI_ENT_PROCESSOR_IO_MODULE", Some 45);
    ("SAHPI_ENT_MC_FIRMWARE", None);
    ("SAHPI_ENT_IPMI_CHANNEL", None);
    ("SAHPI_ENT_PCI_BUS", None);
    ("SAHPI_ENT_PCI_EXPRESS_BUS", None);
    ("SAHPI_ENT_SCSI_BUS", None);
    ("SAHPI_ENT_SATA_BUS", None);
    ("SAHPI_ENT_PROC_FSB", None);
    ("SAHPI_ENT_CLOCK", None);
    ("SAHPI_ENT_SYSTEM_FIRMWARE", None);
    ("SAHPI_ENT_CHASSIS_SPECIFIC", Some 144);
    ("SAHPI_ENT_CHASSIS_SPECIFIC01", None);
    ("SAHPI_ENT_CHASSIS_SPECIFIC02", None);
    ("SAHPI_ENT_CHASSIS_SPECIFIC03", None);
    ("SAHPI_ENT_CHASSIS_SPECIFIC04", None);
    ("SAHPI_ENT_CHASSIS_SPECIFIC05", None);
    ("SAHPI_ENT_CHASSIS_SPECIFIC06", None);
    ("SAHPI_ENT_CHASSIS_SPECIFIC07", None);
    ("SAHPI_ENT_CHASSIS_SPECIFIC08", None);
    ("SAHPI_ENT_CHASSIS_SPECIFIC09", None);
    ("SAHPI_ENT_CHASSIS_SPECIFIC10", None);
    ("SAHPI_ENT_CHASSIS_SPECIFIC11", None);
    ("SAHPI_ENT_CHASSIS_SPECIFIC12", None);
    ("SAHPI_ENT_CHASSIS_SPECIFIC13", None);
    ("SAHPI_ENT_BOARD_SET_SPECIFIC", Some 176);
    ("SAHPI_ENT_OEM_SYSINT_SPECIFIC", Some 208);
    ("SAHPI_ENT_ROOT", Some 65535);
    ("SAHPI_ENT_RACK", Some 65536);
    ("SAHPI_ENT_SUBRACK", None);
    ("SAHPI_ENT_COMPACTPCI_CHASSIS", None);
    ("SAHPI_ENT_ADVANCEDTCA_CHASSIS", None);
    ("SAHPI_ENT_RACK_MOUNTED_SERVER", None);
    ("SAHPI_ENT_SYSTEM_BLADE", None);
    ("SAHPI_ENT_SWITCH", None);
    ("SAHPI_ENT_SWITCH_BLADE", None);
    ("SAHPI_ENT_SBC_BLADE", None);
    ("SAHPI_ENT_IO_BLADE", None);
    ("SAHPI_ENT_DISK_BLADE", None);
    ("SAHPI_ENT_DISK_DRIVE", None);
    ("SAHPI_ENT_FAN", None);
    ("SAHPI_ENT_POWER_DISTRIBUTION_UNIT", None);
    ("SAHPI_ENT_SPEC_PROC_BLADE", None);
    ("SAHPI_ENT_IO_SUBBOARD", None);
    ("SAHPI_ENT_SBC_SUBBOARD", None);
    ("SAHPI_ENT_ALARM_MANAGER", None);
    ("SAHPI_ENT_SHELF_MANAGER", None);
    ("SAHPI_ENT_DISPLAY_PANEL", None);
    ("SAHPI_ENT_SUBBOARD_CARRIER_BLADE", None);
    ("SAHPI_ENT_PHYSICAL_SLOT", None);
    ("SAHPI_ENT_PICMG_FRONT_BLADE", None);
    ("SAHPI_ENT_SYSTEM_INVENTORY_DEVICE", None);
    ("SAHPI_ENT_FILTRATION_UNIT", None);
    ("SAHPI_ENT_AMC", None);
    ("SAHPI_ENT_BMC", Some 65584);
    ("SAHPI_ENT_IPMC", None);
    ("SAHPI_ENT_MMC", None);
    ("SAHPI_ENT_SHMC", None);
    ("SAHPI_ENT_CPLD", None);
    ("SAHPI_ENT_EPLD", None);
    ("SAHPI_ENT_FPGA", None);
    ("SAHPI_ENT_DASD", None);
    ("SAHPI_ENT_NIC", None);
    ("SAHPI_ENT_DSP", None);
    ("SAHPI_ENT_UCODE", None);
    ("SAHPI_ENT_NPU", None);
    ("SAHPI_ENT_OEM", None);
    ("SAHPI_ENT_INTERFACE", None);
    ("SAHPI_ENT_MICROTCA_CHASSIS", None);
    ("SAHPI_ENT_CARRIER", None);
    ("SAHPI_ENT_CARRIER_MANAGER", None);
    ("SAHPI_ENT_CONFIG_DATA", None);
    ("SAHPI_ENT_INDICATOR", None);
    ("SAHPI_ENT_MAX_VALID", Some 65602)].

Definition entitytype_strings : list (Z * string) := Eval vm_compute in
  names SaHpiEntityTypeT [("SAHPI_ENT_UNSPECIFIED", "UNSPECIFIED");
    ("SAHPI_ENT_OTHER", "OTHER");
    ("SAHPI_ENT_UNKNOWN", "UNKNOWN");
    ("SAHPI_ENT_PROCESSOR", "PROCESSOR");
    ("SAHPI_ENT_DISK_BAY", "DISK_BAY");
    ("SAHPI_ENT_PERIPHERAL_BAY", "PERIPHERAL_BAY");
    ("SAHPI_ENT_SYS_MGMNT_MODULE", "SYS_MGMNT_MODULE");
    ("SAHPI_ENT_SYSTEM_BOARD", "SYSTEM_BOARD");
    ("SAHPI_ENT_MEMORY_MODULE", "MEMORY_MODULE");
    ("SAHPI_ENT_PROCESSOR_MODULE", "PROCESSOR_MODULE");
    ("SAHPI_ENT_POWER_SUPPLY", "POWER_SUPPLY");
    ("SAHPI_ENT_ADD_IN_CARD", "ADD_IN_CARD");
    ("SAHPI_ENT_FRONT_PANEL_BOARD", "FRONT_PANEL_BOARD");
    ("SAHPI_ENT_BACK_PANEL_BOARD", "BACK_PANEL_BOARD");
    ("SAHPI_ENT_POWER_SYSTEM_BOARD", "POWER_SYSTEM_BOARD");
    ("SAHPI_ENT_DRIVE_BACKPLANE", "DRIVE_BACKPLANE");
    ("SAHPI_ENT_SYS_EXPANSION_BOARD", "SYS_EXPANSION_BOARD");
    ("SAHPI_ENT_OTHER_SYSTEM_BOARD", "OTHER_SYSTEM_BOARD");
    ("SAHPI_ENT_PROCESSOR_BOARD", "PROCESSOR_BOARD");
    ("SAHPI_ENT_POWER_UNIT", "POWER_UNIT");
    ("SAHPI_ENT_POWER_MODULE", "POWER_MODULE");
    ("SAHPI_ENT_POWER_MGMNT", "POWER_MGMNT");
    ("SAHPI_ENT_CHASSIS_BACK_PANEL_BOARD", "CHASSIS_BACK_PANEL_BOARD");
    ("SAHPI_ENT_SYSTEM_CHASSIS", "SYSTEM_CHASSIS");
    ("SAHPI_ENT_SUB_CHASSIS", "SUB_CHASSIS");
    ("SAHPI_ENT_OTHER_CHASSIS_BOARD", "OTHER_CHASSIS_BOARD");
    ("SAHPI_ENT_DISK_DRIVE_BAY", "DISK_DRIVE_BAY");
    ("SAHPI_ENT_PERIPHERAL_BAY_2", "PERIPHERAL_BAY_2");
    ("SAHPI_ENT_DEVICE_BAY", "DEVICE_BAY");
    ("SAHPI_ENT_COOLING_DEVICE", "COOLING_DEVICE");
    ("SAHPI_ENT_COOLING_UNIT", "COOLING_UNIT");
    ("SAHPI_ENT_INTERCONNECT", "INTERCONNECT");
    ("SAHPI_ENT_MEMORY_DEVICE", "MEMORY_DEVICE");
    ("SAHPI_ENT_SYS_MGMNT_SOFTWARE", "SYS_MGMNT_SOFTWARE");
    ("SAHPI_ENT_BIOS", "BIOS");
    ("SAHPI_ENT_OPERATING_SYSTEM", "OPERATING_SYSTEM");
    ("SAHPI_ENT_SYSTEM_BUS", "SYSTEM_BUS");
    ("SAHPI_ENT_GROUP", "GROUP");
    ("SAHPI_ENT_REMOTE", "REMOTE");
    ("SAHPI_ENT_EXTERNAL_ENVIRONMENT", "EXTERNAL_ENVIRONMENT");
    ("SAHPI_ENT_BATTERY", "BATTERY");
    ("SAHPI_ENT_PROCESSING_BLADE", "PROCESSING_BLADE");
    ("SAHPI_ENT_CONNECTIVITY_SWITCH", "CONNECTIVITY_SWITCH");
    ("SAHPI_ENT_PROCESSOR_MEMORY_MODULE", "PROCESSOR_MEMORY_MODULE");
    ("SAHPI_ENT_IO_MODULE", "IO_MODULE");
    ("SAHPI_ENT_PROCESSOR_IO_MODULE", "PROCESSOR_IO_MODULE");
    ("SAHPI_ENT_MC_FIRMWARE", "MC_FIRMWARE");
    ("SAHPI_ENT_IPMI_CHANNEL", "IPMI_CHANNEL");
    ("SAHPI_ENT_PCI_BUS", "PCI_BUS");
    ("SAHPI_ENT_PCI_EXPRESS_BUS", "PCI_EXPRESS_BUS");
    ("SAHPI_ENT_SCSI_BUS", "SCSI_BUS");
    ("SAHPI_ENT_SATA_BUS", "SATA_BUS");
    ("SAHPI_ENT_PROC_FSB", "PROC_FSB");
    ("SAHPI_ENT_CLOCK", "CLOCK");
    ("SAHPI_ENT_SYSTEM_FIRMWARE", "SYSTEM_FIRMWARE");
    ("SAHPI_ENT_CHASSIS_SPECIFIC", "CHASSIS_SPECIFIC");
    ("SAHPI_ENT_BOARD_SET_SPECIFIC", "BOARD_SET_SPECIFIC");
    ("SAHPI_ENT_OEM_SYSINT_SPECIFIC", "OEM_SYSINT_SPECIFIC");
    ("SAHPI_ENT_ROOT", "ROOT");
    ("SAHPI_ENT_RACK", "RACK");
    ("SAHPI_ENT_SUBRACK", "SUBRACK");
    ("SAHPI_ENT_COMPACTPCI_CHASSIS", "COMPACTPCI_CHASSIS");
    ("SAHPI_ENT_ADVANCEDTCA_CHASSIS", "ADVANCEDTCA_CHASSIS");
    ("SAHPI_ENT_RACK_MOUNTED_SERVER", "RACK_MOUNTED_SERVER");
    ("SAHPI_ENT_SYSTEM_BLADE", "SYSTEM_BLADE");
    ("SAHPI_ENT_SWITCH", "SWITCH");
    ("SAHPI_ENT_SWITCH_BLADE", "SWITCH_BLADE");
    ("SAHPI_ENT_SBC_BLADE", "SBC_BLADE");
    ("SAHPI_ENT_IO_BLADE", "IO_BLADE");
    ("SAHPI_ENT_DISK_BLADE", "DISK_BLADE");
    ("SAHPI_ENT_DISK_DRIVE", "DISK_DRIVE");
    ("SAHPI_ENT_FAN", "FAN");
    ("SAHPI_ENT_POWER_DISTRIBUTION_UNIT", "POWER_DISTRIBUTION_UNIT");
    ("SAHPI_ENT_SPEC_PROC_BLADE", "SPEC_PROC_BLADE");
    ("SAHPI_ENT_IO_SUBBOARD", "IO_SUBBOARD");
    ("SAHPI_ENT_SBC_SUBBOARD", "SBC_SUBBOARD");
    ("SAHPI_ENT_ALARM_MANAGER", "ALARM_MANAGER");
    ("SAHPI_ENT_SHELF_MANAGER", "SHELF_MANAGER");
    ("SAHPI_ENT_DISPLAY_PANEL", "DISPLAY_PANEL");
    ("SAHPI_ENT_SUBBOARD_CARRIER_BLADE", "SUBBOARD_CARRIER_BLADE");
    ("SAHPI_ENT_PHYSICAL_SLOT", "PHYSICAL_SLOT");
    ("SAHPI_ENT_PICMG_FRONT_BLADE", "PICMG_FRONT_BLADE");
    ("SAHPI_ENT_SYSTEM_INVENTORY_DEVICE", "SYSTEM_INVENTORY_DEVICE");
    ("SAHPI_ENT_FILTRATION_UNIT", "FILTRATION_UNIT");
    ("SAHPI_ENT_AMC", "AMC");
    ("SAHPI_ENT_BMC", "BMC");
    ("SAHPI_ENT_IPMC", "IPMC");
    ("SAHPI_ENT_MMC", "MMC");
    ("SAHPI_ENT_SHMC", "SHMC");
    ("SAHPI_ENT_CPLD", "CPLD");
    ("SAHPI_ENT_EPLD", "EPLD");
    ("SAHPI_ENT_FPGA", "FPGA");
    ("SAHPI_ENT_DASD", "DASD");
    ("SAHPI_ENT_NIC", "NIC");
    ("SAHPI_ENT_DSP", "DSP");
    ("SAHPI_ENT_UCODE", "UCODE");
    ("SAHPI_ENT_NPU", "NPU");
    ("SAHPI_ENT_OEM", "OEM");
    ("SAHPI_ENT_INTERFACE", "INTERFACE");
    ("SAHPI_ENT_MICROTCA_CHASSIS", "MICROTCA_CHASSIS");
    ("SAHPI_ENT_CARRIER", "CARRIER");
    ("SAHPI_ENT_CARRIER_MANAGER", "CARRIER_MANAGER");
    ("SAHPI_ENT_CONFIG_DATA", "CONFIG_DATA");
    ("SAHPI_ENT_INDICATOR", "INDICATOR")].

Definition OH_MAX_ENTITYTYPE : nat := 104.

Definition entitytype_cases : list (Z * string) := Eval vm_compute in
  names SaHpiEntityTypeT [("SAHPI_ENT_UNSPECIFIED", "UNSPECIFIED");
    ("SAHPI_ENT_OTHER", "OTHER");
    ("SAHPI_ENT_UNKNOWN", "UNKNOWN");
    ("SAHPI_ENT_PROCESSOR", "PROCESSOR");
    ("SAHPI_ENT_DISK_BAY", "DISK_BAY");
    ("SAHPI_ENT_PERIPHERAL_BAY", "PERIPHERAL_BAY");
    ("SAHPI_ENT_SYS_MGMNT_MODULE", "SYS_MGMNT_MODULE");
    ("SAHPI_ENT_SYSTEM_BOARD", "SYSTEM_BOARD");
    ("SAHPI_ENT_MEMORY_MODULE", "MEMORY_MODULE");
    ("SAHPI_ENT_PROCESSOR_MODULE", "PROCESSOR_MODULE");
    ("SAHPI_ENT_POWER_SUPPLY", "POWER_SUPPLY");
    ("SAHPI_ENT_ADD_IN_CARD", "ADD_IN_CARD");
    ("SAHPI_ENT_FRONT_PANEL_BOARD", "FRONT_PANEL_BOARD");
    ("SAHPI_ENT_BACK_PANEL_BOARD", "BACK_PANEL_BOARD");
    ("SAHPI_ENT_POWER_SYSTEM_BOARD", "POWER_SYSTEM_BOARD");
    ("SAHPI_ENT_DRIVE_BACKPLANE", "DRIVE_BACKPLANE");
    ("SAHPI_ENT_SYS_EXPANSION_BOARD", "SYS_EXPANSION_BOARD");
    ("SAHPI_ENT_OTHER_SYSTEM_BOARD", "OTHER_SYSTEM_BOARD");
    ("SAHPI_ENT_PROCESSOR_BOARD", "PROCESSOR_BOARD");
    ("SAHPI_ENT_POWER_UNIT", "POWER_UNIT");
    ("SAHPI_ENT_POWER_MODULE", "POWER_MODULE");
    ("SAHPI_ENT_POWER_MGMNT", "POWER_MGMNT");
    ("SAHPI_ENT_CHASSIS_BACK_PANEL_BOARD", "CHASSIS_BACK_PANEL_BOARD");
    ("SAHPI_ENT_SYSTEM_CHASSIS", "SYSTEM_CHASSIS");
    ("SAHPI_ENT_SUB_CHASSIS", "SUB_CHASSIS");
    ("SAHPI_ENT_OTHER_CHASSIS_BOARD", "OTHER_CHASSIS_BOARD");
    ("SAHPI_ENT_DISK_DRIVE_BAY", "DISK_DRIVE_BAY");
    ("SAHPI_ENT_PERIPHERAL_BAY_2", "PERIPHERAL_BAY_2");
    ("SAHPI_ENT_DEVICE_BAY", "DEVICE_BAY");
    ("SAHPI_ENT_COOLING_DEVICE", "COOLING_DEVICE");
    ("SAHPI_ENT_COOLING_UNIT", "COOLING_UNIT");
    ("SAHPI_ENT_INTERCONNECT", "INTERCONNECT");
    ("SAHPI_ENT_MEMORY_DEVICE", "MEMORY_DEVICE");
    ("SAHPI_ENT_SYS_MGMNT_SOFTWARE", "SYS_MGMNT_SOFTWARE");
    ("SAHPI_ENT_BIOS", "BIOS");
    ("SAHPI_ENT_OPERATING_SYSTEM", "OPERATING_SYSTEM");
    ("SAHPI_ENT_SYSTEM_BUS", "SYSTEM_BUS");
    ("SAHPI_ENT_GROUP", "GROUP");
    ("SAHPI_ENT_REMOTE", "REMOTE");
    ("SAHPI_ENT_EXTERNAL_ENVIRONMENT", "EXTERNAL_ENVIRONMENT");
    ("SAHPI_ENT_BATTERY", "BATTERY");
    ("SAHPI_ENT_PROCESSING_BLADE", "PROCESSING_BLADE");
    ("SAHPI_ENT_CONNECTIVITY_SWITCH", "CONNECTIVITY_SWITCH");
    ("SAHPI_ENT_PROCESSOR_MEMORY_MODULE", "PROCESSOR_MEMORY_MODULE");
    ("SAHPI_ENT_IO_MODULE", "IO_MODULE");
    ("SAHPI_ENT_PROCESSOR_IO_MODULE", "PROCESSOR_IO_MODULE");
    ("SAHPI_ENT_MC_FIRMWARE", "MC_FIRMWARE");
    ("SAHPI_ENT_IPMI_CHANNEL", "IPMI_CHANNEL");
    ("SAHPI_ENT_PCI_BUS", "PCI_BUS");
    ("SAHPI_ENT_PCI_EXPRESS_BUS", "PCI_EXPRESS_BUS");
    ("SAHPI_ENT_SCSI_BUS", "SCSI_BUS");
    ("SAHPI_ENT_SATA_BUS", "SATA_BUS");
    ("SAHPI_ENT_PROC_FSB", "PROC_FSB");
    ("SAHPI_ENT_CLOCK", "CLOCK");
    ("SAHPI_ENT_SYSTEM_FIRMWARE", "SYSTEM_FIRMWARE");
    ("SAHPI_ENT_CHASSIS_SPECIFIC", "CHASSIS_SPECIFIC");
    ("SAHPI_ENT_BOARD_SET_SPECIFIC", "BOARD_SET_SPECIFIC");
    ("SAHPI_ENT_OEM_SYSINT_SPECIFIC", "OEM_SYSINT_SPECIFIC");
    ("SAHPI_ENT_ROOT", "ROOT");
    ("SAHPI_ENT_RACK", "RACK");
    ("SAHPI_ENT_SUBRACK", "SUBRACK");
    ("SAHPI_ENT_COMPACTPCI_CHASSIS", "COMPACTPCI_CHASSIS");
    ("SAHPI_ENT_ADVANCEDTCA_CHASSIS", "ADVANCEDTCA_CHASSIS");
    ("SAHPI_ENT_RACK_MOUNTED_SERVER", "RACK_MOUNTED_SERVER");
    ("SAHPI_ENT_SYSTEM_BLADE", "SYSTEM_BLADE");
    ("SAHPI_ENT_SWITCH", "SWITCH");
    ("SAHPI_ENT_SWITCH_BLADE", "SWITCH_BLADE");
    ("SAHPI_ENT_SBC_BLADE", "SBC_BLADE");
    ("SAHPI_ENT_IO_BLADE", "IO_BLADE");
    ("SAHPI_ENT_DISK_BLADE", "DISK_BLADE");
    ("SAHPI_ENT_DISK_DRIVE", "DISK_DRIVE");
    ("SAHPI_ENT_FAN", "FAN");
    ("SAHPI_ENT_POWER_DISTRIBUTION_UNIT", "POWER_DISTRIBUTION_UNIT");
    ("SAHPI_ENT_SPEC_PROC_BLADE", "SPEC_PROC_BLADE");
    ("SAHPI_ENT_IO_SUBBOARD", "IO_SUBBOARD");
    ("SAHPI_ENT_SBC_SUBBOARD", "SBC_SUBBOARD");
    ("SAHPI_ENT_ALARM_MANAGER", "ALARM_MANAGER");
    ("SAHPI_ENT_SHELF_MANAGER", "SHELF_MANAGER");
    ("SAHPI_ENT_DISPLAY_PANEL", "DISPLAY_PANEL");
    ("SAHPI_ENT_SUBBOARD_CARRIER_BLADE", "SUBBOARD_CARRIER_BLADE");
    ("SAHPI_ENT_PHYSICAL_SLOT", "PHYSICAL_SLOT");
    ("SAHPI_ENT_PICMG_FRONT_BLADE", "PICMG_FRONT_BLADE");
    ("SAHPI_ENT_SYSTEM_INVENTORY_DEVICE", "SYSTEM_INVENTORY_DEVICE");
    ("SAHPI_ENT_FILTRATION_UNIT", "FILTRATION_UNIT");
    ("SAHPI_ENT_AMC", "AMC");
    ("SAHPI_ENT_BMC", "BMC");
    ("SAHPI_ENT_IPMC", "IPMC");
    ("SAHPI_ENT_MMC", "MMC");
    ("SAHPI_ENT_SHMC", "SHMC");
    ("SAHPI_ENT_CPLD", "CPLD");
    ("SAHPI_ENT_EPLD", "EPLD");
    ("SAHPI_ENT_FPGA", "FPGA");
    ("SAHPI_ENT_DASD", "DASD");
    ("SAHPI_ENT_NIC", "NIC");
    ("SAHPI_ENT_DSP", "DSP");
    ("SAHPI_ENT_UCODE", "UCODE");
    ("SAHPI_ENT_NPU", "NPU");
    ("SAHPI_ENT_OEM", "OEM");
    ("SAHPI_ENT_INTERFACE", "INTERFACE");
    ("SAHPI_ENT_MICROTCA_CHASSIS", "MICROTCA_CHASSIS");
    ("SAHPI_ENT_CARRIER", "CARRIER");
    ("SAHPI_ENT_CARRIER_MANAGER", "CARRIER_MANAGER");
    ("SAHPI_ENT_CONFIG_DATA", "CONFIG_DATA");
    ("SAHPI_ENT_INDICATOR", "INDICATOR")].

Definition oh_lookup_entitytype (value : Z) : option string :=
  switch entitytype_cases value (oh_lookup_xtcahpientitytype value).

Definition oh_encode_entitytype : option string -> option Z -> Z * option Z :=
  encode_name entitytype_strings OH_MAX_ENTITYTYPE oh_encode_xtcahpientitytype.

Definition SaHpiSensorTypeT : list (string * Z) :=
  c_enum [("SAHPI_TEMPERATURE", Some 1);
    ("SAHPI_VOLTAGE", None);
    ("SAHPI_CURRENT", None);
    ("SAHPI_FAN", None);
    ("SAHPI_PHYSICAL_SECURITY", None);
    ("SAHPI_PLATFORM_VIOLATION", None);
    ("SAHPI_PROCESSOR", None);
    ("SAHPI_POWER_SUPPLY", None);
    ("SAHPI_POWER_UNIT", None);
    ("SAHPI_COOLING_DEVICE", None);
    ("SAHPI_OTHER_UNITS_BASED_SENSOR", None);
    ("SAHPI_MEMORY", None);
    ("SAHPI_DRIVE_SLOT", None);
    ("SAHPI_POST_MEMORY_RESIZE", None);
    ("SAHPI_SYSTEM_FW_PROGRESS", None);
    ("SAHPI_EVENT_LOGGING_DISABLED", None);
    ("SAHPI_RESERVED1", None);
    ("SAHPI_SYSTEM_EVENT", None);
    ("SAHPI_CRITICAL_INTERRUPT", None);
    ("SAHPI_BUTTON", None);
    ("SAHPI_MODULE_BOARD", None);
    ("SAHPI_MICROCONTROLLER_COPROCESSOR", None);
    ("SAHPI_ADDIN_CARD", None);
    ("SAHPI_CHASSIS", None);
    ("SAHPI_CHIP_SET", None);
    ("SAHPI_OTHER_FRU", None);
    ("SAHPI_CABLE_INTERCONNECT", None);
    ("SAHPI_TERMINATOR", None);
    ("SAHPI_SYSTEM_BOOT_INITIATED", None);
    ("SAHPI_BOOT_ERROR", None);
    ("SAHPI_OS_BOOT", None);
    ("SAHPI_OS_CRITICAL_STOP", None);
    ("SAHPI_SLOT_CONNECTOR", None);
    ("SAHPI_SYSTEM_ACPI_POWER_STATE", None);
    ("SAHPI_RESERVED2", None);
    ("SAHPI_PLATFORM_ALERT", None);
    ("SAHPI_ENTITY_PRESENCE", None);
    ("SAHPI_MONITOR_ASIC_IC", None);
    ("SAHPI_LAN", None);
    ("SAHPI_MANAGEMENT_SUBSYSTEM_HEALTH", None);
    ("SAHPI_BATTERY", None);
    ("SAHPI_SESSION_AUDIT", None);
    ("SAHPI_VERSION_CHANGE", None);
    ("SAHPI_OPERATIONAL", Some 160);
    ("SAHPI_OEM_SENSOR", Some 192);
    ("SAHPI_COMM_CHANNEL_LINK_STATE", Some 65537);
    ("SAHPI_MANAGEMENT_BUS_STATE", None);
    ("SAHPI_COMM_CHANNEL_BUS_STATE", None);
    ("SAHPI_CONFIG_DATA", None);
    ("SAHPI_POWER_BUDGET", None);
    ("SAHPI_SENSOR_TYPE_MAX_VALID", Some 65541)].

Definition sensortype_strings : list (Z * string) := Eval vm_compute in
  names SaHpiSensorTypeT [("SAHPI_TEMPERATURE", "TEMPERATURE");
    ("SAHPI_VOLTAGE", "VOLTAGE");
    ("SAHPI_CURRENT", "CURRENT");
    ("SAHPI_FAN", "FAN");
    ("SAHPI_PHYSICAL_SECURITY", "PHYSICAL_SECURITY");
    ("SAHPI_PLATFORM_VIOLATION", "PLATFORM_VIOLATION");
    ("SAHPI_PROCESSOR", "PROCESSOR");
    ("SAHPI_POWER_SUPPLY", "POWER_SUPPLY");
    ("SAHPI_POWER_UNIT", "POWER_UNIT");
    ("SAHPI_COOLING_DEVICE", "COOLING_DEVICE");
    ("SAHPI_OTHER_UNITS_BASED_SENSOR", "OTHER_UNITS_BASED_SENSOR");
    ("SAHPI_MEMORY", "MEMORY");
    ("SAHPI_DRIVE_SLOT", "DRIVE_SLOT");
    ("SAHPI_POST_MEMORY_RESIZE", "POST_MEMORY_RESIZE");
    ("SAHPI_SYSTEM_FW_PROGRESS", "SYSTEM_FW_PROGRESS");
    ("SAHPI_EVENT_LOGGING_DISABLED", "EVENT_LOGGING_DISABLED");
    ("SAHPI_RESERVED1", "RESERVED1");
    ("SAHPI_SYSTEM_EVENT", "SYSTEM_EVENT");
    ("SAHPI_CRITICAL_INTERRUPT", "CRITICAL_INTERRUPT");
    ("SAHPI_BUTTON", "BUTTON");
    ("SAHPI_MODULE_BOARD", "MODULE_BOARD");
    ("SAHPI_MICROCONTROLLER_COPROCESSOR", "MICROCONTROLLER_COPROCESSOR");
    ("SAHPI_ADDIN_CARD", "ADDIN_CARD");
    ("SAHPI_CHASSIS", "CHASSIS");
    ("SAHPI_CHIP_SET", "CHIP_SET");
    ("SAHPI_OTHER_FRU", "OTHER_FRU");
    ("SAHPI_CABLE_INTERCONNECT", "CABLE_INTERCONNECT");
    ("SAHPI_TERMINATOR", "TERMINATOR");
    ("SAHPI_SYSTEM_BOOT_INITIATED", "SYSTEM_BOOT_INITIATED");
    ("SAHPI_BOOT_ERROR", "BOOT_ERROR");
    ("SAHPI_OS_BOOT", "OS_BOOT");
    ("SAHPI_OS_CRITICAL_STOP", "OS_CRITICAL_STOP");
    ("SAHPI_SLOT_CONNECTOR", "SLOT_CONNECTOR");
    ("SAHPI_SYSTEM_ACPI_POWER_STATE", "SYSTEM_ACPI_POWER_STATE");
    ("SAHPI_RESERVED2", "RESERVED2");
    ("SAHPI_PLATFORM_ALERT", "PLATFORM_ALERT");
    ("SAHPI_ENTITY_PRESENCE", "ENTITY_PRESENCE");
    ("SAHPI_MONITOR_ASIC_IC", "MONITOR_ASIC_IC");
    ("SAHPI_LAN", "LAN");
    ("SAHPI_MANAGEMENT_SUBSYSTEM_HEALTH", "MANAGEMENT_SUBSYSTEM_HEALTH");
    ("SAHPI_BATTERY", "BATTERY");
    ("SAHPI_SESSION_AUDIT", "SESSION_AUDIT");
    ("SAHPI_VERSION_CHANGE", "VERSION_CHANGE");
    ("SAHPI_OPERATIONAL", "OPERATIONAL");
    ("SAHPI_OEM_SENSOR", "OEM_SENSOR");
    ("SAHPI_COMM_CHANNEL_LINK_STATE", "COMM_CHANNEL_LINK_STATE");
    ("SAHPI_MANAGEMENT_BUS_STATE", "MANAGEMENT_BUS_STATE");
    ("SAHPI_COMM_CHANNEL_BUS_STATE", "COMM_CHANNEL_BUS_STATE");
    ("SAHPI_CONFIG_DATA", "CONFIG_DATA");
    ("SAHPI_POWER_BUDGET", "POWER_BUDGET")].

Definition OH_MAX_SENSORTYPE : nat := 50.

Definition sensortype_cases : list (Z * string) := Eval vm_compute in
  names SaHpiSensorTypeT [("SAHPI_TEMPERATURE", "TEMPERATURE");
    ("SAHPI_VOLTAGE", "VOLTAGE");
    ("SAHPI_CURRENT", "CURRENT");
    ("SAHPI_FAN", "FAN");
    ("SAHPI_PHYSICAL_SECURITY", "PHYSICAL_SECURITY");
    ("SAHPI_PLATFORM_VIOLATION", "PLATFORM_VIOLATION");
    ("SAHPI_PROCESSOR", "PROCESSOR");
    ("SAHPI_POWER_SUPPLY", "POWER_SUPPLY");
    ("SAHPI_POWER_UNIT", "POWER_UNIT");
    ("SAHPI_COOLING_DEVICE", "COOLING_DEVICE");
    ("SAHPI_OTHER_UNITS_BASED_SENSOR", "OTHER_UNITS_BASED_SENSOR");
    ("SAHPI_MEMORY", "MEMORY");
    ("SAHPI_DRIVE_SLOT", "DRIVE_SLOT");
    ("SAHPI_POST_MEMORY_RESIZE", "POST_MEMORY_RESIZE");
    ("SAHPI_SYSTEM_FW_PROGRESS", "SYSTEM_FW_PROGRESS");
    ("SAHPI_EVENT_LOGGING_DISABLED", "EVENT_LOGGING_DISABLED");
    ("SAHPI_RESERVED1", "RESERVED1");
    ("SAHPI_SYSTEM_EVENT", "SYSTEM_EVENT");
    ("SAHPI_CRITICAL_INTERRUPT", "CRITICAL_INTERRUPT");
    ("SAHPI_BUTTON", "BUTTON");
    ("SAHPI_MODULE_BOARD", "MODULE_BOARD");
    ("SAHPI_MICROCONTROLLER_COPROCESSOR", "MICROCONTROLLER_COPROCESSOR");
    ("SAHPI_ADDIN_CARD", "ADDIN_CARD");
    ("SAHPI_CHASSIS", "CHASSIS");
    ("SAHPI_CHIP_SET", "CHIP_SET");
    ("SAHPI_OTHER_FRU", "OTHER_FRU");
    ("SAHPI_CABLE_INTERCONNECT", "CABLE_INTERCONNECT");
    ("SAHPI_TERMINATOR", "TERMINATOR");
    ("SAHPI_SYSTEM_BOOT_INITIATED", "SYSTEM_BOOT_INITIATED");
    ("SAHPI_BOOT_ERROR", "BOOT_ERROR");
    ("SAHPI_OS_BOOT", "OS_BOOT");
    ("SAHPI_OS_CRITICAL_STOP", "OS_CRITICAL_STOP");
    ("SAHPI_SLOT_CONNECTOR", "SLOT_CONNECTOR");
    ("SAHPI_SYSTEM_ACPI_POWER_STATE", "SYSTEM_ACPI_POWER_STATE");
    ("SAHPI_RESERVED2", "RESERVED2");
    ("SAHPI_PLATFORM_ALERT", "PLATFORM_ALERT");
    ("SAHPI_ENTITY_PRESENCE", "ENTITY_PRESENCE");
    ("SAHPI_MONITOR_ASIC_IC", "MONITOR_ASIC_IC");
    ("SAHPI_LAN", "LAN");
    ("SAHPI_MANAGEMENT_SUBSYSTEM_HEALTH", "MANAGEMENT_SUBSYSTEM_HEALTH");
    ("SAHPI_BATTERY", "BATTERY");
    ("SAHPI_SESSION_AUDIT", "SESSION_AUDIT");
    ("SAHPI_VERSION_CHANGE", "VERSION_CHANGE");
    ("SAHPI_OPERATIONAL", "OPERATIONAL");
    ("SAHPI_COMM_CHANNEL_LINK_STATE", "COMM_CHANNEL_LINK_STATE");
    ("SAHPI_MANAGEMENT_BUS_STATE", "MANAGEMENT_BUS_STATE");
    ("SAHPI_COMM_CHANNEL_BUS_STATE", "COMM_CHANNEL_BUS_STATE");
    ("SAHPI_CONFIG_DATA", "CONFIG_DATA");
    ("SAHPI_POWER_BUDGET", "POWER_BUDGET")].

Definition oh_lookup_sensortype (value : Z) : option string :=
  if (value_of SaHpiSensorTypeT "SAHPI_OEM_SENSOR" <=? value)
     && (value <=? value_of SaHpiSensorTypeT "SAHPI_OEM_SENSOR" + 0x3F) then Some "OEM_SENSOR" else
  switch sensortype_cases value None.

Definition oh_encode_sensortype : option string -> option Z -> Z * option Z :=
  encode_name sensortype_strings OH_MAX_SENSORTYPE (fun _ type => (SA_ERR_HPI_INVALID_DATA, type)).

Definition SaHpiSensorReadingTypeT : list (string * Z) :=
  c_enum [("SAHPI_SENSOR_READING_TYPE_INT64", None);
    ("SAHPI_SENSOR_READING_TYPE_UINT64", None);
    ("SAHPI_SENSOR_READING_TYPE_FLOAT64", None);
    ("SAHPI_SENSOR_READING_TYPE_BUFFER", None);
    ("SAHPI_SENSOR_READING_TYPE_MAX_VALID", Some 3)].

Definition sensorreadingtype_strings : list (Z * string) := Eval vm_compute in
  names SaHpiSensorReadingTypeT [("SAHPI_SENSOR_READING_TYPE_INT64", "INT64");
    ("SAHPI_SENSOR_READING_TYPE_UINT64", "UINT64");
    ("SAHPI_SENSOR_READING_TYPE_FLOAT64", "FLOAT64");
    ("SAHPI_SENSOR_READING_TYPE_BUFFER", "BUFFER")].

Definition OH_MAX_SENSORREADINGTYPE : nat := 4.

Definition sensorreadingtype_cases : list (Z * string) := Eval vm_compute in
  names SaHpiSensorReadingTypeT [("SAHPI_SENSOR_READING_TYPE_INT64", "INT64");
    ("SAHPI_SENSOR_READING_TYPE_UINT64", "UINT64");
    ("SAHPI_SENSOR_READING_TYPE_FLOAT64", "FLOAT64");
    ("SAHPI_SENSOR_READING_TYPE_BUFFER", "BUFFER")].

Definition oh_lookup_sensorreadingtype (value : Z) : option string :=
  switch sensorreadingtype_cases value None.

Definition oh_encode_sensorreadingtype : option string -> option Z -> Z * option Z :=
  encode_name sensorreadingtype_strings OH_MAX_SENSORREADINGTYPE (fun _ type => (SA_ERR_HPI_INVALID_DATA, type)).

Definition SaHpiSensorEventMaskActionT : list (string * Z) :=
  c_enum [("SAHPI_SENS_ADD_EVENTS_TO_MASKS", None);
    ("SAHPI_SENS_REMOVE_EVENTS_FROM_MASKS", None);
    ("SAHPI_SENS_EVENT_MASK_ACTION_MAX_VALID", Some 1)].

Definition sensoreventmaskaction_strings : list (Z * string) := Eval vm_compute in
  names SaHpiSensorEventMaskActionT [("SAHPI_SENS_ADD_EVENTS_TO_MASKS", "ADD_EVENTS_TO_MASKS");
    ("SAHPI_SENS_REMOVE_EVENTS_FROM_MASKS", "REMOVE_EVENTS_FROM_MASKS")].

Definition OH_MAX_SENSOREVENTMASKACTION : nat := 2.

Definition sensoreventmaskaction_cases : list (Z * string) := Eval vm_compute in
  names SaHpiSensorEventMaskActionT [("SAHPI_SENS_ADD_EVENTS_TO_MASKS", "ADD_EVENTS_TO_MASKS");
    ("SAHPI_SENS_REMOVE_EVENTS_FROM_MASKS", "REMOVE_EVENTS_FROM_MASKS")].

Definition oh_lookup_sensoreventmaskaction (value : Z) : option string :=
  switch sensoreventmaskaction_cases value None.

Definition oh_encode_sensoreventmaskaction : option string -> option Z -> Z * option Z :=
  encode_name sensoreventmaskaction_strings OH_MAX_SENSOREVENTMASKACTION (fun _ type => (SA_ERR_HPI_INVALID_DATA, type)).

Definition SaHpiSensorUnitsT : list (string * Z) :=
  c_enum [("SAHPI_SU_UNSPECIFIED", Some 0);
    ("SAHPI_SU_DEGREES_C", None);
    ("SAHPI_SU_DEGREES_F", None);
    ("SAHPI_SU_DEGREES_K", None);
    ("SAHPI_SU_VOLTS", None);
    ("SAHPI_SU_AMPS", None);
    ("SAHPI_SU_WATTS", None);
    ("SAHPI_SU_JOULES", None);
    ("SAHPI_SU_COULOMBS", None);
    ("SAHPI_SU_VA", None);
    ("SAHPI_SU_NITS", None);
    ("SAHPI_SU_LUMEN", None);
    ("SAHPI_SU_LUX", None);
    ("SAHPI_SU_CANDELA", None);
    ("SAHPI_SU_KPA", None);
    ("SAHPI_SU_PSI", None);
    ("SAHPI_SU_NEWTON", None);
    ("SAHPI_SU_CFM", None);
    ("SAHPI_SU_RPM", None);
    ("SAHPI_SU_HZ", None);
    ("SAHPI_SU_MICROSECOND", None);
    ("SAHPI_SU_MILLISECOND", None);
    ("SAHPI_SU_SECOND", None);
    ("SAHPI_SU_MINUTE", None);
    ("SAHPI_SU_HOUR", None);
    ("SAHPI_SU_DAY", None);
    ("SAHPI_SU_WEEK", None);
    ("SAHPI_SU_MIL", None);
    ("SAHPI_SU_INCHES", None);
    ("SAHPI_SU_FEET", None);
    ("SAHPI_SU_CU_IN", None);
    ("SAHPI_SU_CU_FEET", None);
    ("SAHPI_SU_MM", None);
    ("SAHPI_SU_CM", None);
    ("SAHPI_SU_M", None);
    ("SAHPI_SU_CU_CM", None);
    ("SAHPI_SU_CU_M", None);
    ("SAHPI_SU_LITERS", None);
    ("SAHPI_SU_FLUID_OUNCE", None);
    ("SAHPI_SU_RADIANS", None);
    ("SAHPI_SU_STERADIANS", None);
    ("SAHPI_SU_REVOLUTIONS", None);
    ("SAHPI_SU_CYCLES", None);
    ("SAHPI_SU_GRAVITIES", None);
    ("SAHPI_SU_OUNCE", None);
    ("SAHPI_SU_POUND", None);
    ("SAHPI_SU_FT_LB", None);
    ("SAHPI_SU_OZ_IN", None);
    ("SAHPI_SU_GAUSS", None);
    ("SAHPI_SU_GILBERTS", None);
    ("SAHPI_SU_HENRY", None);
    ("SAHPI_SU_MILLIHENRY", None);
    ("SAHPI_SU_FARAD", None);
    ("SAHPI_SU_MICROFARAD", None);
    ("SAHPI_SU_OHMS", None);
    ("SAHPI_SU_SIEMENS", None);
    ("SAHPI_SU_MOLE", None);
    ("SAHPI_SU_BECQUEREL", None);
    ("SAHPI_SU_PPM", None);
    ("SAHPI_SU_RESERVED", None);
    ("SAHPI_SU_DECIBELS", None);
    ("SAHPI_SU_DBA", None);
    ("SAHPI_SU_DBC", None);
    ("SAHPI_SU_GRAY", None);
    ("SAHPI_SU_SIEVERT", None);
    ("SAHPI_SU_COLOR_TEMP_DEG_K", None);
    ("SAHPI_SU_BIT", None);
    ("SAHPI_SU_KILOBIT", None);
    ("SAHPI_SU_MEGABIT", None);
    ("SAHPI_SU_GIGABIT", None);
    ("SAHPI_SU_BYTE", None);
    ("SAHPI_SU_KILOBYTE", None);
    ("SAHPI_SU_MEGABYTE", None);
    ("SAHPI_SU_GIGABYTE", None);
    ("SAHPI_SU_WORD", None);
    ("SAHPI_SU_DWORD", None);
    ("SAHPI_SU_QWORD", None);
    ("SAHPI_SU_LINE", None);
    ("SAHPI_SU_HIT", None);
    ("SAHPI_SU_MISS", None);
    ("SAHPI_SU_RETRY", None);
    ("SAHPI_SU_RESET", None);
    ("SAHPI_SU_OVERRUN", None);
    ("SAHPI_SU_UNDERRUN", None);
    ("SAHPI_SU_COLLISION", None);
    ("SAHPI_SU_PACKETS", None);
    ("SAHPI_SU_MESSAGES", None);
    ("SAHPI_SU_CHARACTERS", None);
    ("SAHPI_SU_ERRORS", None);
    ("SAHPI_SU_CORRECTABLE_ERRORS", None);
    ("SAHPI_SU_UNCORRECTABLE_ERRORS", None);
    ("SAHPI_SU_MAX_VALID", Some 90)].

Definition sensorunits_strings : list (Z * string) := Eval vm_compute in
  names SaHpiSensorUnitsT [("SAHPI_SU_UNSPECIFIED", "Unspecified");
    ("SAHPI_SU_DEGREES_C", "Degrees C");
    ("SAHPI_SU_DEGREES_F", "Degrees F");
    ("SAHPI_SU_DEGREES_K", "Degrees K");
    ("SAHPI_SU_VOLTS", "Volts");
    ("SAHPI_SU_AMPS", "Amps");
    ("SAHPI_SU_WATTS", "Watts");
    ("SAHPI_SU_JOULES", "Joules");
    ("SAHPI_SU_COULOMBS", "Coulombs");
    ("SAHPI_SU_VA", "Va");
    ("SAHPI_SU_NITS", "Nits");
    ("SAHPI_SU_LUMEN", "Lumen");
    ("SAHPI_SU_LUX", "Lux");
    ("SAHPI_SU_CANDELA", "Candela");
    ("SAHPI_SU_KPA", "Kpa");
    ("SAHPI_SU_PSI", "Psi");
    ("SAHPI_SU_NEWTON", "Newton");
    ("SAHPI_SU_CFM", "Cfm");
    ("SAHPI_SU_RPM", "Rpm");
    ("SAHPI_SU_HZ", "Hz");
    ("SAHPI_SU_MICROSECOND", "Microsecond");
    ("SAHPI_SU_MILLISECOND", "Millisecond");
    ("SAHPI_SU_SECOND", "Second");
    ("SAHPI_SU_MINUTE", "Minute");
    ("SAHPI_SU_HOUR", "Hour");
    ("SAHPI_SU_DAY", "Day");
    ("SAHPI_SU_WEEK", "Week");
    ("SAHPI_SU_MIL", "Mil");
    ("SAHPI_SU_INCHES", "Inches");
    ("SAHPI_SU_FEET", "Feet");
    ("SAHPI_SU_CU_IN", "Cu In");
    ("SAHPI_SU_CU_FEET", "Cu Feet");
    ("SAHPI_SU_MM", "Mm");
    ("SAHPI_SU_CM", "Cm");
    ("SAHPI_SU_M", "M");
    ("SAHPI_SU_CU_CM", "Cu Cm");
    ("SAHPI_SU_CU_M", "Cu M");
    ("SAHPI_SU_LITERS", "Liters");
    ("SAHPI_SU_FLUID_OUNCE", "Fluid Ounce");
    ("SAHPI_SU_RADIANS", "Radians");
    ("SAHPI_SU_STERADIANS", "Steradians");
    ("SAHPI_SU_REVOLUTIONS", "Revolutions");
    ("SAHPI_SU_CYCLES", "Cycles");
    ("SAHPI_SU_GRAVITIES", "Gravities");
    ("SAHPI_SU_OUNCE", "Ounce");
    ("SAHPI_SU_POUND", "Pound");
    ("SAHPI_SU_FT_LB", "Ft Lb");
    ("SAHPI_SU_OZ_IN", "Oz In");
    ("SAHPI_SU_GAUSS", "Gauss");
    ("SAHPI_SU_GILBERTS", "Gilberts");
    ("SAHPI_SU_HENRY", "Henry");
    ("SAHPI_SU_MILLIHENRY", "Millihenry");
    ("SAHPI_SU_FARAD", "Farad");
    ("SAHPI_SU_MICROFARAD", "Microfarad");
    ("SAHPI_SU_OHMS", "Ohms");
    ("SAHPI_SU_SIEMENS", "Siemens");
    ("SAHPI_SU_MOLE", "Mole");
    ("SAHPI_SU_BECQUEREL", "Becquerel");
    ("SAHPI_SU_PPM", "Ppm");
    ("SAHPI_SU_RESERVED", "Reserved");
    ("SAHPI_SU_DECIBELS", "Decibels");
    ("SAHPI_SU_DBA", "Dba");
    ("SAHPI_SU_DBC", "Dbc");
    ("SAHPI_SU_GRAY", "Gray");
    ("SAHPI_SU_SIEVERT", "Sievert");
    ("SAHPI_SU_COLOR_TEMP_DEG_K", "Color Temp Deg K");
    ("SAHPI_SU_BIT", "Bit");
    ("SAHPI_SU_KILOBIT", "Kilobit");
    ("SAHPI_SU_MEGABIT", "Megabit");
    ("SAHPI_SU_GIGABIT", "Gigabit");
    ("SAHPI_SU_BYTE", "Byte");
    ("SAHPI_SU_KILOBYTE", "Kilobyte");
    ("SAHPI_SU_MEGABYTE", "Megabyte");
    ("SAHPI_SU_GIGABYTE", "Gigabyte");
    ("SAHPI_SU_WORD", "Word");
    ("SAHPI_SU_DWORD", "Dword");
    ("SAHPI_SU_QWORD", "Qword");
    ("SAHPI_SU_LINE", "Line");
    ("SAHPI_SU_HIT", "Hit");
    ("SAHPI_SU_MISS", "Miss");
    ("SAHPI_SU_RETRY", "Retry");
    ("SAHPI_SU_RESET", "Reset");
    ("SAHPI_SU_OVERRUN", "Overrun");
    ("SAHPI_SU_UNDERRUN", "Underrun");
    ("SAHPI_SU_COLLISION", "Collision");
    ("SAHPI_SU_PACKETS", "Packets");
    ("SAHPI_SU_MESSAGES", "Messages");
    ("SAHPI_SU_CHARACTERS", "Characters");
    ("SAHPI_SU_ERRORS", "Errors");
    ("SAHPI_SU_CORRECTABLE_ERRORS", "Correctable Errors");
    ("SAHPI_SU_UNCORRECTABLE_ERRORS", "Uncorrectable Errors")].

Definition OH_MAX_SENSORUNITS : nat := 91.

Definition sensorunits_cases : list (Z * string) := Eval vm_compute in
  names SaHpiSensorUnitsT [("SAHPI_SU_UNSPECIFIED", "Unspecified");
    ("SAHPI_SU_DEGREES_C", "Degrees C");
    ("SAHPI_SU_DEGREES_F", "Degrees F");
    ("SAHPI_SU_DEGREES_K", "Degrees K");
    ("SAHPI_SU_VOLTS", "Volts");
    ("SAHPI_SU_AMPS", "Amps");
    ("SAHPI_SU_WATTS", "Watts");
    ("SAHPI_SU_JOULES", "Joules");
    ("SAHPI_SU_COULOMBS", "Coulombs");
    ("SAHPI_SU_VA", "Va");
    ("SAHPI_SU_NITS", "Nits");
    ("SAHPI_SU_LUMEN", "Lumen");
    ("SAHPI_SU_LUX", "Lux");
    ("SAHPI_SU_CANDELA", "Candela");
    ("SAHPI_SU_KPA", "Kpa");
    ("SAHPI_SU_PSI", "Psi");
    ("SAHPI_SU_NEWTON", "Newton");
    ("SAHPI_SU_CFM", "Cfm");
    ("SAHPI_SU_RPM", "Rpm");
    ("SAHPI_SU_HZ", "Hz");
    ("SAHPI_SU_MICROSECOND", "Microsecond");
    ("SAHPI_SU_MILLISECOND", "Millisecond");
    ("SAHPI_SU_SECOND", "Second");
    ("SAHPI_SU_MINUTE", "Minute");
    ("SAHPI_SU_HOUR", "Hour");
    ("SAHPI_SU_DAY", "Day");
    ("SAHPI_SU_WEEK", "Week");
    ("SAHPI_SU_MIL", "Mil");
    ("SAHPI_SU_INCHES", "Inches");
    ("SAHPI_SU_FEET", "Feet");
    ("SAHPI_SU_CU_IN", "Cu In");
    ("SAHPI_SU_CU_FEET", "Cu Feet");
    ("SAHPI_SU_MM", "Mm");
    ("SAHPI_SU_CM", "Cm");
    ("SAHPI_SU_M", "M");
    ("SAHPI_SU_CU_CM", "Cu Cm");
    ("SAHPI_SU_CU_M", "Cu M");
    ("SAHPI_SU_LITERS", "Liters");
    ("SAHPI_SU_FLUID_OUNCE", "Fluid Ounce");
    ("SAHPI_SU_RADIANS", "Radians");
    ("SAHPI_SU_STERADIANS", "Steradians");
    ("SAHPI_SU_REVOLUTIONS", "Revolutions");
    ("SAHPI_SU_CYCLES", "Cycles");
    ("SAHPI_SU_GRAVITIES", "Gravities");
    ("SAHPI_SU_OUNCE", "Ounce");
    ("SAHPI_SU_POUND", "Pound");
    ("SAHPI_SU_FT_LB", "Ft Lb");
    ("SAHPI_SU_OZ_IN", "Oz In");
    ("SAHPI_SU_GAUSS", "Gauss");
    ("SAHPI_SU_GILBERTS", "Gilberts");
    ("SAHPI_SU_HENRY", "Henry");
    ("SAHPI_SU_MILLIHENRY", "Millihenry");
    ("SAHPI_SU_FARAD", "Farad");
    ("SAHPI_SU_MICROFARAD", "Microfarad");
    ("SAHPI_SU_OHMS", "Ohms");
    ("SAHPI_SU_SIEMENS", "Siemens");
    ("SAHPI_SU_MOLE", "Mole");
    ("SAHPI_SU_BECQUEREL", "Becquerel");
    ("SAHPI_SU_PPM", "Ppm");
    ("SAHPI_SU_RESERVED", "Reserved");
    ("SAHPI_SU_DECIBELS", "Decibels");
    ("SAHPI_SU_DBA", "Dba");
    ("SAHPI_SU_DBC", "Dbc");
    ("SAHPI_SU_GRAY", "Gray");
    ("SAHPI_SU_SIEVERT", "Sievert");
    ("SAHPI_SU_COLOR_TEMP_DEG_K", "Color Temp Deg K");
    ("SAHPI_SU_BIT", "Bit");
    ("SAHPI_SU_KILOBIT", "Kilobit");
    ("SAHPI_SU_MEGABIT", "Megabit");
    ("SAHPI_SU_GIGABIT", "Gigabit");
    ("SAHPI_SU_BYTE", "Byte");
    ("SAHPI_SU_KILOBYTE", "Kilobyte");
    ("SAHPI_SU_MEGABYTE", "Megabyte");
    ("SAHPI_SU_GIGABYTE", "Gigabyte");
    ("SAHPI_SU_WORD", "Word");
    ("SAHPI_SU_DWORD", "Dword");
    ("SAHPI_SU_QWORD", "Qword");
    ("SAHPI_SU_LINE", "Line");
    ("SAHPI_SU_HIT", "Hit");
    ("SAHPI_SU_MISS", "Miss");
    ("SAHPI_SU_RETRY", "Retry");
    ("SAHPI_SU_RESET", "Reset");
    ("SAHPI_SU_OVERRUN", "Overrun");
    ("SAHPI_SU_UNDERRUN", "Underrun");
    ("SAHPI_SU_COLLISION", "Collision");
    ("SAHPI_SU_PACKETS", "Packets");
    ("SAHPI_SU_MESSAGES", "Messages");
    ("SAHPI_SU_CHARACTERS", "Characters");
    ("SAHPI_SU_ERRORS", "Errors");
    ("SAHPI_SU_CORRECTABLE_ERRORS", "Correctable Errors");
    ("SAHPI_SU_UNCORRECTABLE_ERRORS", "Uncorrectable Errors")].

Definition oh_lookup_sensorunits (value : Z) : option string :=
  switch sensorunits_cases value None.

Definition oh_encode_sensorunits : option string -> option Z -> Z * option Z :=
  encode_name sensorunits_strings OH_MAX_SENSORUNITS (fun _ type => (SA_ERR_HPI_INVALID_DATA, type)).

Definition SaHpiSensorModUnitUseT : list (string * Z) :=
  c_enum [("SAHPI_SMUU_NONE", Some 0);
    ("SAHPI_SMUU_BASIC_OVER_MODIFIER", None);
    ("SAHPI_SMUU_BASIC_TIMES_MODIFIER", None);
    ("SAHPI_SMUU_MAX_VALID", Some 2)].

Definition sensormodunituse_strings : list (Z * string) := Eval vm_compute in
  names SaHpiSensorModUnitUseT [("SAHPI_SMUU_NONE", "NONE");
    ("SAHPI_SMUU_BASIC_OVER_MODIFIER", "BASIC_OVER_MODIFIER");
    ("SAHPI_SMUU_BASIC_TIMES_MODIFIER", "BASIC_TIMES_MODIFIER")].

Definition OH_MAX_SENSORMODUNITUSE : nat := 3.

Definition sensormodunituse_cases : list (Z * string) := Eval vm_compute in
  names SaHpiSensorModUnitUseT [("SAHPI_SMUU_NONE", "NONE");
    ("SAHPI_SMUU_BASIC_OVER_MODIFIER", "BASIC_OVER_MODIFIER");
    ("SAHPI_SMUU_BASIC_TIMES_MODIFIER", "BASIC_TIMES_MODIFIER")].

Definition oh_lookup_sensormodunituse (value : Z) : option string :=
  switch sensormodunituse_cases value None.

Definition oh_encode_sensormodunituse : option string -> option Z -> Z * option Z :=
  encode_name sensormodunituse_strings OH_MAX_SENSORMODUNITUSE (fun _ type => (SA_ERR_HPI_INVALID_DATA, type)).

Definition SaHpiSensorEventCtrlT : list (string * Z) :=
  c_enum [("SAHPI_SEC_PER_EVENT", Some 0);
    ("SAHPI_SEC_READ_ONLY_MASKS", None);
    ("SAHPI_SEC_READ_ONLY", None);
    ("SAHPI_SEC_MAX_VALID", Some 2)].

Definition sensoreventctrl_strings : list (Z * string) := Eval vm_compute in
  names SaHpiSensorEventCtrlT [("SAHPI_SEC_PER_EVENT", "PER_EVENT");
    ("SAHPI_SEC_READ_ONLY_MASKS", "READ_ONLY_MASKS");
    ("SAHPI_SEC_READ_ONLY", "READ_ONLY")].

Definition OH_MAX_SENSOREVENTCTRL : nat := 3.

Definition sensoreventctrl_cases : list (Z * string) := Eval vm_compute in
  names SaHpiSensorEventCtrlT [("SAHPI_SEC_PER_EVENT", "PER_EVENT");
    ("SAHPI_SEC_READ_ONLY_MASKS", "READ_ONLY_MASKS");
    ("SAHPI_SEC_READ_ONLY", "READ_ONLY")].

Definition oh_lookup_sensoreventctrl (value : Z) : option string :=
  switch sensoreventctrl_cases value None.

Definition oh_encode_sensoreventctrl : option string -> option Z -> Z * option Z :=
  encode_name sensoreventctrl_strings OH_MAX_SENSOREVENTCTRL (fun _ type => (SA_ERR_HPI_INVALID_DATA, type)).

Definition SaHpiCtrlTypeT : list (string * Z) :=
  c_enum [("SAHPI_CTRL_TYPE_DIGITAL", Some 0);
    ("SAHPI_CTRL_TYPE_DISCRETE", None);
    ("SAHPI_CTRL_TYPE_ANALOG", None);
    ("SAHPI_CTRL_TYPE_STREAM", None);
    ("SAHPI_CTRL_TYPE_TEXT", None);
    ("SAHPI_CTRL_TYPE_OEM", Some 192);
    ("SAHPI_CTRL_TYPE_MAX_VALID", Some 192)].

Definition ctrltype_strings : list (Z * string) := Eval vm_compute in
  names SaHpiCtrlTypeT [("SAHPI_CTRL_TYPE_DIGITAL", "DIGITAL");
    ("SAHPI_CTRL_TYPE_DISCRETE", "DISCRETE");
    ("SAHPI_CTRL_TYPE_ANALOG", "ANALOG");
    ("SAHPI_CTRL_TYPE_STREAM", "STREAM");
    ("SAHPI_CTRL_TYPE_TEXT", "TEXT");
    ("SAHPI_CTRL_TYPE_OEM", "OEM")].

Definition OH_MAX_CTRLTYPE : nat := 6.

Definition ctrltype_cases : list (Z * string) := Eval vm_compute in
  names SaHpiCtrlTypeT [("SAHPI_CTRL_TYPE_DIGITAL", "DIGITAL");
    ("SAHPI_CTRL_TYPE_DISCRETE", "DISCRETE");
    ("SAHPI_CTRL_TYPE_ANALOG", "ANALOG");
    ("SAHPI_CTRL_TYPE_STREAM", "STREAM");
    ("SAHPI_CTRL_TYPE_TEXT", "TEXT");
    ("SAHPI_CTRL_TYPE_OEM", "OEM")].

Definition oh_lookup_ctrltype (value : Z) : option string :=
  switch ctrltype_cases value None.

Definition oh_encode_ctrltype : option string -> option Z -> Z * option Z :=
  encode_name ctrltype_strings OH_MAX_CTRLTYPE (fun _ type => (SA_ERR_HPI_INVALID_DATA, type)).

Definition SaHpiCtrlStateDigitalT : list (string * Z) :=
  c_enum [("SAHPI_CTRL_STATE_OFF", Some 0);
    ("SAHPI_CTRL_STATE_ON", None);
    ("SAHPI_CTRL_STATE_PULSE_OFF", None);
    ("SAHPI_CTRL_STATE_PULSE_ON", None);
    ("SAHPI_CTRL_STATE_MAX_VALID", Some 3)].

Definition ctrlstatedigital_strings : list (Z * string) := Eval vm_compute in
  names SaHpiCtrlStateDigitalT [("SAHPI_CTRL_STATE_OFF", "OFF");
    ("SAHPI_CTRL_STATE_ON", "ON");
    ("SAHPI_CTRL_STATE_PULSE_OFF", "PULSE_OFF");
    ("SAHPI_CTRL_STATE_PULSE_ON", "PULSE_ON")].

Definition OH_MAX_CTRLSTATEDIGITAL : nat := 4.

Definition ctrlstatedigital_cases : list (Z * string) := Eval vm_compute in
  names SaHpiCtrlStateDigitalT [("SAHPI_CTRL_STATE_OFF", "OFF");
    ("SAHPI_CTRL_STATE_ON", "ON");
    ("SAHPI_CTRL_STATE_PULSE_OFF", "PULSE_OFF");
    ("SAHPI_CTRL_STATE_PULSE_ON", "PULSE_ON")].

Definition oh_lookup_ctrlstatedigital (value : Z) : option string :=
  switch ctrlstatedigital_cases value None.

Definition oh_encode_ctrlstatedigital : option string -> option Z -> Z * option Z :=
  encode_name ctrlstatedigital_strings OH_MAX_CTRLSTATEDIGITAL (fun _ type => (SA_ERR_HPI_INVALID_DATA, type)).

Definition SaHpiCtrlModeT : list (string * Z) :=
  c_enum [("SAHPI_CTRL_MODE_AUTO", None);
    ("SAHPI_CTRL_MODE_MANUAL", None);
    ("SAHPI_CTRL_MODE_MAX_VALID", Some 1)].

Definition ctrlmode_strings : list (Z * string) := Eval vm_compute in
  names SaHpiCtrlModeT [("SAHPI_CTRL_MODE_AUTO", "AUTO");
    ("SAHPI_CTRL_MODE_MANUAL", "MANUAL")].

Definition OH_MAX_CTRLMODE : nat := 2.

Definition ctrlmode_cases : list (Z * string) := Eval vm_compute in
  names SaHpiCtrlModeT [("SAHPI_CTRL_MODE_AUTO", "AUTO");
    ("SAHPI_CTRL_MODE_MANUAL", "MANUAL")].

Definition oh_lookup_ctrlmode (value : Z) : option string :=
  switch ctrlmode_cases value None.

Definition oh_encode_ctrlmode : option string -> option Z -> Z * option Z :=
  encode_name ctrlmode_strings OH_MAX_CTRLMODE (fun _ type => (SA_ERR_HPI_INVALID_DATA, type)).

Definition SaHpiCtrlOutputTypeT : list (string * Z) :=
  c_enum [("SAHPI_CTRL_GENERIC", Some 0);
    ("SAHPI_CTRL_LED", None);
    ("SAHPI_CTRL_FAN_SPEED", None);
    ("SAHPI_CTRL_DRY_CONTACT_CLOSURE", None);
    ("SAHPI_CTRL_POWER_SUPPLY_INHIBIT", None);
    ("SAHPI_CTRL_AUDIBLE", None);
    ("SAHPI_CTRL_FRONT_PANEL_LOCKOUT", None);
    ("SAHPI_CTRL_POWER_INTERLOCK", None);
    ("SAHPI_CTRL_POWER_STATE", None);
    ("SAHPI_CTRL_LCD_DISPLAY", None);
    ("SAHPI_CTRL_OEM", None);
    ("SAHPI_CTRL_GENERIC_ADDRESS", None);
    ("SAHPI_CTRL_IP_ADDRESS", None);
    ("SAHPI_CTRL_RESOURCE_ID", None);
    ("SAHPI_CTRL_POWER_BUDGET", None);
    ("SAHPI_CTRL_ACTIVATE", None);
    ("SAHPI_CTRL_RESET", None);
    ("SAHPI_CTRL_OUTPUT_TYPE_MAX_VALID", Some 16)].

Definition ctrloutputtype_strings : list (Z * string) := Eval vm_compute in
  names SaHpiCtrlOutputTypeT [("SAHPI_CTRL_GENERIC", "GENERIC");
    ("SAHPI_CTRL_LED", "LED");
    ("SAHPI_CTRL_FAN_SPEED", "FAN_SPEED");
    ("SAHPI_CTRL_DRY_CONTACT_CLOSURE", "DRY_CONTACT_CLOSURE");
    ("SAHPI_CTRL_POWER_SUPPLY_INHIBIT", "POWER_SUPPLY_INHIBIT");
    ("SAHPI_CTRL_AUDIBLE", "AUDIBLE");
    ("SAHPI_CTRL_FRONT_PANEL_LOCKOUT", "FRONT_PANEL_LOCKOUT");
    ("SAHPI_CTRL_POWER_INTERLOCK", "POWER_INTERLOCK");
    ("SAHPI_CTRL_POWER_STATE", "POWER_STATE");
    ("SAHPI_CTRL_LCD_DISPLAY", "LCD_DISPLAY");
    ("SAHPI_CTRL_OEM", "OEM");
    ("SAHPI_CTRL_GENERIC_ADDRESS", "GENERIC_ADDRESS");
    ("SAHPI_CTRL_IP_ADDRESS", "IP_ADDRESS");
    ("SAHPI_CTRL_RESOURCE_ID", "RESOURCE_ID");
    ("SAHPI_CTRL_POWER_BUDGET", "POWER_BUDGET");
    ("SAHPI_CTRL_ACTIVATE", "ACTIVATE");
    ("SAHPI_CTRL_RESET", "RESET")].

Definition OH_MAX_CTRLOUTPUTTYPE : nat := 17.

Definition ctrloutputtype_cases : list (Z * string) := Eval vm_compute in
  names SaHpiCtrlOutputTypeT [("SAHPI_CTRL_GENERIC", "GENERIC");
    ("SAHPI_CTRL_LED", "LED");
    ("SAHPI_CTRL_FAN_SPEED", "FAN_SPEED");
    ("SAHPI_CTRL_DRY_CONTACT_CLOSURE", "DRY_CONTACT_CLOSURE");
    ("SAHPI_CTRL_POWER_SUPPLY_INHIBIT", "POWER_SUPPLY_INHIBIT");
    ("SAHPI_CTRL_AUDIBLE", "AUDIBLE");
    ("SAHPI_CTRL_FRONT_PANEL_LOCKOUT", "FRONT_PANEL_LOCKOUT");
    ("SAHPI_CTRL_POWER_INTERLOCK", "POWER_INTERLOCK");
    ("SAHPI_CTRL_POWER_STATE", "POWER_STATE");
    ("SAHPI_CTRL_LCD_DISPLAY", "LCD_DISPLAY");
    ("SAHPI_CTRL_OEM", "OEM");
    ("SAHPI_CTRL_GENERIC_ADDRESS", "GENERIC_ADDRESS");
    ("SAHPI_CTRL_IP_ADDRESS", "IP_ADDRESS");
    ("SAHPI_CTRL_RESOURCE_ID", "RESOURCE_ID");
    ("SAHPI_CTRL_POWER_BUDGET", "POWER_BUDGET");
    ("SAHPI_CTRL_ACTIVATE", "ACTIVATE");
    ("SAHPI_CTRL_RESET", "RESET")].

Definition oh_lookup_ctrloutputtype (value : Z) : option string :=
  switch ctrloutputtype_cases value None.

Definition oh_encode_ctrloutputtype : option string -> option Z -> Z * option Z :=
  encode_name ctrloutputtype_strings OH_MAX_CTRLOUTPUTTYPE (fun _ type => (SA_ERR_HPI_INVALID_DATA, type)).

Definition SaHpiIdrAreaTypeT : list (string * Z) :=
  c_enum [("SAHPI_IDR_AREATYPE_INTERNAL_USE", Some 176);
    ("SAHPI_IDR_AREATYPE_CHASSIS_INFO", None);
    ("SAHPI_IDR_AREATYPE_BOARD_INFO", None);
    ("SAHPI_IDR_AREATYPE_PRODUCT_INFO", None);
    ("SAHPI_IDR_AREATYPE_OEM", Some 192);
    ("SAHPI_IDR_AREATYPE_UNSPECIFIED", Some 255);
    ("SAHPI_IDR_AREATYPE_MAX_VALID", Some 255)].

Definition idrareatype_strings : list (Z * string) := Eval vm_compute in
  names SaHpiIdrAreaTypeT [("SAHPI_IDR_AREATYPE_INTERNAL_USE", "INTERNAL_USE");
    ("SAHPI_IDR_AREATYPE_CHASSIS_INFO", "CHASSIS_INFO");
    ("SAHPI_IDR_AREATYPE_BOARD_INFO", "BOARD_INFO");
    ("SAHPI_IDR_AREATYPE_PRODUCT_INFO", "PRODUCT_INFO");
    ("SAHPI_IDR_AREATYPE_OEM", "OEM");
    ("SAHPI_IDR_AREATYPE_UNSPECIFIED", "UNSPECIFIED")].

Definition OH_MAX_IDRAREATYPE : nat := 6.

Definition idrareatype_cases : list (Z * string) := Eval vm_compute in
  names SaHpiIdrAreaTypeT [("SAHPI_IDR_AREATYPE_INTERNAL_USE", "INTERNAL_USE");
    ("SAHPI_IDR_AREATYPE_CHASSIS_INFO", "CHASSIS_INFO");
    ("SAHPI_IDR_AREATYPE_BOARD_INFO", "BOARD_INFO");
    ("SAHPI_IDR_AREATYPE_PRODUCT_INFO", "PRODUCT_INFO");
    ("SAHPI_IDR_AREATYPE_OEM", "OEM");
    ("SAHPI_IDR_AREATYPE_UNSPECIFIED", "UNSPECIFIED")].

Definition oh_lookup_idrareatype (value : Z) : option string :=
  switch idrareatype_cases value None.

Definition oh_encode_idrareatype : option string -> option Z -> Z * option Z :=
  encode_name idrareatype_strings OH_MAX_IDRAREATYPE (fun _ type => (SA_ERR_HPI_INVALID_DATA, type)).

Definition SaHpiIdrFieldTypeT : list (string * Z) :=
  c_enum [("SAHPI_IDR_FIELDTYPE_CHASSIS_TYPE", None);
    ("SAHPI_IDR_FIELDTYPE_MFG_DATETIME", None);
    ("SAHPI_IDR_FIELDTYPE_MANUFACTURER", None);
    ("SAHPI_IDR_FIELDTYPE_PRODUCT_NAME", None);
    ("SAHPI_IDR_FIELDTYPE_PRODUCT_VERSION", None);
    ("SAHPI_IDR_FIELDTYPE_SERIAL_NUMBER", None);
    ("SAHPI_IDR_FIELDTYPE_PART_NUMBER", None);
    ("SAHPI_IDR_FIELDTYPE_FILE_ID", None);
    ("SAHPI_IDR_FIELDTYPE_ASSET_TAG", None);
    ("SAHPI_IDR_FIELDTYPE_CUSTOM", None);
    ("SAHPI_IDR_FIELDTYPE_UNSPECIFIED", Some 255);
    ("SAHPI_IDR_FIELDTYPE_MAX_VALID", Some 255)].

Definition idrfieldtype_strings : list (Z * string) := Eval vm_compute in
  names SaHpiIdrFieldTypeT [("SAHPI_IDR_FIELDTYPE_CHASSIS_TYPE", "CHASSIS_TYPE");
    ("SAHPI_IDR_FIELDTYPE_MFG_DATETIME", "MFG_DATETIME");
    ("SAHPI_IDR_FIELDTYPE_MANUFACTURER", "MANUFACTURER");
    ("SAHPI_IDR_FIELDTYPE_PRODUCT_NAME", "PRODUCT_NAME");
    ("SAHPI_IDR_FIELDTYPE_PRODUCT_VERSION", "PRODUCT_VERSION");
    ("SAHPI_IDR_FIELDTYPE_SERIAL_NUMBER", "SERIAL_NUMBER");
    ("SAHPI_IDR_FIELDTYPE_PART_NUMBER", "PART_NUMBER");
    ("SAHPI_IDR_FIELDTYPE_FILE_ID", "FILE_ID");
    ("SAHPI_IDR_FIELDTYPE_ASSET_TAG", "ASSET_TAG");
    ("SAHPI_IDR_FIELDTYPE_CUSTOM", "CUSTOM");
    ("SAHPI_IDR_FIELDTYPE_UNSPECIFIED", "UNSPECIFIED")].

Definition OH_MAX_IDRFIELDTYPE : nat := 11.

Definition idrfieldtype_cases : list (Z * string) := Eval vm_compute in
  names SaHpiIdrFieldTypeT [("SAHPI_IDR_FIELDTYPE_CHASSIS_TYPE", "CHASSIS_TYPE");
    ("SAHPI_IDR_FIELDTYPE_MFG_DATETIME", "MFG_DATETIME");
    ("SAHPI_IDR_FIELDTYPE_MANUFACTURER", "MANUFACTURER");
    ("SAHPI_IDR_FIELDTYPE_PRODUCT_NAME", "PRODUCT_NAME");
    ("SAHPI_IDR_FIELDTYPE_PRODUCT_VERSION", "PRODUCT_VERSION");
    ("SAHPI_IDR_FIELDTYPE_SERIAL_NUMBER", "SERIAL_NUMBER");
    ("SAHPI_IDR_FIELDTYPE_PART_NUMBER", "PART_NUMBER");
    ("SAHPI_IDR_FIELDTYPE_FILE_ID", "FILE_ID");
    ("SAHPI_IDR_FIELDTYPE_ASSET_TAG", "ASSET_TAG");
    ("SAHPI_IDR_FIELDTYPE_CUSTOM", "CUSTOM");
    ("SAHPI_IDR_FIELDTYPE_UNSPECIFIED", "UNSPECIFIED")].

Definition oh_lookup_idrfieldtype (value : Z) : option string :=
  switch idrfieldtype_cases value None.

Definition oh_encode_idrfieldtype : option string -> option Z -> Z * option Z :=
  encode_name idrfieldtype_strings OH_MAX_IDRFIELDTYPE (fun _ type => (SA_ERR_HPI_INVALID_DATA, type)).

Definition SaHpiWatchdogActionT : list (string * Z) :=
  c_enum [("SAHPI_WA_NO_ACTION", Some 0);
    ("SAHPI_WA_RESET", None);
    ("SAHPI_WA_POWER_DOWN", None);
    ("SAHPI_WA_POWER_CYCLE", None);
    ("SAHPI_WA_MAX_VALID", Some 3)].

Definition watchdogaction_strings : list (Z * string) := Eval vm_compute in
  names SaHpiWatchdogActionT [("SAHPI_WA_NO_ACTION", "NO_ACTION");
    ("SAHPI_WA_RESET", "RESET");
    ("SAHPI_WA_POWER_DOWN", "POWER_DOWN");
    ("SAHPI_WA_POWER_CYCLE", "POWER_CYCLE")].

Definition OH_MAX_WATCHDOGACTION : nat := 4.

Definition watchdogaction_cases : list (Z * string) := Eval vm_compute in
  names SaHpiWatchdogActionT [("SAHPI_WA_NO_ACTION", "NO_ACTION");
    ("SAHPI_WA_RESET", "RESET");
    ("SAHPI_WA_POWER_DOWN", "POWER_DOWN");
    ("SAHPI_WA_POWER_CYCLE", "POWER_CYCLE")].

Definition oh_lookup_watchdogaction (value : Z) : option string :=
  switch watchdogaction_cases value None.

Definition oh_encode_watchdogaction : option string -> option Z -> Z * option Z :=
  encode_name watchdogaction_strings OH_MAX_WATCHDOGACTION (fun _ type => (SA_ERR_HPI_INVALID_DATA, type)).

Definition SaHpiWatchdogActionEventT : list (string * Z) :=
  c_enum [("SAHPI_WAE_NO_ACTION", Some 0);
    ("SAHPI_WAE_RESET", None);
    ("SAHPI_WAE_POWER_DOWN", None);
    ("SAHPI_WAE_POWER_CYCLE", None);
    ("SAHPI_WAE_TIMER_INT", Some 8);
    ("SAHPI_WAE_MAX_VALID", Some 8)].

Definition watchdogactionevent_strings : list (Z * string) := Eval vm_compute in
  names SaHpiWatchdogActionEventT [("SAHPI_WAE_NO_ACTION", "NO_ACTION");
    ("SAHPI_WAE_RESET", "RESET");
    ("SAHPI_WAE_POWER_DOWN", "POWER_DOWN");
    ("SAHPI_WAE_POWER_CYCLE", "POWER_CYCLE");
    ("SAHPI_WAE_TIMER_INT", "TIMER_INT")].

Definition OH_MAX_WATCHDOGACTIONEVENT : nat := 5.

Definition watchdogactionevent_cases : list (Z * string) := Eval vm_compute in
  names SaHpiWatchdogActionEventT [("SAHPI_WAE_NO_ACTION", "NO_ACTION");
    ("SAHPI_WAE_RESET", "RESET");
    ("SAHPI_WAE_POWER_DOWN", "POWER_DOWN");
    ("SAHPI_WAE_POWER_CYCLE", "POWER_CYCLE");
    ("SAHPI_WAE_TIMER_INT", "TIMER_INT")].

Definition oh_lookup_watchdogactionevent (value : Z) : option string :=
  switch watchdogactionevent_cases value None.

Definition oh_encode_watchdogactionevent : option string -> option Z -> Z * option Z :=
  encode_name watchdogactionevent_strings OH_MAX_WATCHDOGACTIONEVENT (fun _ type => (SA_ERR_HPI_INVALID_DATA, type)).

Definition SaHpiWatchdogPretimerInterruptT : list (string * Z) :=
  c_enum [("SAHPI_WPI_NONE", Some 0);
    ("SAHPI_WPI_SMI", None);
    ("SAHPI_WPI_NMI", None);
    ("SAHPI_WPI_MESSAGE_INTERRUPT", None);
    ("SAHPI_WPI_OEM", Some 15);
    ("SAHPI_WPI_MAX_VALID", Some 15)].

Definition watchdogpretimerinterrupt_strings : list (Z * string) := Eval vm_compute in
  names SaHpiWatchdogPretimerInterruptT [("SAHPI_WPI_NONE", "NONE");
    ("SAHPI_WPI_SMI", "SMI");
    ("SAHPI_WPI_NMI", "NMI");
    ("SAHPI_WPI_MESSAGE_INTERRUPT", "MESSAGE_INTERRUPT");
    ("SAHPI_WPI_OEM", "OEM")].

Definition OH_MAX_WATCHDOGPRETIMERINTERRUPT : nat := 5.

Definition watchdogpretimerinterrupt_cases : list (Z * string) := Eval vm_compute in
  names SaHpiWatchdogPretimerInterruptT [("SAHPI_WPI_NONE", "NONE");
    ("SAHPI_WPI_SMI", "SMI");
    ("SAHPI_WPI_NMI", "NMI");
    ("SAHPI_WPI_MESSAGE_INTERRUPT", "MESSAGE_INTERRUPT");
    ("SAHPI_WPI_OEM", "OEM")].

Definition oh_lookup_watchdogpretimerinterrupt (value : Z) : option string :=
  switch watchdogpretimerinterrupt_cases value None.

Definition oh_encode_watchdogpretimerinterrupt : option string -> option Z -> Z * option Z :=
  encode_name watchdogpretimerinterrupt_strings OH_MAX_WATCHDOGPRETIMERINTERRUPT (fun _ type => (SA_ERR_HPI_INVALID_DATA, type)).

Definition SaHpiWatchdogTimerUseT : list (string * Z) :=
  c_enum [("SAHPI_WTU_NONE", Some 0);
    ("SAHPI_WTU_BIOS_FRB2", None);
    ("SAHPI_WTU_BIOS_POST", None);
    ("SAHPI_WTU_OS_LOAD", None);
    ("SAHPI_WTU_SMS_OS", None);
    ("SAHPI_WTU_OEM", None);
    ("SAHPI_WTU_UNSPECIFIED", Some 15);
    ("SAHPI_WTU_MAX_VALID", Some 15)].

Definition watchdogtimeruse_strings : list (Z * string) := Eval vm_compute in
  names SaHpiWatchdogTimerUseT [("SAHPI_WTU_NONE", "NONE");
    ("SAHPI_WTU_BIOS_FRB2", "BIOS_FRB2");
    ("SAHPI_WTU_BIOS_POST", "BIOS_POST");
    ("SAHPI_WTU_OS_LOAD", "OS_LOAD");
    ("SAHPI_WTU_SMS_OS", "SMS_OS");
    ("SAHPI_WTU_OEM", "OEM");
    ("SAHPI_WTU_UNSPECIFIED", "UNSPECIFIED")].

Definition OH_MAX_WATCHDOGTIMERUSE : nat := 7.

Definition watchdogtimeruse_cases : list (Z * string) := Eval vm_compute in
  names SaHpiWatchdogTimerUseT [("SAHPI_WTU_NONE", "NONE");
    ("SAHPI_WTU_BIOS_FRB2", "BIOS_FRB2");
    ("SAHPI_WTU_BIOS_POST", "BIOS_POST");
    ("SAHPI_WTU_OS_LOAD", "OS_LOAD");
    ("SAHPI_WTU_SMS_OS", "SMS_OS");
    ("SAHPI_WTU_OEM", "OEM");
    ("SAHPI_WTU_UNSPECIFIED", "UNSPECIFIED")].

Definition oh_lookup_watchdogtimeruse (value : Z) : option string :=
  switch watchdogtimeruse_cases value None.

Definition oh_encode_watchdogtimeruse : option string -> option Z -> Z * option Z :=
  encode_name watchdogtimeruse_strings OH_MAX_WATCHDOGTIMERUSE (fun _ type => (SA_ERR_HPI_INVALID_DATA, type)).

Definition SaHpiDimiTestServiceImpactT : list (string * Z) :=
  c_enum [("SAHPI_DIMITEST_NONDEGRADING", None);
    ("SAHPI_DIMITEST_DEGRADING", None);
    ("SAHPI_DIMITEST_VENDOR_DEFINED_LEVEL", None);
    ("SAHPI_DIMITEST_SERVICE_IMPACT_MAX_VALID", Some 2)].

Definition dimitestserviceimpact_strings : list (Z * string) := Eval vm_compute in
  names SaHpiDimiTestServiceImpactT [("SAHPI_DIMITEST_NONDEGRADING", "NONDEGRADING");
    ("SAHPI_DIMITEST_DEGRADING", "DEGRADING");
    ("SAHPI_DIMITEST_VENDOR_DEFINED_LEVEL", "VENDOR_DEFINED_LEVEL")].

Definition OH_MAX_DIMITESTSERVICEIMPACT : nat := 3.

Definition dimitestserviceimpact_cases : list (Z * string) := Eval vm_compute in
  names SaHpiDimiTestServiceImpactT [("SAHPI_DIMITEST_NONDEGRADING", "NONDEGRADING");
    ("SAHPI_DIMITEST_DEGRADING", "DEGRADING");
    ("SAHPI_DIMITEST_VENDOR_DEFINED_LEVEL", "VENDOR_DEFINED_LEVEL")].

Definition oh_lookup_dimitestserviceimpact (value : Z) : option string :=
  switch dimitestserviceimpact_cases value None.

Definition oh_encode_dimitestserviceimpact : option string -> option Z -> Z * option Z :=
  encode_name dimitestserviceimpact_strings OH_MAX_DIMITESTSERVICEIMPACT (fun _ type => (SA_ERR_HPI_INVALID_DATA, type)).

Definition SaHpiDimiTestRunStatusT : list (string * Z) :=
  c_enum [("SAHPI_DIMITEST_STATUS_NOT_RUN", None);
    ("SAHPI_DIMITEST_STATUS_FINISHED_NO_ERRORS", None);
    ("SAHPI_DIMITEST_STATUS_FINISHED_ERRORS", None);
    ("SAHPI_DIMITEST_STATUS_CANCELED", None);
    ("SAHPI_DIMITEST_STATUS_RUNNING", None);
    ("SAHPI_DIMITEST_STATUS_MAX_VALID", Some 4)].

Definition dimitestrunstatus_strings : list (Z * string) := Eval vm_compute in
  names SaHpiDimiTestRunStatusT [("SAHPI_DIMITEST_STATUS_NOT_RUN", "STATUS_NOT_RUN");
    ("SAHPI_DIMITEST_STATUS_FINISHED_NO_ERRORS", "STATUS_FINISHED_NO_ERRORS");
    ("SAHPI_DIMITEST_STATUS_FINISHED_ERRORS", "STATUS_FINISHED_ERRORS");
    ("SAHPI_DIMITEST_STATUS_CANCELED", "STATUS_CANCELED");
    ("SAHPI_DIMITEST_STATUS_RUNNING", "STATUS_RUNNING")].

Definition OH_MAX_DIMITESTRUNSTATUS : nat := 5.

Definition dimitestrunstatus_cases : list (Z * string) := Eval vm_compute in
  names SaHpiDimiTestRunStatusT [("SAHPI_DIMITEST_STATUS_NOT_RUN", "STATUS_NOT_RUN");
    ("SAHPI_DIMITEST_STATUS_FINISHED_NO_ERRORS", "STATUS_FINISHED_NO_ERRORS");
    ("SAHPI_DIMITEST_STATUS_FINISHED_ERRORS", "STATUS_FINISHED_ERRORS");
    ("SAHPI_DIMITEST_STATUS_CANCELED", "STATUS_CANCELED");
    ("SAHPI_DIMITEST_STATUS_RUNNING", "STATUS_RUNNING")].

Definition oh_lookup_dimitestrunstatus (value : Z) : option string :=
  switch dimitestrunstatus_cases value None.

Definition oh_encode_dimitestrunstatus : option string -> option Z -> Z * option Z :=
  encode_name dimitestrunstatus_strings OH_MAX_DIMITESTRUNSTATUS (fun _ type => (SA_ERR_HPI_INVALID_DATA, type)).

Definition SaHpiDimiTestErrCodeT : list (string * Z) :=
  c_enum [("SAHPI_DIMITEST_STATUSERR_NOERR", Some 0);
    ("SAHPI_DIMITEST_STATUSERR_RUNERR", None);
    ("SAHPI_DIMITEST_STATUSERR_UNDEF", None);
    ("SAHPI_DIMITEST_STATUSERR_MAX_VALID", Some 2)].

Definition dimitesterrcode_strings : list (Z * string) := Eval vm_compute in
  names SaHpiDimiTestErrCodeT [("SAHPI_DIMITEST_STATUSERR_NOERR", "STATUSERR_NOERR");
    ("SAHPI_DIMITEST_STATUSERR_RUNERR", "STATUSERR_RUNERR");
    ("SAHPI_DIMITEST_STATUSERR_UNDEF", "STATUSERR_UNDEF")].

Definition OH_MAX_DIMITESTERRCODE : nat := 3.

Definition dimitesterrcode_cases : list (Z * string) := Eval vm_compute in
  names SaHpiDimiTestErrCodeT [("SAHPI_DIMITEST_STATUSERR_NOERR", "STATUSERR_NOERR");
    ("SAHPI_DIMITEST_STATUSERR_RUNERR", "STATUSERR_RUNERR");
    ("SAHPI_DIMITEST_STATUSERR_UNDEF", "STATUSERR_UNDEF")].

Definition oh_lookup_dimitesterrcode (value : Z) : option string :=
  switch dimitesterrcode_cases value None.

Definition oh_encode_dimitesterrcode : option string -> option Z -> Z * option Z :=
  encode_name dimitesterrcode_strings OH_MAX_DIMITESTERRCODE (fun _ type => (SA_ERR_HPI_INVALID_DATA, type)).

Definition SaHpiDimiTestParamTypeT : list (string * Z) :=
  c_enum [("SAHPI_DIMITEST_PARAM_TYPE_BOOLEAN", None);
    ("SAHPI_DIMITEST_PARAM_TYPE_INT32", None);
    ("SAHPI_DIMITEST_PARAM_TYPE_FLOAT64", None);
    ("SAHPI_DIMITEST_PARAM_TYPE_TEXT", None);
    ("SAHPI_DIMITEST_PARAM_TYPE_MAX_VALID", Some 3)].

Definition dimitestparamtype_strings : list (Z * string) := Eval vm_compute in
  names SaHpiDimiTestParamTypeT [("SAHPI_DIMITEST_PARAM_TYPE_BOOLEAN", "PARAM_TYPE_BOOLEAN");
    ("SAHPI_DIMITEST_PARAM_TYPE_INT32", "PARAM_TYPE_INT32");
    ("SAHPI_DIMITEST_PARAM_TYPE_FLOAT64", "PARAM_TYPE_FLOAT64");
    ("SAHPI_DIMITEST_PARAM_TYPE_TEXT", "PARAM_TYPE_TEXT")].

Definition OH_MAX_DIMITESTPARAMTYPE : nat := 4.

Definition dimitestparamtype_cases : list (Z * string) := Eval vm_compute in
  names SaHpiDimiTestParamTypeT [("SAHPI_DIMITEST_PARAM_TYPE_BOOLEAN", "PARAM_TYPE_BOOLEAN");
    ("SAHPI_DIMITEST_PARAM_TYPE_INT32", "PARAM_TYPE_INT32");
    ("SAHPI_DIMITEST_PARAM_TYPE_FLOAT64", "PARAM_TYPE_FLOAT64");
    ("SAHPI_DIMITEST_PARAM_TYPE_TEXT", "PARAM_TYPE_TEXT")].

Definition oh_lookup_dimitestparamtype (value : Z) : option string :=
  switch dimitestparamtype_cases value None.

Definition oh_encode_dimitestparamtype : option string -> option Z -> Z * option Z :=
  encode_name dimitestparamtype_strings OH_MAX_DIMITESTPARAMTYPE (fun _ type => (SA_ERR_HPI_INVALID_DATA, type)).

Definition SaHpiDimiReadyT : list (string * Z) :=
  c_enum [("SAHPI_DIMI_READY", None);
    ("SAHPI_DIMI_WRONG_STATE", None);
    ("SAHPI_DIMI_BUSY", None);
    ("SAHPI_DIMI_READY_MAX_VALID", Some 2)].

Definition dimiready_strings : list (Z * string) := Eval vm_compute in
  names SaHpiDimiReadyT [("SAHPI_DIMI_READY", "READY");
    ("SAHPI_DIMI_WRONG_STATE", "WRONG_STATE");
    ("SAHPI_DIMI_BUSY", "BUSY")].

Definition OH_MAX_DIMIREADY : nat := 3.

Definition dimiready_cases : list (Z * string) := Eval vm_compute in
  names SaHpiDimiReadyT [("SAHPI_DIMI_READY", "READY");
    ("SAHPI_DIMI_WRONG_STATE", "WRONG_STATE");
    ("SAHPI_DIMI_BUSY", "BUSY")].

Definition oh_lookup_dimiready (value : Z) : option string :=
  switch dimiready_cases value None.

Definition oh_encode_dimiready : option string -> option Z -> Z * option Z :=
  encode_name dimiready_strings OH_MAX_DIMIREADY (fun _ type => (SA_ERR_HPI_INVALID_DATA, type)).

Definition SaHpiFumiSpecInfoTypeT : list (string * Z) :=
  c_enum [("SAHPI_FUMI_SPEC_INFO_NONE", None);
    ("SAHPI_FUMI_SPEC_INFO_SAF_DEFINED", None);
    ("SAHPI_FUMI_SPEC_INFO_OEM_DEFINED", None);
    ("SAHPI_FUMI_SPEC_INFO_MAX_VALID", Some 2)].

Definition fumispecinfotype_strings : list (Z * string) := Eval vm_compute in
  names SaHpiFumiSpecInfoTypeT [("SAHPI_FUMI_SPEC_INFO_NONE", "SPEC_INFO_NONE");
    ("SAHPI_FUMI_SPEC_INFO_SAF_DEFINED", "SPEC_INFO_SAF_DEFINED");
    ("SAHPI_FUMI_SPEC_INFO_OEM_DEFINED", "SPEC_INFO_OEM_DEFINED")].

Definition OH_MAX_FUMISPECINFOTYPE : nat := 3.

Definition fumispecinfotype_cases : list (Z * string) := Eval vm_compute in
  names SaHpiFumiSpecInfoTypeT [("SAHPI_FUMI_SPEC_INFO_NONE", "SPEC_INFO_NONE");
    ("SAHPI_FUMI_SPEC_INFO_SAF_DEFINED", "SPEC_INFO_SAF_DEFINED");
    ("SAHPI_FUMI_SPEC_INFO_OEM_DEFINED", "SPEC_INFO_OEM_DEFINED")].

Definition oh_lookup_fumispecinfotype (value : Z) : option string :=
  switch fumispecinfotype_cases value None.

Definition oh_encode_fumispecinfotype : option string -> option Z -> Z * option Z :=
  encode_name fumispecinfotype_strings OH_MAX_FUMISPECINFOTYPE (fun _ type => (SA_ERR_HPI_INVALID_DATA, type)).

Definition SaHpiFumiSafDefinedSpecIdT : list (string * Z) :=
  c_enum [("SAHPI_FUMI_SPEC_HPM1", Some 0);
    ("SAHPI_FUMI_SPEC_MAX_VALID", Some 0)].

Definition fumisafdefinedspecid_strings : list (Z * string) := Eval vm_compute in
  names SaHpiFumiSafDefinedSpecIdT [("SAHPI_FUMI_SPEC_HPM1", "SPEC_HPM1")].

Definition OH_MAX_FUMISAFDEFINEDSPECID : nat := 1.

Definition fumisafdefinedspecid_cases : list (Z * string) := Eval vm_compute in
  names SaHpiFumiSafDefinedSpecIdT [("SAHPI_FUMI_SPEC_HPM1", "SPEC_HPM1")].

Definition oh_lookup_fumisafdefinedspecid (value : Z) : option string :=
  switch fumisafdefinedspecid_cases value None.

Definition oh_encode_fumisafdefinedspecid : option string -> option Z -> Z * option Z :=
  encode_name fumisafdefinedspecid_strings OH_MAX_FUMISAFDEFINEDSPECID (fun _ type => (SA_ERR_HPI_INVALID_DATA, type)).

Definition SaHpiFumiServiceImpactT : list (string * Z) :=
  c_enum [("SAHPI_FUMI_PROCESS_NONDEGRADING", None);
    ("SAHPI_FUMI_PROCESS_DEGRADING", None);
    ("SAHPI_FUMI_PROCESS_VENDOR_DEFINED_IMPACT_LEVEL", None);
    ("SAHPI_FUMI_PROCESS_IMPACT_MAX_VALID", Some 2)].

Definition fumiserviceimpact_strings : list (Z * string) := Eval vm_compute in
  names SaHpiFumiServiceImpactT [("SAHPI_FUMI_PROCESS_NONDEGRADING", "PROCESS_NONDEGRADING");
    ("SAHPI_FUMI_PROCESS_DEGRADING", "PROCESS_DEGRADING");
    ("SAHPI_FUMI_PROCESS_VENDOR_DEFINED_IMPACT_LEVEL", "PROCESS_VENDOR_DEFINED_IMPACT_LEVEL")].

Definition OH_MAX_FUMISERVICEIMPACT : nat := 3.

Definition fumiserviceimpact_cases : list (Z * string) := Eval vm_compute in
  names SaHpiFumiServiceImpactT [("SAHPI_FUMI_PROCESS_NONDEGRADING", "PROCESS_NONDEGRADING");
    ("SAHPI_FUMI_PROCESS_DEGRADING", "PROCESS_DEGRADING");
    ("SAHPI_FUMI_PROCESS_VENDOR_DEFINED_IMPACT_LEVEL", "PROCESS_VENDOR_DEFINED_IMPACT_LEVEL")].

Definition oh_lookup_fumiserviceimpact (value : Z) : option string :=
  switch fumiserviceimpact_cases value None.

Definition oh_encode_fumiserviceimpact : option string -> option Z -> Z * option Z :=
  encode_name fumiserviceimpact_strings OH_MAX_FUMISERVICEIMPACT (fun _ type => (SA_ERR_HPI_INVALID_DATA, type)).

Definition SaHpiFumiSourceStatusT : list (string * Z) :=
  c_enum [("SAHPI_FUMI_SRC_VALID", Some 0);
    ("SAHPI_FUMI_SRC_PROTOCOL_NOT_SUPPORTED", None);
    ("SAHPI_FUMI_SRC_UNREACHABLE", None);
    ("SAHPI_FUMI_SRC_VALIDATION_NOT_STARTED", None);
    ("SAHPI_FUMI_SRC_VALIDATION_INITIATED", None);
    ("SAHPI_FUMI_SRC_VALIDATION_FAIL", None);
    ("SAHPI_FUMI_SRC_TYPE_MISMATCH", None);
    ("SAHPI_FUMI_SRC_INVALID", None);
    ("SAHPI_FUMI_SRC_VALIDITY_UNKNOWN", None);
    ("SAHPI_FUMI_SRC_STATUS_MAX_VALID", Some 8)].

Definition fumisourcestatus_strings : list (Z * string) := Eval vm_compute in
  names SaHpiFumiSourceStatusT [("SAHPI_FUMI_SRC_VALID", "SRC_VALID");
    ("SAHPI_FUMI_SRC_PROTOCOL_NOT_SUPPORTED", "SRC_PROTOCOL_NOT_SUPPORTED");
    ("SAHPI_FUMI_SRC_UNREACHABLE", "SRC_UNREACHABLE");
    ("SAHPI_FUMI_SRC_VALIDATION_NOT_STARTED", "SRC_VALIDATION_NOT_STARTED");
    ("SAHPI_FUMI_SRC_VALIDATION_INITIATED", "SRC_VALIDATION_INITIATED");
    ("SAHPI_FUMI_SRC_VALIDATION_FAIL", "SRC_VALIDATION_FAIL");
    ("SAHPI_FUMI_SRC_TYPE_MISMATCH", "SRC_TYPE_MISMATCH");
    ("SAHPI_FUMI_SRC_INVALID", "SRC_INVALID");
    ("SAHPI_FUMI_SRC_VALIDITY_UNKNOWN", "SRC_VALIDITY_UNKNOWN")].

Definition OH_MAX_FUMISOURCESTATUS : nat := 9.

Definition fumisourcestatus_cases : list (Z * string) := Eval vm_compute in
  names SaHpiFumiSourceStatusT [("SAHPI_FUMI_SRC_VALID", "SRC_VALID");
    ("SAHPI_FUMI_SRC_PROTOCOL_NOT_SUPPORTED", "SRC_PROTOCOL_NOT_SUPPORTED");
    ("SAHPI_FUMI_SRC_UNREACHABLE", "SRC_UNREACHABLE");
    ("SAHPI_FUMI_SRC_VALIDATION_NOT_STARTED", "SRC_VALIDATION_NOT_STARTED");
    ("SAHPI_FUMI_SRC_VALIDATION_INITIATED", "SRC_VALIDATION_INITIATED");
    ("SAHPI_FUMI_SRC_VALIDATION_FAIL", "SRC_VALIDATION_FAIL");
    ("SAHPI_FUMI_SRC_TYPE_MISMATCH", "SRC_TYPE_MISMATCH");
    ("SAHPI_FUMI_SRC_INVALID", "SRC_INVALID");
    ("SAHPI_FUMI_SRC_VALIDITY_UNKNOWN", "SRC_VALIDITY_UNKNOWN")].

Definition oh_lookup_fumisourcestatus (value : Z) : option string :=
  switch fumisourcestatus_cases value None.

Definition oh_encode_fumisourcestatus : option string -> option Z -> Z * option Z :=
  encode_name fumisourcestatus_strings OH_MAX_FUMISOURCESTATUS (fun _ type => (SA_ERR_HPI_INVALID_DATA, type)).

Definition SaHpiFumiBankStateT : list (string * Z) :=
  c_enum [("SAHPI_FUMI_BANK_VALID", Some 0);
    ("SAHPI_FUMI_BANK_UPGRADE_IN_PROGRESS", None);
    ("SAHPI_FUMI_BANK_CORRUPTED", None);
    ("SAHPI_FUMI_BANK_ACTIVE", None);
    ("SAHPI_FUMI_BANK_BUSY", None);
    ("SAHPI_FUMI_BANK_UNKNOWN", None);
    ("SAHPI_FUMI_BANK_STATE_MAX_VALID", Some 5)].

Definition fumibankstate_strings : list (Z * string) := Eval vm_compute in
  names SaHpiFumiBankStateT [("SAHPI_FUMI_BANK_VALID", "BANK_VALID");
    ("SAHPI_FUMI_BANK_UPGRADE_IN_PROGRESS", "BANK_UPGRADE_IN_PROGRESS");
    ("SAHPI_FUMI_BANK_CORRUPTED", "BANK_CORRUPTED");
    ("SAHPI_FUMI_BANK_ACTIVE", "BANK_ACTIVE");
    ("SAHPI_FUMI_BANK_BUSY", "BANK_BUSY");
    ("SAHPI_FUMI_BANK_UNKNOWN", "BANK_UNKNOWN")].

Definition OH_MAX_FUMIBANKSTATE : nat := 6.

Definition fumibankstate_cases : list (Z * string) := Eval vm_compute in
  names SaHpiFumiBankStateT [("SAHPI_FUMI_BANK_VALID", "BANK_VALID");
    ("SAHPI_FUMI_BANK_UPGRADE_IN_PROGRESS", "BANK_UPGRADE_IN_PROGRESS");
    ("SAHPI_FUMI_BANK_CORRUPTED", "BANK_CORRUPTED");
    ("SAHPI_FUMI_BANK_ACTIVE", "BANK_ACTIVE");
    ("SAHPI_FUMI_BANK_BUSY", "BANK_BUSY");
    ("SAHPI_FUMI_BANK_UNKNOWN", "BANK_UNKNOWN")].

Definition oh_lookup_fumibankstate (value : Z) : option string :=
  switch fumibankstate_cases value None.

Definition oh_encode_fumibankstate : option string -> option Z -> Z * option Z :=
  encode_name fumibankstate_strings OH_MAX_FUMIBANKSTATE (fun _ type => (SA_ERR_HPI_INVALID_DATA, type)).

Definition SaHpiFumiUpgradeStatusT : list (string * Z) :=
  c_enum [("SAHPI_FUMI_OPERATION_NOTSTARTED", Some 0);
    ("SAHPI_FUMI_SOURCE_VALIDATION_INITIATED", None);
    ("SAHPI_FUMI_SOURCE_VALIDATION_FAILED", None);
    ("SAHPI_FUMI_SOURCE_VALIDATION_DONE", None);
    ("SAHPI_FUMI_SOURCE_VALIDATION_CANCELLED", None);
    ("SAHPI_FUMI_INSTALL_INITIATED", None);
    ("SAHPI_FUMI_INSTALL_FAILED_ROLLBACK_NEEDED", None);
    ("SAHPI_FUMI_INSTALL_FAILED_ROLLBACK_INITIATED", None);
    ("SAHPI_FUMI_INSTALL_FAILED_ROLLBACK_NOT_POSSIBLE", None);
    ("SAHPI_FUMI_INSTALL_DONE", None);
    ("SAHPI_FUMI_INSTALL_CANCELLED", None);
    ("SAHPI_FUMI_ROLLBACK_INITIATED", None);
    ("SAHPI_FUMI_ROLLBACK_FAILED", None);
    ("SAHPI_FUMI_ROLLBACK_DONE", None);
    ("SAHPI_FUMI_ROLLBACK_CANCELLED", None);
    ("SAHPI_FUMI_BACKUP_INITIATED", None);
    ("SAHPI_FUMI_BACKUP_FAILED", None);
    ("SAHPI_FUMI_BACKUP_DONE", None);
    ("SAHPI_FUMI_BACKUP_CANCELLED", None);
    ("SAHPI_FUMI_BANK_COPY_INITIATED", None);
    ("SAHPI_FUMI_BANK_COPY_FAILED", None);
    ("SAHPI_FUMI_BANK_COPY_DONE", None);
    ("SAHPI_FUMI_BANK_COPY_CANCELLED", None);
    ("SAHPI_FUMI_TARGET_VERIFY_INITIATED", None);
    ("SAHPI_FUMI_TARGET_VERIFY_FAILED", None);
    ("SAHPI_FUMI_TARGET_VERIFY_DONE", None);
    ("SAHPI_FUMI_TARGET_VERIFY_CANCELLED", None);
    ("SAHPI_FUMI_ACTIVATE_INITIATED", None);
    ("SAHPI_FUMI_ACTIVATE_FAILED_ROLLBACK_NEEDED", None);
    ("SAHPI_FUMI_ACTIVATE_FAILED_ROLLBACK_INITIATED", None);
    ("SAHPI_FUMI_ACTIVATE_FAILED_ROLLBACK_NOT_POSSIBLE", None);
    ("SAHPI_FUMI_ACTIVATE_DONE", None);
    ("SAHPI_FUMI_ACTIVATE_CANCELLED", None);
    ("SAHPI_FUMI_UPGRADE_STATUS_MAX_VALID", Some 32)].

Definition fumiupgradestatus_strings : list (Z * string) := Eval vm_compute in
  names SaHpiFumiUpgradeStatusT [("SAHPI_FUMI_OPERATION_NOTSTARTED", "OPERATION_NOTSTARTED");
    ("SAHPI_FUMI_SOURCE_VALIDATION_INITIATED", "SOURCE_VALIDATION_INITIATED");
    ("SAHPI_FUMI_SOURCE_VALIDATION_FAILED", "SOURCE_VALIDATION_FAILED");
    ("SAHPI_FUMI_SOURCE_VALIDATION_DONE", "SOURCE_VALIDATION_DONE");
    ("SAHPI_FUMI_SOURCE_VALIDATION_CANCELLED", "SOURCE_VALIDATION_CANCELLED");
    ("SAHPI_FUMI_INSTALL_INITIATED", "INSTALL_INITIATED");
    ("SAHPI_FUMI_INSTALL_FAILED_ROLLBACK_NEEDED", "INSTALL_FAILED_ROLLBACK_NEEDED");
    ("SAHPI_FUMI_INSTALL_FAILED_ROLLBACK_INITIATED", "INSTALL_FAILED_ROLLBACK_INITIATED");
    ("SAHPI_FUMI_INSTALL_FAILED_ROLLBACK_NOT_POSSIBLE", "INSTALL_FAILED_ROLLBACK_NOT_POSSIBLE");
    ("SAHPI_FUMI_INSTALL_DONE", "INSTALL_DONE");
    ("SAHPI_FUMI_INSTALL_CANCELLED", "INSTALL_CANCELLED");
    ("SAHPI_FUMI_ROLLBACK_INITIATED", "ROLLBACK_INITIATED");
    ("SAHPI_FUMI_ROLLBACK_FAILED", "ROLLBACK_FAILED");
    ("SAHPI_FUMI_ROLLBACK_DONE", "ROLLBACK_DONE");
    ("SAHPI_FUMI_ROLLBACK_CANCELLED", "ROLLBACK_CANCELLED");
    ("SAHPI_FUMI_BACKUP_INITIATED", "BACKUP_INITIATED");
    ("SAHPI_FUMI_BACKUP_FAILED", "BACKUP_FAILED");
    ("SAHPI_FUMI_BACKUP_DONE", "BACKUP_DONE");
    ("SAHPI_FUMI_BACKUP_CANCELLED", "BACKUP_CANCELLED");
    ("SAHPI_FUMI_BANK_COPY_INITIATED", "BANK_COPY_INITIATED");
    ("SAHPI_FUMI_BANK_COPY_FAILED", "BANK_COPY_FAILED");
    ("SAHPI_FUMI_BANK_COPY_DONE", "BANK_COPY_DONE");
    ("SAHPI_FUMI_BANK_COPY_CANCELLED", "BANK_COPY_CANCELLED");
    ("SAHPI_FUMI_TARGET_VERIFY_INITIATED", "TARGET_VERIFY_INITIATED");
    ("SAHPI_FUMI_TARGET_VERIFY_FAILED", "TARGET_VERIFY_FAILED");
    ("SAHPI_FUMI_TARGET_VERIFY_DONE", "TARGET_VERIFY_DONE");
    ("SAHPI_FUMI_TARGET_VERIFY_CANCELLED", "TARGET_VERIFY_CANCELLED");
    ("SAHPI_FUMI_ACTIVATE_INITIATED", "ACTIVATE_INITIATED");
    ("SAHPI_FUMI_ACTIVATE_FAILED_ROLLBACK_NEEDED", "ACTIVATE_FAILED_ROLLBACK_NEEDED");
    ("SAHPI_FUMI_ACTIVATE_FAILED_ROLLBACK_INITIATED", "ACTIVATE_FAILED_ROLLBACK_INITIATED");
    ("SAHPI_FUMI_ACTIVATE_FAILED_ROLLBACK_NOT_POSSIBLE", "ACTIVATE_FAILED_ROLLBACK_NOT_POSSIBLE");
    ("SAHPI_FUMI_ACTIVATE_DONE", "ACTIVATE_DONE");
    ("SAHPI_FUMI_ACTIVATE_CANCELLED", "ACTIVATE_CANCELLED")].

Definition OH_MAX_FUMIUPGRADESTATUS : nat := 33.

Definition fumiupgradestatus_cases : list (Z * string) := Eval vm_compute in
  names SaHpiFumiUpgradeStatusT [("SAHPI_FUMI_OPERATION_NOTSTARTED", "OPERATION_NOTSTARTED");
    ("SAHPI_FUMI_SOURCE_VALIDATION_INITIATED", "SOURCE_VALIDATION_INITIATED");
    ("SAHPI_FUMI_SOURCE_VALIDATION_FAILED", "SOURCE_VALIDATION_FAILED");
    ("SAHPI_FUMI_SOURCE_VALIDATION_DONE", "SOURCE_VALIDATION_DONE");
    ("SAHPI_FUMI_SOURCE_VALIDATION_CANCELLED", "SOURCE_VALIDATION_CANCELLED");
    ("SAHPI_FUMI_INSTALL_INITIATED", "INSTALL_INITIATED");
    ("SAHPI_FUMI_INSTALL_FAILED_ROLLBACK_NEEDED", "INSTALL_FAILED_ROLLBACK_NEEDED");
    ("SAHPI_FUMI_INSTALL_FAILED_ROLLBACK_INITIATED", "INSTALL_FAILED_ROLLBACK_INITIATED");
    ("SAHPI_FUMI_INSTALL_FAILED_ROLLBACK_NOT_POSSIBLE", "INSTALL_FAILED_ROLLBACK_NOT_POSSIBLE");
    ("SAHPI_FUMI_INSTALL_DONE", "INSTALL_DONE");
    ("SAHPI_FUMI_INSTALL_CANCELLED", "INSTALL_CANCELLED");
    ("SAHPI_FUMI_ROLLBACK_INITIATED", "ROLLBACK_INITIATED");
    ("SAHPI_FUMI_ROLLBACK_FAILED", "ROLLBACK_FAILED");
    ("SAHPI_FUMI_ROLLBACK_DONE", "ROLLBACK_DONE");
    ("SAHPI_FUMI_ROLLBACK_CANCELLED", "ROLLBACK_CANCELLED");
    ("SAHPI_FUMI_BACKUP_INITIATED", "BACKUP_INITIATED");
    ("SAHPI_FUMI_BACKUP_FAILED", "BACKUP_FAILED");
    ("SAHPI_FUMI_BACKUP_DONE", "BACKUP_DONE");
    ("SAHPI_FUMI_BACKUP_CANCELLED", "BACKUP_CANCELLED");
    ("SAHPI_FUMI_BANK_COPY_INITIATED", "BANK_COPY_INITIATED");
    ("SAHPI_FUMI_BANK_COPY_FAILED", "BANK_COPY_FAILED");
    ("SAHPI_FUMI_BANK_COPY_DONE", "BANK_COPY_DONE");
    ("SAHPI_FUMI_BANK_COPY_CANCELLED", "BANK_COPY_CANCELLED");
    ("SAHPI_FUMI_TARGET_VERIFY_INITIATED", "TARGET_VERIFY_INITIATED");
    ("SAHPI_FUMI_TARGET_VERIFY_FAILED", "TARGET_VERIFY_FAILED");
    ("SAHPI_FUMI_TARGET_VERIFY_DONE", "TARGET_VERIFY_DONE");
    ("SAHPI_FUMI_TARGET_VERIFY_CANCELLED", "TARGET_VERIFY_CANCELLED");
    ("SAHPI_FUMI_ACTIVATE_INITIATED", "ACTIVATE_INITIATED");
    ("SAHPI_FUMI_ACTIVATE_FAILED_ROLLBACK_NEEDED", "ACTIVATE_FAILED_ROLLBACK_NEEDED");
    ("SAHPI_FUMI_ACTIVATE_FAILED_ROLLBACK_INITIATED", "ACTIVATE_FAILED_ROLLBACK_INITIATED");
    ("SAHPI_FUMI_ACTIVATE_FAILED_ROLLBACK_NOT_POSSIBLE", "ACTIVATE_FAILED_ROLLBACK_NOT_POSSIBLE");
    ("SAHPI_FUMI_ACTIVATE_DONE", "ACTIVATE_DONE");
    ("SAHPI_FUMI_ACTIVATE_CANCELLED", "ACTIVATE_CANCELLED")].

Definition oh_lookup_fumiupgradestatus (value : Z) : option string :=
  switch fumiupgradestatus_cases value None.

Definition oh_encode_fumiupgradestatus : option string -> option Z -> Z * option Z :=
  encode_name fumiupgradestatus_strings OH_MAX_FUMIUPGRADESTATUS (fun _ type => (SA_ERR_HPI_INVALID_DATA, type)).

Definition SaHpiHsIndicatorStateT : list (string * Z) :=
  c_enum [("SAHPI_HS_INDICATOR_OFF", Some 0);
    ("SAHPI_HS_INDICATOR_ON", None);
    ("SAHPI_HS_INDICATOR_STATE_MAX_VALID", Some 1)].

Definition hsindicatorstate_strings : list (Z * string) := Eval vm_compute in
  names SaHpiHsIndicatorStateT [("SAHPI_HS_INDICATOR_OFF", "OFF");
    ("SAHPI_HS_INDICATOR_ON", "ON")].

Definition OH_MAX_HSINDICATORSTATE : nat := 2.

Definition hsindicatorstate_cases : list (Z * string) := Eval vm_compute in
  names SaHpiHsIndicatorStateT [("SAHPI_HS_INDICATOR_OFF", "OFF");
    ("SAHPI_HS_INDICATOR_ON", "ON")].

Definition oh_lookup_hsindicatorstate (value : Z) : option string :=
  switch hsindicatorstate_cases value None.

Definition oh_encode_hsindicatorstate : option string -> option Z -> Z * option Z :=
  encode_name hsindicatorstate_strings OH_MAX_HSINDICATORSTATE (fun _ type => (SA_ERR_HPI_INVALID_DATA, type)).

Definition SaHpiHsActionT : list (string * Z) :=
  c_enum [("SAHPI_HS_ACTION_INSERTION", Some 0);
    ("SAHPI_HS_ACTION_EXTRACTION", None);
    ("SAHPI_HS_ACTION_MAX_VALID", Some 1)].

Definition hsaction_strings : list (Z * string) := Eval vm_compute in
  names SaHpiHsActionT [("SAHPI_HS_ACTION_INSERTION", "INSERTION");
    ("SAHPI_HS_ACTION_EXTRACTION", "EXTRACTION")].

Definition OH_MAX_HSACTION : nat := 2.

Definition hsaction_cases : list (Z * string) := Eval vm_compute in
  names SaHpiHsActionT [("SAHPI_HS_ACTION_INSERTION", "INSERTION");
    ("SAHPI_HS_ACTION_EXTRACTION", "EXTRACTION")].

Definition oh_lookup_hsaction (value : Z) : option string :=
  switch hsaction_cases value None.

Definition oh_encode_hsaction : option string -> option Z -> Z * option Z :=
  encode_name hsaction_strings OH_MAX_HSACTION (fun _ type => (SA_ERR_HPI_INVALID_DATA, type)).

Definition SaHpiHsStateT : list (string * Z) :=
  c_enum [("SAHPI_HS_STATE_INACTIVE", Some 0);
    ("SAHPI_HS_STATE_INSERTION_PENDING", None);
    ("SAHPI_HS_STATE_ACTIVE", None);
    ("SAHPI_HS_STATE_EXTRACTION_PENDING", None);
    ("SAHPI_HS_STATE_NOT_PRESENT", None);
    ("SAHPI_HS_STATE_MAX_VALID", Some 4)].

Definition hsstate_strings : list (Z * string) := Eval vm_compute in
  names SaHpiHsStateT [("SAHPI_HS_STATE_INACTIVE", "INACTIVE");
    ("SAHPI_HS_STATE_INSERTION_PENDING", "INSERTION_PENDING");
    ("SAHPI_HS_STATE_ACTIVE", "ACTIVE");
    ("SAHPI_HS_STATE_EXTRACTION_PENDING", "EXTRACTION_PENDING");
    ("SAHPI_HS_STATE_NOT_PRESENT", "NOT_PRESENT")].

Definition OH_MAX_HSSTATE : nat := 5.

Definition hsstate_cases : list (Z * string) := Eval vm_compute in
  names SaHpiHsStateT [("SAHPI_HS_STATE_INACTIVE", "INACTIVE");
    ("SAHPI_HS_STATE_INSERTION_PENDING", "INSERTION_PENDING");
    ("SAHPI_HS_STATE_ACTIVE", "ACTIVE");
    ("SAHPI_HS_STATE_EXTRACTION_PENDING", "EXTRACTION_PENDING");
    ("SAHPI_HS_STATE_NOT_PRESENT", "NOT_PRESENT")].

Definition oh_lookup_hsstate (value : Z) : option string :=
  switch hsstate_cases value None.

Definition oh_encode_hsstate : option string -> option Z -> Z * option Z :=
  encode_name hsstate_strings OH_MAX_HSSTATE (fun _ type => (SA_ERR_HPI_INVALID_DATA, type)).

Definition SaHpiHsCauseOfStateChangeT : list (string * Z) :=
  c_enum [("SAHPI_HS_CAUSE_AUTO_POLICY", Some 0);
    ("SAHPI_HS_CAUSE_EXT_SOFTWARE", None);
    ("SAHPI_HS_CAUSE_OPERATOR_INIT", None);
    ("SAHPI_HS_CAUSE_USER_UPDATE", None);
    ("SAHPI_HS_CAUSE_UNEXPECTED_DEACTIVATION", None);
    ("SAHPI_HS_CAUSE_SURPRISE_EXTRACTION", None);
    ("SAHPI_HS_CAUSE_EXTRACTION_UPDATE", None);
    ("SAHPI_HS_CAUSE_HARDWARE_FAULT", None);
    ("SAHPI_HS_CAUSE_CONTAINING_FRU", None);
    ("SAHPI_HS_CAUSE_UNKNOWN", Some 65535);
    ("SAHPI_HS_CAUSE_MAX_VALID", Some 65535)].

Definition hscauseofstatechange_strings : list (Z * string) := Eval vm_compute in
  names SaHpiHsCauseOfStateChangeT [("SAHPI_HS_CAUSE_AUTO_POLICY", "CAUSE_AUTO_POLICY");
    ("SAHPI_HS_CAUSE_EXT_SOFTWARE", "CAUSE_EXT_SOFTWARE");
    ("SAHPI_HS_CAUSE_OPERATOR_INIT", "CAUSE_OPERATOR_INIT");
    ("SAHPI_HS_CAUSE_USER_UPDATE", "CAUSE_USER_UPDATE");
    ("SAHPI_HS_CAUSE_UNEXPECTED_DEACTIVATION", "CAUSE_UNEXPECTED_DEACTIVATION");
    ("SAHPI_HS_CAUSE_SURPRISE_EXTRACTION", "CAUSE_SURPRISE_EXTRACTION");
    ("SAHPI_HS_CAUSE_EXTRACTION_UPDATE", "CAUSE_EXTRACTION_UPDATE");
    ("SAHPI_HS_CAUSE_HARDWARE_FAULT", "CAUSE_HARDWARE_FAULT");
    ("SAHPI_HS_CAUSE_CONTAINING_FRU", "CAUSE_CONTAINING_FRU");
    ("SAHPI_HS_CAUSE_UNKNOWN", "CAUSE_UNKNOWN")].

Definition OH_MAX_HSCAUSEOFSTATECHANGE : nat := 10.

Definition hscauseofstatechange_cases : list (Z * string) := Eval vm_compute in
  names SaHpiHsCauseOfStateChangeT [("SAHPI_HS_CAUSE_AUTO_POLICY", "CAUSE_AUTO_POLICY");
    ("SAHPI_HS_CAUSE_EXT_SOFTWARE", "CAUSE_EXT_SOFTWARE");
    ("SAHPI_HS_CAUSE_OPERATOR_INIT", "CAUSE_OPERATOR_INIT");
    ("SAHPI_HS_CAUSE_USER_UPDATE", "CAUSE_USER_UPDATE");
    ("SAHPI_HS_CAUSE_UNEXPECTED_DEACTIVATION", "CAUSE_UNEXPECTED_DEACTIVATION");
    ("SAHPI_HS_CAUSE_SURPRISE_EXTRACTION", "CAUSE_SURPRISE_EXTRACTION");
    ("SAHPI_HS_CAUSE_EXTRACTION_UPDATE", "CAUSE_EXTRACTION_UPDATE");
    ("SAHPI_HS_CAUSE_HARDWARE_FAULT", "CAUSE_HARDWARE_FAULT");
    ("SAHPI_HS_CAUSE_CONTAINING_FRU", "CAUSE_CONTAINING_FRU");
    ("SAHPI_HS_CAUSE_UNKNOWN", "CAUSE_UNKNOWN")].

Definition oh_lookup_hscauseofstatechange (value : Z) : option string :=
  switch hscauseofstatechange_cases value None.

Definition oh_encode_hscauseofstatechange : option string -> option Z -> Z * option Z :=
  encode_name hscauseofstatechange_strings OH_MAX_HSCAUSEOFSTATECHANGE (fun _ type => (SA_ERR_HPI_INVALID_DATA, type)).

Definition SaHpiSeverityT : list (string * Z) :=
  c_enum [("SAHPI_CRITICAL", Some 0);
    ("SAHPI_MAJOR", None);
    ("SAHPI_MINOR", None);
    ("SAHPI_INFORMATIONAL", None);
    ("SAHPI_OK", None);
    ("SAHPI_DEBUG", Some 240);
    ("SAHPI_ALL_SEVERITIES", Some 255);
    ("SAHPI_SEVERITY_MAX_VALID", Some 240)].

Definition severity_strings : list (Z * string) := Eval vm_compute in
  names SaHpiSeverityT [("SAHPI_CRITICAL", "CRITICAL");
    ("SAHPI_MAJOR", "MAJOR");
    ("SAHPI_MINOR", "MINOR");
    ("SAHPI_INFORMATIONAL", "INFORMATIONAL");
    ("SAHPI_OK", "OK");
    ("SAHPI_DEBUG", "DEBUG");
    ("SAHPI_ALL_SEVERITIES", "ALL_SEVERITIES")].

Definition OH_MAX_SEVERITY : nat := 7.

Definition severity_cases : list (Z * string) := Eval vm_compute in
  names SaHpiSeverityT [("SAHPI_CRITICAL", "CRITICAL");
    ("SAHPI_MAJOR", "MAJOR");
    ("SAHPI_MINOR", "MINOR");
    ("SAHPI_INFORMATIONAL", "INFORMATIONAL");
    ("SAHPI_OK", "OK");
    ("SAHPI_DEBUG", "DEBUG");
    ("SAHPI_ALL_SEVERITIES", "ALL_SEVERITIES")].

Definition oh_lookup_severity (value : Z) : option string :=
  switch severity_cases value None.

Definition oh_encode_severity : option string -> option Z -> Z * option Z :=
  encode_name severity_strings OH_MAX_SEVERITY (fun _ type => (SA_ERR_HPI_INVALID_DATA, type)).

Definition SaHpiResourceEventTypeT : list (string * Z) :=
  c_enum [("SAHPI_RESE_RESOURCE_FAILURE", None);
    ("SAHPI_RESE_RESOURCE_RESTORED", None);
    ("SAHPI_RESE_RESOURCE_ADDED", None);
    ("SAHPI_RESE_RESOURCE_REMOVED", None);
    ("SAHPI_RESE_RESOURCE_INACCESSIBLE", None);
    ("SAHPI_RESE_RESOURCE_UPDATED", None);
    ("SAHPI_RESE_TYPE_MAX_VALID", Some 5)].

Definition resourceeventtype_strings : list (Z * string) := Eval vm_compute in
  names SaHpiResourceEventTypeT [("SAHPI_RESE_RESOURCE_FAILURE", "FAILURE");
    ("SAHPI_RESE_RESOURCE_RESTORED", "RESTORED");
    ("SAHPI_RESE_RESOURCE_ADDED", "ADDED");
    ("SAHPI_RESE_RESOURCE_REMOVED", "REMOVED");
    ("SAHPI_RESE_RESOURCE_INACCESSIBLE", "INACCESSIBLE");
    ("SAHPI_RESE_RESOURCE_UPDATED", "UPDATED")].

Definition OH_MAX_RESOURCEEVENTTYPE : nat := 6.

Definition resourceeventtype_cases : list (Z * string) := Eval vm_compute in
  names SaHpiResourceEventTypeT [("SAHPI_RESE_RESOURCE_FAILURE", "FAILURE");
    ("SAHPI_RESE_RESOURCE_RESTORED", "RESTORED");
    ("SAHPI_RESE_RESOURCE_ADDED", "ADDED");
    ("SAHPI_RESE_RESOURCE_REMOVED", "REMOVED");
    ("SAHPI_RESE_RESOURCE_INACCESSIBLE", "INACCESSIBLE");
    ("SAHPI_RESE_RESOURCE_UPDATED", "UPDATED")].

Definition oh_lookup_resourceeventtype (value : Z) : option string :=
  switch resourceeventtype_cases value None.

Definition oh_encode_resourceeventtype : option string -> option Z -> Z * option Z :=
  encode_name resourceeventtype_strings OH_MAX_RESOURCEEVENTTYPE (fun _ type => (SA_ERR_HPI_INVALID_DATA, type)).

Definition SaHpiDomainEventTypeT : list (string * Z) :=
  c_enum [("SAHPI_DOMAIN_REF_ADDED", None);
    ("SAHPI_DOMAIN_REF_REMOVED", None);
    ("SAHPI_DOMAIN_EVENT_TYPE_MAX_VALID", Some 1)].

Definition domaineventtype_strings : list (Z * string) := Eval vm_compute in
  names SaHpiDomainEventTypeT [("SAHPI_DOMAIN_REF_ADDED", "ADDED");
    ("SAHPI_DOMAIN_REF_REMOVED", "REMOVED")].

Definition OH_MAX_DOMAINEVENTTYPE : nat := 2.

Definition domaineventtype_cases : list (Z * string) := Eval vm_compute in
  names SaHpiDomainEventTypeT [("SAHPI_DOMAIN_REF_ADDED", "ADDED");
    ("SAHPI_DOMAIN_REF_REMOVED", "REMOVED")].

Definition oh_lookup_domaineventtype (value : Z) : option string :=
  switch domaineventtype_cases value None.

Definition oh_encode_domaineventtype : option string -> option Z -> Z * option Z :=
  encode_name domaineventtype_strings OH_MAX_DOMAINEVENTTYPE (fun _ type => (SA_ERR_HPI_INVALID_DATA, type)).

Definition SaHpiSwEventTypeT : list (string * Z) :=
  c_enum [("SAHPI_HPIE_AUDIT", None);
    ("SAHPI_HPIE_STARTUP", None);
    ("SAHPI_HPIE_OTHER", None);
    ("SAHPI_HPIE_TYPE_MAX_VALID", Some 2)].

Definition sweventtype_strings : list (Z * string) := Eval vm_compute in
  names SaHpiSwEventTypeT [("SAHPI_HPIE_AUDIT", "AUDIT");
    ("SAHPI_HPIE_STARTUP", "STARTUP");
    ("SAHPI_HPIE_OTHER", "OTHER")].

Definition OH_MAX_SWEVENTTYPE : nat := 3.

Definition sweventtype_cases : list (Z * string) := Eval vm_compute in
  names SaHpiSwEventTypeT [("SAHPI_HPIE_AUDIT", "AUDIT");
    ("SAHPI_HPIE_STARTUP", "STARTUP");
    ("SAHPI_HPIE_OTHER", "OTHER")].

Definition oh_lookup_sweventtype (value : Z) : option string :=
  switch sweventtype_cases value None.

Definition oh_encode_sweventtype : option string -> option Z -> Z * option Z :=
  encode_name sweventtype_strings OH_MAX_SWEVENTTYPE (fun _ type => (SA_ERR_HPI_INVALID_DATA, type)).

Definition SaHpiEventTypeT : list (string * Z) :=
  c_enum [("SAHPI_ET_RESOURCE", None);
    ("SAHPI_ET_DOMAIN", None);
    ("SAHPI_ET_SENSOR", None);
    ("SAHPI_ET_SENSOR_ENABLE_CHANGE", None);
    ("SAHPI_ET_HOTSWAP", None);
    ("SAHPI_ET_WATCHDOG", None);
    ("SAHPI_ET_HPI_SW", None);
    ("SAHPI_ET_OEM", None);
    ("SAHPI_ET_USER", None);
    ("SAHPI_ET_DIMI", None);
    ("SAHPI_ET_DIMI_UPDATE", None);
    ("SAHPI_ET_FUMI", None);
    ("SAHPI_ET_MAX_VALID", Some 11)].

Definition eventtype_strings : list (Z * string) := Eval vm_compute in
  names SaHpiEventTypeT [("SAHPI_ET_RESOURCE", "RESOURCE");
    ("SAHPI_ET_DOMAIN", "DOMAIN");
    ("SAHPI_ET_SENSOR", "SENSOR");
    ("SAHPI_ET_SENSOR_ENABLE_CHANGE", "SENSOR_ENABLE_CHANGE");
    ("SAHPI_ET_HOTSWAP", "HOTSWAP");
    ("SAHPI_ET_WATCHDOG", "WATCHDOG");
    ("SAHPI_ET_HPI_SW", "HPI_SW");
    ("SAHPI_ET_OEM", "OEM");
    ("SAHPI_ET_USER", "USER");
    ("SAHPI_ET_DIMI", "DIMI");
    ("SAHPI_ET_DIMI_UPDATE", "DIMI_UPDATE");
    ("SAHPI_ET_FUMI", "FUMI")].

Definition OH_MAX_EVENTTYPE : nat := 12.

Definition eventtype_cases : list (Z * string) := Eval vm_compute in
  names SaHpiEventTypeT [("SAHPI_ET_RESOURCE", "RESOURCE");
    ("SAHPI_ET_DOMAIN", "DOMAIN");
    ("SAHPI_ET_SENSOR", "SENSOR");
    ("SAHPI_ET_SENSOR_ENABLE_CHANGE", "SENSOR_ENABLE_CHANGE");
    ("SAHPI_ET_HOTSWAP", "HOTSWAP");
    ("SAHPI_ET_WATCHDOG", "WATCHDOG");
    ("SAHPI_ET_HPI_SW", "HPI_SW");
    ("SAHPI_ET_OEM", "OEM");
    ("SAHPI_ET_USER", "USER");
    ("SAHPI_ET_DIMI", "DIMI");
    ("SAHPI_ET_DIMI_UPDATE", "DIMI_UPDATE");
    ("SAHPI_ET_FUMI", "FUMI")].

Definition oh_lookup_eventtype (value : Z) : option string :=
  switch eventtype_cases value None.

Definition oh_encode_eventtype : option string -> option Z -> Z * option Z :=
  encode_name eventtype_strings OH_MAX_EVENTTYPE (fun _ type => (SA_ERR_HPI_INVALID_DATA, type)).

Definition SaHpiStatusCondTypeT : list (string * Z) :=
  c_enum [("SAHPI_STATUS_COND_TYPE_SENSOR", None);
    ("SAHPI_STATUS_COND_TYPE_RESOURCE", None);
    ("SAHPI_STATUS_COND_TYPE_OEM", None);
    ("SAHPI_STATUS_COND_TYPE_USER", None);
    ("SAHPI_STATUS_COND_TYPE_MAX_VALID", Some 3)].

Definition statuscondtype_strings : list (Z * string) := Eval vm_compute in
  names SaHpiStatusCondTypeT [("SAHPI_STATUS_COND_TYPE_SENSOR", "SENSOR");
    ("SAHPI_STATUS_COND_TYPE_RESOURCE", "RESOURCE");
    ("SAHPI_STATUS_COND_TYPE_OEM", "OEM");
    ("SAHPI_STATUS_COND_TYPE_USER", "USER")].

Definition OH_MAX_STATUSCONDTYPE : nat := 4.

Definition statuscondtype_cases : list (Z * string) := Eval vm_compute in
  names SaHpiStatusCondTypeT [("SAHPI_STATUS_COND_TYPE_SENSOR", "SENSOR");
    ("SAHPI_STATUS_COND_TYPE_RESOURCE", "RESOURCE");
    ("SAHPI_STATUS_COND_TYPE_OEM", "OEM");
    ("SAHPI_STATUS_COND_TYPE_USER", "USER")].

Definition oh_lookup_statuscondtype (value : Z) : option string :=
  switch statuscondtype_cases value None.

Definition oh_encode_statuscondtype : option string -> option Z -> Z * option Z :=
  encode_name statuscondtype_strings OH_MAX_STATUSCONDTYPE (fun _ type => (SA_ERR_HPI_INVALID_DATA, type)).

Definition SaHpiAnnunciatorModeT : list (string * Z) :=
  c_enum [("SAHPI_ANNUNCIATOR_MODE_AUTO", None);
    ("SAHPI_ANNUNCIATOR_MODE_USER", None);
    ("SAHPI_ANNUNCIATOR_MODE_SHARED", None);
    ("SAHPI_ANNUNCIATOR_MODE_MAX_VALID", Some 2)].

Definition annunciatormode_strings : list (Z * string) := Eval vm_compute in
  names SaHpiAnnunciatorModeT [("SAHPI_ANNUNCIATOR_MODE_AUTO", "AUTO");
    ("SAHPI_ANNUNCIATOR_MODE_USER", "USER");
    ("SAHPI_ANNUNCIATOR_MODE_SHARED", "SHARED")].

Definition OH_MAX_ANNUNCIATORMODE : nat := 3.

Definition annunciatormode_cases : list (Z * string) := Eval vm_compute in
  names SaHpiAnnunciatorModeT [("SAHPI_ANNUNCIATOR_MODE_AUTO", "AUTO");
    ("SAHPI_ANNUNCIATOR_MODE_USER", "USER");
    ("SAHPI_ANNUNCIATOR_MODE_SHARED", "SHARED")].

Definition oh_lookup_annunciatormode (value : Z) : option string :=
  switch annunciatormode_cases value None.

Definition oh_encode_annunciatormode : option string -> option Z -> Z * option Z :=
  encode_name annunciatormode_strings OH_MAX_ANNUNCIATORMODE (fun _ type => (SA_ERR_HPI_INVALID_DATA, type)).

Definition SaHpiAnnunciatorTypeT : list (string * Z) :=
  c_enum [("SAHPI_ANNUNCIATOR_TYPE_LED", Some 0);
    ("SAHPI_ANNUNCIATOR_TYPE_DRY_CONTACT_CLOSURE", None);
    ("SAHPI_ANNUNCIATOR_TYPE_AUDIBLE", None);
    ("SAHPI_ANNUNCIATOR_TYPE_LCD_DISPLAY", None);
    ("SAHPI_ANNUNCIATOR_TYPE_MESSAGE", None);
    ("SAHPI_ANNUNCIATOR_TYPE_COMPOSITE", None);
    ("SAHPI_ANNUNCIATOR_TYPE_OEM", None);
    ("SAHPI_ANNUNCIATOR_TYPE_MAX_VALID", Some 6)].

Definition annunciatortype_strings : list (Z * string) := Eval vm_compute in
  names SaHpiAnnunciatorTypeT [("SAHPI_ANNUNCIATOR_TYPE_LED", "LED");
    ("SAHPI_ANNUNCIATOR_TYPE_DRY_CONTACT_CLOSURE", "DRY_CONTACT_CLOSURE");
    ("SAHPI_ANNUNCIATOR_TYPE_AUDIBLE", "AUDIBLE");
    ("SAHPI_ANNUNCIATOR_TYPE_LCD_DISPLAY", "LCD_DISPLAY");
    ("SAHPI_ANNUNCIATOR_TYPE_MESSAGE", "MESSAGE");
    ("SAHPI_ANNUNCIATOR_TYPE_COMPOSITE", "COMPOSITE");
    ("SAHPI_ANNUNCIATOR_TYPE_OEM", "OEM")].

Definition OH_MAX_ANNUNCIATORTYPE : nat := 7.

Definition annunciatortype_cases : list (Z * string) := Eval vm_compute in
  names SaHpiAnnunciatorTypeT [("SAHPI_ANNUNCIATOR_TYPE_LED", "LED");
    ("SAHPI_ANNUNCIATOR_TYPE_DRY_CONTACT_CLOSURE", "DRY_CONTACT_CLOSURE");
    ("SAHPI_ANNUNCIATOR_TYPE_AUDIBLE", "AUDIBLE");
    ("SAHPI_ANNUNCIATOR_TYPE_LCD_DISPLAY", "LCD_DISPLAY");
    ("SAHPI_ANNUNCIATOR_TYPE_MESSAGE", "MESSAGE");
    ("SAHPI_ANNUNCIATOR_TYPE_COMPOSITE", "COMPOSITE");
    ("SAHPI_ANNUNCIATOR_TYPE_OEM", "OEM")].

Definition oh_lookup_annunciatortype (value : Z) : option string :=
  switch annunciatortype_cases value None.

Definition oh_encode_annunciatortype : option string -> option Z -> Z * option Z :=
  encode_name annunciatortype_strings OH_MAX_ANNUNCIATORTYPE (fun _ type => (SA_ERR_HPI_INVALID_DATA, type)).

Definition SaHpiRdrTypeT : list (string * Z) :=
  c_enum [("SAHPI_NO_RECORD", None);
    ("SAHPI_CTRL_RDR", None);
    ("SAHPI_SENSOR_RDR", None);
    ("SAHPI_INVENTORY_RDR", None);
    ("SAHPI_WATCHDOG_RDR", None);
    ("SAHPI_ANNUNCIATOR_RDR", None);
    ("SAHPI_DIMI_RDR", None);
    ("SAHPI_FUMI_RDR", None);
    ("SAHPI_RDR_TYPE_MAX_VALID", Some 7)].

Definition rdrtype_strings : list (Z * string) := Eval vm_compute in
  names SaHpiRdrTypeT [("SAHPI_NO_RECORD", "NO_RECORD");
    ("SAHPI_CTRL_RDR", "CTRL_RDR");
    ("SAHPI_SENSOR_RDR", "SENSOR_RDR");
    ("SAHPI_INVENTORY_RDR", "INVENTORY_RDR");
    ("SAHPI_WATCHDOG_RDR", "WATCHDOG_RDR");
    ("SAHPI_ANNUNCIATOR_RDR", "ANNUNCIATOR_RDR");
    ("SAHPI_DIMI_RDR", "DIMI_RDR");
    ("SAHPI_FUMI_RDR", "FUMI_RDR")].

Definition OH_MAX_RDRTYPE : nat := 8.

Definition rdrtype_cases : list (Z * string) := Eval vm_compute in
  names SaHpiRdrTypeT [("SAHPI_NO_RECORD", "NO_RECORD");
    ("SAHPI_CTRL_RDR", "CTRL_RDR");
    ("SAHPI_SENSOR_RDR", "SENSOR_RDR");
    ("SAHPI_INVENTORY_RDR", "INVENTORY_RDR");
    ("SAHPI_WATCHDOG_RDR", "WATCHDOG_RDR");
    ("SAHPI_ANNUNCIATOR_RDR", "ANNUNCIATOR_RDR");
    ("SAHPI_DIMI_RDR", "DIMI_RDR");
    ("SAHPI_FUMI_RDR", "FUMI_RDR")].

Definition oh_lookup_rdrtype (value : Z) : option string :=
  switch rdrtype_cases value None.

Definition oh_encode_rdrtype : option string -> option Z -> Z * option Z :=
  encode_name rdrtype_strings OH_MAX_RDRTYPE (fun _ type => (SA_ERR_HPI_INVALID_DATA, type)).

Definition SaHpiParmActionT : list (string * Z) :=
  c_enum [("SAHPI_DEFAULT_PARM", Some 0);
    ("SAHPI_SAVE_PARM", None);
    ("SAHPI_RESTORE_PARM", None);
    ("SAHPI_PARM_ACTION_MAX_VALID", Some 2)].

Definition parmaction_strings : list (Z * string) := Eval vm_compute in
  names SaHpiParmActionT [("SAHPI_DEFAULT_PARM", "DEFAULT_PARM");
    ("SAHPI_SAVE_PARM", "SAVE_PARM");
    ("SAHPI_RESTORE_PARM", "RESTORE_PARM")].

Definition OH_MAX_PARMACTION : nat := 3.

Definition parmaction_cases : list (Z * string) := Eval vm_compute in
  names SaHpiParmActionT [("SAHPI_DEFAULT_PARM", "DEFAULT_PARM");
    ("SAHPI_SAVE_PARM", "SAVE_PARM");
    ("SAHPI_RESTORE_PARM", "RESTORE_PARM")].

Definition oh_lookup_parmaction (value : Z) : option string :=
  switch parmaction_cases value None.

Definition oh_encode_parmaction : option string -> option Z -> Z * option Z :=
  encode_name parmaction_strings OH_MAX_PARMACTION (fun _ type => (SA_ERR_HPI_INVALID_DATA, type)).

Definition SaHpiResetActionT : list (string * Z) :=
  c_enum [("SAHPI_COLD_RESET", Some 0);
    ("SAHPI_WARM_RESET", None);
    ("SAHPI_RESET_ASSERT", None);
    ("SAHPI_RESET_DEASSERT", None);
    ("SAHPI_RESET_MAX_VALID", Some 3)].

Definition resetaction_strings : list (Z * string) := Eval vm_compute in
  names SaHpiResetActionT [("SAHPI_COLD_RESET", "COLD_RESET");
    ("SAHPI_WARM_RESET", "WARM_RESET");
    ("SAHPI_RESET_ASSERT", "RESET_ASSERT");
    ("SAHPI_RESET_DEASSERT", "RESET_DEASSERT")].

Definition OH_MAX_RESETACTION : nat := 4.

Definition resetaction_cases : list (Z * string) := Eval vm_compute in
  names SaHpiResetActionT [("SAHPI_COLD_RESET", "COLD_RESET");
    ("SAHPI_WARM_RESET", "WARM_RESET");
    ("SAHPI_RESET_ASSERT", "RESET_ASSERT");
    ("SAHPI_RESET_DEASSERT", "RESET_DEASSERT")].

Definition oh_lookup_resetaction (value : Z) : option string :=
  switch resetaction_cases value None.

Definition oh_encode_resetaction : option string -> option Z -> Z * option Z :=
  encode_name resetaction_strings OH_MAX_RESETACTION (fun _ type => (SA_ERR_HPI_INVALID_DATA, type)).

Definition SaHpiPowerStateT : list (string * Z) :=
  c_enum [("SAHPI_POWER_OFF", Some 0);
    ("SAHPI_POWER_ON", None);
    ("SAHPI_POWER_CYCLE", None);
    ("SAHPI_POWER_STATE_MAX_VALID", Some 2)].

Definition powerstate_strings : list (Z * string) := Eval vm_compute in
  names SaHpiPowerStateT [("SAHPI_POWER_OFF", "OFF");
    ("SAHPI_POWER_ON", "ON");
    ("SAHPI_POWER_CYCLE", "CYCLE")].

Definition OH_MAX_POWERSTATE : nat := 3.

Definition powerstate_cases : list (Z * string) := Eval vm_compute in
  names SaHpiPowerStateT [("SAHPI_POWER_OFF", "OFF");
    ("SAHPI_POWER_ON", "ON");
    ("SAHPI_POWER_CYCLE", "CYCLE")].

Definition oh_lookup_powerstate (value : Z) : option string :=
  switch powerstate_cases value None.

Definition oh_encode_powerstate : option string -> option Z -> Z * option Z :=
  encode_name powerstate_strings OH_MAX_POWERSTATE (fun _ type => (SA_ERR_HPI_INVALID_DATA, type)).

Definition SaHpiEventLogOverflowActionT : list (string * Z) :=
  c_enum [("SAHPI_EL_OVERFLOW_DROP", None);
    ("SAHPI_EL_OVERFLOW_OVERWRITE", None);
    ("SAHPI_EL_OVERFLOW_ACTION_MAX_TYPE", Some 1)].

Definition eventlogoverflowaction_strings : list (Z * string) := Eval vm_compute in
  names SaHpiEventLogOverflowActionT [("SAHPI_EL_OVERFLOW_DROP", "OVERFLOW_DROP");
    ("SAHPI_EL_OVERFLOW_OVERWRITE", "OVERFLOW_OVERWRITE")].

Definition OH_MAX_EVENTLOGOVERFLOWACTION : nat := 2.

Definition eventlogoverflowaction_cases : list (Z * string) := Eval vm_compute in
  names SaHpiEventLogOverflowActionT [("SAHPI_EL_OVERFLOW_DROP", "OVERFLOW_DROP");
    ("SAHPI_EL_OVERFLOW_OVERWRITE", "OVERFLOW_OVERWRITE")].

Definition oh_lookup_eventlogoverflowaction (value : Z) : option string :=
  switch eventlogoverflowaction_cases value None.

Definition oh_encode_eventlogoverflowaction : option string -> option Z -> Z * option Z :=
  encode_name eventlogoverflowaction_strings OH_MAX_EVENTLOGOVERFLOWACTION (fun _ type => (SA_ERR_HPI_INVALID_DATA, type)).

Definition SaErrorT : list (string * Z) :=
  [("SA_OK", 0);
    ("SA_ERR_HPI_ERROR", (-1001));
    ("SA_ERR_HPI_UNSUPPORTED_API", (-1002));
    ("SA_ERR_HPI_BUSY", (-1003));
    ("SA_ERR_HPI_INTERNAL_ERROR", (-1004));
    ("SA_ERR_HPI_INVALID_CMD", (-1005));
    ("SA_ERR_HPI_TIMEOUT", (-1006));
    ("SA_ERR_HPI_OUT_OF_SPACE", (-1007));
    ("SA_ERR_HPI_OUT_OF_MEMORY", (-1008));
    ("SA_ERR_HPI_INVALID_PARAMS", (-1009));
    ("SA_ERR_HPI_INVALID_DATA", (-1010));
    ("SA_ERR_HPI_NOT_PRESENT", (-1011));
    ("SA_ERR_HPI_NO_RESPONSE", (-1012));
    ("SA_ERR_HPI_DUPLICATE", (-1013));
    ("SA_ERR_HPI_INVALID_SESSION", (-1014));
    ("SA_ERR_HPI_INVALID_DOMAIN", (-1015));
    ("SA_ERR_HPI_INVALID_RESOURCE", (-1016));
    ("SA_ERR_HPI_INVALID_REQUEST", (-1017));
    ("SA_ERR_HPI_ENTITY_NOT_PRESENT", (-1018));
    ("SA_ERR_HPI_READ_ONLY", (-1019));
    ("SA_ERR_HPI_CAPABILITY", (-1020));
    ("SA_ERR_HPI_UNKNOWN", (-1021));
    ("SA_ERR_HPI_INVALID_STATE", (-1022));
    ("SA_ERR_HPI_UNSUPPORTED_PARAMS", (-1023))].

Definition error_strings : list (Z * string) := Eval vm_compute in
  names SaErrorT [("SA_OK", "SA_OK");
    ("SA_ERR_HPI_ERROR", "ERROR");
    ("SA_ERR_HPI_UNSUPPORTED_API", "UNSUPPORTED_API");
    ("SA_ERR_HPI_BUSY", "BUSY");
    ("SA_ERR_HPI_INTERNAL_ERROR", "INTERNAL_ERROR");
    ("SA_ERR_HPI_INVALID_CMD", "INVALID_CMD");
    ("SA_ERR_HPI_TIMEOUT", "TIMEOUT");
    ("SA_ERR_HPI_OUT_OF_SPACE", "OUT_OF_SPACE");
    ("SA_ERR_HPI_OUT_OF_MEMORY", "OUT_OF_MEMORY");
    ("SA_ERR_HPI_INVALID_PARAMS", "INVALID_PARAMS");
    ("SA_ERR_HPI_INVALID_DATA", "INVALID_DATA");
    ("SA_ERR_HPI_NOT_PRESENT", "NOT_PRESENT");
    ("SA_ERR_HPI_NO_RESPONSE", "NO_RESPONSE");
    ("SA_ERR_HPI_DUPLICATE", "DUPLICATE");
    ("SA_ERR_HPI_INVALID_SESSION", "INVALID_SESSION");
    ("SA_ERR_HPI_INVALID_DOMAIN", "INVALID_DOMAIN");
    ("SA_ERR_HPI_INVALID_RESOURCE", "INVALID_RESOURCE");
    ("SA_ERR_HPI_INVALID_REQUEST", "INVALID_REQUEST");
    ("SA_ERR_HPI_ENTITY_NOT_PRESENT", "ENTITY_NOT_PRESENT");
    ("SA_ERR_HPI_READ_ONLY", "READ_ONLY");
    ("SA_ERR_HPI_CAPABILITY", "CAPABILITY");
    ("SA_ERR_HPI_UNKNOWN", "UNKNOWN");
    ("SA_ERR_HPI_INVALID_STATE", "INVALID_STATE");
    ("SA_ERR_HPI_UNSUPPORTED_PARAMS", "UNSUPPORTED_PARAMS")].

Definition OH_MAX_ERROR : nat := 24.

Definition error_cases : list (Z * string) := Eval vm_compute in
  names SaErrorT [("SA_OK", "SA_OK");
    ("SA_ERR_HPI_ERROR", "ERROR");
    ("SA_ERR_HPI_UNSUPPORTED_API", "UNSUPPORTED_API");
    ("SA_ERR_HPI_BUSY", "BUSY");
    ("SA_ERR_HPI_INTERNAL_ERROR", "INTERNAL_ERROR");
    ("SA_ERR_HPI_INVALID_CMD", "INVALID_CMD");
    ("SA_ERR_HPI_TIMEOUT", "TIMEOUT");
    ("SA_ERR_HPI_OUT_OF_SPACE", "OUT_OF_SPACE");
    ("SA_ERR_HPI_OUT_OF_MEMORY", "OUT_OF_MEMORY");
    ("SA_ERR_HPI_INVALID_PARAMS", "INVALID_PARAMS");
    ("SA_ERR_HPI_INVALID_DATA", "INVALID_DATA");
    ("SA_ERR_HPI_NOT_PRESENT", "NOT_PRESENT");
    ("SA_ERR_HPI_NO_RESPONSE", "NO_RESPONSE");
    ("SA_ERR_HPI_DUPLICATE", "DUPLICATE");
    ("SA_ERR_HPI_INVALID_SESSION", "INVALID_SESSION");
    ("SA_ERR_HPI_INVALID_DOMAIN", "INVALID_DOMAIN");
    ("SA_ERR_HPI_INVALID_RESOURCE", "INVALID_RESOURCE");
    ("SA_ERR_HPI_INVALID_REQUEST", "INVALID_REQUEST");
    ("SA_ERR_HPI_ENTITY_NOT_PRESENT", "ENTITY_NOT_PRESENT");
    ("SA_ERR_HPI_READ_ONLY", "READ_ONLY");
    ("SA_ERR_HPI_CAPABILITY", "CAPABILITY");
    ("SA_ERR_HPI_UNKNOWN", "UNKNOWN");
    ("SA_ERR_HPI_INVALID_STATE", "INVALID_STATE");
    ("SA_ERR_HPI_UNSUPPORTED_PARAMS", "UNSUPPORTED_PARAMS")].

Definition oh_lookup_error (value : Z) : option string :=
  switch error_cases value None.

Definition oh_encode_error : option string -> option Z -> Z * option Z :=
  encode_name error_strings OH_MAX_ERROR (fun _ type => (SA_ERR_HPI_INVALID_DATA, type)).

Definition SaHpiEventCategoryT : list (string * Z) :=
  [("SAHPI_EC_UNSPECIFIED", 0);
    ("SAHPI_EC_THRESHOLD", 1);
    ("SAHPI_EC_USAGE", 2);
    ("SAHPI_EC_STATE", 3);
    ("SAHPI_EC_PRED_FAIL", 4);
    ("SAHPI_EC_LIMIT", 5);
    ("SAHPI_EC_PERFORMANCE", 6);
    ("SAHPI_EC_SEVERITY", 7);
    ("SAHPI_EC_PRESENCE", 8);
    ("SAHPI_EC_ENABLE", 9);
    ("SAHPI_EC_AVAILABILITY", 10);
    ("SAHPI_EC_REDUNDANCY", 11);
    ("SAHPI_EC_SENSOR_SPECIFIC", 126);
    ("SAHPI_EC_GENERIC", 127)].

Definition eventcategory_strings : list (Z * string) := Eval vm_compute in
  names SaHpiEventCategoryT [("SAHPI_EC_UNSPECIFIED", "UNSPECIFIED");
    ("SAHPI_EC_THRESHOLD", "THRESHOLD");
    ("SAHPI_EC_USAGE", "USAGE");
    ("SAHPI_EC_STATE", "STATE");
    ("SAHPI_EC_PRED_FAIL", "PRED_FAIL");
    ("SAHPI_EC_LIMIT", "LIMIT");
    ("SAHPI_EC_PERFORMANCE", "PERFORMANCE");
    ("SAHPI_EC_SEVERITY", "SEVERITY");
    ("SAHPI_EC_PRESENCE", "PRESENCE");
    ("SAHPI_EC_ENABLE", "ENABLE");
    ("SAHPI_EC_AVAILABILITY", "AVAILABILITY");
    ("SAHPI_EC_REDUNDANCY", "REDUNDANCY");
    ("SAHPI_EC_SENSOR_SPECIFIC", "SENSOR_SPECIFIC");
    ("SAHPI_EC_GENERIC", "GENERIC")].

Definition OH_MAX_EVENTCATEGORY : nat := 14.

Definition eventcategory_cases : list (Z * string) := Eval vm_compute in
  names SaHpiEventCategoryT [("SAHPI_EC_UNSPECIFIED", "UNSPECIFIED");
    ("SAHPI_EC_THRESHOLD", "THRESHOLD");
    ("SAHPI_EC_USAGE", "USAGE");
    ("SAHPI_EC_STATE", "STATE");
    ("SAHPI_EC_PRED_FAIL", "PRED_FAIL");
    ("SAHPI_EC_LIMIT", "LIMIT");
    ("SAHPI_EC_PERFORMANCE", "PERFORMANCE");
    ("SAHPI_EC_SEVERITY", "SEVERITY");
    ("SAHPI_EC_PRESENCE", "PRESENCE");
    ("SAHPI_EC_ENABLE", "ENABLE");
    ("SAHPI_EC_AVAILABILITY", "AVAILABILITY");
    ("SAHPI_EC_REDUNDANCY", "REDUNDANCY");
    ("SAHPI_EC_SENSOR_SPECIFIC", "SENSOR_SPECIFIC");
    ("SAHPI_EC_GENERIC", "GENERIC")].

Definition oh_lookup_eventcategory (value : Z) : option string :=
  switch eventcategory_cases value None.

Definition oh_encode_eventcategory : option string -> option Z -> Z * option Z :=
  encode_name eventcategory_strings OH_MAX_EVENTCATEGORY (fun _ type => (SA_ERR_HPI_INVALID_DATA, type)).

(** * utils/sahpiatca_enum_utils.c *)

Definition AtcaHpiLedColorT : list (string * Z) :=
  c_enum [("ATCAHPI_LED_COLOR_RESERVED", Some 0);
    ("ATCAHPI_LED_COLOR_BLUE", None);
    ("ATCAHPI_LED_COLOR_RED", None);
    ("ATCAHPI_LED_COLOR_GREEN", None);
    ("ATCAHPI_LED_COLOR_AMBER", None);
    ("ATCAHPI_LED_COLOR_ORANGE", None);
    ("ATCAHPI_LED_COLOR_WHITE", None);
    ("ATCAHPI_LED_COLOR_NO_CHANGE", Some 14);
    ("ATCAHPI_LED_COLOR_USE_DEFAULT", Some 15)].

Definition atcahpiledcolor_strings : list (Z * string) := Eval vm_compute in
  names AtcaHpiLedColorT [("ATCAHPI_LED_COLOR_RESERVED", "COLOR_RESERVED");
    ("ATCAHPI_LED_COLOR_BLUE", "COLOR_BLUE");
    ("ATCAHPI_LED_COLOR_RED", "COLOR_RED");
    ("ATCAHPI_LED_COLOR_GREEN", "COLOR_GREEN");
    ("ATCAHPI_LED_COLOR_AMBER", "COLOR_AMBER");
    ("ATCAHPI_LED_COLOR_ORANGE", "COLOR_ORANGE");
    ("ATCAHPI_LED_COLOR_WHITE", "COLOR_WHITE");
    ("ATCAHPI_LED_COLOR_NO_CHANGE", "COLOR_NO_CHANGE");
    ("ATCAHPI_LED_COLOR_USE_DEFAULT", "COLOR_USE_DEFAULT")].

Definition OH_MAX_ATCAHPILEDCOLOR : nat := 9.

Definition atcahpiledcolor_cases : list (Z * string) := Eval vm_compute in
  names AtcaHpiLedColorT [("ATCAHPI_LED_COLOR_RESERVED", "COLOR_RESERVED");
    ("ATCAHPI_LED_COLOR_BLUE", "COLOR_BLUE");
    ("ATCAHPI_LED_COLOR_RED", "COLOR_RED");
    ("ATCAHPI_LED_COLOR_GREEN", "COLOR_GREEN");
    ("ATCAHPI_LED_COLOR_AMBER", "COLOR_AMBER");
    ("ATCAHPI_LED_COLOR_ORANGE", "COLOR_ORANGE");
    ("ATCAHPI_LED_COLOR_WHITE", "COLOR_WHITE");
    ("ATCAHPI_LED_COLOR_NO_CHANGE", "COLOR_NO_CHANGE");
    ("ATCAHPI_LED_COLOR_USE_DEFAULT", "COLOR_USE_DEFAULT")].

Definition oh_lookup_atcahpiledcolor (value : Z) : option string :=
  switch atcahpiledcolor_cases value None.

Definition oh_encode_atcahpiledcolor : option string -> option Z -> Z * option Z :=
  encode_name atcahpiledcolor_strings OH_MAX_ATCAHPILEDCOLOR (fun _ type => (SA_ERR_HPI_INVALID_DATA, type)).

Definition AtcaHpiResourceLedModeT : list (string * Z) :=
  c_enum [("ATCAHPI_LED_AUTO", None);
    ("ATCAHPI_LED_MANUAL", None);
    ("ATCAHPI_LED_LAMP_TEST", None)].

Definition atcahpiresourceledmode_strings : list (Z * string) := Eval vm_compute in
  names AtcaHpiResourceLedModeT [("ATCAHPI_LED_AUTO", "AUTO");
    ("ATCAHPI_LED_MANUAL", "MANUAL");
    ("ATCAHPI_LED_LAMP_TEST", "LAMP_TEST")].

Definition OH_MAX_ATCAHPIRESOURCELEDMODE : nat := 3.

Definition atcahpiresourceledmode_cases : list (Z * string) := Eval vm_compute in
  names AtcaHpiResourceLedModeT [("ATCAHPI_LED_AUTO", "AUTO");
    ("ATCAHPI_LED_MANUAL", "MANUAL");
    ("ATCAHPI_LED_LAMP_TEST", "LAMP_TEST")].

Definition oh_lookup_atcahpiresourceledmode (value : Z) : option string :=
  switch atcahpiresourceledmode_cases value None.

Definition oh_encode_atcahpiresourceledmode : option string -> option Z -> Z * option Z :=
  encode_name atcahpiresourceledmode_strings OH_MAX_ATCAHPIRESOURCELEDMODE (fun _ type => (SA_ERR_HPI_INVALID_DATA, type)).

Definition AtcaHpiLedBrSupportT : list (string * Z) :=
  c_enum [("ATCAHPI_LED_BR_SUPPORTED", None);
    ("ATCAHPI_LED_BR_NOT_SUPPORTED", None);
    ("ATCAHPI_LED_BR_UNKNOWN", None)].

Definition atcahpiledbrsupport_strings : list (Z * string) := Eval vm_compute in
  names AtcaHpiLedBrSupportT [("ATCAHPI_LED_BR_SUPPORTED", "BR_SUPPORTED");
    ("ATCAHPI_LED_BR_NOT_SUPPORTED", "BR_NOT_SUPPORTED");
    ("ATCAHPI_LED_BR_UNKNOWN", "BR_UNKNOWN")].

Definition OH_MAX_ATCAHPILEDBRSUPPORT : nat := 3.

Definition atcahpiledbrsupport_cases : list (Z * string) := Eval vm_compute in
  names AtcaHpiLedBrSupportT [("ATCAHPI_LED_BR_SUPPORTED", "BR_SUPPORTED");
    ("ATCAHPI_LED_BR_NOT_SUPPORTED", "BR_NOT_SUPPORTED");
    ("ATCAHPI_LED_BR_UNKNOWN", "BR_UNKNOWN")].

Definition oh_lookup_atcahpiledbrsupport (value : Z) : option string :=
  switch atcahpiledbrsupport_cases value None.

Definition oh_encode_atcahpiledbrsupport : option string -> option Z -> Z * option Z :=
  encode_name atcahpiledbrsupport_strings OH_MAX_ATCAHPILEDBRSUPPORT (fun _ type => (SA_ERR_HPI_INVALID_DATA, type)).

Definition AtcaHpiEntityTypeT : list (string * Z) :=
  [("ATCAHPI_ENT_POWER_ENTRY_MODULE_SLOT", 145);
    ("ATCAHPI_ENT_SHELF_FRU_DEVICE_SLOT", 146);
    ("ATCAHPI_ENT_SHELF_MANAGER_SLOT", 147);
    ("ATCAHPI_ENT_FAN_TRAY_SLOT", 148);
    ("ATCAHPI_ENT_FAN_FILTER_TRAY_SLOT", 149);
    ("ATCAHPI_ENT_ALARM_SLOT", 150);
    ("ATCAHPI_ENT_AMC_SLOT", 151);
    ("ATCAHPI_ENT_PMC_SLOT", 152);
    ("ATCAHPI_ENT_RTM_SLOT", 153);
    ("ATCAHPI_ENT_PICMG_FRONT_BLADE", 65558);
    ("ATCAHPI_ENT_SHELF_FRU_DEVICE", 65559);
    ("ATCAHPI_ENT_FILTRATION_UNIT", 65560);
    ("ATCAHPI_ENT_AMC", 65561)].

Definition atcahpientitytype_strings : list (Z * string) := Eval vm_compute in
  names AtcaHpiEntityTypeT [("ATCAHPI_ENT_POWER_ENTRY_MODULE_SLOT", "POWER_ENTRY_MODULE_SLOT");
    ("ATCAHPI_ENT_SHELF_FRU_DEVICE_SLOT", "SHELF_FRU_DEVICE_SLOT");
    ("ATCAHPI_ENT_SHELF_MANAGER_SLOT", "SHELF_MANAGER_SLOT");
    ("ATCAHPI_ENT_FAN_TRAY_SLOT", "FAN_TRAY_SLOT");
    ("ATCAHPI_ENT_FAN_FILTER_TRAY_SLOT", "FAN_FILTER_TRAY_SLOT");
    ("ATCAHPI_ENT_ALARM_SLOT", "ALARM_SLOT");
    ("ATCAHPI_ENT_AMC_SLOT", "AMC_SLOT");
    ("ATCAHPI_ENT_PMC_SLOT", "PMC_SLOT");
    ("ATCAHPI_ENT_RTM_SLOT", "RTM_SLOT");
    ("ATCAHPI_ENT_PICMG_FRONT_BLADE", "PICMG_FRONT_BLADE");
    ("ATCAHPI_ENT_SHELF_FRU_DEVICE", "SHELF_FRU_DEVICE");
    ("ATCAHPI_ENT_FILTRATION_UNIT", "FILTRATION_UNIT");
    ("ATCAHPI_ENT_AMC", "AMC")].

Definition OH_MAX_ATCAHPIENTITYTYPE : nat := 13.

Definition atcahpientitytype_cases : list (Z * string) := Eval vm_compute in
  names AtcaHpiEntityTypeT [("ATCAHPI_ENT_POWER_ENTRY_MODULE_SLOT", "POWER_ENTRY_MODULE_SLOT");
    ("ATCAHPI_ENT_SHELF_FRU_DEVICE_SLOT", "SHELF_FRU_DEVICE_SLOT");
    ("ATCAHPI_ENT_SHELF_MANAGER_SLOT", "SHELF_MANAGER_SLOT");
    ("ATCAHPI_ENT_FAN_TRAY_SLOT", "FAN_TRAY_SLOT");
    ("ATCAHPI_ENT_FAN_FILTER_TRAY_SLOT", "FAN_FILTER_TRAY_SLOT");
    ("ATCAHPI_ENT_ALARM_SLOT", "ALARM_SLOT");
    ("ATCAHPI_ENT_AMC_SLOT", "AMC_SLOT");
    ("ATCAHPI_ENT_PMC_SLOT", "PMC_SLOT");
    ("ATCAHPI_ENT_RTM_SLOT", "RTM_SLOT");
    ("ATCAHPI_ENT_PICMG_FRONT_BLADE", "PICMG_FRONT_BLADE");
    ("ATCAHPI_ENT_SHELF_FRU_DEVICE", "SHELF_FRU_DEVICE");
    ("ATCAHPI_ENT_FILTRATION_UNIT", "FILTRATION_UNIT");
    ("ATCAHPI_ENT_AMC", "AMC")].

Definition oh_lookup_atcahpientitytype (value : Z) : option string :=
  switch atcahpientitytype_cases value None.

Definition oh_encode_atcahpientitytype : option string -> option Z -> Z * option Z :=
  encode_name atcahpientitytype_strings OH_MAX_ATCAHPIENTITYTYPE (fun _ type => (SA_ERR_HPI_INVALID_DATA, type)).

(** * The tables *)

(** [nt_more] are the rows of the table that the last resort searches. *)
Record name_table := {
  nt_values : list (string * Z);
  nt_strings : list (Z * string);
  nt_max : nat;
  nt_more : list (Z * string);
  nt_lookup : Z -> option string;
  nt_encode : option string -> option Z -> Z * option Z
}.

Definition name_tables : list (string * name_table) :=
  [("xtcahpiledcolor", {| nt_values := XtcaHpiLedColorT; nt_strings := xtcahpiledcolor_strings; nt_max := OH_MAX_XTCAHPILEDCOLOR;
    nt_more := []; nt_lookup := oh_lookup_xtcahpiledcolor; nt_encode := oh_encode_xtcahpiledcolor |});
   ("xtcahpiresourceledmode", {| nt_values := XtcaHpiResourceLedModeT; nt_strings := xtcahpiresourceledmode_strings; nt_max := OH_MAX_XTCAHPIRESOURCELEDMODE;
    nt_more := []; nt_lookup := oh_lookup_xtcahpiresourceledmode; nt_encode := oh_encode_xtcahpiresourceledmode |});
   ("xtcahpiledbrsupport", {| nt_values := XtcaHpiLedBrSupportT; nt_strings := xtcahpiledbrsupport_strings; nt_max := OH_MAX_XTCAHPILEDBRSUPPORT;
    nt_more := []; nt_lookup := oh_lookup_xtcahpiledbrsupport; nt_encode := oh_encode_xtcahpiledbrsupport |});
   ("xtcahpientitytype", {| nt_values := XtcaHpiEntityTypeT; nt_strings := xtcahpientitytype_strings; nt_max := OH_MAX_XTCAHPIENTITYTYPE;
    nt_more := []; nt_lookup := oh_lookup_xtcahpientitytype; nt_encode := oh_encode_xtcahpientitytype |});
   ("language", {| nt_values := SaHpiLanguageT; nt_strings := language_strings; nt_max := OH_MAX_LANGUAGE;
    nt_more := []; nt_lookup := oh_lookup_language; nt_encode := oh_encode_language |});
   ("texttype", {| nt_values := SaHpiTextTypeT; nt_strings := texttype_strings; nt_max := OH_MAX_TEXTTYPE;
    nt_more := []; nt_lookup := oh_lookup_texttype; nt_encode := oh_encode_texttype |});
   ("entitytype", {| nt_values := SaHpiEntityTypeT; nt_strings := entitytype_strings; nt_max := OH_MAX_ENTITYTYPE;
    nt_more := xtcahpientitytype_strings; nt_lookup := oh_lookup_entitytype; nt_encode := oh_encode_entitytype |});
   ("sensortype", {| nt_values := SaHpiSensorTypeT; nt_strings := sensortype_strings; nt_max := OH_MAX_SENSORTYPE;
    nt_more := []; nt_lookup := oh_lookup_sensortype; nt_encode := oh_encode_sensortype |});
   ("sensorreadingtype", {| nt_values := SaHpiSensorReadingTypeT; nt_strings := sensorreadingtype_strings; nt_max := OH_MAX_SENSORREADINGTYPE;
    nt_more := []; nt_lookup := oh_lookup_sensorreadingtype; nt_encode := oh_encode_sensorreadingtype |});
   ("sensoreventmaskaction", {| nt_values := SaHpiSensorEventMaskActionT; nt_strings := sensoreventmaskaction_strings; nt_max := OH_MAX_SENSOREVENTMASKACTION;
    nt_more := []; nt_lookup := oh_lookup_sensoreventmaskaction; nt_encode := oh_encode_sensoreventmaskaction |});
   ("sensorunits", {| nt_values := SaHpiSensorUnitsT; nt_strings := sensorunits_strings; nt_max := OH_MAX_SENSORUNITS;
    nt_more := []; nt_lookup := oh_lookup_sensorunits; nt_encode := oh_encode_sensorunits |});
   ("sensormodunituse", {| nt_values := SaHpiSensorModUnitUseT; nt_strings := sensormodunituse_strings; nt_max := OH_MAX_SENSORMODUNITUSE;
    nt_more := []; nt_lookup := oh_lookup_sensormodunituse; nt_encode := oh_encode_sensormodunituse |});
   ("sensoreventctrl", {| nt_values := SaHpiSensorEventCtrlT; nt_strings := sensoreventctrl_strings; nt_max := OH_MAX_SENSOREVENTCTRL;
    nt_more := []; nt_lookup := oh_lookup_sensoreventctrl; nt_encode := oh_encode_sensoreventctrl |});
   ("ctrltype", {| nt_values := SaHpiCtrlTypeT; nt_strings := ctrltype_strings; nt_max := OH_MAX_CTRLTYPE;
    nt_more := []; nt_lookup := oh_lookup_ctrltype; nt_encode := oh_encode_ctrltype |});
   ("ctrlstatedigital", {| nt_values := SaHpiCtrlStateDigitalT; nt_strings := ctrlstatedigital_strings; nt_max := OH_MAX_CTRLSTATEDIGITAL;
    nt_more := []; nt_lookup := oh_lookup_ctrlstatedigital; nt_encode := oh_encode_ctrlstatedigital |});
   ("ctrlmode", {| nt_values := SaHpiCtrlModeT; nt_strings := ctrlmode_strings; nt_max := OH_MAX_CTRLMODE;
    nt_more := []; nt_lookup := oh_lookup_ctrlmode; nt_encode := oh_encode_ctrlmode |});
   ("ctrloutputtype", {| nt_values := SaHpiCtrlOutputTypeT; nt_strings := ctrloutputtype_strings; nt_max := OH_MAX_CTRLOUTPUTTYPE;
    nt_more := []; nt_lookup := oh_lookup_ctrloutputtype; nt_encode := oh_encode_ctrloutputtype |});
   ("idrareatype", {| nt_values := SaHpiIdrAreaTypeT; nt_strings := idrareatype_strings; nt_max := OH_MAX_IDRAREATYPE;
    nt_more := []; nt_lookup := oh_lookup_idrareatype; nt_encode := oh_encode_idrareatype |});
   ("idrfieldtype", {| nt_values := SaHpiIdrFieldTypeT; nt_strings := idrfieldtype_strings; nt_max := OH_MAX_IDRFIELDTYPE;
    nt_more := []; nt_lookup := oh_lookup_idrfieldtype; nt_encode := oh_encode_idrfieldtype |});
   ("watchdogaction", {| nt_values := SaHpiWatchdogActionT; nt_strings := watchdogaction_strings; nt_max := OH_MAX_WATCHDOGACTION;
    nt_more := []; nt_lookup := oh_lookup_watchdogaction; nt_encode := oh_encode_watchdogaction |});
   ("watchdogactionevent", {| nt_values := SaHpiWatchdogActionEventT; nt_strings := watchdogactionevent_strings; nt_max := OH_MAX_WATCHDOGACTIONEVENT;
    nt_more := []; nt_lookup := oh_lookup_watchdogactionevent; nt_encode := oh_encode_watchdogactionevent |});
   ("watchdogpretimerinterrupt", {| nt_values := SaHpiWatchdogPretimerInterruptT; nt_strings := watchdogpretimerinterrupt_strings; nt_max := OH_MAX_WATCHDOGPRETIMERINTERRUPT;
    nt_more := []; nt_lookup := oh_lookup_watchdogpretimerinterrupt; nt_encode := oh_encode_watchdogpretimerinterrupt |});
   ("watchdogtimeruse", {| nt_values := SaHpiWatchdogTimerUseT; nt_strings := watchdogtimeruse_strings; nt_max := OH_MAX_WATCHDOGTIMERUSE;
    nt_more := []; nt_lookup := oh_lookup_watchdogtimeruse; nt_encode := oh_encode_watchdogtimeruse |});
   ("dimitestserviceimpact", {| nt_values := SaHpiDimiTestServiceImpactT; nt_strings := dimitestserviceimpact_strings; nt_max := OH_MAX_DIMITESTSERVICEIMPACT;
    nt_more := []; nt_lookup := oh_lookup_dimitestserviceimpact; nt_encode := oh_encode_dimitestserviceimpact |});
   ("dimitestrunstatus", {| nt_values := SaHpiDimiTestRunStatusT; nt_strings := dimitestrunstatus_strings; nt_max := OH_MAX_DIMITESTRUNSTATUS;
    nt_more := []; nt_lookup := oh_lookup_dimitestrunstatus; nt_encode := oh_encode_dimitestrunstatus |});
   ("dimitesterrcode", {| nt_values := SaHpiDimiTestErrCodeT; nt_strings := dimitesterrcode_strings; nt_max := OH_MAX_DIMITESTERRCODE;
    nt_more := []; nt_lookup := oh_lookup_dimitesterrcode; nt_encode := oh_encode_dimitesterrcode |});
   ("dimitestparamtype", {| nt_values := SaHpiDimiTestParamTypeT; nt_strings := dimitestparamtype_strings; nt_max := OH_MAX_DIMITESTPARAMTYPE;
    nt_more := []; nt_lookup := oh_lookup_dimitestparamtype; nt_encode := oh_encode_dimitestparamtype |});
   ("dimiready", {| nt_values := SaHpiDimiReadyT; nt_strings := dimiready_strings; nt_max := OH_MAX_DIMIREADY;
    nt_more := []; nt_lookup := oh_lookup_dimiready; nt_encode := oh_encode_dimiready |});
   ("fumispecinfotype", {| nt_values := SaHpiFumiSpecInfoTypeT; nt_strings := fumispecinfotype_strings; nt_max := OH_MAX_FUMISPECINFOTYPE;
    nt_more := []; nt_lookup := oh_lookup_fumispecinfotype; nt_encode := oh_encode_fumispecinfotype |});
   ("fumisafdefinedspecid", {| nt_values := SaHpiFumiSafDefinedSpecIdT; nt_strings := fumisafdefinedspecid_strings; nt_max := OH_MAX_FUMISAFDEFINEDSPECID;
    nt_more := []; nt_lookup := oh_lookup_fumisafdefinedspecid; nt_encode := oh_encode_fumisafdefinedspecid |});
   ("fumiserviceimpact", {| nt_values := SaHpiFumiServiceImpactT; nt_strings := fumiserviceimpact_strings; nt_max := OH_MAX_FUMISERVICEIMPACT;
    nt_more := []; nt_lookup := oh_lookup_fumiserviceimpact; nt_encode := oh_encode_fumiserviceimpact |});
   ("fumisourcestatus", {| nt_values := SaHpiFumiSourceStatusT; nt_strings := fumisourcestatus_strings; nt_max := OH_MAX_FUMISOURCESTATUS;
    nt_more := []; nt_lookup := oh_lookup_fumisourcestatus; nt_encode := oh_encode_fumisourcestatus |});
   ("fumibankstate", {| nt_values := SaHpiFumiBankStateT; nt_strings := fumibankstate_strings; nt_max := OH_MAX_FUMIBANKSTATE;
    nt_more := []; nt_lookup := oh_lookup_fumibankstate; nt_encode := oh_encode_fumibankstate |});
   ("fumiupgradestatus", {| nt_values := SaHpiFumiUpgradeStatusT; nt_strings := fumiupgradestatus_strings; nt_max := OH_MAX_FUMIUPGRADESTATUS;
    nt_more := []; nt_lookup := oh_lookup_fumiupgradestatus; nt_encode := oh_encode_fumiupgradestatus |});
   ("hsindicatorstate", {| nt_values := SaHpiHsIndicatorStateT; nt_strings := hsindicatorstate_strings; nt_max := OH_MAX_HSINDICATORSTATE;
    nt_more := []; nt_lookup := oh_lookup_hsindicatorstate; nt_encode := oh_encode_hsindicatorstate |});
   ("hsaction", {| nt_values := SaHpiHsActionT; nt_strings := hsaction_strings; nt_max := OH_MAX_HSACTION;
    nt_more := []; nt_lookup := oh_lookup_hsaction; nt_encode := oh_encode_hsaction |});
   ("hsstate", {| nt_values := SaHpiHsStateT; nt_strings := hsstate_strings; nt_max := OH_MAX_HSSTATE;
    nt_more := []; nt_lookup := oh_lookup_hsstate; nt_encode := oh_encode_hsstate |});
   ("hscauseofstatechange", {| nt_values := SaHpiHsCauseOfStateChangeT; nt_strings := hscauseofstatechange_strings; nt_max := OH_MAX_HSCAUSEOFSTATECHANGE;
    nt_more := []; nt_lookup := oh_lookup_hscauseofstatechange; nt_encode := oh_encode_hscauseofstatechange |});
   ("severity", {| nt_values := SaHpiSeverityT; nt_strings := severity_strings; nt_max := OH_MAX_SEVERITY;
    nt_more := []; nt_lookup := oh_lookup_severity; nt_encode := oh_encode_severity |});
   ("resourceeventtype", {| nt_values := SaHpiResourceEventTypeT; nt_strings := resourceeventtype_strings; nt_max := OH_MAX_RESOURCEEVENTTYPE;
    nt_more := []; nt_lookup := oh_lookup_resourceeventtype; nt_encode := oh_encode_resourceeventtype |});
   ("domaineventtype", {| nt_values := SaHpiDomainEventTypeT; nt_strings := domaineventtype_strings; nt_max := OH_MAX_DOMAINEVENTTYPE;
    nt_more := []; nt_lookup := oh_lookup_domaineventtype; nt_encode := oh_encode_domaineventtype |});
   ("sweventtype", {| nt_values := SaHpiSwEventTypeT; nt_strings := sweventtype_strings; nt_max := OH_MAX_SWEVENTTYPE;
    nt_more := []; nt_lookup := oh_lookup_sweventtype; nt_encode := oh_encode_sweventtype |});
   ("eventtype", {| nt_values := SaHpiEventTypeT; nt_strings := eventtype_strings; nt_max := OH_MAX_EVENTTYPE;
    nt_more := []; nt_lookup := oh_lookup_eventtype; nt_encode := oh_encode_eventtype |});
   ("statuscondtype", {| nt_values := SaHpiStatusCondTypeT; nt_strings := statuscondtype_strings; nt_max := OH_MAX_STATUSCONDTYPE;
    nt_more := []; nt_lookup := oh_lookup_statuscondtype; nt_encode := oh_encode_statuscondtype |});
   ("annunciatormode", {| nt_values := SaHpiAnnunciatorModeT; nt_strings := annunciatormode_strings; nt_max := OH_MAX_ANNUNCIATORMODE;
    nt_more := []; nt_lookup := oh_lookup_annunciatormode; nt_encode := oh_encode_annunciatormode |});
   ("annunciatortype", {| nt_values := SaHpiAnnunciatorTypeT; nt_strings := annunciatortype_strings; nt_max := OH_MAX_ANNUNCIATORTYPE;
    nt_more := []; nt_lookup := oh_lookup_annunciatortype; nt_encode := oh_encode_annunciatortype |});
   ("rdrtype", {| nt_values := SaHpiRdrTypeT; nt_strings := rdrtype_strings; nt_max := OH_MAX_RDRTYPE;
    nt_more := []; nt_lookup := oh_lookup_rdrtype; nt_encode := oh_encode_rdrtype |});
   ("parmaction", {| nt_values := SaHpiParmActionT; nt_strings := parmaction_strings; nt_max := OH_MAX_PARMACTION;
    nt_more := []; nt_lookup := oh_lookup_parmaction; nt_encode := oh_encode_parmaction |});
   ("resetaction", {| nt_values := SaHpiResetActionT; nt_strings := resetaction_strings; nt_max := OH_MAX_RESETACTION;
    nt_more := []; nt_lookup := oh_lookup_resetaction; nt_encode := oh_encode_resetaction |});
   ("powerstate", {| nt_values := SaHpiPowerStateT; nt_strings := powerstate_strings; nt_max := OH_MAX_POWERSTATE;
    nt_more := []; nt_lookup := oh_lookup_powerstate; nt_encode := oh_encode_powerstate |});
   ("eventlogoverflowaction", {| nt_values := SaHpiEventLogOverflowActionT; nt_strings := eventlogoverflowaction_strings; nt_max := OH_MAX_EVENTLOGOVERFLOWACTION;
    nt_more := []; nt_lookup := oh_lookup_eventlogoverflowaction; nt_encode := oh_encode_eventlogoverflowaction |});
   ("error", {| nt_values := SaErrorT; nt_strings := error_strings; nt_max := OH_MAX_ERROR;
    nt_more := []; nt_lookup := oh_lookup_error; nt_encode := oh_encode_error |});
   ("eventcategory", {| nt_values := SaHpiEventCategoryT; nt_strings := eventcategory_strings; nt_max := OH_MAX_EVENTCATEGORY;
    nt_more := []; nt_lookup := oh_lookup_eventcategory; nt_encode := oh_encode_eventcategory |});
   ("atcahpiledcolor", {| nt_values := AtcaHpiLedColorT; nt_strings := atcahpiledcolor_strings; nt_max := OH_MAX_ATCAHPILEDCOLOR;
    nt_more := []; nt_lookup := oh_lookup_atcahpiledcolor; nt_encode := oh_encode_atcahpiledcolor |});
   ("atcahpiresourceledmode", {| nt_values := AtcaHpiResourceLedModeT; nt_strings := atcahpiresourceledmode_strings; nt_max := OH_MAX_ATCAHPIRESOURCELEDMODE;
    nt_more := []; nt_lookup := oh_lookup_atcahpiresourceledmode; nt_encode := oh_encode_atcahpiresourceledmode |});
   ("atcahpiledbrsupport", {| nt_values := AtcaHpiLedBrSupportT; nt_strings := atcahpiledbrsupport_strings; nt_max := OH_MAX_ATCAHPILEDBRSUPPORT;
    nt_more := []; nt_lookup := oh_lookup_atcahpiledbrsupport; nt_encode := oh_encode_atcahpiledbrsupport |});
   ("atcahpientitytype", {| nt_values := AtcaHpiEntityTypeT; nt_strings := atcahpientitytype_strings; nt_max := OH_MAX_ATCAHPIENTITYTYPE;
    nt_more := []; nt_lookup := oh_lookup_atcahpientitytype; nt_encode := oh_encode_atcahpientitytype |})].
Definition rows (t : name_table) : list (Z * string) := (nt_strings t ++ nt_more t)%list.

(** The type of an OEM sensor is one of 64 numbers with one name. *)
Definition oem_sensor (v : Z) : bool :=
  (value_of SaHpiSensorTypeT "SAHPI_OEM_SENSOR" <=? v)
  && (v <=? value_of SaHpiSensorTypeT "SAHPI_OEM_SENSOR" + 0x3F).
Definition canonical (x : string) (v : Z) : Z :=
  if String.eqb x "sensortype" && oem_sensor v
  then value_of SaHpiSensorTypeT "SAHPI_OEM_SENSOR" else v.

(** Members of the enumerations that are reserved. *)
Definition unnamed_members : list string :=
  ["SAHPI_ENT_RESERVED_1"; "SAHPI_ENT_RESERVED_2"; "SAHPI_ENT_RESERVED_3";
   "SAHPI_ENT_RESERVED_4"; "SAHPI_ENT_RESERVED_5"; "SAHPI_ENT_CHASSIS_SPECIFIC13"].

(** * Lemmas *)

Fixpoint lower_case (s : string) : string :=
  match s with EmptyString => "" | String c s => String (lower c) (lower_case s) end.

Lemma strcasecmp_eq_lower s t : strcasecmp_eq s t = String.eqb (lower_case s) (lower_case t).
Proof.
  revert t. induction s as [|a s IH]; intros [|b t]; cbn [strcasecmp_eq lower_case]; try done.
  rewrite IH. cbn [String.eqb]. by destruct (Ascii.eqb (lower a) (lower b)).
Qed.

Lemma strcasecmp_eq_empty s : strcasecmp_eq "" s = true -> s = "".
Proof. by destruct s. Qed.

Lemma names_find_ext {A} (f g : A -> bool) l : (forall x, f x = g x) -> List.find f l = List.find g l.
Proof. intros H. induction l as [|x l IH]; [done|]. cbn. by rewrite H, IH. Qed.

Lemma find_app {A} (f : A -> bool) l l' :
  List.find f (l ++ l') = match List.find f l with Some x => Some x | None => List.find f l' end.
Proof. induction l as [|x l IH]; [done|]. cbn. by destruct (f x). Qed.

Lemma switch_in cases v o s : switch cases v o = Some s -> In (v, s) cases \/ o = Some s.
Proof.
  unfold switch. destruct (List.find _ cases) as [[v' s']|] eqn:E; [|by right].
  intros [= <-]. apply find_some in E as [Hin E]. apply Z.eqb_eq in E. cbn [fst] in E. subst v'. by left.
Qed.

Definition row_eqb (a b : Z * string) : bool := (a.1 =? b.1) && String.eqb a.2 b.2.
Definition includes (big small : list (Z * string)) : bool :=
  forallb (fun r => existsb (row_eqb r) big) small.

Lemma includes_in big small r : includes big small = true -> In r small -> In r big.
Proof.
  intros H Hin. unfold includes in H. rewrite forallb_forall in H. specialize (H _ Hin).
  apply existsb_exists in H as ([v s] & Hb & E). destruct r as [v' s'].
  apply andb_true_iff in E as [E%Z.eqb_eq E'%String.eqb_eq]. cbn in E, E'. by subst.
Qed.

(** The searched names are all there are, differ by more than their case, and
    are what the lookup gives. *)
Definition table_ok (t : name_table) : bool :=
  (length (nt_strings t) =? nt_max t)%nat &&
  forallb (fun r : Z * string =>
    negb (String.eqb r.2 "") &&
    match List.find (fun e : Z * string => strcasecmp_eq r.2 e.2) (rows t) with
    | Some e => row_eqb e r
    | None => false
    end &&
    match nt_lookup t r.1 with Some s => String.eqb s r.2 | None => false end) (rows t) &&
  forallb (fun m : string * Z =>
    existsb (String.eqb m.1) unnamed_members || bool_decide (is_Some (nt_lookup t m.2))) (nt_values t).

Lemma tables_ok : forallb (fun xt : string * name_table => table_ok xt.2) name_tables = true.
Proof. by vm_compute. Qed.

Lemma table_ok_in x t : In (x, t) name_tables -> table_ok t = true.
Proof. intros H. pose proof tables_ok as A. rewrite forallb_forall in A. by apply (A (x, t)). Qed.

Ltac each_table H :=
  unfold name_tables in H;
  repeat (destruct H as [H|H];
    [injection H as <- <-; cbn [nt_lookup nt_encode nt_strings nt_max nt_more rows] | ]);
  [.. | destruct H].

(** Every lookup is a row, up to the OEM sensors. *)
Lemma lookup_row x t v s :
  In (x, t) name_tables -> nt_lookup t v = Some s -> In (canonical x v, s) (rows t).
Proof.
  intros H Hl. revert Hl. unfold rows, canonical.
  each_table H; cbn [andb String.eqb Ascii.eqb Bool.eqb];
    (lazymatch goal with
     | |- oh_lookup_sensortype v = _ -> _ => idtac
     | |- ?f v = _ -> _ => unfold f
     end).
  all: try (intros E; apply switch_in in E as [E|E]; [|discriminate E];
            eapply includes_in; [|exact E]; by vm_compute).
  - (* entity types *)
    intros E. apply switch_in in E as [E|E].
    + eapply includes_in; [|exact E]. by vm_compute.
    + unfold oh_lookup_xtcahpientitytype in E. apply switch_in in E as [E|E]; [|discriminate E].
      eapply includes_in; [|exact E]. by vm_compute.
  - (* sensor types *)
    unfold oh_lookup_sensortype, oem_sensor. case_match.
    + intros [= <-]. eapply (includes_in _ [(_, _)]); [|by left]. by vm_compute.
    + intros E. apply switch_in in E as [E|E]; [|discriminate E].
      eapply includes_in; [|exact E]. by vm_compute.
Qed.

(** Every encoding is one search. *)
Lemma encode_search x t data old :
  In (x, t) name_tables -> data <> "" ->
  nt_encode t (Some data) (Some old) =
    match List.find (fun e : Z * string => strcasecmp_eq data e.2) (rows t) with
    | Some e => (SA_OK, Some e.1)
    | None => (SA_ERR_HPI_INVALID_DATA, Some old)
    end.
Proof.
  intros H Hd. pose proof (table_ok_in _ _ H) as Ok. unfold table_ok in Ok.
  apply andb_true_iff in Ok as [Ok _]. apply andb_true_iff in Ok as [Hmax _].
  apply Nat.eqb_eq in Hmax. apply String.eqb_neq in Hd. revert Hmax. unfold rows. rewrite find_app.
  each_table H; intros Hmax;
    (lazymatch goal with |- ?f _ _ = _ => unfold f, encode_name end);
    rewrite Hd, firstn_all2 by (rewrite Hmax; done);
    (destruct (List.find _ _); [done|]); try done.
  unfold oh_encode_xtcahpientitytype, encode_name.
  rewrite Hd, firstn_all2 by (vm_compute; lia). by destruct (List.find _ _).
Qed.

Lemma encode_lookup x t v s data old :
  In (x, t) name_tables -> nt_lookup t v = Some s -> strcasecmp_eq data s = true ->
  nt_encode t (Some data) (Some old) = (SA_OK, Some (canonical x v)).
Proof.
  intros H Hl Hc. pose proof (table_ok_in _ _ H) as Ok. unfold table_ok in Ok.
  apply andb_true_iff in Ok as [Ok _]. apply andb_true_iff in Ok as [_ Hrows].
  rewrite forallb_forall in Hrows. apply (lookup_row x t) in Hl; [|done].
  specialize (Hrows _ Hl). apply andb_true_iff in Hrows as [Hrow _].
  apply andb_true_iff in Hrow as [Hne Hf]. cbn [fst snd] in *.
  rewrite (encode_search x t) by
    (done || intros ->; apply strcasecmp_eq_empty in Hc as ->; done).
  rewrite strcasecmp_eq_lower in Hc. apply String.eqb_eq in Hc.
  rewrite (names_find_ext _ (fun e : Z * string => strcasecmp_eq s e.2))
    by (intros e; by rewrite !strcasecmp_eq_lower, Hc).
  destruct (List.find _ (rows t)) as [e|]; [|done].
  by apply andb_true_iff in Hf as [->%Z.eqb_eq _].
Qed.

(** The enumeration of the entity types. *)
Definition entity_types : name_table :=
  {| nt_values := SaHpiEntityTypeT; nt_strings := entitytype_strings; nt_max := OH_MAX_ENTITYTYPE;
     nt_more := xtcahpientitytype_strings; nt_lookup := oh_lookup_entitytype;
     nt_encode := oh_encode_entitytype |}.

Lemma entity_types_in : In ("entitytype", entity_types) name_tables.
Proof. unfold name_tables. repeat (try (left; reflexivity); right). Qed.

(** C17: For every enumeration: the text that a lookup gives for a value, in
    any letter case, is encoded to the value (an OEM sensor type to the first
    of them); what is encoded is looked up as the same text; every other text
    is refused and nothing is stored; and all members but the reserved ones
    have a name. *)
Theorem enum_names_roundtrip x t :
  In (x, t) name_tables ->
  (forall v s data old, nt_lookup t v = Some s -> strcasecmp_eq data s = true ->
     nt_encode t (Some data) (Some old) = (SA_OK, Some (canonical x v))) /\
  (forall data old rv type, nt_encode t (Some data) (Some old) = (rv, type) ->
     (rv = SA_OK /\ exists v s, type = Some v /\ nt_lookup t v = Some s /\ strcasecmp_eq data s = true)
     \/ (type = Some old /\ rv = if String.eqb data "" then SA_ERR_HPI_INVALID_PARAMS
                                  else SA_ERR_HPI_INVALID_DATA)) /\
  (forall m, In m (nt_values t) -> ~ In m.1 unnamed_members -> is_Some (nt_lookup t m.2)).
Proof.
  intros H. pose proof (table_ok_in _ _ H) as Ok. unfold table_ok in Ok.
  apply andb_true_iff in Ok as [Ok Hmem]. apply andb_true_iff in Ok as [_ Hrows].
  rewrite forallb_forall in Hrows, Hmem. split_and!.
  - intros v s data old. by apply encode_lookup.
  - intros data old rv type E. destruct (String.eqb data "") eqn:Ed.
    + right. revert E. assert (nt_encode t (Some data) (Some old) = (SA_ERR_HPI_INVALID_PARAMS, Some old)) as ->.
      { apply String.eqb_eq in Ed as ->. clear Hrows Hmem. by each_table H. }
      by intros [= <- <-].
    + rewrite (encode_search x t) in E by (done || by apply String.eqb_neq).
      destruct (List.find _ (rows t)) as [e|] eqn:Ef; simplify_eq; [left|by right].
      apply find_some in Ef as [Hin Hc]. split; [done|]. exists e.1, e.2. split_and!; [done| |done].
      specialize (Hrows _ Hin). apply andb_true_iff in Hrows as [_ Hlook].
      destruct (nt_lookup t e.1); [|done]. by apply String.eqb_eq in Hlook as ->.
  - intros m Hm Hu. specialize (Hmem _ Hm). apply orb_true_iff in Hmem as [He|Hs].
    + apply existsb_exists in He as (y & Hy & E%String.eqb_eq). by rewrite E in Hu.
    + by apply bool_decide_eq_true in Hs.
Qed.

Lemma enum_names_roundtrip_witness :
  oh_encode_entitytype (Some "fan_tray_slot") (Some 0) =
    (SA_OK, Some (value_of XtcaHpiEntityTypeT "XTCAHPI_ENT_FAN_TRAY_SLOT")).
Proof.
  exact (proj1 (enum_names_roundtrip "entitytype" entity_types entity_types_in)
           (value_of XtcaHpiEntityTypeT "XTCAHPI_ENT_FAN_TRAY_SLOT") "FAN_TRAY_SLOT"
           "fan_tray_slot" 0 eq_refl eq_refl).
Defined.

(** The checks of [Validate] and [TextBuffer] are whether there is a name. *)
Lemma switch_named cases v : bool_decide (is_Some (switch cases v None)) = existsb (Z.eqb v) cases.*1.
Proof.
  unfold switch. induction cases as [|[w s] cases IH]; [done|]. cbn.
  rewrite (Z.eqb_sym v w). destruct (w =? v); [done|]. exact IH.
Qed.

Ltac same_values :=
  match goal with |- ?f ?v = bool_decide (is_Some (?g ?v)) =>
    unfold f, g, in_enum; rewrite switch_named; f_equal; by vm_compute end.

Lemma validate_lookups_agree v :
  Validate.oh_lookup_severity v = bool_decide (is_Some (oh_lookup_severity v)) /\
  Validate.oh_lookup_rdrtype v = bool_decide (is_Some (oh_lookup_rdrtype v)) /\
  Validate.oh_lookup_sensoreventmaskaction v = bool_decide (is_Some (oh_lookup_sensoreventmaskaction v)) /\
  Validate.oh_lookup_ctrlmode v = bool_decide (is_Some (oh_lookup_ctrlmode v)) /\
  Validate.oh_lookup_ctrlstatedigital v = bool_decide (is_Some (oh_lookup_ctrlstatedigital v)) /\
  Validate.oh_lookup_ctrltype v = bool_decide (is_Some (oh_lookup_ctrltype v)) /\
  Validate.oh_lookup_idrareatype v = bool_decide (is_Some (oh_lookup_idrareatype v)) /\
  Validate.oh_lookup_idrfieldtype v = bool_decide (is_Some (oh_lookup_idrfieldtype v)) /\
  Validate.oh_lookup_watchdogtimeruse v = bool_decide (is_Some (oh_lookup_watchdogtimeruse v)) /\
  Validate.oh_lookup_watchdogaction v = bool_decide (is_Some (oh_lookup_watchdogaction v)) /\
  Validate.oh_lookup_watchdogpretimerinterrupt v
    = bool_decide (is_Some (oh_lookup_watchdogpretimerinterrupt v)) /\
  Validate.oh_lookup_statuscondtype v = bool_decide (is_Some (oh_lookup_statuscondtype v)) /\
  Validate.oh_lookup_annunciatormode v = bool_decide (is_Some (oh_lookup_annunciatormode v)) /\
  Validate.oh_lookup_hsaction v = bool_decide (is_Some (oh_lookup_hsaction v)) /\
  Validate.oh_lookup_hsindicatorstate v = bool_decide (is_Some (oh_lookup_hsindicatorstate v)) /\
  Validate.oh_lookup_parmaction v = bool_decide (is_Some (oh_lookup_parmaction v)) /\
  Validate.oh_lookup_resetaction v = bool_decide (is_Some (oh_lookup_resetaction v)) /\
  Validate.oh_lookup_powerstate v = bool_decide (is_Some (oh_lookup_powerstate v)).
Proof. split_and!; same_values. Qed.

Lemma existsb_seqZ v m n : existsb (Z.eqb v) (seqZ m n) = (m <=? v) && (v <? m + n).
Proof.
  apply eq_true_iff_eq. rewrite existsb_exists, andb_true_iff, Z.leb_le, Z.ltb_lt. split.
  - intros (x & Hx & <-%Z.eqb_eq). apply list_elem_of_In, elem_of_seqZ in Hx. lia.
  - intros H. exists v. rewrite Z.eqb_refl. split; [|done]. apply list_elem_of_In, elem_of_seqZ. lia.
Qed.

Lemma textbuffer_lookups_agree v :
  TextBuffer.oh_lookup_language v = bool_decide (is_Some (oh_lookup_language v)) /\
  TextBuffer.oh_lookup_texttype v = bool_decide (is_Some (oh_lookup_texttype v)).
Proof.
  unfold oh_lookup_language, oh_lookup_texttype, TextBuffer.oh_lookup_language, TextBuffer.oh_lookup_texttype.
  rewrite !switch_named.
  assert (language_cases.*1 = seqZ 0 137) as -> by by vm_compute.
  assert (texttype_cases.*1 = seqZ 0 5) as -> by by vm_compute.
  rewrite !existsb_seqZ. unfold SAHPI_TL_TYPE_UNICODE, SAHPI_TL_TYPE_BINARY, SAHPI_LANG_UNDEF, SAHPI_LANG_ZULU.
  split; f_equal; apply eq_true_iff_eq; rewrite Z.leb_le, Z.ltb_lt; lia.
Qed.
