(* ===== verification/EPathText.v ===== *)
(** The text forms of entity paths and entity path patterns in
    [utils/epath_utils.c]: [oh_encode_entitypath], [oh_decode_entitypath]
    and [oh_compile_entitypath_pattern].

    A text is the list of the characters before the terminator.  Allocations do
    not fail (GLib aborts), so the out-of-memory branches are dead code. *)
From S2P Require Import Prelude SaHpi EntityPath EPathPattern Conf CText EnumNames.
From Stdlib Require Import Ascii.

#[export] Instance eta_type_pattern : Eta oh_entity_type_pattern := fun x =>
  Build_oh_entity_type_pattern (etp_is_dot x) (type x).
#[export] Instance eta_location_pattern : Eta oh_entity_location_pattern := fun x =>
  Build_oh_entity_location_pattern (elp_is_dot x) (location x).
#[export] Instance eta_entity_pattern : Eta oh_entity_pattern := fun x =>
  Build_oh_entity_pattern (is_splat x) (etp x) (elp x).

Definition OH_MAX_LOCATION_DIGITS : nat := 6.
Definition OH_MAX_TEXT_BUFFER_LENGTH : nat := 2048.
Definition OH_DERIVE_BLANK_CHAR : ascii := "x"%char.
Definition EPATHSTRING_START_DELIMITER_CHAR : ascii := "{"%char.
Definition EPATHSTRING_END_DELIMITER_CHAR : ascii := "}"%char.
Definition EPATHSTRING_VALUE_DELIMITER_CHAR : ascii := ","%char.
Definition EPATHPATTERN_SPLAT : ascii := "*"%char.
Definition EPATHPATTERN_DOT : ascii := "."%char.

(** ** From text to path *)

(** The text that [oh_append_textbuffer] leaves in a buffer just initialised:
    nothing if it does not fit. *)
Definition buffer_text (t : text) : text :=
  if (SAHPI_MAX_TEXT_BUFFER_LENGTH <=? length t)%nat then [] else t.

(** [oh_encode_entitytype], the result being stored on success only. *)
Definition encode_type (t : text) : option Z :=
  match oh_encode_entitytype (Some (string_of t)) (Some 0) with
  | (rv, Some v) => if rv =? SA_OK then Some v else None
  | _ => None
  end.

(** One iteration of the loop over the definitions; [None] for
    [SA_ERR_HPI_INVALID_DATA]. *)
Definition parse_entity (def : text) : option SaHpiEntityT :=
  let def := g_strstrip def in
  match def with
  | c :: _ =>
      if negb (Ascii.eqb c EPATHSTRING_START_DELIMITER_CHAR) then None else
      match split_first EPATHSTRING_VALUE_DELIMITER_CHAR def with
      | None => None
      | Some (v0, v1) =>
          let v0 := g_strstrip (g_strdelimit EPATHSTRING_START_DELIMITER_CHAR " " v0) in
          let eptype :=
            match encode_type (buffer_text v0) with
            | Some ty => Some ty
            | None =>
                let '(num, rest) := strtol 0 v0 in
                let num := i32 num in
                if (num <=? 0) || negb (bool_decide (rest = [])) then None else Some num
            end in
          match eptype with
          | None => None
          | Some ty =>
              let '(location, rest) := strtol 10 (g_strstrip v1) in
              if negb (bool_decide (rest = [])) then None
              else Some {| EntityType := ty; EntityLocation := u32 (i32 location) |}
          end
      end
  | [] => None
  end.

(** The loop: [epath_list] with the last definition first, and [num_entities].
    It stops at an empty definition. *)
Fixpoint parse_entities (defs : list text) (epath_list : list SaHpiEntityT) (num : nat)
  : option (list SaHpiEntityT * nat) :=
  match defs with
  | [] | [] :: _ => Some (epath_list, num)
  | def :: defs =>
      match parse_entity def with
      | None => None
      | Some e =>
          parse_entities defs
            (if (num <? SAHPI_MAX_ENTITY_PATH)%nat then e :: epath_list else epath_list) (S num)
      end
  end.

(** The entries written over an initialised path. *)
Definition path_of (es : list SaHpiEntityT) : SaHpiEntityPathT :=
  {| Entry := take SAHPI_MAX_ENTITY_PATH (es ++ replicate SAHPI_MAX_ENTITY_PATH root_entity) |}.

Definition oh_encode_entitypath (epstr : option text) (ep : option SaHpiEntityPathT)
  : Z * option SaHpiEntityPathT :=
  match epstr, ep with
  | Some epstr, Some _ =>
      if (OH_MAX_TEXT_BUFFER_LENGTH <? length epstr)%nat then (SA_ERR_HPI_INVALID_DATA, ep) else
      let gstr := g_strstrip epstr in
      match gstr with
      | [] => (SA_OK, snd (oh_init_ep ep))
      | _ =>
          match parse_entities (g_strsplit EPATHSTRING_END_DELIMITER_CHAR gstr) [] 0 with
          | None => (SA_ERR_HPI_INVALID_DATA, ep)
          | Some (epath_list, num_entities) =>
              (if (SAHPI_MAX_ENTITY_PATH <? num_entities)%nat then SA_ERR_HPI_INVALID_DATA
               else SA_OK, Some (path_of epath_list))
          end
      end
  | _, _ => (SA_ERR_HPI_INVALID_PARAMS, ep)
  end.

(** ** From path to text *)

(** A big text buffer is its text. *)
Definition oh_append_bigtext (big_buffer from : text) : Z * text :=
  if (OH_MAX_TEXT_BUFFER_LENGTH <=? length from + length big_buffer)%nat
  then (SA_ERR_HPI_INTERNAL_ERROR, big_buffer)
  else (SA_OK, big_buffer ++ from).

(** [snprintf] with a buffer of [n] bytes. *)
Definition snprintf (n : nat) (t : text) : text := take (n - 1) t.

(** The loop that counts the digits of the location; one division per
    iteration. *)
Fixpoint count_digits (fuel : nat) (base work num_digits : Z) : Z :=
  match fuel with
  | O => num_digits
  | S fuel => let work := work / base in
              if 0 <? work then count_digits fuel base work (num_digits + 1) else num_digits
  end.
Definition num_digits (base work : Z) : Z := count_digits 32 base work 1.

Definition entity_text (e : SaHpiEntityT) : option text :=
  if Z.of_nat OH_MAX_LOCATION_DIGITS <? num_digits 10 (EntityLocation e) then None else
  let locstr := snprintf (OH_MAX_LOCATION_DIGITS + 1) (signed_decimal (i32 (EntityLocation e))) in
  let typestr := match oh_lookup_entitytype (EntityType e) with
                 | Some s => text_of s
                 | None => snprintf 20 (signed_decimal (i32 (EntityType e)))
                 end in
  Some (EPATHSTRING_START_DELIMITER_CHAR :: typestr ++ EPATHSTRING_VALUE_DELIMITER_CHAR ::
        locstr ++ [EPATHSTRING_END_DELIMITER_CHAR]).

(** The loop from the last entry to the first; the results of the appending
    calls are ignored. *)
Fixpoint entities_text (es : list SaHpiEntityT) (tmpbuf : text) : option text :=
  match es with
  | [] => Some tmpbuf
  | e :: es =>
      match entity_text e with
      | None => None
      | Some catstr => entities_text es (snd (oh_append_bigtext tmpbuf catstr))
      end
  end.

Definition oh_decode_entitypath (ep : option SaHpiEntityPathT) (bigbuf : option text)
  : Z * option text :=
  match ep, bigbuf with
  | Some ep, Some _ =>
      match entities_text (rev (take (root_index (Entry ep)) (Entry ep))) [] with
      | None => (SA_ERR_HPI_INVALID_DATA, bigbuf)
      | Some t => (SA_OK, Some (snd (oh_append_bigtext [] t)))
      end
  | _, _ => (SA_ERR_HPI_INVALID_PARAMS, bigbuf)
  end.

(** ** From text to pattern *)

(** The variables of the loop of [oh_compile_entitypath_pattern]; [start] is
    [None] for -1. *)
Record scan := {
  tuple_no : nat; in_tuple : bool; in_entity : bool; start : option nat;
  tuples : list oh_entity_pattern }.
#[export] Instance eta_scan : Eta scan := fun x =>
  Build_scan (tuple_no x) (in_tuple x) (in_entity x) (start x) (tuples x).

Definition set_tuple (f : oh_entity_pattern -> oh_entity_pattern) (st : scan) : scan :=
  st <| tuples ::= fun l => alter f (tuple_no st) l |>.

(** The character at an index, [NUL] at the end. *)
Definition char_at (s : text) (i : nat) : ascii := nth i s zero.
Definition between (s : text) (a b : nat) : text := take (b - a) (drop a s).

(** The body of the loop: the new state and how many characters it took;
    [None] for [return SA_ERR_HPI_ERROR]. *)
Definition scan_step (s : text) (i : nat) (st : scan) : option (scan * nat) :=
  let c := char_at s i in
  let next := char_at s (S i) in
  let begin := st <| start ::= fun a => Some (default i a) |> in
  if in_tuple st then
    if in_entity st then
      if Ascii.eqb c EPATHSTRING_VALUE_DELIMITER_CHAR then
        match start st with
        | None => None
        | Some a =>
            if (SAHPI_MAX_ENTITY_PATH <? i - a)%nat then None else
            match encode_type (between s a i) with
            | None => None
            | Some etype =>
                Some (set_tuple (fun p => p <| etp ::= fun e => e <| type := etype |> |>) st
                        <| in_entity := false |> <| start := None |>, 1%nat)
            end
        end
      else if Ascii.eqb c EPATHSTRING_END_DELIMITER_CHAR
              || Ascii.eqb c EPATHSTRING_START_DELIMITER_CHAR then None
      else if Ascii.eqb c EPATHPATTERN_DOT then
        if negb (Ascii.eqb next EPATHSTRING_VALUE_DELIMITER_CHAR) then None
        else Some (set_tuple (fun p => p <| is_splat := SAHPI_FALSE |>
                                         <| etp ::= fun e => e <| etp_is_dot := SAHPI_TRUE |> |>) st
                     <| in_entity := false |>, 2%nat)
      else Some (begin, 1%nat)
    else
      if Ascii.eqb c EPATHSTRING_VALUE_DELIMITER_CHAR
         || Ascii.eqb c EPATHSTRING_START_DELIMITER_CHAR then None
      else if Ascii.eqb c EPATHSTRING_END_DELIMITER_CHAR then
        match start st with
        | None => None
        | Some a =>
            if (OH_MAX_LOCATION_DIGITS <? i - a)%nat then None else
            let '(loc, rest) := strtol 10 (between s a i) in
            if negb (bool_decide (rest = [])) then None
            else Some (set_tuple (fun p => p <| elp ::= fun e => e <| location := u32 loc |> |>) st
                         <| in_tuple := false |> <| start := None |> <| tuple_no ::= S |>, 1%nat)
        end
      else if Ascii.eqb c EPATHPATTERN_DOT then
        if negb (Ascii.eqb next EPATHSTRING_END_DELIMITER_CHAR) then None
        else Some (set_tuple (fun p => p <| elp ::= fun e => e <| elp_is_dot := SAHPI_TRUE |> |>) st
                     <| tuple_no ::= S |> <| in_tuple := false |>, 2%nat)
      else Some (begin, 1%nat)
  else
    if Ascii.eqb c EPATHSTRING_START_DELIMITER_CHAR
    then Some (st <| in_tuple := true |> <| in_entity := true |>, 1%nat)
    else if Ascii.eqb c EPATHPATTERN_SPLAT then
      if Ascii.eqb next EPATHPATTERN_SPLAT then None
      else Some (set_tuple (fun p => p <| is_splat := SAHPI_TRUE |>) st <| tuple_no ::= S |>, 1%nat)
    else None.

(** The loop; every iteration takes a character, so that the length of the text
    is fuel enough. *)
Fixpoint scan_loop (fuel : nat) (s : text) (i : nat) (st : scan) : option scan :=
  if (i <? length s)%nat then
    match fuel with
    | O => None
    | S fuel =>
        if (OH_MAX_EP_TUPLES <=? tuple_no st)%nat then None else
        match scan_step s i st with
        | None => None
        | Some (st, n) => scan_loop fuel s (i + n) st
        end
    end
  else Some st.

Definition empty_scan : scan :=
  {| tuple_no := 0; in_tuple := false; in_entity := false; start := None;
     tuples := replicate OH_MAX_EP_TUPLES zero_entity_pattern |}.

(** The result: a code with what [epp] points to, or a write of the final
    [SAHPI_ENT_ROOT] behind the array. *)
Inductive compiled :=
  | Compiled (rv : Z) (epp : option oh_entitypath_pattern)
  | WritesPastArray.

Definition root_pattern : oh_entity_pattern :=
  zero_entity_pattern <| etp ::= fun e => e <| type := SAHPI_ENT_ROOT |> |>.

Definition oh_compile_entitypath_pattern (epp_str : option text)
    (epp : option oh_entitypath_pattern) : compiled :=
  match epp_str, epp with
  | Some s, Some _ =>
      match scan_loop (length s) s 0 empty_scan with
      | None => Compiled SA_ERR_HPI_ERROR epp
      | Some st =>
          if (OH_MAX_EP_TUPLES <=? tuple_no st)%nat then WritesPastArray
          else Compiled SA_OK (Some {| epattern :=
                 rev (take (tuple_no st) (tuples st)) ++
                 root_pattern :: replicate (OH_MAX_EP_TUPLES - S (tuple_no st)) zero_entity_pattern |})
      end
  | _, _ => Compiled SA_ERR_HPI_INVALID_PARAMS epp
  end.

(** ** Lemmas on the text of an entity *)

Definition plain_char (c : ascii) : bool :=
  negb (isspace c) && negb (Ascii.eqb c EPATHSTRING_START_DELIMITER_CHAR)
  && negb (Ascii.eqb c EPATHSTRING_END_DELIMITER_CHAR)
  && negb (Ascii.eqb c EPATHSTRING_VALUE_DELIMITER_CHAR).
Definition plain (t : text) : Prop := t <> [] /\ Forall (fun c => plain_char c = true) t.

Lemma plain_space c : plain_char c = true -> g_ascii_isspace c = false.
Proof. unfold plain_char, g_ascii_isspace. intros H. zbool. by destruct (isspace c). Qed.

Lemma plain_not d c : plain_char d = false -> plain_char c = true -> Ascii.eqb c d = false.
Proof. intros Hd Hc. apply Ascii.eqb_neq. intros ->. congruence. Qed.

Lemma plain_has d t : plain_char d = false -> plain t -> has d t = false.
Proof.
  intros Hd [_ Ht]. unfold has. induction Ht as [|c t Hc Ht IH]; [done|]. cbn.
  rewrite IH, orb_false_r, Ascii.eqb_sym. by apply plain_not.
Qed.

Lemma skip_none p c t : p c = false -> skip p (c :: t) = c :: t.
Proof. intros H. cbn. by rewrite H. Qed.

Lemma strip_ends a t b : g_ascii_isspace a = false -> g_ascii_isspace b = false ->
  g_strstrip (a :: t ++ [b]) = a :: t ++ [b].
Proof.
  intros Ha Hb. unfold g_strstrip. rewrite skip_none by done. cbn [rev].
  rewrite rev_app_distr. cbn [rev app]. rewrite skip_none by done.
  change (b :: rev t ++ [a]) with ([b] ++ rev t ++ [a]).
  by rewrite !rev_app_distr, rev_involutive.
Qed.

Lemma strip_plain t : plain t -> g_strstrip t = t.
Proof.
  intros [Hne Ht]. destruct t as [|a t]; [done|]. inversion_clear Ht as [|? ? Ha Ht'].
  destruct t as [|b t _] using rev_ind.
  - unfold g_strstrip. cbn [skip]. rewrite plain_space by done. cbn [rev app skip].
    by rewrite plain_space by done.
  - apply Forall_app in Ht' as [_ Hb]. inversion_clear Hb. by apply strip_ends; apply plain_space.
Qed.

Lemma digits_plain t : digits t -> Forall (fun c => plain_char c = true) t.
Proof.
  intros Ht. eapply Forall_impl; [exact Ht|]. intros c Hc. unfold plain_char. rewrite (proj1 (digit_not_space c Hc)).
  rewrite !(digit_not c) by done. done.
Qed.

Lemma decimal_plain z : 0 <= z -> plain (decimal z).
Proof.
  intros Hz. destruct (decimal_correct z Hz) as (Hd & _ & (c & t & Ht & _) & _). split.
  - by rewrite Ht.
  - by apply digits_plain.
Qed.

(** The texts that the types of the enumeration are known by. *)
Lemma entity_names_plain v s : oh_lookup_entitytype v = Some s ->
  plain (text_of s) /\ (length (text_of s) <= 24)%nat.
Proof.
  intros H. apply (lookup_row "entitytype" entity_types) in H; [|apply entity_types_in].
  assert (A : forallb (fun r : Z * string =>
      negb (bool_decide (text_of r.2 = [])) && forallb plain_char (text_of r.2)
      && (length (text_of r.2) <=? 24)%nat) (rows entity_types) = true) by by vm_compute.
  rewrite forallb_forall in A. specialize (A _ H). cbn [snd] in A.
  apply andb_true_iff in A as [[Hne Hp]%andb_true_iff Hl%Nat.leb_le].
  apply negb_true_iff, bool_decide_eq_false in Hne. split; [split|]; [done| |done].
  apply Forall_forall. intros c Hc. apply list_elem_of_In in Hc.
  rewrite forallb_forall in Hp. by apply Hp.
Qed.

Lemma string_of_text_of s : string_of (text_of s) = s.
Proof. apply String.string_of_list_ascii_of_string. Qed.
Lemma text_of_string_of t : text_of (string_of t) = t.
Proof. apply String.list_ascii_of_string_of_list_ascii. Qed.

Lemma encode_type_name v s : oh_lookup_entitytype v = Some s -> encode_type (text_of s) = Some v.
Proof.
  intros H. unfold encode_type. rewrite string_of_text_of.
  rewrite (encode_lookup "entitytype" entity_types v s) by
    (apply entity_types_in || done || (rewrite strcasecmp_eq_lower; apply String.eqb_refl)).
  done.
Qed.

Lemma lower_code c d : lower c = d -> is_digit c = true -> is_digit d = true.
Proof.
  intros <- Hc. pose proof (is_digit_range c Hc). unfold lower.
  assert ((65 <=? nat_of_ascii c)%nat = false) as -> by (apply Nat.leb_gt; lia). done.
Qed.

(** No name starts with a digit. *)
Lemma encode_type_number c t : is_digit c = true -> encode_type (c :: t) = None.
Proof.
  intros Hc. unfold encode_type.
  rewrite (encode_search "entitytype" entity_types) by (apply entity_types_in || done).
  assert (List.find (fun e : Z * string => strcasecmp_eq (string_of (c :: t)) e.2) (rows entity_types) = None)
    as ->; [|done].
  assert (A : forallb (fun r : Z * string =>
      match r.2 with String d _ => negb (is_digit (lower d)) | _ => true end) (rows entity_types) = true)
    by by vm_compute.
  rewrite forallb_forall in A. induction (rows entity_types) as [|r l IH]; [done|]. cbn [List.find].
  assert (strcasecmp_eq (string_of (c :: t)) r.2 = false) as ->.
  { specialize (A r (or_introl eq_refl)). destruct r as [v [|d s]]; [done|]. cbn in *.
    apply andb_false_iff. left. apply Ascii.eqb_neq. intros E. apply (lower_code c) in E; [|done].
    by rewrite E in A. }
  apply IH. intros x Hx. apply A. by right.
Qed.

(** ** Round trip of entity paths *)

(** The entries that have a text: locations of at most six digits, types with a
    name or a positive [int]. *)
Definition printable (e : SaHpiEntityT) : Prop :=
  0 <= EntityLocation e < 10 ^ 6 /\
  (is_Some (oh_lookup_entitytype (EntityType e)) \/ 0 < EntityType e < 2 ^ 31).

Definition type_text (e : SaHpiEntityT) : text :=
  match oh_lookup_entitytype (EntityType e) with
  | Some s => text_of s
  | None => decimal (EntityType e)
  end.
(** The text of an entity without the closing delimiter. *)
Definition entity_def (e : SaHpiEntityT) : text :=
  EPATHSTRING_START_DELIMITER_CHAR :: type_text e ++
  EPATHSTRING_VALUE_DELIMITER_CHAR :: decimal (EntityLocation e).

Lemma count_digits_bound fuel : forall k w n, 0 <= w < 10 ^ Z.of_nat k -> (0 < k)%nat ->
  count_digits fuel 10 w n <= n + Z.of_nat k - 1.
Proof.
  induction fuel as [|fuel IH]; intros k w n Hw Hk; cbn [count_digits]; [lia|].
  destruct (0 <? w / 10) eqn:E; zbool; [|lia].
  destruct k as [|[|k]]; [lia| |].
  - change (10 ^ Z.of_nat 1) with 10 in Hw. rewrite Z.div_small in E; lia.
  - specialize (IH (S k) (w / 10) (n + 1)). rewrite !Nat2Z.inj_succ in *.
    rewrite Z.pow_succ_r in Hw by lia.
    assert (0 <= w / 10 < 10 ^ Z.succ (Z.of_nat k)); [|lia].
    split; [lia|]. apply Z.div_lt_upper_bound; lia.
Qed.

Lemma i32_id z : - 2 ^ 31 <= z < 2 ^ 31 -> i32 z = z.
Proof. intros H. unfold i32. rewrite Z.mod_small; lia. Qed.

Lemma signed_decimal_int z : 0 <= z < 2 ^ 31 -> signed_decimal (i32 z) = decimal z.
Proof.
  intros H. unfold signed_decimal. rewrite i32_id by lia.
  assert ((z <? 0) = false) as -> by (apply Z.ltb_ge; lia). done.
Qed.

Lemma snprintf_fits n t : (length t < n)%nat -> snprintf n t = t.
Proof. intros H. unfold snprintf. apply take_ge. lia. Qed.

Lemma type_text_plain e : printable e -> plain (type_text e) /\ (length (type_text e) <= 24)%nat.
Proof.
  intros [_ Ht]. unfold type_text. destruct (oh_lookup_entitytype (EntityType e)) eqn:E.
  - by eapply entity_names_plain.
  - destruct Ht as [[? [=]]|Ht]. split; [apply decimal_plain; lia|].
    destruct (decimal_correct (EntityType e)) as (_ & _ & _ & Hl); [lia|].
    transitivity 10%nat; [|lia]. apply Hl; [|lia]. change (10 ^ Z.of_nat 10) with 10000000000. lia.
Qed.

Lemma location_length e : printable e -> (length (decimal (EntityLocation e)) <= 6)%nat.
Proof.
  intros [Hl _]. destruct (decimal_correct (EntityLocation e)) as (_ & _ & _ & H); [lia|].
  apply H; [|lia]. change (Z.of_nat 6) with 6. lia.
Qed.

Lemma entity_text_def e : printable e ->
  entity_text e = Some ((entity_def e ++ [EPATHSTRING_END_DELIMITER_CHAR])%list).
Proof.
  intros He. pose proof He as [Hloc Hty]. unfold entity_text.
  pose proof (count_digits_bound 32 6 (EntityLocation e) 1 Hloc ltac:(lia)) as Hn.
  assert ((Z.of_nat OH_MAX_LOCATION_DIGITS <? num_digits 10 (EntityLocation e)) = false) as ->.
  { apply Z.ltb_ge. unfold num_digits. change (Z.of_nat OH_MAX_LOCATION_DIGITS) with 6. lia. }
  rewrite (signed_decimal_int (EntityLocation e)) by lia.
  rewrite (snprintf_fits _ (decimal (EntityLocation e))) by (pose proof (location_length e He); unfold OH_MAX_LOCATION_DIGITS; lia).
  f_equal. unfold entity_def. cbn [app]. f_equal. rewrite <- app_assoc. cbn [app]. f_equal.
  unfold type_text. destruct (oh_lookup_entitytype (EntityType e)) eqn:E; [done|].
  destruct Hty as [[? [=]]|Hty]. rewrite signed_decimal_int by lia. apply snprintf_fits.
  pose proof (proj2 (type_text_plain e He)) as Hl. unfold type_text in Hl. rewrite E in Hl.
  destruct (decimal_correct (EntityType e)) as (_ & _ & _ & Hd); [lia|].
  specialize (Hd 10%nat). change (10 ^ Z.of_nat 10) with 10000000000 in Hd. lia.
Qed.

Lemma split_first_app d a b : has d a = false -> split_first d (a ++ d :: b) = Some (a, b).
Proof.
  induction a as [|c a IH]; cbn; [by rewrite Ascii.eqb_refl|]. intros H.
  apply orb_false_iff in H as [Hc Ha]. rewrite Ascii.eqb_sym in Hc. by rewrite Hc, IH.
Qed.

Lemma delimit_none d n t : has d t = false -> g_strdelimit d n t = t.
Proof.
  unfold g_strdelimit. induction t as [|c t IH]; [done|]. cbn. intros H.
  apply orb_false_iff in H as [Hc Ht]. rewrite Ascii.eqb_sym in Hc. rewrite Hc. f_equal. by apply IH.
Qed.

Lemma strip_space t : plain t -> g_strstrip (" "%char :: t) = t.
Proof.
  intros Ht. transitivity (g_strstrip t); [|by apply strip_plain]. done.
Qed.

Lemma strip_def e : printable e -> g_strstrip (entity_def e) = entity_def e.
Proof.
  intros He. pose proof He as [Hloc _]. destruct (decimal_plain (EntityLocation e)) as [Hne Hd]; [lia|].
  unfold entity_def. destruct (decimal (EntityLocation e)) as [|b l _] using rev_ind; [done|].
  replace (type_text e ++ EPATHSTRING_VALUE_DELIMITER_CHAR :: l ++ [b])
    with ((type_text e ++ EPATHSTRING_VALUE_DELIMITER_CHAR :: l) ++ [b]) by (by rewrite <- app_assoc).
  apply strip_ends; [done|].
  apply Forall_app in Hd as [_ Hb]. inversion_clear Hb. by apply plain_space.
Qed.

Lemma parse_entity_def e : printable e -> parse_entity (entity_def e) = Some e.
Proof.
  intros He. pose proof He as [Hloc Hty]. destruct (type_text_plain e He) as [Hp Hl].
  unfold parse_entity. rewrite strip_def by done.
  assert (Hs : split_first EPATHSTRING_VALUE_DELIMITER_CHAR (entity_def e) =
    Some (EPATHSTRING_START_DELIMITER_CHAR :: type_text e, decimal (EntityLocation e))).
  { unfold entity_def. apply (split_first_app _ (_ :: _)). cbn. by apply plain_has. }
  rewrite Hs. unfold entity_def. rewrite Ascii.eqb_refl. cbn [negb].
  change (g_strdelimit EPATHSTRING_START_DELIMITER_CHAR " " (EPATHSTRING_START_DELIMITER_CHAR :: type_text e))
    with (" "%char :: g_strdelimit EPATHSTRING_START_DELIMITER_CHAR " " (type_text e)).
  rewrite delimit_none, strip_space by (done || by apply plain_has).
  rewrite strip_plain by (apply decimal_plain; lia).
  pose proof (strtol_decimal 10 (EntityLocation e) []) as Hloc'. rewrite app_nil_r in Hloc'.
  rewrite Hloc' by (auto || lia || (rewrite <- (app_nil_r (decimal _)); apply decimal_no_hex; done || lia)).
  rewrite bool_decide_true by done. cbn [negb]. rewrite i32_id by lia. rewrite u32_id by lia.
  assert (Hb : buffer_text (type_text e) = type_text e).
  { unfold buffer_text. case_match; [|done]. apply Nat.leb_le in H. unfold SAHPI_MAX_TEXT_BUFFER_LENGTH in H. lia. }
  rewrite Hb. clear Hb Hs Hl Hp Hloc'. unfold type_text.
  destruct (oh_lookup_entitytype (EntityType e)) eqn:E.
  - rewrite (encode_type_name _ _ E). by destruct e.
  - destruct Hty as [[? [=]]|Hty].
    destruct (decimal_correct (EntityType e)) as (Hd & _ & (c & t & Hc & _) & _); [lia|].
    assert (encode_type (decimal (EntityType e)) = None) as ->.
    { rewrite Hc in *. inversion_clear Hd. by apply encode_type_number. }
    pose proof (strtol_decimal 0 (EntityType e) []) as Ht. rewrite app_nil_r in Ht.
    rewrite Ht by (auto || lia || (rewrite <- (app_nil_r (decimal _)); apply decimal_no_hex; done || lia)).
    rewrite i32_id by lia. assert ((EntityType e <=? 0) = false) as -> by (apply Z.leb_gt; lia).
    by destruct e.
Qed.

Lemma split_pieces d ts : Forall (fun t => has d t = false) ts ->
  split_from d [] (concat ((fun t => t ++ [d]) <$> ts)) = ts ++ [[]].
Proof.
  assert (Hone : forall t p rest, has d t = false ->
    split_from d p (t ++ d :: rest) = (rev p ++ t) :: split_from d [] rest).
  { induction t as [|c t IH]; intros p rest H; cbn [app split_from].
    - by rewrite Ascii.eqb_refl, app_nil_r.
    - cbn in H. apply orb_false_iff in H as [Hc Ht]. rewrite Ascii.eqb_sym in Hc.
      rewrite Hc, IH by done. cbn [rev]. by rewrite <- app_assoc. }
  induction 1 as [|t ts Ht _ IH]; [done|]. cbn [fmap list_fmap concat].
  rewrite <- app_assoc. cbn [app]. by rewrite Hone, IH.
Qed.

Lemma parse_entities_defs es : forall acc num,
  Forall printable es -> (num + length es <= SAHPI_MAX_ENTITY_PATH)%nat ->
  parse_entities ((entity_def <$> es) ++ [[]]) acc num = Some (rev es ++ acc, (num + length es)%nat).
Proof.
  induction es as [|e es IH]; intros acc num He Hn; cbn [length] in *.
  - cbn. by rewrite Nat.add_0_r.
  - inversion_clear He as [|? ? H1 H2]. cbn [fmap list_fmap app parse_entities].
    unfold entity_def at 1. fold (entity_def e).
    change (EPATHSTRING_START_DELIMITER_CHAR :: type_text e
              ++ EPATHSTRING_VALUE_DELIMITER_CHAR :: decimal (EntityLocation e)) with (entity_def e).
    rewrite parse_entity_def by done.
    assert ((num <? SAHPI_MAX_ENTITY_PATH)%nat = true) as -> by (apply Nat.ltb_lt; lia).
    rewrite IH by (done || lia). cbn [rev]. rewrite <- app_assoc. cbn [app]. by rewrite Nat.add_succ_r.
Qed.

(** The text of a path, most significant entity first. *)
Definition path_text (p : list SaHpiEntityT) : text :=
  concat ((fun t => t ++ [EPATHSTRING_END_DELIMITER_CHAR]) <$> (entity_def <$> rev p)).

Lemma entity_def_length e : printable e -> (length (entity_def e) <= 32)%nat.
Proof.
  intros He. pose proof (location_length e He). pose proof (proj2 (type_text_plain e He)).
  unfold entity_def. cbn [length]. rewrite length_app. cbn [length]. lia.
Qed.

Lemma texts_length es : Forall printable es ->
  (length (concat ((fun t => t ++ [EPATHSTRING_END_DELIMITER_CHAR]) <$> (entity_def <$> es)))
   <= 33 * length es)%nat.
Proof.
  induction 1 as [|e es He _ IH]; cbn [fmap list_fmap concat length]; [lia|].
  rewrite !length_app. cbn [length]. pose proof (entity_def_length e He). lia.
Qed.

Lemma entities_text_printable es : forall buf, Forall printable es ->
  (length buf + 33 * length es < OH_MAX_TEXT_BUFFER_LENGTH)%nat ->
  entities_text es buf =
    Some (buf ++ concat ((fun t => t ++ [EPATHSTRING_END_DELIMITER_CHAR]) <$> (entity_def <$> es))).
Proof.
  induction es as [|e es IH]; intros buf He Hl; cbn [entities_text fmap list_fmap concat].
  - by rewrite app_nil_r.
  - inversion_clear He as [|? ? H1 H2]. rewrite entity_text_def by done.
    pose proof (entity_def_length e H1) as Hd. cbn [length] in Hl. unfold oh_append_bigtext.
    rewrite length_app. cbn [length].
    assert ((OH_MAX_TEXT_BUFFER_LENGTH <=? length (entity_def e) + 1 + length buf)%nat = false) as ->
      by (apply Nat.leb_gt; lia).
    cbn [snd]. rewrite IH; [by rewrite <- app_assoc|done|]. rewrite !length_app. cbn [length]. lia.
Qed.

Lemma count_digits_lower fuel : forall k w n, 10 ^ Z.of_nat k <= w -> (k <= fuel)%nat ->
  n + Z.of_nat k <= count_digits fuel 10 w n.
Proof.
  induction fuel as [|fuel IH]; intros k w n Hw Hk; cbn [count_digits]; [lia|].
  destruct k as [|k].
  - assert (A : forall f w n, n <= count_digits f 10 w n).
    { clear. induction f as [|f IH]; intros w n; cbn [count_digits]; [lia|].
      case_match; [|lia]. specialize (IH (w / 10) (n + 1)). lia. }
    case_match; [|lia]. specialize (A fuel (w / 10) (n + 1)). lia.
  - rewrite Nat2Z.inj_succ, Z.pow_succ_r in Hw by lia.
    assert (10 ^ Z.of_nat k <= w / 10) by (apply Z.div_le_lower_bound; lia).
    pose proof (Z.pow_pos_nonneg 10 (Z.of_nat k)).
    assert ((0 <? w / 10) = true) as -> by (apply Z.ltb_lt; lia).
    specialize (IH k (w / 10) (n + 1)). lia.
Qed.

(** A location of more than six digits. *)
Lemma entities_text_big es : Exists (fun e => 10 ^ 6 <= EntityLocation e) es ->
  forall buf, entities_text es buf = None.
Proof.
  induction 1 as [e es He|e es _ IH]; intros buf; cbn [entities_text].
  - assert (entity_text e = None) as ->; [|done]. unfold entity_text.
    pose proof (count_digits_lower 32 6 (EntityLocation e) 1 He ltac:(lia)).
    assert ((Z.of_nat OH_MAX_LOCATION_DIGITS <? num_digits 10 (EntityLocation e)) = true) as ->; [|done].
    apply Z.ltb_lt. unfold num_digits. change (Z.of_nat OH_MAX_LOCATION_DIGITS) with 6. lia.
  - destruct (entity_text e); [apply IH|done].
Qed.

Lemma path_of_ep p : path_ok p -> path_of p = ep_of_path p.
Proof.
  intros [Hl _]. unfold path_of, ep_of_path. f_equal.
  rewrite take_app_ge by lia. f_equal. by rewrite take_replicate, Nat.min_l by lia.
Qed.

Lemma texts_ends e es : exists t,
  concat ((fun t => t ++ [EPATHSTRING_END_DELIMITER_CHAR]) <$> (entity_def <$> e :: es))
  = EPATHSTRING_START_DELIMITER_CHAR :: t ++ [EPATHSTRING_END_DELIMITER_CHAR].
Proof.
  revert e. induction es as [|e' es IH]; intros e.
  - cbn. rewrite app_nil_r. by eexists.
  - destruct (IH e') as [t Ht]. rewrite fmap_cons, fmap_cons. cbn [concat]. rewrite Ht.
    unfold entity_def. cbn [app]. eexists. f_equal. rewrite app_comm_cons, app_assoc. reflexivity.
Qed.

Lemma split_path_text es : Forall printable es -> path_text (rev es) <> [] ->
  g_strsplit EPATHSTRING_END_DELIMITER_CHAR (path_text (rev es)) = (entity_def <$> es) ++ [[]].
Proof.
  intros Hr Hne. unfold g_strsplit. destruct (path_text (rev es)) as [|c t] eqn:E; [done|].
  rewrite <- E. unfold path_text. rewrite rev_involutive. apply split_pieces.
  apply Forall_fmap. eapply Forall_impl; [exact Hr|]. intros x Hx. unfold compose.
  destruct (type_text_plain x Hx) as [Hpl _]. destruct Hx as [Hx _].
  pose proof (decimal_plain (EntityLocation x) ltac:(lia)) as Hd.
  unfold entity_def, has. cbn [existsb]. rewrite existsb_app. cbn [existsb].
  pose proof (plain_has EPATHSTRING_END_DELIMITER_CHAR _ eq_refl Hpl) as H1.
  pose proof (plain_has EPATHSTRING_END_DELIMITER_CHAR _ eq_refl Hd) as H2.
  unfold has in H1, H2. by rewrite H1, H2.
Qed.

(** C15: The text of an entity path: for a path whose locations have at most
    six digits and whose types have a name or are positive numbers, decoding
    gives a text, and encoding the text gives back the entries, with roots
    behind them.  A location of more digits is refused and nothing is written. *)
Theorem entitypath_text_roundtrip ep bigbuf out :
  ep_wf ep ->
  (Forall printable (ep_path ep) -> exists t,
     oh_decode_entitypath (Some ep) (Some bigbuf) = (SA_OK, Some t) /\
     oh_encode_entitypath (Some t) (Some out) = (SA_OK, Some (ep_of_path (ep_path ep)))) /\
  (Exists (fun e => 10 ^ 6 <= EntityLocation e) (ep_path ep) ->
     oh_decode_entitypath (Some ep) (Some bigbuf) = (SA_ERR_HPI_INVALID_DATA, Some bigbuf)).
Proof.
  intros Hwf. pose proof (ep_path_ok ep Hwf) as Hok. unfold oh_decode_entitypath.
  change (take (root_index (Entry ep)) (Entry ep)) with (ep_path ep). split.
  - intros Hp. pose proof (proj1 Hok) as Hlen.
    assert (Hr : Forall printable (rev (ep_path ep))) by (by apply Forall_rev).
    pose proof (texts_length _ Hr) as Ht. rewrite length_rev in Ht.
    rewrite entities_text_printable by
      (done || rewrite length_rev; unfold OH_MAX_TEXT_BUFFER_LENGTH, SAHPI_MAX_ENTITY_PATH in *; cbn; lia).
    cbn [app]. fold (path_text (ep_path ep)) in *.
    assert (Hsmall : (length (path_text (ep_path ep)) < OH_MAX_TEXT_BUFFER_LENGTH)%nat)
      by (unfold OH_MAX_TEXT_BUFFER_LENGTH, SAHPI_MAX_ENTITY_PATH in *; lia).
    unfold oh_append_bigtext. cbn [length]. rewrite Nat.add_0_r.
    assert ((OH_MAX_TEXT_BUFFER_LENGTH <=? length (path_text (ep_path ep)))%nat = false) as ->
      by by apply Nat.leb_gt.
    cbn [snd app]. eexists. split; [done|]. unfold oh_encode_entitypath.
    assert ((OH_MAX_TEXT_BUFFER_LENGTH <? length (path_text (ep_path ep)))%nat = false) as ->
      by (apply Nat.ltb_ge; lia).
    destruct (ep_path ep) as [|e0 p0] eqn:Ep; [done|]. rewrite <- Ep in *.
    assert (exists e es, rev (ep_path ep) = e :: es) as (e & es & Erev).
    { destruct (rev (ep_path ep)) eqn:E; [|eauto]. apply (f_equal (@length _)) in E.
      rewrite length_rev, Ep in E. done. }
    destruct (texts_ends e es) as [m Hm]. rewrite <- Erev in Hm. fold (path_text (ep_path ep)) in Hm.
    assert (Hstrip : g_strstrip (path_text (ep_path ep)) = path_text (ep_path ep))
      by (rewrite Hm; by apply strip_ends).
    rewrite Hstrip. pose proof (split_path_text _ Hr) as Hsplit. rewrite rev_involutive in Hsplit.
    rewrite Hm in Hsplit |- *. rewrite Hsplit by done.
    rewrite parse_entities_defs by (done || rewrite length_rev; lia).
    rewrite rev_involutive, app_nil_r, length_rev. cbn [Nat.add].
    assert ((SAHPI_MAX_ENTITY_PATH <? length (ep_path ep))%nat = false) as -> by (apply Nat.ltb_ge; lia).
    by rewrite path_of_ep.
  - intros Hb. rewrite entities_text_big; [done|]. by apply Exists_rev.
Qed.

(** ** Compiling patterns *)

(** The patterns of the comment of [oh_compile_entitypath_pattern]: a splat, or
    a type and a location, each of which may be a dot ([None]). *)
Inductive tuple_spec :=
  | Splat
  | Tuple (ty : option text) (loc : option Z).

Definition part_text {A} (f : A -> text) (a : option A) : text :=
  match a with Some a => f a | None => [EPATHPATTERN_DOT] end.
Definition tuple_text (t : tuple_spec) : text :=
  match t with
  | Splat => [EPATHPATTERN_SPLAT]
  | Tuple ty loc =>
      EPATHSTRING_START_DELIMITER_CHAR :: part_text id ty ++ EPATHSTRING_VALUE_DELIMITER_CHAR ::
      part_text decimal loc ++ [EPATHSTRING_END_DELIMITER_CHAR]
  end.

Definition tuple_pattern (t : tuple_spec) : oh_entity_pattern :=
  match t with
  | Splat => {| is_splat := SAHPI_TRUE; etp := etp zero_entity_pattern; elp := elp zero_entity_pattern |}
  | Tuple ty loc =>
      {| is_splat := SAHPI_FALSE;
         etp := match ty with
                | Some name => {| etp_is_dot := SAHPI_FALSE; type := default 0 (encode_type name) |}
                | None => {| etp_is_dot := SAHPI_TRUE; type := 0 |}
                end;
         elp := match loc with
                | Some l => {| elp_is_dot := SAHPI_FALSE; location := l |}
                | None => {| elp_is_dot := SAHPI_TRUE; location := 0 |}
                end |}
  end.

(** A character inside a name or a number. *)
Definition ordinary (c : ascii) : bool :=
  negb (Ascii.eqb c EPATHSTRING_VALUE_DELIMITER_CHAR || Ascii.eqb c EPATHSTRING_START_DELIMITER_CHAR
        || Ascii.eqb c EPATHSTRING_END_DELIMITER_CHAR || Ascii.eqb c EPATHPATTERN_DOT).

(** The compiler takes type names of up to 16 characters and locations of up to
    six digits. *)
Definition tuple_ok (t : tuple_spec) : Prop :=
  match t with
  | Splat => True
  | Tuple ty loc =>
      match ty with
      | Some name => is_Some (encode_type name) /\ Forall (fun c => ordinary c = true) name /\
                     (0 < length name <= SAHPI_MAX_ENTITY_PATH)%nat
      | None => True
      end /\
      match loc with Some l => 0 <= l < 10 ^ 6 | None => True end
  end.

Fixpoint no_double_splat (ts : list tuple_spec) : Prop :=
  match ts with
  | Splat :: (Splat :: _) => False
  | _ :: ts => no_double_splat ts
  | [] => True
  end.

(** The loop gets from one position and state to another. *)
Definition advances (s : text) (i : nat) (st : scan) (i' : nat) (st' : scan) : Prop :=
  forall f, (length s - i <= f)%nat ->
    exists f', (length s - i' <= f')%nat /\ scan_loop f s i st = scan_loop f' s i' st'.

Lemma advances_refl s i st : advances s i st i st.
Proof. intros f Hf. by exists f. Qed.

Lemma advances_trans s i st i' st' i'' st'' :
  advances s i st i' st' -> advances s i' st' i'' st'' -> advances s i st i'' st''.
Proof.
  intros H1 H2 f Hf. destruct (H1 f Hf) as (f' & Hf' & ->). by apply H2.
Qed.

Lemma advances_step s i st st' n :
  (i < length s)%nat -> (tuple_no st < OH_MAX_EP_TUPLES)%nat ->
  scan_step s i st = Some (st', n) -> (0 < n)%nat -> advances s i st (i + n) st'.
Proof.
  intros Hi Ht Hs Hn f Hf. destruct f as [|f]; [lia|]. exists f. split; [lia|]. cbn [scan_loop].
  apply Nat.ltb_lt in Hi as ->. apply Nat.leb_gt in Ht as ->. by rewrite Hs.
Qed.

Lemma char_at_app pre c post : char_at (pre ++ c :: post) (length pre) = c.
Proof. unfold char_at. rewrite app_nth2 by lia. by rewrite Nat.sub_diag. Qed.

Lemma char_at_app_S pre c d post : char_at (pre ++ c :: d :: post) (S (length pre)) = d.
Proof.
  replace (pre ++ c :: d :: post) with ((pre ++ [c]) ++ d :: post) by by rewrite <- app_assoc.
  replace (S (length pre)) with (length (pre ++ [c])) by (rewrite length_app; cbn; lia).
  apply char_at_app.
Qed.

Lemma between_app pre w post :
  between (pre ++ w ++ post) (length pre) (length pre + length w) = w.
Proof.
  unfold between. rewrite drop_app_length. replace (length pre + length w - length pre)%nat with (length w) by lia.
  apply take_app_length.
Qed.

Lemma scan_ordinary s i st : in_tuple st = true -> ordinary (char_at s i) = true ->
  scan_step s i st = Some (st <| start := Some (default i (start st)) |>, 1%nat).
Proof.
  intros Ht Ho. unfold scan_step, ordinary in *. rewrite Ht. apply negb_true_iff in Ho.
  apply orb_false_iff in Ho as [Ho Hd]. apply orb_false_iff in Ho as [Ho He].
  apply orb_false_iff in Ho as [Hv Hs]. rewrite Hv, Hs, He, Hd. by destruct (in_entity st).
Qed.

Lemma advances_word w : forall pre post st, w <> [] -> Forall (fun c => ordinary c = true) w ->
  in_tuple st = true -> (tuple_no st < OH_MAX_EP_TUPLES)%nat ->
  advances (pre ++ w ++ post) (length pre) st (length pre + length w)
    (st <| start := Some (default (length pre) (start st)) |>).
Proof.
  induction w as [|c w IH]; intros pre post st Hne Hw Ht Hj; [done|].
  inversion_clear Hw as [|? ? Hc Hw'].
  assert (H1 : advances (pre ++ (c :: w) ++ post) (length pre) st (length pre + 1)
                 (st <| start := Some (default (length pre) (start st)) |>)).
  { apply advances_step; [rewrite length_app; cbn; lia|done| |lia].
    apply scan_ordinary; [done|]. cbn [app]. by rewrite char_at_app. }
  destruct w as [|d w]; [exact H1|]. eapply advances_trans; [exact H1|].
  specialize (IH (pre ++ [c]) post (st <| start := Some (default (length pre) (start st)) |>)
                ltac:(done) Hw' Ht Hj).
  rewrite length_app in IH. cbn [length] in *.
  replace ((pre ++ [c]) ++ (d :: w) ++ post) with (pre ++ (c :: d :: w) ++ post) in IH
    by (rewrite <- app_assoc; done).
  replace (length pre + 1 + S (length w))%nat with (length pre + S (S (length w)))%nat in IH by lia.
  exact IH.
Qed.

Definition ready (j : nat) (l : list oh_entity_pattern) : scan :=
  {| tuple_no := j; in_tuple := false; in_entity := false; start := None; tuples := l |}.
Definition inside (j : nat) (entity : bool) (l : list oh_entity_pattern) : scan :=
  {| tuple_no := j; in_tuple := true; in_entity := entity; start := None; tuples := l |}.

Definition set_type (ty : option text) (p : oh_entity_pattern) : oh_entity_pattern :=
  match ty with
  | Some name => p <| etp ::= fun e => e <| type := default 0 (encode_type name) |> |>
  | None => p <| is_splat := SAHPI_FALSE |> <| etp ::= fun e => e <| etp_is_dot := SAHPI_TRUE |> |>
  end.
Definition set_location (loc : option Z) (p : oh_entity_pattern) : oh_entity_pattern :=
  match loc with
  | Some l => p <| elp ::= fun e => e <| location := l |> |>
  | None => p <| elp ::= fun e => e <| elp_is_dot := SAHPI_TRUE |> |>
  end.

Lemma advances_type ty pre post j l : (j < OH_MAX_EP_TUPLES)%nat ->
  match ty with
  | Some name => is_Some (encode_type name) /\ Forall (fun c => ordinary c = true) name /\
                 (0 < length name <= SAHPI_MAX_ENTITY_PATH)%nat
  | None => True
  end ->
  advances (pre ++ part_text id ty ++ EPATHSTRING_VALUE_DELIMITER_CHAR :: post) (length pre)
    (inside j true l) (length pre + length (part_text id ty) + 1)
    (inside j false (alter (set_type ty) j l)).
Proof.
  intros Hj Hty. destruct ty as [name|]; cbn [part_text].
  - unfold id. destruct Hty as ([ty Hty] & Hord & Hlen). assert (Hne : name <> []) by by destruct name.
    eapply advances_trans; [by apply advances_word|].
    replace (pre ++ name ++ EPATHSTRING_VALUE_DELIMITER_CHAR :: post)
      with ((pre ++ name) ++ EPATHSTRING_VALUE_DELIMITER_CHAR :: post) by by rewrite app_assoc.
    rewrite <- length_app. apply advances_step; [rewrite !length_app; cbn; lia|done| |lia].
    unfold scan_step. rewrite char_at_app, length_app. unfold inside.
    cbn [in_tuple in_entity start default set_field id]. rewrite Ascii.eqb_refl.
    assert ((SAHPI_MAX_ENTITY_PATH <? length pre + length name - length pre)%nat = false) as ->
      by (apply Nat.ltb_ge; lia).
    rewrite <- app_assoc, between_app. unfold set_type. by rewrite Hty.
  - cbn [length]. replace (length pre + 1 + 1)%nat with (length pre + 2)%nat by lia. cbn [app].
    apply advances_step; [rewrite !length_app; cbn; lia|done| |lia].
    unfold scan_step. by rewrite char_at_app, char_at_app_S.
Qed.

Lemma digits_ordinary t : digits t -> Forall (fun c => ordinary c = true) t.
Proof.
  intros Ht. eapply Forall_impl; [exact Ht|]. intros c Hc. unfold ordinary.
  rewrite !(digit_not c) by done. done.
Qed.

Lemma advances_location loc pre post j l : (j < OH_MAX_EP_TUPLES)%nat ->
  match loc with Some l => 0 <= l < 10 ^ 6 | None => True end ->
  advances (pre ++ part_text decimal loc ++ EPATHSTRING_END_DELIMITER_CHAR :: post) (length pre)
    (inside j false l) (length pre + length (part_text decimal loc) + 1)
    (ready (S j) (alter (set_location loc) j l)).
Proof.
  intros Hj Hloc. destruct loc as [n|]; cbn [part_text].
  - destruct (decimal_correct n) as (Hd & _ & (c & t & Hc & _) & Hlen); [lia|].
    specialize (Hlen 6%nat (proj2 Hloc) ltac:(lia)).
    eapply advances_trans; [apply advances_word; [by rewrite Hc|by apply digits_ordinary|done|done]|].
    replace (pre ++ decimal n ++ EPATHSTRING_END_DELIMITER_CHAR :: post)
      with ((pre ++ decimal n) ++ EPATHSTRING_END_DELIMITER_CHAR :: post) by by rewrite app_assoc.
    rewrite <- length_app. apply advances_step; [rewrite !length_app; cbn; lia|done| |lia].
    unfold scan_step. rewrite char_at_app, length_app. unfold inside.
    cbn [in_tuple in_entity start default set_field id orb]. rewrite Ascii.eqb_refl.
    change (Ascii.eqb EPATHSTRING_END_DELIMITER_CHAR EPATHSTRING_VALUE_DELIMITER_CHAR
            || Ascii.eqb EPATHSTRING_END_DELIMITER_CHAR EPATHSTRING_START_DELIMITER_CHAR) with false.
    cbn [in_tuple in_entity start default set_field id orb].
    assert ((OH_MAX_LOCATION_DIGITS <? length pre + length (decimal n) - length pre)%nat = false) as ->
      by (apply Nat.ltb_ge; unfold OH_MAX_LOCATION_DIGITS; lia).
    rewrite <- app_assoc, between_app.
    pose proof (strtol_decimal 10 n []) as Hs. rewrite app_nil_r in Hs.
    rewrite Hs by (auto || lia || (rewrite <- (app_nil_r (decimal _)); apply decimal_no_hex; done || lia)).
    rewrite bool_decide_true by done. cbn [negb]. by rewrite u32_id by lia.
  - cbn [length]. replace (length pre + 1 + 1)%nat with (length pre + 2)%nat by lia. cbn [app].
    apply advances_step; [rewrite !length_app; cbn; lia|done| |lia].
    unfold scan_step. by rewrite char_at_app, char_at_app_S.
Qed.

Lemma alter_insert {A} (f : A -> A) (j : nat) (l : list A) (x : A) : l !! j = Some x -> alter f j l = <[j := f x]> l.
Proof.
  revert j. induction l as [|y l IH]; intros [|j] H; simplify_eq/=; [done|]. f_equal. by apply IH.
Qed.

Lemma advances_tuple t pre post j l : tuple_ok t -> (j < OH_MAX_EP_TUPLES)%nat ->
  l !! j = Some zero_entity_pattern -> (t = Splat -> forall p, post <> EPATHPATTERN_SPLAT :: p) ->
  advances (pre ++ tuple_text t ++ post) (length pre) (ready j l)
    (length pre + length (tuple_text t)) (ready (S j) (<[j := tuple_pattern t]> l)).
Proof.
  intros Hok Hj Hl Hs. destruct t as [|ty loc]; cbn [tuple_text].
  - cbn [length app]. apply advances_step; [rewrite !length_app; cbn; lia|done| |lia].
    unfold scan_step. rewrite char_at_app. cbn.
    assert (Ascii.eqb (char_at (pre ++ EPATHPATTERN_SPLAT :: post) (S (length pre))) EPATHPATTERN_SPLAT = false) as ->.
    { destruct post as [|c post].
      - unfold char_at. by rewrite nth_overflow by (rewrite length_app; cbn; lia).
      - rewrite char_at_app_S. apply Ascii.eqb_neq. intros ->. by destruct (Hs eq_refl post). }
    unfold set_tuple, ready, set_field. cbn. by rewrite (alter_insert _ _ _ _ Hl).
  - destruct Hok as [Hty Hloc].
    set (P := part_text id ty). set (Q := part_text decimal loc).
    set (s := pre ++ (_ :: _) ++ post).
    assert (E1 : s = (pre ++ [EPATHSTRING_START_DELIMITER_CHAR]) ++ P ++ EPATHSTRING_VALUE_DELIMITER_CHAR ::
                     (Q ++ EPATHSTRING_END_DELIMITER_CHAR :: post))
      by (unfold s; repeat (rewrite <- app_assoc; cbn [app]); done).
    assert (E2 : s = (pre ++ [EPATHSTRING_START_DELIMITER_CHAR] ++ P ++ [EPATHSTRING_VALUE_DELIMITER_CHAR])
                     ++ Q ++ EPATHSTRING_END_DELIMITER_CHAR :: post)
      by (unfold s; repeat (rewrite <- app_assoc; cbn [app]); done).
    eapply advances_trans; [|eapply advances_trans].
    + apply (advances_step s (length pre) (ready j l) (inside j true l) 1);
        [unfold s; rewrite length_app; cbn; lia|done| |lia].
      unfold scan_step, s. cbn [app]. by rewrite char_at_app.
    + replace (length pre + 1)%nat with (length (pre ++ [EPATHSTRING_START_DELIMITER_CHAR]))
        by (rewrite length_app; cbn; lia).
      rewrite E1. by apply advances_type.
    + fold P. replace (length (pre ++ [EPATHSTRING_START_DELIMITER_CHAR]) + length P + 1)%nat with
        (length (pre ++ [EPATHSTRING_START_DELIMITER_CHAR] ++ P ++ [EPATHSTRING_VALUE_DELIMITER_CHAR]))
        by (rewrite !length_app; cbn; rewrite ?length_app; cbn; lia).
      rewrite E2.
      replace (length pre + _)%nat with
        (length (pre ++ [EPATHSTRING_START_DELIMITER_CHAR] ++ P ++ [EPATHSTRING_VALUE_DELIMITER_CHAR])
         + length Q + 1)%nat
        by (cbn; repeat (rewrite length_app; cbn); lia).
      assert (<[j:=tuple_pattern (Tuple ty loc)]> l =
              alter (set_location loc) j (alter (set_type ty) j l)) as ->.
      { pose proof (lookup_lt_Some _ _ _ Hl).
        rewrite (alter_insert (set_type ty) j l _ Hl).
        rewrite (alter_insert (set_location loc) j _ (set_type ty zero_entity_pattern))
          by by apply list_lookup_insert_eq.
        rewrite list_insert_insert_eq. f_equal. by destruct ty, loc. }
      by apply advances_location.
Qed.

Fixpoint fill (j : nat) (ts : list tuple_spec) (l : list oh_entity_pattern) : list oh_entity_pattern :=
  match ts with
  | [] => l
  | t :: ts => fill (S j) ts (<[j := tuple_pattern t]> l)
  end.

Lemma next_not_splat t ts : no_double_splat (t :: ts) -> t = Splat ->
  forall p, concat (tuple_text <$> ts) <> EPATHPATTERN_SPLAT :: p.
Proof.
  intros Hn -> p. destruct ts as [|[|ty loc] ts]; [done|by cbn in Hn|done].
Qed.

Lemma advances_tuples ts : forall pre j l, Forall tuple_ok ts -> no_double_splat ts ->
  (j + length ts <= OH_MAX_EP_TUPLES)%nat ->
  (forall k, (j <= k < OH_MAX_EP_TUPLES)%nat -> l !! k = Some zero_entity_pattern) ->
  advances (pre ++ concat (tuple_text <$> ts)) (length pre) (ready j l)
    (length (pre ++ concat (tuple_text <$> ts))) (ready (j + length ts) (fill j ts l)).
Proof.
  induction ts as [|t ts IH]; intros pre j l Hok Hn Hlen Hz; cbn [fmap list_fmap concat length fill] in *.
  - rewrite app_nil_r, Nat.add_0_r. apply advances_refl.
  - inversion_clear Hok as [|? ? H1 H2]. eapply advances_trans.
    + apply advances_tuple; [done|lia|apply Hz; lia|by apply next_not_splat].
    + rewrite <- length_app, app_assoc. rewrite <- Nat.add_succ_comm.
      apply IH; [done| |lia|].
      * destruct t; [|exact Hn]. by destruct ts as [|[] ts].
      * intros k Hk. rewrite list_lookup_insert_ne by lia. apply Hz. lia.
Qed.

Lemma fill_app ts : forall pre l, (length ts <= length l)%nat ->
  fill (length pre) ts (pre ++ l) = pre ++ (tuple_pattern <$> ts) ++ drop (length ts) l.
Proof.
  induction ts as [|t ts IH]; intros pre l Hl; cbn [fill fmap list_fmap length app drop]; [done|].
  destruct l as [|x l]; cbn [length] in Hl; [lia|].
  rewrite insert_app_r_alt, Nat.sub_diag by lia. cbn [insert list_insert drop].
  replace (pre ++ tuple_pattern t :: l) with ((pre ++ [tuple_pattern t]) ++ l) by by rewrite <- app_assoc.
  replace (S (length pre)) with (length (pre ++ [tuple_pattern t])) by (rewrite length_app; cbn; lia).
  rewrite IH by lia. by rewrite <- app_assoc.
Qed.

Definition pattern_text (ts : list tuple_spec) : text := concat (tuple_text <$> ts).
Definition pattern_of (ts : list tuple_spec) : oh_entitypath_pattern :=
  {| epattern := rev (tuple_pattern <$> ts) ++
       root_pattern :: replicate (OH_MAX_EP_TUPLES - S (length ts)) zero_entity_pattern |}.

Lemma compile_text ts out : Forall tuple_ok ts -> no_double_splat ts ->
  (length ts <= SAHPI_MAX_ENTITY_PATH)%nat ->
  oh_compile_entitypath_pattern (Some (pattern_text ts)) (Some out) = Compiled SA_OK (Some (pattern_of ts)).
Proof.
  intros Hok Hn Hlen. unfold oh_compile_entitypath_pattern.
  destruct (advances_tuples ts [] 0 (replicate OH_MAX_EP_TUPLES zero_entity_pattern) Hok Hn)
    with (f := length (pattern_text ts)) as (f & _ & E).
  - unfold OH_MAX_EP_TUPLES. lia.
  - intros k Hk. apply lookup_replicate. split; [done|lia].
  - cbn [app length]. unfold pattern_text. lia.
  - cbn [app length] in E. fold (pattern_text ts) in E. change (ready 0 _) with empty_scan in E. rewrite E.
    assert (Hend : forall g st, scan_loop g (pattern_text ts) (length (pattern_text ts)) st = Some st)
      by (intros [|g] st; cbn [scan_loop]; by rewrite Nat.ltb_irrefl).
    rewrite Hend. cbn [ready tuple_no tuples Nat.add].
    assert ((OH_MAX_EP_TUPLES <=? length ts)%nat = false) as ->
      by (apply Nat.leb_gt; unfold OH_MAX_EP_TUPLES; lia).
    unfold pattern_of. do 4 f_equal.
    pose proof (fill_app ts [] (replicate OH_MAX_EP_TUPLES zero_entity_pattern)) as F.
    cbn [app length] in F. rewrite F by (rewrite length_replicate; unfold OH_MAX_EP_TUPLES; lia). by rewrite take_app_length' by by rewrite length_fmap.
Qed.

(** *** What a compiled pattern matches *)

(** An entity is of the form that a tuple describes. *)
Definition describes (t : tuple_spec) (e : SaHpiEntityT) : Prop :=
  match t with
  | Splat => False
  | Tuple ty loc =>
      match ty with Some name => encode_type name = Some (EntityType e) | None => True end /\
      match loc with Some l => EntityLocation e = l | None => True end
  end.
Definition no_root (t : tuple_spec) : Prop :=
  match t with Tuple (Some name) _ => encode_type name <> Some SAHPI_ENT_ROOT | _ => True end.

Lemma tuple_pattern_matches t e : tuple_ok t -> t <> Splat ->
  tuple_matches (tuple_pattern t) e <-> describes t e.
Proof.
  destruct t as [|ty loc]; [done|]. intros [Hty Hloc] _.
  assert (T : truthy (etp_is_dot (etp (tuple_pattern (Tuple ty loc)))) = true \/
              type (etp (tuple_pattern (Tuple ty loc))) = EntityType e <->
              match ty with Some name => encode_type name = Some (EntityType e) | None => True end).
  { destruct ty as [name|]; cbn; [|tauto]. destruct Hty as [[v ->] _]. cbn.
    split; [intros [H|H]; [done|congruence]|intros [= H]; by right]. }
  assert (L : truthy (elp_is_dot (elp (tuple_pattern (Tuple ty loc)))) = true \/
              location (elp (tuple_pattern (Tuple ty loc))) = EntityLocation e <->
              match loc with Some l => EntityLocation e = l | None => True end).
  { destruct loc as [l|]; cbn; [|tauto]. split; [intros [H|H]; [done|congruence]|intros H; right; congruence]. }
  unfold tuple_matches in *. cbn [describes]. by rewrite T, L.
Qed.

Lemma pattern_matches_tuples ps es : Forall (fun p => truthy (is_splat p) = false) ps ->
  pattern_matches ps es <-> Forall2 tuple_matches ps es.
Proof.
  intros Hs. split.
  - induction 1; inversion_clear Hs; simplify_eq; try congruence; constructor; auto.
  - induction 1; [constructor|]. inversion_clear Hs. apply pm_tuple; auto.
Qed.

Lemma end_index_app ps p qs : Forall (fun p => pattern_end p = false) ps -> pattern_end p = true ->
  end_index (ps ++ p :: qs) = length ps.
Proof. intros Hp He. induction Hp as [|x ps Hx _ IH]; cbn; [by rewrite He|by rewrite Hx, IH]. Qed.

Lemma epp_tuples_pattern_of ts : Forall tuple_ok ts -> Forall no_root ts ->
  epp_tuples (pattern_of ts) = rev (tuple_pattern <$> ts).
Proof.
  intros Hok Hr. unfold epp_tuples, pattern_of. cbn [epattern].
  rewrite end_index_app; [by apply take_app_length'| |done].
  apply Forall_rev, Forall_fmap. rewrite Forall_forall in Hok, Hr. apply Forall_forall.
  intros t Ht. specialize (Hok t Ht). specialize (Hr t Ht). unfold compose, pattern_end.
  destruct t as [|[name|] loc]; cbn; [done| |done].
  cbn in Hok, Hr. destruct Hok as [([ty Hty] & _) _]. rewrite Hty in *. cbn. apply Z.eqb_neq. congruence.
Qed.

Lemma Forall2_rev_imp {A B} (P : A -> B -> Prop) l k : Forall2 P l k -> Forall2 P (rev l) (rev k).
Proof. induction 1; cbn; [done|]. apply Forall2_app; [done|by repeat constructor]. Qed.

Lemma Forall2_rev_iff {A B} (P : A -> B -> Prop) l k : Forall2 P (rev l) (rev k) <-> Forall2 P l k.
Proof.
  split; [|apply Forall2_rev_imp]. intros H. apply Forall2_rev_imp in H. by rewrite !rev_involutive in H.
Qed.

Lemma Forall2_describes ts es : Forall tuple_ok ts -> Forall (fun t => t <> Splat) ts ->
  Forall2 (fun t e => tuple_matches (tuple_pattern t) e) ts es <-> Forall2 describes ts es.
Proof.
  intros Hok Hs. split; intros H; induction H; inversion_clear Hok; inversion_clear Hs; constructor;
    auto; by apply tuple_pattern_matches.
Qed.

(** C16: The compilation of a pattern text: for a sequence of at most 16 tuples
    whose type names have at most 16 characters and whose locations have at
    most six digits, no two splats being adjacent, the compiler gives the
    pattern of the tuples from the last to the first; without a splat it
    matches exactly the non-empty paths whose entities, from the top, are as
    the tuples describe.  (With a splat the matcher accepts only paths that match,
    [EPathPattern.oh_match_entitypath_pattern_sound], but can miss some,
    [EPathPattern.oh_match_entitypath_pattern_misses].) *)
Theorem pattern_text_correct ts out ep :
  Forall tuple_ok ts -> no_double_splat ts -> Forall no_root ts ->
  (length ts <= SAHPI_MAX_ENTITY_PATH)%nat -> ep_wf ep ->
  exists epp, oh_compile_entitypath_pattern (Some (pattern_text ts)) (Some out) = Compiled SA_OK (Some epp) /\
    epp_tuples epp = rev (tuple_pattern <$> ts) /\
    (Forall (fun t => t <> Splat) ts ->
     oh_match_entitypath_pattern (Some epp) (Some ep) = Some SAHPI_TRUE <->
       ep_path ep <> [] /\ Forall2 describes ts (rev (ep_path ep))).
Proof.
  intros Hok Hn Hr Hlen Hep. exists (pattern_of ts). split; [by apply compile_text|].
  pose proof (epp_tuples_pattern_of ts Hok Hr) as Ht. split; [done|]. intros Hs.
  assert (Hns : Forall (fun p => truthy (is_splat p) = false) (epp_tuples (pattern_of ts))).
  { rewrite Ht. apply Forall_rev, Forall_fmap. eapply Forall_impl; [exact Hs|]. by intros []. }
  rewrite oh_match_entitypath_pattern_exact; [| |done|done].
  - rewrite pattern_matches_tuples, Ht by done.
    assert (E : Forall2 tuple_matches (rev (tuple_pattern <$> ts)) (ep_path ep) <->
                Forall2 describes ts (rev (ep_path ep))); [|by rewrite E].
    rewrite <- (rev_involutive (ep_path ep)) at 1. rewrite Forall2_rev_iff, Forall2_fmap_l.
    by apply Forall2_describes.
  - unfold epp_wf, pattern_of. cbn [epattern]. rewrite length_app, length_rev, length_fmap. cbn [length].
    rewrite length_replicate. unfold OH_MAX_EP_TUPLES. lia.
Qed.

(** ** Witnesses and observations *)

Definition sample_path : list SaHpiEntityT :=
  [{| EntityType := value_of SaHpiEntityTypeT "SAHPI_ENT_SYSTEM_CHASSIS"; EntityLocation := 12345 |};
   {| EntityType := 1000; EntityLocation := 0 |}].

Lemma entitypath_text_roundtrip_witness :
  exists t, oh_decode_entitypath (Some (ep_of_path sample_path)) (Some []) = (SA_OK, Some t) /\
    oh_encode_entitypath (Some t) (Some (ep_of_path [])) =
      (SA_OK, Some (ep_of_path (ep_path (ep_of_path sample_path)))).
Proof.
  apply (proj1 (entitypath_text_roundtrip (ep_of_path sample_path) [] (ep_of_path []) eq_refl)).
  unfold printable. repeat (apply Forall_cons; split); [| |by apply Forall_nil].
  - split; [vm_compute; by split|left; vm_compute; by eexists].
  - split; [vm_compute; by split|right; vm_compute; by split].
Defined.

(** [{SYSTEM_CHASSIS,2}{.,7}] *)
Definition sample_tuples : list tuple_spec :=
  [Tuple (Some (text_of "SYSTEM_CHASSIS")) (Some 2); Tuple None (Some 7)].

Lemma pattern_text_correct_witness :
  exists epp,
    oh_compile_entitypath_pattern (Some (pattern_text sample_tuples)) (Some sample_pattern)
      = Compiled SA_OK (Some epp) /\
    epp_tuples epp = rev (tuple_pattern <$> sample_tuples) /\
    (Forall (fun t => t <> Splat) sample_tuples ->
     oh_match_entitypath_pattern (Some epp) (Some (ep_of_path sample_path)) = Some SAHPI_TRUE <->
       ep_path (ep_of_path sample_path) <> [] /\
       Forall2 describes sample_tuples (rev (ep_path (ep_of_path sample_path)))).
Proof.
  apply pattern_text_correct.
  - repeat (apply Forall_cons; split); [| |by apply Forall_nil].
    + split; [split; [vm_compute; by eexists|split; [|vm_compute; lia]]|vm_compute; by split].
      apply Forall_forall. intros c Hc. apply list_elem_of_In in Hc. revert c Hc. apply forallb_forall.
      by vm_compute.
    + split; [done|vm_compute; by split].
  - done.
  - repeat (apply Forall_cons; split); [by vm_compute|done|by apply Forall_nil].
  - vm_compute. lia.
  - by vm_compute.
Defined.

Definition encoded (s : string) : Z * list SaHpiEntityT :=
  match oh_encode_entitypath (Some (text_of s)) (Some (ep_of_path [])) with
  | (rv, Some p) => (rv, ep_path p)
  | (rv, None) => (rv, [])
  end.

(** A closing delimiter too many ends the parsing without an error, and the
    last entity need not be closed. *)
Lemma encode_accepts_malformed :
  encoded "{SYSTEM_CHASSIS,1}}{SYSTEM_CHASSIS,2}" = encoded "{SYSTEM_CHASSIS,1}" /\
  encoded "{SYSTEM_CHASSIS,1" = encoded "{SYSTEM_CHASSIS,1}" /\
  encoded "{SYSTEM_CHASSIS,}" = encoded "{SYSTEM_CHASSIS,0}" /\
  fst (encoded "{SYSTEM_CHASSIS,1}") = SA_OK.
Proof. by vm_compute. Qed.

Definition compiled_from (s : string) : compiled :=
  oh_compile_entitypath_pattern (Some (text_of s)) (Some sample_pattern).

(** Names of more than 16 characters are refused, though the types exist. *)
Lemma compile_refuses_long_names :
  oh_encode_entitytype (Some "SYSTEM_INVENTORY_DEVICE"%string) (Some 0) =
    (SA_OK, Some (value_of SaHpiEntityTypeT "SAHPI_ENT_SYSTEM_INVENTORY_DEVICE")) /\
  compiled_from "{SYSTEM_INVENTORY_DEVICE,1}" = Compiled SA_ERR_HPI_ERROR (Some sample_pattern).
Proof. by vm_compute. Qed.

(** A pattern of 17 tuples makes the compiler write behind its array; an
    unfinished last tuple is dropped. *)
Lemma compile_overflow_and_truncation :
  oh_compile_entitypath_pattern (Some (pattern_text (replicate 17 (Tuple None None)))) (Some sample_pattern)
    = WritesPastArray /\
  compiled_from "{RACK,1}{RACK" = compiled_from "{RACK,1}".
Proof. by vm_compute. Qed.
