(* ===== verification/Plugin.v ===== *)
(** Plug-ins and their handlers: [openhpid/plugin.c], with the structures of
    [include/oh_plugin.h], and the harvesting of events of [openhpid/event.c].

    The objects that are allocated are in two heaps, by address; using an object
    that was freed is undefined.  [oh_plugins.list] and [oh_handlers.list] are
    lists of addresses; [oh_handlers.table] gives for an id the address of the
    handler whose list node the C table holds.  The table of functions of a
    plug-in belongs to the plug-in object, so a handler's [abi] is the address of
    that object.  Looking up a shared object and calling a function of a plug-in
    are parameters that depend on the calls made so far, which are logged.

    The functions are run by one thread alone here, so the recursive mutexes of
    plug-ins and handlers are counters, which must return to zero; their use by
    several threads is the subject of [PluginLife]. *)
From S2P Require Import Prelude SaHpi EntityPath Conf CText EPathText.
From Stdlib Require Import Ascii.
#[local] Open Scope string_scope.
#[local] Open Scope Z_scope.

(** ** Configuration values

    A value of a handler's configuration is memory: a string, or the bytes of a
    number, which a string function reads up to the first zero byte. *)
Inductive conf_value := ConfString (s : string) | ConfBytes (bytes : text).

Fixpoint before_zero (l : text) : option text :=
  match l with
  | [] => None
  | c :: l => if Ascii.eqb c zero then Some [] else cons c <$> before_zero l
  end.
(** The text that [g_strdup] copies; [None] if it runs over the end. *)
Definition c_string (v : conf_value) : option string :=
  match v with ConfString s => Some s | ConfBytes b => string_of <$> before_zero b end.

(** ** State *)

Record oh_plugin := {
  name : string; dl_handle : option (list string); plugin_abi : list string;
  handler_count : Z; plugin_refcount : Z; plugin_locks : nat }.
#[export] Instance eta_oh_plugin : Eta oh_plugin := fun x =>
  Build_oh_plugin (name x) (dl_handle x) (plugin_abi x) (handler_count x)
    (plugin_refcount x) (plugin_locks x).

Record oh_handler := {
  id : Z; plugin_name : string; config : gmap string string; abi : nat;
  hnd : option Z; refcount : Z; locks : nat }.
#[export] Instance eta_oh_handler : Eta oh_handler := fun x =>
  Build_oh_handler (id x) (plugin_name x) (config x) (abi x) (hnd x) (refcount x) (locks x).

(** What is called outside of the daemon; a call of a plug-in is logged with the
    id of the handler. *)
Inductive plugin_call :=
  | ModuleOpen (path : string)
  | ModuleClose (plugin : string)
  | AbiOpen (hid : Z) (plugin : string) (cfg : gmap string string)
  | AbiClose (hid hnd : Z)
  | AbiDiscover (hid hnd : Z)
  | AbiGetEvent (hid hnd : Z)
  | AbiSetTimeout (hid hnd timeout : Z)
  | AbiInject (hid : Z) (hnd : option Z) (event : SaHpiEventT) (rpte : SaHpiRptEntryT) (rdr : SaHpiRdrT).

Class Environment := {
  getenv : string -> option string;
  g_module_supported : bool;
  g_module_build_path : string -> string -> string;
  (** The symbols that the shared object exports; [NULL] if it cannot be
      opened.  The last call of the argument is the one that is answered. *)
  g_module_open : list plugin_call -> option (list string);
  abi_open : list plugin_call -> option Z;
  abi_result : list plugin_call -> Z }.

Record registry := {
  plugins : gmap nat oh_plugin; plugin_list : list nat;
  handlers : gmap nat oh_handler; handler_list : list nat; handler_table : gmap Z nat;
  handler_id : Z; next_addr : nat; log : list plugin_call; params : global_params }.
#[export] Instance eta_registry : Eta registry := fun x =>
  Build_registry (plugins x) (plugin_list x) (handlers x) (handler_list x) (handler_table x)
    (handler_id x) (next_addr x) (log x) (params x).

(** ** The monad *)

Inductive outcome (A : Type) :=
  | Done (a : A) (s : registry)
  | Undefined
  | Waits.
Arguments Done {A} a s.
Arguments Undefined {A}.
Arguments Waits {A}.

Definition R (A : Type) : Type := registry -> outcome A.
#[export] Instance R_ret : MRet R := fun A a s => Done a s.
#[export] Instance R_bind : MBind R := fun A B k m s =>
  match m s with Done a s => k a s | Undefined => Undefined | Waits => Waits end.

Definition undefined {A} : R A := fun _ => Undefined.
Definition waits {A} : R A := fun _ => Waits.
Definition get {A} (f : registry -> A) : R A := fun s => Done (f s) s.
Definition modify (f : registry -> registry) : R unit := fun s => Done tt (f s).
Definition valid {A} (o : option A) : R A := match o with Some a => mret a | None => undefined end.
Definition when (b : bool) (m : R unit) : R unit := if b then m else mret tt.

(** The object a pointer points to. *)
Definition plugin_at (p : nat) : R oh_plugin := s ← get plugins; valid (s !! p).
Definition handler_at (h : nat) : R oh_handler := s ← get handlers; valid (s !! h).
Definition on_plugin (p : nat) (f : oh_plugin -> oh_plugin) : R unit :=
  _ ← plugin_at p; modify (fun s => s <| plugins ::= alter f p |>).
Definition on_handler (h : nat) (f : oh_handler -> oh_handler) : R unit :=
  _ ← handler_at h; modify (fun s => s <| handlers ::= alter f h |>).

(** A call of code outside of the daemon: the log including it. *)
Definition call (c : plugin_call) : R (list plugin_call) := fun s =>
  let l := (log s ++ [c])%list in Done l (s <| log := l |>).

(** The members of [oh_abi_v2] that are not [NULL]. *)
Definition abi_has (h : oh_handler) (member : string) : R bool :=
  p ← plugin_at (abi h); mret (bool_decide (member ∈ plugin_abi p)).

(** A recursive mutex, used by one thread. *)
Definition unlock_plugin (p : nat) : R unit :=
  x ← plugin_at p;
  if (plugin_locks x =? 0)%nat then undefined
  else on_plugin p (fun x => x <| plugin_locks ::= pred |>).
Definition unlock_handler (h : nat) : R unit :=
  x ← handler_at h;
  if (locks x =? 0)%nat then undefined
  else on_handler h (fun x => x <| locks ::= pred |>).

(** The first occurrence of an element is removed, [g_slist_remove]. *)
Fixpoint g_slist_remove (x : nat) (l : list nat) : list nat :=
  match l with [] => [] | y :: l => if (y =? x)%nat then l else y :: g_slist_remove x l end.

(** [node->next->data] for the node of an element. *)
Fixpoint next_of (x : nat) (l : list nat) : option nat :=
  match l with
  | [] => None
  | y :: l => if (y =? x)%nat then head l else next_of x l
  end.

(** ** The functions of a plug-in *)

(** The symbols that are looked up, each with the member it is stored to. *)
Definition abi_symbols : list (string * string) :=
  [("oh_open", "open");
   ("oh_close", "close");
   ("oh_get_event", "get_event");
   ("oh_discover_resources", "discover_resources");
   ("oh_set_resource_tag", "set_resource_tag");
   ("oh_set_resource_severity", "set_resource_severity");
   ("oh_resource_failed_remove", "resource_failed_remove");
   ("oh_get_el_info", "get_el_info");
   ("oh_get_el_caps", "get_el_caps");
   ("oh_set_el_time", "set_el_time");
   ("oh_add_el_entry", "add_el_entry");
   ("oh_get_el_entry", "get_el_entry");
   ("oh_clear_el", "clear_el");
   ("oh_set_el_state", "set_el_state");
   ("oh_reset_el_overflow", "reset_el_overflow");
   ("oh_get_sensor_reading", "get_sensor_reading");
   ("oh_get_sensor_thresholds", "get_sensor_thresholds");
   ("oh_set_sensor_thresholds", "set_sensor_thresholds");
   ("oh_get_sensor_enable", "get_sensor_enable");
   ("oh_set_sensor_enable", "set_sensor_enable");
   ("oh_get_sensor_event_enables", "get_sensor_event_enables");
   ("oh_set_sensor_event_enables", "set_sensor_event_enables");
   ("oh_get_sensor_event_masks", "get_sensor_event_masks");
   ("oh_set_sensor_event_masks", "set_sensor_event_masks");
   ("oh_get_control_state", "get_control_state");
   ("oh_set_control_state", "set_control_state");
   ("oh_get_idr_info", "get_idr_info");
   ("oh_get_idr_area_header", "get_idr_area_header");
   ("oh_add_idr_area", "add_idr_area");
   ("oh_add_idr_area_id", "add_idr_area_id");
   ("oh_del_idr_area", "del_idr_area");
   ("oh_get_idr_field", "get_idr_field");
   ("oh_add_idr_field", "add_idr_field");
   ("oh_add_idr_field_id", "add_idr_field_id");
   ("oh_set_idr_field", "set_idr_field");
   ("oh_del_idr_field", "del_idr_field");
   ("oh_get_watchdog_info", "get_watchdog_info");
   ("oh_set_watchdog_info", "set_watchdog_info");
   ("oh_reset_watchdog", "reset_watchdog");
   ("oh_get_next_announce", "get_next_announce");
   ("oh_get_announce", "get_announce");
   ("oh_ack_announce", "ack_announce");
   ("oh_add_announce", "add_announce");
   ("oh_del_announce", "del_announce");
   ("oh_get_annunc_mode", "get_annunc_mode");
   ("oh_set_annunc_mode", "set_annunc_mode");
   ("oh_get_dimi_info", "get_dimi_info");
   ("oh_get_dimi_test", "get_dimi_test");
   ("oh_get_dimi_test_ready", "get_dimi_test_ready");
   ("oh_start_dimi_test", "start_dimi_test");
   ("oh_cancel_dimi_test", "cancel_dimi_test");
   ("oh_get_dimi_test_status", "get_dimi_test_status");
   ("oh_get_dimi_test_results", "get_dimi_test_results");
   ("oh_get_fumi_spec", "get_fumi_spec");
   ("oh_get_fumi_service_impact", "get_fumi_service_impact");
   ("oh_set_fumi_source", "set_fumi_source");
   ("oh_validate_fumi_source", "validate_fumi_source");
   ("oh_get_fumi_source", "get_fumi_source");
   ("oh_get_fumi_source_component", "get_fumi_source_component");
   ("oh_get_fumi_target", "get_fumi_target");
   ("oh_get_fumi_target_component", "get_fumi_target_component");
   ("oh_get_fumi_logical_target", "get_fumi_logical_target");
   ("oh_get_fumi_logical_target_component", "get_fumi_logical_target_component");
   ("oh_start_fumi_backup", "start_fumi_backup");
   ("oh_set_fumi_bank_order", "set_fumi_bank_order");
   ("oh_start_fumi_bank_copy", "start_fumi_bank_copy");
   ("oh_start_fumi_install", "start_fumi_install");
   ("oh_get_fumi_status", "get_fumi_status");
   ("oh_start_fumi_verify", "start_fumi_verify");
   ("oh_start_fumi_verify_main", "start_fumi_verify_main");
   ("oh_cancel_fumi_upgrade", "cancel_fumi_upgrade");
   ("oh_get_fumi_autorollback_disable", "get_fumi_autorollback_disable");
   ("oh_set_fumi_autorollback_disable", "set_fumi_autorollback_disable");
   ("oh_start_fumi_rollback", "start_fumi_rollback");
   ("oh_activate_fumi", "activate_fumi");
   ("oh_start_fumi_activate", "start_fumi_activate");
   ("oh_cleanup_fumi", "cleanup_fumi");
   ("oh_hotswap_policy_cancel", "hotswap_policy_cancel");
   ("oh_get_hotswap_state", "get_hotswap_state");
   ("oh_set_autoinsert_timeout", "set_autoinsert_timeout");
   ("oh_set_hotswap_state", "set_hotswap_state");
   ("oh_request_hotswap_action", "request_hotswap_action");
   ("oh_get_autoextract_timeout", "get_autoextract_timeout");
   ("oh_set_autoextract_timeout", "set_autoextract_timeout");
   ("oh_get_power_state", "get_power_state");
   ("oh_set_power_state", "set_power_state");
   ("oh_get_indicator_state", "get_indicator_state");
   ("oh_set_indicator_state", "set_indicator_state");
   ("oh_control_parm", "control_parm");
   ("oh_load_id_get", "load_id_get");
   ("oh_load_id_set", "load_id_set");
   ("oh_get_reset_state", "get_reset_state");
   ("oh_set_reset_state", "set_reset_state");
   ("oh_inject_event", "inject_event")].

(** The members of [struct oh_abi_v2], in the order of the header. *)
Definition oh_abi_v2 : list string :=
  ["open";
   "close";
   "get_event";
   "discover_resources";
   "set_resource_tag";
   "set_resource_severity";
   "resource_failed_remove";
   "get_el_info";
   "get_el_caps";
   "set_el_time";
   "add_el_entry";
   "get_el_entry";
   "clear_el";
   "set_el_state";
   "reset_el_overflow";
   "get_sensor_reading";
   "get_sensor_thresholds";
   "set_sensor_thresholds";
   "get_sensor_enable";
   "set_sensor_enable";
   "get_sensor_event_enables";
   "set_sensor_event_enables";
   "get_sensor_event_masks";
   "set_sensor_event_masks";
   "get_control_state";
   "set_control_state";
   "get_idr_info";
   "get_idr_area_header";
   "add_idr_area";
   "add_idr_area_id";
   "del_idr_area";
   "get_idr_field";
   "add_idr_field";
   "add_idr_field_id";
   "set_idr_field";
   "del_idr_field";
   "get_watchdog_info";
   "set_watchdog_info";
   "reset_watchdog";
   "get_next_announce";
   "get_announce";
   "ack_announce";
   "add_announce";
   "del_announce";
   "get_annunc_mode";
   "set_annunc_mode";
   "get_dimi_info";
   "get_dimi_test";
   "get_dimi_test_ready";
   "start_dimi_test";
   "cancel_dimi_test";
   "get_dimi_test_status";
   "get_dimi_test_results";
   "get_fumi_spec";
   "get_fumi_service_impact";
   "set_fumi_source";
   "validate_fumi_source";
   "get_fumi_source";
   "get_fumi_source_component";
   "get_fumi_target";
   "get_fumi_target_component";
   "get_fumi_logical_target";
   "get_fumi_logical_target_component";
   "start_fumi_backup";
   "set_fumi_bank_order";
   "start_fumi_bank_copy";
   "start_fumi_install";
   "get_fumi_status";
   "start_fumi_verify";
   "start_fumi_verify_main";
   "cancel_fumi_upgrade";
   "get_fumi_autorollback_disable";
   "set_fumi_autorollback_disable";
   "start_fumi_rollback";
   "activate_fumi";
   "start_fumi_activate";
   "cleanup_fumi";
   "hotswap_policy_cancel";
   "set_autoinsert_timeout";
   "get_autoextract_timeout";
   "set_autoextract_timeout";
   "get_hotswap_state";
   "set_hotswap_state";
   "request_hotswap_action";
   "get_indicator_state";
   "set_indicator_state";
   "get_power_state";
   "set_power_state";
   "control_parm";
   "load_id_get";
   "load_id_set";
   "get_reset_state";
   "set_reset_state";
   "inject_event"].

(** [g_module_symbol] stores [NULL] for a symbol that the object does not have. *)
Definition oh_load_plugin_functions (exports : list string) : Z * list string :=
  (0, snd <$> filter (fun e => e.1 ∈ exports) abi_symbols).

(** ** Plug-ins *)

Definition inc_plugin_refcount (p : nat) : R unit :=
  on_plugin p (fun x => x <| plugin_refcount ::= Z.succ |>).
Definition dec_plugin_refcount (p : nat) : R unit :=
  on_plugin p (fun x => x <| plugin_refcount ::= Z.pred |>).

Definition delete_plugin (p : nat) : R unit :=
  x ← plugin_at p;
  when (bool_decide (is_Some (dl_handle x))) (_ ← call (ModuleClose (name x)); mret tt);;
  modify (fun s => s <| plugins ::= delete p |>).

Fixpoint find_plugin (plugin_name : string) (l : list nat) : R (option nat) :=
  match l with
  | [] => mret None
  | p :: l =>
      x ← plugin_at p;
      if String.eqb (name x) plugin_name then mret (Some p) else find_plugin plugin_name l
  end.

Definition oh_get_plugin (plugin_name : option string) : R (option nat) :=
  match plugin_name with
  | None => mret None
  | Some n =>
      l ← get plugin_list;
      r ← find_plugin n l;
      match r with
      | None => mret None
      | Some p =>
          inc_plugin_refcount p;;
          on_plugin p (fun x => x <| plugin_locks ::= S |>);;
          mret (Some p)
      end
  end.

Definition oh_release_plugin (plugin : option nat) : R unit :=
  match plugin with
  | None => mret tt
  | Some p =>
      dec_plugin_refcount p;;
      x ← plugin_at p;
      if plugin_refcount x <? 0 then delete_plugin p else unlock_plugin p
  end.

(** [strncpy] into [size] zero bytes: the characters of the buffer before the
    first zero byte, if there is one. *)
Definition strncpy (s : string) (size : nat) : string := String.substring 0 size s.

(** The search of [oh_getnext_plugin_name] stops at the first plug-in of the
    name. *)
Fixpoint after_plugin (plugin_name : string) (l : list nat) : R (option nat) :=
  match l with
  | [] => mret None
  | p :: l =>
      x ← plugin_at p;
      if String.eqb (name x) plugin_name then mret (head l) else after_plugin plugin_name l
  end.

(** The result and the contents of the buffer ([next_plugin_name] tells whether
    there is one). *)
Definition oh_getnext_plugin_name (plugin_name : option string) (next_plugin_name : bool)
    (size : nat) : R (Z * string) :=
  if negb next_plugin_name then mret (-1, "") else
  l ← get plugin_list;
  r ← match plugin_name with None => mret (head l) | Some n => after_plugin n l end;
  match r with
  | Some p => x ← plugin_at p; mret (0, strncpy (name x) size)
  | None => mret (-1, "")
  end.

Section environment.
Context `{Environment}.

(** The directories are tried in turn. *)
Fixpoint open_in (dirs : list text) (plugin_name : string) : R (option (list string)) :=
  match dirs with
  | [] => mret None
  | d :: dirs =>
    l ← call (ModuleOpen (g_module_build_path (string_of d) plugin_name));
    match g_module_open l with
    | Some symbols => mret (Some symbols)
    | None => open_in dirs plugin_name
    end
  end.

(** A parameter is read, which may first load the environment. *)
Definition global_param (type : Z) : R (option param_union) := fun s =>
  let '(_, g, u) := oh_get_global_param getenv (Some (type, PNum 0)) (params s) in
  Done u (s <| params := g |>).
Definition global_param2 (type : Z) : R (option param_union) := fun s =>
  let '(_, g, u) := oh_get_global_param2 getenv type (Some (PNum 0)) (params s) in
  Done u (s <| params := g |>).
Definition as_text (u : option param_union) : R string :=
  match u with Some (PStr p) => mret p | _ => undefined end.
Definition as_number (u : option param_union) : R Z :=
  match u with Some (PNum z) => mret z | _ => undefined end.

Definition alloc_plugin (x : oh_plugin) : R nat := fun s =>
  Done (next_addr s) (s <| plugins ::= insert (next_addr s) x |> <| next_addr ::= S |>).
Definition alloc_handler (x : oh_handler) : R nat := fun s =>
  Done (next_addr s) (s <| handlers ::= insert (next_addr s) x |> <| next_addr ::= S |>).

Definition oh_load_plugin (plugin_name : option string) : R Z :=
  match plugin_name with
  | None => mret (-1)
  | Some n =>
    if negb g_module_supported then mret (-1) else
    r ← oh_get_plugin (Some n);
    match r with
    | Some p => oh_release_plugin (Some p);; mret 0
    | None =>
        p ← alloc_plugin {| name := n; dl_handle := None; plugin_abi := [];
                            handler_count := 0; plugin_refcount := 0; plugin_locks := 0 |};
        u ← global_param OPENHPI_PATH;
        path ← as_text u;
        dl ← open_in (g_strsplit ":" (text_of path)) n;
        on_plugin p (fun x => x <| dl_handle := dl |>);;
        match dl with
        | None => delete_plugin p;; mret (-1)
        | Some exports =>
            let '(err, members) := oh_load_plugin_functions exports in
            on_plugin p (fun x => x <| plugin_abi := members |>);;
            if (err <? 0) || negb (bool_decide ("open" ∈ members))
            then delete_plugin p;; mret (-1)
            else modify (fun s => s <| plugin_list ::= fun l => (l ++ [p])%list |>);; mret 0
        end
    end
  end.

Definition oh_unload_plugin (plugin_name : option string) : R Z :=
  match plugin_name with
  | None => mret (-1)
  | Some n =>
    r ← oh_get_plugin (Some n);
    match r with
    | None => mret (-2)
    | Some p =>
        x ← plugin_at p;
        if 0 <? handler_count x then oh_release_plugin (Some p);; mret (-3) else
        modify (fun s => s <| plugin_list ::= g_slist_remove p |>);;
        dec_plugin_refcount p;;
        x ← plugin_at p;
        (if plugin_refcount x <? 1 then delete_plugin p else oh_release_plugin (Some p));;
        mret 0
    end
  end.

(** ** Handlers *)

Definition inc_handler_refcount (h : nat) : R unit :=
  on_handler h (fun x => x <| refcount ::= Z.succ |>).
Definition dec_handler_refcount (h : nat) : R unit :=
  on_handler h (fun x => x <| refcount ::= Z.pred |>).

Definition delete_handler (h : nat) : R unit :=
  x ← handler_at h;
  r ← oh_get_plugin (Some (plugin_name x));
  match r with
  | None => mret tt
  | Some p =>
    on_plugin p (fun y => y <| handler_count ::= Z.pred |>);; oh_release_plugin (Some p)
  end;;
  modify (fun s => s <| handlers ::= delete h |>).

Definition oh_get_handler (hid : Z) : R (option nat) :=
  t ← get handler_table;
  match t !! hid with
  | None => mret None
  | Some h =>
    inc_handler_refcount h;;
    on_handler h (fun x => x <| locks ::= S |>);;
    mret (Some h)
  end.

Definition oh_release_handler (handler : option nat) : R unit :=
  match handler with
  | None => mret tt
  | Some h =>
    dec_handler_refcount h;;
    x ← handler_at h;
    if refcount x <? 0 then delete_handler h else unlock_handler h
  end.

(** The result and what is stored through [next_hid]. *)
Definition oh_getnext_handler_id (hid : Z) (next_hid : bool) : R (Z * Z) :=
  if negb next_hid then mret (-1, 0) else
  l ← get handler_list;
  t ← get handler_table;
  match (if hid =? 0 then head l else h ← t !! hid; next_of h l) with
  | Some h => x ← handler_at h; mret (0, id x)
  | None => mret (-1, 0)
  end.

(** The copy of a configuration; it is undefined if a value is not terminated. *)
Definition copy_hashed_new_config (c : gmap string conf_value) : R (gmap string string) :=
  if bool_decide (map_Forall (fun _ v => is_Some (c_string v)) c)
  then mret (omap c_string c) else undefined.

(** The plug-in, held; it is loaded if it is not there. *)
Definition plugin_for (plugin_name : string) : R (option nat) :=
  r ← oh_get_plugin (Some plugin_name);
  match r with
  | Some p => mret (Some p)
  | None =>
      rc ← oh_load_plugin (Some plugin_name);
      if negb (rc =? 0) then mret None else oh_get_plugin (Some plugin_name)
  end.

Definition init_handler (p : nat) (plugin_name : string) (handler_config : gmap string conf_value)
  : R nat :=
  on_plugin p (fun y => y <| handler_count ::= Z.succ |>);;
  oh_release_plugin (Some p);;
  hid ← get handler_id;
  modify (fun s => s <| handler_id := u32 (hid + 1) |>);;
  newconfig ← copy_hashed_new_config handler_config;
  alloc_handler {| id := hid; plugin_name := plugin_name; config := newconfig;
                   abi := p; hnd := None; refcount := 0; locks := 0 |}.

Definition new_handler (handler_config : option (gmap string conf_value)) : R (option nat) :=
  match handler_config with
  | None => mret None
  | Some handler_config =>
      match handler_config !! "plugin" with
      | None => mret None
      | Some v =>
          plugin_name ← valid (c_string v);
          r ← plugin_for plugin_name;
          match r with
          | None => mret None
          | Some p => h ← init_handler p plugin_name handler_config; mret (Some h)
          end
      end
  end.

(** The timeout of the domain for hot swap insertions is passed on if it is not
    read-only and not zero; the result of the plug-in is only reported. *)
Definition set_timeout (x : oh_handler) (instance : Z) : R unit :=
  can_set ← abi_has x "set_autoinsert_timeout";
  when can_set (
    u ← global_param2 OPENHPI_AUTOINSERT_TIMEOUT;
    ai_timeout ← as_number u;
    u ← global_param2 OPENHPI_AUTOINSERT_TIMEOUT_READONLY;
    readonly ← as_number u;
    when (negb (truthy readonly) && truthy ai_timeout)
      (_ ← call (AbiSetTimeout (id x) instance ai_timeout); mret tt)).

(** The handler is put into the list and the table, and opened. *)
Definition install_handler (h : nat) : R (Z * Z) :=
  x ← handler_at h;
  modify (fun s => s <| handler_list ::= fun l => (l ++ [h])%list |>
                     <| handler_table ::= insert (id x) h |>);;
  can_open ← abi_has x "open";
  if negb can_open then undefined else
  l ← call (AbiOpen (id x) (plugin_name x) (config x));
  on_handler h (fun x => x <| hnd := abi_open l |>);;
  match abi_open l with
  | None => mret (SA_ERR_HPI_INTERNAL_ERROR, id x)
  | Some instance => set_timeout x instance;; mret (SA_OK, id x)
  end.

(** The result and the handler id stored. *)
Definition oh_create_handler (handler_config : option (gmap string conf_value)) (hid : bool)
  : R (Z * Z) :=
  if negb (bool_decide (is_Some handler_config)) || negb hid
  then mret (SA_ERR_HPI_INVALID_PARAMS, 0) else
  r ← new_handler handler_config;
  match r with
  | None => mret (SA_ERR_HPI_ERROR, 0)
  | Some h => install_handler h
  end.

(** [abi->close(hnd)], if there is such a function and an instance. *)
Definition close_instance (x : oh_handler) : R unit :=
  can_close ← abi_has x "close";
  match can_close, hnd x with
  | true, Some instance => _ ← call (AbiClose (id x) instance); mret tt
  | _, _ => mret tt
  end.

Definition oh_destroy_handler (hid : Z) : R Z :=
  if hid <? 1 then mret (-1) else
  r ← oh_get_handler hid;
  match r with
  | None => mret (-1)
  | Some h =>
    x ← handler_at h;
    close_instance x;;
    modify (fun s => s <| handler_table ::= delete (id x) |>
                       <| handler_list ::= g_slist_remove h |>);;
    dec_handler_refcount h;;
    x ← handler_at h;
    (if refcount x <? 1 then delete_handler h else oh_release_handler (Some h));;
    mret 0
  end.

(** The members of [oHpiHandlerInfoT]. *)
Definition MAX_PLUGIN_NAME_LENGTH : nat := 32.
Record oHpiHandlerInfoT := {
  info_id : Z; info_plugin_name : string; entity_root : SaHpiEntityPathT; load_failed : Z }.

(** The root starts as the empty path, which an invalid text leaves. *)
Definition entity_root_of (c : gmap string string) : SaHpiEntityPathT :=
  match c !! "entity_root" with
  | Some t => match snd (oh_encode_entitypath (Some (text_of t)) (Some (ep_of_path []))) with
            | Some p => p
            | None => ep_of_path []
            end
  | None => ep_of_path []
  end.

(** The entries of the configuration replace those of the caller's table; the
  password is masked. *)
Definition mask_password (c : gmap string string) : gmap string string :=
  match c !! "password" with Some _ => <["password" := "********"]> c | None => c end.

Definition oh_get_handler_info (hid : Z) (info : bool) (conf_params : option (gmap string string))
  : R (Z * option (oHpiHandlerInfoT * gmap string string)) :=
  match conf_params with
  | None => mret (SA_ERR_HPI_INVALID_PARAMS, None)
  | Some c =>
    if (hid =? 0) || negb info then mret (SA_ERR_HPI_INVALID_PARAMS, None) else
    t ← get handler_table;
    match t !! hid with
    | None => mret (SA_ERR_HPI_NOT_PRESENT, None)
    | Some h =>
        x ← handler_at h;
        mret (SA_OK, Some
          ({| info_id := hid; info_plugin_name := strncpy (plugin_name x) MAX_PLUGIN_NAME_LENGTH;
              entity_root := entity_root_of (config x);
              load_failed := match hnd x with None => 1 | Some _ => 0 end |},
           mask_password (config x ∪ c)))
    end
  end.

Fixpoint close_all (l : list nat) : R unit :=
  match l with
  | [] => mret tt
  | h :: l => x ← handler_at h; close_instance x;; close_all l
  end.
Definition oh_close_handlers : R unit := l ← get handler_list; close_all l.

(** ** The loops over the handlers

  Both loops of the daemon's threads have the same frame; [work] gets the
  handler and whether no call has succeeded so far, and [stop n] tells whether
  [signal_stop] is set at the n-th iteration. *)
Fixpoint each_handler (fuel : nat) (stop : nat -> bool) (n : nat) (work : oh_handler -> R bool)
  (hid error : Z) : R Z :=
  match fuel with
  | O => waits
  | S fuel =>
    r ← oh_getnext_handler_id hid true;
    let next_hid := r.2 in
    if next_hid =? 0 then mret error else
    if stop n then mret SA_OK else
    r ← oh_get_handler next_hid;
    match r with
    | None => mret error
    | Some h =>
        x ← handler_at h;
        ok ← work x;
        oh_release_handler (Some h);;
        each_handler fuel stop (S n) work next_hid (if (ok : bool) then SA_OK else error)
    end
  end.

(** A list of [n] handlers takes at most [n + 1] iterations. *)
Definition all_handlers (stop : nat -> bool) (work : oh_handler -> R bool) : R Z :=
  l ← get handler_list; each_handler (S (length l)) stop 0 work 0 SA_ERR_HPI_ERROR.

Definition discover_handler (x : oh_handler) : R bool :=
  can ← abi_has x "discover_resources";
  match can, hnd x with
  | true, Some instance =>
    l ← call (AbiDiscover (id x) instance); mret (abi_result l =? SA_OK)
  | _, _ => mret false
  end.
Definition oh_discovery (stop : nat -> bool) : R Z := all_handlers stop discover_handler.

(** The plug-in is called until it has no events left; how often that may be is
  up to the plug-in, the fuel bounds it. *)
Fixpoint harvest_loop (fuel : nat) (x : oh_handler) (instance : Z) : R unit :=
  match fuel with
  | O => waits
  | S fuel =>
    l ← call (AbiGetEvent (id x) instance);
    if 0 <? abi_result l then harvest_loop fuel x instance else mret tt
  end.
Definition harvest_events_for_handler (fuel : nat) (x : oh_handler) : R bool :=
  match hnd x with
  | None => mret true
  | Some instance =>
    can ← abi_has x "get_event";
    when can (harvest_loop fuel x instance);; mret true
  end.
Definition oh_harvest_events (fuel : nat) (stop : nat -> bool) : R Z :=
  all_handlers stop (harvest_events_for_handler fuel).
End environment.
