(* ===== verification/PluginCorrect.v ===== *)
(** The correctness of the registry of plug-ins and handlers of [Plugin]: the
    table of functions, the invariant of the registry and its preservation, and
    what each operation does. *)
From S2P Require Import Prelude SaHpi EntityPath Conf CText EPathText Plugin.
From Stdlib Require Import Ascii.
#[local] Open Scope string_scope.
#[local] Open Scope Z_scope.

(** ** The table of functions *)

Lemma load_functions_ok exports : fst (oh_load_plugin_functions exports) = 0.
Proof. done. Qed.
Lemma abi_member_iff exports :
  NoDup (snd (oh_load_plugin_functions exports)) /\
  (forall m, m ∈ snd (oh_load_plugin_functions exports) <-> m ∈ oh_abi_v2 /\ "oh_" +:+ m ∈ exports) /\
  NoDup (abi_symbols.*2) /\ (abi_symbols.*2 ≡ₚ oh_abi_v2).
Proof.
  assert (Hd : NoDup (abi_symbols.*2)) by (apply (bool_decide_eq_true_1 (NoDup _)); by vm_compute).
  assert (Hp : abi_symbols.*2 ≡ₚ oh_abi_v2).
  { apply NoDup_Permutation; [done|apply (bool_decide_eq_true_1 (NoDup oh_abi_v2)); by vm_compute|].
    assert (H1 : Forall (fun m => m ∈ oh_abi_v2) (abi_symbols.*2))
      by (apply (bool_decide_eq_true_1 (Forall _ _)); by vm_compute).
    assert (H2 : Forall (fun m => m ∈ abi_symbols.*2) oh_abi_v2)
      by (apply (bool_decide_eq_true_1 (Forall _ _)); by vm_compute).
    rewrite Forall_forall in H1, H2. split; auto. }
  assert (Hs : Forall (fun e => e.1 = "oh_" +:+ e.2) abi_symbols)
    by (apply (bool_decide_eq_true_1 (Forall _ _)); by vm_compute).
  unfold oh_load_plugin_functions. cbn [snd]. split_and!; [| |done|done].
  - revert Hd. generalize abi_symbols. induction l as [|e l IH]; [done|].
    rewrite fmap_cons, filter_cons. intros [Hn Hd]%NoDup_cons. destruct (decide _); [|by apply IH].
    rewrite fmap_cons. apply NoDup_cons. split; [|by apply IH]. intros Hin. apply Hn.
    apply list_elem_of_fmap in Hin as (y & E & Hy). apply list_elem_of_fmap. exists y.
    by apply list_elem_of_filter in Hy as [_ Hy].
  - intros m. rewrite <- Hp. rewrite Forall_forall in Hs. split.
    + intros (e & -> & He)%list_elem_of_fmap. apply list_elem_of_filter in He as [Hx He].
      split; [apply list_elem_of_fmap; by exists e|]. by rewrite <- (Hs e He).
    + intros [(e & -> & He)%list_elem_of_fmap Hx]. apply list_elem_of_fmap. exists e. split; [done|].
      apply list_elem_of_filter. split; [|done]. by rewrite (Hs e He).
Qed.

(** The table of a loaded plug-in has a function for exactly the members
    [m] of [oh_abi_v2] whose symbol, "oh_" before the name of the member, the
    shared object exports; every member is looked up exactly once. *)
Theorem abi_table_complete exports :
  NoDup (snd (oh_load_plugin_functions exports)) /\
  (forall m, m ∈ snd (oh_load_plugin_functions exports) <-> m ∈ oh_abi_v2 /\ "oh_" +:+ m ∈ exports) /\
  NoDup (abi_symbols.*2) /\ (abi_symbols.*2 ≡ₚ oh_abi_v2).
Proof. apply abi_member_iff. Qed.

#[local] Opaque abi_symbols oh_load_plugin_functions.

(** ** Total correctness

    [runs m s Q]: the operation ends normally, with a result and a state that
    are as [Q] says. *)
Definition runs {A} (m : R A) (s : registry) (Q : A -> registry -> Prop) : Prop :=
  match m s with Done a s' => Q a s' | _ => False end.

Lemma runs_bind {A B} (m : R A) (k : A -> R B) s Q :
  runs m s (fun a s' => runs (k a) s' Q) -> runs (m ≫= k) s Q.
Proof. unfold runs, mbind, R_bind. by destruct (m s). Qed.
Lemma runs_mono {A} (m : R A) s (P Q : A -> registry -> Prop) :
  runs m s P -> (forall a s', P a s' -> Q a s') -> runs m s Q.
Proof. unfold runs. destruct (m s); auto. Qed.
Lemma runs_done {A} (m : R A) s a s' (Q : A -> registry -> Prop) : m s = Done a s' -> Q a s' -> runs m s Q.
Proof. unfold runs. by intros ->. Qed.

Lemma bind_assoc {A B C} (m : R A) (k : A -> R B) (k' : B -> R C) s :
  ((m ≫= k) ≫= k') s = (m ≫= fun a => k a ≫= k') s.
Proof. unfold mbind, R_bind. by destruct (m s). Qed.
Lemma bind_done {A B} (m : R A) (k : A -> R B) s a s' : m s = Done a s' -> (m ≫= k) s = k a s'.
Proof. unfold mbind, R_bind. by intros ->. Qed.

(** States are compared field by field. *)
Lemma registry_eq s s' : plugins s = plugins s' -> plugin_list s = plugin_list s' ->
  handlers s = handlers s' -> handler_list s = handler_list s' -> handler_table s = handler_table s' ->
  handler_id s = handler_id s' -> next_addr s = next_addr s' -> log s = log s' -> params s = params s' ->
  s = s'.
Proof. destruct s, s'. cbn. congruence. Qed.
Ltac same_state := apply registry_eq; try reflexivity.

(** One step of a run, by an equation. *)
Tactic Notation "run" uconstr(H) := rewrite (bind_done _ _ _ _ _ H).
Lemma get_eq {A} (f : registry -> A) s : get f s = Done (f s) s.
Proof. done. Qed.

(** *** Updating an object *)

Definition upd_plugin (p : nat) (x : oh_plugin) (s : registry) : registry :=
  s <| plugins ::= insert p x |>.
Definition upd_handler (h : nat) (x : oh_handler) (s : registry) : registry :=
  s <| handlers ::= insert h x |>.

Lemma upd_plugin_twice p x y s : upd_plugin p x (upd_plugin p y s) = upd_plugin p x s.
Proof. same_state. apply insert_insert_eq. Qed.
Lemma upd_plugin_same p x s : plugins s !! p = Some x -> upd_plugin p x s = s.
Proof. intros. same_state. by apply insert_id. Qed.
Lemma upd_handler_twice h x y s : upd_handler h x (upd_handler h y s) = upd_handler h x s.
Proof. same_state. apply insert_insert_eq. Qed.
Lemma upd_handler_same h x s : handlers s !! h = Some x -> upd_handler h x s = s.
Proof. intros. same_state. by apply insert_id. Qed.
Lemma lookup_upd_plugin p x s : plugins (upd_plugin p x s) !! p = Some x.
Proof. cbn. apply lookup_insert_eq. Qed.
Lemma lookup_upd_handler h x s : handlers (upd_handler h x s) !! h = Some x.
Proof. cbn. apply lookup_insert_eq. Qed.

Lemma plugin_at_eq p x s : plugins s !! p = Some x -> plugin_at p s = Done x s.
Proof. unfold plugin_at, mbind, R_bind, get. by intros ->. Qed.
Lemma handler_at_eq h x s : handlers s !! h = Some x -> handler_at h s = Done x s.
Proof. unfold handler_at, mbind, R_bind, get. by intros ->. Qed.
Lemma alter_to_insert {A} (m : gmap nat A) i f x : m !! i = Some x -> alter f i m = <[i := f x]> m.
Proof.
  intros E. apply map_eq. intros j. destruct (decide (j = i)) as [->|].
  - by rewrite lookup_alter_eq, E, lookup_insert_eq.
  - by rewrite lookup_alter_ne, lookup_insert_ne.
Qed.
Lemma on_plugin_eq p f x s : plugins s !! p = Some x -> on_plugin p f s = Done tt (upd_plugin p (f x) s).
Proof.
  intros E. unfold on_plugin. run (plugin_at_eq _ _ _ E). unfold modify. f_equal. same_state.
  by apply alter_to_insert.
Qed.
Lemma on_handler_eq h f x s : handlers s !! h = Some x -> on_handler h f s = Done tt (upd_handler h (f x) s).
Proof.
  intros E. unfold on_handler. run (handler_at_eq _ _ _ E). unfold modify. f_equal. same_state.
  by apply alter_to_insert.
Qed.

(** *** References to plug-ins *)

(** The plug-in that a search for the name finds. *)
Definition has_name (s : registry) (n : string) (p : nat) : bool :=
  match plugins s !! p with Some x => String.eqb (name x) n | None => false end.
Definition loaded (s : registry) (n : string) : option nat := List.find (has_name s n) (plugin_list s).

Definition hold_plugin (x : oh_plugin) : oh_plugin :=
  x <| plugin_refcount ::= Z.succ |> <| plugin_locks ::= S |>.

Lemma find_plugin_eq n l s : Forall (fun p => is_Some (plugins s !! p)) l ->
  find_plugin n l s = Done (List.find (has_name s n) l) s.
Proof.
  induction l as [|p l IH]; intros H; [done|]. inversion_clear H as [|? ? [x Hx]]. cbn.
  unfold has_name at 1. rewrite Hx. run (plugin_at_eq _ _ _ Hx).
  destruct (String.eqb (name x) n); [done|by apply IH].
Qed.

Lemma release_plugin_eq p x s : plugins s !! p = Some x ->
  0 < plugin_refcount x -> (0 < plugin_locks x)%nat ->
  oh_release_plugin (Some p) s =
    Done tt (upd_plugin p (x <| plugin_refcount ::= Z.pred |> <| plugin_locks ::= pred |>) s).
Proof.
  intros E Hr Hl. unfold oh_release_plugin, dec_plugin_refcount.
  run (on_plugin_eq _ _ _ _ E).
  set (y := x <| plugin_refcount ::= Z.pred |>).
  assert (Ey : plugins (upd_plugin p y s) !! p = Some y) by apply lookup_upd_plugin.
  run (plugin_at_eq _ _ _ Ey).
  assert ((plugin_refcount y <? 0) = false) as -> by (cbn; apply Z.ltb_ge; lia).
  unfold unlock_plugin. run (plugin_at_eq _ _ _ Ey).
  destruct (Nat.eqb_spec (plugin_locks y) 0); [cbn in *; lia|].
  rewrite (on_plugin_eq _ _ _ _ Ey). by rewrite upd_plugin_twice.
Qed.

Lemma unhold_plugin x : (hold_plugin x) <| plugin_refcount ::= Z.pred |> <| plugin_locks ::= pred |> = x.
Proof. destruct x. unfold hold_plugin, set_field. cbn. by rewrite Z.pred_succ. Qed.

(** *** The invariant *)

(** The handlers that use the table of a plug-in. *)
Definition users (s : registry) (p : nat) : gmap nat oh_handler :=
  filter (fun e => abi e.2 = p) (handlers s).

Record plugins_ok (s : registry) : Prop := {
  plugins_live p : is_Some (plugins s !! p) <-> p ∈ plugin_list s;
  plugins_once : NoDup (plugin_list s);
  plugin_idle p x : plugins s !! p = Some x ->
    is_Some (dl_handle x) /\ "open" ∈ plugin_abi x /\ plugin_refcount x = 0 /\
    plugin_locks x = 0%nat /\ (p < next_addr s)%nat;
  names_unique p q x y : plugins s !! p = Some x -> plugins s !! q = Some y -> name x = name y -> p = q }.

Record handlers_ok (s : registry) : Prop := {
  handlers_live h : is_Some (handlers s !! h) <-> h ∈ handler_list s;
  handlers_once : NoDup (handler_list s);
  handler_idle h x : handlers s !! h = Some x ->
    refcount x = 0 /\ locks x = 0%nat /\ (h < next_addr s)%nat /\
    0 < id x < handler_id s /\ handler_table s !! id x = Some h;
  table_entry i h : handler_table s !! i = Some h -> exists x, handlers s !! h = Some x /\ id x = i;
  id_range : 0 < handler_id s < 2 ^ 32 }.

Record registry_ok (s : registry) : Prop := {
  reg_plugins : plugins_ok s;
  reg_handlers : handlers_ok s;
  abi_live h x : handlers s !! h = Some x ->
    exists y, plugins s !! abi x = Some y /\ name y = plugin_name x;
  use_count p x : plugins s !! p = Some x -> handler_count x = Z.of_nat (size (users s p)) }.
Create HintDb plugin.
#[export] Hint Resolve reg_plugins reg_handlers : plugin.

Lemma loaded_spec s n : plugins_ok s ->
  match loaded s n with
  | Some p => exists x, plugins s !! p = Some x /\ name x = n
  | None => forall p x, plugins s !! p = Some x -> name x <> n
  end.
Proof.
  intros Hok. unfold loaded. destruct (List.find _ _) as [p|] eqn:E.
  - apply find_some in E as [_ E]. unfold has_name in E. destruct (plugins s !! p) as [x|]; [|done].
    exists x. by apply String.eqb_eq in E.
  - intros p x Hp Hn. assert (Hin : p ∈ plugin_list s) by (apply plugins_live; by eauto).
    apply list_elem_of_In in Hin. pose proof (find_none _ _ E p Hin) as F. unfold has_name in F.
    rewrite Hp, Hn, String.eqb_refl in F. done.
Qed.
Lemma loaded_is s p x : plugins_ok s -> plugins s !! p = Some x -> loaded s (name x) = Some p.
Proof.
  intros Hok Hp. pose proof (loaded_spec s (name x) Hok) as L. destruct (loaded s (name x)) as [q|].
  - destruct L as (y & Hq & E). f_equal. by eapply names_unique.
  - by destruct (L p x Hp).
Qed.

Lemma find_loaded s n : plugins_ok s -> find_plugin n (plugin_list s) s = Done (loaded s n) s.
Proof. intros Hok. apply find_plugin_eq, Forall_forall. intros p. by apply plugins_live. Qed.
Lemma get_plugin_none s n : plugins_ok s -> loaded s n = None -> oh_get_plugin (Some n) s = Done None s.
Proof.
  intros Hok E. unfold oh_get_plugin. run (get_eq plugin_list s).
  run (find_loaded s n Hok). by rewrite E.
Qed.
Lemma get_plugin_some s n p x : plugins_ok s -> loaded s n = Some p -> plugins s !! p = Some x ->
  oh_get_plugin (Some n) s = Done (Some p) (upd_plugin p (hold_plugin x) s).
Proof.
  intros Hok E Hp. unfold oh_get_plugin. run (get_eq plugin_list s).
  run (find_loaded s n Hok). rewrite E. unfold inc_plugin_refcount.
  run (on_plugin_eq _ (fun x => x <| plugin_refcount ::= Z.succ |>) _ _ Hp).
  run (on_plugin_eq _ (fun x => x <| plugin_locks ::= S |>) _ _ (lookup_upd_plugin p
    (x <| plugin_refcount ::= Z.succ |>) s)).
  by rewrite upd_plugin_twice.
Qed.
(** A plug-in that is taken and given back is as before. *)
Lemma get_release_plugin s n p : plugins_ok s -> loaded s n = Some p ->
  (r ← oh_get_plugin (Some n); oh_release_plugin r) s = Done tt s.
Proof.
  intros Hok E. pose proof (loaded_spec s n Hok) as L. rewrite E in L. destruct L as (x & Hp & _).
  destruct (plugin_idle _ Hok _ _ Hp) as (_ & _ & Hr & Hl & _).
  run (get_plugin_some _ _ _ _ Hok E Hp).
  rewrite (release_plugin_eq _ (hold_plugin x)); [|by apply lookup_upd_plugin|cbn; lia|cbn; lia].
  by rewrite upd_plugin_twice, unhold_plugin, upd_plugin_same.
Qed.

(** *** Loading and unloading *)

Section environment_facts.
Context `{Environment}.

Lemma modify_eq f s : modify f s = Done tt (f s).
Proof. done. Qed.

Lemma alloc_plugin_eq x s :
    alloc_plugin x s = Done (next_addr s) (s <| plugins ::= insert (next_addr s) x |> <| next_addr ::= S |>).
Proof. done. Qed.

Lemma open_in_eq dirs n s : exists r tail, open_in dirs n s = Done r (s <| log ::= fun l => (l ++ tail)%list |>).
Proof.
  revert s. induction dirs as [|d dirs IH]; intros s.
  - exists None, []. cbn. unfold mret, R_ret. f_equal. same_state. symmetry. apply app_nil_r.
  - cbn [open_in]. unfold mbind, R_bind, call. cbn beta iota zeta.
    set (c := ModuleOpen _). destruct (g_module_open (log s ++ [c])%list) as [e|].
    + by exists (Some e), [c].
    + destruct (IH (s <| log := (log s ++ [c])%list |>)) as (r & tail & ->).
      exists r, (c :: tail). f_equal. same_state. cbn. by rewrite <- app_assoc.
Qed.

Lemma global_path_eq s : exists p g,
  global_param OPENHPI_PATH s = Done (Some (PStr p)) (s <| params := g |>) /\
  as_text (Some (PStr p)) (s <| params := g |>) = Done p (s <| params := g |>).
Proof. unfold global_param, oh_get_global_param. cbn. by eexists _, _. Qed.

(** Reading parameters and calling code outside changes nothing else. *)
Definition noted (g : global_params) (tail : list plugin_call) (s : registry) : registry :=
  s <| params := g |> <| log ::= fun l => (l ++ tail)%list |>.
Definition new_plugin (n : string) (exports : list string) : oh_plugin :=
  {| name := n; dl_handle := Some exports; plugin_abi := snd (oh_load_plugin_functions exports);
     handler_count := 0; plugin_refcount := 0; plugin_locks := 0 |}.
Definition with_plugin (x : oh_plugin) (s : registry) : registry :=
  upd_plugin (next_addr s) x s <| plugin_list ::= fun l => (l ++ [next_addr s])%list |> <| next_addr ::= S |>.

Lemma delete_plugin_eq p x s : plugins s !! p = Some x ->
  exists tail, delete_plugin p s = Done tt (s <| plugins ::= delete p |> <| log ::= fun l => (l ++ tail)%list |>).
Proof.
  intros E. unfold delete_plugin. run (plugin_at_eq _ _ _ E). unfold when.
  destruct (bool_decide _).
  - by exists [ModuleClose (name x)].
  - exists []. unfold mbind, R_bind, mret, R_ret, modify. f_equal. same_state. symmetry. apply app_nil_r.
Qed.

(** The states after a plug-in was allocated, [x0], and completed, [x1], and put
    into the list or deleted. *)
Lemma loaded_state s x0 x1 g tail :
  (upd_plugin (next_addr s) x1
     (s <| plugins ::= insert (next_addr s) x0 |> <| next_addr ::= S |> <| params := g |>
        <| log ::= fun l => (l ++ tail)%list |>)) <| plugin_list ::= fun l => (l ++ [next_addr s])%list |> =
  noted g tail (with_plugin x1 s).
Proof.
  same_state. apply insert_insert_eq.
Qed.
Lemma dropped_state s x0 x1 g tail tail2 : plugins s !! next_addr s = None ->
  (upd_plugin (next_addr s) x1
     (s <| plugins ::= insert (next_addr s) x0 |> <| next_addr ::= S |> <| params := g |>
        <| log ::= fun l => (l ++ tail)%list |>)) <| plugins ::= delete (next_addr s) |>
        <| log ::= fun l => (l ++ tail2)%list |> =
  noted g (tail ++ tail2)%list s <| next_addr ::= S |>.
Proof.
  intros E. same_state; cbn.
  - by rewrite insert_insert_eq, delete_insert_id.
  - by rewrite app_assoc.
Qed.

Lemma load_plugin_eq n s : plugins_ok s -> loaded s n = None -> plugins s !! next_addr s = None ->
  g_module_supported = true ->
  runs (oh_load_plugin (Some n)) s (fun rc s' => exists g tail,
    rc = -1 /\ s' = noted g tail s <| next_addr ::= S |> \/
    rc = 0 /\ exists exports, "oh_open" ∈ exports /\
      s' = noted g tail (with_plugin (new_plugin n exports) s)).
Proof.
  intros Hok E Hfree Hs. unfold runs, oh_load_plugin. rewrite Hs. cbn [negb].
  run (get_plugin_none s n Hok E).
  set (x0 := {| name := n |}). run (alloc_plugin_eq x0 s). set (s1 := set_field next_addr _ _).
  destruct (global_path_eq s1) as (path & g & Hg1 & Hg2). run Hg1. run Hg2.
  destruct (open_in_eq (g_strsplit ":" (text_of path)) n (s1 <| params := g |>)) as (r & tail & Ho).
  run Ho. clear Ho. set (s2 := set_field log _ _).
  assert (E2 : plugins s2 !! next_addr s = Some x0) by apply lookup_insert_eq.
  run (on_plugin_eq _ _ _ _ E2). destruct r as [exports|].
  - rewrite (surjective_pairing (oh_load_plugin_functions exports)), load_functions_ok.
    run (on_plugin_eq _ _ _ _ (lookup_upd_plugin _ _ _)). rewrite upd_plugin_twice.
    cbn [Z.ltb Z.compare orb].
    destruct (bool_decide _) eqn:Eo; cbn [negb].
    + run (modify_eq _ _). exists g, tail. right. split; [done|]. exists exports. split.
      { apply bool_decide_eq_true in Eo. by apply abi_member_iff in Eo as [_ Eo]. }
      apply loaded_state.
    + set (x1 := set_field plugin_abi _ _). set (s3 := upd_plugin _ _ _).
      destruct (delete_plugin_eq (next_addr s) x1 s3) as (tail2 & Hd); [apply lookup_insert_eq|].
      run Hd. exists g, (tail ++ tail2)%list. left. split; [done|]. by apply dropped_state.
  - set (s3 := upd_plugin _ _ _).
    destruct (delete_plugin_eq (next_addr s) (x0 <| dl_handle := None |>) s3) as (tail2 & Hd);
      [apply lookup_insert_eq|].
    run Hd. exists g, (tail ++ tail2)%list. left. split; [done|]. by apply dropped_state.
Qed.
End environment_facts.

(** ** The operations preserve the invariant *)

Lemma g_slist_remove_filter x l : NoDup l -> g_slist_remove x l = filter (fun y => y <> x) l.
Proof.
  induction 1 as [|y l Hn Hd IH]; [done|]. rewrite filter_cons. cbn.
  destruct (Nat.eqb_spec y x) as [->|Hne]; [|by rewrite decide_True, IH by done].
  rewrite decide_False by (intros Hx; by apply Hx). rewrite <- IH. symmetry. clear -Hn. induction l as [|z l IH]; [done|]. cbn.
  apply not_elem_of_cons in Hn as [? ?]. destruct (Nat.eqb_spec z x); [congruence|]. f_equal. auto.
Qed.
Lemma elem_of_g_slist_remove x y l : NoDup l -> y ∈ g_slist_remove x l <-> y ∈ l /\ y <> x.
Proof. intros Hd. rewrite g_slist_remove_filter, list_elem_of_filter by done. tauto. Qed.
Lemma g_slist_remove_NoDup x l : NoDup l -> NoDup (g_slist_remove x l).
Proof. intros Hd. rewrite g_slist_remove_filter by done. by apply NoDup_filter. Qed.

(** Which objects are live, after an insertion and a deletion. *)
Lemma live_insert {A} (m : gmap nat A) (l : list nat) i x :
  (forall j, is_Some (m !! j) <-> j ∈ l) -> forall j, is_Some (<[i:=x]> m !! j) <-> j ∈ (l ++ [i])%list.
Proof.
  intros H j. rewrite lookup_insert_is_Some', elem_of_app, list_elem_of_singleton, <- H.
  split; (intros [?|?]; [right|left]; congruence).
Qed.
Lemma live_delete {A} (m : gmap nat A) (l : list nat) i : NoDup l ->
  (forall j, is_Some (m !! j) <-> j ∈ l) -> forall j, is_Some (delete i m !! j) <-> j ∈ g_slist_remove i l.
Proof.
  intros Hd H j. rewrite lookup_delete_is_Some, elem_of_g_slist_remove, <- H by done.
  split; intros [? ?]; split; congruence.
Qed.
Lemma NoDup_snoc (l : list nat) i : NoDup l -> i ∉ l -> NoDup (l ++ [i])%list.
Proof.
  intros Hd Hn. apply NoDup_app. split_and!; [done| |apply NoDup_singleton].
  intros j Hj ->%list_elem_of_singleton. done.
Qed.

Lemma registry_ok_ext s s' : registry_ok s ->
  plugins s' = plugins s -> plugin_list s' = plugin_list s -> handlers s' = handlers s ->
  handler_list s' = handler_list s -> handler_table s' = handler_table s ->
  handler_id s' = handler_id s -> (next_addr s <= next_addr s')%nat -> registry_ok s'.
Proof.
  intros [[] [] A U] E1 E2 E3 E4 E5 E6 E7. unfold users in U.
  split; [split|split|rewrite E3, E1; done|unfold users; rewrite E3, E1; done];
    rewrite ?E1, ?E2, ?E3, ?E4, ?E5, ?E6; try done.
  - intros p x Hp. destruct (plugin_idle0 p x Hp) as (? & ? & ? & ? & ?). split_and!; auto. lia.
  - intros h x Hh. destruct (handler_idle0 h x Hh) as (? & ? & ? & ? & ?). split_and!; auto; lia.
Qed.

Lemma noted_ok g tail s : registry_ok s -> registry_ok (noted g tail s).
Proof. intros H. by apply (registry_ok_ext s). Qed.

Lemma plugin_fresh s : plugins_ok s -> plugins s !! next_addr s = None.
Proof.
  intros Hok. destruct (plugins s !! next_addr s) as [x|] eqn:E; [|done].
  destruct (plugin_idle _ Hok _ _ E) as (_ & _ & _ & _ & ?). lia.
Qed.
Lemma handler_fresh s : handlers_ok s -> handlers s !! next_addr s = None.
Proof.
  intros Hok. destruct (handlers s !! next_addr s) as [x|] eqn:E; [|done].
  destruct (handler_idle _ Hok _ _ E) as (_ & _ & ? & _). lia.
Qed.
#[export] Hint Resolve plugin_fresh handler_fresh : plugin.

Lemma no_users s p : size (users s p) = 0%nat <-> forall h x, handlers s !! h = Some x -> abi x <> p.
Proof. unfold users. by rewrite map_size_empty_iff, map_empty_filter. Qed.

Lemma with_plugin_ok n exports s : registry_ok s -> loaded s n = None -> "oh_open" ∈ exports ->
  registry_ok (with_plugin (new_plugin n exports) s).
Proof.
  intros Hok E Ho. pose proof (plugin_fresh s (reg_plugins _ Hok)) as Hf.
  pose proof (loaded_spec s n (reg_plugins _ Hok)) as L. rewrite E in L. destruct Hok as [[] [] A U].
  unfold users in U. unfold with_plugin, upd_plugin.
  split; [split|split| |unfold users]; cbn [plugins plugin_list handlers handler_list handler_table handler_id next_addr
    set_field]; try done.
  - by apply live_insert.
  - apply NoDup_snoc; [done|]. rewrite <- plugins_live0, Hf. by intros [? ?].
  - intros p x Hp. apply lookup_insert_Some in Hp as [[<- <-]|[? Hp]].
    + cbn. split_and!; [by eexists| |done|done|lia]. apply abi_member_iff. split; [|done].
      apply (bool_decide_eq_true_1 (_ ∈ _)). by vm_compute.
    + destruct (plugin_idle0 p x Hp) as (? & ? & ? & ? & ?). split_and!; auto.
  - intros p q x y Hp Hq En. apply lookup_insert_Some in Hp as [[<- <-]|[? Hp]];
      apply lookup_insert_Some in Hq as [[<- <-]|[? Hq]]; [done| | |by eapply names_unique0].
    + destruct (L _ _ Hq). by cbn in En.
    + destruct (L _ _ Hp). by cbn in En.
  - intros h x Hh. destruct (handler_idle0 h x Hh) as (? & ? & ? & ? & ?). split_and!; auto; lia.
  - intros h x Hh. destruct (A h x Hh) as (y & Hy & ?). exists y. split; [|done].
    rewrite lookup_insert_ne; congruence.
  - intros p x Hp. apply lookup_insert_Some in Hp as [[<- <-]|[? Hp]]; [|by apply U].
    pose proof (proj2 (no_users s (next_addr s))) as Hz. unfold users in Hz.
    rewrite Hz; [done|]. intros h x Hh Ha.
    destruct (A h x Hh) as (y & Hy & _). congruence.
Qed.

Definition unloaded (p : nat) (s : registry) : registry :=
  s <| plugins ::= delete p |> <| plugin_list ::= g_slist_remove p |>.
Lemma unloaded_ok p s : registry_ok s -> size (users s p) = 0%nat -> registry_ok (unloaded p s).
Proof.
  intros [[] [] A U] Hz. rewrite no_users in Hz. unfold users in *. unfold unloaded.
  split; [split|split| |unfold users]; cbn [plugins plugin_list handlers handler_list handler_table handler_id next_addr
    set_field]; try done.
  - by apply live_delete.
  - by apply g_slist_remove_NoDup.
  - intros q x [? Hq]%lookup_delete_Some. by apply plugin_idle0.
  - intros q r x y [? Hq]%lookup_delete_Some [? Hr]%lookup_delete_Some. by eapply names_unique0.
  - intros h x Hh. destruct (A h x Hh) as (y & Hy & ?). exists y. split; [|done].
    rewrite lookup_delete_ne; [done|]. intros E. by apply (Hz h x Hh).
  - intros q x [? Hq]%lookup_delete_Some. by apply U.
Qed.

(** The state with a new handler [x] of the plug-in object [y], and without the
    handler [x] at [h]. *)
Definition created (x : oh_handler) (y : oh_plugin) (s : registry) : registry :=
  upd_plugin (abi x) (y <| handler_count ::= Z.succ |>) (upd_handler (next_addr s) x s)
    <| handler_list ::= fun l => (l ++ [next_addr s])%list |>
    <| handler_table ::= insert (id x) (next_addr s) |>
    <| handler_id ::= Z.succ |> <| next_addr ::= S |>.
Definition destroyed (h : nat) (x : oh_handler) (y : oh_plugin) (s : registry) : registry :=
  upd_plugin (abi x) (y <| handler_count ::= Z.pred |>) s
    <| handlers ::= delete h |> <| handler_list ::= g_slist_remove h |>
    <| handler_table ::= delete (id x) |>.

Lemma upd_plugin_ok p x y s : plugins_ok s -> plugins s !! p = Some x ->
  name y = name x -> dl_handle y = dl_handle x -> plugin_abi y = plugin_abi x ->
  plugin_refcount y = plugin_refcount x -> plugin_locks y = plugin_locks x ->
  plugins_ok (upd_plugin p y s).
Proof.
  intros [] Hp E1 E2 E3 E4 E5. split; cbn [plugins plugin_list next_addr upd_plugin set_field].
  - intros q. rewrite lookup_insert_is_Some', plugins_live0. split; [|by right].
    intros [<-|?]; [|done]. apply plugins_live0. by eexists.
  - done.
  - intros q z Hq. apply lookup_insert_Some in Hq as [[<- <-]|[? Hq]]; [|by apply plugin_idle0].
    rewrite E2, E3, E4, E5. by apply plugin_idle0.
  - intros q r z w Hq Hr En. apply lookup_insert_Some in Hq as [[<- <-]|[? Hq]];
      apply lookup_insert_Some in Hr as [[<- <-]|[? Hr]]; [done| | |by eapply names_unique0];
      rewrite E1 in En; by eapply names_unique0.
Qed.
Lemma plugins_ok_ext s s' : plugins_ok s -> plugins s' = plugins s -> plugin_list s' = plugin_list s ->
  (next_addr s <= next_addr s')%nat -> plugins_ok s'.
Proof.
  intros [] E1 E2 E3. split; rewrite ?E1, ?E2; try done.
  intros p x Hp. destruct (plugin_idle0 p x Hp) as (? & ? & ? & ? & ?). split_and!; auto. lia.
Qed.
(** The name of every plug-in that a handler uses stays. *)
Lemma abi_kept p x y (m : gmap nat oh_plugin) a n : m !! p = Some x -> name y = name x ->
  (exists z, m !! a = Some z /\ name z = n) -> exists z, <[p := y]> m !! a = Some z /\ name z = n.
Proof.
  intros Hp E (z & Hz & Hn). destruct (decide (a = p)) as [->|].
  - exists y. rewrite lookup_insert_eq. split; [done|]. congruence.
  - exists z. by rewrite lookup_insert_ne.
Qed.

Lemma created_ok x y s : registry_ok s -> plugins s !! abi x = Some y -> plugin_name x = name y ->
  id x = handler_id s -> refcount x = 0 -> locks x = 0%nat -> handler_id s + 1 < 2 ^ 32 ->
  registry_ok (created x y s).
Proof.
  intros Hok Hp Hn Hid Hr Hl Hlim. pose proof (handler_fresh s (reg_handlers _ Hok)) as Hf.
  destruct Hok as [P [] A U]. unfold users in U. unfold created.
  split; [|split| |unfold users].
  - apply (plugins_ok_ext (upd_plugin (abi x) (y <| handler_count ::= Z.succ |>) s)); [|done|done|cbn; lia].
    by apply (upd_plugin_ok _ y).
  - by apply live_insert.
  - apply NoDup_snoc; [done|]. rewrite <- handlers_live0, Hf. by intros [? ?].
  - intros h z Hz. cbn in Hz |- *. apply lookup_insert_Some in Hz as [[<- <-]|[Hne Hz]].
    + rewrite lookup_insert_eq. split_and!; auto; lia.
    + destruct (handler_idle0 h z Hz) as (? & ? & ? & ? & Ht). split_and!; auto; [lia..|].
      rewrite lookup_insert_ne; [done|]. lia.
  - intros i h Hi. cbn in Hi |- *. apply lookup_insert_Some in Hi as [[<- <-]|[Hne Hi]].
    + exists x. by rewrite lookup_insert_eq.
    + destruct (table_entry0 i h Hi) as (z & Hz & E). exists z. split; [|done].
      rewrite lookup_insert_ne; congruence.
  - cbn. lia.
  - intros h z Hz. cbn in Hz |- *. apply (abi_kept _ y); [done|done|].
    apply lookup_insert_Some in Hz as [[<- <-]|[Hne Hz]]; [by exists y|by apply (A h)].
  - intros p z Hz. cbn in Hz |- *. rewrite map_filter_insert. cbn [snd].
    apply lookup_insert_Some in Hz as [[<- <-]|[Hne Hz]].
    + rewrite decide_True by done. cbn. rewrite map_size_insert_None, (U _ _ Hp); [lia|].
      apply map_lookup_filter_None. by left.
    + rewrite decide_False by done. rewrite delete_id by done. by apply U.
Qed.

Lemma destroyed_ok h x y s : registry_ok s -> handlers s !! h = Some x -> plugins s !! abi x = Some y ->
  registry_ok (destroyed h x y s).
Proof.
  intros Hok Hh Hp. destruct Hok as [P [] A U]. unfold users in U. unfold destroyed.
  destruct (handler_idle0 h x Hh) as (_ & _ & _ & _ & Ht).
  assert (Hid : forall h' z, handlers s !! h' = Some z -> h' <> h -> id z <> id x).
  { intros h' z Hz Hne E. destruct (handler_idle0 h' z Hz) as (_ & _ & _ & _ & Ht'). congruence. }
  split; [|split| |unfold users].
  - apply (plugins_ok_ext (upd_plugin (abi x) (y <| handler_count ::= Z.pred |>) s)); [|done|done|cbn; lia].
    by apply (upd_plugin_ok _ y).
  - by apply live_delete.
  - by apply g_slist_remove_NoDup.
  - intros h' z Hz. cbn in Hz |- *. apply lookup_delete_Some in Hz as [Hne Hz].
    destruct (handler_idle0 h' z Hz) as (? & ? & ? & ? & Ht'). split_and!; auto; [lia..|].
    rewrite lookup_delete_ne; [done|]. by apply not_eq_sym, (Hid h').
  - intros i h' Hi. cbn in Hi |- *. apply lookup_delete_Some in Hi as [Hne Hi].
    destruct (table_entry0 i h' Hi) as (z & Hz & E). exists z. split; [|done].
    rewrite lookup_delete_ne; [done|]. intros ->. congruence.
  - done.
  - intros h' z Hz. cbn in Hz |- *. apply lookup_delete_Some in Hz as [Hne Hz].
    apply (abi_kept _ y); [done|done|by apply (A h')].
  - intros p z Hz. cbn in Hz |- *. apply lookup_insert_Some in Hz as [[<- <-]|[Hne Hz]].
    + rewrite map_filter_delete. cbn. rewrite (U _ _ Hp).
      set (m := filter _ _). assert (Hm : m !! h = Some x) by by apply map_lookup_filter_Some.
      rewrite map_size_delete_Some by by eexists.
      assert (size m <> 0%nat); [|lia]. intros ->%map_size_empty_iff. by rewrite lookup_empty in Hm.
    + rewrite map_filter_delete_not; [by apply U|]. intros z' Hz'. cbn. congruence.
Qed.

(** ** What the operations do *)

Section operations.
Context `{Environment}.

Definition hold_handler (x : oh_handler) : oh_handler :=
  x <| refcount ::= Z.succ |> <| locks ::= S |>.

Lemma get_handler_some s hid h x : handler_table s !! hid = Some h -> handlers s !! h = Some x ->
  oh_get_handler hid s = Done (Some h) (upd_handler h (hold_handler x) s).
Proof.
  intros Ht Hh. unfold oh_get_handler. run (get_eq handler_table s). rewrite Ht.
  unfold inc_handler_refcount. run (on_handler_eq _ _ _ _ Hh).
  run (on_handler_eq _ _ _ _ (lookup_upd_handler _ _ _)). by rewrite upd_handler_twice.
Qed.
Lemma release_handler_eq h x s : handlers s !! h = Some x -> 0 < refcount x -> (0 < locks x)%nat ->
  oh_release_handler (Some h) s =
    Done tt (upd_handler h (x <| refcount ::= Z.pred |> <| locks ::= pred |>) s).
Proof.
  intros E Hr Hl. unfold oh_release_handler, dec_handler_refcount. run (on_handler_eq _ _ _ _ E).
  set (y := x <| refcount ::= Z.pred |>).
  assert (Ey : handlers (upd_handler h y s) !! h = Some y) by apply lookup_upd_handler.
  run (handler_at_eq _ _ _ Ey). assert ((refcount y <? 0) = false) as -> by (cbn; apply Z.ltb_ge; lia).
  unfold unlock_handler. run (handler_at_eq _ _ _ Ey).
  destruct (Nat.eqb_spec (locks y) 0); [cbn in *; lia|].
  rewrite (on_handler_eq _ _ _ _ Ey). by rewrite upd_handler_twice.
Qed.
Lemma unhold_handler x : (hold_handler x) <| refcount ::= Z.pred |> <| locks ::= pred |> = x.
Proof. destruct x. unfold hold_handler, set_field. cbn. by rewrite Z.pred_succ. Qed.

Lemma abi_has_eq x y m s : plugins s !! abi x = Some y ->
  abi_has x m s = Done (bool_decide (m ∈ plugin_abi y)) s.
Proof. intros E. unfold abi_has. by run (plugin_at_eq _ _ _ E). Qed.

(** The calls a handler gets when it is closed, and when it is discovered. *)
Definition close_calls (x : oh_handler) (y : oh_plugin) : list plugin_call :=
  match bool_decide ("close" ∈ plugin_abi y), hnd x with
  | true, Some i => [AbiClose (id x) i] | _, _ => [] end.
Definition logged (tail : list plugin_call) (s : registry) : registry :=
  s <| log ::= fun l => (l ++ tail)%list |>.
Lemma logged_nil s : logged [] s = s.
Proof. same_state. apply app_nil_r. Qed.
Lemma logged_app a b s : logged b (logged a s) = logged (a ++ b)%list s.
Proof. same_state. symmetry. apply app_assoc. Qed.
Lemma call_eq c s : call c s = Done (log s ++ [c])%list (logged [c] s).
Proof. done. Qed.
Lemma logged_ok tail s : registry_ok s -> registry_ok (logged tail s).
Proof. intros Hok. by apply (registry_ok_ext s). Qed.

Lemma close_instance_eq x y s : plugins s !! abi x = Some y ->
  close_instance x s = Done tt (logged (close_calls x y) s).
Proof.
  intros E. unfold close_instance, close_calls. run (abi_has_eq x y "close" s E).
  destruct (bool_decide _), (hnd x); by rewrite ?logged_nil.
Qed.

Lemma close_calls_hold x y : close_calls (hold_handler x) y = close_calls x y.
Proof. unfold close_calls. by destruct (bool_decide _), x. Qed.

Lemma delete_handler_eq h x y s : plugins_ok s -> handlers s !! h = Some x ->
  plugins s !! abi x = Some y -> name y = plugin_name x ->
  delete_handler h s = Done tt (upd_plugin (abi x) (y <| handler_count ::= Z.pred |>) s <| handlers ::= delete h |>).
Proof.
  intros P Hh Hp Hn. unfold delete_handler. run (handler_at_eq _ _ _ Hh).
  pose proof (loaded_is s _ _ P Hp) as L. rewrite Hn in L.
  destruct (plugin_idle _ P _ _ Hp) as (_ & _ & Hr & Hl & _).
  run (get_plugin_some s _ _ y P L Hp). unfold mbind at 1, R_bind at 1.
  run (on_plugin_eq _ (fun z => z <| handler_count ::= Z.pred |>) _ _ (lookup_upd_plugin _ _ _)).
  rewrite (release_plugin_eq _ ((hold_plugin y) <| handler_count ::= Z.pred |>));
    [|apply lookup_upd_plugin|cbn; lia|cbn; lia].
  rewrite !upd_plugin_twice. unfold modify. f_equal. f_equal.
  destruct y. unfold hold_plugin, set_field. cbn. by rewrite Z.pred_succ.
Qed.

Lemma destroy_handler_eq s hid h x y : registry_ok s -> handler_table s !! hid = Some h ->
  handlers s !! h = Some x -> plugins s !! abi x = Some y -> name y = plugin_name x ->
  oh_destroy_handler hid s = Done 0 (logged (close_calls x y) (destroyed h x y s)).
Proof.
  intros [P Hs _ _] Ht Hh Hp Hn. unfold oh_destroy_handler.
  destruct (table_entry _ Hs _ _ Ht) as (x' & Hx' & Hid). rewrite Hh in Hx'. injection Hx' as <-.
  destruct (handler_idle _ Hs _ _ Hh) as (Hr & Hl & _ & Hpos & _).
  assert ((hid <? 1) = false) as -> by (apply Z.ltb_ge; lia).
  run (get_handler_some s hid h x Ht Hh). run (handler_at_eq _ _ _ (lookup_upd_handler _ _ _)).
  run (close_instance_eq (hold_handler x) y (upd_handler h (hold_handler x) s) Hp). run (modify_eq _ _).
  set (s1 := set_field handler_list _ _). unfold dec_handler_refcount.
  assert (E1 : handlers s1 !! h = Some (hold_handler x)) by apply lookup_insert_eq.
  run (on_handler_eq _ _ _ _ E1). run (handler_at_eq _ _ _ (lookup_upd_handler _ _ _)).
  set (x1 := set_field refcount Z.pred _). set (s2 := upd_handler h x1 s1).
  assert ((refcount x1 <? 1) = true) as -> by (cbn; apply Z.ltb_lt; lia).
  assert (E2 : handlers s2 !! h = Some x1) by apply lookup_upd_handler.
  assert (P2 : plugins_ok s2) by (apply (plugins_ok_ext s); auto).
  run (delete_handler_eq h x1 y s2 P2 E2 Hp Hn).
  unfold mret, R_ret. f_equal. unfold s2, s1. rewrite close_calls_hold.
  same_state. cbn. by rewrite insert_insert_eq, delete_insert_eq.
Qed.
(** The handlers, and the plug-ins that were there, are as before. *)
Definition unchanged (s s' : registry) : Prop :=
  handlers s' = handlers s /\ handler_list s' = handler_list s /\ handler_table s' = handler_table s /\
  handler_id s' = handler_id s /\ (exists tail, log s' = (log s ++ tail)%list) /\
  forall q z, plugins s !! q = Some z -> plugins s' !! q = Some z.
Lemma unchanged_refl s : unchanged s s.
Proof. split_and!; try done. exists []. by rewrite app_nil_r. Qed.

(** The plug-in [n] is there, or an attempt to load it now succeeds. *)
Definition loadable (s : registry) (n : string) : Prop :=
  loaded s n <> None \/ exists s', oh_load_plugin (Some n) s = Done 0 s'.

Lemma plugin_for_runs n s : registry_ok s ->
  runs (plugin_for n) s (fun r s' =>
    match r with
    | None => ~ loadable s n /\ registry_ok s' /\ unchanged s s'
    | Some p => loadable s n /\ exists s1 y, registry_ok s1 /\ unchanged s s1 /\ plugins s1 !! p = Some y /\ name y = n /\
        s' = upd_plugin p (hold_plugin y) s1
    end).
Proof.
  intros Hok. pose proof (reg_plugins _ Hok) as P. unfold plugin_for.
  pose proof (loaded_spec s n P) as L. destruct (loaded s n) as [p|] eqn:E.
  { destruct L as (y & Hp & Hn). unfold runs. run (get_plugin_some s n p y P E Hp).
    split; [left; by rewrite E|]. exists s, y. by split_and!; [|apply unchanged_refl|..]. }
  assert (Hnot : forall rc s', oh_load_plugin (Some n) s = Done rc s' -> rc <> 0 -> ~ loadable s n).
  { intros rc s' El Hrc [Hl|[s2 El2]]; [done|]. rewrite El in El2. by injection El2 as -> _. }
  unfold runs. run (get_plugin_none s n P E). fold (runs (A := option nat)).
  destruct g_module_supported eqn:Hs.
  - pose proof (load_plugin_eq n s P E (plugin_fresh s P) Hs) as Hl. unfold runs in Hl.
    destruct (oh_load_plugin (Some n) s) as [rc s'| |] eqn:El; [|done|done]. run El.
    destruct Hl as (g & tail & [[-> ->]|(-> & exports & Ho & ->)]).
    + cbn [Z.eqb negb]. unfold mret, R_ret. split_and!; [by apply (Hnot _ _ eq_refl)| |split_and!; try done; by exists tail].
      apply (registry_ok_ext s); auto. cbn. lia.
    + cbn [Z.eqb negb]. set (s1 := noted g tail _).
      assert (Hok1 : registry_ok s1) by by apply noted_ok, with_plugin_ok.
      assert (Hp : plugins s1 !! next_addr s = Some (new_plugin n exports)) by apply lookup_insert_eq.
      rewrite (get_plugin_some s1 n (next_addr s) (new_plugin n exports));
        [|apply Hok1|by apply (loaded_is s1 _ _ (reg_plugins _ Hok1) Hp)|done].
      split; [right; eexists; exact El|].
      exists s1, (new_plugin n exports). split_and!; try done. split_and!; try done; [by exists tail|].
      intros q z Hq. unfold s1, noted, with_plugin. cbn. rewrite lookup_insert_ne; [done|].
      intros <-. by rewrite (plugin_fresh s P) in Hq.
  - assert (El : oh_load_plugin (Some n) s = Done (-1) s) by (unfold oh_load_plugin; by rewrite Hs).
    run El. cbn. split_and!; [by apply (Hnot _ _ El)|done|apply unchanged_refl].
Qed.

Definition new_handler_of (s : registry) (p : nat) (n : string) (cfg : gmap string conf_value) : oh_handler :=
  {| id := handler_id s; plugin_name := n; config := omap c_string cfg; abi := p; hnd := None;
     refcount := 0; locks := 0 |}.

Lemma init_handler_eq p n cfg y s : registry_ok s -> plugins s !! p = Some y ->
  map_Forall (fun _ v => is_Some (c_string v)) cfg -> handler_id s + 1 < 2 ^ 32 ->
  init_handler p n cfg (upd_plugin p (hold_plugin y) s) =
    Done (next_addr s) (upd_plugin p (y <| handler_count ::= Z.succ |>)
      (upd_handler (next_addr s) (new_handler_of s p n cfg) s)
      <| handler_id ::= Z.succ |> <| next_addr ::= S |>).
Proof.
  intros Hok Hp Hc Hid. unfold init_handler.
  destruct (plugin_idle _ (reg_plugins _ Hok) _ _ Hp) as (_ & _ & Hr & Hl & _).
  destruct (id_range _ (reg_handlers _ Hok)) as [Hpos _].
  run (on_plugin_eq p (fun y => y <| handler_count ::= Z.succ |>) _ _ (lookup_upd_plugin p (hold_plugin y) s)).
  rewrite upd_plugin_twice. set (y1 := set_field handler_count _ (hold_plugin y)).
  assert (H1 : 0 < plugin_refcount y1) by (cbn; lia). assert (H2 : (0 < plugin_locks y1)%nat) by (cbn; lia).
  run (release_plugin_eq p y1 _ (lookup_upd_plugin _ _ _) H1 H2).
  rewrite upd_plugin_twice. set (s1 := upd_plugin _ _ _). run (get_eq handler_id s1). run (modify_eq _ _).
  unfold copy_hashed_new_config. rewrite bool_decide_true by done.
  unfold mbind, R_bind, mret, R_ret, alloc_handler, s1, y1, new_handler_of. clear s1 y1 H1 H2. f_equal.
  same_state; cbn; [|by rewrite u32_id by lia]. f_equal. destruct y. unfold hold_plugin, set_field. cbn.
  by rewrite Z.pred_succ.
Qed.

Lemma global_number_eq type s :
  type = OPENHPI_AUTOINSERT_TIMEOUT \/ type = OPENHPI_AUTOINSERT_TIMEOUT_READONLY ->
  exists z g, global_param2 type s = Done (Some (PNum z)) (s <| params := g |>) /\
    as_number (Some (PNum z)) (s <| params := g |>) = Done z (s <| params := g |>).
Proof.
  intros [-> | ->]; unfold global_param2, oh_get_global_param2, oh_get_global_param; cbn [Z.eqb];
    by eexists _, _.
Qed.
Lemma set_timeout_eq x y i s : plugins s !! abi x = Some y ->
  exists g tail, set_timeout x i s = Done tt (noted g tail s).
Proof.
  intros E. unfold set_timeout. run (abi_has_eq x y "set_autoinsert_timeout" s E).
  destruct (bool_decide _); cbn [when].
  - destruct (global_number_eq OPENHPI_AUTOINSERT_TIMEOUT s) as (t & g & H1 & H2); [by left|].
    destruct (global_number_eq OPENHPI_AUTOINSERT_TIMEOUT_READONLY (s <| params := g |>))
      as (r & g' & H3 & H4); [by right|].
    run H1. run H2. run H3. run H4. exists g'. destruct (_ && _); cbn [when].
    + exists [AbiSetTimeout (id x) i t]. run (call_eq _ _). done.
    + exists []. unfold mret, R_ret. f_equal. same_state. symmetry. apply app_nil_r.
  - exists (params s), []. unfold mret, R_ret. f_equal. same_state. symmetry. apply app_nil_r.
Qed.
Lemma install_handler_eq s x y : registry_ok s -> plugins s !! abi x = Some y ->
  let l := (log s ++ [AbiOpen (id x) (plugin_name x) (config x)])%list in
  exists g tail,
    install_handler (next_addr s) (upd_plugin (abi x) (y <| handler_count ::= Z.succ |>)
        (upd_handler (next_addr s) x s) <| handler_id ::= Z.succ |> <| next_addr ::= S |>) =
    Done (match abi_open l with Some _ => SA_OK | None => SA_ERR_HPI_INTERNAL_ERROR end, id x)
      (noted g tail (created (x <| hnd := abi_open l |>) y s)).
Proof.
  intros Hok Hp l. set (s1 := set_field next_addr _ _).
  destruct (plugin_idle _ (reg_plugins _ Hok) _ _ Hp) as (_ & Hopen & _).
  assert (E1 : handlers s1 !! next_addr s = Some x) by apply lookup_insert_eq.
  unfold install_handler. run (handler_at_eq _ _ _ E1). run (modify_eq _ _).
  set (s2 := set_field handler_table _ _).
  assert (Ep : plugins s2 !! abi x = Some (y <| handler_count ::= Z.succ |>)) by apply lookup_insert_eq.
  run (abi_has_eq x _ "open" s2 Ep). cbn [plugin_abi set_field]. rewrite bool_decide_true by done. cbn [negb].
  run (call_eq _ _). change (log s2) with (log s). fold l.
  set (s3 := logged _ s2). assert (E3 : handlers s3 !! next_addr s = Some x) by apply lookup_insert_eq.
  run (on_handler_eq _ _ _ _ E3). destruct (abi_open l) as [i|] eqn:Eo.
  - set (s4 := upd_handler _ _ _).
    destruct (set_timeout_eq x _ i s4 Ep) as (g & tail & Ht). exists g, (AbiOpen (id x) (plugin_name x) (config x) :: tail). run Ht.
    unfold mret, R_ret. f_equal. same_state; cbn; [by rewrite insert_insert_eq|by rewrite <- app_assoc].
  - exists (params s), [AbiOpen (id x) (plugin_name x) (config x)]. unfold mret, R_ret. f_equal.
    same_state. cbn. by rewrite insert_insert_eq.
Qed.

(** The handlers in the order of the list. *)
Definition the_handlers (s : registry) : list oh_handler := omap (fun h => handlers s !! h) (handler_list s).

Lemma the_handlers_ext s s' : handlers s' = handlers s -> handler_list s' = handler_list s ->
  the_handlers s' = the_handlers s.
Proof. unfold the_handlers. by intros -> ->. Qed.
Lemma the_handlers_created x y s : handlers_ok s -> the_handlers (created x y s) = (the_handlers s ++ [x])%list.
Proof.
  intros Hok. unfold the_handlers, created. cbn. rewrite omap_app. cbn. rewrite lookup_insert_eq. f_equal.
  apply list_omap_ext, Forall2_same_length_lookup_2; [done|]. intros i h h' E1 E2. simplify_eq.
  rewrite lookup_insert_ne; [done|]. intros <-.
  assert (Hl : is_Some (handlers s !! next_addr s)) by (apply handlers_live; [done|]; by eapply list_elem_of_lookup_2).
  rewrite (handler_fresh s Hok) in Hl. by destruct Hl.
Qed.

Lemma omap_cons_some {A B} (f : A -> option B) a l b : f a = Some b -> omap f (a :: l) = b :: omap f l.
Proof. intros E. cbn. by rewrite E. Qed.
Lemma omap_cons_none {A B} (f : A -> option B) a l : f a = None -> omap f (a :: l) = omap f l.
Proof. intros E. cbn. by rewrite E. Qed.
Lemma ids_once s : handlers_ok s -> NoDup (id <$> the_handlers s).
Proof.
  intros Hok. unfold the_handlers.
  assert (Hl : forall h, h ∈ handler_list s -> is_Some (handlers s !! h)) by (intros h; by apply handlers_live).
  pose proof (handlers_once _ Hok) as Hd. revert Hl Hd. generalize (handler_list s).
  induction l as [|h l IH]; intros Hl Hd; [constructor|]. apply NoDup_cons in Hd as [Hn Hd].
  destruct (Hl h) as [x Hx]; [by left|]. rewrite (omap_cons_some (fun h => handlers s !! h) h l x Hx), fmap_cons. apply NoDup_cons. split.
  - intros (z & E & (h' & Hh' & Hz)%list_elem_of_omap)%list_elem_of_fmap.
    destruct (handler_idle _ Hok _ _ Hx) as (_ & _ & _ & _ & T1).
    destruct (handler_idle _ Hok _ _ Hz) as (_ & _ & _ & _ & T2). rewrite E in T1. congruence.
  - apply IH; [|done]. intros h' Hh'. apply Hl. by right.
Qed.

Lemma create_handler_runs s cfg v n :
  registry_ok s -> handler_id s + 1 < 2 ^ 32 -> map_Forall (fun _ v => is_Some (c_string v)) cfg ->
  cfg !! "plugin" = Some v -> c_string v = Some n ->
  runs (oh_create_handler (Some cfg) true) s (fun r s' => registry_ok s' /\
    handler_id s <= handler_id s' <= handler_id s + 1 /\
    (r = (SA_ERR_HPI_ERROR, 0) /\ ~ loadable s n /\ the_handlers s' = the_handlers s \/
     loadable s n /\ exists x tail,
       r = (match hnd x with Some _ => SA_OK | None => SA_ERR_HPI_INTERNAL_ERROR end, handler_id s) /\
       id x = handler_id s /\ plugin_name x = n /\ config x = omap c_string cfg /\
       hnd x = abi_open (log s ++ tail ++ [AbiOpen (id x) n (config x)])%list /\
       the_handlers s' = (the_handlers s ++ [x])%list)).
Proof.
  intros Hok Hid Hc Hv Hn. unfold oh_create_handler. rewrite bool_decide_true by by eexists.
  cbn [negb orb]. unfold new_handler. rewrite Hv, Hn. unfold valid.
  pose proof (plugin_for_runs n s Hok) as Hrun. unfold runs in *.
  destruct (plugin_for n s) as [[p|] s1| |] eqn:Ef; [| |done|done].
  2:{ destruct Hrun as (Hl & Hok' & Hu). unfold mbind, R_bind, mret, R_ret. rewrite Ef. split; [done|].
      destruct Hu as (? & ? & _ & -> & _). split; [lia|]. left.
      split_and!; try done. by apply the_handlers_ext. }
  destruct Hrun as (Hload & s0 & y & Hok0 & Hu & Hp & Hny & ->).
  destruct Hu as (Uh & Ul & Ut & Uid & (tail & Ulog) & Up).
  assert (Hid0 : handler_id s0 + 1 < 2 ^ 32) by (by rewrite Uid).
  pose proof (init_handler_eq p n cfg y s0 Hok0 Hp Hc Hid0) as Hi.
  destruct (install_handler_eq s0 (new_handler_of s0 p n cfg) y Hok0 Hp) as (g & tail2 & Hin).
  unfold mbind, R_bind, mret, R_ret. rewrite Ef. cbn in Hi, Hin |- *. rewrite Hi. cbn. rewrite Hin.
  rewrite Ulog, <- app_assoc, Uid. set (r := abi_open _).
  pose proof (created_ok (new_handler_of s0 p n cfg <| hnd := r |>) y s0 Hok0 Hp (eq_sym Hny) eq_refl eq_refl
    eq_refl Hid0) as Hnew.
  split; [by apply noted_ok|]. split; [cbn; rewrite Uid; lia|]. right. split; [done|]. exists (new_handler_of s0 p n cfg <| hnd := r |>), tail.
  cbn [hnd id plugin_name config new_handler_of set_field]. rewrite Uid. split_and!; try done.
  etransitivity; [apply (the_handlers_ext (created (new_handler_of s0 p n cfg <| hnd := r |>) y s0)); done|].
  rewrite the_handlers_created by apply Hok0. f_equal. by apply the_handlers_ext.
Qed.
(** Creating a handler, for a configuration with a plug-in name and
    terminated values: if the plug-in is not there and cannot be loaded, nothing
    is changed and SA_ERR_HPI_ERROR is returned; else the new handler, with the
    next id, the copied configuration and the instance that the plug-in's open
    function returned, is the last of the list, and the result is SA_OK exactly
    if there is an instance.  Every object is as consistent as before. *)
Theorem oh_create_handler_correct s cfg v n :
  registry_ok s -> handler_id s + 1 < 2 ^ 32 -> map_Forall (fun _ v => is_Some (c_string v)) cfg ->
  cfg !! "plugin" = Some v -> c_string v = Some n ->
  runs (oh_create_handler (Some cfg) true) s (fun r s' => registry_ok s' /\
    (r = (SA_ERR_HPI_ERROR, 0) /\ ~ loadable s n /\ the_handlers s' = the_handlers s \/
     loadable s n /\ exists x tail,
       r = (match hnd x with Some _ => SA_OK | None => SA_ERR_HPI_INTERNAL_ERROR end, handler_id s) /\
       id x = handler_id s /\ plugin_name x = n /\ config x = omap c_string cfg /\
       hnd x = abi_open (log s ++ tail ++ [AbiOpen (id x) n (config x)])%list /\
       the_handlers s' = (the_handlers s ++ [x])%list)).
Proof.
  intros Hok Hid Hc Hv Hn. eapply runs_mono; [by eapply create_handler_runs|]. cbv beta.
  intros r s' (H1 & _ & H2). by split.
Qed.
(** *** Walking the handlers *)

Lemma next_after_split pre x suf : NoDup (pre ++ x :: suf)%list -> next_of x (pre ++ x :: suf)%list = head suf.
Proof.
  induction pre as [|y pre IH]; cbn [app next_of]; [by rewrite Nat.eqb_refl|].
  intros [Hn Hd]%NoDup_cons. destruct (Nat.eqb_spec y x) as [->|]; [|auto].
  destruct Hn. apply elem_of_app. right. by left.
Qed.

Lemma head_Some_elem_of (l : list nat) x : head l = Some x -> x ∈ l.
Proof. destruct l; intros [= ->]. by left. Qed.
Lemma next_of_elem x l y : next_of x l = Some y -> y ∈ l.
Proof.
  induction l as [|z l IH]; [done|]. cbn [next_of]. destruct (z =? x)%nat; intros E; right; [|auto].
  by apply head_Some_elem_of.
Qed.

(** The id after which the handlers [suf] come. *)
Definition id_before (s : registry) (pre : list nat) : Z :=
  match last pre with Some h => match handlers s !! h with Some x => id x | None => 0 end | None => 0 end.

Lemma getnext_eq s pre suf : handlers_ok s -> handler_list s = (pre ++ suf)%list ->
  exists rv, oh_getnext_handler_id (id_before s pre) true s = Done (rv, id_before s (take 1 suf)) s /\
    (rv = 0 <-> suf <> []).
Proof.
  intros Hok El. unfold oh_getnext_handler_id. cbn [negb]. run (get_eq handler_list s). run (get_eq handler_table s).
  assert (Hlive : forall h, h ∈ handler_list s -> exists x, handlers s !! h = Some x /\ 0 < id x /\ handler_table s !! id x = Some h).
  { intros h [x Hx]%(handlers_live _ Hok). exists x. destruct (handler_idle _ Hok h x Hx) as (_ & _ & _ & [? _] & ?). auto. }
  assert (Enext : (if id_before s pre =? 0 then head (handler_list s)
                   else h ← handler_table s !! id_before s pre; next_of h (handler_list s)) = head suf).
  { unfold id_before. destruct pre as [|h pre _] using rev_ind; [by rewrite El|]. rewrite last_snoc.
    rewrite <- app_assoc in El. cbn in El.
    destruct (Hlive h) as (x & Hx & Hpos & Ht); [rewrite El; apply elem_of_app; right; by left|].
    rewrite Hx. assert ((id x =? 0) = false) as -> by (apply Z.eqb_neq; lia). rewrite Ht. cbn.
    rewrite El. apply next_after_split. rewrite <- El. by apply handlers_once. }
  rewrite Enext. destruct suf as [|h suf]; cbn [head].
  - exists (-1). split; [done|]. by split.
  - destruct (Hlive h) as (x & Hx & _); [rewrite El; apply elem_of_app; right; by left|].
    run (handler_at_eq _ _ _ Hx). exists 0. split; [|done]. unfold id_before. change (last (take 1 (h :: suf))) with (Some h). cbv iota beta. by rewrite Hx.
Qed.

(** The walk over the handlers: [oh_getnext_handler_id] from 0 gives the ids
    of all handlers, each once, in the order in which they were created, and
    fails after the last one; an id of no handler gives no next one. *)
Theorem handler_walk_complete s : registry_ok s ->
  (forall pre suf, handler_list s = (pre ++ suf)%list ->
     exists rv, oh_getnext_handler_id (id_before s pre) true s = Done (rv, id_before s (take 1 suf)) s /\
       (rv = 0 <-> suf <> [])) /\
  NoDup (id <$> the_handlers s) /\
  (forall hid, hid <> 0 -> hid ∉ id <$> the_handlers s ->
     oh_getnext_handler_id hid true s = Done (-1, 0) s).
Proof.
  intros Hok. pose proof (reg_handlers _ Hok) as Hh. split_and!.
  - intros pre suf. by apply getnext_eq.
  - by apply ids_once.
  - intros hid Hne Hn. unfold oh_getnext_handler_id. cbn [negb]. run (get_eq handler_list s). run (get_eq handler_table s).
    assert ((hid =? 0) = false) as -> by by apply Z.eqb_neq.
    destruct (handler_table s !! hid) as [h|] eqn:E; [|done]. destruct Hn.
    destruct (table_entry _ Hh _ _ E) as (x & Hx & <-). apply list_elem_of_fmap. exists x. split; [done|].
    apply list_elem_of_omap. exists h. split; [|done]. apply handlers_live; [done|]. by eexists.
Qed.
(** *** The loops over the handlers *)

(** The calls of a pass over the handlers [xs] and its result: [calls] tells
    what a handler does after the calls in the log, [ok] whether it was a
    success. *)
Fixpoint visit (stop : nat -> bool) (calls : oh_handler -> list plugin_call -> list plugin_call)
    (ok : oh_handler -> list plugin_call -> bool) (n : nat) (xs : list oh_handler)
    (l : list plugin_call) (error : Z) : list plugin_call * Z :=
  match xs with
  | [] => ([], error)
  | x :: xs =>
      if stop n then ([], SA_OK) else
      let c := calls x l in
      let r := visit stop calls ok (S n) xs (l ++ c)%list
                 (if ok x (l ++ c)%list then SA_OK else error) in
      ((c ++ r.1)%list, r.2)
  end.

Section loop.
Context (s : registry) (Hok : registry_ok s) (stop : nat -> bool) (work : oh_handler -> R bool).
Context (calls : oh_handler -> list plugin_call -> list plugin_call).
Context (ok : oh_handler -> list plugin_call -> bool).
Hypothesis work_eq : forall h x t, handlers s !! h = Some x ->
  let l := (log s ++ t)%list in
  work (hold_handler x) (upd_handler h (hold_handler x) (logged t s)) =
    Done (ok x (l ++ calls x l)%list) (logged (calls x l) (upd_handler h (hold_handler x) (logged t s))).

Lemma each_handler_eq fuel n pre suf t error : handler_list s = (pre ++ suf)%list ->
  (length suf < fuel)%nat ->
  let r := visit stop calls ok n (omap (fun h => handlers s !! h) suf) (log s ++ t)%list error in
  each_handler fuel stop n work (id_before s pre) error (logged t s) =
    Done r.2 (logged (t ++ r.1)%list s).
Proof.
  revert n pre suf t error. induction fuel as [|fuel IH]; intros n pre suf t error El Hf; [lia|].
  cbn [each_handler].
  destruct (getnext_eq (logged t s) pre suf (reg_handlers _ (logged_ok t s Hok)) El) as (rv & Hg & _).
  change (id_before (logged t s)) with (id_before s) in Hg. run Hg. cbn [snd].
  destruct suf as [|h suf].
  { cbn. by rewrite app_nil_r. }
  assert (Hin : h ∈ handler_list s) by (rewrite El; apply elem_of_app; right; by left).
  apply (handlers_live _ (reg_handlers _ Hok)) in Hin as [x Hx].
  assert (Eb : forall pre', id_before s (pre' ++ [h])%list = id x).
  { intros pre'. unfold id_before. by rewrite last_snoc, Hx. }
  change (take 1 (h :: suf)) with ([] ++ [h])%list. rewrite Eb.
  rewrite (omap_cons_some (fun h => handlers s !! h) h suf x Hx).
  destruct (handler_idle _ (reg_handlers _ Hok) _ _ Hx) as (Hr & Hl & _ & Hpos & Ht).
  assert ((id x =? 0) = false) as -> by (apply Z.eqb_neq; lia).
  cbn [visit]. destruct (stop n).
  { cbn [fst snd]. by rewrite app_nil_r. }
  run (get_handler_some (logged t s) (id x) h x Ht Hx).
  run (handler_at_eq _ _ _ (lookup_upd_handler h (hold_handler x) (logged t s))).
  run (work_eq h x t Hx). cbv zeta.
  set (c := calls x (log s ++ t)%list). set (s1 := logged c _).
  assert (E1 : handlers s1 !! h = Some (hold_handler x)) by apply lookup_insert_eq.
  assert (H1 : 0 < refcount (hold_handler x)) by (cbn; lia).
  assert (H2 : (0 < locks (hold_handler x))%nat) by (cbn; lia).
  run (release_handler_eq h _ s1 E1 H1 H2). rewrite unhold_handler.
  assert (upd_handler h x s1 = logged (t ++ c)%list s) as ->.
  { unfold s1. same_state; cbn; [by rewrite insert_insert_eq, insert_id|by rewrite app_assoc]. }
  rewrite <- (Eb pre), (IH (S n) (pre ++ [h])%list suf (t ++ c)%list);
    [|by rewrite <- app_assoc|cbn in Hf; lia].
  cbn [fst snd]. by rewrite !app_assoc.
Qed.

Lemma all_handlers_eq :
  let r := visit stop calls ok 0 (the_handlers s) (log s) SA_ERR_HPI_ERROR in
  all_handlers stop work s = Done r.2 (logged r.1 s).
Proof.
  cbv zeta. unfold all_handlers. run (get_eq handler_list s).
  pose proof (each_handler_eq (S (length (handler_list s))) 0 [] (handler_list s) [] SA_ERR_HPI_ERROR eq_refl
    (Nat.lt_succ_diag_r _)) as E. cbv zeta in E. rewrite logged_nil, app_nil_r in E. exact E.
Qed.
End loop.
(** *** Discovery and harvesting *)

Definition has_member (s : registry) (x : oh_handler) (member : string) : bool :=
  match plugins s !! abi x with Some y => bool_decide (member ∈ plugin_abi y) | None => false end.
Definition discover_call (s : registry) (x : oh_handler) : option plugin_call :=
  if has_member s x "discover_resources" then AbiDiscover (id x) <$> hnd x else None.

Definition discover_calls (s : registry) (x : oh_handler) (_ : list plugin_call) : list plugin_call :=
  option_list (discover_call s x).
Definition discover_ok (s : registry) (x : oh_handler) (l : list plugin_call) : bool :=
  match discover_call s x with Some _ => abi_result l =? SA_OK | None => false end.

Lemma abi_has_member s x m s' : registry_ok s -> (exists h, handlers s !! h = Some x) -> plugins s' = plugins s ->
  abi_has (hold_handler x) m s' = Done (has_member s x m) s'.
Proof.
  intros Hok [h Hx] E. destruct (abi_live _ Hok _ _ Hx) as (y & Hy & _). unfold has_member. rewrite Hy.
  apply abi_has_eq. by rewrite E.
Qed.

Lemma visit_discover s stop xs n l error : (forall n, stop n = false) ->
  let r := visit stop (discover_calls s) (discover_ok s) n xs l error in
  r.1 = omap (discover_call s) xs /\ (r.2 = SA_OK \/ r.2 = error) /\
  (r.2 = SA_OK <-> error = SA_OK \/ exists pre c post,
     omap (discover_call s) xs = (pre ++ c :: post)%list /\ abi_result (l ++ pre ++ [c])%list = SA_OK).
Proof.
  intros Hs. revert n l error. induction xs as [|x xs IH]; intros n l error; cbv zeta.
  { cbn. split_and!; [done|by right|]. split; [by left|]. intros [?|(pre & c & post & E & _)]; [done|by destruct pre]. }
  cbn [visit]. rewrite Hs. cbn [fst snd]. set (c := discover_calls s x l). set (e := if discover_ok s x _ then _ else _).
  destruct (IH (S n) (l ++ c)%list e) as (I1 & I2 & I3). cbv zeta in *. rewrite I1.
  unfold discover_calls, discover_ok in c, e. destruct (discover_call s x) as [k|] eqn:Ek.
  - rewrite (omap_cons_some _ _ _ _ Ek). subst c e. change (option_list (Some k)) with [k] in *. split; [done|].
    destruct (Z.eqb_spec (abi_result (l ++ [k])%list) SA_OK) as [Er|Er].
    + destruct I2 as [I2|I2]; rewrite I2; (split; [by left|split; [|done]]);
        intros _; right; by exists [], k, (omap (discover_call s) xs).
    + split; [done|]. rewrite I3. split; (intros [?|(pre & c & post & E & Hr)]; [by left|right]).
      * exists (k :: pre), c, post. rewrite E. split; [done|]. by rewrite <- app_assoc in Hr.
      * destruct pre as [|k' pre]; simplify_eq/=. exists pre, c, post. split; [done|].
        by rewrite <- app_assoc.
  - rewrite (omap_cons_none _ _ _ Ek). subst c e. change (option_list None) with (@nil plugin_call) in *.
    by rewrite app_nil_r in *.
Qed.
Lemma visit_stopped s stop xs n l error k : stop (n + k)%nat = true -> (k < length xs)%nat ->
  (forall i, (i < k)%nat -> stop (n + i)%nat = false) ->
  visit stop (discover_calls s) (discover_ok s) n xs l error = (omap (discover_call s) (take k xs), SA_OK).
Proof.
  intros Hk Hlen Hi. revert n xs l error Hk Hlen Hi. induction k as [|k IH]; intros n [|x xs] l error Hk Hlen Hi;
    try (cbn in Hlen; lia); cbn [visit].
  - rewrite Nat.add_0_r in Hk. by rewrite Hk.
  - rewrite <- (Nat.add_0_r n) at 1. rewrite Hi by lia. rewrite IH; [|by rewrite Nat.add_succ_comm|cbn in Hlen; lia|].
    + cbn [fst snd take]. f_equal. unfold discover_calls. destruct (discover_call s x) as [c|] eqn:E;
        [by rewrite (omap_cons_some _ _ _ _ E)|by rewrite (omap_cons_none _ _ _ E)].
    + intros i Hlt. rewrite Nat.add_succ_comm. apply Hi. lia.
Qed.

Lemma discover_handler_eq s h x t : registry_ok s -> handlers s !! h = Some x ->
  let l := (log s ++ t)%list in
  discover_handler (hold_handler x) (upd_handler h (hold_handler x) (logged t s)) =
    Done (discover_ok s x (l ++ discover_calls s x l)%list)
      (logged (discover_calls s x l) (upd_handler h (hold_handler x) (logged t s))).
Proof.
  intros Hok Hx l. unfold discover_handler.
  run (abi_has_member s x "discover_resources" (upd_handler h (hold_handler x) (logged t s)) Hok
    (ex_intro _ h Hx) eq_refl).
  unfold discover_ok, discover_calls, discover_call. change (hnd (hold_handler x)) with (hnd x).
  destruct (has_member s x "discover_resources"); [|by rewrite logged_nil].
  destruct (hnd x) as [i|]; cbn [fmap option_fmap option_map]; [by run (call_eq _ _)|by rewrite logged_nil].
Qed.

(** A discovery calls the discovery function of every handler that has an
    instance and whose plug-in has the function, once and in the order of the
    handlers, and nothing else; it returns SA_OK exactly if one of the calls
    did.  When the signal to stop comes before the handler with index [k], only
    the handlers before it are called and SA_OK is returned. *)
Theorem oh_discovery_correct s stop : registry_ok s ->
  ((forall n, stop n = false) ->
   let calls := omap (discover_call s) (the_handlers s) in
   exists rv, oh_discovery stop s = Done rv (logged calls s) /\ (rv = SA_OK \/ rv = SA_ERR_HPI_ERROR) /\
     (rv = SA_OK <-> exists pre c post, calls = (pre ++ c :: post)%list /\
        abi_result (log s ++ pre ++ [c])%list = SA_OK)) /\
  (forall k, stop k = true -> (forall i, (i < k)%nat -> stop i = false) -> (k < length (the_handlers s))%nat ->
   oh_discovery stop s = Done SA_OK (logged (omap (discover_call s) (take k (the_handlers s))) s)).
Proof.
  intros Hok. unfold oh_discovery.
  pose proof (all_handlers_eq s Hok stop discover_handler (discover_calls s) (discover_ok s)
    (fun h x t Hx => discover_handler_eq s h x t Hok Hx)) as E. cbv zeta in E. split.
  - intros Hs. destruct (visit_discover s stop (the_handlers s) 0 (log s) SA_ERR_HPI_ERROR Hs) as (V1 & V2 & V3).
    cbv zeta in *. rewrite V1 in E. eexists. split; [exact E|]. split; [done|]. rewrite V3.
    split; [intros [?|?]; done|by right].
  - intros k Hk Hi Hlen. rewrite E. by rewrite (visit_stopped s stop (the_handlers s) 0 (log s) _ k Hk Hlen Hi).
Qed.
(** The calls of a handler whose plug-in is asked for events until it has none. *)
Fixpoint polls (fuel : nat) (c : plugin_call) (l : list plugin_call) : list plugin_call :=
  match fuel with
  | O => []
  | S fuel => c :: (if 0 <? abi_result (l ++ [c])%list then polls fuel c (l ++ [c])%list else [])
  end.
(** The plug-in answers that it has no event within [fuel] calls. *)
Fixpoint runs_out (fuel : nat) (c : plugin_call) (l : list plugin_call) : Prop :=
  match fuel with
  | O => False
  | S fuel => 0 < abi_result (l ++ [c])%list -> runs_out fuel c (l ++ [c])%list
  end.
Definition harvest_calls (s : registry) (fuel : nat) (x : oh_handler) (l : list plugin_call) : list plugin_call :=
  match hnd x with
  | Some i => if has_member s x "get_event" then polls fuel (AbiGetEvent (id x) i) l else []
  | None => []
  end.

Lemma harvest_loop_eq fuel x i s : runs_out fuel (AbiGetEvent (id x) i) (log s) ->
  harvest_loop fuel x i s = Done tt (logged (polls fuel (AbiGetEvent (id x) i) (log s)) s).
Proof.
  revert s. induction fuel as [|fuel IH]; intros s Hr; [done|]. cbn [harvest_loop polls runs_out] in *.
  run (call_eq _ _). destruct (0 <? _) eqn:E; [|done].
  rewrite IH by by apply Hr, Z.ltb_lt. by rewrite logged_app.
Qed.

Lemma visit_harvest s fuel stop xs n l error : (forall n, stop n = false) ->
  let r := visit stop (harvest_calls s fuel) (fun _ _ => true) n xs l error in
  r.2 = match xs with [] => error | _ => SA_OK end /\
  forall x i, x ∈ xs -> hnd x = Some i -> has_member s x "get_event" = true ->
    exists pre post, r.1 = (pre ++ polls fuel (AbiGetEvent (id x) i) (l ++ pre) ++ post)%list.
Proof.
  intros Hs. revert n l error. induction xs as [|x xs IH]; intros n l error; cbv zeta; cbn [visit].
  { split; [done|]. by intros x i ?%not_elem_of_nil. }
  rewrite Hs. cbn [fst snd]. destruct (IH (S n) (l ++ harvest_calls s fuel x l)%list SA_OK) as [I1 I2]. cbv zeta in *.
  split; [rewrite I1; by destruct xs|]. intros z i [->|Hz]%elem_of_cons Hi Hm.
  - unfold harvest_calls. rewrite Hi, Hm. exists []. eexists. cbn [app]. rewrite (app_nil_r l). reflexivity.
  - destruct (I2 z i Hz Hi Hm) as (pre & post & ->). exists (harvest_calls s fuel x l ++ pre)%list, post.
    by rewrite !app_assoc.
Qed.

(** If every plug-in has no events left after at most [fuel] questions, the
    harvesting of events ends: it has asked every handler that has an instance
    and a function for it until the plug-in had none, it changes nothing but the
    log of the calls, and it returns SA_OK if there is a handler. *)
Theorem oh_harvest_events_correct s stop fuel : registry_ok s ->
  (forall hid i l, runs_out fuel (AbiGetEvent hid i) l) -> (forall n, stop n = false) ->
  exists calls, oh_harvest_events fuel stop s =
      Done (match the_handlers s with [] => SA_ERR_HPI_ERROR | _ => SA_OK end) (logged calls s) /\
    forall x i, x ∈ the_handlers s -> hnd x = Some i -> has_member s x "get_event" = true ->
      exists pre post, calls = (pre ++ polls fuel (AbiGetEvent (id x) i) (log s ++ pre) ++ post)%list.
Proof.
  intros Hok Hr Hs. unfold oh_harvest_events.
  pose proof (all_handlers_eq s Hok stop (harvest_events_for_handler fuel) (harvest_calls s fuel) (fun _ _ => true)) as E.
  destruct (visit_harvest s fuel stop (the_handlers s) 0 (log s) SA_ERR_HPI_ERROR Hs) as [V1 V2]. cbv zeta in *.
  eexists. split; [rewrite E; [by rewrite V1|]|exact V2].
  intros h x t Hx. unfold harvest_events_for_handler, harvest_calls. change (hnd (hold_handler x)) with (hnd x).
  destruct (hnd x) as [i|]; [|by rewrite logged_nil].
  run (abi_has_member s x "get_event" (upd_handler h (hold_handler x) (logged t s)) Hok (ex_intro _ h Hx) eq_refl).
  destruct (has_member s x "get_event"); cbn [when]; [|by rewrite logged_nil].
  by run (harvest_loop_eq fuel (hold_handler x) i (upd_handler h (hold_handler x) (logged t s)) (Hr _ _ _)).
Qed.

(** *** Destroying a handler, unloading a plug-in *)

Lemma the_handlers_destroyed s h x y : handlers_ok s -> handlers s !! h = Some x ->
  the_handlers (destroyed h x y s) = filter (fun z => id z <> id x) (the_handlers s).
Proof.
  intros Hok Hx. unfold the_handlers, destroyed.
  change (omap (fun k => delete h (handlers s) !! k) (g_slist_remove h (handler_list s)) =
          filter (fun z => id z <> id x) (omap (fun k => handlers s !! k) (handler_list s))).
  rewrite g_slist_remove_filter by exact (handlers_once s Hok).
  assert (Hl : forall h, h ∈ handler_list s -> is_Some (handlers s !! h)) by (intros h'; by apply handlers_live).
  revert Hl. generalize (handler_list s). induction l as [|k l IH]; intros Hl; [done|].
  destruct (Hl k) as [z Hz]; [by left|]. rewrite (omap_cons_some (fun h => handlers s !! h) k l z Hz).
  rewrite !filter_cons. destruct (decide (k <> h)) as [Hk|Hk].
  - rewrite decide_True.
    + rewrite (omap_cons_some (fun h' => delete h (handlers s) !! h') k _ z) by by rewrite lookup_delete_ne.
      f_equal. apply IH. intros h' Hh'. apply Hl. by right.
    + intros E. destruct (handler_idle _ Hok _ _ Hx) as (_ & _ & _ & _ & T1).
      destruct (handler_idle _ Hok _ _ Hz) as (_ & _ & _ & _ & T2). rewrite E in T2. congruence.
  - assert (k = h) as -> by (by destruct (decide (k = h))). rewrite Hx in Hz. injection Hz as <-.
    rewrite decide_False by by intros []. apply IH. intros h' Hh'. apply Hl. by right.
Qed.

(** Destroying a handler: an id of no handler is refused without effect; else
    exactly that handler is removed, its instance is closed once if it has one
    and the plug-in can, its plug-in has one user less, and every object is as
    consistent as before. *)
Theorem oh_destroy_handler_correct s hid : registry_ok s ->
  runs (oh_destroy_handler hid) s (fun rv s' =>
    (not (hid ∈ (id <$> the_handlers s)) /\ rv = -1 /\ s' = s) \/
    exists x y, x ∈ the_handlers s /\ id x = hid /\ plugins s !! abi x = Some y /\
      rv = 0 /\ registry_ok s' /\
      the_handlers s' = filter (fun z => id z <> hid) (the_handlers s) /\
      log s' = (log s ++ close_calls x y)%list /\
      plugins s' = <[abi x := y <| handler_count ::= Z.pred |>]> (plugins s)).
Proof.
  intros Hok. pose proof (reg_handlers _ Hok) as Hh. unfold runs.
  destruct (handler_table s !! hid) as [h|] eqn:Ht.
  - destruct (table_entry _ Hh _ _ Ht) as (x & Hx & <-). destruct (abi_live _ Hok _ _ Hx) as (y & Hy & Hn).
    rewrite (destroy_handler_eq s (id x) h x y Hok Ht Hx Hy Hn). right. exists x, y. split_and!; try done.
    + apply list_elem_of_omap. exists h. split; [|done]. apply handlers_live; [done|]. by eexists.
    + by apply logged_ok, destroyed_ok.
    + by apply the_handlers_destroyed.
  - assert (Hn : hid ∉ id <$> the_handlers s).
    { intros (x & -> & (h & _ & Hx)%list_elem_of_omap)%list_elem_of_fmap.
      destruct (handler_idle _ Hh _ _ Hx) as (_ & _ & _ & _ & T). congruence. }
    unfold oh_destroy_handler. destruct (hid <? 1); [by left|]. unfold oh_get_handler.
    unfold mbind, R_bind, get. rewrite Ht. by left.
Qed.
Lemma unload_plugin_eq s n : registry_ok s ->
  match loaded s n with
  | None => oh_unload_plugin (Some n) s = Done (-2) s
  | Some p =>
      if decide (size (users s p) = 0%nat)
      then oh_unload_plugin (Some n) s = Done 0 (logged [ModuleClose n] (unloaded p s))
      else oh_unload_plugin (Some n) s = Done (-3) s
  end.
Proof.
  intros Hok. pose proof (reg_plugins _ Hok) as P. pose proof (loaded_spec s n P) as L.
  unfold oh_unload_plugin. destruct (loaded s n) as [p|] eqn:E; [|by run (get_plugin_none s n P E)].
  destruct L as (x & Hp & Hn). destruct (plugin_idle _ P _ _ Hp) as ([dl Hdl] & _ & Hr & Hl & _).
  pose proof (use_count _ Hok _ _ Hp) as Hc.
  assert (Hrun : forall A (k : option nat -> R A), (oh_get_plugin (Some n) ≫= k) s =
                 k (Some p) (upd_plugin p (hold_plugin x) s)).
  { intros A k. by run (get_plugin_some s n p x P E Hp). }
  assert (H1 : 0 < plugin_refcount (hold_plugin x)) by (cbn; lia).
  assert (H2 : (0 < plugin_locks (hold_plugin x))%nat) by (cbn; lia).
  destruct (decide _) as [Hz|Hz]; rewrite Hrun; run (plugin_at_eq _ _ _ (lookup_upd_plugin p (hold_plugin x) s));
    change (handler_count (hold_plugin x)) with (handler_count x).
  - assert ((0 <? handler_count x) = false) as -> by (apply Z.ltb_ge; lia). run (modify_eq _ _).
    unfold dec_plugin_refcount. set (s1 := set_field plugin_list _ _).
    assert (E1 : plugins s1 !! p = Some (hold_plugin x)) by apply lookup_insert_eq.
    run (on_plugin_eq _ _ _ _ E1). run (plugin_at_eq _ _ _ (lookup_upd_plugin _ _ _)).
    set (x1 := set_field plugin_refcount _ _). assert ((plugin_refcount x1 <? 1) = true) as -> by (cbn; apply Z.ltb_lt; lia).
    unfold delete_plugin. rewrite (bind_assoc (plugin_at p)). run (plugin_at_eq _ _ _ (lookup_upd_plugin p x1 s1)).
    change (dl_handle x1) with (dl_handle x). rewrite Hdl, bool_decide_true by by eexists. cbn [when].
    change (name x1) with (name x). rewrite Hn. unfold mbind, R_bind, call, modify, mret, R_ret. f_equal.
    same_state. cbn. by rewrite !delete_insert_eq.
  - assert ((0 <? handler_count x) = true) as -> by (apply Z.ltb_lt; lia).
    run (release_plugin_eq p (hold_plugin x) _ (lookup_upd_plugin _ _ _) H1 H2).
    by rewrite upd_plugin_twice, unhold_plugin, upd_plugin_same.
Qed.

(** Unloading a plug-in: -2 if it is not loaded, -3 if a handler uses it,
    both without effect; else the plug-in is removed and its shared object is
    closed, every handler stays, and a search does not find it any more. *)
Theorem oh_unload_plugin_correct s n : registry_ok s ->
  match loaded s n with
  | None => oh_unload_plugin (Some n) s = Done (-2) s
  | Some p =>
      if decide (Exists (fun x => abi x = p) (the_handlers s))
      then oh_unload_plugin (Some n) s = Done (-3) s
      else runs (oh_unload_plugin (Some n)) s (fun rv s' =>
             rv = 0 /\ registry_ok s' /\ loaded s' n = None /\ the_handlers s' = the_handlers s /\
             log s' = (log s ++ [ModuleClose n])%list)
  end.
Proof.
  intros Hok. pose proof (unload_plugin_eq s n Hok) as U. pose proof (reg_plugins _ Hok) as P.
  pose proof (loaded_spec s n P) as L.
  destruct (loaded s n) as [p|] eqn:E; [|done]. destruct L as (y & Hp & Hn).
  assert (Hiff : size (users s p) = 0%nat <-> ~ Exists (fun x => abi x = p) (the_handlers s)).
  { rewrite no_users, Exists_exists. split.
    - intros Hno (x & (h & _ & Hx)%list_elem_of_omap & Ha). by apply (Hno h x).
    - intros Hno h x Hx Ha. apply Hno. exists x. split; [|done]. apply list_elem_of_omap.
      exists h. split; [|done]. apply handlers_live; [apply Hok|by eexists]. }
  destruct (decide (Exists _ _)) as [Hex|Hex], (decide (size _ = _)) as [Hz|Hz]; [tauto|done| |tauto].
  unfold runs. rewrite U. assert (Hok' : registry_ok (unloaded p s)) by by apply unloaded_ok.
  split_and!; try done; [by apply logged_ok|].
  pose proof (loaded_spec (logged [ModuleClose n] (unloaded p s)) n
    (reg_plugins _ (logged_ok _ _ Hok'))) as L'.
  destruct (loaded (logged _ _) n) as [q|]; [|done]. destruct L' as (z & Hz' & Hnz).
  change (delete p (plugins s) !! q = Some z) in Hz'. apply lookup_delete_Some in Hz' as [Hne Hq].
  destruct Hne. eapply names_unique; [exact P|exact Hp|exact Hq|congruence].
Qed.

(** The information on a handler: an unknown id is refused; else the caller
    gets the id, the plug-in's name cut to 32 characters, the entity root that
    the configuration's text denotes, whether there is an instance, and the
    configuration over its own table with the password masked: the text of the
    password is not the value of that key.  Nothing is changed. *)
Theorem oh_get_handler_info_correct s hid c : registry_ok s -> hid <> 0 ->
  (not (hid ∈ (id <$> the_handlers s)) /\ oh_get_handler_info hid true (Some c) s = Done (SA_ERR_HPI_NOT_PRESENT, None) s) \/
  exists x info c', x ∈ the_handlers s /\ id x = hid /\
    oh_get_handler_info hid true (Some c) s = Done (SA_OK, Some (info, c')) s /\
    info_id info = hid /\ info_plugin_name info = String.substring 0 32 (plugin_name x) /\
    (load_failed info = 0 <-> is_Some (hnd x)) /\
    (forall k, k <> "password" -> c' !! k = (config x ∪ c) !! k) /\
    (c' !! "password" = None \/ c' !! "password" = Some "********").
Proof.
  intros Hok Hne. pose proof (reg_handlers _ Hok) as Hh. unfold oh_get_handler_info.
  assert ((hid =? 0) = false) as -> by by apply Z.eqb_neq. cbn [negb orb].
  run (get_eq handler_table s). destruct (handler_table s !! hid) as [h|] eqn:Ht; [right|left].
  - destruct (table_entry _ Hh _ _ Ht) as (x & Hx & Hid). run (handler_at_eq _ _ _ Hx).
    eexists x, _, _. split_and!; [| |done|..]; cbn [info_id info_plugin_name load_failed]; try done.
    + apply list_elem_of_omap. exists h. split; [|done]. apply handlers_live; [done|by eexists].
    + destruct (hnd x); split; [done|done|done|by intros []].
    + intros k Hk. unfold mask_password. destruct ((config x ∪ c) !! "password"); [|done].
      by rewrite lookup_insert_ne.
    + unfold mask_password. destruct ((config x ∪ c) !! "password") eqn:E; [right|by left].
      by rewrite lookup_insert_eq.
  - split; [|done]. intros (x & -> & (h & _ & Hx)%list_elem_of_omap)%list_elem_of_fmap.
    destruct (handler_idle _ Hh _ _ Hx) as (_ & _ & _ & _ & T). congruence.
Qed.
(** *** Every sequence of operations *)

Lemma close_all_eq s l : registry_ok s -> Forall (fun h => is_Some (handlers s !! h)) l ->
  exists tail, close_all l s = Done tt (logged tail s).
Proof.
  intros Hok. revert s Hok. induction l as [|h l IH]; intros s Hok Hl.
  - exists []. by rewrite logged_nil.
  - inversion_clear Hl as [|? ? [x Hx] Hl']. cbn [close_all]. run (handler_at_eq _ _ _ Hx).
    destruct (abi_live _ Hok _ _ Hx) as (y & Hy & _). run (close_instance_eq x y s Hy).
    destruct (IH (logged (close_calls x y) s)) as (tail & E); [by apply logged_ok|done|].
    exists (close_calls x y ++ tail)%list. by rewrite E, logged_app.
Qed.

Inductive command :=
  | Load (n : option string) | Unload (n : option string)
  | Create (cfg : gmap string conf_value) | Destroy (hid : Z)
  | Info (hid : Z) | NextHandler (hid : Z) | Discover (stop : nat -> bool) | CloseAll.
Definition run_command (c : command) : R unit :=
  match c with
  | Load n => _ ← oh_load_plugin n; mret tt
  | Unload n => _ ← oh_unload_plugin n; mret tt
  | Create cfg => _ ← oh_create_handler (Some cfg) true; mret tt
  | Destroy hid => _ ← oh_destroy_handler hid; mret tt
  | Info hid => _ ← oh_get_handler_info hid true (Some ∅); mret tt
  | NextHandler hid => _ ← oh_getnext_handler_id hid true; mret tt
  | Discover stop => _ ← oh_discovery stop; mret tt
  | CloseAll => oh_close_handlers
  end.
Definition terminated (c : command) : Prop :=
  match c with Create cfg => map_Forall (fun _ v => is_Some (c_string v)) cfg | _ => True end.
Fixpoint run_all (l : list command) : R unit :=
  match l with [] => mret tt | c :: l => run_command c;; run_all l end.

Lemma runs_then {A} (m : R A) s Q : runs m s (fun _ => Q tt) -> runs (_ ← m; mret tt) s Q.
Proof. unfold runs, mbind, R_bind, mret, R_ret. by destruct (m s). Qed.

Lemma load_safe n s : registry_ok s ->
  runs (oh_load_plugin n) s (fun _ s' => registry_ok s' /\ unchanged s s').
Proof.
  intros Hok. pose proof (reg_plugins _ Hok) as P. pose proof (unchanged_refl s) as U.
  destruct n as [n|]; [|done].
  destruct (loaded s n) as [p|] eqn:E.
  - unfold oh_load_plugin. destruct g_module_supported; [|done]. cbn [negb].
    pose proof (loaded_spec s n P) as L. rewrite E in L. destruct L as (x & Hp & _).
    destruct (plugin_idle _ P _ _ Hp) as (_ & _ & Hr & Hl & _).
    assert (H1 : 0 < plugin_refcount (hold_plugin x)) by (cbn; lia).
    assert (H2 : (0 < plugin_locks (hold_plugin x))%nat) by (cbn; lia). unfold runs.
    run (get_plugin_some s n p x P E Hp).
    run (release_plugin_eq p (hold_plugin x) _ (lookup_upd_plugin _ _ _) H1 H2).
    by rewrite upd_plugin_twice, unhold_plugin, upd_plugin_same.
  - destruct g_module_supported eqn:Hs; [|unfold oh_load_plugin; by rewrite Hs].
    eapply runs_mono; [by apply load_plugin_eq; [| |apply plugin_fresh|]|]. cbv beta.
    intros rc s' (g & tail & [[_ ->]|(_ & exports & Ho & ->)]); split.
    + apply (registry_ok_ext s); auto. cbn. lia.
    + split_and!; try done. by exists tail.
    + by apply noted_ok, with_plugin_ok.
    + split_and!; try done; [by exists tail|]. intros q z Hq. unfold noted, with_plugin. cbn.
      rewrite lookup_insert_ne; [done|]. intros <-. by rewrite (plugin_fresh s P) in Hq.
Qed.

Lemma command_safe c s : registry_ok s -> handler_id s + 1 < 2 ^ 32 -> terminated c ->
  runs (run_command c) s (fun _ s' => registry_ok s' /\ handler_id s <= handler_id s' <= handler_id s + 1).
Proof.
  intros Hok Hid Ht. assert (Hdone : registry_ok s /\ handler_id s <= handler_id s <= handler_id s + 1) by (split; [done|lia]).
  destruct c as [n|n|cfg|hid|hid|hid|stop|]; cbn [run_command]; try apply runs_then.
  - eapply runs_mono; [by apply load_safe|]. intros _ s' [? (_ & _ & _ & -> & _)]. by split; [|lia].
  - destruct n as [n|]; [|done]. pose proof (unload_plugin_eq s n Hok) as U. destruct (loaded s n) as [p|].
    + destruct (decide _) as [Hz|Hz]; unfold runs; rewrite U; [|done].
      split; [by apply logged_ok, unloaded_ok|]. cbn. lia.
    + unfold runs. by rewrite U.
  - destruct (cfg !! "plugin") as [v|] eqn:Ev.
    + destruct (Ht _ _ Ev) as [n Hn]. eapply runs_mono; [by eapply create_handler_runs|]. cbv beta. tauto.
    + unfold runs, oh_create_handler, new_handler. rewrite bool_decide_true by by eexists. by rewrite Ev.
  - unfold runs. destruct (handler_table s !! hid) as [h|] eqn:Eh.
    + destruct (table_entry _ (reg_handlers _ Hok) _ _ Eh) as (x & Hx & _).
      destruct (abi_live _ Hok _ _ Hx) as (y & Hy & Hn).
      rewrite (destroy_handler_eq s hid h x y Hok Eh Hx Hy Hn).
      split; [by apply logged_ok, destroyed_ok|]. cbn. lia.
    + unfold oh_destroy_handler. destruct (hid <? 1); [done|]. unfold oh_get_handler, mbind, R_bind, get.
      by rewrite Eh.
  - unfold runs, oh_get_handler_info. destruct ((hid =? 0) || _); [done|].
    run (get_eq handler_table s). destruct (handler_table s !! hid) as [h|] eqn:Eh; [|done].
    destruct (table_entry _ (reg_handlers _ Hok) _ _ Eh) as (x & Hx & _). by run (handler_at_eq _ _ _ Hx).
  - unfold runs, oh_getnext_handler_id. cbn [negb]. run (get_eq handler_list s). run (get_eq handler_table s).
    assert (Hl : forall h, h ∈ handler_list s -> is_Some (handlers s !! h)) by (intros h; by apply handlers_live, Hok).
    destruct (if hid =? 0 then _ else _) as [h|] eqn:E; [|done].
    destruct (Hl h) as [x Hx]; [|by run (handler_at_eq _ _ _ Hx)].
    destruct (hid =? 0); [by apply head_Some_elem_of|].
    destruct (handler_table s !! hid) as [k|]; [|done]. by eapply next_of_elem.
  - unfold runs, oh_discovery.
    rewrite (all_handlers_eq s Hok stop discover_handler (discover_calls s) (discover_ok s)
      (fun h x t Hx => discover_handler_eq s h x t Hok Hx)). split; [by apply logged_ok|]. cbn. lia.
  - unfold runs, oh_close_handlers. run (get_eq handler_list s).
    destruct (close_all_eq s (handler_list s) Hok) as (tail & E).
    { apply Forall_forall. intros h. by apply handlers_live, Hok. }
    rewrite E. split; [by apply logged_ok|]. cbn. lia.
Qed.

(** C22: From a consistent registry, every sequence of operations ends normally
    (nothing that was freed is used, no lock is released that is not held) in a
    consistent registry, as long as the handler ids do not run out and the
    configurations' values are terminated strings: no object is lost, no
    reference or lock is left over, and the plug-ins count their handlers. *)
Theorem registry_commands_safe l s : registry_ok s -> handler_id s + Z.of_nat (length l) < 2 ^ 32 ->
  Forall terminated l -> runs (run_all l) s (fun _ s' => registry_ok s').
Proof.
  revert s. induction l as [|c l IH]; intros s Hok Hid Hl; [done|]. inversion_clear Hl as [|? ? Hc Hl'].
  cbn [run_all]. cbn [length] in Hid. apply runs_bind. eapply runs_mono; [by apply command_safe; [|lia|]|].
  cbv beta. intros _ s' [Hok' Hid']. apply IH; [done|lia|done].
Qed.
End operations.

(** ** A sample: one shared object, which exports five functions *)

#[local] Transparent abi_symbols oh_load_plugin_functions.
Definition sample_env : Environment := {|
  getenv := fun _ => None;
  g_module_supported := true;
  g_module_build_path := fun dir n => dir +:+ "/" +:+ n +:+ ".so";
  g_module_open := fun l =>
    match last l with
    | Some (ModuleOpen p) =>
        if String.eqb p "/lib/libsimulator.so"
        then Some ["oh_open"; "oh_close"; "oh_get_event"; "oh_discover_resources"; "unrelated"] else None
    | _ => None
    end;
  abi_open := fun l => match last l with Some (AbiOpen hid _ _) => Some (1000 + hid) | _ => None end;
  abi_result := fun l => 0 |}.
Definition empty_registry : registry :=
  {| plugins := ∅; plugin_list := []; handlers := ∅; handler_list := []; handler_table := ∅;
     handler_id := 1; next_addr := 0; log := [];
     params := default_global_params "/none:/lib" "/var" "/etc/openhpi.conf" |}.
Definition sample_config : gmap string conf_value :=
  <["plugin" := ConfString "libsimulator"]> (<["password" := ConfString "secret"]>
    (<["port" := ConfBytes [ascii_of_nat 81; zero]]> ∅)).

Lemma empty_registry_ok : registry_ok empty_registry.
Proof.
  assert (Hno : forall (A : Type) (p : nat), is_Some ((∅ : gmap nat A) !! p) <-> p ∈ (@nil nat)).
  { intros A p. rewrite lookup_empty. split; [by intros []|by intros ?%not_elem_of_nil]. }
  split; [split|split| |]; cbn [plugins plugin_list handlers handler_list handler_table handler_id empty_registry];
    try apply NoDup_nil_2; try apply Hno; try lia; intros; by match goal with
    | H : ∅ !! _ = Some _ |- _ => rewrite lookup_empty in H end.
Qed.
Lemma sample_terminated : map_Forall (fun _ v => is_Some (c_string v)) sample_config.
Proof. apply (bool_decide_eq_true_1 (map_Forall _ _)). by vm_compute. Qed.

Definition state_after {A} (m : R A) (s : registry) : registry :=
  match m s with Done _ s => s | _ => s end.
(** Two handlers of the plug-in. *)
Definition sample_registry : registry :=
  state_after (run_all (H := sample_env) [Create sample_config; Create sample_config]) empty_registry.
Lemma sample_registry_ok : registry_ok sample_registry.
Proof.
  pose proof (command_safe (H := sample_env) (Create sample_config) empty_registry empty_registry_ok) as H1.
  unfold runs in H1. unfold sample_registry, state_after.
  assert (E : exists s, run_command (H := sample_env) (Create sample_config) empty_registry = Done tt s).
  { destruct (run_command _ _) as [[] s| |]; [by eexists| |]; destruct H1; (by vm_compute) || apply sample_terminated. }
  destruct E as [s E]. rewrite E in H1. destruct H1 as [Hs Hid]; [by vm_compute|apply sample_terminated|].
  pose proof (command_safe (H := sample_env) (Create sample_config) s Hs) as H2. unfold runs in H2.
  cbn [run_all]. rewrite (bind_done _ _ _ _ _ E).
  change (handler_id empty_registry) with 1 in Hid.
  assert (E2 : exists s', run_command (H := sample_env) (Create sample_config) s = Done tt s').
  { destruct (run_command _ s) as [[] s'| |]; [by eexists| |]; destruct H2; (lia || apply sample_terminated). }
  destruct E2 as [s' E2]. rewrite E2 in H2. rewrite (bind_done _ _ _ _ _ E2).
  apply H2; [lia|apply sample_terminated].
Qed.

Lemma registry_commands_safe_witness :
  runs (run_all (H := sample_env) [Create sample_config; Discover (fun _ => false); Unload (Some "libsimulator");
    Destroy 1; Unload (Some "libsimulator"); Destroy 1]) empty_registry (fun _ s => registry_ok s).
Proof.
  apply (registry_commands_safe (H := sample_env)); [apply empty_registry_ok|by vm_compute|].
  repeat (apply Forall_cons; split); try done; apply sample_terminated.
Defined.

Lemma oh_create_handler_correct_witness :
  runs (oh_create_handler (H := sample_env) (Some sample_config) true) empty_registry (fun r s' =>
    registry_ok s' /\
    (r = (SA_ERR_HPI_ERROR, 0) /\ ~ loadable (H := sample_env) empty_registry "libsimulator" /\
       the_handlers s' = the_handlers empty_registry \/
     loadable (H := sample_env) empty_registry "libsimulator" /\ exists x tail,
       r = (match hnd x with Some _ => SA_OK | None => SA_ERR_HPI_INTERNAL_ERROR end, 1) /\
       id x = 1 /\ plugin_name x = "libsimulator" /\ config x = omap c_string sample_config /\
       hnd x = abi_open (Environment := sample_env)
                 (log empty_registry ++ tail ++ [AbiOpen (id x) "libsimulator" (config x)])%list /\
       the_handlers s' = (the_handlers empty_registry ++ [x])%list)).
Proof.
  exact (oh_create_handler_correct (H := sample_env) empty_registry sample_config (ConfString "libsimulator")
    "libsimulator" empty_registry_ok eq_refl sample_terminated eq_refl eq_refl).
Defined.
Example sample_created :
  match oh_create_handler (H := sample_env) (Some sample_config) true empty_registry with
  | Done r s => (r, hnd <$> the_handlers s, length (log s))
  | _ => ((0, 0), [], 0%nat)
  end = ((SA_OK, 1), [Some 1001], 3%nat).
Proof. by vm_compute. Qed.

Lemma oh_destroy_handler_correct_witness :
  runs (oh_destroy_handler 1) sample_registry (fun rv s' =>
    (not (1 ∈ (id <$> the_handlers sample_registry)) /\ rv = -1 /\ s' = sample_registry) \/
    exists x y, x ∈ the_handlers sample_registry /\ id x = 1 /\ plugins sample_registry !! abi x = Some y /\
      rv = 0 /\ registry_ok s' /\
      the_handlers s' = filter (fun z => id z <> 1) (the_handlers sample_registry) /\
      log s' = (log sample_registry ++ close_calls x y)%list /\
      plugins s' = <[abi x := y <| handler_count ::= Z.pred |>]> (plugins sample_registry)).
Proof. exact (oh_destroy_handler_correct sample_registry 1 sample_registry_ok). Defined.

Lemma oh_discovery_correct_witness :
  oh_discovery (H := sample_env) (fun n => (n =? 1)%nat) sample_registry =
    Done SA_OK (logged [AbiDiscover 1 1001] sample_registry).
Proof.
  apply (proj2 (oh_discovery_correct (H := sample_env) sample_registry (fun n => (n =? 1)%nat) sample_registry_ok)
    1%nat eq_refl).
  - intros [|[|i]] Hi; [done|lia|lia].
  - vm_compute. lia.
Defined.
