(* ===== verification/PluginLife.v ===== *)
(** The life of a handler under many threads: the reference counts and locks of
    [openhpid/plugin.c].

    [oh_get_handler] counts a reference under the lock of the table and then
    waits for the lock of the handler.  [oh_destroy_handler] does the same,
    closes the instance of the plug-in, takes the handler out of the table and
    gives two references back, its own and that of the table; whoever finds the
    count below its limit deletes the handler.  The steps are the parts of these
    functions between which other threads run; a thread refers to one handler at
    a time, as every function of the daemon does.

    A client destroys a handler with the lock of its domain held, so that no two
    threads destroy handlers at the same time if there is one domain; the
    parameter [one_domain] of the steps says whether that is so. *)
From S2P Require Import Prelude.

(** [in_table]: the handler is in the table and the list; [live]: the structure
    is allocated; [closes]: how often its instance was closed. *)
Record object := { refcount : Z; in_table : bool; live : bool; closes : nat }.
#[export] Instance eta_object : Eta object := fun x =>
  Build_object (refcount x) (in_table x) (live x) (closes x).

Inductive kind := Get | Destroy.

(** Where a thread is: [Waiting] for the lock; [Using] the handler, whose
    functions it may call; [Closing], [Unlinking] and [Dropping] in
    [oh_destroy_handler], before each of its three parts. *)
Inductive position :=
  | Idle
  | Waiting (h : nat) (k : kind)
  | Using (h : nat)
  | Closing (h : nat)
  | Unlinking (h : nat)
  | Dropping (h : nat).

#[export] Instance kind_eq_dec : EqDecision kind.
Proof. solve_decision. Defined.
#[export] Instance position_eq_dec : EqDecision position.
Proof. solve_decision. Defined.

Definition refers (p : position) : option nat :=
  match p with
  | Idle => None
  | Waiting h _ | Using h | Closing h | Unlinking h | Dropping h => Some h
  end.
(** The thread holds the lock of the handler. *)
Definition locks (p : position) : option nat :=
  match p with Using h | Closing h | Unlinking h | Dropping h => Some h | _ => None end.
(** The thread is in [oh_destroy_handler]. *)
Definition destroys (p : position) : bool :=
  match p with Waiting _ Destroy | Closing _ | Unlinking _ | Dropping _ => true | _ => false end.

Record world := { table : gmap Z nat; objects : gmap nat object; threads : list position }.
#[export] Instance eta_world : Eta world := fun x => Build_world (table x) (objects x) (threads x).

Definition set_object (h : nat) (f : object -> object) (w : world) : world :=
  w <| objects ::= alter f h |>.
Definition move (i : nat) (p : position) (w : world) : world := w <| threads ::= <[i := p]> |>.
Definition count_of (h : nat) (w : world) : Z :=
  match objects w !! h with Some x => refcount x | None => 0 end.

Definition inc_refcount (h : nat) : world -> world := set_object h (fun x => x <| refcount ::= Z.succ |>).
Definition dec_refcount (h : nat) : world -> world := set_object h (fun x => x <| refcount ::= Z.pred |>).
Definition free_handler (h : nat) : world -> world := set_object h (fun x => x <| live := false |>).

(** [oh_release_handler]; the unlocking is that the caller moves on. *)
Definition release_handler (h : nat) (w : world) : world :=
  let w := dec_refcount h w in if count_of h w <? 0 then free_handler h w else w.
(** The end of [oh_destroy_handler]. *)
Definition drop_handler (h : nat) (w : world) : world :=
  let w := dec_refcount h w in if count_of h w <? 1 then free_handler h w else release_handler h w.

(** The entries of the table that lead to the handler are removed, as it has one. *)
Definition untable (h : nat) (w : world) : world := w <| table ::= filter (fun e => e.2 <> h) |>.

Inductive step (one_domain : bool) : world -> world -> Prop :=
  | s_create w hid h : table w !! hid = None -> objects w !! h = None ->
      step one_domain w (w <| table ::= <[hid := h]> |>
             <| objects ::= <[h := {| refcount := 0; in_table := true; live := true; closes := 0 |}]> |>)
  | s_lookup w i hid h k : threads w !! i = Some Idle -> table w !! hid = Some h ->
      (k = Destroy -> one_domain = true -> Forall (fun p => destroys p = false) (threads w)) ->
      step one_domain w (move i (Waiting h k) (inc_refcount h w))
  | s_lock w i h k : threads w !! i = Some (Waiting h k) ->
      Forall (fun p => locks p <> Some h) (threads w) ->
      step one_domain w (move i (match k with Get => Using h | Destroy => Closing h end) w)
  | s_release w i h : threads w !! i = Some (Using h) ->
      step one_domain w (move i Idle (release_handler h w))
  | s_close w i h : threads w !! i = Some (Closing h) ->
      step one_domain w (move i (Unlinking h) (set_object h (fun x => x <| closes ::= S |>) w))
  | s_unlink w i h : threads w !! i = Some (Unlinking h) ->
      step one_domain w (move i (Dropping h) (set_object h (fun x => x <| in_table := false |>)
             (untable h w)))
  | s_drop w i h : threads w !! i = Some (Dropping h) ->
      step one_domain w (move i Idle (drop_handler h w)).

(** No handlers, and [n] threads that refer to none. *)
Definition start (n : nat) : world := {| table := ∅; objects := ∅; threads := replicate n Idle |}.

Inductive reach (one_domain : bool) (n : nat) : world -> Prop :=
  | reach_init : reach one_domain n (start n)
  | reach_step w w' : reach one_domain n w -> step one_domain w w' -> reach one_domain n w'.

(** ** Counting the users of a handler *)

Definition uses (h : nat) (p : position) : nat := if decide (refers p = Some h) then 1 else 0.
Fixpoint users (h : nat) (l : list position) : nat :=
  match l with [] => 0 | p :: l => uses h p + users h l end.
#[local] Arguments uses : simpl never.

Lemma users_move h l i p q : l !! i = Some p ->
  (users h (<[i := q]> l) + uses h p = users h l + uses h q)%nat.
Proof.
  revert i. induction l as [|v l IH]; intros [|i] Hi; simpl in *; simplify_eq; [lia|].
  specialize (IH i Hi). lia.
Qed.
Lemma uses_own h p : refers p = Some h -> uses h p = 1%nat.
Proof. intros E. unfold uses. by rewrite decide_True. Qed.
Lemma uses_other h p : refers p <> Some h -> uses h p = 0%nat.
Proof. intros E. unfold uses. by rewrite decide_False. Qed.
Lemma users_refers h l i p : l !! i = Some p -> refers p = Some h -> (1 <= users h l)%nat.
Proof.
  intros Hi Hp. pose proof (users_move h l i p Idle Hi) as M. rewrite (uses_own h p Hp) in M.
  rewrite (uses_other h Idle) in M by done. lia.
Qed.
Lemma users_zero h l : (forall i p, l !! i = Some p -> refers p <> Some h) -> users h l = 0%nat.
Proof.
  induction l as [|p l IH]; intros H; [done|]. simpl.
  rewrite IH by (intros i q Hi; by apply (H (S i))). by rewrite uses_other by by apply (H 0%nat).
Qed.

Lemma moved_inv (l : list position) i p q j v : l !! i = Some p -> <[i := q]> l !! j = Some v ->
  (j = i /\ v = q) \/ (j <> i /\ l !! j = Some v).
Proof. intros _ [(-> & -> & _)|[Hne Hj]]%list_lookup_insert_Some; [by left|by right]. Qed.

(** ** The invariant *)

(** A thread destroys the handler and has not given its references back. *)
Definition dropping (w : world) (h : nat) : Prop := exists i, threads w !! i = Some (Dropping h).

Record obj_ok (w : world) (h : nat) (x : object) : Prop := {
  live_count : live x = true ->
    in_table x = true /\ refcount x = Z.of_nat (users h (threads w)) \/
    in_table x = false /\ dropping w h /\ refcount x = Z.of_nat (users h (threads w)) \/
    in_table x = false /\ ~ dropping w h /\ refcount x = Z.of_nat (users h (threads w)) - 1 /\
      (1 <= users h (threads w))%nat;
  freed : live x = false -> users h (threads w) = 0%nat /\ in_table x = false;
  tabled : in_table x = true <-> exists hid, table w !! hid = Some h;
  closed : (closes x <= 1)%nat /\
    (in_table x = true -> (forall i, threads w !! i <> Some (Unlinking h)) -> closes x = 0%nat) }.

Record world_ok (w : world) : Prop := {
  all_objects h x : objects w !! h = Some x -> obj_ok w h x;
  known i p h : threads w !! i = Some p -> refers p = Some h -> is_Some (objects w !! h);
  table_known hid h : table w !! hid = Some h -> is_Some (objects w !! h);
  exclusive i j p q h : threads w !! i = Some p -> threads w !! j = Some q ->
    locks p = Some h -> locks q = Some h -> i = j;
  one_destroyer i j p q : threads w !! i = Some p -> threads w !! j = Some q ->
    destroys p = true -> destroys q = true -> i = j;
  stage i p h x : threads w !! i = Some p -> destroys p = true -> refers p = Some h ->
    objects w !! h = Some x -> in_table x = bool_decide (p <> Dropping h) }.

Lemma locks_refers p h : locks p = Some h -> refers p = Some h.
Proof. by destruct p. Qed.

(** A thread [i] moves from [p] to [q], which refer to no other handler than [h],
    which becomes [y]. *)
Lemma world_ok_update w w' i p q h x y :
  world_ok w -> threads w !! i = Some p -> objects w !! h = Some x ->
  threads w' = <[i := q]> (threads w) -> objects w' = <[h := y]> (objects w) ->
  (forall k, refers p = Some k -> k = h) -> (forall k, refers q = Some k -> k = h) ->
  (forall k, k <> h -> (exists hid, table w' !! hid = Some k) <-> exists hid, table w !! hid = Some k) ->
  (forall hid k, table w' !! hid = Some k -> is_Some (objects w !! k)) ->
  (forall j r, j <> i -> threads w !! j = Some r -> locks q = Some h -> locks r <> Some h) ->
  (forall j r, j <> i -> threads w !! j = Some r -> destroys q = true -> destroys r = false) ->
  (destroys q = true -> in_table y = bool_decide (q <> Dropping h)) ->
  (forall j r, j <> i -> threads w !! j = Some r -> destroys r = true -> refers r = Some h -> in_table y = in_table x) ->
  obj_ok w' h y -> world_ok w'.
Proof.
  intros Hw Hp Hx Eth Eob Rp Rq Tk Tl Lq Dq Sq Sy Hy.
  assert (Hsome : forall k, is_Some (objects w !! k) -> is_Some (objects w' !! k)).
  { intros k. rewrite Eob, lookup_insert_is_Some'. by right. }
  assert (Hother : forall k r, k <> h -> refers r = Some k -> forall j,
    threads w' !! j = Some r <-> threads w !! j = Some r).
  { intros k r Hk Hr j. rewrite Eth. destruct (decide (j = i)) as [->|Hj].
    - rewrite list_lookup_insert_eq by by eapply lookup_lt_Some. rewrite Hp.
      split; intros [= ->]; destruct Hk; auto.
    - by rewrite list_lookup_insert_ne. }
  split.
  - intros k z Hz. rewrite Eob in Hz. apply lookup_insert_Some in Hz as [[<- <-]|[Hk Hz]]; [done|].
    apply not_eq_sym in Hk. destruct (all_objects _ Hw _ _ Hz) as [H1 H2 H3 H4].
    assert (Hu : users k (threads w') = users k (threads w)).
    { rewrite Eth. pose proof (users_move k _ i p q Hp) as M. unfold uses in M.
      rewrite decide_False in M by (intros E; by apply Hk, Rp). rewrite decide_False in M by (intros E; by apply Hk, Rq). lia. }
    assert (Hd : dropping w' k <-> dropping w k).
    { unfold dropping. split; intros [j Hj]; exists j; by apply (Hother k (Dropping k)) in Hj || apply (Hother k (Dropping k)). }
    split; rewrite ?Hu, ?Hd, ?(Tk _ Hk); try done. destruct H4 as [H4 H5]. split; [done|].
    intros Hin Hno. apply H5; [done|]. intros j Hj. apply (Hno j). by apply (Hother k (Unlinking k)).
  - intros j r k Hj Hr. apply Hsome. rewrite Eth in Hj. apply (moved_inv _ _ p) in Hj as [[-> ->]|[_ Hj]]; [|by eapply known|done].
    rewrite (Rq k Hr). by eexists.
  - intros hid k Hk. apply Hsome. by eapply Tl.
  - intros j j' r r' k Hj Hj' Hr Hr'. rewrite Eth in Hj, Hj'.
    apply (moved_inv _ _ p) in Hj as [[-> ->]|[Hji Hj]]; [|..|done];
      apply (moved_inv _ _ p) in Hj' as [[-> ->]|[Hji' Hj']]; try done.
    + assert (k = h) as -> by by apply Rq, locks_refers. by destruct (Lq j' r' Hji' Hj' Hr).
    + assert (k = h) as -> by by apply Rq, locks_refers. by destruct (Lq j r Hji Hj Hr').
    + by eapply (exclusive w).
  - intros j j' r r' Hj Hj' Hr Hr'. rewrite Eth in Hj, Hj'.
    apply (moved_inv _ _ p) in Hj as [[-> ->]|[Hji Hj]]; [|..|done];
      apply (moved_inv _ _ p) in Hj' as [[-> ->]|[Hji' Hj']]; try done.
    + rewrite (Dq j' r' Hji' Hj' Hr) in Hr'. done.
    + rewrite (Dq j r Hji Hj Hr') in Hr. done.
    + by eapply (one_destroyer w).
  - intros j r k z Hj Hr Hk Hz. rewrite Eth in Hj. rewrite Eob in Hz.
    apply (moved_inv _ _ p) in Hj as [[-> ->]|[Hji Hj]]; [| |done].
    + pose proof (Rq k Hk) as ->. rewrite lookup_insert_eq in Hz. injection Hz as <-. auto.
    + apply lookup_insert_Some in Hz as [[<- <-]|[Hkh Hz]]; [|by eapply (stage w)].
      rewrite (Sy j r Hji Hj Hr Hk). by eapply (stage w).
Qed.

(** *** The steps *)

Lemma set_object_eq h f w x : objects w !! h = Some x -> objects (set_object h f w) = <[h := f x]> (objects w).
Proof.
  intros E. apply map_eq. intros k. unfold set_object. cbn. destruct (decide (k = h)) as [->|].
  - by rewrite lookup_alter_eq, E, lookup_insert_eq.
  - by rewrite lookup_alter_ne, lookup_insert_ne.
Qed.
Lemma count_of_eq h w x : objects w !! h = Some x -> count_of h w = refcount x.
Proof. unfold count_of. by intros ->. Qed.

Definition released (x : object) : object :=
  x <| refcount ::= Z.pred |> <| live ::= fun b => if Z.pred (refcount x) <? 0 then false else b |>.
Lemma release_eq h w x : objects w !! h = Some x ->
  objects (release_handler h w) = <[h := released x]> (objects w) /\
  table (release_handler h w) = table w /\ threads (release_handler h w) = threads w.
Proof.
  intros E. unfold release_handler, dec_refcount, free_handler.
  set (w1 := set_object h _ w).
  assert (E1 : objects w1 = <[h := x <| refcount ::= Z.pred |>]> (objects w)) by by apply set_object_eq.
  assert (E2 : objects w1 !! h = Some (x <| refcount ::= Z.pred |>)) by by rewrite E1, lookup_insert_eq.
  rewrite (count_of_eq _ _ _ E2). cbn [refcount set_field]. unfold released. destruct (_ <? 0).
  - by rewrite (set_object_eq _ _ _ _ E2), E1, insert_insert_eq.
  - rewrite E1. by destruct x.
Qed.
Definition dropped (x : object) : object :=
  if Z.pred (refcount x) <? 1 then x <| refcount ::= Z.pred |> <| live := false |>
  else released (x <| refcount ::= Z.pred |>).
Lemma drop_eq h w x : objects w !! h = Some x ->
  objects (drop_handler h w) = <[h := dropped x]> (objects w) /\
  table (drop_handler h w) = table w /\ threads (drop_handler h w) = threads w.
Proof.
  intros E. unfold drop_handler, free_handler, dropped. set (w1 := dec_refcount h w).
  assert (E1 : objects w1 = <[h := x <| refcount ::= Z.pred |>]> (objects w)) by by apply set_object_eq.
  assert (E2 : objects w1 !! h = Some (x <| refcount ::= Z.pred |>)) by by rewrite E1, lookup_insert_eq.
  rewrite (count_of_eq _ _ _ E2). change (refcount (x <| refcount ::= Z.pred |>)) with (Z.pred (refcount x)).
  destruct (_ <? 1).
  - by rewrite (set_object_eq _ _ _ _ E2), E1, insert_insert_eq.
  - destruct (release_eq h w1 _ E2) as (-> & -> & ->). by rewrite E1, insert_insert_eq.
Qed.

Lemma thread_object w i p h : world_ok w -> threads w !! i = Some p -> refers p = Some h ->
  exists x, objects w !! h = Some x /\ live x = true /\ (1 <= users h (threads w))%nat.
Proof.
  intros Hw Hp Hr. destruct (known _ Hw _ _ _ Hp Hr) as [x Hx]. exists x. split; [done|].
  pose proof (users_refers _ _ _ _ Hp Hr). split; [|done].
  destruct (live x) eqn:E; [done|]. destruct (freed _ _ _ (all_objects _ Hw _ _ Hx) E). lia.
Qed.

(** Who is at a position of the destroyer after a move. *)
Lemma at_moved (l : list position) i p q r : l !! i = Some p -> p <> r -> q <> r ->
  (exists j, <[i := q]> l !! j = Some r) <-> exists j, l !! j = Some r.
Proof.
  intros Hp Hpr Hqr. split; intros [j Hj]; exists j.
  - apply (moved_inv _ _ p) in Hj as [[_ ->]|[_ Hj]]; done.
  - rewrite list_lookup_insert_ne; [done|]. intros <-. congruence.
Qed.
Lemma not_at_moved (l : list position) i p q r : l !! i = Some p -> p <> r ->
  (forall j, <[i := q]> l !! j <> Some r) -> forall j, l !! j <> Some r.
Proof.
  intros Hp Hpr H j Hj. apply (H j). rewrite list_lookup_insert_ne; [done|]. intros <-. congruence.
Qed.

Lemma ok_create w hid h : world_ok w -> table w !! hid = None -> objects w !! h = None ->
  world_ok (w <| table ::= <[hid := h]> |>
     <| objects ::= <[h := {| refcount := 0; in_table := true; live := true; closes := 0 |}]> |>).
Proof.
  intros Hw Ht Ho.
  assert (Hno : forall i p, threads w !! i = Some p -> refers p <> Some h).
  { intros i p Hp Hr. destruct (known _ Hw _ _ _ Hp Hr) as [x Hx]. congruence. }
  split; unfold set_field; cbn [table objects threads].
  - intros k x Hx. apply lookup_insert_Some in Hx as [[<- <-]|[Hk Hx]].
    + split; cbn [in_table live refcount closes threads table]; try done.
      * intros _. left. split; [done|]. change (0 = Z.of_nat (users h (threads w))). by rewrite users_zero.
      * split; [|done]. intros _. exists hid. apply lookup_insert_eq.
      * split; [lia|done].
    + destruct (all_objects _ Hw _ _ Hx) as [H1 H2 H3 H4]. split; try done. rewrite H3.
      split; intros [j Hj]; exists j; cbn [table] in *.
      * rewrite lookup_insert_ne; [done|]. intros <-. congruence.
      * apply lookup_insert_Some in Hj as [[_ E]|[_ Hj]]; [by destruct Hk|done].
  - intros i p k Hp Hr. rewrite lookup_insert_is_Some'. right. by eapply known.
  - intros j k Hk. rewrite lookup_insert_is_Some'.
    apply lookup_insert_Some in Hk as [[_ <-]|[_ Hk]]; [by left|right; by eapply table_known].
  - apply (exclusive _ Hw).
  - apply (one_destroyer _ Hw).
  - intros i p k x Hp Hd Hr Hx. apply lookup_insert_Some in Hx as [[<- _]|[_ Hx]]; [by destruct (Hno i p Hp)|].
    by eapply stage.
Qed.

Lemma ok_lookup w i hid h k : world_ok w -> threads w !! i = Some Idle -> table w !! hid = Some h ->
  (k = Destroy -> Forall (fun p => destroys p = false) (threads w)) ->
  world_ok (move i (Waiting h k) (inc_refcount h w)).
Proof.
  intros Hw Hp Ht Hd. destruct (table_known _ Hw _ _ Ht) as [x Hx].
  destruct (all_objects _ Hw _ _ Hx) as [H1 H2 H3 H4].
  assert (Hin : in_table x = true) by (apply H3; by eexists).
  assert (Hl : live x = true) by (destruct (live x); [done|]; destruct (H2 eq_refl); congruence).
  rewrite Forall_lookup in Hd.
  apply (world_ok_update w _ i Idle (Waiting h k) h x (x <| refcount ::= Z.succ |>)); try done.
  - by apply set_object_eq.
  - by intros k' [= ->].
  - intros hid' k' Hk'. by eapply (table_known w).
  - intros j r Hj Hr Hk. destruct k; [done|]. by eapply Hd.
  - split; unfold move, inc_refcount, set_object, set_field; cbn [live in_table refcount closes threads table].
    + intros _. left. split; [done|]. destruct (H1 Hl) as [[_ E]|[[E _]|[E _]]]; [|congruence..].
      pose proof (users_move h _ i Idle (Waiting h k) Hp) as M.
      rewrite (uses_own h (Waiting h k)), (uses_other h Idle) in M by done. rewrite E. lia.
    + congruence.
    + done.
    + destruct H4 as [H4 H5]. split; [done|]. intros _ Hno. apply H5; [done|].
      by apply (not_at_moved _ i Idle (Waiting h k)).
Qed.

Lemma ok_lock w i h k : world_ok w -> threads w !! i = Some (Waiting h k) ->
  Forall (fun p => locks p <> Some h) (threads w) ->
  world_ok (move i (match k with Get => Using h | Destroy => Closing h end) w).
Proof.
  intros Hw Hp Hl. rewrite Forall_lookup in Hl.
  destruct (thread_object w i _ h Hw Hp eq_refl) as (x & Hx & Hlive & Hu).
  destruct (all_objects _ Hw _ _ Hx) as [H1 H2 H3 H4].
  set (q := match k with Get => Using h | Destroy => Closing h end).
  assert (Rq : refers q = Some h) by by destruct k.
  assert (Hus : users h (<[i := q]> (threads w)) = users h (threads w)).
  { pose proof (users_move h _ i _ q Hp) as M. rewrite !uses_own in M by done. lia. }
  apply (world_ok_update w _ i (Waiting h k) q h x x); try done.
  - symmetry. by apply insert_id.
  - by intros k' [= ->].
  - intros k' E. congruence.
  - intros hid k'. by apply (table_known w).
  - intros j r _ Hr _. by eapply Hl.
  - intros j r Hj Hr Hd. destruct (destroys r) eqn:Er; [|done]. destruct Hj.
    eapply (one_destroyer w); [done|exact Hr|exact Hp|done|]. by destruct k.
  - intros Hd. rewrite (stage _ Hw i _ h x Hp); [|by destruct k|done|done].
    destruct k; [done|]. by rewrite !bool_decide_true.
  - split; unfold move, set_field; cbn [threads table]; rewrite ?Hus; try done.
    + assert (Hdr : dropping (move i q w) h <-> dropping w h).
      { apply (at_moved _ i (Waiting h k)); [done..|by destruct k]. }
      by rewrite Hdr.
    + destruct H4 as [H4 H5]. split; [done|]. intros Hi Hno. apply H5; [done|].
      by apply (not_at_moved _ i (Waiting h k) q).
Qed.

Lemma ok_release w i h : world_ok w -> threads w !! i = Some (Using h) ->
  world_ok (move i Idle (release_handler h w)).
Proof.
  intros Hw Hp. destruct (thread_object w i _ h Hw Hp eq_refl) as (x & Hx & Hlive & Hu).
  destruct (all_objects _ Hw _ _ Hx) as [H1 H2 H3 H4]. destruct (release_eq h w x Hx) as (E1 & E2 & E3).
  assert (Hus : (users h (<[i := Idle]> (threads w)) + 1 = users h (threads w))%nat).
  { pose proof (users_move h _ i _ Idle Hp) as M. rewrite (uses_own h (Using h)), (uses_other h Idle) in M by done. lia. }
  assert (Hnd : ~ dropping w h).
  { intros [j Hj]. assert (j = i) as -> by by eapply (exclusive w). congruence. }
  apply (world_ok_update w _ i (Using h) Idle h x (released x)); try done.
  - cbn. by rewrite E3.
  - by intros k [= ->].
  - intros k _. cbn. by rewrite E2.
  - intros hid k. cbn. rewrite E2. by apply (table_known w).
  - assert (Hdr : dropping (move i Idle (release_handler h w)) h <-> dropping w h).
    { unfold dropping. cbn. rewrite E3. by apply (at_moved _ i (Using h)). }
    split; rewrite ?Hdr; unfold move, set_field; cbn [threads table]; rewrite ?E2, ?E3.
    + cbn. destruct (Z.ltb_spec (Z.pred (refcount x)) 0); [done|]. intros _.
      destruct (H1 Hlive) as [[Hi E]|[(_ & ? & _)|(Hi & _ & E & _)]]; [left|done|right; right]; split_and!; auto; lia.
    + cbn. destruct (Z.ltb_spec (Z.pred (refcount x)) 0) as [Hneg|]; [|congruence]. intros _.
      destruct (H1 Hlive) as [[Hi E]|[(_ & ? & _)|(Hi & _ & E & _)]]; [lia|done|]. split; [lia|done].
    + done.
    + cbn. destruct H4 as [H4 H5]. split; [done|]. intros Hi Hno. apply H5; [done|].
      by apply (not_at_moved _ i (Using h) Idle).
Qed.

Lemma same_users w i p q h : threads w !! i = Some p -> refers p = Some h -> refers q = Some h ->
  users h (<[i := q]> (threads w)) = users h (threads w).
Proof.
  intros Hp Rp Rq. pose proof (users_move h _ i _ q Hp) as M. rewrite !uses_own in M by done. lia.
Qed.
Lemma no_other_destroyer w i p : world_ok w -> threads w !! i = Some p -> destroys p = true ->
  forall j r, j <> i -> threads w !! j = Some r -> destroys r = false.
Proof.
  intros Hw Hp Hd j r Hj Hr. destruct (destroys r) eqn:Er; [|done]. destruct Hj. by eapply (one_destroyer w).
Qed.
Lemma no_other_lock w i p h : world_ok w -> threads w !! i = Some p -> locks p = Some h ->
  forall j r, j <> i -> threads w !! j = Some r -> locks r <> Some h.
Proof. intros Hw Hp Hl j r Hj Hr El. destruct Hj. by eapply (exclusive w). Qed.

Lemma ok_close w i h : world_ok w -> threads w !! i = Some (Closing h) ->
  world_ok (move i (Unlinking h) (set_object h (fun x => x <| closes ::= S |>) w)).
Proof.
  intros Hw Hp. destruct (thread_object w i _ h Hw Hp eq_refl) as (x & Hx & Hlive & Hu).
  destruct (all_objects _ Hw _ _ Hx) as [H1 H2 H3 [H4 H5]].
  pose proof (stage _ Hw _ _ _ _ Hp eq_refl eq_refl Hx) as Hin. rewrite bool_decide_true in Hin by done.
  pose proof (no_other_destroyer w i _ Hw Hp eq_refl) as Hd.
  assert (Hno : forall j, threads w !! j <> Some (Unlinking h)).
  { intros j Hj. destruct (decide (j = i)) as [->|Hji]; [congruence|]. by specialize (Hd j _ Hji Hj). }
  apply (world_ok_update w _ i (Closing h) (Unlinking h) h x (x <| closes ::= S |>)); try done.
  - by apply set_object_eq.
  - by intros k [= ->].
  - by intros k [= ->].
  - intros hid k. by apply (table_known w).
  - intros j r Hj Hr _. exact (no_other_lock w i _ h Hw Hp eq_refl j r Hj Hr).
  - intros j r Hj Hr _. exact (Hd j r Hj Hr).
  - split; unfold move, set_object, set_field; cbn [threads table live in_table refcount closes];
      rewrite ?(same_users w i _ (Unlinking h) h Hp eq_refl eq_refl); try done.
    + intros _. left. split; [done|]. destruct (H1 Hlive) as [[_ E]|[[E _]|[E _]]]; [done|congruence..].
    + specialize (H5 Hin Hno). split; [lia|]. intros _ Hn. destruct (Hn i).
      apply list_lookup_insert_eq. by eapply lookup_lt_Some.
Qed.

Lemma ok_unlink w i h : world_ok w -> threads w !! i = Some (Unlinking h) ->
  world_ok (move i (Dropping h) (set_object h (fun x => x <| in_table := false |>)
    (untable h w))).
Proof.
  intros Hw Hp. destruct (thread_object w i _ h Hw Hp eq_refl) as (x & Hx & Hlive & Hu).
  destruct (all_objects _ Hw _ _ Hx) as [H1 H2 H3 [H4 H5]].
  pose proof (stage _ Hw _ _ _ _ Hp eq_refl eq_refl Hx) as Hin. rewrite bool_decide_true in Hin by done.
  pose proof (no_other_destroyer w i _ Hw Hp eq_refl) as Hd.
  apply (world_ok_update w _ i (Unlinking h) (Dropping h) h x (x <| in_table := false |>)); try done.
  - exact (set_object_eq h (fun x => x <| in_table := false |>) (untable h w) x Hx).
  - by intros k [= ->].
  - by intros k [= ->].
  - intros k Hk. unfold move, set_object, untable, set_field. cbn [table]. split; intros [hid Hhid]; exists hid.
    + by apply map_lookup_filter_Some in Hhid as [Hhid _].
    + by apply map_lookup_filter_Some.
  - intros hid k Hk. apply map_lookup_filter_Some in Hk as [Hk _]. by eapply (table_known w).
  - intros j r Hj Hr _. exact (no_other_lock w i _ h Hw Hp eq_refl j r Hj Hr).
  - intros j r Hj Hr _. exact (Hd j r Hj Hr).
  - intros _. by rewrite bool_decide_false by by intros [].
  - intros j r Hj Hr Er _. by rewrite (Hd j r Hj Hr) in Er.
  - split; unfold move, set_object, untable, set_field; cbn [threads table live in_table refcount closes];
      rewrite ?(same_users w i _ (Dropping h) h Hp eq_refl eq_refl).
    + intros _. right. left. destruct (H1 Hlive) as [[_ E]|[[E _]|[E _]]]; [|congruence..].
      split_and!; [done| |done]. exists i. apply list_lookup_insert_eq. by eapply lookup_lt_Some.
    + congruence.
    + split; [done|]. intros [hid Hhid]. by apply map_lookup_filter_Some in Hhid as [_ Hne].
    + done.
Qed.

Lemma ok_drop w i h : world_ok w -> threads w !! i = Some (Dropping h) ->
  world_ok (move i Idle (drop_handler h w)).
Proof.
  intros Hw Hp. destruct (thread_object w i _ h Hw Hp eq_refl) as (x & Hx & Hlive & Hu).
  destruct (all_objects _ Hw _ _ Hx) as [H1 H2 H3 [H4 H5]]. destruct (drop_eq h w x Hx) as (E1 & E2 & E3).
  pose proof (stage _ Hw _ _ _ _ Hp eq_refl eq_refl Hx) as Hin. rewrite bool_decide_false in Hin by by intros [].
  pose proof (no_other_destroyer w i _ Hw Hp eq_refl) as Hd.
  assert (Hus : (users h (<[i := Idle]> (threads w)) + 1 = users h (threads w))%nat).
  { pose proof (users_move h _ i _ Idle Hp) as M. rewrite (uses_own h (Dropping h)), (uses_other h Idle) in M by done. lia. }
  assert (Hdr : dropping w h) by by exists i.
  assert (Hc : refcount x = Z.of_nat (users h (threads w))).
  { destruct (H1 Hlive) as [[E _]|[(_ & _ & E)|(_ & E & _)]]; [congruence|done|done]. }
  assert (Hid : in_table (dropped x) = false /\ closes (dropped x) = closes x).
  { unfold dropped. by destruct (_ <? 1). }
  destruct Hid as [Hid Hcd].
  apply (world_ok_update w _ i (Dropping h) Idle h x (dropped x)); try done.
  - cbn. by rewrite E3.
  - by intros k [= ->].
  - intros k _. cbn. by rewrite E2.
  - intros hid k. cbn. rewrite E2. by apply (table_known w).
  - intros j r Hj Hr Er _. by rewrite (Hd j r Hj Hr) in Er.
  - assert (Hnd : forall w', threads w' = <[i := Idle]> (threads w) -> ~ dropping w' h).
    { intros w' Ew [j Hj]. rewrite Ew in Hj. apply (moved_inv _ _ (Dropping h)) in Hj as [[_ Hj]|[Hji Hj]]; [done| |done].
      by specialize (Hd j _ Hji Hj). }
    split; rewrite ?Hid, ?Hcd; unfold move, set_field; cbn [threads table]; rewrite ?E2, ?E3.
    + unfold dropped. destruct (Z.ltb_spec (Z.pred (refcount x)) 1); [done|]. intros _. right. right.
      cbn. split_and!; [done|by apply Hnd|lia|lia].
    + unfold dropped. destruct (Z.ltb_spec (Z.pred (refcount x)) 1); [intros _; split; [lia|done]|].
      cbn. destruct (Z.ltb_spec (Z.pred (Z.pred (refcount x))) 0); [lia|congruence].
    + split; [done|]. intros Hex. apply H3 in Hex. congruence.
    + done.
Qed.

Lemma reach_ok n w : reach true n w -> world_ok w.
Proof.
  induction 1 as [|w w' _ IH Hs].
  - split; cbn; try (by intros; rewrite lookup_empty in *).
    all: try by intros * (-> & _)%lookup_replicate.
    all: by intros * (-> & _)%lookup_replicate (-> & _)%lookup_replicate.
  - destruct Hs.
    + by apply ok_create.
    + apply (ok_lookup _ _ hid); auto.
    + by apply ok_lock.
    + by apply ok_release.
    + by apply ok_close.
    + by apply ok_unlink.
    + by apply ok_drop.
Qed.

(** C23: The life of a handler, with the lock of the one domain: under any
    interleaving of any number of threads, a handler that a thread refers to or
    that is in the table is allocated; at most one thread is inside its lock;
    its instance is closed at most once, and not while it is in the table unless
    a thread is just about to take it out; and a handler that is neither in the
    table nor referred to has been freed. *)
Theorem handler_references_safe n w : reach true n w ->
  (forall i p h, threads w !! i = Some p -> refers p = Some h ->
     exists x, objects w !! h = Some x /\ live x = true) /\
  (forall hid h, table w !! hid = Some h -> exists x, objects w !! h = Some x /\ live x = true) /\
  (forall i j p q h, threads w !! i = Some p -> threads w !! j = Some q ->
     locks p = Some h -> locks q = Some h -> i = j) /\
  (forall h x, objects w !! h = Some x -> (closes x <= 1)%nat) /\
  (forall h x, objects w !! h = Some x -> in_table x = true ->
     (forall i, threads w !! i <> Some (Unlinking h)) -> closes x = 0%nat) /\
  (forall h x, objects w !! h = Some x -> in_table x = false ->
     (forall i p, threads w !! i = Some p -> refers p <> Some h) -> live x = false).
Proof.
  intros Hw%reach_ok. split_and!.
  - intros i p h Hp Hr. destruct (thread_object w i p h Hw Hp Hr) as (x & ? & ? & _). by exists x.
  - intros hid h Ht. destruct (table_known _ Hw _ _ Ht) as [x Hx]. exists x. split; [done|].
    destruct (all_objects _ Hw _ _ Hx) as [_ H2 H3 _]. destruct (live x); [done|].
    destruct (H2 eq_refl) as [_ E]. rewrite (proj2 H3) in E; [done|by exists hid].
  - apply (exclusive _ Hw).
  - intros h x Hx. apply (closed _ _ _ (all_objects _ Hw _ _ Hx)).
  - intros h x Hx. apply (closed _ _ _ (all_objects _ Hw _ _ Hx)).
  - intros h x Hx Hin Hno. destruct (all_objects _ Hw _ _ Hx) as [H1 _ _ _].
    pose proof (users_zero h (threads w) Hno) as Hz. destruct (live x); [|done].
    destruct (H1 eq_refl) as [[E _]|[(_ & (i & Hi) & _)|(_ & _ & _ & E)]]; [congruence| |lia].
    by destruct (Hno i (Dropping h) Hi).
Qed.

(** ** Traces *)

(** A step of a trace: which thread moves, and the handler where it looks one up. *)
Inductive action := Create (hid : Z) (h : nat) | Lookup (i : nat) (hid : Z) (k : kind) | Next (i : nat).
Definition act (one_domain : bool) (a : action) (w : world) : option world :=
  match a with
  | Create hid h =>
      match table w !! hid, objects w !! h with
      | None, None => Some (w <| table ::= <[hid := h]> |>
          <| objects ::= <[h := {| refcount := 0; in_table := true; live := true; closes := 0 |}]> |>)
      | _, _ => None
      end
  | Lookup i hid k =>
      match threads w !! i, table w !! hid with
      | Some Idle, Some h =>
          if decide (k = Destroy -> one_domain = true -> Forall (fun p => destroys p = false) (threads w))
          then Some (move i (Waiting h k) (inc_refcount h w)) else None
      | _, _ => None
      end
  | Next i =>
      match threads w !! i with
      | Some (Waiting h k) =>
          if decide (Forall (fun p => locks p <> Some h) (threads w))
          then Some (move i (match k with Get => Using h | Destroy => Closing h end) w) else None
      | Some (Using h) => Some (move i Idle (release_handler h w))
      | Some (Closing h) => Some (move i (Unlinking h) (set_object h (fun x => x <| closes ::= S |>) w))
      | Some (Unlinking h) => Some (move i (Dropping h) (set_object h (fun x => x <| in_table := false |>)
             (untable h w)))
      | Some (Dropping h) => Some (move i Idle (drop_handler h w))
      | _ => None
      end
  end.
Lemma act_step b a w w' : act b a w = Some w' -> step b w w'.
Proof.
  destruct a as [hid h|i hid k|i]; cbn [act].
  - destruct (table w !! hid) eqn:?, (objects w !! h) eqn:?; intros [= <-]. by constructor.
  - destruct (threads w !! i) as [[]|] eqn:?; try done. destruct (table w !! hid) eqn:?; [|done].
    destruct (decide _); intros [= <-]. by econstructor.
  - destruct (threads w !! i) as [[]|] eqn:?; try done; try (intros [= <-]; by constructor).
    destruct (decide _); intros [= <-]. by constructor.
Qed.
Fixpoint trace (b : bool) (l : list action) (w : world) : option world :=
  match l with [] => Some w | a :: l => match act b a w with Some w => trace b l w | None => None end end.
Lemma trace_reach b n l w w' : reach b n w -> trace b l w = Some w' -> reach b n w'.
Proof.
  revert w. induction l as [|a l IH]; cbn [trace]; intros w Hw E; [by simplify_eq|].
  destruct (act b a w) as [w1|] eqn:Ea; [|done]. apply (IH w1); [|done]. eapply reach_step; [done|by eapply act_step].
Qed.
Lemma trace_start b n l w : trace b l (start n) = Some w -> reach b n w.
Proof. apply trace_reach. constructor. Qed.

(** Thread 0 waits for the handler that thread 1 destroys. *)
Definition destroyed_while_waited : list action :=
  [Create 1 0; Lookup 0 1 Get; Lookup 1 1 Destroy; Next 1; Next 1; Next 1; Next 1].

Lemma handler_references_safe_witness : exists w x,
  trace true (destroyed_while_waited ++ [Next 0; Next 0])%list (start 2) = Some w /\
  objects w !! 0%nat = Some x /\ in_table x = false /\ live x = false.
Proof.
  destruct (trace true (destroyed_while_waited ++ [Next 0; Next 0])%list (start 2)) as [w|] eqn:E; [|by vm_compute in E].
  pose proof (handler_references_safe 2 w (trace_start _ _ _ _ E)) as (_ & _ & _ & _ & _ & H).
  vm_compute in E. injection E as <-. eexists _, _. split; [done|]. split; [done|]. split; [done|].
  eapply (H 0%nat); [done..|]. intros [|[|i]] p [= <-]; done.
Defined.

(** The lock does not keep a waiting thread from the closed instance: the thread
    gets the handler, whose [hnd] is not cleared, and calls the plug-in with it. *)
Lemma closed_handler_used : exists w x,
  reach true 2 w /\ threads w !! 0%nat = Some (Using 0) /\ objects w !! 0%nat = Some x /\
  closes x = 1%nat /\ in_table x = false.
Proof.
  destruct (trace true (destroyed_while_waited ++ [Next 0])%list (start 2)) as [w|] eqn:E; [|by vm_compute in E].
  eexists _, _. split; [exact (trace_start _ _ _ _ E)|]. vm_compute in E. by injection E as <-.
Qed.

(** Two clients of different domains destroy a handler that a third thread waits
    for: the second to drop it frees it, and the third still refers to it. *)
Definition destroyed_twice : list action :=
  [Create 1 0; Lookup 0 1 Get; Lookup 1 1 Destroy; Lookup 2 1 Destroy;
   Next 1; Next 1; Next 1; Next 1; Next 2; Next 2; Next 2; Next 2].
Lemma handler_freed_while_referred : exists w x,
  reach false 3 w /\ threads w !! 0%nat = Some (Waiting 0 Get) /\ objects w !! 0%nat = Some x /\
  closes x = 2%nat /\ live x = false.
Proof.
  destruct (trace false destroyed_twice (start 3)) as [w|] eqn:E; [|by vm_compute in E].
  eexists _, _. split; [exact (trace_start _ _ _ _ E)|]. vm_compute in E. by injection E as <-.
Qed.
