(* ===== verification/Threads.v ===== *)
(** The discovery thread of the daemon and the threads that wake it:
    [openhpid/threaded.c].

    [discovery_func] holds [discovery_lock] except while it sleeps.
    [oh_wake_discovery_thread], which [saHpiDiscover] calls, signals the condition
    variable that the thread sleeps on and then waits on the same condition
    variable for the end of a round; [oh_threaded_stop] ends the thread.  What a
    caller does between taking the lock and waiting or releasing it happens while
    no other thread can do anything that depends on the lock, so it is one step,
    and the lock is held between steps by the discovery thread alone.

    A waiting thread is woken by a broadcast; [spurious] says whether it may also
    return by itself, as GLib allows.  [one_waker] restricts the steps to one
    waking thread at a time. *)
From S2P Require Import Prelude.

(** Where [discovery_func] is. *)
Inductive discovery_pos :=
  | Begin     (* before it takes the lock *)
  | Testing   (* at the condition of the loop *)
  | Round     (* in [oh_discovery] *)
  | Rounded   (* before the broadcast *)
  | Checking  (* at the test after the broadcast *)
  | Sleeping
  | Woken     (* before it has the lock again *)
  | Ending    (* before the last broadcast *)
  | Ended.
(** A thread that calls [oh_wake_discovery_thread]: outside; before the lock;
    waiting; woken, before it has the lock again; returned.  The number is that of
    the rounds that had begun when it took the lock. *)
Inductive waker_pos := Outside | Locking | Waits (since : nat) | Awake (since : nat) | Returned (since : nat).
(** [oh_threaded_stop]: not called; before the discovery is woken; joining it;
    before it stores [started]; returned. *)
Inductive stopper_pos := Running | Signalled | Joining | Freed | Stopped.

#[export] Instance discovery_pos_eq_dec : EqDecision discovery_pos.
Proof. solve_decision. Defined.
#[export] Instance waker_pos_eq_dec : EqDecision waker_pos.
Proof. solve_decision. Defined.

Record tworld := {
  started : bool; signal_stop : bool; discovery : discovery_pos; wakers : list waker_pos;
  stopper : stopper_pos; begun : nat; finished : nat }.
#[export] Instance eta_tworld : Eta tworld := fun x =>
  Build_tworld (started x) (signal_stop x) (discovery x) (wakers x) (stopper x) (begun x) (finished x).

Definition locked (d : discovery_pos) : bool :=
  match d with Begin | Sleeping | Woken | Ended => false | _ => true end.
(** [g_cond_broadcast(discovery_cond)] *)
Definition wake (p : waker_pos) : waker_pos := match p with Waits n => Awake n | _ => p end.
Definition rouse (d : discovery_pos) : discovery_pos := match d with Sleeping => Woken | _ => d end.
Definition broadcast (w : tworld) : tworld :=
  w <| wakers ::= map wake |> <| discovery ::= rouse |>.

(** The next step of [discovery_func]; it may always be the end of its sleep. *)
Definition discovery_next (w : tworld) : option tworld :=
  match discovery w with
  | Begin | Woken => Some (w <| discovery := Testing |>)
  | Testing => Some (if signal_stop w then w <| discovery := Ending |>
                     else w <| discovery := Round |> <| begun ::= S |>)
  | Round => Some (w <| discovery := Rounded |> <| finished ::= S |>)
  | Rounded => Some (broadcast w <| discovery := Checking |>)
  | Checking => Some (w <| discovery := if signal_stop w then Ending else Sleeping |>)
  | Sleeping => Some (w <| discovery := Woken |>)
  | Ending => Some (broadcast w <| discovery := Ended |>)
  | Ended => None
  end.

Definition is_waiting (p : waker_pos) : bool := match p with Waits _ | Awake _ => true | _ => false end.

(** The next step of the caller [i] of [oh_wake_discovery_thread]; a caller that
    has returned may call again. *)
Definition waker_next (i : nat) (w : tworld) : option tworld :=
  match wakers w !! i with
  | Some Outside | Some (Returned _) =>
      if started w then Some (w <| wakers ::= <[i := Locking]> |>) else None
  | Some Locking =>
      if locked (discovery w) then None else
      Some (broadcast w <| wakers ::= <[i := Waits (begun w)]> |>)
  | Some (Awake n) =>
      if locked (discovery w) then None else Some (w <| wakers ::= <[i := Returned n]> |>)
  | _ => None
  end.

(** The next step of [oh_threaded_stop]; before the discovery it joins the event
    threads, which end by themselves. *)
Definition stopper_next (w : tworld) : option tworld :=
  match stopper w with
  | Running => if started w then Some (w <| signal_stop := true |> <| stopper := Signalled |>) else None
  | Signalled => if locked (discovery w) then None else Some (broadcast w <| stopper := Joining |>)
  | Joining => if decide (discovery w = Ended) then Some (w <| stopper := Freed |>) else None
  | Freed => Some (w <| started := false |> <| stopper := Stopped |>)
  | Stopped => None
  end.

Inductive tstep (one_waker spurious : bool) : tworld -> tworld -> Prop :=
  | ts_discovery w w' : discovery_next w = Some w' -> tstep one_waker spurious w w'
  | ts_waker w w' i : waker_next i w = Some w' ->
      (one_waker = true -> wakers w !! i = Some Locking -> Forall (fun p => is_waiting p = false) (wakers w)) ->
      tstep one_waker spurious w w'
  | ts_stopper w w' : stopper_next w = Some w' -> tstep one_waker spurious w w'
  | ts_spurious w i n : spurious = true -> wakers w !! i = Some (Waits n) ->
      tstep one_waker spurious w (w <| wakers ::= <[i := Awake n]> |>).

(** After [oh_threaded_start], with [n] other threads. *)
Definition tstart (n : nat) : tworld :=
  {| started := true; signal_stop := false; discovery := Begin; wakers := replicate n Outside;
     stopper := Running; begun := 0; finished := 0 |}.
Inductive treach (one_waker spurious : bool) (n : nat) : tworld -> Prop :=
  | treach_start : treach one_waker spurious n (tstart n)
  | treach_step w w' : treach one_waker spurious n w -> tstep one_waker spurious w w' ->
      treach one_waker spurious n w'.

(** ** The invariant *)

(** A round is running. *)
Definition in_round (w : tworld) : nat := match discovery w with Round => 1 | _ => 0 end.

Section Invariant.
(** [strict]: one thread at a time wakes the discovery, and a wait ends only by a
    broadcast. *)
Context (strict : bool).

(** The thread [p] waits for a round that has not ended; if [strict], it has
    waited for a round when it is woken, or the threads are being stopped. *)
Definition served (w : tworld) (p : waker_pos) : Prop :=
  match p with
  | Waits n => (n <= finished w)%nat /\ (discovery w = Rounded -> (n < finished w)%nat)
  | Awake n | Returned n => strict = true -> signal_stop w = true \/ (n < finished w)%nat
  | _ => True
  end.
Record tworld_ok (w : tworld) : Prop := {
  rounds : begun w = (finished w + in_round w)%nat;
  all_served : Forall (served w) (wakers w);
  ending : discovery w = Ending \/ discovery w = Ended -> signal_stop w = true;
  stopping : stopper w = Running \/ signal_stop w = true }.

Lemma served_wake w w' p : signal_stop w' = signal_stop w -> finished w' = finished w ->
  discovery w = Rounded \/ signal_stop w = true \/ strict = false -> served w p -> served w' (wake p).
Proof. destruct p; cbn; intros Es Ef; rewrite ?Es, ?Ef; intuition congruence. Qed.

Lemma Forall_set {A} (P Q : A -> Prop) (l : list A) i x :
  Forall P l -> (forall y, P y -> Q y) -> Q x -> Forall Q (<[i := x]> l).
Proof. intros Hl HPQ Hx. apply Forall_insert; [|done]. by eapply Forall_impl. Qed.

(** The discovery moves between positions where nobody is served. *)
Lemma discovery_ok w w' : tworld_ok w -> discovery_next w = Some w' -> tworld_ok w'.
Proof.
  intros [H1 H2 H3 H4]. unfold discovery_next, in_round in *.
  destruct (discovery w) eqn:Ed; intros [= <-]; cbn in H1.
  all: try destruct (signal_stop w) eqn:Es.
  all: split; unfold in_round; cbn -[served]; rewrite ?Ed, ?Es; cbn -[served]; auto; try lia; try (intros []; congruence); try (intuition congruence).
  all: try (eapply Forall_impl; [exact H2|]; intros []; cbn; rewrite ?Ed, ?Es; intuition (lia || done)).
  all: apply Forall_map; eapply Forall_impl; [exact H2|]; intros p Hp;
    eapply (served_wake w); [done..| |done]; rewrite ?Ed, ?Es; auto.
Qed.

Lemma wake_idle (l : list waker_pos) : Forall (fun p => is_waiting p = false) l -> map wake l = l.
Proof. induction 1 as [|p l Hp _ IH]; [done|]. cbn. rewrite IH. by destruct p. Qed.
Lemma rouse_unlocked d : locked d = false ->
  locked (rouse d) = false /\ (rouse d = Ended <-> d = Ended) /\ rouse d <> Rounded /\ rouse d <> Round /\ rouse d <> Ending.
Proof. by destruct d. Qed.
Lemma in_round_unlocked w : locked (discovery w) = false -> in_round w = 0%nat.
Proof. unfold in_round. by destruct (discovery w). Qed.

(** Changing a waker leaves the rest of the invariant. *)
Lemma tworld_ok_wakers w w' : tworld_ok w -> started w' = started w -> signal_stop w' = signal_stop w ->
  discovery w' = discovery w \/ locked (discovery w) = false /\ discovery w' = rouse (discovery w) ->
  (stopper w' = stopper w \/ signal_stop w = true) -> begun w' = begun w -> finished w' = finished w ->
  Forall (served w') (wakers w') -> tworld_ok w'.
Proof.
  intros [H1 H2 H3 H4] E1 E2 E3 E4 E5 E6 Hs. unfold in_round in *.
  split; unfold in_round; [|done|..]; rewrite ?E2, ?E5, ?E6.
  - destruct E3 as [->|[Hl ->]]; [done|]. by destruct (discovery w).
  - destruct E3 as [->|[Hl ->]]; [done|]. intros H. apply H3. by destruct (discovery w); destruct H; auto.
  - destruct E4 as [->|]; [done|by right].
Qed.

Lemma waker_ok i w w' : tworld_ok w -> waker_next i w = Some w' ->
  (strict = true -> wakers w !! i = Some Locking -> Forall (fun p => is_waiting p = false) (wakers w)) ->
  tworld_ok w'.
Proof.
  intros Hw E Hone. pose proof (all_served _ Hw) as Hs. pose proof (rounds _ Hw) as Hr. unfold waker_next in E.
  destruct (wakers w !! i) as [[| |n|n|n]|] eqn:Ei; try done.
  - destruct (started w) eqn:?; [|done]. injection E as <-.
    apply (tworld_ok_wakers w); try done; [by left..|]. by eapply Forall_set.
  - destruct (locked (discovery w)) eqn:El; [done|]. injection E as <-.
    destruct (rouse_unlocked _ El) as (_ & _ & Hnr & _).
    apply (tworld_ok_wakers w); try done; [by right|by left|]. cbn -[served].
    rewrite (in_round_unlocked _ El) in Hr.
    eapply (Forall_set (served _) (served _)); [|intros p Hp; exact Hp|cbn; split; [lia|done]].
    destruct strict eqn:Estr.
    + specialize (Hone eq_refl eq_refl). rewrite wake_idle by done.
      eapply Forall_impl; [exact (proj2 (Forall_and _ _) (conj Hs Hone))|]. intros [] [Hp ?]; done.
    + apply Forall_map. eapply Forall_impl; [exact Hs|]. intros p Hp.
      eapply (served_wake w); [done..| |done]. by right; right.
  - destruct (locked (discovery w)) eqn:El; [done|]. injection E as <-.
    apply (tworld_ok_wakers w); try done; [by left..|].
    eapply Forall_set; [exact Hs|done|]. exact (Forall_lookup_1 _ _ _ _ Hs Ei).
  - destruct (started w) eqn:?; [|done]. injection E as <-.
    apply (tworld_ok_wakers w); try done; [by left..|]. by eapply Forall_set.
Qed.

Lemma stopper_ok w w' : tworld_ok w -> stopper_next w = Some w' -> tworld_ok w'.
Proof.
  intros Hw E. pose proof (all_served _ Hw) as Hs. pose proof (stopping _ Hw) as Hst. unfold stopper_next in E.
  destruct (stopper w) eqn:Est; try done.
  - destruct (started w); [|done]. injection E as <-. destruct Hw as [H1 H2 H3 H4].
    split; cbn -[served]; auto. eapply Forall_impl; [exact Hs|]. intros []; cbn; tauto.
  - destruct (locked (discovery w)) eqn:El; [done|]. injection E as <-.
    destruct Hst as [?|Hst]; [done|]. apply (tworld_ok_wakers w); try done; [by right..|].
    cbn -[served]. apply Forall_map. eapply Forall_impl; [exact Hs|]. intros p Hp.
    eapply (served_wake w); auto.
  - destruct (decide _); [|done]. injection E as <-. destruct Hst as [?|Hst]; [done|].
    apply (tworld_ok_wakers w); try done; [by left|by right].
  - injection E as <-. destruct Hst as [?|Hst]; [done|]. destruct Hw as [H1 H2 H3 H4].
    split; cbn -[served]; auto.
Qed.

Lemma treach_ok one_waker spurious n w :
  (strict = true -> one_waker = true /\ spurious = false) -> treach one_waker spurious n w -> tworld_ok w.
Proof.
  intros Hst. induction 1 as [|w w' _ IH Hs].
  - split; cbn -[served]; auto; [|by intros []]. by apply Forall_replicate.
  - destruct Hs as [| ? ? i Hn Hone| |? i m Hsp Hi]; [by eapply discovery_ok| |by eapply stopper_ok|].
    + eapply waker_ok; [done..|]. intros E. apply Hone. by apply Hst.
    + apply (tworld_ok_wakers w); try done; [by left..|]. eapply Forall_set; [apply IH|done|].
      intros E. destruct (Hst E). congruence.
Qed.

(** [discovery_func] goes on alone for [k] steps. *)
Fixpoint discover (k : nat) (w : tworld) : option tworld :=
  match k with O => Some w | S k => discovery_next w ≫= discover k end.

Lemma woken_at (l : list waker_pos) i m : l !! i = Some (Waits m) -> map wake l !! i = Some (Awake m).
Proof. intros E. change (map wake l) with (wake <$> l). by rewrite list_lookup_fmap, E. Qed.

Lemma wake_ends w i m : tworld_ok w -> wakers w !! i = Some (Waits m) -> signal_stop w = false ->
  exists k w' w'', (k <= 7)%nat /\ discover k w = Some w' /\ waker_next i w' = Some w'' /\
    wakers w'' !! i = Some (Returned m) /\ (m < finished w'')%nat.
Proof.
  intros Hw Hi Hsig. pose proof (Forall_lookup_1 _ _ _ _ (all_served _ Hw) Hi) as [Hm Hm'].
  pose proof (ending _ Hw) as He. pose proof (woken_at _ _ _ Hi) as Ha.
  assert (Hlt : forall (q : waker_pos), <[i := q]> (map wake (wakers w)) !! i = Some q).
  { intros q. apply list_lookup_insert_eq. by eapply lookup_lt_Some. }
  destruct w as [b s d l st n f]. cbn in Hi, Hsig, Hm, Hm', He, Ha, Hlt. subst s.
  set (ends k (f' : nat) := exists w', discover k (Build_tworld b false d l st n f) = Some w' /\
    wakers w' = map wake l /\ discovery w' = Sleeping /\ finished w' = f').
  assert (Hends : forall k f', ends k f' -> (k <= 7)%nat -> (m < f')%nat ->
    exists k w' w'', (k <= 7)%nat /\ discover k (Build_tworld b false d l st n f) = Some w' /\ waker_next i w' = Some w'' /\
    wakers w'' !! i = Some (Returned m) /\ (m < finished w'')%nat).
  { intros k f' (w' & E1 & E2 & E3 & E4) Hk Hf. exists k, w', (w' <| wakers ::= <[i := Returned m]> |>).
    split; [done|]. split; [done|]. unfold waker_next. rewrite E2, Ha, E3. split; [done|]. cbn.
    rewrite E2, E4. by split. }
  destruct d.
  - apply (Hends 5 (S f))%nat; [by eexists|lia..].
  - apply (Hends 4 (S f))%nat; [by eexists|lia..].
  - apply (Hends 3 (S f))%nat; [by eexists|lia..].
  - apply (Hends 2 f)%nat; [by eexists|lia|auto].
  - apply (Hends 7 (S f))%nat; [by eexists|lia..].
  - apply (Hends 6 (S f))%nat; [by eexists|lia..].
  - apply (Hends 5 (S f))%nat; [by eexists|lia..].
  - discriminate He. by left.
  - discriminate He. by right.
Qed.

End Invariant.

(** C31: waking the discovery.  Whatever other threads do - several that call
    [oh_wake_discovery_thread] at the same time, waits that end by themselves -, a
    thread that waits in it for the discovery is woken by the discovery thread,
    going on by itself, within seven of its steps and after a complete round that
    began after the call got the lock, unless the threads are being stopped.  And
    if one thread at a time calls and waits end only by a broadcast, the function
    does not return before such a round, unless the threads are being stopped.

    The two conditions are necessary, because the wait is not in a loop that tests
    for a round: the broadcast of a second caller lets the first return
    ([second_waker_wakes_first]), and so does a spurious wake-up, which GLib
    permits ([spurious_wakeup_returns_early]).  While the threads are being stopped
    a wait may not end ([waker_left_behind]). *)
Theorem oh_wake_discovery_thread_correct one_waker spurious n w : treach one_waker spurious n w ->
  (one_waker = true -> spurious = false ->
   forall i m, wakers w !! i = Some (Returned m) -> signal_stop w = true \/ (m < finished w)%nat) /\
  (forall i m, wakers w !! i = Some (Waits m) -> signal_stop w = false ->
     exists k w' w'', (k <= 7)%nat /\ discover k w = Some w' /\ waker_next i w' = Some w'' /\
       wakers w'' !! i = Some (Returned m) /\ (m < finished w'')%nat).
Proof.
  intros Hw. split.
  - intros E1 E2 i m Hi. apply (treach_ok true) in Hw; [|done].
    exact (Forall_lookup_1 _ _ _ _ (all_served _ _ Hw) Hi eq_refl).
  - intros i m. apply (wake_ends false). by apply (treach_ok false) in Hw.
Qed.

(** ** Traces *)

Inductive turn := Discovery | Waker (i : nat) | Stopper.
Definition take_turn (one_waker : bool) (t : turn) (w : tworld) : option tworld :=
  match t with
  | Discovery => discovery_next w
  | Waker i => if decide (one_waker = true -> wakers w !! i = Some Locking -> Forall (fun p => is_waiting p = false) (wakers w))
           then waker_next i w else None
  | Stopper => stopper_next w
  end.
Fixpoint turns (one_waker : bool) (l : list turn) (w : tworld) : option tworld :=
  match l with [] => Some w | t :: l => take_turn one_waker t w ≫= turns one_waker l end.
Lemma turns_reach b n l w w' : treach b false n w -> turns b l w = Some w' -> treach b false n w'.
Proof.
  revert w. induction l as [|t l IH]; cbn [turns]; intros w Hw E; [by simplify_eq|].
  destruct (take_turn b t w) as [w1|] eqn:Et; [|done]. apply (IH w1); [|done]. eapply treach_step; [done|].
  destruct t; cbn in Et; [by constructor| |by constructor]. destruct (decide _); [|done]. by econstructor.
Qed.
Lemma turns_start b n l w : turns b l (tstart n) = Some w -> treach b false n w.
Proof. apply turns_reach. constructor. Qed.

(** More wake-ups, more traces. *)
Lemma treach_any b n w : treach b false n w -> treach b true n w.
Proof.
  induction 1 as [|w w' _ IH Hs]; [constructor|]. eapply treach_step; [exact IH|].
  destruct Hs; [by constructor|by eapply ts_waker|by constructor|done].
Qed.

Definition first_round : list turn := replicate 5 Discovery.

Lemma oh_wake_discovery_thread_correct_witness : exists w w',
  turns true (first_round ++ [Waker 0; Waker 0])%list (tstart 1) = Some w /\ wakers w !! 0%nat = Some (Waits 1) /\
  waker_next 0 w' <> None /\ exists k, discover k w = Some w'.
Proof.
  destruct (turns true (first_round ++ [Waker 0; Waker 0])%list (tstart 1)) as [w|] eqn:E; [|by vm_compute in E].
  pose proof (oh_wake_discovery_thread_correct true false 1 w (turns_start _ _ _ _ E)) as [_ H].
  vm_compute in E. injection E as <-.
  destruct (H 0%nat 1%nat) as (k & w' & w'' & _ & Hk & Hn & _); [done..|].
  eexists _, w'. split; [done|]. split; [done|]. split; [by rewrite Hn|]. by exists k.
Defined.

(** The broadcast of a second caller wakes the first, which returns although no
    round has begun since it called. *)
Lemma second_waker_wakes_first : exists w m,
  treach false false 2 w /\ wakers w !! 0%nat = Some (Returned m) /\ signal_stop w = false /\ begun w = m.
Proof.
  destruct (turns false (first_round ++ [Waker 0; Waker 0; Waker 1; Waker 1; Waker 0])%list (tstart 2)) as [w|] eqn:E; [|by vm_compute in E].
  exists w, 1%nat. split; [exact (turns_start _ _ _ _ E)|]. vm_compute in E. by injection E as <-.
Qed.

(** So does a spurious wake-up, of a single caller. *)
Lemma spurious_wakeup_returns_early : exists w m,
  treach true true 1 w /\ wakers w !! 0%nat = Some (Returned m) /\ signal_stop w = false /\ begun w = m.
Proof.
  destruct (turns true (first_round ++ [Waker 0; Waker 0])%list (tstart 1)) as [w|] eqn:E; [|by vm_compute in E].
  assert (Hw : treach true true 1 w) by (apply (treach_any true), (turns_start _ _ _ _ E)).
  vm_compute in E. injection E as <-. eexists _, 1%nat. split.
  - eapply treach_step; [eapply treach_step; [exact Hw|by apply (ts_spurious _ _ _ 0%nat 1%nat)]|].
    by apply (ts_waker _ _ _ _ 0%nat).
  - done.
Qed.

(** A thread that calls while the discovery is being stopped waits after the last
    broadcast, on a condition variable and a lock that are freed: it never
    returns. *)
Definition called_at_stop : list turn := (first_round ++ [Waker 0; Stopper; Stopper; Discovery; Discovery; Discovery; Waker 0; Stopper; Stopper])%list.
Definition left_behind (w : tworld) : Prop :=
  wakers w = [Waits 1] /\ discovery w = Ended /\ stopper w = Stopped.
Lemma waker_left_behind : exists w, treach true false 1 w /\ left_behind w /\
  forall w', tstep true false w w' -> left_behind w'.
Proof.
  destruct (turns true called_at_stop (tstart 1)) as [w|] eqn:E; [|by vm_compute in E].
  exists w. split; [exact (turns_start _ _ _ _ E)|]. vm_compute in E. injection E as <-. split; [done|].
  intros w' Hs. inversion Hs as [? ? H|? ? i H _|? ? H|? ? ? H]; subst; try done. destruct i as [|[]]; done.
Qed.
