(* ===== verification/ConfigFile.v ===== *)
(** The configuration file: the parser of [openhpid/conf.c] and the creation of
    the handlers it describes.

    GLib's scanner turns the file into tokens; the end of the list is the token
    [G_TOKEN_EOF], which is read again and again.  A number in the file becomes a
    [gulong] or a [gdouble] in the table of a handler: [gulong_bytes] are the bytes
    of the one on the machine, and the token of a float carries those of the
    other.  The functions run on the registry of plug-ins and handlers, which also
    holds the global parameters. *)
From S2P Require Import Prelude SaHpi Conf CText Plugin PluginCorrect.
From Stdlib Require Import Ascii.
#[local] Open Scope string_scope.
#[local] Open Scope Z_scope.

Inductive token :=
  | TString (s : string) | TInt (z : Z) | TFloat (bytes : text)
  | TEqual | TLeftCurly | TRightCurly | THandler | TOther.

(** What [stat] finds. *)
Inductive stat_result := StatOk (uid mode : Z) | StatNoEntry | StatFails.

(** The files: what [stat] tells of the configuration file and of its directory,
    the effective user, the tokens of the file if it can be opened, and those of
    its decrypted text if decryption is compiled in and works. *)
Record config_files := {
  file_stat : stat_result; dir_stat : stat_result; geteuid : Z; PATH_MAX : Z;
  have_encrypt : bool; file_tokens : option (list token); decrypted : option (list token) }.

Definition conf_table := gmap string conf_value.
Record oh_parsed_config := {
  handler_configs : list conf_table; handlers_defined : Z; handlers_loaded : Z }.
#[export] Instance eta_parsed_config : Eta oh_parsed_config := fun x =>
  Build_oh_parsed_config (handler_configs x) (handlers_defined x) (handlers_loaded x).

Definition S_IRWXG : Z := 56.
Definition S_IRWXO : Z := 7.
Definition S_IWGRP : Z := 16.
Definition S_IWOTH : Z := 2.
Definition S_IFMT : Z := 61440.
Definition S_IFREG : Z := 32768.

(** The file is refused. *)
Definition insecure (filename : string) (f : config_files) : bool :=
  match file_stat f with
  | StatFails => true
  | StatNoEntry => false
  | StatOk uid mode =>
      negb (uid =? geteuid f) ||
      negb (Z.land mode (Z.lor S_IRWXG S_IRWXO) =? 0) ||
      negb (Z.land mode S_IFMT =? S_IFREG) ||
      (PATH_MAX f <=? Z.of_nat (String.length filename)) ||
      match dir_stat f with
      | StatOk duid dmode => negb (uid =? duid) || negb (Z.land dmode (Z.lor S_IWOTH S_IWGRP) =? 0)
      | _ => true
      end
  end.

Section environment.
Context `{Environment} (gulong_bytes : Z -> text).

(** The value of a key, if the token is one. *)
Definition handler_value (t : token) : option conf_value :=
  match t with
  | TString s => Some (ConfString s)
  | TInt z => Some (ConfBytes (gulong_bytes z))
  | TFloat b => Some (ConfBytes b)
  | _ => None
  end.

(** The loop over the keys and values up to the right curly: the table, unless
    there is an error, and the tokens that are left.  The token that is not the
    one expected has been read, but for that of a value, which is only peeked. *)
Fixpoint handler_pairs (ts : list token) (handler_stanza : conf_table) : option conf_table * list token :=
  match ts with
  | TString tablekey :: ts =>
      match ts with
      | TEqual :: ts =>
          match ts with
          | t :: ts' =>
              match handler_value t with
              | Some value =>
                  let handler_stanza := <[tablekey := value]> handler_stanza in
                  match ts' with
                  | TRightCurly :: ts => (Some handler_stanza, ts)
                  | _ => handler_pairs ts' handler_stanza
                  end
              | None => (None, ts)
              end
          | [] => (None, [])
          end
      | ts => (None, tail ts)
      end
  | ts => (None, tail ts)
  end.

Definition process_handler_token (ts : list token) : R (option conf_table * list token) :=
  match ts with
  | THandler :: TString plugin :: ts =>
      oh_load_plugin (Some plugin);;
      match ts with
      | TLeftCurly :: ts => mret (handler_pairs ts {["plugin" := ConfString plugin]})
      | ts => mret (None, tail ts)
      end
  | THandler :: ts => mret (None, tail ts)
  | ts => mret (None, tail ts)
  end.

Definition set_param_text (name value : string) : R unit :=
  modify (fun s => s <| params ::= process_global_param name value |>).

(** The result, 0 or -1, and the tokens that are left. *)
Definition process_global_token (ts : list token) : R (Z * list token) :=
  match ts with
  | TString name :: TEqual :: TInt z :: ts => set_param_text name (string_of (decimal (u64 z)));; mret (0, ts)
  | TString name :: TEqual :: TString value :: ts => set_param_text name value;; mret (0, ts)
  | TString _ :: TEqual :: ts => mret (-1, tail ts)
  | TString _ :: ts => mret (-1, tail ts)
  | ts => mret (-1, tail ts)
  end.

(** The loop of [oh_load_config]; it reads at least one token each time. *)
Fixpoint load_loop (fuel : nat) (ts : list token) (handler_configs : list conf_table) : R (list conf_table) :=
  match fuel with
  | O => waits
  | S fuel =>
    match ts with
    | [] => mret handler_configs
    | THandler :: _ =>
        r ← process_handler_token ts;
        load_loop fuel r.2 (handler_configs ++ match r.1 with Some c => [c] | None => [] end)%list
    | TString _ :: _ => r ← process_global_token ts; load_loop fuel r.2 handler_configs
    | _ :: ts => load_loop fuel ts handler_configs
    end
  end.

(** The text that is scanned, or the code of the error. *)
Definition config_tokens (f : config_files) : Z + list token :=
  if match getenv "OPENHPI_GCRYPT" with Some v => truthy (atoi_u32 v) | None => false end
  then if have_encrypt f
       then match decrypted f with Some ts => inr ts | None => inl (-3) end
       else inl (-4)
  else match file_tokens f with Some ts => inr ts | None => inl (-4) end.

Definition oh_load_config (filename : option string) (f : config_files) (config : option oh_parsed_config)
    : R (Z * option oh_parsed_config) :=
  match filename, config with
  | Some filename, Some config =>
      if insecure filename f then mret (-3, Some config) else
      match config_tokens f with
      | inl rc => mret (rc, Some config)
      | inr ts =>
          l ← load_loop (S (length ts)) ts [];
          modify (fun s => s <| params ::= read_globals_from_env getenv true |>);;
          mret (0, Some (config <| handler_configs := l |>))
      end
  | _, _ => mret (-1, config)
  end.

(** The loop of [oh_process_config]. *)
Fixpoint process_handlers (l : list conf_table) (config : oh_parsed_config) : R oh_parsed_config :=
  match l with
  | [] => mret config
  | handler_config :: l =>
      r ← oh_create_handler (Some handler_config) true;
      let config := if r.1 =? SA_OK then config <| handlers_loaded ::= Z.succ |> else config in
      process_handlers l (config <| handlers_defined ::= Z.succ |>)
  end.
Definition oh_process_config (config : option oh_parsed_config) : R (Z * option oh_parsed_config) :=
  match config with
  | None => mret (SA_ERR_HPI_INVALID_PARAMS, None)
  | Some config => c ← process_handlers (handler_configs config) config; mret (SA_OK, Some c)
  end.
End environment.

(** ** The grammar of the file *)

Inductive value := VString (s : string) | VInt (z : Z) | VFloat (bytes : text).
(** A parameter, with a string or a number, or the plug-in and the keys and values
    of a handler. *)
Inductive statement := SGlobal (name : string) (v : string + Z) | SHandler (plugin : string) (kvs : list (string * value)).

Definition token_of (v : value) : token :=
  match v with VString s => TString s | VInt z => TInt z | VFloat b => TFloat b end.
Definition print_pair (kv : string * value) : list token := [TString kv.1; TEqual; token_of kv.2].
Definition print (s : statement) : list token :=
  match s with
  | SGlobal name (inl v) => [TString name; TEqual; TString v]
  | SGlobal name (inr z) => [TString name; TEqual; TInt z]
  | SHandler plugin kvs =>
      (THandler :: TString plugin :: TLeftCurly :: List.flat_map print_pair kvs ++ [TRightCurly])%list
  end.
(** The body of a handler is not empty. *)
Definition statement_ok (s : statement) : Prop := match s with SHandler _ [] => False | _ => True end.

Section meaning.
Context `{Environment} (gulong_bytes : Z -> text).

Definition value_of (v : value) : conf_value :=
  match v with VString s => ConfString s | VInt z => ConfBytes (gulong_bytes z) | VFloat b => ConfBytes b end.
Definition put_pair (c : conf_table) (kv : string * value) : conf_table := <[kv.1 := value_of kv.2]> c.
Definition table_of (plugin : string) (kvs : list (string * value)) : conf_table :=
  foldl put_pair {["plugin" := ConfString plugin]} kvs.

(** What a file means: its parameters are set and its plug-ins loaded in order;
    the result are the tables of its handlers. *)
Fixpoint perform (l : list statement) : R (list conf_table) :=
  match l with
  | [] => mret []
  | SGlobal name v :: l =>
      set_param_text name (match v with inl v => v | inr z => string_of (decimal (u64 z)) end);; perform l
  | SHandler plugin kvs :: l =>
      oh_load_plugin (Some plugin);; c ← perform l; mret (table_of plugin kvs :: c)
  end.
Definition tables (l : list statement) : list conf_table :=
  omap (fun s => match s with SHandler plugin kvs => Some (table_of plugin kvs) | _ => None end) l.

Lemma handler_value_of v : handler_value gulong_bytes (token_of v) = Some (value_of v).
Proof. by destruct v. Qed.

Lemma handler_pairs_print kvs c rest : kvs <> [] ->
  handler_pairs gulong_bytes (List.flat_map print_pair kvs ++ TRightCurly :: rest)%list c = (Some (foldl put_pair c kvs), rest).
Proof.
  revert c. induction kvs as [|[k v] kvs IH]; intros c Hne; [done|]. cbn [List.flat_map print_pair app foldl handler_pairs].
  cbn [fst snd]. rewrite handler_value_of. destruct kvs as [|kv kvs]; [done|]. by rewrite <- IH.
Qed.

Lemma R_bind_ext {A B} (m : R A) (k k' : A -> R B) s : (forall a s', k a s' = k' a s') -> (m ≫= k) s = (m ≫= k') s.
Proof. intros E. unfold mbind, R_bind. by destruct (m s). Qed.

Lemma load_loop_print l fuel configs s : Forall statement_ok l -> (length (List.flat_map print l) < fuel)%nat ->
  load_loop gulong_bytes fuel (List.flat_map print l) configs s =
  (c ← perform l; mret (configs ++ c)%list) s.
Proof.
  revert fuel configs s. induction l as [|st l IH]; intros fuel configs s Hok Hfuel; inversion_clear Hok as [|? ? Hst Hl].
  { destruct fuel as [|fuel]; [simpl in Hfuel; lia|]. unfold mbind, R_bind, mret, R_ret. cbn. by rewrite app_nil_r. }
  destruct fuel as [|fuel]; [lia|]. cbn [List.flat_map] in Hfuel |- *. rewrite length_app in Hfuel.
  destruct st as [name [v|z]|plugin kvs]; cbn [print app load_loop perform] in Hfuel |- *.
  - cbn [length] in Hfuel. unfold process_global_token. rewrite !bind_assoc. apply R_bind_ext. intros [] s'. apply IH; [done|lia].
  - cbn [length] in Hfuel. unfold process_global_token. rewrite !bind_assoc. apply R_bind_ext. intros [] s'. apply IH; [done|lia].
  - rewrite <- app_assoc. cbn [app process_handler_token]. rewrite !bind_assoc. apply R_bind_ext. intros rc s'.
    rewrite handler_pairs_print by by destruct kvs. rewrite bind_assoc.
    unfold mbind at 1, R_bind at 1, mret at 1, R_ret at 1. cbn [fst snd].
    cbn [length] in Hfuel. rewrite IH by (try done; rewrite length_app in Hfuel; lia).
    apply R_bind_ext. intros c s''. unfold mbind, R_bind, mret, R_ret. by rewrite <- app_assoc.
Qed.
End meaning.

(** ** Any file *)

Section any_file.
Context `{Environment} (gulong_bytes : Z -> text).

(** A number in a table ends with a zero byte, so that it can be copied as text. *)
Definition token_ok (t : token) : Prop :=
  match handler_value gulong_bytes t with Some v => is_Some (c_string v) | None => True end.
(** A table names a plug-in and all its values can be copied. *)
Definition table_ok (c : conf_table) : Prop :=
  is_Some (c !! "plugin") /\ map_Forall (fun _ v => is_Some (c_string v)) c.

Lemma table_ok_insert c k v : table_ok c -> is_Some (c_string v) -> table_ok (<[k := v]> c).
Proof.
  intros [Hp Hc] Hv. split; [|by apply map_Forall_insert_2]. apply lookup_insert_is_Some'. by right.
Qed.

Definition parsed_ok (ts : list token) (r : option conf_table * list token) : Prop :=
  (length r.2 <= length ts)%nat /\ Forall token_ok r.2 /\ forall c, r.1 = Some c -> table_ok c.
Lemma parsed_none ts rest : (length rest <= length ts)%nat -> Forall token_ok rest -> parsed_ok ts (None, rest).
Proof. intros. unfold parsed_ok. by split_and!. Qed.
Lemma parsed_weaken ts ts' r : (length ts <= length ts')%nat -> parsed_ok ts r -> parsed_ok ts' r.
Proof. intros Hl (H1 & H2 & H3). unfold parsed_ok. split_and!; [lia|done..]. Qed.
Lemma tail_ok ts : Forall token_ok ts -> (length (tail ts) <= length ts)%nat /\ Forall token_ok (tail ts).
Proof. intros Hts. destruct Hts; (split; [cbn; lia|done]). Qed.
Lemma parsed_tail ts ts' : (length ts <= length ts')%nat -> Forall token_ok ts -> parsed_ok ts' (None, tail ts).
Proof. intros Hl [H1 H2]%tail_ok. apply parsed_none; [lia|done]. Qed.

Lemma handler_pairs_ok n ts c : (length ts <= n)%nat -> Forall token_ok ts -> table_ok c ->
  parsed_ok ts (handler_pairs gulong_bytes ts c).
Proof.
  revert ts c. induction n as [|n IH]; intros ts c Hn Hts Hc.
  { destruct ts; [|simpl in Hn; lia]. by apply parsed_none. }
  destruct Hts as [|t ts Ht Hts]; [by apply parsed_none|]. cbn [length] in Hn.
  destruct t as [k| | | | | | |]; try (by apply parsed_none; [cbn; lia|]).
  destruct Hts as [|t ts Ht2 Hts]; [apply parsed_none; [cbn; lia|done]|]. cbn [length] in Hn.
  destruct t; try (by apply parsed_none; [cbn; lia|]).
  destruct Hts as [|t ts Ht3 Hts]; [apply parsed_none; [cbn; lia|done]|]. cbn [length] in Hn.
  cbn [handler_pairs]. destruct (handler_value gulong_bytes t) as [v|] eqn:Ev;
    [|apply parsed_none; [cbn; lia|by constructor]].
  assert (Hc' : table_ok (<[k := v]> c)). { apply table_ok_insert; [done|]. unfold token_ok in Ht3. by rewrite Ev in Ht3. }
  assert (Hrec : parsed_ok (TString k :: TEqual :: t :: ts) (handler_pairs gulong_bytes ts (<[k := v]> c))).
  { apply (parsed_weaken ts); [cbn; lia|]. by apply IH; [lia|..]. }
  destruct Hts as [|t' ts Ht4 Hts]; [exact Hrec|]. destruct t'; try exact Hrec.
  unfold parsed_ok. split_and!; [cbn; lia|done|]. by intros c' [= <-].
Qed.

Lemma token_string_ok s : token_ok (TString s).
Proof. by eexists. Qed.
Lemma table_ok_plugin n : table_ok {["plugin" := ConfString n]}.
Proof.
  split; [eexists; apply lookup_singleton_eq|]. apply map_Forall_singleton. by eexists.
Qed.

(** The handlers are those of before. *)
Definition same_handlers (s s' : registry) : Prop := handler_id s' = handler_id s /\ the_handlers s' = the_handlers s.
Lemma unchanged_same s s' : unchanged s s' -> same_handlers s s'.
Proof. intros (H1 & H2 & _ & H4 & _). split; [done|by apply the_handlers_ext]. Qed.
Lemma same_handlers_trans s1 s2 s3 : same_handlers s1 s2 -> same_handlers s2 s3 -> same_handlers s1 s3.
Proof. unfold same_handlers. intuition congruence. Qed.
Lemma set_params_ok f s : registry_ok s -> registry_ok (s <| params ::= f |>) /\ same_handlers s (s <| params ::= f |>).
Proof. intros Hok. split; [|done]. by apply (registry_ok_ext s). Qed.

Lemma process_handler_runs ts s : registry_ok s -> Forall token_ok ts ->
  runs (process_handler_token gulong_bytes (THandler :: ts)) s (fun r s' =>
    registry_ok s' /\ same_handlers s s' /\ parsed_ok ts r).
Proof.
  intros Hok Hts. unfold process_handler_token.
  assert (Hsame : same_handlers s s) by done.
  destruct Hts as [|t ts Ht Hts].
  { by split_and!. }
  destruct t as [n| | | | | | |]; try (by split_and!; try done; apply parsed_none; [cbn; lia|]).
  apply runs_bind. eapply runs_mono; [by apply load_safe|]. cbv beta. intros _ s' [Hok' Hu%unchanged_same].
  assert (Hl : (length ts <= length (TString n :: ts))%nat) by (cbn; lia).
  destruct Hts as [|t ts Ht2 Hts]; [split_and!; [done..|by apply parsed_none; [cbn; lia|]]|].
  destruct t; try (split_and!; [done..|apply (parsed_tail (_ :: ts)); [done|by constructor]]).
  split_and!; [done..|]. apply (parsed_weaken ts); [cbn; lia|].
  eapply handler_pairs_ok; [done|done|apply table_ok_plugin].
Qed.

Lemma process_global_runs n ts s : registry_ok s -> Forall token_ok ts ->
  runs (process_global_token (TString n :: ts)) s (fun r s' =>
    registry_ok s' /\ same_handlers s s' /\ (length r.2 <= length ts)%nat /\ Forall token_ok r.2).
Proof.
  intros Hok Hts. unfold process_global_token.
  assert (Hsame : same_handlers s s) by done.
  destruct Hts as [|t ts Ht Hts]; [by split_and!|].
  destruct t; try (split_and!; [done..|cbn; lia|done]).
  destruct Hts as [|t ts Ht2 Hts]; [split_and!; [done..|cbn; lia|done]|].
  assert (Hset : forall f, runs (modify (fun s => s <| params ::= f |>);; mret (0, ts)) s (fun r s' =>
    registry_ok s' /\ same_handlers s s' /\ (length r.2 <= S (S (length ts)))%nat /\ Forall token_ok r.2)).
  { intros f. destruct (set_params_ok f s Hok) as [H1 H2]. split_and!; [exact H1|exact H2|cbn; lia|done]. }
  destruct t; try (split_and!; [done..|cbn; lia|done]); apply Hset.
Qed.

Lemma load_loop_runs fuel ts configs s : (length ts < fuel)%nat -> registry_ok s -> Forall token_ok ts ->
  Forall table_ok configs ->
  runs (load_loop gulong_bytes fuel ts configs) s (fun l s' =>
    registry_ok s' /\ same_handlers s s' /\ Forall table_ok l /\ (length l <= length configs + length ts)%nat).
Proof.
  revert ts configs s. induction fuel as [|fuel IH]; intros ts configs s Hf Hok Hts Hcs; [lia|].
  cbn [load_loop]. destruct Hts as [|t ts Ht Hts]; [split_and!; [done..|lia]|]. cbn [length] in Hf |- *.
  assert (Hskip : runs (load_loop gulong_bytes fuel ts configs) s (fun l s' => registry_ok s' /\
    same_handlers s s' /\ Forall table_ok l /\ (length l <= length configs + S (length ts))%nat)).
  { eapply runs_mono; [by apply IH; [lia|..]|]. cbv beta. intros l s' (? & ? & ? & ?). split_and!; [done..|lia]. }
  destruct t as [n| | | | | | |]; try exact Hskip; clear Hskip.
  - apply runs_bind. eapply runs_mono; [by apply process_global_runs|]. cbv beta.
    intros [rc rest] s1 (Hok1 & Hs1 & Hl & Hr). cbn [snd] in *.
    eapply runs_mono; [by apply IH; [lia|..]|]. cbv beta. intros l s' (? & Hs2 & ? & ?).
    split_and!; [done|by eapply same_handlers_trans|done|lia].
  - apply runs_bind. eapply runs_mono; [by apply process_handler_runs|]. cbv beta.
    intros [c rest] s1 (Hok1 & Hs1 & Hl & Hr & Hc). cbn [fst snd] in *.
    eapply runs_mono; [apply IH; [lia|done|done|]|].
    + apply Forall_app. split; [done|]. destruct c; [|done]. by constructor; [apply Hc|].
    + cbv beta. intros l s' (? & Hs2 & ? & ?). split_and!; [done|by eapply same_handlers_trans|done|].
      rewrite length_app in *. destruct c; cbn [length] in *; lia.
Qed.

(** The copy that the handler keeps. *)
Definition copied (c : conf_table) : gmap string string := omap c_string c.
Definition has_instance (x : oh_handler) : Prop := is_Some (hnd x).
#[global] Instance has_instance_dec x : Decision (has_instance x).
Proof. unfold has_instance. apply _. Defined.

Definition plugin_of (c : conf_table) : option string := c !! "plugin" ≫= c_string.

(** [xs] are the handlers that [oh_create_handler] creates for the tables, one
    after the other: a table gets a handler exactly if its plug-in is there or can
    be loaded when its turn comes. *)
Inductive creates : registry -> list conf_table -> list oh_handler -> registry -> Prop :=
  | creates_none s : creates s [] [] s
  | creates_skip s c n r s1 l xs s' :
      plugin_of c = Some n -> ~ loadable s n ->
      oh_create_handler (Some c) true s = Done r s1 -> the_handlers s1 = the_handlers s ->
      creates s1 l xs s' -> creates s (c :: l) xs s'
  | creates_next s c n r s1 x l xs s' :
      plugin_of c = Some n -> loadable s n ->
      oh_create_handler (Some c) true s = Done r s1 -> the_handlers s1 = (the_handlers s ++ [x])%list ->
      plugin_name x = n -> config x = copied c -> id x = handler_id s ->
      creates s1 l xs s' -> creates s (c :: l) (x :: xs) s'.

Lemma process_handlers_runs l c s : registry_ok s -> Forall table_ok l -> handler_id s + Z.of_nat (length l) < 2 ^ 32 ->
  runs (process_handlers l c) s (fun c' s' => registry_ok s' /\ handler_configs c' = handler_configs c /\
    handlers_defined c' = handlers_defined c + Z.of_nat (length l) /\
    exists xs, the_handlers s' = (the_handlers s ++ xs)%list /\ creates s l xs s' /\
      handlers_loaded c' = handlers_loaded c + Z.of_nat (length (filter has_instance xs))).
Proof.
  revert c s. induction l as [|cfg l IH]; intros c s Hok Hl Hid; cbn [process_handlers].
  { split_and!; [done..|cbn; lia|]. exists []. split_and!; [by rewrite app_nil_r|constructor|cbn; lia]. }
  inversion_clear Hl as [|? ? [[v Hv] Hc] Hl']. cbn [length] in Hid. destruct (Hc _ _ Hv) as [n Hn].
  assert (Hpl : plugin_of cfg = Some n) by (unfold plugin_of; by rewrite Hv).
  assert (Hc1 := create_handler_runs s cfg v n Hok ltac:(lia) Hc Hv Hn).
  apply runs_bind. unfold runs in Hc1 |- * at 1.
  change (oh_create_handler (Some cfg) true s) with (oh_create_handler (@Some conf_table cfg) true s) in Hc1.
  destruct (oh_create_handler (Some cfg) true s) as [[rc h] s1| |] eqn:Ecr; [|done|done].
  destruct Hc1 as (Hok1 & Hid1 & Hr).
  eapply runs_mono; [by apply IH; [|done|lia]|]. cbv beta. intros c' s' (Hok' & Ecf & Ed & xs & Ex & Hsub & El).
  split; [done|]. cbn [fst] in *.
  assert (Hcf : handler_configs c' = handler_configs c) by by rewrite Ecf; destruct (rc =? SA_OK).
  assert (Hdef : handlers_defined c' = handlers_defined c + Z.of_nat (length (cfg :: l))).
  { rewrite Ed. cbn [length]. destruct (rc =? SA_OK); cbn; lia. }
  split; [done|]. split; [done|].
  destruct Hr as [([= -> ->] & Hnl & Hsame)|(Hlo & y & tl & Erc & Eid & Epn & Ecfg & _ & Hh)].
  - exists xs. rewrite Ex, Hsame. split_and!; [done|by eapply creates_skip|]. rewrite El. by cbn.
  - exists (y :: xs). rewrite Ex, Hh, <- app_assoc. split_and!; [done|by eapply creates_next|].
    injection Erc as -> _. rewrite El, filter_cons. case_decide as Hi.
    + destruct Hi as [i ->]. cbn [length]. cbn. lia.
    + assert (hnd y = None) as -> by by apply eq_None_not_Some.
      change (SA_ERR_HPI_INTERNAL_ERROR =? SA_OK) with false. cbn. lia.
Qed.

Lemma set_text_runs n v s : registry_ok s ->
  runs (set_param_text n v) s (fun _ s' => registry_ok s' /\ same_handlers s s').
Proof. apply set_params_ok. Qed.
Lemma perform_runs l s : registry_ok s ->
  runs (perform gulong_bytes l) s (fun t s' => registry_ok s' /\ same_handlers s s' /\ t = tables gulong_bytes l).
Proof.
  revert s. induction l as [|st l IH]; intros s Hok; [by split_and!|].
  destruct st as [name v|plugin kvs]; cbn [perform]; apply runs_bind.
  - eapply runs_mono; [by apply set_text_runs|]. cbv beta. intros _ s1 [Hok1 Hs1].
    eapply runs_mono; [by apply IH|]. cbv beta. intros t s' (? & Hs & ->).
    split_and!; [done|by eapply same_handlers_trans|done].
  - eapply runs_mono; [by apply load_safe|]. cbv beta. intros _ s1 [Hok1 Hu%unchanged_same].
    apply runs_bind. eapply runs_mono; [by apply IH|]. cbv beta. intros t s' (? & Hs & ->).
    split_and!; [done|by eapply same_handlers_trans|done].
Qed.

Lemma path_param n v g :
  path (process_global_param n v g) = if String.eqb "OPENHPI_PATH" n then cut_path v else path g.
Proof.
  unfold process_global_param.
  destruct (String.eqb_spec "OPENHPI_PATH" n) as [<-|Hn]; [done|]. repeat (case_match; try done).
Qed.
Lemma path_from_env v g : getenv "OPENHPI_PATH" = Some v -> path (read_globals_from_env getenv true g) = cut_path v.
Proof.
  intros E. unfold read_globals_from_env. cbn [negb andb]. cbn [path set_field].
  assert (Hstep : forall n g', path (match getenv n with Some v => process_global_param n v g' | None => g' end) =
    if String.eqb "OPENHPI_PATH" n then cut_path v else path g').
  { intros n g'. destruct (String.eqb_spec "OPENHPI_PATH" n) as [<-|Hn].
    - by rewrite E, path_param.
    - destruct (getenv n); [|done]. rewrite path_param. by destruct (String.eqb_spec "OPENHPI_PATH" n). }
  unfold known_globals. cbn [foldl]. rewrite !Hstep. done.
Qed.

Lemma load_config_runs fn f c ts s : insecure fn f = false -> config_tokens f = inr ts ->
  Forall token_ok ts -> registry_ok s ->
  runs (oh_load_config gulong_bytes (Some fn) f (Some c)) s (fun r s' => registry_ok s' /\ same_handlers s s' /\
    (forall v, getenv "OPENHPI_PATH" = Some v -> path (params s') = cut_path v) /\
    exists l, r = (0, Some (c <| handler_configs := l |>)) /\ Forall table_ok l /\ (length l <= length ts)%nat).
Proof.
  intros Hi Ht Hts Hok. unfold oh_load_config. rewrite Hi, Ht. apply runs_bind.
  eapply runs_mono; [by apply load_loop_runs; [lia|..]|]. cbv beta. intros l s' (Hok' & Hs & Hl & Hlen).
  destruct (set_params_ok (read_globals_from_env getenv true) s' Hok') as [H1 H2].
  eapply runs_done; [done|]. split_and!; [done|by eapply same_handlers_trans| |by exists l].
  intros v. exact (path_from_env v (params s')).
Qed.

Lemma load_config_print fn f c l s : insecure fn f = false -> config_tokens f = inr (List.flat_map print l) ->
  Forall statement_ok l ->
  oh_load_config gulong_bytes (Some fn) f (Some c) s =
  (t ← perform gulong_bytes l;
   modify (fun s => s <| params ::= read_globals_from_env getenv true |>);;
   mret (0, Some (c <| handler_configs := t |>))) s.
Proof.
  intros Hi Ht Hl. unfold oh_load_config. rewrite Hi, Ht. unfold mbind at 1, R_bind at 1.
  rewrite load_loop_print by (done || lia). unfold mbind, R_bind, mret, R_ret. by destruct (perform gulong_bytes l s).
Qed.

(** C26: Reading the configuration.  A file that is not owned by the daemon's user,
    that others can access, that is no regular file or whose directory is not
    safe is refused without effect.  Any other file that can be read - whatever
    it contains, if its numbers can be copied as texts - is read to its end: the
    registry of plug-ins stays consistent, no handler is created, every table
    collected names a plug-in, and the environment has the last word.  A file that
    follows the grammar has exactly the effect and the tables of its statements,
    in order. *)
Theorem oh_load_config_correct fn f c s : registry_ok s ->
  (insecure fn f = true -> oh_load_config gulong_bytes (Some fn) f (Some c) s = Done (-3, Some c) s) /\
  (forall ts, insecure fn f = false -> config_tokens f = inr ts -> Forall token_ok ts ->
     runs (oh_load_config gulong_bytes (Some fn) f (Some c)) s (fun r s' => registry_ok s' /\ same_handlers s s' /\
       (forall v, getenv "OPENHPI_PATH" = Some v -> path (params s') = cut_path v) /\
       exists l, r = (0, Some (c <| handler_configs := l |>)) /\ Forall table_ok l)) /\
  (forall l, insecure fn f = false -> config_tokens f = inr (List.flat_map print l) -> Forall statement_ok l ->
     oh_load_config gulong_bytes (Some fn) f (Some c) s =
     (t ← perform gulong_bytes l;
      modify (fun s => s <| params ::= read_globals_from_env getenv true |>);;
      mret (0, Some (c <| handler_configs := t |>))) s /\
     runs (perform gulong_bytes l) s (fun t _ => t = tables gulong_bytes l)).
Proof.
  intros Hok. split_and!.
  - intros Hi. unfold oh_load_config. by rewrite Hi.
  - intros ts Hi Ht Hts. eapply runs_mono; [by apply (load_config_runs fn f c ts)|]. cbv beta.
    intros r s' (? & ? & ? & l & ? & ? & _). split_and!; [done..|]. by exists l.
  - intros l Hi Ht Hl. split; [by apply load_config_print|].
    eapply runs_mono; [by apply perform_runs|]. cbv beta. tauto.
Qed.

(** C27: From the file to the handlers: reading any secure file and creating the
    handlers it describes leaves the registry consistent.  The handlers created
    come last: in the order of the file, one for each configuration whose plug-in
    is there or can be loaded when its turn comes, with the plug-in and a copy of
    the configuration and the next id, and none for the others.
    [handlers_defined] counts the configurations and [handlers_loaded] the handlers
    that have an instance. *)
Theorem configured_handlers fn f ts s : registry_ok s -> insecure fn f = false -> config_tokens f = inr ts ->
  Forall token_ok ts -> handler_id s + Z.of_nat (length ts) < 2 ^ 32 ->
  runs (r ← oh_load_config gulong_bytes (Some fn) f (Some (Build_oh_parsed_config [] 0 0));
        oh_process_config r.2) s (fun r s' => registry_ok s' /\ exists c xs s1,
    r = (SA_OK, Some c) /\ the_handlers s' = (the_handlers s ++ xs)%list /\
    handler_id s1 = handler_id s /\ the_handlers s1 = the_handlers s /\
    creates s1 (handler_configs c) xs s' /\
    handlers_defined c = Z.of_nat (length (handler_configs c)) /\
    handlers_loaded c = Z.of_nat (length (filter has_instance xs)) /\
    forall l, ts = List.flat_map print l -> Forall statement_ok l -> handler_configs c = tables gulong_bytes l).
Proof.
  intros Hok Hi Ht Hts Hid. set (c0 := Build_oh_parsed_config [] 0 0).
  assert (Hprint : forall l, ts = List.flat_map print l -> Forall statement_ok l ->
    runs (oh_load_config gulong_bytes (Some fn) f (Some c0)) s (fun r _ => r.2 = Some (c0 <| handler_configs := tables gulong_bytes l |>))).
  { intros l -> Hl. unfold runs. rewrite (load_config_print fn f c0 l) by done. apply runs_bind.
    eapply runs_mono; [by apply perform_runs|]. cbv beta. by intros t s' (_ & _ & ->). }
  pose proof (load_config_runs fn f c0 ts s Hi Ht Hts Hok) as Hrun. apply runs_bind.
  unfold runs in Hrun |- * at 1. unfold runs in Hprint.
  destruct (oh_load_config _ _ _ _ s) as [r s1| |]; [|done|done].
  destruct Hrun as (Hok1 & [Hid1 Hs1] & _ & l & -> & Hl & Hlen). cbn [snd oh_process_config] in *.
  apply runs_bind. eapply runs_mono; [apply (process_handlers_runs _ _ s1 Hok1 Hl); cbn; lia|].
  cbv beta. intros c s' (Hok' & Ecf & Ed & xs & Ex & Hcr & El). split; [done|]. exists c, xs, s1.
  cbn in Ecf, Ed, El. rewrite Ecf. split_and!; try done; [by rewrite Ex, Hs1|].
  intros l' Hl' Hok''. specialize (Hprint l' Hl' Hok''). by injection Hprint.
Qed.
End any_file.

(** ** Samples *)

(** A [gulong] of a little-endian machine. *)
Definition little_endian (z : Z) : text :=
  (fun i => ascii_of_N (Z.to_N (Z.shiftr z (8 * i) mod 256))) <$> [0; 1; 2; 3; 4; 5; 6; 7].
Definition sample_statements : list statement :=
  [SGlobal "OPENHPI_DEL_SIZE_LIMIT" (inr 50);
   SHandler "libsimulator" [("entity_root", VString "{SYSTEM_CHASSIS,1}"); ("port", VInt 81)];
   SHandler "libmissing" [("addr", VString "here")]].
Definition sample_files (ts : list token) : config_files :=
  {| file_stat := StatOk 1000 33152; dir_stat := StatOk 1000 16832; geteuid := 1000; PATH_MAX := 4096;
     have_encrypt := false; file_tokens := Some ts; decrypted := None |}.
Definition start_up (ts : list token) : R (Z * option oh_parsed_config) :=
  r ← oh_load_config (H := sample_env) little_endian (Some "/etc/openhpi.conf") (sample_files ts)
        (Some (Build_oh_parsed_config [] 0 0));
  oh_process_config (H := sample_env) r.2.

Lemma sample_tokens_ok : Forall (token_ok little_endian) (List.flat_map print sample_statements).
Proof. repeat (apply Forall_cons; split; [by eexists|]). constructor. Qed.

Lemma oh_load_config_correct_witness : exists l s',
  oh_load_config (H := sample_env) little_endian (Some "/etc/openhpi.conf")
    (sample_files (List.flat_map print sample_statements)) (Some (Build_oh_parsed_config [] 0 0)) empty_registry =
    Done (0, Some (Build_oh_parsed_config l 0 0)) s' /\ Forall table_ok l /\ registry_ok s'.
Proof.
  pose proof (proj1 (proj2 (oh_load_config_correct (H := sample_env) little_endian "/etc/openhpi.conf"
    (sample_files (List.flat_map print sample_statements)) (Build_oh_parsed_config [] 0 0) empty_registry
    empty_registry_ok)) _ eq_refl eq_refl sample_tokens_ok) as Hrun.
  unfold runs in Hrun. destruct (oh_load_config _ _ _ _ _) as [r s'| |]; [|done|done].
  destruct Hrun as (Hok & _ & _ & l & -> & Hl). by exists l, s'.
Defined.

Lemma configured_handlers_witness :
  runs (start_up (List.flat_map print sample_statements)) empty_registry (fun r s' => registry_ok s' /\ exists c xs s1,
    r = (SA_OK, Some c) /\ the_handlers s' = (the_handlers empty_registry ++ xs)%list /\
    handler_id s1 = handler_id empty_registry /\ the_handlers s1 = the_handlers empty_registry /\
    creates (H := sample_env) s1 (handler_configs c) xs s' /\
    handlers_defined c = Z.of_nat (length (handler_configs c)) /\
    handlers_loaded c = Z.of_nat (length (filter has_instance xs)) /\
    forall l, List.flat_map print sample_statements = List.flat_map print l -> Forall statement_ok l ->
      handler_configs c = tables little_endian l).
Proof.
  exact (configured_handlers (H := sample_env) little_endian "/etc/openhpi.conf"
    (sample_files (List.flat_map print sample_statements)) _ empty_registry empty_registry_ok eq_refl eq_refl
    sample_tokens_ok eq_refl).
Defined.
Example sample_started :
  match start_up (List.flat_map print sample_statements) empty_registry with
  | Done (_, Some c) s => (handlers_defined c, handlers_loaded c, hnd <$> the_handlers s,
      omap (fun x => config x !! "port") (the_handlers s), del_size_limit (params s))
  | _ => (0, 0, [], [], 0)
  end = (2, 1, [Some 1001], ["Q"], 50).
Proof. by vm_compute. Qed.

(** After an error inside a handler's braces the rest of them is read as
    parameters of the daemon. *)
Definition broken_stanza : list token :=
  [THandler; TString "libsimulator"; TLeftCurly; TString "name"; TEqual; TOther;
   TString "OPENHPI_VARPATH"; TEqual; TString "/tmp"; TRightCurly].
Lemma broken_stanza_sets_parameters :
  match start_up broken_stanza empty_registry with
  | Done (rc, Some c) s => rc = SA_OK /\ handler_configs c = [] /\
      varpath (params empty_registry) = "/var" /\ varpath (params s) = "/tmp"
  | _ => False
  end.
Proof. vm_compute. by split_and!. Qed.

(** A number whose bytes contain no zero is copied beyond its end. *)
Definition large_number : list token :=
  [THandler; TString "libsimulator"; TLeftCurly; TString "id"; TEqual; TInt (2 ^ 64 - 1); TRightCurly].
Lemma number_copied_as_text : start_up large_number empty_registry = Undefined.
Proof. by vm_compute. Qed.
