(* ===== verification/Ohpi.v ===== *)
(** The extensions of the interface: [openhpid/ohpi.c].

    The functions for handlers, for global parameters and for injecting events act
    on the daemon of [Api] and on the registry of plug-ins of [Plugin].  The
    handlers that the HPI functions see are those of the registry: [view] derives
    the first from the second, and an operation on the registry renews it. *)
From S2P Require Import Prelude SaHpi GIndex Rpt Conf DomainState EventUtils CText Plugin PluginCorrect.
From S2P Require Import Session Domain Api ApiRules ApiDomain ApiWalk ApiCorrect.
#[local] Open Scope string_scope.
#[local] Open Scope Z_scope.


(** The members of [oh_abi_v2] that the HPI functions call. *)
Definition fn_name (f : abi_fn) : string :=
  match f with
  | set_resource_tag => "set_resource_tag"
  | set_resource_severity => "set_resource_severity"
  | resource_failed_remove => "resource_failed_remove"
  | get_el_info => "get_el_info"
  | get_el_caps => "get_el_caps"
  | set_el_time => "set_el_time"
  | add_el_entry => "add_el_entry"
  | get_el_entry => "get_el_entry"
  | clear_el => "clear_el"
  | set_el_state => "set_el_state"
  | reset_el_overflow => "reset_el_overflow"
  | get_sensor_reading => "get_sensor_reading"
  | get_sensor_thresholds => "get_sensor_thresholds"
  | set_sensor_thresholds => "set_sensor_thresholds"
  | get_sensor_enable => "get_sensor_enable"
  | set_sensor_enable => "set_sensor_enable"
  | get_sensor_event_enables => "get_sensor_event_enables"
  | set_sensor_event_enables => "set_sensor_event_enables"
  | get_sensor_event_masks => "get_sensor_event_masks"
  | set_sensor_event_masks => "set_sensor_event_masks"
  | get_control_state => "get_control_state"
  | set_control_state => "set_control_state"
  | get_idr_info => "get_idr_info"
  | get_idr_area_header => "get_idr_area_header"
  | add_idr_area => "add_idr_area"
  | add_idr_area_id => "add_idr_area_id"
  | del_idr_area => "del_idr_area"
  | get_idr_field => "get_idr_field"
  | add_idr_field => "add_idr_field"
  | add_idr_field_id => "add_idr_field_id"
  | set_idr_field => "set_idr_field"
  | del_idr_field => "del_idr_field"
  | get_watchdog_info => "get_watchdog_info"
  | set_watchdog_info => "set_watchdog_info"
  | reset_watchdog => "reset_watchdog"
  | get_next_announce => "get_next_announce"
  | get_announce => "get_announce"
  | ack_announce => "ack_announce"
  | add_announce => "add_announce"
  | del_announce => "del_announce"
  | get_annunc_mode => "get_annunc_mode"
  | set_annunc_mode => "set_annunc_mode"
  | get_dimi_info => "get_dimi_info"
  | get_dimi_test => "get_dimi_test"
  | get_dimi_test_ready => "get_dimi_test_ready"
  | start_dimi_test => "start_dimi_test"
  | cancel_dimi_test => "cancel_dimi_test"
  | get_dimi_test_status => "get_dimi_test_status"
  | get_dimi_test_results => "get_dimi_test_results"
  | get_fumi_spec => "get_fumi_spec"
  | get_fumi_service_impact => "get_fumi_service_impact"
  | set_fumi_source => "set_fumi_source"
  | validate_fumi_source => "validate_fumi_source"
  | get_fumi_source => "get_fumi_source"
  | get_fumi_source_component => "get_fumi_source_component"
  | get_fumi_target => "get_fumi_target"
  | get_fumi_target_component => "get_fumi_target_component"
  | get_fumi_logical_target => "get_fumi_logical_target"
  | get_fumi_logical_target_component => "get_fumi_logical_target_component"
  | start_fumi_backup => "start_fumi_backup"
  | set_fumi_bank_order => "set_fumi_bank_order"
  | start_fumi_bank_copy => "start_fumi_bank_copy"
  | start_fumi_install => "start_fumi_install"
  | get_fumi_status => "get_fumi_status"
  | start_fumi_verify => "start_fumi_verify"
  | start_fumi_verify_main => "start_fumi_verify_main"
  | cancel_fumi_upgrade => "cancel_fumi_upgrade"
  | get_fumi_autorollback_disable => "get_fumi_autorollback_disable"
  | set_fumi_autorollback_disable => "set_fumi_autorollback_disable"
  | start_fumi_rollback => "start_fumi_rollback"
  | activate_fumi => "activate_fumi"
  | start_fumi_activate => "start_fumi_activate"
  | cleanup_fumi => "cleanup_fumi"
  | hotswap_policy_cancel => "hotswap_policy_cancel"
  | get_hotswap_state => "get_hotswap_state"
  | set_hotswap_state => "set_hotswap_state"
  | set_autoinsert_timeout => "set_autoinsert_timeout"
  | get_autoextract_timeout => "get_autoextract_timeout"
  | set_autoextract_timeout => "set_autoextract_timeout"
  | request_hotswap_action => "request_hotswap_action"
  | get_indicator_state => "get_indicator_state"
  | set_indicator_state => "set_indicator_state"
  | control_parm => "control_parm"
  | load_id_get => "load_id_get"
  | load_id_set => "load_id_set"
  | get_reset_state => "get_reset_state"
  | set_reset_state => "set_reset_state"
  | get_power_state => "get_power_state"
  | set_power_state => "set_power_state"
  end.

Definition view_handler (r : registry) (h : nat) : option oh_handler :=
  x ← Plugin.handlers r !! h;
  y ← plugins r !! Plugin.abi x;
  Some {| hnd := bool_decide (is_Some (Plugin.hnd x)); abi := fun f => bool_decide (fn_name f ∈ plugin_abi y) |}.
Definition view (r : registry) : gmap Z oh_handler := omap (view_handler r) (handler_table r).

(** ** The monad *)

Definition system : Type := daemon * registry.
Definition Sys (O A : Type) : Type := system -> outcome O A * system.
Notation sapi O := (Sys O Empty_set).
#[export] Instance Sys_ret O : MRet (Sys O) := fun A a s => (Next a, s).
#[export] Instance Sys_bind O : MBind (Sys O) := fun A B k m s =>
  match m s with
  | (Next a, s) => k a s
  | (Return rv out, s) => (Return rv out, s)
  | (Undefined, s) => (Undefined, s)
  | (Waits, s) => (Waits, s)
  end.

(** A part that acts on the daemon alone, and an operation on the registry. *)
Definition on {O A} (m : M O A) : Sys O A := fun '(w, r) => let '(a, w) := m w in (a, (w, r)).
Definition act {O A} (m : R A) : Sys O A := fun '(w, r) =>
  match m r with
  | Plugin.Done a r => (Next a, (w <| handlers := view r |>, r))
  | Plugin.Undefined => (Undefined, (w, r))
  | Plugin.Waits => (Waits, (w, r))
  end.

Section functions.
Context `{Environment} (e : env).

(** [OH_CHECK_INIT_STATE], [OH_GET_DID] and [OH_GET_DOMAIN]. *)
Definition enter {O} (sid : Z) : Sys O Z :=
  on (OH_CHECK_INIT_STATE sid;; did ← OH_GET_DID sid; OH_GET_DOMAIN did).
(** The domain is released and the function returns. *)
Definition leave {O A} (d rv : Z) (out : option O) : Sys O A :=
  on (oh_release_domain d;; return_ rv out).
(** [if (oh_init()) { oh_release_domain(d); return SA_ERR_HPI_INTERNAL_ERROR; }] *)
Definition initialised {O} (d : Z) : Sys O unit :=
  if e_init e then mret tt else leave d SA_ERR_HPI_INTERNAL_ERROR None.
Definition refuse {O} (b : bool) (rv : Z) : Sys O unit := on (reject b rv).

Definition oHpiHandlerCreate (sid : Z) (config : option (gmap string conf_value)) (id : bool) : sapi Z :=
  refuse (sid =? 0) SA_ERR_HPI_INVALID_SESSION;;
  refuse (negb (bool_decide (is_Some config)) || negb id) SA_ERR_HPI_INVALID_PARAMS;;
  refuse (bool_decide (size (default ∅ config) = 0%nat)) SA_ERR_HPI_INVALID_PARAMS;;
  d ← enter sid;
  initialised d;;
  r ← act (oh_create_handler config true);
  leave d r.1 (Some r.2).

(** The events for the resources of the handler, the last one first; [None]: the
    fuel is used up, or a cell is not one of those allocated. *)
Definition removal (id now : Z) (rpte : SaHpiRptEntryT) : oh_event :=
  {| hid := id; resource := rpte; rdrs := []; rdrs_to_remove := [];
     event := {| Source := ResourceId rpte; event_Timestamp := now; event_Severity := SAHPI_MAJOR;
                 EventDataUnion := ResourceEvent SAHPI_RESE_RESOURCE_REMOVED |} |}.
Fixpoint collect_removals (fuel : nat) (cells : list Z) (t : RPTable) (id now : Z)
    (rpte : option SaHpiRptEntryT) (events : list oh_event) : option (list oh_event) :=
  match rpte, fuel with
  | None, _ => Some events
  | Some _, O => None
  | Some r, S fuel =>
      let data := oh_get_resource_data (Some t) (ResourceId r) in
      let next := oh_get_resource_next (Some t) (ResourceId r) in
      if truthy data then
        match cells !! Z.to_nat (data - 1) with
        | None => None
        | Some hid => collect_removals fuel cells t id now next
                        (if hid =? id then removal id now r :: events else events)
        end
      else collect_removals fuel cells t id now next events
  end.

Fixpoint push_all {O} (l : list oh_event) : M O unit :=
  match l with [] => mret tt | ev :: l => oh_evt_queue_push ev;; push_all l end.

Definition oHpiHandlerDestroy (sid id : Z) : sapi unit :=
  refuse (sid =? 0) SA_ERR_HPI_INVALID_SESSION;;
  refuse (id =? 0) SA_ERR_HPI_INVALID_PARAMS;;
  d ← enter sid;
  initialised d;;
  rc ← act (oh_destroy_handler id);
  if truthy rc then leave d SA_ERR_HPI_ERROR None else
  on (x ← domain d;
      cs ← get cells;
      l ← ends (collect_removals (resource_fuel (rpt x)) cs (rpt x) id (e_now e)
                  (oh_get_resource_next (Some (rpt x)) SAHPI_FIRST_ENTRY) []);
      push_all l);;
  leave d SA_OK None.

Definition oHpiHandlerInfo (sid id : Z) (info : bool) (conf_params : option (gmap string string))
    : sapi (option (oHpiHandlerInfoT * gmap string string)) :=
  refuse (sid =? 0) SA_ERR_HPI_INVALID_SESSION;;
  refuse ((id =? 0) || negb info || negb (bool_decide (is_Some conf_params))) SA_ERR_HPI_INVALID_PARAMS;;
  refuse (negb (bool_decide (size (default ∅ conf_params) = 0%nat))) SA_ERR_HPI_INVALID_PARAMS;;
  d ← enter sid;
  initialised d;;
  r ← act (oh_get_handler_info id info conf_params);
  leave d r.1 (Some r.2).

Definition oHpiHandlerGetNext (sid id : Z) (next_id : bool) : sapi Z :=
  refuse (sid =? 0) SA_ERR_HPI_INVALID_SESSION;;
  refuse (negb next_id) SA_ERR_HPI_INVALID_PARAMS;;
  d ← enter sid;
  initialised d;;
  r ← act (oh_getnext_handler_id id next_id);
  leave d (if truthy r.1 then SA_ERR_HPI_NOT_PRESENT else SA_OK) (Some r.2).

Definition oHpiHandlerFind (sid rid : Z) (id : bool) : sapi Z :=
  refuse (sid =? 0) SA_ERR_HPI_INVALID_SESSION;;
  refuse (negb id || negb (truthy rid)) SA_ERR_HPI_INVALID_PARAMS;;
  d ← enter sid;
  initialised d;;
  hid ← on (x ← domain d; mret (oh_get_resource_data (Some (rpt x)) rid));
  if hid =? 0 then leave d SA_ERR_HPI_INVALID_RESOURCE None else
  h ← on (cell hid);
  leave d SA_OK (Some h).

Definition oHpiHandlerRetry (sid id : Z) : sapi unit :=
  refuse (sid =? 0) SA_ERR_HPI_INVALID_SESSION;;
  refuse (id =? 0) SA_ERR_HPI_INVALID_PARAMS;;
  d ← enter sid;
  initialised d;;
  h ← act (Plugin.oh_get_handler id);
  match h with
  | None => leave d SA_ERR_HPI_NOT_PRESENT None
  | Some h =>
      error ← act (
        x ← handler_at h;
        match Plugin.hnd x with
        | Some _ => mret SA_OK
        | None =>
            can_open ← abi_has x "open";
            if negb can_open then Plugin.undefined else
            l ← Plugin.call (AbiOpen (Plugin.id x) (plugin_name x) (config x));
            on_handler h (fun x => x <| Plugin.hnd := abi_open l |>);;
            mret (match abi_open l with None => SA_ERR_HPI_INTERNAL_ERROR | Some _ => SA_OK end)
        end);
      act (Plugin.oh_release_handler (Some h));;
      leave d error None
  end.

(** A type that is 0 is refused; the union is cast to that of [conf.c]. *)
Definition oHpiGlobalParamGet (sid : Z) (param : option (Z * param_union)) : sapi param_union :=
  refuse (sid =? 0) SA_ERR_HPI_INVALID_SESSION;;
  refuse (match param with None => true | Some (type, _) => type =? 0 end) SA_ERR_HPI_INVALID_PARAMS;;
  d ← enter sid;
  initialised d;;
  r ← act (fun s => let '(rc, g, u) := oh_get_global_param getenv param (params s) in
                    Plugin.Done (rc, u) (s <| params := g |>));
  if truthy r.1 then leave d SA_ERR_HPI_UNKNOWN None else leave d SA_OK r.2.

Definition oHpiGlobalParamSet (sid : Z) (param : option (Z * param_union)) : sapi unit :=
  refuse (sid =? 0) SA_ERR_HPI_INVALID_SESSION;;
  refuse (match param with None => true | Some (type, _) => type =? 0 end) SA_ERR_HPI_INVALID_PARAMS;;
  d ← enter sid;
  initialised d;;
  rc ← act (fun s => let '(rc, g) := oh_set_global_param getenv param (params s) in
                     Plugin.Done rc (s <| params := g |>));
  leave d (if truthy rc then SA_ERR_HPI_ERROR else SA_OK) None.

Definition oHpiInjectEvent (sid id : Z) (event : option SaHpiEventT) (rpte : option SaHpiRptEntryT)
    (rdr : option SaHpiRdrT) : sapi unit :=
  refuse (sid =? 0) SA_ERR_HPI_INVALID_SESSION;;
  refuse (id =? 0) SA_ERR_HPI_INVALID_PARAMS;;
  match event, rpte, rdr with
  | Some event, Some rpte, Some rdr =>
      d ← enter sid;
      initialised d;;
      h ← act (Plugin.oh_get_handler id);
      r ← act (match h with
               | None => mret None
               | Some h =>
                   x ← handler_at h;
                   can ← abi_has x "inject_event";
                   if negb can then mret None else
                   l ← Plugin.call (AbiInject (Plugin.id x) (Plugin.hnd x) event rpte rdr);
                   mret (Some (abi_result l))
               end);
      act (Plugin.oh_release_handler h);;
      leave d (default SA_ERR_HPI_INVALID_CMD r) None
  | _, _, _ => on (fail SA_ERR_HPI_INVALID_PARAMS)
  end.
End functions.

(** ** Rules *)

(** The registry and the daemon are well formed, nothing is held, and the
    handlers of the one are those of the other. *)
Record system_ok (g : global_params) (s : system) : Prop := {
  sys_registry : registry_ok s.2;
  sys_daemon : idle_daemon g s.1;
  sys_view : handlers s.1 = view s.2 }.

(** The domain [d] is held. *)
Definition hold (d : Z) (s : system) : system := (s.1 <| held_domains := [d] |>, s.2).

Section rules.
Context `{Environment} (e : env) (g : global_params).

Definition ends_with {O A} (m : Sys O A) (Q : A -> system -> Prop) (E : Z -> option O -> system -> Prop)
    (s : system) : Prop :=
  match m s with
  | (Next a, s) => Q a s
  | (Return rv out, s) => E rv out s
  | _ => False
  end.

Lemma ew_bind {O A B} (m : Sys O A) (k : A -> Sys O B) Q E s :
  ends_with m (fun a s => ends_with (k a) Q E s) E s -> ends_with (m ≫= k) Q E s.
Proof. unfold ends_with, mbind, Sys_bind. by destruct (m s) as [[] ?]. Qed.
Lemma ew_refuse {O} b rv (Q : unit -> system -> Prop) (E : Z -> option O -> system -> Prop) s :
  (b = true -> E rv None s) -> (b = false -> Q tt s) -> ends_with (refuse b rv) Q E s.
Proof. destruct s, b; unfold ends_with; cbn; auto. Qed.

Lemma ew_enter {O} sid (Q : Z -> system -> Prop) (E : Z -> option O -> system -> Prop) s :
  held_domains s.1 = [] -> (forall rv, rv <> SA_OK -> E rv None s) ->
  (forall d x, d = home sid s.1 -> dt_table (doms s.1) !! d = Some x -> Q d (hold d s)) ->
  ends_with (enter sid) Q E s.
Proof.
  destruct s as [w r]. cbn [fst snd]. intros Hh HE HQ. unfold ends_with, enter, on, OH_CHECK_INIT_STATE, mbind, M_bind, get.
  destruct (fst (oh_get_session_subscription sid true (sessions w)) =? SA_OK) eqn:E1; cbn [negb reject when fail return_].
  - unfold mret, M_ret, OH_GET_DID, mbind, M_bind, get.
    destruct (oh_get_session_domain sid (sessions w) =? _) eqn:E2; cbn [reject when fail return_]; [by apply HE|].
    unfold mret, M_ret, OH_GET_DOMAIN. destruct (oh_get_domain _ _) as [x|] eqn:E3; [|by apply HE].
    unfold hold in HQ. cbn [fst snd] in HQ.
    assert (Es : w <| held_domains ::= cons (home sid w) |> = w <| held_domains := [home sid w] |>).
    { unfold set_field. by rewrite Hh. }
    change (Q (home sid w) (w <| held_domains ::= cons (home sid w) |>, r)). rewrite Es.
    by apply (HQ _ x).
  - apply HE. intros E2. rewrite E2 in E1. done.
Qed.

(** A function that holds the domain [d] of the session [sid] in a system that was
    [s0] at its beginning. *)
Record inside (sid d : Z) (s0 s : system) : Prop := {
  in_registry : registry_ok s.2;
  in_daemon : daemon_ok g s.1;
  in_home : d = home sid s0.1;
  in_held : held_domains s.1 = [d];
  in_free : held_handlers s.1 = [];
  in_view : handlers s.1 = view s.2;
  in_domain : is_Some (dt_table (doms s.1) !! d) }.

Lemma daemon_ok_ext w w' : daemon_ok g w -> sessions w' = sessions w -> dt_table (doms w') = dt_table (doms w) ->
  dat_files w' = dat_files w -> cells w' = cells w -> daemon_ok g w'.
Proof. intros [] E1 E2 E3 E4. split; by rewrite ?E1, ?E2, ?E3, ?E4. Qed.

Lemma inside_hold sid d x s : system_ok g s -> d = home sid s.1 -> dt_table (doms s.1) !! d = Some x ->
  inside sid d s (hold d s).
Proof.
  intros [Hr [Hd Hh Hf] Hv] Ed Hx. split; try done. by apply (daemon_ok_ext s.1).
Qed.

Lemma ew_act {O A} (m : R A) (Q : A -> system -> Prop) (E : Z -> option O -> system -> Prop) s :
  runs m s.2 (fun a r => Q a (s.1 <| handlers := view r |>, r)) -> ends_with (act m) Q E s.
Proof. destruct s as [w r]. unfold runs, ends_with, act. cbn [fst snd]. by destruct (m r). Qed.
(** The registry after an operation. *)
Lemma inside_act sid d s0 s r : inside sid d s0 s -> registry_ok r -> inside sid d s0 (s.1 <| handlers := view r |>, r).
Proof. intros [] Hr. split; try done. by apply (daemon_ok_ext s.1). Qed.
Lemma act_inside {O A} (m : R A) (Q : A -> system -> Prop) (E : Z -> option O -> system -> Prop) sid d s0 s :
  inside sid d s0 s -> runs m s.2 (fun a r => registry_ok r /\ (inside sid d s0 (s.1 <| handlers := view r |>, r) ->
    Q a (s.1 <| handlers := view r |>, r))) -> ends_with (act m) Q E s.
Proof.
  intros Hs Hm. apply ew_act. eapply runs_mono; [exact Hm|]. cbv beta. intros a r [Hr HQ]. apply HQ.
  by apply inside_act.
Qed.

(** [s] without what is held. *)
Definition let_go (s : system) : system := (s.1 <| held_domains := [] |>, s.2).
Lemma ew_leave {O A} sid d s0 s rv (out : option O) (Q : A -> system -> Prop) E : inside sid d s0 s ->
  (system_ok g (let_go s) -> E rv out (let_go s)) -> ends_with (leave d rv out) Q E s.
Proof.
  intros [Hr Hd Eh Hh Hf Hv Hx] HE. destruct s as [w r]. cbn [fst snd] in *.
  unfold ends_with, leave, on, mbind, M_bind, oh_release_domain. rewrite Hh.
  rewrite bool_decide_true by by left. cbn [return_].
  assert (Es : w <| held_domains ::= remove_first d |> = w <| held_domains := [] |>).
  { unfold set_field. rewrite Hh. cbn. by rewrite Z.eqb_refl. }
  rewrite Es. apply HE. split; [done| |done]. split; [|done|done]. by apply (daemon_ok_ext w).
Qed.
Lemma ew_init {O} sid d s0 s (Q : unit -> system -> Prop) (E : Z -> option O -> system -> Prop) : inside sid d s0 s ->
  (system_ok g (let_go s) -> E SA_ERR_HPI_INTERNAL_ERROR None (let_go s)) -> Q tt s -> ends_with (initialised e d) Q E s.
Proof. intros Hs HE HQ. unfold initialised. destruct (e_init e); [by destruct s|]. by eapply ew_leave. Qed.

Lemma runs_drop {A} (m : R A) s (Q : registry -> Prop) :
  runs (_ ← m; mret tt) s (fun _ => Q) -> runs m s (fun _ => Q).
Proof. unfold runs, mbind, R_bind, mret, R_ret. by destruct (m s). Qed.

(** The domain and what is read of it. *)
Lemma ew_domain {O A} (k : oh_domain -> M O A) sid d s0 s Q E : inside sid d s0 s ->
  (forall x, dt_table (doms s.1) !! d = Some x -> ends_with (on (k x)) Q E s) ->
  ends_with (on (x ← domain d; k x)) Q E s.
Proof.
  intros [_ _ _ Hh _ _ [x Hx]] HQ. destruct s as [w r]. cbn [fst snd] in *.
  specialize (HQ x Hx). unfold ends_with, on, mbind, M_bind, domain in *.
  rewrite Hh, bool_decide_true by by left. by rewrite Hx.
Qed.

(** A handler that was looked up is used and released; meanwhile [f] may have
    changed it. *)
Lemma set_hnd_ok s h x r : registry_ok s -> Plugin.handlers s !! h = Some x ->
  registry_ok (upd_handler h (x <| Plugin.hnd := r |>) s).
Proof.
  intros [P [] A U] Hx. unfold PluginCorrect.users in U. split; [by apply (plugins_ok_ext s)|split| |unfold PluginCorrect.users].
  - intros k. cbn. rewrite lookup_insert_is_Some', handlers_live. split; [|by right].
    intros [<-|?]; [|done]. apply handlers_live. by eexists.
  - done.
  - intros k z Hz. cbn in Hz |- *. apply lookup_insert_Some in Hz as [[<- <-]|[? Hz]]; [|by apply handler_idle].
    by apply (handler_idle h x).
  - intros i k Hk. cbn in Hk |- *. destruct (table_entry i k Hk) as (z & Hz & Ez).
    destruct (decide (k = h)) as [->|]; [|exists z; by rewrite lookup_insert_ne].
    exists (x <| Plugin.hnd := r |>). rewrite lookup_insert_eq. split; [done|]. cbn. congruence.
  - done.
  - intros k z Hz. cbn in Hz |- *. apply lookup_insert_Some in Hz as [[<- <-]|[? Hz]]; [|by apply (A k)].
    by apply (A h x).
  - intros p z Hz. cbn in Hz |- *. rewrite map_filter_insert. cbn [snd].
    change (Plugin.abi (x <| Plugin.hnd := r |>)) with (Plugin.abi x). rewrite (U p z Hz).
    set (m := filter _ (Plugin.handlers s)). case_decide as Ep.
    + rewrite fin_maps.map_size_insert_Some; [done|]. exists x. by apply map_lookup_filter_Some.
    + rewrite map_filter_delete, delete_id; [done|]. apply map_lookup_filter_None. right. intros z'. rewrite Hx. by intros [= <-].
Qed.

Lemma let_go_hold d s : held_domains s.1 = [] -> let_go (hold d s) = s.
Proof. destruct s as [[] r]. cbn. by intros ->. Qed.
Lemma let_go_act d s r' : held_domains s.1 = [] ->
  let_go ((hold d s).1 <| handlers := view r' |>, r') = (s.1 <| handlers := view r' |>, r').
Proof. destruct s as [[] r]. cbn. by intros ->. Qed.

(** The common beginning: the session and its domain are found, or an error is
    returned and nothing has changed. *)
Lemma ew_begin {O A} sid (k : Z -> Sys O A) Q E s : system_ok g s ->
  (forall rv, rv <> SA_OK -> E rv None s) ->
  (forall d x, inside sid d s (hold d s) -> dt_table (doms s.1) !! d = Some x -> ends_with (k d) Q E (hold d s)) ->
  ends_with (d ← enter sid; initialised e d;; k d) Q E s.
Proof.
  intros Hs HE HQ. destruct (sys_daemon _ _ Hs) as [_ Hh _]. apply ew_bind, ew_enter; [done|done|].
  intros d x Ed Hx. pose proof (inside_hold sid d x s Hs Ed Hx) as Hin. apply ew_bind. eapply ew_init; [done| |].
  - intros _. rewrite let_go_hold by done. by apply HE.
  - by apply (HQ d x).
Qed.

(** Every path returns, to a well-formed system. *)
Definition answered {O} (m : sapi O) (s : system) : Prop :=
  ends_with m (fun _ _ => False) (fun _ _ s' => system_ok g s') s.
Lemma answered_returns {O} (m : sapi O) s : answered m s ->
  exists rv out s', m s = (Return rv out, s') /\ system_ok g s'.
Proof. unfold answered, ends_with. destruct (m s) as [[[]|rv out| |] s']; try done. intros Hs. by exists rv, out, s'. Qed.

(** An operation of the registry that keeps it consistent. *)
Lemma command_inside {O A} (m : R A) (k : A -> Sys O Empty_set) sid d s0 s : inside sid d s0 s ->
  runs m s.2 (fun _ r => registry_ok r) ->
  (forall a s', inside sid d s0 s' -> answered (k a) s') -> answered (a ← act m; k a) s.
Proof.
  intros Hs Hm Hk. apply ew_bind. eapply act_inside; [done|]. eapply runs_mono; [exact Hm|]. cbv beta.
  intros a r Hr. split; [done|]. intros Hin. by apply Hk.
Qed.
Lemma run_command_ok c (s : registry) : registry_ok s -> handler_id s + 1 < 2 ^ 32 -> terminated c ->
  runs (run_command c) s (fun _ r => registry_ok r).
Proof. intros Hs Hid Hc. eapply runs_mono; [by apply command_safe|]. cbv beta. tauto. Qed.
Lemma answered_leave {O} d rv (out : option O) sid s0 s : inside sid d s0 s -> answered (leave d rv out) s.
Proof. intros Hs. by eapply ew_leave. Qed.

Lemma create_answered sid cfg b s : system_ok g s -> handler_id s.2 + 1 < 2 ^ 32 ->
  (forall c, cfg = Some c -> map_Forall (fun _ v => is_Some (c_string v)) c) -> answered (oHpiHandlerCreate e sid cfg b) s.
Proof.
  intros Hs Hid Hc. unfold answered, oHpiHandlerCreate. apply ew_bind, ew_refuse; [done|intros _].
  apply ew_bind, ew_refuse; [done|]. intros Hcfg. apply ew_bind, ew_refuse; [done|intros _].
  apply ew_begin; [done|done|]. intros d x Hin _. eapply command_inside; [done| |].
  - destruct cfg as [c|]; [|done]. destruct b; [|done].
    apply runs_drop. by apply (run_command_ok (Create c) s.2); [apply Hs|done|apply Hc].
  - intros a s' Hin'. by eapply answered_leave.
Qed.

Lemma info_answered sid id i c s : system_ok g s -> handler_id s.2 + 1 < 2 ^ 32 -> answered (oHpiHandlerInfo e sid id i c) s.
Proof.
  intros Hs Hid. unfold answered, oHpiHandlerInfo. apply ew_bind, ew_refuse; [done|intros _].
  apply ew_bind, ew_refuse; [done|intros Hi]. apply ew_bind, ew_refuse; [done|intros Hc].
  apply ew_begin; [done|done|]. intros d x Hin _. eapply command_inside; [done| |].
  - destruct c as [c|]; [|by rewrite orb_true_r in Hi]. destruct i; [|by rewrite orb_true_r in Hi].
    assert (c = ∅) as ->. { apply negb_false_iff, bool_decide_eq_true in Hc. by apply map_size_empty_iff. }
    apply runs_drop. by apply (run_command_ok (Info id) s.2); [apply Hs|done|].
  - intros a s' Hin'. by eapply answered_leave.
Qed.

Lemma getnext_answered sid id b s : system_ok g s -> handler_id s.2 + 1 < 2 ^ 32 -> answered (oHpiHandlerGetNext e sid id b) s.
Proof.
  intros Hs Hid. unfold answered, oHpiHandlerGetNext. apply ew_bind, ew_refuse; [done|intros _].
  apply ew_bind, ew_refuse; [done|intros Hb].
  apply ew_begin; [done|done|]. intros d x Hin _. eapply command_inside; [done| |].
  - destruct b; [|done]. apply runs_drop. by apply (run_command_ok (NextHandler id) s.2); [apply Hs|done|].
  - intros a s' Hin'. by eapply answered_leave.
Qed.

Lemma params_answered {O A} (f : registry -> A * global_params) (k : A -> sapi O) sid d s0 s : inside sid d s0 s ->
  (forall a s', inside sid d s0 s' -> answered (k a) s') ->
  answered (a ← act (fun s => let '(a, g) := f s in Plugin.Done a (s <| params := g |>)); k a) s.
Proof.
  intros Hs Hk. eapply command_inside; [done| |done]. unfold runs. destruct (f s.2) as [a g'].
  apply (registry_ok_ext s.2); try done. apply Hs.
Qed.

Lemma paramget_answered sid p s : system_ok g s -> answered (oHpiGlobalParamGet e sid p) s.
Proof.
  intros Hs. unfold answered, oHpiGlobalParamGet. apply ew_bind, ew_refuse; [done|intros _].
  apply ew_bind, ew_refuse; [done|intros _]. apply ew_begin; [done|done|]. intros d x Hin _.
  eapply (command_inside (O := param_union)); [done| |].
  - unfold runs. destruct (oh_get_global_param getenv p _) as [[rc g'] u]. apply (registry_ok_ext s.2); try done. apply Hs.
  - intros [rc u] s' Hin'. cbn [fst snd]. destruct (truthy rc); by eapply answered_leave.
Qed.
Lemma paramset_answered sid p s : system_ok g s -> answered (oHpiGlobalParamSet e sid p) s.
Proof.
  intros Hs. unfold answered, oHpiGlobalParamSet. apply ew_bind, ew_refuse; [done|intros _].
  apply ew_bind, ew_refuse; [done|intros _]. apply ew_begin; [done|done|]. intros d x Hin _.
  eapply (command_inside (O := unit)); [done| |].
  - unfold runs. destruct (oh_set_global_param getenv p _) as [rc g']. apply (registry_ok_ext s.2); try done. apply Hs.
  - intros rc s' Hin'. by eapply answered_leave.
Qed.

Lemma ew_cell {O} p (Q : Z -> system -> Prop) (E : Z -> option O -> system -> Prop) s :
  0 < p <= Z.of_nat (length (cells s.1)) -> (forall h, cells s.1 !! Z.to_nat (p - 1) = Some h -> Q h s) ->
  ends_with (on (cell p)) Q E s.
Proof.
  intros Hp HQ. destruct s as [w r]. cbn [fst] in *. unfold ends_with, on, cell.
  rewrite (proj2 (Z.leb_gt _ _)) by lia. destruct (cells w !! _) as [h|] eqn:Ec; [by apply HQ|].
  apply lookup_ge_None in Ec. lia.
Qed.

Lemma find_answered sid rid b s : system_ok g s -> answered (oHpiHandlerFind e sid rid b) s.
Proof.
  intros Hs. unfold answered, oHpiHandlerFind. apply ew_bind, ew_refuse; [done|intros _].
  apply ew_bind, ew_refuse; [done|intros _]. apply ew_begin; [done|done|]. intros d x Hin Hx.
  apply ew_bind. eapply ew_domain; [done|]. intros y Hy.
  assert (y = x) as -> by (cbn in Hy; congruence). change (ends_with (A := Z) (on (mret ?z)) ?Q ?E ?s) with (Q z s).
  unfold ends_with at 1. cbn [on mret M_ret].
  pose proof (ok_rpt _ _ (id_ok _ _ (sys_daemon _ _ Hs)) _ _ Hx) as Ht.
  pose proof (resource_data_range _ _ rid Ht) as Hr.
  destruct (Z.eqb_spec (oh_get_resource_data (Some (rpt x)) rid) 0) as [E0|E0]; [by eapply answered_leave|].
  apply ew_bind, ew_cell; [cbn; lia|]. intros h _. by eapply answered_leave.
Qed.

(** A lookup, a use that may set the instance and is logged, and the release. *)
Definition touched (h : nat) (x : Plugin.oh_handler) (i : option Z) (tail : list Plugin.plugin_call) (s : registry) : registry :=
  logged tail (upd_handler h (x <| Plugin.hnd := i |>) s).
Lemma touched_ok h x i tail s : registry_ok s -> Plugin.handlers s !! h = Some x -> registry_ok (touched h x i tail s).
Proof. intros Hs Hx. by apply logged_ok, set_hnd_ok. Qed.

(** Between the lookup and the release. *)
Definition busy (h : nat) (x : Plugin.oh_handler) (s : registry) : registry := upd_handler h (hold_handler x) s.
Lemma release_touched h x i tail s : refcount x = 0 -> locks x = 0%nat ->
  Plugin.oh_release_handler (Some h) (touched h (hold_handler x) i tail (busy h x s)) =
  Plugin.Done tt (touched h x i tail s).
Proof.
  intros Hr Hl. rewrite (release_handler_eq h (hold_handler x <| Plugin.hnd := i |>)).
  - f_equal. unfold touched, busy. same_state. cbn. rewrite !insert_insert_eq. f_equal.
    destruct x. unfold hold_handler, set_field. cbn. by rewrite Z.pred_succ.
  - apply lookup_insert_eq.
  - cbn. lia.
  - cbn. lia.
Qed.
Lemma busy_same h x s : touched h (hold_handler x) (Plugin.hnd x) [] (busy h x s) = busy h x s.
Proof. unfold touched, busy. rewrite logged_nil. same_state. cbn. rewrite insert_insert_eq. by destruct x. Qed.

Lemma ew_act_eq {O A B} (m : R A) (k : A -> Sys O B) Q E a (w : daemon) r r' : m r = Plugin.Done a r' ->
  ends_with (k a) Q E (w <| handlers := view r' |>, r') -> ends_with (a ← act m; k a) Q E (w, r).
Proof. intros Em Hk. apply ew_bind, ew_act. unfold runs. cbn [fst snd]. by rewrite Em. Qed.

Lemma inject_answered sid id ev rp rd s : system_ok g s -> answered (oHpiInjectEvent e sid id ev rp rd) s.
Proof.
  intros Hs. unfold answered, oHpiInjectEvent. apply ew_bind, ew_refuse; [done|intros _].
  apply ew_bind, ew_refuse; [done|intros _].
  assert (Hfail : answered (O := unit) (on (fail SA_ERR_HPI_INVALID_PARAMS)) s) by by destruct s.
  destruct ev as [ev|]; [|exact Hfail]. destruct rp as [rp|]; [|exact Hfail]. destruct rd as [rd|]; [|exact Hfail].
  apply ew_begin; [done|done|]. intros d y Hin _. destruct s as [w r]. unfold hold in *. cbn [fst snd] in *.
  pose proof (in_registry _ _ _ _ Hin) as Hok. cbn in Hok. pose proof (reg_handlers _ Hok) as Hh.
  destruct (handler_table r !! id) as [h|] eqn:Et.
  - destruct (table_entry _ Hh _ _ Et) as (x & Hx & _). destruct (abi_live _ Hok _ _ Hx) as (z & Hz & _).
    destruct (handler_idle _ Hh _ _ Hx) as (Hr & Hl & _).
    eapply ew_act_eq; [by apply (get_handler_some _ _ h x)|].
    set (use := fun l : list Plugin.plugin_call => Some (abi_result l)).
    assert (Huse : exists r1 rv i tail, (x0 ← handler_at h; can ← abi_has x0 "inject_event";
        if negb can then mret None else
        l ← Plugin.call (AbiInject (Plugin.id x0) (Plugin.hnd x0) ev rp rd); mret (use l)) (busy h x r) =
      Plugin.Done rv r1 /\ r1 = touched h (hold_handler x) i tail (busy h x r)).
    { run (handler_at_eq h (hold_handler x) (busy h x r) (lookup_insert_eq _ _ _)).
      run (abi_has_eq (hold_handler x) z "inject_event" (busy h x r) Hz). destruct (bool_decide _); cbn [negb].
      - run (call_eq _ _). eexists _, _, (Plugin.hnd x), _. split; [done|]. rewrite <- (busy_same h x r) at 1.
        unfold touched. by rewrite logged_app.
      - eexists _, _, (Plugin.hnd x), []. split; [done|]. by rewrite busy_same. }
    destruct Huse as (r1 & rv & i & tail & Eu & ->). eapply ew_act_eq; [exact Eu|].
    eapply ew_act_eq; [by apply release_touched|]. eapply answered_leave.
    exact (inside_act _ _ _ _ _ Hin (touched_ok h x i tail r Hok Hx)).
  - eapply (ew_act_eq _ _ _ _ None _ _ r).
    { unfold Plugin.oh_get_handler. run (get_eq handler_table r). by rewrite Et. }
    eapply (ew_act_eq _ _ _ _ None _ _ r); [done|]. eapply (ew_act_eq _ _ _ _ tt _ _ r); [done|].
    eapply answered_leave. exact (inside_act _ _ _ _ _ Hin Hok).
Qed.

Lemma retry_answered sid id s : system_ok g s -> answered (oHpiHandlerRetry e sid id) s.
Proof.
  intros Hs. unfold answered, oHpiHandlerRetry. apply ew_bind, ew_refuse; [done|intros _].
  apply ew_bind, ew_refuse; [done|intros _].
  apply ew_begin; [done|done|]. intros d y Hin _. destruct s as [w r]. unfold hold in *. cbn [fst snd] in *.
  pose proof (in_registry _ _ _ _ Hin) as Hok. cbn in Hok. pose proof (reg_handlers _ Hok) as Hh.
  destruct (handler_table r !! id) as [h|] eqn:Et.
  - destruct (table_entry _ Hh _ _ Et) as (x & Hx & _). destruct (abi_live _ Hok _ _ Hx) as (z & Hz & _).
    destruct (handler_idle _ Hh _ _ Hx) as (Hr & Hl & _).
    destruct (plugin_idle _ (reg_plugins _ Hok) _ _ Hz) as (_ & Hopen & _).
    eapply ew_act_eq; [by apply (get_handler_some _ _ h x)|]. fold (busy h x r). cbv iota beta.
    match goal with |- context [act (O := unit) (handler_at h ≫= ?k)] => assert (Huse : exists rv i tail,
      (handler_at h ≫= k) (busy h x r) = Plugin.Done rv (touched h (hold_handler x) i tail (busy h x r))) end.
    { run (handler_at_eq h (hold_handler x) (busy h x r) (lookup_insert_eq _ _ _)).
      change (Plugin.hnd (hold_handler x)) with (Plugin.hnd x).
      destruct (Plugin.hnd x) as [i|] eqn:Ei.
      - exists SA_OK, (Some i), []. rewrite <- Ei. by rewrite busy_same.
      - run (abi_has_eq (hold_handler x) z "open" (busy h x r) Hz). rewrite bool_decide_true by done. cbn [negb].
        run (call_eq _ _). set (c := AbiOpen _ _ _). set (i := abi_open _).
        run (on_handler_eq h (fun y => y <| Plugin.hnd := i |>) (hold_handler x) (logged [c] (busy h x r)) (lookup_insert_eq _ _ _)).
        eexists _, i, [c]. done. }
    destruct Huse as (rv & i & tail & Eu). eapply ew_act_eq; [exact Eu|].
    eapply ew_act_eq; [by apply release_touched|]. eapply answered_leave.
    exact (inside_act _ _ _ _ _ Hin (touched_ok h x i tail r Hok Hx)).
  - eapply (ew_act_eq _ _ _ _ None _ _ r).
    { unfold Plugin.oh_get_handler. run (get_eq handler_table r). by rewrite Et. }
    eapply answered_leave. exact (inside_act _ _ _ _ _ Hin Hok).
Qed.

(** *** Destroying a handler *)

(** The private data of the resource names the handler. *)
Definition of_handler (id : Z) (cells : list Z) (t : RPTable) (r : SaHpiRptEntryT) : bool :=
  let p := oh_get_resource_data (Some t) (ResourceId r) in
  truthy p && match cells !! Z.to_nat (p - 1) with Some hid => hid =? id | None => false end.
(** The events that tell that the resources of the handler are gone. *)
Definition removals (id now : Z) (cells : list Z) (t : RPTable) : list oh_event :=
  removal id now <$> List.filter (of_handler id cells t) (resources t).

Lemma collect_removals_eq fuel cells t id now l1 l2 evs : table_ok (length cells) t -> resources t = (l1 ++ l2)%list ->
  (length l2 <= fuel)%nat ->
  collect_removals fuel cells t id now (head l2) evs =
    Some (rev (removal id now <$> List.filter (of_handler id cells t) l2) ++ evs)%list.
Proof.
  intros Ht. revert l1 l2 evs. induction fuel as [|fuel IH]; intros l1 [|x l2] evs El Hf; try done; [cbn in Hf; lia|].
  cbn [head collect_removals List.filter]. cbn [length] in Hf.
  rewrite (resource_next t l1 x l2 (to_rpt _ _ Ht) El).
  assert (El' : resources t = ((l1 ++ [x]) ++ l2)%list) by by rewrite El, <- app_assoc.
  pose proof (resource_data_range _ _ (ResourceId x) Ht) as Hr. unfold of_handler at 1.
  destruct (truthy (oh_get_resource_data (Some t) (ResourceId x))) eqn:Ed; cbn [andb].
  - apply truthy_true in Ed. destruct (cells !! _) as [hid|] eqn:Ec.
    + rewrite (IH _ _ _ El') by lia. destruct (hid =? id); [|done].
      rewrite fmap_cons. cbn [rev]. by rewrite <- app_assoc.
    + apply lookup_ge_None in Ec. lia.
  - by apply (IH _ _ _ El'); lia.
Qed.

Definition pushed (l : list oh_event) (w : daemon) : daemon :=
  w <| doms ::= fun t => t <| process_q ::= fun q => (q ++ l)%list |> |>.
Lemma push_all_eq {O} l w : push_all (O := O) l w = (Next tt, pushed l w).
Proof.
  revert w. induction l as [|ev l IH]; intros w.
  - unfold pushed, push_all, mret, M_ret. f_equal. destruct w as [[]]. unfold set_field. cbn. by rewrite app_nil_r.
  - cbn [push_all]. unfold mbind, M_bind, oh_evt_queue_push, modify. rewrite IH. f_equal.
    unfold pushed. destruct w as [[]]. unfold set_field. cbn. by rewrite <- app_assoc.
Qed.

(** The session is open and its domain is [d]. *)
Definition in_session (sid d : Z) (s : system) : Prop := enter (O := unit) sid s = (Next d, hold d s).

Lemma destroy_rest d sid id s r x : system_ok g s -> dt_table (doms s.1) !! d = Some x ->
  inside sid d s ((hold d s).1 <| handlers := view r |>, r) ->
  (on (x ← domain d;
      cs ← get cells;
      l ← ends (collect_removals (resource_fuel (rpt x)) cs (rpt x) id (e_now e)
                  (oh_get_resource_next (Some (rpt x)) SAHPI_FIRST_ENTRY) []);
      push_all l);; leave (O := unit) (A := Empty_set) d SA_OK None) ((hold d s).1 <| handlers := view r |>, r) =
  (Return SA_OK None, (pushed (rev (removals id (e_now e) (cells s.1) (rpt x))) (s.1 <| handlers := view r |>), r)).
Proof.
  intros Hs Hx Hin. destruct s as [w r0]. cbn [fst snd hold] in *.
  pose proof (ok_rpt _ _ (id_ok _ _ (sys_daemon _ _ Hs)) _ _ Hx) as Ht. cbn [fst] in Ht.
  destruct (sys_daemon _ _ Hs) as [_ Hh Hf]. cbn [fst] in Hh, Hf.
  unfold mbind at 1, Sys_bind at 1, on at 1. unfold mbind at 1, M_bind at 1, domain at 1.
  cbn [held_domains set_field]. rewrite bool_decide_true by by left.
  change (dt_table (doms (w <| held_domains := [d] |> <| handlers := view r |>)) !! d) with (dt_table (doms w) !! d).
  rewrite Hx. unfold mbind at 1, M_bind at 1, get at 1.
  change (cells (w <| held_domains := [d] |> <| handlers := view r |>)) with (cells w).
  assert (Efirst : oh_get_resource_next (Some (rpt x)) SAHPI_FIRST_ENTRY = head (resources (rpt x))).
  { rewrite res_next_view by apply Ht. by rewrite Z.eqb_refl, <- head_fmap. }
  rewrite Efirst, (collect_removals_eq _ _ _ _ _ [] (resources (rpt x))) by
    (done || (unfold resource_fuel; by rewrite resources_length)).
  cbn [ends]. unfold mbind at 1, M_bind at 1, mret at 1, M_ret at 1. rewrite push_all_eq, app_nil_r.
  unfold leave, on, mbind, M_bind, oh_release_domain.
  cbn [held_domains pushed set_field]. rewrite bool_decide_true by by left. cbn [return_].
  f_equal. f_equal. unfold removals, pushed, set_field. cbn. rewrite Z.eqb_refl. by rewrite Hh.
Qed.

Lemma refuse_no {O A} rv (k : Sys O A) s : (refuse (O := O) false rv;; k) s = k s.
Proof. by destruct s. Qed.
Lemma sys_bind_next {O A B} (m : Sys O A) (k : A -> Sys O B) s a s' : m s = (Next a, s') -> (m ≫= k) s = k a s'.
Proof. unfold mbind, Sys_bind. by intros ->. Qed.

(** What [oHpiHandlerDestroy] does in an open session. *)
Lemma destroy_eq sid d id s x : system_ok g s -> e_init e = true -> sid <> 0 -> id <> 0 -> in_session sid d s ->
  inside sid d s (hold d s) -> dt_table (doms s.1) !! d = Some x ->
  match handler_table s.2 !! id with
  | None => oHpiHandlerDestroy e sid id s = (Return SA_ERR_HPI_ERROR None, s)
  | Some h => exists y z, Plugin.handlers s.2 !! h = Some y /\ Plugin.id y = id /\
      plugins s.2 !! Plugin.abi y = Some z /\
      let r := logged (close_calls y z) (destroyed h y z s.2) in registry_ok r /\
      oHpiHandlerDestroy e sid id s =
        (Return SA_OK None, (pushed (rev (removals id (e_now e) (cells s.1) (rpt x))) (s.1 <| handlers := view r |>), r))
  end.
Proof.
  intros Hs He Hsid Hid Hin_s Hin Hx. pose proof (sys_registry _ _ Hs) as Hok. pose proof (reg_handlers _ Hok) as Hh.
  assert (Hpre : forall m, ((refuse (sid =? 0) SA_ERR_HPI_INVALID_SESSION;; refuse (id =? 0) SA_ERR_HPI_INVALID_PARAMS;;
    d ← enter (O := unit) sid; initialised e d;; m d) s : outcome unit Empty_set * system) = m d (hold d s)).
  { intros m. rewrite (proj2 (Z.eqb_neq sid 0) Hsid), (proj2 (Z.eqb_neq id 0) Hid), !refuse_no.
    rewrite (sys_bind_next _ _ _ _ _ Hin_s). unfold initialised. by rewrite He. }
  unfold oHpiHandlerDestroy. rewrite Hpre. clear Hpre.
  destruct (handler_table s.2 !! id) as [h|] eqn:Et.
  - destruct (table_entry _ Hh _ _ Et) as (y & Hy & Eid). destruct (abi_live _ Hok _ _ Hy) as (z & Hz & Hn).
    exists y, z. set (r := logged _ _). assert (Hr : registry_ok r) by by apply logged_ok, destroyed_ok.
    split_and!; try done. pose proof (destroy_handler_eq s.2 id h y z Hok Et Hy Hz Hn) as Ed. fold r in Ed.
    pose proof (destroy_rest d sid id s r x Hs Hx (inside_act _ _ _ _ r Hin Hr)) as Erest.
    unfold mbind at 1, Sys_bind at 1, act at 1. destruct s as [w r0]. unfold hold in *. cbn [fst snd] in *. rewrite Ed.
    exact Erest.
  - assert (Ed : oh_destroy_handler id s.2 = Plugin.Done (-1) s.2).
    { unfold oh_destroy_handler. destruct (id <? 1); [done|]. unfold Plugin.oh_get_handler, mbind, R_bind, Plugin.get.
      by rewrite Et. }
    destruct (sys_daemon _ _ Hs) as [_ Hheld _]. pose proof (sys_view _ _ Hs) as Hv.
    unfold mbind at 1, Sys_bind at 1, act at 1. destruct s as [w r0]. unfold hold in *. cbn [fst snd] in *. rewrite Ed.
    cbn. unfold leave, on, mbind, M_bind, oh_release_domain. cbn [held_domains set_field].
    rewrite bool_decide_true by by left. cbn [return_]. f_equal. f_equal. destruct w. unfold set_field. cbn in *.
    rewrite Z.eqb_refl. by rewrite Hheld, Hv.
Qed.

Lemma destroy_answered sid id s : system_ok g s -> answered (oHpiHandlerDestroy e sid id) s.
Proof.
  intros Hs. unfold answered, oHpiHandlerDestroy. apply ew_bind, ew_refuse; [done|intros _].
  apply ew_bind, ew_refuse; [done|intros _]. apply ew_begin; [done|done|]. intros d x Hin Hx.
  pose proof (sys_registry _ _ Hs) as Hok. pose proof (reg_handlers _ Hok) as Hh.
  destruct (handler_table s.2 !! id) as [h|] eqn:Et.
  - destruct (table_entry _ Hh _ _ Et) as (y & Hy & Eid). destruct (abi_live _ Hok _ _ Hy) as (z & Hz & Hn).
    pose proof (destroy_handler_eq s.2 id h y z Hok Et Hy Hz Hn) as Ed. set (r := logged _ _) in Ed.
    assert (Hr : registry_ok r) by by apply logged_ok, destroyed_ok.
    pose proof (inside_act _ _ _ _ r Hin Hr) as Hin'. pose proof (destroy_rest d sid id s r x Hs Hx Hin') as Erest.
    eapply (ew_act_eq _ _ _ _ 0 _ _ r); [exact Ed|]. unfold ends_with.
    match goal with |- match ?t with _ => _ end => replace t with
      ((Return SA_OK None : outcome unit Empty_set), (pushed (rev (removals id (e_now e) (cells s.1) (rpt x))) (s.1 <| handlers := view r |>), r))
      by (symmetry; exact Erest) end.
    destruct (sys_daemon _ _ Hs) as [Hd ? ?]. split; [done| |done].
    split; [|done..]. by apply (daemon_ok_ext s.1).
  - eapply (ew_act_eq _ _ _ _ (-1) _ _ s.2).
    { unfold oh_destroy_handler. destruct (id <? 1); [done|]. unfold Plugin.oh_get_handler, mbind, R_bind, Plugin.get.
      by rewrite Et. }
    eapply answered_leave. exact (inside_act _ _ _ _ _ Hin Hok).
Qed.

(** C24: The extensions are answered.  In a well-formed system every function of
    [ohpi.c], on every argument, returns - without undefined behaviour, on the
    daemon or on the registry - to a well-formed system, with the domain and the
    handler released, and the handlers that the HPI functions see are those of the
    registry.  A configuration's values must be terminated, and the handler ids
    must not run out. *)
Theorem extensions_answered sid id s : system_ok g s -> handler_id s.2 + 1 < 2 ^ 32 ->
  let returns {O} (m : sapi O) := exists rv out s', m s = (Return rv out, s') /\ system_ok g s' in
  (forall cfg b, (forall c, cfg = Some c -> map_Forall (fun _ v => is_Some (c_string v)) c) ->
     returns (oHpiHandlerCreate e sid cfg b)) /\
  returns (oHpiHandlerDestroy e sid id) /\
  (forall b c, returns (oHpiHandlerInfo e sid id b c)) /\
  (forall b, returns (oHpiHandlerGetNext e sid id b)) /\
  (forall rid b, returns (oHpiHandlerFind e sid rid b)) /\
  returns (oHpiHandlerRetry e sid id) /\
  (forall p, returns (oHpiGlobalParamGet e sid p)) /\
  (forall p, returns (oHpiGlobalParamSet e sid p)) /\
  (forall ev rpte rdr, returns (oHpiInjectEvent e sid id ev rpte rdr)).
Proof.
  intros Hs Hid. split_and!; intros; apply answered_returns.
  - by apply create_answered.
  - by apply destroy_answered.
  - by apply info_answered.
  - by apply getnext_answered.
  - by apply find_answered.
  - by apply retry_answered.
  - by apply paramget_answered.
  - by apply paramset_answered.
  - by apply inject_answered.
Qed.

(** C25: Destroying a handler through the interface: in an open session, an id of
    no handler is refused without effect; else the handler is closed and removed,
    the HPI functions no longer see it, and an event that the resource is removed
    is queued for every resource of the domain that the handler owned, and for no
    other. *)
Theorem oHpiHandlerDestroy_correct sid d id s x : system_ok g s -> e_init e = true -> sid <> 0 -> id <> 0 ->
  in_session sid d s -> dt_table (doms s.1) !! d = Some x -> d = home sid s.1 ->
  (id ∉ (Plugin.id <$> the_handlers s.2) /\ oHpiHandlerDestroy e sid id s = (Return SA_ERR_HPI_ERROR None, s)) \/
  (id ∈ (Plugin.id <$> the_handlers s.2) /\ exists r q,
     oHpiHandlerDestroy e sid id s = (Return SA_OK None, (pushed q (s.1 <| handlers := view r |>), r)) /\
     registry_ok r /\ the_handlers r = List.filter (fun h => negb (Plugin.id h =? id)) (the_handlers s.2) /\
     view r !! id = None /\
     forall ev, ev ∈ q <-> exists rpte, rpte ∈ resources (rpt x) /\
       of_handler id (cells s.1) (rpt x) rpte = true /\ ev = removal id (e_now e) rpte).
Proof.
  intros Hs He Hsid Hid Hses Hx Ed. pose proof (sys_registry _ _ Hs) as Hok. pose proof (reg_handlers _ Hok) as Hh.
  pose proof (destroy_eq sid d id s x Hs He Hsid Hid Hses (inside_hold sid d x s Hs Ed Hx) Hx) as E.
  destruct (handler_table s.2 !! id) as [h|] eqn:Et; [right|left].
  - destruct E as (y & z & Hy & Eid & Hz & Hr & E). split.
    { apply list_elem_of_fmap. exists y. split; [done|]. apply list_elem_of_omap. exists h. split; [|done].
      apply handlers_live; [done|by eexists]. }
    eexists _, _. split; [exact E|]. split; [done|]. split_and!.
    + etransitivity; [apply (the_handlers_ext (destroyed h y z s.2)); done|].
      rewrite (the_handlers_destroyed _ _ _ _ Hh Hy), Eid. induction (the_handlers s.2) as [|k l IH]; [done|].
      rewrite filter_cons. cbn [List.filter]. rewrite IH.
      destruct (Z.eqb_spec (Plugin.id k) id); case_decide; done.
    + unfold view. rewrite lookup_omap. cbn. by rewrite Eid, lookup_delete_eq.
    + intros ev. rewrite list_elem_of_In, <- in_rev, <- list_elem_of_In. unfold removals.
      rewrite list_elem_of_fmap. split; intros (rpte & H1 & H2).
      * apply list_elem_of_In, filter_In in H2 as [H2 H3]. exists rpte. by rewrite list_elem_of_In.
      * destruct H2 as [H2 ->]. exists rpte. split; [done|]. apply list_elem_of_In, filter_In. by rewrite <- list_elem_of_In.
  - split; [|exact E]. intros (y & -> & (h & _ & Hy)%list_elem_of_omap)%list_elem_of_fmap.
    destruct (handler_idle _ Hh _ _ Hy) as (_ & _ & _ & _ & T). congruence.
Qed.
End rules.

(** ** Samples *)

(** The resource 7 of the example daemon belongs to the handler 1. *)
Definition sample_system : system :=
  (hub <| cells := [1] |> <| handlers := view sample_registry |>, sample_registry).
Lemma sample_system_ok : system_ok example_params sample_system.
Proof.
  split; [apply sample_registry_ok| |done]. destruct hub_idle as [Hd ? ?]. split; [|done..].
  destruct Hd as [H1 H2 H3 H4]. by split.
Qed.

Lemma extensions_answered_witness : exists rv out s',
  oHpiHandlerDestroy hub_env 1 1 sample_system = (Return rv out, s') /\ system_ok example_params s'.
Proof.
  exact (proj1 (proj2 (extensions_answered (H := sample_env) hub_env example_params 1 1 sample_system
    sample_system_ok ltac:(vm_compute; reflexivity)))).
Defined.

Lemma oHpiHandlerDestroy_correct_witness :
  (1 ∉ (Plugin.id <$> the_handlers sample_registry) /\
     oHpiHandlerDestroy hub_env 1 1 sample_system = (Return SA_ERR_HPI_ERROR None, sample_system)) \/
  (1 ∈ (Plugin.id <$> the_handlers sample_registry) /\ exists r q,
     oHpiHandlerDestroy hub_env 1 1 sample_system =
       (Return SA_OK None, (pushed q (sample_system.1 <| handlers := view r |>), r)) /\
     registry_ok r /\ the_handlers r = List.filter (fun h => negb (Plugin.id h =? 1)) (the_handlers sample_registry) /\
     view r !! 1 = None /\
     forall ev, ev ∈ q <-> exists rpte, rpte ∈ resources (rpt hub_domain) /\
       of_handler 1 [1] (rpt hub_domain) rpte = true /\ ev = removal 1 10 rpte).
Proof.
  exact (oHpiHandlerDestroy_correct hub_env example_params 1 0 1 sample_system hub_domain
    sample_system_ok eq_refl ltac:(discriminate) ltac:(discriminate) eq_refl eq_refl eq_refl).
Defined.
Example sample_destroyed :
  let '(res, (w, r)) := oHpiHandlerDestroy hub_env 1 1 sample_system in
  (res, (fun ev => (hid ev, Source (event ev))) <$> process_q (doms w), Plugin.id <$> the_handlers r)
  = (Return SA_OK None, [(1, 7)], [2]).
Proof. by vm_compute. Qed.

(** A plug-in gets injected events although it has no instance. *)
Definition failing_env : Environment := {|
  getenv := fun _ => None; g_module_supported := true; g_module_build_path := fun dir n => dir +:+ n;
  g_module_open := fun _ => Some ["oh_open"; "oh_inject_event"]; abi_open := fun _ => None;
  abi_result := fun _ => 0 |}.
Definition failed_system : system :=
  let r := state_after (run_command (H := failing_env) (Create {["plugin" := ConfString "libfailing"]})) empty_registry in
  (hub <| cells := [1] |> <| handlers := view r |>, r).
Lemma inject_without_instance :
  let '(res, (_, r)) := oHpiInjectEvent (H := failing_env) hub_env 1 1 (Some zero_event) (Some (hub_resource))
    (Some (example_rdr SAHPI_INVENTORY_RDR 3)) failed_system in
  res = Return SA_OK None /\
  last (log r) = Some (AbiInject 1 None zero_event hub_resource (example_rdr SAHPI_INVENTORY_RDR 3)).
Proof. vm_compute. by split. Qed.

(** A parameter that is said not to be accessible is set. *)
Lemma hidden_parameter_set :
  let '(res, (_, r)) := oHpiGlobalParamSet (H := sample_env) hub_env 1 (Some (OPENHPI_AUTOINSERT_TIMEOUT, PNum 5)) sample_system in
  res = Return SA_OK None /\ ai_timeout (params r) = 5 /\ ai_timeout (params sample_registry) = 0.
Proof. vm_compute. by split_and!. Qed.
