(* ===== verification/ClientConf.v ===== *)
(** The configuration of the client library (baselib/conf.c) and the functions of
    baselib/ohpi.cpp and baselib/init.cpp that work on it: the table of the
    domains, with the host, the port and the entity root of each, the parser of
    the configuration file, and [ohc_init].

    GLib's scanner turns the file into tokens; the end of the list is
    [G_TOKEN_EOF].  The key of an entry of the table is a pointer into the entry:
    when an id is inserted again, the old entry is freed and the table keeps the
    old key ([g_hash_table_insert]).  [stale] are the ids whose keys point to freed
    memory; what reads such a key is undefined. *)
From S2P Require Import Prelude SaHpi DomainState TextBuffer EntityPath CText EPathText Marshal.
From Stdlib Require Import Ascii.
From stdpp Require Import sorting.
#[local] Open Scope list_scope.
#[local] Open Scope Z_scope.

(** * The table *)

(** The array [host] of 255 bytes. *)
Record ohc_domain_conf := { host : list Z; port : Z; entity_root : SaHpiEntityPathT }.
Record client_conf := {
  initialized : bool;
  ohc_domains : gmap Z ohc_domain_conf;
  stale : gset Z;
  my_entity : SaHpiEntityPathT }.
#[export] Instance eta_client_conf : Eta client_conf := fun x =>
  Build_client_conf (initialized x) (ohc_domains x) (stale x) (my_entity x).

Definition OPENHPI_DEFAULT_DAEMON_PORT : Z := 4743.

Definition bytes_of (t : text) : list Z := (fun c => Z.of_nat (nat_of_ascii c)) <$> t.

(** [strncpy] of a string into an array of 255 zeros. *)
Definition strncpy_host (s : list Z) : list Z :=
  take SAHPI_MAX_TEXT_BUFFER_LENGTH (s ++ replicate SAHPI_MAX_TEXT_BUFFER_LENGTH 0).

(** The string in an array, if it is terminated there. *)
Fixpoint c_string (bytes : list Z) : option (list Z) :=
  match bytes with
  | [] => None
  | b :: bytes' => if b =? 0 then Some [] else (b ::.) <$> c_string bytes'
  end.

Definition add_domain_conf (did : Z) (host : list Z) (port : Z) (entity_root : SaHpiEntityPathT) (c : client_conf)
  : outcome client_conf :=
  let dc := {| host := strncpy_host host; port := u16 port; entity_root := entity_root |} in
  match ohc_domains c !! did with
  | None => Done (c <| ohc_domains ::= <[did := dc]> |>)
  | Some _ =>
      if decide (did ∈ stale c) then Undefined
      else Done (c <| ohc_domains ::= <[did := dc]> |> <| stale ::= union {[did]} |>)
  end.

Definition ohc_get_domain_conf (did : Z) (c : client_conf) : outcome (option ohc_domain_conf) :=
  if decide (did ∈ stale c) then Undefined else Done (ohc_domains c !! did).

(** The keys, sorted as signed integers. *)
Definition compare_keys (a b : Z) : Prop := i32 a <= i32 b.
#[export] Instance compare_keys_dec a b : Decision (compare_keys a b).
Proof. unfold compare_keys. apply _. Defined.
Definition sorted_keys (c : client_conf) : outcome (list Z) :=
  if decide (stale c = ∅) then Done (merge_sort compare_keys (map_to_list (ohc_domains c)).*1) else Undefined.

(** The loop of [ohc_add_domain_conf]. *)
Fixpoint find_gap (prev_did : Z) (keys : list Z) : Z :=
  match keys with
  | [] => prev_did
  | item_did :: keys' => if u32 (prev_did + 1) <? item_did then prev_did else find_gap item_did keys'
  end.

Definition ohc_add_domain_conf (host : list Z) (port : Z) (entity_root : SaHpiEntityPathT) (c : client_conf)
  : outcome (Z * option Z * client_conf) :=
  let* keys := sorted_keys c in
  let prev_did := find_gap 0 keys in
  if prev_did =? SAHPI_UNSPECIFIED_DOMAIN_ID then Done (SA_ERR_HPI_OUT_OF_SPACE, None, c)
  else if u32 (prev_did + 1) =? SAHPI_UNSPECIFIED_DOMAIN_ID then Done (SA_ERR_HPI_OUT_OF_SPACE, None, c)
  else
    let did := u32 (prev_did + 1) in
    let* c := add_domain_conf did host port entity_root c in
    Done (SA_OK, Some did, c).

Definition ohc_add_domain_conf_by_id (did : Z) (host : list Z) (port : Z) (entity_root : SaHpiEntityPathT)
    (c : client_conf) : outcome (Z * client_conf) :=
  if (did =? SAHPI_UNSPECIFIED_DOMAIN_ID) || (did =? OH_DEFAULT_DOMAIN_ID)
  then Done (SA_ERR_HPI_INVALID_PARAMS, c)
  else
    let* dc := ohc_get_domain_conf did c in
    match dc with
    | Some _ => Done (SA_ERR_HPI_DUPLICATE, c)
    | None => let* c := add_domain_conf did host port entity_root c in Done (SA_OK, c)
    end.

(** The search for the next id; [nextdid] and [did] are of type [int]. *)
Fixpoint next_did (did nextdid : Z) (keys : list Z) : Z :=
  match keys with
  | [] => nextdid
  | item :: keys' => if nextdid <=? did then next_did did (i32 item) keys' else nextdid
  end.

(** The configuration, and the next entry. *)
Definition ohc_get_next_domain_conf (entry_id : Z) (c : client_conf) : outcome (option ohc_domain_conf * Z) :=
  let* keys := sorted_keys c in
  let* did :=
    if entry_id =? SAHPI_FIRST_ENTRY then match keys with k :: _ => Done k | [] => Undefined end
    else Done entry_id in
  let* dc := ohc_get_domain_conf did c in
  match dc with
  | None => Done (None, SAHPI_LAST_ENTRY)
  | Some dc =>
      let next := next_did (i32 did) (i32 SAHPI_UNSPECIFIED_DOMAIN_ID) keys in
      Done (Some dc, if next =? i32 did then SAHPI_LAST_ENTRY else u32 next)
  end.

(** * The configuration file *)

Inductive ctoken :=
  | TDomain | TDefault | THost | TPort | TRoot | TMyEntity
  | TString (s : text) | TInt (z : Z) | TEqual | TLeftCurly | TRightCurly | TOther.

Fixpoint get_next_good_token_in_domain_stanza (ts : list ctoken) : list ctoken :=
  match ts with
  | [] | TRightCurly :: _ | THost :: _ | TPort :: _ | TRoot :: _ => ts
  | _ :: ts' => get_next_good_token_in_domain_stanza ts'
  end.

(** The tokens that are left when [= value] is not there. *)
Definition after_error (ts : list ctoken) : list ctoken :=
  match ts with TEqual :: ts' => tail ts' | _ => tail ts end.

(** The loop of [process_domain_token] from [next_token], the head of the list. *)
Fixpoint domain_stanza (ts : list ctoken) (host : list Z) (port : Z) (entity_root : SaHpiEntityPathT)
  : option (list Z * Z * SaHpiEntityPathT) * list ctoken :=
  match ts with
  | TRightCurly :: ts => (Some (host, port, entity_root), ts)
  | THost :: TEqual :: TString s :: ts =>
      domain_stanza ts (match host with [] => bytes_of s | _ => host end) port entity_root
  | THost :: ts => (None, after_error ts)
  | TPort :: TEqual :: TInt z :: ts => domain_stanza ts host (u32 z) entity_root
  | TPort :: ts => (None, after_error ts)
  | TRoot :: TEqual :: TString s :: ts =>
      let '(rv, ep) := oh_encode_entitypath (Some s) (Some entity_root) in
      match ep with
      | Some ep => if rv =? SA_OK then domain_stanza ts host port ep else (None, ts)
      | None => (None, ts)
      end
  | TRoot :: ts => (None, after_error ts)
  | _ :: ts => (None, ts)
  | [] => (None, [])
  end.

Definition process_domain_token (ts : list ctoken) (c : client_conf) : outcome (Z * list ctoken * client_conf) :=
  match ts with
  | TDomain :: ts =>
      let did := match ts with
        | TDefault :: _ => inr OH_DEFAULT_DOMAIN_ID
        | TInt z :: _ => if z =? 0 then inl (-2) else inr (u32 z)
        | _ => inl (-3)
        end in
      let ts := tail ts in
      match did with
      | inl rc => Done (rc, ts, c)
      | inr did =>
          match ts with
          | TLeftCurly :: ts =>
              match domain_stanza (get_next_good_token_in_domain_stanza ts) [] OPENHPI_DEFAULT_DAEMON_PORT
                      (ep_of_path []) with
              | (Some (host, port, root), ts) =>
                  match host with
                  | [] => Done (-10, ts, c)
                  | _ => let* c := add_domain_conf did host port root c in Done (0, ts, c)
                  end
              | (None, ts) => Done (-10, ts, c)
              end
          | ts => Done (-10, tail ts, c)
          end
      end
  | ts => Done (-1, tail ts, c)
  end.

Definition process_my_entity_token (ts : list ctoken) (c : client_conf) : Z * list ctoken * client_conf :=
  match ts with
  | TMyEntity :: ts =>
      match ts with
      | TEqual :: TString s :: ts =>
          match oh_encode_entitypath (Some s) (Some zero_ep) with
          | (rv, Some ep) => if rv =? SA_OK then (0, ts, c <| my_entity := ep |>) else (-4, ts, c)
          | (_, None) => (-4, ts, c)
          end
      | TEqual :: ts => (-3, tail ts, c)
      | ts => (-2, tail ts, c)
      end
  | ts => (-1, tail ts, c)
  end.

(** The loop of [load_client_config]; it reads at least one token each time. *)
Fixpoint load_loop (fuel : nat) (ts : list ctoken) (c : client_conf) : outcome client_conf :=
  match fuel with
  | O => Undefined
  | S fuel =>
      match ts with
      | [] => Done c
      | TDomain :: _ => let* (_, ts, c) := process_domain_token ts c in load_loop fuel ts c
      | TMyEntity :: _ => let '(_, ts, c) := process_my_entity_token ts c in load_loop fuel ts c
      | _ :: ts => load_loop fuel ts c
      end
  end.

(** [tokens] are those of the file, if it can be opened. *)
Definition load_client_config (tokens : option (list ctoken)) (c : client_conf) : outcome (Z * client_conf) :=
  match tokens with
  | None => Done (-3, c)
  | Some ts => let* c := load_loop (S (length ts)) ts c in Done (0, c)
  end.

(** * Initialisation *)

(** The tokens of the file that [OPENHPICLIENT_CONF] names, or of the default one,
    and the variables with the host and the port of the default domain. *)
Record client_environment := {
  config_tokens : option (list ctoken);
  daemon_host : option text;
  daemon_port : option text }.

Definition no_conf : client_conf :=
  {| initialized := false; ohc_domains := ∅; stale := ∅; my_entity := zero_ep |}.

Definition ohc_conf_init (e : client_environment) (c : client_conf) : outcome client_conf :=
  let* (_, c) := load_client_config (config_tokens e) c in
  let* default_conf := ohc_get_domain_conf OH_DEFAULT_DOMAIN_ID c in
  match default_conf with
  | Some _ => Done c
  | None =>
      let host := default (text_of "localhost") (daemon_host e) in
      let port := match daemon_port e with
                  | None => OPENHPI_DEFAULT_DAEMON_PORT
                  | Some s => u16 (fst (strtol 10 s))
                  end in
      add_domain_conf OH_DEFAULT_DOMAIN_ID (bytes_of host) port (ep_of_path []) c
  end.

(** The table of the sessions is initialised by its declaration. *)
Definition ohc_init (e : client_environment) (c : client_conf) : outcome (Z * client_conf) :=
  if initialized c then Done (SA_OK, c)
  else let* c := ohc_conf_init e (c <| initialized := true |>) in Done (SA_OK, c).

(** * The functions *)

Definition OH_SAHPI_INTERFACE_VERSION_MIN_SUPPORTED : Z := 0x020101.
Definition OH_SAHPI_INTERFACE_VERSION_MAX_SUPPORTED : Z := 0x020302.
Definition SA_HPI_INITOPTION_FIRST_OEM : Z := 0x40000000.
Definition SA_HPI_INITOPTION_HANDLE_CREATE_THREAD : Z := 1.

(** The first option that is refused. *)
Fixpoint failed_option (i : Z) (ids : list Z) : option Z :=
  match ids with
  | [] => None
  | id :: ids' =>
      if SA_HPI_INITOPTION_FIRST_OEM <=? id then failed_option (i + 1) ids'
      else if negb (id =? SA_HPI_INITOPTION_HANDLE_CREATE_THREAD) then Some i
      else failed_option (i + 1) ids'
  end.

(** [Options] are the ids of the options; the result has the index stored to
    [FailedOption]. *)
Definition saHpiInitialize (e : client_environment) (RequestedVersion NumOptions : Z) (Options : option (list Z))
    (c : client_conf) : outcome (Z * option Z * client_conf) :=
  if (RequestedVersion <? OH_SAHPI_INTERFACE_VERSION_MIN_SUPPORTED) ||
     (OH_SAHPI_INTERFACE_VERSION_MAX_SUPPORTED <? RequestedVersion)
  then Done (SA_ERR_HPI_UNSUPPORTED_API, None, c)
  else
    match Options with
    | None => if negb (NumOptions =? 0) then Done (SA_ERR_HPI_INVALID_PARAMS, None, c)
              else let* (rv, c) := ohc_init e c in Done (rv, None, c)
    | Some ids =>
        match failed_option 0 (take (Z.to_nat NumOptions) ids) with
        | Some i => Done (SA_ERR_HPI_INVALID_DATA, Some i, c)
        | None => let* (rv, c) := ohc_init e c in Done (rv, None, c)
        end
    end.

(** The string in a text buffer: the bytes up to the first zero. *)
Definition host_string (host : SaHpiTextBufferT) : list Z :=
  default [] (c_string (take (Z.to_nat (DataLength host)) (Data host) ++ [0])).

Definition is_text (host : SaHpiTextBufferT) : bool :=
  (DataType host =? SAHPI_TL_TYPE_BCDPLUS) || (DataType host =? SAHPI_TL_TYPE_ASCII6)
  || (DataType host =? SAHPI_TL_TYPE_TEXT).

(** [domain_id] tells whether the pointer is not [NULL]. *)
Definition oHpiDomainAdd (e : client_environment) (host : option SaHpiTextBufferT) (port : Z)
    (entity_root : option SaHpiEntityPathT) (domain_id : bool) (c : client_conf) : outcome (Z * option Z * client_conf) :=
  match host, domain_id, entity_root with
  | Some host, true, Some root =>
      if negb (is_text host) then Done (SA_ERR_HPI_INVALID_DATA, None, c)
      else
        let* (_, c) := ohc_init e c in
        ohc_add_domain_conf (host_string host) port root c
  | _, _, _ => Done (SA_ERR_HPI_INVALID_PARAMS, None, c)
  end.

Definition oHpiDomainAddById (e : client_environment) (domain_id : Z) (host : option SaHpiTextBufferT) (port : Z)
    (entity_root : option SaHpiEntityPathT) (c : client_conf) : outcome (Z * client_conf) :=
  match host, entity_root with
  | Some host, Some root =>
      if negb (is_text host) then Done (SA_ERR_HPI_INVALID_DATA, c)
      else
        let* (_, c) := ohc_init e c in
        ohc_add_domain_conf_by_id domain_id (host_string host) port root c
  | _, _ => Done (SA_ERR_HPI_INVALID_PARAMS, c)
  end.

Record oHpiDomainEntryT := {
  entry_did : Z; entry_host : SaHpiTextBufferT; entry_port : Z; entry_root : SaHpiEntityPathT }.

(** The statements after the configuration was found: a host that is not
    terminated is read past its array. *)
Definition domain_entry (id : Z) (dc : ohc_domain_conf) : outcome (Z * option oHpiDomainEntryT) :=
  match c_string (host dc) with
  | None => Undefined
  | Some h =>
      match oh_append_textbuffer (snd (oh_init_textbuffer (Some zero_textbuffer))) (Some h) with
      | (rv, Some b) =>
          if rv =? SA_OK
          then Done (SA_OK, Some {| entry_did := id; entry_host := b; entry_port := port dc; entry_root := entity_root dc |})
          else Done (SA_ERR_HPI_INVALID_PARAMS, None)
      | _ => Done (SA_ERR_HPI_INVALID_PARAMS, None)
      end
  end.

(** The code, the next entry and the entry; the pointers are not [NULL]. *)
Definition oHpiDomainEntryGet (e : client_environment) (EntryId : Z) (c : client_conf)
  : outcome (Z * option Z * option oHpiDomainEntryT * client_conf) :=
  let* (_, c) := ohc_init e c in
  let* (dc, next) := ohc_get_next_domain_conf EntryId c in
  match dc with
  | None => Done (SA_ERR_HPI_NOT_PRESENT, Some next, None, c)
  | Some dc => let* (rv, entry) := domain_entry EntryId dc in Done (rv, Some next, entry, c)
  end.

Definition oHpiDomainEntryGetByDomainId (e : client_environment) (DomainId : Z) (c : client_conf)
  : outcome (Z * option oHpiDomainEntryT * client_conf) :=
  let* (_, c) := ohc_init e c in
  let* dc := ohc_get_domain_conf DomainId c in
  match dc with
  | None => Done (SA_ERR_HPI_NOT_PRESENT, None, c)
  | Some dc => let* (rv, entry) := domain_entry DomainId dc in Done (rv, entry, c)
  end.

(** The roots of the domains, as the sessions use them. *)
Definition domain_roots (c : client_conf) (did : Z) : option SaHpiEntityPathT :=
  entity_root <$> ohc_domains c !! did.

(** * The list of the domains

    A caller that follows [NextEntryId] from [SAHPI_FIRST_ENTRY]. *)
Fixpoint domain_walk (fuel : nat) (e : client_environment) (EntryId : Z) (c : client_conf)
  : outcome (list oHpiDomainEntryT * client_conf) :=
  match fuel with
  | O => Undefined
  | S fuel =>
      let* (_, next, entry, c) := oHpiDomainEntryGet e EntryId c in
      match entry, next with
      | Some entry, Some next =>
          if next =? SAHPI_LAST_ENTRY then Done ([entry], c)
          else let* (entries, c) := domain_walk fuel e next c in Done (entry :: entries, c)
      | _, _ => Done ([], c)
      end
  end.

(** A table without a stale key, whose ids are positive as integers. *)
Definition conf_ok (c : client_conf) : Prop :=
  stale c = ∅ /\ (forall did, is_Some (ohc_domains c !! did) -> 0 <= did < 2 ^ 31) /\
  is_Some (ohc_domains c !! OH_DEFAULT_DOMAIN_ID).

Lemma i32_small z : 0 <= z < 2 ^ 31 -> i32 z = z.
Proof. intros. unfold i32. rewrite Z.mod_small; lia. Qed.

(** The ids of a table in ascending order. *)
Lemma sorted_keys_ok c : conf_ok c -> exists keys, sorted_keys c = Done keys /\
  (forall did, did ∈ keys <-> is_Some (ohc_domains c !! did)) /\ StronglySorted Z.lt keys /\
  Forall (fun k => 0 <= k < 2 ^ 31) keys.
Proof.
  intros (Hs & Hr & _). unfold sorted_keys. rewrite decide_True by done.
  set (ks := (map_to_list (ohc_domains c)).*1). set (keys := merge_sort compare_keys ks).
  assert (Hp : keys ≡ₚ ks) by apply merge_sort_Permutation.
  assert (Hin : forall did, did ∈ keys <-> is_Some (ohc_domains c !! did)).
  { intros did. rewrite Hp. subst ks. rewrite list_elem_of_fmap. split.
    - intros ([d dc] & -> & E%elem_of_map_to_list). by eexists.
    - intros [dc E]. exists (did, dc). by rewrite elem_of_map_to_list. }
  assert (Hb : Forall (fun k => 0 <= k < 2 ^ 31) keys) by (apply Forall_forall; intros k Hk; by apply Hr, Hin).
  exists keys. split_and!; try done.
  assert (Hn : NoDup keys) by (rewrite Hp; apply NoDup_fst_map_to_list).
  assert (Hso : StronglySorted compare_keys keys).
  { apply StronglySorted_merge_sort; unfold compare_keys; [intros ???; lia|intros ??; lia]. }
  clearbody keys. clear Hin Hp. induction Hso as [|k l _ IH Hk]; [constructor|].
  inversion_clear Hn. inversion_clear Hb. constructor; [by apply IH|].
  apply Forall_forall. intros x Hx. rewrite Forall_forall in Hk. specialize (Hk x Hx). unfold compare_keys in Hk.
  assert (0 <= x < 2 ^ 31) by (rewrite Forall_forall in H2; by apply H2).
  rewrite !i32_small in Hk by done. assert (x <> k) by by intros ->. lia.
Qed.

Lemma next_did_after k nd l : nd <= k -> 0 <= k < 2 ^ 31 ->
  StronglySorted Z.lt l -> Forall (fun x => 0 <= x < 2 ^ 31) l -> k ∈ l ->
  forall rest, Forall (fun x => 0 <= x < 2 ^ 31) rest -> Forall (fun x => k < x) rest -> (forall x, x ∈ l -> x <= k) ->
  next_did k nd (l ++ rest) = hd k rest.
Proof.
  intros Hnd Hk. revert nd Hnd. induction l as [|x l IH]; intros nd Hnd Hs Hb Hin rest Hrb Hr Hle; [by apply not_elem_of_nil in Hin|].
  cbn [app next_did]. rewrite (proj2 (Z.leb_le _ _) Hnd). inversion_clear Hs. inversion_clear Hb.
  rewrite i32_small by done. destruct (decide (k ∈ l)) as [Hkl|Hkl].
  - apply IH; try done; [apply Hle; by left|]. intros y Hy. apply Hle. by right.
  - assert (x = k) as -> by (apply elem_of_cons in Hin as [->|?]; done).
    assert (l = []) as ->.
    { destruct l as [|y l]; [done|]. assert (y <= k) by (apply Hle; right; left). inversion_clear H0. lia. }
    destruct rest as [|y rest]; cbn; [done|]. rewrite Z.leb_refl.
    inversion_clear Hr. inversion_clear Hrb. rewrite i32_small by done.
    destruct rest; cbn; [done|]. by rewrite (proj2 (Z.leb_gt _ _)).
Qed.

(** The entry of a domain. *)
Definition entry_of (did : Z) (dc : ohc_domain_conf) (h : list Z) : oHpiDomainEntryT :=
  {| entry_did := did;
     entry_host := zero_textbuffer <| DataType := SAHPI_TL_TYPE_TEXT |> <| Language := SAHPI_LANG_ENGLISH |>
       <| Data ::= write_at 0 h |> <| DataLength := Z.of_nat (length h) |>;
     entry_port := port dc; entry_root := entity_root dc |}.

Lemma c_string_length bytes h : c_string bytes = Some h -> (length h < length bytes)%nat.
Proof.
  revert h. induction bytes as [|b bytes IH]; intros h; [done|]. cbn. destruct (b =? 0); [by intros [= <-]; cbn; lia|].
  destruct (c_string bytes); [|done]. intros [= <-]. cbn. specialize (IH _ eq_refl). lia.
Qed.

Lemma domain_entry_runs did dc h : length (host dc) = SAHPI_MAX_TEXT_BUFFER_LENGTH -> c_string (host dc) = Some h ->
  domain_entry did dc = Done (SA_OK, Some (entry_of did dc h)).
Proof.
  intros Hl Hh. pose proof (c_string_length _ _ Hh) as Hlt. rewrite Hl in Hlt. unfold domain_entry. rewrite Hh.
  unfold oh_init_textbuffer, oh_append_textbuffer. cbn [snd DataLength set_field].
  change (DataLength (zero_textbuffer <| DataType := SAHPI_TL_TYPE_TEXT |> <| Language := SAHPI_LANG_ENGLISH |> <| DataLength := 0 |>)) with 0.
  unfold SAHPI_MAX_TEXT_BUFFER_LENGTH in *. rewrite (proj2 (Z.leb_gt _ _)) by lia.
  rewrite Z.eqb_refl. unfold entry_of. do 4 f_equal. unfold set_field. cbn. f_equal. apply u8_id. lia.
Qed.

(** Every entry of the table can be shown. *)
Definition hosts_ok (c : client_conf) : Prop :=
  map_Forall (fun _ dc => length (host dc) = SAHPI_MAX_TEXT_BUFFER_LENGTH /\ is_Some (c_string (host dc))) (ohc_domains c).

Definition shown (c : client_conf) (entry : oHpiDomainEntryT) : Prop :=
  exists dc h, ohc_domains c !! entry_did entry = Some dc /\ c_string (host dc) = Some h /\
    entry = entry_of (entry_did entry) dc h.

(** A step of the walk, from the first or any later entry. *)
Lemma entry_get_runs e c pre k post : initialized c = true -> conf_ok c -> hosts_ok c ->
  sorted_keys c = Done (pre ++ k :: post) -> StronglySorted Z.lt (pre ++ k :: post) ->
  Forall (fun x => 0 <= x < 2 ^ 31) (pre ++ k :: post) -> is_Some (ohc_domains c !! k) ->
  (pre = [] -> k = 0) -> (pre <> [] -> k <> 0) ->
  exists entry, entry_did entry = k /\ shown c entry /\
    oHpiDomainEntryGet e k c =
      Done (SA_OK, Some match post with [] => SAHPI_LAST_ENTRY | x :: _ => x end, Some entry, c).
Proof.
  intros Hi (Hst & _ & _) Hh Hks Hs Hb [dc Hdc] Hfirst Hlater.
  destruct (Hh k dc Hdc) as [Hl [h Hch]]. exists (entry_of k dc h). split; [done|].
  split; [by exists dc, h|].
  unfold oHpiDomainEntryGet, ohc_init. rewrite Hi. cbn [obind].
  unfold ohc_get_next_domain_conf. rewrite Hks. cbn [obind].
  assert ((if k =? SAHPI_FIRST_ENTRY then match pre ++ k :: post with [] => Undefined | k0 :: _ => Done k0 end else Done k)
    = Done k) as ->.
  { destruct (Z.eqb_spec k SAHPI_FIRST_ENTRY) as [->|]; [|done].
    destruct pre as [|x pre]; [done|]. by destruct (Hlater ltac:(done)). }
  cbn [obind]. unfold ohc_get_domain_conf. rewrite decide_False by (rewrite Hst; set_solver). rewrite Hdc. cbn [obind].
  rewrite (domain_entry_runs k dc h) by done. cbn [obind].
  assert (Hk : 0 <= k < 2 ^ 31) by (rewrite Forall_app, Forall_cons in Hb; tauto).
  rewrite !i32_small by done.
  replace (pre ++ k :: post) with ((pre ++ [k]) ++ post) in * by by rewrite <- app_assoc.
  apply Forall_app in Hb as [Hb1 Hb2].
  assert (Hs1 : StronglySorted Z.lt (pre ++ [k]) /\ Forall (fun x => k < x) post /\ forall x, x ∈ pre ++ [k] -> x <= k).
  { split_and!.
    - by apply StronglySorted_app in Hs as (_ & ? & _).
    - apply Forall_forall. intros x Hx. apply StronglySorted_app in Hs as (Hc & _ & _). apply (Hc k x); [set_solver|done].
    - intros x Hx. apply elem_of_app in Hx as [Hx|Hx]; [|apply list_elem_of_singleton in Hx; lia].
      rewrite <- app_assoc in Hs. apply StronglySorted_app in Hs as (Hc & _ & _). apply Z.lt_le_incl, (Hc x k); [done|set_solver]. }
  destruct Hs1 as (Hs1 & Hgt & Hle).
  rewrite next_did_after; try done; [|change (i32 SAHPI_UNSPECIFIED_DOMAIN_ID) with (-1); lia|set_solver].
  destruct post as [|x post]; cbn [hd]; [by rewrite Z.eqb_refl|].
  apply Forall_cons in Hgt as [Hx _]. rewrite (proj2 (Z.eqb_neq _ _)) by lia. rewrite u32_id; [done|].
  apply Forall_cons in Hb2 as [? _]. lia.
Qed.

Lemma walk_suffix e c : initialized c = true -> conf_ok c -> hosts_ok c ->
  forall post pre k, sorted_keys c = Done (pre ++ k :: post) -> StronglySorted Z.lt (pre ++ k :: post) ->
  Forall (fun x => 0 <= x < 2 ^ 31) (pre ++ k :: post) ->
  (forall x, x ∈ pre ++ k :: post -> is_Some (ohc_domains c !! x)) ->
  (pre = [] -> k = 0) -> (pre <> [] -> k <> 0) ->
  exists entries, domain_walk (S (length post)) e k c = Done (entries, c) /\
    Forall (shown c) entries /\ entry_did <$> entries = k :: post.
Proof.
  intros Hi Hok Hh. induction post as [|x post IH]; intros pre k Hks Hs Hb Hin Hf Hl;
    destruct (entry_get_runs e c pre k _ Hi Hok Hh Hks Hs Hb (Hin k ltac:(set_solver)) Hf Hl) as (entry & Ed & Hsh & E);
    cbn [domain_walk length]; rewrite E; cbn [obind].
  - rewrite Z.eqb_refl. exists [entry]. split_and!; [done|by constructor|]. cbn. by rewrite Ed.
  - assert (Hx : 0 <= x < 2 ^ 31) by (rewrite Forall_app, !Forall_cons in Hb; tauto).
    assert (Hkx : k < x) by (apply StronglySorted_app in Hs as (_ & _ & Hs); inversion_clear Hs as [|? ? _ H1]; by inversion_clear H1).
    assert (0 <= k) by (rewrite Forall_app, !Forall_cons in Hb; tauto).
    rewrite (proj2 (Z.eqb_neq _ _)) by (unfold SAHPI_LAST_ENTRY; lia).
    destruct (IH (pre ++ [k]) x) as (entries & E' & Hsh' & Ed');
      [by rewrite <- app_assoc..|by destruct pre|lia|].
    cbn [domain_walk length] in E'. rewrite E'. cbn [obind]. exists (entry :: entries).
    split_and!; [done|by constructor|]. cbn. by rewrite Ed, Ed'.
Qed.

(** C29: The domains are listed completely: following [NextEntryId] from
    [SAHPI_FIRST_ENTRY], [oHpiDomainEntryGet] returns every configured domain once,
    in ascending order of the ids and with its host, port and entity root, and then
    [SAHPI_LAST_ENTRY] - on the condition that the table has the default domain, no
    key that was freed, ids below 2^31 and terminated hosts.  [oHpiDomainAddById]
    accepts larger ids, and then the listing is wrong ([domain_overwritten]). *)
Theorem domains_listed e c : initialized c = true -> conf_ok c -> hosts_ok c ->
  exists entries, domain_walk (size (ohc_domains c)) e SAHPI_FIRST_ENTRY c = Done (entries, c) /\
    Forall (shown c) entries /\ StronglySorted Z.lt (entry_did <$> entries) /\
    forall did, did ∈ entry_did <$> entries <-> is_Some (ohc_domains c !! did).
Proof.
  intros Hi Hok Hh. destruct (sorted_keys_ok c Hok) as (keys & Hks & Hin & Hs & Hb).
  assert (Hz : 0 ∈ keys) by (apply Hin, Hok).
  assert (length keys = size (ohc_domains c)) as Hlen.
  { unfold sorted_keys in Hks. destruct (decide _); [|done]. injection Hks as <-.
    rewrite merge_sort_Permutation, length_fmap. apply length_map_to_list. }
  destruct keys as [|k keys]; [by apply not_elem_of_nil in Hz|].
  assert (k = 0) as ->.
  { apply elem_of_cons in Hz as [->|Hz]; [done|]. inversion_clear Hs as [|? ? _ Hk].
    rewrite Forall_forall in Hk. specialize (Hk 0 Hz). apply Forall_cons in Hb as [? _]. lia. }
  destruct (walk_suffix e c Hi Hok Hh keys [] 0) as (entries & E & Hsh & Ed); try done; [by intros x ?%Hin|].
  exists entries. rewrite <- Hlen. cbn [length]. split_and!; try done; rewrite Ed; [done|]. intros did. apply Hin.
Qed.

(** * Adding domains *)

Lemma find_gap_spec prev keys : 0 <= prev < 2 ^ 31 -> StronglySorted Z.lt (prev :: keys) ->
  Forall (fun k => 0 <= k < 2 ^ 31) keys ->
  prev <= find_gap prev keys < 2 ^ 31 /\ (find_gap prev keys + 1 ∉ keys) /\
  forall x, prev < x <= find_gap prev keys -> x ∈ keys.
Proof.
  revert prev. induction keys as [|k keys IH]; intros prev Hp Hs Hb; cbn [find_gap].
  { split_and!; [lia|lia|apply not_elem_of_nil|lia]. }
  inversion_clear Hs as [|? ? Hs' Hk]. inversion_clear Hk as [|? ? Hpk _]. inversion_clear Hb as [|? ? Hk Hb'].
  rewrite u32_id by lia. destruct (Z.ltb_spec (prev + 1) k).
  - split_and!; [lia|lia| |lia]. intros Hin. apply elem_of_cons in Hin as [|Hin]; [lia|].
    inversion_clear Hs' as [|? ? _ Hks]. rewrite Forall_forall in Hks. specialize (Hks _ Hin). lia.
  - assert (k = prev + 1) as -> by lia. destruct (IH (prev + 1)) as (Hr & Hn & Ha); [lia|done..|].
    split_and!; [lia|lia| |].
    + intros Hin. apply elem_of_cons in Hin as [|]; [lia|done].
    + intros x Hx. destruct (decide (x = prev + 1)) as [->|]; [left|]. right. apply Ha. lia.
Qed.

(** C30: On the same condition - the ids in use are below 2^31 and no key was
    freed - [oHpiDomainAdd] gives a domain an id of its own: the smallest that is not
    in use; the other domains are as before and no key is freed, so that the new
    domain is found under its id.  (With a larger id in use it can replace a domain,
    [domain_overwritten].) *)
Theorem domain_added e c host port root : initialized c = true -> conf_ok c -> is_text host = true ->
  exists did c', oHpiDomainAdd e (Some host) port (Some root) true c = Done (SA_OK, Some did, c') /\
    ohc_domains c !! did = None /\ (forall x, 0 <= x < did -> is_Some (ohc_domains c !! x)) /\
    stale c' = ∅ /\
    ohc_domains c' = <[did := {| host := strncpy_host (host_string host); port := u16 port; entity_root := root |}]> (ohc_domains c).
Proof.
  intros Hi Hok Ht. destruct (sorted_keys_ok c Hok) as (keys & Hks & Hin & Hs & Hb).
  assert (Hz : 0 ∈ keys) by (apply Hin, Hok).
  assert (exists keys', keys = 0 :: keys') as [keys' ->].
  { destruct keys as [|k keys]; [by apply not_elem_of_nil in Hz|]. exists keys. f_equal.
    apply elem_of_cons in Hz as [->|Hz]; [done|]. inversion_clear Hs as [|? ? _ Hk].
    rewrite Forall_forall in Hk. specialize (Hk 0 Hz). apply Forall_cons in Hb as [? _]. lia. }
  inversion_clear Hb as [|? ? _ Hb'].
  destruct (find_gap_spec 0 keys' ltac:(lia) Hs Hb') as (Hr & Hn & Ha).
  unfold oHpiDomainAdd, ohc_init. rewrite Ht, Hi. cbn [negb obind]. unfold ohc_add_domain_conf. rewrite Hks. cbn [obind].
  assert (find_gap 0 (0 :: keys') = find_gap 0 keys') as -> by done.
  set (g := find_gap 0 keys') in *.
  rewrite !(proj2 (Z.eqb_neq _ _)) by (rewrite ?u32_id by lia; unfold SAHPI_UNSPECIFIED_DOMAIN_ID; lia).
  rewrite u32_id by lia. unfold add_domain_conf.
  assert (Hnone : ohc_domains c !! (g + 1) = None).
  { apply eq_None_not_Some. intros Hsome%Hin. apply elem_of_cons in Hsome as [|]; [lia|done]. }
  rewrite Hnone. cbn [obind]. exists (g + 1). eexists. split; [done|]. split_and!; try done; [|by apply Hok].
  intros x Hx. apply Hin. destruct (decide (x = 0)) as [->|]; [left|right; apply Ha; lia].
Qed.

(** ** Ids that are negative as integers *)

Definition some_host : SaHpiTextBufferT :=
  zero_textbuffer <| DataType := SAHPI_TL_TYPE_TEXT |> <| Data := write_at 0 [104; 49] (replicate 255 0) |> <| DataLength := 2 |>.
Definition some_env : client_environment := {| config_tokens := None; daemon_host := None; daemon_port := None |}.
(** The domains 0, 1 and 2^31. *)
Definition large_id : outcome client_conf :=
  let* (_, c) := ohc_init some_env no_conf in
  let* (_, c) := oHpiDomainAddById some_env 1 (Some some_host) 1001 (Some zero_ep) c in
  let* (_, c) := oHpiDomainAddById some_env (2 ^ 31) (Some some_host) 1002 (Some zero_ep) c in
  Done c.

(** With a domain whose id is 2^31 or more, which [oHpiDomainAddById] accepts,
    [oHpiDomainAdd] gives out an id that is in use: it replaces the domain 1 and
    leaves its key dangling, so that the next access to the domain 1 reads freed
    memory; and the list of the domains starts with the domain 2^31 under the id 0
    and ends with it. *)
Theorem domain_overwritten :
  (exists c, large_id = Done c /\ port <$> ohc_domains c !! 1 = Some 1001 /\
    (exists entry, oHpiDomainEntryGet some_env SAHPI_FIRST_ENTRY c = Done (SA_OK, Some SAHPI_LAST_ENTRY, Some entry, c) /\
       entry_did entry = 0 /\ entry_port entry = 1002) /\
    exists c', oHpiDomainAdd some_env (Some some_host) 1003 (Some zero_ep) true c = Done (SA_OK, Some 1, c') /\
      port <$> ohc_domains c' !! 1 = Some 1003 /\
      oHpiDomainEntryGetByDomainId some_env 1 c' = Undefined).
Proof.
  eexists. split; [vm_compute; reflexivity|]. split; [vm_compute; reflexivity|]. split.
  - eexists. split; [vm_compute; reflexivity|]. by vm_compute.
  - eexists. split; [vm_compute; reflexivity|]. by vm_compute.
Qed.

(** * The grammar of the file *)

Inductive field := FHost (s : text) | FPort (z : Z) | FRoot (s : text).
Inductive statement := SDomain (did : Z) (fs : list field) | SDefault (fs : list field) | SMyEntity (s : text).

Definition print_field (f : field) : list ctoken :=
  match f with
  | FHost s => [THost; TEqual; TString s]
  | FPort z => [TPort; TEqual; TInt z]
  | FRoot s => [TRoot; TEqual; TString s]
  end.
Definition print (s : statement) : list ctoken :=
  match s with
  | SDomain did fs => TDomain :: TInt did :: TLeftCurly :: List.flat_map print_field fs ++ [TRightCurly]
  | SDefault fs => TDomain :: TDefault :: TLeftCurly :: List.flat_map print_field fs ++ [TRightCurly]
  | SMyEntity s => [TMyEntity; TEqual; TString s]
  end.

(** The path that a text stands for. *)
Definition path_of_text (s : text) : SaHpiEntityPathT :=
  default zero_ep (snd (oh_encode_entitypath (Some s) (Some zero_ep))).
Definition is_path (s : text) : Prop := fst (oh_encode_entitypath (Some s) (Some zero_ep)) = SA_OK.

Lemma encode_is_path s ep : is_path s -> oh_encode_entitypath (Some s) (Some ep) = (SA_OK, Some (path_of_text s)).
Proof.
  unfold is_path, path_of_text, oh_encode_entitypath. destruct (_ <? _)%nat; [done|].
  destruct (g_strstrip s); [done|]. destruct (parse_entities _ _ _) as [[es n]|]; [|done].
  destruct (_ <? _)%nat; cbn; [done|]. done.
Qed.

(** What the fields of a domain mean: the first host that is not empty, the last
    port and the last root. *)
Definition apply_field (d : list Z * Z * SaHpiEntityPathT) (f : field) : list Z * Z * SaHpiEntityPathT :=
  let '(h, p, r) := d in
  match f with
  | FHost s => (match h with [] => bytes_of s | _ => h end, p, r)
  | FPort z => (h, u32 z, r)
  | FRoot s => (h, p, path_of_text s)
  end.
Definition domain_of (fs : list field) : list Z * Z * SaHpiEntityPathT :=
  foldl apply_field ([], OPENHPI_DEFAULT_DAEMON_PORT, ep_of_path []) fs.
Definition conf_of (fs : list field) : ohc_domain_conf :=
  let '(h, p, r) := domain_of fs in {| host := strncpy_host h; port := u16 p; entity_root := r |}.

Definition field_ok (f : field) : Prop := match f with FRoot s => is_path s | _ => True end.
Definition fields_ok (fs : list field) : Prop := Forall field_ok fs /\ (domain_of fs).1.1 <> [].
Definition statement_ok (s : statement) : Prop :=
  match s with
  | SDomain did fs => did <> 0 /\ fields_ok fs
  | SDefault fs => fields_ok fs
  | SMyEntity s => is_path s
  end.

Definition domain_stated (s : statement) : option (Z * ohc_domain_conf) :=
  match s with
  | SDomain did fs => Some (u32 did, conf_of fs)
  | SDefault fs => Some (OH_DEFAULT_DOMAIN_ID, conf_of fs)
  | SMyEntity _ => None
  end.
Definition entity_stated (ep : SaHpiEntityPathT) (s : statement) : SaHpiEntityPathT :=
  match s with SMyEntity s => path_of_text s | _ => ep end.

Lemma domain_stanza_print fs rest : Forall field_ok fs -> forall h p r,
  domain_stanza (List.flat_map print_field fs ++ TRightCurly :: rest) h p r =
  (Some (foldl apply_field (h, p, r) fs), rest).
Proof.
  induction 1 as [|f fs Hf _ IH]; intros h p r; [done|].
  destruct f as [s|z|s]; cbn [List.flat_map print_field app domain_stanza foldl apply_field]; [apply IH|apply IH|].
  rewrite encode_is_path by done. rewrite Z.eqb_refl. apply IH.
Qed.

Lemma good_token_print fs rest :
  get_next_good_token_in_domain_stanza (List.flat_map print_field fs ++ TRightCurly :: rest) =
  List.flat_map print_field fs ++ TRightCurly :: rest.
Proof. by destruct fs as [|[] fs]. Qed.

(** One domain: it is added under its id. *)
Lemma process_domain_print id did fs rest c : fields_ok fs ->
  (id = TDefault /\ did = OH_DEFAULT_DOMAIN_ID \/ exists z, id = TInt z /\ z <> 0 /\ did = u32 z) ->
  ohc_domains c !! did = None ->
  process_domain_token (TDomain :: id :: TLeftCurly :: List.flat_map print_field fs ++ TRightCurly :: rest) c =
  Done (0, rest, c <| ohc_domains ::= <[did := conf_of fs]> |>).
Proof.
  intros [Hok Hh] Hid Hnew. unfold process_domain_token.
  assert (match id :: TLeftCurly :: List.flat_map print_field fs ++ TRightCurly :: rest with
          | TDefault :: _ => inr OH_DEFAULT_DOMAIN_ID
          | TInt z :: _ => if z =? 0 then inl (-2) else inr (u32 z)
          | _ => inl (-3) end = @inr Z Z did) as ->.
  { destruct Hid as [[-> ->]|(z & -> & Hz & ->)]; [done|]. apply Z.eqb_neq in Hz. by rewrite Hz. }
  cbn [tail]. rewrite good_token_print, domain_stanza_print by done. fold (domain_of fs).
  unfold conf_of. destruct (domain_of fs) as [[h p] r]. cbn in Hh. destruct h as [|x h]; [done|].
  unfold add_domain_conf. by rewrite Hnew.
Qed.

Lemma client_load_loop_print l fuel c : Forall statement_ok l ->
  NoDup (omap domain_stated l).*1 -> (forall did, did ∈ (omap domain_stated l).*1 -> ohc_domains c !! did = None) ->
  (length (List.flat_map print l) < fuel)%nat ->
  load_loop fuel (List.flat_map print l) c =
  Done (c <| ohc_domains ::= fun t => list_to_map (omap domain_stated l) ∪ t |> <| my_entity ::= fun ep => foldl entity_stated ep l |>).
Proof.
  revert fuel c. induction l as [|st l IH]; intros fuel c Hok Hnd Hnew Hf; (destruct fuel as [|fuel]; [cbn in Hf; lia|]).
  { cbn. destruct c. unfold set_field. cbn. by rewrite (left_id_L ∅ _). }
  apply Forall_cons in Hok as [Hst Hok]. cbn [List.flat_map] in Hf |- *. rewrite length_app in Hf.
  assert (Hstep : forall id did fs, print st = TDomain :: id :: TLeftCurly :: List.flat_map print_field fs ++ [TRightCurly] ->
    fields_ok fs -> domain_stated st = Some (did, conf_of fs) -> (forall ep, entity_stated ep st = ep) ->
    (id = TDefault /\ did = OH_DEFAULT_DOMAIN_ID \/ exists z, id = TInt z /\ z <> 0 /\ did = u32 z) ->
    load_loop (S fuel) (print st ++ List.flat_map print l) c =
    Done (c <| ohc_domains ::= fun t => list_to_map (omap domain_stated (st :: l)) ∪ t |>
            <| my_entity ::= fun ep => foldl entity_stated ep (st :: l) |>)).
  { intros id did fs Ep Hfs Hd He Hid. cbn [omap list_omap] in Hnd, Hnew |- *. rewrite Hd in *. cbn [fmap list_fmap fst] in Hnd, Hnew.
    apply NoDup_cons in Hnd as [Hnin Hnd]. rewrite Ep in *. cbn [app load_loop]. rewrite <- app_assoc. cbn [app].
    rewrite (process_domain_print id did fs) by (try done; apply Hnew; by left). cbn [obind].
    rewrite IH; [|done|done| |rewrite app_comm_cons in Hf; cbn [length] in Hf; rewrite length_app in Hf; cbn in Hf; lia].
    - unfold set_field. cbn. rewrite He. do 2 f_equal.
      rewrite <- insert_union_r by by apply not_elem_of_list_to_map_1. by rewrite insert_union_l.
    - intros d Hdin. cbn. rewrite lookup_insert_ne by by intros ->. apply Hnew. by right. }
  destruct st as [did fs|fs|s].
  - destruct Hst as [Hz Hfs]. eapply Hstep; [reflexivity|done|reflexivity|done|right; by exists did].
  - eapply Hstep; [reflexivity|done|reflexivity|done|by left].
  - cbn [print app load_loop process_my_entity_token]. rewrite encode_is_path by done. rewrite Z.eqb_refl.
    rewrite IH; [|done|done|done|cbn in Hf; lia]. by destruct c.
Qed.

(** The default domain of a client without one. *)
Definition default_domain (host port : option text) : ohc_domain_conf :=
  {| host := strncpy_host (bytes_of (default (text_of "localhost") host));
     port := match port with None => OPENHPI_DEFAULT_DAEMON_PORT | Some s => u16 (fst (strtol 10 s)) end;
     entity_root := ep_of_path [] |}.

(** C28: The client configuration means what it says: after [ohc_init] with a file
    of domains and entities, the domains are those of the file with their host, port
    and root and, unless the file has it, the default domain of the environment; the
    entity of the application is the last one of the file, and no key was freed.
    Every domain has a host, roots and entities are paths, and no id is used twice. *)
Theorem configured_domains l host port : Forall statement_ok l -> NoDup (omap domain_stated l).*1 ->
  exists c, ohc_init {| config_tokens := Some (List.flat_map print l); daemon_host := host; daemon_port := port |} no_conf
      = Done (SA_OK, c) /\
    initialized c = true /\ stale c = ∅ /\ my_entity c = foldl entity_stated zero_ep l /\
    ohc_domains c = list_to_map (omap domain_stated l) ∪ {[OH_DEFAULT_DOMAIN_ID := default_domain host port]}.
Proof.
  intros Hok Hnd. unfold ohc_init. cbn [initialized no_conf]. unfold ohc_conf_init, load_client_config. cbn [config_tokens].
  rewrite client_load_loop_print; [|done|done|done|lia]. cbn [obind].
  unfold ohc_get_domain_conf. rewrite decide_False by (cbn; set_solver). cbn [obind].
  unfold set_field. cbn. rewrite (right_id_L ∅ _).
  destruct (list_to_map (omap domain_stated l) !! OH_DEFAULT_DOMAIN_ID) as [dc|] eqn:E; cbn [obind].
  - eexists. split; [reflexivity|]. cbn. split_and!; try done.
    apply map_eq. intros i. destruct (decide (i = OH_DEFAULT_DOMAIN_ID)) as [->|].
    + rewrite E. symmetry. by apply lookup_union_Some_l.
    + rewrite lookup_union_l; [done|]. by rewrite lookup_insert_ne by (intros <-; by destruct n).
  - unfold add_domain_conf. cbn. rewrite E. cbn [obind]. eexists. split; [reflexivity|]. cbn. split_and!; try done.
    rewrite insert_union_singleton_r by done. f_equal. f_equal. unfold default_domain. f_equal.
    destruct port; [|done]. unfold u16. by rewrite Zmod_mod.
Qed.

Definition two_domains : list statement :=
  [SMyEntity (text_of "{FAN,1}"); SDomain 5 [FPort 4744; FHost (text_of "shelf"); FRoot (text_of "{SYSTEM_CHASSIS,2}")];
   SDomain 7 [FHost (text_of "other")]].

Lemma two_domains_ok : Forall statement_ok two_domains /\ NoDup (omap domain_stated two_domains).*1.
Proof.
  split.
  - assert (Hone : forall f, field_ok f -> Forall field_ok [f]) by (intros f Hf; by apply Forall_singleton).
    apply Forall_cons. split; [by vm_compute|]. apply Forall_cons. split.
    + split; [done|]. split; [|by vm_compute]. apply Forall_cons. split; [done|]. apply Forall_cons. split; [done|].
      apply Hone. by vm_compute.
    + apply Forall_singleton. split; [done|]. split; [by apply Hone|by vm_compute].
  - by apply (bool_decide_unpack _).
Qed.

Lemma configured_domains_witness :
  exists c, ohc_init {| config_tokens := Some (List.flat_map print two_domains); daemon_host := None; daemon_port := None |} no_conf
      = Done (SA_OK, c) /\
    initialized c = true /\ stale c = ∅ /\ my_entity c = foldl entity_stated zero_ep two_domains /\
    ohc_domains c = list_to_map (omap domain_stated two_domains) ∪ {[OH_DEFAULT_DOMAIN_ID := default_domain None None]}.
Proof. destruct two_domains_ok. by apply (configured_domains two_domains None None). Defined.

(** Two stanzas for one domain leave a key that points to freed memory. *)
Example domain_twice :
  exists c, ohc_init {| config_tokens := Some (List.flat_map print
      [SDomain 5 [FHost (text_of "a")]; SDomain 5 [FHost (text_of "b")]]); daemon_host := None; daemon_port := None |} no_conf
    = Done (SA_OK, c) /\ oHpiDomainEntryGetByDomainId some_env 5 c = Undefined.
Proof. eexists. split; [vm_compute; reflexivity|]. by vm_compute. Qed.

(** A host of 255 characters fills its array: who reads it as a string reads on
    behind it. *)
Definition long_host : SaHpiTextBufferT :=
  zero_textbuffer <| DataType := SAHPI_TL_TYPE_TEXT |> <| Data := replicate 255 104 |> <| DataLength := 255 |>.
Example unterminated_host :
  exists c, oHpiDomainAddById some_env 1 (Some long_host) 4743 (Some zero_ep) no_conf = Done (SA_OK, c) /\
    (exists dc, ohc_domains c !! 1 = Some dc /\ c_string (host dc) = None) /\
    oHpiDomainEntryGetByDomainId some_env 1 c = Undefined.
Proof.
  eexists. split; [vm_compute; reflexivity|]. split; [|by vm_compute].
  eexists. split; [vm_compute; reflexivity|]. by vm_compute.
Qed.

Definition five_and_seven : client_conf :=
  {| initialized := true; stale := ∅; my_entity := zero_ep;
     ohc_domains := {[0 := conf_of [FHost (text_of "a")]; 5 := conf_of [FHost (text_of "b")]; 1 := conf_of [FHost (text_of "c")]]} |}.
Lemma five_and_seven_ok : conf_ok five_and_seven /\ hosts_ok five_and_seven.
Proof.
  split; [split_and!; [done| |by eexists]|].
  - intros did [dc Hdc]. cbn in Hdc. rewrite !lookup_insert_Some in Hdc. rewrite lookup_singleton_Some in Hdc.
    destruct Hdc as [[<- _]|[_ [[<- _]|[_ [<- _]]]]]; lia.
  - unfold hosts_ok, five_and_seven. cbn [ohc_domains].
    repeat apply map_Forall_insert_2; [..|apply map_Forall_empty]; (split; [reflexivity|]);
      eexists; vm_compute; reflexivity.
Qed.

Lemma domains_listed_witness :
  exists entries, domain_walk 3 some_env SAHPI_FIRST_ENTRY five_and_seven = Done (entries, five_and_seven) /\
    Forall (shown five_and_seven) entries /\ StronglySorted Z.lt (entry_did <$> entries) /\
    forall did, did ∈ entry_did <$> entries <-> is_Some (ohc_domains five_and_seven !! did).
Proof. destruct five_and_seven_ok. by apply (domains_listed some_env five_and_seven). Defined.

Lemma domain_added_witness :
  exists did c', oHpiDomainAdd some_env (Some some_host) 4743 (Some zero_ep) true five_and_seven = Done (SA_OK, Some did, c') /\
    ohc_domains five_and_seven !! did = None /\
    (forall x, 0 <= x < did -> is_Some (ohc_domains five_and_seven !! x)) /\ stale c' = ∅ /\
    ohc_domains c' = <[did := {| host := strncpy_host (host_string some_host); port := u16 4743; entity_root := zero_ep |}]>
      (ohc_domains five_and_seven).
Proof. destruct five_and_seven_ok. by apply (domain_added some_env five_and_seven some_host 4743 zero_ep). Defined.
