(* ===== verification/ClientApi.v ===== *)
(** The functions of the client library (baselib/safhpi.cpp and the remote calls
    of baselib/ohpi.cpp).

    A function checks its arguments, hands them to [ohc_sess_rpc] and adapts what
    comes back: domain ids become those of the client, entity paths get the root of
    the domain appended.  A number is a [Z]; a pointer to an object that is only
    written is a [ptr], one to an object that is read is an [option value]; the
    structures are the values of file Marshal, their fields found by the
    declarations of file MarshalStructs.  A function returns its code and what it
    stored through the pointers it writes, in the order of its parameters; an
    early return gives no list and stores nothing.

    [my_entity] is that of the configuration, [stack] what an uninitialised local
    object holds.  A version of [oh_lookup_*] that returns a name is used as the
    test whether there is one. *)
From S2P Require Import Prelude EnumNames SaHpi DomainState TextBuffer EntityPath Validate Marshal MarshalTypes MarshalHpi MarshalStructs Server Client.
#[local] Open Scope string_scope.
#[local] Open Scope list_scope.
#[local] Open Scope Z_scope.

(** * Objects *)

Inductive ptr := NULL | Addr.
Definition is_null (p : ptr) : bool := match p with NULL => true | Addr => false end.

(** What a call left in the object of a pointer. *)
Inductive stored := Kept | Stored (v : value) | Indeterminate.

Inductive step := Fld (name : string) | Elt (i : nat).

Fixpoint field_index (fs : list (string * ctype)) (name : string) : option (nat * ctype) :=
  match fs with
  | [] => None
  | (n, c) :: fs' =>
      if String.eqb n name then Some (0%nat, c) else prod_map S id <$> field_index fs' name
  end.

(** The object at a path in an object of type [c]; the value of a union is that
    of its selected member. *)
Fixpoint read_at (c : ctype) (path : list step) (v : value) : outcome value :=
  match path with
  | [] => Done v
  | s :: path' =>
      match c, s, v with
      | CStruct fs, Fld n, VStruct vs =>
          match field_index fs n with
          | Some (i, c') => match vs !! i with Some v' => read_at c' path' v' | None => Undefined end
          | None => Undefined
          end
      | CArray c' _, Elt i, VArray vs =>
          match vs !! i with Some v' => read_at c' path' v' | None => Undefined end
      | CUnion ms, Fld n, _ =>
          match field_index ms n with Some (_, c') => read_at c' path' v | None => Undefined end
      | _, _, _ => Undefined
      end
  end.

Definition num_at (c : ctype) (path : list step) (v : value) : outcome Z :=
  let* v := read_at c path v in match v with VNum z => Done z | _ => Undefined end.

(** Replacing the object at a path by [f] of it. *)
Fixpoint update_at (c : ctype) (path : list step) (f : value -> outcome value) (v : value) : outcome value :=
  match path with
  | [] => f v
  | s :: path' =>
      match c, s, v with
      | CStruct fs, Fld n, VStruct vs =>
          match field_index fs n with
          | Some (i, c') =>
              match vs !! i with
              | Some v' => let* v' := update_at c' path' f v' in Done (VStruct (<[i := v']> vs))
              | None => Undefined
              end
          | None => Undefined
          end
      | CArray c' _, Elt i, VArray vs =>
          match vs !! i with
          | Some v' => let* v' := update_at c' path' f v' in Done (VArray (<[i := v']> vs))
          | None => Undefined
          end
      | CUnion ms, Fld n, _ =>
          match field_index ms n with Some (_, c') => update_at c' path' f v | None => Undefined end
      | _, _, _ => Undefined
      end
  end.

Definition nums (vs : list value) : option (list Z) :=
  mapM (fun v => match v with VNum z => Some z | _ => None end) vs.

(** Text buffers and entity paths as values and as records. *)
Definition textbuffer_of (v : value) : outcome SaHpiTextBufferT :=
  match v with
  | VStruct [VNum t; VNum l; VNum n; VArray bytes] =>
      match nums bytes with
      | Some bytes => Done {| DataType := t; Language := l; DataLength := n; Data := bytes |}
      | None => Undefined
      end
  | _ => Undefined
  end.

Definition entity_of (v : value) : option SaHpiEntityT :=
  match v with
  | VStruct [VNum t; VNum l] => Some {| EntityType := t; EntityLocation := l |}
  | _ => None
  end.

Definition ep_of (v : value) : outcome SaHpiEntityPathT :=
  match v with
  | VStruct [VArray es] =>
      match mapM entity_of es with Some es => Done {| Entry := es |} | None => Undefined end
  | _ => Undefined
  end.

Definition value_of_entity (e : SaHpiEntityT) : value :=
  VStruct [VNum (EntityType e); VNum (EntityLocation e)].
Definition value_of_ep (ep : SaHpiEntityPathT) : value :=
  VStruct [VArray (value_of_entity <$> Entry ep)].

(** [oh_concat_ep] on a path in an object. *)
Definition concat_root (root : SaHpiEntityPathT) (v : value) : outcome value :=
  let* ep := ep_of v in
  match snd (oh_concat_ep (Some ep) (Some root)) with
  | Some ep => Done (value_of_ep ep)
  | None => Undefined
  end.

Definition append_root (c : ctype) (path : list step) (root : SaHpiEntityPathT) (s : stored) : outcome stored :=
  match s with
  | Stored v => let* v := update_at c path (concat_root root) v in Done (Stored v)
  | Indeterminate | Kept => Undefined
  end.

Definition set_number (c : ctype) (path : list step) (z : Z) (s : stored) : outcome stored :=
  match s with
  | Stored v => let* v := update_at c path (fun _ => Done (VNum z)) v in Done (Stored v)
  | Indeterminate | Kept => Undefined
  end.

Definition number_of (c : ctype) (path : list step) (s : stored) : outcome Z :=
  match s with Stored v => num_at c path v | Indeterminate | Kept => Undefined end.

(** [if (P) { memcpy(P, &local, sizeof) }]. *)
Definition copied (p : ptr) (s : stored) : stored :=
  match p, s with
  | NULL, _ => Kept
  | Addr, Kept => Indeterminate
  | Addr, s => s
  end.

(** The event as [oh_valid_addevent] and the checks of [saHpiEventLogEntryAdd]
    see it: the data of a user event, of another event only its type. *)
Definition event_of (v : value) : outcome SaHpiEventT :=
  match v with
  | VStruct [VNum source; VNum type; VNum time; VNum severity; data] =>
      let* u :=
        if type =? SAHPI_ET_USER then
          let* t := read_at SaHpiEventUnionT_decl [Fld "UserEvent"; Fld "UserEventData"] data in
          let* t := textbuffer_of t in Done (UserEvent t)
        else Done (UnknownEvent type []) in
      Done {| Source := source; event_Timestamp := time; event_Severity := severity; EventDataUnion := u |}
  | _ => Undefined
  end.

(** * The parameters of the remote calls

    What [ClientRpcParams] is given for the request after the session, and for
    the reply after the return code. *)
Record client_params := {
  function : tHpiFucntionId;
  in_types : list ctype;
  out_types : list ctype
}.

Definition saHpiDiscover_params : client_params :=
  {| function := eFsaHpiDiscover; in_types := [];
     out_types := [] |}.
Definition saHpiDomainInfoGet_params : client_params :=
  {| function := eFsaHpiDomainInfoGet; in_types := [];
     out_types := [SaHpiDomainInfoT_decl] |}.
Definition saHpiDrtEntryGet_params : client_params :=
  {| function := eFsaHpiDrtEntryGet; in_types := [CNum eMtUint32];
     out_types := [CNum eMtUint32; SaHpiDrtEntryT_decl] |}.
Definition saHpiDomainTagSet_params : client_params :=
  {| function := eFsaHpiDomainTagSet; in_types := [SaHpiTextBufferT_decl];
     out_types := [] |}.
Definition saHpiRptEntryGet_params : client_params :=
  {| function := eFsaHpiRptEntryGet; in_types := [CNum eMtUint32];
     out_types := [CNum eMtUint32; SaHpiRptEntryT_decl] |}.
Definition saHpiRptEntryGetByResourceId_params : client_params :=
  {| function := eFsaHpiRptEntryGetByResourceId; in_types := [CNum eMtUint32];
     out_types := [SaHpiRptEntryT_decl] |}.
Definition saHpiResourceSeveritySet_params : client_params :=
  {| function := eFsaHpiResourceSeveritySet; in_types := [CNum eMtUint32; CEnum "SaHpiSeverityT"];
     out_types := [] |}.
Definition saHpiResourceTagSet_params : client_params :=
  {| function := eFsaHpiResourceTagSet; in_types := [CNum eMtUint32; SaHpiTextBufferT_decl];
     out_types := [] |}.
Definition saHpiGetIdByEntityPath_params : client_params :=
  {| function := eFsaHpiGetIdByEntityPath; in_types := [SaHpiEntityPathT_decl; CEnum "SaHpiRdrTypeT";
       CNum eMtUint32];
     out_types := [CNum eMtUint32; CNum eMtUint32; CNum eMtUint32; CNum eMtUint32] |}.
Definition saHpiGetChildEntityPath_params : client_params :=
  {| function := eFsaHpiGetChildEntityPath; in_types := [SaHpiEntityPathT_decl; CNum eMtUint32];
     out_types := [CNum eMtUint32; SaHpiEntityPathT_decl; CNum eMtUint32] |}.
Definition saHpiResourceFailedRemove_params : client_params :=
  {| function := eFsaHpiResourceFailedRemove; in_types := [CNum eMtUint32];
     out_types := [] |}.
Definition saHpiEventLogInfoGet_params : client_params :=
  {| function := eFsaHpiEventLogInfoGet; in_types := [CNum eMtUint32];
     out_types := [SaHpiEventLogInfoT_decl] |}.
Definition saHpiEventLogCapabilitiesGet_params : client_params :=
  {| function := eFsaHpiEventLogCapabilitiesGet; in_types := [CNum eMtUint32];
     out_types := [CNum eMtUint32] |}.
Definition saHpiEventLogEntryGet_params : client_params :=
  {| function := eFsaHpiEventLogEntryGet; in_types := [CNum eMtUint32; CNum eMtUint32];
     out_types := [CNum eMtUint32; CNum eMtUint32; SaHpiEventLogEntryT_decl; SaHpiRdrT_decl;
       SaHpiRptEntryT_decl] |}.
Definition saHpiEventLogEntryAdd_params : client_params :=
  {| function := eFsaHpiEventLogEntryAdd; in_types := [CNum eMtUint32; SaHpiEventT_decl];
     out_types := [] |}.
Definition saHpiEventLogClear_params : client_params :=
  {| function := eFsaHpiEventLogClear; in_types := [CNum eMtUint32];
     out_types := [] |}.
Definition saHpiEventLogTimeGet_params : client_params :=
  {| function := eFsaHpiEventLogTimeGet; in_types := [CNum eMtUint32];
     out_types := [CNum eMtInt64] |}.
Definition saHpiEventLogTimeSet_params : client_params :=
  {| function := eFsaHpiEventLogTimeSet; in_types := [CNum eMtUint32; CNum eMtInt64];
     out_types := [] |}.
Definition saHpiEventLogStateGet_params : client_params :=
  {| function := eFsaHpiEventLogStateGet; in_types := [CNum eMtUint32];
     out_types := [CNum eMtUint8] |}.
Definition saHpiEventLogStateSet_params : client_params :=
  {| function := eFsaHpiEventLogStateSet; in_types := [CNum eMtUint32; CNum eMtUint8];
     out_types := [] |}.
Definition saHpiEventLogOverflowReset_params : client_params :=
  {| function := eFsaHpiEventLogOverflowReset; in_types := [CNum eMtUint32];
     out_types := [] |}.
Definition saHpiSubscribe_params : client_params :=
  {| function := eFsaHpiSubscribe; in_types := [];
     out_types := [] |}.
Definition saHpiUnsubscribe_params : client_params :=
  {| function := eFsaHpiUnsubscribe; in_types := [];
     out_types := [] |}.
Definition saHpiEventGet_params : client_params :=
  {| function := eFsaHpiEventGet; in_types := [CNum eMtInt64];
     out_types := [SaHpiEventT_decl; SaHpiRdrT_decl; SaHpiRptEntryT_decl; CNum eMtUint32] |}.
Definition saHpiEventAdd_params : client_params :=
  {| function := eFsaHpiEventAdd; in_types := [SaHpiEventT_decl];
     out_types := [] |}.
Definition saHpiAlarmGetNext_params : client_params :=
  {| function := eFsaHpiAlarmGetNext; in_types := [CEnum "SaHpiSeverityT"; CNum eMtUint8; SaHpiAlarmT_decl];
     out_types := [SaHpiAlarmT_decl] |}.
Definition saHpiAlarmGet_params : client_params :=
  {| function := eFsaHpiAlarmGet; in_types := [CNum eMtUint32];
     out_types := [SaHpiAlarmT_decl] |}.
Definition saHpiAlarmAcknowledge_params : client_params :=
  {| function := eFsaHpiAlarmAcknowledge; in_types := [CNum eMtUint32; CEnum "SaHpiSeverityT"];
     out_types := [] |}.
Definition saHpiAlarmAdd_params : client_params :=
  {| function := eFsaHpiAlarmAdd; in_types := [SaHpiAlarmT_decl];
     out_types := [SaHpiAlarmT_decl] |}.
Definition saHpiAlarmDelete_params : client_params :=
  {| function := eFsaHpiAlarmDelete; in_types := [CNum eMtUint32; CEnum "SaHpiSeverityT"];
     out_types := [] |}.
Definition saHpiRdrGet_params : client_params :=
  {| function := eFsaHpiRdrGet; in_types := [CNum eMtUint32; CNum eMtUint32];
     out_types := [CNum eMtUint32; SaHpiRdrT_decl] |}.
Definition saHpiRdrGetByInstrumentId_params : client_params :=
  {| function := eFsaHpiRdrGetByInstrumentId; in_types := [CNum eMtUint32; CEnum "SaHpiRdrTypeT";
       CNum eMtUint32];
     out_types := [SaHpiRdrT_decl] |}.
Definition saHpiRdrUpdateCountGet_params : client_params :=
  {| function := eFsaHpiRdrUpdateCountGet; in_types := [CNum eMtUint32];
     out_types := [CNum eMtUint32] |}.
Definition saHpiSensorReadingGet_params : client_params :=
  {| function := eFsaHpiSensorReadingGet; in_types := [CNum eMtUint32; CNum eMtUint32];
     out_types := [SaHpiSensorReadingT_decl; CNum eMtUint16] |}.
Definition saHpiSensorThresholdsGet_params : client_params :=
  {| function := eFsaHpiSensorThresholdsGet; in_types := [CNum eMtUint32; CNum eMtUint32];
     out_types := [SaHpiSensorThresholdsT_decl] |}.
Definition saHpiSensorThresholdsSet_params : client_params :=
  {| function := eFsaHpiSensorThresholdsSet; in_types := [CNum eMtUint32; CNum eMtUint32;
       SaHpiSensorThresholdsT_decl];
     out_types := [] |}.
Definition saHpiSensorTypeGet_params : client_params :=
  {| function := eFsaHpiSensorTypeGet; in_types := [CNum eMtUint32; CNum eMtUint32];
     out_types := [CEnum "SaHpiSensorTypeT"; CNum eMtUint8] |}.
Definition saHpiSensorEnableGet_params : client_params :=
  {| function := eFsaHpiSensorEnableGet; in_types := [CNum eMtUint32; CNum eMtUint32];
     out_types := [CNum eMtUint8] |}.
Definition saHpiSensorEnableSet_params : client_params :=
  {| function := eFsaHpiSensorEnableSet; in_types := [CNum eMtUint32; CNum eMtUint32; CNum eMtUint8];
     out_types := [] |}.
Definition saHpiSensorEventEnableGet_params : client_params :=
  {| function := eFsaHpiSensorEventEnableGet; in_types := [CNum eMtUint32; CNum eMtUint32];
     out_types := [CNum eMtUint8] |}.
Definition saHpiSensorEventEnableSet_params : client_params :=
  {| function := eFsaHpiSensorEventEnableSet; in_types := [CNum eMtUint32; CNum eMtUint32; CNum eMtUint8];
     out_types := [] |}.
Definition saHpiSensorEventMasksGet_params : client_params :=
  {| function := eFsaHpiSensorEventMasksGet; in_types := [CNum eMtUint32; CNum eMtUint32; CNum eMtUint16;
       CNum eMtUint16];
     out_types := [CNum eMtUint16; CNum eMtUint16] |}.
Definition saHpiSensorEventMasksSet_params : client_params :=
  {| function := eFsaHpiSensorEventMasksSet; in_types := [CNum eMtUint32; CNum eMtUint32;
       CEnum "SaHpiSensorEventMaskActionT"; CNum eMtUint16; CNum eMtUint16];
     out_types := [] |}.
Definition saHpiControlTypeGet_params : client_params :=
  {| function := eFsaHpiControlTypeGet; in_types := [CNum eMtUint32; CNum eMtUint32];
     out_types := [CEnum "SaHpiCtrlTypeT"] |}.
Definition saHpiControlGet_params : client_params :=
  {| function := eFsaHpiControlGet; in_types := [CNum eMtUint32; CNum eMtUint32; SaHpiCtrlStateT_decl];
     out_types := [CEnum "SaHpiCtrlModeT"; SaHpiCtrlStateT_decl] |}.
Definition saHpiControlSet_params : client_params :=
  {| function := eFsaHpiControlSet; in_types := [CNum eMtUint32; CNum eMtUint32; CEnum "SaHpiCtrlModeT";
       SaHpiCtrlStateT_decl];
     out_types := [] |}.
Definition saHpiIdrInfoGet_params : client_params :=
  {| function := eFsaHpiIdrInfoGet; in_types := [CNum eMtUint32; CNum eMtUint32];
     out_types := [SaHpiIdrInfoT_decl] |}.
Definition saHpiIdrAreaHeaderGet_params : client_params :=
  {| function := eFsaHpiIdrAreaHeaderGet; in_types := [CNum eMtUint32; CNum eMtUint32;
       CEnum "SaHpiIdrAreaTypeT"; CNum eMtUint32];
     out_types := [CNum eMtUint32; SaHpiIdrAreaHeaderT_decl] |}.
Definition saHpiIdrAreaAdd_params : client_params :=
  {| function := eFsaHpiIdrAreaAdd; in_types := [CNum eMtUint32; CNum eMtUint32; CEnum "SaHpiIdrAreaTypeT"];
     out_types := [CNum eMtUint32] |}.
Definition saHpiIdrAreaAddById_params : client_params :=
  {| function := eFsaHpiIdrAreaAddById; in_types := [CNum eMtUint32; CNum eMtUint32;
       CEnum "SaHpiIdrAreaTypeT"; CNum eMtUint32];
     out_types := [] |}.
Definition saHpiIdrAreaDelete_params : client_params :=
  {| function := eFsaHpiIdrAreaDelete; in_types := [CNum eMtUint32; CNum eMtUint32; CNum eMtUint32];
     out_types := [] |}.
Definition saHpiIdrFieldGet_params : client_params :=
  {| function := eFsaHpiIdrFieldGet; in_types := [CNum eMtUint32; CNum eMtUint32; CNum eMtUint32;
       CEnum "SaHpiIdrFieldTypeT"; CNum eMtUint32];
     out_types := [CNum eMtUint32; SaHpiIdrFieldT_decl] |}.
Definition saHpiIdrFieldAdd_params : client_params :=
  {| function := eFsaHpiIdrFieldAdd; in_types := [CNum eMtUint32; CNum eMtUint32; SaHpiIdrFieldT_decl];
     out_types := [SaHpiIdrFieldT_decl] |}.
Definition saHpiIdrFieldAddById_params : client_params :=
  {| function := eFsaHpiIdrFieldAddById; in_types := [CNum eMtUint32; CNum eMtUint32; SaHpiIdrFieldT_decl];
     out_types := [SaHpiIdrFieldT_decl] |}.
Definition saHpiIdrFieldSet_params : client_params :=
  {| function := eFsaHpiIdrFieldSet; in_types := [CNum eMtUint32; CNum eMtUint32; SaHpiIdrFieldT_decl];
     out_types := [] |}.
Definition saHpiIdrFieldDelete_params : client_params :=
  {| function := eFsaHpiIdrFieldDelete; in_types := [CNum eMtUint32; CNum eMtUint32; CNum eMtUint32;
       CNum eMtUint32];
     out_types := [] |}.
Definition saHpiWatchdogTimerGet_params : client_params :=
  {| function := eFsaHpiWatchdogTimerGet; in_types := [CNum eMtUint32; CNum eMtUint32];
     out_types := [SaHpiWatchdogT_decl] |}.
Definition saHpiWatchdogTimerSet_params : client_params :=
  {| function := eFsaHpiWatchdogTimerSet; in_types := [CNum eMtUint32; CNum eMtUint32; SaHpiWatchdogT_decl];
     out_types := [] |}.
Definition saHpiWatchdogTimerReset_params : client_params :=
  {| function := eFsaHpiWatchdogTimerReset; in_types := [CNum eMtUint32; CNum eMtUint32];
     out_types := [] |}.
Definition saHpiAnnunciatorGetNext_params : client_params :=
  {| function := eFsaHpiAnnunciatorGetNext; in_types := [CNum eMtUint32; CNum eMtUint32;
       CEnum "SaHpiSeverityT"; CNum eMtUint8; SaHpiAnnouncementT_decl];
     out_types := [SaHpiAnnouncementT_decl] |}.
Definition saHpiAnnunciatorGet_params : client_params :=
  {| function := eFsaHpiAnnunciatorGet; in_types := [CNum eMtUint32; CNum eMtUint32; CNum eMtUint32];
     out_types := [SaHpiAnnouncementT_decl] |}.
Definition saHpiAnnunciatorAcknowledge_params : client_params :=
  {| function := eFsaHpiAnnunciatorAcknowledge; in_types := [CNum eMtUint32; CNum eMtUint32; CNum eMtUint32;
       CEnum "SaHpiSeverityT"];
     out_types := [] |}.
Definition saHpiAnnunciatorAdd_params : client_params :=
  {| function := eFsaHpiAnnunciatorAdd; in_types := [CNum eMtUint32; CNum eMtUint32; SaHpiAnnouncementT_decl];
     out_types := [SaHpiAnnouncementT_decl] |}.
Definition saHpiAnnunciatorDelete_params : client_params :=
  {| function := eFsaHpiAnnunciatorDelete; in_types := [CNum eMtUint32; CNum eMtUint32; CNum eMtUint32;
       CEnum "SaHpiSeverityT"];
     out_types := [] |}.
Definition saHpiAnnunciatorModeGet_params : client_params :=
  {| function := eFsaHpiAnnunciatorModeGet; in_types := [CNum eMtUint32; CNum eMtUint32];
     out_types := [CEnum "SaHpiAnnunciatorModeT"] |}.
Definition saHpiAnnunciatorModeSet_params : client_params :=
  {| function := eFsaHpiAnnunciatorModeSet; in_types := [CNum eMtUint32; CNum eMtUint32;
       CEnum "SaHpiAnnunciatorModeT"];
     out_types := [] |}.
Definition saHpiDimiInfoGet_params : client_params :=
  {| function := eFsaHpiDimiInfoGet; in_types := [CNum eMtUint32; CNum eMtUint32];
     out_types := [SaHpiDimiInfoT_decl] |}.
Definition saHpiDimiTestInfoGet_params : client_params :=
  {| function := eFsaHpiDimiTestInfoGet; in_types := [CNum eMtUint32; CNum eMtUint32; CNum eMtUint32];
     out_types := [SaHpiDimiTestT_decl] |}.
Definition saHpiDimiTestReadinessGet_params : client_params :=
  {| function := eFsaHpiDimiTestReadinessGet; in_types := [CNum eMtUint32; CNum eMtUint32; CNum eMtUint32];
     out_types := [CEnum "SaHpiDimiReadyT"] |}.
Definition saHpiDimiTestStart_params : client_params :=
  {| function := eFsaHpiDimiTestStart; in_types := [CNum eMtUint32; CNum eMtUint32; CNum eMtUint32;
       SaHpiDimiTestVariableParamsListT_decl];
     out_types := [] |}.
Definition saHpiDimiTestCancel_params : client_params :=
  {| function := eFsaHpiDimiTestCancel; in_types := [CNum eMtUint32; CNum eMtUint32; CNum eMtUint32];
     out_types := [] |}.
Definition saHpiDimiTestStatusGet_params : client_params :=
  {| function := eFsaHpiDimiTestStatusGet; in_types := [CNum eMtUint32; CNum eMtUint32; CNum eMtUint32];
     out_types := [CNum eMtUint8; CEnum "SaHpiDimiTestRunStatusT"] |}.
Definition saHpiDimiTestResultsGet_params : client_params :=
  {| function := eFsaHpiDimiTestResultsGet; in_types := [CNum eMtUint32; CNum eMtUint32; CNum eMtUint32];
     out_types := [SaHpiDimiTestResultsT_decl] |}.
Definition saHpiFumiSpecInfoGet_params : client_params :=
  {| function := eFsaHpiFumiSpecInfoGet; in_types := [CNum eMtUint32; CNum eMtUint32];
     out_types := [SaHpiFumiSpecInfoT_decl] |}.
Definition saHpiFumiServiceImpactGet_params : client_params :=
  {| function := eFsaHpiFumiServiceImpactGet; in_types := [CNum eMtUint32; CNum eMtUint32];
     out_types := [SaHpiFumiServiceImpactDataT_decl] |}.
Definition saHpiFumiSourceSet_params : client_params :=
  {| function := eFsaHpiFumiSourceSet; in_types := [CNum eMtUint32; CNum eMtUint32; CNum eMtUint8;
       SaHpiTextBufferT_decl];
     out_types := [] |}.
Definition saHpiFumiSourceInfoValidateStart_params : client_params :=
  {| function := eFsaHpiFumiSourceInfoValidateStart; in_types := [CNum eMtUint32; CNum eMtUint32;
       CNum eMtUint8];
     out_types := [] |}.
Definition saHpiFumiSourceInfoGet_params : client_params :=
  {| function := eFsaHpiFumiSourceInfoGet; in_types := [CNum eMtUint32; CNum eMtUint32; CNum eMtUint8];
     out_types := [SaHpiFumiSourceInfoT_decl] |}.
Definition saHpiFumiSourceComponentInfoGet_params : client_params :=
  {| function := eFsaHpiFumiSourceComponentInfoGet; in_types := [CNum eMtUint32; CNum eMtUint32;
       CNum eMtUint8; CNum eMtUint32];
     out_types := [CNum eMtUint32; SaHpiFumiComponentInfoT_decl] |}.
Definition saHpiFumiTargetInfoGet_params : client_params :=
  {| function := eFsaHpiFumiTargetInfoGet; in_types := [CNum eMtUint32; CNum eMtUint32; CNum eMtUint8];
     out_types := [SaHpiFumiBankInfoT_decl] |}.
Definition saHpiFumiTargetComponentInfoGet_params : client_params :=
  {| function := eFsaHpiFumiTargetComponentInfoGet; in_types := [CNum eMtUint32; CNum eMtUint32;
       CNum eMtUint8; CNum eMtUint32];
     out_types := [CNum eMtUint32; SaHpiFumiComponentInfoT_decl] |}.
Definition saHpiFumiLogicalTargetInfoGet_params : client_params :=
  {| function := eFsaHpiFumiLogicalTargetInfoGet; in_types := [CNum eMtUint32; CNum eMtUint32];
     out_types := [SaHpiFumiLogicalBankInfoT_decl] |}.
Definition saHpiFumiLogicalTargetComponentInfoGet_params : client_params :=
  {| function := eFsaHpiFumiLogicalTargetComponentInfoGet; in_types := [CNum eMtUint32; CNum eMtUint32;
       CNum eMtUint32];
     out_types := [CNum eMtUint32; SaHpiFumiLogicalComponentInfoT_decl] |}.
Definition saHpiFumiBackupStart_params : client_params :=
  {| function := eFsaHpiFumiBackupStart; in_types := [CNum eMtUint32; CNum eMtUint32];
     out_types := [] |}.
Definition saHpiFumiBankBootOrderSet_params : client_params :=
  {| function := eFsaHpiFumiBankBootOrderSet; in_types := [CNum eMtUint32; CNum eMtUint32; CNum eMtUint8;
       CNum eMtUint32];
     out_types := [] |}.
Definition saHpiFumiBankCopyStart_params : client_params :=
  {| function := eFsaHpiFumiBankCopyStart; in_types := [CNum eMtUint32; CNum eMtUint32; CNum eMtUint8;
       CNum eMtUint8];
     out_types := [] |}.
Definition saHpiFumiInstallStart_params : client_params :=
  {| function := eFsaHpiFumiInstallStart; in_types := [CNum eMtUint32; CNum eMtUint32; CNum eMtUint8];
     out_types := [] |}.
Definition saHpiFumiUpgradeStatusGet_params : client_params :=
  {| function := eFsaHpiFumiUpgradeStatusGet; in_types := [CNum eMtUint32; CNum eMtUint32; CNum eMtUint8];
     out_types := [CEnum "SaHpiFumiUpgradeStatusT"] |}.
Definition saHpiFumiTargetVerifyStart_params : client_params :=
  {| function := eFsaHpiFumiTargetVerifyStart; in_types := [CNum eMtUint32; CNum eMtUint32; CNum eMtUint8];
     out_types := [] |}.
Definition saHpiFumiTargetVerifyMainStart_params : client_params :=
  {| function := eFsaHpiFumiTargetVerifyMainStart; in_types := [CNum eMtUint32; CNum eMtUint32];
     out_types := [] |}.
Definition saHpiFumiUpgradeCancel_params : client_params :=
  {| function := eFsaHpiFumiUpgradeCancel; in_types := [CNum eMtUint32; CNum eMtUint32; CNum eMtUint8];
     out_types := [] |}.
Definition saHpiFumiAutoRollbackDisableGet_params : client_params :=
  {| function := eFsaHpiFumiAutoRollbackDisableGet; in_types := [CNum eMtUint32; CNum eMtUint32];
     out_types := [CNum eMtUint8] |}.
Definition saHpiFumiAutoRollbackDisableSet_params : client_params :=
  {| function := eFsaHpiFumiAutoRollbackDisableSet; in_types := [CNum eMtUint32; CNum eMtUint32;
       CNum eMtUint8];
     out_types := [] |}.
Definition saHpiFumiRollbackStart_params : client_params :=
  {| function := eFsaHpiFumiRollbackStart; in_types := [CNum eMtUint32; CNum eMtUint32];
     out_types := [] |}.
Definition saHpiFumiActivate_params : client_params :=
  {| function := eFsaHpiFumiActivate; in_types := [CNum eMtUint32; CNum eMtUint32];
     out_types := [] |}.
Definition saHpiFumiActivateStart_params : client_params :=
  {| function := eFsaHpiFumiActivateStart; in_types := [CNum eMtUint32; CNum eMtUint32; CNum eMtUint8];
     out_types := [] |}.
Definition saHpiFumiCleanup_params : client_params :=
  {| function := eFsaHpiFumiCleanup; in_types := [CNum eMtUint32; CNum eMtUint32; CNum eMtUint8];
     out_types := [] |}.
Definition saHpiHotSwapPolicyCancel_params : client_params :=
  {| function := eFsaHpiHotSwapPolicyCancel; in_types := [CNum eMtUint32];
     out_types := [] |}.
Definition saHpiResourceActiveSet_params : client_params :=
  {| function := eFsaHpiResourceActiveSet; in_types := [CNum eMtUint32];
     out_types := [] |}.
Definition saHpiResourceInactiveSet_params : client_params :=
  {| function := eFsaHpiResourceInactiveSet; in_types := [CNum eMtUint32];
     out_types := [] |}.
Definition saHpiAutoInsertTimeoutGet_params : client_params :=
  {| function := eFsaHpiAutoInsertTimeoutGet; in_types := [];
     out_types := [CNum eMtInt64] |}.
Definition saHpiAutoInsertTimeoutSet_params : client_params :=
  {| function := eFsaHpiAutoInsertTimeoutSet; in_types := [CNum eMtInt64];
     out_types := [] |}.
Definition saHpiAutoExtractTimeoutGet_params : client_params :=
  {| function := eFsaHpiAutoExtractTimeoutGet; in_types := [CNum eMtUint32];
     out_types := [CNum eMtInt64] |}.
Definition saHpiAutoExtractTimeoutSet_params : client_params :=
  {| function := eFsaHpiAutoExtractTimeoutSet; in_types := [CNum eMtUint32; CNum eMtInt64];
     out_types := [] |}.
Definition saHpiHotSwapStateGet_params : client_params :=
  {| function := eFsaHpiHotSwapStateGet; in_types := [CNum eMtUint32];
     out_types := [CEnum "SaHpiHsStateT"] |}.
Definition saHpiHotSwapActionRequest_params : client_params :=
  {| function := eFsaHpiHotSwapActionRequest; in_types := [CNum eMtUint32; CEnum "SaHpiHsActionT"];
     out_types := [] |}.
Definition saHpiHotSwapIndicatorStateGet_params : client_params :=
  {| function := eFsaHpiHotSwapIndicatorStateGet; in_types := [CNum eMtUint32];
     out_types := [CEnum "SaHpiHsIndicatorStateT"] |}.
Definition saHpiHotSwapIndicatorStateSet_params : client_params :=
  {| function := eFsaHpiHotSwapIndicatorStateSet; in_types := [CNum eMtUint32;
       CEnum "SaHpiHsIndicatorStateT"];
     out_types := [] |}.
Definition saHpiParmControl_params : client_params :=
  {| function := eFsaHpiParmControl; in_types := [CNum eMtUint32; CEnum "SaHpiParmActionT"];
     out_types := [] |}.
Definition saHpiResourceLoadIdGet_params : client_params :=
  {| function := eFsaHpiResourceLoadIdGet; in_types := [CNum eMtUint32];
     out_types := [SaHpiLoadIdT_decl] |}.
Definition saHpiResourceLoadIdSet_params : client_params :=
  {| function := eFsaHpiResourceLoadIdSet; in_types := [CNum eMtUint32; SaHpiLoadIdT_decl];
     out_types := [] |}.
Definition saHpiResourceResetStateGet_params : client_params :=
  {| function := eFsaHpiResourceResetStateGet; in_types := [CNum eMtUint32];
     out_types := [CEnum "SaHpiResetActionT"] |}.
Definition saHpiResourceResetStateSet_params : client_params :=
  {| function := eFsaHpiResourceResetStateSet; in_types := [CNum eMtUint32; CEnum "SaHpiResetActionT"];
     out_types := [] |}.
Definition saHpiResourcePowerStateGet_params : client_params :=
  {| function := eFsaHpiResourcePowerStateGet; in_types := [CNum eMtUint32];
     out_types := [CEnum "SaHpiPowerStateT"] |}.
Definition saHpiResourcePowerStateSet_params : client_params :=
  {| function := eFsaHpiResourcePowerStateSet; in_types := [CNum eMtUint32; CEnum "SaHpiPowerStateT"];
     out_types := [] |}.
Definition oHpiHandlerCreate_params : client_params :=
  {| function := eFoHpiHandlerCreate; in_types := [oHpiHandlerConfigT_decl];
     out_types := [CNum eMtUint32] |}.
Definition oHpiHandlerDestroy_params : client_params :=
  {| function := eFoHpiHandlerDestroy; in_types := [CNum eMtUint32];
     out_types := [] |}.
Definition oHpiHandlerInfo_params : client_params :=
  {| function := eFoHpiHandlerInfo; in_types := [CNum eMtUint32];
     out_types := [oHpiHandlerInfoT_decl; oHpiHandlerConfigT_decl] |}.
Definition oHpiHandlerGetNext_params : client_params :=
  {| function := eFoHpiHandlerGetNext; in_types := [CNum eMtUint32];
     out_types := [CNum eMtUint32] |}.
Definition oHpiHandlerFind_params : client_params :=
  {| function := eFoHpiHandlerFind; in_types := [CNum eMtUint32; CNum eMtUint32];
     out_types := [CNum eMtUint32] |}.
Definition oHpiHandlerRetry_params : client_params :=
  {| function := eFoHpiHandlerRetry; in_types := [CNum eMtUint32];
     out_types := [] |}.
Definition oHpiGlobalParamGet_params : client_params :=
  {| function := eFoHpiGlobalParamGet; in_types := [oHpiGlobalParamT_decl];
     out_types := [oHpiGlobalParamT_decl] |}.
Definition oHpiGlobalParamSet_params : client_params :=
  {| function := eFoHpiGlobalParamSet; in_types := [oHpiGlobalParamT_decl];
     out_types := [] |}.
Definition oHpiInjectEvent_params : client_params :=
  {| function := eFoHpiInjectEvent; in_types := [CNum eMtUint32; SaHpiEventT_decl; SaHpiRptEntryT_decl;
       SaHpiRdrT_decl];
     out_types := [] |}.

(** All remote calls of the client. *)
Definition client_calls : list client_params :=
  [saHpiDiscover_params; saHpiDomainInfoGet_params; saHpiDrtEntryGet_params; saHpiDomainTagSet_params;
       saHpiRptEntryGet_params; saHpiRptEntryGetByResourceId_params; saHpiResourceSeveritySet_params;
       saHpiResourceTagSet_params; saHpiGetIdByEntityPath_params; saHpiGetChildEntityPath_params;
       saHpiResourceFailedRemove_params; saHpiEventLogInfoGet_params; saHpiEventLogCapabilitiesGet_params;
       saHpiEventLogEntryGet_params; saHpiEventLogEntryAdd_params; saHpiEventLogClear_params;
       saHpiEventLogTimeGet_params; saHpiEventLogTimeSet_params; saHpiEventLogStateGet_params;
       saHpiEventLogStateSet_params; saHpiEventLogOverflowReset_params; saHpiSubscribe_params;
       saHpiUnsubscribe_params; saHpiEventGet_params; saHpiEventAdd_params; saHpiAlarmGetNext_params;
       saHpiAlarmGet_params; saHpiAlarmAcknowledge_params; saHpiAlarmAdd_params; saHpiAlarmDelete_params;
       saHpiRdrGet_params; saHpiRdrGetByInstrumentId_params; saHpiRdrUpdateCountGet_params;
       saHpiSensorReadingGet_params; saHpiSensorThresholdsGet_params; saHpiSensorThresholdsSet_params;
       saHpiSensorTypeGet_params; saHpiSensorEnableGet_params; saHpiSensorEnableSet_params;
       saHpiSensorEventEnableGet_params; saHpiSensorEventEnableSet_params; saHpiSensorEventMasksGet_params;
       saHpiSensorEventMasksSet_params; saHpiControlTypeGet_params; saHpiControlGet_params;
       saHpiControlSet_params; saHpiIdrInfoGet_params; saHpiIdrAreaHeaderGet_params; saHpiIdrAreaAdd_params;
       saHpiIdrAreaAddById_params; saHpiIdrAreaDelete_params; saHpiIdrFieldGet_params; saHpiIdrFieldAdd_params;
       saHpiIdrFieldAddById_params; saHpiIdrFieldSet_params; saHpiIdrFieldDelete_params;
       saHpiWatchdogTimerGet_params; saHpiWatchdogTimerSet_params; saHpiWatchdogTimerReset_params;
       saHpiAnnunciatorGetNext_params; saHpiAnnunciatorGet_params; saHpiAnnunciatorAcknowledge_params;
       saHpiAnnunciatorAdd_params; saHpiAnnunciatorDelete_params; saHpiAnnunciatorModeGet_params;
       saHpiAnnunciatorModeSet_params; saHpiDimiInfoGet_params; saHpiDimiTestInfoGet_params;
       saHpiDimiTestReadinessGet_params; saHpiDimiTestStart_params; saHpiDimiTestCancel_params;
       saHpiDimiTestStatusGet_params; saHpiDimiTestResultsGet_params; saHpiFumiSpecInfoGet_params;
       saHpiFumiServiceImpactGet_params; saHpiFumiSourceSet_params; saHpiFumiSourceInfoValidateStart_params;
       saHpiFumiSourceInfoGet_params; saHpiFumiSourceComponentInfoGet_params; saHpiFumiTargetInfoGet_params;
       saHpiFumiTargetComponentInfoGet_params; saHpiFumiLogicalTargetInfoGet_params;
       saHpiFumiLogicalTargetComponentInfoGet_params; saHpiFumiBackupStart_params;
       saHpiFumiBankBootOrderSet_params; saHpiFumiBankCopyStart_params; saHpiFumiInstallStart_params;
       saHpiFumiUpgradeStatusGet_params; saHpiFumiTargetVerifyStart_params;
       saHpiFumiTargetVerifyMainStart_params; saHpiFumiUpgradeCancel_params;
       saHpiFumiAutoRollbackDisableGet_params; saHpiFumiAutoRollbackDisableSet_params;
       saHpiFumiRollbackStart_params; saHpiFumiActivate_params; saHpiFumiActivateStart_params;
       saHpiFumiCleanup_params; saHpiHotSwapPolicyCancel_params; saHpiResourceActiveSet_params;
       saHpiResourceInactiveSet_params; saHpiAutoInsertTimeoutGet_params; saHpiAutoInsertTimeoutSet_params;
       saHpiAutoExtractTimeoutGet_params; saHpiAutoExtractTimeoutSet_params; saHpiHotSwapStateGet_params;
       saHpiHotSwapActionRequest_params; saHpiHotSwapIndicatorStateGet_params;
       saHpiHotSwapIndicatorStateSet_params; saHpiParmControl_params; saHpiResourceLoadIdGet_params;
       saHpiResourceLoadIdSet_params; saHpiResourceResetStateGet_params; saHpiResourceResetStateSet_params;
       saHpiResourcePowerStateGet_params; saHpiResourcePowerStateSet_params; oHpiHandlerCreate_params;
       oHpiHandlerDestroy_params; oHpiHandlerInfo_params; oHpiHandlerGetNext_params; oHpiHandlerFind_params;
       oHpiHandlerRetry_params; oHpiGlobalParamGet_params; oHpiGlobalParamSet_params; oHpiInjectEvent_params].

(** * The functions *)

Definition SAHPI_INTERFACE_VERSION : Z := 0x020302.
Definition SAHPI_ENT_UNSPECIFIED : Z := 0.

(** The code and what was stored. *)
Definition result : Type := Z * list stored.

(** A computation of the client: it may change the sessions and the peers. *)
Definition hpi (P A : Type) : Type := client -> P -> outcome (A * client * P).
#[export] Instance hpi_ret {P} : MRet (hpi P) := fun A a c p => Done (a, c, p).
#[export] Instance hpi_bind {P} : MBind (hpi P) := fun A B k m c p =>
  let* (a, c, p) := m c p in k a c p.

Definition lift {P A} (x : outcome A) : hpi P A := fun c p => let* a := x in Done (a, c, p).

(** [if (b) { return rv; }] *)
Definition refuse {P} (b : bool) (rv : Z) (k : hpi P result) : hpi P result :=
  if b then mret (rv, []) else k.

(** A pointer that is read, with the code for [NULL]. *)
Definition deref {P A} (p : option A) (rv : Z) (k : A -> hpi P result) : hpi P result :=
  match p with None => mret (rv, []) | Some v => k v end.
Definition addr {A} (p : option A) : ptr := match p with None => NULL | Some _ => Addr end.

(** The results of a reply, stored in order; the objects of the others keep what
    they hold.  Storing through [NULL] or behind the last pointer is undefined. *)
Fixpoint store_outs (outs : list (option value)) (ps : list ptr) : outcome (list stored) :=
  match outs, ps with
  | [], _ => Done ((fun _ => Kept) <$> ps)
  | Some v :: outs', Addr :: ps' => let* os := store_outs outs' ps' in Done (Stored v :: os)
  | None :: outs', Addr :: ps' => let* os := store_outs outs' ps' in Done (Indeterminate :: os)
  | _ :: _, _ => Undefined
  end.

Definition types_fit (cs : list ctype) (ts : list cMarshalType) : bool :=
  params_fit ((fun c => ("", c)) <$> cs) ts.

(** The objects that the parameters point to are as large as what the tables of the
    function access. *)
Definition fits (f : client_params) : bool :=
  match HpiMarshalFind (function_number (function f)) with
  | Some hm => types_fit (CNum eMtUint32 :: in_types f) (m_request hm)
               && types_fit (CNum eMtInt32 :: out_types f) (m_reply hm)
  | None => true
  end.

Definition alter_at (i : nat) (f : stored -> outcome stored) (os : list stored) : outcome (list stored) :=
  match os !! i with
  | Some s => let* s := f s in Done (<[i := s]> os)
  | None => Undefined
  end.

Section functions.
Context {P : Type} `{PP : Peer P}.
Context (host : ByteOrder) (domain_conf : Z -> option SaHpiEntityPathT) (garbage : list Z).
Context (net : nat -> network) (my_entity : SaHpiEntityPathT) (stack_text : value) (stack_number : Z).
#[local] Abbreviation io := (hpi P).

Definition sess_rpc (f : client_params) (sid : Z) (ins : list value) (outs : list ptr) : io result := fun c p =>
  if fits f then
    let* (rv, vs, c, p) := ohc_sess_rpc host domain_conf garbage net (function_number (function f)) sid ins c p in
    let* os := store_outs vs outs in
    Done ((rv, os), c, p)
  else Undefined.

Definition get_did (sid : Z) : io (Z * option Z) := fun c p =>
  let '(rv, did, c) := ohc_sess_get_did sid c in Done ((rv, did), c, p).

Definition get_entity_root (sid : Z) : io (Z * option SaHpiEntityPathT) := fun c p =>
  let '(rv, root, c) := ohc_sess_get_entity_root domain_conf sid c in Done ((rv, root), c, p).

(** [rv = ohc_sess_get_did(sid, object.DomainId)] *)
Definition real_did (sid : Z) (k : Z -> outcome (list stored)) (os : list stored) : io result :=
  '(rv, did) ← get_did sid;
  match did with
  | Some did => os ← lift (k did); mret (rv, os)
  | None => mret (rv, os)
  end.

(** [rv = ohc_sess_get_entity_root(sid, entity_root)], with what follows when it is
    found. *)
Definition with_root (sid : Z) (k : SaHpiEntityPathT -> outcome (list stored)) (os : list stored) : io result :=
  '(rv, root) ← get_entity_root sid;
  match root with
  | Some root => if rv =? SA_OK then os ← lift (k root); mret (rv, os) else mret (rv, os)
  | None => mret (rv, os)
  end.

Definition rpt_entity (root : SaHpiEntityPathT) : stored -> outcome stored :=
  append_root SaHpiRptEntryT_decl [Fld "ResourceEntity"] root.
Definition rdr_entity (root : SaHpiEntityPathT) : stored -> outcome stored :=
  append_root SaHpiRdrT_decl [Fld "Entity"] root.

Definition saHpiVersionGet : Z := SAHPI_INTERFACE_VERSION.

Definition saHpiFinalize : io Z := fun c p => ohc_sess_close_all host domain_conf garbage net c p.

Definition saHpiSessionOpen (DomainId : Z) (SessionId SecurityParams : ptr) : io result := fun c p =>
  if is_null SessionId || negb (is_null SecurityParams) then Done ((SA_ERR_HPI_INVALID_PARAMS, []), c, p) else
  let DomainId := if DomainId =? SAHPI_UNSPECIFIED_DOMAIN_ID then OH_DEFAULT_DOMAIN_ID else DomainId in
  let* (rv, sid, c, p) := ohc_sess_open host domain_conf garbage net DomainId c p in
  Done ((rv, [match sid with Some sid => Stored (VNum sid) | None => Kept end]), c, p).

Definition saHpiSessionClose (SessionId : Z) : io result := fun c p =>
  let* (rv, c, p) := ohc_sess_close host domain_conf garbage net SessionId c p in Done ((rv, []), c, p).

Definition saHpiDomainInfoGet (SessionId : Z) (DomainInfo : ptr) : io result :=
  refuse (is_null DomainInfo) SA_ERR_HPI_INVALID_PARAMS $
  '(rv, os) ← sess_rpc saHpiDomainInfoGet_params SessionId [] [DomainInfo];
  if rv =? SA_OK then
    real_did SessionId (fun did => alter_at 0 (set_number SaHpiDomainInfoT_decl [Fld "DomainId"] did) os) os
  else mret (rv, os).

Definition saHpiDrtEntryGet (SessionId EntryId : Z) (NextEntryId DrtEntry : ptr) : io result :=
  refuse (is_null DrtEntry || is_null NextEntryId || (EntryId =? SAHPI_LAST_ENTRY)) SA_ERR_HPI_INVALID_PARAMS $
  '(rv, os) ← sess_rpc saHpiDrtEntryGet_params SessionId [VNum EntryId] [NextEntryId; DrtEntry];
  if rv =? SA_OK then
    real_did SessionId (fun did => alter_at 1 (set_number SaHpiDrtEntryT_decl [Fld "DomainId"] did) os) os
  else mret (rv, os).

Definition saHpiDomainTagSet (SessionId : Z) (DomainTag : option value) : io result :=
  deref DomainTag SA_ERR_HPI_INVALID_PARAMS $ fun tag =>
  type ← lift (num_at SaHpiTextBufferT_decl [Fld "DataType"] tag);
  refuse (negb (oh_lookup_texttype type)) SA_ERR_HPI_INVALID_PARAMS $
  sess_rpc saHpiDomainTagSet_params SessionId [tag] [].

Definition saHpiRptEntryGet (SessionId EntryId : Z) (NextEntryId RptEntry : ptr) : io result :=
  refuse (is_null NextEntryId || is_null RptEntry) SA_ERR_HPI_INVALID_PARAMS $
  refuse (EntryId =? SAHPI_LAST_ENTRY) SA_ERR_HPI_INVALID_PARAMS $
  '(rv, os) ← sess_rpc saHpiRptEntryGet_params SessionId [VNum EntryId] [NextEntryId; RptEntry];
  if rv =? SA_OK then with_root SessionId (fun root => alter_at 1 (rpt_entity root) os) os
  else mret (rv, os).

Definition saHpiRptEntryGetByResourceId (SessionId ResourceId : Z) (RptEntry : ptr) : io result :=
  refuse ((ResourceId =? SAHPI_UNSPECIFIED_RESOURCE_ID) || is_null RptEntry) SA_ERR_HPI_INVALID_PARAMS $
  '(rv, os) ← sess_rpc saHpiRptEntryGetByResourceId_params SessionId [VNum ResourceId] [RptEntry];
  if rv =? SA_OK then with_root SessionId (fun root => alter_at 0 (rpt_entity root) os) os
  else mret (rv, os).

Definition saHpiResourceTagSet (SessionId ResourceId : Z) (ResourceTag : option value) : io result :=
  deref ResourceTag SA_ERR_HPI_INVALID_PARAMS $ fun tag =>
  sess_rpc saHpiResourceTagSet_params SessionId [VNum ResourceId; tag] [].

(** *** Entity paths *)

Definition ohc_get_my_entity : option SaHpiEntityPathT :=
  match Entry my_entity with
  | e :: _ => if (EntityType e =? SAHPI_ENT_UNSPECIFIED) && (EntityLocation e =? 0) then None else Some my_entity
  | [] => Some my_entity
  end.

Definition saHpiMyEntityPathGet (SessionId : Z) (EntityPath : ptr) : io result :=
  refuse (is_null EntityPath) SA_ERR_HPI_INVALID_PARAMS $
  match ohc_get_my_entity with
  | None => mret (SA_ERR_HPI_UNKNOWN, [])
  | Some ep => mret (SA_OK, [Stored (value_of_ep ep)])
  end.

Definition saHpiGetIdByEntityPath (SessionId : Z) (EntityPath : SaHpiEntityPathT) (InstrumentType : Z)
    (InstanceId : option Z) (ResourceId InstrumentId RptUpdateCount : ptr) : io result :=
  refuse (is_null ResourceId) SA_ERR_HPI_INVALID_PARAMS $
  deref InstanceId SA_ERR_HPI_INVALID_PARAMS $ fun instance =>
  refuse ((instance =? SAHPI_LAST_ENTRY) || is_null RptUpdateCount ||
          (is_null InstrumentId && negb (InstrumentType =? SAHPI_NO_RECORD))) SA_ERR_HPI_INVALID_PARAMS $
  '(rv, root) ← get_entity_root SessionId;
  refuse (negb (rv =? SA_OK)) rv $
  let '(rv, ep) := oh_get_child_ep (Some EntityPath) root (Some zero_ep) in
  refuse (negb (rv =? SA_OK)) rv $
  ep ← lift (from_option Done Undefined ep);
  '(rv, os) ← sess_rpc saHpiGetIdByEntityPath_params SessionId
    [value_of_ep ep; VNum InstrumentType; VNum instance] [Addr; ResourceId; Addr; RptUpdateCount];
  mret (rv, if is_null InstrumentId then <[2%nat := Kept]> os else os).

Definition saHpiResourceIdGet (SessionId : Z) (ResourceId : ptr) : io result :=
  refuse (is_null ResourceId) SA_ERR_HPI_INVALID_PARAMS $
  match ohc_get_my_entity with
  | None => mret (SA_ERR_HPI_UNKNOWN, [])
  | Some ep =>
      '(rv, os) ← saHpiGetIdByEntityPath SessionId ep SAHPI_NO_RECORD (Some SAHPI_FIRST_ENTRY) ResourceId NULL Addr;
      let id := default Kept (os !! 1%nat) in
      if rv =? SA_ERR_HPI_NOT_PRESENT then mret (SA_ERR_HPI_NOT_PRESENT, [id])
      else if negb (rv =? SA_OK) then mret (SA_ERR_HPI_UNKNOWN, [id])
      else mret (SA_OK, [id])
  end.

Definition saHpiGetChildEntityPath (SessionId : Z) (ParentEntityPath : SaHpiEntityPathT) (InstanceId : option Z)
    (ChildEntityPath RptUpdateCount : ptr) : io result :=
  deref InstanceId SA_ERR_HPI_INVALID_PARAMS $ fun instance =>
  refuse ((instance =? SAHPI_LAST_ENTRY) || is_null RptUpdateCount) SA_ERR_HPI_INVALID_PARAMS $
  refuse (is_null ChildEntityPath) SA_ERR_HPI_INVALID_PARAMS $
  '(rv, root) ← get_entity_root SessionId;
  refuse (negb (rv =? SA_OK)) rv $
  let parent := snd (oh_init_ep (Some zero_ep)) in
  let '(rv, parent) :=
    if 0 <? oh_ep_len (Some ParentEntityPath)
    then oh_get_child_ep (Some ParentEntityPath) root parent else (SA_OK, parent) in
  refuse (negb (rv =? SA_OK)) (if rv =? SA_ERR_HPI_NOT_PRESENT then SA_ERR_HPI_INVALID_DATA else rv) $
  parent ← lift (from_option Done Undefined parent);
  root ← lift (from_option Done Undefined root);
  '(rv, os) ← sess_rpc saHpiGetChildEntityPath_params SessionId
    [value_of_ep parent; VNum instance] [Addr; ChildEntityPath; RptUpdateCount];
  if rv =? SA_OK then
    os ← lift (alter_at 1 (append_root SaHpiEntityPathT_decl [] root) os);
    mret (rv, os)
  else mret (rv, os).

(** *** Events and alarms *)

Definition saHpiEventLogEntryGet (SessionId ResourceId EntryId : Z)
    (PrevEntryId NextEntryId EventLogEntry Rdr RptEntry : ptr) : io result :=
  refuse (is_null PrevEntryId || is_null EventLogEntry || is_null NextEntryId ||
          (EntryId =? SAHPI_NO_MORE_ENTRIES)) SA_ERR_HPI_INVALID_PARAMS $
  '(rv, os) ← sess_rpc saHpiEventLogEntryGet_params SessionId [VNum ResourceId; VNum EntryId]
    [PrevEntryId; NextEntryId; EventLogEntry; Addr; Addr];
  os ← lift (let* os := alter_at 3 (fun s => Done (copied Rdr s)) os in
             alter_at 4 (fun s => Done (copied RptEntry s)) os);
  if negb (rv =? SA_OK) then mret (rv, os) else
  type ← lift (number_of SaHpiEventLogEntryT_decl [Fld "Event"; Fld "EventType"] (default Kept (os !! 2%nat)));
  '(rv, os) ← (if (ResourceId =? SAHPI_UNSPECIFIED_RESOURCE_ID) && (type =? SAHPI_ET_DOMAIN) then
    '(rv, did) ← get_did SessionId;
    os ← lift (alter_at 2 (set_number SaHpiEventLogEntryT_decl
      [Fld "Event"; Fld "EventDataUnion"; Fld "DomainEvent"; Fld "DomainId"] (default stack_number did)) os);
    mret (rv, os)
    else mret (rv, os));
  if negb (rv =? SA_OK) then mret (rv, os) else
  with_root SessionId (fun root =>
    let* os := if is_null RptEntry then Done os else alter_at 4 (rpt_entity root) os in
    if is_null Rdr then Done os else alter_at 3 (rdr_entity root) os) os.

Definition saHpiEventLogEntryAdd (SessionId ResourceId : Z) (EvtEntry : option value) : io result :=
  deref EvtEntry SA_ERR_HPI_INVALID_PARAMS $ fun evt =>
  e ← lift (event_of evt);
  refuse (negb (EventType e =? SAHPI_ET_USER) || negb (Source e =? SAHPI_UNSPECIFIED_RESOURCE_ID))
    SA_ERR_HPI_INVALID_PARAMS $
  refuse (negb (oh_lookup_severity (event_Severity e))) SA_ERR_HPI_INVALID_PARAMS $
  refuse (match EventDataUnion e with
          | UserEvent text => negb (truthy (oh_valid_textbuffer (Some text)))
          | _ => true
          end) SA_ERR_HPI_INVALID_PARAMS $
  sess_rpc saHpiEventLogEntryAdd_params SessionId [VNum ResourceId; evt] [].

Definition saHpiEventGet (SessionId Timeout : Z) (Event Rdr RptEntry EventQueueStatus : ptr) : io result :=
  refuse ((Timeout <? SAHPI_TIMEOUT_BLOCK) || is_null Event) SA_ERR_HPI_INVALID_PARAMS $
  '(rv, os) ← sess_rpc saHpiEventGet_params SessionId [VNum Timeout] [Event; Addr; Addr; Addr];
  os ← lift (let* os := alter_at 1 (fun s => Done (copied Rdr s)) os in
             let* os := alter_at 2 (fun s => Done (copied RptEntry s)) os in
             alter_at 3 (fun s => Done (copied EventQueueStatus s)) os);
  if rv =? SA_OK then
    with_root SessionId (fun root =>
      let* os := if is_null RptEntry then Done os else alter_at 2 (rpt_entity root) os in
      if is_null Rdr then Done os else alter_at 1 (rdr_entity root) os) os
  else mret (rv, os).

Definition saHpiEventAdd (SessionId : Z) (Event : option value) : io result :=
  e ← lift (match Event with None => Done None | Some v => let* e := event_of v in Done (Some e) end);
  refuse (negb (oh_valid_addevent e =? SA_OK)) (oh_valid_addevent e) $
  deref Event SA_ERR_HPI_INVALID_PARAMS $ fun evt =>
  sess_rpc saHpiEventAdd_params SessionId [evt] [].

(** The domain and the entity of an alarm that the daemon returned. *)
Definition alarm_of_domain (SessionId rv : Z) (os : list stored) : io result :=
  '(rv, os) ← (if rv =? SA_OK then
    real_did SessionId (fun did => alter_at 0 (set_number SaHpiAlarmT_decl [Fld "AlarmCond"; Fld "DomainId"] did) os) os
    else mret (rv, os));
  if rv =? SA_OK then
    with_root SessionId (fun root =>
      let* type := number_of SaHpiAlarmT_decl [Fld "AlarmCond"; Fld "Type"] (default Kept (os !! 0%nat)) in
      if type =? SAHPI_STATUS_COND_TYPE_USER then Done os
      else alter_at 0 (append_root SaHpiAlarmT_decl [Fld "AlarmCond"; Fld "Entity"] root) os) os
  else mret (rv, os).

Definition saHpiAlarmGetNext (SessionId Severity Unack : Z) (Alarm : option value) : io result :=
  deref Alarm SA_ERR_HPI_INVALID_PARAMS $ fun alarm =>
  refuse (negb (oh_lookup_severity Severity)) SA_ERR_HPI_INVALID_PARAMS $
  id ← lift (num_at SaHpiAlarmT_decl [Fld "AlarmId"] alarm);
  refuse (id =? SAHPI_LAST_ENTRY) SA_ERR_HPI_NOT_PRESENT $
  '(rv, os) ← sess_rpc saHpiAlarmGetNext_params SessionId [VNum Severity; VNum Unack; alarm] [Addr];
  alarm_of_domain SessionId rv os.

Definition saHpiAlarmGet (SessionId AlarmId : Z) (Alarm : ptr) : io result :=
  refuse (is_null Alarm) SA_ERR_HPI_INVALID_PARAMS $
  '(rv, os) ← sess_rpc saHpiAlarmGet_params SessionId [VNum AlarmId] [Alarm];
  alarm_of_domain SessionId rv os.

Definition saHpiAlarmAdd (SessionId : Z) (Alarm : option value) : io result :=
  deref Alarm SA_ERR_HPI_INVALID_PARAMS $ fun alarm =>
  severity ← lift (num_at SaHpiAlarmT_decl [Fld "Severity"] alarm);
  type ← lift (num_at SaHpiAlarmT_decl [Fld "AlarmCond"; Fld "Type"] alarm);
  refuse (negb (oh_lookup_severity severity) || negb (type =? SAHPI_STATUS_COND_TYPE_USER))
    SA_ERR_HPI_INVALID_PARAMS $
  '(rv, os) ← sess_rpc saHpiAlarmAdd_params SessionId [alarm] [Addr];
  if rv =? SA_OK then
    real_did SessionId (fun did => alter_at 0 (set_number SaHpiAlarmT_decl [Fld "AlarmCond"; Fld "DomainId"] did) os) os
  else mret (rv, os).

(** *** Records, sensors and controls *)

Definition saHpiRdrGet (SessionId ResourceId EntryId : Z) (NextEntryId Rdr : ptr) : io result :=
  refuse ((EntryId =? SAHPI_LAST_ENTRY) || is_null Rdr || is_null NextEntryId) SA_ERR_HPI_INVALID_PARAMS $
  '(rv, os) ← sess_rpc saHpiRdrGet_params SessionId [VNum ResourceId; VNum EntryId] [NextEntryId; Rdr];
  if rv =? SA_OK then with_root SessionId (fun root => alter_at 1 (rdr_entity root) os) os
  else mret (rv, os).

Definition saHpiRdrGetByInstrumentId (SessionId ResourceId RdrType InstrumentId : Z) (Rdr : ptr) : io result :=
  refuse (negb (oh_lookup_rdrtype RdrType) || (RdrType =? SAHPI_NO_RECORD) || is_null Rdr)
    SA_ERR_HPI_INVALID_PARAMS $
  '(rv, os) ← sess_rpc saHpiRdrGetByInstrumentId_params SessionId
    [VNum ResourceId; VNum RdrType; VNum InstrumentId] [Rdr];
  if rv =? SA_OK then with_root SessionId (fun root => alter_at 0 (rdr_entity root) os) os
  else mret (rv, os).

Definition saHpiSensorReadingGet (SessionId ResourceId SensorNum : Z) (Reading EventState : ptr) : io result :=
  '(rv, os) ← sess_rpc saHpiSensorReadingGet_params SessionId [VNum ResourceId; VNum SensorNum] [Addr; Addr];
  os ← lift (let* os := alter_at 0 (fun s => Done (copied Reading s)) os in
             alter_at 1 (fun s => Done (copied EventState s)) os);
  mret (rv, os).

(** The code and the reading that is sent. *)
Definition clean_reading (read_in : value) : outcome (Z * value) :=
  match read_in with
  | VStruct [VNum IsSupported; VNum type; v] =>
      if IsSupported =? SAHPI_TRUE then
        match oh_lookup_sensorreadingtype type with
        | None => Done (SA_ERR_HPI_INVALID_DATA, VStruct [VNum IsSupported; VNum 0; VNum 0])
        | Some _ => Done (SA_OK, VStruct [VNum IsSupported; VNum type; v])
        end
      else Done (SA_OK, VStruct [VNum IsSupported; VNum SAHPI_SENSOR_READING_TYPE_INT64; VNum 0])
  | _ => Undefined
  end.

(** The readings are cleaned in turn until one fails. *)
Fixpoint clean_readings (thrds : list value) : outcome (Z * list value) :=
  match thrds with
  | [] => Done (SA_OK, [])
  | r :: thrds' =>
      let* (rv, r) := clean_reading r in
      if negb (rv =? SA_OK) then Done (rv, []) else
      let* (rv, rs) := clean_readings thrds' in Done (rv, r :: rs)
  end.

Definition clean_thresholds (thrds_in : value) : outcome (Z * value) :=
  match thrds_in with
  | VStruct [lc; lmaj; lmin; uc; umaj; umin; pos; neg] =>
      let* (rv, rs) := clean_readings [lc; lmaj; lmin; uc; umaj; umin; pos; neg] in
      Done (rv, VStruct rs)
  | _ => Undefined
  end.

Definition saHpiSensorThresholdsSet (SessionId ResourceId SensorNum : Z) (Thresholds : option value) : io result :=
  deref Thresholds SA_ERR_HPI_INVALID_PARAMS $ fun thresholds =>
  '(rv, tholds) ← lift (clean_thresholds thresholds);
  refuse (negb (rv =? SA_OK)) rv $
  sess_rpc saHpiSensorThresholdsSet_params SessionId [VNum ResourceId; VNum SensorNum; tholds] [].

Definition saHpiSensorEventMasksGet (SessionId ResourceId SensorNum : Z) (Assert Deassert : ptr) : io result :=
  '(rv, os) ← sess_rpc saHpiSensorEventMasksGet_params SessionId
    [VNum ResourceId; VNum SensorNum; VNum (u16 stack_number); VNum (u16 stack_number)] [Addr; Addr];
  os ← lift (let* os := alter_at 0 (fun s => Done (copied Assert s)) os in
             alter_at 1 (fun s => Done (copied Deassert s)) os);
  mret (rv, os).

(** The state asks for all lines of a text; the rest of the local is not
    initialised. *)
Definition all_lines : value :=
  VStruct [VNum SAHPI_CTRL_TYPE_TEXT; VStruct [VNum SAHPI_TLN_ALL_LINES; stack_text]].

Definition saHpiControlGet (SessionId ResourceId CtrlNum : Z) (Mode : ptr) (State : option value) : io result :=
  state ← lift (match State with
    | Some s => let* type := num_at SaHpiCtrlStateT_decl [Fld "Type"] s in
                Done (if oh_lookup_ctrltype type then s else all_lines)
    | None => Done all_lines
    end);
  '(rv, os) ← sess_rpc saHpiControlGet_params SessionId [VNum ResourceId; VNum CtrlNum; state] [Addr; Addr];
  os ← lift (let* os := alter_at 0 (fun s => Done (copied Mode s)) os in
             alter_at 1 (fun s => Done (copied (addr State) match s with Kept => Stored state | s => s end)) os);
  mret (rv, os).

Definition zero_ctrl_state : value := VStruct [VNum SAHPI_CTRL_TYPE_DIGITAL; VNum SAHPI_CTRL_STATE_OFF].

(** The last two tests of the first condition of [saHpiControlSet]. *)
Definition bad_ctrl_state (State : value) : outcome bool :=
  let* type := num_at SaHpiCtrlStateT_decl [Fld "Type"] State in
  if type =? SAHPI_CTRL_TYPE_DIGITAL then
    let* d := num_at SaHpiCtrlStateT_decl [Fld "StateUnion"; Fld "Digital"] State in
    Done (negb (oh_lookup_ctrlstatedigital d))
  else if type =? SAHPI_CTRL_TYPE_STREAM then
    let* n := num_at SaHpiCtrlStateT_decl [Fld "StateUnion"; Fld "Stream"; Fld "StreamLength"] State in
    Done (Validate.SAHPI_CTRL_MAX_STREAM_LENGTH <? n)
  else Done false.

Definition saHpiControlSet (SessionId ResourceId CtrlNum Mode : Z) (State : option value) : io result :=
  refuse (negb (oh_lookup_ctrlmode Mode)) SA_ERR_HPI_INVALID_PARAMS $
  refuse (negb (Mode =? SAHPI_CTRL_MODE_AUTO) && is_null (addr State)) SA_ERR_HPI_INVALID_PARAMS $
  bad ← lift (match State with None => Done false | Some s => bad_ctrl_state s end);
  refuse bad SA_ERR_HPI_INVALID_PARAMS $
  let forward s := sess_rpc saHpiControlSet_params SessionId [VNum ResourceId; VNum CtrlNum; VNum Mode; s] [] in
  if Mode =? SAHPI_CTRL_MODE_AUTO then forward zero_ctrl_state
  else
    deref State SA_ERR_HPI_INVALID_PARAMS $ fun s =>
    type ← lift (num_at SaHpiCtrlStateT_decl [Fld "Type"] s);
    refuse (negb (oh_lookup_ctrltype type)) SA_ERR_HPI_INVALID_DATA $
    forward s.

(** *** Inventories, watchdogs and annunciators *)

Definition saHpiIdrAreaHeaderGet (SessionId ResourceId Idrid AreaType AreaId : Z) (NextAreaId Header : ptr) : io result :=
  refuse ((AreaType <? SAHPI_IDR_AREATYPE_INTERNAL_USE)
          || ((SAHPI_IDR_AREATYPE_PRODUCT_INFO <? AreaType) &&
              negb (AreaType =? SAHPI_IDR_AREATYPE_UNSPECIFIED) && negb (AreaType =? SAHPI_IDR_AREATYPE_OEM))
          || (AreaId =? SAHPI_LAST_ENTRY) || is_null NextAreaId || is_null Header) SA_ERR_HPI_INVALID_PARAMS $
  sess_rpc saHpiIdrAreaHeaderGet_params SessionId
    [VNum ResourceId; VNum Idrid; VNum AreaType; VNum AreaId] [NextAreaId; Header].

Definition saHpiIdrAreaAdd (SessionId ResourceId Idrid AreaType : Z) (AreaId : ptr) : io result :=
  refuse (negb (oh_lookup_idrareatype AreaType) || is_null AreaId) SA_ERR_HPI_INVALID_PARAMS $
  refuse (AreaType =? SAHPI_IDR_AREATYPE_UNSPECIFIED) SA_ERR_HPI_INVALID_DATA $
  sess_rpc saHpiIdrAreaAdd_params SessionId [VNum ResourceId; VNum Idrid; VNum AreaType] [AreaId].

Definition saHpiIdrAreaAddById (SessionId ResourceId Idrid AreaType AreaId : Z) : io result :=
  refuse (negb (oh_lookup_idrareatype AreaType)) SA_ERR_HPI_INVALID_PARAMS $
  refuse (AreaType =? SAHPI_IDR_AREATYPE_UNSPECIFIED) SA_ERR_HPI_INVALID_DATA $
  sess_rpc saHpiIdrAreaAddById_params SessionId [VNum ResourceId; VNum Idrid; VNum AreaType; VNum AreaId] [].

(** The checks of a field that is added. *)
Definition valid_new_field (field : value) : outcome bool :=
  let* type := num_at SaHpiIdrFieldT_decl [Fld "Type"] field in
  if negb (oh_lookup_idrfieldtype type) then Done false
  else if type =? SAHPI_IDR_FIELDTYPE_UNSPECIFIED then Done false
  else
    let* text := read_at SaHpiIdrFieldT_decl [Fld "Field"] field in
    let* text := textbuffer_of text in
    Done (oh_valid_textbuffer (Some text) =? SAHPI_TRUE).

Definition saHpiIdrFieldAdd (SessionId ResourceId Idrid : Z) (Field : option value) : io result :=
  deref Field SA_ERR_HPI_INVALID_PARAMS $ fun field =>
  valid ← lift (valid_new_field field);
  refuse (negb valid) SA_ERR_HPI_INVALID_PARAMS $
  sess_rpc saHpiIdrFieldAdd_params SessionId [VNum ResourceId; VNum Idrid; field] [Addr].

Definition saHpiIdrFieldAddById (SessionId ResourceId Idrid : Z) (Field : option value) : io result :=
  deref Field SA_ERR_HPI_INVALID_PARAMS $ fun field =>
  valid ← lift (valid_new_field field);
  refuse (negb valid) SA_ERR_HPI_INVALID_PARAMS $
  sess_rpc saHpiIdrFieldAddById_params SessionId [VNum ResourceId; VNum Idrid; field] [Addr].

Definition saHpiIdrFieldSet (SessionId ResourceId Idrid : Z) (Field : option value) : io result :=
  deref Field SA_ERR_HPI_INVALID_PARAMS $ fun field =>
  type ← lift (num_at SaHpiIdrFieldT_decl [Fld "Type"] field);
  refuse (SAHPI_IDR_FIELDTYPE_CUSTOM <? type) SA_ERR_HPI_INVALID_PARAMS $
  sess_rpc saHpiIdrFieldSet_params SessionId [VNum ResourceId; VNum Idrid; field] [].

Definition saHpiWatchdogTimerSet (SessionId ResourceId WatchdogNum : Z) (Watchdog : option value) : io result :=
  deref Watchdog SA_ERR_HPI_INVALID_PARAMS $ fun wd =>
  use ← lift (num_at SaHpiWatchdogT_decl [Fld "TimerUse"] wd);
  action ← lift (num_at SaHpiWatchdogT_decl [Fld "TimerAction"] wd);
  interrupt ← lift (num_at SaHpiWatchdogT_decl [Fld "PretimerInterrupt"] wd);
  refuse (negb (oh_lookup_watchdogtimeruse use) || negb (oh_lookup_watchdogaction action) ||
          negb (oh_lookup_watchdogpretimerinterrupt interrupt)) SA_ERR_HPI_INVALID_PARAMS $
  pre ← lift (num_at SaHpiWatchdogT_decl [Fld "PreTimeoutInterval"] wd);
  init ← lift (num_at SaHpiWatchdogT_decl [Fld "InitialCount"] wd);
  refuse (init <? pre) SA_ERR_HPI_INVALID_DATA $
  sess_rpc saHpiWatchdogTimerSet_params SessionId [VNum ResourceId; VNum WatchdogNum; wd] [].

(** The domain and the entity of an announcement that the daemon returned. *)
Definition announcement_of_domain (SessionId rv : Z) (os : list stored) : io result :=
  '(rv, os) ← (if rv =? SA_OK then
    real_did SessionId (fun did => alter_at 0 (set_number SaHpiAnnouncementT_decl [Fld "StatusCond"; Fld "DomainId"] did) os) os
    else mret (rv, os));
  if rv =? SA_OK then
    with_root SessionId (fun root =>
      let* user := number_of SaHpiAnnouncementT_decl [Fld "AddedByUser"] (default Kept (os !! 0%nat)) in
      if user =? SAHPI_FALSE
      then alter_at 0 (append_root SaHpiAnnouncementT_decl [Fld "StatusCond"; Fld "Entity"] root) os
      else Done os) os
  else mret (rv, os).

Definition saHpiAnnunciatorGetNext (SessionId ResourceId AnnNum Severity Unack : Z) (Announcement : option value)
  : io result :=
  deref Announcement SA_ERR_HPI_INVALID_PARAMS $ fun ann =>
  refuse (negb (oh_lookup_severity Severity)) SA_ERR_HPI_INVALID_PARAMS $
  '(rv, os) ← sess_rpc saHpiAnnunciatorGetNext_params SessionId
    [VNum ResourceId; VNum AnnNum; VNum Severity; VNum Unack; ann] [Addr];
  announcement_of_domain SessionId rv os.

Definition saHpiAnnunciatorGet (SessionId ResourceId AnnNum EntryId : Z) (Announcement : ptr) : io result :=
  refuse (is_null Announcement) SA_ERR_HPI_INVALID_PARAMS $
  '(rv, os) ← sess_rpc saHpiAnnunciatorGet_params SessionId [VNum ResourceId; VNum AnnNum; VNum EntryId] [Announcement];
  announcement_of_domain SessionId rv os.

Definition saHpiAnnunciatorAcknowledge (SessionId ResourceId AnnNum EntryId Severity : Z) : io result :=
  refuse ((EntryId =? SAHPI_ENTRY_UNSPECIFIED) && negb (oh_lookup_severity Severity)) SA_ERR_HPI_INVALID_PARAMS $
  let sev := if EntryId =? SAHPI_ENTRY_UNSPECIFIED then Severity else SAHPI_DEBUG in
  sess_rpc saHpiAnnunciatorAcknowledge_params SessionId [VNum ResourceId; VNum AnnNum; VNum EntryId; VNum sev] [].

Definition saHpiAnnunciatorAdd (SessionId ResourceId AnnNum : Z) (Announcement : option value) : io result :=
  deref Announcement SA_ERR_HPI_INVALID_PARAMS $ fun ann =>
  severity ← lift (num_at SaHpiAnnouncementT_decl [Fld "Severity"] ann);
  text ← lift (let* t := read_at SaHpiAnnouncementT_decl [Fld "StatusCond"; Fld "Data"] ann in textbuffer_of t);
  type ← lift (num_at SaHpiAnnouncementT_decl [Fld "StatusCond"; Fld "Type"] ann);
  refuse ((severity =? SAHPI_ALL_SEVERITIES) || negb (oh_lookup_severity severity) ||
          negb (truthy (oh_valid_textbuffer (Some text))) || negb (oh_lookup_statuscondtype type))
    SA_ERR_HPI_INVALID_PARAMS $
  sess_rpc saHpiAnnunciatorAdd_params SessionId [VNum ResourceId; VNum AnnNum; ann] [Addr].

Definition saHpiAnnunciatorDelete (SessionId ResourceId AnnNum EntryId Severity : Z) : io result :=
  refuse ((EntryId =? SAHPI_ENTRY_UNSPECIFIED) && negb (oh_lookup_severity Severity)) SA_ERR_HPI_INVALID_PARAMS $
  let sev := if EntryId =? SAHPI_ENTRY_UNSPECIFIED then Severity else SAHPI_DEBUG in
  sess_rpc saHpiAnnunciatorDelete_params SessionId [VNum ResourceId; VNum AnnNum; VNum EntryId; VNum sev] [].

(** *** DIMIs and FUMIs *)

(** A loop over elements of an array of an object. *)
Fixpoint append_roots (c : ctype) (paths : list (list step)) (root : SaHpiEntityPathT) (s : stored) : outcome stored :=
  match paths with
  | [] => Done s
  | path :: paths' => let* s := append_root c path root s in append_roots c paths' root s
  end.

Definition saHpiDimiTestInfoGet (SessionId ResourceId DimiNum TestNum : Z) (DimiTest : ptr) : io result :=
  refuse (is_null DimiTest) SA_ERR_HPI_INVALID_PARAMS $
  '(rv, os) ← sess_rpc saHpiDimiTestInfoGet_params SessionId [VNum ResourceId; VNum DimiNum; VNum TestNum] [DimiTest];
  if rv =? SA_OK then
    with_root SessionId (fun root =>
      alter_at 0 (append_roots SaHpiDimiTestT_decl
        ((fun i => [Fld "EntitiesImpacted"; Elt i; Fld "EntityImpacted"]) <$>
           seq 0 (Z.to_nat SAHPI_DIMITEST_MAX_ENTITIESIMPACTED)) root) os) os
  else mret (rv, os).

Definition saHpiDimiTestStart (SessionId ResourceId DimiNum TestNum NumberOfParams : Z)
    (ParamsList : option (list value)) : io result :=
  refuse (is_null (addr ParamsList) && negb (NumberOfParams =? 0)) SA_ERR_HPI_INVALID_PARAMS $
  let params_list := VStruct [VNum NumberOfParams; VArray (default [] ParamsList)] in
  sess_rpc saHpiDimiTestStart_params SessionId [VNum ResourceId; VNum DimiNum; VNum TestNum; params_list] [].

Definition saHpiDimiTestStatusGet (SessionId ResourceId DimiNum TestNum : Z) (PercentCompleted RunStatus : ptr) : io result :=
  refuse (is_null RunStatus) SA_ERR_HPI_INVALID_PARAMS $
  '(rv, os) ← sess_rpc saHpiDimiTestStatusGet_params SessionId
    [VNum ResourceId; VNum DimiNum; VNum TestNum] [Addr; RunStatus];
  mret (rv, if is_null PercentCompleted then <[0%nat := Kept]> os else os).

Definition saHpiFumiServiceImpactGet (SessionId ResourceId FumiNum : Z) (ServiceImpact : ptr) : io result :=
  refuse (is_null ServiceImpact) SA_ERR_HPI_INVALID_PARAMS $
  '(rv, os) ← sess_rpc saHpiFumiServiceImpactGet_params SessionId [VNum ResourceId; VNum FumiNum] [ServiceImpact];
  if rv =? SA_OK then
    with_root SessionId (fun root =>
      let* n := number_of SaHpiFumiServiceImpactDataT_decl [Fld "NumEntities"] (default Kept (os !! 0%nat)) in
      alter_at 0 (append_roots SaHpiFumiServiceImpactDataT_decl
        ((fun i => [Fld "ImpactedEntities"; Elt i; Fld "ImpactedEntity"]) <$> seq 0 (Z.to_nat n)) root) os) os
  else mret (rv, os).

Definition saHpiFumiSourceSet (SessionId ResourceId FumiNum BankNum : Z) (SourceUri : option value) : io result :=
  deref SourceUri SA_ERR_HPI_INVALID_PARAMS $ fun uri =>
  type ← lift (num_at SaHpiTextBufferT_decl [Fld "DataType"] uri);
  refuse (negb (type =? SAHPI_TL_TYPE_TEXT)) SA_ERR_HPI_INVALID_PARAMS $
  sess_rpc saHpiFumiSourceSet_params SessionId [VNum ResourceId; VNum FumiNum; VNum BankNum; uri] [].

Definition saHpiResourceLoadIdSet (SessionId ResourceId : Z) (LoadId : option value) : io result :=
  deref LoadId SA_ERR_HPI_INVALID_PARAMS $ fun load =>
  sess_rpc saHpiResourceLoadIdSet_params SessionId [VNum ResourceId; load] [].

(** *** The extensions

    A [GHashTable] of strings is the list of its pairs in the order they are
    visited, as in the server. *)

Definition oHpiHandlerCreate (sid : Z) (config : option (list (list value * list value))) (id : ptr) : io result :=
  deref config SA_ERR_HPI_INVALID_PARAMS $ fun table =>
  refuse (is_null id) SA_ERR_HPI_INVALID_PARAMS $
  refuse (length table =? 0)%nat SA_ERR_HPI_INVALID_PARAMS $
  sess_rpc oHpiHandlerCreate_params sid [handler_cfg table] [id].

(** When nothing was stored, the loop runs over an uninitialised configuration. *)
Definition oHpiHandlerInfo (sid id : Z) (info : ptr) (conf_params : option (list (list value * list value))) : io result :=
  refuse ((id =? 0) || is_null info) SA_ERR_HPI_INVALID_PARAMS $
  deref conf_params SA_ERR_HPI_INVALID_PARAMS $ fun table =>
  refuse (negb (length table =? 0)%nat) SA_ERR_HPI_INVALID_PARAMS $
  '(rv, os) ← sess_rpc oHpiHandlerInfo_params sid [VNum id] [info; Addr];
  os ← lift (alter_at 1 (fun config =>
    match config with
    | Stored (VStruct [VNum n; VArray params]) =>
        let* t := hash_handler_cfg (take (Z.to_nat n) params) [] in Done (Stored (value_of_table t))
    | _ => Undefined
    end) os);
  mret (rv, os).

Definition oHpiHandlerFind (sid rid : Z) (id : ptr) : io result :=
  refuse (is_null id || (rid =? 0)) SA_ERR_HPI_INVALID_PARAMS $
  '(rv, os) ← sess_rpc oHpiHandlerFind_params sid [VNum sid; VNum rid] [id];
  os ← lift (alter_at 0 (fun s => Done match s with Kept => Stored (VNum 0) | s => s end) os);
  mret (rv, os).

Definition oHpiGlobalParamGet (sid : Z) (param : option value) : io result :=
  deref param SA_ERR_HPI_INVALID_PARAMS $ fun param =>
  sess_rpc oHpiGlobalParamGet_params sid [param] [Addr].

Definition oHpiGlobalParamSet (sid : Z) (param : option value) : io result :=
  deref param SA_ERR_HPI_INVALID_PARAMS $ fun param =>
  sess_rpc oHpiGlobalParamSet_params sid [param] [].

Definition oHpiInjectEvent (sid id : Z) (event rpte rdr : option value) : io result :=
  refuse (id =? 0) SA_ERR_HPI_INVALID_PARAMS $
  deref event SA_ERR_HPI_INVALID_PARAMS $ fun event =>
  deref rpte SA_ERR_HPI_INVALID_PARAMS $ fun rpte =>
  deref rdr SA_ERR_HPI_INVALID_PARAMS $ fun rdr =>
  sess_rpc oHpiInjectEvent_params sid [VNum id; event; rpte; rdr] [].

(** *** The functions that test and forward *)

Definition saHpiDiscover (SessionId : Z) : io result :=
  sess_rpc saHpiDiscover_params SessionId [] [].

Definition saHpiResourceSeveritySet (SessionId ResourceId Severity : Z) : io result :=
  refuse (ResourceId =? SAHPI_UNSPECIFIED_RESOURCE_ID) SA_ERR_HPI_INVALID_PARAMS $
  refuse (negb (oh_lookup_severity Severity)) SA_ERR_HPI_INVALID_PARAMS $
  sess_rpc saHpiResourceSeveritySet_params SessionId [VNum ResourceId; VNum Severity] [].

Definition saHpiResourceFailedRemove (SessionId ResourceId : Z) : io result :=
  sess_rpc saHpiResourceFailedRemove_params SessionId [VNum ResourceId] [].

Definition saHpiEventLogInfoGet (SessionId ResourceId : Z) (Info : ptr) : io result :=
  refuse (is_null Info) SA_ERR_HPI_INVALID_PARAMS $
  sess_rpc saHpiEventLogInfoGet_params SessionId [VNum ResourceId] [Info].

Definition saHpiEventLogCapabilitiesGet (SessionId ResourceId : Z) (EventLogCapabilities : ptr) : io result :=
  refuse (is_null EventLogCapabilities) SA_ERR_HPI_INVALID_PARAMS $
  sess_rpc saHpiEventLogCapabilitiesGet_params SessionId [VNum ResourceId] [EventLogCapabilities].

Definition saHpiEventLogClear (SessionId ResourceId : Z) : io result :=
  sess_rpc saHpiEventLogClear_params SessionId [VNum ResourceId] [].

Definition saHpiEventLogTimeGet (SessionId ResourceId : Z) (Time : ptr) : io result :=
  refuse (is_null Time) SA_ERR_HPI_INVALID_PARAMS $
  sess_rpc saHpiEventLogTimeGet_params SessionId [VNum ResourceId] [Time].

Definition saHpiEventLogTimeSet (SessionId ResourceId Time : Z) : io result :=
  sess_rpc saHpiEventLogTimeSet_params SessionId [VNum ResourceId; VNum Time] [].

Definition saHpiEventLogStateGet (SessionId ResourceId : Z) (EnableState : ptr) : io result :=
  refuse (is_null EnableState) SA_ERR_HPI_INVALID_PARAMS $
  sess_rpc saHpiEventLogStateGet_params SessionId [VNum ResourceId] [EnableState].

Definition saHpiEventLogStateSet (SessionId ResourceId EnableState : Z) : io result :=
  sess_rpc saHpiEventLogStateSet_params SessionId [VNum ResourceId; VNum EnableState] [].

Definition saHpiEventLogOverflowReset (SessionId ResourceId : Z) : io result :=
  sess_rpc saHpiEventLogOverflowReset_params SessionId [VNum ResourceId] [].

Definition saHpiSubscribe (SessionId : Z) : io result :=
  sess_rpc saHpiSubscribe_params SessionId [] [].

Definition saHpiUnsubscribe (SessionId : Z) : io result :=
  sess_rpc saHpiUnsubscribe_params SessionId [] [].

Definition saHpiAlarmAcknowledge (SessionId AlarmId Severity : Z) : io result :=
  refuse ((AlarmId =? SAHPI_ENTRY_UNSPECIFIED) && negb (oh_lookup_severity Severity)) SA_ERR_HPI_INVALID_PARAMS $
  sess_rpc saHpiAlarmAcknowledge_params SessionId [VNum AlarmId; VNum Severity] [].

Definition saHpiAlarmDelete (SessionId AlarmId Severity : Z) : io result :=
  refuse ((AlarmId =? SAHPI_ENTRY_UNSPECIFIED) && negb (oh_lookup_severity Severity)) SA_ERR_HPI_INVALID_PARAMS $
  sess_rpc saHpiAlarmDelete_params SessionId [VNum AlarmId; VNum Severity] [].

Definition saHpiRdrUpdateCountGet (SessionId ResourceId : Z) (UpdateCount : ptr) : io result :=
  refuse (is_null UpdateCount) SA_ERR_HPI_INVALID_PARAMS $
  sess_rpc saHpiRdrUpdateCountGet_params SessionId [VNum ResourceId] [UpdateCount].

Definition saHpiSensorThresholdsGet (SessionId ResourceId SensorNum : Z) (Thresholds : ptr) : io result :=
  refuse (is_null Thresholds) SA_ERR_HPI_INVALID_PARAMS $
  sess_rpc saHpiSensorThresholdsGet_params SessionId [VNum ResourceId; VNum SensorNum] [Thresholds].

Definition saHpiSensorTypeGet (SessionId ResourceId SensorNum : Z) (Type_ Category : ptr) : io result :=
  refuse (is_null Type_ || is_null Category) SA_ERR_HPI_INVALID_PARAMS $
  sess_rpc saHpiSensorTypeGet_params SessionId [VNum ResourceId; VNum SensorNum] [Type_; Category].

Definition saHpiSensorEnableGet (SessionId ResourceId SensorNum : Z) (Enabled : ptr) : io result :=
  refuse (is_null Enabled) SA_ERR_HPI_INVALID_PARAMS $
  sess_rpc saHpiSensorEnableGet_params SessionId [VNum ResourceId; VNum SensorNum] [Enabled].

Definition saHpiSensorEnableSet (SessionId ResourceId SensorNum Enabled : Z) : io result :=
  sess_rpc saHpiSensorEnableSet_params SessionId [VNum ResourceId; VNum SensorNum; VNum Enabled] [].

Definition saHpiSensorEventEnableGet (SessionId ResourceId SensorNum : Z) (Enabled : ptr) : io result :=
  refuse (is_null Enabled) SA_ERR_HPI_INVALID_PARAMS $
  sess_rpc saHpiSensorEventEnableGet_params SessionId [VNum ResourceId; VNum SensorNum] [Enabled].

Definition saHpiSensorEventEnableSet (SessionId ResourceId SensorNum Enabled : Z) : io result :=
  sess_rpc saHpiSensorEventEnableSet_params SessionId [VNum ResourceId; VNum SensorNum; VNum Enabled] [].

Definition saHpiSensorEventMasksSet (SessionId ResourceId SensorNum Action Assert Deassert : Z) : io result :=
  sess_rpc saHpiSensorEventMasksSet_params SessionId
    [VNum ResourceId; VNum SensorNum; VNum Action; VNum Assert; VNum Deassert] [].

Definition saHpiControlTypeGet (SessionId ResourceId CtrlNum : Z) (Type_ : ptr) : io result :=
  refuse (is_null Type_) SA_ERR_HPI_INVALID_PARAMS $
  sess_rpc saHpiControlTypeGet_params SessionId [VNum ResourceId; VNum CtrlNum] [Type_].

Definition saHpiIdrInfoGet (SessionId ResourceId Idrid : Z) (Info : ptr) : io result :=
  refuse (is_null Info) SA_ERR_HPI_INVALID_PARAMS $
  sess_rpc saHpiIdrInfoGet_params SessionId [VNum ResourceId; VNum Idrid] [Info].

Definition saHpiIdrAreaDelete (SessionId ResourceId Idrid AreaId : Z) : io result :=
  refuse (AreaId =? SAHPI_LAST_ENTRY) SA_ERR_HPI_INVALID_PARAMS $
  sess_rpc saHpiIdrAreaDelete_params SessionId [VNum ResourceId; VNum Idrid; VNum AreaId] [].

Definition saHpiIdrFieldGet (SessionId ResourceId Idrid AreaId FieldType FieldId : Z)
    (NextId Field : ptr) : io result :=
  refuse (is_null Field || (negb (oh_lookup_idrfieldtype FieldType) || ((AreaId =? SAHPI_LAST_ENTRY) ||
    ((FieldId =? SAHPI_LAST_ENTRY) || is_null NextId)))) SA_ERR_HPI_INVALID_PARAMS $
  sess_rpc saHpiIdrFieldGet_params SessionId
    [VNum ResourceId; VNum Idrid; VNum AreaId; VNum FieldType; VNum FieldId] [NextId; Field].

Definition saHpiIdrFieldDelete (SessionId ResourceId Idrid AreaId FieldId : Z) : io result :=
  refuse ((FieldId =? SAHPI_LAST_ENTRY) || (AreaId =? SAHPI_LAST_ENTRY)) SA_ERR_HPI_INVALID_PARAMS $
  sess_rpc saHpiIdrFieldDelete_params SessionId [VNum ResourceId; VNum Idrid; VNum AreaId; VNum FieldId] [].

Definition saHpiWatchdogTimerGet (SessionId ResourceId WatchdogNum : Z) (Watchdog : ptr) : io result :=
  refuse (is_null Watchdog) SA_ERR_HPI_INVALID_PARAMS $
  sess_rpc saHpiWatchdogTimerGet_params SessionId [VNum ResourceId; VNum WatchdogNum] [Watchdog].

Definition saHpiWatchdogTimerReset (SessionId ResourceId WatchdogNum : Z) : io result :=
  sess_rpc saHpiWatchdogTimerReset_params SessionId [VNum ResourceId; VNum WatchdogNum] [].

Definition saHpiAnnunciatorModeGet (SessionId ResourceId AnnNum : Z) (Mode : ptr) : io result :=
  refuse (is_null Mode) SA_ERR_HPI_INVALID_PARAMS $
  sess_rpc saHpiAnnunciatorModeGet_params SessionId [VNum ResourceId; VNum AnnNum] [Mode].

Definition saHpiAnnunciatorModeSet (SessionId ResourceId AnnNum Mode : Z) : io result :=
  refuse (negb (oh_lookup_annunciatormode Mode)) SA_ERR_HPI_INVALID_PARAMS $
  sess_rpc saHpiAnnunciatorModeSet_params SessionId [VNum ResourceId; VNum AnnNum; VNum Mode] [].

Definition saHpiDimiInfoGet (SessionId ResourceId DimiNum : Z) (DimiInfo : ptr) : io result :=
  refuse (is_null DimiInfo) SA_ERR_HPI_INVALID_PARAMS $
  sess_rpc saHpiDimiInfoGet_params SessionId [VNum ResourceId; VNum DimiNum] [DimiInfo].

Definition saHpiDimiTestReadinessGet (SessionId ResourceId DimiNum TestNum : Z) (DimiReady : ptr) : io result :=
  refuse (is_null DimiReady) SA_ERR_HPI_INVALID_PARAMS $
  sess_rpc saHpiDimiTestReadinessGet_params SessionId [VNum ResourceId; VNum DimiNum; VNum TestNum] [DimiReady].

Definition saHpiDimiTestCancel (SessionId ResourceId DimiNum TestNum : Z) : io result :=
  sess_rpc saHpiDimiTestCancel_params SessionId [VNum ResourceId; VNum DimiNum; VNum TestNum] [].

Definition saHpiDimiTestResultsGet (SessionId ResourceId DimiNum TestNum : Z) (TestResults : ptr) : io result :=
  refuse (is_null TestResults) SA_ERR_HPI_INVALID_PARAMS $
  sess_rpc saHpiDimiTestResultsGet_params SessionId [VNum ResourceId; VNum DimiNum; VNum TestNum] [TestResults].

Definition saHpiFumiSpecInfoGet (SessionId ResourceId FumiNum : Z) (SpecInfo : ptr) : io result :=
  refuse (is_null SpecInfo) SA_ERR_HPI_INVALID_PARAMS $
  sess_rpc saHpiFumiSpecInfoGet_params SessionId [VNum ResourceId; VNum FumiNum] [SpecInfo].

Definition saHpiFumiSourceInfoValidateStart (SessionId ResourceId FumiNum BankNum : Z) : io result :=
  sess_rpc saHpiFumiSourceInfoValidateStart_params SessionId [VNum ResourceId; VNum FumiNum; VNum BankNum] [].

Definition saHpiFumiSourceInfoGet (SessionId ResourceId FumiNum BankNum : Z) (SourceInfo : ptr) : io result :=
  refuse (is_null SourceInfo) SA_ERR_HPI_INVALID_PARAMS $
  sess_rpc saHpiFumiSourceInfoGet_params SessionId [VNum ResourceId; VNum FumiNum; VNum BankNum] [SourceInfo].

Definition saHpiFumiSourceComponentInfoGet (SessionId ResourceId FumiNum BankNum ComponentEntryId : Z)
    (NextComponentEntryId ComponentInfo : ptr) : io result :=
  refuse (is_null NextComponentEntryId || is_null ComponentInfo) SA_ERR_HPI_INVALID_PARAMS $
  refuse (ComponentEntryId =? SAHPI_LAST_ENTRY) SA_ERR_HPI_INVALID_PARAMS $
  sess_rpc saHpiFumiSourceComponentInfoGet_params SessionId
    [VNum ResourceId; VNum FumiNum; VNum BankNum; VNum ComponentEntryId] [NextComponentEntryId; ComponentInfo].

Definition saHpiFumiTargetInfoGet (SessionId ResourceId FumiNum BankNum : Z) (BankInfo : ptr) : io result :=
  refuse (is_null BankInfo) SA_ERR_HPI_INVALID_PARAMS $
  sess_rpc saHpiFumiTargetInfoGet_params SessionId [VNum ResourceId; VNum FumiNum; VNum BankNum] [BankInfo].

Definition saHpiFumiTargetComponentInfoGet (SessionId ResourceId FumiNum BankNum ComponentEntryId : Z)
    (NextComponentEntryId ComponentInfo : ptr) : io result :=
  refuse (is_null NextComponentEntryId || is_null ComponentInfo) SA_ERR_HPI_INVALID_PARAMS $
  refuse (ComponentEntryId =? SAHPI_LAST_ENTRY) SA_ERR_HPI_INVALID_PARAMS $
  sess_rpc saHpiFumiTargetComponentInfoGet_params SessionId
    [VNum ResourceId; VNum FumiNum; VNum BankNum; VNum ComponentEntryId] [NextComponentEntryId; ComponentInfo].

Definition saHpiFumiLogicalTargetInfoGet (SessionId ResourceId FumiNum : Z) (BankInfo : ptr) : io result :=
  refuse (is_null BankInfo) SA_ERR_HPI_INVALID_PARAMS $
  sess_rpc saHpiFumiLogicalTargetInfoGet_params SessionId [VNum ResourceId; VNum FumiNum] [BankInfo].

Definition saHpiFumiLogicalTargetComponentInfoGet (SessionId ResourceId FumiNum ComponentEntryId : Z)
    (NextComponentEntryId ComponentInfo : ptr) : io result :=
  refuse (is_null NextComponentEntryId || is_null ComponentInfo) SA_ERR_HPI_INVALID_PARAMS $
  refuse (ComponentEntryId =? SAHPI_LAST_ENTRY) SA_ERR_HPI_INVALID_PARAMS $
  sess_rpc saHpiFumiLogicalTargetComponentInfoGet_params SessionId
    [VNum ResourceId; VNum FumiNum; VNum ComponentEntryId] [NextComponentEntryId; ComponentInfo].

Definition saHpiFumiBackupStart (SessionId ResourceId FumiNum : Z) : io result :=
  sess_rpc saHpiFumiBackupStart_params SessionId [VNum ResourceId; VNum FumiNum] [].

Definition saHpiFumiBankBootOrderSet (SessionId ResourceId FumiNum BankNum Position : Z) : io result :=
  sess_rpc saHpiFumiBankBootOrderSet_params SessionId [VNum ResourceId; VNum FumiNum; VNum BankNum; VNum Position] [].

Definition saHpiFumiBankCopyStart (SessionId ResourceId FumiNum SourceBankNum TargetBankNum : Z) : io result :=
  sess_rpc saHpiFumiBankCopyStart_params SessionId
    [VNum ResourceId; VNum FumiNum; VNum SourceBankNum; VNum TargetBankNum] [].

Definition saHpiFumiInstallStart (SessionId ResourceId FumiNum BankNum : Z) : io result :=
  sess_rpc saHpiFumiInstallStart_params SessionId [VNum ResourceId; VNum FumiNum; VNum BankNum] [].

Definition saHpiFumiUpgradeStatusGet (SessionId ResourceId FumiNum BankNum : Z) (UpgradeStatus : ptr) : io result :=
  refuse (is_null UpgradeStatus) SA_ERR_HPI_INVALID_PARAMS $
  sess_rpc saHpiFumiUpgradeStatusGet_params SessionId [VNum ResourceId; VNum FumiNum; VNum BankNum] [UpgradeStatus].

Definition saHpiFumiTargetVerifyStart (SessionId ResourceId FumiNum BankNum : Z) : io result :=
  sess_rpc saHpiFumiTargetVerifyStart_params SessionId [VNum ResourceId; VNum FumiNum; VNum BankNum] [].

Definition saHpiFumiTargetVerifyMainStart (SessionId ResourceId FumiNum : Z) : io result :=
  sess_rpc saHpiFumiTargetVerifyMainStart_params SessionId [VNum ResourceId; VNum FumiNum] [].

Definition saHpiFumiUpgradeCancel (SessionId ResourceId FumiNum BankNum : Z) : io result :=
  sess_rpc saHpiFumiUpgradeCancel_params SessionId [VNum ResourceId; VNum FumiNum; VNum BankNum] [].

Definition saHpiFumiAutoRollbackDisableGet (SessionId ResourceId FumiNum : Z) (Disable : ptr) : io result :=
  refuse (is_null Disable) SA_ERR_HPI_INVALID_PARAMS $
  sess_rpc saHpiFumiAutoRollbackDisableGet_params SessionId [VNum ResourceId; VNum FumiNum] [Disable].

Definition saHpiFumiAutoRollbackDisableSet (SessionId ResourceId FumiNum Disable : Z) : io result :=
  sess_rpc saHpiFumiAutoRollbackDisableSet_params SessionId [VNum ResourceId; VNum FumiNum; VNum Disable] [].

Definition saHpiFumiRollbackStart (SessionId ResourceId FumiNum : Z) : io result :=
  sess_rpc saHpiFumiRollbackStart_params SessionId [VNum ResourceId; VNum FumiNum] [].

Definition saHpiFumiActivate (SessionId ResourceId FumiNum : Z) : io result :=
  sess_rpc saHpiFumiActivate_params SessionId [VNum ResourceId; VNum FumiNum] [].

Definition saHpiFumiActivateStart (SessionId ResourceId FumiNum Logical : Z) : io result :=
  sess_rpc saHpiFumiActivateStart_params SessionId [VNum ResourceId; VNum FumiNum; VNum Logical] [].

Definition saHpiFumiCleanup (SessionId ResourceId FumiNum BankNum : Z) : io result :=
  sess_rpc saHpiFumiCleanup_params SessionId [VNum ResourceId; VNum FumiNum; VNum BankNum] [].

Definition saHpiHotSwapPolicyCancel (SessionId ResourceId : Z) : io result :=
  sess_rpc saHpiHotSwapPolicyCancel_params SessionId [VNum ResourceId] [].

Definition saHpiResourceActiveSet (SessionId ResourceId : Z) : io result :=
  sess_rpc saHpiResourceActiveSet_params SessionId [VNum ResourceId] [].

Definition saHpiResourceInactiveSet (SessionId ResourceId : Z) : io result :=
  sess_rpc saHpiResourceInactiveSet_params SessionId [VNum ResourceId] [].

Definition saHpiAutoInsertTimeoutGet (SessionId : Z) (Timeout : ptr) : io result :=
  refuse (is_null Timeout) SA_ERR_HPI_INVALID_PARAMS $
  sess_rpc saHpiAutoInsertTimeoutGet_params SessionId [] [Timeout].

Definition saHpiAutoInsertTimeoutSet (SessionId Timeout : Z) : io result :=
  refuse ((negb (Timeout =? SAHPI_TIMEOUT_IMMEDIATE) && (negb (Timeout =? SAHPI_TIMEOUT_BLOCK) && (Timeout <? 0)))) SA_ERR_HPI_INVALID_PARAMS $
  sess_rpc saHpiAutoInsertTimeoutSet_params SessionId [VNum Timeout] [].

Definition saHpiAutoExtractTimeoutGet (SessionId ResourceId : Z) (Timeout : ptr) : io result :=
  refuse (is_null Timeout) SA_ERR_HPI_INVALID_PARAMS $
  sess_rpc saHpiAutoExtractTimeoutGet_params SessionId [VNum ResourceId] [Timeout].

Definition saHpiAutoExtractTimeoutSet (SessionId ResourceId Timeout : Z) : io result :=
  refuse ((negb (Timeout =? SAHPI_TIMEOUT_IMMEDIATE) && (negb (Timeout =? SAHPI_TIMEOUT_BLOCK) && (Timeout <? 0)))) SA_ERR_HPI_INVALID_PARAMS $
  sess_rpc saHpiAutoExtractTimeoutSet_params SessionId [VNum ResourceId; VNum Timeout] [].

Definition saHpiHotSwapStateGet (SessionId ResourceId : Z) (State : ptr) : io result :=
  refuse (is_null State) SA_ERR_HPI_INVALID_PARAMS $
  sess_rpc saHpiHotSwapStateGet_params SessionId [VNum ResourceId] [State].

Definition saHpiHotSwapActionRequest (SessionId ResourceId Action : Z) : io result :=
  refuse (negb (oh_lookup_hsaction Action)) SA_ERR_HPI_INVALID_PARAMS $
  sess_rpc saHpiHotSwapActionRequest_params SessionId [VNum ResourceId; VNum Action] [].

Definition saHpiHotSwapIndicatorStateGet (SessionId ResourceId : Z) (State : ptr) : io result :=
  refuse (is_null State) SA_ERR_HPI_INVALID_PARAMS $
  sess_rpc saHpiHotSwapIndicatorStateGet_params SessionId [VNum ResourceId] [State].

Definition saHpiHotSwapIndicatorStateSet (SessionId ResourceId State : Z) : io result :=
  refuse (negb (oh_lookup_hsindicatorstate State)) SA_ERR_HPI_INVALID_PARAMS $
  sess_rpc saHpiHotSwapIndicatorStateSet_params SessionId [VNum ResourceId; VNum State] [].

Definition saHpiParmControl (SessionId ResourceId Action : Z) : io result :=
  refuse (negb (oh_lookup_parmaction Action)) SA_ERR_HPI_INVALID_PARAMS $
  sess_rpc saHpiParmControl_params SessionId [VNum ResourceId; VNum Action] [].

Definition saHpiResourceLoadIdGet (SessionId ResourceId : Z) (LoadId : ptr) : io result :=
  sess_rpc saHpiResourceLoadIdGet_params SessionId [VNum ResourceId] [LoadId].

Definition saHpiResourceResetStateGet (SessionId ResourceId : Z) (Action : ptr) : io result :=
  refuse (is_null Action) SA_ERR_HPI_INVALID_PARAMS $
  sess_rpc saHpiResourceResetStateGet_params SessionId [VNum ResourceId] [Action].

Definition saHpiResourceResetStateSet (SessionId ResourceId Action : Z) : io result :=
  refuse (negb (oh_lookup_resetaction Action)) SA_ERR_HPI_INVALID_PARAMS $
  sess_rpc saHpiResourceResetStateSet_params SessionId [VNum ResourceId; VNum Action] [].

Definition saHpiResourcePowerStateGet (SessionId ResourceId : Z) (State : ptr) : io result :=
  refuse (is_null State) SA_ERR_HPI_INVALID_PARAMS $
  sess_rpc saHpiResourcePowerStateGet_params SessionId [VNum ResourceId] [State].

Definition saHpiResourcePowerStateSet (SessionId ResourceId State : Z) : io result :=
  refuse (negb (oh_lookup_powerstate State)) SA_ERR_HPI_INVALID_PARAMS $
  sess_rpc saHpiResourcePowerStateSet_params SessionId [VNum ResourceId; VNum State] [].

Definition oHpiHandlerDestroy (sid id : Z) : io result :=
  refuse (id =? 0) SA_ERR_HPI_INVALID_PARAMS $
  sess_rpc oHpiHandlerDestroy_params sid [VNum id] [].

Definition oHpiHandlerGetNext (sid id : Z) (next_id : ptr) : io result :=
  refuse (is_null next_id) SA_ERR_HPI_INVALID_PARAMS $
  sess_rpc oHpiHandlerGetNext_params sid [VNum id] [next_id].

Definition oHpiHandlerRetry (sid id : Z) : io result :=
  refuse (id =? 0) SA_ERR_HPI_INVALID_PARAMS $
  sess_rpc oHpiHandlerRetry_params sid [VNum id] [].
End functions.
