(* ===== verification/ClientApiCorrect.v ===== *)
(** The client library against the daemon: the parameters of the two sides agree,
    a call returns what the daemon's function returned, and the entity paths an
    application sees are those of the daemon below the root of the domain. *)
From S2P Require Import Prelude SaHpi DomainState EntityPath Marshal MarshalTypes MarshalHpi MarshalStructs.
From S2P Require Import Transport Server Client RpcCorrect ClientApi.
#[local] Open Scope string_scope.
#[local] Open Scope list_scope.
#[local] Open Scope Z_scope.

(** * The parameters of the two sides *)

Fixpoint same_type (a b : ctype) {struct a} : bool :=
  match a, b with
  | CNum s, CNum s' => bool_decide (s = s')
  | CEnum n, CEnum n' => String.eqb n n'
  | CArray c n, CArray c' n' => (n =? n') && same_type c c'
  | CPointer c, CPointer c' => same_type c c'
  | CStruct fs, CStruct fs' | CUnion fs, CUnion fs' =>
      (fix go (fs gs : list (string * ctype)) :=
         match fs, gs with
         | [], [] => true
         | (f, c) :: fs', (g, d) :: gs' => String.eqb f g && same_type c d && go fs' gs'
         | _, _ => false
         end) fs fs'
  | _, _ => false
  end.

Fixpoint same_types (cs ds : list ctype) : bool :=
  match cs, ds with
  | [], [] => true
  | c :: cs', d :: ds' => same_type c d && same_types cs' ds'
  | _, _ => false
  end.

(** The server reads the parameters after the session into variables of the
    same types, and answers from variables of the same types. *)
Definition inputs_agree (f : client_params) : bool :=
  match case_of (function_number (function f)) with
  | Some c => same_types (in_types f) (tl (iparams c).*2)
  | None => false
  end.
Definition outputs_agree (f : client_params) : bool :=
  match case_of (function_number (function f)) with
  | Some c => same_types (out_types f) (tl (oparams c).*2)
  | None => false
  end.

Lemma agreement :
  forallb (fun f => eqb (fits f) (negb (function_number (function f) =? function_number eFsaHpiDimiTestStatusGet))
             && eqb (inputs_agree f) (negb (function_number (function f) =? function_number eFoHpiHandlerFind))
             && outputs_agree f) client_calls = true.
Proof. vm_compute. reflexivity. Qed.

Lemma same_types_length cs ds : same_types cs ds = true -> length cs = length ds.
Proof.
  revert ds. induction cs as [|c cs IH]; intros [|d ds]; try done. cbn.
  intros [_ E]%andb_true_iff. by rewrite (IH _ E).
Qed.

Lemma client_call_agrees f : In f client_calls ->
  (function_number (function f) <> function_number eFsaHpiDimiTestStatusGet -> fits f = true) /\
  exists c, case_of (function_number (function f)) = Some c /\ length (out_types f) = length (tl (oparams c)).
Proof.
  intros Hf. pose proof (proj1 (forallb_forall _ _) agreement f Hf) as E. cbv beta in E.
  apply andb_true_iff in E as [[E1 _]%andb_true_iff E3]. split.
  - intros N. apply Z.eqb_neq in N. rewrite N in E1. by apply eqb_prop in E1.
  - unfold outputs_agree in E3. destruct (case_of _) as [c|]; [|done].
    exists c. split; [done|]. apply same_types_length in E3. rewrite E3.
    destruct (oparams c); [done|]. cbn. by rewrite length_fmap.
Qed.

(** C8: For all 124 remote calls, the parameters that the client gives to the
    call have the types of the variables in which the server receives and sends
    them, and these fit the marshalling tables of the function; except that the
    client's percentage of a DIMI test is smaller than what the table stores to
    it, and that the request of [oHpiHandlerFind] has one parameter too many. *)
Theorem client_server_parameters :
  length client_calls = 124%nat /\
  Forall (fun f =>
    fits f = negb (function_number (function f) =? function_number eFsaHpiDimiTestStatusGet) /\
    inputs_agree f = negb (function_number (function f) =? function_number eFoHpiHandlerFind) /\
    outputs_agree f = true) client_calls.
Proof.
  split; [reflexivity|]. apply Forall_forall. intros f Hf%list_elem_of_In.
  pose proof (proj1 (forallb_forall _ _) agreement f Hf) as E. cbv beta in E.
  apply andb_true_iff in E as [[E1 E2]%andb_true_iff E3].
  by apply eqb_prop in E1, E2.
Qed.

(** * A call over a working network *)

Lemma store_outs_all vs ps : Forall (eq Addr) ps -> length vs = length ps ->
  store_outs (Some <$> vs) ps = Done (Stored <$> vs).
Proof.
  intros Hp. revert vs. induction Hp as [|p ps <- _ IH]; intros [|v vs]; try done.
  intros [= E]. cbn. by rewrite IH.
Qed.

Lemma mapM_length {A B} (f : A -> option B) l k : mapM f l = Some k -> length k = length l.
Proof. intros E%mapM_Some_1. symmetry. by eapply Forall2_length. Qed.

(** Variables of a case. *)
Ltac env_lookup_in E :=
  unfold env in E; repeat first [rewrite lookup_insert_eq in E | rewrite lookup_insert_ne in E by done].

(** * Entity paths as values *)

Lemma entity_typed v : well_typed SaHpiEntityType v = true ->
  exists e, entity_of v = Some e /\ value_of_entity e = v.
Proof.
  destruct v as [| | |vs]; try done. cbn.
  destruct vs as [|[| t | |] [|[| l | |] [|? ?]]]; try done; cbn; rewrite ?andb_false_r; try done.
  intros _. by exists {| EntityType := t; EntityLocation := l |}.
Qed.

Lemma entities_typed vs : forallb (well_typed SaHpiEntityType) vs = true ->
  exists es, mapM entity_of vs = Some es /\ value_of_entity <$> es = vs.
Proof.
  induction vs as [|v vs IH]; [by exists []|]. cbn [forallb].
  intros [(e & He & Hv)%entity_typed (es & Hes & Hvs)%IH]%andb_true_iff.
  exists (e :: es). cbn [mapM]. rewrite He. cbn. rewrite Hes. cbn. by rewrite Hv, Hvs.
Qed.

Lemma ep_typed v : well_typed SaHpiEntityPathType v = true ->
  exists ep, ep_of v = Done ep /\ ep_wf ep /\ value_of_ep ep = v.
Proof.
  destruct v as [| | |[|[| |es|] [|? ?]]]; try done; [|by cbn; rewrite andb_false_r].
  cbn -[entity_of]. rewrite andb_true_r. intros [Hl He]%andb_true_iff. apply Z.eqb_eq in Hl.
  destruct (entities_typed es He) as (es' & E & Hv). rewrite E. exists {| Entry := es' |}.
  split; [done|]. unfold ep_wf, value_of_ep. cbn [Entry]. rewrite Hv. split; [|done].
  rewrite (mapM_length _ _ _ E). lia.
Qed.

Lemma ep_of_value ep : ep_of (value_of_ep ep) = Done ep.
Proof.
  unfold ep_of, value_of_ep. destruct ep as [es]. cbn [Entry].
  assert (mapM entity_of (value_of_entity <$> es) = Some es) as ->; [|done].
  induction es as [|[t l] es IH]; [done|]. cbn. by rewrite IH.
Qed.

(** The path that remains of one is that of the daemon. *)
Lemma value_of_path_typed ep : well_typed SaHpiEntityPathType (value_of_ep ep) = true ->
  well_typed SaHpiEntityPathType (value_of_ep (ep_of_path (ep_path ep))) = true.
Proof.
  cbn -[entity_of]. rewrite !andb_true_r. intros [Hl He]%andb_true_iff. apply Z.eqb_eq in Hl.
  rewrite length_fmap in Hl. apply andb_true_iff. unfold ep_path. pose proof (root_index_le (Entry ep)). split.
  - apply Z.eqb_eq. rewrite length_fmap, length_app, length_replicate, length_take.
    change (Z.of_nat SAHPI_MAX_ENTITY_PATH) with 16 in *. unfold SAHPI_MAX_ENTITY_PATH. lia.
  - rewrite fmap_app, forallb_app, fmap_replicate. apply andb_true_iff. split.
    + rewrite <- (take_drop (root_index (Entry ep)) (Entry ep)), fmap_app, forallb_app in He.
      by apply andb_true_iff in He as [? _].
    + apply forallb_forall. intros v [-> _]%list_elem_of_In%elem_of_replicate. reflexivity.
Qed.

(** * Fields *)

Lemma field_index_inj fs n n' i c c' :
  field_index fs n = Some (i, c) -> field_index fs n' = Some (i, c') -> n = n'.
Proof.
  revert i. induction fs as [|[m d] fs IH]; [done|]. intros i. cbn.
  destruct (String.eqb_spec m n), (String.eqb_spec m n'); [by subst|..];
    destruct (field_index fs n) as [[j1 c1]|], (field_index fs n') as [[j2 c2]|]; cbn; intros; simplify_eq.
  by eapply IH.
Qed.

(** Updating a field of a structure changes that field only. *)
Lemma update_field fs n f i c v w vs : field_index fs n = Some (i, c) -> vs !! i = Some v -> f v = Done w ->
  exists v', update_at (CStruct fs) [Fld n] f (VStruct vs) = Done v' /\
    read_at (CStruct fs) [Fld n] (VStruct vs) = Done v /\ read_at (CStruct fs) [Fld n] v' = Done w /\
    forall n', n' <> n -> read_at (CStruct fs) [Fld n'] v' = read_at (CStruct fs) [Fld n'] (VStruct vs).
Proof.
  intros Hi Hv Hf. exists (VStruct (<[i := w]> vs)). cbn. rewrite Hi, Hv, Hf. cbn. split_and!; [done..| |].
  - rewrite list_lookup_insert_eq; [done|]. by eapply lookup_lt_Some.
  - intros n' Hn. destruct (field_index fs n') as [[j d]|] eqn:Ej; [|done].
    rewrite list_lookup_insert_ne; [done|]. intros ->. apply Hn. symmetry. by eapply field_index_inj.
Qed.

Lemma struct_typed_field T els all es vs i n t :
  struct_typed T els all es vs = true -> es !! i = Some (n, t) ->
  match t with eMtUnion _ _ _ | eMtVarArray _ _ _ => False | _ => True end ->
  exists v, vs !! i = Some v /\ T t v = true.
Proof.
  revert vs i. induction es as [|[m e] es IH]; intros vs i; [done|].
  destruct vs as [|v vs]; [done|]. cbn [struct_typed].
  intros [E E']%andb_true_iff. destruct i as [|i].
  - cbn. intros Hm Ht. injection Hm as -> ->. exists v. split; [done|]. by destruct t.
  - cbn. intros Hi Ht. by apply (IH vs i).
Qed.

Lemma struct_field nm elems vs i n t :
  well_typed (eMtStruct nm elems) (VStruct vs) = true -> elems !! i = Some (n, t) ->
  match t with eMtUnion _ _ _ | eMtVarArray _ _ _ => False | _ => True end ->
  exists v, vs !! i = Some v /\ well_typed t v = true.
Proof. cbn [well_typed]. apply struct_typed_field. Qed.

Section remote_call.
Context {D : Type} `{HpiServiceTyped D}.
Context (host server : ByteOrder) (domain_conf : Z -> option SaHpiEntityPathT).
Context (deliveries : list recv_event) (rest_of_buffer : list Z -> list Z) (garbage : list Z).
Context (delivers : Forall no_error deliveries)
        (enough : dMaxMessageLength <= Z.of_nat (length deliveries)).
Context (net : nat -> network)
        (net_ok : forall n, (forall msg, net_send (net n) msg = Z.of_nat (length msg)) /\
           Forall no_error (net_events (net n)) /\
           dMaxMessageLength <= Z.of_nat (length (net_events (net n)))).
#[local] Instance daemon : Peer (served D) := daemon_peer server deliveries rest_of_buffer.

(** What a successful call stores is well typed. *)
Lemma results_typed id m c args d e d' vs :
  HpiMarshalFind id = Some m -> case_of id = Some c ->
  id ∉ function_number <$>
    [eFsaHpiSessionOpen; eFsaHpiSessionClose; eFsaHpiDimiTestStatusGet; eFsaHpiDimiTestStart; eFoHpiHandlerCreate; eFoHpiHandlerInfo] ->
  args_typed (m_request m) args = true ->
  call_case c (list_to_map (zip (iparams c).*1 args)) d = (SA_OK, e, d') ->
  mapM (fun x : string => e !! x) (tl (oparams c).*1) = Some vs ->
  args_typed (tl (m_reply m)) vs = true.
Proof.
  intros Hm Hc Hid Ha Hcall Hvs. pose proof (HpiMarshalFind_id _ _ Hm) as Ei. rewrite <- Ei in Hc, Hid.
  assert (Hsm : m_id m ∉ oversize) by (intros Hin; apply Hid; cbn in *; rewrite !elem_of_cons in *; tauto).
  assert (Hns : m_id m <> function_number eFsaHpiDimiTestStatusGet)
    by (intros E; apply Hid; cbn; rewrite E, !elem_of_cons; tauto).
  destruct (calls_typed id m c args _ d SA_OK e d' Hm Hc Ha (before_call_id id m c Hm Hc Hsm Hns _) Hcall)
    as (_ & e' & He' & Hty). rewrite (after_call_id id m c Hm Hc Hsm Hns) in He'. injection He' as <-.
  destruct (Hty eq_refl) as (rs & Hrs & Hrt).
  destruct (case_of_find _ _ Hm) as (c' & Hc' & _ & (os & Hos) & _). rewrite Hc in Hc'. injection Hc' as <-.
  rewrite Hos in Hvs, Hrs. cbn [tl mapM] in Hvs, Hrs.
  rewrite (call_case_rv c _ _ _ _ _ Hcall) in Hrs. cbn in Hrs. unfold env in *. rewrite Hvs in Hrs. cbn in Hrs.
  injection Hrs as <-. destruct (m_reply m); [done|]. cbn in Hrt. by apply andb_true_iff in Hrt as [_ ?].
Qed.

(** A session with its connection. *)
Context (table : client) (sid : Z) (s : cSession) (k tsid : Z) (p : served D).
Context (Hs : sessions table !! sid = Some s) (Hk : m_socket s = Some k) (Hth : threads p !! k = Some tsid).

Definition called (d : D) : served D := Build_served (threads p) (next_connection p) d.

Lemma sess_rpc_runs f m c ins outs rv e d' :
  In f client_calls ->
  function_number (function f) ∉ function_number <$>
    [eFsaHpiSessionOpen; eFsaHpiSessionClose; eFsaHpiDimiTestStatusGet; eFsaHpiDimiTestStart; eFoHpiHandlerCreate; eFoHpiHandlerInfo] ->
  HpiMarshalFind (function_number (function f)) = Some m -> case_of (function_number (function f)) = Some c ->
  Forall (eq Addr) outs -> length outs = length (out_types f) ->
  args_typed (m_request m) (VNum (m_remote_sid s) :: ins) = true ->
  call_case c (list_to_map (zip (iparams c).*1 (VNum (m_remote_sid s) :: ins))) (the_daemon p) = (rv, e, d') ->
  exists os, sess_rpc host domain_conf garbage net f sid ins outs table p =
      Done ((rv, os), table, called d') /\
    if rv =? SA_OK
    then exists vs, mapM (fun x : string => e !! x) (tl (oparams c).*1) = Some vs /\ os = Stored <$> vs /\
         args_typed (tl (m_reply m)) vs = true
    else os = (fun _ => Kept) <$> outs.
Proof.
  intros Hf Hid Hm Hc Ho Hl Ha Hcall.
  destruct (client_call_agrees f Hf) as (Hfit & c' & Hc' & Hlo). rewrite Hc in Hc'. injection Hc' as <-.
  unfold sess_rpc. rewrite Hfit by (intros E; rewrite E in Hid; apply Hid; cbn; rewrite !elem_of_cons; tauto).
  destruct (ohc_sess_rpc_correct host server domain_conf deliveries rest_of_buffer garbage net _ m c table
    sid s k tsid p ins rv e d' delivers enough net_ok Hm) as (vs & E & Hvs); try done.
  { by rewrite (HpiMarshalFind_id _ _ Hm). }
  unfold daemon. rewrite E. cbn [obind]. destruct (Z.eqb_spec rv SA_OK) as [->|].
  - assert (Hty : args_typed (tl (m_reply m)) vs = true).
    { by apply (results_typed (function_number (function f)) m c (VNum (m_remote_sid s) :: ins) (the_daemon p) e d' vs). }
    rewrite store_outs_all; [by eauto 6..|].
    rewrite (mapM_length _ _ _ Hvs), Hl, Hlo. destruct (oparams c); [done|]. cbn. by rewrite length_fmap.
  - subst vs. cbn. eauto.
Qed.
(** C7: Over a working network a remote call of the client returns the code of
    the daemon's function, called once with the session that the daemon knows and
    the client's parameters; on success it stores through the client's pointers
    what the function stored, well typed, and otherwise nothing.  The daemon's
    state is the one after that call; the client's sessions and the connection are
    as before.  Not covered are the calls that change the table,
    [saHpiSessionOpen] and [saHpiSessionClose]; those whose messages may not fit the
    buffers, [saHpiDimiTestStart], [oHpiHandlerCreate] and [oHpiHandlerInfo], or a
    variable of the server, [saHpiDimiTestStatusGet]; and [oHpiHandlerFind], whose
    parameters are never those of a request, as the client sends one too many
    ([oHpiHandlerFind_asks_for_session]). *)
Theorem client_call_correct f m c ins outs rv e d' :
  In f client_calls ->
  function_number (function f) ∉ function_number <$>
    [eFsaHpiSessionOpen; eFsaHpiSessionClose; eFsaHpiDimiTestStatusGet; eFsaHpiDimiTestStart; eFoHpiHandlerCreate; eFoHpiHandlerInfo] ->
  HpiMarshalFind (function_number (function f)) = Some m -> case_of (function_number (function f)) = Some c ->
  Forall (eq Addr) outs -> length outs = length (out_types f) ->
  args_typed (m_request m) (VNum (m_remote_sid s) :: ins) = true ->
  call_case c (list_to_map (zip (iparams c).*1 (VNum (m_remote_sid s) :: ins))) (the_daemon p) = (rv, e, d') ->
  exists os, sess_rpc host domain_conf garbage net f sid ins outs table p =
      Done ((rv, os), table, called d') /\
    if rv =? SA_OK
    then exists vs, mapM (fun x : string => e !! x) (tl (oparams c).*1) = Some vs /\ os = Stored <$> vs /\
         args_typed (tl (m_reply m)) vs = true
    else os = (fun _ => Kept) <$> outs.
Proof. apply sess_rpc_runs. Qed.

(** The session's counter is back after it was looked up and released. *)
Lemma released : sessions_unref sid (s <| m_ref_cnt ::= (fun n => n + 1) |>) false
  (table <| sessions := <[sid := s <| m_ref_cnt ::= (fun n => n + 1) |>]> (sessions table) |>) = table.
Proof.
  unfold sessions_unref. destruct table as [ss nx]. unfold set_field. cbn in *. f_equal.
  rewrite insert_insert_eq. apply insert_id. rewrite Hs. f_equal. destruct s. cbn. f_equal. lia.
Qed.

Lemma get_entity_root_runs root (q : served D) : domain_conf (m_did s) = Some root ->
  get_entity_root domain_conf sid table q = Done ((SA_OK, Some root), table, q).
Proof.
  intros Hr. unfold get_entity_root, ohc_sess_get_entity_root, sessions_get_ref, GetEntityRoot. rewrite Hs.
  change (m_did (s <| m_ref_cnt ::= _ |>)) with (m_did s). rewrite Hr. by rewrite released.
Qed.

Lemma with_root_runs root k0 os (q : served D) : domain_conf (m_did s) = Some root ->
  with_root domain_conf sid k0 os table q = let* os := k0 root in Done ((SA_OK, os), table, q).
Proof.
  intros Hr. unfold with_root, mbind, hpi_bind. rewrite (get_entity_root_runs root) by done. cbn [obind].
  rewrite Z.eqb_refl. unfold lift, mret, hpi_ret. by destruct (k0 root).
Qed.

Lemma rpt_entity_appended root next entry : ep_wf root -> well_typed SaHpiRptEntryType entry = true ->
  exists ep entry' ep', alter_at 1 (rpt_entity root) [Stored next; Stored entry] = Done [Stored next; Stored entry'] /\
    ep_wf ep /\ ep_wf ep' /\ snd (oh_concat_ep (Some ep) (Some root)) = Some ep' /\
    read_at SaHpiRptEntryT_decl [Fld "ResourceEntity"] entry = Done (value_of_ep ep) /\
    read_at SaHpiRptEntryT_decl [Fld "ResourceEntity"] entry' = Done (value_of_ep ep') /\
    ep_path ep' = take SAHPI_MAX_ENTITY_PATH (ep_path ep ++ ep_path root) /\
    forall name, name <> "ResourceEntity" ->
      read_at SaHpiRptEntryT_decl [Fld name] entry' = read_at SaHpiRptEntryT_decl [Fld name] entry.
Proof.
  intros Hr Ht. destruct entry as [| | |vs]; try done.
  destruct (struct_field _ _ _ 3 _ _ Ht eq_refl I) as (v & Hv & Hvt).
  destruct (ep_typed v Hvt) as (ep & He & Hwf & <-).
  destruct (concat_ep_view ep root Hwf Hr) as (ep' & Hc & Hwf' & Hp).
  destruct (update_field (fields SaHpiRptEntryT_decl) "ResourceEntity" (concat_root root) 3 SaHpiEntityPathT_decl
    (value_of_ep ep) (value_of_ep ep') vs eq_refl Hv) as (entry' & E & R1 & R2 & R3).
  { unfold concat_root. rewrite ep_of_value. cbn [obind]. by rewrite Hc. }
  exists ep, entry', ep'. split_and!; try done; [|by rewrite Hc].
  unfold alter_at, rpt_entity, append_root. cbn [lookup list_lookup obind].
  change SaHpiRptEntryT_decl with (CStruct (fields SaHpiRptEntryT_decl)). by rewrite E.
Qed.

(** C9: Over a working network [saHpiRptEntryGet] of the client returns the
    daemon's entry with the entity root of the domain appended to the entity path
    of the resource, cut to 16 elements; every other field and the next entry are
    the daemon's. *)
Theorem resource_shown_under_root root EntryId next entry d' :
  domain_conf (m_did s) = Some root -> ep_wf root ->
  num_typed eMtUint32 (m_remote_sid s) = true -> num_typed eMtUint32 EntryId = true -> EntryId <> SAHPI_LAST_ENTRY ->
  hpi_call "saHpiRptEntryGet" [Some (VNum (m_remote_sid s)); Some (VNum EntryId); None; None] (the_daemon p) =
    (SA_OK, [None; None; Some next; Some entry], d') ->
  exists ep entry' ep',
    saHpiRptEntryGet host domain_conf garbage net sid EntryId Addr Addr table p =
      Done ((SA_OK, [Stored next; Stored entry']), table, called d') /\
    read_at SaHpiRptEntryT_decl [Fld "ResourceEntity"] entry = Done (value_of_ep ep) /\
    read_at SaHpiRptEntryT_decl [Fld "ResourceEntity"] entry' = Done (value_of_ep ep') /\
    ep_path ep' = take SAHPI_MAX_ENTITY_PATH (ep_path ep ++ ep_path root) /\
    (forall name, name <> "ResourceEntity" ->
       read_at SaHpiRptEntryT_decl [Fld name] entry' = read_at SaHpiRptEntryT_decl [Fld name] entry).
Proof.
  intros Hr Hwf Hrs He Hne Hcall.
  assert (Ha : args_typed saHpiRptEntryGetIn [VNum (m_remote_sid s); VNum EntryId] = true)
    by (cbn -[num_typed]; by rewrite Hrs, He).
  set (e0 := list_to_map (zip ["sid"; "eid"] [VNum (m_remote_sid s); VNum EntryId]) : env).
  assert (Hc : call_case case_saHpiRptEntryGet e0 (the_daemon p) =
    (SA_OK, <["rv" := VNum SA_OK]> (<["rpte" := entry]> (<["next_eid" := next]> e0)), d')).
  { unfold call_case. change (argument_value e0 <$> arguments case_saHpiRptEntryGet) with
      [Some (VNum (m_remote_sid s)); Some (VNum EntryId); @None value; None].
    change (callee case_saHpiRptEntryGet) with "saHpiRptEntryGet". by rewrite Hcall. }
  destruct (sess_rpc_runs saHpiRptEntryGet_params _ case_saHpiRptEntryGet [VNum EntryId] [Addr; Addr] _ _ _
    ltac:(cbn; tauto) ltac:(cbn; rewrite !not_elem_of_cons; repeat (split; [done|]); apply not_elem_of_nil)
    eq_refl eq_refl ltac:(by repeat constructor) eq_refl Ha Hc) as (os & E & vs & Hvs & -> & Hty).
  cbn [case_saHpiRptEntryGet oparams fmap list_fmap fst tl mapM] in Hvs. env_lookup_in Hvs. injection Hvs as <-.
  assert (Hte : well_typed SaHpiRptEntryType entry = true).
  { cbn [args_typed tl m_reply dHpiMarshalEntry saHpiRptEntryGetOut] in Hty.
    by apply andb_true_iff in Hty as [_ [? _]%andb_true_iff]. }
  destruct (rpt_entity_appended root next entry Hwf Hte) as (ep & entry' & ep' & Ea & _ & _ & _ & R1 & R2 & Hp & Ho).
  exists ep, entry', ep'. split_and!; try done.
  unfold saHpiRptEntryGet, refuse. cbn [is_null orb].
  destruct (Z.eqb_spec EntryId SAHPI_LAST_ENTRY); [done|].
  unfold mbind, hpi_bind. rewrite E. cbn [obind]. rewrite Z.eqb_refl.
  rewrite (with_root_runs root) by done. cbn [fmap list_fmap]. by rewrite Ea.
Qed.

(** The child of a shown path is the path in the daemon. *)
Lemma child_of_shown ep root ep' : ep_wf ep -> ep_wf root ->
  snd (oh_concat_ep (Some ep) (Some root)) = Some ep' ->
  (length (ep_path ep ++ ep_path root) <= SAHPI_MAX_ENTITY_PATH)%nat ->
  oh_get_child_ep (Some ep') (Some root) (Some zero_ep) = (SA_OK, Some (ep_of_path (ep_path ep))).
Proof.
  intros Hep Hroot Hc Hl. destruct (concat_ep_view ep root Hep Hroot) as (r & E & Hwf & Hp).
  rewrite E in Hc. injection Hc as ->. rewrite take_ge in Hp by lia.
  rewrite get_child_ep_cases by done. rewrite Hp, length_app in *.
  destruct (decide _) as [|_]; [lia|]. destruct (decide _) as [El|_].
  - destruct (ep_path ep); [done|]. cbn in El. lia.
  - replace (length (ep_path ep) + length (ep_path root) - length (ep_path root))%nat with (length (ep_path ep)) by lia.
    by rewrite drop_app_length, take_app_length, decide_True.
Qed.

(** C10: The entity path that the client shows for a resource leads back to it:
    [saHpiGetIdByEntityPath] with the path that has the root of the domain appended
    asks the daemon for the path the daemon knows, and returns its answer, provided
    that the two paths together have at most 16 elements. *)
Theorem shown_path_asks_for_resource root ep ep' type instance i r n c rv d' :
  domain_conf (m_did s) = Some root -> ep_wf root -> ep_wf ep ->
  well_typed SaHpiEntityPathType (value_of_ep ep) = true ->
  snd (oh_concat_ep (Some ep) (Some root)) = Some ep' ->
  (length (ep_path ep ++ ep_path root) <= SAHPI_MAX_ENTITY_PATH)%nat ->
  num_typed eMtUint32 (m_remote_sid s) = true -> num_typed eMtUint32 type = true ->
  num_typed eMtUint32 instance = true -> instance <> SAHPI_LAST_ENTRY ->
  hpi_call "saHpiGetIdByEntityPath"
    [Some (VNum (m_remote_sid s)); Some (value_of_ep (ep_of_path (ep_path ep))); Some (VNum type);
     Some (VNum instance); None; None; None] (the_daemon p) =
    (rv, [None; None; None; Some i; Some r; Some n; Some c], d') ->
  saHpiGetIdByEntityPath host domain_conf garbage net sid ep' type (Some instance) Addr Addr Addr table p =
    Done ((rv, if rv =? SA_OK then [Stored i; Stored r; Stored n; Stored c] else [Kept; Kept; Kept; Kept]),
          table, called d').
Proof.
  intros Hr Hroot Hep Ht Hc Hl Hrs Hty Hin Hne Hcall.
  set (ins := [value_of_ep (ep_of_path (ep_path ep)); VNum type; VNum instance]).
  assert (Ha : args_typed saHpiGetIdByEntityPathIn (VNum (m_remote_sid s) :: ins) = true).
  { pose proof (value_of_path_typed ep Ht) as Hv. subst ins.
    cbn [args_typed saHpiGetIdByEntityPathIn]. rewrite Hv. cbn -[num_typed]. by rewrite Hrs, Hty, Hin. }
  set (e0 := list_to_map (zip ["sid"; "ep"; "instr_type"; "instance"] (VNum (m_remote_sid s) :: ins)) : env).
  assert (Hcc : call_case case_saHpiGetIdByEntityPath e0 (the_daemon p) =
    (rv, <["rv" := VNum rv]> (<["rpt_update_cnt" := c]> (<["instr_id" := n]> (<["rid" := r]> (<["instance" := i]> e0)))), d')).
  { unfold call_case. change (argument_value e0 <$> arguments case_saHpiGetIdByEntityPath) with
      ((Some <$> (VNum (m_remote_sid s) :: ins)) ++ [@None value; None; None]).
    change (callee case_saHpiGetIdByEntityPath) with "saHpiGetIdByEntityPath".
    subst ins. cbn [fmap list_fmap app]. by rewrite Hcall. }
  destruct (sess_rpc_runs saHpiGetIdByEntityPath_params _ case_saHpiGetIdByEntityPath ins [Addr; Addr; Addr; Addr] _ _ _
    ltac:(cbn; tauto) ltac:(cbn; rewrite !not_elem_of_cons; repeat (split; [done|]); apply not_elem_of_nil)
    eq_refl eq_refl ltac:(by repeat constructor) eq_refl Ha Hcc) as (os & E & Hos).
  unfold saHpiGetIdByEntityPath, refuse, deref. cbn [is_null orb andb].
  destruct (Z.eqb_spec instance SAHPI_LAST_ENTRY); [done|]. cbn [orb].
  unfold mbind, hpi_bind. rewrite (get_entity_root_runs root) by done. cbn [obind].
  rewrite (child_of_shown ep root ep') by done. unfold lift. cbn [obind from_option].
  change (negb (SA_OK =? SA_OK)) with false. cbn iota.
  unfold lift. cbn [from_option obind]. fold ins. rewrite E. cbn [obind]. unfold mret, hpi_ret.
  do 4 f_equal. destruct (rv =? SA_OK).
  - destruct Hos as (vs & Hvs & -> & _).
    cbn [case_saHpiGetIdByEntityPath oparams fmap list_fmap fst tl mapM] in Hvs. env_lookup_in Hvs. by injection Hvs as <-.
  - by subst os.
Qed.

(** [oHpiHandlerFind] does not ask for the handler of the resource [rid] but
    for that of the resource whose id is the number of the client's session: over a
    working network the daemon's function is called with it, whatever [rid] is, and
    its answer is returned. *)
Theorem oHpiHandlerFind_asks_for_session rid rv hid d' :
  rid <> 0 -> num_typed eMtUint32 (m_remote_sid s) = true -> num_typed eMtUint32 sid = true ->
  hpi_call "oHpiHandlerFind" [Some (VNum (m_remote_sid s)); Some (VNum sid); None] (the_daemon p) =
    (rv, [None; None; Some hid], d') ->
  oHpiHandlerFind host domain_conf garbage net sid rid Addr table p =
    Done ((rv, [Stored (if rv =? SA_OK then hid else VNum 0)]), table, called d').
Proof.
  intros Hne Hrs Hsid Hcall.
  assert (Ha : args_typed oHpiHandlerFindIn [VNum (m_remote_sid s); VNum sid] = true)
    by (cbn -[num_typed]; by rewrite Hrs, Hsid).
  set (e0 := list_to_map (zip ["sid"; "rid"] [VNum (m_remote_sid s); VNum sid]) : env).
  assert (Hcc : call_case case_oHpiHandlerFind e0 (the_daemon p) =
    (rv, <["rv" := VNum rv]> (<["hid" := hid]> e0), d')).
  { unfold call_case. change (argument_value e0 <$> arguments case_oHpiHandlerFind) with
      [Some (VNum (m_remote_sid s)); Some (VNum sid); @None value].
    change (callee case_oHpiHandlerFind) with "oHpiHandlerFind". by rewrite Hcall. }
  destruct (sess_rpc_runs oHpiHandlerFind_params _ case_oHpiHandlerFind [VNum sid] [Addr] _ _ _
    ltac:(cbn; tauto) ltac:(cbn; rewrite !not_elem_of_cons; repeat (split; [done|]); apply not_elem_of_nil)
    eq_refl eq_refl ltac:(by repeat constructor) eq_refl Ha Hcc) as (os & E & Hos).
  unfold oHpiHandlerFind, refuse. cbn [is_null orb]. apply Z.eqb_neq in Hne. rewrite Hne.
  unfold mbind, hpi_bind.
  change (sess_rpc host domain_conf garbage net oHpiHandlerFind_params sid [VNum sid; VNum rid] [Addr] table p)
    with (sess_rpc host domain_conf garbage net oHpiHandlerFind_params sid [VNum sid] [Addr] table p).
  rewrite E. cbn [obind]. destruct (rv =? SA_OK).
  - destruct Hos as (vs & Hvs & -> & _).
    cbn [case_oHpiHandlerFind oparams fmap list_fmap fst tl mapM] in Hvs. env_lookup_in Hvs. by injection Hvs as <-.
  - by subst os.
Qed.

End remote_call.

(** [oHpiHandlerInfo] reads an uninitialised configuration and frees its
    pointer whenever the remote call stores nothing, as it does for a session that
    does not exist. *)
Theorem oHpiHandlerInfo_reads_uninitialised {P : Type} `{Peer P} host domain_conf garbage net sid id c (p : P) :
  id <> 0 -> sessions c !! sid = None ->
  ohc_sess_rpc host domain_conf garbage net (function_number eFoHpiHandlerInfo) sid [VNum id] c p =
    Done (SA_ERR_HPI_INVALID_SESSION, [], c, p) /\
  oHpiHandlerInfo host domain_conf garbage net sid id Addr (Some []) c p = Undefined.
Proof.
  intros Hid Hs.
  assert (E : ohc_sess_rpc host domain_conf garbage net (function_number eFoHpiHandlerInfo) sid [VNum id] c p =
    Done (SA_ERR_HPI_INVALID_SESSION, [], c, p)) by (unfold ohc_sess_rpc, sessions_get_ref; by rewrite Hs).
  split; [done|]. unfold oHpiHandlerInfo, refuse, deref. apply Z.eqb_neq in Hid. rewrite Hid.
  cbn [orb is_null length Nat.eqb negb]. unfold mbind, hpi_bind, sess_rpc.
  change (fits oHpiHandlerInfo_params) with true. cbn iota.
  change (function oHpiHandlerInfo_params) with eFoHpiHandlerInfo. by rewrite E.
Qed.

(** * A daemon with fixed answers, for examples *)

Section fixed_answers.
(** The functions that succeed, with what they store. *)
Context (answers : list (tHpiFucntionId * list (option value))).

Definition answer_of (f : string) : option (tHpiFucntionId * list (option value)) :=
  List.find (fun a => match case_of (function_number a.1) with
                      | Some c => String.eqb (callee c) f
                      | None => false
                      end) answers.

Definition fixed_call (f : string) (args : list (option value)) (d : unit) : Z * list (option value) * unit :=
  match answer_of f with
  | Some a => (SA_OK, a.2, d)
  | None => (SA_ERR_HPI_UNSUPPORTED_API, [], d)
  end.

(** The answers of a function provide its results. *)
Definition answer_ok (m : cHpiMarshal) : bool :=
  match case_of (m_id m) with
  | Some c =>
      match answer_of (callee c) with
      | Some a =>
          negb (bool_decide (m_id m ∈ oversize)) &&
          match mapM (fun x : string => store_results (arguments c) a.2 ∅ !! x) (tl (oparams c).*1) with
          | Some vs => args_typed (m_reply m) (VNum SA_OK :: vs)
                       && forallb (fun x => negb (String.eqb x "rv")) (tl (oparams c).*1)
          | None => false
          end
      | None => true
      end
  | None => true
  end.

Lemma store_results_mono args results (e e' : env) : e ⊆ e' ->
  store_results args results e ⊆ store_results args results e'.
Proof.
  revert results e e'. induction args as [|a args IH]; intros results e e' He; [done|].
  destruct a, results as [|[v|] results]; cbn; try done; apply IH; try done. by apply insert_mono.
Qed.

Lemma fixed_calls_typed : forallb answer_ok hpi_marshal = true ->
  @HpiServiceTyped unit fixed_call.
Proof.
  intros Hok. split. intros id m c args e d rv e' d' Hf Hc Ha Hb Hcall.
  pose proof (proj1 (forallb_forall _ _) Hok m (HpiMarshalFind_in _ _ Hf)) as Hn.
  unfold answer_ok in Hn. rewrite Hc in Hn.
  unfold call_case, hpi_call, fixed_call in Hcall. destruct (answer_of (callee c)) as [a|].
  - injection Hcall as <- <- <-. split; [done|].
    apply andb_true_iff in Hn as [Hsm Hn]. apply negb_true_iff, bool_decide_eq_false in Hsm.
    destruct (mapM _ _) as [vs|] eqn:Hvs; [|done]. apply andb_true_iff in Hn as [Hty Hrv].
    eexists. split.
    { unfold after_call. destruct (Z.eqb_spec (m_id m) (function_number eFoHpiHandlerInfo)) as [E|]; [|reflexivity].
      destruct Hsm. rewrite E. cbn. set_solver. }
    intros _. exists (VNum SA_OK :: vs). split; [|done].
    destruct (case_of_find _ _ Hf) as (c' & Hc' & _ & (os & Hos) & _). rewrite Hc in Hc'. injection Hc' as <-.
    rewrite Hos in *. cbn [tl] in *. cbn [mapM]. unfold env in *. rewrite lookup_insert_eq. cbn [mbind option_bind].
    match goal with |- mbind _ ?r = _ => enough (r = Some vs) as -> by done end.
    apply mapM_Some_1 in Hvs. apply mapM_Some_2. clear Hos Hty.
    induction Hvs as [|x v os' vs' Hx _ IH]; [done|]. cbn in Hrv. apply andb_true_iff in Hrv as [Hx' Hrv].
    constructor; [|by apply IH]. rewrite lookup_insert_ne.
    + eapply lookup_weaken; [exact Hx|]. apply store_results_mono. apply map_empty_subseteq.
    + intros <-. done.
  - assert (Hst : store_results (arguments c) [] e = e) by by destruct (arguments c) as [|[] ?].
    injection Hcall as <- <- <-. rewrite Hst. split; [done|].
    destruct (after_call_refused (m_id m) e _ SA_ERR_HPI_UNSUPPORTED_API Hb) as [e' He].
    exists e'. split; [done|]. discriminate.
Qed.
End fixed_answers.

(** * Examples *)

Definition fan_path : SaHpiEntityPathT := ep_of_path [{| EntityType := 3; EntityLocation := 1 |}].
Definition shelf_root : SaHpiEntityPathT := ep_of_path [{| EntityType := 9; EntityLocation := 2 |}].
Definition no_text : value := VStruct [VNum 3; VNum 25; VNum 0; VArray (replicate 255 (VNum 0))].
Definition fan_entry : value :=
  VStruct [VNum 4; VNum 4;
    VStruct [VNum 0; VNum 0; VNum 0; VNum 0; VNum 0; VNum 0; VNum 0; VNum 0; VArray (replicate 16 (VNum 0))];
    value_of_ep fan_path; VNum 0; VNum 0; VNum 2; VNum 0; no_text].

Definition fan_daemon : list (tHpiFucntionId * list (option value)) :=
  [(eFsaHpiRptEntryGet, [None; None; Some (VNum SAHPI_LAST_ENTRY); Some fan_entry]);
   (eFsaHpiGetIdByEntityPath, [None; None; None; Some (VNum SAHPI_LAST_ENTRY); Some (VNum 4); Some (VNum 0); Some (VNum 1)]);
   (eFoHpiHandlerFind, [None; None; Some (VNum 2)])].
#[export] Instance fan_service : HpiService unit := fixed_call fan_daemon.
#[export] Instance fan_service_typed : HpiServiceTyped unit.
Proof. apply fixed_calls_typed. vm_compute. reflexivity. Qed.

Definition fan_thread : served unit := Build_served {[0 := 7]} 1 tt.
Definition fan_session : cSession := {| m_ref_cnt := 0; m_did := 0; m_remote_sid := 7; m_socket := Some 0 |}.
Definition fan_domain (did : Z) : option SaHpiEntityPathT := if did =? 0 then Some shelf_root else None.

Lemma slow_network_ok n : (forall msg, net_send (slow_network n) msg = Z.of_nat (length msg)) /\
  Forall no_error (net_events (slow_network n)) /\
  dMaxMessageLength <= Z.of_nat (length (net_events (slow_network n))).
Proof. split; [done|]. apply slow_delivers. Qed.

#[local] Instance fan_peer : Peer (served unit) := daemon_peer BigEndian slow_deliveries (fun _ => []).

Lemma resource_shown_under_root_witness :
  exists ep entry' ep',
    saHpiRptEntryGet LittleEndian fan_domain [] slow_network 5 SAHPI_FIRST_ENTRY Addr Addr one_session fan_thread =
      Done ((SA_OK, [Stored (VNum SAHPI_LAST_ENTRY); Stored entry']), one_session, called fan_thread tt) /\
    read_at SaHpiRptEntryT_decl [Fld "ResourceEntity"] fan_entry = Done (value_of_ep ep) /\
    read_at SaHpiRptEntryT_decl [Fld "ResourceEntity"] entry' = Done (value_of_ep ep') /\
    ep_path ep' = take SAHPI_MAX_ENTITY_PATH (ep_path ep ++ ep_path shelf_root) /\
    (forall name, name <> "ResourceEntity" ->
       read_at SaHpiRptEntryT_decl [Fld name] entry' = read_at SaHpiRptEntryT_decl [Fld name] fan_entry).
Proof.
  pose proof slow_delivers as [H1 H2].
  apply (resource_shown_under_root LittleEndian BigEndian fan_domain slow_deliveries (fun _ => []) [] H1 H2
    slow_network slow_network_ok one_session 5 fan_session 0 7 fan_thread); by try reflexivity.
Defined.

Lemma shown_path_asks_for_resource_witness :
  saHpiGetIdByEntityPath LittleEndian fan_domain [] slow_network 5
    (ep_of_path [{| EntityType := 3; EntityLocation := 1 |}; {| EntityType := 9; EntityLocation := 2 |}]) 0
    (Some SAHPI_FIRST_ENTRY) Addr Addr Addr one_session fan_thread =
    Done ((SA_OK, [Stored (VNum SAHPI_LAST_ENTRY); Stored (VNum 4); Stored (VNum 0); Stored (VNum 1)]),
          one_session, called fan_thread tt).
Proof.
  pose proof slow_delivers as [H1 H2].
  refine (shown_path_asks_for_resource LittleEndian BigEndian fan_domain slow_deliveries (fun _ => []) [] H1 H2
    slow_network slow_network_ok one_session 5 fan_session 0 7 fan_thread eq_refl eq_refl eq_refl
    shelf_root fan_path _ 0 SAHPI_FIRST_ENTRY (VNum SAHPI_LAST_ENTRY) (VNum 4) (VNum 0) (VNum 1) SA_OK tt
    _ _ _ _ _ _ _ _ _ _ _); try reflexivity; try done. cbn. unfold SAHPI_MAX_ENTITY_PATH. lia.
Defined.

Lemma oHpiHandlerFind_asks_for_session_witness :
  oHpiHandlerFind LittleEndian fan_domain [] slow_network 5 4 Addr one_session fan_thread =
    Done ((SA_OK, [Stored (VNum 2)]), one_session, called fan_thread tt).
Proof.
  pose proof slow_delivers as [H1 H2].
  apply (oHpiHandlerFind_asks_for_session LittleEndian BigEndian fan_domain slow_deliveries (fun _ => []) [] H1 H2
    slow_network slow_network_ok one_session 5 fan_session 0 7 fan_thread eq_refl eq_refl eq_refl 4 SA_OK (VNum 2) tt);
    by try reflexivity.
Defined.

Lemma client_call_correct_witness :
  exists os, sess_rpc LittleEndian fan_domain [] slow_network saHpiRptEntryGet_params 5 [VNum 0] [Addr; Addr]
      one_session fan_thread = Done ((SA_OK, os), one_session, called fan_thread tt) /\
    exists vs, Some [VNum SAHPI_LAST_ENTRY; fan_entry] = Some vs /\ os = Stored <$> vs /\
      args_typed (tl saHpiRptEntryGetOut) vs = true.
Proof.
  pose proof slow_delivers as [H1 H2].
  destruct (client_call_correct LittleEndian BigEndian fan_domain slow_deliveries (fun _ => []) [] H1 H2
    slow_network slow_network_ok one_session 5 fan_session 0 7 fan_thread eq_refl eq_refl eq_refl
    saHpiRptEntryGet_params
    (dHpiMarshalEntry eFsaHpiRptEntryGet "saHpiRptEntryGet" saHpiRptEntryGetIn saHpiRptEntryGetOut)
    case_saHpiRptEntryGet [VNum 0] [Addr; Addr] SA_OK
    (snd (fst (call_case case_saHpiRptEntryGet {["sid" := VNum 7; "eid" := VNum 0]} tt))) tt)
    as (os & E & vs & Hvs & Hos & Hty);
    [cbn; tauto
    |cbn; rewrite !not_elem_of_cons; repeat (split; [done|]); apply not_elem_of_nil
    |reflexivity|reflexivity|by repeat constructor|reflexivity|reflexivity|vm_compute; reflexivity|].
  exists os. split; [exact E|]. exists vs. split; [|split; [exact Hos|exact Hty]]. rewrite <- Hvs. vm_compute. reflexivity.
Defined.

Lemma oHpiHandlerInfo_reads_uninitialised_witness :
  ohc_sess_rpc LittleEndian fan_domain [] slow_network (function_number eFoHpiHandlerInfo) 6 [VNum 1] one_session
    fan_thread = Done (SA_ERR_HPI_INVALID_SESSION, [], one_session, fan_thread) /\
  oHpiHandlerInfo LittleEndian fan_domain [] slow_network 6 1 Addr (Some []) one_session fan_thread = Undefined.
Proof. by apply (oHpiHandlerInfo_reads_uninitialised LittleEndian fan_domain [] slow_network 6 1 one_session fan_thread). Defined.
